(* ===== verification/_CoqProject ===== *)
-Q . S2P
Prelude.v
Dlist.v
Buddy.v
CString.v
Format.v
Clock.v
Charset.v
Digest.v
Sched.v
Slab.v
Spool.v
Mutex.v
Atomic.v
Ldep.v
Dat.v
Edf.v
Disasm.v
Layout.v
Guest.v
Io.v
Device.v
VirtIo.v
VirtIoSpec.v
ChannelSpec.v
MachineSpec.v
Printf.v
Shell.v
Display.v
Commands.v
Ipl.v
Create.v
Archive.v
Installer.v
InstallerSpec.v
Loader.v
LoaderSpec.v
Diag.v
Deck.v
Lexer.v
Config.v
Direct.v
Boot.v
Screen.v
Dialog.v
