(* ===== verification/Prelude.v ===== *)
(** * HVF, verified: the development's guide

    HVF is a hypervisor for z/Architecture machines in C: a nucleus that runs
    virtual machines under SIE, simulates their consoles, card devices and
    privileged instructions, and keeps its files on CMS minidisks.  Around it are
    the tools that bring it there: a build step that makes an archive, an installer
    that unpacks the archive onto a disk, and a loader that reads the nucleus from
    that disk.  This library models that code file by file and proves what makes
    each part, and the chain from the build machine to the running guest, correct.

    ** How the model reads

    A C function is a Rocq function from the state it works on to an [outcome]
    (below): a value with the new state, [Stopped] at a [BUG], an [assert] or a
    [die], and [Undef] where the C text defines nothing (an index outside an array,
    an object linked twice) or where the code would wait or loop for ever.  Error
    codes are values ([Z + A], or the code as an integer).  Integers are [Z] with
    the width written out ([u8] ... [u64], [s32], [s64]); structures shared with the
    machine are their bytes, members being bit fields ([Layout]); objects reached by
    pointers live in a store and are named by address where aliasing matters (lists,
    I/O operations, open files, the installer's block map) and are plain records
    where it does not.  Interleaving is explicit: tasks, timer interrupts, I/O
    interruptions and supervisor calls are events or steps of a state machine.

    ** The parts, and the files under src/ they model

    Libraries: [Dlist] include/list.h; [CString] lib/string.c; [Format]
    lib/vsprintf.c; [Clock] lib/clock.c; [Charset] lib/ebcdic.c, lib/ascii.c;
    [Digest] lib/digest.c; [Layout] include/channel.h, include/arch.h.

    Storage and tasks: [Buddy] cp/mm/buddy.c; [Slab] cp/mm/slab.c; [Dat]
    cp/mm/dat.c; [Sched] cp/nucleus/sched.c, ext.c, svc.c; [Mutex]
    cp/nucleus/mutex.c; [Atomic] include/atomic.h, spinlock.h, nucleus/spinlock.c;
    [Ldep] cp/nucleus/ldep.c.

    Files: [Spool] cp/fs/spool.c; [Edf] cp/fs/edf.c, bcache.c.

    Real devices: [Io] cp/nucleus/io.c and the table of drivers/device.c; [Device]
    the scan, drivers/dasd.c, 3215.c, fs/bdev.c.

    Virtual machines: [Guest] the state, the resets, interruptions and the run loop
    (cp/guest/reset.c, exception.c, system.c, run.c); [VirtIo] interceptions, the
    I/O instructions and the channel programs of virtual devices (guest/intercept.c,
    instruction*.c, drivers/spooldev*.c, vdevice.c), with [VirtIoSpec] (the state of
    subchannels), [ChannelSpec] (what channel programs do) and [MachineSpec] (types);
    [Create] guest/init.c, attach.c and the user directory of nucleus/direct.c;
    [Ipl] guest/ipl.c.

    The start of the system: [Lexer] include/lexer.h and what config.l and direct.l
    share; [Config] nucleus/config.l, config.y; [Direct] nucleus/direct.l, direct.y,
    direct.c; [Boot] nucleus/init.c, config.c, mm/page.c, which puts the parts together.

    The operator: [Printf] nucleus/printf.c, sclp.c; [Shell], [Display], [Commands]
    cp/shell (numbers and STORE, DISPLAY, the others and the dispatch); [Disasm]
    shell/disassm.c; [Diag] nucleus/symtab.c, pgm.c, mch.c, util.c.

    From the build to the nucleus: [Archive] build/mkarchive.c, padcat.c,
    installer/cpio.c; [Deck] build/ccw_gen.c; [Dialog] the operator's part of
    installer/loader_c.c; [Installer] and [InstallerSpec] installer/edf.c and the block
    I/O of installer/loader_c.c; [Loader] and [LoaderSpec] loader/loader_c.c.

    Guests: [Screen] nss/debuggers/src/debug.c.

    ** How they meet

    What one part promises another is an interface where it has more than one
    client or implementation: [PageSource] (Dat) is what tables, slabs and guests
    ask of the page allocator, and [Buddy] discharges it; [Sink] (Format) is where
    characters go, the bounded buffer in the code and a list in the specification;
    [Disk] (Archive) is where the members of an archive go, and the file system of
    [Installer] implements it; [ShaInstr] (Digest) is what the machine's digest
    instructions document.  Elsewhere parts are composed as the code calls them:
    [Create] threads one [kernel] through pages, tables, objects, spool files and
    tasks; [Ipl] reads with [Edf] and stores through [Dat]; [Loader] reads the volume
    [InstallerSpec.file_on] describes, and [Diag] searches the table [LoaderSpec]
    shows it packs; [Config] and [Direct] are the scanner of [Lexer] with a grammar each,
    over the files of [Edf]; [Boot] runs [Config], [Direct], [Create] and [Ipl] one
    after the other on one state.  [Mutex] takes the operations of [Atomic] as single
    steps, which [Atomic.atomics_linearize] allows.

    ** What the theorems show

    Conservation and ownership: pages are neither lost nor duplicated
    ([Buddy.pages_conserved]); a task is in exactly one place
    ([Sched.tasks_accounted]); mutual exclusion ([Mutex.mutex_exclusion],
    [Atomic.spin_exclusion]), no circular wait ([Atomic.double_lock_no_deadlock]), and
    atomic operations under every interleaving ([Atomic.atomics_linearize],
    [atomics_end]); locks held ([Ldep.ldep_nested_exact]); storage of a guest ([Create.guest_storage_mapped],
    [guest_create_fails]).  Contracts refined: lists ([Dlist.list_programs_refine]),
    spool files as queues ([Spool.spool_is_fifo]), slabs, digests.  Files: what the
    directory says is found and read ([Edf]), what is archived is unpacked
    ([Archive.archive_unpacked]), written ([InstallerSpec.archive_installed]) and
    loaded ([LoaderSpec.nucleus_loaded]); the boot deck loads the installer
    ([Deck.deck_boots]), which asks for its disk ([Dialog.first_disk_chosen]).  The start:
    what the allocator gives out is clear of its own structures ([Boot.boot_memory]), the
    configuration and the directory say what they mean to
    ([Config.config_loaded], [Direct.directory_loaded]), and the guest *LOGIN runs in the
    end ([Boot.login_started], with the configuration and directory of the source as the
    witness).  Virtual I/O: subchannels are always in a
    defined state, channel programs end and write what they should
    ([VirtIoSpec.subchannels_settled], [ChannelSpec]); real I/O is completed in order
    and once ([Io.io_in_order]).  The operator: which command runs, who may run it,
    what is read and printed ([Commands], [Shell], [Display], [Printf], [Disasm],
    [Screen]).
    Time ([Clock.parse_tod_correct]).  Specifications are written apart from the code:
    numerals are [place_value] of their digits, tables are walked as the machine walks
    them, texts are lines in EBCDIC.  Where a theorem needs what the code does not see
    to (objects of [malloc] that are zero, operands below 4 GB, a word behind a table),
    the condition is a hypothesis its comment names with the source line, and an
    example beside it shows what happens otherwise where that can be evaluated.  Each
    theorem that is a property of the program
    has a claim number C1, C2, ... in its comment, and a [_witness] that applies it to
    concrete data where it has hypotheses.

    ** Fuel, and why it is enough

    Loops that are not structural take fuel; running out is [Undef], and a theorem
    shows it does not happen.  Character loops: one turn more than the memory has
    bytes.  [Clock]: 200 years (64 bits of clock are 143) and 20 months.  Spool
    programs: 2^24 + 2 CCWs, since the address of the next CCW has 24 or 31 bits and
    the proof of [ChannelSpec.channel_program_ends] bounds the chain by what the
    guest stored.  Block levels of files: 257, the pointer level being one byte.
    Command tables: depth 2.  The unpacking loop: files + 1.  Copies of an NSS: a turn
    per 4 KB block and two.  Counts of an ELF header: 65536, the fields having 16
    bits.  [Loader.sense_memsize]: 2^44 turns of 1 MB are all 64-bit addresses.
    A search of the symbol table: its entries; a stack trace: the 4096 addresses of
    a page, when the back chain grows.  The parsers: a turn per line of the file, each
    line being one statement at most; the scanner: the bytes of its buffer.

    ** Parameters

    What is not C under src/: LRAG and address translation by the machine, SIE (the
    interception it returns), the condition codes and interruptions of real channel
    programs, the bytes a device reads, TEST PROTECTION, KIMD and KLMD, whether
    [malloc] succeeds where slabs are not composed in.  They are arguments of the
    definitions; [ShaInstr] and the [probe]s of [Device] state the documented
    behaviour that is used.

    ** Left out, and not modelled

    The mutexes and spin locks that bracket an operation are not repeated in it
    (Mutex.v is about them).  FIXME messages and progress messages on the host's
    console are left out; operator messages are events (format and arguments) that
    [Printf] turns into text.  Assembler (interruption entry, mode switch, boot
    records) and single privileged instructions are hardware to the model.
    drivers/console.c is not built: it uses members its structures no longer have.
    build/byacc and build/re2c are third-party generators run on the build machine; what
    they make of the scanners and grammars is modelled by what they document.  nss/8ball
    and nss/ipldev are assembler guests; nss/login and the 3215 test guest set
    interruption PSWs and wait. *)

From Stdlib Require Export ZArith Lia.
From stdpp Require Export base numbers option gmap strings list.

#[export] Set Default Goal Selector "!".

(** * Outcomes of C code

    A call returns a value, stops the machine at a [BUG()]/[BUG_ON]/[die()],
    or performs an access the C text does not define (an index outside an
    array, a pointer to nothing). *)
Inductive outcome (A : Type) : Type :=
  | Ret (a : A)
  | Stopped
  | Undef.
Arguments Ret {A} a.
Arguments Stopped {A}.
Arguments Undef {A}.

#[global] Instance outcome_ret : MRet outcome := @Ret.
#[global] Instance outcome_bind : MBind outcome := fun A B f m =>
  match m with Ret a => f a | Stopped => Stopped | Undef => Undef end.
#[global] Instance outcome_fmap : FMap outcome := fun A B f m =>
  match m with Ret a => Ret (f a) | Stopped => Stopped | Undef => Undef end.

#[global] Instance outcome_eq_dec {A} `{EqDecision A} : EqDecision (outcome A).
Proof. solve_decision. Defined.

(** [BUG_ON(c)] *)
Definition bug_on (c : bool) : outcome unit := if c then Stopped else Ret tt.

(** a read that must be in range *)
Definition defined {A} (o : option A) : outcome A :=
  match o with Some a => Ret a | None => Undef end.

Lemma bind_Ret {A B} (m : outcome A) (f : A -> outcome B) b :
  m ≫= f = Ret b <-> exists a, m = Ret a /\ f a = Ret b.
Proof.
  destruct m as [a| |]; simpl; split.
  - intros H. by exists a.
  - by intros (a' & [= <-] & H).
  - done.
  - by intros (a' & ? & _).
  - done.
  - by intros (a' & ? & _).
Qed.

Lemma defined_Ret {A} (o : option A) a : defined o = Ret a <-> o = Some a.
Proof. destruct o; simpl; naive_solver. Qed.

Lemma bug_on_Ret c u : bug_on c = Ret u <-> c = false.
Proof. destruct c, u; simpl; naive_solver. Qed.

(** take a successful computation apart, one bind at a time *)
Ltac inv_ret :=
  repeat match goal with
  | H : Ret _ = Ret _ |- _ => injection H as H
  | H : (_ ≫= _) = Ret _ |- _ => apply bind_Ret in H as (? & ? & ?)
  | H : defined _ = Ret _ |- _ => apply defined_Ret in H
  | H : bug_on _ = Ret _ |- _ => apply bug_on_Ret in H
  | H : Stopped = Ret _ |- _ => discriminate H
  | H : Undef = Ret _ |- _ => discriminate H
  | H : mret _ = Ret _ |- _ => change (Ret _ = Ret _) in H
  end; subst.

(** * Machine integers *)

Local Open Scope Z_scope.

(** the value of [x] stored in a [w]-bit unsigned object *)
Definition wrap (w x : Z) : Z := x mod 2 ^ w.
Abbreviation u8 := (wrap 8).
Abbreviation u16 := (wrap 16).
Abbreviation u32 := (wrap 32).
Abbreviation u64 := (wrap 64).

(** the value of [x] stored in a [w]-bit two's complement object *)
Definition swrap (w x : Z) : Z := (x + 2 ^ (w - 1)) mod 2 ^ w - 2 ^ (w - 1).
Abbreviation s8 := (swrap 8).
Abbreviation s16 := (swrap 16).
Abbreviation s32 := (swrap 32).
Abbreviation s64 := (swrap 64).

Lemma wrap_range w x : 0 <= w -> 0 <= wrap w x < 2 ^ w.
Proof. intros. apply Z.mod_pos_bound, Z.pow_pos_nonneg; lia. Qed.

Lemma wrap_small w x : 0 <= x < 2 ^ w -> wrap w x = x.
Proof. apply Z.mod_small. Qed.

Lemma wrap_wrap w x : 0 <= w -> wrap w (wrap w x) = wrap w x.
Proof. intros. by apply wrap_small, wrap_range. Qed.

Lemma swrap_range w x : 0 < w -> - 2 ^ (w - 1) <= swrap w x < 2 ^ (w - 1).
Proof.
  intros. unfold swrap.
  pose proof (Z.mod_pos_bound (x + 2 ^ (w - 1)) (2 ^ w)) as Hb.
  replace (2 ^ w) with (2 * 2 ^ (w - 1)) in * by
    (rewrite <- Z.pow_succ_r by lia; f_equal; lia).
  pose proof (Z.pow_pos_nonneg 2 (w - 1)). lia.
Qed.

Lemma swrap_small w x : 0 < w -> - 2 ^ (w - 1) <= x < 2 ^ (w - 1) -> swrap w x = x.
Proof.
  intros. unfold swrap. rewrite Z.mod_small; [lia|].
  replace (2 ^ w) with (2 * 2 ^ (w - 1)) by
    (rewrite <- Z.pow_succ_r by lia; f_equal; lia).
  lia.
Qed.

Create HintDb hvf discriminated.
#[export] Hint Rewrite wrap_wrap using lia : hvf.
#[export] Hint Resolve wrap_range swrap_range : hvf.

(** the character codes of a literal *)
Definition zs (s : string) : list Z :=
  map (fun c => Z.of_N (Ascii.N_of_ascii c)) (String.list_ascii_of_string s).

(** * Arrays indexed by C integers *)

Section arrays.
Context {A : Type}.
Implicit Types (l : list A) (i n : Z).

Definition lenZ l : Z := Z.of_nat (length l).

(** [l[i]], undefined outside the array *)
Definition aget l i : option A :=
  if decide (0 <= i) then l !! Z.to_nat i else None.

(** [l[i] = x], undefined outside the array *)
Definition aset l i (x : A) : option (list A) :=
  if decide (0 <= i < lenZ l) then Some (<[Z.to_nat i := x]> l) else None.

(** the [n] elements from [i] on *)
Definition aslice l i n : option (list A) :=
  if decide (0 <= i /\ 0 <= n /\ i + n <= lenZ l)
  then Some (take (Z.to_nat n) (drop (Z.to_nat i) l)) else None.

(** overwrite from [i] on with [src] *)
Definition ablit l i (src : list A) : option (list A) :=
  if decide (0 <= i /\ i + lenZ src <= lenZ l)
  then Some (take (Z.to_nat i) l ++ src ++ drop (Z.to_nat i + length src) l)
  else None.

Lemma lenZ_nonneg l : 0 <= lenZ l.
Proof. unfold lenZ. lia. Qed.

Lemma lenZ_app l k : lenZ (l ++ k) = lenZ l + lenZ k.
Proof. unfold lenZ. rewrite length_app. lia. Qed.

Lemma aget_Some l i x : aget l i = Some x <-> 0 <= i /\ l !! Z.to_nat i = Some x.
Proof. unfold aget. case_decide; naive_solver. Qed.

Lemma aget_lt l i x : aget l i = Some x -> 0 <= i < lenZ l.
Proof.
  rewrite aget_Some. intros [? Hx%lookup_lt_Some]. unfold lenZ. lia.
Qed.

Lemma aget_is_Some l i : is_Some (aget l i) <-> 0 <= i < lenZ l.
Proof.
  unfold aget, lenZ. case_decide.
  - rewrite lookup_lt_is_Some. lia.
  - split; [by intros [? [=]] | lia].
Qed.

Lemma aset_is_Some l i x : is_Some (aset l i x) <-> 0 <= i < lenZ l.
Proof.
  unfold aset. case_decide; [naive_solver|]. split; [by intros [? [=]]|lia].
Qed.

Lemma aset_lenZ l i x l' : aset l i x = Some l' -> lenZ l' = lenZ l.
Proof.
  unfold aset. case_decide; [|done]. intros [= <-]. unfold lenZ.
  by rewrite length_insert.
Qed.

Lemma aget_aset l i j x l' :
  aset l i x = Some l' -> aget l' j = if decide (i = j) then Some x else aget l j.
Proof.
  unfold aset, aget, lenZ. case_decide as Hi; [|done]. intros [= <-].
  case_decide as Hj.
  - case_decide as Hij.
    + subst. rewrite list_lookup_insert_eq; [done|lia].
    + rewrite list_lookup_insert_ne; [done|lia].
  - case_decide; [lia|done].
Qed.

Lemma aset_insert l i x : 0 <= i < lenZ l -> aset l i x = Some (<[Z.to_nat i := x]> l).
Proof. intros. unfold aset. by rewrite decide_True. Qed.

Lemma aslice_lenZ l i n k : aslice l i n = Some k -> lenZ k = n.
Proof.
  unfold aslice, lenZ. case_decide; [|done]. intros [= <-].
  rewrite length_take, length_drop. lia.
Qed.

Lemma ablit_lenZ l i src l' : ablit l i src = Some l' -> lenZ l' = lenZ l.
Proof.
  unfold ablit, lenZ. case_decide; [|done]. intros [= <-].
  rewrite !length_app, length_take, length_drop. lia.
Qed.

Lemma aslice_ablit l i src l' :
  ablit l i src = Some l' -> aslice l' i (lenZ src) = Some src.
Proof.
  intros Hb. pose proof (ablit_lenZ _ _ _ _ Hb) as Hl. revert Hb.
  unfold ablit, aslice. case_decide as Hd; [|done]. intros [= <-].
  rewrite decide_True by (rewrite Hl; pose proof (lenZ_nonneg src); lia).
  f_equal. unfold lenZ in *.
  rewrite drop_app_length' by (rewrite length_take; lia).
  rewrite take_app_length' by lia. done.
Qed.

Lemma aslice_app_l l k : aslice (l ++ k) 0 (lenZ l) = Some l.
Proof.
  unfold aslice. rewrite decide_True by (rewrite lenZ_app; pose proof (lenZ_nonneg l); pose proof (lenZ_nonneg k); lia).
  f_equal. change (Z.to_nat 0) with 0%nat. rewrite drop_0. by rewrite take_app_length' by (unfold lenZ; lia).
Qed.

Lemma aslice_app_r l k : aslice (l ++ k) (lenZ l) (lenZ k) = Some k.
Proof.
  unfold aslice. rewrite decide_True by (rewrite lenZ_app; pose proof (lenZ_nonneg l); pose proof (lenZ_nonneg k); lia).
  f_equal. rewrite drop_app_length' by (unfold lenZ; lia). by rewrite take_ge by (unfold lenZ; lia).
Qed.

Lemma aslice_nil l : aslice l 0 0 = Some [].
Proof. unfold aslice. rewrite decide_True by (pose proof (lenZ_nonneg l); lia). done. Qed.

Lemma aslice_full l : aslice l 0 (lenZ l) = Some l.
Proof. rewrite <- (app_nil_r l) at 1. apply aslice_app_l. Qed.

Lemma aslice_join l i n m a b :
  aslice l i n = Some a -> aslice l (i + n) m = Some b -> aslice l i (n + m) = Some (a ++ b).
Proof.
  unfold aslice. repeat case_decide; try done; [|lia]. intros [= <-] [= <-]. f_equal.
  rewrite !Z2Nat.inj_add by lia. rewrite <- drop_drop.
  apply (list_eq_same_length _ _ (Z.to_nat n + Z.to_nat m)%nat).
  - rewrite length_app, !length_take, !length_drop. unfold lenZ in *. lia.
  - rewrite length_take, length_drop. unfold lenZ in *. lia.
  - intros j x y Hj Hx Hy. revert Hx Hy.
    destruct (decide (j < Z.to_nat n)%nat).
    + rewrite lookup_app_l by (rewrite length_take, length_drop; unfold lenZ in *; lia).
      rewrite !lookup_take_lt by lia. congruence.
    + rewrite lookup_app_r by (rewrite length_take, length_drop; unfold lenZ in *; lia).
      rewrite length_take, length_drop, Nat.min_l by (unfold lenZ in *; lia).
      rewrite !lookup_take_lt by lia. rewrite !lookup_drop.
      replace (Z.to_nat i + (Z.to_nat n + (j - Z.to_nat n)))%nat with (Z.to_nat i + j)%nat by lia.
      congruence.
Qed.

Lemma aslice_sub l i n k j m :
  aslice l i n = Some k -> 0 <= j -> 0 <= m -> j + m <= n ->
  aslice l (i + j) m = Some (take (Z.to_nat m) (drop (Z.to_nat j) k)).
Proof.
  unfold aslice. case_decide; [|done]. intros [= <-] ???. rewrite decide_True by lia. f_equal.
  rewrite Z2Nat.inj_add by lia. rewrite skipn_firstn_comm, take_take, drop_drop. f_equal. lia.
Qed.

Lemma aslice_aget l i n k j :
  aslice l i n = Some k -> 0 <= j < n -> aget l (i + j) = k !! Z.to_nat j.
Proof.
  unfold aslice, aget. case_decide; [|done]. intros [= <-] ?. rewrite decide_True by lia.
  rewrite lookup_take_lt, lookup_drop by lia. f_equal. lia.
Qed.

(** overwriting the second half of a concatenation *)
Lemma ablit_app_r l k i src k' :
  ablit k i src = Some k' -> ablit (l ++ k) (lenZ l + i) src = Some (l ++ k').
Proof.
  unfold ablit. rewrite lenZ_app. pose proof (lenZ_nonneg l). case_decide; [|done]. intros [= <-].
  rewrite decide_True by lia. f_equal. unfold lenZ in *.
  rewrite take_app_ge, drop_app_ge by lia. rewrite <- app_assoc. do 4 f_equal; [lia|].
  f_equal. f_equal. lia.
Qed.

(** overwriting the first half of one *)
Lemma ablit_app_l l k i src l' :
  ablit l i src = Some l' -> ablit (l ++ k) i src = Some (l' ++ k).
Proof.
  unfold ablit. rewrite lenZ_app. pose proof (lenZ_nonneg k). case_decide; [|done]. intros [= <-].
  rewrite decide_True by lia. f_equal. unfold lenZ in *.
  rewrite take_app_le, drop_app_le by lia. by rewrite <- !app_assoc.
Qed.

Lemma aget_ablit l i src l' k :
  ablit l i src = Some l' -> 0 <= k ->
  aget l' k = if decide (i <= k < i + lenZ src) then src !! Z.to_nat (k - i) else aget l k.
Proof.
  unfold ablit, aget, lenZ. case_decide as Hd; [|done]. intros [= <-] Hk. rewrite decide_True by done.
  case_decide as Hin.
  - rewrite lookup_app_r by (rewrite length_take; lia). rewrite length_take.
    rewrite lookup_app_l by lia. f_equal. lia.
  - rewrite decide_True by done. destruct (decide (k < i)).
    + rewrite lookup_app_l by (rewrite length_take; lia). by rewrite lookup_take_lt by lia.
    + rewrite !lookup_app_r by (rewrite ?length_take; lia). rewrite length_take, lookup_drop. f_equal. lia.
Qed.

Lemma aslice_is_Some l i n : 0 <= i -> 0 <= n -> i + n <= lenZ l -> is_Some (aslice l i n).
Proof. intros. unfold aslice. rewrite decide_True by done. eauto. Qed.

Lemma ablit_is_Some l i src : 0 <= i -> i + lenZ src <= lenZ l -> is_Some (ablit l i src).
Proof. intros. unfold ablit. rewrite decide_True by done. eauto. Qed.

Lemma aslice_ablit_disjoint l i src l' j n :
  ablit l i src = Some l' -> j + n <= i \/ i + lenZ src <= j ->
  aslice l' j n = aslice l j n.
Proof.
  intros Hb Hd. pose proof (ablit_lenZ _ _ _ _ Hb) as Hl. revert Hb.
  unfold ablit, aslice. rewrite Hl. case_decide as Hi; [|done]. intros [= <-].
  case_decide as Hj; [|done]. f_equal. unfold lenZ in *.
  destruct Hd as [Hd|Hd].
  - apply list_eq. intros k.
    destruct (decide (k < Z.to_nat n)%nat) as [Hk|Hk].
    + rewrite !lookup_take_lt, !lookup_drop by lia.
      rewrite lookup_app_l by (rewrite length_take; lia).
      by rewrite lookup_take_lt by lia.
    + rewrite !lookup_take_ge by lia. done.
  - f_equal. rewrite drop_app_ge by (rewrite length_take; lia).
    rewrite drop_app_ge by (rewrite length_take; lia).
    rewrite drop_drop, length_take. f_equal. lia.
Qed.
End arrays.

#[export] Hint Resolve lenZ_nonneg : hvf.
#[export] Hint Rewrite @lenZ_app : hvf.

(** case analysis on the boolean tests of the code *)
Ltac case_bool :=
  match goal with
  | |- context [Z.eqb ?a ?b] => destruct (Z.eqb_spec a b)
  | |- context [Z.ltb ?a ?b] => destruct (Z.ltb_spec a b)
  | |- context [Z.leb ?a ?b] => destruct (Z.leb_spec a b)
  | H : context [Z.eqb ?a ?b] |- _ => destruct (Z.eqb_spec a b)
  | H : context [Z.ltb ?a ?b] |- _ => destruct (Z.ltb_spec a b)
  | H : context [Z.leb ?a ?b] |- _ => destruct (Z.leb_spec a b)
  end.

(** push [a mod b] and [a / b] through [lia] for literal divisors *)
Ltac divlia := Z.to_euclidean_division_equations; lia.

(** * Positional notation *)

(** the number of the digits [ds] to the base [b], the first digit having the highest place *)
Fixpoint place_value (b : Z) (ds : list Z) : Z :=
  match ds with
  | [] => 0
  | d :: ds => d * b ^ lenZ ds + place_value b ds
  end.

(** a loop that goes through the digits from the first computes it *)
Lemma place_value_fold b ds v : fold_left (fun v d => v * b + d) ds v = v * b ^ lenZ ds + place_value b ds.
Proof.
  revert v. induction ds as [|d ds IH]; intros v; cbn [fold_left place_value]; [change (lenZ (@nil Z)) with 0; lia|].
  rewrite IH. unfold lenZ. cbn [length]. rewrite Nat2Z.inj_succ, Z.pow_succ_r by lia. lia.
Qed.

Lemma place_value_app b ds es : place_value b (ds ++ es) = place_value b ds * b ^ lenZ es + place_value b es.
Proof. pose proof (place_value_fold b (ds ++ es) 0) as H. rewrite fold_left_app, !place_value_fold in H. lia. Qed.

Lemma place_value_range b ds : 1 < b -> Forall (fun d => 0 <= d < b) ds -> 0 <= place_value b ds < b ^ lenZ ds.
Proof.
  intros Hb. induction 1 as [|d ds Hd _ IH]; cbn [place_value]; [change (lenZ (@nil Z)) with 0; lia|].
  unfold lenZ in *. cbn [length]. rewrite Nat2Z.inj_succ, Z.pow_succ_r by lia. nia.
Qed.

(** ** Searching a list *)

Lemma find_app {B} (p : B -> bool) l k :
  List.find p (l ++ k) = match List.find p l with Some x => Some x | None => List.find p k end.
Proof. induction l as [|x l IH]; cbn; [done|]. by destruct (p x). Qed.

(** * Big-endian storage *)

(** the [n] bytes of [v] *)
Fixpoint be_bytes (n : nat) (v : Z) : list Z :=
  match n with
  | O => []
  | S n => v / 256 ^ Z.of_nat n mod 256 :: be_bytes n v
  end.

Fixpoint be_val (l : list Z) : Z :=
  match l with
  | [] => 0
  | b :: l => b * 256 ^ lenZ l + be_val l
  end.

Lemma be_bytes_length n v : length (be_bytes n v) = n.
Proof. induction n; simpl; congruence. Qed.

Lemma be_bytes_range n v : Forall (fun b => 0 <= b < 256) (be_bytes n v).
Proof. induction n; cbn [be_bytes]; constructor; [|done]. apply Z.mod_pos_bound. lia. Qed.

Lemma be_val_bytes n v : be_val (be_bytes n v) = v mod 256 ^ Z.of_nat n.
Proof.
  induction n as [|n IH]; [by rewrite Z.mod_1_r|]. cbn [be_bytes be_val].
  rewrite IH. unfold lenZ. rewrite be_bytes_length.
  rewrite Nat2Z.inj_succ, Z.pow_succ_r, (Z.mul_comm 256), Z.rem_mul_r by lia. lia.
Qed.

Lemma be_val_range l : Forall (fun b => 0 <= b < 256) l -> 0 <= be_val l < 256 ^ lenZ l.
Proof.
  induction 1 as [|b l Hb _ IH]; [done|]. cbn [be_val].
  replace (lenZ (b :: l)) with (Z.succ (lenZ l)) by (unfold lenZ; simpl; lia).
  rewrite Z.pow_succ_r by (unfold lenZ; lia). nia.
Qed.

Lemma be_bytes_val l : Forall (fun b => 0 <= b < 256) l -> be_bytes (length l) (be_val l) = l.
Proof.
  induction 1 as [|b l Hb Hl IH]; [done|]. cbn [length be_bytes be_val].
  pose proof (be_val_range l Hl). unfold lenZ in *. f_equal.
  - rewrite Z.add_comm, Z.div_add by lia. rewrite Z.div_small, Z.mod_small by lia. done.
  - transitivity (be_bytes (length l) (be_val l)); [|done]. clear IH. generalize (be_val l). intros v.
    assert (forall k, (k <= length l)%nat -> be_bytes k (b * 256 ^ Z.of_nat (length l) + v) = be_bytes k v) as Hk; [|by apply Hk].
    induction k as [|k IHk]; intros Hk; [done|]. cbn [be_bytes]. rewrite IHk by lia. f_equal.
    replace (Z.of_nat (length l)) with (1 + (Z.of_nat (length l) - Z.of_nat k - 1) + Z.of_nat k) by lia.
    rewrite !Z.pow_add_r, Z.pow_1_r by lia.
    replace (b * (256 * 256 ^ (Z.of_nat (length l) - Z.of_nat k - 1) * 256 ^ Z.of_nat k) + v)
      with (v + (b * 256 ^ (Z.of_nat (length l) - Z.of_nat k - 1) * 256) * 256 ^ Z.of_nat k) by ring.
    rewrite Z.div_add by lia. by rewrite Z.mod_add by lia.
Qed.
