(* ===== verification/Dlist.v ===== *)
(** include/list.h: the intrusive circular doubly linked lists every other part
    of the hypervisor queues its objects on.

    [heap] is the store of the [struct list_head] objects, one map per field; an
    access to an address that holds no [list_head] is undefined.  [dlist h p xs]
    says that the list headed at [p] holds the entries [xs] in order.  The
    theorems show each macro of list.h to be the corresponding operation on the
    sequence [xs]; the other files use those sequence operations for their
    lists. *)

From S2P Require Import Prelude.

Local Open Scope Z_scope.

(** * The store *)

Record heap := Heap { nx : gmap Z Z; pv : gmap Z Z }.

Definition LIST_POISON1 : Z := 0x8585858585858585.
Definition LIST_POISON2 : Z := 0x8686868686868686.

Definition get_next (h : heap) (a : Z) : outcome Z := defined (nx h !! a).
Definition get_prev (h : heap) (a : Z) : outcome Z := defined (pv h !! a).

Definition set_next (a v : Z) (h : heap) : outcome heap :=
  match nx h !! a with
  | Some _ => Ret (Heap (<[a := v]> (nx h)) (pv h))
  | None => Undef
  end.
Definition set_prev (a v : Z) (h : heap) : outcome heap :=
  match pv h !! a with
  | Some _ => Ret (Heap (nx h) (<[a := v]> (pv h)))
  | None => Undef
  end.

(** * The operations of list.h *)

Definition INIT_LIST_HEAD (l : Z) (h : heap) : outcome heap :=
  h ← set_next l l h; set_prev l l h.

Definition __list_add (new prev next : Z) (h : heap) : outcome heap :=
  h ← set_prev next new h;
  h ← set_next new next h;
  h ← set_prev new prev h;
  set_next prev new h.

Definition list_add (new head : Z) (h : heap) : outcome heap :=
  n ← get_next h head; __list_add new head n h.

Definition list_add_tail (new head : Z) (h : heap) : outcome heap :=
  p ← get_prev h head; __list_add new p head h.

Definition __list_del (prev next : Z) (h : heap) : outcome heap :=
  h ← set_prev next prev h; set_next prev next h.

Definition list_del (entry : Z) (h : heap) : outcome heap :=
  p ← get_prev h entry;
  n ← get_next h entry;
  h ← __list_del p n h;
  h ← set_next entry LIST_POISON1 h;
  set_prev entry LIST_POISON2 h.

Definition list_replace (old new : Z) (h : heap) : outcome heap :=
  n ← get_next h old;
  h ← set_next new n h;
  n' ← get_next h new;
  h ← set_prev n' new h;
  p ← get_prev h old;
  h ← set_prev new p h;
  p' ← get_prev h new;
  set_next p' new h.

Definition list_replace_init (old new : Z) (h : heap) : outcome heap :=
  h ← list_replace old new h; INIT_LIST_HEAD old h.

Definition list_del_init (entry : Z) (h : heap) : outcome heap :=
  p ← get_prev h entry;
  n ← get_next h entry;
  h ← __list_del p n h;
  INIT_LIST_HEAD entry h.

Definition list_move (l head : Z) (h : heap) : outcome heap :=
  p ← get_prev h l;
  n ← get_next h l;
  h ← __list_del p n h;
  list_add l head h.

Definition list_move_tail (l head : Z) (h : heap) : outcome heap :=
  p ← get_prev h l;
  n ← get_next h l;
  h ← __list_del p n h;
  list_add_tail l head h.

Definition list_is_last (l head : Z) (h : heap) : outcome bool :=
  n ← get_next h l; Ret (n =? head).

Definition list_empty (head : Z) (h : heap) : outcome bool :=
  n ← get_next h head; Ret (n =? head).

Definition list_empty_careful (head : Z) (h : heap) : outcome bool :=
  n ← get_next h head;
  if n =? head then p ← get_prev h head; Ret (n =? p) else Ret false.

Definition __list_splice (l head : Z) (h : heap) : outcome heap :=
  first ← get_next h l;
  last ← get_prev h l;
  at_ ← get_next h head;
  h ← set_prev first head h;
  h ← set_next head first h;
  h ← set_next last at_ h;
  set_prev at_ last h.

Definition list_splice (l head : Z) (h : heap) : outcome heap :=
  e ← list_empty l h;
  if negb e then __list_splice l head h else Ret h.

Definition list_splice_tail (l head : Z) (h : heap) : outcome heap :=
  e ← list_empty l h;
  if negb e then p ← get_prev h head; __list_splice l p h else Ret h.

Definition list_splice_init (l head : Z) (h : heap) : outcome heap :=
  e ← list_empty l h;
  if negb e then h ← __list_splice l head h; INIT_LIST_HEAD l h else Ret h.

Definition list_splice_tail_init (l head : Z) (h : heap) : outcome heap :=
  e ← list_empty l h;
  if negb e then
    p ← get_prev h head; h ← __list_splice l p h; INIT_LIST_HEAD l h
  else Ret h.

Definition list_first_entry (head : Z) (h : heap) : outcome Z := get_next h head.
Definition list_last_entry (head : Z) (h : heap) : outcome Z := get_prev h head.

(** [for (pos = head->next; pos != head; pos = pos->next)]: the entries the
    loop visits; [fuel] bounds the number of iterations. *)
Fixpoint list_for_each_from (fuel : nat) (pos head : Z) (h : heap) : outcome (list Z) :=
  if pos =? head then Ret [] else
  match fuel with
  | O => Undef
  | S k => n ← get_next h pos; r ← list_for_each_from k n head h; Ret (pos :: r)
  end.

Definition list_for_each (fuel : nat) (head : Z) (h : heap) : outcome (list Z) :=
  p ← get_next h head; list_for_each_from fuel p head h.

(** * The representation predicate *)

(** consecutive elements of [l] point at each other *)
Fixpoint chain (h : heap) (l : list Z) : Prop :=
  match l with
  | x :: (y :: _) as l' => nx h !! x = Some y /\ pv h !! y = Some x /\ chain h l'
  | _ => True
  end.

Definition dlist (h : heap) (hd : Z) (xs : list Z) : Prop :=
  NoDup (hd :: xs) /\ chain h (hd :: xs ++ [hd]).

(** a [list_head] object exists at [a] *)
Definition live (h : heap) (a : Z) : Prop := is_Some (nx h !! a) /\ is_Some (pv h !! a).

(** [h'] differs from [h] at the objects of [s] only *)
Definition only_touches (s : list Z) (h h' : heap) : Prop :=
  forall a, a ∉ s -> nx h' !! a = nx h !! a /\ pv h' !! a = pv h !! a.

Lemma chain_cons h x y l :
  chain h (x :: y :: l) <-> nx h !! x = Some y /\ pv h !! y = Some x /\ chain h (y :: l).
Proof. done. Qed.

Lemma chain_app h l1 x l2 : chain h (l1 ++ x :: l2) <-> chain h (l1 ++ [x]) /\ chain h (x :: l2).
Proof.
  induction l1 as [|a l1 IH]; [simpl; naive_solver|].
  destruct l1 as [|b l1]; [simpl; naive_solver|].
  change ((a :: b :: l1) ++ x :: l2) with (a :: b :: (l1 ++ x :: l2)).
  change ((a :: b :: l1) ++ [x]) with (a :: b :: (l1 ++ [x])).
  rewrite !chain_cons. change (b :: l1 ++ x :: l2) with ((b :: l1) ++ x :: l2).
  rewrite IH. naive_solver.
Qed.

(** changing [next] outside [l], or at its last element, and [prev] outside
    [l], or at its first element, keeps the chain *)
Lemma chain_frame h h' l :
  (forall x l1 y l2, l = l1 ++ x :: y :: l2 -> nx h' !! x = nx h !! x) ->
  (forall x l1 y l2, l = l1 ++ x :: y :: l2 -> pv h' !! y = pv h !! y) ->
  chain h l -> chain h' l.
Proof.
  induction l as [|a [|b l] IH]; intros Hn Hp; [done|done|].
  rewrite !chain_cons. intros (Ha & Hb & Hl).
  rewrite (Hn a [] b l), (Hp a [] b l) by done. split_and!; [done..|].
  apply IH; [| |done]; intros x l1 y l2 Heq; [eapply Hn|eapply Hp];
    rewrite Heq; by rewrite app_comm_cons.
Qed.

Lemma snoc_split (l : list Z) p l1 x y l2 : l ++ [p] = l1 ++ x :: y :: l2 -> x ∈ l.
Proof.
  intros H. destruct l2 as [|z l2 _] using rev_ind.
  - change (l1 ++ [x; y]) with (l1 ++ [x] ++ [y]) in H. rewrite app_assoc in H.
    apply app_inj_tail in H as [-> _]. set_solver.
  - rewrite !app_comm_cons, app_assoc in H. apply app_inj_tail in H as [-> _]. set_solver.
Qed.

Lemma chain_frame_l h h' l p :
  (forall x, x ∈ l -> nx h' !! x = nx h !! x) ->
  (forall x, x ∈ tail (l ++ [p]) -> pv h' !! x = pv h !! x) ->
  chain h (l ++ [p]) -> chain h' (l ++ [p]).
Proof.
  intros Hn Hp. apply chain_frame; intros x l1 y l2 Heq.
  - eapply Hn, snoc_split, Heq.
  - apply Hp. rewrite Heq. destruct l1; simpl; set_solver.
Qed.

(** the element before and the element after a cut of the circle *)
Lemma cut_before (hd : Z) xs : exists l1 p, hd :: xs = l1 ++ [p].
Proof. destruct xs as [|x xs _] using rev_ind; [by exists [], hd|by exists (hd :: xs), x]. Qed.
Lemma cut_after (hd : Z) ys : exists n l2, ys ++ [hd] = n :: l2.
Proof. destruct ys; simpl; eauto. Qed.

Section cut.
Context (h : heap) (hd : Z) (xs ys l1 l2 : list Z) (p n : Z).
Context (Hnd : NoDup (hd :: xs ++ ys)) (Hp : hd :: xs = l1 ++ [p]) (Hn : ys ++ [hd] = n :: l2).

Lemma cut_facts :
  (forall x, x ∈ l1 -> x <> p) /\ (forall x, x ∈ xs -> x <> n) /\
  (forall x, x ∈ ys -> x <> p) /\ (forall x, x ∈ l2 -> x <> n) /\
  p ∈ hd :: xs /\ n ∈ ys ++ [hd] /\ tail (l1 ++ [p]) = xs /\ tail (ys ++ [hd]) = l2.
Proof.
  assert (NoDup (l1 ++ [p])) as H1.
  { rewrite <- Hp. rewrite app_comm_cons in Hnd. by apply NoDup_app in Hnd as (? & _ & _). }
  assert (NoDup (n :: l2)) as H2.
  { rewrite <- Hn. apply NoDup_cons in Hnd as [Hh Hr]. apply NoDup_app in Hr as (_ & _ & Hr).
    apply NoDup_app. split_and!; [done| |apply NoDup_singleton]. set_solver. }
  assert (p ∈ hd :: xs) as H3 by (rewrite Hp; set_solver).
  assert (n ∈ ys ++ [hd]) as H4 by (rewrite Hn; set_solver).
  apply NoDup_cons in Hnd as [Hh Hr]. apply NoDup_app in Hr as (_ & Hd & _).
  apply NoDup_app in H1 as (_ & H1 & _). apply NoDup_cons in H2 as [H2 _].
  split_and!; [set_solver..| |].
  - by rewrite <- Hp.
  - by rewrite Hn.
Qed.

Lemma cut_chain mid :
  chain h (hd :: (xs ++ mid ++ ys) ++ [hd]) <->
  chain h (l1 ++ [p]) /\ chain h (p :: mid ++ [n]) /\ chain h (ys ++ [hd]).
Proof.
  replace (hd :: (xs ++ mid ++ ys) ++ [hd]) with (l1 ++ p :: mid ++ n :: l2).
  2:{ transitivity ((l1 ++ [p]) ++ mid ++ n :: l2); [rewrite <- app_assoc; reflexivity|].
      rewrite <- Hp, <- Hn. simpl. by rewrite !app_assoc. }
  rewrite chain_app, app_comm_cons, (chain_app h (p :: mid) n l2), Hn. reflexivity.
Qed.
End cut.

Lemma only_touches_refl s h : only_touches s h h.
Proof. done. Qed.

Lemma only_touches_trans s h1 h2 h3 :
  only_touches s h1 h2 -> only_touches s h2 h3 -> only_touches s h1 h3.
Proof. intros H1 H2 a Ha. rewrite (proj1 (H2 a Ha)), (proj2 (H2 a Ha)). by apply H1. Qed.

Lemma only_touches_mono s s' h h' : s ⊆ s' -> only_touches s h h' -> only_touches s' h h'.
Proof. intros Hs H a Ha. apply H. set_solver. Qed.

(** lists over other objects are not affected *)
Lemma dlist_frame s h h' hd xs :
  only_touches s h h' -> (forall x, x ∈ hd :: xs -> x ∉ s) -> dlist h hd xs -> dlist h' hd xs.
Proof.
  intros Ht Hd [Hnd Hc]. split; [done|]. revert Hc. rewrite app_comm_cons.
  apply chain_frame_l; intros x Hx; apply Ht, Hd; set_solver.
Qed.

(** * Each operation refines the operation on the sequence *)

Ltac heap_simpl :=
  repeat (simpl; first
    [ rewrite lookup_insert_eq
    | rewrite lookup_insert_ne by (congruence || set_solver)
    | match goal with H : ?m !! ?a = Some _ |- context [?m !! ?a] => rewrite H end ]).

(** splicing [mid] (a chain of its own) between [p] and [n] *)
Lemma chain_insert h h' hd xs ys mid l1 l2 p n :
  hd :: xs = l1 ++ [p] -> ys ++ [hd] = n :: l2 ->
  dlist h hd (xs ++ ys) -> NoDup mid -> (forall x, x ∈ mid -> x ∉ hd :: xs ++ ys) ->
  (forall x, x ∉ p :: mid -> nx h' !! x = nx h !! x) ->
  (forall x, x ∉ n :: mid -> pv h' !! x = pv h !! x) ->
  chain h' (p :: mid ++ [n]) ->
  dlist h' hd (xs ++ mid ++ ys).
Proof.
  intros Hp Hn [Hnd Hc] Hm Hdis Hnx Hpv Hmid.
  destruct (cut_facts hd xs ys l1 l2 p n Hnd Hp Hn) as (F1&F2&F3&F4&F5&F6&F7&F8).
  split.
  - rewrite (Permutation_app_comm mid ys), app_assoc, (Permutation_app_comm _ mid).
    rewrite Permutation_middle, NoDup_app. split_and!; [done|set_solver|done].
  - apply (cut_chain h' hd xs ys l1 l2 p n Hp Hn mid).
    apply (cut_chain h hd xs ys l1 l2 p n Hp Hn []) in Hc as (C1 & _ & C2).
    split_and!; [|done|].
    + revert C1. apply chain_frame_l; intros x Hx.
      * apply Hnx. assert (x ∈ hd :: xs) by (rewrite Hp; set_solver). set_solver.
      * rewrite F7 in Hx. apply Hpv. set_solver.
    + revert C2. apply chain_frame_l; intros x Hx.
      * apply Hnx. set_solver.
      * rewrite F8 in Hx. assert (x ∈ ys ++ [hd]) by (rewrite Hn; set_solver).
        apply Hpv. set_solver.
Qed.

Lemma dlist_cut h hd xs ys l1 l2 p n :
  hd :: xs = l1 ++ [p] -> ys ++ [hd] = n :: l2 -> dlist h hd (xs ++ ys) ->
  nx h !! p = Some n /\ pv h !! n = Some p.
Proof.
  intros Hp Hn [Hnd Hc].
  apply (cut_chain h hd xs ys l1 l2 p n Hp Hn []) in Hc as (_ & (?&?&_) & _). done.
Qed.

Lemma dlist_first h hd xs n l2 : xs ++ [hd] = n :: l2 -> dlist h hd xs -> nx h !! hd = Some n.
Proof. intros Hn Hd. by apply (dlist_cut h hd [] xs [] l2 hd n). Qed.

Lemma dlist_last h hd xs l1 p : hd :: xs = l1 ++ [p] -> dlist h hd xs -> pv h !! hd = Some p.
Proof.
  intros Hp Hd. rewrite <- (app_nil_r xs) in Hd.
  by apply (dlist_cut h hd xs [] l1 [] p hd).
Qed.

Lemma dlist_mid h hd xs e ys l1 l2 p n :
  hd :: xs = l1 ++ [p] -> ys ++ [hd] = n :: l2 -> dlist h hd (xs ++ e :: ys) ->
  pv h !! e = Some p /\ nx h !! e = Some n.
Proof.
  intros Hp Hn Hd. split.
  - by apply (dlist_cut h hd xs (e :: ys) l1 (ys ++ [hd]) p e).
  - rewrite cons_middle, app_assoc in Hd.
    by apply (dlist_cut h hd (xs ++ [e]) ys (hd :: xs) l2 e n).
Qed.

Lemma dlist_live h hd xs x : dlist h hd xs -> x ∈ hd :: xs -> live h x.
Proof.
  intros Hd [->|Hx]%elem_of_cons.
  - destruct (cut_after hd xs) as (n & l2 & Hn), (cut_before hd xs) as (l1 & p & Hp).
    split; [rewrite (dlist_first _ _ _ _ _ Hn Hd)|rewrite (dlist_last _ _ _ _ _ Hp Hd)]; eauto.
  - apply list_elem_of_split in Hx as (u & v & ->).
    destruct (cut_after hd v) as (n & l2 & Hn), (cut_before hd u) as (l1 & p & Hp).
    destruct (dlist_mid _ _ _ _ _ _ _ _ _ Hp Hn Hd) as [? ?]. split; eauto.
Qed.

Lemma __list_add_spec h hd xs ys l1 l2 p n new :
  hd :: xs = l1 ++ [p] -> ys ++ [hd] = n :: l2 ->
  dlist h hd (xs ++ ys) -> new ∉ hd :: xs ++ ys -> live h new ->
  exists h', __list_add new p n h = Ret h' /\ dlist h' hd (xs ++ new :: ys) /\
    only_touches (new :: hd :: xs ++ ys) h h'.
Proof.
  intros Hp Hn Hd Hnew [[a Ha] [b Hb]].
  destruct (dlist_cut h hd xs ys l1 l2 p n Hp Hn Hd) as [Hpn Hnp].
  destruct (cut_facts hd xs ys l1 l2 p n (proj1 Hd) Hp Hn) as (F1&F2&F3&F4&F5&F6&F7&F8).
  assert (p <> new) by set_solver. assert (n <> new) by set_solver.
  eexists. split.
  { unfold __list_add, set_prev, set_next. heap_simpl. done. }
  split.
  - eapply (chain_insert h _ hd xs ys [new]); [done|done|done|apply NoDup_singleton|set_solver|..].
    + intros x Hx. simpl. rewrite !lookup_insert_ne by set_solver. done.
    + intros x Hx. simpl. rewrite !lookup_insert_ne by set_solver. done.
    + simpl. split_and!; heap_simpl; done.
  - intros x Hx. simpl. rewrite !lookup_insert_ne by set_solver. done.
Qed.

Lemma list_add_spec h hd xs new :
  dlist h hd xs -> new ∉ hd :: xs -> live h new ->
  exists h', list_add new hd h = Ret h' /\ dlist h' hd (new :: xs) /\
    only_touches (new :: hd :: xs) h h'.
Proof.
  intros Hd Hn Hl. destruct (cut_after hd xs) as (n & l2 & Hc).
  unfold list_add, get_next. rewrite (dlist_first _ _ _ _ _ Hc Hd). simpl.
  by apply (__list_add_spec h hd [] xs [] l2 hd n).
Qed.

Lemma list_add_tail_spec h hd xs new :
  dlist h hd xs -> new ∉ hd :: xs -> live h new ->
  exists h', list_add_tail new hd h = Ret h' /\ dlist h' hd (xs ++ [new]) /\
    only_touches (new :: hd :: xs) h h'.
Proof.
  intros Hd Hn Hl. destruct (cut_before hd xs) as (l1 & p & Hc).
  unfold list_add_tail, get_prev. rewrite (dlist_last _ _ _ _ _ Hc Hd). simpl.
  rewrite <- (app_nil_r xs) in Hd, Hn.
  destruct (__list_add_spec h hd xs [] l1 [] p hd new) as (h' & ? & ? & Ht); [done..|].
  exists h'. rewrite app_nil_r in Ht. done.
Qed.

(** unlinking an entry *)
Lemma __list_del_spec h hd xs e ys l1 l2 p n :
  hd :: xs = l1 ++ [p] -> ys ++ [hd] = n :: l2 -> dlist h hd (xs ++ e :: ys) ->
  exists h', __list_del p n h = Ret h' /\ dlist h' hd (xs ++ ys) /\
    nx h' !! e = nx h !! e /\ pv h' !! e = pv h !! e /\
    only_touches (hd :: xs ++ ys) h h' /\ e ∉ hd :: xs ++ ys.
Proof.
  intros Hp Hn Hd. destruct Hd as [Hnd Hc]. pose proof Hnd as Hnd'.
  assert (hd :: xs ++ e :: ys ≡ₚ e :: hd :: xs ++ ys) as Hperm by solve_Permutation.
  rewrite Hperm in Hnd'. apply NoDup_cons in Hnd' as [He Hnd'].
  destruct (cut_facts hd xs ys l1 l2 p n Hnd' Hp Hn) as (F1&F2&F3&F4&F5&F6&F7&F8).
  assert (e <> p) by set_solver. assert (e <> n) by set_solver.
  destruct (dlist_live h hd (xs ++ e :: ys) p) as [[vp Hlp] _]; [done|set_solver|].
  destruct (dlist_live h hd (xs ++ e :: ys) n) as [_ [vn Hln]]; [done|set_solver|].
  apply (cut_chain h hd xs ys l1 l2 p n Hp Hn [e]) in Hc as (C1 & _ & C2).
  eexists. split; [unfold __list_del, set_prev, set_next; heap_simpl; done|].
  split_and!.
  - split; [done|]. apply (cut_chain _ hd xs ys l1 l2 p n Hp Hn []).
    split_and!.
    + revert C1. apply chain_frame_l; intros x Hx; simpl.
      * by rewrite lookup_insert_ne by (intros <-; by apply (F1 p)).
      * rewrite F7 in Hx. by rewrite lookup_insert_ne by (intros <-; by apply (F2 n)).
    + simpl. split_and!; heap_simpl; done.
    + revert C2. apply chain_frame_l; intros x Hx; simpl.
      * by rewrite lookup_insert_ne by (intros <-; by apply (F3 p)).
      * rewrite F8 in Hx. by rewrite lookup_insert_ne by (intros <-; by apply (F4 n)).
  - simpl. by rewrite lookup_insert_ne.
  - simpl. by rewrite lookup_insert_ne.
  - intros x Hx. simpl. rewrite !lookup_insert_ne by set_solver. done.
  - done.
Qed.

(** ** Entries removed *)

Lemma list_del_spec h hd xs e ys :
  dlist h hd (xs ++ e :: ys) ->
  exists h', list_del e h = Ret h' /\ dlist h' hd (xs ++ ys) /\
    nx h' !! e = Some LIST_POISON1 /\ pv h' !! e = Some LIST_POISON2 /\
    only_touches (hd :: xs ++ e :: ys) h h'.
Proof.
  intros Hd. destruct (cut_before hd xs) as (l1 & p & Hp), (cut_after hd ys) as (n & l2 & Hn).
  destruct (dlist_mid h hd xs e ys l1 l2 p n Hp Hn Hd) as [Hpe Hne].
  destruct (__list_del_spec h hd xs e ys l1 l2 p n Hp Hn Hd) as (h1 & E & D & N & P & T & F).
  unfold list_del, get_prev, get_next. rewrite Hpe, Hne. simpl. rewrite E. simpl.
  unfold set_next. rewrite N, Hne. simpl. unfold set_prev. simpl. rewrite P, Hpe. simpl.
  eexists. split; [done|]. split_and!.
  - apply (dlist_frame [e] h1); [|set_solver|done].
    intros a Ha. simpl. rewrite !lookup_insert_ne by set_solver. done.
  - simpl. by rewrite lookup_insert_eq.
  - simpl. by rewrite lookup_insert_eq.
  - intros a Ha. simpl. rewrite !lookup_insert_ne by set_solver. apply T. set_solver.
Qed.

Lemma list_del_init_spec h hd xs e ys :
  dlist h hd (xs ++ e :: ys) ->
  exists h', list_del_init e h = Ret h' /\ dlist h' hd (xs ++ ys) /\ dlist h' e [] /\
    only_touches (hd :: xs ++ e :: ys) h h'.
Proof.
  intros Hd. destruct (cut_before hd xs) as (l1 & p & Hp), (cut_after hd ys) as (n & l2 & Hn).
  destruct (dlist_mid h hd xs e ys l1 l2 p n Hp Hn Hd) as [Hpe Hne].
  destruct (__list_del_spec h hd xs e ys l1 l2 p n Hp Hn Hd) as (h1 & E & D & N & P & T & F).
  unfold list_del_init, get_prev, get_next. rewrite Hpe, Hne. simpl. rewrite E. simpl.
  unfold INIT_LIST_HEAD, set_next. rewrite N, Hne. simpl. unfold set_prev. simpl. rewrite P, Hpe. simpl.
  eexists. split; [done|]. split_and!.
  - apply (dlist_frame [e] h1); [|set_solver|done].
    intros a Ha. simpl. rewrite !lookup_insert_ne by set_solver. done.
  - split; [apply NoDup_singleton|]. simpl. by rewrite !lookup_insert_eq.
  - intros a Ha. simpl. rewrite !lookup_insert_ne by set_solver. apply T. set_solver.
Qed.

(** an entry unlinked and not yet linked again *)
Lemma unlink_spec h hd xs e ys :
  dlist h hd (xs ++ e :: ys) ->
  exists p n h', get_prev h e = Ret p /\ get_next h e = Ret n /\ __list_del p n h = Ret h' /\
    dlist h' hd (xs ++ ys) /\ live h' e /\ e ∉ hd :: xs ++ ys /\
    only_touches (hd :: xs ++ ys) h h'.
Proof.
  intros Hd. destruct (cut_before hd xs) as (l1 & p & Hp), (cut_after hd ys) as (n & l2 & Hn).
  destruct (dlist_mid h hd xs e ys l1 l2 p n Hp Hn Hd) as [Hpe Hne].
  destruct (__list_del_spec h hd xs e ys l1 l2 p n Hp Hn Hd) as (h1 & E & D & N & P & T & F).
  exists p, n, h1. unfold get_prev, get_next. rewrite Hpe, Hne. split_and!; try done.
  split; [rewrite N, Hne|rewrite P, Hpe]; eauto.
Qed.

(** ** Lists joined *)

Lemma chain_ends h a b mid f r s la :
  mid = f :: r -> mid = s ++ [la] ->
  chain h (a :: mid ++ [b]) <->
  (nx h !! a = Some f /\ pv h !! f = Some a) /\ chain h mid /\
  (nx h !! la = Some b /\ pv h !! b = Some la).
Proof.
  intros Hf Hla. rewrite Hf at 1. simpl app. rewrite chain_cons.
  change (f :: r ++ [b]) with ((f :: r) ++ [b]). rewrite <- Hf.
  rewrite Hla at 1. rewrite <- app_assoc. simpl app. rewrite chain_app, <- Hla.
  simpl. naive_solver.
Qed.

Lemma __list_splice_spec h hd xs ys l1 l2 p n l mid :
  hd :: xs = l1 ++ [p] -> ys ++ [hd] = n :: l2 ->
  dlist h hd (xs ++ ys) -> dlist h l mid -> mid <> [] ->
  (forall x, x ∈ l :: mid -> x ∉ hd :: xs ++ ys) ->
  exists h', __list_splice l p h = Ret h' /\ dlist h' hd (xs ++ mid ++ ys) /\
    only_touches (hd :: xs ++ mid ++ ys) h h' /\ live h' l.
Proof.
  intros Hp Hn Hd Hl Hne Hdis.
  destruct mid as [|f r]; [done|]. clear Hne.
  destruct (cut_before f r) as (s & la & Hla).
  destruct (dlist_cut h hd xs ys l1 l2 p n Hp Hn Hd) as [Hpn Hnp].
  destruct (cut_facts hd xs ys l1 l2 p n (proj1 Hd) Hp Hn) as (F1&F2&F3&F4&F5&F6&F7&F8).
  pose proof (dlist_live h l (f :: r) l Hl) as Hll.
  destruct Hl as [Hnl Hcl]. pose proof Hcl as Hcl'.
  rewrite (chain_ends h l l (f :: r) f r s la eq_refl Hla) in Hcl'.
  destruct Hcl' as ((Hlf & Hfl) & Hmid & (Hlal & Hlla)).
  apply NoDup_cons in Hnl as [Hlm Hnm].
  assert (la ∈ f :: r) as Hlain by (rewrite Hla; set_solver).
  assert (p ∉ l :: f :: r) as Hpl by (intros ?; apply (Hdis p); set_solver).
  assert (n ∉ l :: f :: r) as Hnl by (intros ?; apply (Hdis n); set_solver).
  assert (la <> p /\ f <> n /\ l <> f /\ l <> la /\ l <> p /\ l <> n) as (?&?&?&?&?&?) by set_solver.
  eexists. split.
  { unfold __list_splice, get_next, get_prev, set_prev, set_next. heap_simpl. done. }
  split_and!.
  - apply (chain_insert h _ hd xs ys (f :: r) l1 l2 p n Hp Hn Hd Hnm).
    + intros x Hx. apply Hdis. by right.
    + clear -Hlain. intros x Hx. simpl. rewrite !lookup_insert_ne by set_solver. done.
    + clear. intros x Hx. simpl. rewrite !lookup_insert_ne by set_solver. done.
    + apply (chain_ends _ p n (f :: r) f r s la eq_refl Hla). split_and!.
      { simpl. rewrite lookup_insert_ne by congruence. apply lookup_insert_eq. }
      { simpl. rewrite lookup_insert_ne by congruence. apply lookup_insert_eq. }
      2:{ apply lookup_insert_eq. }
      2:{ apply lookup_insert_eq. }
      clear -Hmid Hla Hnm Hpl Hnl. revert Hmid. apply chain_frame; intros x u y v Huv; simpl; pose proof Hnm as Hnd'.
      * rewrite !lookup_insert_ne; [done| |].
        { intros <-. apply Hpl. rewrite Huv. set_solver. }
        { intros <-. assert (la ∈ s) as Hin.
          { eapply (snoc_split s la). rewrite <- Hla. exact Huv. }
          rewrite Hla in Hnd'. apply NoDup_app in Hnd' as (_ & Hx & _). by apply (Hx la Hin); set_solver. }
      * rewrite !lookup_insert_ne; [done| |].
        { intros <-. rewrite Huv in Hnd'. destruct u as [|u0 u]; simplify_eq/=.
          - apply NoDup_cons in Hnd' as [Hx _]. set_solver.
          - apply NoDup_cons in Hnd' as [Hx _]. set_solver. }
        { intros <-. apply Hnl. rewrite Huv. set_solver. }
  - clear -F5 F6 Hlain. intros x Hx. simpl. rewrite !lookup_insert_ne by set_solver. done.
  - destruct Hll as [[a1 Ha1] [a2 Ha2]]; [set_solver|].
    split; simpl; rewrite !lookup_insert_ne by done; eauto.
Qed.

(** ** The loop over a list *)

Lemma list_for_each_from_spec h hd ys : forall fuel pos xs,
  NoDup (hd :: xs ++ ys) -> chain h (hd :: (xs ++ ys) ++ [hd]) ->
  (exists l2, ys ++ [hd] = pos :: l2) -> (length ys <= fuel)%nat ->
  list_for_each_from fuel pos hd h = Ret ys.
Proof.
  induction ys as [|y ys IH]; intros fuel pos xs Hnd Hc [l2 Hpos] Hlen; injection Hpos as <- <-.
  - destruct fuel; simpl; by rewrite Z.eqb_refl.
  - assert (y <> hd) as Hne by (apply NoDup_cons in Hnd as [Hh _]; set_solver).
    destruct fuel as [|fuel]; [simpl in Hlen; lia|]. simpl.
    destruct (Z.eqb_spec y hd) as [|_]; [done|].
    destruct (cut_after hd ys) as (n & l3 & Hn).
    destruct (dlist_mid h hd xs y ys (removelast (hd :: xs)) l3 (List.last (hd :: xs) hd) n) as [_ Hy].
    { by apply app_removelast_last. }
    { done. }
    { by split. }
    unfold get_next. rewrite Hy. simpl.
    rewrite (IH fuel n (xs ++ [y])); [done| | |by exists l3|simpl in Hlen; lia].
    + by rewrite <- app_assoc.
    + by rewrite <- (app_assoc xs).
Qed.

Lemma list_for_each_spec h hd xs fuel :
  dlist h hd xs -> (length xs <= fuel)%nat -> list_for_each fuel hd h = Ret xs.
Proof.
  intros Hd Hf. destruct (cut_after hd xs) as (n & l2 & Hn).
  unfold list_for_each, get_next. rewrite (dlist_first _ _ _ _ _ Hn Hd). simpl.
  destruct Hd as [? ?]. by apply (list_for_each_from_spec h hd xs fuel n []); eauto.
Qed.

Lemma list_empty_spec h hd xs :
  dlist h hd xs -> list_empty hd h = Ret (match xs with [] => true | _ => false end).
Proof.
  intros Hd. destruct (cut_after hd xs) as (n & l2 & Hn).
  unfold list_empty, get_next. rewrite (dlist_first _ _ _ _ _ Hn Hd). simpl.
  destruct xs as [|x xs]; injection Hn as <- ?; [by rewrite Z.eqb_refl|].
  destruct Hd as [[Hh _]%NoDup_cons _]. destruct (Z.eqb_spec x hd); [set_solver|done].
Qed.

Lemma list_ends_spec h hd x xs :
  dlist h hd (x :: xs) ->
  list_first_entry hd h = Ret x /\ list_last_entry hd h = Ret (List.last xs x).
Proof.
  intros Hd. unfold list_first_entry, list_last_entry, get_next, get_prev.
  rewrite (dlist_first h hd (x :: xs) x (xs ++ [hd]) eq_refl Hd).
  rewrite (dlist_last h hd (x :: xs) (hd :: removelast (x :: xs)) (List.last (x :: xs) x)); [|by rewrite <- app_comm_cons, <- app_removelast_last|done].
  split; [done|]. simpl. by destruct xs.
Qed.

(** * Programs over a family of lists

    [astate] maps each list's head to its entries.  An operation's abstract
    step is the operation on the sequences. *)

Abbreviation astate := (gmap Z (list Z)).

Inductive lop :=
  | Ladd (new head : Z)
  | Ladd_tail (new head : Z)
  | Ldel (entry : Z)
  | Ldel_init (entry : Z)
  | Lmove (l head : Z)
  | Lmove_tail (l head : Z)
  | Lsplice_init (l head : Z)
  | Lsplice_tail_init (l head : Z).

Definition run_lop (o : lop) : heap -> outcome heap :=
  match o with
  | Ladd new head => list_add new head
  | Ladd_tail new head => list_add_tail new head
  | Ldel e => list_del e
  | Ldel_init e => list_del_init e
  | Lmove l head => list_move l head
  | Lmove_tail l head => list_move_tail l head
  | Lsplice_init l head => list_splice_init l head
  | Lsplice_tail_init l head => list_splice_tail_init l head
  end.

Fixpoint run_lops (os : list lop) (h : heap) : outcome heap :=
  match os with
  | [] => Ret h
  | o :: os => h ← run_lop o h; run_lops os h
  end.

(** [e] is in no list of the family *)
Definition unlinked (m : astate) (e : Z) : Prop :=
  forall hd xs, m !! hd = Some xs -> e ∉ hd :: xs.

Inductive astep : lop -> astate -> astate -> Prop :=
  | A_add m new hd xs : m !! hd = Some xs -> unlinked m new ->
      astep (Ladd new hd) m (<[hd := new :: xs]> m)
  | A_add_tail m new hd xs : m !! hd = Some xs -> unlinked m new ->
      astep (Ladd_tail new hd) m (<[hd := xs ++ [new]]> m)
  | A_del m e hd xs ys : m !! hd = Some (xs ++ e :: ys) ->
      astep (Ldel e) m (<[hd := xs ++ ys]> m)
  | A_del_init m e hd xs ys : m !! hd = Some (xs ++ e :: ys) ->
      astep (Ldel_init e) m (<[hd := xs ++ ys]> m)
  | A_move m e hd xs ys hd' zs : m !! hd = Some (xs ++ e :: ys) ->
      <[hd := xs ++ ys]> m !! hd' = Some zs ->
      astep (Lmove e hd') m (<[hd' := e :: zs]> (<[hd := xs ++ ys]> m))
  | A_move_tail m e hd xs ys hd' zs : m !! hd = Some (xs ++ e :: ys) ->
      <[hd := xs ++ ys]> m !! hd' = Some zs ->
      astep (Lmove_tail e hd') m (<[hd' := zs ++ [e]]> (<[hd := xs ++ ys]> m))
  | A_splice_init m l ys hd xs : l <> hd -> m !! l = Some ys -> m !! hd = Some xs ->
      astep (Lsplice_init l hd) m (<[l := []]> (<[hd := ys ++ xs]> m))
  | A_splice_tail_init m l ys hd xs : l <> hd -> m !! l = Some ys -> m !! hd = Some xs ->
      astep (Lsplice_tail_init l hd) m (<[l := []]> (<[hd := xs ++ ys]> m)).

Inductive asteps : list lop -> astate -> astate -> Prop :=
  | As_nil m : asteps [] m m
  | As_cons o os m m' m'' : astep o m m' -> asteps os m' m'' -> asteps (o :: os) m m''.

(** the objects an operation hands in must exist *)
Definition lop_arg (o : lop) : list Z :=
  match o with Ladd new _ | Ladd_tail new _ => [new] | _ => [] end.

(** the store holds every list of the family, over disjoint objects *)
Record rep (h : heap) (m : astate) : Prop := Rep {
  rep_dlist : forall hd xs, m !! hd = Some xs -> dlist h hd xs;
  rep_disjoint : forall hd1 hd2 xs1 xs2, hd1 <> hd2 -> m !! hd1 = Some xs1 ->
    m !! hd2 = Some xs2 -> forall x, x ∈ hd1 :: xs1 -> x ∉ hd2 :: xs2;
}.

(** no operation creates or destroys objects *)
Definition same_objects (h h' : heap) : Prop := forall a, live h a -> live h' a.

Lemma same_objects_trans h1 h2 h3 : same_objects h1 h2 -> same_objects h2 h3 -> same_objects h1 h3.
Proof. unfold same_objects. eauto. Qed.

Lemma set_next_objects a v h h' : set_next a v h = Ret h' -> same_objects h h'.
Proof.
  unfold set_next. destruct (nx h !! a) eqn:E; [|done]. intros [= <-] b [Hn Hp]. split; [|done].
  simpl. destruct (decide (a = b)) as [->|]; [rewrite lookup_insert_eq|rewrite lookup_insert_ne]; eauto.
Qed.

Lemma set_prev_objects a v h h' : set_prev a v h = Ret h' -> same_objects h h'.
Proof.
  unfold set_prev. destruct (pv h !! a) eqn:E; [|done]. intros [= <-] b [Hn Hp]. split; [done|].
  simpl. destruct (decide (a = b)) as [->|]; [rewrite lookup_insert_eq|rewrite lookup_insert_ne]; eauto.
Qed.

(** follow the stores of an operation *)
Ltac objects :=
  repeat match goal with
  | H : set_next _ _ _ = Ret _ |- _ => apply set_next_objects in H
  | H : set_prev _ _ _ = Ret _ |- _ => apply set_prev_objects in H
  | H : (if ?b then _ else _) = Ret _ |- _ => destruct b
  | H : Ret _ = Ret _ |- _ => injection H as <-
  | H : (_ ≫= _) = Ret _ |- _ => apply bind_Ret in H as (? & ? & ?)
  end; unfold same_objects in *; eauto 10.

Lemma run_lop_objects o h h' : run_lop o h = Ret h' -> same_objects h h'.
Proof.
  destruct o; simpl; unfold list_add, list_add_tail, list_del, list_del_init, list_move,
    list_move_tail, list_splice_init, list_splice_tail_init, __list_splice, INIT_LIST_HEAD,
    list_add, list_add_tail, __list_add, __list_del; intros H; objects.
Qed.

Section rep_lemmas.
Context (h : heap) (m : astate).

Lemma rep_unlinked hd xs e ys :
  rep h m -> m !! hd = Some (xs ++ e :: ys) -> unlinked (<[hd := xs ++ ys]> m) e.
Proof.
  intros [Hd Hx] Hm hd' zs Hl. destruct (decide (hd = hd')) as [<-|Hne].
  - rewrite lookup_insert_eq in Hl. injection Hl as <-.
    pose proof (proj1 (Hd _ _ Hm)) as Hnd.
    assert (hd :: xs ++ e :: ys ≡ₚ e :: hd :: xs ++ ys) as Hp by solve_Permutation.
    rewrite Hp in Hnd. by apply NoDup_cons in Hnd as [? _].
  - rewrite lookup_insert_ne in Hl by done. apply (Hx hd hd' _ _ Hne Hm Hl). set_solver.
Qed.

(** one list of the family replaced, over its own objects and unlinked ones *)
Lemma rep_update h' hd xs zs s :
  rep h m -> m !! hd = Some xs -> dlist h' hd zs -> only_touches s h h' ->
  (forall x, x ∈ s -> x ∈ hd :: xs \/ unlinked m x) ->
  (forall x, x ∈ zs -> x ∈ xs \/ unlinked m x) ->
  rep h' (<[hd := zs]> m).
Proof.
  intros [Hd Hx] Hm Hz Ht Hs Hzs. split.
  - intros hd' ys Hl. destruct (decide (hd = hd')) as [<-|Hne].
    + rewrite lookup_insert_eq in Hl. by injection Hl as <-.
    + rewrite lookup_insert_ne in Hl by done. apply (dlist_frame s h); [done| |by apply Hd].
      intros x Hin Hxs. destruct (Hs x Hxs) as [Ho|Hu].
      * by apply (Hx hd hd' xs ys Hne Hm Hl x Ho).
      * by apply (Hu hd' ys Hl).
  - assert (forall hd2 xs2, hd <> hd2 -> m !! hd2 = Some xs2 ->
      forall x, x ∈ hd :: zs -> x ∉ hd2 :: xs2) as Hmain.
    { intros hd2 xs2 Hne Hl x [->|Hin]%elem_of_cons.
      - apply (Hx hd hd2 xs xs2 Hne Hm Hl). by left.
      - destruct (Hzs x Hin) as [Ho|Hu]; [|by apply (Hu hd2 xs2)].
        apply (Hx hd hd2 xs xs2 Hne Hm Hl). by right. }
    intros hd1 hd2 xs1 xs2 Hne H1 H2 x Hin Hin2.
    rewrite lookup_insert in H1, H2.
    destruct (decide (hd = hd1)) as [<-|H1n], (decide (hd = hd2)) as [<-|H2n]; simplify_eq.
    + by apply (Hmain hd2 xs2 Hne H2 x Hin).
    + by apply (Hmain hd1 xs1 (not_eq_sym Hne) H1 x Hin2).
    + by apply (Hx hd1 hd2 xs1 xs2 Hne H1 H2 x Hin).
Qed.

Lemma rep_add h' hd xs zs new :
  rep h m -> m !! hd = Some xs -> unlinked m new -> dlist h' hd zs ->
  only_touches (new :: hd :: xs) h h' -> (forall x, x ∈ zs -> x = new \/ x ∈ xs) ->
  rep h' (<[hd := zs]> m).
Proof.
  intros Hr Hm Hu Hz Ht Hzs. apply (rep_update h' hd xs zs _ Hr Hm Hz Ht).
  - intros x [->|]%elem_of_cons; [by right|by left].
  - intros x Hx. destruct (Hzs x Hx) as [->|]; [by right|by left].
Qed.

Lemma rep_del h' hd xs e ys :
  rep h m -> m !! hd = Some (xs ++ e :: ys) -> dlist h' hd (xs ++ ys) ->
  only_touches (hd :: xs ++ e :: ys) h h' -> rep h' (<[hd := xs ++ ys]> m).
Proof.
  intros Hr Hm Hz Ht. apply (rep_update h' hd _ _ _ Hr Hm Hz Ht); [by left|]. set_solver.
Qed.
End rep_lemmas.

(** ** The moving and joining operations *)

Lemma list_move_rep (tail_ : bool) h m hd xs e ys hd' zs :
  rep h m -> m !! hd = Some (xs ++ e :: ys) -> <[hd := xs ++ ys]> m !! hd' = Some zs ->
  exists h', (if tail_ then list_move_tail e hd' h else list_move e hd' h) = Ret h' /\
    rep h' (<[hd' := if tail_ then zs ++ [e] else e :: zs]> (<[hd := xs ++ ys]> m)).
Proof.
  intros Hr Hm Hm'. pose proof (rep_dlist _ _ Hr _ _ Hm) as Hd.
  destruct (unlink_spec h hd xs e ys Hd) as (p & n & h1 & E1 & E2 & E3 & D1 & L1 & F1 & T1).
  pose proof (rep_unlinked h m hd xs e ys Hr Hm) as Hu.
  assert (rep h1 (<[hd := xs ++ ys]> m)) as Hr1.
  { apply (rep_del h m h1 hd xs e ys Hr Hm D1). eapply only_touches_mono, T1. set_solver. }
  pose proof (rep_dlist _ _ Hr1 _ _ Hm') as Hd'.
  destruct tail_.
  - destruct (list_add_tail_spec h1 hd' zs e Hd') as (h2 & E & D & T); [by apply Hu|done|].
    exists h2. unfold list_move_tail. rewrite E1, E2. simpl. rewrite E3. simpl. split; [done|].
    apply (rep_add h1 _ h2 hd' zs _ e Hr1 Hm' Hu D T). set_solver.
  - destruct (list_add_spec h1 hd' zs e Hd') as (h2 & E & D & T); [by apply Hu|done|].
    exists h2. unfold list_move. rewrite E1, E2. simpl. rewrite E3. simpl. split; [done|].
    apply (rep_add h1 _ h2 hd' zs _ e Hr1 Hm' Hu D T). set_solver.
Qed.

Lemma rep_splice h h2 m l ys hd xs zs :
  rep h m -> l <> hd -> m !! l = Some ys -> m !! hd = Some xs -> zs ≡ₚ xs ++ ys ->
  dlist h2 hd zs -> dlist h2 l [] -> only_touches (l :: hd :: xs ++ ys) h h2 ->
  rep h2 (<[l := []]> (<[hd := zs]> m)).
Proof.
  intros [Hd Hx] Hne Hl Hm Hperm Dz Dl Ht.
  assert (forall hd1 xs1, <[l:=[]]> (<[hd:=zs]> m) !! hd1 = Some xs1 ->
    hd1 = l /\ xs1 = [] \/ hd1 = hd /\ xs1 = zs \/ hd1 <> l /\ hd1 <> hd /\ m !! hd1 = Some xs1) as Hc.
  { intros hd1 xs1. rewrite !lookup_insert.
    destruct (decide (l = hd1)) as [<-|?]; [naive_solver|].
    destruct (decide (hd = hd1)) as [<-|?]; naive_solver. }
  assert (forall x, x ∈ zs -> x ∈ xs \/ x ∈ ys) as Hz.
  { intros x. rewrite Hperm. set_solver. }
  split.
  - intros hd1 xs1 [[-> ->]|[[-> ->]|(N1 & N2 & H1)]]%Hc; [done..|].
    apply (dlist_frame (l :: hd :: xs ++ ys) h); [done| |by apply Hd].
    intros x Hin Hs. assert (x ∈ hd :: xs \/ x ∈ l :: ys) as [Ho|Ho] by set_solver.
    + by apply (Hx hd hd1 xs xs1 (not_eq_sym N2) Hm H1 x Ho).
    + by apply (Hx l hd1 ys xs1 (not_eq_sym N1) Hl H1 x Ho).
  - assert (forall hd1 xs1 x, hd1 <> l -> hd1 <> hd -> m !! hd1 = Some xs1 -> x ∈ hd1 :: xs1 ->
      x ∉ l :: hd :: zs) as Hmain.
    { intros hd1 xs1 x N1 N2 H1 Hin Hs.
      assert (x ∈ hd :: xs \/ x ∈ l :: ys) as [Ho|Ho] by set_solver.
      - by apply (Hx hd hd1 xs xs1 (not_eq_sym N2) Hm H1 x Ho).
      - by apply (Hx l hd1 ys xs1 (not_eq_sym N1) Hl H1 x Ho). }
    assert (l ∉ hd :: zs) as Hlz.
    { intros [?|[Hi|Hi]%Hz]%elem_of_cons; [done| |].
      - apply (Hx l hd ys xs Hne Hl Hm l); set_solver.
      - pose proof (proj1 (Hd _ _ Hl)) as [? _]%NoDup_cons. done. }
    intros hd1 hd2 xs1 xs2 N H1 H2 x.
    apply Hc in H1 as [[-> ->]|[[-> ->]|(N1 & N2 & H1)]];
      apply Hc in H2 as [[-> ->]|[[-> ->]|(N3 & N4 & H2)]]; try done; intros Hi1 Hi2.
    + apply list_elem_of_singleton in Hi1 as ->. done.
    + eapply Hmain; [exact N3|exact N4|exact H2|exact Hi2|]. set_solver.
    + apply list_elem_of_singleton in Hi2 as ->. done.
    + eapply Hmain; [exact N3|exact N4|exact H2|exact Hi2|]. by right.
    + eapply Hmain; [exact N1|exact N2|exact H1|exact Hi1|]. set_solver.
    + eapply Hmain; [exact N1|exact N2|exact H1|exact Hi1|]. by right.
    + by apply (Hx hd1 hd2 xs1 xs2 N H1 H2 x).
Qed.

Lemma init_spec h l : live h l ->
  exists h', INIT_LIST_HEAD l h = Ret h' /\ dlist h' l [] /\ only_touches [l] h h'.
Proof.
  intros [[a Ha] [b Hb]]. unfold INIT_LIST_HEAD, set_next. rewrite Ha. simpl.
  unfold set_prev. simpl. rewrite Hb. eexists. split; [done|]. split.
  - split; [apply NoDup_singleton|]. simpl. by rewrite !lookup_insert_eq.
  - intros x Hx. simpl. rewrite !lookup_insert_ne by set_solver. done.
Qed.

Lemma splice_rep_aux h m l ys hd xs us vs l1 l2 p n :
  rep h m -> l <> hd -> m !! l = Some ys -> ys <> [] -> m !! hd = Some xs -> xs = us ++ vs ->
  hd :: us = l1 ++ [p] -> vs ++ [hd] = n :: l2 ->
  exists h1 h', __list_splice l p h = Ret h1 /\ INIT_LIST_HEAD l h1 = Ret h' /\
    rep h' (<[l := []]> (<[hd := us ++ ys ++ vs]> m)).
Proof.
  intros Hr Hne Hl Hys Hm -> Hp Hn.
  assert (forall x, x ∈ l :: ys -> x ∉ hd :: us ++ vs) as Hdis.
  { by apply (rep_disjoint _ _ Hr l hd). }
  destruct (__list_splice_spec h hd us vs l1 l2 p n l ys Hp Hn) as (h1 & E1 & D1 & T1 & L1);
    [by apply (rep_dlist _ _ Hr)|by apply (rep_dlist _ _ Hr)|done|done|].
  destruct (init_spec h1 l L1) as (h2 & E2 & D2 & T2).
  exists h1, h2. split_and!; [done..|].
  pose proof (proj1 (rep_dlist _ _ Hr _ _ Hl)) as [Hly _]%NoDup_cons.
  pose proof (Hdis l ltac:(by left)) as Hlx.
  apply (rep_splice h h2 m l ys hd (us ++ vs)); [done..|solve_Permutation| |done|].
  - apply (dlist_frame [l] h1); [done| |done]. intros x Hx ->%list_elem_of_singleton. set_solver.
  - apply (only_touches_trans _ h h1 h2); eapply only_touches_mono; [|done| |done]; set_solver.
Qed.

Lemma list_splice_rep (tail_ : bool) h m l ys hd xs :
  rep h m -> l <> hd -> m !! l = Some ys -> m !! hd = Some xs ->
  exists h', (if tail_ then list_splice_tail_init l hd h else list_splice_init l hd h) = Ret h' /\
    rep h' (<[l := []]> (<[hd := if tail_ then xs ++ ys else ys ++ xs]> m)).
Proof.
  intros Hr Hne Hl Hm. pose proof (rep_dlist _ _ Hr _ _ Hl) as Dl.
  pose proof (rep_dlist _ _ Hr _ _ Hm) as Dm.
  unfold list_splice_tail_init, list_splice_init. rewrite (list_empty_spec _ _ _ Dl).
  destruct ys as [|y ys]; simpl.
  { exists h. split; [by destruct tail_|]. rewrite app_nil_r.
    replace (if tail_ then xs else xs) with xs by (by destruct tail_).
    by rewrite (insert_id m hd xs Hm), (insert_id m l [] Hl). }
  destruct tail_.
  - destruct (cut_before hd xs) as (l1 & p & Hp).
    destruct (splice_rep_aux h m l (y :: ys) hd xs xs [] l1 [] p hd Hr Hne Hl) as (h1 & h2 & E1 & E2 & R);
      [done..|by rewrite app_nil_r|done|done|].
    unfold get_prev. rewrite (dlist_last _ _ _ _ _ Hp Dm). simpl. rewrite E1. simpl.
    exists h2. split; [done|]. by rewrite app_nil_r in R.
  - destruct (cut_after hd xs) as (n & l2 & Hn).
    destruct (splice_rep_aux h m l (y :: ys) hd xs [] xs [] l2 hd n Hr Hne Hl) as (h1 & h2 & E1 & E2 & R);
      [done..|].
    rewrite E1. simpl. exists h2. done.
Qed.

Lemma run_lop_rep o h m m' :
  rep h m -> astep o m m' -> (forall a, a ∈ lop_arg o -> live h a) ->
  exists h', run_lop o h = Ret h' /\ rep h' m'.
Proof.
  intros Hr Hs Ha. pose proof (rep_dlist _ _ Hr) as Hd. destruct Hs; simpl in *.
  - destruct (list_add_spec h hd xs new) as (h' & E & D & T); [eauto..|apply Ha; set_solver|].
    exists h'. split; [done|]. eapply (rep_add h m h' hd xs); [done..|]. set_solver.
  - destruct (list_add_tail_spec h hd xs new) as (h' & E & D & T); [eauto..|apply Ha; set_solver|].
    exists h'. split; [done|]. eapply (rep_add h m h' hd xs); [done..|]. set_solver.
  - destruct (list_del_spec h hd xs e ys) as (h' & E & D & _ & _ & T); [eauto|].
    exists h'. split; [done|]. by eapply (rep_del h m).
  - destruct (list_del_init_spec h hd xs e ys) as (h' & E & D & _ & T); [eauto|].
    exists h'. split; [done|]. by eapply (rep_del h m).
  - by apply (list_move_rep false).
  - by apply (list_move_rep true).
  - by apply (list_splice_rep false).
  - by apply (list_splice_rep true).
Qed.

(** C32: a program of list.h operations whose arguments are legal (an entry
    added is in no list, an entry removed or moved is in one) never touches an
    object that does not exist, and leaves in memory exactly the sequences the
    abstract operations compute; walking each list then terminates and visits
    exactly its entries, in order. *)
Theorem list_programs_refine (h : heap) (m m' : astate) (os : list lop)
    (Hrep : rep h m) (Hsteps : asteps os m m')
    (Hargs : forall o a, o ∈ os -> a ∈ lop_arg o -> live h a) :
  exists h', run_lops os h = Ret h' /\ rep h' m' /\
    forall hd xs, m' !! hd = Some xs -> list_for_each (length xs) hd h' = Ret xs.
Proof.
  revert h Hrep Hargs. induction Hsteps as [m|o os m1 m2 m3 Hs Hss IH]; intros h Hrep Hargs.
  - exists h. split_and!; [done..|]. intros hd xs Hm. apply list_for_each_spec; [|done].
    by apply (rep_dlist _ _ Hrep).
  - destruct (run_lop_rep o h m1 m2 Hrep Hs) as (h1 & E & R); [set_solver|].
    destruct (IH h1 R) as (h2 & E2 & R2).
    { intros o' a Ho Ha. apply (run_lop_objects o h h1 E), (Hargs o' a); set_solver. }
    exists h2. simpl. rewrite E. done.
Qed.

(** two lists at 1 and 2, and two entries 10 and 11 *)
Definition demo_heap : heap :=
  Heap {[ 1 := 1; 2 := 2; 10 := 10; 11 := 11 ]} {[ 1 := 1; 2 := 2; 10 := 10; 11 := 11 ]}.

Lemma demo_heap_rep : rep demo_heap {[ 1 := []; 2 := [] ]}.
Proof.
  split.
  - intros hd xs. rewrite lookup_insert, lookup_singleton.
    repeat case_decide; intros; simplify_eq;
      (split; [apply NoDup_singleton|split_and!; try apply I; by vm_compute]).
  - intros hd1 hd2 xs1 xs2 Hne. rewrite !lookup_insert, !lookup_singleton.
    repeat case_decide; intros; simplify_eq; set_solver.
Qed.

Lemma list_programs_refine_witness :
  exists h', run_lops [Ladd 10 1; Ladd_tail 11 1; Lmove 10 2; Lsplice_tail_init 2 1] demo_heap
             = Ret h' /\ list_for_each 2 1 h' = Ret [11; 10].
Proof.
  destruct (list_programs_refine demo_heap _ (<[2 := []]> (<[1 := [11; 10]]>
      (<[2 := [10]]> (<[1 := [11]]> (<[1 := [10; 11]]> (<[1 := [10]]> {[ 1 := []; 2 := [] ]}))))))
    [Ladd 10 1; Ladd_tail 11 1; Lmove 10 2; Lsplice_tail_init 2 1] demo_heap_rep)
    as (h' & E & _ & L).
  - assert (forall e, 2 < e -> unlinked {[ 1 := []; 2 := [] ]} e) as H0.
    { intros e He hd xs. rewrite lookup_insert, lookup_singleton.
      repeat case_decide; intros; simplify_eq; intros ->%list_elem_of_singleton; lia. }
    eapply As_cons; [apply (A_add _ 10 1 []); [done|by apply H0]|].
    eapply As_cons; [apply (A_add_tail _ 11 1 [10]); [done|]|].
    { intros hd xs. rewrite lookup_insert. case_decide; [|by apply H0].
      intros [= <-]. subst. set_solver. }
    eapply As_cons; [apply (A_move _ 10 1 [] [11] 2 []); done|].
    eapply As_cons; [by apply (A_splice_tail_init _ 2 [10] 1 [11])|]. apply As_nil.
  - intros o a Ho Ha. assert (a = 10 \/ a = 11) as [->| ->].
    { repeat (apply elem_of_cons in Ho as [->|Ho]; [simpl in Ha; set_solver|]). set_solver. }
    all: split; eexists; reflexivity.
  - exists h'. split; [done|]. apply (L 1 [11; 10]). reflexivity.
Defined.
