(* ===== verification/Buddy.v ===== *)
(** cp/mm/buddy.c and cp/include/page.h: the page frame allocator.

    A [struct page *] is its address (the array of 16-byte [struct page] at
    [PAGE_INFO_BASE]).  The state is the two arrays of free lists; each list is
    the sequence of its entries (Dlist.v), [list_add] being [cons] and
    [list_first_entry]/[list_del] taking the head.  An index outside an array of
    lists is undefined.  The theorems: the initial lists hold every page exactly
    once (below 6 GB), allocation and free neither lose nor duplicate pages
    whatever their order, ZONE_LOW pages are below 2 GB, and the cases the
    bounds of the code do not cover. *)

From S2P Require Import Prelude.

Local Open Scope Z_scope.

(** * page.h *)

Definition PAGE_SHIFT : Z := 12.
Definition PAGE_SIZE : Z := 4096.
Definition PAGE_INFO_BASE : Z := 0x400000.
Definition sizeof_page : Z := 16.

Definition ZONE_NORMAL : Z := 0.
Definition ZONE_LOW : Z := 1.
Definition ZONE_NORMAL_MAX_ORDER : Z := 64 - PAGE_SHIFT.
Definition ZONE_LOW_MAX_ORDER : Z := 31 - PAGE_SHIFT.

(** [&base[n]] for [struct page *base] *)
Definition page_index (base n : Z) : Z := u64 (base + sizeof_page * n).

Definition page_num_to_ptr (pnum : Z) : Z := page_index PAGE_INFO_BASE pnum.

Definition page_to_addr (page : Z) : Z :=
  u64 (Z.shiftl (u64 (page - PAGE_INFO_BASE) / sizeof_page) PAGE_SHIFT).

Definition addr_to_page (addr : Z) : Z :=
  page_index PAGE_INFO_BASE (Z.shiftr addr PAGE_SHIFT).

Definition IS_LOW_ZONE (page : Z) : bool := page_to_addr page <? 2 * 1024 * 1024 * 1024.

Definition ZONE_TYPE (page : Z) : Z := if IS_LOW_ZONE page then ZONE_LOW else ZONE_NORMAL.

(** [ADDR31]: an address the channel subsystem can use *)
Definition ADDR31 (ptr : Z) : outcome Z :=
  bug_on (negb (Z.land ptr (Z.lnot 0x7fffffff) =? 0)) ;; Ret (u32 ptr).

(** * buddy.c *)

Record buddy := Buddy {
  orders_normal : list (list Z);
  orders_low : list (list Z);
}.

(** [x << n] for an [int] [x]: the shift instruction of the machine takes the
    count modulo 64 and keeps the low 32 bits *)
Definition int_shl (x n : Z) : Z := s32 (Z.shiftl x (n mod 64)).

(** the loop of [__init_buddy_alloc] from [order] on, [n] iterations left *)
Fixpoint __init_buddy_orders (n : nat) (order base pages : Z) : list (list Z) :=
  match n with
  | O => []
  | S n =>
      if negb (Z.land pages (int_shl 1 order) =? 0)
      then [addr_to_page base] ::
           __init_buddy_orders n (order + 1) (u64 (base + int_shl PAGE_SIZE order)) pages
      else [] :: __init_buddy_orders n (order + 1) base pages
  end.

(** [int pages]: the caller's count is converted *)
Definition __init_buddy_alloc (base pages max_order : Z) : list (list Z) :=
  __init_buddy_orders (Z.to_nat max_order) 0 base (s32 pages).

Definition init_buddy_alloc (memsize start : Z) : buddy :=
  let G2 := 2 * 1024 * 1024 * 1024 in
  let '(low_pages, normal_pages) :=
    if memsize >? G2
    then let low := Z.shiftr (u64 (G2 - start)) PAGE_SHIFT in
         (low, u64 (Z.shiftr (u64 (memsize - start)) PAGE_SHIFT - low))
    else (Z.shiftr (u64 (memsize - start)) PAGE_SHIFT, 0) in
  Buddy (__init_buddy_alloc G2 normal_pages ZONE_NORMAL_MAX_ORDER)
        (__init_buddy_alloc start low_pages ZONE_LOW_MAX_ORDER).

Definition __do_alloc_pages (order : Z) (orders : list (list Z))
    : outcome (option Z * list (list Z)) :=
  l ← defined (aget orders order);
  match l with
  | [] => Ret (None, orders)
  | page :: l => orders' ← defined (aset orders order l); Ret (Some page, orders')
  end.

Definition __alloc_pages (order type : Z) (b : buddy) : outcome (option Z * buddy) :=
  let zone_low :=
    r ← __do_alloc_pages order (orders_low b);
    Ret (r.1, Buddy (orders_normal b) r.2) in
  if type =? ZONE_LOW then zone_low else
  r ← __do_alloc_pages order (orders_normal b);
  match r.1 with
  | Some p => Ret (Some p, Buddy r.2 (orders_low b))
  | None => zone_low
  end.

(** [list_add(&page->buddy, &orders[order])] for the zone [base] is in *)
Definition add_free (base page order : Z) (b : buddy) : outcome buddy :=
  if IS_LOW_ZONE base then
    l ← defined (aget (orders_low b) order);
    os ← defined (aset (orders_low b) order (page :: l));
    Ret (Buddy (orders_normal b) os)
  else
    l ← defined (aget (orders_normal b) order);
    os ← defined (aset (orders_normal b) order (page :: l));
    Ret (Buddy os (orders_low b)).

(** [n] is the number of iterations left, [actual - wanted] *)
Fixpoint chip_pages_loop (n : nat) (base actual : Z) (b : buddy) : outcome buddy :=
  match n with
  | O => Ret b
  | S n =>
      let p := page_index base (int_shl 1 (actual - 1)) in
      b ← add_free base p (actual - 1) b;
      chip_pages_loop n base (actual - 1) b
  end.

Definition __chip_pages (base actual wanted : Z) (b : buddy) : outcome buddy :=
  chip_pages_loop (Z.to_nat (actual - wanted)) base actual b.

(** the [for] loop over larger orders, [n] iterations left *)
Fixpoint alloc_larger (n : nat) (gord order type : Z) (b : buddy) : outcome (option Z * buddy) :=
  match n with
  | O => Ret (None, b)
  | S n =>
      r ← __alloc_pages gord type b;
      match r.1 with
      | None => alloc_larger n (gord + 1) order type r.2
      | Some page => b ← __chip_pages page gord order r.2; Ret (Some page, b)
      end
  end.

Definition alloc_pages (order type : Z) (b : buddy) : outcome (option Z * buddy) :=
  r ← __alloc_pages order type b;
  match r.1 with
  | Some page => Ret (Some page, r.2)
  | None =>
      let max_order := if type =? ZONE_LOW then ZONE_LOW_MAX_ORDER else ZONE_NORMAL_MAX_ORDER in
      alloc_larger (Z.to_nat (max_order - (order + 1))) (order + 1) order type r.2
  end.

Definition free_pages (ptr order : Z) (b : buddy) : outcome buddy :=
  let base := addr_to_page ptr in add_free base base order b.

(** * Pages and blocks *)

Definition page_no (p : Z) : Z := (p - PAGE_INFO_BASE) / sizeof_page.

(** the page numbers of the block of [2^order] pages at [p] *)
Definition pages (p order : Z) : list Z := seqZ (page_no p) (2 ^ order).

(** the free pages of the lists [os] of orders [k], [k+1], ... *)
Fixpoint zone_pages (k : Z) (os : list (list Z)) : list Z :=
  match os with
  | [] => []
  | l :: os => (l ≫= fun p => pages p k) ++ zone_pages (k + 1) os
  end.

Definition frees (b : buddy) : list Z := zone_pages 0 (orders_low b) ++ zone_pages 0 (orders_normal b).

(** pages below 2 GB have numbers below [2^19] *)
Definition block_in (lo hi k p : Z) : Prop :=
  exists n, p = PAGE_INFO_BASE + sizeof_page * n /\ lo <= n /\ n + 2 ^ k <= hi.

Abbreviation low_block := (block_in 0 (2 ^ 19)).
Abbreviation normal_block := (block_in (2 ^ 19) (2 ^ 30)).

Definition zone_ok (P : Z -> Z -> Prop) (os : list (list Z)) : Prop :=
  forall k l p, os !! k = Some l -> p ∈ l -> P (Z.of_nat k) p.

Record wf (b : buddy) : Prop := Wf {
  wf_low_len : lenZ (orders_low b) = ZONE_LOW_MAX_ORDER;
  wf_normal_len : lenZ (orders_normal b) = ZONE_NORMAL_MAX_ORDER;
  wf_low : zone_ok low_block (orders_low b);
  wf_normal : zone_ok normal_block (orders_normal b);
}.

(** ** Pointers and page numbers *)

Lemma page_index_ptr n m : 0 <= n -> 0 <= n + m < 2 ^ 52 ->
  page_index (PAGE_INFO_BASE + sizeof_page * n) m = PAGE_INFO_BASE + sizeof_page * (n + m).
Proof.
  intros. unfold page_index. rewrite wrap_small; unfold PAGE_INFO_BASE, sizeof_page; lia.
Qed.

Lemma page_num_to_ptr_val n : 0 <= n < 2 ^ 52 ->
  page_num_to_ptr n = PAGE_INFO_BASE + sizeof_page * n.
Proof.
  intros. unfold page_num_to_ptr.
  replace PAGE_INFO_BASE with (PAGE_INFO_BASE + sizeof_page * 0) by reflexivity.
  rewrite page_index_ptr by lia. f_equal.
Qed.

Lemma page_to_addr_val n : 0 <= n < 2 ^ 52 ->
  page_to_addr (PAGE_INFO_BASE + sizeof_page * n) = PAGE_SIZE * n.
Proof.
  intros. unfold page_to_addr, PAGE_INFO_BASE, sizeof_page, PAGE_SIZE, PAGE_SHIFT.
  rewrite (wrap_small 64 (_ - _)) by lia.
  replace ((4194304 + 16 * n - 4194304) / 16) with n by divlia.
  rewrite Z.shiftl_mul_pow2 by lia. rewrite wrap_small; lia.
Qed.

Lemma addr_to_page_val a : 0 <= a < 2 ^ 64 ->
  addr_to_page a = PAGE_INFO_BASE + sizeof_page * (a / 2 ^ 12).
Proof.
  intros. unfold addr_to_page. rewrite Z.shiftr_div_pow2 by (unfold PAGE_SHIFT; lia).
  apply page_num_to_ptr_val. unfold PAGE_SHIFT. divlia.
Qed.

Lemma page_no_ptr n : page_no (PAGE_INFO_BASE + sizeof_page * n) = n.
Proof. unfold page_no, PAGE_INFO_BASE, sizeof_page. divlia. Qed.

Lemma is_low_val n : 0 <= n < 2 ^ 52 ->
  IS_LOW_ZONE (PAGE_INFO_BASE + sizeof_page * n) = (n <? 2 ^ 19).
Proof.
  intros. unfold IS_LOW_ZONE. rewrite page_to_addr_val by done. unfold PAGE_SIZE.
  repeat case_bool; lia.
Qed.

Lemma pages_val n k : pages (PAGE_INFO_BASE + sizeof_page * n) k = seqZ n (2 ^ k).
Proof. unfold pages. by rewrite page_no_ptr. Qed.

Lemma seqZ_split n a c : 0 <= a -> 0 <= c -> seqZ n (a + c) = seqZ n a ++ seqZ (n + a) c.
Proof. intros. by rewrite seqZ_app. Qed.

Lemma int_shl_small x k : 0 <= k < 64 -> 0 <= x -> x * 2 ^ k < 2 ^ 31 -> int_shl x k = x * 2 ^ k.
Proof.
  intros. unfold int_shl. rewrite Z.mod_small by lia. rewrite Z.shiftl_mul_pow2 by lia.
  apply swrap_small; [lia|]. pose proof (Z.pow_pos_nonneg 2 k). nia.
Qed.

(** halving a block *)
Lemma block_halves lo hi k p : 0 <= lo -> hi <= 2 ^ 30 -> 0 < k -> block_in lo hi k p ->
  exists q, page_index p (int_shl 1 (k - 1)) = q /\ block_in lo hi (k - 1) p /\
    block_in lo hi (k - 1) q /\ pages p k = pages p (k - 1) ++ pages q (k - 1).
Proof.
  intros Hlo Hhi Hk (n & -> & Hn & Hm).
  assert (2 ^ k = 2 ^ (k - 1) + 2 ^ (k - 1)) as Hp.
  { replace k with (Z.succ (k - 1)) at 1 by lia. rewrite Z.pow_succ_r by lia. lia. }
  pose proof (Z.pow_pos_nonneg 2 (k - 1)) as Hpos.
  assert (k - 1 < 30) as Hk30.
  { destruct (decide (k - 1 < 30)) as [|Hge]; [done|].
    pose proof (Z.pow_le_mono_r 2 30 (k - 1)). lia. }
  rewrite int_shl_small by lia. rewrite page_index_ptr by lia.
  eexists. split; [done|]. rewrite !pages_val, Hp, seqZ_split by lia.
  split_and!; [|eexists; split; [done|]; lia|by rewrite Z.mul_1_l].
  eexists; split; [done|]; lia.
Qed.

(** ** The zones as collections of pages *)

Lemma zone_pages_uncons os k j l p r :
  os !! j = Some l -> l = p :: r ->
  zone_pages k os ≡ₚ pages p (k + Z.of_nat j) ++ zone_pages k (<[j := r]> os).
Proof.
  revert k j. induction os as [|l0 os IH]; intros k [|j] H Hl; [done..| |].
  - simpl in *. simplify_eq. simpl. rewrite Z.add_0_r. by rewrite <- !app_assoc.
  - simpl in *. rewrite (IH (k + 1) j H Hl).
    replace (k + 1 + Z.of_nat j) with (k + Z.of_nat (S j)) by lia. solve_Permutation.
Qed.

Lemma zone_pages_cons os k j l p :
  os !! j = Some l ->
  zone_pages k (<[j := p :: l]> os) ≡ₚ pages p (k + Z.of_nat j) ++ zone_pages k os.
Proof.
  intros H. rewrite (zone_pages_uncons (<[j := p :: l]> os) k j (p :: l) p l); [|apply list_lookup_insert_eq; by eapply lookup_lt_Some|done].
  rewrite list_insert_insert_eq, list_insert_id by done. done.
Qed.

Lemma zone_ok_insert P os j l :
  zone_ok P os -> (forall p, p ∈ l -> P (Z.of_nat j) p) -> zone_ok P (<[j := l]> os).
Proof.
  intros Hz Hl k l' p. rewrite list_lookup_insert_Some.
  intros [(-> & -> & _)|(_ & H)] Hp; [by apply Hl|by eapply Hz].
Qed.

Lemma wf_zone_lt b k : wf b -> 0 <= k < ZONE_LOW_MAX_ORDER ->
  is_Some (orders_low b !! Z.to_nat k) /\ is_Some (orders_normal b !! Z.to_nat k).
Proof.
  intros [Hl Hn _ _] Hk. unfold lenZ, ZONE_NORMAL_MAX_ORDER, ZONE_LOW_MAX_ORDER, PAGE_SHIFT in *.
  rewrite !lookup_lt_is_Some. lia.
Qed.

(** ** Each operation *)

Lemma do_alloc_spec P order os r os' :
  zone_ok P os -> __do_alloc_pages order os = Ret (r, os') ->
  0 <= order < lenZ os /\ lenZ os' = lenZ os /\ zone_ok P os' /\
  match r with
  | None => os' = os /\ os !! Z.to_nat order = Some []
  | Some p => P order p /\ zone_pages 0 os ≡ₚ pages p order ++ zone_pages 0 os'
  end.
Proof.
  intros Hz H. unfold __do_alloc_pages in H. apply bind_Ret in H as (l & Hl%defined_Ret & H).
  pose proof (aget_lt _ _ _ Hl). apply aget_Some in Hl as [Ho Hl].
  destruct l as [|p l]; [by simplify_eq|]. apply bind_Ret in H as (os1 & Hs%defined_Ret & [= <- <-]).
  rewrite aset_insert in Hs by done. injection Hs as <-.
  split; [done|]. split; [unfold lenZ; by rewrite length_insert|]. split; [|split].
  - apply zone_ok_insert; [done|]. intros q Hq. eapply Hz; [done|]. by right.
  - rewrite <- (Z2Nat.id order) by done. eapply Hz; [done|]. by left.
  - rewrite (zone_pages_uncons os 0 _ _ p l Hl eq_refl), Z.add_0_l, Z2Nat.id by done. done.
Qed.

(** the zone a block of order [k] lies in *)
Definition zone_block (low : bool) (k p : Z) : Prop :=
  if low then low_block k p /\ k < ZONE_LOW_MAX_ORDER
  else normal_block k p /\ k < ZONE_NORMAL_MAX_ORDER.

Lemma zone_block_low low k p : 0 <= k -> zone_block low k p -> IS_LOW_ZONE p = low.
Proof.
  intros Hk. pose proof (Z.pow_pos_nonneg 2 k).
  destruct low; intros [(n & -> & Hn & Hm) _]; rewrite is_low_val by lia; case_bool; lia.
Qed.

Lemma alloc_one_spec order type b r b' :
  wf b -> __alloc_pages order type b = Ret (r, b') ->
  wf b' /\ 0 <= order /\
  match r with
  | None => b' = b /\ orders_low b !! Z.to_nat order = Some [] /\ order < ZONE_LOW_MAX_ORDER
  | Some p => exists low, zone_block low order p /\ (type = ZONE_LOW -> low = true) /\
      frees b ≡ₚ pages p order ++ frees b'
  end.
Proof.
  intros [Hl Hn Hlo Hno] H. unfold __alloc_pages in H.
  assert (forall r b', (r ← __do_alloc_pages order (orders_low b);
      Ret (r.1, Buddy (orders_normal b) r.2)) = Ret (r, b') ->
    wf b' /\ 0 <= order /\ match r with
    | None => b' = b /\ orders_low b !! Z.to_nat order = Some [] /\ order < ZONE_LOW_MAX_ORDER
    | Some p => exists low, zone_block low order p /\ (type = ZONE_LOW -> low = true) /\
        frees b ≡ₚ pages p order ++ frees b' end) as Hlow.
  { intros r0 b0 H0. apply bind_Ret in H0 as ([r1 os] & H0 & [= <- <-]). simpl.
    apply (do_alloc_spec low_block) in H0 as (Ho & Hlen & Hz & Hr); [|done].
    split; [by split; simpl; try congruence|]. split; [lia|].
    destruct r1 as [p|].
    - exists true. destruct Hr as [Hp Hf]. split_and!; [split; [done|lia]|done|].
      unfold frees. simpl. rewrite Hf. by rewrite <- app_assoc.
    - destruct Hr as [-> Hr]. split; [by destruct b|]. split; [done|lia]. }
  destruct (Z.eqb_spec type ZONE_LOW) as [|Hne]; [by apply Hlow|].
  apply bind_Ret in H as ([r1 os] & H0 & H). simpl in H.
  apply (do_alloc_spec normal_block) in H0 as (Ho & Hlen & Hz & Hr); [|done].
  destruct r1 as [p|]; [|by apply Hlow]. injection H as <- <-.
  split; [by split; simpl; try congruence|]. split; [lia|].
  destruct Hr as [Hp Hf]. exists false. split; [split; [done|lia]|]. split; [done|].
  unfold frees. simpl. rewrite Hf. solve_Permutation.
Qed.

Lemma add_free_spec base low k q b :
  wf b -> 0 <= k -> IS_LOW_ZONE base = low -> zone_block low k q ->
  exists b', add_free base q k b = Ret b' /\ wf b' /\ frees b' ≡ₚ pages q k ++ frees b.
Proof.
  intros [Hl Hn Hlo Hno] Hk Hb Hq. unfold add_free. rewrite Hb.
  destruct low; destruct Hq as [Hq Hlt].
  - destruct (proj2 (aget_is_Some (orders_low b) k)) as [l Hg]; [lia|]. rewrite Hg. simpl.
    apply aget_Some in Hg as [_ Hg]. rewrite aset_insert by lia. simpl.
    eexists. split; [done|]. split.
    + split; simpl; [unfold lenZ in *; by rewrite length_insert|done| |done].
      apply zone_ok_insert; [done|]. rewrite Z2Nat.id by done.
      intros p [->|Hp]%elem_of_cons; [done|]. rewrite <- (Z2Nat.id k) by done. by eapply Hlo.
    + unfold frees. simpl. rewrite (zone_pages_cons _ 0 _ _ q Hg), Z.add_0_l, Z2Nat.id by done.
      by rewrite <- app_assoc.
  - destruct (proj2 (aget_is_Some (orders_normal b) k)) as [l Hg]; [lia|]. rewrite Hg. simpl.
    apply aget_Some in Hg as [_ Hg]. rewrite aset_insert by lia. simpl.
    eexists. split; [done|]. split.
    + split; simpl; [done|unfold lenZ in *; by rewrite length_insert|done|].
      apply zone_ok_insert; [done|]. rewrite Z2Nat.id by done.
      intros p [->|Hp]%elem_of_cons; [done|]. rewrite <- (Z2Nat.id k) by done. by eapply Hno.
    + unfold frees. simpl. rewrite (zone_pages_cons _ 0 _ _ q Hg), Z.add_0_l, Z2Nat.id by done.
      solve_Permutation.
Qed.

Lemma zone_block_halves low k p : 0 < k -> zone_block low k p ->
  exists q, page_index p (int_shl 1 (k - 1)) = q /\ zone_block low (k - 1) p /\
    zone_block low (k - 1) q /\ pages p k = pages p (k - 1) ++ pages q (k - 1).
Proof.
  intros Hk Hz. destruct low; destruct Hz as [Hz Hlt];
    apply block_halves in Hz as (q & E & H1 & H2 & Hp); try lia;
    exists q; split_and!; try done; split; try done; lia.
Qed.

Lemma chip_pages_spec low n wanted actual base b :
  wf b -> 0 <= wanted -> actual = wanted + Z.of_nat n -> zone_block low actual base ->
  exists b', chip_pages_loop n base actual b = Ret b' /\ wf b' /\ zone_block low wanted base /\
    pages base actual ++ frees b ≡ₚ pages base wanted ++ frees b'.
Proof.
  revert actual b. induction n as [|n IH]; intros actual b Hwf Hw -> Hz.
  - exists b. rewrite Z.add_0_r in *. done.
  - destruct (zone_block_halves low (wanted + Z.of_nat (S n)) base) as (q & Eq & Hp & Hq & Hs); [lia|done|].
    destruct (add_free_spec base low (wanted + Z.of_nat (S n) - 1) q b Hwf) as (b1 & E1 & W1 & F1);
      [lia| |done|].
    { apply (zone_block_low low (wanted + Z.of_nat (S n) - 1)); [lia|done]. }
    destruct (IH (wanted + Z.of_nat (S n) - 1) b1 W1 Hw) as (b2 & E2 & W2 & Z2 & F2); [lia|done|].
    exists b2. cbn [chip_pages_loop]. rewrite Eq, E1. simpl mbind. split_and!; [done..|].
    rewrite Hs, <- F2, F1. solve_Permutation.
Qed.

Definition alloc_post (order type : Z) (b b' : buddy) (r : option Z) : Prop :=
  match r with
  | None => b' = b
  | Some p => 0 <= order /\ (exists low, zone_block low order p /\ (type = ZONE_LOW -> low = true)) /\
      frees b ≡ₚ pages p order ++ frees b'
  end.

Lemma alloc_larger_spec n gord order type b r b' :
  wf b -> 0 <= order <= gord -> alloc_larger n gord order type b = Ret (r, b') ->
  wf b' /\ alloc_post order type b b' r.
Proof.
  revert gord b. induction n as [|n IH]; intros gord b Hwf Ho H; simpl in H; [by simplify_eq|].
  apply bind_Ret in H as ([r1 b1] & H1 & H). simpl in H.
  apply alloc_one_spec in H1 as (W1 & _ & H1); [|done]. destruct r1 as [p|].
  - destruct H1 as (low & Hz & Ht & Hf). apply bind_Ret in H as (b2 & H2 & [= <- <-]).
    unfold __chip_pages in H2.
    destruct (chip_pages_spec low (Z.to_nat (gord - order)) order gord p b1)
      as (b3 & E & W3 & Z3 & F3); [done|lia|lia|done|].
    rewrite E in H2. injection H2 as ->. split; [done|]. split; [lia|]. split; [by exists low|].
    by rewrite Hf, F3.
  - destruct H1 as (-> & _). apply IH in H; [done|done|lia].
Qed.

Lemma alloc_pages_spec order type b r b' :
  wf b -> alloc_pages order type b = Ret (r, b') -> wf b' /\ alloc_post order type b b' r.
Proof.
  intros Hwf H. unfold alloc_pages in H. apply bind_Ret in H as ([r1 b1] & H1 & H). simpl in H.
  apply alloc_one_spec in H1 as (W1 & Ho & H1); [|done]. destruct r1 as [p|].
  - injection H as <- <-. destruct H1 as (low & Hz & Ht & Hf). split; [done|].
    split; [done|]. split; [by exists low|done].
  - destruct H1 as (-> & _). by apply alloc_larger_spec in H; [|done|lia].
Qed.

Lemma free_pages_spec p low order b :
  wf b -> 0 <= order -> zone_block low order p ->
  exists b', free_pages (page_to_addr p) order b = Ret b' /\ wf b' /\
    frees b' ≡ₚ pages p order ++ frees b.
Proof.
  intros Hwf Ho Hz. pose proof (Z.pow_pos_nonneg 2 order).
  assert (addr_to_page (page_to_addr p) = p) as E.
  { destruct low; destruct Hz as [(n & -> & Hn & Hm) _]; rewrite page_to_addr_val by lia;
      unfold PAGE_SIZE; rewrite addr_to_page_val by lia; unfold sizeof_page; f_equal; divlia. }
  unfold free_pages. rewrite E. apply (add_free_spec p low); [done..| |done].
  by apply (zone_block_low low order).
Qed.

(** ** The initial lists *)

Lemma land_pow2 p o : 0 <= o -> (Z.land p (2 ^ o) =? 0) = negb (Z.testbit p o).
Proof.
  intros Ho. destruct (Z.testbit p o) eqn:Hb; simpl.
  - apply Z.eqb_neq. intros H. apply (f_equal (fun z => Z.testbit z o)) in H.
    by rewrite Z.land_spec, Z.pow2_bits_true, Hb, Z.bits_0 in H.
  - apply Z.eqb_eq, Z.bits_inj'. intros k Hk. rewrite Z.land_spec, Z.bits_0.
    destruct (decide (k = o)) as [->|]; [by rewrite Hb|].
    by rewrite Z.pow2_bits_false, andb_false_r by done.
Qed.

Lemma testbit_high p o k : 0 <= p < 2 ^ k -> k <= o -> Z.testbit p o = false.
Proof.
  intros Hp Hk. destruct (decide (p = 0)) as [->|]; [apply Z.bits_0|].
  destruct (decide (0 <= k)) as [H0|H0]; [|by rewrite Z.pow_neg_r in Hp by lia; lia].
  apply Z.bits_above_log2; [lia|]. apply Z.log2_lt_pow2; [lia|].
  pose proof (Z.pow_le_mono_r 2 k o). lia.
Qed.

(** the test of an order's bit, for every order the loops reach *)
Lemma order_bit p o : 0 <= p < 2 ^ 31 -> 0 <= o < 64 ->
  (Z.land p (int_shl 1 o) =? 0) = negb (Z.testbit p o).
Proof.
  intros Hp Ho. destruct (decide (o < 31)) as [Hlt|Hge].
  - rewrite int_shl_small; [|lia..|]; [rewrite Z.mul_1_l; apply land_pow2; lia|].
    pose proof (Z.pow_lt_mono_r 2 o 31). lia.
  - rewrite (testbit_high p o 31) by lia. apply Z.eqb_eq.
    unfold int_shl. rewrite Z.mod_small, Z.shiftl_1_l by lia.
    destruct (decide (o = 31)) as [->|].
    + change (s32 (2 ^ 31)) with (Z.lnot (Z.ones 31)). rewrite <- Z.ldiff_land, Z.ldiff_ones_r by lia.
      rewrite Z.shiftr_div_pow2, Z.div_small by lia. done.
    + replace (s32 (2 ^ o)) with 0; [by rewrite Z.land_0_r|].
      unfold swrap. replace o with (32 + (o - 32)) by lia. rewrite Z.pow_add_r by lia.
      rewrite Z.add_comm, Z.mul_comm, Z_mod_plus_full. done.
Qed.

(** the pages of [p] counted by the bits from [o] on *)
Definition above (p o : Z) : Z := p / 2 ^ o * 2 ^ o.

Lemma above_step p o : 0 <= o ->
  above p o = Z.b2z (Z.testbit p o) * 2 ^ o + above p (o + 1).
Proof.
  intros Ho. unfold above. pose proof (Z.pow_pos_nonneg 2 o ltac:(lia) Ho).
  rewrite Z.testbit_spec', Z.pow_add_r, <- Z.div_div by lia.
  change (2 ^ 1) with 2. generalize (2 ^ o); intros m. generalize (p / m); intros q.
  rewrite (Z.div_mod q 2) at 1 by lia. ring.
Qed.

Lemma above_nonneg p o : 0 <= p -> 0 <= above p o.
Proof.
  intros. unfold above. destruct (decide (0 <= o)).
  - pose proof (Z.pow_pos_nonneg 2 o). apply Z.mul_nonneg_nonneg; [apply Z.div_pos|]; lia.
  - rewrite Z.pow_neg_r; lia.
Qed.

Lemma above_small p o : 0 <= p < 2 ^ o -> above p o = 0.
Proof. intros. unfold above. by rewrite Z.div_small. Qed.

Lemma init_orders_none n o base p :
  0 <= o -> o + Z.of_nat n <= 64 -> 0 <= p < 2 ^ 31 -> p < 2 ^ o ->
  __init_buddy_orders n o base p = replicate n [].
Proof.
  revert o base. induction n as [|n IH]; intros o base Ho Hn Hp Hs; [done|]. simpl.
  rewrite order_bit, (testbit_high p o o) by lia. simpl. f_equal. apply IH; try lia.
  pose proof (Z.pow_le_mono_r 2 o (o + 1)). lia.
Qed.

Lemma zone_pages_none n o : zone_pages o (replicate n []) = [].
Proof. revert o. by induction n; intros; simpl. Qed.

Lemma block_in_mono lo hi lo' hi' k p :
  lo' <= lo -> hi <= hi' -> block_in lo hi k p -> block_in lo' hi' k p.
Proof. intros ?? (n & -> & ? & ?). exists n. split; [done|]. lia. Qed.

Lemma init_orders_spec n o base p :
  0 <= o -> o + Z.of_nat n <= 64 -> 0 <= p < 2 ^ 20 -> p < 2 ^ (o + Z.of_nat n) ->
  0 <= base -> base mod 2 ^ 12 = 0 -> base + 2 ^ 12 * above p o < 2 ^ 63 ->
  let os := __init_buddy_orders n o base p in
  zone_pages o os = seqZ (base / 2 ^ 12) (above p o) /\ length os = n /\
  forall j l q, os !! j = Some l -> q ∈ l ->
    block_in (base / 2 ^ 12) (base / 2 ^ 12 + above p o) (o + Z.of_nat j) q.
Proof.
  revert o base. induction n as [|n IH]; intros o base Ho Hn Hp Hs Hb Hm Hlim; cbv zeta.
  { rewrite Z.add_0_r in Hs. rewrite (above_small p o) by lia.
    split_and!; [done|done|]. by intros [|j]. }
  simpl __init_buddy_orders. rewrite order_bit by lia. rewrite negb_involutive.
  pose proof (above_step p o Ho) as Ha. pose proof (above_nonneg p (o + 1) ltac:(lia)) as Hge.
  pose proof (Z.pow_pos_nonneg 2 o ltac:(lia) Ho) as Hpos.
  replace (o + Z.of_nat (S n)) with (o + 1 + Z.of_nat n) in * by lia.
  destruct (Z.testbit p o) eqn:Hbit; simpl Z.b2z in Ha.
  - assert (o < 20) as Ho20.
    { destruct (decide (o < 20)) as [|Hge20]; [done|].
      rewrite (testbit_high p o 20) in Hbit by lia. discriminate Hbit. }
    set (base' := u64 (base + int_shl PAGE_SIZE o)).
    assert (zone_pages (o + 1) (__init_buddy_orders n (o + 1) base' p) =
        seqZ (base / 2 ^ 12 + 2 ^ o) (above p (o + 1)) /\
      length (__init_buddy_orders n (o + 1) base' p) = n /\
      forall j l q, __init_buddy_orders n (o + 1) base' p !! j = Some l -> q ∈ l ->
        block_in (base / 2 ^ 12 + 2 ^ o) (base / 2 ^ 12 + 2 ^ o + above p (o + 1))
          (o + 1 + Z.of_nat j) q) as (Hz & Hl & Hin).
    { destruct (decide (o = 19)) as [->|].
      - rewrite init_orders_none by lia. rewrite zone_pages_none, length_replicate.
        rewrite above_small by lia. split; [done|]. split; [done|].
        intros j l q [-> _]%lookup_replicate. set_solver.
      - assert (base' = base + 2 ^ 12 * 2 ^ o) as ->.
        { unfold base', PAGE_SIZE. rewrite int_shl_small; [|lia..|].
          - rewrite wrap_small; [done|]. lia.
          - pose proof (Z.pow_le_mono_r 2 o 18). lia. }
        replace (base / 2 ^ 12 + 2 ^ o) with ((base + 2 ^ 12 * 2 ^ o) / 2 ^ 12) by divlia.
        apply IH; try lia; divlia. }
    rewrite addr_to_page_val by lia. split_and!; [|by simpl; rewrite Hl|].
    + simpl zone_pages. rewrite pages_val, Hz, app_nil_r, Ha, Z.mul_1_l, seqZ_split by lia. done.
    + intros [|j] l q Hj Hq; simpl in Hj.
      * injection Hj as <-. apply list_elem_of_singleton in Hq as ->. rewrite Z.add_0_r.
        eexists. split; [done|]. lia.
      * apply (Hin j l q Hj) in Hq. replace (o + Z.of_nat (S j)) with (o + 1 + Z.of_nat j) by lia.
        eapply block_in_mono, Hq; lia.
  - destruct (IH (o + 1) base) as (Hz & Hl & Hin); try lia.
    assert (above p o = above p (o + 1)) as -> by lia.
    split_and!; [done|by simpl; rewrite Hl|].
    intros [|j] l q Hj Hq; simpl in Hj; [simplify_eq; set_solver|].
    replace (o + Z.of_nat (S j)) with (o + 1 + Z.of_nat j) by lia. by apply (Hin j l q).
Qed.

Lemma init_zone_spec base p max :
  0 <= max <= 64 -> 0 <= p < 2 ^ 20 -> p < 2 ^ max -> 0 <= base < 2 ^ 62 -> base mod 2 ^ 12 = 0 ->
  let os := __init_buddy_alloc base p max in
  zone_pages 0 os = seqZ (base / 2 ^ 12) p /\ lenZ os = max /\
  zone_ok (block_in (base / 2 ^ 12) (base / 2 ^ 12 + p)) os.
Proof.
  intros Hmax Hp Hs Hb Hm. unfold __init_buddy_alloc.
  rewrite swrap_small by lia. assert (above p 0 = p) as Ha by (unfold above; rewrite Z.div_1_r; lia).
  destruct (init_orders_spec (Z.to_nat max) 0 base p) as (Hz & Hl & Hin); rewrite ?Ha; try lia.
  { by rewrite Z.add_0_l, Z2Nat.id by lia. }
  rewrite Ha in *. split; [done|]. split; [unfold lenZ; lia|]. exact Hin.
Qed.

Lemma init_buddy_spec memsize start :
  0 < start <= 2 ^ 31 -> start <= memsize < 6 * 2 ^ 30 -> start mod 2 ^ 12 = 0 ->
  wf (init_buddy_alloc memsize start) /\
  frees (init_buddy_alloc memsize start) = seqZ (start / 2 ^ 12) ((memsize - start) / 2 ^ 12).
Proof.
  intros Hs Hm Ha. unfold init_buddy_alloc. cbv zeta. unfold PAGE_SHIFT.
  change (2 * 1024 * 1024 * 1024) with (2 ^ 31).
  rewrite (wrap_small 64 (memsize - start)), (wrap_small 64 (2 ^ 31 - start)) by lia.
  rewrite !Z.shiftr_div_pow2 by lia. rewrite Z.gtb_ltb.
  destruct (Z.ltb_spec (2 ^ 31) memsize) as [Hbig|Hsmall].
  - set (lowp := (2 ^ 31 - start) / 2 ^ 12).
    rewrite wrap_small by (unfold lowp; divlia).
    set (norm := (memsize - start) / 2 ^ 12 - lowp).
    assert (start / 2 ^ 12 + lowp = 2 ^ 19) as Hlow by (unfold lowp; divlia).
    destruct (init_zone_spec start lowp ZONE_LOW_MAX_ORDER) as (Z1 & L1 & O1);
      [done|unfold lowp; divlia|unfold lowp, ZONE_LOW_MAX_ORDER, PAGE_SHIFT; divlia|lia|done|].
    destruct (init_zone_spec (2 ^ 31) norm ZONE_NORMAL_MAX_ORDER) as (Z2 & L2 & O2);
      [done|unfold norm, lowp; divlia|unfold norm, lowp, ZONE_NORMAL_MAX_ORDER, PAGE_SHIFT; divlia|lia|done|].
    split.
    + split; simpl; [done|done| |].
      * intros k l p Hk Hp. eapply block_in_mono, (O1 k l p Hk Hp); [divlia|lia].
      * intros k l p Hk Hp. eapply block_in_mono, (O2 k l p Hk Hp); [done|unfold norm, lowp; divlia].
    + unfold frees. simpl. rewrite Z1, Z2.
      replace ((memsize - start) / 2 ^ 12) with (lowp + norm) by (unfold norm; lia).
      rewrite seqZ_split; [by rewrite Hlow|unfold lowp; divlia|unfold norm, lowp; divlia].
  - set (lowp := (memsize - start) / 2 ^ 12).
    destruct (init_zone_spec start lowp ZONE_LOW_MAX_ORDER) as (Z1 & L1 & O1);
      [done|unfold lowp; divlia|unfold lowp, ZONE_LOW_MAX_ORDER, PAGE_SHIFT; divlia|lia|done|].
    destruct (init_zone_spec (2 ^ 31) 0 ZONE_NORMAL_MAX_ORDER) as (Z2 & L2 & O2); [done..|].
    split.
    + split; simpl; [done|done| |].
      * intros k l p Hk Hp. eapply block_in_mono, (O1 k l p Hk Hp); [divlia|unfold lowp; divlia].
      * intros k l p Hk Hp. eapply block_in_mono, (O2 k l p Hk Hp); [done|by vm_compute].
    + unfold frees. cbn [orders_low orders_normal]. by rewrite Z1, Z2, app_nil_r.
Qed.

(** ** Histories *)

(** [history b0 b A]: calls from [b0] led to [b] with the blocks [A] (page and
    order) handed out and not yet freed *)
Inductive history (b0 : buddy) : buddy -> list (Z * Z) -> Prop :=
  | H_init : history b0 b0 []
  | H_alloc order type b A p b' : history b0 b A ->
      alloc_pages order type b = Ret (Some p, b') -> history b0 b' ((p, order) :: A)
  | H_no_memory order type b A b' : history b0 b A ->
      alloc_pages order type b = Ret (None, b') -> history b0 b' A
  | H_free p order b A1 A2 b' : history b0 b (A1 ++ (p, order) :: A2) ->
      free_pages (page_to_addr p) order b = Ret b' -> history b0 b' (A1 ++ A2).

Definition allocated (A : list (Z * Z)) : list Z := A ≫= fun pk => pages pk.1 pk.2.

Lemma history_inv b0 b A : wf b0 -> history b0 b A ->
  wf b /\ (forall pk, pk ∈ A -> 0 <= pk.2 /\ exists low, zone_block low pk.2 pk.1) /\
  allocated A ++ frees b ≡ₚ frees b0.
Proof.
  intros Hwf. induction 1 as [|order type b A p b' _ (W & HA & HP) E
    |order type b A b' _ (W & HA & HP) E|p order b A1 A2 b' _ (W & HA & HP) E].
  - split; [done|]. split; [set_solver|done].
  - apply alloc_pages_spec in E as (W' & Ho & (low & Hz & _) & Hf); [|done].
    split; [done|]. split.
    + intros pk [->|Hpk]%elem_of_cons; [simpl; eauto|by apply HA].
    + rewrite <- HP, Hf. unfold allocated. simpl. solve_Permutation.
  - apply alloc_pages_spec in E as (W' & ->); [|done]. done.
  - destruct (HA (p, order)) as (Ho & low & Hz); [set_solver|]. simpl in *.
    destruct (free_pages_spec p low order b W Ho Hz) as (b1 & E1 & W1 & F1).
    rewrite E1 in E. injection E as ->. split; [done|]. split.
    + intros pk Hpk. apply HA. set_solver.
    + rewrite <- HP, F1. unfold allocated. rewrite !bind_app, bind_cons. simpl. solve_Permutation.
Qed.

Lemma NoDup_seqZ n k : NoDup (seqZ n k).
Proof. apply NoDup_seqZ. Qed.

(** C1: with less than 6 GB of storage, after any sequence of alloc_pages and
    free_pages calls on the lists init_buddy_alloc built, the pages of the
    blocks handed out together with the pages on the free lists are exactly the
    pages from [start] to the end of storage, each exactly once: no page is
    lost, no page is handed out twice, and no page outside storage is handed
    out. *)
Theorem pages_conserved (memsize start : Z) (b : buddy) (A : list (Z * Z))
    (Hstart : 0 < start <= 2 ^ 31) (Hmem : start <= memsize < 6 * 2 ^ 30)
    (Halign : start mod 2 ^ 12 = 0) (Hist : history (init_buddy_alloc memsize start) b A) :
  allocated A ++ frees b ≡ₚ seqZ (start / 2 ^ 12) ((memsize - start) / 2 ^ 12) /\
  NoDup (allocated A ++ frees b).
Proof.
  destruct (init_buddy_spec memsize start Hstart Hmem Halign) as [Hwf Hf].
  destruct (history_inv _ b A Hwf Hist) as (_ & _ & HP). rewrite Hf in HP.
  split; [done|]. rewrite HP. apply NoDup_seqZ.
Qed.

(** a 3 MB machine whose first megabyte is taken: 512 free pages in one block *)
Lemma pages_conserved_witness :
  exists b p q, history (init_buddy_alloc 0x300000 0x100000) b [(p, 3); (q, 0)] /\
    NoDup (allocated [(p, 3); (q, 0)] ++ frees b).
Proof.
  set (b0 := init_buddy_alloc 0x300000 0x100000).
  destruct (alloc_pages 0 ZONE_LOW b0) as [[[q|] b1]| |] eqn:E1; try (vm_compute in E1; discriminate E1).
  destruct (alloc_pages 3 ZONE_NORMAL b1) as [[[p|] b2]| |] eqn:E2;
    try (vm_compute in E1; injection E1 as <- <-; vm_compute in E2; discriminate E2).
  exists b2, p, q.
  assert (history b0 b2 [(p, 3); (q, 0)]) as Hh.
  { eapply H_alloc, E2. eapply H_alloc, E1. apply H_init. }
  split; [exact Hh|].
  apply (pages_conserved 0x300000 0x100000 b2 _ ltac:(lia) ltac:(lia) eq_refl Hh).
Defined.

(** ** When an allocation succeeds *)

Lemma do_alloc_total order os : 0 <= order < lenZ os ->
  exists r os', __do_alloc_pages order os = Ret (r, os') /\
    (r = None <-> os !! Z.to_nat order = Some []).
Proof.
  intros Ho. destruct (proj2 (aget_is_Some os order) Ho) as [l Hl]. unfold __do_alloc_pages.
  rewrite Hl. simpl. apply aget_Some in Hl as [_ Hl]. rewrite Hl. destruct l as [|p l].
  - exists None, os. done.
  - rewrite aset_insert by done. simpl. eexists _, _. split; [done|]. naive_solver.
Qed.

Lemma alloc_low_total order b : wf b -> 0 <= order < ZONE_LOW_MAX_ORDER ->
  exists r b', __alloc_pages order ZONE_LOW b = Ret (r, b') /\
    (r = None <-> orders_low b !! Z.to_nat order = Some []).
Proof.
  intros [Hl _ _ _] Ho. unfold __alloc_pages. simpl.
  destruct (do_alloc_total order (orders_low b)) as (r & os & E & Hr); [lia|].
  rewrite E. simpl. by eexists _, _.
Qed.

(** every list of the orders [from] and up is empty *)
Definition exhausted (os : list (list Z)) (from : Z) : Prop :=
  forall k, from <= k < lenZ os -> os !! Z.to_nat k = Some [].

Lemma exhausted_step os k : 0 <= k < lenZ os ->
  exhausted os k <-> os !! Z.to_nat k = Some [] /\ exhausted os (k + 1).
Proof.
  intros Hk. split.
  - intros H. split; [apply H; lia|]. intros j Hj. apply H. lia.
  - intros [H1 H2] j Hj. destruct (decide (j = k)) as [->|]; [done|]. apply H2. lia.
Qed.

Lemma chip_total low k order p b : wf b -> 0 <= order <= k -> zone_block low k p ->
  exists b', __chip_pages p k order b = Ret b'.
Proof.
  intros Hwf Ho Hz. unfold __chip_pages.
  destruct (chip_pages_spec low (Z.to_nat (k - order)) order k p b) as (b' & E & _); [done|lia|lia|done|].
  by exists b'.
Qed.

Lemma alloc_larger_low n gord order b :
  wf b -> 0 <= order < gord -> gord + Z.of_nat n = ZONE_LOW_MAX_ORDER ->
  exists r b', alloc_larger n gord order ZONE_LOW b = Ret (r, b') /\
    (r = None <-> exhausted (orders_low b) gord).
Proof.
  revert gord. induction n as [|n IH]; intros gord Hwf Ho Hn.
  - exists None, b. split; [done|]. split; [|done]. intros _ k Hk. destruct Hwf. lia.
  - cbn [alloc_larger].
    destruct (alloc_low_total gord b Hwf) as (r & b1 & E & Hr); [lia|]. rewrite E.
    pose proof (alloc_one_spec _ _ _ _ _ Hwf E) as (W1 & _ & H1).
    pose proof (exhausted_step (orders_low b) gord ltac:(destruct Hwf; lia)) as Hex.
    cbn [mbind outcome_bind fst snd].
    destruct r as [p|].
    + destruct H1 as (low & Hz & _). destruct (chip_total low gord order p b1) as (b2 & E2); [done|lia|done|].
      rewrite E2. simpl. eexists _, _. split; [done|]. naive_solver.
    + destruct H1 as (-> & Hempty & _). destruct (IH (gord + 1)) as (r & b' & E' & Hr'); [done|lia|lia|].
      rewrite E'. eexists _, _. split; [done|]. naive_solver.
Qed.

(** A ZONE_LOW request of an order below 19 always returns; it fails exactly
    when every low list of that order or above is empty, and the block it
    returns lies wholly below 2 GB. *)
Theorem alloc_pages_low (b : buddy) (order : Z) (Hwf : wf b)
    (Ho : 0 <= order < ZONE_LOW_MAX_ORDER) :
  exists r b', alloc_pages order ZONE_LOW b = Ret (r, b') /\
    (r = None <-> exhausted (orders_low b) order) /\
    forall p, r = Some p -> low_block order p.
Proof.
  destruct (alloc_low_total order b Hwf Ho) as (r & b1 & E & Hr).
  assert (exists r b', alloc_pages order ZONE_LOW b = Ret (r, b') /\
    (r = None <-> exhausted (orders_low b) order)) as (r' & b' & E' & Hr').
  { pose proof (alloc_one_spec _ _ _ _ _ Hwf E) as (W1 & _ & H1).
    unfold alloc_pages. rewrite E. cbn [mbind outcome_bind fst snd]. simpl.
    pose proof (exhausted_step (orders_low b) order ltac:(destruct Hwf; lia)) as Hex. destruct r as [p|].
    - eexists _, _. split; [done|]. naive_solver.
    - destruct H1 as (-> & Hempty & _).
      destruct (alloc_larger_low (Z.to_nat (ZONE_LOW_MAX_ORDER - (order + 1))) (order + 1) order b)
        as (r & b' & E' & Hr'); [done|lia|lia|].
      rewrite E'. eexists _, _. split; [done|]. naive_solver. }
  exists r', b'. split_and!; [done..|]. intros p ->.
  apply alloc_pages_spec in E' as (_ & _ & (low & Hz & Ht) & _); [|done].
  rewrite (Ht eq_refl) in Hz. apply Hz.
Qed.

Lemma alloc_pages_low_witness :
  let b := init_buddy_alloc 0x300000 0x100000 in
  wf b /\ exists b', alloc_pages 10 ZONE_LOW b = Ret (None, b').
Proof.
  intros b. assert (wf b) as Hwf by (apply init_buddy_spec; [lia|lia|done]). split; [done|].
  destruct (alloc_pages_low b 10 Hwf) as (r & b' & E & Hr & _).
  - unfold ZONE_LOW_MAX_ORDER, PAGE_SHIFT. lia.
  - exists b'. rewrite E. repeat f_equal. apply Hr. intros k Hk.
    change (lenZ (orders_low b)) with 19 in Hk.
    assert (k = 10 \/ k = 11 \/ k = 12 \/ k = 13 \/ k = 14 \/ k = 15 \/ k = 16 \/ k = 17 \/ k = 18)
      as Hk' by lia.
    destruct_or! Hk'; subst k; by vm_compute.
Defined.

(** the low array has 19 lists, the loop for ZONE_NORMAL goes on to order 51 *)
Lemma alloc_one_normal_none order b r b' :
  wf b -> __alloc_pages order ZONE_NORMAL b = Ret (r, b') -> ZONE_LOW_MAX_ORDER <= order -> r <> None.
Proof.
  intros Hwf E Ho ->. apply alloc_one_spec in E as (_ & _ & _ & _ & ?); [|done]. lia.
Qed.

Lemma alloc_larger_normal n gord order b r b' :
  wf b -> gord <= ZONE_LOW_MAX_ORDER < gord + Z.of_nat n ->
  alloc_larger n gord order ZONE_NORMAL b = Ret (r, b') -> r <> None.
Proof.
  revert gord b. induction n as [|n IH]; intros gord b Hwf Hn E; [lia|].
  cbn [alloc_larger] in E. apply bind_Ret in E as ([r1 b1] & E1 & E). cbn [fst snd] in E.
  destruct r1 as [p|].
  - by apply bind_Ret in E as (b2 & _ & [= <- _]).
  - pose proof (alloc_one_spec _ _ _ _ _ Hwf E1) as (_ & _ & -> & _ & Hlt).
    apply (IH (gord + 1) b Hwf); [lia|done].
Qed.

(** A request with no zone restriction never reports that storage is
    exhausted: alloc_pages has no NULL result for ZONE_NORMAL, because the loop
    over the orders goes past the last low list; with every list empty the call
    reads outside orders_low. *)
Theorem alloc_pages_normal_never_null (b : buddy) (order : Z) (Hwf : wf b) :
  (forall r b', alloc_pages order ZONE_NORMAL b = Ret (r, b') -> r <> None) /\
  alloc_pages 0 ZONE_NORMAL (Buddy (replicate 52 []) (replicate 19 [])) = Undef.
Proof.
  split; [|by vm_compute]. intros r b' E. unfold alloc_pages in E.
  apply bind_Ret in E as ([r1 b1] & E1 & E). cbn [fst snd] in E. destruct r1 as [p|]; [by simplify_eq|].
  pose proof (alloc_one_spec _ _ _ _ _ Hwf E1) as (_ & Ho & -> & _ & Hlt). simpl in E.
  eapply alloc_larger_normal, E; [done|].
  unfold ZONE_LOW_MAX_ORDER, ZONE_NORMAL_MAX_ORDER, PAGE_SHIFT in *. lia.
Qed.

Lemma alloc_pages_normal_never_null_witness :
  let b := Buddy (replicate 52 []) (replicate 19 []) in
  wf b /\ alloc_pages 0 ZONE_NORMAL b = Undef.
Proof.
  intros b. assert (wf b) as Hwf.
  { split; [done|done| |]; intros k l p [-> _]%lookup_replicate; set_solver. }
  split; [done|]. apply (alloc_pages_normal_never_null b 0 Hwf).
Defined.

(** With 8 GB of storage init_buddy_alloc puts a block of 4 GB at address
    0 on the free lists, over the pages the low lists already hold: the page
    count of the zone above 2 GB has bits 19 and 20 set, and the address step
    of order 19 does not fit an int. *)
Theorem init_buddy_alloc_8GB :
  orders_normal (init_buddy_alloc (8 * 2 ^ 30) (16 * 2 ^ 20)) !! 20%nat = Some [addr_to_page 0] /\
  ~ NoDup (frees (init_buddy_alloc (8 * 2 ^ 30) (16 * 2 ^ 20))).
Proof.
  split; [by vm_compute|]. intros H.
  set (b := init_buddy_alloc (8 * 2 ^ 30) (16 * 2 ^ 20)) in *.
  apply NoDup_app in H as (_ & H & _). apply (H 4096).
  - assert (orders_low b !! 12%nat = Some [addr_to_page (16 * 2 ^ 20)]) as E by (by vm_compute).
    rewrite (zone_pages_uncons _ 0 12 _ _ [] E eq_refl), elem_of_app. left.
    change (pages (addr_to_page (16 * 2 ^ 20)) (0 + Z.of_nat 12)) with (seqZ 4096 (2 ^ 12)).
    apply elem_of_seqZ. lia.
  - assert (orders_normal b !! 20%nat = Some [addr_to_page 0]) as E by (by vm_compute).
    rewrite (zone_pages_uncons _ 0 20 _ _ [] E eq_refl), elem_of_app. left.
    change (pages (addr_to_page 0) (0 + Z.of_nat 20)) with (seqZ 0 (2 ^ 20)).
    apply elem_of_seqZ. lia.
Qed.
