(* ===== verification/CString.v ===== *)
(** lib/string.c and include/string.h: strings and memory areas.

    Memory is a [list Z] of bytes and a pointer an index into it, so that two
    arguments may overlap; [NULL] is [None].  [char] is unsigned, as it is on
    s390x.  An access outside the memory is undefined.  Each loop takes fuel one
    above the number of bytes there are: it reads ever higher addresses, so it
    ends or leaves the memory first, and the theorems give the result for every
    terminated string. *)

From S2P Require Import Prelude.

Local Open Scope Z_scope.

Abbreviation memory := (list Z).

Definition rd (m : memory) (p : Z) : outcome Z := defined (aget m p).
Definition wr (m : memory) (p v : Z) : outcome memory := defined (aset m p v).

Definition fuel_of (m : memory) : nat := S (length m).

(** * string.h: character classes *)

Definition toupper (c : Z) : Z := if (97 <=? c) && (c <=? 122) then c + (65 - 97) else c.
Definition tolower (c : Z) : Z := if (65 <=? c) && (c <=? 90) then c - (65 - 97) else c.

Definition _U : Z := 0x01.
Definition _L : Z := 0x02.
Definition _D : Z := 0x04.
Definition _C : Z := 0x08.
Definition _P : Z := 0x10.
Definition _S : Z := 0x20.
Definition _X : Z := 0x40.
Definition _SP : Z := 0x80.

Definition _ascii_ctype : list Z :=
  let U := _U in let L := _L in let D := _D in let C := _C in let P := _P in
  let CS := Z.lor _C _S in let SSP := Z.lor _S _SP in
  let UX := Z.lor _U _X in let LX := Z.lor _L _X in
  [C;C;C;C;C;C;C;C] ++                            (* 0-7 *)
  [C;CS;CS;CS;CS;CS;C;C] ++                       (* 8-15 *)
  [C;C;C;C;C;C;C;C] ++                            (* 16-23 *)
  [C;C;C;C;C;C;C;C] ++                            (* 24-31 *)
  [SSP;P;P;P;P;P;P;P] ++                          (* 32-39 *)
  [P;P;P;P;P;P;P;P] ++                            (* 40-47 *)
  [D;D;D;D;D;D;D;D] ++                            (* 48-55 *)
  [D;D;P;P;P;P;P;P] ++                            (* 56-63 *)
  [P;UX;UX;UX;UX;UX;UX;U] ++                      (* 64-71 *)
  [U;U;U;U;U;U;U;U] ++                            (* 72-79 *)
  [U;U;U;U;U;U;U;U] ++                            (* 80-87 *)
  [U;U;U;P;P;P;P;P] ++                            (* 88-95 *)
  [P;LX;LX;LX;LX;LX;LX;L] ++                      (* 96-103 *)
  [L;L;L;L;L;L;L;L] ++                            (* 104-111 *)
  [L;L;L;L;L;L;L;L] ++                            (* 112-119 *)
  [L;L;L;P;P;P;P;C] ++                            (* 120-127 *)
  replicate 32 0 ++                               (* 128-159 *)
  [SSP;P;P;P;P;P;P;P;P;P;P;P;P;P;P;P] ++          (* 160-175 *)
  [P;P;P;P;P;P;P;P;P;P;P;P;P;P;P;P] ++            (* 176-191 *)
  [U;U;U;U;U;U;U;U;U;U;U;U;U;U;U;U] ++            (* 192-207 *)
  [U;U;U;U;U;U;U;P;U;U;U;U;U;U;U;L] ++            (* 208-223 *)
  [L;L;L;L;L;L;L;L;L;L;L;L;L;L;L;L] ++            (* 224-239 *)
  [L;L;L;L;L;L;L;P;L;L;L;L;L;L;L;L].              (* 240-255 *)

(** [__ismask(x)]: the index is an [unsigned char] *)
Definition __ismask (x : Z) : Z := nth (Z.to_nat (u8 x)) _ascii_ctype 0.

Definition isclass (mask c : Z) : bool := negb (Z.land (__ismask c) mask =? 0).
Definition isalnum : Z -> bool := isclass (Z.lor _U (Z.lor _L _D)).
Definition isalpha : Z -> bool := isclass (Z.lor _U _L).
Definition iscntrl : Z -> bool := isclass _C.
Definition isdigit : Z -> bool := isclass _D.
Definition isgraph : Z -> bool := isclass (Z.lor _P (Z.lor _U (Z.lor _L _D))).
Definition islower : Z -> bool := isclass _L.
Definition isprint : Z -> bool := isclass (Z.lor _P (Z.lor _U (Z.lor _L (Z.lor _D _SP)))).
Definition ispunct : Z -> bool := isclass _P.
Definition isspace : Z -> bool := isclass _S.
Definition isupper : Z -> bool := isclass _U.
Definition isxdigit : Z -> bool := isclass (Z.lor _D _X).

(** * string.c *)

Fixpoint strnlen_loop (fuel : nat) (m : memory) (sc count : Z) : outcome Z :=
  match fuel with
  | O => Undef
  | S fuel =>
      if count =? 0 then Ret sc else
      c ← rd m sc;
      if c =? 0 then Ret sc else strnlen_loop fuel m (sc + 1) (u64 (count - 1))
  end.

Definition strnlen (m : memory) (s count : Z) : outcome Z :=
  sc ← strnlen_loop (fuel_of m) m s count; Ret (sc - s).

Fixpoint strcmp_loop (fuel : nat) (m : memory) (cs ct : Z) : outcome Z :=
  match fuel with
  | O => Undef
  | S fuel =>
      a ← rd m cs;
      b ← rd m ct;
      let __res := s8 (a - b) in
      if negb (__res =? 0) || (a =? 0) then Ret __res
      else strcmp_loop fuel m (cs + 1) (ct + 1)
  end.

Definition strcmp (m : memory) (cs ct : Z) : outcome Z := strcmp_loop (fuel_of m) m cs ct.

Fixpoint strncmp_loop (fuel : nat) (m : memory) (cs ct len : Z) : outcome Z :=
  match fuel with
  | O => Undef
  | S fuel =>
      a ← rd m cs;
      b ← rd m ct;
      let __res := s8 (a - b) in
      if negb (__res =? 0) || (a =? 0) then Ret __res
      else if negb (len =? 0) then Ret __res
      else strncmp_loop fuel m (cs + 1) (ct + 1) (s32 (len - 1))
  end.

Definition strncmp (m : memory) (cs ct len : Z) : outcome Z :=
  strncmp_loop (fuel_of m) m cs ct len.

Fixpoint strcasecmp_loop (fuel : nat) (m : memory) (s1 s2 : Z) : outcome Z :=
  match fuel with
  | O => Undef
  | S fuel =>
      a ← rd m s1;
      b ← rd m s2;
      let c1 := tolower a in
      let c2 := tolower b in
      if (c1 =? c2) && negb (c1 =? 0) then strcasecmp_loop fuel m (s1 + 1) (s2 + 1)
      else Ret (c1 - c2)
  end.

Definition strcasecmp (m : memory) (s1 s2 : Z) : outcome Z :=
  strcasecmp_loop (fuel_of m) m s1 s2.

(** [n] is [count] *)
Fixpoint strncpy_loop (n : nat) (m : memory) (tmp src : Z) : outcome memory :=
  match n with
  | O => Ret m
  | S n =>
      c ← rd m src;
      m ← wr m tmp c;
      strncpy_loop n m (tmp + 1) (if negb (c =? 0) then src + 1 else src)
  end.

Definition strncpy (m : memory) (dest src count : Z) : outcome memory :=
  strncpy_loop (Z.to_nat count) m dest src.

Fixpoint copy_up (n : nat) (m : memory) (tmp s : Z) : outcome memory :=
  match n with
  | O => Ret m
  | S n => c ← rd m s; m ← wr m tmp c; copy_up n m (tmp + 1) (s + 1)
  end.

Fixpoint copy_down (n : nat) (m : memory) (tmp s : Z) : outcome memory :=
  match n with
  | O => Ret m
  | S n => c ← rd m (s - 1); m ← wr m (tmp - 1) c; copy_down n m (tmp - 1) (s - 1)
  end.

Definition memmove (m : memory) (dest src count : Z) : outcome memory :=
  if dest <=? src then copy_up (Z.to_nat count) m dest src
  else copy_down (Z.to_nat count) m (dest + count) (src + count).

(** the inner loops of [strpbrk] and [strspn]: is [c] a character of the
    string at [sc2]? *)
Fixpoint in_set (fuel : nat) (m : memory) (c sc2 : Z) : outcome bool :=
  match fuel with
  | O => Undef
  | S fuel =>
      d ← rd m sc2;
      if d =? 0 then Ret false else if c =? d then Ret true else in_set fuel m c (sc2 + 1)
  end.

Fixpoint strpbrk_loop (fuel : nat) (m : memory) (sc1 ct : Z) : outcome (option Z) :=
  match fuel with
  | O => Undef
  | S fuel =>
      c ← rd m sc1;
      if c =? 0 then Ret None else
      b ← in_set (fuel_of m) m c ct;
      if b : bool then Ret (Some sc1) else strpbrk_loop fuel m (sc1 + 1) ct
  end.

Definition strpbrk (m : memory) (cs ct : Z) : outcome (option Z) :=
  strpbrk_loop (fuel_of m) m cs ct.

Fixpoint strspn_loop (fuel : nat) (m : memory) (p accept count : Z) : outcome Z :=
  match fuel with
  | O => Undef
  | S fuel =>
      c ← rd m p;
      if c =? 0 then Ret count else
      b ← in_set (fuel_of m) m c accept;
      if b : bool then strspn_loop fuel m (p + 1) accept (u64 (count + 1)) else Ret count
  end.

Definition strspn (m : memory) (s accept : Z) : outcome Z :=
  strspn_loop (fuel_of m) m s accept 0.

(** [strsep] and [strmsep] return the token, the new [*s] and the memory *)
Definition strsep (m : memory) (s : option Z) (ct : Z)
    : outcome (option Z * option Z * memory) :=
  match s with
  | None => Ret (None, None, m)
  | Some sbegin =>
      e ← strpbrk m sbegin ct;
      match e with
      | Some e => m ← wr m e 0; Ret (Some sbegin, Some (e + 1), m)
      | None => Ret (Some sbegin, None, m)
      end
  end.

Definition strmsep (m : memory) (s : option Z) (ct : Z)
    : outcome (option Z * option Z * memory) :=
  match s with
  | None => Ret (None, None, m)
  | Some p => n ← strspn m p ct; strsep m (Some (p + n)) ct
  end.

(** * Strings in memory *)

(** the bytes [s] lie at [p] *)
Fixpoint bytes_at (m : memory) (p : Z) (s : list Z) : Prop :=
  match s with
  | [] => True
  | c :: s => aget m p = Some c /\ bytes_at m (p + 1) s
  end.

(** the terminated string [s] lies at [p] *)
Definition cstr (m : memory) (p : Z) (s : list Z) : Prop :=
  bytes_at m p (s ++ [0]) /\ 0 ∉ s.

Lemma lenZ_cons {A} (x : A) l : lenZ (x :: l) = 1 + lenZ l.
Proof. unfold lenZ. simpl. lia. Qed.

Lemma bytes_at_app m p s t : bytes_at m p (s ++ t) <-> bytes_at m p s /\ bytes_at m (p + lenZ s) t.
Proof.
  revert p. induction s as [|c s IH]; intros p; simpl.
  - unfold lenZ. simpl. rewrite Z.add_0_r. naive_solver.
  - rewrite IH, lenZ_cons. replace (p + 1 + lenZ s) with (p + (1 + lenZ s)) by lia. naive_solver.
Qed.

Lemma bytes_at_range m p s : bytes_at m p s -> s = [] \/ 0 <= p /\ p + lenZ s <= lenZ m.
Proof.
  revert p. induction s as [|c s IH]; intros p; [by left|]. intros [Hc Hs]. right.
  apply aget_lt in Hc. rewrite lenZ_cons. destruct (IH _ Hs) as [->|]; [unfold lenZ in *; simpl; lia|lia].
Qed.

Lemma cstr_len m p s : cstr m p s -> (length s < fuel_of m)%nat.
Proof.
  intros [Hb _]. apply bytes_at_range in Hb as [H|[H1 H2]]; [by destruct s|].
  rewrite lenZ_app in H2. unfold fuel_of, lenZ in *. simpl in *. lia.
Qed.

Lemma cstr_cons m p c s : cstr m p (c :: s) <-> aget m p = Some c /\ c <> 0 /\ cstr m (p + 1) s.
Proof. unfold cstr. simpl. rewrite not_elem_of_cons. naive_solver. Qed.

Lemma cstr_nil m p : cstr m p [] <-> aget m p = Some 0.
Proof. unfold cstr. simpl. split; [naive_solver|]. split; [done|set_solver]. Qed.

Lemma rd_Some m p c : aget m p = Some c -> rd m p = Ret c.
Proof. unfold rd. by intros ->. Qed.

(** ** Comparison *)

(** the difference of the first characters that differ *)
Fixpoint first_diff (s t : list Z) : Z :=
  match s, t with
  | a :: s, b :: t => if a =? b then first_diff s t else a - b
  | a :: _, [] => a
  | [], b :: _ => - b
  | [], [] => 0
  end.

Definition byte (c : Z) : Prop := 0 <= c < 256.

Lemma first_diff_range s t : Forall byte s -> Forall byte t -> -255 <= first_diff s t <= 255.
Proof.
  intros Hs. revert t. induction Hs as [|a s Ha Hs IH]; intros t Ht; destruct Ht as [|b t Hb Ht]; simpl;
    unfold byte in *; [lia..|]. case_bool; [by apply IH|lia].
Qed.

Lemma first_diff_0 s t : 0 ∉ s -> 0 ∉ t -> first_diff s t = 0 <-> s = t.
Proof.
  revert t. induction s as [|a s IH]; intros [|b t] Hs Ht; simpl;
    rewrite ?not_elem_of_cons in *; [done|split; [lia|done]..|].
  case_bool; [|split; [lia|naive_solver]]. subst. rewrite IH by naive_solver. naive_solver.
Qed.

Lemma s8_diff_0 d : -255 <= d <= 255 -> s8 d = 0 <-> d = 0.
Proof. unfold swrap. simpl Z.pow. intros. divlia. Qed.

Lemma strcmp_loop_spec fuel m cs ct s t :
  (length s < fuel)%nat -> Forall byte s -> Forall byte t -> cstr m cs s -> cstr m ct t ->
  strcmp_loop fuel m cs ct = Ret (s8 (first_diff s t)).
Proof.
  revert fuel cs ct t. induction s as [|a s IH]; intros [|fuel] cs ct t Hf Hs Ht Cs Ct; simpl in Hf; try lia.
  - apply cstr_nil in Cs. simpl. rewrite (rd_Some _ _ _ Cs). simpl.
    destruct t as [|b t].
    + apply cstr_nil in Ct. by rewrite (rd_Some _ _ _ Ct).
    + apply cstr_cons in Ct as (Hb & _). rewrite (rd_Some _ _ _ Hb). simpl. by rewrite orb_true_r.
  - apply cstr_cons in Cs as (Ha & Hane & Cs). simpl. rewrite (rd_Some _ _ _ Ha). simpl.
    apply Forall_cons in Hs as [Hba Hs]. unfold byte in Hba.
    destruct t as [|b t].
    + apply cstr_nil in Ct. rewrite (rd_Some _ _ _ Ct). simpl. rewrite Z.sub_0_r.
      destruct (Z.eqb_spec (s8 a) 0) as [H|H]; [apply (s8_diff_0 a) in H; lia|done].
    + apply cstr_cons in Ct as (Hb & Hbne & Ct). rewrite (rd_Some _ _ _ Hb). simpl.
      apply Forall_cons in Ht as [Hbb Ht]. unfold byte in Hbb.
      destruct (Z.eqb_spec a b) as [->|Hne].
      * rewrite Z.sub_diag. simpl. destruct (Z.eqb_spec b 0); [done|]. simpl. apply IH; [lia|done..].
      * destruct (Z.eqb_spec (s8 (a - b)) 0) as [H|H]; [apply (s8_diff_0 (a - b)) in H; lia|done].
Qed.

(** Strcmp of two terminated strings returns, and returns 0 exactly for
    equal strings; its value is the difference of the first differing characters
    truncated to a signed char, so its sign is wrong for characters 128 or more
    apart. *)
Theorem strcmp_equal (m : memory) (cs ct : Z) (s t : list Z)
    (Hs : cstr m cs s) (Ht : cstr m ct t) (Hbs : Forall byte s) (Hbt : Forall byte t) :
  strcmp m cs ct = Ret (s8 (first_diff s t)) /\ (s8 (first_diff s t) = 0 <-> s = t).
Proof.
  split.
  - apply strcmp_loop_spec; [by eapply cstr_len|done..].
  - rewrite s8_diff_0 by (by apply first_diff_range). apply first_diff_0; [apply Hs|apply Ht].
Qed.

Lemma strcmp_equal_witness :
  let m := [104; 105; 0; 104; 233; 0] in
  strcmp m 0 3 = Ret (s8 (105 - 233)) /\ s8 (105 - 233) <> 0.
Proof.
  intros m. assert (cstr m 0 [104; 105] /\ cstr m 3 [104; 233]) as [H1 H2].
  { split; (split; [by vm_compute|]); rewrite !not_elem_of_cons; split_and!; try lia; set_solver. }
  destruct (strcmp_equal m 0 3 [104; 105] [104; 233] H1 H2) as [E Hr].
  - repeat constructor; unfold byte; lia.
  - repeat constructor; unfold byte; lia.
  - split; [exact E|]. intros H. apply Hr in H. discriminate H.
Defined.

(** Strncmp with a non-zero length compares the first characters only: the
    loop ends on the old value of [len--] being non-zero, so whatever the
    strings hold after their first character, the result is the same. *)
Theorem strncmp_first_only (m : memory) (cs ct a b len : Z)
    (Ha : aget m cs = Some a) (Hb : aget m ct = Some b) (Hlen : len <> 0) :
  strncmp m cs ct len = Ret (s8 (a - b)).
Proof.
  unfold strncmp, fuel_of. simpl. rewrite (rd_Some _ _ _ Ha), (rd_Some _ _ _ Hb). simpl.
  destruct (Z.eqb_spec len 0); [done|]. simpl. by destruct (_ || _).
Qed.

(** "ab" and "ax" are equal over two characters *)
Lemma strncmp_first_only_witness : strncmp (zs "ab" ++ [0] ++ zs "ax" ++ [0]) 0 3 2 = Ret 0.
Proof. exact (strncmp_first_only (zs "ab" ++ [0] ++ zs "ax" ++ [0]) 0 3 97 97 2 eq_refl eq_refl ltac:(lia)). Defined.

Fixpoint lower (s : list Z) : list Z := match s with [] => [] | c :: s => tolower c :: lower s end.

Lemma tolower_0 c : tolower c = 0 <-> c = 0.
Proof. unfold tolower. repeat case_bool; simpl; lia. Qed.

Lemma strcasecmp_loop_spec fuel m s1 s2 s t :
  (length s < fuel)%nat -> cstr m s1 s -> cstr m s2 t ->
  exists r, strcasecmp_loop fuel m s1 s2 = Ret r /\ (r = 0 <-> lower s = lower t).
Proof.
  revert fuel s1 s2 t. induction s as [|a s IH]; intros [|fuel] s1 s2 t Hf Cs Ct; simpl in Hf; try lia.
  - apply cstr_nil in Cs. cbn [strcasecmp_loop]. rewrite (rd_Some _ _ _ Cs). cbn [mbind outcome_bind].
    destruct t as [|b t].
    + apply cstr_nil in Ct. rewrite (rd_Some _ _ _ Ct). exists 0. by repeat split.
    + apply cstr_cons in Ct as (Hb & Hbne & _). rewrite (rd_Some _ _ _ Hb).
      pose proof (tolower_0 b). cbn [mbind outcome_bind].
      rewrite (proj2 (Z.eqb_neq (tolower 0) (tolower b))) by (change (tolower 0) with 0; naive_solver).
      eexists. split; [reflexivity|]. change (tolower 0) with 0. split; [intros; lia|done].
  - apply cstr_cons in Cs as (Ha & Hane & Cs). cbn [strcasecmp_loop]. rewrite (rd_Some _ _ _ Ha). cbn [mbind outcome_bind].
    pose proof (tolower_0 a). destruct t as [|b t].
    + apply cstr_nil in Ct. rewrite (rd_Some _ _ _ Ct). cbn [mbind outcome_bind].
      rewrite (proj2 (Z.eqb_neq (tolower a) (tolower 0))) by (change (tolower 0) with 0; naive_solver).
      eexists. split; [reflexivity|]. change (tolower 0) with 0. split; [intros; lia|done].
    + apply cstr_cons in Ct as (Hb & Hbne & Ct). rewrite (rd_Some _ _ _ Hb). simpl.
      destruct (Z.eqb_spec (tolower a) (tolower b)) as [E|E]; simpl.
      * destruct (Z.eqb_spec (tolower a) 0); [naive_solver|]. simpl.
        destruct (IH fuel (s1 + 1) (s2 + 1) t) as (r & E1 & Hr); [lia|done|done|].
        exists r. split; [done|]. rewrite Hr, E. split; [by intros ->|by intros [= ->]].
      * eexists. split; [done|]. split; [lia|naive_solver].
Qed.

(** Strcasecmp of two terminated strings returns, and returns 0 exactly when
    they are equal once their ASCII letters are in lower case. *)
Theorem strcasecmp_equal (m : memory) (s1 s2 : Z) (s t : list Z)
    (Hs : cstr m s1 s) (Ht : cstr m s2 t) :
  exists r, strcasecmp m s1 s2 = Ret r /\ (r = 0 <-> lower s = lower t).
Proof. apply strcasecmp_loop_spec; [by eapply cstr_len|done..]. Qed.

Lemma strcasecmp_equal_witness : let m := [72; 105; 0; 104; 73; 0] in strcasecmp m 0 3 = Ret 0.
Proof.
  intros m. assert (cstr m 0 [72; 105] /\ cstr m 3 [104; 73]) as [H1 H2].
  { split; (split; [by vm_compute|]); rewrite !not_elem_of_cons; split_and!; try lia; set_solver. }
  destruct (strcasecmp_equal m 0 3 _ _ H1 H2) as (r & E & Hr). rewrite E. f_equal. by apply Hr.
Defined.

(** ** Copying *)

Lemma wr_Some m p v : 0 <= p < lenZ m ->
  exists m', wr m p v = Ret m' /\ lenZ m' = lenZ m /\
    forall i, aget m' i = if decide (p = i) then Some v else aget m i.
Proof.
  intros Hp. unfold wr. destruct (proj2 (aset_is_Some m p v) Hp) as [m' E]. rewrite E. exists m'.
  split; [done|]. split; [by eapply aset_lenZ|]. intros i. by apply aget_aset.
Qed.

(** [m'] holds at [dest] what [m] holds at [src], [n] bytes, and is [m] elsewhere *)
Definition moved (m m' : memory) (dest src n : Z) : Prop :=
  lenZ m' = lenZ m /\
  forall i, aget m' i = if decide (dest <= i < dest + n) then aget m (src + (i - dest)) else aget m i.

Lemma copy_up_spec n m tmp s :
  tmp <= s -> 0 <= tmp -> s + Z.of_nat n <= lenZ m ->
  exists m', copy_up n m tmp s = Ret m' /\ moved m m' tmp s (Z.of_nat n).
Proof.
  revert m tmp s. induction n as [|n IH]; intros m tmp s Hle H0 Hlen.
  - exists m. split; [done|]. split; [done|]. intros i. by rewrite decide_False by lia.
  - destruct (proj2 (aget_is_Some m s)) as [c Hc]; [lia|].
    destruct (wr_Some m tmp c) as (m1 & E1 & L1 & G1); [lia|].
    destruct (IH m1 (tmp + 1) (s + 1)) as (m2 & E2 & L2 & G2); [lia..|].
    exists m2. cbn [copy_up]. rewrite (rd_Some _ _ _ Hc). simpl. rewrite E1. simpl.
    split; [done|]. split; [congruence|]. intros i. rewrite G2, !G1.
    destruct (decide (i = tmp)) as [->|Hi].
    + rewrite decide_False, decide_True, decide_True by lia. by rewrite Z.sub_diag, Z.add_0_r.
    + repeat case_decide; try lia; [|done]. f_equal. lia.
Qed.

Lemma copy_down_spec n m tmp s :
  s < tmp -> 0 <= s - Z.of_nat n -> tmp <= lenZ m ->
  exists m', copy_down n m tmp s = Ret m' /\ moved m m' (tmp - Z.of_nat n) (s - Z.of_nat n) (Z.of_nat n).
Proof.
  revert m tmp s. induction n as [|n IH]; intros m tmp s Hle H0 Hlen.
  - exists m. split; [done|]. split; [done|]. intros i. by rewrite decide_False by lia.
  - destruct (proj2 (aget_is_Some m (s - 1))) as [c Hc]; [lia|].
    destruct (wr_Some m (tmp - 1) c) as (m1 & E1 & L1 & G1); [lia|].
    destruct (IH m1 (tmp - 1) (s - 1)) as (m2 & E2 & L2 & G2); [lia..|].
    exists m2. cbn [copy_down]. rewrite (rd_Some _ _ _ Hc). simpl. rewrite E1. simpl.
    split; [done|]. split; [congruence|]. intros i. rewrite G2, !G1.
    destruct (decide (i = tmp - 1)) as [->|Hi].
    + rewrite decide_False, decide_True, decide_True by lia.
      rewrite <- Hc. f_equal. lia.
    + repeat case_decide; try lia; [|done]. f_equal. lia.
Qed.

(** Memmove of areas inside memory returns, whatever their overlap; the
    destination then holds what the source held before the call and every other
    byte is unchanged. *)
Theorem memmove_correct (m : memory) (dest src count : Z)
    (Hd : 0 <= dest /\ dest + count <= lenZ m) (Hs : 0 <= src /\ src + count <= lenZ m)
    (Hc : 0 <= count) :
  exists m', memmove m dest src count = Ret m' /\ moved m m' dest src count.
Proof.
  unfold memmove. case_bool.
  - destruct (copy_up_spec (Z.to_nat count) m dest src) as (m' & E & M); [lia..|].
    exists m'. by rewrite Z2Nat.id in M by done.
  - destruct (copy_down_spec (Z.to_nat count) m (dest + count) (src + count)) as (m' & E & M); [lia..|].
    exists m'. rewrite Z2Nat.id in M by done. by rewrite !Z.add_simpl_r in M.
Qed.

Lemma memmove_correct_witness :
  exists m', memmove [1; 2; 3; 4; 5] 1 0 4 = Ret m' /\ aget m' 4 = Some 4.
Proof.
  destruct (memmove_correct [1; 2; 3; 4; 5] 1 0 4) as (m' & E & _ & H); [by vm_compute|by vm_compute|lia|].
  exists m'. split; [exact E|]. rewrite H. reflexivity.
Defined.

Lemma bytes_at_aget m p s i : bytes_at m p s -> 0 <= i < lenZ s -> aget m (p + i) = s !! Z.to_nat i.
Proof.
  revert p i. induction s as [|c s IH]; intros p i; [unfold lenZ; simpl; lia|].
  intros [Hc Hs] Hi. rewrite lenZ_cons in Hi. destruct (decide (i = 0)) as [->|].
  - by rewrite Z.add_0_r.
  - replace (p + i) with (p + 1 + (i - 1)) by lia. rewrite IH by (done || lia).
    replace (Z.to_nat i) with (S (Z.to_nat (i - 1))) by lia. done.
Qed.

Lemma bytes_at_frame m m' p s :
  (forall i, p <= i < p + lenZ s -> aget m' i = aget m i) -> bytes_at m p s -> bytes_at m' p s.
Proof.
  revert p. induction s as [|c s IH]; intros p H; [done|]. rewrite lenZ_cons in H. intros [Hc Hs].
  pose proof (lenZ_nonneg s). split; [rewrite H by lia; done|]. apply IH; [|done]. intros i Hi. apply H. lia.
Qed.

Lemma bytes_at_extend m l p s : bytes_at m p s -> bytes_at (m ++ l) p s.
Proof.
  intros H. eapply bytes_at_frame; [|exact H]. intros i Hi.
  apply bytes_at_range in H as [->|[H1 H2]]; [unfold lenZ in Hi; cbn in Hi; lia|]. unfold aget.
  case_decide; [|done]. apply lookup_app_l. unfold lenZ in *. lia.
Qed.

Lemma cstr_extend m l p s : cstr m p s -> cstr (m ++ l) p s.
Proof. intros [H1 H2]. split; [by apply bytes_at_extend|done]. Qed.

Lemma bytes_at_behind (m s t : list Z) : bytes_at (m ++ s ++ t) (lenZ m) s.
Proof.
  revert m. induction s as [|c s IH]; intros m; [done|]. split.
  - rewrite aget_Some. unfold lenZ. rewrite Nat2Z.id. split; [lia|]. by rewrite lookup_app_r, Nat.sub_diag by lia.
  - specialize (IH (m ++ [c])). rewrite <- app_assoc, lenZ_app in IH. exact IH.
Qed.

Lemma cstr_take n m p s : cstr m p s -> p + lenZ s < Z.of_nat n -> cstr (take n m) p s.
Proof.
  intros [H1 H2] Hn. split; [|done]. eapply bytes_at_frame; [|exact H1]. intros i Hi. rewrite lenZ_app in Hi.
  change (lenZ [0]) with 1 in Hi. unfold aget. case_decide; [|done]. apply lookup_take_lt. lia.
Qed.

Lemma bytes_at_self (s t : list Z) : bytes_at (s ++ t) 0 s.
Proof.
  enough (forall pre, bytes_at (pre ++ s ++ t) (lenZ pre) s) as H by exact (H []).
  induction s as [|c s IH]; intros pre; [done|]. split.
  - rewrite aget_Some. unfold lenZ. rewrite Nat2Z.id. split; [lia|]. by rewrite lookup_app_r, Nat.sub_diag by lia.
  - specialize (IH (pre ++ [c])). rewrite <- app_assoc, lenZ_app in IH. exact IH.
Qed.

(** the [n] bytes strncpy writes: the string, padded with NULs *)
Fixpoint padded (n : nat) (s : list Z) : list Z :=
  match n, s with
  | O, _ => []
  | S n, [] => 0 :: padded n []
  | S n, c :: s => c :: padded n s
  end.

Lemma strncpy_loop_spec n m tmp src s :
  cstr m src s -> 0 <= tmp -> tmp + Z.of_nat n <= lenZ m ->
  tmp + Z.of_nat n <= src \/ src + lenZ s < tmp ->
  exists m', strncpy_loop n m tmp src = Ret m' /\ bytes_at m' tmp (padded n s) /\
    lenZ m' = lenZ m /\ forall i, ~ tmp <= i < tmp + Z.of_nat n -> aget m' i = aget m i.
Proof.
  revert m tmp src s. induction n as [|n IH]; intros m tmp src s Hs H0 Hlen Hd.
  { exists m. by split_and!. }
  assert (exists c s', aget m src = Some c /\ padded (S n) s = c :: padded n s' /\
    cstr m (if negb (c =? 0) then src + 1 else src) s' /\ src + lenZ s = (if negb (c =? 0) then src + 1 else src) + lenZ s')
    as (c & s' & Hc & Hp & Hs' & Hl).
  { destruct s as [|c s].
    - pose proof (proj1 (cstr_nil _ _) Hs). exists 0, []. by split_and!.
    - pose proof Hs as (Hc & Hne & Hs')%cstr_cons. exists c, s. rewrite lenZ_cons.
      destruct (Z.eqb_spec c 0); [done|]. simpl. split_and!; [done..|lia]. }
  destruct (wr_Some m tmp c) as (m1 & E1 & L1 & G1); [lia|].
  pose proof (lenZ_nonneg s). pose proof (lenZ_nonneg s').
  destruct (IH m1 (tmp + 1) (if negb (c =? 0) then src + 1 else src) s') as (m2 & E2 & B2 & L2 & G2).
  - destruct Hs' as [Hb Hz]. split; [|done]. eapply bytes_at_frame, Hb.
    intros i. rewrite lenZ_app. unfold lenZ at 2. simpl. intros Hi. rewrite G1.
    rewrite decide_False; [done|]. destruct (c =? 0); simpl in *; lia.
  - lia.
  - lia.
  - destruct (c =? 0); simpl in *; lia.
  - exists m2. cbn [strncpy_loop]. rewrite (rd_Some _ _ _ Hc). simpl mbind. rewrite E1. simpl mbind.
    split; [done|]. rewrite Hp. split; [split; [|exact B2]|split; [congruence|]].
    + rewrite G2 by lia. rewrite G1. by rewrite decide_True.
    + intros i Hi. rewrite G2 by lia. rewrite G1. by rewrite decide_False by lia.
Qed.

(** ** Tokens *)

Definition mem_of (set : list Z) (c : Z) : bool := existsb (Z.eqb c) set.

Lemma in_set_spec fuel m c p set :
  (length set < fuel)%nat -> cstr m p set -> in_set fuel m c p = Ret (mem_of set c).
Proof.
  revert fuel p. induction set as [|d set IH]; intros [|fuel] p Hf Hs; simpl in Hf; try lia.
  - apply cstr_nil in Hs. simpl. by rewrite (rd_Some _ _ _ Hs).
  - apply cstr_cons in Hs as (Hd & Hne & Hs). simpl. rewrite (rd_Some _ _ _ Hd). simpl.
    destruct (Z.eqb_spec d 0); [done|]. destruct (Z.eqb_spec c d); [done|]. apply IH; [lia|done].
Qed.

(** the longest prefix on which [f] is [true], and the rest *)
Fixpoint span (f : Z -> bool) (s : list Z) : list Z * list Z :=
  match s with
  | [] => ([], [])
  | c :: s => if f c then let r := span f s in (c :: r.1, r.2) else ([], c :: s)
  end.

Lemma span_app f s : (span f s).1 ++ (span f s).2 = s.
Proof. induction s as [|c s IH]; simpl; [done|]. destruct (f c); simpl; [by rewrite IH|done]. Qed.

Section tokens.
Context (m : memory) (ct : Z) (set : list Z) (Hset : cstr m ct set).

Lemma strpbrk_loop_spec fuel p s :
  (length s < fuel)%nat -> cstr m p s ->
  let r := span (fun c => negb (mem_of set c)) s in
  strpbrk_loop fuel m p ct = Ret (match r.2 with [] => None | _ => Some (p + lenZ r.1) end).
Proof.
  revert fuel p. induction s as [|c s IH]; intros [|fuel] p Hf Hs; simpl in Hf; try lia.
  - apply cstr_nil in Hs. simpl. by rewrite (rd_Some _ _ _ Hs).
  - apply cstr_cons in Hs as (Hc & Hne & Hs). cbn [strpbrk_loop strspn_loop]. rewrite (rd_Some _ _ _ Hc). cbn [mbind outcome_bind].
    destruct (Z.eqb_spec c 0); [done|].
    rewrite (in_set_spec (fuel_of m) m c ct set (cstr_len _ _ _ Hset) Hset). cbn [mbind outcome_bind].
    destruct (mem_of set c) eqn:Em; simpl; rewrite Em; simpl.
    + unfold lenZ. simpl. by rewrite Z.add_0_r.
    + rewrite (IH fuel (p + 1)) by (done || lia). destruct (span _ s).2; [done|].
      rewrite lenZ_cons. do 2 f_equal. lia.
Qed.

Lemma strspn_loop_spec fuel p s n :
  (length s < fuel)%nat -> cstr m p s -> 0 <= n -> n + lenZ s < 2 ^ 64 ->
  strspn_loop fuel m p ct n = Ret (n + lenZ (span (mem_of set) s).1).
Proof.
  revert fuel p n. induction s as [|c s IH]; intros [|fuel] p n Hf Hs Hn Hl; simpl in Hf; try lia.
  - apply cstr_nil in Hs. simpl. rewrite (rd_Some _ _ _ Hs). simpl. by rewrite Z.add_0_r.
  - rewrite lenZ_cons in Hl. pose proof (lenZ_nonneg s).
    apply cstr_cons in Hs as (Hc & Hne & Hs). cbn [strpbrk_loop strspn_loop]. rewrite (rd_Some _ _ _ Hc). cbn [mbind outcome_bind].
    destruct (Z.eqb_spec c 0); [done|].
    rewrite (in_set_spec (fuel_of m) m c ct set (cstr_len _ _ _ Hset) Hset). cbn [mbind outcome_bind].
    destruct (mem_of set c) eqn:Em; simpl; rewrite Em; simpl.
    + rewrite wrap_small by lia. rewrite (IH fuel (p + 1)) by (done || lia).
      rewrite lenZ_cons. f_equal. lia.
    + by rewrite Z.add_0_r.
Qed.
End tokens.

Lemma span_no0 f s : 0 ∉ s -> 0 ∉ (span f s).1 /\ 0 ∉ (span f s).2.
Proof. intros H. rewrite <- (span_app f s) in H. rewrite elem_of_app in H. naive_solver. Qed.

Lemma cstr_app m p s t : cstr m p (s ++ t) -> bytes_at m p s /\ cstr m (p + lenZ s) t.
Proof.
  intros [Hb Hz]. rewrite <- app_assoc, bytes_at_app in Hb. rewrite elem_of_app in Hz.
  unfold cstr. naive_solver.
Qed.

Lemma strsep_cut m p s e (tok : list Z) d rest :
  cstr m p s -> s = tok ++ d :: rest -> e = p + lenZ tok ->
  exists m', wr m e 0 = Ret m' /\ cstr m' p tok /\ cstr m' (e + 1) rest /\
    forall i, i <> e -> aget m' i = aget m i.
Proof.
  intros Hs -> ->. pose proof Hs as [_ Hz]. apply cstr_app in Hs as [Ht Hr].
  apply cstr_cons in Hr as (Hd & Hne & Hr). pose proof (aget_lt _ _ _ Hd).
  destruct (wr_Some m (p + lenZ tok) 0) as (m1 & E1 & L1 & G1); [done|].
  exists m1. split; [done|]. split_and!.
  - split; [|set_solver]. rewrite bytes_at_app. split.
    + eapply bytes_at_frame, Ht. intros i Hi. rewrite G1. by rewrite decide_False by lia.
    + simpl. rewrite G1. by rewrite decide_True.
  - destruct Hr as [Hr Hz']. split; [|done]. eapply bytes_at_frame, Hr. intros i Hi. rewrite G1.
    by rewrite decide_False by lia.
  - intros i Hi. rewrite G1. by rewrite decide_False.
Qed.

(** the token, the rest and the memory *)
Lemma strmsep_out (m : memory) (p ct : Z) (s set : list Z)
    (Hs : cstr m p s) (Hset : cstr m ct set) (Hlen : lenZ m < 2 ^ 64) :
  let pre := (span (mem_of set) s).1 in
  let r := span (fun c => negb (mem_of set c)) (span (mem_of set) s).2 in
  let t := p + lenZ pre in
  match r.2 with
  | [] => strmsep m (Some p) ct = Ret (Some t, None, m) /\ cstr m t r.1
  | d :: rest => exists m', strmsep m (Some p) ct = Ret (Some t, Some (t + lenZ r.1 + 1), m') /\
      cstr m' t r.1 /\ cstr m' (t + lenZ r.1 + 1) rest /\
      forall i, i <> t + lenZ r.1 -> aget m' i = aget m i
  end.
Proof.
  intros pre r t. assert (lenZ s <= lenZ m) as Hl.
  { destruct Hs as [Hb _]. apply bytes_at_range in Hb as [H|H]; [by destruct s|].
    rewrite lenZ_app in H. unfold lenZ in *. simpl in *. lia. }
  assert (cstr m t (span (mem_of set) s).2) as Hr.
  { apply (cstr_app m p (span (mem_of set) s).1). by rewrite span_app. }
  unfold strmsep, strspn. rewrite (strspn_loop_spec m ct set Hset (fuel_of m) p s 0);
    [|by eapply cstr_len|done|lia|lia].
  cbn [mbind outcome_bind]. rewrite Z.add_0_l. fold pre. fold t. unfold strsep, strpbrk.
  rewrite (strpbrk_loop_spec m ct set Hset (fuel_of m) t _ (cstr_len _ _ _ Hr) Hr). cbn [mbind outcome_bind].
  fold r. pose proof (span_app (fun c => negb (mem_of set c)) (span (mem_of set) s).2) as Happ.
  fold r in Happ. destruct r.2 as [|d rest].
  - rewrite app_nil_r in Happ. rewrite <- Happ in Hr. done.
  - destruct (strsep_cut m t _ (t + lenZ r.1) r.1 d rest Hr (eq_sym Happ) eq_refl) as (m' & E & H1 & H2 & H3).
    exists m'. rewrite E. done.
Qed.

(** Strmsep on the string [s]: with [pre] its leading separators and [tok]
    the characters up to the next one, the call returns a pointer to [tok],
    which it has terminated, and leaves [*s] at the string after the separator,
    or NULL when there is none.  Memory changes at that separator only.  The
    token is empty when only separators were left. *)
Theorem strmsep_token (m : memory) (p ct : Z) (s set : list Z)
    (Hs : cstr m p s) (Hset : cstr m ct set) (Hlen : lenZ m < 2 ^ 64) :
  let pre := (span (mem_of set) s).1 in
  let r := span (fun c => negb (mem_of set c)) (span (mem_of set) s).2 in
  let t := p + lenZ pre in
  match r.2 with
  | [] => strmsep m (Some p) ct = Ret (Some t, None, m) /\ cstr m t r.1
  | d :: rest => exists m', strmsep m (Some p) ct = Ret (Some t, Some (t + lenZ r.1 + 1), m') /\
      cstr m' t r.1 /\ cstr m' (t + lenZ r.1 + 1) rest /\
      forall i, i <> t + lenZ r.1 -> aget m' i = aget m i
  end.
Proof. by apply strmsep_out. Qed.

(** "  on x": the token "on" *)
Lemma strmsep_token_witness :
  exists m', strmsep [32; 32; 111; 110; 32; 120; 0; 32; 0] (Some 0) 7 = Ret (Some 2, Some 5, m') /\
    cstr m' 2 [111; 110] /\ cstr m' 5 [120].
Proof.
  destruct (strmsep_token [32; 32; 111; 110; 32; 120; 0; 32; 0] 0 7 [32; 32; 111; 110; 32; 120] [32])
    as (m' & E & H1 & H2 & _).
  - split; [by vm_compute|]. rewrite !not_elem_of_cons. split_and!; try lia. set_solver.
  - split; [by vm_compute|]. rewrite !not_elem_of_cons. split_and!; try lia. set_solver.
  - by vm_compute.
  - exists m'. split; [exact E|]. split; [exact H1|exact H2].
Defined.

(** ** Character classes *)

Definition ascii_letter (c : Z) : bool := ((65 <=? c) && (c <=? 90)) || ((97 <=? c) && (c <=? 122)).

(** the bytes below [n] on which [f] and [g] differ *)
Definition differ (f g : Z -> bool) (n : nat) : list Z :=
  List.filter (fun c => negb (Bool.eqb (f c) (g c))) (seqZ 0 (Z.of_nat n)).

Lemma differ_none f g n : differ f g n = [] -> forall c, 0 <= c < Z.of_nat n -> f c = g c.
Proof.
  unfold differ. intros H c Hc. assert (In c (seqZ 0 (Z.of_nat n))) as Hin.
  { apply list_elem_of_In, elem_of_seqZ. lia. }
  destruct (Bool.eqb (f c) (g c)) eqn:E; [by apply eqb_prop|].
  assert (In c (List.filter (fun c => negb (Bool.eqb (f c) (g c))) (seqZ 0 (Z.of_nat n)))) as Hf.
  { apply filter_In. by rewrite E. }
  rewrite H in Hf. destruct Hf.
Qed.

(** On ASCII characters the ctype table classifies as the C locale does:
    decimal digits, hexadecimal digits, letters, white space and control
    characters are exactly the usual ranges, the printable characters are those
    from space to tilde, and tolower/toupper change exactly the letters of the
    other case. *)
Theorem ctype_ascii (c : Z) (Hc : 0 <= c < 128) :
  isdigit c = ((48 <=? c) && (c <=? 57)) /\
  isxdigit c = (((48 <=? c) && (c <=? 57)) || ((65 <=? c) && (c <=? 70)) || ((97 <=? c) && (c <=? 102))) /\
  isalpha c = ascii_letter c /\
  isspace c = ((9 <=? c) && (c <=? 13)) || (c =? 32) /\
  iscntrl c = (c <? 32) || (c =? 127) /\
  isprint c = ((32 <=? c) && (c <=? 126)) /\
  isgraph c = (isprint c && negb (c =? 32)) /\
  (tolower c =? c) = negb (isupper c) /\ (toupper c =? c) = negb (islower c).
Proof. split_and!; revert c Hc; apply (differ_none _ _ 128); by vm_compute. Qed.

Lemma ctype_ascii_witness : isxdigit 70 = true /\ isspace 70 = false.
Proof. destruct (ctype_ascii 70 ltac:(lia)) as (_ & H1 & _ & H2 & _). split; [exact H1|exact H2]. Defined.
