(* ===== verification/Format.v ===== *)
(** lib/vsprintf.c: formatted output.

    The formatter is written against an interface, [Sink]: something characters
    are emitted to, which counts them.  The code's sink is the bounded buffer
    ([obuf]: every store is guarded by [str < end], [str] always advances); the
    specification's sink is the list of characters.  The theorems: the bounded
    run stores exactly the prefix that fits of what the unbounded run emits,
    terminated, writes nothing else and returns the full length; [number] emits
    the positional representation of its argument.

    The format and the strings it refers to are in memory (CString); the
    arguments are the raw 64-bit values of the variable argument list, a missing
    one is undefined.  The output buffer is a separate object: it may not
    overlap the format or its strings. *)

From S2P Require Import Prelude CString.

Local Open Scope Z_scope.

(** * Sinks *)

Class Sink (St : Type) := {
  emit : Z -> St -> outcome St;
  count : St -> Z;  (* [str - buf] *)
}.

Definition ZEROPAD : Z := 1.
Definition SIGN : Z := 2.
Definition PLUS : Z := 4.
Definition SPACE : Z := 8.
Definition LEFT : Z := 16.
Definition SPECIAL : Z := 32.
Definition LARGE : Z := 64.
Definition VSPRINTF_PAGE_SIZE : Z := 4096.

Definition flag (type f : Z) : bool := negb (Z.land type f =? 0).

(** the characters of "0123456789abc...z" and "0123456789ABC...Z" *)
Definition small_digits : list Z := seqZ 48 10 ++ seqZ 97 26.
Definition large_digits : list Z := seqZ 48 10 ++ seqZ 65 26.

Definition c_NUL : Z := 0.
Definition c_space : Z := 32.
Definition c_percent : Z := 37.
Definition c_plus : Z := 43.
Definition c_minus : Z := 45.
Definition c_zero : Z := 48.

(** the string "<NULL>" *)
Definition null_string : list Z := [60; 78; 85; 76; 76; 62].

(** [do_div]: the remainder and the quotient *)
Definition do_div (n base : Z) : Z * Z := (u32 (u64 n mod u32 base), u64 n / u32 base).

(** the digits of [num], the lowest first; the 66 bytes of [tmp] hold any of them *)
Fixpoint digit_loop (fuel : nat) (digits : list Z) (num base : Z) : list Z :=
  match fuel with
  | O => []
  | S fuel =>
      if num =? 0 then []
      else let '(rem, num) := do_div num base in
           nth (Z.to_nat rem) digits 0 :: digit_loop fuel digits num base
  end.

Definition number_digits (digits : list Z) (num base : Z) : list Z :=
  if num =? 0 then [c_zero] else digit_loop 64 digits num base.

(** sign character (0 for none), the magnitude and the remaining size *)
Definition number_sign (num size type : Z) : Z * Z * Z :=
  if flag type SIGN then
    if s64 num <? 0 then (c_minus, u64 (- s64 num), size - 1)
    else if flag type PLUS then (c_plus, num, size - 1)
    else if flag type SPACE then (c_space, num, size - 1)
    else (0, num, size)
  else (0, num, size).

Section formatter.
Context {St : Type} `{Sink St}.

Fixpoint emit_n (n : nat) (c : Z) (st : St) : outcome St :=
  match n with O => Ret st | S n => st ← emit c st; emit_n n c st end.

Fixpoint emit_list (l : list Z) (st : St) : outcome St :=
  match l with [] => Ret st | c :: l => st ← emit c st; emit_list l st end.

(** [while (size-- > 0)] emitting [c]: the state and the final [size] *)
Definition emit_while (size c : Z) (st : St) : outcome (St * Z) :=
  st ← emit_n (Z.to_nat size) c st; Ret (st, Z.min size 0 - 1).

Definition number (st : St) (num base size precision type : Z) : outcome St :=
  let digits := if flag type LARGE then large_digits else small_digits in
  let type := if flag type LEFT then Z.land type (Z.lnot ZEROPAD) else type in
  if (base <? 2) || (36 <? base) then Undef (* the NULL returned is stored through *) else
  let c := if flag type ZEROPAD then c_zero else c_space in
  let '(sign, num, size) := number_sign num size type in
  let size := if flag type SPECIAL
              then if base =? 16 then size - 2 else if base =? 8 then size - 1 else size
              else size in
  let tmp := number_digits digits num base in
  let i := lenZ tmp in
  let precision := if precision <? i then i else precision in
  let size := size - precision in
  r ← (if negb (flag type (ZEROPAD + LEFT)) then emit_while size c_space st else Ret (st, size));
  let '(st, size) := r in
  st ← (if negb (sign =? 0) then emit sign st else Ret st);
  st ← (if flag type SPECIAL then
          if base =? 8 then emit c_zero st
          else if base =? 16 then st ← emit c_zero st; emit (nth 33 digits 0) st
          else Ret st
        else Ret st);
  r ← (if negb (flag type LEFT) then emit_while size c st else Ret (st, size));
  let '(st, size) := r in
  st ← emit_n (Z.to_nat (precision - i)) c_zero st;
  st ← emit_list (rev tmp) st;
  r ← emit_while size c_space st;
  Ret r.1.

(** ** The conversions *)

Record fstate := FState { f_out : St; f_mem : memory; f_args : list Z }.

Definition va_arg (args : list Z) : outcome (Z * list Z) :=
  match args with a :: args => Ret (a, args) | [] => Undef end.

(** digits from [s] on, accumulated into [i] *)
Fixpoint skip_atoi (fuel : nat) (m : memory) (s i : Z) : outcome (Z * Z) :=
  match fuel with
  | O => Undef
  | S fuel =>
      c ← rd m s;
      if isdigit c then skip_atoi fuel m (s + 1) (s32 (i * 10 + c - 48)) else Ret (i, s)
  end.

(** the [repeat] loop; [fmt] is the character before the flags *)
Fixpoint fmt_flags (fuel : nat) (m : memory) (fmt flags : Z) : outcome (Z * Z) :=
  match fuel with
  | O => Undef
  | S fuel =>
      let fmt := fmt + 1 in
      c ← rd m fmt;
      if c =? 45 then fmt_flags fuel m fmt (Z.lor flags LEFT)
      else if c =? 43 then fmt_flags fuel m fmt (Z.lor flags PLUS)
      else if c =? 32 then fmt_flags fuel m fmt (Z.lor flags SPACE)
      else if c =? 35 then fmt_flags fuel m fmt (Z.lor flags SPECIAL)
      else if c =? 48 then fmt_flags fuel m fmt (Z.lor flags ZEROPAD)
      else Ret (flags, fmt)
  end.

(** the field width, its effect on the flags, and what is left *)
Definition fmt_width (m : memory) (fmt flags : Z) (args : list Z)
    : outcome (Z * Z * Z * list Z) :=
  c ← rd m fmt;
  if isdigit c then r ← skip_atoi (fuel_of m) m fmt 0; Ret (r.1, flags, r.2, args)
  else if c =? 42 then
    r ← va_arg args;
    let w := s32 r.1 in
    if w <? 0 then Ret (s32 (- w), Z.lor flags LEFT, fmt + 1, r.2)
    else Ret (w, flags, fmt + 1, r.2)
  else Ret (-1, flags, fmt, args).

Definition fmt_precision (m : memory) (fmt : Z) (args : list Z) : outcome (Z * Z * list Z) :=
  c ← rd m fmt;
  if c =? 46 then
    c ← rd m (fmt + 1);
    r ← (if isdigit c then r ← skip_atoi (fuel_of m) m (fmt + 1) 0; Ret (r.1, r.2, args)
         else if c =? 42 then r ← va_arg args; Ret (s32 r.1, fmt + 1 + 1, r.2)
         else Ret (-1, fmt + 1, args));
    let '(p, fmt, args) := r in
    Ret (if p <? 0 then 0 else p, fmt, args)
  else Ret (-1, fmt, args).

(** 'L' for "ll" *)
Definition fmt_qualifier (m : memory) (fmt : Z) : outcome (Z * Z) :=
  c ← rd m fmt;
  if (c =? 104) || (c =? 108) || (c =? 76) || (c =? 90) || (c =? 122) || (c =? 116) then
    d ← rd m (fmt + 1);
    if (c =? 108) && (d =? 108) then Ret (76, fmt + 1 + 1) else Ret (c, fmt + 1)
  else Ret (-1, fmt).

(** the [n] bytes of [v] at [p], big-endian *)
Fixpoint store_be (n : nat) (m : memory) (p v : Z) : outcome memory :=
  match n with
  | O => Ret m
  | S n => m ← wr m (p + Z.of_nat n) (u8 v); store_be n m p (Z.shiftr v 8)
  end.

(** [while (len < field_width--)]: the state and the final width *)
Definition pad_to (len width : Z) (st : St) : outcome (St * Z) :=
  st ← emit_n (Z.to_nat (width - len)) c_space st; Ret (st, Z.min width len - 1).

(** [while (--width > 0)] emitting spaces: the state and the final width *)
Definition pad_predec (width : Z) (st : St) : outcome (St * Z) :=
  st ← emit_n (Z.to_nat (width - 1)) c_space st; Ret (st, Z.min (width - 1) 0).

(** the bytes of a string argument, [len] of them *)
Fixpoint read_bytes (n : nat) (m : memory) (s : Z) : outcome (list Z) :=
  match n with
  | O => Ret []
  | S n => c ← rd m s; l ← read_bytes n m (s + 1); Ret (c :: l)
  end.

(** the length and the characters %s prints *)
Definition string_arg (m : memory) (s precision : Z) : outcome (Z * list Z) :=
  if s <? VSPRINTF_PAGE_SIZE then
    let n := Z.min (u64 precision) (lenZ null_string) in Ret (n, take (Z.to_nat n) null_string)
  else
    n ← strnlen m s (u64 precision);
    l ← read_bytes (Z.to_nat (s32 n)) m s;
    Ret (s32 n, l).

(** the argument of an integer conversion, by qualifier *)
Definition integer_arg (qualifier flags a : Z) : Z :=
  if qualifier =? 76 then u64 a
  else if qualifier =? 108 then if flag flags SIGN then u64 (s64 a) else u64 a
  else if (qualifier =? 90) || (qualifier =? 122) then u64 a
  else if qualifier =? 116 then u64 (s64 a)
  else if qualifier =? 104 then if flag flags SIGN then u64 (s16 a) else u16 a
  else if flag flags SIGN then u64 (s32 a) else u32 a.

Definition convert_integer (s : fstate) (base width precision flags qualifier : Z) : outcome fstate :=
  r ← va_arg (f_args s);
  st ← number (f_out s) (integer_arg qualifier flags r.1) base width precision flags;
  Ret (FState st (f_mem s) r.2).

(** one conversion, [c] the conversion character; [true] when [fmt] is to be
    stepped back (the format ends in the middle) *)
Definition convert (s : fstate) (c flags width precision qualifier : Z) : outcome (fstate * bool) :=
  let '(FState st m args) := s in
  if c =? 99 then (* c *)
    r ← (if negb (flag flags LEFT) then pad_predec width st else Ret (st, width));
    let '(st, width) := r in
    a ← va_arg args;
    st ← emit (u8 a.1) st;
    r ← pad_predec width st;
    Ret (FState r.1 m a.2, false)
  else if c =? 115 then (* s *)
    a ← va_arg args;
    r ← string_arg m a.1 precision;
    let '(len, str) := r in
    r ← (if negb (flag flags LEFT) then pad_to len width st else Ret (st, width));
    let '(st, width) := r in
    st ← emit_list str st;
    r ← pad_to len width st;
    Ret (FState r.1 m a.2, false)
  else if c =? 112 then (* p *)
    let '(width, flags) := if width =? -1 then (16, Z.lor flags ZEROPAD) else (width, flags) in
    a ← va_arg args;
    st ← number st (u64 a.1) 16 width precision flags;
    Ret (FState st m a.2, false)
  else if c =? 110 then (* n *)
    a ← va_arg args;
    let n := if (qualifier =? 108) || (qualifier =? 90) || (qualifier =? 122) then 8%nat else 4%nat in
    m ← store_be n m a.1 (count st);
    Ret (FState st m a.2, false)
  else if c =? c_percent then st ← emit c_percent st; Ret (FState st m args, false)
  else if c =? 111 then s ← convert_integer s 8 width precision flags qualifier; Ret (s, false)
  else if c =? 88 then s ← convert_integer s 16 width precision (Z.lor flags LARGE) qualifier; Ret (s, false)
  else if c =? 120 then s ← convert_integer s 16 width precision flags qualifier; Ret (s, false)
  else if (c =? 100) || (c =? 105) then
    s ← convert_integer s 10 width precision (Z.lor flags SIGN) qualifier; Ret (s, false)
  else if c =? 117 then s ← convert_integer s 10 width precision flags qualifier; Ret (s, false)
  else
    st ← emit c_percent st;
    if negb (c =? 0) then st ← emit c st; Ret (FState st m args, false)
    else Ret (FState st m args, true).

(** the [for] loop over the format *)
Fixpoint format_loop (fuel : nat) (s : fstate) (fmt : Z) : outcome fstate :=
  match fuel with
  | O => Undef
  | S fuel =>
      let m := f_mem s in
      c ← rd m fmt;
      if c =? 0 then Ret s else
      if negb (c =? c_percent) then
        st ← emit c (f_out s); format_loop fuel (FState st m (f_args s)) (fmt + 1)
      else
        r ← fmt_flags (fuel_of m) m fmt 0; let '(flags, fmt) := r in
        r ← fmt_width m fmt flags (f_args s); let '(width, flags, fmt, args) := r in
        r ← fmt_precision m fmt args; let '(precision, fmt, args) := r in
        r ← fmt_qualifier m fmt; let '(qualifier, fmt) := r in
        c ← rd m fmt;
        r ← convert (FState (f_out s) m args) c flags width precision qualifier;
        let '(s, back) := r in
        format_loop fuel s ((if back : bool then fmt - 1 else fmt) + 1)
  end.
End formatter.
Arguments fstate St : clear implicits.
Arguments FState {St} f_out f_mem f_args.

(** * The bounded buffer *)

(** the bytes from [buf] on, [end - buf] and [str - buf] *)
Record obuf := OBuf { ob_data : list Z; ob_end : Z; ob_str : Z }.

#[export] Instance obuf_sink : Sink obuf := {
  emit c o :=
    if ob_str o <? ob_end o then
      d ← defined (aset (ob_data o) (ob_str o) c); Ret (OBuf d (ob_end o) (ob_str o + 1))
    else Ret (OBuf (ob_data o) (ob_end o) (ob_str o + 1));
  count o := ob_str o;
}.

(** [data] are the bytes that may be stored to from [buf] on.  [end] and [size]
    after the check against wrap-around; [str - buf] is returned as an [int]. *)
Definition vsnprintf (buf : Z) (data : list Z) (size : Z) (m : memory) (fmt : Z) (args : list Z)
    : outcome (Z * list Z * memory) :=
  if s32 size <? 0 then Ret (0, data, m) else
  let end_ := u64 (buf + size) in
  let '(end_, size) := if end_ <? buf then (2 ^ 64 - 1, 2 ^ 64 - 1 - buf) else (end_, size) in
  s ← format_loop (fuel_of m) (FState (OBuf data (end_ - buf) 0) m args) fmt;
  let o := f_out s in
  data ← (if size >? 0 then
            if ob_str o <? ob_end o then defined (aset (ob_data o) (ob_str o) c_NUL)
            else defined (aset (ob_data o) (ob_end o - 1) c_NUL)
          else Ret (ob_data o));
  Ret (s32 (ob_str o), data, f_mem s).

Definition snprintf (buf : Z) (data : list Z) (len : Z) (m : memory) (fmt : Z) (args : list Z)
    : outcome (Z * list Z * memory) :=
  vsnprintf buf data (u64 (s32 len)) m fmt args.

(** * The specification's sink: the characters emitted *)

#[export] Instance log_sink : Sink (list Z) := {
  emit c l := Ret (l ++ [c]);
  count l := lenZ l;
}.

(** the whole output of a format, whatever the buffer *)
Definition full_output (m : memory) (fmt : Z) (args : list Z) : outcome (list Z * memory) :=
  s ← format_loop (fuel_of m) (FState [] m args) fmt; Ret (f_out s, f_mem s).

(** * Sinks that agree *)

(** if the first computation returns, so does the second, with related results *)
Definition osim {A B} (R : A -> B -> Prop) (x : outcome A) (y : outcome B) : Prop :=
  match x with Ret a => exists b, y = Ret b /\ R a b | _ => True end.

Arguments osim : simpl never.

Lemma osim_ret {A B} (R : A -> B -> Prop) a b : R a b -> osim R (Ret a) (Ret b).
Proof. by exists b. Qed.

Lemma osim_bind {A B A' B'} (R : A -> B -> Prop) (R' : A' -> B' -> Prop) x y f g :
  osim R x y -> (forall a b, R a b -> osim R' (f a) (g b)) -> osim R' (x ≫= f) (y ≫= g).
Proof. destruct x as [a| |]; [|done..]. intros (b & -> & Hab) H. by apply H. Qed.

Lemma osim_same {A} (x : outcome A) : osim eq x x.
Proof. destruct x; [by eexists|done..]. Qed.

Section simulation.
Context {S1 S2 : Type} `{Sink S1} `{Sink S2} (R : S1 -> S2 -> Prop).
Context (Remit : forall c a b, R a b -> osim R (emit c a) (emit c b)).
Context (Rcount : forall a b, R a b -> count a = count b).

Definition Rsize {A} (x : S1 * A) (y : S2 * A) : Prop := R x.1 y.1 /\ x.2 = y.2.
Definition Rstate (x : fstate S1) (y : fstate S2) : Prop :=
  R (f_out x) (f_out y) /\ f_mem x = f_mem y /\ f_args x = f_args y.
Definition Rconv (x : fstate S1 * bool) (y : fstate S2 * bool) : Prop := Rstate x.1 y.1 /\ x.2 = y.2.

Lemma emit_n_sim n c a b : R a b -> osim R (emit_n n c a) (emit_n n c b).
Proof.
  revert a b. induction n as [|n IH]; intros a b Hab; [by apply osim_ret|].
  eapply osim_bind; [by apply Remit|]. intros. by apply IH.
Qed.

Lemma emit_list_sim l a b : R a b -> osim R (emit_list l a) (emit_list l b).
Proof.
  revert a b. induction l as [|c l IH]; intros a b Hab; [by apply osim_ret|].
  eapply osim_bind; [by apply Remit|]. intros. by apply IH.
Qed.

Lemma counted_sim (f : S1 -> outcome S1) (g : S2 -> outcome S2) (n : Z) a b :
  (forall a b, R a b -> osim R (f a) (g b)) -> R a b ->
  osim Rsize (a ← f a; Ret (a, n)) (b ← g b; Ret (b, n)).
Proof. intros Hf Hab. eapply osim_bind; [by apply Hf|]. intros. by apply osim_ret. Qed.

(** one step of a simulation proof: sink operations, identical computations,
    tests *)
Ltac sim_step :=
  match goal with
  | |- osim _ (Ret _) (Ret _) => apply osim_ret; unfold Rsize, Rconv, Rstate; simpl; by auto
  | |- osim R (emit_n _ _ _) (emit_n _ _ _) => by apply emit_n_sim
  | |- osim R (emit_list _ _) (emit_list _ _) => by apply emit_list_sim
  | |- osim R (emit _ _) (emit _ _) => by apply Remit
  | |- osim Rsize (emit_while _ _ _) (emit_while _ _ _) => by apply counted_sim; [intros; by apply emit_n_sim|]
  | |- osim Rsize (pad_to _ _ _) (pad_to _ _ _) => by apply counted_sim; [intros; by apply emit_n_sim|]
  | |- osim Rsize (pad_predec _ _) (pad_predec _ _) => by apply counted_sim; [intros; by apply emit_n_sim|]
  | |- osim eq _ _ => apply osim_same
  | |- osim _ (if ?c then _ else _) (if ?c then _ else _) => destruct c
  | |- osim _ (?x ≫= _) (?x ≫= _) => eapply (osim_bind eq); [apply osim_same|intros ? ? <-]
  | |- osim _ (_ ≫= _) (_ ≫= _) => eapply (osim_bind R); [solve [repeat sim_step]|intros ? ? ?]
  | |- osim _ (_ ≫= _) (_ ≫= _) => eapply (osim_bind Rsize); [solve [repeat sim_step]|intros [? ?] [? ?] [? ?]; simplify_eq/=]
  | |- osim _ Undef _ => exact I
  end.

Lemma number_sim a b num base size precision type : R a b ->
  osim R (number a num base size precision type) (number b num base size precision type).
Proof.
  intros Hab. unfold number. cbv zeta.
  set (digits := if flag type LARGE then large_digits else small_digits).
  set (type' := if flag type LEFT then Z.land type (Z.lnot ZEROPAD) else type).
  destruct ((base <? 2) || (36 <? base)); [exact I|].
  destruct (number_sign num size type') as [[sign num'] size'].
  repeat sim_step.
Qed.

Lemma convert_integer_sim s1 s2 base width precision flags qualifier : Rstate s1 s2 ->
  osim Rstate (convert_integer s1 base width precision flags qualifier)
    (convert_integer s2 base width precision flags qualifier).
Proof.
  intros (Hr & Hm & Ha). unfold convert_integer. rewrite Ha, Hm. sim_step.
  eapply osim_bind; [by apply number_sim|]. intros. by sim_step.
Qed.

Lemma convert_sim s1 s2 c flags width precision qualifier : Rstate s1 s2 ->
  osim Rconv (convert s1 c flags width precision qualifier) (convert s2 c flags width precision qualifier).
Proof.
  intros Hs. assert (forall base flags, osim Rconv
      (s ← convert_integer s1 base width precision flags qualifier; Ret (s, false))
      (s ← convert_integer s2 base width precision flags qualifier; Ret (s, false))) as Hint.
  { intros base fl. eapply osim_bind; [by apply convert_integer_sim|]. intros. by apply osim_ret. }
  destruct s1 as [o1 m1 a1], s2 as [o2 m2 a2], Hs as (Hr & Hm & Ha). simpl in Hr, Hm, Ha. subst m2 a2.
  unfold convert.
  destruct (c =? 99); [repeat sim_step|].
  destruct (c =? 115).
  { sim_step. sim_step. destruct a0 as [len str]. repeat sim_step. }
  destruct (c =? 112).
  { destruct (if width =? -1 then (16, Z.lor flags ZEROPAD) else (width, flags)) as [w fl].
    sim_step. eapply osim_bind; [by apply number_sim|]. intros. by sim_step. }
  destruct (c =? 110); [rewrite (Rcount o1 o2 Hr); repeat sim_step|].
  destruct (c =? c_percent); [repeat sim_step|].
  do 5 (match goal with |- osim _ (if ?t then _ else _) _ => destruct t; [apply Hint|] end).
  repeat sim_step.
Qed.

Lemma format_loop_sim fuel s1 s2 fmt : Rstate s1 s2 ->
  osim Rstate (format_loop fuel s1 fmt) (format_loop fuel s2 fmt).
Proof.
  revert s1 s2 fmt. induction fuel as [|fuel IH]; intros s1 s2 fmt Hs; [exact I|].
  cbn [format_loop]. destruct Hs as (Hr & Hm & Ha). rewrite <- Hm, <- Ha. cbv zeta.
  sim_step. destruct (_ =? 0); [by apply osim_ret|]. destruct (negb _).
  { eapply osim_bind; [by apply Remit|]. intros. by apply IH. }
  sim_step. destruct a0 as [flags fmt1]. sim_step. destruct a0 as [[[width fl] fmt2] args].
  sim_step. destruct a0 as [[precision fmt3] args']. sim_step. destruct a0 as [qualifier fmt4].
  sim_step. eapply osim_bind; [by apply convert_sim|]. intros [s1' b1] [s2' b2] [Hs' Hb].
  simpl in Hs', Hb. subst b2. by apply IH.
Qed.
End simulation.

(** * The bounded buffer holds the prefix of the output *)

(** the buffer [data] after the characters [l] were emitted with room for [E] *)
Definition stored (data : list Z) (E : Z) (l : list Z) : list Z :=
  take (Z.to_nat E) l ++ drop (length (take (Z.to_nat E) l)) data.

Definition Rlog (data : list Z) (E : Z) (l : list Z) (o : obuf) : Prop :=
  o = OBuf (stored data E l) E (lenZ l).

Lemma drop_insert_at (data : list Z) k c : (k < length data)%nat ->
  <[0%nat := c]> (drop k data) = c :: drop (S k) data.
Proof.
  intros Hk. destruct (drop k data) as [|d r] eqn:E.
  - apply (f_equal length) in E. rewrite length_drop in E. simpl in E. lia.
  - simpl. f_equal. replace (S k) with (k + 1)%nat by lia. by rewrite <- drop_drop, E.
Qed.

Lemma stored_set data E l c : lenZ l < E -> E <= lenZ data ->
  aset (stored data E l) (lenZ l) c = Some (l ++ c :: drop (S (length l)) data).
Proof.
  intros Hl Hd. unfold stored, lenZ in *. rewrite take_ge by lia.
  rewrite aset_insert by (unfold lenZ; rewrite length_app, length_drop; lia). f_equal.
  rewrite Nat2Z.id. rewrite insert_app_r_alt by lia. rewrite Nat.sub_diag.
  by rewrite drop_insert_at by lia.
Qed.

Lemma Rlog_emit data E c l o : 0 <= E <= lenZ data -> Rlog data E l o ->
  osim (Rlog data E) (emit c l) (emit c o).
Proof.
  intros HE ->. cbn [emit log_sink obuf_sink ob_str ob_end ob_data]. destruct (Z.ltb_spec (lenZ l) E) as [Hlt|Hge].
  - rewrite stored_set by lia. apply osim_ret. unfold Rlog. rewrite lenZ_app. f_equal.
    unfold stored, lenZ in *. rewrite take_ge by (rewrite length_app; simpl; lia).
    rewrite <- app_assoc. f_equal. rewrite length_app. simpl. do 2 f_equal. lia.
  - apply osim_ret. unfold Rlog. rewrite lenZ_app. f_equal.
    unfold stored, lenZ in *. rewrite take_app_le by lia. done.
Qed.

Lemma stored_end data E l : 0 < E <= lenZ l -> E <= lenZ data ->
  aset (stored data E l) (E - 1) c_NUL =
  Some (take (Z.to_nat (E - 1)) l ++ c_NUL :: drop (Z.to_nat E) data).
Proof.
  intros Hl Hd. unfold stored, lenZ in *. set (k := Z.to_nat (E - 1)).
  replace (Z.to_nat E) with (S k) by lia.
  assert (length (take (S k) l) = S k) as Hlen by (rewrite length_take; lia).
  rewrite Hlen. rewrite aset_insert by (unfold lenZ; rewrite length_app, length_drop; lia).
  f_equal. fold k. rewrite insert_app_l by lia.
  destruct (lookup_lt_is_Some_2 l k) as [x Hx]; [lia|].
  rewrite (take_S_r l k x Hx). rewrite insert_app_r_alt by (rewrite length_take; lia).
  rewrite length_take, Nat.min_l, Nat.sub_diag by lia. simpl. by rewrite <- app_assoc.
Qed.

(** the bounded run, from the run without a bound *)
Lemma vsnprintf_out (buf : Z) (data : list Z) (size : Z) (m m' : memory) (fmt : Z)
    (args F : list Z)
    (Hsize : 0 <= size < 2 ^ 31) (Hroom : size <= lenZ data)
    (Hbuf : 0 <= buf /\ buf + size < 2 ^ 64)
    (Hout : full_output m fmt args = Ret (F, m')) :
  let out := take (Z.to_nat (size - 1)) F in
  vsnprintf buf data size m fmt args =
  Ret (s32 (lenZ F),
       (if decide (size = 0) then data else out ++ [c_NUL] ++ drop (S (length out)) data), m').
Proof.
  intros out. unfold full_output in Hout. apply bind_Ret in Hout as ([l m1 a1] & Hloop & Hr).
  cbn [f_out f_mem] in Hr. injection Hr as -> ->.
  unfold vsnprintf. rewrite swrap_small by lia. case_bool; [lia|].
  rewrite wrap_small by lia. case_bool; [lia|].
  replace (buf + size - buf) with size by lia.
  pose proof (format_loop_sim (Rlog data size) (fun c a b => Rlog_emit data size c a b ltac:(lia))
    (fun a b Hab => ltac:(unfold Rlog in Hab; rewrite Hab; reflexivity))
    (fuel_of m) (FState [] m args) (FState (OBuf data size 0) m args) fmt) as Hsim.
  rewrite Hloop in Hsim. destruct Hsim as ([o2 m2 a2] & E2 & (Ho & Hm & Ha)).
  { unfold Rstate, Rlog, stored. simpl. rewrite take_nil. done. }
  simpl in Ho, Hm, Ha. subst m2 a2. rewrite E2. unfold Rlog in Ho. subst o2.
  cbn [mbind outcome_bind f_out f_mem ob_str ob_end ob_data]. rewrite Z.gtb_ltb.
  destruct (decide (size = 0)) as [->|Hne]; [done|].
  rewrite (proj2 (Z.ltb_lt 0 size)) by lia.
  destruct (Z.ltb_spec (lenZ F) size) as [Hlt|Hge].
  - rewrite stored_set by lia. cbn [defined mbind outcome_bind]. do 3 f_equal. unfold out, lenZ in *.
    rewrite take_ge by lia. done.
  - rewrite stored_end by lia. cbn [defined mbind outcome_bind]. do 3 f_equal. unfold out, lenZ in *.
    rewrite length_take. simpl. do 3 f_equal. lia.
Qed.

(** C40: Vsnprintf with a buffer of [size] bytes returns the length of the whole
    output of the format, and leaves in the buffer the longest prefix of it
    that fits with the terminating NUL; the bytes after the NUL, and with
    [size] 0 every byte, are unchanged.  Nothing is stored outside the [size]
    bytes. *)
Theorem vsnprintf_prefix (buf : Z) (data : list Z) (size : Z) (m m' : memory) (fmt : Z)
    (args F : list Z)
    (Hsize : 0 <= size < 2 ^ 31) (Hroom : size <= lenZ data)
    (Hbuf : 0 <= buf /\ buf + size < 2 ^ 64)
    (Hout : full_output m fmt args = Ret (F, m')) :
  let out := take (Z.to_nat (size - 1)) F in
  vsnprintf buf data size m fmt args =
  Ret (s32 (lenZ F),
       (if decide (size = 0) then data else out ++ [c_NUL] ++ drop (S (length out)) data), m').
Proof. by apply vsnprintf_out. Qed.

(** "%d-%s" into 4 bytes *)
Lemma vsnprintf_prefix_witness :
  vsnprintf 8192 [1; 2; 3; 4; 5; 6] 4 (zs "%d-%s" ++ [0]) 0 [12; 0] = Ret (9, [49; 50; 45; 0; 5; 6], zs "%d-%s" ++ [0]).
Proof.
  rewrite (vsnprintf_prefix 8192 [1; 2; 3; 4; 5; 6] 4 (zs "%d-%s" ++ [0]) (zs "%d-%s" ++ [0]) 0 [12; 0]
    (zs "12-<NULL>")).
  - by vm_compute.
  - lia.
  - by vm_compute.
  - lia.
  - by vm_compute.
Defined.

(** * Numbers *)

(** the value of a digit character *)
Definition digit_val (c : Z) : Z := if c <? 58 then c - 48 else if c <=? 90 then c - 55 else c - 87.

(** the value of a numeral, the highest digit first *)
Definition numeral_val (base : Z) (l : list Z) : Z := fold_left (fun v c => v * base + digit_val c) l 0.

Fixpoint low_first_val (base : Z) (l : list Z) : Z :=
  match l with [] => 0 | c :: l => digit_val c + base * low_first_val base l end.

Lemma numeral_val_rev base l : numeral_val base (rev l) = low_first_val base l.
Proof.
  unfold numeral_val. rewrite <- fold_left_rev_right, rev_involutive.
  induction l as [|c l IH]; simpl; [done|]. rewrite IH. lia.
Qed.

Definition digit_list (digits : list Z) : Prop := digits = small_digits \/ digits = large_digits.

Lemma digit_val_nth digits r : digit_list digits -> 0 <= r < 36 ->
  digit_val (nth (Z.to_nat r) digits 0) = r /\ (nth (Z.to_nat r) digits 0 = c_zero -> r = 0).
Proof.
  intros Hd Hr. assert (Forall (fun k => digit_val (nth k digits 0) = Z.of_nat k /\
    (nth k digits 0 = c_zero -> k = 0%nat)) (seq 0 36)) as Hall.
  { destruct Hd as [->| ->]; repeat constructor; intros; try done; by vm_compute in *. }
  rewrite Forall_forall in Hall. destruct (Hall (Z.to_nat r)) as [H1 H2].
  { apply elem_of_seq. lia. }
  rewrite H1. split; [lia|]. intros E%H2. lia.
Qed.

Lemma digit_loop_val fuel digits num base :
  digit_list digits -> 2 <= base <= 36 -> 0 <= num < 2 ^ 64 -> num < 2 ^ Z.of_nat fuel ->
  low_first_val base (digit_loop fuel digits num base) = num /\
  (num <> 0 -> exists l c, digit_loop fuel digits num base = l ++ [c] /\ c <> c_zero).
Proof.
  intros Hd Hb. revert num. induction fuel as [|fuel IH]; intros num Hn Hf.
  { assert (num = 0) by (simpl in Hf; lia). subst. done. }
  cbn [digit_loop]. destruct (Z.eqb_spec num 0) as [->|Hne]; [done|].
  unfold do_div. rewrite (wrap_small 64 num), !(wrap_small 32 base) by lia.
  pose proof (Z.mod_pos_bound num base ltac:(lia)) as Hm.
  rewrite wrap_small by lia. pose proof (Z.div_mod num base ltac:(lia)) as Hdm.
  assert (0 <= num / base <= num / 2) as Hq.
  { split; [apply Z.div_pos; lia|]. apply Z.div_le_compat_l; lia. }
  destruct (IH (num / base)) as [Hv Hl].
  { divlia. }
  { rewrite Nat2Z.inj_succ, Z.pow_succ_r in Hf by lia. divlia. }
  destruct (digit_val_nth digits (num mod base) Hd) as [Hdv Hz]; [lia|].
  split; [simpl; rewrite Hdv, Hv; lia|]. intros _.
  destruct (decide (num / base = 0)) as [E|E].
  - exists [], (nth (Z.to_nat (num mod base)) digits 0). split.
    + rewrite E. destruct fuel; done.
    + intros Hc%Hz. lia.
  - destruct (Hl E) as (l & c & El & Hc). exists (nth (Z.to_nat (num mod base)) digits 0 :: l), c.
    by rewrite El.
Qed.

Lemma emit_n_log n c (l : list Z) : emit_n n c l = Ret (l ++ replicate n c).
Proof.
  revert l. induction n as [|n IH]; intros l; simpl; [by rewrite app_nil_r|].
  rewrite IH. by rewrite <- app_assoc.
Qed.

Lemma emit_list_log k (l : list Z) : emit_list k l = Ret (l ++ k).
Proof.
  revert l. induction k as [|c k IH]; intros l; simpl; [by rewrite app_nil_r|].
  rewrite IH. by rewrite <- app_assoc.
Qed.

(** the numeral [number] prints for a magnitude: the digits only *)
Definition numeral (num base type : Z) : list Z :=
  rev (number_digits (if flag type LARGE then large_digits else small_digits) num base).

Lemma numeral_spec num base type : 0 <= num < 2 ^ 64 -> 2 <= base <= 36 ->
  numeral_val base (numeral num base type) = num /\
  (num <> 0 -> exists c l, numeral num base type = c :: l /\ c <> c_zero).
Proof.
  intros Hn Hb. unfold numeral. set (digits := if flag type LARGE then large_digits else small_digits).
  assert (digit_list digits) as Hd by (unfold digits, digit_list; destruct (flag _ _); auto).
  rewrite numeral_val_rev. unfold number_digits. destruct (Z.eqb_spec num 0) as [->|Hne].
  - split; [|done]. change (0 + base * 0 = 0). lia.
  - destruct (digit_loop_val 64 digits num base Hd Hb Hn) as [Hv Hl]; [lia|].
    split; [done|]. intros _. destruct (Hl Hne) as (l & c & E & Hc). rewrite E, rev_app_distr. simpl. eauto.
Qed.

(** what [number] emits *)
Lemma number_out (st : list Z) (num base size precision zp sg lg : Z)
    (Hbase : 2 <= base <= 36) (Hnum : 0 <= num < 2 ^ 64)
    (Hzp : zp = 0 \/ zp = ZEROPAD) (Hsg : sg = 0 \/ sg = SIGN) (Hlg : lg = 0 \/ lg = LARGE) :
  let neg := (sg =? SIGN) && (s64 num <? 0) in
  let mag := if neg then 2 ^ 64 - num else num in
  let sign := if neg then [c_minus] else [] in
  let D := numeral mag base lg in
  let zeros := replicate (Z.to_nat (precision - lenZ D)) c_zero in
  let fill := Z.to_nat (size - lenZ sign - lenZ zeros - lenZ D) in
  number st num base size precision (zp + sg + lg) =
    Ret (st ++ if zp =? 0 then replicate fill c_space ++ sign ++ zeros ++ D
         else sign ++ replicate fill c_zero ++ zeros ++ D) /\
  numeral_val base D = mag /\ (mag <> 0 -> exists c l, D = c :: l /\ c <> c_zero).
Proof.
  intros neg mag sign D zeros fill.
  assert (neg = true -> mag = u64 (- s64 num) /\ 0 <= mag < 2 ^ 64) as Hneg.
  { unfold mag. intros Hn. rewrite Hn. unfold neg in Hn. apply andb_prop in Hn as [_ Hn].
    apply Z.ltb_lt in Hn. revert Hn. unfold swrap, wrap. divlia. }
  assert (0 <= mag < 2 ^ 64) as Hmag.
  { destruct neg eqn:E; [by apply Hneg|done]. }
  split; [|by apply numeral_spec].
  assert (flag (zp + sg + lg) LARGE = flag lg LARGE /\ flag (zp + sg + lg) LEFT = false /\
    flag (zp + sg + lg) ZEROPAD = negb (zp =? 0) /\ flag (zp + sg + lg) SIGN = (sg =? SIGN) /\
    flag (zp + sg + lg) PLUS = false /\ flag (zp + sg + lg) SPACE = false /\
    flag (zp + sg + lg) SPECIAL = false /\ flag (zp + sg + lg) (ZEROPAD + LEFT) = negb (zp =? 0))
    as (F1 & F2 & F3 & F4 & F5 & F6 & F7 & F8).
  { destruct Hzp as [-> | ->], Hsg as [-> | ->], Hlg as [-> | ->]; by vm_compute. }
  unfold number. cbv zeta. rewrite F1, F2, F3, F8, F7. unfold number_sign. rewrite F4, F5, F6.
  destruct (Z.ltb_spec base 2); [lia|]. destruct (Z.ltb_spec 36 base); [lia|]. cbn [orb].
  set (digits := if flag lg LARGE then large_digits else small_digits).
  assert ((if sg =? SIGN then if s64 num <? 0 then (c_minus, u64 (- s64 num), size - 1) else (0, num, size)
      else (0, num, size)) = (if neg then c_minus else 0, mag, size - lenZ sign)) as ->.
  { unfold sign, lenZ. destruct neg eqn:En.
    - unfold neg in En. apply andb_prop in En as [-> ->]. destruct (Hneg eq_refl) as [-> _]. done.
    - unfold neg in En. unfold mag. destruct (sg =? SIGN), (s64 num <? 0); try discriminate En; simpl; f_equal; lia. }
  cbv beta iota zeta.
  assert (lenZ (number_digits digits mag base) = lenZ D) as Hlen.
  { unfold D, numeral, lenZ. by rewrite length_rev. }
  assert (rev (number_digits digits mag base) = D) as Hrev by done.
  rewrite Hlen, Hrev. set (prec := if precision <? lenZ D then lenZ D else precision).
  assert (prec = lenZ D + lenZ zeros) as Hprec.
  { assert (lenZ zeros = Z.max 0 (precision - lenZ D)) as ->.
    { unfold zeros, lenZ at 1. rewrite length_replicate. lia. }
    unfold prec. destruct (Z.ltb_spec precision (lenZ D)); lia. }
  replace (prec - lenZ D) with (lenZ zeros) by lia.
  assert (forall l : list Z, emit_n (Z.to_nat (lenZ zeros)) c_zero l = Ret (l ++ zeros)) as Hz.
  { intros l. rewrite emit_n_log. unfold zeros at 1, lenZ. by rewrite length_replicate, Nat2Z.id. }
  assert (forall l : list Z, (if negb ((if neg then c_minus else 0) =? 0) then emit (if neg then c_minus else 0) l
      else Ret l) = Ret (l ++ sign)) as Hs.
  { intros l. unfold sign. destruct neg; simpl; [done|by rewrite app_nil_r]. }
  unfold emit_while. replace (size - lenZ sign - prec) with (size - lenZ sign - lenZ zeros - lenZ D) by lia.
  set (room := size - lenZ sign - lenZ zeros - lenZ D). fold room in fill.
  rewrite F2. destruct (Z.eqb_spec zp 0) as [_|_]; cbn [negb]; rewrite ?emit_n_log; cbn [mbind outcome_bind app];
    rewrite Hs; cbn [mbind outcome_bind]; rewrite ?emit_n_log; cbn [mbind outcome_bind];
    rewrite Hz; cbn [mbind outcome_bind]; rewrite emit_list_log; cbn [mbind outcome_bind];
    rewrite ?emit_n_log; cbn [mbind outcome_bind fst]; f_equal; unfold fill.
  - replace (Z.to_nat (Z.min room 0 - 1)) with 0%nat by lia.
    replace (Z.to_nat (Z.min (Z.min room 0 - 1) 0 - 1)) with 0%nat by lia.
    cbn [replicate]. by rewrite !app_nil_r, <- !app_assoc.
  - replace (Z.to_nat (Z.min room 0 - 1)) with 0%nat by lia.
    cbn [replicate]. by rewrite !app_nil_r, <- !app_assoc.
Qed.

(** Number, for a plain, zero-padded, signed or upper-case conversion in
    base 2 to 36, emits the sign when the value is negative and signed, the
    zeros of the precision and the numeral of the magnitude, preceded by spaces
    (or, zero-padded, with zeros after the sign) up to the field width; the
    numeral denotes the magnitude and has no leading zero. *)
Theorem number_output (num base size precision zp sg lg : Z)
    (Hbase : 2 <= base <= 36) (Hnum : 0 <= num < 2 ^ 64)
    (Hzp : zp = 0 \/ zp = ZEROPAD) (Hsg : sg = 0 \/ sg = SIGN) (Hlg : lg = 0 \/ lg = LARGE) :
  let neg := (sg =? SIGN) && (s64 num <? 0) in
  let mag := if neg then 2 ^ 64 - num else num in
  let sign := if neg then [c_minus] else [] in
  let D := numeral mag base lg in
  let zeros := replicate (Z.to_nat (precision - lenZ D)) c_zero in
  let fill := Z.to_nat (size - lenZ sign - lenZ zeros - lenZ D) in
  number [] num base size precision (zp + sg + lg) =
    Ret (if zp =? 0 then replicate fill c_space ++ sign ++ zeros ++ D
         else sign ++ replicate fill c_zero ++ zeros ++ D) /\
  numeral_val base D = mag /\ (mag <> 0 -> exists c l, D = c :: l /\ c <> c_zero).
Proof. by apply (number_out []). Qed.

(** "%05d" of -42 *)
Lemma number_output_witness :
  number [] (u64 (-42)) 10 5 (-1) (ZEROPAD + SIGN + 0) = Ret [45; 48; 48; 52; 50].
Proof.
  destruct (number_output (u64 (-42)) 10 5 (-1) ZEROPAD SIGN 0) as [E _];
    [lia|by vm_compute|by right|by right|by left|]. rewrite E. by vm_compute.
Defined.
