(* ===== verification/Clock.v ===== *)
(** lib/clock.c and include/clock.h: from the time-of-day clock to a calendar
    date.

    [parse_tod] starts at the last entry of the table of leap seconds not later
    than the clock value, steps over years, then months.  The theorem: for every
    64-bit clock value it returns a date and a time of day within their ranges,
    and the seconds since 1900, leap seconds included, are those of the clock.
    The year loop has fuel 200 (64 bits of clock are 143 years), the month loop
    20; both are shown to be enough. *)

From S2P Require Import Prelude.

Local Open Scope Z_scope.

(** * clock.h *)

Definition CLK_MICROSEC : Z := 0x1000.
Definition CLK_SEC : Z := 0xf4240000.
Definition CLK_MIN : Z := 0x3938700000.
Definition CLK_HOUR : Z := 0xd693a400000.
Definition CLK_DAY : Z := 0x141dd76000000.
Definition CLK_YEAR : Z := 0x1cae8c13e000000.

Record datetime := Datetime { dy : Z; dm : Z; dd : Z; th : Z; tm : Z; ts : Z; tmicro : Z }.

Definition leap_year (year : Z) : bool :=
  (Z.rem year 4 =? 0) && (negb (Z.rem year 100 =? 0) || (Z.rem year 400 =? 0)).

(** * clock.c *)

Definition LS_NONE : Z := 0x00.
Definition LS_LS : Z := 0x10.
Definition LS_MASK : Z := LS_LS.
Definition LS_YM2DATE (y m f : Z) : Z := Z.lor (Z.lor (Z.shiftl y 8) f) m.
Definition LS_DATE2Y (d : Z) : Z := Z.shiftr d 8.
Definition LS_DATE2M (d : Z) : Z := Z.land d 0xf.
Definition LS_DATE2F (d : Z) : Z := Z.land d LS_MASK.

Record leap_sec_info := LeapSec { li_tod : Z; li_date : Z }.

Definition leap_secs : list leap_sec_info := [
  LeapSec 0xC3870CB9BB600000 (LS_YM2DATE 2009 1 LS_LS);
  LeapSec 0xBE251097973C0000 (LS_YM2DATE 2006 1 LS_LS);
  LeapSec 0xB1962F9305180000 (LS_YM2DATE 1999 1 LS_LS);
  LeapSec 0xAEE3EFA402F40000 (LS_YM2DATE 1997 7 LS_LS);
  LeapSec 0xAC34336FECD00000 (LS_YM2DATE 1996 1 LS_LS);
  LeapSec 0xA981F380EAAC0000 (LS_YM2DATE 1994 7 LS_LS);
  LeapSec 0xA7B70ABEB8880000 (LS_YM2DATE 1993 7 LS_LS);
  LeapSec 0xA5EC21FC86640000 (LS_YM2DATE 1992 7 LS_LS);
  LeapSec 0xA33C65C870400000 (LS_YM2DATE 1991 1 LS_LS);
  LeapSec 0xA1717D063E1C0000 (LS_YM2DATE 1990 1 LS_LS);
  LeapSec 0x9DDA69A557F80000 (LS_YM2DATE 1988 1 LS_LS);
  LeapSec 0x995D40F517D40000 (LS_YM2DATE 1985 7 LS_LS);
  LeapSec 0x95C62D9431B00000 (LS_YM2DATE 1983 7 LS_LS);
  LeapSec 0x93FB44D1FF8C0000 (LS_YM2DATE 1982 7 LS_LS);
  LeapSec 0x92305C0FCD680000 (LS_YM2DATE 1981 7 LS_LS);
  LeapSec 0x8F809FDBB7440000 (LS_YM2DATE 1980 1 LS_LS);
  LeapSec 0x8DB5B71985200000 (LS_YM2DATE 1979 1 LS_LS);
  LeapSec 0x8BEACE5752FC0000 (LS_YM2DATE 1978 1 LS_LS);
  LeapSec 0x8A1FE59520D80000 (LS_YM2DATE 1977 1 LS_LS);
  LeapSec 0x8853BAF578B40000 (LS_YM2DATE 1976 1 LS_LS);
  LeapSec 0x8688D23346900000 (LS_YM2DATE 1975 1 LS_LS);
  LeapSec 0x84BDE971146C0000 (LS_YM2DATE 1974 1 LS_LS);
  LeapSec 0x82F300AEE2480000 (LS_YM2DATE 1973 1 LS_LS);
  LeapSec 0x820BA9811E240000 (LS_YM2DATE 1972 7 LS_LS);
  LeapSec 0x8126D60E46000000 (LS_YM2DATE 1972 1 LS_NONE);
  LeapSec 0x0000000000000000 (LS_YM2DATE 1900 1 LS_NONE)].

Definition month_offsets (leap : bool) : list Z :=
  if leap
  then [0; 31; 60; 91; 121; 152; 182; 213; 244; 274; 305; 335]
  else [0; 31; 59; 90; 120; 151; 181; 212; 243; 273; 304; 334].

(** [for (i=0; leap_secs[i].tod > tod; i++)] over the entries left *)
Fixpoint find_leap (l : list leap_sec_info) (i tod : Z) : outcome (Z * leap_sec_info) :=
  match l with
  | [] => Undef
  | e :: l => if li_tod e >? tod then find_leap l (i + 1) tod else Ret (i, e)
  end.

(** the year loop *)
Fixpoint year_loop (fuel : nat) (y m tod : Z) : outcome (Z * Z) :=
  match fuel with
  | O => Undef
  | S fuel =>
      let done_ := if leap_year (if m =? 1 then y else y + 1)
                   then tod <? CLK_YEAR + CLK_DAY else tod <? CLK_YEAR in
      if done_ then Ret (y, tod) else
      let tod := if ((m =? 1) && leap_year y) || ((m =? 7) && leap_year (y + 1))
                 then u64 (tod - (CLK_YEAR + CLK_DAY)) else u64 (tod - CLK_YEAR) in
      year_loop fuel (s16 (y + 1)) m tod
  end.

(** [while ((dt->dm < 12) && ((i + dt->dd) >= month_offsets[leap][dt->dm])) dt->dm++] *)
Fixpoint month_while (fuel : nat) (leap : bool) (i d m : Z) : outcome Z :=
  match fuel with
  | O => Undef
  | S fuel =>
      if m <? 12 then
        off ← defined (aget (month_offsets leap) m);
        if i + d >=? off then month_while fuel leap i d (s16 (m + 1)) else Ret m
      else Ret m
  end.

(** the [do] loop: year, month and day of the month, from 0 *)
Fixpoint month_loop (fuel : nat) (y m d : Z) : outcome (Z * Z * Z) :=
  match fuel with
  | O => Undef
  | S fuel =>
      let leap := leap_year y in
      i ← defined (aget (month_offsets leap) (m - 1));
      m ← month_while 13 leap i d m;
      off ← defined (aget (month_offsets leap) (m - 1));
      let d := s16 (d + i - off) in
      if (m <? 12) || (d <? 31) then Ret (y, m, d)
      else month_loop fuel (s16 (y + 1)) 1 (s16 (d - 31))
  end.

(** [None] is the NULL result *)
Definition parse_tod (tod : Z) : outcome (option datetime) :=
  r ← find_leap leap_secs 0 tod; let '(i, ei) := r in
  r ← find_leap leap_secs 0 (u64 (tod + CLK_SEC)); let '(j, ej) := r in
  let tod := u64 (tod - li_tod ei) in
  let y := s16 (LS_DATE2Y (li_date ei)) in
  let m := s16 (LS_DATE2M (li_date ei)) in
  let '(tod, add_sec) :=
    if negb (i =? j) && (LS_DATE2F (li_date ej) =? LS_LS)
    then (u64 (tod - CLK_SEC), 1) else (tod, 0) in
  if negb (m =? 1) && negb (m =? 7) then Ret None else
  r ← year_loop 200 y m tod; let '(y, tod) := r in
  let d := s16 (tod / CLK_DAY) in
  let tod := u64 (tod - u64 (d * CLK_DAY)) in
  r ← month_loop 20 y m d; let '(y, m, d) := r in
  let d := s16 (d + 1) in
  let h := s16 (tod / CLK_HOUR) in
  let tod := u64 (tod - u64 (h * CLK_HOUR)) in
  let mi := s16 (tod / CLK_MIN) in
  let tod := u64 (tod - u64 (mi * CLK_MIN)) in
  let s := s16 (tod / CLK_SEC) in
  let tod := u64 (tod - u64 (s * CLK_SEC)) in
  let s := s16 (s + add_sec) in
  Ret (Some (Datetime y m d h mi s (u32 (Z.shiftr tod 12)))).

(** [get_parsed_tod]: [clk] is the condition code and the value of STORE CLOCK; a clock that is not set leaves [dt] as it was.
    [parse_tod] never returns NULL ([parse_tod_date]) *)
Definition get_parsed_tod (clk : Z * Z) (dt : datetime) : outcome (Z * datetime) :=
  let '(ret, tod) := clk in
  if ret =? 0 then d ← parse_tod (u64 tod); dt ← defined d; Ret (ret, dt) else Ret (ret, dt).

(** * The calendar *)

(** leap years before [y] *)
Definition leaps_before (y : Z) : Z := (y - 1) / 4 - (y - 1) / 100 + (y - 1) / 400.

Definition month_offset (leap : bool) (m : Z) : Z := nth (Z.to_nat (m - 1)) (month_offsets leap) 0.

(** days since 1 January 1900 *)
Definition civil_days (y m d : Z) : Z :=
  365 * (y - 1900) + leaps_before y - leaps_before 1900 + month_offset (leap_year y) m + (d - 1).

Definition days_in_month (leap : bool) (m : Z) : Z :=
  if m =? 12 then 31 else month_offset leap (m + 1) - month_offset leap m.

(** the leap seconds of the entries at and after [i] of the table *)
Definition leap_count (l : list leap_sec_info) : Z :=
  lenZ (List.filter (fun e => LS_DATE2F (li_date e) =? LS_LS) l).

Lemma leaps_step y : 1 <= y -> leaps_before (y + 1) = leaps_before y + Z.b2z (leap_year y).
Proof.
  intros Hy. unfold leaps_before, leap_year. rewrite !Z.rem_mod_nonneg by lia.
  replace (y + 1 - 1) with y by lia.
  destruct (Z.eqb_spec (y mod 4) 0), (Z.eqb_spec (y mod 100) 0), (Z.eqb_spec (y mod 400) 0); simpl; divlia.
Qed.

Lemma month_offset_get leap m : 0 <= m < 12 ->
  aget (month_offsets leap) m = Some (month_offset leap (m + 1)).
Proof.
  intros Hm. assert (m = 0 \/ m = 1 \/ m = 2 \/ m = 3 \/ m = 4 \/ m = 5 \/ m = 6 \/ m = 7 \/ m = 8 \/
    m = 9 \/ m = 10 \/ m = 11) as H by lia.
  destruct_or! H; subst m; by destruct leap.
Qed.

Lemma month_offset_range leap m : 1 <= m <= 12 -> 0 <= month_offset leap m <= 334 + Z.b2z leap.
Proof.
  intros Hm. assert (m = 1 \/ m = 2 \/ m = 3 \/ m = 4 \/ m = 5 \/ m = 6 \/ m = 7 \/ m = 8 \/
    m = 9 \/ m = 10 \/ m = 11 \/ m = 12) as H by lia.
  destruct_or! H; subst m; destruct leap; simpl Z.b2z; by vm_compute.
Qed.

Lemma month_offset_vals leap :
  month_offset leap 1 = 0 /\ month_offset leap 7 = 181 + Z.b2z leap /\ month_offset leap 12 = 334 + Z.b2z leap.
Proof. by destruct leap. Qed.

(** the length of the year from month [m] (1 or 7) of [y] *)
Lemma civil_year y m : 1 <= y -> m = 1 \/ m = 7 ->
  civil_days (y + 1) m 1 =
  civil_days y m 1 + 365 + Z.b2z (leap_year (if m =? 1 then y else y + 1)).
Proof.
  intros Hy Hm. unfold civil_days. rewrite leaps_step by done.
  destruct (month_offset_vals (leap_year y)) as (A1 & A7 & _).
  destruct (month_offset_vals (leap_year (y + 1))) as (B1 & B7 & _).
  destruct Hm as [-> | ->]; cbn [Z.eqb Pos.eqb]; lia.
Qed.

Lemma year_loop_spec fuel y m tod :
  1900 <= y -> y + Z.of_nat fuel < 3000 -> m = 1 \/ m = 7 -> 0 <= tod < 2 ^ 64 ->
  tod < Z.of_nat fuel * CLK_YEAR ->
  exists y' tod', year_loop fuel y m tod = Ret (y', tod') /\ y <= y' <= y + Z.of_nat fuel /\
    0 <= tod' < 366 * CLK_DAY /\
    tod + CLK_DAY * civil_days y m 1 = tod' + CLK_DAY * civil_days y' m 1.
Proof.
  revert y tod. induction fuel as [|fuel IH]; intros y tod Hy Hf Hm Ht Hb; [lia|].
  cbn [year_loop]. pose proof (civil_year y m ltac:(lia) Hm) as Hcy.
  assert ((m =? 1) && leap_year y || (m =? 7) && leap_year (y + 1)
    = leap_year (if m =? 1 then y else y + 1)) as ->.
  { destruct Hm as [-> | ->]; simpl; [by rewrite orb_false_r|done]. }
  unfold CLK_YEAR, CLK_DAY in *.
  destruct (leap_year (if m =? 1 then y else y + 1)); simpl Z.b2z in Hcy.
  - case_bool; [exists y, tod; split; [done|]; lia|].
    rewrite wrap_small, swrap_small by lia.
    destruct (IH (y + 1) (tod - (0x1cae8c13e000000 + 0x141dd76000000))) as (y' & t' & E & H1 & H2 & H3); try lia.
    exists y', t'. split; [done|]. lia.
  - case_bool; [exists y, tod; split; [done|]; lia|].
    rewrite wrap_small, swrap_small by lia.
    destruct (IH (y + 1) (tod - 0x1cae8c13e000000)) as (y' & t' & E & H1 & H2 & H3); try lia.
    exists y', t'. split; [done|]. lia.
Qed.

Lemma month_while_spec fuel leap i d m :
  1 <= m <= 12 -> 12 - m < Z.of_nat fuel -> month_offset leap m <= i + d ->
  exists m', month_while fuel leap i d m = Ret m' /\ 1 <= m' <= 12 /\ month_offset leap m' <= i + d /\
    (m' < 12 -> i + d < month_offset leap (m' + 1)).
Proof.
  revert m. induction fuel as [|fuel IH]; intros m Hm Hf Ho; [lia|]. cbn [month_while].
  destruct (Z.ltb_spec m 12) as [Hlt|Hge]; [|exists m; split; [done|]; lia].
  rewrite month_offset_get by lia. cbn [defined mbind outcome_bind]. rewrite Z.geb_leb.
  case_bool; [|exists m; split; [done|]; lia].
  rewrite swrap_small by lia. apply IH; lia.
Qed.

Lemma civil_next_year y d : 1 <= y -> civil_days y 12 (d + 31) = civil_days (y + 1) 1 d.
Proof.
  intros Hy. unfold civil_days. rewrite leaps_step by done.
  destruct (month_offset_vals (leap_year y)) as (_ & _ & A12).
  destruct (month_offset_vals (leap_year (y + 1))) as (B1 & _ & _). lia.
Qed.

Lemma month_loop_spec fuel y m d :
  1900 <= y -> y + Z.of_nat fuel < 3000 -> 1 <= m <= 12 -> 0 <= d < 31 * Z.of_nat fuel -> d <= 1000 ->
  exists y' m' d', month_loop fuel y m d = Ret (y', m', d') /\ 1 <= m' <= 12 /\
    0 <= d' < days_in_month (leap_year y') m' /\ y <= y' <= y + Z.of_nat fuel /\
    civil_days y m (d + 1) = civil_days y' m' (d' + 1).
Proof.
  revert y m d. induction fuel as [|fuel IH]; intros y m d Hy Hf Hm Hd Hd1; [lia|].
  cbn [month_loop]. rewrite month_offset_get by lia. cbn [defined mbind outcome_bind].
  replace (m - 1 + 1) with m by lia.
  destruct (month_while_spec 13 (leap_year y) (month_offset (leap_year y) m) d m)
    as (m' & E & Hm' & Ho & Hn); [lia..|].
  rewrite E. cbn [mbind outcome_bind]. rewrite month_offset_get by lia. cbn [defined mbind outcome_bind].
  replace (m' - 1 + 1) with m' by lia.
  pose proof (month_offset_range (leap_year y) m Hm). pose proof (month_offset_range (leap_year y) m' Hm').
  assert (0 <= Z.b2z (leap_year y) <= 1) by (destruct (leap_year y); simpl; lia).
  set (d' := d + month_offset (leap_year y) m - month_offset (leap_year y) m').
  assert (civil_days y m (d + 1) = civil_days y m' (d' + 1)) as Hcd by (unfold civil_days, d'; lia).
  rewrite (swrap_small 16 d') by lia.
  destruct ((m' <? 12) || (d' <? 31)) eqn:Edone.
  - exists y, m', d'. split; [done|]. split; [done|]. split; [|lia].
    apply orb_true_iff in Edone. rewrite !Z.ltb_lt in Edone.
    unfold days_in_month, d' in *. destruct (Z.eqb_spec m' 12) as [->|]; [lia|].
    specialize (Hn ltac:(lia)). lia.
  - apply orb_false_elim in Edone as [E1%Z.ltb_ge E2%Z.ltb_ge].
    assert (m' = 12) as -> by lia. destruct (month_offset_vals (leap_year y)) as (_ & _ & A12).
    assert (d' <= d) by (unfold d'; lia). rewrite !swrap_small by lia.
    destruct (IH (y + 1) 1 (d' - 31)) as (y2 & m2 & d2 & E3 & Hm2 & Hd2 & Hy2 & Hc2); [lia..|].
    exists y2, m2, d2. split; [done|]. split; [done|]. split; [done|]. split; [lia|].
    rewrite Hcd, <- Hc2, <- civil_next_year by lia. f_equal. lia.
Qed.

(** ** The table *)

Definition entry (i : nat) : leap_sec_info := nth i leap_secs (LeapSec 0 0).

Definition entry_year (i : nat) : Z := LS_DATE2Y (li_date (entry i)).
Definition entry_month (i : nat) : Z := LS_DATE2M (li_date (entry i)).

Definition is_leap_entry (e : leap_sec_info) : bool := LS_DATE2F (li_date e) =? LS_LS.

(** what the entries have to satisfy, as a test *)
Definition entry_check (i : nat) : bool :=
  let e := entry i in
  ((entry_month i =? 1) || (entry_month i =? 7)) &&
  (1900 <=? entry_year i) && (entry_year i <=? 2009) &&
  (li_tod e =? CLK_SEC * (86400 * civil_days (entry_year i) (entry_month i) 1 + leap_count (drop i leap_secs))) &&
  (0 <=? li_tod e) && (li_tod e <? 2 ^ 64) &&
  (li_tod (entry (S i)) <=? li_tod e) &&
  ((i =? 25)%nat || (li_tod (entry (S i)) + 2 * CLK_SEC <? li_tod e)) &&
  (negb (is_leap_entry e) || ((li_tod e - li_tod (entry (S i)) - CLK_SEC) mod CLK_DAY =? 0)).

Lemma leap_table i : (i < 26)%nat ->
  (entry_month i = 1 \/ entry_month i = 7) /\ 1900 <= entry_year i <= 2009 /\
  li_tod (entry i) = CLK_SEC * (86400 * civil_days (entry_year i) (entry_month i) 1 + leap_count (drop i leap_secs)) /\
  0 <= li_tod (entry i) < 2 ^ 64 /\ li_tod (entry (S i)) <= li_tod (entry i) /\
  ((i < 25)%nat -> li_tod (entry (S i)) + 2 * CLK_SEC < li_tod (entry i)) /\
  (is_leap_entry (entry i) = true -> (li_tod (entry i) - li_tod (entry (S i)) - CLK_SEC) mod CLK_DAY = 0).
Proof.
  intros Hi. assert (forallb entry_check (seq 0 26) = true) as H by (by vm_compute).
  rewrite forallb_forall in H. specialize (H i). rewrite in_seq in H. specialize (H ltac:(lia)).
  unfold entry_check in H. cbv zeta in H. rewrite !andb_true_iff, !orb_true_iff in H.
  rewrite !Z.eqb_eq, !Z.leb_le, !Z.ltb_lt, Nat.eqb_eq, negb_true_iff in H.
  destruct H as ((((((((H1 & H2) & H3) & H4) & H5) & H6) & H7) & H8) & H9).
  split_and!; try done; [by destruct H8; [lia|]|by destruct H9 as [->|]].
Qed.

Lemma find_leap_from n k tod : (k + n = 25)%nat -> 0 <= tod -> (forall j, (j < k)%nat -> tod < li_tod (entry j)) ->
  exists i, (i < 26)%nat /\ find_leap (drop k leap_secs) (Z.of_nat k) tod = Ret (Z.of_nat i, entry i) /\
    li_tod (entry i) <= tod /\ forall j, (j < i)%nat -> tod < li_tod (entry j).
Proof.
  revert k. induction n as [|n IH]; intros k Hk Ht Hj.
  - assert (k = 25%nat) as -> by lia. exists 25%nat. split; [lia|].
    change (drop 25 leap_secs) with [entry 25]. cbn [find_leap]. rewrite Z.gtb_ltb.
    change (li_tod (entry 25)) with 0. case_bool; [lia|]. done.
  - assert (drop k leap_secs = entry k :: drop (S k) leap_secs) as ->.
    { destruct (lookup_lt_is_Some_2 leap_secs k) as [x Hx]; [change (length leap_secs) with 26%nat; lia|].
      rewrite (drop_S leap_secs x k Hx). f_equal. unfold entry. by apply nth_lookup_Some with (d := LeapSec 0 0) in Hx. }
    cbn [find_leap]. rewrite Z.gtb_ltb. destruct (Z.ltb_spec tod (li_tod (entry k))) as [Hlt|Hge].
    + replace (Z.of_nat k + 1) with (Z.of_nat (S k)) by lia. apply IH; [lia|done|].
      intros j Hlt'. destruct (decide (j = k)) as [->|]; [done|]. apply Hj. lia.
    + exists k. split; [lia|]. done.
Qed.

Lemma entry_elem i : (i < 26)%nat -> entry i ∈ leap_secs.
Proof.
  intros Hi. destruct (lookup_lt_is_Some_2 leap_secs i Hi) as [x Hx].
  apply (list_elem_of_lookup_2 _ i). rewrite Hx. f_equal. symmetry.
  exact (nth_lookup_Some _ _ (LeapSec 0 0) _ Hx).
Qed.

Lemma find_leap_spec tod : 0 <= tod ->
  exists i, (i < 26)%nat /\ find_leap leap_secs 0 tod = Ret (Z.of_nat i, entry i) /\
    li_tod (entry i) <= tod /\ forall j, (j < i)%nat -> tod < li_tod (entry j).
Proof. intros Ht. apply (find_leap_from 25 0 tod); [done|done|lia]. Qed.

Lemma entry_mono i j : (i <= j)%nat -> (j < 26)%nat -> li_tod (entry j) <= li_tod (entry i).
Proof.
  intros Hij. induction Hij as [|j Hij IH]; intros Hj; [lia|].
  destruct (leap_table j ltac:(lia)) as (_ & _ & _ & _ & H & _). specialize (IH ltac:(lia)). lia.
Qed.

(** the clock value is in the second before entry [e], a leap second *)
Definition in_leap_second (tod : Z) (e : leap_sec_info) : Prop :=
  is_leap_entry e = true /\ li_tod e - CLK_SEC <= tod < li_tod e.

(** the leap seconds that have passed *)
Definition leaps_passed (tod : Z) : Z := leap_count (List.filter (fun e => li_tod e <=? tod) leap_secs).

Lemma leaps_passed_entry tod i : (i < 26)%nat -> li_tod (entry i) <= tod ->
  (forall j, (j < i)%nat -> tod < li_tod (entry j)) -> leaps_passed tod = leap_count (drop i leap_secs).
Proof.
  intros Hi Hle Hlt. unfold leaps_passed. f_equal.
  rewrite <- (take_drop i leap_secs) at 1. rewrite List.filter_app.
  assert (forall l, Forall (fun e => tod < li_tod e) l -> List.filter (fun e => li_tod e <=? tod) l = []) as H1.
  { induction 1 as [|e l He _ IH]; simpl; [done|]. case_bool; [lia|done]. }
  assert (forall l, Forall (fun e => li_tod e <= tod) l -> List.filter (fun e => li_tod e <=? tod) l = l) as H2.
  { induction 1 as [|e l He _ IH]; simpl; [done|]. case_bool; [by rewrite IH|lia]. }
  assert (forall k e, leap_secs !! k = Some e -> e = entry k /\ (k < 26)%nat) as Hent.
  { intros k e Hk. split; [by rewrite <- (nth_lookup_Some _ _ (LeapSec 0 0) _ Hk)|]. by apply lookup_lt_Some in Hk. }
  rewrite H1, H2; [done| |].
  - apply Forall_lookup. intros k e. rewrite lookup_drop. intros [-> Hk]%Hent.
    pose proof (entry_mono i (i + k) ltac:(lia) Hk). lia.
  - apply Forall_lookup. intros k e [Hk Hki]%lookup_take_Some. apply Hent in Hk as [-> _]. by apply Hlt.
Qed.

Lemma days_in_month_bound leap m : 1 <= m <= 12 -> days_in_month leap m <= 400.
Proof.
  intros Hm. unfold days_in_month. pose proof (month_offset_range leap m Hm).
  destruct (Z.eqb_spec m 12); [lia|]. pose proof (month_offset_range leap (m + 1) ltac:(lia)).
  destruct leap; simpl in *; lia.
Qed.

(** the calendar part, from the table entry [i] and the time [tod] since it *)
Definition date_ok (d : datetime) : Prop :=
  1 <= dm d <= 12 /\ 1 <= dd d <= days_in_month (leap_year (dy d)) (dm d) /\
  0 <= th d < 24 /\ 0 <= tm d < 60 /\ 0 <= tmicro d < 1000000.

(** microseconds since 1900 without leap seconds *)
Definition civil_micros (d : datetime) : Z :=
  (86400 * civil_days (dy d) (dm d) (dd d) + 3600 * th d + 60 * tm d + ts d) * 1000000 + tmicro d.

Lemma day_of y m tod : 1900 <= y < 2300 -> 1 <= m <= 12 -> 0 <= tod < 366 * CLK_DAY ->
  let d := s16 (tod / CLK_DAY) in
  let rest := u64 (tod - u64 (d * CLK_DAY)) in
  exists y' m' d', month_loop 20 y m d = Ret (y', m', d') /\ 1 <= m' <= 12 /\
    0 <= d' < days_in_month (leap_year y') m' /\ 0 <= rest < CLK_DAY /\
    tod + CLK_DAY * civil_days y m 1 = rest + CLK_DAY * civil_days y' m' (d' + 1).
Proof.
  intros Hy Hm Ht d rest.
  assert (d = tod / CLK_DAY) as Hd.
  { unfold d, CLK_DAY in *. rewrite swrap_small; [done|lia|]. divlia. }
  assert (rest = tod mod CLK_DAY) as Hr.
  { unfold rest. rewrite Hd. unfold CLK_DAY in *.
    rewrite (wrap_small 64 (_ / _ * _)) by divlia. rewrite wrap_small by divlia. divlia. }
  destruct (month_loop_spec 20 y m d) as (y' & m' & d' & E & H1 & H2 & H3 & H4);
    [lia|lia|done|rewrite Hd; unfold CLK_DAY in *; divlia|rewrite Hd; unfold CLK_DAY in *; divlia|].
  exists y', m', d'. split; [done|]. split; [done|]. split; [done|].
  rewrite Hr. split; [unfold CLK_DAY; divlia|]. rewrite <- H4.
  assert (civil_days y m (d + 1) = civil_days y m 1 + d) as -> by (unfold civil_days; lia).
  rewrite Hd. unfold CLK_DAY. divlia.
Qed.

Lemma time_of rest : 0 <= rest < CLK_DAY ->
  let h := s16 (rest / CLK_HOUR) in
  let r1 := u64 (rest - u64 (h * CLK_HOUR)) in
  let mi := s16 (r1 / CLK_MIN) in
  let r2 := u64 (r1 - u64 (mi * CLK_MIN)) in
  let s := s16 (r2 / CLK_SEC) in
  let r3 := u64 (r2 - u64 (s * CLK_SEC)) in
  let us := u32 (Z.shiftr r3 12) in
  0 <= h < 24 /\ 0 <= mi < 60 /\ 0 <= s < 60 /\ 0 <= us < 1000000 /\
  rest / CLK_MICROSEC = (3600 * h + 60 * mi + s) * 1000000 + us /\
  (CLK_DAY - CLK_SEC <= rest -> s = 59).
Proof.
  intros Hr. unfold CLK_DAY, CLK_HOUR, CLK_MIN, CLK_SEC, CLK_MICROSEC in *. cbv zeta.
  set (h := rest / _). assert (0 <= h < 24) as Hh by (unfold h; divlia).
  rewrite (swrap_small 16 h) by lia. rewrite (wrap_small 64 (h * _)) by lia.
  assert (0 <= rest - h * 0xd693a400000 < 0xd693a400000) as H1 by (unfold h; divlia).
  rewrite (wrap_small 64 (rest - _)) by lia. set (r1 := rest - _) in *.
  set (mi := r1 / _). assert (0 <= mi < 60) as Hmi by (unfold mi; divlia).
  rewrite (swrap_small 16 mi) by lia. rewrite (wrap_small 64 (mi * _)) by lia.
  assert (0 <= r1 - mi * 0x3938700000 < 0x3938700000) as H2 by (unfold mi; divlia).
  rewrite (wrap_small 64 (r1 - _)) by lia. set (r2 := r1 - _) in *.
  set (s := r2 / _). assert (0 <= s < 60) as Hs by (unfold s; divlia).
  rewrite (swrap_small 16 s) by lia. rewrite (wrap_small 64 (s * _)) by lia.
  assert (0 <= r2 - s * 0xf4240000 < 0xf4240000) as H3 by (unfold s; divlia).
  rewrite (wrap_small 64 (r2 - _)) by lia. set (r3 := r2 - _) in *.
  rewrite Z.shiftr_div_pow2 by lia. rewrite wrap_small by divlia.
  assert (rest = h * 0xd693a400000 + mi * 0x3938700000 + s * 0xf4240000 + r3) as Hrest
    by (unfold r3, r2, r1; lia).
  split_and!; try lia; [divlia|divlia|divlia].
Qed.

Lemma leap_flag tod i j : 0 <= tod < 2 ^ 64 -> (i < 26)%nat -> (j < 26)%nat ->
  li_tod (entry i) <= tod -> (forall k, (k < i)%nat -> tod < li_tod (entry k)) ->
  li_tod (entry j) <= u64 (tod + CLK_SEC) -> (forall k, (k < j)%nat -> u64 (tod + CLK_SEC) < li_tod (entry k)) ->
  (i <> j /\ is_leap_entry (entry j) = true -> i = S j /\ in_leap_second tod (entry j)) /\
  (forall e, e ∈ leap_secs -> in_leap_second tod e -> i <> j /\ is_leap_entry (entry j) = true).
Proof.
  intros Ht Hi Hj Hile Hilt Hjle Hjlt.
  assert (CLK_SEC = 4096000000) as HS by done.
  split.
  - intros [Hne Hl].
    assert (j < 25)%nat as Hj25.
    { destruct (decide (j = 25%nat)) as [->|]; [by vm_compute in Hl|lia]. }
    assert (tod + CLK_SEC < 2 ^ 64) as Hnw.
    { destruct (decide (tod + CLK_SEC < 2 ^ 64)) as [|Hw]; [done|].
      assert (u64 (tod + CLK_SEC) = tod + CLK_SEC - 2 ^ 64) as Hu by (unfold wrap; divlia).
      pose proof (entry_mono j 24 ltac:(lia) ltac:(lia)) as Hm.
      change (li_tod (entry 24)) with 0x8126D60E46000000 in Hm. lia. }
    rewrite wrap_small in Hjle, Hjlt by lia.
    assert (j < i)%nat as Hji.
    { destruct (decide (j < i)%nat); [done|]. specialize (Hjlt i ltac:(lia)). lia. }
    pose proof (Hilt j Hji). split; [|split; [done|lia]].
    destruct (decide (i = S j)); [done|]. exfalso.
    pose proof (Hilt (S j) ltac:(lia)).
    destruct (leap_table j Hj) as (_ & _ & _ & _ & _ & Hgap & _). specialize (Hgap Hj25). lia.
  - intros e He [Hl Hin]. apply list_elem_of_lookup in He as [k Hk].
    assert (k < 26)%nat as Hk26 by (by apply lookup_lt_Some in Hk).
    assert (e = entry k) as -> by (by rewrite <- (nth_lookup_Some _ _ (LeapSec 0 0) _ Hk)).
    assert (k < i)%nat as Hki.
    { destruct (decide (k < i)%nat); [done|]. pose proof (entry_mono i k ltac:(lia) Hk26). lia. }
    assert (li_tod (entry k) <= 0xC3870CB9BB600000) as Hmax by (by apply (entry_mono 0 k); lia).
    rewrite wrap_small in Hjle, Hjlt by lia.
    assert (j <= k)%nat as Hjk.
    { destruct (decide (j <= k)%nat); [done|]. specialize (Hjlt k ltac:(lia)). lia. }
    assert (j = k) as ->; [|split; [lia|done]].
    destruct (decide (j = k)); [done|]. exfalso.
    destruct (leap_table j Hj) as (_ & _ & _ & _ & _ & Hgap & _). specialize (Hgap ltac:(lia)).
    pose proof (entry_mono (S j) k ltac:(lia) Hk26). lia.
Qed.

Lemma date_fields i : (i < 26)%nat ->
  s16 (LS_DATE2Y (li_date (entry i))) = entry_year i /\ s16 (LS_DATE2M (li_date (entry i))) = entry_month i /\
  1900 <= entry_year i <= 2009 /\ (entry_month i = 1 \/ entry_month i = 7).
Proof.
  intros Hi. destruct (leap_table i Hi) as (Hm & Hy & _). fold (entry_year i) (entry_month i).
  rewrite !swrap_small by lia. done.
Qed.

(** the date of a clock value *)
Lemma parse_tod_date (tod : Z) (Htod : 0 <= tod < 2 ^ 64) :
  exists d, parse_tod tod = Ret (Some d) /\ date_ok d /\ 0 <= ts d <= 60 /\
    tod / CLK_MICROSEC = civil_micros d + 1000000 * leaps_passed tod /\
    (ts d = 60 <-> exists e, e ∈ leap_secs /\ in_leap_second tod e).
Proof.
  destruct (find_leap_spec tod ltac:(lia)) as (i & Hi & Ei & Hile & Hilt).
  destruct (find_leap_spec (u64 (tod + CLK_SEC))) as (j & Hj & Ej & Hjle & Hjlt).
  { apply wrap_range. lia. }
  destruct (leap_flag tod i j Htod Hi Hj Hile Hilt Hjle Hjlt) as [Hf1 Hf2].
  destruct (leap_table i Hi) as (_ & _ & Hbase & Hb64 & _).
  destruct (date_fields i Hi) as (Ey & Em & Hy & Hm).
  pose proof (leaps_passed_entry tod i Hi Hile Hilt) as Hleaps.
  unfold parse_tod. rewrite Ei. cbn [mbind outcome_bind]. rewrite Ej. cbn [mbind outcome_bind].
  rewrite Ey, Em. rewrite (wrap_small 64 (tod - _)) by lia.
  set (leaping := negb (Z.of_nat i =? Z.of_nat j) && (LS_DATE2F (li_date (entry j)) =? LS_LS)).
  assert (leaping = true <-> i <> j /\ is_leap_entry (entry j) = true) as Hlp.
  { unfold leaping. rewrite andb_true_iff, negb_true_iff, Z.eqb_neq. unfold is_leap_entry.
    by rewrite Nat2Z.inj_iff. }
  set (since := if leaping then tod - li_tod (entry i) - CLK_SEC else tod - li_tod (entry i)).
  set (add := if leaping then 1 else 0).
  assert (0 <= since < 2 ^ 64 /\ tod = li_tod (entry i) + since + add * CLK_SEC /\
    (leaping = true -> exists n, CLK_DAY * n - CLK_SEC <= since < CLK_DAY * n)) as (Hs & Hsum & Hend).
  { unfold since, add. destruct leaping; [|split; [|split]; [lia|lia|done]].
    destruct (proj1 Hlp eq_refl) as [Hne Hl]. destruct (Hf1 (conj Hne Hl)) as [-> [_ Hin]].
    destruct (leap_table j Hj) as (_ & _ & _ & _ & _ & Hgap & Hmod). specialize (Hmod Hl).
    specialize (Hgap ltac:(lia)). split; [lia|]. split; [lia|]. intros _.
    exists ((li_tod (entry j) - li_tod (entry (S j)) - CLK_SEC) / CLK_DAY).
    pose proof (Z.div_mod (li_tod (entry j) - li_tod (entry (S j)) - CLK_SEC) CLK_DAY ltac:(done)). lia. }
  assert ((if leaping then (u64 (tod - li_tod (entry i) - CLK_SEC), 1) else (tod - li_tod (entry i), 0))
    = (since, add)) as ->.
  { unfold since, add in *. destruct leaping; [|done]. by rewrite wrap_small. }
  assert (negb (entry_month i =? 1) && negb (entry_month i =? 7) = false) as ->.
  { by destruct Hm as [-> | ->]. }
  destruct (year_loop_spec 200 (entry_year i) (entry_month i) since) as (y1 & t1 & E1 & Hy1 & Ht1 & Hc1);
    [lia|lia|done|done|unfold CLK_YEAR; lia|].
  rewrite E1. cbn [mbind outcome_bind].
  destruct (day_of y1 (entry_month i) t1) as (y2 & m2 & d2 & E2 & Hm2 & Hd2 & Hrest & Hc2); [lia|lia|lia|].
  rewrite E2. cbn [mbind outcome_bind].
  set (rest := u64 (t1 - u64 (s16 (t1 / CLK_DAY) * CLK_DAY))) in *.
  destruct (time_of rest Hrest) as (Hh & Hmi & Hsec & Hus & Htot & H59).
  eexists. split; [done|].
  pose proof (days_in_month_bound (leap_year y2) m2 Hm2) as Hdim.
  set (sec := s16 (u64 (_ - _) / CLK_SEC)) in *.
  assert (s16 (sec + add) = sec + add) as Hadd.
  { apply swrap_small; [lia|]. unfold add. destruct leaping; lia. }
  assert (since + CLK_DAY * civil_days (entry_year i) (entry_month i) 1 =
    rest + CLK_DAY * civil_days y2 m2 (d2 + 1)) as Hc by lia.
  split_and!; cbn [dy dm dd th tm ts tmicro]; rewrite ?Hadd.
  - unfold date_ok. cbn [dy dm dd th tm ts tmicro]. rewrite swrap_small by lia. lia.
  - unfold add. destruct leaping; lia.
  - unfold add. destruct leaping; lia.
  - unfold civil_micros. cbn [dy dm dd th tm ts tmicro]. rewrite Hleaps.
    rewrite (swrap_small 16 (d2 + 1)) by lia. rewrite Hsum, Hbase.
    set (L := leap_count _) in *. set (D := civil_days y2 m2 (d2 + 1)) in *.
    set (D0 := civil_days (entry_year i) (entry_month i) 1) in *.
    assert (since = rest + CLK_DAY * D - CLK_DAY * D0) as -> by lia.
    replace (CLK_SEC * (86400 * D0 + L) + (rest + CLK_DAY * D - CLK_DAY * D0) + add * CLK_SEC)
      with (rest + (86400 * D + L + add) * 1000000 * CLK_MICROSEC) by (unfold CLK_SEC, CLK_DAY, CLK_MICROSEC; lia).
    rewrite Z.div_add by done. rewrite Htot. lia.
  - split.
    + intros H60. assert (leaping = true) as Hl by (unfold add in H60; destruct leaping; [done|lia]).
      apply Hlp in Hl as Hl'. exists (entry j). destruct (Hf1 Hl') as [_ Hin]. split; [|done].
      by apply entry_elem.
    + intros (e & He & Hin). destruct (Hf2 e He Hin) as [H1 H2].
      assert (leaping = true) as Hl by (by apply Hlp).
      assert (sec = 59) as ->; [|unfold add; rewrite Hl; done].
      apply H59. destruct (Hend Hl) as [n Hn].
      unfold CLK_DAY, CLK_SEC in *. lia.
Qed.

Lemma get_parsed_tod_total clk dt : exists dt', get_parsed_tod clk dt = Ret (clk.1, dt').
Proof.
  destruct clk as [cc tod]. unfold get_parsed_tod. destruct (cc =? 0); [|by exists dt].
  destruct (parse_tod_date (u64 tod)) as (d & -> & _); [apply wrap_range; lia|]. by exists d.
Qed.

(** C30: for every 64-bit clock value parse_tod returns a date: its month, day,
    hour, minute, second and microsecond are in the calendar's ranges, and the
    microseconds since 1900 it denotes, with the leap seconds of the table that
    have passed, are those of the clock.  The second is 60 exactly during a
    leap second of the table, and below 60 otherwise. *)
Theorem parse_tod_correct (tod : Z) (Htod : 0 <= tod < 2 ^ 64) :
  exists d, parse_tod tod = Ret (Some d) /\ date_ok d /\ 0 <= ts d <= 60 /\
    tod / CLK_MICROSEC = civil_micros d + 1000000 * leaps_passed tod /\
    (ts d = 60 <-> exists e, e ∈ leap_secs /\ in_leap_second tod e).
Proof. by apply parse_tod_date. Qed.

(** the first second of 2009 and the leap second before it *)
Lemma parse_tod_correct_witness :
  (exists d, parse_tod 0xC3870CB9BB600000 = Ret (Some d) /\ date_ok d) /\
  (exists d, parse_tod (0xC3870CB9BB600000 - CLK_SEC) = Ret (Some d) /\ ts d = 60).
Proof.
  split.
  - destruct (parse_tod_correct 0xC3870CB9BB600000 ltac:(lia)) as (d & E & Hd & _). by exists d.
  - destruct (parse_tod_correct (0xC3870CB9BB600000 - CLK_SEC) ltac:(unfold CLK_SEC; lia)) as (d & E & _ & _ & _ & H).
    exists d. split; [exact E|]. apply H. exists (entry 0). split; [by left|]. by vm_compute.
Defined.
