(* ===== verification/Charset.v ===== *)
(** lib/ebcdic.c, lib/ascii.c and include/ebcdic.h: character set tables and
    the translation of a buffer.

    [__translate] is the TRE instruction with test byte 0: it replaces bytes
    from the left until [len] are done or the byte to translate is 0.  The
    theorems: upper-casing agrees with [toupper], and text goes to EBCDIC and
    back unchanged. *)

From S2P Require Import Prelude CString.

Local Open Scope Z_scope.

Definition ascii2ebcdic_table : list Z := [
  0x00; 0x01; 0x02; 0x03; 0x37; 0x2D; 0x2E; 0x2F; 0x16; 0x05; 0x15; 0x0B; 0x0C; 0x0D; 0x0E; 0x0F;
  0x10; 0x11; 0x12; 0x13; 0x3C; 0x3D; 0x32; 0x26; 0x18; 0x19; 0x3F; 0x27; 0x22; 0x1D; 0x1E; 0x1F;
  0x40; 0x5A; 0x7F; 0x7B; 0x5B; 0x6C; 0x50; 0x7D; 0x4D; 0x5D; 0x5C; 0x4E; 0x6B; 0x60; 0x4B; 0x61;
  0xF0; 0xF1; 0xF2; 0xF3; 0xF4; 0xF5; 0xF6; 0xF7; 0xF8; 0xF9; 0x7A; 0x5E; 0x4C; 0x7E; 0x6E; 0x6F;
  0x7C; 0xC1; 0xC2; 0xC3; 0xC4; 0xC5; 0xC6; 0xC7; 0xC8; 0xC9; 0xD1; 0xD2; 0xD3; 0xD4; 0xD5; 0xD6;
  0xD7; 0xD8; 0xD9; 0xE2; 0xE3; 0xE4; 0xE5; 0xE6; 0xE7; 0xE8; 0xE9; 0xBA; 0xE0; 0xBB; 0xB0; 0x6D;
  0x79; 0x81; 0x82; 0x83; 0x84; 0x85; 0x86; 0x87; 0x88; 0x89; 0x91; 0x92; 0x93; 0x94; 0x95; 0x96;
  0x97; 0x98; 0x99; 0xA2; 0xA3; 0xA4; 0xA5; 0xA6; 0xA7; 0xA8; 0xA9; 0xC0; 0x4F; 0xD0; 0xA1; 0x07;
  0x3F; 0x3F; 0x3F; 0x3F; 0x3F; 0x3F; 0x3F; 0x3F; 0x3F; 0x3F; 0x3F; 0x3F; 0x3F; 0x3F; 0x3F; 0x3F;
  0x3F; 0x3F; 0x3F; 0x3F; 0x3F; 0x3F; 0x3F; 0x3F; 0x3F; 0x3F; 0x3F; 0x3F; 0x3F; 0x3F; 0x3F; 0x3F;
  0x3F; 0x3F; 0x3F; 0x3F; 0x3F; 0x3F; 0x3F; 0x3F; 0x3F; 0x3F; 0x3F; 0x3F; 0x3F; 0x3F; 0x3F; 0x3F;
  0x3F; 0x3F; 0x3F; 0x3F; 0x3F; 0x3F; 0x3F; 0x3F; 0x3F; 0x3F; 0x3F; 0x3F; 0x3F; 0x3F; 0x3F; 0x3F;
  0x3F; 0x3F; 0x3F; 0x3F; 0x3F; 0x3F; 0x3F; 0x3F; 0x3F; 0x3F; 0x3F; 0x3F; 0x3F; 0x3F; 0x3F; 0x3F;
  0x3F; 0x3F; 0x3F; 0x3F; 0x3F; 0x3F; 0x3F; 0x3F; 0x3F; 0x3F; 0x3F; 0x3F; 0x3F; 0x3F; 0x3F; 0x3F;
  0x3F; 0x59; 0x3F; 0x3F; 0x3F; 0x3F; 0x3F; 0x3F; 0x3F; 0x3F; 0x3F; 0x3F; 0x3F; 0x3F; 0x3F; 0x3F;
  0x3F; 0x3F; 0x3F; 0x3F; 0x3F; 0x3F; 0x3F; 0x3F; 0x90; 0x3F; 0x3F; 0x3F; 0x3F; 0xEA; 0x3F; 0xFF].

Definition ebcdic2ascii_table : list Z := [
  0x00; 0x01; 0x02; 0x03; 0x07; 0x09; 0x07; 0x7F; 0x07; 0x07; 0x07; 0x0B; 0x0C; 0x0D; 0x0E; 0x0F;
  0x10; 0x11; 0x12; 0x13; 0x07; 0x0A; 0x08; 0x07; 0x18; 0x19; 0x07; 0x07; 0x07; 0x07; 0x07; 0x07;
  0x07; 0x07; 0x1C; 0x07; 0x07; 0x0A; 0x17; 0x1B; 0x07; 0x07; 0x07; 0x07; 0x07; 0x05; 0x06; 0x07;
  0x07; 0x07; 0x16; 0x07; 0x07; 0x07; 0x07; 0x04; 0x07; 0x07; 0x07; 0x07; 0x14; 0x15; 0x07; 0x1A;
  0x20; 0xFF; 0x83; 0x84; 0x85; 0xA0; 0x07; 0x86; 0x87; 0xA4; 0x9B; 0x2E; 0x3C; 0x28; 0x2B; 0x7C;
  0x26; 0x82; 0x88; 0x89; 0x8A; 0xA1; 0x8C; 0x07; 0x8D; 0xE1; 0x21; 0x24; 0x2A; 0x29; 0x3B; 0xAA;
  0x2D; 0x2F; 0x07; 0x8E; 0x07; 0x07; 0x07; 0x8F; 0x80; 0xA5; 0x07; 0x2C; 0x25; 0x5F; 0x3E; 0x3F;
  0x07; 0x90; 0x07; 0x07; 0x07; 0x07; 0x07; 0x07; 0x70; 0x60; 0x3A; 0x23; 0x40; 0x27; 0x3D; 0x22;
  0x07; 0x61; 0x62; 0x63; 0x64; 0x65; 0x66; 0x67; 0x68; 0x69; 0xAE; 0xAF; 0x07; 0x07; 0x07; 0xF1;
  0xF8; 0x6A; 0x6B; 0x6C; 0x6D; 0x6E; 0x6F; 0x70; 0x71; 0x72; 0xA6; 0xA7; 0x91; 0x07; 0x92; 0x07;
  0xE6; 0x7E; 0x73; 0x74; 0x75; 0x76; 0x77; 0x78; 0x79; 0x7A; 0xAD; 0xAB; 0x07; 0x07; 0x07; 0x07;
  0x5E; 0x9C; 0x9D; 0xFA; 0x07; 0x07; 0x07; 0xAC; 0xAB; 0x07; 0x5B; 0x5D; 0x07; 0x07; 0x07; 0x07;
  0x7B; 0x41; 0x42; 0x43; 0x44; 0x45; 0x46; 0x47; 0x48; 0x49; 0x07; 0x93; 0x94; 0x95; 0xA2; 0x07;
  0x7D; 0x4A; 0x4B; 0x4C; 0x4D; 0x4E; 0x4F; 0x50; 0x51; 0x52; 0x07; 0x96; 0x81; 0x97; 0xA3; 0x98;
  0x5C; 0xF6; 0x53; 0x54; 0x55; 0x56; 0x57; 0x58; 0x59; 0x5A; 0xFD; 0x07; 0x99; 0x07; 0x07; 0x07;
  0x30; 0x31; 0x32; 0x33; 0x34; 0x35; 0x36; 0x37; 0x38; 0x39; 0x07; 0x07; 0x9A; 0x07; 0x07; 0x07].

Definition ascii2upper_table : list Z := [
  0x00; 0x01; 0x02; 0x03; 0x04; 0x05; 0x06; 0x07; 0x08; 0x09; 0x0A; 0x0B; 0x0C; 0x0D; 0x0E; 0x0F;
  0x10; 0x11; 0x12; 0x13; 0x14; 0x15; 0x16; 0x17; 0x18; 0x19; 0x1A; 0x1B; 0x1C; 0x1D; 0x1E; 0x1F;
  0x20; 0x21; 0x22; 0x23; 0x24; 0x25; 0x26; 0x27; 0x28; 0x29; 0x2A; 0x2B; 0x2C; 0x2D; 0x2E; 0x2F;
  0x30; 0x31; 0x32; 0x33; 0x34; 0x35; 0x36; 0x37; 0x38; 0x39; 0x3A; 0x3B; 0x3C; 0x3D; 0x3E; 0x3F;
  0x40; 0x41; 0x42; 0x43; 0x44; 0x45; 0x46; 0x47; 0x48; 0x49; 0x4A; 0x4B; 0x4C; 0x4D; 0x4E; 0x4F;
  0x50; 0x51; 0x52; 0x53; 0x54; 0x55; 0x56; 0x57; 0x58; 0x59; 0x5A; 0x5B; 0x5C; 0x5D; 0x5E; 0x5F;
  0x60; 0x41; 0x42; 0x43; 0x44; 0x45; 0x46; 0x47; 0x48; 0x49; 0x4A; 0x4B; 0x4C; 0x4D; 0x4E; 0x4F;
  0x50; 0x51; 0x52; 0x53; 0x54; 0x55; 0x56; 0x57; 0x58; 0x59; 0x5A; 0x7B; 0x7C; 0x7D; 0x7E; 0x7F;
  0x80; 0x81; 0x82; 0x83; 0x84; 0x85; 0x86; 0x87; 0x88; 0x89; 0x8A; 0x8B; 0x8C; 0x8D; 0x8E; 0x8F;
  0x90; 0x91; 0x92; 0x93; 0x94; 0x95; 0x96; 0x97; 0x98; 0x99; 0x9A; 0x9B; 0x9C; 0x9D; 0x9E; 0x9F;
  0xA0; 0xA1; 0xA2; 0xA3; 0xA4; 0xA5; 0xA6; 0xA7; 0xA8; 0xA9; 0xAA; 0xAB; 0xAC; 0xAD; 0xAE; 0xAF;
  0xB0; 0xB1; 0xB2; 0xB3; 0xB4; 0xB5; 0xB6; 0xB7; 0xB8; 0xB9; 0xBA; 0xBB; 0xBC; 0xBD; 0xBE; 0xBF;
  0xC0; 0xC1; 0xC2; 0xC3; 0xC4; 0xC5; 0xC6; 0xC7; 0xC8; 0xC9; 0xCA; 0xCB; 0xCC; 0xCD; 0xCE; 0xCF;
  0xD0; 0xD1; 0xD2; 0xD3; 0xD4; 0xD5; 0xD6; 0xD7; 0xD8; 0xD9; 0xDA; 0xDB; 0xDC; 0xDD; 0xDE; 0xDF;
  0xE0; 0xE1; 0xE2; 0xE3; 0xE4; 0xE5; 0xE6; 0xE7; 0xE8; 0xE9; 0xEA; 0xEB; 0xEC; 0xED; 0xEE; 0xEF;
  0xF0; 0xF1; 0xF2; 0xF3; 0xF4; 0xF5; 0xF6; 0xF7; 0xF8; 0xF9; 0xFA; 0xFB; 0xFC; 0xFD; 0xFE; 0xFF].

(** [n] is [len]; [pos] the first byte of the buffer *)
Fixpoint translate_loop (n : nat) (buf : list Z) (pos : Z) (table : list Z) : outcome (list Z) :=
  match n with
  | O => Ret buf
  | S n =>
      c ← defined (aget buf pos);
      if c =? 0 then Ret buf else
      t ← defined (aget table c);
      buf ← defined (aset buf pos t);
      translate_loop n buf (pos + 1) table
  end.

Definition __translate (buf : list Z) (len : Z) (table : list Z) : outcome (list Z) :=
  translate_loop (Z.to_nat len) buf 0 table.

Definition ascii2ebcdic (buf : list Z) (len : Z) := __translate buf len ascii2ebcdic_table.
Definition ebcdic2ascii (buf : list Z) (len : Z) := __translate buf len ebcdic2ascii_table.
Definition ascii2upper (buf : list Z) (len : Z) := __translate buf len ascii2upper_table.

(** * Translation of a whole text *)

Definition xlat (table : list Z) (c : Z) : Z := nth (Z.to_nat c) table 0.

Lemma aget_nth (table : list Z) c : lenZ table = 256 -> 0 <= c < 256 -> aget table c = Some (xlat table c).
Proof.
  intros Hl Hc. destruct (proj2 (aget_is_Some table c)) as [x Hx]; [lia|].
  rewrite Hx. apply aget_Some in Hx as [_ Hx]. unfold xlat. by rewrite (nth_lookup_Some _ _ 0 _ Hx).
Qed.

(** a text of non-zero bytes is translated byte for byte *)
Lemma translate_loop_map table pre s post :
  lenZ table = 256 -> Forall (fun c => 1 <= c < 256) s ->
  translate_loop (length s) (pre ++ s ++ post) (lenZ pre) table = Ret (pre ++ map (xlat table) s ++ post).
Proof.
  intros Hl Hs. revert pre. induction Hs as [|c s Hc Hs IH]; intros pre; [done|].
  cbn [translate_loop length].
  assert (aget (pre ++ (c :: s) ++ post) (lenZ pre) = Some c) as ->.
  { rewrite aget_Some. unfold lenZ. rewrite Nat2Z.id. split; [lia|]. by rewrite lookup_app_r, Nat.sub_diag by lia. }
  cbn [defined mbind outcome_bind]. destruct (Z.eqb_spec c 0); [lia|].
  rewrite aget_nth by (done || lia). cbn [defined mbind outcome_bind].
  assert (aset (pre ++ (c :: s) ++ post) (lenZ pre) (xlat table c) =
    Some ((pre ++ [xlat table c]) ++ s ++ post)) as ->.
  { rewrite aset_insert.
    - unfold lenZ. rewrite Nat2Z.id. rewrite insert_app_r_alt, Nat.sub_diag by lia. simpl. by rewrite <- app_assoc.
    - rewrite lenZ_app. unfold lenZ. simpl. lia. }
  cbn [defined mbind outcome_bind].
  replace (lenZ pre + 1) with (lenZ (pre ++ [xlat table c])) by (by rewrite lenZ_app).
  rewrite IH. by rewrite <- app_assoc.
Qed.

Lemma translate_text table s rest :
  lenZ table = 256 -> Forall (fun c => 1 <= c < 256) s ->
  __translate (s ++ rest) (lenZ s) table = Ret (map (xlat table) s ++ rest).
Proof.
  intros Hl Hs. unfold __translate, lenZ. rewrite Nat2Z.id. by apply (translate_loop_map table []).
Qed.

(** what a translation of bytes makes of any text: the bytes before the first NUL are replaced, the rest is left *)
Definition translated (table : list Z) (s : list Z) : list Z :=
  let t := span (fun c => negb (c =? 0)) s in map (xlat table) t.1 ++ t.2.

Lemma translated_length table s : length (translated table s) = length s.
Proof.
  unfold translated. rewrite length_app, length_map. induction s as [|c s IH]; [done|]. cbn [span].
  destruct (negb (c =? 0)); [|done]. destruct (span _ s) as [a b]. cbn in *. lia.
Qed.

Lemma translate_bytes table s : lenZ table = 256 -> Forall byte s -> __translate s (lenZ s) table = Ret (translated table s).
Proof.
  intros Hl Hs. unfold __translate, lenZ. rewrite Nat2Z.id. revert Hs.
  enough (forall pre, Forall byte s -> translate_loop (length s) (pre ++ s) (lenZ pre) table = Ret (pre ++ translated table s)) as H by (apply (H [])).
  induction s as [|c s IH]; intros pre Hs; [done|]. apply Forall_cons in Hs as [Hc Hs]. unfold byte in Hc. cbn [translate_loop length].
  assert (aget (pre ++ c :: s) (lenZ pre) = Some c) as ->.
  { rewrite aget_Some. unfold lenZ. rewrite Nat2Z.id. split; [lia|]. by rewrite lookup_app_r, Nat.sub_diag by lia. }
  cbn [defined mbind outcome_bind]. unfold translated. cbn [span]. destruct (Z.eqb_spec c 0) as [->|]; [done|].
  rewrite aget_nth by (done || lia). cbn [defined mbind outcome_bind].
  assert (aset (pre ++ c :: s) (lenZ pre) (xlat table c) = Some ((pre ++ [xlat table c]) ++ s)) as ->.
  { rewrite aset_insert.
    - unfold lenZ. rewrite Nat2Z.id. rewrite insert_app_r_alt, Nat.sub_diag by lia. simpl. by rewrite <- app_assoc.
    - rewrite lenZ_app. unfold lenZ. simpl. lia. }
  cbn [defined mbind outcome_bind]. replace (lenZ pre + 1) with (lenZ (pre ++ [xlat table c])) by (by rewrite lenZ_app).
  rewrite IH by done. unfold translated. cbn [negb]. destruct (span _ s) as [a b]. cbn [fst snd map app]. by rewrite <- app_assoc.
Qed.

(** the characters with an EBCDIC counterpart: ASCII but for NUL and the three
    separators 1D to 1F *)
Definition ebcdic_char (c : Z) : bool := (1 <=? c) && (c <? 128) && negb ((29 <=? c) && (c <=? 31)).

Lemma charset_tables c : ebcdic_char c = true ->
  1 <= c < 256 /\ 1 <= xlat ascii2ebcdic_table c < 256 /\
  xlat ebcdic2ascii_table (xlat ascii2ebcdic_table c) = c.
Proof.
  intros Hc. assert (forallb (fun c => negb (ebcdic_char c) || ((1 <=? xlat ascii2ebcdic_table c) &&
    (xlat ascii2ebcdic_table c <? 256) && (xlat ebcdic2ascii_table (xlat ascii2ebcdic_table c) =? c)))
    (seqZ 0 128) = true) as H by (by vm_compute).
  unfold ebcdic_char in Hc. rewrite forallb_forall in H. specialize (H c).
  assert (1 <= c < 128) as Hr by lia.
  rewrite <- list_elem_of_In, elem_of_seqZ in H. specialize (H ltac:(lia)).
  unfold ebcdic_char in H. rewrite Hc in H. simpl in H. lia.
Qed.

(** Ascii2ebcdic followed by ebcdic2ascii leaves a text of ASCII characters
    (NUL and the separators 1D to 1F excepted) unchanged, and neither touches
    what follows the text. *)
Theorem ebcdic_roundtrip (s rest : list Z) (Hs : Forall (fun c => ebcdic_char c = true) s) :
  exists e, ascii2ebcdic (s ++ rest) (lenZ s) = Ret (e ++ rest) /\ lenZ e = lenZ s /\
    ebcdic2ascii (e ++ rest) (lenZ e) = Ret (s ++ rest).
Proof.
  exists (map (xlat ascii2ebcdic_table) s). unfold ascii2ebcdic, ebcdic2ascii.
  split; [apply translate_text; [done|]; eapply Forall_impl; [exact Hs|]; by intros c (? & ? & ?)%charset_tables|].
  split; [unfold lenZ; by rewrite length_map|].
  rewrite translate_text; [|done|].
  - do 2 f_equal. rewrite map_map. induction Hs as [|c s Hc Hs IH]; simpl; [done|].
    destruct (charset_tables c Hc) as (_ & _ & ->). by rewrite IH.
  - apply Forall_map. eapply Forall_impl; [exact Hs|]. by intros c (? & ? & ?)%charset_tables.
Qed.

Lemma ebcdic_roundtrip_witness :
  exists e, ascii2ebcdic (zs "Hi" ++ [0]) 2 = Ret (e ++ [0]) /\ ebcdic2ascii (e ++ [0]) 2 = Ret (zs "Hi" ++ [0]).
Proof.
  destruct (ebcdic_roundtrip (zs "Hi") [0]) as (e & E1 & L & E2); [repeat constructor|].
  exists e. split; [exact E1|]. rewrite L in E2. exact E2.
Defined.

(** Ascii2upper applies [toupper] to each byte of a text of non-zero bytes. *)
Theorem ascii2upper_toupper (s rest : list Z) (Hs : Forall (fun c => 1 <= c < 256) s) :
  ascii2upper (s ++ rest) (lenZ s) = Ret (map toupper s ++ rest).
Proof.
  unfold ascii2upper. rewrite translate_text by done. do 2 f_equal. apply map_ext_in.
  intros c Hc%list_elem_of_In. rewrite Forall_forall in Hs. apply Hs in Hc.
  assert (forallb (fun c => xlat ascii2upper_table c =? toupper c) (seqZ 0 256) = true) as H by (by vm_compute).
  rewrite forallb_forall in H. apply Z.eqb_eq, H. rewrite <- list_elem_of_In, elem_of_seqZ. lia.
Qed.

Lemma ascii2upper_toupper_witness : ascii2upper (zs "q 1" ++ [0]) 3 = Ret (zs "Q 1" ++ [0]).
Proof.
  exact (ascii2upper_toupper (zs "q 1") [0]
    ltac:(repeat (constructor; [by vm_compute|]); constructor)).
Defined.
