(* ===== verification/Digest.v ===== *)
(** lib/digest.c: SHA-1 over data that arrives in pieces.

    The compression itself is done by two machine instructions, parameters of
    the model: [kimd] processes complete 64-byte blocks, [klmd] the last data
    with the message length.  [ShaInstr] states what the architecture documents
    of them: both may be run on leading blocks first.  The theorem: however the
    message is cut into updates, the digest is that of the whole message in one
    KLMD, when everything lies below 4 GB: the operands of the instructions are
    moved to their registers with 32-bit instructions. *)

From S2P Require Import Prelude.

Local Open Scope Z_scope.

(** the chaining value, then the data *)
Class ShaInstr := {
  kimd : list Z -> list Z -> list Z;
  klmd : list Z -> Z -> list Z -> list Z;  (* the message bit length before the data *)
  kimd_nil : forall H, kimd H [] = H;
  kimd_app : forall H a b, lenZ a mod 64 = 0 -> kimd H (a ++ b) = kimd (kimd H a) b;
  klmd_app : forall H n a b, lenZ a mod 64 = 0 -> klmd H n (a ++ b) = klmd (kimd H a) n b;
}.

(** [struct digest_ctx] *)
Record digest_ctx := DigestCtx {
  ctx_type : Z;
  ctx_H : list Z;
  ctx_mbl : Z;
  ctx_buflen : Z;
  ctx_buf : list Z;
}.

Definition DIGEST_QUERY : Z := 0.
Definition DIGEST_SHA1 : Z := 1.
Definition EINVAL : Z := 4.

Definition sha1_H : list Z := [0x67452301; 0xEFCDAB89; 0x98BADCFE; 0x10325476; 0xC3D2E1F0].

Definition sha1_init (c : digest_ctx) : digest_ctx :=
  DigestCtx (ctx_type c) sha1_H 0 0 (ctx_buf c).

(** LR replaces the lower half of a register *)
Definition lr (r v : Z) : Z := r / 2 ^ 32 * 2 ^ 32 + v mod 2 ^ 32.

Section digest.
(** the instructions, the address of the context, and what registers 1, 2 and 3
    hold when an instruction is prepared: the upper halves stay *)
Context `{ShaInstr} (ctx r1 r2 r3 : Z).

(** the addresses of [sha1.H] and [sha1.buf] *)
Definition H_addr : Z := ctx + 8.
Definition buf_addr : Z := ctx + 37.

(** [data] is what is at [ptr].  The parameter block and the data are where the
    registers say: elsewhere is storage that is not the caller's *)
Definition DIGEST_LOOP (inst : list Z -> list Z) (c : digest_ctx) (ptr : Z) (data : list Z) (len : Z) : outcome digest_ctx :=
  if (lr r1 H_addr =? H_addr) && (lr r2 ptr =? ptr) then
    d ← defined (aslice data 0 (lr r3 len));
    Ret (DigestCtx (ctx_type c) (inst d) (ctx_mbl c) (ctx_buflen c) (ctx_buf c))
  else Undef.

Definition KIMD (c : digest_ctx) := DIGEST_LOOP (kimd (ctx_H c)) c.

(** the parameter block of KLMD is [H] with [mbl] behind it *)
Definition KLMD (c : digest_ctx) := DIGEST_LOOP (klmd (ctx_H c) (ctx_mbl c)) c.

(** the part of [__sha1_update] that fills the context buffer: the context and
    the data left *)
Definition sha1_fill (c : digest_ctx) (ptr : Z) (data : list Z) (len : Z) (final : bool)
    : outcome (digest_ctx * Z * list Z * Z) :=
  if ctx_buflen c =? 0 then Ret (c, ptr, data, len) else
  let copy := u8 (Z.min (64 - ctx_buflen c) len) in
  src ← defined (aslice data 0 copy);
  buf ← defined (ablit (ctx_buf c) (ctx_buflen c) src);
  let c := DigestCtx (ctx_type c) (ctx_H c) (ctx_mbl c) (u8 (ctx_buflen c + copy)) buf in
  let ptr := u64 (ptr + copy) in
  data ← defined (aslice data copy (lenZ data - copy));
  let len := u64 (len - copy) in
  if ctx_buflen c =? 64 then
    c ← KIMD c buf_addr buf (ctx_buflen c);
    Ret (DigestCtx (ctx_type c) (ctx_H c) (u64 (ctx_mbl c + Z.shiftl (ctx_buflen c) 3)) 0 (ctx_buf c), ptr, data, len)
  else if final then Ret (c, buf_addr, ctx_buf c, ctx_buflen c)
  else Ret (c, ptr, data, len).

Definition __sha1_update (c : digest_ctx) (ptr : Z) (data : list Z) (len : Z) (final : bool) : outcome digest_ctx :=
  r ← sha1_fill c ptr data len final;
  let '(c, ptr, data, len) := r in
  r ← (if negb final && negb (len mod 64 =? 0) then
         let tail := u8 (len mod 64) in
         let len := u64 (len - tail) in
         src ← defined (aslice data len tail);
         buf ← defined (ablit (ctx_buf c) 0 src);
         Ret (DigestCtx (ctx_type c) (ctx_H c) (ctx_mbl c) tail buf, len)
       else Ret (c, len));
  let '(c, len) := r in
  let c := DigestCtx (ctx_type c) (ctx_H c) (u64 (ctx_mbl c + Z.shiftl len 3)) (ctx_buflen c) (ctx_buf c) in
  if final then KLMD c ptr data len else KIMD c ptr data len.

Definition sha1_update (c : digest_ctx) (ptr : Z) (data : list Z) (len : Z) := __sha1_update c ptr data len false.
Definition sha1_finalize (c : digest_ctx) (ptr : Z) (data : list Z) (len : Z) := __sha1_update c ptr data len true.

(** the result code and the context *)
Definition digest_init_ctx (dt : Z) (c : digest_ctx) : Z * digest_ctx :=
  if (dt <=? DIGEST_QUERY) || (dt >? DIGEST_SHA1) then (- EINVAL, c)
  else (0, sha1_init (DigestCtx (u8 dt) (ctx_H c) (ctx_mbl c) (ctx_buflen c) (ctx_buf c))).

(** the entry of [digests] for any other type is a null pointer, or none *)
Definition digest_update_ctx (c : digest_ctx) (ptr : Z) (data : list Z) (len : Z) : outcome digest_ctx :=
  if ctx_type c =? DIGEST_SHA1 then sha1_update c ptr data len else Undef.
Definition digest_finalize_ctx (c : digest_ctx) (ptr : Z) (data : list Z) (len : Z) : outcome digest_ctx :=
  if ctx_type c =? DIGEST_SHA1 then sha1_finalize c ptr data len else Undef.

(** the updates one after the other: the data and where they are *)
Fixpoint updates (c : digest_ctx) (ds : list (Z * list Z)) : outcome digest_ctx :=
  match ds with
  | [] => Ret c
  | (ptr, d) :: ds => c ← digest_update_ctx c ptr d (lenZ d); updates c ds
  end.

(** * The context after a part [M] of the message *)

Record absorbed (M : list Z) (c : digest_ctx) : Prop := Absorbed {
  ab_type : ctx_type c = DIGEST_SHA1;
  ab_len : lenZ (ctx_buf c) = 64;
  ab_split : exists B T, M = B ++ T /\ lenZ B mod 64 = 0 /\ lenZ T = ctx_buflen c /\ lenZ T < 64 /\
    ctx_H c = kimd sha1_H B /\ ctx_mbl c = u64 (8 * lenZ B) /\ aslice (ctx_buf c) 0 (lenZ T) = Some T;
}.
End digest.

(** ** Below 4 GB *)

(** [len] bytes at [ptr] end below 4 GB *)
Definition low (ptr len : Z) : Prop := 0 <= ptr /\ 0 <= len /\ ptr + len < 2 ^ 32.

Section proofs.
Context `{ShaInstr} (ctx r1 r2 r3 : Z).
Context (Hctx : low ctx 101) (Hr1 : 0 <= r1 < 2 ^ 32) (Hr2 : 0 <= r2 < 2 ^ 32) (Hr3 : 0 <= r3 < 2 ^ 32).

Lemma lr_low r v : 0 <= r < 2 ^ 32 -> 0 <= v < 2 ^ 32 -> lr r v = v.
Proof. intros. unfold lr. by rewrite Z.div_small, Z.mod_small by lia. Qed.

Definition with_H (c : digest_ctx) (h : list Z) : digest_ctx := DigestCtx (ctx_type c) h (ctx_mbl c) (ctx_buflen c) (ctx_buf c).

Lemma loop_low inst c ptr data len d : 0 <= ptr < 2 ^ 32 -> 0 <= len < 2 ^ 32 -> aslice data 0 len = Some d ->
  DIGEST_LOOP ctx r1 r2 r3 inst c ptr data len = Ret (with_H c (inst d)).
Proof.
  intros Hp Hl Hd. unfold DIGEST_LOOP, H_addr. unfold low in Hctx. rewrite !lr_low by (lia || done).
  rewrite !Z.eqb_refl. cbn [andb]. by rewrite Hd.
Qed.

(** [sha1_fill] leaves either the context for a longer part of the message and
    data that start a new block (or none), ... *)
Definition filled (M : list Z) (data : list Z) (c' : digest_ctx) (data' : list Z) : Prop :=
  exists M', absorbed M' c' /\ M ++ data = M' ++ data' /\ (ctx_buflen c' = 0 \/ data' = []) /\
    lenZ data' <= lenZ data.

(** ... or, for the last data, a context buffer that holds the rest *)
Definition buffered (M : list Z) (data : list Z) (c' : digest_ctx) (len : Z) : Prop :=
  exists B T, M ++ data = B ++ T /\ lenZ B mod 64 = 0 /\ lenZ T = len /\
    aslice (ctx_buf c') 0 len = Some T /\ ctx_H c' = kimd sha1_H B /\ ctx_mbl c' = u64 (8 * lenZ B).

Lemma sha1_fill_spec M c ptr data final :
  absorbed M c -> low ptr (lenZ data) ->
  (exists c' ptr' data', sha1_fill ctx r1 r2 r3 c ptr data (lenZ data) final = Ret (c', ptr', data', lenZ data') /\
    low ptr' (lenZ data') /\ filled M data c' data' /\ (final = true -> ctx_buflen c' = 0)) \/
  (final = true /\ exists c' len, sha1_fill ctx r1 r2 r3 c ptr data (lenZ data) final = Ret (c', buf_addr ctx, ctx_buf c', len) /\
    0 <= len < 64 /\ buffered M data c' len).
Proof.
  intros Hc Hlow. pose proof Hlow as (Hp0 & _ & Hd). revert Hc.
  intros [Hty Hlen (B & T & -> & HB & HT & HT64 & HH & Hm & Hbuf)].
  pose proof (lenZ_nonneg T) as HTn. pose proof (lenZ_nonneg data) as Hdn.
  unfold sha1_fill. destruct (Z.eqb_spec (ctx_buflen c) 0) as [E0|E0].
  { left. exists c, ptr, data. split; [done|]. split; [done|]. split; [|done]. exists (B ++ T). split; [|split; [done|split; [by left|done]]].
    split; [done..|]. exists B, T. split_and!; try done; lia. }
  set (copy := u8 (Z.min (64 - ctx_buflen c) (lenZ data))).
  assert (copy = Z.min (64 - ctx_buflen c) (lenZ data)) as Hcopy by (apply wrap_small; lia).
  destruct (aslice_is_Some data 0 copy) as [src Hsrc]; [lia..|]. rewrite Hsrc.
  pose proof (aslice_lenZ _ _ _ _ Hsrc) as Hsl. cbn [defined mbind outcome_bind].
  destruct (ablit_is_Some (ctx_buf c) (ctx_buflen c) src) as [buf Hb]; [lia..|]. rewrite Hb.
  cbn [defined mbind outcome_bind ctx_buflen ctx_buf ctx_type ctx_H ctx_mbl].
  destruct (aslice_is_Some data copy (lenZ data - copy)) as [rest Hrest]; [lia..|]. rewrite Hrest.
  pose proof (aslice_lenZ _ _ _ _ Hrest) as Hrl. cbn [defined mbind outcome_bind].
  assert (data = src ++ rest) as Hdata.
  { pose proof (aslice_join data 0 copy (lenZ data - copy) src rest Hsrc Hrest) as Hj.
    replace (copy + (lenZ data - copy)) with (lenZ data) in Hj by lia. rewrite aslice_full in Hj. by injection Hj. }
  pose proof (ablit_lenZ _ _ _ _ Hb) as Hbl.
  assert (aslice buf 0 (ctx_buflen c + copy) = Some (T ++ src)) as Hfill.
  { apply aslice_join.
    - rewrite (aslice_ablit_disjoint _ _ _ _ 0 (ctx_buflen c) Hb) by (left; lia). by rewrite <- HT.
    - rewrite Z.add_0_l, <- Hsl. by apply (aslice_ablit (ctx_buf c)). }
  rewrite (wrap_small 8 (ctx_buflen c + copy)) by lia.
  rewrite (wrap_small 64 (lenZ data - copy)), (wrap_small 64 (ptr + copy)) by lia.
  assert (low (ptr + copy) (lenZ rest)) as Hlow' by (unfold low; lia).
  destruct (Z.eqb_spec (ctx_buflen c + copy) 64) as [E64|E64].
  - rewrite E64 in Hfill |- *. unfold KIMD, buf_addr. unfold low in Hctx.
    rewrite (loop_low _ _ _ _ _ (T ++ src)) by (lia || done). cbn [mbind outcome_bind with_H ctx_type ctx_H ctx_mbl ctx_buflen ctx_buf].
    left. eexists _, (ptr + copy), rest. rewrite Hrl in *. split; [done|]. split; [done|]. split; [|done]. exists (B ++ T ++ src). split_and!; [|by rewrite Hdata, <- !app_assoc|by left|lia].
    split; cbn [ctx_type ctx_H ctx_mbl ctx_buflen ctx_buf]; [done|lia|].
    exists (B ++ T ++ src), []. rewrite app_nil_r.
    assert (lenZ (B ++ T ++ src) = lenZ B + 64) as Hl by (rewrite !lenZ_app; lia).
    split_and!; [done|rewrite Hl; divlia|done|by vm_compute| | |apply aslice_nil].
    + rewrite HH. symmetry. by apply kimd_app.
    + rewrite Hm, Hl. unfold wrap. rewrite Z.shiftl_mul_pow2 by lia.
      rewrite Z.add_mod_idemp_l by lia. f_equal. lia.
  - destruct final.
    + right. split; [done|].
      exists (DigestCtx (ctx_type c) (ctx_H c) (ctx_mbl c) (ctx_buflen c + copy) buf), (ctx_buflen c + copy).
      split; [reflexivity|]. split; [lia|]. cbn [ctx_type ctx_H ctx_mbl ctx_buflen ctx_buf].
      exists B, (T ++ src). assert (rest = []) as ->.
      { destruct rest; [done|]. unfold lenZ in *. simpl in *. lia. }
      rewrite Hdata, app_nil_r. split_and!; [by rewrite <- app_assoc|done|rewrite lenZ_app; lia|done|done|done].
    + left. eexists _, (ptr + copy), rest. rewrite Hrl in *. split; [done|]. split; [done|]. split; [|done]. exists (B ++ T ++ src).
      assert (rest = []) as ->.
      { destruct rest; [done|]. unfold lenZ in *. simpl in *. lia. }
      split_and!; [|by rewrite Hdata, !app_nil_r, <- app_assoc|by right|lia].
      split; cbn [ctx_type ctx_H ctx_mbl ctx_buflen ctx_buf]; [done|lia|].
      exists B, (T ++ src). assert (lenZ (T ++ src) = ctx_buflen c + copy) as -> by (rewrite lenZ_app; lia).
      split_and!; try done; lia.
Qed.

Lemma KIMD_absorbed M c tail data : absorbed M c -> lenZ data mod 64 = 0 -> ctx_buflen c = 0 \/ data = [] ->
  tail = ctx_buflen c ->
  absorbed (M ++ data) (with_H (DigestCtx (ctx_type c) (ctx_H c)
    (u64 (ctx_mbl c + Z.shiftl (lenZ data) 3)) tail (ctx_buf c)) (kimd (ctx_H c) data)).
Proof.
  intros [Hty Hlen (B & T & -> & HB & HT & HT64 & HH & Hm & Hbuf)] Hd Hor ->.
  split; cbn [with_H ctx_type ctx_H ctx_mbl ctx_buflen ctx_buf]; [done|done|].
  assert (u64 (ctx_mbl c + Z.shiftl (lenZ data) 3) = u64 (8 * lenZ (B ++ data))) as Hmbl.
  { rewrite Hm, lenZ_app. unfold wrap. rewrite Z.shiftl_mul_pow2, Z.add_mod_idemp_l by lia. f_equal. lia. }
  exists (B ++ data), T. split_and!; try done.
  - destruct Hor as [E| ->]; [|by rewrite !app_nil_r]. assert (T = []) as ->.
    { destruct T; [done|]. unfold lenZ in *. simpl in *. lia. }
    by rewrite !app_nil_r.
  - rewrite lenZ_app. divlia.
  - rewrite HH. symmetry. by apply kimd_app.
Qed.

Lemma sha1_update_spec M c ptr data :
  absorbed M c -> low ptr (lenZ data) ->
  exists c', sha1_update ctx r1 r2 r3 c ptr data (lenZ data) = Ret c' /\ absorbed (M ++ data) c'.
Proof.
  intros Hc Hd. destruct (sha1_fill_spec M c ptr data false Hc Hd) as [(c1 & p1 & d1 & E & (Hp1 & _ & Hd1) & HF & _)|[? _]]; [|done].
  unfold sha1_update, __sha1_update. rewrite E. cbn [mbind outcome_bind negb andb].
  destruct HF as (M1 & H1 & Heq & Hor & Hle). rewrite Heq. pose proof (lenZ_nonneg d1).
  destruct (Z.eqb_spec (lenZ d1 mod 64) 0) as [E0|E0]; cbn [negb mbind outcome_bind].
  - unfold KIMD. rewrite (loop_low _ _ _ _ _ d1) by (lia || apply aslice_full).
    eexists. split; [done|]. cbn [ctx_mbl ctx_type ctx_H ctx_buf ctx_buflen]. by apply KIMD_absorbed.
  - destruct Hor as [Hz| ->]; [|done].
    rewrite (wrap_small 8 (lenZ d1 mod 64)), (wrap_small 64 (_ - _)) by divlia.
    set (t := lenZ d1 mod 64) in *. assert (0 <= t < 64) as Ht by (unfold t; divlia).
    assert (0 <= lenZ d1 - t) as Htl by (unfold t; divlia).
    destruct (aslice_is_Some d1 (lenZ d1 - t) t) as [src Hsrc]; [lia..|].
    destruct (aslice_is_Some d1 0 (lenZ d1 - t)) as [d Hdd]; [lia..|].
    pose proof (aslice_lenZ _ _ _ _ Hsrc) as Hsl. pose proof (aslice_lenZ _ _ _ _ Hdd) as Hdl.
    destruct H1 as [Hty Hlen (B & T & -> & HB & HT & HT64 & HH & Hm & Hbuf)].
    destruct (ablit_is_Some (ctx_buf c1) 0 src) as [buf Hb]; [lia..|].
    rewrite Hsrc. cbn [defined mbind outcome_bind]. rewrite Hb. cbn [defined mbind outcome_bind].
    unfold KIMD. rewrite (loop_low _ _ _ _ _ d) by (lia || done).
    eexists. split; [done|].
    assert (T = []) as -> by (destruct T; [done|]; unfold lenZ in HT; simpl in HT; lia).
    assert (d1 = d ++ src) as ->.
    { pose proof (aslice_join d1 0 (lenZ d1 - t) t d src Hdd Hsrc) as Hj.
      replace (lenZ d1 - t + t) with (lenZ d1) in Hj by lia. rewrite aslice_full in Hj. by injection Hj. }
    assert (lenZ d mod 64 = 0) as Hd64 by (rewrite Hdl; unfold t; divlia).
    rewrite app_nil_r. pose proof (ablit_lenZ _ _ _ _ Hb).
    split; cbn [with_H ctx_mbl ctx_type ctx_H ctx_buf ctx_buflen]; [done|lia|].
    exists (B ++ d), src. split_and!; [by rewrite <- app_assoc|rewrite lenZ_app; divlia|done|lia| | |].
    + rewrite HH. symmetry. by apply kimd_app.
    + rewrite Hm, <- Hdl, lenZ_app. unfold wrap. rewrite Z.shiftl_mul_pow2, Z.add_mod_idemp_l by lia.
      f_equal. lia.
    + by apply (aslice_ablit (ctx_buf c1)).
Qed.

(** the digest of a whole message *)
Definition sha1_of (M : list Z) : list Z := klmd sha1_H (u64 (8 * lenZ M)) M.

Lemma sha1_finalize_spec M c ptr data :
  absorbed M c -> low ptr (lenZ data) ->
  exists c', sha1_finalize ctx r1 r2 r3 c ptr data (lenZ data) = Ret c' /\ ctx_H c' = sha1_of (M ++ data).
Proof.
  intros Hc Hd. unfold sha1_finalize, __sha1_update.
  destruct (sha1_fill_spec M c ptr data true Hc Hd) as [(c1 & p1 & d1 & E & (Hp1 & Hp1' & Hd1) & HF & H0)|(_ & c1 & len & E & Hlen & HB)];
    rewrite E; cbn [mbind outcome_bind negb andb ctx_mbl ctx_type ctx_H ctx_buf ctx_buflen].
  - destruct HF as (M1 & H1 & Heq & _ & Hle). unfold KLMD. rewrite (loop_low _ _ _ _ _ d1) by (lia || apply aslice_full).
    eexists. split; [done|]. cbn [with_H ctx_H ctx_mbl]. unfold sha1_of. rewrite Heq.
    destruct H1 as [Hty Hlen (B & T & -> & HB & HT & HT64 & HH & Hm & Hbuf)].
    assert (T = []) as -> by (destruct T; [done|]; unfold lenZ in HT; simpl in HT; rewrite (H0 eq_refl) in HT; lia).
    rewrite !app_nil_r, klmd_app, HH by done. f_equal.
    rewrite Hm, lenZ_app. unfold wrap. rewrite Z.shiftl_mul_pow2, Z.add_mod_idemp_l by lia. f_equal. lia.
  - destruct HB as (B & T & Heq & HB & HT & Hs & HH & Hm). unfold KLMD, buf_addr. unfold low in Hctx.
    rewrite (loop_low _ _ _ _ _ T) by (lia || done).
    eexists. split; [done|]. cbn [with_H ctx_H ctx_mbl]. unfold sha1_of.
    rewrite Heq, klmd_app, HH by done. f_equal.
    rewrite Hm, lenZ_app. unfold wrap. rewrite Z.shiftl_mul_pow2, Z.add_mod_idemp_l by lia. f_equal. lia.
Qed.

Lemma updates_spec M c ds :
  absorbed M c -> Forall (fun pd => low pd.1 (lenZ pd.2)) ds ->
  exists c', updates ctx r1 r2 r3 c ds = Ret c' /\ absorbed (M ++ concat (map snd ds)) c'.
Proof.
  intros Hc Hds. revert M c Hc. induction Hds as [|[p d] ds Hd _ IH]; intros M c Hc.
  { exists c. split; [done|]. simpl. by rewrite app_nil_r. }
  destruct (sha1_update_spec M c p d Hc Hd) as (c1 & E1 & H1).
  destruct (IH (M ++ d) c1 H1) as (c2 & E2 & H2).
  exists c2. cbn [updates]. unfold digest_update_ctx. rewrite (ab_type _ _ Hc). cbn [DIGEST_SHA1 Z.eqb Pos.eqb].
  rewrite E1. split; [done|]. simpl. by rewrite app_assoc.
Qed.
End proofs.

(** A piece of 4 GB is not hashed at all: the length in the register is 0. *)
Lemma KIMD_4GB `{ShaInstr} ctx r1 r2 r3 c ptr data :
  low ctx 101 -> 0 <= r1 < 2 ^ 32 -> 0 <= r2 < 2 ^ 32 -> 0 <= r3 < 2 ^ 32 -> 0 <= ptr < 2 ^ 32 ->
  KIMD ctx r1 r2 r3 c ptr data (2 ^ 32) = Ret c.
Proof.
  intros Hctx H1 H2 H3 Hp. unfold KIMD, DIGEST_LOOP, H_addr. unfold low in Hctx. rewrite !(lr_low _ (_ + _)), (lr_low _ ptr) by lia.
  rewrite !Z.eqb_refl. cbn [andb]. unfold lr. rewrite Z.div_small by lia. change (0 * 2 ^ 32 + 2 ^ 32 mod 2 ^ 32) with 0.
  rewrite aslice_nil. cbn [defined mbind outcome_bind]. rewrite kimd_nil. by destruct c.
Qed.

(** C33: a context initialised for SHA-1, given the pieces of a message by any
    number of updates and a finalize, ends with the digest of the whole message:
    the one that one KLMD over the concatenation computes.  The context and every
    piece end below 4 GB, and the upper halves of the registers 1, 2 and 3 are
    zero: the operands are moved there with LR, which copies 32 bits
    (digest.c:26; [KIMD_4GB]). *)
Theorem sha1_streaming `{ShaInstr} (ctx r1 r2 r3 : Z) (c : digest_ctx) (ds : list (Z * list Z)) (ptr : Z) (d : list Z)
    (Hctx : low ctx 101) (Hr1 : 0 <= r1 < 2 ^ 32) (Hr2 : 0 <= r2 < 2 ^ 32) (Hr3 : 0 <= r3 < 2 ^ 32)
    (Hbuf : lenZ (ctx_buf c) = 64) (Hds : Forall (fun pd => low pd.1 (lenZ pd.2)) (ds ++ [(ptr, d)])) :
  exists c0 c1 c2, digest_init_ctx DIGEST_SHA1 c = (0, c0) /\ updates ctx r1 r2 r3 c0 ds = Ret c1 /\
    digest_finalize_ctx ctx r1 r2 r3 c1 ptr d (lenZ d) = Ret c2 /\ ctx_H c2 = sha1_of (concat (map snd ds) ++ d).
Proof.
  apply Forall_app in Hds as [Hds Hd]. apply Forall_cons in Hd as [Hd _].
  set (c0 := sha1_init (DigestCtx DIGEST_SHA1 (ctx_H c) (ctx_mbl c) (ctx_buflen c) (ctx_buf c))).
  assert (absorbed [] c0) as H0.
  { split; [done|done|]. exists [], []. split_and!; try done. - symmetry. apply kimd_nil. - apply aslice_nil. }
  destruct (updates_spec ctx r1 r2 r3 Hctx Hr1 Hr2 Hr3 [] c0 ds H0 Hds) as (c1 & E1 & H1).
  destruct (sha1_finalize_spec ctx r1 r2 r3 Hctx Hr1 Hr2 Hr3 (concat (map snd ds)) c1 ptr d H1 Hd) as (c2 & E2 & H2).
  exists c0, c1, c2. split; [done|]. split; [done|]. unfold digest_finalize_ctx.
  by rewrite (ab_type _ _ H1).
Qed.

(** instructions that record what they were given *)
Definition recording : ShaInstr.
Proof.
  refine {| kimd := fun H d => H ++ d; klmd := fun H n d => H ++ d ++ [n] |}.
  - intros. apply app_nil_r.
  - intros. apply app_assoc.
  - intros. by rewrite <- !app_assoc.
Defined.

Lemma sha1_streaming_witness :
  exists c0 c1 c2, digest_init_ctx DIGEST_SHA1 (DigestCtx 0 [] 0 0 (replicate 64 0)) = (0, c0) /\
    @updates recording 0x9000 7 8 9 c0 [(0x5000, replicate 40 1); (0x6000, replicate 60 2)] = Ret c1 /\
    @digest_finalize_ctx recording 0x9000 7 8 9 c1 0x7000 [7; 8] 2 = Ret c2 /\
    ctx_H c2 = sha1_H ++ replicate 40 1 ++ replicate 60 2 ++ [7; 8] ++ [816].
Proof.
  refine (@sha1_streaming recording 0x9000 7 8 9 (DigestCtx 0 [] 0 0 (replicate 64 0))
    [(0x5000, replicate 40 1); (0x6000, replicate 60 2)] 0x7000 [7; 8] _ _ _ _ eq_refl _); [by vm_compute|done..|].
  repeat (constructor; [by vm_compute|]); constructor.
Defined.
