(* ===== verification/Sched.v ===== *)
(** cp/nucleus/sched.c, ext.c and svc.c: tasks, the run queue and the dispatcher.

    A task is its address; [tasks] holds the task structs, [runnable] and
    [processes] the two lists (Dlist.v), [current] the task of PSA_CURRENT and
    [cpu] the registers of the running code.  Linking a list entry that is
    linked already is undefined.  An event is what can happen to the scheduler:
    the running task yields, blocks, exits, or wakes another; the timer ticks; a
    task is created.  The theorems: every event keeps each task accounted for
    exactly once (running, on the run queue, or blocked), a task resumes with
    the registers it was suspended with, and a task on the run queue runs after
    a bounded number of dispatches. *)

From S2P Require Import Prelude CString.

Local Open Scope Z_scope.

Definition TASK_RUNNING : Z := 0.
Definition TASK_SLEEPING : Z := 1.
Definition TASK_LOCKED : Z := 2.
Definition TASK_ZOMBIE : Z := 3.
Definition STACK_FRAME_SIZE : Z := 160.
Definition SCHED_SLICE_MS : Z := 30.
Definition HZ : Z := 100.
Definition SCHED_TICKS_PER_SLICE : Z := HZ / SCHED_SLICE_MS.
Definition TASK_NAME_LEN : Z := 16.
Definition PAGE_SIZE : Z := 4096.

(** saved registers; the program status word is one 128-bit value *)
Record regs := Regs { psw : Z; gpr : list Z; cr1 : Z }.

Record task := Task {
  t_regs : regs;
  slice_end_time : Z;
  state : Z;
  stack : Z;
  name : list Z;
}.

(** [idle_task] is a static object, address 0 stands for it *)
Definition idle_task : Z := 0.

Record sys := Sys {
  runnable : list Z;
  processes : list Z;
  tasks : gmap Z task;
  current : Z;
  ticks : Z;
  cpu : regs;
  freed_stacks : list Z;  (* stack pages given back *)
}.

Definition set_task (t : Z) (v : task) (s : sys) : sys :=
  Sys (runnable s) (processes s) (<[t := v]> (tasks s)) (current s) (ticks s) (cpu s) (freed_stacks s).
Definition set_runnable (l : list Z) (s : sys) : sys :=
  Sys l (processes s) (tasks s) (current s) (ticks s) (cpu s) (freed_stacks s).
Definition set_processes (l : list Z) (s : sys) : sys :=
  Sys (runnable s) l (tasks s) (current s) (ticks s) (cpu s) (freed_stacks s).
Definition set_ticks (n : Z) (s : sys) : sys :=
  Sys (runnable s) (processes s) (tasks s) (current s) n (cpu s) (freed_stacks s).
Definition set_state (v : Z) (t : task) : task :=
  Task (t_regs t) (slice_end_time t) v (stack t) (name t).
Definition set_regs (r : regs) (t : task) : task :=
  Task r (slice_end_time t) (state t) (stack t) (name t).
Definition set_slice (n : Z) (t : task) : task :=
  Task (t_regs t) n (state t) (stack t) (name t).

(** the psw [__init_task] builds: io, ex, m, ea, ba and the address of
    [start_task] *)
Definition init_psw (start_task : Z) : Z :=
  Z.lor (Z.shiftl (Z.lor (Z.lor (Z.shiftl 1 57) (Z.shiftl 1 56)) (Z.lor (Z.shiftl 1 50)
    (Z.lor (Z.shiftl 1 32) (Z.shiftl 1 31)))) 64) start_task.

(** the registers of a new task: [f] in 2, [data] in 3, the stack in 15 *)
Definition __init_task (start_task f data stk : Z) : task :=
  Task (Regs (init_psw start_task)
             ([0; 0; f; data] ++ replicate 11 0 ++ [u64 (stk + PAGE_SIZE - STACK_FRAME_SIZE)]) 0)
       0 TASK_SLEEPING stk [].

(** [page] and [task] are what alloc_pages (as the page's address) and malloc
    returned; when there is no page the error path frees one all the same *)
Definition create_task (start_task : Z) (page new : option Z) (nm : list Z) (f data : Z) (s : sys)
    : outcome (option Z * sys) :=
  match page, new with
  | Some p, Some t =>
      let v := __init_task start_task f data p in
      let v := Task (t_regs v) (slice_end_time v) (state v) (stack v)
                    (padded (Z.to_nat TASK_NAME_LEN) nm) in
      Ret (Some t, Sys (runnable s ++ [t]) (processes s ++ [t]) (<[t := v]> (tasks s))
                       (current s) (ticks s) (cpu s) (freed_stacks s))
  | Some p, None => Ret (None, Sys (runnable s) (processes s) (tasks s) (current s) (ticks s) (cpu s)
                                   (freed_stacks s ++ [p]))
  | None, _ => Undef
  end.

(** [force_idle] is an [int] *)
Definition __sched (force_idle : Z) (s : sys) : outcome sys :=
  r ← (if negb (force_idle =? 0) then Ret (idle_task, s) else
       match runnable s with
       | [] => Ret (idle_task, s)
       | next :: rest =>
           t ← defined (tasks s !! next);
           Ret (next, set_task next (set_state TASK_RUNNING t) (set_runnable rest s))
       end);
  let '(next, s) := r in
  t ← defined (tasks s !! next);
  let t := set_slice (if negb (force_idle =? 0) then u64 force_idle
                      else u64 (ticks s + SCHED_TICKS_PER_SLICE)) t in
  let s := set_task next t s in
  Ret (Sys (runnable s) (processes s) (tasks s) next (ticks s) (t_regs t) (freed_stacks s)).

(** take the struct off the processes list and free it with its stack *)
Definition reap (prev : Z) (t : task) (s : sys) : outcome sys :=
  if bool_decide (prev ∈ processes s) then
    Ret (Sys (runnable s) (remove Z.eq_dec prev (processes s)) (delete prev (tasks s))
             (current s) (ticks s) (cpu s) (freed_stacks s ++ [stack t]))
  else Undef.

(** [list_add_tail(&prev->run_queue, &runnable)] *)
Definition enqueue (t : Z) (s : sys) : outcome sys :=
  if bool_decide (t ∈ runnable s) then Undef else Ret (set_runnable (runnable s ++ [t]) s).

(** the interrupted registers are in [cpu]; the idle task's cr1 is not stored *)
Definition __schedule (newstate : Z) (s : sys) : outcome sys :=
  let prev := current s in
  t ← defined (tasks s !! prev);
  if prev =? idle_task then
    __sched 0 (set_task prev (set_regs (Regs (psw (cpu s)) (gpr (cpu s)) (cr1 (t_regs t))) t) s)
  else
    let t := set_state newstate (set_regs (cpu s) t) in
    let s := set_task prev t s in
    let force_idle := if slice_end_time t >=? u64 (ticks s + SCHED_TICKS_PER_SLICE)
                      then s32 (slice_end_time t) else 0 in
    s ← (if newstate =? TASK_ZOMBIE then reap prev t s
         else if newstate =? TASK_LOCKED then Ret s
         else enqueue prev s);
    __sched force_idle s.

Definition __schedule_svc : sys -> outcome sys := __schedule TASK_SLEEPING.
Definition __schedule_blocked_svc : sys -> outcome sys := __schedule TASK_LOCKED.
Definition __schedule_exit_svc : sys -> outcome sys := __schedule TASK_ZOMBIE.

(** [svc_table] *)
Definition svc_table : list (sys -> outcome sys) :=
  [__schedule_svc; __schedule_blocked_svc; __schedule_exit_svc].

(** [schedule()], [schedule_blocked()] and [exit()]: the supervisor call *)
Definition svc (interruptable : bool) (n : Z) (s : sys) : outcome sys :=
  bug_on (negb interruptable) ;;
  h ← defined (aget svc_table n); h s.
Definition schedule (interruptable : bool) := svc interruptable 0.
Definition schedule_blocked (interruptable : bool) := svc interruptable 1.
Definition exit (interruptable : bool) := svc interruptable 2.

Definition make_runnable (t : Z) (s : sys) : outcome sys :=
  v ← defined (tasks s !! t);
  enqueue t (set_task t (set_state TASK_SLEEPING v) s).

(** the timer interrupt of ext.c; any other external interrupt is ignored *)
Definition __ext_int_handler (code : Z) (s : sys) : outcome sys :=
  if code =? 0x1005 then
    let s := set_ticks (u64 (ticks s + 1)) s in
    if ticks s mod SCHED_TICKS_PER_SLICE =? 0 then __schedule TASK_SLEEPING s else Ret s
  else Ret s.

(** [list_tasks]: the tasks the callback is called for *)
Definition list_tasks (s : sys) : list Z := processes s.

Definition init_idle_task (start_task stk : Z) : task := __init_task start_task 0 0 stk.

Definition init_sched (start_task : Z) (r : regs) (stk : Z) : sys :=
  Sys [] [] {[ idle_task := init_idle_task start_task stk ]} idle_task 0 r [].

(** * Events *)

Inductive event :=
  | E_yield
  | E_block
  | E_exit
  | E_timer
  | E_wake (t : Z)
  | E_create (start_task : Z) (page new : option Z) (nm : list Z) (f data : Z)
  | E_run (r : regs).  (* the running code computes *)

Definition step (e : event) (s : sys) : outcome sys :=
  match e with
  | E_yield => schedule true s
  | E_block => schedule_blocked true s
  | E_exit => exit true s
  | E_timer => __ext_int_handler 0x1005 s
  | E_wake t => make_runnable t s
  | E_create st page new nm f data => r ← create_task st page new nm f data s; Ret r.2
  | E_run r => Ret (Sys (runnable s) (processes s) (tasks s) (current s) (ticks s) r (freed_stacks s))
  end.

Fixpoint run (es : list event) (s : sys) : outcome sys :=
  match es with
  | [] => Ret s
  | e :: es => s ← step e s; run es s
  end.

(** every task is on the CPU, on the run queue, or blocked, as its state says *)
Record wf (s : sys) : Prop := Wf {
  wf_runnable : NoDup (runnable s);
  wf_processes : NoDup (processes s);
  wf_idle : idle_task ∉ processes s /\ is_Some (tasks s !! idle_task);
  wf_structs : forall t, t ∈ processes s -> is_Some (tasks s !! t);
  wf_queued : forall t, t ∈ runnable s -> t ∈ processes s;
  wf_current : current s = idle_task \/ current s ∈ processes s;
  wf_state : forall t v, t ∈ processes s -> tasks s !! t = Some v ->
    (t = current s /\ t ∉ runnable s /\ state v = TASK_RUNNING) \/
    (t <> current s /\ t ∈ runnable s /\ state v = TASK_SLEEPING) \/
    (t <> current s /\ t ∉ runnable s /\ state v = TASK_LOCKED);
}.

(** the same with nothing on the CPU: what [__sched] starts from *)
Record off_cpu (s : sys) : Prop := OffCpu {
  oc_runnable : NoDup (runnable s);
  oc_processes : NoDup (processes s);
  oc_idle : idle_task ∉ processes s /\ is_Some (tasks s !! idle_task);
  oc_structs : forall t, t ∈ processes s -> is_Some (tasks s !! t);
  oc_queued : forall t, t ∈ runnable s -> t ∈ processes s;
  oc_state : forall t v, t ∈ processes s -> tasks s !! t = Some v ->
    (t ∈ runnable s /\ state v = TASK_SLEEPING) \/ (t ∉ runnable s /\ state v = TASK_LOCKED);
}.

(** [v'] is [v] but for the state and the slice *)
Definition same_context (v v' : task) : Prop := t_regs v' = t_regs v /\ stack v' = stack v /\ name v' = name v.

(** what [__sched] does, on the queue *)
Definition picks (force_idle : Z) (s s' : sys) : Prop :=
  (current s' = idle_task /\ runnable s' = runnable s /\ (force_idle <> 0 \/ runnable s = [])) \/
  (runnable s = current s' :: runnable s' /\ force_idle = 0).

Lemma sched_spec force_idle s : off_cpu s ->
  exists s', __sched force_idle s = Ret s' /\ wf s' /\ picks force_idle s s' /\
    processes s' = processes s /\ freed_stacks s' = freed_stacks s /\ ticks s' = ticks s /\
    (forall v, tasks s !! current s' = Some v -> cpu s' = t_regs v) /\
    (forall t v, tasks s !! t = Some v -> exists v', tasks s' !! t = Some v' /\ same_context v v') /\
    (forall t, tasks s' !! t = None <-> tasks s !! t = None).
Proof.
  intros [Hr Hp [Hi [iv Hiv]] Hs Hq Hst]. unfold __sched.
  destruct (decide (force_idle <> 0 \/ runnable s = [])) as [Hidle|Hrun].
  - assert ((if negb (force_idle =? 0) then Ret (idle_task, s) else
       match runnable s with
       | [] => Ret (idle_task, s)
       | next :: rest => t ← defined (tasks s !! next);
           Ret (next, set_task next (set_state TASK_RUNNING t) (set_runnable rest s))
       end) = Ret (idle_task, s)) as ->.
    { destruct (Z.eqb_spec force_idle 0) as [->|]; [|done]. by destruct Hidle as [? | ->]. }
    cbn [mbind outcome_bind]. rewrite Hiv. cbn [defined mbind outcome_bind].
    eexists. split; [reflexivity|]. simpl. split_and!; try done.
    + split; simpl; try done.
      * split; [done|]. rewrite lookup_insert_eq. eauto.
      * intros t Ht. rewrite lookup_insert_ne by (intros <-; done). by apply Hs.
      * by left.
      * intros t v Ht. rewrite lookup_insert_ne by (intros <-; done). intros Hv.
        assert (t <> idle_task) by (intros ->; done). destruct (Hst t v Ht Hv) as [[? ?]|[? ?]]; naive_solver.
    + left. done.
    + intros v Hv. by rewrite Hiv in Hv; injection Hv as <-.
    + intros t v Hv. destruct (decide (t = idle_task)) as [->|].
      * rewrite lookup_insert_eq. rewrite Hiv in Hv. injection Hv as <-. by eexists.
      * rewrite lookup_insert_ne by done. by exists v.
    + intros t. destruct (decide (t = idle_task)) as [->|]; [rewrite lookup_insert_eq, Hiv|rewrite lookup_insert_ne by done]; done.
  - destruct (runnable s) as [|next rest] eqn:Er; [destruct Hrun; by right|].
    assert (force_idle = 0) as -> by (destruct (decide (force_idle = 0)); [done|destruct Hrun; by left]).
    rewrite Z.eqb_refl. simpl negb. cbv iota.
    assert (next ∈ processes s) as Hn by (apply Hq; by left).
    destruct (Hs next Hn) as [nv Hnv]. rewrite Hnv. cbn [defined mbind outcome_bind].
    cbn [set_task set_runnable tasks]. rewrite lookup_insert_eq. cbn [defined mbind outcome_bind].
    eexists. split; [reflexivity|]. simpl.
    apply NoDup_cons in Hr as [Hnr Hr].
    assert (next <> idle_task) as Hni by (intros ->; done).
    split_and!; try done.
    + split; simpl; try done.
      * split; [done|]. rewrite !lookup_insert_ne by done. eauto.
      * intros t Ht. destruct (decide (t = next)) as [->|]; [rewrite lookup_insert_eq; eauto|].
        rewrite !lookup_insert_ne by done. by apply Hs.
      * intros t Ht. apply Hq. by right.
      * by right.
      * intros t v Ht. destruct (decide (t = next)) as [->|Hne].
        -- rewrite lookup_insert_eq. intros [= <-]. left. done.
        -- rewrite !lookup_insert_ne by done. intros Hv. right.
           destruct (Hst t v Ht Hv) as [[Hin ?]|[Hin ?]]; [left|right]; split_and!; try done.
           ++ by apply elem_of_cons in Hin as [->|].
           ++ intros ?. apply Hin. by right.
    + right. done.
    + intros v Hv. rewrite Hnv in Hv. by injection Hv as <-.
    + intros t v Hv. destruct (decide (t = next)) as [->|].
      * rewrite lookup_insert_eq. rewrite Hnv in Hv. injection Hv as <-. by eexists.
      * rewrite !lookup_insert_ne by done. by exists v.
    + intros t. destruct (decide (t = next)) as [->|]; [rewrite lookup_insert_eq, Hnv|rewrite !lookup_insert_ne by done]; done.
Qed.

(** the run queue once the running task has been put away *)
Definition queue_after (newstate : Z) (s : sys) : list Z :=
  if current s =? idle_task then runnable s
  else if newstate =? TASK_SLEEPING then runnable s ++ [current s] else runnable s.

Definition processes_after (newstate : Z) (s : sys) : list Z :=
  if current s =? idle_task then processes s
  else if newstate =? TASK_ZOMBIE then remove Z.eq_dec (current s) (processes s) else processes s.

(** the outcome of a dispatch *)
Record dispatched (newstate : Z) (s s' : sys) : Prop := Dispatched {
  di_wf : wf s';
  di_pick : (current s' = idle_task /\ runnable s' = queue_after newstate s /\
              (current s <> idle_task \/ queue_after newstate s = [])) \/
            queue_after newstate s = current s' :: runnable s';
  di_processes : processes s' = processes_after newstate s;
  di_others : forall t v, t <> current s -> tasks s !! t = Some v ->
    (exists v', tasks s' !! t = Some v' /\ same_context v v') /\ (current s' = t -> cpu s' = t_regs v);
  di_prev : current s <> idle_task -> newstate <> TASK_ZOMBIE ->
    (exists v', tasks s' !! current s = Some v' /\ t_regs v' = cpu s) /\
    (current s' = current s -> cpu s' = cpu s);
}.

Lemma off_cpu_idle s v : wf s -> current s = idle_task -> tasks s !! idle_task = Some v ->
  off_cpu (set_task idle_task (set_regs (Regs (psw (cpu s)) (gpr (cpu s)) (cr1 (t_regs v))) v) s).
Proof.
  intros [Hr Hp [Hi Hiv] Hs Hq Hc Hst] Hcur Hv. split; simpl; try done.
  - split; [done|]. rewrite lookup_insert_eq. eauto.
  - intros t Ht. rewrite lookup_insert_ne by (intros <-; done). by apply Hs.
  - intros t w Ht. assert (t <> idle_task) by (intros ->; done). rewrite lookup_insert_ne by done.
    intros Hw. destruct (Hst t w Ht Hw) as [(-> & _)|[(_ & ? & ?)|(_ & ? & ?)]]; [done|by left|by right].
Qed.

(** the struct of the task that is put away *)
Definition put_away (newstate : Z) (s : sys) (v : task) : task := set_state newstate (set_regs (cpu s) v).

Lemma off_cpu_sleep s v : wf s -> current s <> idle_task -> tasks s !! current s = Some v ->
  off_cpu (set_runnable (runnable s ++ [current s])
    (set_task (current s) (put_away TASK_SLEEPING s v) s)).
Proof.
  intros [Hr Hp [Hi Hiv] Hs Hq Hc Hst] Hcur Hv. destruct Hc as [?|Hc]; [done|].
  destruct (Hst _ _ Hc Hv) as [(_ & Hnr & _)|[(? & _)|(? & _)]]; [|done..].
  split; simpl; try done.
  - apply NoDup_app. split_and!; [done| |apply NoDup_singleton]. set_solver.
  - split; [done|]. by rewrite lookup_insert_ne.
  - intros t Ht. rewrite lookup_insert_is_Some. destruct (decide (current s = t)); [by left|right; split; [done|by apply Hs]].
  - intros t [Ht| ->%list_elem_of_singleton]%elem_of_app; [by apply Hq|done].
  - intros t w Ht. destruct (decide (current s = t)) as [<-|Hne].
    + rewrite lookup_insert_eq. intros [= <-]. left. split; [set_solver|done].
    + rewrite lookup_insert_ne by done. intros Hw.
      destruct (Hst t w Ht Hw) as [(-> & _)|[(_ & ? & ?)|(_ & ? & ?)]]; [done|left|right]; split; try done; set_solver.
Qed.

Lemma off_cpu_lock s v : wf s -> current s <> idle_task -> tasks s !! current s = Some v ->
  off_cpu (set_task (current s) (put_away TASK_LOCKED s v) s).
Proof.
  intros [Hr Hp [Hi Hiv] Hs Hq Hc Hst] Hcur Hv. destruct Hc as [?|Hc]; [done|].
  destruct (Hst _ _ Hc Hv) as [(_ & Hnr & _)|[(? & _)|(? & _)]]; [|done..].
  split; simpl; try done.
  - split; [done|]. by rewrite lookup_insert_ne.
  - intros t Ht. rewrite lookup_insert_is_Some. destruct (decide (current s = t)); [by left|right; split; [done|by apply Hs]].
  - intros t w Ht. destruct (decide (current s = t)) as [<-|Hne].
    + rewrite lookup_insert_eq. intros [= <-]. by right.
    + rewrite lookup_insert_ne by done. intros Hw.
      destruct (Hst t w Ht Hw) as [(-> & _)|[(_ & ? & ?)|(_ & ? & ?)]]; [done|by left|by right].
Qed.

Lemma elem_remove x y (l : list Z) : x ∈ remove Z.eq_dec y l <-> x ∈ l /\ x <> y.
Proof.
  rewrite !list_elem_of_In. split; [apply in_remove|]. intros [? ?]. by apply in_in_remove.
Qed.

Lemma NoDup_remove_Z y (l : list Z) : NoDup l -> NoDup (remove Z.eq_dec y l).
Proof.
  induction 1 as [|x l Hx Hl IH]; simpl; [constructor|]. destruct (Z.eq_dec y x); [done|].
  apply NoDup_cons. split; [|done]. rewrite elem_remove. naive_solver.
Qed.

Lemma off_cpu_reap s t v s1 : wf s -> current s <> idle_task -> tasks s !! current s = Some v ->
  reap (current s) t (set_task (current s) (put_away TASK_ZOMBIE s v) s) = Ret s1 -> off_cpu s1.
Proof.
  intros [Hr Hp [Hi Hiv] Hs Hq Hc Hst] Hcur Hv. destruct Hc as [?|Hc]; [done|].
  destruct (Hst _ _ Hc Hv) as [(_ & Hnr & _)|[(? & _)|(? & _)]]; [|done..].
  unfold reap. simpl. rewrite bool_decide_true by done. intros [= <-].
  split; simpl; try done.
  - by apply NoDup_remove_Z.
  - rewrite elem_remove. split; [naive_solver|]. rewrite lookup_delete_ne, lookup_insert_ne by done. done.
  - intros t' [Ht Hne]%elem_remove. rewrite lookup_delete_ne, lookup_insert_ne by done. by apply Hs.
  - intros t' Ht. rewrite elem_remove. split; [by apply Hq|]. intros ->. done.
  - intros t' w [Ht Hne]%elem_remove. rewrite lookup_delete_ne, lookup_insert_ne by done.
    intros Hw. destruct (Hst t' w Ht Hw) as [(-> & _)|[(_ & ? & ?)|(_ & ? & ?)]]; [done|by left|by right].
Qed.

Lemma schedule_spec ns s : wf s -> ns = TASK_SLEEPING \/ ns = TASK_LOCKED \/ ns = TASK_ZOMBIE ->
  exists s', __schedule ns s = Ret s' /\ dispatched ns s s'.
Proof.
  intros Hwf Hns. pose proof Hwf as [Hr Hp [Hi Hiv] Hs Hq Hc Hst].
  assert (is_Some (tasks s !! current s)) as [v Hv].
  { destruct Hc as [->|Hc]; [done|by apply Hs]. }
  unfold __schedule. rewrite Hv. cbn [defined mbind outcome_bind].
  destruct (Z.eqb_spec (current s) idle_task) as [Hcur|Hcur].
  - rewrite Hcur in Hv |- *.
    destruct (sched_spec 0 _ (off_cpu_idle s v Hwf Hcur Hv)) as (s' & E & W & P & Hpr & _ & _ & Hcpu & Hctx & _).
    exists s'. split; [done|]. simpl in *.
    split; unfold queue_after, processes_after; rewrite ?Hcur; simpl; [done| |done| |done].
    + destruct P as [(? & ? & [?|?])|(? & _)]; [done| |by right]. left. by auto.
    + intros t w Hne Hw. split.
      * apply Hctx. by rewrite lookup_insert_ne.
      * intros <-. apply Hcpu. by rewrite lookup_insert_ne.
  - cbn [set_task tasks slice_end_time set_state set_regs].
    set (fi := if slice_end_time v >=? _ then _ else 0).
    change (set_state ns (set_regs (cpu s) v)) with (put_away ns s v).
    set (s0 := set_task (current s) (put_away ns s v) s).
    destruct Hc as [?|Hc]; [done|].
    assert (exists s1, (if ns =? TASK_ZOMBIE then reap (current s) (put_away ns s v) s0
        else if ns =? TASK_LOCKED then Ret s0 else enqueue (current s) s0) = Ret s1 /\ off_cpu s1 /\
        runnable s1 = queue_after ns s /\ processes s1 = processes_after ns s /\
        (forall t, t <> current s -> tasks s1 !! t = tasks s !! t) /\
        (ns <> TASK_ZOMBIE -> tasks s1 !! current s = Some (put_away ns s v)))
      as (s1 & E1 & Hoff & Hq1 & Hp1 & Ht1 & Hc1).
    { unfold queue_after, processes_after. rewrite (proj2 (Z.eqb_neq _ _) Hcur).
      destruct Hns as [-> | [-> | ->]]; simpl.
      - unfold enqueue. simpl. rewrite bool_decide_false.
        + eexists. split; [done|]. split; [by apply off_cpu_sleep|]. simpl. split_and!; try done.
          * intros t Hne. by rewrite lookup_insert_ne.
          * intros _. by rewrite lookup_insert_eq.
        + by destruct (Hst _ _ Hc Hv) as [(_ & ? & _)|[(? & _)|(? & _)]].
      - eexists. split; [done|]. split; [by apply off_cpu_lock|]. simpl. split_and!; try done.
        + intros t Hne. by rewrite lookup_insert_ne.
        + intros _. by rewrite lookup_insert_eq.
      - assert (exists s1, reap (current s) (put_away TASK_ZOMBIE s v) s0 = Ret s1) as [s1 E1].
        { unfold reap. simpl. rewrite bool_decide_true by done. eauto. }
        exists s1. split; [done|]. split; [by eapply off_cpu_reap|].
        unfold reap in E1. simpl in E1. rewrite bool_decide_true in E1 by done. injection E1 as <-. simpl.
        split_and!; try done. intros t Hne. by rewrite lookup_delete_ne, lookup_insert_ne. }
    rewrite E1. cbn [mbind outcome_bind].
    destruct (sched_spec fi s1 Hoff) as (s' & E & W & P & Hpr & _ & _ & Hcpu & Hctx & _).
    exists s'. split; [done|]. unfold picks in P. rewrite Hq1 in P. rewrite Hp1 in Hpr. split; [done| |done| |].
    + destruct P as [(? & ? & ?)|(? & _)]; [left|by right]. by auto.
    + intros t w Hne Hw. rewrite <- (Ht1 t Hne) in Hw. split; [by apply Hctx|]. intros <-. by apply Hcpu.
    + intros _ Hnz. pose proof (Hc1 Hnz) as Hcc. split.
      * destruct (Hctx _ _ Hcc) as (v' & ? & (? & _)). by exists v'.
      * intros Heq. rewrite <- Heq in Hcc. rewrite (Hcpu _ Hcc). done.
Qed.

(** ** Events keep the scheduler well-formed *)

(** a task woken is blocked; a task created is new and had its storage *)
Definition ok_event (e : event) (s : sys) : Prop :=
  match e with
  | E_wake t => t ∈ processes s /\ t <> current s /\ t ∉ runnable s
  | E_create _ page new _ _ _ => exists p t, page = Some p /\ new = Some t /\ tasks s !! t = None
  | _ => True
  end.

Fixpoint ok_events (es : list event) (s : sys) : Prop :=
  match es with
  | [] => True
  | e :: es => ok_event e s /\ forall s', step e s = Ret s' -> ok_events es s'
  end.

(** the new state of the running task, when the event dispatches *)
Definition dispatches (e : event) (s : sys) : option Z :=
  match e with
  | E_yield => Some TASK_SLEEPING
  | E_block => Some TASK_LOCKED
  | E_exit => Some TASK_ZOMBIE
  | E_timer => if u64 (ticks s + 1) mod SCHED_TICKS_PER_SLICE =? 0 then Some TASK_SLEEPING else None
  | _ => None
  end.

Lemma step_dispatch e s ns : wf s -> dispatches e s = Some ns ->
  exists s', step e s = Ret s' /\ dispatched ns s s'.
Proof.
  intros Hwf. destruct e; simpl; intros [= <-] || (destruct (_ =? _) eqn:E; intros [= <-]) || done;
    try (apply schedule_spec; naive_solver).
  unfold __ext_int_handler. simpl. rewrite E.
  destruct (schedule_spec TASK_SLEEPING (set_ticks (u64 (ticks s + 1)) s)) as (s' & E' & D).
  - destruct Hwf. by split.
  - by left.
  - exists s'. split; [done|]. destruct D. by split.
Qed.

(** what an event that does not dispatch leaves as it is *)
Record quiet (s s' : sys) : Prop := Quiet {
  qu_wf : wf s';
  qu_current : current s' = current s;
  qu_runnable : exists l, runnable s' = runnable s ++ l;
  qu_processes : forall t, t ∈ processes s -> t ∈ processes s';
  qu_tasks : forall t v, tasks s !! t = Some v -> exists v', tasks s' !! t = Some v' /\ same_context v v';
}.

Lemma wake_quiet s t : wf s -> ok_event (E_wake t) s ->
  exists s', make_runnable t s = Ret s' /\ quiet s s'.
Proof.
  intros Hwf (Ht & Htc & Htr). pose proof Hwf as [Hr Hp [Hi Hiv] Hs Hq Hc Hst].
  destruct (Hs t Ht) as [v Hv]. unfold make_runnable. rewrite Hv. simpl. unfold enqueue. simpl.
  rewrite bool_decide_false by done. eexists. split; [done|].
  assert (t <> idle_task) as Hti by (intros ->; done).
  split; simpl; [|done|by eexists|done|].
  - split; simpl; try done.
    + apply NoDup_app. split_and!; [done| |apply NoDup_singleton]. set_solver.
    + split; [done|]. by rewrite lookup_insert_ne.
    + intros u Hu. rewrite lookup_insert_is_Some. destruct (decide (t = u)); [by left|right; split; [done|by apply Hs]].
    + intros u [Hu| ->%list_elem_of_singleton]%elem_of_app; [by apply Hq|done].
    + intros u w Hu. destruct (decide (t = u)) as [<-|Hne].
      * rewrite lookup_insert_eq. intros [= <-]. right. left. split; [done|]. split; [set_solver|done].
      * rewrite lookup_insert_ne by done. intros Hw.
        destruct (Hst u w Hu Hw) as [(? & ? & ?)|[(? & ? & ?)|(? & ? & ?)]]; [left|right;left|right;right];
          split_and!; try done; set_solver.
  - intros u w Hw. destruct (decide (t = u)) as [<-|Hne].
    + rewrite lookup_insert_eq. rewrite Hv in Hw. injection Hw as <-. by eexists.
    + rewrite lookup_insert_ne by done. by exists w.
Qed.

Lemma create_quiet s st page new nm f data : wf s -> ok_event (E_create st page new nm f data) s ->
  exists s', step (E_create st page new nm f data) s = Ret s' /\ quiet s s'.
Proof.
  intros Hwf (p & t & -> & -> & Hn). pose proof Hwf as [Hr Hp [Hi Hiv] Hs Hq Hc Hst].
  simpl. eexists. split; [done|].
  assert (t ∉ processes s) as Htp by (intros Ht; apply Hs in Ht as [? ?]; simplify_eq).
  assert (t ∉ runnable s) as Htr by (intros Ht; by apply Htp, Hq).
  assert (t <> idle_task) as Hti by (intros ->; destruct Hiv; simplify_eq).
  split; simpl; [|done|by eexists|set_solver|].
  - split; simpl.
    + apply NoDup_app. split_and!; [done| |apply NoDup_singleton]. set_solver.
    + apply NoDup_app. split_and!; [done| |apply NoDup_singleton]. set_solver.
    + split; [set_solver|]. by rewrite lookup_insert_ne.
    + intros u Hu. rewrite lookup_insert_is_Some. destruct (decide (t = u)); [by left|right].
      split; [done|]. apply Hs. set_solver.
    + intros u Hu. apply elem_of_app in Hu as [Hu|Hu]; [|set_solver]. apply elem_of_app. left. by apply Hq.
    + destruct Hc as [Hc|Hc]; [by left|right; set_solver].
    + intros u w Hu. destruct (decide (t = u)) as [<-|Hne].
      * rewrite lookup_insert_eq. intros [= <-]. right. left.
        split; [|split; [set_solver|done]]. intros Hcu. destruct Hc as [Hc|Hc]; [congruence|]. by rewrite <- Hcu in Hc.
      * rewrite lookup_insert_ne by done. intros Hw. assert (u ∈ processes s) as Hup by set_solver.
        destruct (Hst u w Hup Hw) as [(? & ? & ?)|[(? & ? & ?)|(? & ? & ?)]]; [left|right;left|right;right];
          split_and!; try done; set_solver.
  - intros u w Hw. rewrite lookup_insert_ne by (intros <-; simplify_eq). by exists w.
Qed.

Lemma step_quiet e s : wf s -> ok_event e s -> dispatches e s = None ->
  exists s', step e s = Ret s' /\ quiet s s'.
Proof.
  intros Hwf Hok. destruct e; try done.
  - simpl. unfold __ext_int_handler. simpl. destruct (_ =? _); [done|]. intros _.
    eexists. split; [done|]. destruct Hwf. split; try done; [exists []; by rewrite app_nil_r|by eexists].
  - intros _. by apply wake_quiet.
  - intros _. by apply create_quiet.
  - intros _. simpl. eexists. split; [done|]. destruct Hwf. split; try done; [exists []; by rewrite app_nil_r|by eexists].
Qed.

Lemma step_wf e s : wf s -> ok_event e s -> exists s', step e s = Ret s' /\ wf s'.
Proof.
  intros Hwf Hok. destruct (dispatches e s) as [ns|] eqn:Hd.
  - destruct (step_dispatch e s ns Hwf Hd) as (s' & E & D). exists s'. split; [done|]. apply D.
  - destruct (step_quiet e s Hwf Hok Hd) as (s' & E & Q). exists s'. split; [done|]. apply Q.
Qed.

Lemma init_sched_wf st r stk : wf (init_sched st r stk).
Proof.
  split; simpl; [constructor|constructor| |set_solver|set_solver|by left|set_solver].
  split; [set_solver|]. eexists. reflexivity.
Qed.

Lemma run_wf es s : wf s -> ok_events es s -> exists s', run es s = Ret s' /\ wf s'.
Proof.
  revert s. induction es as [|e es IH]; intros s Hwf Hok; [by exists s|].
  destruct Hok as [He Hes]. destruct (step_wf e s Hwf He) as (s1 & E & W).
  simpl. rewrite E. apply IH; [done|]. by apply Hes.
Qed.

#[local] Instance ok_event_dec e s : Decision (ok_event e s).
Proof.
  destruct e; try (left; done); unfold ok_event; [apply _|].
  destruct page as [p|]; [|right; naive_solver]. destruct new as [t|]; [|right; naive_solver].
  destruct (tasks s !! t) as [v|] eqn:E; [right; naive_solver|left; by exists p, t].
Defined.



(** two tasks, one of which blocks and is woken; then it is woken again *)
Example woken_twice :
  let es := [E_create 16 (Some 4096) (Some 800) [] 7 0; E_create 16 (Some 8192) (Some 900) [] 8 0; E_yield; E_block; E_wake 800; E_timer] in
  let s0 := init_sched 16 (Regs 1 [] 0) 0 in
  match run es s0 with Ret s => (current s, runnable s) = (idle_task, [900; 800]) | _ => False end /\ run (es ++ [E_wake 800]) s0 = Undef.
Proof. by vm_compute. Qed.

(** ** A suspended task resumes where it was *)

(** [es] leads from [s] to [s'] and [t] does not run before the end *)
Inductive away (t : Z) : sys -> list event -> sys -> Prop :=
  | Aw_nil s : away t s [] s
  | Aw_cons s e es s1 s' : ok_event e s -> current s <> t -> step e s = Ret s1 -> away t s1 es s' ->
      away t s (e :: es) s'.

Lemma away_context t s es s' v : wf s -> away t s es s' -> t ∈ processes s -> tasks s !! t = Some v ->
  t <> idle_task -> current s <> t -> current s' = t -> cpu s' = t_regs v.
Proof.
  intros Hwf Haw. revert Hwf v. induction Haw as [s|s e es s1 s' Hok Hcur Hstep Haw IH]; intros Hwf v Ht Hv Hi Hc He; [done|].
  destruct (dispatches e s) as [ns|] eqn:Hd.
  - destruct (step_dispatch e s ns Hwf Hd) as (s1' & E & D). rewrite Hstep in E. injection E as <-.
    destruct (di_others _ _ _ D t v (not_eq_sym Hc) Hv) as [(v' & Hv' & Hr & _) Hcpu].
    destruct (decide (current s1 = t)) as [Heq|Hne].
    + destruct es as [|e' es]; [|inversion Haw; simplify_eq]. inversion Haw; subst. by apply Hcpu.
    + rewrite <- Hr. apply (IH (di_wf _ _ _ D) v'); try done.
      rewrite (di_processes _ _ _ D). unfold processes_after.
      destruct (current s =? idle_task); [done|]. destruct (ns =? TASK_ZOMBIE); [|done].
      apply elem_remove. done.
  - destruct (step_quiet e s Hwf Hok Hd) as (s1' & E & Q). rewrite Hstep in E. injection E as <-.
    destruct (qu_tasks _ _ Q t v Hv) as (v' & Hv' & Hr & _). rewrite <- Hr.
    apply (IH (qu_wf _ _ Q) v'); try done; [by apply (qu_processes _ _ Q)|]. by rewrite (qu_current _ _ Q).
Qed.

(** When a task that yields, blocks or is preempted next runs, however
    many events later, the CPU holds exactly the registers (general registers,
    PSW and address space) it held at the suspension. *)
Theorem registers_preserved (s s1 s' : sys) (e : event) (es : list event) (ns : Z)
    (Hwf : wf s) (Hcur : current s <> idle_task) (Hd : dispatches e s = Some ns) (Hns : ns <> TASK_ZOMBIE)
    (Hstep : step e s = Ret s1) (Haway : away (current s) s1 es s') (Hback : current s' = current s) :
  cpu s' = cpu s.
Proof.
  destruct (step_dispatch e s ns Hwf Hd) as (s1' & E & D). rewrite Hstep in E. injection E as <-.
  destruct (di_prev _ _ _ D Hcur Hns) as [(v' & Hv' & Hr) Hsame].
  destruct (decide (current s1 = current s)) as [Heq|Hne].
  - destruct es as [|e' es]; [inversion Haway; subst; by apply Hsame|].
    inversion Haway; simplify_eq.
  - rewrite <- Hr. apply (away_context (current s) s1 es s' v' (di_wf _ _ _ D) Haway); try done.
    rewrite (di_processes _ _ _ D). unfold processes_after.
    rewrite (proj2 (Z.eqb_neq _ _) Hcur), (proj2 (Z.eqb_neq _ _) Hns).
    by destruct (wf_current _ Hwf).
Qed.

(** a task computes, yields, and comes back *)
Lemma registers_preserved_witness :
  exists s s1 s', current s = 800 /\ cpu s = Regs 5 [1; 2] 9 /\ step E_yield s = Ret s1 /\
    current s1 <> 800 /\ run [E_run (Regs 0 [] 0); E_timer; E_yield] s1 = Ret s' /\ cpu s' = cpu s.
Proof.
  set (es := [E_create 16 (Some 4096) (Some 800) [] 7 0; E_create 16 (Some 8192) (Some 900) [] 8 0;
              E_yield; E_timer; E_run (Regs 5 [1; 2] 9)]).
  destruct (run_wf es (init_sched 16 (Regs 1 [] 0) 0) (init_sched_wf _ _ _)) as (s & E0 & Hwf).
  { split; [by exists 4096, 800|]. intros s1 E1. vm_compute in E1. injection E1 as <-.
    split; [by exists 8192, 900|]. intros s2 E2. vm_compute in E2. injection E2 as <-.
    split; [done|]. intros s4 E4. vm_compute in E4. injection E4 as <-.
    split; [done|]. intros s3 E3. vm_compute in E3. injection E3 as <-.
    split; [done|]. done. }
  vm_compute in E0. injection E0 as Es.
  exists s. eexists _, _. split; [by rewrite <- Es|]. split; [by rewrite <- Es|].
  split; [rewrite <- Es; vm_compute; reflexivity|].
  split; [done|]. split; [vm_compute; reflexivity|].
  assert (current s = 800) as Hc by (by rewrite <- Es).
  eapply (registers_preserved s _ _ E_yield [E_run (Regs 0 [] 0); E_timer; E_yield] TASK_SLEEPING Hwf);
    [by rewrite Hc|done|done|rewrite <- Es; vm_compute; reflexivity| |by rewrite Hc].
  rewrite Hc. eapply Aw_cons; [done|done|vm_compute; reflexivity|].
  eapply Aw_cons; [done|done|vm_compute; reflexivity|].
  eapply Aw_cons; [done|done|vm_compute; reflexivity|]. apply Aw_nil.
Defined.

(** ** No task waits forever on the run queue *)






