(* ===== verification/Slab.v ===== *)
(** cp/mm/slab.c: small objects out of pages.

    A slab page has a header of 40 bytes, the allocation bitmap from there on,
    and the objects from [startoff].  The header fields are the record's, the
    bytes of the page (bitmap and objects) are [data], indexed from the start of
    the page; [slab_pages] is the list of further pages of the cache, kept in
    the first.  The state is the map of slab pages by address, the page
    allocator (Buddy.v) and the seven caches of malloc.  The theorems: where
    bitmap and objects lie, what the bitmap records over any sequence of
    allocations, frees and stores into objects, and what a ZONE_NORMAL request
    does when storage is all low. *)

From S2P Require Import Prelude Buddy.

Local Open Scope Z_scope.

Definition sizeof_slab : Z := 40.
Definition SLAB_MAGIC : Z := 0xe2d3c1c2.
Definition SLAB_CONT_MAGIC : Z := 0xe2d3c1c3.

Record slab := Slab {
  magic : Z;
  slab_pages : list Z;
  first : Z;
  objsize : Z;
  startoff : Z;
  count : Z;
  used : Z;
  data : list Z;
}.

Record mem := Mem {
  slabs : gmap Z slab;
  pagesystem : buddy;
  generic : list (option Z);
}.

Definition get_slab (a : Z) (m : mem) : outcome slab := defined (slabs m !! a).
Definition put_slab (a : Z) (s : slab) (m : mem) : mem :=
  Mem (<[a := s]> (slabs m)) (pagesystem m) (generic m).

(** a zeroed page *)
Definition zero_page : list Z := replicate 4096 0.

(** the object count, start offset and effective object size of [create_slab];
    [align] is the mask *)
Definition slab_geometry (objsize align : Z) : Z * Z * Z :=
  let align := u8 (align - 1) in
  let objsize := if negb (Z.land objsize align =? 0)
                 then u16 (objsize + (align + 1 - Z.land objsize align)) else objsize in
  let count := u16 (8 * (PAGE_SIZE - sizeof_slab) / (8 * objsize + 1)) in
  let startoff := u16 (sizeof_slab + (count + 4) / 8) in
  if negb (Z.land startoff align =? 0) then
    let startoff := u16 (startoff + (align + 1 - Z.land startoff align)) in
    let tmp := u16 (startoff + count * objsize) in
    (objsize, startoff, if tmp >? PAGE_SIZE then u16 (count - 1) else count)
  else (objsize, startoff, count).

Definition alloc_page (type : Z) (m : mem) : outcome (option Z * mem) :=
  r ← alloc_pages 0 type (pagesystem m);
  Ret (option_map page_to_addr r.1, Mem (slabs m) r.2 (generic m)).

Definition create_slab (objsz align : Z) (m : mem) : outcome (option Z * mem) :=
  if (objsz =? 0) || (align =? 0) then Ret (None, m) else
  r ← alloc_page ZONE_NORMAL m;
  match r.1 with
  | None => Ret (None, r.2)
  | Some a =>
      let '(osz, soff, cnt) := slab_geometry objsz align in
      Ret (Some a, put_slab a (Slab SLAB_MAGIC [] a osz soff cnt 0 zero_page) r.2)
  end.

Fixpoint free_slab_pages (l : list Z) (m : mem) : outcome mem :=
  match l with
  | [] => Ret m
  | a :: l =>
      s ← get_slab a m;
      bug_on (negb (magic s =? SLAB_CONT_MAGIC)) ;;
      bug_on (negb (used s =? 0)) ;;
      b ← free_pages a 0 (pagesystem m);
      free_slab_pages l (Mem (slabs m) b (generic m))
  end.

Definition free_slab (passed_slab : option Z) (m : mem) : outcome mem :=
  match passed_slab with
  | None => Ret m
  | Some a =>
      s ← get_slab a m;
      bug_on (negb (magic s =? SLAB_MAGIC)) ;;
      bug_on (negb (used s =? 0)) ;;
      m ← free_slab_pages (slab_pages s) m;
      b ← free_pages a 0 (pagesystem m);
      Ret (Mem (slabs m) b (generic m))
  end.

(** [None] is [ERR_PTR(-ENOMEM)] *)
Definition __alloc_slab_obj_newpage (sl type : Z) (m : mem) : outcome (option Z * mem) :=
  r ← alloc_page type m;
  match r.1 with
  | None => Ret (None, r.2)
  | Some new =>
      let m := r.2 in
      s ← get_slab sl m;
      let m := put_slab new (Slab SLAB_CONT_MAGIC [] sl (objsize s) (startoff s) (count s) 0 zero_page) m in
      let m := put_slab sl (Slab (magic s) (slab_pages s ++ [new]) (first s) (objsize s) (startoff s)
                                 (count s) (used s) (data s)) m in
      Ret (Some new, m)
  end.

(** ** The bitmap of one page *)

Definition obj_mask (objidx : Z) : Z := Z.shiftl 1 (7 - objidx mod 8).

Definition get_bits (s : slab) (objidx : Z) : outcome Z :=
  defined (aget (data s) (sizeof_slab + objidx / 8)).
Definition put_bits (s : slab) (objidx v us : Z) : outcome slab :=
  d ← defined (aset (data s) (sizeof_slab + objidx / 8) v);
  Ret (Slab (magic s) (slab_pages s) (first s) (objsize s) (startoff s) (count s) us d).

(** the search for a clear bit from [objidx] on, [n] left: the index taken *)
Fixpoint take_obj (n : nat) (objidx : Z) (s : slab) : outcome (option Z * slab) :=
  match n with
  | O => Ret (None, s)
  | S n =>
      bits ← get_bits s objidx;
      let mask := obj_mask objidx in
      if negb (Z.land bits mask =? 0) then take_obj n (objidx + 1) s else
      s ← put_bits s objidx (u8 (Z.lor bits mask)) (u16 (used s + 1));
      Ret (Some objidx, s)
  end.

Definition usable (s : slab) (a type : Z) : bool :=
  (used s <? count s) && (ZONE_TYPE (addr_to_page a) =? type).

Fixpoint find_usable (l : list Z) (type : Z) (m : mem) : outcome (option Z) :=
  match l with
  | [] => Ret None
  | a :: l => s ← get_slab a m; if usable s a type then Ret (Some a) else find_usable l type m
  end.

(** the object's address, [None] for NULL *)
Definition alloc_slab_obj (passed_slab : option Z) (type : Z) (m : mem) : outcome (option Z * mem) :=
  match passed_slab with
  | None => Ret (None, m)
  | Some p =>
      s ← get_slab p m;
      bug_on (negb (magic s =? SLAB_MAGIC)) ;;
      found ← (if usable s p type then Ret (Some p) else find_usable (slab_pages s) type m);
      r ← match found with
          | Some a => Ret (Some a, m)
          | None => __alloc_slab_obj_newpage p type m
          end;
      match r.1 with
      | None => Ret (None, r.2)
      | Some a =>
          let m := r.2 in
          s ← get_slab a m;
          o ← take_obj (Z.to_nat (count s)) 0 s;
          Ret (option_map (fun objidx => a + startoff s + objsize s * objidx) o.1, put_slab a o.2 m)
      end
  end.

(** clear the bit of the object at [ptr] in the page at [a] *)
Definition release_obj (a ptr : Z) (s : slab) : outcome slab :=
  if objsize s =? 0 then Undef else
  let objidx := (ptr - a - startoff s) / objsize s in
  bits ← get_bits s objidx;
  put_bits s objidx (Z.land bits (u8 (Z.lnot (obj_mask objidx)))) (u16 (used s - 1)).

Definition slab_of (ptr : Z) : Z := Z.land ptr (Z.lnot 0xfff).

Definition free_slab_obj (ptr : Z) (m : mem) : outcome mem :=
  let a := slab_of ptr in
  s ← get_slab a m;
  s ← release_obj a ptr s;
  Ret (put_slab a s m).

Definition allocsize (ptr : Z) (m : mem) : outcome Z :=
  s ← get_slab (slab_of ptr) m; Ret (objsize s).

Definition cache (n : nat) (m : mem) : option Z := mjoin (generic m !! n).

Definition malloc (size type : Z) (m : mem) : outcome (option Z * mem) :=
  if size =? 0 then Ret (None, m)
  else if size <=? 16 then alloc_slab_obj (cache 0 m) type m
  else if size <=? 32 then alloc_slab_obj (cache 1 m) type m
  else if size <=? 64 then alloc_slab_obj (cache 2 m) type m
  else if size <=? 128 then alloc_slab_obj (cache 3 m) type m
  else if size <=? 256 then alloc_slab_obj (cache 4 m) type m
  else if size <=? 512 then alloc_slab_obj (cache 5 m) type m
  else if size <=? 1024 then alloc_slab_obj (cache 6 m) type m
  else Ret (None, m).

Definition free (ptr : option Z) (m : mem) : outcome mem :=
  match ptr with Some p => free_slab_obj p m | None => Ret m end.

(** the caches of [init_slab]: object size and alignment *)
Definition slab_classes : list (Z * Z) :=
  [(16, 4); (32, 4); (64, 4); (128, 4); (256, 8); (512, 8); (1024, 8)].

Fixpoint create_slabs (l : list (Z * Z)) (m : mem) : outcome (bool * mem) :=
  match l with
  | [] => Ret (true, m)
  | (sz, al) :: l =>
      r ← create_slab sz al m;
      let m := Mem (slabs r.2) (pagesystem r.2) (generic r.2 ++ [r.1]) in
      match r.1 with Some _ => create_slabs l m | None => Ret (false, m) end
  end.

Fixpoint free_slabs (l : list (option Z)) (m : mem) : outcome mem :=
  match l with [] => Ret m | c :: l => m ← free_slab c m; free_slabs l m end.

(** 0, or -ENOMEM with the caches made so far freed *)
Definition init_slab (m : mem) : outcome (Z * mem) :=
  r ← create_slabs slab_classes (Mem (slabs m) (pagesystem m) []);
  if (r.1 : bool) then Ret (0, r.2)
  else m ← free_slabs (generic r.2) r.2; Ret (-1, m).

(** * One page *)

(** byte [off] of object [i] may be stored to: [off] is inside the object, and it
    is not the first byte of the objects of 1024 bytes, which is the bitmap *)
Definition own_byte (osz i off : Z) : Prop := 0 <= off < osz /\ (osz = 1024 -> i <> 0 \/ off <> 0).

(** where the bitmap and the objects are *)
Definition layout_ok (osz soff cnt : Z) : Prop :=
  0 < osz /\ 0 <= cnt < 2 ^ 16 /\ sizeof_slab <= soff /\ soff + cnt * osz <= PAGE_SIZE /\
  forall i off, 0 <= i < cnt -> own_byte osz i off -> sizeof_slab + (cnt + 7) / 8 <= soff + osz * i + off.

(** bitmap and objects do not overlap *)
Definition apart (osz soff cnt : Z) : Prop :=
  0 < osz /\ 0 <= cnt < 2 ^ 16 /\ sizeof_slab + (cnt + 7) / 8 <= soff /\ soff + cnt * osz <= PAGE_SIZE.

Lemma apart_layout osz soff cnt : apart osz soff cnt -> layout_ok osz soff cnt.
Proof.
  intros (H1 & H2 & H3 & H4). assert (0 <= (cnt + 7) / 8) by divlia.
  split_and!; [done|lia|lia|lia|done|]. intros i off Hi [Ho _]. nia.
Qed.

Lemma classes_layout : Forall (fun c => let '(osz, soff, cnt) := slab_geometry c.1 c.2 in layout_ok osz soff cnt) slab_classes.
Proof.
  assert (Forall (fun c => let '(osz, soff, cnt) := slab_geometry c.1 c.2 in apart osz soff cnt) (take 6 slab_classes)) as H.
  { repeat (constructor; [split_and!; by vm_compute|]). constructor. }
  assert (slab_geometry 1024 8 = (1024, sizeof_slab, 3)) as E by (by vm_compute).
  change slab_classes with (take 6 slab_classes ++ [(1024, 8)]). apply Forall_app_2.
  - eapply Forall_impl; [exact H|]. intros [sz al]. cbn beta. destruct (slab_geometry (sz, al).1 (sz, al).2) as [[??]?]. apply apart_layout.
  - apply Forall_singleton. cbn [fst snd]. rewrite E. unfold layout_ok, sizeof_slab, PAGE_SIZE. split_and!; try done.
    intros i off Hi [Ho Hne]. change ((3 + 7) / 8) with 1. lia.
Qed.

Definition bit_at (s : slab) (i : Z) : bool :=
  match aget (data s) (sizeof_slab + i / 8) with
  | Some b => Z.testbit b (7 - i mod 8)
  | None => false
  end.

(** the page [s] has exactly the objects [A] allocated *)
Record holds (s : slab) (A : list Z) : Prop := Holds {
  ho_layout : layout_ok (objsize s) (startoff s) (count s);
  ho_data : lenZ (data s) = PAGE_SIZE;
  ho_nodup : NoDup A;
  ho_range : forall i, i ∈ A -> 0 <= i < count s;
  ho_bits : forall i, 0 <= i < count s -> bit_at s i = bool_decide (i ∈ A);
  ho_used : used s = lenZ A;
}.

Lemma NoDup_range (A : list Z) n : 0 <= n -> NoDup A -> (forall i, i ∈ A -> 0 <= i < n) -> lenZ A <= n.
Proof.
  intros Hn Hnd Hr. assert (A ⊆ seqZ 0 n) as Hsub by (intros i Hi; apply elem_of_seqZ; apply Hr in Hi; lia).
  pose proof (submseteq_length _ _ (NoDup_submseteq A (seqZ 0 n) Hnd Hsub)) as Hl.
  rewrite length_seqZ in Hl. unfold lenZ. lia.
Qed.

Section bitmap.
Context (s : slab) (Hlay : layout_ok (objsize s) (startoff s) (count s)) (Hdata : lenZ (data s) = PAGE_SIZE).

Lemma bitmap_byte i : 0 <= i < count s -> exists b, aget (data s) (sizeof_slab + i / 8) = Some b.
Proof.
  intros Hi. destruct Hlay as (H1 & H2 & H3 & H4 & H5). unfold sizeof_slab, PAGE_SIZE in *.
  apply aget_is_Some. rewrite Hdata. assert (count s <= count s * objsize s) by nia. divlia.
Qed.

Lemma mask_test b i : 0 <= i -> (Z.land b (obj_mask i) =? 0) = negb (Z.testbit b (7 - i mod 8)).
Proof.
  intros Hi. unfold obj_mask. rewrite Z.shiftl_1_l. apply land_pow2. divlia.
Qed.

(** the byte of object [i] replaced by one in which bit [7 - i mod 8] is [v] *)
Lemma bit_update i b b' v d us :
  0 <= i < count s -> aget (data s) (sizeof_slab + i / 8) = Some b ->
  (forall k, 0 <= k < 8 -> Z.testbit b' k = if decide (k = 7 - i mod 8) then v else Z.testbit b k) ->
  aset (data s) (sizeof_slab + i / 8) b' = Some d ->
  forall j, 0 <= j -> bit_at (Slab (magic s) (slab_pages s) (first s) (objsize s) (startoff s) (count s) us d) j
    = if decide (j = i) then v else bit_at s j.
Proof.
  intros Hi Hb Hb' Hd j Hj. unfold bit_at. simpl. rewrite (aget_aset _ _ _ _ _ Hd).
  destruct (decide (sizeof_slab + i / 8 = sizeof_slab + j / 8)) as [E|E].
  - rewrite <- E, Hb. rewrite Hb' by divlia. destruct (decide (j = i)) as [->|Hne]; [by rewrite decide_True|].
    rewrite decide_False; [done|]. divlia.
  - rewrite decide_False; [done|]. intros ->. done.
Qed.
End bitmap.

Lemma take_obj_step i s A : holds s A -> 0 <= i < count s -> i ∉ A ->
  exists s', take_obj 1 i s = Ret (Some i, s') /\ holds s' (i :: A) /\
    objsize s' = objsize s /\ startoff s' = startoff s /\ count s' = count s /\
    forall n, take_obj (S n) i s = Ret (Some i, s').
Proof.
  intros [Hlay Hdata Hnd Hr Hbits Hused] Hi HA.
  destruct (bitmap_byte s Hlay Hdata i Hi) as [b Hb].
  assert (Z.land b (obj_mask i) =? 0 = true) as Hclear.
  { rewrite mask_test by lia. specialize (Hbits i Hi). unfold bit_at in Hbits. rewrite Hb in Hbits.
    rewrite Hbits, bool_decide_false by done. done. }
  destruct (proj2 (aset_is_Some (data s) (sizeof_slab + i / 8) (u8 (Z.lor b (obj_mask i))))) as [d Hd].
  { by apply aget_lt in Hb. }
  set (s' := Slab (magic s) (slab_pages s) (first s) (objsize s) (startoff s) (count s) (u16 (used s + 1)) d).
  assert (forall n, take_obj (S n) i s = Ret (Some i, s')) as Htake.
  { intros n. cbn [take_obj]. unfold get_bits. rewrite Hb. cbn [defined mbind outcome_bind].
    rewrite Hclear. cbn [negb]. unfold put_bits. rewrite Hd. done. }
  exists s'. split; [apply Htake|]. split; [|done].
  assert (lenZ A <= count s) as Hle by (apply NoDup_range; [lia|done|done]).
  assert (lenZ (i :: A) <= count s) as Hle1.
  { apply NoDup_range; [lia|by apply NoDup_cons|]. intros j [->|Hj]%elem_of_cons; [done|by apply Hr]. }
  destruct Hlay as (H1 & H2 & H3 & H4 & H5). split; simpl; try done.
  - by rewrite (aset_lenZ _ _ _ _ Hd).
  - by apply NoDup_cons.
  - intros j [->|Hj]%elem_of_cons; [done|by apply Hr].
  - intros j Hj. unfold s'. rewrite (bit_update s i b (u8 (Z.lor b (obj_mask i))) true d _ Hi Hb); [|intros k Hk|done|lia].
    + destruct (decide (j = i)) as [->|Hne]; [by rewrite bool_decide_true by (by left)|].
      rewrite Hbits by done. apply bool_decide_ext. rewrite elem_of_cons. naive_solver.
    + unfold wrap. rewrite Z.mod_pow2_bits_low by lia. rewrite Z.lor_spec. unfold obj_mask.
      rewrite Z.shiftl_1_l. destruct (decide (k = 7 - i mod 8)) as [->|Hk'].
      * rewrite Z.pow2_bits_true by divlia. apply orb_true_r.
      * rewrite Z.pow2_bits_false by done. apply orb_false_r.
  - rewrite Hused. rewrite wrap_small.
    + unfold lenZ. simpl. lia.
    + pose proof (lenZ_nonneg A). unfold lenZ in *. simpl in *. lia.
Qed.

(** the first object from [i] on that is not in [A] *)
Fixpoint first_free (n : nat) (i : Z) (A : list Z) : option Z :=
  match n with
  | O => None
  | S n => if bool_decide (i ∈ A) then first_free n (i + 1) A else Some i
  end.

Lemma take_obj_spec n i s A : holds s A -> 0 <= i -> i + Z.of_nat n <= count s ->
  exists s', take_obj n i s = Ret (first_free n i A, s') /\
    objsize s' = objsize s /\ startoff s' = startoff s /\ count s' = count s /\
    holds s' (match first_free n i A with Some j => j :: A | None => A end).
Proof.
  intros H. revert i. induction n as [|n IH]; intros i Hi Hn; [by exists s|].
  cbn [first_free]. destruct (bool_decide_reflect (i ∈ A)) as [HA|HA].
  - cbn [take_obj]. destruct (bitmap_byte s (ho_layout _ _ H) (ho_data _ _ H) i) as [b Hb]; [lia|].
    unfold get_bits. rewrite Hb. cbn [defined mbind outcome_bind].
    assert (Z.land b (obj_mask i) =? 0 = false) as ->; [|apply IH; lia].
    rewrite mask_test by done. pose proof (ho_bits _ _ H i ltac:(lia)) as Hbit.
    unfold bit_at in Hbit. rewrite Hb in Hbit. rewrite Hbit, bool_decide_true by done. done.
  - destruct (take_obj_step i s A H ltac:(lia) HA) as (s' & _ & Hh & H1 & H2 & H3 & Ht).
    exists s'. by rewrite Ht.
Qed.

Lemma release_obj_spec a i s A : holds s A -> i ∈ A ->
  exists s', release_obj a (a + startoff s + objsize s * i) s = Ret s' /\ holds s' (remove Z.eq_dec i A) /\
    objsize s' = objsize s /\ startoff s' = startoff s /\ count s' = count s.
Proof.
  intros [Hlay Hdata Hnd Hr Hbits Hused] HA. pose proof (Hr i HA) as Hi.
  destruct (bitmap_byte s Hlay Hdata i Hi) as [b Hb]. pose proof Hlay as (H1 & H2 & H3 & H4 & H5).
  unfold release_obj. destruct (Z.eqb_spec (objsize s) 0); [lia|].
  replace (a + startoff s + objsize s * i - a - startoff s) with (i * objsize s) by lia.
  rewrite Z.div_mul by lia. unfold get_bits. rewrite Hb. cbn [defined mbind outcome_bind].
  unfold put_bits.
  destruct (proj2 (aset_is_Some (data s) (sizeof_slab + i / 8) (Z.land b (u8 (Z.lnot (obj_mask i)))))) as [d Hd].
  { by apply aget_lt in Hb. }
  rewrite Hd. cbn [defined mbind outcome_bind]. eexists. split; [done|]. split; [|done].
  assert (lenZ A <= count s) as Hle by (apply NoDup_range; [lia|done|done]).
  assert (lenZ A = lenZ (remove Z.eq_dec i A) + 1) as Hlen.
  { clear -Hnd HA. induction Hnd as [|x A Hx HA' IH]; [set_solver|]. simpl. destruct (Z.eq_dec i x) as [->|Hne].
    - rewrite notin_remove by (by rewrite <- list_elem_of_In). unfold lenZ. simpl. lia.
    - apply elem_of_cons in HA as [->|HA]; [done|]. unfold lenZ in *. simpl. specialize (IH HA). lia. }
  assert (forall j, j ∈ remove Z.eq_dec i A <-> j ∈ A /\ j <> i) as Hrem.
  { intros j. rewrite !list_elem_of_In. split; [apply in_remove|]. intros [? ?]. by apply in_in_remove. }
  split; simpl; try done.
  - by rewrite (aset_lenZ _ _ _ _ Hd).
  - clear -Hnd Hrem. assert (forall B, NoDup B -> NoDup (remove Z.eq_dec i B)) as Hg; [|by apply Hg].
    induction 1 as [|x B Hx HB IH]; simpl; [constructor|]. destruct (Z.eq_dec i x); [done|].
    apply NoDup_cons. split; [|done]. rewrite list_elem_of_In. intros [? ?]%in_remove.
    by apply Hx, list_elem_of_In.
  - intros j [Hj _]%Hrem. by apply Hr.
  - intros j Hj. rewrite (bit_update s i b (Z.land b (u8 (Z.lnot (obj_mask i)))) false d _ Hi Hb); [|intros k Hk|done|lia].
    + destruct (decide (j = i)) as [->|Hne].
      * rewrite bool_decide_false; [done|]. rewrite Hrem. naive_solver.
      * rewrite Hbits by done. apply bool_decide_ext. rewrite Hrem. naive_solver.
    + rewrite Z.land_spec. unfold wrap. rewrite Z.mod_pow2_bits_low by lia. rewrite Z.lnot_spec by lia.
      unfold obj_mask. rewrite Z.shiftl_1_l. destruct (decide (k = 7 - i mod 8)) as [->|Hk'].
      * rewrite Z.pow2_bits_true by divlia. apply andb_false_r.
      * rewrite Z.pow2_bits_false by done. apply andb_true_r.
  - rewrite Hused, Hlen. rewrite wrap_small; [lia|]. pose proof (lenZ_nonneg (remove Z.eq_dec i A)). lia.
Qed.

(** ** Histories of one page *)

(** an object taken, given back, or a byte stored at [off] in it *)
Inductive page_event := P_alloc | P_free (i : Z) | P_store (i off v : Z).

(** at the page's address [a] *)
Definition page_step (a : Z) (e : page_event) (s : slab) : outcome (option Z * slab) :=
  match e with
  | P_alloc => take_obj (Z.to_nat (count s)) 0 s
  | P_free i => s ← release_obj a (a + startoff s + objsize s * i) s; Ret (None, s)
  | P_store i off v =>
      d ← defined (aset (data s) (startoff s + objsize s * i + off) v);
      Ret (None, Slab (magic s) (slab_pages s) (first s) (objsize s) (startoff s) (count s) (used s) d)
  end.

Fixpoint page_run (a : Z) (es : list page_event) (s : slab) : outcome (list (option Z) * slab) :=
  match es with
  | [] => Ret ([], s)
  | e :: es => r ← page_step a e s; rs ← page_run a es r.2; Ret (r.1 :: rs.1, rs.2)
  end.

(** the specification: a page is the list of the objects in use, an allocation
    takes the lowest one that is not *)
Definition spec_step (cnt : Z) (e : page_event) (A : list Z) : option Z * list Z :=
  match e with
  | P_alloc => match first_free (Z.to_nat cnt) 0 A with
               | Some i => (Some i, i :: A)
               | None => (None, A)
               end
  | P_free i => (None, remove Z.eq_dec i A)
  | P_store _ _ _ => (None, A)
  end.

Fixpoint spec_run (cnt : Z) (es : list page_event) (A : list Z) : list (option Z) * list Z :=
  match es with
  | [] => ([], A)
  | e :: es => let r := spec_step cnt e A in let rs := spec_run cnt es r.2 in (r.1 :: rs.1, rs.2)
  end.

(** only objects in use are freed and stored to, within their bytes *)
Fixpoint legal (osz cnt : Z) (es : list page_event) (A : list Z) : Prop :=
  match es with
  | [] => True
  | e :: es =>
      match e with
      | P_alloc => True
      | P_free i => i ∈ A
      | P_store i off _ => i ∈ A /\ own_byte osz i off
      end /\ legal osz cnt es (spec_step cnt e A).2
  end.

Lemma store_holds s A i off v : holds s A -> i ∈ A -> own_byte (objsize s) i off ->
  exists s', page_step 0 (P_store i off v) s = Ret (None, s') /\ holds s' A /\
    objsize s' = objsize s /\ startoff s' = startoff s /\ count s' = count s.
Proof.
  intros [Hlay Hdata Hnd Hr Hbits Hused] Hi Hoff. pose proof (Hr i Hi) as Hir.
  pose proof Hlay as (H1 & H2 & H3 & H4 & H5). pose proof (H5 i off Hir Hoff) as Hbm. destruct Hoff as [Hoff _].
  unfold sizeof_slab, PAGE_SIZE in *.
  assert (objsize s * i + objsize s <= count s * objsize s) as Hin by nia.
  assert (0 <= (count s + 7) / 8) by divlia.
  destruct (proj2 (aset_is_Some (data s) (startoff s + objsize s * i + off) v)) as [d Hd]; [nia|].
  simpl. rewrite Hd. eexists. split; [done|]. split; [|done]. split; simpl; try done.
  - by rewrite (aset_lenZ _ _ _ _ Hd).
  - intros j Hj. rewrite <- Hbits by done. unfold bit_at. simpl. rewrite (aget_aset _ _ _ _ _ Hd).
    rewrite decide_False; [done|]. unfold sizeof_slab.
    assert (j / 8 < (count s + 7) / 8) by divlia. nia.
Qed.

Lemma page_run_spec a es s A : holds s A -> legal (objsize s) (count s) es A ->
  exists s', page_run a es s = Ret ((spec_run (count s) es A).1, s') /\
    holds s' (spec_run (count s) es A).2.
Proof.
  revert s A. induction es as [|e es IH]; intros s A H [He Hes] || intros s A H _; [by exists s|].
  assert (exists s1, page_step a e s = Ret ((spec_step (count s) e A).1, s1) /\
    holds s1 (spec_step (count s) e A).2 /\ objsize s1 = objsize s /\ count s1 = count s)
    as (s1 & E1 & H1 & Ho & Hc).
  { destruct e as [|i|i off v].
    - pose proof (ho_layout _ _ H) as (_ & ? & _).
      destruct (take_obj_spec (Z.to_nat (count s)) 0 s A H) as (s1 & E & ? & ? & ? & Hh); [lia|lia|].
      exists s1. simpl. rewrite E. by destruct (first_free _ _ _).
    - destruct (release_obj_spec a i s A H He) as (s1 & E & Hh & ? & ? & ?).
      exists s1. simpl. by rewrite E.
    - destruct He as [Hi Hoff]. destruct (store_holds s A i off v H Hi Hoff) as (s1 & E & Hh & ? & ? & ?).
      by exists s1. }
  destruct (IH s1 (spec_step (count s) e A).2 H1) as (s2 & E2 & H2); [by rewrite Ho, Hc|].
  rewrite Hc in E2, H2. exists s2. cbn [page_run]. rewrite E1. cbn [mbind outcome_bind snd].
  rewrite E2. done.
Qed.

(** a new page of a cache with this geometry *)
Definition new_slab (a osz soff cnt : Z) : slab := Slab SLAB_MAGIC [] a osz soff cnt 0 zero_page.

Lemma new_slab_holds a osz soff cnt : layout_ok osz soff cnt -> holds (new_slab a osz soff cnt) [].
Proof.
  intros Hl. split; simpl; try done; [apply NoDup_nil_2|set_solver|].
  intros i Hi. unfold bit_at. simpl. pose proof Hl as (H1 & H2 & H3 & H4 & H5).
  unfold sizeof_slab, PAGE_SIZE in *. assert (cnt <= cnt * osz) by nia.
  assert (aget zero_page (40 + i / 8) = Some 0) as ->; [|by rewrite Z.bits_0].
  apply aget_Some. split; [divlia|]. unfold zero_page. apply lookup_replicate. split; [done|]. divlia.
Qed.

(** C37: a page of any of malloc's caches, with the geometry [create_slab] gives
    it: over any sequence of allocations, frees of objects in use and stores
    inside objects in use, every allocation returns the lowest object not in use
    (none when all are), so no object is handed out twice; the bitmap is the set
    of objects in use, and [used] counts them.  The one store left out is to the
    first byte of the first object of 1024 bytes: the bitmap of that class is
    there (slab.c:94; [slab_class_geometry]). *)
Theorem slab_page_refines (a : Z) (c : Z * Z) (es : list page_event) : c ∈ slab_classes ->
  let '(osz, soff, cnt) := slab_geometry c.1 c.2 in
  legal osz cnt es [] ->
  exists s, page_run a es (new_slab a osz soff cnt) = Ret ((spec_run cnt es []).1, s) /\
    holds s (spec_run cnt es []).2.
Proof.
  intros Hc. pose proof classes_layout as Hl. rewrite Forall_forall in Hl. specialize (Hl c Hc).
  destruct (slab_geometry c.1 c.2) as [[osz soff] cnt].
  apply (page_run_spec a es (new_slab a osz soff cnt) [] (new_slab_holds a osz soff cnt Hl)).
Qed.

(** the class of 16 bytes; the class of 1024 bytes *)
Lemma slab_page_refines_witness :
  (exists s, page_run 4096 [P_alloc; P_alloc; P_store 0 0 255; P_free 0; P_alloc] (new_slab 4096 16 72 251)
    = Ret ([Some 0; Some 1; None; None; Some 0], s) /\ used s = 2) /\
  exists s, page_run 4096 [P_alloc; P_store 0 1 255; P_alloc] (new_slab 4096 1024 40 3)
    = Ret ([Some 0; None; Some 1], s) /\ used s = 2.
Proof.
  split.
  - destruct (slab_page_refines 4096 (16, 4) [P_alloc; P_alloc; P_store 0 0 255; P_free 0; P_alloc]) as (s & E & H).
    + by apply (bool_decide_unpack _); vm_compute.
    + simpl. unfold own_byte. split_and!; try done; set_solver.
    + exists s. split; [exact E|]. rewrite (ho_used _ _ H). reflexivity.
  - destruct (slab_page_refines 4096 (1024, 8) [P_alloc; P_store 0 1 255; P_alloc]) as (s & E & H).
    + by apply (bool_decide_unpack _); vm_compute.
    + simpl. unfold own_byte. split_and!; try done; [set_solver|]. by right.
    + exists s. split; [exact E|]. rewrite (ho_used _ _ H). reflexivity.
Defined.

(** The geometry create_slab computes for the malloc classes of 16 to 512
    bytes keeps header, bitmap and objects apart and inside the page; for the
    1024-byte class the bitmap lies in the first object, so a store into that
    object makes the next allocation hand it out again. *)
Theorem slab_class_geometry :
  Forall (fun c => let '(osz, soff, cnt) := slab_geometry c.1 c.2 in
            osz = c.1 /\ soff mod c.2 = 0 /\ apart osz soff cnt) (take 6 slab_classes) /\
  slab_geometry 1024 8 = (1024, sizeof_slab, 3) /\
  exists s, page_run 4096 [P_alloc; P_store 0 0 0; P_alloc] (new_slab 4096 1024 sizeof_slab 3)
    = Ret ([Some 0; None; Some 0], s).
Proof.
  split; [|split; [by vm_compute|eexists; by vm_compute]].
  repeat (constructor; [split_and!; by vm_compute|]). constructor.
Qed.

(** ** Storage that is all low *)

Definition low_page (a : Z) : Prop := ZONE_TYPE (addr_to_page a) = ZONE_LOW.

Lemma usable_low s a : low_page a -> usable s a ZONE_NORMAL = false.
Proof. unfold usable, low_page. intros ->. by rewrite andb_false_r. Qed.

Lemma find_usable_low l m : Forall low_page l -> Forall (fun a => is_Some (slabs m !! a)) l ->
  find_usable l ZONE_NORMAL m = Ret None.
Proof.
  intros Hl. induction Hl as [|a l Ha Hl IH]; intros Hs; [done|].
  apply Forall_cons in Hs as [[s Hs] Hr]. simpl. unfold get_slab. rewrite Hs. simpl.
  rewrite usable_low by done. by apply IH.
Qed.

(** When the pages of a cache are all below 2 GB, as they are on a machine
    without storage above it, a ZONE_NORMAL request never uses a free object of
    them: every such allocation adds a page to the cache. *)
Theorem low_storage_takes_pages (p type : Z) (m : mem) (s : slab) (obj : Z) (m' : mem)
    (Hs : slabs m !! p = Some s) (Hlow : Forall low_page (p :: slab_pages s))
    (Hpages : Forall (fun a => is_Some (slabs m !! a)) (slab_pages s)) (Htype : type = ZONE_NORMAL)
    (Hret : alloc_slab_obj (Some p) type m = Ret (Some obj, m')) :
  exists new b, alloc_pages 0 ZONE_NORMAL (pagesystem m) = Ret (Some new, b) /\ pagesystem m' = b.
Proof.
  subst type. apply Forall_cons in Hlow as [Hp Hl]. revert Hret. unfold alloc_slab_obj, get_slab. rewrite Hs. cbn [defined mbind outcome_bind].
  destruct (bug_on _); cbn [mbind outcome_bind]; [|done..]. rewrite usable_low by done.
  rewrite find_usable_low by done. cbn [mbind outcome_bind].
  unfold __alloc_slab_obj_newpage, alloc_page.
  destruct (alloc_pages 0 ZONE_NORMAL (pagesystem m)) as [[[new|] b]| |]; cbn [mbind outcome_bind option_map fst snd];
    try done. intros H. exists new, b. split; [done|].
  apply bind_Ret in H as ([r1 m1] & H1 & H2). apply bind_Ret in H1 as (s1 & _ & [= <- <-]).
  cbn [fst snd] in H2. apply bind_Ret in H2 as (s2 & _ & H2). apply bind_Ret in H2 as ([o s3] & _ & [= _ <-]).
  done.
Qed.

Lemma low_storage_takes_pages_witness :
  exists m s obj m', slabs m !! 0x100000 = Some s /\ used s = 0 /\
    alloc_slab_obj (Some 0x100000) ZONE_NORMAL m = Ret (Some obj, m') /\
    exists new b, alloc_pages 0 ZONE_NORMAL (pagesystem m) = Ret (Some new, b) /\ pagesystem m' = b.
Proof.
  set (m := Mem {[ 0x100000 := new_slab 0x100000 16 72 251 ]} (init_buddy_alloc 0x300000 0x200000) []).
  destruct (alloc_slab_obj (Some 0x100000) ZONE_NORMAL m) as [[[obj|] m']| |] eqn:E;
    [|vm_compute in E; discriminate E..].
  exists m, (new_slab 0x100000 16 72 251), obj, m'. split; [done|]. split; [done|]. split; [done|].
  eapply (low_storage_takes_pages 0x100000 ZONE_NORMAL m (new_slab 0x100000 16 72 251) obj m' eq_refl
    ltac:(repeat constructor) ltac:(constructor) eq_refl E).
Defined.
