(* ===== verification/Spool.v ===== *)
(** cp/fs/spool.c: spool files, queues of records kept in pages.

    A record is a 2-byte length and its data, records follow each other at even
    offsets and may continue in the next page.  A file is the list of its pages'
    data areas and the counters and offsets of [struct spool_file]; the mutex
    that brackets each operation is not repeated here (Mutex.v).  [avail] is the
    number of pages the page allocator still has, [fresh] what a new page
    happens to contain.  The theorems: a file is a queue of records as long as no
    record's data is split over two pages, and what a split record becomes. *)

From S2P Require Import Prelude.

Local Open Scope Z_scope.

Definition SPOOL_DATA_SIZE : Z := 4096 - 16.
Definition ENOENT : Z := 6.
Definition EINVAL : Z := 4.
Definition ENOMEM : Z := 1.

Record spool_file := SpoolFile {
  pages_data : list (list Z);  (* the data areas, first page first *)
  recs : Z;
  npages : Z;
  frecoff : Z;
  lrecoff : Z;
}.

Definition alloc_spool : spool_file := SpoolFile [] 0 0 0 0.

Definition spool_nrecs (f : spool_file) : Z := recs f.

(** [rec->len] at an offset, big-endian *)
Definition get_u16 (d : list Z) (off : Z) : outcome Z :=
  h ← defined (aget d off); l ← defined (aget d (off + 1)); Ret (h * 256 + l).
Definition put_u16 (d : list Z) (off v : Z) : outcome (list Z) :=
  defined (ablit d off [u8 (Z.shiftr v 8); u8 v]).

(** [memcpy(dst + doff, src + soff, n)] *)
Definition memcpy (dst : list Z) (doff : Z) (src : list Z) (soff n : Z) : outcome (list Z) :=
  b ← defined (aslice src soff n); defined (ablit dst doff b).

(** ** Taking the first record *)

(** the loop's variables *)
Record grab := Grab {
  g_pages : list (list Z);
  g_freed : Z;
  g_out : list Z;  (* the caller's buffer *)
  g_copied : Z;
  g_processed : Z;
  g_offset : Z;
  g_left : Z;
}.

(** free the page used up and go to the next one *)
Definition next_page (g : grab) : grab :=
  if g_left g =? 0
  then Grab (tail (g_pages g)) (g_freed g + 1) (g_out g) (g_copied g) (g_processed g) 0 SPOOL_DATA_SIZE
  else g.

Fixpoint grab_loop (fuel : nat) (reclen rlen : Z) (g : grab) : outcome grab :=
  match fuel with
  | O => Undef
  | S fuel =>
      if u32 (reclen + 2) =? g_processed g then Ret g else
      let g := next_page g in
      page ← defined (head (g_pages g));
      if negb (rlen =? g_copied g) then
        let tmp := Z.min (g_left g) (u32 (rlen - g_copied g)) in
        out ← memcpy (g_out g) (g_copied g - 2) page (g_offset g) tmp;
        grab_loop fuel reclen rlen (Grab (g_pages g) (g_freed g) out (u32 (g_copied g + tmp))
          (u32 (g_processed g + tmp)) (u32 (g_offset g + tmp)) (u32 (g_left g - tmp)))
      else
        let tmp := Z.min (g_left g) (u32 (reclen - g_processed g + 2)) in
        grab_loop fuel reclen rlen (Grab (g_pages g) (g_freed g) (g_out g) (g_copied g)
          (u32 (g_processed g + tmp)) (u32 (g_offset g + tmp)) (u32 (g_left g - tmp)))
  end.

(** the result code, [*len], the caller's buffer and the file.  A page takes at
    most two turns of the loop. *)
Definition spool_grab_rec (f : spool_file) (buf : list Z) (len : Z)
    : outcome (Z * Z * list Z * spool_file) :=
  if len =? 0 then Ret (- EINVAL, len, buf, f) else
  if recs f =? 0 then Ret (- ENOENT, len, buf, f) else
  bug_on (negb (lrecoff f mod 2 =? 0)) ;;
  page ← defined (head (pages_data f));
  reclen ← get_u16 page (frecoff f);
  let rlen := Z.min len reclen + 2 in
  g ← grab_loop (2 * S (length (pages_data f))) reclen rlen
        (Grab (pages_data f) 0 buf 2 2 (u32 (frecoff f + 2)) (u32 (SPOOL_DATA_SIZE - frecoff f - 2)));
  let offset := if negb (g_offset g mod 2 =? 0) then u32 (g_offset g + 1) else g_offset g in
  r ← (if offset =? SPOOL_DATA_SIZE then
         _ ← defined (head (g_pages g)); Ret (tail (g_pages g), g_freed g + 1, 0)
       else Ret (g_pages g, g_freed g, offset));
  let '(pgs, freed, offset) := r in
  Ret (0, u16 (g_copied g - 2), g_out g,
       SpoolFile pgs (u64 (recs f - 1)) (u64 (npages f - freed)) (u16 offset) (lrecoff f)).

(** ** Adding a record *)

Section append.
Context (fresh : list Z).  (* the data area of a page just allocated *)

(** the loop that allocates pages: the new pages and the final [loff], or no
    memory.  [m] and [buf] are memory and the caller's pointer. *)
Fixpoint append_loop (avail : nat) (m : list Z) (buf len rlen : Z) (copied loff : Z) (new : list (list Z))
    : outcome (option (list (list Z) * Z)) :=
  if rlen =? u32 copied then Ret (Some (new, loff)) else
  match avail with
  | O => Ret None
  | S avail =>
      let left := SPOOL_DATA_SIZE in
      r ← (if copied =? 0 then
             d ← put_u16 fresh 0 len;
             d ← memcpy d 2 m buf (Z.min len (left - 2));
             Ret (d, 2 + Z.min len (left - 2))
           else
             d ← memcpy fresh 0 m (buf - copied + 2) (Z.min (u32 (rlen - copied)) left);
             Ret (d, Z.min (u32 (rlen - copied)) left));
      let '(d, loff) := r in
      append_loop avail m buf len rlen (s32 (copied + loff)) loff (new ++ [d])
  end.

Definition set_last (l : list (list Z)) (d : list Z) : list (list Z) := removelast l ++ [d].

(** the result code and the file; [avail] pages can be allocated *)
Definition spool_append_rec (avail : nat) (f : spool_file) (m : list Z) (buf len : Z)
    : outcome (Z * spool_file) :=
  if len =? 0 then Ret (- EINVAL, f) else
  bug_on (negb (lrecoff f mod 2 =? 0)) ;;
  let left := u32 (SPOOL_DATA_SIZE - lrecoff f) in
  let rlen := len + 2 in
  r ← (if negb (npages f =? 0) && (left >=? 2) then
         d ← defined (last (pages_data f));
         d ← put_u16 d (lrecoff f) len;
         if negb (left - 2 =? 0) then
           let n := Z.min len (left - 2) in
           d ← memcpy d (lrecoff f + 2) m buf n;
           Ret (set_last (pages_data f) d, 2 + n, lrecoff f + (2 + n))
         else Ret (set_last (pages_data f) d, 2, lrecoff f + 2)
       else Ret (pages_data f, 0, 0));
  let '(pgs, copied, loff) := r in
  bug_on (rlen <? copied) ;;
  r ← append_loop avail m buf len rlen copied loff [];
  match r with
  | None => Ret (- ENOMEM, SpoolFile pgs (recs f) (npages f) (frecoff f) (lrecoff f))
  | Some (new, loff) =>
      let loff := if negb (loff mod 2 =? 0) then loff + 1 else loff in
      Ret (0, SpoolFile (pgs ++ new) (u64 (recs f + 1)) (u64 (npages f + lenZ new)) (frecoff f) (u16 loff))
  end.
End append.

(** * A file is a queue of records *)

(** bytes from the first record on *)
Definition even_up (n : Z) : Z := n + n mod 2.

(** from offset [pos] of the bytes [s] on lie the records [rs], up to [fin] *)
Fixpoint recs_at (s : list Z) (pos : Z) (rs : list (list Z)) (fin : Z) : Prop :=
  match rs with
  | [] => pos = fin
  | r :: rs =>
      aslice s pos 2 = Some [lenZ r / 256; lenZ r mod 256] /\ aslice s (pos + 2) (lenZ r) = Some r /\
      0 < lenZ r < 2 ^ 16 /\ recs_at s (pos + even_up (2 + lenZ r)) rs fin
  end.

Definition page_ok (p : list Z) : Prop := lenZ p = SPOOL_DATA_SIZE.

(** at most [k] records and pages: the counters do not wrap *)
Record rep (k : Z) (f : spool_file) (rs : list (list Z)) : Prop := Rep {
  rp_pages : Forall page_ok (pages_data f);
  rp_recs : recs f = lenZ rs;
  rp_npages : npages f = lenZ (pages_data f);
  rp_bound : lenZ rs <= k /\ lenZ (pages_data f) <= k;
  rp_where :
    match pages_data f with
    | [] => rs = [] /\ frecoff f = 0 /\ (lrecoff f = 0 \/ lrecoff f = SPOOL_DATA_SIZE)
    | _ => frecoff f mod 2 = 0 /\ 0 <= frecoff f < SPOOL_DATA_SIZE /\
           lrecoff f mod 2 = 0 /\ 0 < lrecoff f <= SPOOL_DATA_SIZE /\
           recs_at (concat (pages_data f)) (frecoff f) rs
             (SPOOL_DATA_SIZE * (lenZ (pages_data f) - 1) + lrecoff f)
    end;
}.

Lemma even_up_bounds n : 0 <= n -> n <= even_up n <= n + 1 /\ even_up n mod 2 = 0.
Proof. unfold even_up. intros. divlia. Qed.

Lemma recs_at_le s pos rs fin : recs_at s pos rs fin -> pos <= fin.
Proof.
  revert pos. induction rs as [|r rs IH]; intros pos; [simpl; lia|].
  intros (_ & _ & Hr & H%IH). pose proof (even_up_bounds (2 + lenZ r)). lia.
Qed.

Lemma lenZ_concat (ps : list (list Z)) : Forall page_ok ps -> lenZ (concat ps) = SPOOL_DATA_SIZE * lenZ ps.
Proof.
  induction 1 as [|p ps Hp _ IH]; [done|]. cbn [concat]. rewrite lenZ_app, IH, Hp.
  unfold lenZ. simpl length. lia.
Qed.

(** the bytes of one page are a slice of the file's bytes *)
Lemma concat_slice ps k page off n :
  Forall page_ok ps -> ps !! k = Some page -> 0 <= off -> off + n <= SPOOL_DATA_SIZE -> 0 <= n ->
  aslice (concat ps) (SPOOL_DATA_SIZE * Z.of_nat k + off) n = aslice page off n.
Proof.
  intros Hps Hk Ho Hn Hn0. rewrite Forall_lookup in Hps. revert k Hk Hps.
  induction ps as [|p ps IH]; intros k Hk Hps; [done|].
  pose proof (Hps 0%nat p eq_refl) as Hp. unfold page_ok in Hp.
  assert (Forall page_ok ps) as Hps' by (apply Forall_lookup; intros i x Hi; by apply (Hps (S i))).
  pose proof (lenZ_concat ps Hps') as Hlen. pose proof (lenZ_nonneg ps).
  destruct k as [|k]; simpl in Hk.
  - injection Hk as ->. unfold aslice. cbn [concat]. rewrite lenZ_app, Hp, Hlen. unfold SPOOL_DATA_SIZE in *.
    rewrite !decide_True by (rewrite ?Hp; lia). f_equal.
    replace (Z.to_nat (_ * Z.of_nat 0 + off)) with (Z.to_nat off) by lia.
    unfold lenZ in Hp. rewrite drop_app_le by lia. apply take_app_le. rewrite length_drop. lia.
  - transitivity (aslice (concat ps) (SPOOL_DATA_SIZE * Z.of_nat k + off) n).
    2:{ apply IH; [done|]. intros i x Hi. by apply (Hps (S i)). }
    unfold aslice. cbn [concat]. rewrite lenZ_app, Hp, Hlen. unfold SPOOL_DATA_SIZE in *.
    repeat case_decide; try lia; [|done]. f_equal.
    unfold lenZ in Hp. rewrite drop_app_ge by lia. do 2 f_equal. lia.
Qed.

Lemma tail_drop {A} k (l : list A) : tail (drop k l) = drop (S k) l.
Proof. revert l. induction k as [|k IH]; intros [|x l]; try done. cbn [drop]. by rewrite IH. Qed.

Section grabbing.
Context (ps : list (list Z)) (S0 r buf : list Z) (f0 L : Z).
Context (Hps : Forall page_ok ps) (HS : S0 = concat ps).
Context (Hr : 0 < lenZ r < 2 ^ 16) (Hslice : aslice S0 (f0 + 2) (lenZ r) = Some r).
Context (Hf0 : 0 <= f0 < SPOOL_DATA_SIZE) (HL : 0 < L < 2 ^ 16) (Hbuf : L <= lenZ buf).

Let rlen := Z.min L (lenZ r) + 2.

(** [p] bytes of the record done *)
Definition grab_inv (p : Z) (g : grab) : Prop :=
  exists k, g_pages g = drop k ps /\ g_freed g = Z.of_nat k /\ g_processed g = p /\
    SPOOL_DATA_SIZE * Z.of_nat k + g_offset g = f0 + p /\ g_offset g + g_left g = SPOOL_DATA_SIZE /\
    0 <= g_offset g /\ 0 <= g_left g /\ 2 <= p <= lenZ r + 2 /\ g_copied g = Z.min p rlen /\
    g_out g = take (Z.to_nat (g_copied g - 2)) r ++ drop (Z.to_nat (g_copied g - 2)) buf.

Definition grab_fuel (g : grab) : Z :=
  2 * (lenZ (g_pages g) - 1) +
  (if (g_left g =? 0) || (g_processed g =? lenZ r + 2) then 0 else if g_copied g =? rlen then 1 else 2).

Lemma slice_record k page off n p :
  ps !! k = Some page -> 0 <= off -> off + n <= SPOOL_DATA_SIZE -> 0 <= n -> 2 <= p -> p + n <= lenZ r + 2 ->
  SPOOL_DATA_SIZE * Z.of_nat k + off = f0 + p ->
  aslice page off n = Some (take (Z.to_nat n) (drop (Z.to_nat (p - 2)) r)).
Proof.
  intros Hk Ho Hn Hn0 Hp Hpn Hpos. rewrite <- (concat_slice ps k page off n Hps Hk Ho Hn Hn0), Hpos, <- HS.
  replace (f0 + p) with (f0 + 2 + (p - 2)) by lia. apply (aslice_sub _ _ _ _ _ _ Hslice); lia.
Qed.

(** copying [n] more bytes into the caller's buffer *)
Lemma extend_out c n out :
  0 <= c -> 0 <= n -> c + n <= L -> c + n <= lenZ r ->
  out = take (Z.to_nat c) r ++ drop (Z.to_nat c) buf ->
  ablit out c (take (Z.to_nat n) (drop (Z.to_nat c) r)) =
  Some (take (Z.to_nat (c + n)) r ++ drop (Z.to_nat (c + n)) buf).
Proof.
  intros Hc Hn HcL Hcr ->. unfold ablit, lenZ in *.
  rewrite decide_True by (rewrite length_app, !length_take, !length_drop; lia). f_equal.
  rewrite take_app_length' by (rewrite length_take; lia).
  rewrite drop_app_ge by (rewrite !length_take, length_drop; lia).
  rewrite !length_take, length_drop, drop_drop.
  rewrite app_assoc. f_equal.
  - rewrite Z2Nat.inj_add by lia. by rewrite take_take_drop.
  - f_equal. lia.
Qed.

Lemma pages_room : f0 + 2 + lenZ r <= SPOOL_DATA_SIZE * lenZ ps.
Proof.
  revert Hslice. unfold aslice. case_decide as Hd; [|done]. intros _.
  rewrite HS, (lenZ_concat ps Hps) in Hd. lia.
Qed.

(** a turn starts by moving to the next page when this one is used up *)
Lemma turn_page p g :
  grab_inv p g -> p < lenZ r + 2 ->
  let g' := next_page g in
  grab_inv p g' /\ 0 < g_left g' /\ (exists page, head (g_pages g') = Some page /\ page_ok page /\
    forall n, 0 <= n <= g_left g' -> p + n <= lenZ r + 2 ->
    aslice page (g_offset g') n = Some (take (Z.to_nat n) (drop (Z.to_nat (p - 2)) r))) /\
  2 * (lenZ (g_pages g') - 1) + (if g_copied g' =? rlen then 1 else 2) <=
    grab_fuel g + (if g_left g =? 0 then if g_copied g' =? rlen then -1 else 0 else 0).
Proof.
  intros (k & Hpg & Hfr & Hpr & Hpos & Hol & Ho & Hl & Hp & Hc & Hout) Hlt. pose proof pages_room as Hroom.
  unfold SPOOL_DATA_SIZE in *.
  assert (forall k', 4080 * Z.of_nat k' < f0 + 2 + lenZ r -> exists page, ps !! k' = Some page) as Hpage.
  { intros k' Hk'. apply lookup_lt_is_Some. unfold lenZ in *. lia. }
  assert (forall k' page, ps !! k' = Some page -> head (drop k' ps) = Some page) as Hhead.
  { intros k' page Hk'. by rewrite (drop_S _ _ _ Hk'). }
  assert (forall k', lenZ (drop k' ps) = Z.max 0 (lenZ ps - Z.of_nat k')) as Hdrop.
  { intros k'. unfold lenZ. rewrite length_drop. lia. }
  cbv zeta. unfold next_page. destruct (Z.eqb_spec (g_left g) 0) as [E|E]; cbn [g_pages g_freed g_out g_copied g_processed g_offset g_left].
  - assert (tail (g_pages g) = drop (S k) ps) as Htl.
    { rewrite Hpg. apply tail_drop. }
    destruct (Hpage (S k)) as [page Hk]; [lia|].
    split_and!; [|done| |].
    + exists (S k). cbn [g_pages g_freed g_out g_copied g_processed g_offset g_left]. unfold SPOOL_DATA_SIZE. split_and!; try done; lia.
    + exists page. rewrite Htl. split_and!; [by apply Hhead| |].
      * rewrite Forall_lookup in Hps. by apply (Hps (S k)).
      * intros n Hn Hpn. apply (slice_record (S k)); unfold SPOOL_DATA_SIZE in *; try done; lia.
    + rewrite Htl. unfold grab_fuel. rewrite E. simpl. rewrite Hpg, !Hdrop.
      assert (Z.of_nat (S k) < lenZ ps) by lia. repeat case_bool; lia.
  - destruct (Hpage k) as [page Hk]; [lia|].
    split_and!; [|lia| |].
    + exists k. unfold SPOOL_DATA_SIZE. split_and!; try done; lia.
    + exists page. rewrite Hpg. split_and!; [by apply Hhead| |].
      * rewrite Forall_lookup in Hps. by apply (Hps k).
      * intros n Hn Hpn. apply (slice_record k); unfold SPOOL_DATA_SIZE in *; try done; lia.
    + unfold grab_fuel. destruct (Z.eqb_spec (g_left g) 0); [done|]. rewrite Hpr.
      destruct (Z.eqb_spec p (lenZ r + 2)); [lia|]. simpl. lia.
Qed.

Lemma grab_loop_spec fuel p g :
  grab_inv p g -> Z.max 0 (grab_fuel g) < Z.of_nat fuel ->
  exists g', grab_loop fuel (lenZ r) rlen g = Ret g' /\ grab_inv (lenZ r + 2) g'.
Proof.
  revert p g. induction fuel as [|fuel IH]; intros p g Hinv Hfuel; [lia|].
  cbn [grab_loop]. rewrite wrap_small by lia.
  assert (g_processed g = p /\ p <= lenZ r + 2) as [-> Hp] by (destruct Hinv as (k & ? & ? & ? & ? & ? & ? & ? & ? & _); lia).
  destruct (Z.eqb_spec (lenZ r + 2) p) as [<-|Hne]; [eauto|].
  destruct (turn_page p g Hinv) as (Hinv' & Hl' & (page & Hhd & Hpage & Hbytes) & Hfuel'); [lia|].
  remember (next_page g) as h eqn:Eh. clear Eh. cbv zeta. rewrite Hhd. cbn [mbind outcome_bind defined].
  destruct Hinv' as (k & Hpg & Hfr & Hpr & Hpos & Hol & Ho & Hl & Hp' & Hc & Hout).
  unfold SPOOL_DATA_SIZE in *.
  assert (1 <= lenZ (g_pages h)) by (destruct (g_pages h); [done|]; unfold lenZ; simpl; lia).
  assert (2 <= rlen <= lenZ r + 2 /\ rlen <= L + 2) as Hrl by (unfold rlen; lia).
  destruct (Z.eqb_spec rlen (g_copied h)) as [Ec|Ec]; cbn [negb].
  - set (tmp := Z.min (g_left h) (u32 (lenZ r - g_processed h + 2))).
    assert (tmp = Z.min (g_left h) (lenZ r - p + 2)) as Etmp by (unfold tmp; rewrite wrap_small; lia).
    rewrite !wrap_small by lia. apply (IH (p + tmp)).
    + exists k. cbn [g_pages g_freed g_out g_copied g_processed g_offset g_left]. unfold SPOOL_DATA_SIZE.
      split_and!; try done; lia.
    + unfold grab_fuel at 1. cbn [g_pages g_freed g_out g_copied g_processed g_offset g_left].
      repeat case_bool; cbn [orb]; lia.
  - set (tmp := Z.min (g_left h) (u32 (rlen - g_copied h))).
    assert (g_copied h = p) as Ecp by lia.
    assert (tmp = Z.min (g_left h) (rlen - p)) as Etmp by (unfold tmp; rewrite wrap_small; lia).
    unfold memcpy. rewrite Hbytes by lia. cbn [mbind outcome_bind defined].
    rewrite Ecp in *. rewrite (extend_out (p - 2) tmp) by (done || lia). cbn [mbind outcome_bind defined].
    rewrite !wrap_small by lia. apply (IH (p + tmp)).
    + exists k. cbn [g_pages g_freed g_out g_copied g_processed g_offset g_left]. unfold SPOOL_DATA_SIZE.
      replace (p - 2 + tmp) with (p + tmp - 2) by lia. split_and!; try done; lia.
    + unfold grab_fuel at 1. cbn [g_pages g_freed g_out g_copied g_processed g_offset g_left].
      repeat case_bool; cbn [orb]; lia.
Qed.

End grabbing.

(** ** What the operations do to the queue *)

Lemma concat_drop ps k :
  Forall page_ok ps -> concat (drop k ps) = drop (Z.to_nat (SPOOL_DATA_SIZE * Z.of_nat k)) (concat ps).
Proof.
  intros Hps. revert k. induction Hps as [|p ps Hp _ IH]; intros [|k]; try done.
  { symmetry. apply drop_nil. }
  cbn [drop concat]. rewrite IH. unfold page_ok, lenZ, SPOOL_DATA_SIZE in *.
  rewrite drop_app_ge by lia. f_equal. lia.
Qed.

Lemma aslice_drop {A} (s : list A) d pos n :
  0 <= d -> d <= pos -> 0 < n -> aslice (drop (Z.to_nat d) s) (pos - d) n = aslice s pos n.
Proof.
  intros. unfold aslice, lenZ. rewrite length_drop, drop_drop.
  replace (Z.to_nat d + Z.to_nat (pos - d))%nat with (Z.to_nat pos) by lia.
  repeat case_decide; try done; lia.
Qed.

Lemma recs_at_drop s d pos rs fin :
  0 <= d -> d <= pos -> recs_at s pos rs fin -> recs_at (drop (Z.to_nat d) s) (pos - d) rs (fin - d).
Proof.
  intros Hd. revert pos. induction rs as [|r rs IH]; intros pos Hpos; cbn [recs_at]; [lia|].
  intros (H1 & H2 & H3 & H4). pose proof (even_up_bounds (2 + lenZ r)).
  split_and!; try lia.
  - by rewrite aslice_drop.
  - replace (pos - d + 2) with (pos + 2 - d) by lia. rewrite aslice_drop; [done|lia..].
  - replace (pos - d + even_up (2 + lenZ r)) with (pos + even_up (2 + lenZ r) - d) by lia.
    apply IH; [lia|done].
Qed.

(** dropping the pages before the new first record *)
Lemma rep_drop k f rs0 rs k0 pos :
  rep k f rs0 -> lenZ rs <= lenZ rs0 -> recs_at (concat (pages_data f)) pos rs
    (SPOOL_DATA_SIZE * (lenZ (pages_data f) - 1) + lrecoff f) ->
  pages_data f <> [] -> SPOOL_DATA_SIZE * Z.of_nat k0 <= pos < SPOOL_DATA_SIZE * (Z.of_nat k0 + 1) ->
  pos mod 2 = 0 ->
  rep k (SpoolFile (drop k0 (pages_data f)) (lenZ rs) (lenZ (drop k0 (pages_data f)))
           (pos - SPOOL_DATA_SIZE * Z.of_nat k0) (lrecoff f)) rs.
Proof.
  intros [Hp Hrc Hnp Hbd Hw] Hlr Hat Hne Hpos Hmod. destruct (pages_data f) as [|p0 ps0] eqn:E; [done|]. rewrite <- E in *.
  destruct Hw as (Hf & Hfo & Hl & Hlo & _). pose proof (recs_at_le _ _ _ _ Hat) as Hle.
  assert (lenZ (drop k0 (pages_data f)) = Z.max 0 (lenZ (pages_data f) - Z.of_nat k0)) as Hdl
    by (unfold lenZ; rewrite length_drop; lia).
  unfold SPOOL_DATA_SIZE in *.
  split; cbn [pages_data recs npages frecoff lrecoff]; try done.
  - by apply Forall_drop.
  - rewrite Hdl. pose proof (lenZ_nonneg (pages_data f)). lia.
  - destruct (drop k0 (pages_data f)) as [|p1 ps1] eqn:Ed.
    + change (lenZ []) with 0 in Hdl. assert (pos = 4080 * lenZ (pages_data f) /\ lrecoff f = 4080) by lia.
      destruct rs as [|r rs]; [unfold SPOOL_DATA_SIZE; split_and!; [done|lia..]|]. cbn [recs_at] in Hat.
      destruct Hat as (_ & _ & Hr & Hat%recs_at_le). pose proof (even_up_bounds (2 + lenZ r)). lia.
    + rewrite <- Ed in *. unfold SPOOL_DATA_SIZE in *. split_and!; try done; try lia; [divlia|].
      rewrite Hdl. assert (Z.of_nat k0 < lenZ (pages_data f)) by (pose proof (f_equal length Ed) as Hl';
        rewrite length_drop in Hl'; simpl in Hl'; unfold lenZ; lia).
      replace (_ * (Z.max _ _ - 1) + lrecoff f) with
        ((4096 - 16) * (lenZ (pages_data f) - 1) + lrecoff f - SPOOL_DATA_SIZE * Z.of_nat k0)
        by (unfold SPOOL_DATA_SIZE; lia).
      rewrite concat_drop by done. unfold SPOOL_DATA_SIZE. apply recs_at_drop; [lia..|done].
Qed.

(** what a call of [spool_grab_rec] leaves of the record *)
Definition truncated (L : Z) (r buf : list Z) : list Z :=
  take (Z.to_nat (Z.min L (lenZ r))) r ++ drop (Z.to_nat (Z.min L (lenZ r))) buf.

Lemma spool_grab_spec k f r rs buf L :
  k < 2 ^ 32 -> rep k f (r :: rs) -> 0 < L < 2 ^ 16 -> L <= lenZ buf ->
  exists f', spool_grab_rec f buf L = Ret (0, Z.min L (lenZ r), truncated L r buf, f') /\ rep k f' rs.
Proof.
  intros Hk Hrep HL Hbuf. pose proof Hrep as [Hp Hrc Hnp Hbd Hw].
  destruct (pages_data f) as [|p0 ps] eqn:E; [by destruct Hw|]. rewrite <- E in *.
  assert (lenZ (pages_data f) = lenZ ps + 1) as Hps by (rewrite E; unfold lenZ; simpl; lia).
  assert (page_ok p0) as Hp0 by (rewrite E in Hp; by inversion Hp).
  destruct Hw as (Hf & Hfo & Hl & Hlo & Hhdr & Hdat & Hr & Hat).
  unfold spool_grab_rec. rewrite Hrc, Hl. unfold lenZ at 1. simpl length.
  destruct (Z.eqb_spec L 0); [lia|]. destruct (Z.eqb_spec (Z.of_nat (S (length rs))) 0); [lia|].
  assert (head (pages_data f) = Some p0) as Hhd by (by rewrite E).
  cbn [mbind outcome_bind bug_on negb Z.eqb]. rewrite Hhd. cbn [defined mbind outcome_bind].
  assert (forall j, 0 <= j < 2 -> aget p0 (frecoff f + j) = [lenZ r / 256; lenZ r mod 256] !! Z.to_nat j) as Hget.
  { intros j Hj. apply aslice_aget with 2; [|lia]. rewrite <- Hhdr. symmetry.
    apply (concat_slice _ 0 p0 (frecoff f) 2 Hp); [by rewrite E|lia|unfold SPOOL_DATA_SIZE in *; divlia|lia]. }
  unfold get_u16. pose proof (Hget 0) as H0. rewrite Z.add_0_r in H0. rewrite H0, Hget by lia.
  change ([lenZ r / 256; lenZ r mod 256] !! Z.to_nat 0) with (Some (lenZ r / 256)).
  change ([lenZ r / 256; lenZ r mod 256] !! Z.to_nat 1) with (Some (lenZ r mod 256)).
  cbn [defined mbind outcome_bind].
  replace (lenZ r / 256 * 256 + lenZ r mod 256) with (lenZ r) by divlia.
  pose proof (lenZ_nonneg rs) as Hrs. assert (lenZ (r :: rs) = lenZ rs + 1) as Hrs1 by (unfold lenZ; simpl; lia).
  rewrite Hrs1, (wrap_small 32 (frecoff f + 2)), (wrap_small 32 (_ - frecoff f - 2)) by
    (unfold SPOOL_DATA_SIZE in *; divlia).
  destruct (grab_loop_spec (pages_data f) _ r buf (frecoff f) L Hp eq_refl Hr Hdat HL Hbuf
    (2 * S (length (pages_data f))) 2
    (Grab (pages_data f) 0 buf 2 2 (frecoff f + 2) (SPOOL_DATA_SIZE - frecoff f - 2))) as (g & -> & Hinv).
  { exists 0%nat. unfold SPOOL_DATA_SIZE in *.
    cbn [g_pages g_freed g_out g_copied g_processed g_offset g_left]. split_and!; try done; divlia. }
  { unfold grab_fuel. cbn [g_pages g_left g_copied g_processed]. unfold lenZ. repeat case_bool; cbn [orb]; lia. }
  cbn [defined mbind outcome_bind].
  pose proof (pages_room (pages_data f) _ r (frecoff f) L Hp eq_refl Hdat) as Hroom.
  destruct Hinv as (k0 & Hpg & Hfr & _ & Hpos & Hol & Ho & Hlf & _ & Hc & Hout).
  assert (g_copied g = Z.min L (lenZ r) + 2) as Hc' by lia.
  assert (g_out g = truncated L r buf) as -> by (rewrite Hout, Hc'; unfold truncated; by rewrite Z.add_simpl_r).
  rewrite Hc', Z.add_simpl_r, Hnp, Hfr, Hpg.
  assert ((if negb (g_offset g mod 2 =? 0) then u32 (g_offset g + 1) else g_offset g) = even_up (g_offset g)) as ->.
  { unfold even_up, SPOOL_DATA_SIZE in *. case_bool; cbn [negb]; [lia|]. rewrite wrap_small by divlia. divlia. }
  rewrite (wrap_small 16 (Z.min _ _)), (wrap_small 64) by lia.
  pose proof (even_up_bounds (g_offset g) Ho) as [He Hem].
  assert (frecoff f + even_up (2 + lenZ r) = SPOOL_DATA_SIZE * Z.of_nat k0 + even_up (g_offset g)) as Hev.
  { unfold even_up, SPOOL_DATA_SIZE in *. divlia. }
  assert (even_up (g_offset g) <= SPOOL_DATA_SIZE) as Hle by (unfold even_up, SPOOL_DATA_SIZE in *; divlia).
  assert (pages_data f <> []) as Hne by (by rewrite E). replace (lenZ rs + 1 - 1) with (lenZ rs) by lia.
  assert (forall k1, SPOOL_DATA_SIZE * Z.of_nat k1 <= frecoff f + even_up (2 + lenZ r) < SPOOL_DATA_SIZE * (Z.of_nat k1 + 1) ->
    rep k (SpoolFile (drop k1 (pages_data f)) (lenZ rs) (lenZ (drop k1 (pages_data f)))
      (frecoff f + even_up (2 + lenZ r) - SPOOL_DATA_SIZE * Z.of_nat k1) (lrecoff f)) rs) as Hdone.
  { intros k1 Hk1. apply (rep_drop _ _ (r :: rs)); try done; [lia|]. unfold even_up in *. clear -Hf. divlia. }
  assert (forall k1, (k1 <= length (pages_data f))%nat ->
    lenZ (drop k1 (pages_data f)) = lenZ (pages_data f) - Z.of_nat k1) as Hdl
    by (intros; unfold lenZ; rewrite length_drop; lia).
  destruct (Z.eqb_spec (even_up (g_offset g)) SPOOL_DATA_SIZE) as [Efull|Enf].
  - assert (k0 < length (pages_data f))%nat as Hk0.
    { unfold even_up, SPOOL_DATA_SIZE, lenZ in *. clear -Efull Hpos Hroom Ho. divlia. }
    destruct (lookup_lt_is_Some_2 _ _ Hk0) as [pg Hpgk].
    assert (head (drop k0 (pages_data f)) = Some pg) as -> by (by rewrite (drop_S _ _ _ Hpgk)).
    cbn [defined mbind outcome_bind]. eexists. split; [done|].
    rewrite tail_drop.
    assert (Z.of_nat k0 + 1 <= lenZ (pages_data f)) by (unfold lenZ; lia).
    rewrite (wrap_small 64 (_ - _)), (wrap_small 16) by lia.
    replace (lenZ (pages_data f) - (Z.of_nat k0 + 1)) with (lenZ (drop (S k0) (pages_data f))) by (rewrite Hdl; lia).
    pose proof (Hdone (S k0) ltac:(lia)) as Hd.
    by replace (frecoff f + even_up (2 + lenZ r) - SPOOL_DATA_SIZE * Z.of_nat (S k0)) with 0 in Hd by lia.
  - assert (k0 <= length (pages_data f))%nat as Hk0.
    { unfold even_up, SPOOL_DATA_SIZE, lenZ in *. clear -Hpos Hroom Ho. lia. }
    cbn [mbind outcome_bind]. eexists. split; [done|].
    unfold SPOOL_DATA_SIZE in *. assert (Z.of_nat k0 <= lenZ (pages_data f)) by (unfold lenZ; lia).
    rewrite (wrap_small 64 (_ - _)), (wrap_small 16) by lia.
    rewrite <- Hdl by done.
    pose proof (Hdone k0 ltac:(lia)) as Hd.
    by replace (frecoff f + even_up (2 + lenZ r) - (4096 - 16) * Z.of_nat k0) with (even_up (g_offset g)) in Hd by lia.
Qed.

(** where the next record would go *)
Definition fin_of (f : spool_file) : Z :=
  match pages_data f with
  | [] => 0
  | _ => SPOOL_DATA_SIZE * (lenZ (pages_data f) - 1) + lrecoff f
  end.

Definition header (r : list Z) : list Z := [lenZ r / 256; lenZ r mod 256].

Lemma recs_at_snoc s s' pos rs fin r :
  (forall j n x, 0 < n -> j + n <= fin -> aslice s j n = Some x -> aslice s' j n = Some x) ->
  recs_at s pos rs fin ->
  aslice s' fin 2 = Some (header r) -> aslice s' (fin + 2) (lenZ r) = Some r -> 0 < lenZ r < 2 ^ 16 ->
  recs_at s' pos (rs ++ [r]) (fin + even_up (2 + lenZ r)).
Proof.
  intros Hold Hat Hh Hd Hr. revert pos Hat. induction rs as [|q rs IH]; intros pos; cbn [recs_at app].
  { intros ->. done. }
  intros (H1 & H2 & H3 & H4). pose proof (recs_at_le _ _ _ _ H4). pose proof (even_up_bounds (2 + lenZ q)).
  split_and!; try done; try (by apply Hold; [lia..|]); try lia. by apply IH.
Qed.

Lemma rep_snoc k f rs r extra x ps lrec :
  rep k f rs -> Forall page_ok ps -> ps <> [] -> 0 < lenZ r < 2 ^ 16 ->
  ablit (concat (pages_data f) ++ extra) (fin_of f) (header r) = Some x ->
  ablit x (fin_of f + 2) r = Some (concat ps) ->
  SPOOL_DATA_SIZE * (lenZ ps - 1) + lrec = fin_of f + even_up (2 + lenZ r) ->
  lrec mod 2 = 0 -> 0 < lrec <= SPOOL_DATA_SIZE -> lenZ ps <= k + 1 ->
  rep (k + 1) (SpoolFile ps (lenZ rs + 1) (lenZ ps) (frecoff f) lrec) (rs ++ [r]).
Proof.
  intros [Hp Hrc Hnp Hbd Hw] Hps Hne Hr Hx Hs Hfin Hlm Hl Hk.
  assert (lenZ (rs ++ [r]) = lenZ rs + 1) as Hlr by (rewrite lenZ_app; done).
  assert (aslice (concat ps) (fin_of f) 2 = Some (header r)) as Hh.
  { rewrite (aslice_ablit_disjoint _ _ _ _ _ _ Hs) by lia. apply (aslice_ablit _ _ _ _ Hx). }
  pose proof (aslice_ablit _ _ _ _ Hs) as Hd.
  split; cbn [pages_data recs npages frecoff lrecoff]; rewrite ?Hlr; try done; [lia|].
  destruct ps as [|p1 ps1] eqn:Eps; [done|]. rewrite <- Eps in *. rewrite Hfin.
  assert (frecoff f mod 2 = 0 /\ 0 <= frecoff f < SPOOL_DATA_SIZE /\
          recs_at (concat (pages_data f)) (frecoff f) rs (fin_of f)) as (? & ? & Hat).
  { unfold fin_of. destruct (pages_data f) as [|p0 ps0].
    - destruct Hw as (-> & -> & _). done.
    - tauto. }
  split_and!; try done; try lia. apply recs_at_snoc with (concat (pages_data f)); try done.
  intros j n y Hn Hjn Hy.
  rewrite (aslice_ablit_disjoint _ _ _ _ _ _ Hs), (aslice_ablit_disjoint _ _ _ _ _ _ Hx) by lia.
  revert Hy. unfold aslice. rewrite lenZ_app. pose proof (lenZ_nonneg extra). case_decide; [|done]. intros [= <-].
  rewrite decide_True by lia. f_equal. unfold lenZ in *. rewrite drop_app_le by lia.
  apply take_app_le. rewrite length_drop. lia.
Qed.

(** the record stays in one piece: it fits what is left of the last page, or
    only its length does and the data fits one new page, or all of it fits a new page *)
Definition kept_whole (f : spool_file) (len : Z) : bool :=
  let left := SPOOL_DATA_SIZE - lrecoff f in
  if negb (npages f =? 0) && (left >=? 2)
  then (len + 2 <=? left) || ((left =? 2) && (len <=? SPOOL_DATA_SIZE))
  else len + 2 <=? SPOOL_DATA_SIZE.

Lemma put_u16_spec d off r :
  0 <= lenZ r < 2 ^ 16 -> put_u16 d off (lenZ r) = defined (ablit d off (header r)).
Proof.
  intros Hr. unfold put_u16, header. rewrite Z.shiftr_div_pow2 by lia. change (2 ^ 8) with 256.
  rewrite wrap_small by divlia. done.
Qed.

Lemma memcpy_spec d off m buf r :
  aslice m buf (lenZ r) = Some r -> memcpy d off m buf (lenZ r) = defined (ablit d off r).
Proof. intros H. unfold memcpy. by rewrite H. Qed.

(** the loop that allocates: nothing left to copy, and one page for the rest *)
Lemma append_loop_done fresh avail m buf len loff new :
  0 <= len + 2 < 2 ^ 32 -> append_loop fresh avail m buf len (len + 2) (len + 2) loff new = Ret (Some (new, loff)).
Proof. intros. destruct avail; cbn [append_loop]; rewrite wrap_small, Z.eqb_refl by lia; done. Qed.

Lemma append_loop_one fresh avail m buf r copied loff d :
  0 < lenZ r < 2 ^ 16 -> aslice m buf (lenZ r) = Some r -> avail <> 0%nat ->
  (copied = 0 /\ lenZ r + 2 <= SPOOL_DATA_SIZE /\
     exists d0, ablit fresh 0 (header r) = Some d0 /\ ablit d0 2 r = Some d) \/
  (copied = 2 /\ lenZ r <= SPOOL_DATA_SIZE /\ ablit fresh 0 r = Some d) ->
  append_loop fresh avail m buf (lenZ r) (lenZ r + 2) copied loff [] = Ret (Some ([d], lenZ r + 2 - copied)).
Proof.
  intros Hr Hm Ha Hcase. destruct avail as [|avail]; [done|]. cbn [append_loop].
  destruct Hcase as [(-> & Hfit & d0 & Hd0 & Hd)|(-> & Hfit & Hd)]; rewrite (wrap_small 32 _) by done;
    [destruct (Z.eqb_spec (lenZ r + 2) 0) | destruct (Z.eqb_spec (lenZ r + 2) 2)]; try lia; cbn [Z.eqb]; cbv zeta.
  - rewrite put_u16_spec, Hd0 by lia. cbn [defined mbind outcome_bind].
    rewrite Z.min_l by lia. rewrite (memcpy_spec _ _ _ _ _ Hm), Hd. cbn [defined mbind outcome_bind app].
    rewrite swrap_small by lia. replace (0 + (2 + lenZ r)) with (lenZ r + 2) by lia.
    rewrite append_loop_done by lia. do 3 f_equal. lia.
  - rewrite (wrap_small 32) by lia. replace (lenZ r + 2 - 2) with (lenZ r) by lia. rewrite Z.min_l by lia.
    replace (buf - 2 + 2) with buf by lia. rewrite (memcpy_spec _ _ _ _ _ Hm), Hd. cbn [defined mbind outcome_bind app].
    rewrite swrap_small by lia. replace (2 + lenZ r) with (lenZ r + 2) by lia.
    rewrite append_loop_done by lia. done.
Qed.

Lemma ablit_some d off src : page_ok d -> 0 <= off -> off + lenZ src <= SPOOL_DATA_SIZE ->
  exists d', ablit d off src = Some d' /\ page_ok d'.
Proof.
  intros Hd H0 H1. destruct (ablit_is_Some d off src) as [d' Hd']; [done|by rewrite Hd|].
  exists d'. split; [done|]. unfold page_ok. by rewrite (ablit_lenZ _ _ _ _ Hd').
Qed.

Lemma lenZ_header r : lenZ (header r) = 2.
Proof. done. Qed.

(** the record goes to a new page, data and all *)
Lemma append_new_page fresh k f rs r :
  page_ok fresh -> rep k f rs -> 0 < lenZ r < 2 ^ 16 -> lenZ r + 2 <= SPOOL_DATA_SIZE ->
  npages f = 0 \/ lrecoff f = SPOOL_DATA_SIZE ->
  exists d0 d, ablit fresh 0 (header r) = Some d0 /\ ablit d0 2 r = Some d /\
    rep (k + 1) (SpoolFile (pages_data f ++ [d]) (lenZ rs + 1) (lenZ (pages_data f ++ [d]))
      (frecoff f) (even_up (2 + lenZ r))) (rs ++ [r]).
Proof.
  intros Hfr Hrep Hr Hfit Hfull. pose proof (lenZ_nonneg r). pose proof (lenZ_header r).
  destruct (ablit_some fresh 0 (header r)) as (d0 & Hd0 & Hok0); [done|lia|unfold SPOOL_DATA_SIZE in *; lia|].
  destruct (ablit_some d0 2 r) as (d & Hd & Hok); [done|lia|unfold SPOOL_DATA_SIZE in *; lia|].
  exists d0, d. split_and!; try done.
  pose proof Hrep as [Hp Hrc Hnp Hbd Hw].
  assert (fin_of f = lenZ (concat (pages_data f))) as Hfin.
  { rewrite (lenZ_concat _ Hp). unfold fin_of. destruct (pages_data f); [done|].
    destruct Hfull as [Hz|Hz]; [|lia]. rewrite Hnp in Hz. unfold lenZ in Hz. simpl in Hz. lia. }
  pose proof (even_up_bounds (2 + lenZ r)).
  assert (lenZ (pages_data f ++ [d]) = lenZ (pages_data f) + 1) as Hl1 by (rewrite lenZ_app; done).
  apply rep_snoc with (extra := fresh) (x := concat (pages_data f) ++ d0); try done.
  - by apply Forall_app_2; [|constructor].
  - by destruct (pages_data f).
  - rewrite Hfin, <- (Z.add_0_r (lenZ _)). by apply ablit_app_r.
  - rewrite Hfin, concat_app. cbn [concat]. rewrite app_nil_r. by apply ablit_app_r.
  - rewrite Hfin, (lenZ_concat _ Hp), Hl1. unfold SPOOL_DATA_SIZE. lia.
  - lia.
  - unfold even_up, SPOOL_DATA_SIZE in *. divlia.
  - lia.
Qed.

(** the last page of a file that has one *)
Lemma last_page k f rs : rep k f rs -> npages f <> 0 ->
  exists ps d, pages_data f = ps ++ [d] /\ last (pages_data f) = Some d /\ page_ok d /\ Forall page_ok ps /\
    fin_of f = lenZ (concat ps) + lrecoff f /\ lrecoff f mod 2 = 0 /\ 0 < lrecoff f <= SPOOL_DATA_SIZE.
Proof.
  intros [Hp Hrc Hnp Hbd Hw] Hn. destruct (pages_data f) as [|p0 ps0] eqn:E; [done|].
  destruct (exists_last (l := p0 :: ps0)) as (ps & d & Eps); [done|].
  exists ps, d. split; [done|]. rewrite Eps in *. apply Forall_app in Hp as [Hp1 Hp2].
  split_and!; [apply last_snoc|by inversion Hp2|done| |tauto|lia|lia].
  unfold fin_of. rewrite E, lenZ_app, (lenZ_concat _ Hp1). destruct (ps ++ [d]) eqn:E2; [by destruct ps|].
  change (lenZ [d]) with 1. lia.
Qed.

(** the record starts in the last page [d]: [x] is that page with the record's
    length written, and either the data follows there or it fills a new page *)
Lemma append_last_page fresh k f rs r :
  page_ok fresh -> rep k f rs -> 0 < lenZ r < 2 ^ 16 -> npages f <> 0 -> lrecoff f <= SPOOL_DATA_SIZE - 2 ->
  exists ps d x, pages_data f = ps ++ [d] /\ last (pages_data f) = Some d /\ page_ok d /\ page_ok x /\
    ablit d (lrecoff f) (header r) = Some x /\
    (lrecoff f + 2 + lenZ r <= SPOOL_DATA_SIZE ->
       exists y, ablit x (lrecoff f + 2) r = Some y /\
         rep (k + 1) (SpoolFile (ps ++ [y]) (lenZ rs + 1) (lenZ (ps ++ [y])) (frecoff f)
           (lrecoff f + even_up (2 + lenZ r))) (rs ++ [r])) /\
    (lrecoff f + 2 = SPOOL_DATA_SIZE -> lenZ r <= SPOOL_DATA_SIZE ->
       exists z, ablit fresh 0 r = Some z /\
         rep (k + 1) (SpoolFile ((ps ++ [x]) ++ [z]) (lenZ rs + 1) (lenZ ((ps ++ [x]) ++ [z])) (frecoff f)
           (even_up (lenZ r))) (rs ++ [r])).
Proof.
  intros Hfr Hrep Hr Hn Hleft. destruct (last_page _ _ _ Hrep Hn) as (ps & d & Eps & Hlast & Hd & Hps & Hfin & Hlm & Hl).
  pose proof (lenZ_nonneg r). pose proof (lenZ_header r) as Hlh. pose proof (rp_bound _ _ _ Hrep) as Hbd.
  destruct (ablit_some d (lrecoff f) (header r)) as (x & Hx & Hxok); [done|lia|lia|].
  assert (forall a : list Z, lenZ (ps ++ [a]) = lenZ ps + 1) as Hl1 by (intros; by rewrite lenZ_app).
  assert (forall a b : list Z, lenZ ((ps ++ [a]) ++ [b]) = lenZ ps + 2) as Hl2
    by (intros; rewrite !lenZ_app; unfold lenZ; simpl; lia).
  assert (forall a : list Z, concat (ps ++ [a]) = concat ps ++ a) as Hc1
    by (intros; rewrite concat_app; cbn [concat]; by rewrite app_nil_r).
  rewrite Eps, Hl1 in Hbd.
  exists ps, d, x. split_and!; try done.
  - intros Hfit. destruct (ablit_some x (lrecoff f + 2) r) as (y & Hy & Hyok); [done|lia|lia|].
    exists y. split; [done|]. apply rep_snoc with (extra := []) (x := concat ps ++ x); rewrite ?Hl1; try done.
    + by apply Forall_app_2; [|constructor].
    + by destruct ps.
    + rewrite app_nil_r, Hfin, Eps, Hc1. by apply ablit_app_r.
    + rewrite Hfin, Hc1, <- Z.add_assoc. by apply ablit_app_r.
    + rewrite Hfin, (lenZ_concat _ Hps). unfold SPOOL_DATA_SIZE. lia.
    + unfold even_up. clear -Hlm. divlia.
    + unfold even_up, SPOOL_DATA_SIZE in *. clear -Hlm Hl Hfit H. divlia.
    + lia.
  - intros Hleft2 Hfit. destruct (ablit_some fresh 0 r) as (z & Hz & Hzok); [done|lia|lia|].
    exists z. split; [done|]. apply rep_snoc with (extra := fresh) (x := (concat ps ++ x) ++ fresh); rewrite ?Hl2; try done.
    + apply Forall_app_2; [|by constructor]. by apply Forall_app_2; [|constructor].
    + by destruct ps.
    + rewrite Hfin, Eps, Hc1. apply ablit_app_l. by apply ablit_app_r.
    + rewrite Hfin, concat_app, Hc1. cbn [concat]. rewrite app_nil_r.
      replace (lenZ (concat ps) + lrecoff f + 2) with (lenZ (concat ps ++ x) + 0)
        by (rewrite lenZ_app, Hxok; lia). by apply ablit_app_r.
    + rewrite Hfin, (lenZ_concat _ Hps). unfold even_up, SPOOL_DATA_SIZE in *. clear -Hleft2. divlia.
    + apply even_up_bounds; lia.
    + unfold even_up, SPOOL_DATA_SIZE in *. clear -Hfit Hr. divlia.
    + lia.
Qed.

Lemma align_even loff : 0 <= loff -> (if negb (loff mod 2 =? 0) then loff + 1 else loff) = even_up loff.
Proof. intros. unfold even_up. case_bool; cbn [negb]; divlia. Qed.

Lemma spool_append_spec fresh avail k f rs m buf r :
  k < 2 ^ 32 -> page_ok fresh -> avail <> 0%nat -> rep k f rs -> 0 < lenZ r < 2 ^ 16 ->
  aslice m buf (lenZ r) = Some r -> kept_whole f (lenZ r) = true ->
  exists f', spool_append_rec fresh avail f m buf (lenZ r) = Ret (0, f') /\ rep (k + 1) f' (rs ++ [r]).
Proof.
  intros Hk Hfr Hav Hrep Hr Hm Hwhole. pose proof Hrep as [Hp Hrc Hnp Hbd Hw].
  assert (lrecoff f mod 2 = 0 /\ 0 <= lrecoff f <= SPOOL_DATA_SIZE) as [Hlm Hlr].
  { destruct (pages_data f); [|lia]. destruct Hw as (_ & _ & [-> | ->]); unfold SPOOL_DATA_SIZE; split; (done || lia). }
  unfold spool_append_rec. destruct (Z.eqb_spec (lenZ r) 0); [lia|]. rewrite Hlm.
  cbn [bug_on negb Z.eqb mbind outcome_bind]. unfold kept_whole in Hwhole.
  rewrite (wrap_small 32 (_ - lrecoff f)) by (unfold SPOOL_DATA_SIZE in *; lia).
  pose proof (lenZ_nonneg rs).
  assert (forall n, 0 <= n <= lenZ (pages_data f) + 1 -> u64 n = n) as Hu by (intros; apply wrap_small; lia).
  assert (u64 (recs f + 1) = lenZ rs + 1) as Hur by (rewrite Hrc; apply wrap_small; lia). rewrite Hur.
  destruct (negb (npages f =? 0) && (SPOOL_DATA_SIZE - lrecoff f >=? 2)) eqn:Ecase.
  - apply andb_true_iff in Ecase as [Hn%negb_true_iff%Z.eqb_neq Hge%Z.geb_le].
    destruct (append_last_page fresh k f rs r) as (ps & d & x & Eps & Hlast & Hd & Hx & Hdx & Hin & Hout); try done; [lia|].
    rewrite Hlast. cbn [defined mbind outcome_bind]. rewrite put_u16_spec, Hdx by lia. cbn [defined mbind outcome_bind].
    assert (forall y, set_last (pages_data f) y = ps ++ [y]) as Hsl
      by (intros; unfold set_last; rewrite Eps; f_equal; apply removelast_last).
    apply orb_true_iff in Hwhole as [Hfit%Z.leb_le|[Hleft2%Z.eqb_eq Hfit%Z.leb_le]%andb_true_iff].
    + destruct Hin as (y & Hy & Hrep'); [lia|].
      destruct (Z.eqb_spec (SPOOL_DATA_SIZE - lrecoff f - 2) 0); [lia|]. cbn [negb].
      rewrite Z.min_l by lia. rewrite (memcpy_spec _ _ _ _ _ Hm), Hy. cbn [defined mbind outcome_bind].
      rewrite Hsl. rewrite (Z.add_comm 2 (lenZ r)). destruct (Z.ltb_spec (lenZ r + 2) (lenZ r + 2)); [lia|].
      cbn [bug_on mbind outcome_bind]. rewrite append_loop_done by lia. cbn [mbind outcome_bind].
      eexists. split; [done|]. rewrite app_nil_r, align_even by lia.
      assert (even_up (lrecoff f + (lenZ r + 2)) = lrecoff f + even_up (2 + lenZ r)) as ->
        by (unfold even_up; clear -Hlm; divlia).
      assert (u64 (npages f + lenZ (@nil (list Z))) = lenZ (ps ++ [y])) as ->.
      { rewrite Hnp, Hu by (change (lenZ (@nil (list Z))) with 0; pose proof (lenZ_nonneg (pages_data f)); lia).
        rewrite Eps, !lenZ_app. unfold lenZ. simpl. lia. }
      pose proof (rp_where _ _ _ Hrep') as Hw'. cbn [pages_data lrecoff frecoff] in Hw'.
      rewrite (wrap_small 16); [done|].
      destruct (ps ++ [y]) eqn:Ey; [by destruct ps|]. unfold SPOOL_DATA_SIZE in *. lia.
    + destruct Hout as (z & Hz & Hrep'); [lia..|].
      replace (SPOOL_DATA_SIZE - lrecoff f - 2) with 0 by lia. cbn [negb Z.eqb mbind outcome_bind].
      rewrite Hsl. destruct (Z.ltb_spec (lenZ r + 2) 2); [lia|]. cbn [bug_on mbind outcome_bind].
      rewrite (append_loop_one fresh avail m buf r 2 (lrecoff f + 2) z) by (try done; right; split_and!; done || lia).
      cbn [mbind outcome_bind]. eexists. split; [done|]. rewrite align_even by lia.
      replace (lenZ r + 2 - 2) with (lenZ r) by lia.
      assert (u64 (npages f + lenZ [z]) = lenZ ((ps ++ [x]) ++ [z])) as ->.
      { rewrite Hnp, Hu by (change (lenZ [z]) with 1; pose proof (lenZ_nonneg (pages_data f)); lia).
        rewrite Eps, !lenZ_app. unfold lenZ. simpl. lia. }
      rewrite (wrap_small 16); [done|]. pose proof (even_up_bounds (lenZ r)). unfold SPOOL_DATA_SIZE in *. lia.
  - apply Z.leb_le in Hwhole.
    destruct (append_new_page fresh k f rs r) as (d0 & d & Hd0 & Hd & Hrep'); try done.
    { apply andb_false_iff in Ecase as [E%negb_false_iff%Z.eqb_eq|E]; [by left|right].
      rewrite Z.geb_leb in E. apply Z.leb_gt in E. unfold SPOOL_DATA_SIZE in *. clear -E Hlm Hlr. divlia. }
    cbn [mbind outcome_bind]. destruct (Z.ltb_spec (lenZ r + 2) 0); [lia|]. cbn [bug_on mbind outcome_bind].
    rewrite (append_loop_one fresh avail m buf r 0 0 d) by (try done; left; eauto).
    cbn [mbind outcome_bind]. eexists. split; [done|]. rewrite align_even by lia.
    replace (lenZ r + 2 - 0) with (2 + lenZ r) by lia.
    assert (u64 (npages f + lenZ [d]) = lenZ (pages_data f ++ [d])) as ->.
    { rewrite Hnp, Hu by (change (lenZ [d]) with 1; pose proof (lenZ_nonneg (pages_data f)); lia).
      by rewrite lenZ_app. }
    rewrite (wrap_small 16); [done|]. pose proof (even_up_bounds (2 + lenZ r)). unfold SPOOL_DATA_SIZE in *. lia.
Qed.

Lemma spool_grab_empty k f buf L :
  rep k f [] -> 0 < L -> spool_grab_rec f buf L = Ret (- ENOENT, L, buf, f).
Proof.
  intros [_ Hrc _ _ _] HL. unfold spool_grab_rec. rewrite Hrc. destruct (Z.eqb_spec L 0); [lia|done].
Qed.

Lemma rep_alloc : rep 0 alloc_spool [].
Proof. split; cbn; auto. done. Qed.

Lemma rep_nrecs k f rs : rep k f rs -> spool_nrecs f = lenZ rs.
Proof. apply rp_recs. Qed.

Lemma rep_weaken k k' f rs : k <= k' -> rep k f rs -> rep k' f rs.
Proof. intros ? []. split; try done. lia. Qed.

(** ** Sequences of calls *)

Inductive call : Type :=
  | Append (r : list Z)
  | Grab_rec (L : Z).

(** a call's result code and the bytes it delivers *)
Definition do_call (fresh : list Z) (c : call) (f : spool_file) : outcome ((Z * list Z) * spool_file) :=
  match c with
  | Append r => '(ret, f) ← spool_append_rec fresh 1 f r 0 (lenZ r); Ret ((ret, []), f)
  | Grab_rec L =>
      '(ret, n, buf, f) ← spool_grab_rec f (replicate (Z.to_nat L) 0) L;
      Ret ((ret, if ret =? 0 then take (Z.to_nat n) buf else []), f)
  end.

Fixpoint do_calls (fresh : list Z) (cs : list call) (f : spool_file) : outcome (list (Z * list Z) * spool_file) :=
  match cs with
  | [] => Ret ([], f)
  | c :: cs => '(o, f) ← do_call fresh c f; '(os, f) ← do_calls fresh cs f; Ret (o :: os, f)
  end.

(** the specification: a queue of records *)
Definition queue_call (c : call) (q : list (list Z)) : (Z * list Z) * list (list Z) :=
  match c, q with
  | Append r, _ => ((0, []), q ++ [r])
  | Grab_rec L, [] => ((- ENOENT, []), [])
  | Grab_rec L, r :: q => ((0, take (Z.to_nat L) r), q)
  end.

Fixpoint queue_calls (cs : list call) (q : list (list Z)) : list (Z * list Z) * list (list Z) :=
  match cs with
  | [] => ([], q)
  | c :: cs => let '(o, q) := queue_call c q in let '(os, q) := queue_calls cs q in (o :: os, q)
  end.

Definition call_ok (c : call) : Prop :=
  match c with Append r => 0 < lenZ r < 2 ^ 16 | Grab_rec L => 0 < L < 2 ^ 16 end.

(** no record of the sequence is split over two pages *)
Fixpoint all_whole (fresh : list Z) (cs : list call) (f : spool_file) : bool :=
  match cs with
  | [] => true
  | c :: cs =>
      (match c with Append r => kept_whole f (lenZ r) | Grab_rec _ => true end) &&
      (match do_call fresh c f with Ret (_, f) => all_whole fresh cs f | _ => false end)
  end.

Lemma do_call_spec fresh k f q c :
  k < 2 ^ 32 -> page_ok fresh -> rep k f q -> call_ok c ->
  (match c with Append r => kept_whole f (lenZ r) = true | Grab_rec _ => True end) ->
  exists f', do_call fresh c f = Ret ((queue_call c q).1, f') /\ rep (k + 1) f' (queue_call c q).2.
Proof.
  intros Hk Hfr Hrep Hok Hw. destruct c as [r|L]; cbn [call_ok do_call] in *.
  - destruct (spool_append_spec fresh 1 k f q r 0 r) as (f' & -> & Hrep'); try done; [apply aslice_full|].
    by exists f'.
  - destruct q as [|r q].
    + rewrite (spool_grab_empty k) by (done || lia). exists f. split; [done|]. apply rep_weaken with k; [lia|done].
    + destruct (spool_grab_spec k f r q (replicate (Z.to_nat L) 0) L) as (f' & -> & Hrep'); try done.
      { unfold lenZ. rewrite length_replicate. lia. }
      exists f'. split; [|apply rep_weaken with k; [lia|done]]. cbn [mbind outcome_bind Z.eqb queue_call fst].
      unfold truncated. rewrite take_app_length' by (rewrite length_take; unfold lenZ; lia).
      do 3 f_equal. destruct (Z.min_spec L (lenZ r)) as [[? ->]|[? ->]]; [done|].
      unfold lenZ in *. rewrite !take_ge by lia. done.
Qed.

(** C10: As long as no record is split over two pages, any sequence of appends
    and grabs on a new spool file, one page being available to each append,
    behaves as a queue: every append succeeds, every grab gives the oldest
    record, cut at the caller's length, or [-ENOENT] when there is none, and
    [spool_nrecs] counts the records left. *)
Theorem spool_is_fifo fresh cs :
  page_ok fresh -> Forall call_ok cs -> lenZ cs < 2 ^ 32 -> all_whole fresh cs alloc_spool = true ->
  exists f, do_calls fresh cs alloc_spool = Ret ((queue_calls cs []).1, f) /\
            spool_nrecs f = lenZ (queue_calls cs []).2.
Proof.
  intros Hfr Hcs Hn Hw.
  cut (exists f, do_calls fresh cs alloc_spool = Ret ((queue_calls cs []).1, f) /\
         rep (0 + lenZ cs) f (queue_calls cs []).2).
  { intros (f & -> & Hrep). exists f. split; [done|]. by eapply rep_nrecs. }
  pose proof rep_alloc as Hrep. assert (0 + lenZ cs < 2 ^ 32) as Hk by lia. clear Hn. revert Hrep Hk Hw.
  generalize alloc_spool (@nil (list Z)) 0.
  induction Hcs as [|c cs Hc _ IH]; intros f q k Hrep Hk Hw; cbn [do_calls queue_calls all_whole] in *.
  { exists f. split; [done|]. change (lenZ []) with 0. by rewrite Z.add_0_r. }
  assert (lenZ (c :: cs) = lenZ cs + 1) as Hl by (unfold lenZ; simpl; lia). pose proof (lenZ_nonneg cs).
  apply andb_true_iff in Hw as [Hw1 Hw2].
  destruct (do_call_spec fresh k f q c) as (f1 & E1 & Hrep1); try done; [lia|by destruct c|].
  rewrite E1 in *. destruct (queue_call c q) as [o q1]. cbn [fst snd mbind outcome_bind] in *.
  destruct (IH f1 q1 (k + 1)) as (f2 & -> & Hrep2); try done; [lia|].
  destruct (queue_calls cs q1) as [os q2]. cbn [fst snd mbind outcome_bind] in *.
  exists f2. split; [done|]. by replace (k + lenZ (c :: cs)) with (k + 1 + lenZ cs) by lia.
Qed.

(** records filling a page up to its last two bytes, one that continues in the next page, and grabs *)
Definition sample_calls : list call :=
  Append [1; 2; 3] :: Grab_rec 2 :: Grab_rec 8 ::
  map (fun i => Append (replicate 253 i)) (map Z.of_nat (seq 0 15)) ++
  [Append (replicate 230 77); Append (replicate 300 5); Grab_rec 300; Grab_rec 20].

Lemma spool_is_fifo_witness :
  exists f, do_calls (replicate 4080 0) sample_calls alloc_spool = Ret ((queue_calls sample_calls []).1, f) /\
            spool_nrecs f = lenZ (queue_calls sample_calls []).2.
Proof.
  apply (spool_is_fifo (replicate 4080 0) sample_calls).
  - vm_compute. reflexivity.
  - unfold sample_calls. cbn [map seq app Z.of_nat Pos.of_succ_nat Pos.succ].
    repeat (apply Forall_cons; split; [vm_compute; split; reflexivity|]). apply Forall_nil. done.
  - vm_compute. reflexivity.
  - vm_compute. reflexivity.
Defined.

(** A record whose data is split over the last page and a new one: the new
    page does not receive the record's remaining bytes [buf + (left - 2)..], but
    as many bytes from [buf - (left - 2)] on, what lies before the caller's
    buffer ([buf-copied+2] in the code). *)
Theorem split_record_bytes fresh avail k f rs m buf len a b :
  k < 2 ^ 32 -> page_ok fresh -> avail <> 0%nat -> rep k f rs -> 0 < len < 2 ^ 16 -> npages f <> 0 ->
  let left := SPOOL_DATA_SIZE - lrecoff f in
  2 < left < len + 2 -> len + 2 - left <= SPOOL_DATA_SIZE ->
  aslice m buf (left - 2) = Some a -> aslice m (buf - (left - 2)) (len + 2 - left) = Some b ->
  exists f' page, spool_append_rec fresh avail f m buf len = Ret (0, f') /\
    last (pages_data f') = Some page /\ aslice page 0 (len + 2 - left) = Some b.
Proof.
  intros Hk Hfr Hav Hrep Hlen Hn left Hleft Hrest Ha Hb. subst left.
  destruct (last_page _ _ _ Hrep Hn) as (ps & d & Eps & Hlast & Hd & Hps & Hfin & Hlm & Hl).
  pose proof (aslice_lenZ _ _ _ _ Ha) as Hla. pose proof (aslice_lenZ _ _ _ _ Hb) as Hlb.
  unfold spool_append_rec. destruct (Z.eqb_spec len 0); [lia|]. rewrite Hlm.
  cbn [bug_on negb Z.eqb mbind outcome_bind].
  rewrite (wrap_small 32 (_ - lrecoff f)) by (unfold SPOOL_DATA_SIZE in *; lia).
  destruct (Z.eqb_spec (npages f) 0); [done|]. destruct (Z.geb_spec (SPOOL_DATA_SIZE - lrecoff f) 2); [|lia].
  cbn [negb andb]. rewrite Hlast. cbn [defined mbind outcome_bind]. unfold put_u16.
  destruct (ablit_some d (lrecoff f) [u8 (len ≫ 8); u8 len]) as (x & -> & Hx);
    [done|lia|unfold lenZ; simpl; lia|]. cbn [defined mbind outcome_bind].
  destruct (Z.eqb_spec (SPOOL_DATA_SIZE - lrecoff f - 2) 0); [lia|]. cbn [negb].
  rewrite Z.min_r by lia. unfold memcpy at 1. rewrite Ha. cbn [defined mbind outcome_bind].
  destruct (ablit_some x (lrecoff f + 2) a) as (y & -> & Hy); [done|lia|lia|]. cbn [defined mbind outcome_bind].
  rewrite (proj2 (Z.ltb_ge _ _)) by lia. cbn [bug_on mbind outcome_bind].
  destruct avail as [|avail]; [done|]. cbn [append_loop].
  unfold SPOOL_DATA_SIZE in *. rewrite (wrap_small 32 (2 + _)) by lia.
  destruct (Z.eqb_spec (len + 2) (2 + (4096 - 16 - lrecoff f - 2))); [lia|].
  destruct (Z.eqb_spec (2 + (4096 - 16 - lrecoff f - 2)) 0); [lia|]. cbv zeta.
  rewrite (wrap_small 32 (len + 2 - _)) by lia. rewrite Z.min_l by lia.
  unfold memcpy. replace (buf - (2 + (4096 - 16 - lrecoff f - 2)) + 2) with (buf - (4096 - 16 - lrecoff f - 2)) by lia.
  replace (len + 2 - (2 + (4096 - 16 - lrecoff f - 2))) with (len + 2 - (4096 - 16 - lrecoff f)) by lia.
  rewrite Hb. cbn [defined mbind outcome_bind].
  destruct (ablit_some fresh 0 b) as (z & Hz & Hzok); [done|lia|unfold SPOOL_DATA_SIZE; lia|].
  rewrite Hz. cbn [defined mbind outcome_bind]. rewrite swrap_small by lia.
  replace (2 + (4096 - 16 - lrecoff f - 2) + (len + 2 - (4096 - 16 - lrecoff f))) with (len + 2) by lia.
  rewrite append_loop_done by lia. cbn [mbind outcome_bind app]. do 2 eexists. split; [done|].
  split; [apply last_snoc|]. rewrite <- Hlb. apply (aslice_ablit _ _ _ _ Hz).
Qed.

(** one record of 4000 bytes, then one of 200 bytes at [buf] = 100 in memory *)
Definition sample_file : spool_file :=
  SpoolFile [[15; 160] ++ replicate 4000 9 ++ replicate 78 0] 1 1 0 4002.

Lemma sample_file_rep : rep 1 sample_file [replicate 4000 9].
Proof.
  split.
  - constructor; [|done]. vm_compute. reflexivity.
  - reflexivity.
  - reflexivity.
  - by vm_compute.
  - split_and!; by vm_compute.
Qed.

Lemma split_record_bytes_witness :
  exists f' page, spool_append_rec (replicate 4080 0) 1 sample_file (replicate 100 1 ++ replicate 200 2) 100 200 = Ret (0, f') /\
    last (pages_data f') = Some page /\ aslice page 0 124 = Some (replicate 76 1 ++ replicate 48 2).
Proof.
  apply (split_record_bytes (replicate 4080 0) 1 1 sample_file [replicate 4000 9] _ 100 200 (replicate 76 2) _).
  - done.
  - by vm_compute.
  - done.
  - apply sample_file_rep.
  - done.
  - done.
  - done.
  - done.
  - by vm_compute.
  - vm_compute. reflexivity.
Defined.
