(* ===== verification/Mutex.v ===== *)
(** cp/nucleus/mutex.c, cp/nucleus/spinlock.c and their headers: sleeping
    mutexes on one processor with preemptive tasks.

    Each task is a program counter inside [mutex_lock] or [mutex_unlock]; every
    access to shared memory (an atomic operation on the mutex's state, the
    compare-and-swap of its queue lock, a change of its queue or of the list of
    runnable tasks) is one step, and between any two steps the timer may preempt
    the running task ([__schedule], Sched.v).  [exec] is the running task's next
    step.  Linking a task that is already on the run queue a second time destroys
    that list (the links are in the task); [exec] is undefined there.  The
    theorems: mutual exclusion and no forgotten waiter as long as that does not
    happen, and a run in which it does. *)

From stdpp Require Import functions.
From S2P Require Import Prelude.

Local Open Scope Z_scope.

Abbreviation task := nat (only parsing).

(** where a task is *)
Inductive pc : Type :=
  | Outside            (* not using the mutex *)
  | LockFast           (* mutex_lock: atomic_add_unless *)
  | SlowSpin           (* __mutex_lock_slow: spin_lock(&lock->queue_lock) *)
  | SlowRetry          (* atomic_add_unless again *)
  | SlowGot            (* spin_unlock, then return with the mutex *)
  | SlowEnqueue        (* list_add_tail(&current->blocked_list, &lock->queue) *)
  | SlowRelease        (* spin_unlock *)
  | SlowBlock          (* schedule_blocked() *)
  | Asleep             (* TASK_LOCKED, inside schedule_blocked *)
  | Critical           (* holds the mutex *)
  | UnlockSpin         (* mutex_unlock: spin_lock(&lock->queue_lock) *)
  | UnlockLook         (* list_empty(&lock->queue), or dequeue the first *)
  | UnlockInc          (* atomic_inc(&lock->state) *)
  | UnlockRelease      (* spin_unlock, return *)
  | UnlockHand (t : task)  (* spin_unlock after dequeuing t *)
  | UnlockWake (t : task). (* make_runnable(t) *)

#[global] Instance pc_eq_dec : EqDecision pc.
Proof. solve_decision. Defined.

(** [mutex_t] *)
Record mutex := Mutex {
  state : Z;
  queue : list task;
  queue_lock : bool;
}.

Definition mutex_init : mutex := Mutex 1 [] false.

Record sys := Sys {
  lock : mutex;
  current : option task;   (* None: the idle task *)
  runnable : list task;
  pcs : task -> pc;
}.

Definition set_state (m : mutex) (v : Z) : mutex := Mutex v (queue m) (queue_lock m).
Definition set_queue (m : mutex) (q : list task) : mutex := Mutex (state m) q (queue_lock m).
Definition set_lock (m : mutex) (b : bool) : mutex := Mutex (state m) (queue m) b.

(** the running task changes the mutex and goes to [p] *)
Definition goto (s : sys) (i : task) (m : mutex) (p : pc) : sys :=
  Sys m (current s) (runnable s) (<[i := p]> (pcs s)).

(** [atomic_add_unless(&lock->state, -1, 0)]: the new value and the result *)
Definition atomic_add_unless (v a u : Z) : Z * bool := if v =? u then (v, false) else (s32 (v + a), true).

(** [__sched]: the head of the run queue, or the idle task *)
Definition sched (m : mutex) (run : list task) (p : task -> pc) : sys :=
  match run with
  | [] => Sys m None [] p
  | t :: run => Sys m (Some t) run p
  end.

(** [make_runnable]; a task already linked must not be linked again *)
Definition make_runnable (s : sys) (t : task) : outcome sys :=
  if decide (t ∈ runnable s) then Undef
  else Ret (Sys (lock s) (current s) (runnable s ++ [t]) (pcs s)).

(** one step of [mutex_lock] ... [mutex_unlock] by the running task *)
Definition exec (s : sys) : outcome sys :=
  let m := lock s in
  match current s with
  | None => Ret (sched m (runnable s) (pcs s))
  | Some i =>
      match pcs s i with
      | Outside => Ret (goto s i m LockFast)
      | LockFast =>
          let '(v, ok) := atomic_add_unless (state m) (-1) 0 in
          Ret (goto s i (set_state m v) (if ok then Critical else SlowSpin))
      | SlowSpin =>
          if queue_lock m then Ret s else Ret (goto s i (set_lock m true) SlowRetry)
      | SlowRetry =>
          let '(v, ok) := atomic_add_unless (state m) (-1) 0 in
          Ret (goto s i (set_state m v) (if ok then SlowGot else SlowEnqueue))
      | SlowGot => Ret (goto s i (set_lock m false) Critical)
      | SlowEnqueue => Ret (goto s i (set_queue m (queue m ++ [i])) SlowRelease)
      | SlowRelease => Ret (goto s i (set_lock m false) SlowBlock)
      | SlowBlock => Ret (sched m (runnable s) (<[i := Asleep]> (pcs s)))
      | Asleep => Ret (goto s i m Critical)
      | Critical => Ret (goto s i m UnlockSpin)
      | UnlockSpin =>
          if queue_lock m then Ret s else Ret (goto s i (set_lock m true) UnlockLook)
      | UnlockLook =>
          match queue m with
          | [] => Ret (goto s i m UnlockInc)
          | t :: q => Ret (goto s i (set_queue m q) (UnlockHand t))
          end
      | UnlockInc => Ret (goto s i (set_state m (s32 (state m + 1))) UnlockRelease)
      | UnlockRelease => Ret (goto s i (set_lock m false) Outside)
      | UnlockHand t => Ret (goto s i (set_lock m false) (UnlockWake t))
      | UnlockWake t => make_runnable (goto s i m Outside) t
      end
  end.

(** the timer interrupt: the running task goes to the end of the run queue *)
Definition preempt (s : sys) : sys :=
  match current s with
  | None => sched (lock s) (runnable s) (pcs s)
  | Some i => sched (lock s) (runnable s ++ [i]) (pcs s)
  end.

(** the same when [__schedule] forces the idle task *)
Definition preempt_idle (s : sys) : sys :=
  match current s with
  | None => sched (lock s) (runnable s) (pcs s)
  | Some i => Sys (lock s) None (runnable s ++ [i]) (pcs s)
  end.

Inductive step : sys -> sys -> Prop :=
  | step_exec s s' : exec s = Ret s' -> step s s'
  | step_preempt s : step s (preempt s)
  | step_preempt_idle s : step s (preempt_idle s).

(** a new mutex and tasks that do not use it yet *)
Definition initial (tasks : list task) : sys := Sys mutex_init None tasks (fun _ => Outside).

Definition reachable (tasks : list task) : sys -> Prop := rtc step (initial tasks).

(** * The invariant *)

(** the program counters at which a task owns the mutex, or is handing it on *)
Definition owns_pc (p : pc) : bool :=
  match p with
  | SlowGot | Critical | UnlockSpin | UnlockLook | UnlockInc | UnlockHand _ | UnlockWake _ => true
  | _ => false
  end.

(** ready or running *)
Definition alive (s : sys) (i : task) : Prop := current s = Some i \/ i ∈ runnable s.

(** a task owns the mutex: by its own progress, or because it was woken *)
Definition owns (s : sys) (i : task) : Prop :=
  owns_pc (pcs s i) = true \/ (pcs s i = Asleep /\ alive s i).

(** holding the queue's spin lock *)
Definition spins_pc (p : pc) : bool :=
  match p with
  | SlowRetry | SlowGot | SlowEnqueue | SlowRelease | UnlockLook | UnlockInc | UnlockRelease | UnlockHand _ => true
  | _ => false
  end.

(** the task a program counter is about to wake *)
Definition wakes (p : pc) : option task :=
  match p with UnlockHand t | UnlockWake t => Some t | _ => None end.

Record inv (s : sys) : Prop := Inv {
  i_state : state (lock s) = 0 \/ state (lock s) = 1;
  i_owner : forall i, owns s i -> state (lock s) = 0;
  i_one : forall i j, owns s i -> owns s j -> i = j;
  i_some : state (lock s) = 0 -> exists i, owns s i;
  i_spin : forall i, spins_pc (pcs s i) = true -> queue_lock (lock s) = true;
  i_spin1 : forall i j, spins_pc (pcs s i) = true -> spins_pc (pcs s j) = true -> i = j;
  i_queue : NoDup (queue (lock s));
  i_waiter : forall i, i ∈ queue (lock s) -> pcs s i = SlowRelease \/ pcs s i = SlowBlock \/ (pcs s i = Asleep /\ ~ alive s i);
  i_handed : forall i t, wakes (pcs s i) = Some t ->
    t ∉ queue (lock s) /\ (pcs s t = SlowBlock \/ (pcs s t = Asleep /\ ~ alive s t));
  i_waiting : queue (lock s) <> [] -> state (lock s) = 0;
  i_inc : forall i, pcs s i = UnlockInc -> queue (lock s) = [];
  i_enq : forall i, pcs s i = SlowEnqueue -> state (lock s) = 0;
  i_alive : forall i, pcs s i <> Outside -> pcs s i <> Asleep -> alive s i;
  i_run : NoDup (runnable s);
  i_cur : forall i, current s = Some i -> i ∉ runnable s;
}.

(** the invariant does not depend on the order of the run queue *)
Lemma inv_same s s' :
  inv s -> lock s' = lock s -> pcs s' = pcs s -> NoDup (runnable s') ->
  (forall j, current s' = Some j -> j ∉ runnable s') -> (forall j, alive s' j <-> alive s j) -> inv s'.
Proof.
  intros [] El Ep Hrun Hcur Ha.
  assert (forall j, owns s' j <-> owns s j) as Ho by (intros j; unfold owns; by rewrite Ha, Ep).
  split; rewrite ?El, ?Ep; try done; try (setoid_rewrite Ho); try (setoid_rewrite Ha); done.
Qed.

(** a scheduler that keeps the tasks alive *)
Lemma inv_sched s run :
  inv s -> NoDup run -> (forall j, j ∈ run <-> alive s j) ->
  inv (sched (lock s) run (pcs s)) /\ inv (Sys (lock s) None run (pcs s)).
Proof.
  intros Hinv Hrun Hal. split; apply (inv_same s); try done; try (by destruct run).
  - destruct run; [done|]. by apply NoDup_cons in Hrun as [_ ?].
  - intros j. destruct run as [|t run]; [done|]. intros [= <-]. by apply NoDup_cons in Hrun as [? _].
  - intros j. rewrite <- Hal. unfold alive, sched. destruct run as [|t run]; simpl.
    + split; [intros [?|?]; [done|done]|by right].
    + rewrite elem_of_cons. naive_solver.
  - intros j. rewrite <- Hal. unfold alive. simpl. naive_solver.
Qed.

Ltac fn_cases :=
  repeat match goal with
  | H : context [<[?i := _]> _ ?j] |- _ =>
      destruct (decide (i = j)); [subst; rewrite fn_lookup_insert in H | rewrite fn_lookup_insert_ne in H by done]
  | |- context [<[?i := _]> _ ?j] =>
      destruct (decide (i = j)); [subst; rewrite fn_lookup_insert | rewrite fn_lookup_insert_ne by done]
  end.

Section running.
Context (s : sys) (i : task) (m : mutex) (p : pc).
Context (Hinv : inv s) (Hcur : current s = Some i) (Hp : p <> Asleep).

Lemma alive_goto j : alive (goto s i m p) j <-> alive s j.
Proof. done. Qed.

Lemma owns_goto j : owns (goto s i m p) j <-> (j = i /\ owns_pc p = true) \/ (j <> i /\ owns s j).
Proof. unfold owns, alive. cbn [goto pcs current runnable]. fn_cases; naive_solver. Qed.

(** ownership stays, is taken from the free mutex, or given up *)
Definition own_change : Prop :=
  (state m = state (lock s) /\ (owns_pc p = true <-> owns s i)) \/
  (state (lock s) = 1 /\ state m = 0 /\ owns_pc p = true) \/
  (owns s i /\ state m = 1 /\ owns_pc p = false).

Lemma own_goto : own_change ->
  (state m = 0 \/ state m = 1) /\
  (forall j, owns (goto s i m p) j -> state m = 0) /\
  (forall j k, owns (goto s i m p) j -> owns (goto s i m p) k -> j = k) /\
  (state m = 0 -> exists j, owns (goto s i m p) j).
Proof.
  pose proof (i_state _ Hinv) as H1. pose proof (i_owner _ Hinv) as H2.
  pose proof (i_one _ Hinv) as H3. pose proof (i_some _ Hinv) as H4. setoid_rewrite owns_goto.
  intros [[-> E]|[(E1 & -> & E3)|(E1 & -> & E3)]].
  - split_and!; [done|naive_solver|naive_solver|]. intros [j Hj]%H4. exists j.
    destruct (decide (j = i)) as [->|]; [left; tauto|by right].
  - assert (forall j, ~ owns s j) by (intros j Hj; specialize (H2 j Hj); lia).
    split_and!; [by left|done| |intros _; exists i; by left].
    intros j k [[-> _]|[_ Hj]] [[-> _]|[_ Hk]]; [done|by destruct (H k)|by destruct (H j)|by destruct (H j)].
  - assert (forall j, owns s j -> j = i) by (intros; by apply H3).
    assert (forall j, ~ ((j = i /\ owns_pc p = true) \/ (j <> i /\ owns s j))) as Hno.
    { intros j [[_ Hj]|[Hne Hj]]; [congruence|]. by apply Hne, H. }
    split_and!; [by right|intros j Hj|intros j k Hj|done]; by destruct (Hno j).
Qed.

(** the spin lock stays, is taken when free, or released by its holder *)
Definition spin_change : Prop :=
  (queue_lock m = queue_lock (lock s) /\ spins_pc p = spins_pc (pcs s i)) \/
  (queue_lock (lock s) = false /\ queue_lock m = true) \/
  (spins_pc (pcs s i) = true /\ spins_pc p = false).

Lemma spin_goto : spin_change ->
  (forall j, spins_pc (pcs (goto s i m p) j) = true -> queue_lock m = true) /\
  (forall j k, spins_pc (pcs (goto s i m p) j) = true -> spins_pc (pcs (goto s i m p) k) = true -> j = k).
Proof.
  pose proof (i_spin _ Hinv) as H1. pose proof (i_spin1 _ Hinv) as H2. cbn [goto pcs].
  intros [[-> E]|[(E1 & ->)|(E1 & E2)]].
  - split; intros; fn_cases; try done; rewrite ?E in *; eauto.
  - assert (forall j, spins_pc (pcs s j) = false) as Hn.
    { intros j. destruct (spins_pc _) eqn:E; [|done]. apply H1 in E. congruence. }
    split; intros; [done|]. fn_cases; try done; rewrite ?Hn in *; done.
  - assert (forall j, i <> j -> spins_pc (pcs s j) = false) as Hn.
    { intros j Hij. destruct (spins_pc (pcs s j)) eqn:E; [|done]. destruct Hij. by apply H2. }
    split; intros; fn_cases; rewrite ?E2, ?Hn in * by done; done.
Qed.

Lemma cur_alive : alive s i.
Proof. by left. Qed.

(** the waiting tasks stay, [i] joins them, or the first is handed the mutex *)
Definition queue_change : Prop :=
  (queue m = queue (lock s) /\ (wakes p = None \/ wakes p = wakes (pcs s i)) /\
     (pcs s i <> SlowBlock) /\ (pcs s i = SlowRelease -> p = SlowBlock)) \/
  (queue m = queue (lock s) ++ [i] /\ pcs s i = SlowEnqueue /\ p = SlowRelease) \/
  (exists t, queue (lock s) = t :: queue m /\ pcs s i = UnlockLook /\ p = UnlockHand t).

Lemma queue_goto : queue_change ->
  NoDup (queue m) /\
  (forall j, j ∈ queue m -> pcs (goto s i m p) j = SlowRelease \/ pcs (goto s i m p) j = SlowBlock \/
     (pcs (goto s i m p) j = Asleep /\ ~ alive s j)) /\
  (forall j t, wakes (pcs (goto s i m p) j) = Some t ->
     t ∉ queue m /\ (pcs (goto s i m p) t = SlowBlock \/ (pcs (goto s i m p) t = Asleep /\ ~ alive s t))).
Proof.
  pose proof (i_queue _ Hinv) as H1. pose proof (i_waiter _ Hinv) as H2. pose proof (i_handed _ Hinv) as H3.
  pose proof cur_alive as Hal. pose proof (i_spin1 _ Hinv) as H4. cbn [goto pcs].
  intros [(-> & E1 & E2 & E3)|[(-> & E1 & ->)|(t & E1 & E2 & ->)]].
  - split_and!; [done| |].
    + intros j Hj%H2. fn_cases; [|done]. destruct Hj as [Hj|[Hj|[Hj Hn]]]; [|done|done]. right; left. by apply E3.
    + intros j t Hj. assert (exists j', wakes (pcs s j') = Some t) as [j' Hj'].
      { fn_cases; [|by exists j]. destruct E1 as [E1|E1]; [congruence|]. exists j. congruence. }
      destruct (H3 j' t Hj') as [Hq Ht]. split; [done|].
      destruct (decide (i = t)) as [<-|]; [|by rewrite fn_lookup_insert_ne].
      destruct Ht as [Ht|[Ht Hn]]; [done|]. by destruct Hn.
  - assert (i ∉ queue (lock s)) as Hi.
    { intros [Hj|[Hj|[Hj Hn]]]%H2; congruence. }
    split_and!.
    + apply NoDup_app. split_and!; [done| |apply NoDup_singleton]. intros j Hj Hj'.
      apply list_elem_of_singleton in Hj'. congruence.
    + intros j [Hj|Hj]%elem_of_app.
      * fn_cases; [by left|by apply H2].
      * apply list_elem_of_singleton in Hj as ->. rewrite fn_lookup_insert. by left.
    + intros j t Hj. destruct (decide (i = j)) as [<-|Hij]; [by rewrite fn_lookup_insert in Hj|].
      rewrite fn_lookup_insert_ne in Hj by done. destruct (H3 j t Hj) as [Hq Ht].
      assert (t <> i). { intros ->. destruct Ht as [Ht|[Ht _]]; congruence. }
      rewrite fn_lookup_insert_ne by done. split; [|done].
      rewrite elem_of_app, list_elem_of_singleton. naive_solver.
  - assert (t ∈ queue (lock s)) as Ht by (rewrite E1; left).
    rewrite E1 in H1. apply NoDup_cons in H1 as [Htq H1].
    split_and!; [done| |].
    + intros j Hj. assert (j ∈ queue (lock s)) as Hj' by (rewrite E1; by right).
      destruct (H2 j Hj') as [?|[?|[? ?]]]; fn_cases; try congruence; tauto.
    + intros j t' Hj. destruct (decide (i = j)) as [<-|Hij].
      * rewrite fn_lookup_insert in Hj. injection Hj as <-. split; [done|].
        assert (t <> i) by (intros ->; destruct (H2 i Ht) as [?|[?|[? ?]]]; congruence).
        rewrite fn_lookup_insert_ne by done. destruct (H2 t Ht) as [Hr|?]; [|done].
        exfalso. assert (i = t); [|done]. apply H4; [by rewrite E2|by rewrite Hr].
      * rewrite fn_lookup_insert_ne in Hj by done. destruct (H3 j t' Hj) as [Hq Ht'].
        split; [rewrite E1 in Hq; set_solver|].
        destruct (decide (i = t')) as [<-|]; [|by rewrite fn_lookup_insert_ne].
        destruct Ht' as [?|[? ?]]; congruence.
Qed.

Definition wait_change : Prop :=
  (state m = 1 -> queue m = []) /\ (p = UnlockInc -> queue m = []) /\ (p = SlowEnqueue -> state m = 0).

Lemma inv_goto : own_change -> spin_change -> queue_change ->
  (queue m <> [] -> state m = 0) ->
  (forall j, pcs (goto s i m p) j = UnlockInc -> queue m = []) ->
  (forall j, pcs (goto s i m p) j = SlowEnqueue -> state m = 0) -> inv (goto s i m p).
Proof.
  intros (? & ? & ? & ?)%own_goto (? & ?)%spin_goto (? & ? & ?)%queue_goto ???.
  split; try done.
  - intros j. cbn [goto pcs]. rewrite alive_goto. destruct (decide (i = j)) as [<-|]; [intros; apply cur_alive|].
    rewrite fn_lookup_insert_ne by done. apply Hinv.
  - apply Hinv.
  - cbn [goto current]. apply Hinv.
Qed.
End running.

(** a step of the running task other than falling asleep *)
Ltac goto_cases Hinv Epc Hspin1 :=
  apply inv_goto; unfold own_change, spin_change, queue_change; rewrite ?Epc;
    cbn [goto pcs state queue queue_lock set_state set_queue set_lock owns_pc spins_pc wakes];
  try done;
  try (intros j; match goal with |- context [<[?i := _]> _ j] =>
         destruct (decide (i = j)) as [<-|];
           [rewrite fn_lookup_insert; try done
           |rewrite fn_lookup_insert_ne by done; intros Hj;
            try (exfalso; match goal with H : i <> j |- _ => apply H, Hspin1; [by rewrite Epc|by rewrite Hj] end)]
       end).

(** [schedule_blocked] *)
Lemma inv_block s i : inv s -> current s = Some i -> pcs s i = SlowBlock ->
  inv (sched (lock s) (runnable s) (<[i := Asleep]> (pcs s))).
Proof.
  intros Hinv Hcur Epc. set (s1 := sched _ _ _).
  assert (lock s1 = lock s) as El by (unfold s1, sched; by destruct (runnable s)).
  assert (pcs s1 = <[i := Asleep]> (pcs s)) as Ep by (unfold s1, sched; by destruct (runnable s)).
  pose proof (i_cur _ Hinv i Hcur) as Hni.
  assert (forall j, alive s1 j <-> i <> j /\ alive s j) as Ha.
  { intros j. unfold alive. rewrite Hcur. unfold s1, sched. destruct (runnable s) as [|t r]; simpl.
    - set_solver.
    - rewrite !elem_of_cons in *. naive_solver. }
  assert (forall j, owns s1 j <-> owns s j) as Ho.
  { intros j. unfold owns. rewrite Ha, Ep. destruct (decide (i = j)) as [<-|].
    - rewrite fn_lookup_insert, Epc. naive_solver.
    - rewrite fn_lookup_insert_ne by done. naive_solver. }
  assert (forall j, pcs s1 j = if decide (i = j) then Asleep else pcs s j) as Hp.
  { intros j. rewrite Ep. case_decide as E; [subst; apply fn_lookup_insert|by apply fn_lookup_insert_ne]. }
  assert (forall j, pcs s j = SlowBlock \/ (pcs s j = Asleep /\ ~ alive s j) ->
            pcs s1 j = SlowBlock \/ (pcs s1 j = Asleep /\ ~ alive s1 j)) as Hw.
  { intros j Hj. rewrite Hp, Ha. case_decide; naive_solver. }
  assert (NoDup (runnable s1) /\ forall j, current s1 = Some j -> j ∉ runnable s1) as Hr.
  { pose proof (i_run _ Hinv) as Hn. unfold s1, sched. destruct (runnable s) as [|t r]; [done|].
    apply NoDup_cons in Hn as [? ?]. split; [done|]. by intros j [= <-]. }
  clearbody s1. destruct Hinv. split; rewrite ?El; try done; try (setoid_rewrite Ho; done).
  - intros j. rewrite Hp. case_decide; [done|]. apply i_spin0.
  - intros j k. rewrite !Hp. do 2 case_decide; try done. apply i_spin2.
  - intros j [Hj|Hj]%i_waiter0; [|right; by apply Hw]. rewrite Hp. case_decide; [congruence|by left].
  - intros j t. rewrite Hp. case_decide; [done|]. intros [Hq Ht]%i_handed0. split; [done|by apply Hw].
  - intros j. rewrite Hp. case_decide; [done|]. apply i_inc0.
  - intros j. rewrite Hp. case_decide; [done|]. apply i_enq0.
  - intros j. rewrite Hp, Ha. case_decide; [done|]. naive_solver.
  - by apply Hr.
  - by apply Hr.
Qed.

(** [make_runnable] of a task that is not linked *)
Lemma inv_wake s i t s' : inv s -> current s = Some i -> pcs s i = UnlockWake t ->
  make_runnable (goto s i (lock s) Outside) t = Ret s' -> inv s'.
Proof.
  intros Hinv Hcur Epc. unfold make_runnable. cbn [goto runnable current pcs lock].
  case_decide as Hd; [done|]. intros [= <-]. set (s1 := Sys _ _ _ _).
  destruct (i_handed _ Hinv i t) as [Htq Ht]; [by rewrite Epc|].
  assert (t <> i) as Hti by (intros ->; destruct Ht as [?|[? _]]; congruence).
  destruct Ht as [Ht|[Ht Hta]].
  { destruct (i_alive _ Hinv t) as [?|?]; [congruence..|done]. }
  assert (forall j, alive s1 j <-> alive s j \/ j = t) as Ha.
  { intros j. unfold alive, s1. cbn. rewrite elem_of_app, list_elem_of_singleton, Hcur. tauto. }
  assert (forall j, pcs s1 j = if decide (i = j) then Outside else pcs s j) as Hp.
  { intros j. unfold s1. cbn. case_decide as E; [subst; apply fn_lookup_insert|by apply fn_lookup_insert_ne]. }
  assert (owns s i) as Hown by (left; by rewrite Epc).
  assert (forall j, owns s1 j <-> j = t) as Ho.
  { intros j. unfold owns. rewrite Ha, Hp. case_decide as E; [naive_solver|].
    assert (~ owns s j) as Hno by (intros Hj; apply E; by eapply i_one). unfold owns in Hno.
    split; [naive_solver|]. intros ->. right. split; [done|by right]. }
  assert (state (lock s) = 0) as Hst by (by eapply i_owner).
  assert (forall j, pcs s j = SlowBlock \/ (pcs s j = Asleep /\ ~ alive s j) -> j <> t ->
            pcs s1 j = SlowBlock \/ (pcs s1 j = Asleep /\ ~ alive s1 j)) as Hw.
  { intros j Hj Hjt. rewrite Hp, Ha. case_decide as E; [subst; destruct Hj as [?|[? _]]; congruence|].
    destruct Hj as [?|[? ?]]; [by left|right]. split; [done|]. by intros [?|?]. }
  assert (lock s1 = lock s) as El by done.
  assert (NoDup (runnable s1) /\ forall j, current s1 = Some j -> j ∉ runnable s1) as Hr.
  { unfold s1. cbn. split.
    - apply NoDup_app. split_and!; [apply Hinv| |apply NoDup_singleton].
      intros j Hj Hj'. apply list_elem_of_singleton in Hj' as ->. done.
    - rewrite Hcur. intros j [= <-]. rewrite elem_of_app, list_elem_of_singleton.
      intros [?|?]; [|done]. by eapply i_cur. }
  clearbody s1. destruct Hinv. split; rewrite ?El; try done; try (setoid_rewrite Ho); try done.
  - intros j k -> ->. done.
  - intros _. by exists t.
  - intros j. rewrite Hp. case_decide; [done|]. apply i_spin0.
  - intros j k. rewrite !Hp. do 2 case_decide; try done. apply i_spin2.
  - intros j Hj. assert (j <> t) by congruence. destruct (i_waiter0 j Hj) as [Hj'|Hj']; [|right; by apply Hw].
    rewrite Hp. case_decide; [congruence|by left].
  - intros j t' Hj. rewrite Hp in Hj. case_decide as E; [done|].
    (* only the owner hands the mutex on *)
    exfalso. apply E. apply i_one0; [done|]. left. by destruct (pcs s j).
  - intros j. rewrite Hp. case_decide; [done|]. apply i_inc0.
  - intros j. rewrite Hp, Ha. case_decide; [done|]. naive_solver.
  - by apply Hr.
  - by apply Hr.
Qed.

(** the steps that keep the ownership, or take the mutex when it is free *)
Ltac goto_step s Hinv Epc Hspin1 Hst Hnown Hinc Henq E0 :=
  repeat match goal with
  | |- context [if queue_lock ?m then _ else _] => destruct (queue_lock m) eqn:?
  | |- context [if state (lock s) =? 0 then _ else _] =>
      destruct (Z.eqb_spec (state (lock s)) 0);
        [|assert (state (lock s) = 1) as Hs1 by tauto; rewrite Hs1, E0]
  end;
  intros [= <-]; try done; goto_cases Hinv Epc Hspin1;
  first
    [ left; split; [done|rewrite Hnown; split; [intros; by (left + right)|by intros [?|?]]]
    | left; split_and!; first [done | by left | by right]
    | by left | by right; left | by right; right | by eapply Hinc | by eapply Henq ].

Lemma inv_exec s s' : inv s -> exec s = Ret s' -> inv s'.
Proof.
  intros Hinv. unfold exec. destruct (current s) as [i|] eqn:Ecur.
  2:{ intros [= <-]. apply inv_sched; [done|apply Hinv|]. intros j. unfold alive. rewrite Ecur. naive_solver. }
  pose proof (i_state _ Hinv) as Hst. pose proof (i_waiting _ Hinv) as Hwait.
  pose proof (i_inc _ Hinv) as Hinc. pose proof (i_enq _ Hinv) as Henq. pose proof (i_spin1 _ Hinv) as Hspin1.
  assert (owns_pc (pcs s i) = true -> owns s i) as Hown by (by left).
  assert (owns s i <-> owns_pc (pcs s i) = true \/ pcs s i = Asleep) as Hnown.
  { unfold owns, alive. rewrite Ecur. naive_solver. }
  assert (forall j, owns s j -> state (lock s) = 0) as Hst0 by apply Hinv.
  assert (s32 (0 + 1) = 1) as E1 by done. assert (s32 (1 + -1) = 0) as E0 by done.
  unfold atomic_add_unless. destruct (pcs s i) eqn:Epc; cbn [owns_pc] in Hown, Hnown.
  all: try goto_step s Hinv Epc Hspin1 Hst Hnown Hinc Henq E0.
  - intros [= <-]. specialize (Henq i Epc). goto_cases Hinv Epc Hspin1.
    + left. split; [done|]. rewrite Hnown. split; [done|by intros [?|?]].
    + by left.
    + right; left. done.
  - intros [= <-]. apply (inv_block s i Hinv Ecur Epc).
  - specialize (Hst0 i (Hown eq_refl)).
    destruct (queue (lock s)) as [|t q] eqn:Eq; intros [= <-]; goto_cases Hinv Epc Hspin1.
    + left. split; [done|]. rewrite Hnown. split; [by left|by intros [?|?]].
    + by left.
    + left. rewrite Eq. split_and!; try done. by left.
    + left. split; [done|]. rewrite Hnown. split; [by left|by intros [?|?]].
    + by left.
    + right; right. exists t. by rewrite Eq.
  - intros [= <-]. specialize (Hst0 i (Hown eq_refl)). specialize (Hinc i Epc).
    rewrite Hst0, E1. goto_cases Hinv Epc Hspin1.
    + right; right. split_and!; try done. by apply Hown.
    + by left.
    + left. split_and!; try done. by left.
  - apply (inv_wake s i t s' Hinv Ecur Epc).
Qed.

(** ** The theorems *)

Lemma inv_initial tasks : NoDup tasks -> inv (initial tasks).
Proof.
  intros Hn. assert (forall j, ~ owns (initial tasks) j) as Hno by (by intros j [?|[? _]]).
  split; try done.
  - by right.
  - intros j Hj. by destruct (Hno j).
  - intros j k Hj. by destruct (Hno j).
  - by constructor.
  - intros i Hi. by apply not_elem_of_nil in Hi.
Qed.

Lemma inv_preempt s : inv s -> inv (preempt s) /\ inv (preempt_idle s).
Proof.
  intros Hinv. unfold preempt, preempt_idle. destruct (current s) as [i|] eqn:Ecur.
  - apply inv_sched; [done| |].
    + apply NoDup_app. split_and!; [apply Hinv| |apply NoDup_singleton].
      intros j Hj Hj'. apply list_elem_of_singleton in Hj' as ->. by eapply i_cur.
    + intros j. unfold alive. rewrite Ecur, elem_of_app, list_elem_of_singleton. naive_solver.
  - assert (inv (sched (lock s) (runnable s) (pcs s))); [|done].
    apply inv_sched; [done|apply Hinv|]. intros j. unfold alive. rewrite Ecur. naive_solver.
Qed.

Lemma inv_reachable tasks s : NoDup tasks -> reachable tasks s -> inv s.
Proof.
  intros Hn Hr. apply (rtc_ind_r (R := step) (fun s => inv s) (initial tasks)); [by apply inv_initial| |done].
  intros s1 s2 _ [s3 s4 He|s3|s3] IH; [by eapply inv_exec|by apply inv_preempt..].
Qed.

Lemma reachable_step tasks s s' : reachable tasks s -> step s s' -> reachable tasks s'.
Proof. apply rtc_r. Qed.

(** the only step of a reachable system that is not defined is the second link
    of a task that is on the run queue already *)
Lemma exec_undef s : inv s ->
  exec s = Undef <-> exists i t, current s = Some i /\ pcs s i = UnlockWake t /\ pcs s t = SlowBlock.
Proof.
  intros Hinv. unfold exec.
  destruct (current s) as [i|] eqn:Ec; [|split; [done|naive_solver]]. split.
  - destruct (pcs s i) eqn:Epc; try done;
      try (destruct (atomic_add_unless _ _ _); done); try (destruct (queue_lock _); done);
      try (destruct (queue _); done).
    unfold make_runnable. case_decide as Hd; [|done]. intros _. exists i, t. split_and!; try done.
    destruct (i_handed _ Hinv i t) as [_ [?|[_ Hna]]]; [by rewrite Epc|done|]. destruct Hna. by right.
  - intros (i' & t & [= <-] & E & Et). rewrite E. unfold make_runnable. rewrite decide_True; [done|].
    cbn [goto runnable]. destruct (i_alive _ Hinv t) as [?|?]; [congruence..|done].
Qed.


(** a run given by its schedule: [true] lets the running task step, [false] preempts it *)
Fixpoint follow (tr : list bool) (s : sys) : outcome sys :=
  match tr with
  | [] => Ret s
  | true :: tr => s ← exec s; follow tr s
  | false :: tr => follow tr (preempt s)
  end.

Lemma follow_reachable tasks tr s s' : reachable tasks s -> follow tr s = Ret s' -> reachable tasks s'.
Proof.
  revert s. induction tr as [|[] tr IH]; intros s Hr; cbn [follow].
  - by intros [= <-].
  - intros (s1 & E & H)%bind_Ret. eapply IH; [|done]. eapply reachable_step; [done|by apply step_exec].
  - apply IH. eapply reachable_step; [done|apply step_preempt].
Qed.



(** The step that goes wrong is waking a waiter that was preempted between
    releasing the queue lock and [schedule_blocked]: it is still on the run
    queue and is linked there again, which destroys the run queue.  The other
    steps of a reachable system are all defined, and this one is reachable with
    two tasks. *)
Theorem mutex_waiter_linked_twice :
  (forall tasks s, NoDup tasks -> reachable tasks s ->
     (exec s = Undef <-> exists i t, current s = Some i /\ pcs s i = UnlockWake t /\ pcs s t = SlowBlock)) /\
  (exists s, reachable [0; 1]%nat s /\ exec s = Undef /\ runnable s = [1]%nat /\ pcs s 1%nat = SlowBlock).
Proof.
  split.
  - intros tasks s Hn Hr. apply exec_undef. by eapply inv_reachable.
  - destruct (follow ([true; true; true; false] ++ replicate 6 true ++ [false] ++ replicate 4 true)
      (initial [0; 1]%nat)) as [s| |] eqn:E; [|vm_compute in E; discriminate E..].
    exists s. split; [by apply (follow_reachable _ _ _ _ (rtc_refl _ _) E)|].
    vm_compute in E. injection E as <-. by vm_compute.
Qed.
