(* ===== verification/Atomic.v ===== *)
(** cp/include/atomic.h, cp/include/spinlock.h and cp/nucleus/spinlock.c: the operations
    that several processors, or a task and one that preempts it, do on one word.

    A thread is the list of calls it makes and where it is in the first of them; one turn
    of a thread is one access to the word (an instruction: load, store, compare and swap)
    with what the thread computes from it in its registers.  A schedule is the list of
    threads that get turns.  The theorems: whatever the schedule, the calls have the effect
    and the results they have when each is done at once in some order (so that Mutex.v and
    the other files may take them as single steps), and end after a bounded number of
    turns; a spin lock has one owner; two locks taken in the order of their addresses never
    block each other. *)

From stdpp Require Import list numbers functions.
From S2P Require Import Prelude.

Local Open Scope Z_scope.

(** * atomic.h *)

(** the calls, by what they compute: the loop around compare and swap, the swap alone, and
    the loop with a value at which it gives up *)
Inductive op : Type :=
  | Read
  | Set_ (i : Z)
  | CS_LOOP (f : Z -> Z)
  | Cmpxchg (old new : Z)
  | Unless (f : Z -> Z) (u : Z).

(** [w] is 32 for [atomic_t], 64 for [atomic64_t] *)
Section width.
Context (w : Z).

Definition atomic_read : op := Read.
Definition atomic_set (i : Z) : op := Set_ i.
Definition atomic_add_return (i : Z) : op := CS_LOOP (fun v => swrap w (v + i)).
Definition atomic_sub_return (i : Z) : op := CS_LOOP (fun v => swrap w (v - i)).
Definition atomic_inc : op := atomic_add_return 1.
Definition atomic_dec : op := atomic_sub_return 1.
Definition atomic_clear_mask (mask : Z) : op := CS_LOOP (fun v => swrap w (Z.land v (Z.lnot mask))).
Definition atomic_set_mask (mask : Z) : op := CS_LOOP (fun v => swrap w (Z.lor v mask)).
Definition atomic_cmpxchg (old new : Z) : op := Cmpxchg old new.
Definition atomic_add_unless (a u : Z) : op := Unless (fun c => swrap w (c + a)) u.
Definition atomic_inc_not_zero : op := atomic_add_unless 1 0.
End width.

(** a value in a register, to be compared *)
Inductive place := Start | Swap (old : Z).

Record thread := Thread { todo : list op; at_ : place; returned : list Z }.

(** one turn; [void] functions return 0 *)
Definition turn (t : thread) (v : Z) : Z * thread :=
  match todo t with
  | [] => (v, t)
  | o :: rest =>
      let ret v' r := (v', Thread rest Start (returned t ++ [r])) in
      let again c := (v, Thread (todo t) (Swap c) (returned t)) in
      let check u c := if c =? u then ret v 0 else again c in
      match o, at_ t with
      | Read, _ => ret v v
      | Set_ i, _ => ret i 0
      | Cmpxchg old new, _ => ret (if v =? old then new else v) v
      | CS_LOOP f, Start => again v
      | CS_LOOP f, Swap old => if v =? old then ret (f old) (f old) else again v
      | Unless f u, Start => check u v
      | Unless f u, Swap c => if v =? c then ret (f c) 1 else check u v
      end
  end.

Record system := System { word : Z; threads : list thread }.

Definition step (s : system) (i : nat) : system :=
  match threads s !! i with
  | None => s
  | Some t => let '(v, t) := turn t (word s) in System v (<[i := t]> (threads s))
  end.

Definition run (sched : list nat) (s : system) : system := foldl step s sched.

Definition start (v : Z) (progs : list (list op)) : system := System v (map (fun p => Thread p Start []) progs).

(** ** The calls as single steps *)

(** the new value and the result *)
Definition atomically (o : op) (v : Z) : Z * Z :=
  match o with
  | Read => (v, v)
  | Set_ i => (i, 0)
  | CS_LOOP f => (f v, f v)
  | Cmpxchg old new => (if v =? old then new else v, v)
  | Unless f u => if v =? u then (v, 0) else (f v, 1)
  end.

(** calls of threads, one after the other, with their results *)
Fixpoint serial (v : Z) (log : list (nat * op)) : Z * list (nat * Z) :=
  match log with
  | [] => (v, [])
  | (i, o) :: log => let '(v, r) := atomically o v in let '(v, rs) := serial v log in (v, (i, r) :: rs)
  end.

(** what of a list is of thread [i] *)
Definition of_thread {A} (i : nat) (l : list (nat * A)) : list A := omap (fun x => if decide (x.1 = i) then Some x.2 else None) l.

Lemma of_thread_app {A} i (l1 l2 : list (nat * A)) : of_thread i (l1 ++ l2) = of_thread i l1 ++ of_thread i l2.
Proof. apply omap_app. Qed.

Lemma of_thread_same {A} i (x : A) : of_thread i [(i, x)] = [x].
Proof. unfold of_thread. cbn. by rewrite decide_True. Qed.

Lemma of_thread_other {A} i j (x : A) : i <> j -> of_thread i [(j, x)] = [].
Proof. intros H. unfold of_thread. cbn. by rewrite decide_False. Qed.

Lemma serial_snoc v log i o :
  serial v (log ++ [(i, o)]) = (let '(v', rs) := serial v log in let '(v'', r) := atomically o v' in (v'', rs ++ [(i, r)])).
Proof.
  revert v. induction log as [|[j q] log IH]; intros v; cbn [serial app]; [by destruct (atomically o v)|].
  destruct (atomically q v) as [v1 r1]. rewrite IH. destruct (serial v1 log) as [v2 rs]. by destruct (atomically o v2).
Qed.

(** a loop with a stop value is never at a swap with that value *)
Definition thread_ok (t : thread) : Prop :=
  match todo t, at_ t with
  | Unless f u :: _, Swap c => c <> u
  | _, _ => True
  end.

Lemma turn_ok t v : thread_ok t -> thread_ok (turn t v).2.
Proof.
  destruct t as [[|[] rest] [|c] rs]; unfold thread_ok, turn; cbn; intros H; try done.
  all: repeat (case_bool; cbn; try done); by destruct rest as [|[]].
Qed.

(** the call ends, or nothing is done that others see *)
Definition silent (t t' : thread) (v v' : Z) : Prop := v' = v /\ todo t' = todo t /\ returned t' = returned t.
Definition commits (o : op) (t t' : thread) (v v' : Z) : Prop :=
  todo t = o :: todo t' /\ at_ t' = Start /\ exists r, atomically o v = (v', r) /\ returned t' = returned t ++ [r].

Lemma turn_cases t v v' t' : thread_ok t -> turn t v = (v', t') -> silent t t' v v' \/ exists o, commits o t t' v v'.
Proof.
  destruct t as [[|o rest] pl rs]; unfold thread_ok, turn; cbn [todo at_ returned]; intros Hok E.
  { injection E as <- <-. left. done. }
  assert (forall v0 r, atomically o v = (v0, r) -> (v0, Thread rest Start (rs ++ [r])) = (v', t') ->
    silent (Thread (o :: rest) pl rs) t' v v' \/ exists o', commits o' (Thread (o :: rest) pl rs) t' v v') as Hret.
  { intros v0 r Ha [= <- <-]. right. exists o. split; [done|]. split; [done|]. by exists r. }
  assert (forall c, (v, Thread (o :: rest) (Swap c) rs) = (v', t') ->
    silent (Thread (o :: rest) pl rs) t' v v' \/ exists o', commits o' (Thread (o :: rest) pl rs) t' v v') as Hagain.
  { intros c [= <- <-]. by left. }
  destruct o, pl as [|c]; try (by eapply Hret, E); try (by eapply Hagain, E).
  all: repeat (case_bool; subst; try (by eapply Hagain, E)); eapply Hret, E; cbn; repeat case_bool; done.
Qed.

(** what a run has done so far is what the calls of [log] do one after the other *)
Record follows (v : Z) (progs : list (list op)) (log : list (nat * op)) (s : system) : Prop := Follows {
  fo_log : Forall (fun x => (x.1 < length progs)%nat) log;
  fo_len : length (threads s) = length progs;
  fo_word : word s = (serial v log).1;
  fo_threads : forall i p, progs !! i = Some p -> exists t, threads s !! i = Some t /\ thread_ok t /\
    p = of_thread i log ++ todo t /\ returned t = of_thread i (serial v log).2;
}.

Lemma follows_start v progs : follows v progs [] (start v progs).
Proof.
  split; [apply Forall_nil_2|apply length_fmap|done|]. intros i p Hp. exists (Thread p Start []).
  split; [cbn; by rewrite list_lookup_fmap, Hp|]. split; [|done]. unfold thread_ok. by destruct p as [|[]].
Qed.

(** a turn ends one call of its own thread, or none *)
Lemma follows_step v progs log s i : follows v progs log s -> exists more, follows v progs (log ++ more) (step s i) /\ Forall (fun x => x.1 = i) more.
Proof.
  intros [Hlog Hlen Hw Ht]. unfold step. destruct (threads s !! i) as [t|] eqn:Ei; [|exists []; by rewrite app_nil_r].
  destruct (progs !! i) as [p|] eqn:Ep.
  2: { apply lookup_ge_None in Ep. apply lookup_lt_Some in Ei. lia. }
  destruct (Ht i p Ep) as (t0 & Et & Hok & Hp & Hr). rewrite Ei in Et. injection Et as <-.
  destruct (turn t (word s)) as [v' t'] eqn:E. pose proof (turn_ok t (word s) Hok) as Hok'. rewrite E in Hok'. cbn [snd] in Hok'.
  destruct (turn_cases _ _ _ _ Hok E) as [(-> & Htodo & Hret)|(o & Htodo & _ & r & Ha & Hret)].
  - exists []. rewrite app_nil_r. split; [|apply Forall_nil_2]. split; [done|cbn [threads]; by rewrite length_insert|done|]. intros j q Hq. cbn [threads]. destruct (decide (j = i)) as [->|Hne].
    + exists t'. rewrite list_lookup_insert_eq by (by eapply lookup_lt_Some). rewrite Ep in Hq. injection Hq as <-. by rewrite Htodo, Hret.
    + rewrite list_lookup_insert_ne by done. by apply Ht.
  - exists [(i, o)]. split; [|by apply Forall_cons_2; [|apply Forall_nil_2]]. pose proof (serial_snoc v log i o) as Hs. destruct (serial v log) as [v1 rs]. cbn [fst snd] in *. subst v1.
    rewrite Ha in Hs. split; [|cbn [threads]; by rewrite length_insert|by rewrite Hs|].
    { apply Forall_app_2; [done|]. apply Forall_cons_2; [by eapply lookup_lt_Some|apply Forall_nil_2]. } rewrite Hs. cbn [threads snd].
    intros j q Hq. rewrite !of_thread_app. destruct (decide (j = i)) as [->|Hne].
    + exists t'. rewrite list_lookup_insert_eq by (by eapply lookup_lt_Some). rewrite Ep in Hq. injection Hq as <-.
      rewrite !of_thread_same, <- app_assoc, Hret, <- Hr. cbn. rewrite <- Htodo. done.
    + rewrite !of_thread_other, !app_nil_r, list_lookup_insert_ne by done. by apply Ht.
Qed.

Lemma follows_on v progs log s sched : follows v progs log s -> exists more, follows v progs (log ++ more) (run sched s).
Proof.
  intros H. induction sched as [|i sched IH] using rev_ind; [exists []; by rewrite app_nil_r|].
  unfold run in *. rewrite foldl_snoc. destruct IH as [more H1]. destruct (follows_step _ _ _ _ i H1) as (more' & H2 & _).
  exists (more ++ more'). by rewrite app_assoc.
Qed.

Lemma follows_run v progs sched : exists log, follows v progs log (run sched (start v progs)).
Proof. exact (follows_on v progs [] _ sched (follows_start v progs)). Qed.

(** the calls of [log], done at once one after the other, account for the state [s]: the word, and for each thread the calls it has
    ended and their results; and there are no others *)
Definition explains (v : Z) (progs : list (list op)) (log : list (nat * op)) (s : system) : Prop :=
  word s = (serial v log).1 /\ Forall (fun x => (x.1 < length progs)%nat) log /\
  forall i p, progs !! i = Some p -> exists t, threads s !! i = Some t /\
    p = of_thread i log ++ todo t /\ returned t = of_thread i (serial v log).2.

Lemma follows_explains v progs log s : follows v progs log s -> explains v progs log s.
Proof. intros [Hlog _ Hw Ht]. split_and!; [done..|]. intros i p Hp. destruct (Ht i p Hp) as (t & Et & _ & H). by exists t. Qed.

(** C5: Whatever the schedule, the word and the results of the calls that have ended are those of exactly these calls done one at a
    time, each at once, in an order that keeps that of each thread and that of time: the calls that had ended at some point of the
    schedule are in front of all that end later. *)
Theorem atomics_linearize (v : Z) (progs : list (list op)) (sched later : list nat) :
  exists log more, explains v progs log (run sched (start v progs)) /\ explains v progs (log ++ more) (run (sched ++ later) (start v progs)).
Proof.
  destruct (follows_run v progs sched) as [log H]. destruct (follows_on v progs log _ later H) as [more H'].
  exists log, more. split; [by apply follows_explains|]. unfold run at 1. rewrite foldl_app. by apply follows_explains.
Qed.

(** ** They end *)

(** a swap that will fail *)
Definition stale (t : thread) (v : Z) : bool :=
  match todo t, at_ t with
  | CS_LOOP _ :: _, Swap c | Unless _ _ :: _, Swap c => negb (v =? c)
  | _, _ => false
  end.

Definition swapping (t : thread) : bool :=
  match todo t, at_ t with
  | CS_LOOP _ :: _, Swap _ | Unless _ _ :: _, Swap _ => true
  | _, _ => false
  end.

(** turns a thread needs at most when no other ends a call *)
Definition needs (t : thread) (v : Z) : Z := 2 * lenZ (todo t) - (if swapping t then 1 else 0) + (if stale t v then 1 else 0).

Lemma needs_nonneg t v : 0 <= needs t v.
Proof.
  unfold needs, swapping, stale. destruct (todo t) as [|o rest]; [done|]. unfold lenZ. cbn [length].
  destruct o, (at_ t); repeat case_match; lia.
Qed.

(** a turn brings a thread nearer to its end *)
Lemma turn_needs t v : todo t <> [] -> needs (turn t v).2 (turn t v).1 < needs t v.
Proof.
  destruct t as [[|o rest] pl rs]; [done|]. intros _.
  assert (forall v' r, needs (Thread rest Start r) v' = 2 * lenZ rest) as Hdone.
  { intros v' r. unfold needs, swapping, stale. cbn. destruct rest as [|[]]; cbn; lia. }
  assert (lenZ (o :: rest) = lenZ rest + 1) as Hl by (unfold lenZ; cbn; lia).
  unfold turn. cbn [todo at_ returned].
  destruct o, pl as [|c]; cbn [fst snd]; repeat (case_bool; cbn [fst snd]); subst; rewrite ?Hdone;
    unfold needs, swapping, stale; cbn [todo at_]; rewrite ?Z.eqb_refl, ?Hl; cbn [negb]; try (rewrite (proj2 (Z.eqb_neq _ _)) by done); cbn [negb]; try lia.
Qed.

Lemma serial_lengths v log i : length (of_thread i log) = length (of_thread i (serial v log).2).
Proof.
  revert v. induction log as [|[j o] log IH]; intros v; [done|]. cbn [serial]. destruct (atomically o v) as [v1 r]. specialize (IH v1).
  destruct (serial v1 log) as [v2 rs]. unfold of_thread in *. cbn in *. destruct (decide (j = i)); cbn; by rewrite ?IH.
Qed.

(** the calls that are left *)
Definition total (l : list thread) : Z := Z.of_nat (sum_list_with (fun t => length (todo t)) l).

Lemma total_insert l i t t' : l !! i = Some t -> total (<[i := t']> l) = total l - lenZ (todo t) + lenZ (todo t').
Proof.
  unfold total, lenZ. revert i. induction l as [|x l IH]; intros [|i] Hi; try done.
  - injection Hi as ->. cbn. lia.
  - specialize (IH i Hi). change (<[S i := t']> (x :: l)) with (x :: <[i := t']> l). cbn [sum_list_with]. lia.
Qed.

Lemma total_ge l i t : l !! i = Some t -> lenZ (todo t) <= total l.
Proof.
  unfold total, lenZ. revert i. induction l as [|x l IH]; intros [|i] Hi; try done; cbn in *.
  - injection Hi as ->. lia.
  - specialize (IH i Hi). lia.
Qed.

(** turns thread [i] needs whatever the others do: a call of another that ends can make one swap fail *)
Definition bound (s : system) (t : thread) : Z := needs t (word s) + total (threads s) - lenZ (todo t).

Lemma needs_word t v v' : needs t v' <= needs t v + 1.
Proof. unfold needs. destruct (stale t v), (stale t v'); lia. Qed.

Lemma bound_positive s i t : threads s !! i = Some t -> todo t <> [] -> 0 < bound s t.
Proof.
  intros Hi Ht. pose proof (total_ge _ _ _ Hi). pose proof (turn_needs t (word s) Ht).
  pose proof (needs_nonneg (turn t (word s)).2 (turn t (word s)).1). unfold bound. lia.
Qed.

Lemma step_other s i j t : i <> j -> threads s !! i = Some t -> (forall t', threads s !! j = Some t' -> thread_ok t') ->
  threads (step s j) !! i = Some t /\ bound (step s j) t <= bound s t.
Proof.
  intros Hne Hi Hok. unfold step. destruct (threads s !! j) as [tj|] eqn:Ej; [|done].
  destruct (turn tj (word s)) as [v' t'] eqn:E. split; [cbn [threads]; by rewrite list_lookup_insert_ne|].
  unfold bound. cbn [word threads]. rewrite (total_insert _ _ _ _ Ej).
  destruct (turn_cases _ _ _ _ (Hok tj eq_refl) E) as [(-> & -> & _)|(o & Htodo & _)]; [lia|].
  pose proof (needs_word t (word s) v'). rewrite Htodo. unfold lenZ. cbn [length]. lia.
Qed.

Lemma step_self s i t : threads s !! i = Some t -> todo t <> [] ->
  threads (step s i) !! i = Some (turn t (word s)).2 /\ bound (step s i) (turn t (word s)).2 < bound s t.
Proof.
  intros Hi Ht. pose proof (turn_needs t (word s) Ht) as Hn. unfold step. rewrite Hi. destruct (turn t (word s)) as [v' t']. cbn [fst snd] in *.
  split; [cbn [threads]; by rewrite list_lookup_insert_eq by (by eapply lookup_lt_Some)|].
  unfold bound. cbn [word threads]. rewrite (total_insert _ _ _ _ Hi). lia.
Qed.

Lemma run_bound v progs sched i p : progs !! i = Some p ->
  exists t, threads (run sched (start v progs)) !! i = Some t /\
    (todo t = [] \/ bound (run sched (start v progs)) t + Z.of_nat (count_occ Nat.eq_dec sched i) <= total (threads (start v progs)) + lenZ p).
Proof.
  intros Hp. induction sched as [|j sched IH] using rev_ind.
  { exists (Thread p Start []). split; [cbn; by rewrite list_lookup_fmap, Hp|]. right. unfold bound, needs, swapping, stale. cbn. destruct p as [|[]]; unfold lenZ; cbn; lia. }
  unfold run in *. rewrite foldl_snoc, count_occ_app. destruct IH as (t & Ht & IH). destruct (follows_run v progs sched) as [log [_ _ _ Hth]]. unfold run in Hth.
  set (s := foldl step (start v progs) sched) in *.
  assert (forall k t', threads s !! k = Some t' -> k <> i -> thread_ok t') as Hok.
  { intros k t' Hk _. destruct (progs !! k) as [q|] eqn:Eq.
    - destruct (Hth k q Eq) as (t0 & Et0 & Hok & _). rewrite Hk in Et0. by injection Et0 as <-.
    - destruct (follows_run v progs sched) as [log' [_ Hlen _ _]]. apply lookup_ge_None in Eq. apply lookup_lt_Some in Hk. unfold run in Hlen. fold s in Hlen. lia. }
  cbn [count_occ]. destruct (Nat.eq_dec j i) as [->|Hne].
  - destruct (decide (todo t = [])) as [He|He].
    + exists t. split; [|by left]. unfold step. rewrite Ht. unfold turn. rewrite He. cbn [threads]. by apply list_lookup_insert_eq, lookup_lt_Some with t.
    + destruct (step_self s i t Ht He) as [Hs Hb]. exists (turn t (word s)).2. split; [done|]. right. destruct IH as [IH|IH]; [done|lia].
  - destruct (step_other s i j t ltac:(done) Ht) as [Hs Hb]; [intros t' Hj; by apply (Hok j)|]. exists t. split; [done|].
    destruct IH as [IH|IH]; [by left|right; lia].
Qed.

(** C14: A thread that gets as many turns as it makes calls and all threads together make calls has ended, whatever turns the others
    get in between: a compare and swap fails only when another thread's call ended since the last try. *)
Theorem atomics_end (v : Z) (progs : list (list op)) (sched : list nat) (i : nat) (p : list op) :
  progs !! i = Some p -> (sum_list_with length progs + length p <= count_occ Nat.eq_dec sched i)%nat ->
  exists t, threads (run sched (start v progs)) !! i = Some t /\ todo t = [] /\ length (returned t) = length p.
Proof.
  intros Hp Hc. destruct (run_bound v progs sched i p Hp) as (t & Ht & Hb). exists t. split; [done|].
  assert (todo t = []) as Hd.
  { destruct (decide (todo t = [])) as [|Hne]; [done|]. exfalso. destruct Hb as [|Hb]; [done|]. pose proof (bound_positive _ _ _ Ht Hne) as Hpos.
    assert (total (threads (start v progs)) = Z.of_nat (sum_list_with length progs)) as Htot.
    { unfold total, start. cbn [threads]. f_equal. clear. induction progs as [|q progs IH]; [done|]. cbn. by rewrite IH. }
    unfold lenZ in Hb. lia. }
  split; [done|]. destruct (follows_run v progs sched) as [log [_ _ _ Hth]]. destruct (Hth i p Hp) as (t' & Et' & _ & Hpt & Hr). rewrite Ht in Et'. injection Et' as <-.
  rewrite Hr, Hpt, Hd, app_nil_r. symmetry. apply serial_lengths.
Qed.

(** ** Samples *)

Definition two_adders : list (list op) := [[atomic_inc 32; atomic_inc 32]; [atomic_add_unless 32 10 1; atomic_read]].

(** both load 0, the first swaps, the second must try again *)
Definition racing : list nat := [0; 1; 0; 1; 1; 0; 0; 1; 0; 1; 0; 1; 0; 1; 0; 1; 1; 1; 1; 1; 0]%nat.

(** the counter reached 1 when the second looked again: it gives up *)
Example racing_gives_up : map returned (threads (run racing (start 0 two_adders))) = [[1; 2]; [0; 1]] /\ word (run racing (start 0 two_adders)) = 2.
Proof. vm_compute. done. Qed.

Lemma atomics_linearize_sample : exists log, of_thread 0 log = [atomic_inc 32; atomic_inc 32] /\ [0; 1] = of_thread 1 (serial 0 log).2.
Proof.
  destruct (follows_run 0 two_adders racing) as [log [_ _ _ Ht]]. exists log.
  destruct (Ht 0%nat _ eq_refl) as (t & Et & _ & Hp & _). vm_compute in Et. injection Et as <-. cbn [todo] in Hp. rewrite app_nil_r in Hp.
  destruct (Ht 1%nat _ eq_refl) as (t' & Et' & _ & _ & Hr). vm_compute in Et'. injection Et' as <-. done.
Qed.

Lemma atomics_end_witness : exists t, threads (run racing (start 0 two_adders)) !! 1%nat = Some t /\ todo t = [] /\ length (returned t) = 2%nat.
Proof. apply (atomics_end 0 two_adders racing 1 [atomic_add_unless 32 10 1; atomic_read]); [reflexivity|]. apply Nat.leb_le. vm_compute. reflexivity. Defined.

(** * spinlock.h *)

(** what a task leaves in the lock: where it was called from, never 0 *)
Definition spin_pc (return_address : Z) : Z := u32 (Z.lor 1 return_address).

Lemma spin_pc_nonzero a : spin_pc a <> 0.
Proof.
  unfold spin_pc. intros H. assert (Z.testbit (wrap 32 (Z.lor 1 a)) 0 = true) as Hb; [|rewrite H in Hb; discriminate Hb].
  unfold wrap. rewrite Z.mod_pow2_bits_low by lia. rewrite Z.lor_spec. reflexivity.
Qed.

(** [spin_double_lock] takes the lock at the lower address first; [spin_double_unlock] gives them back the other way round *)
Definition double_order (l1 l2 : Z) : list Z := if l1 <? l2 then [l1; l2] else [l2; l1].

(** a task that takes locks one after the other, uses what they protect, and gives them back *)
Inductive place_ :=
  | Outside
  | Taking (k : nat)                 (* __compare_and_swap(&lock->lock, 0, pc), again and again, on the lock after the first k *)
  | Inside
  | Dropping (k : nat)               (* k are left: lock->lock *)
  | Dropping_cs (k : nat) (old : Z). (* __compare_and_swap(&lock->lock, old, 0) *)

Record task := Task { locks : list Z; pc : Z; place_of : place_ }.

Definition spin_turn (t : task) (m : Z -> Z) : (Z -> Z) * place_ :=
  match place_of t with
  | Outside => (m, Taking 0)
  | Taking k =>
      match locks t !! k with
      | Some a => if m a =? 0 then (<[a := pc t]> m, if (S k =? length (locks t))%nat then Inside else Taking (S k)) else (m, Taking k)
      | None => (m, Inside)
      end
  | Inside => (m, Dropping (length (locks t)))
  | Dropping k => (m, match locks t !! pred k with Some a => Dropping_cs k (m a) | None => Outside end)
  | Dropping_cs k old =>
      let m' := match locks t !! pred k with Some a => if m a =? old then <[a := 0]> m else m | None => m end in
      (m', if (pred k =? 0)%nat then Outside else Dropping (pred k))
  end.

Record machine := Machine { store : Z -> Z; tasks : list task }.

Definition spin_step (s : machine) (i : nat) : machine :=
  match tasks s !! i with
  | None => s
  | Some t => let '(m, p) := spin_turn t (store s) in Machine m (<[i := Task (locks t) (pc t) p]> (tasks s))
  end.

Definition spin_run (sched : list nat) (s : machine) : machine := foldl spin_step s sched.

(** everything is free; each task has its locks and the address it calls from *)
Definition free_locks (users : list (list Z * Z)) : machine :=
  Machine (fun _ => 0) (map (fun u => Task u.1 (spin_pc u.2) Outside) users).

(** ** One owner *)

Definition holds (t : task) : list Z :=
  match place_of t with
  | Outside => []
  | Taking k | Dropping k | Dropping_cs k _ => take k (locks t)
  | Inside => locks t
  end.

Definition task_ok (m : Z -> Z) (t : task) : Prop :=
  NoDup (locks t) /\ locks t <> [] /\ pc t <> 0 /\
  match place_of t with
  | Outside | Inside => True
  | Taking k => (k < length (locks t))%nat
  | Dropping k => (0 < k <= length (locks t))%nat
  | Dropping_cs k old => (0 < k <= length (locks t))%nat /\ old = pc t
  end.

Record locked (s : machine) : Prop := Locked {
  lk_tasks : forall i t, tasks s !! i = Some t -> task_ok (store s) t;
  lk_held : forall i t a, tasks s !! i = Some t -> a ∈ holds t -> store s a = pc t;
  lk_owner : forall a, store s a <> 0 -> exists i t, tasks s !! i = Some t /\ a ∈ holds t;
  lk_one : forall i j t t' a, tasks s !! i = Some t -> tasks s !! j = Some t' -> a ∈ holds t -> a ∈ holds t' -> i = j;
}.

Definition at_place (t : task) (p : place_) : task := Task (locks t) (pc t) p.

(** a turn takes one lock that is free, gives back the one taken last, or leaves both alone *)
Inductive spin_case (t : task) (m : Z -> Z) : (Z -> Z) -> place_ -> Prop :=
  | Case_same p : holds (at_place t p) = holds t -> spin_case t m m p
  | Case_take a p : m a = 0 -> holds (at_place t p) = holds t ++ [a] -> spin_case t m (<[a := pc t]> m) p
  | Case_drop a p : holds t = holds (at_place t p) ++ [a] -> spin_case t m (<[a := 0]> m) p.

Lemma last_taken (l : list Z) k : (0 < k <= length l)%nat -> exists a, l !! pred k = Some a /\ take k l = take (pred k) l ++ [a].
Proof.
  intros Hk. destruct (lookup_lt_is_Some_2 l (pred k) ltac:(lia)) as [a Ha]. exists a. split; [done|].
  rewrite <- (take_S_r l (pred k) a Ha). f_equal. lia.
Qed.

Lemma spin_turn_cases t m : task_ok m t -> (forall a, a ∈ holds t -> m a = pc t) -> spin_case t m (spin_turn t m).1 (spin_turn t m).2.
Proof.
  intros (Hnd & Hne & Hpc & Hp) Hheld. assert (length (locks t) <> 0)%nat as Hl by (by destruct (locks t)).
  destruct t as [ls p pl]. unfold spin_turn, holds in *. cbn [locks pc place_of] in *. destruct pl as [|k| |k|k old]; cbn [fst snd].
  - by apply Case_same.
  - destruct (ls !! k) as [a|] eqn:Ea; [|by apply lookup_ge_None in Ea; lia]. case_bool; cbn [fst snd]; [|by apply Case_same].
    apply Case_take; [done|]. unfold at_place, holds. cbn [place_of locks]. rewrite <- (take_S_r ls k a Ea). destruct (Nat.eqb_spec (S k) (length ls)) as [->|]; [by rewrite take_ge|done].
  - apply Case_same. unfold at_place, holds. cbn [place_of locks]. by rewrite take_ge.
  - destruct (last_taken ls k Hp) as (a & -> & _). by apply Case_same.
  - destruct Hp as [Hp ->]. destruct (last_taken ls k Hp) as (a & Ea & Et). rewrite Ea.
    rewrite (Hheld a) by (rewrite Et; set_solver). rewrite Z.eqb_refl. apply Case_drop. unfold at_place, holds. cbn [place_of locks]. rewrite Et. f_equal.
    destruct (Nat.eqb_spec (pred k) 0) as [->|]; [by destruct ls|done].
Qed.

Lemma spin_turn_ok t m m' : task_ok m t -> (forall a, a ∈ holds t -> m a = pc t) -> task_ok m' (at_place t (spin_turn t m).2).
Proof.
  intros (Hnd & Hne & Hpc & Hp) Hheld. split_and!; try done. assert (length (locks t) <> 0)%nat as Hl by (by destruct (locks t)).
  destruct t as [ls p pl]. unfold spin_turn, holds in *. cbn [locks pc place_of at_place] in *. destruct pl as [|k| |k|k old]; cbn [fst snd place_of locks pc].
  - lia.
  - destruct (ls !! k); [|done]. case_bool; cbn [snd]; [|done]. destruct (Nat.eqb_spec (S k) (length ls)); [done|]. lia.
  - lia.
  - destruct (last_taken ls k Hp) as (a & -> & Et). split; [done|]. apply Hheld. rewrite Et. set_solver.
  - destruct Hp as [Hp _]. destruct (Nat.eqb_spec (pred k) 0); [done|]. lia.
Qed.

Lemma locked_same s i t t' : locked s -> tasks s !! i = Some t -> task_ok (store s) t' -> pc t' = pc t -> holds t' = holds t ->
  locked (Machine (store s) (<[i := t']> (tasks s))).
Proof.
  intros [Ht Hh Ho H1] Hi Hok Hpc He.
  assert (forall j x, <[i := t']> (tasks s) !! j = Some x -> task_ok (store s) x /\ exists y, tasks s !! j = Some y /\ pc y = pc x /\ holds y = holds x) as Hback.
  { intros j x [(-> & -> & _)|(Hne & Hj)]%list_lookup_insert_Some; [split; [done|]; by exists t|]. split; [by eapply Ht|]. by exists x. }
  split; cbn [store tasks].
  - intros j x Hj. by destruct (Hback j x Hj).
  - intros j x a Hj Ha. destruct (Hback j x Hj) as (_ & y & Hy & <- & Hhy). rewrite <- Hhy in Ha. by eapply Hh.
  - intros a Ha. destruct (Ho a Ha) as (j & x & Hj & Hx). destruct (decide (j = i)) as [->|Hne].
    + exists i, t'. rewrite Hi in Hj. injection Hj as <-. rewrite He. split; [|done]. by apply list_lookup_insert_eq, lookup_lt_Some with t.
    + exists j, x. by rewrite list_lookup_insert_ne.
  - intros j k x y a Hj Hk Hx Hy. destruct (Hback j x Hj) as (_ & x' & Hx' & _ & Ex). destruct (Hback k y Hk) as (_ & y' & Hy' & _ & Ey).
    rewrite <- Ex in Hx. rewrite <- Ey in Hy. by eapply H1.
Qed.

Lemma locked_take s i t t' a : locked s -> tasks s !! i = Some t -> (forall m, task_ok m t') -> pc t' = pc t -> store s a = 0 -> holds t' = holds t ++ [a] ->
  locked (Machine (<[a := pc t]> (store s)) (<[i := t']> (tasks s))).
Proof.
  intros [Ht Hh Ho H1] Hi Hok Hpc H0 He.
  assert (forall j x, tasks s !! j = Some x -> a ∉ holds x) as Hfree.
  { intros j x Hj Ha. pose proof (Hh j x a Hj Ha) as E. destruct (Ht j x Hj) as (_ & _ & Hz & _). lia. }
  assert (forall j x, <[i := t']> (tasks s) !! j = Some x -> (j = i /\ x = t') \/ (j <> i /\ tasks s !! j = Some x)) as Hback.
  { intros j x [(-> & -> & _)|(Hne & Hj)]%list_lookup_insert_Some; [by left|right; done]. }
  split; cbn [store tasks].
  - intros j x [[-> ->]|[_ Hj]]%Hback; [apply Hok|]. exact (Ht j x Hj).
  - intros j x b [[-> ->]|[Hne Hj]]%Hback Hb.
    + rewrite He in Hb. destruct (decide (b = a)) as [->|Hba]; [by rewrite fn_lookup_insert|]. rewrite fn_lookup_insert_ne by done. rewrite Hpc. eapply Hh; [done|set_solver].
    + rewrite fn_lookup_insert_ne; [by eapply Hh|]. intros ->. by eapply Hfree.
  - intros b Hb. destruct (decide (b = a)) as [->|Hba].
    + exists i, t'. split; [by apply list_lookup_insert_eq, lookup_lt_Some with t|]. rewrite He. set_solver.
    + rewrite fn_lookup_insert_ne in Hb by done. destruct (Ho b Hb) as (j & x & Hj & Hx). destruct (decide (j = i)) as [->|Hne].
      * exists i, t'. split; [by apply list_lookup_insert_eq, lookup_lt_Some with t|]. rewrite Hi in Hj. injection Hj as <-. rewrite He. set_solver.
      * exists j, x. by rewrite list_lookup_insert_ne.
  - intros j k x y b [[-> ->]|[Hnj Hj]]%Hback [[-> ->]|[Hnk Hk]]%Hback Hx Hy; try done.
    + rewrite He in Hx. apply elem_of_app in Hx as [Hx| ->%list_elem_of_singleton]; [by eapply H1|]. by destruct (Hfree k y Hk).
    + rewrite He in Hy. apply elem_of_app in Hy as [Hy| ->%list_elem_of_singleton]; [by eapply H1|]. by destruct (Hfree j x Hj).
    + by eapply H1.
Qed.

Lemma locked_drop s i t t' a : locked s -> tasks s !! i = Some t -> (forall m, task_ok m t') -> pc t' = pc t -> NoDup (holds t) -> holds t = holds t' ++ [a] ->
  locked (Machine (<[a := 0]> (store s)) (<[i := t']> (tasks s))).
Proof.
  intros [Ht Hh Ho H1] Hi Hok Hpc Hnd He. assert (a ∈ holds t) as Ha by (rewrite He; set_solver).
  assert (forall j x, <[i := t']> (tasks s) !! j = Some x -> exists y, tasks s !! j = Some y /\ pc y = pc x /\ (x = t' \/ x = y) /\ forall b, b ∈ holds x -> b <> a /\ b ∈ holds y) as Hback.
  { intros j x [(-> & -> & _)|(Hne & Hj)]%list_lookup_insert_Some.
    - exists t. split_and!; [done|done|by left|]. intros b Hb. rewrite He in Hnd. apply NoDup_app in Hnd as (_ & Hd & _). rewrite He. split; [|set_solver]. intros ->. apply (Hd a Hb). by left.
    - exists x. split_and!; [done|done|by right|]. intros b Hb. split; [|done]. intros ->. by apply Hne, (H1 i j t x a). }
  split; cbn [store tasks].
  - intros j x Hj. destruct (Hback j x Hj) as (y & Hy & _ & [->| ->] & _); [apply Hok|exact (Ht j y Hy)].
  - intros j x b Hj Hb. destruct (Hback j x Hj) as (y & Hy & <- & _ & Hin). destruct (Hin b Hb) as [Hba Hby]. rewrite fn_lookup_insert_ne by done. by eapply Hh.
  - intros b Hb. destruct (decide (b = a)) as [->|Hba]; [by rewrite fn_lookup_insert in Hb|]. rewrite fn_lookup_insert_ne in Hb by done.
    destruct (Ho b Hb) as (j & x & Hj & Hx). destruct (decide (j = i)) as [->|Hne].
    + exists i, t'. split; [by apply list_lookup_insert_eq, lookup_lt_Some with t|]. rewrite Hi in Hj. injection Hj as <-. rewrite He in Hx. set_solver.
    + exists j, x. by rewrite list_lookup_insert_ne.
  - intros j k x y b Hj Hk Hx Hy. destruct (Hback j x Hj) as (x' & Hx' & _ & _ & Ex). destruct (Hback k y Hk) as (y' & Hy' & _ & _ & Ey).
    eapply (H1 j k x' y' b); [done|done|by apply Ex|by apply Ey].
Qed.

Lemma holds_nodup m t : task_ok m t -> NoDup (holds t).
Proof.
  intros (Hnd & _). unfold holds. destruct (place_of t); [apply NoDup_nil_2| |done|..]; eapply sublist_NoDup; try done; apply sublist_take.
Qed.

Lemma spin_step_locked s i : locked s -> locked (spin_step s i).
Proof.
  intros Hs. unfold spin_step. destruct (tasks s !! i) as [t|] eqn:Ei; [|done].
  pose proof (lk_tasks s Hs i t Ei) as Hok. pose proof (fun a => lk_held s Hs i t a Ei) as Hh.
  pose proof (fun m => spin_turn_ok t (store s) m Hok Hh) as Hok'.
  pose proof (spin_turn_cases t (store s) Hok Hh) as Hc. destruct (spin_turn t (store s)) as [m p]. cbn [fst snd] in *.
  destruct Hc as [p He|a p H0 He|a p He].
  - by apply (locked_same s i t).
  - by apply (locked_take s i t).
  - apply (locked_drop s i t); try done. by eapply holds_nodup.
Qed.

Definition users_ok (users : list (list Z * Z)) : Prop := Forall (fun u => u.1 <> [] /\ NoDup u.1) users.

Lemma spin_run_locked users sched : users_ok users -> locked (spin_run sched (free_locks users)).
Proof.
  intros Hu. induction sched as [|i sched IH] using rev_ind; [|unfold spin_run; rewrite foldl_snoc; by apply spin_step_locked].
  assert (forall i t, tasks (free_locks users) !! i = Some t -> holds t = [] /\ task_ok (fun _ => 0) t) as H0.
  { intros i t Hi. unfold free_locks in Hi. cbn in Hi. rewrite list_lookup_fmap in Hi. destruct (users !! i) as [u|] eqn:Eu; [|done]. injection Hi as <-.
    destruct (Forall_lookup_1 _ _ _ _ Hu Eu) as [Hne Hnd]. split; [done|]. split_and!; try done. apply spin_pc_nonzero. }
  split; cbn [spin_run foldl].
  - intros i t Hi. by apply (H0 i t).
  - intros i t a Hi Ha. destruct (H0 i t Hi) as [E _]. rewrite E in Ha. by apply elem_of_nil in Ha.
  - intros a Ha. done.
  - intros i j t t' a Hi _ Ha _. destruct (H0 i t Hi) as [E _]. rewrite E in Ha. by apply elem_of_nil in Ha.
Qed.

(** C7: In every reachable state of tasks that take and give back spin locks, a lock is in the hands of one task at most, and its
    word is 0 exactly when it is in nobody's. *)
Theorem spin_exclusion (users : list (list Z * Z)) (sched : list nat) :
  users_ok users -> let s := spin_run sched (free_locks users) in
  (forall i j t t' a, tasks s !! i = Some t -> tasks s !! j = Some t' -> a ∈ holds t -> a ∈ holds t' -> i = j) /\
  (forall a, store s a = 0 <-> forall i t, tasks s !! i = Some t -> a ∉ holds t).
Proof.
  intros Hu s. pose proof (spin_run_locked users sched Hu) as Hs. fold s in Hs. split.
  - intros i j t t' a Hi Hj Ha Ha'. by eapply (lk_one _ Hs).
  - intros a. split.
    + intros H0 i t Hi Ha. pose proof (lk_held _ Hs i t a Hi Ha) as E. destruct (lk_tasks _ Hs i t Hi) as (_ & _ & Hpc & _). lia.
    + intros Hn. destruct (decide (store s a = 0)) as [|Ha]; [done|]. destruct (lk_owner _ Hs a Ha) as (i & t & Hi & Hin). by destruct (Hn i t Hi).
Qed.

(** ** Two locks *)

(** ascending addresses *)
Definition ascending (l : list Z) : Prop := forall i j a b, l !! i = Some a -> l !! j = Some b -> (i < j)%nat -> a < b.

Lemma double_order_ascending l1 l2 : l1 <> l2 -> ascending (double_order l1 l2) /\ double_order l1 l2 <> [] /\ NoDup (double_order l1 l2).
Proof.
  intros Hne. unfold double_order. split_and!; [|by case_bool|case_bool; apply NoDup_cons; split; try apply NoDup_singleton; set_solver].
  case_bool; intros [|[|i]] [|[|j]] a b Hi Hj Hij; cbn in *; simplify_eq; lia.
Qed.

(** it waits for the lock at [a] *)
Definition waits (s : machine) (t : task) (a : Z) : Prop :=
  exists k, place_of t = Taking k /\ locks t !! k = Some a /\ store s a <> 0.

Definition blocked (s : machine) (t : task) : Prop := exists a, waits s t a.

(** a turn of a task that does not wait brings it to another place *)
Lemma turn_moves s t : task_ok (store s) t -> ~ blocked s t -> (spin_turn t (store s)).2 <> place_of t.
Proof.
  intros (Hnd & Hne & Hpc & Hp) Hb. unfold spin_turn. destruct (place_of t) as [|k| |k|k old] eqn:E; cbn [snd]; try done.
  - destruct (locks t !! k) as [a|] eqn:Ea; [|done]. case_bool; cbn [snd].
    + destruct (_ =? _)%nat; [done|]. intros [= H]. lia.
    + exfalso. apply Hb. exists a. by exists k.
  - by destruct (locks t !! pred k).
  - destruct (pred k =? 0)%nat; done.
Qed.

Lemma locks_run sched users : forall i t, tasks (spin_run sched (free_locks users)) !! i = Some t -> exists u, users !! i = Some u /\ locks t = u.1.
Proof.
  induction sched as [|j sched IH] using rev_ind; intros i t Hi.
  - unfold free_locks in Hi. cbn in Hi. rewrite list_lookup_fmap in Hi. destruct (users !! i) as [u|]; [|done]. injection Hi as <-. by exists u.
  - unfold spin_run in *. rewrite foldl_snoc in Hi. unfold spin_step in Hi. destruct (tasks (foldl _ _ sched) !! j) as [tj|] eqn:Ej; [|by apply IH].
    destruct (spin_turn _ _) as [m p]. cbn [tasks] in Hi. apply list_lookup_insert_Some in Hi as [(-> & <- & _)|(_ & Hi)]; [|by apply IH].
    exact (IH _ _ Ej).
Qed.

(** who waits for a lock with an address waits for one who has it, and waits for a higher one if at all *)
Lemma blocked_chain s i t a : locked s -> (forall i t, tasks s !! i = Some t -> ascending (locks t)) -> tasks s !! i = Some t -> waits s t a ->
  exists j t', tasks s !! j = Some t' /\ place_of t' <> Outside /\ forall b, waits s t' b -> a < b.
Proof.
  intros Hs Hasc Hi (k & Hk & Ha & Hn). destruct (lk_owner s Hs a Hn) as (j & t' & Hj & Hat). exists j, t'. split; [done|]. split.
  - intros E. unfold holds in Hat. rewrite E in Hat. by apply elem_of_nil in Hat.
  - intros b (k' & Hk' & Hb & _). unfold holds in Hat. rewrite Hk' in Hat. apply list_elem_of_lookup in Hat as [n Hat].
    apply lookup_take_Some in Hat as [Hat Hlt]. by eapply (Hasc j t' Hj n k').
Qed.

(** of tasks that wait one waits for the highest address; who has that lock does not wait *)
Lemma some_not_blocked s n i t a : locked s -> (forall i t, tasks s !! i = Some t -> ascending (locks t)) -> (forall i t b, tasks s !! i = Some t -> waits s t b -> b < a + Z.of_nat n) ->
  tasks s !! i = Some t -> waits s t a -> exists j t', tasks s !! j = Some t' /\ place_of t' <> Outside /\ ~ blocked s t'.
Proof.
  intros Hs Hasc. revert i t a. induction n as [|n IH]; intros i t a Hmax Hi Hw; [specialize (Hmax i t a Hi Hw); lia|].
  destruct (blocked_chain s i t a Hs Hasc Hi Hw) as (j & t' & Hj & Ho & Hb).
  assert (forall k, place_of t' = Taking k -> exists b, locks t' !! k = Some b) as Hk.
  { intros k E. destruct (lk_tasks s Hs j t' Hj) as (_ & _ & _ & Hp). rewrite E in Hp. apply lookup_lt_is_Some_2. done. }
  assert ((exists b, waits s t' b) \/ ~ blocked s t') as [[b Hwb]|Hn].
  { destruct (place_of t') as [|k| |k|k old] eqn:E; try (right; intros (b & k0 & H & _); congruence).
    destruct (Hk k eq_refl) as [b Eb]. destruct (decide (store s b = 0)) as [H0|H0].
    - right. intros (b' & k0 & H & Hb' & Hn). rewrite E in H. injection H as <-. rewrite Eb in Hb'. by injection Hb' as <-.
    - left. exists b. by exists k. }
  - apply (IH j t' b); [|done|done]. intros i0 t0 b0 Hi0 Hw0. specialize (Hmax i0 t0 b0 Hi0 Hw0). specialize (Hb b Hwb). lia.
  - by exists j, t'.
Qed.

Lemma addresses_bounded (l : list task) : exists n, forall t a, t ∈ l -> a ∈ locks t -> a < n.
Proof.
  assert (forall l : list Z, exists n, forall a, a ∈ l -> a < n) as Hz.
  { intros l'. induction l' as [|x l' [n IH]]; [exists 0; by intros a ?%elem_of_nil|]. exists (Z.max n (x + 1)).
    intros a [->|Ha]%elem_of_cons; [lia|]. specialize (IH a Ha). lia. }
  induction l as [|x l [n IH]]; [exists 0; by intros t a ?%elem_of_nil|]. destruct (Hz (locks x)) as [m Hm]. exists (Z.max n m).
  intros t a [->|Ht]%elem_of_cons Ha; [specialize (Hm a Ha); lia|]. specialize (IH t a Ht Ha). lia.
Qed.

(** the tasks that use spin_double_lock: two locks as they name them, and where they call from *)
Definition double_users (pairs : list (Z * Z * Z)) : list (list Z * Z) := map (fun u => (double_order u.1.1 u.1.2, u.2)) pairs.

Lemma double_users_ok pairs : Forall (fun u => u.1.1 <> u.1.2) pairs -> users_ok (double_users pairs) /\ Forall (fun u => ascending u.1) (double_users pairs).
Proof.
  intros H. unfold users_ok, double_users. rewrite !Forall_map. split; eapply Forall_impl; try exact H; intros u Hu; destruct (double_order_ascending _ _ Hu) as (? & ? & ?); done.
Qed.

(** C8: Tasks that each take two locks with spin_double_lock, whichever they name first, never wait for each other in a circle: in
    every reachable state in which some task waits, a task that is using locks does not wait, and its next turn takes it further. *)
Theorem double_lock_no_deadlock (pairs : list (Z * Z * Z)) (sched : list nat) (i : nat) (t : task) :
  Forall (fun u => u.1.1 <> u.1.2) pairs -> let s := spin_run sched (free_locks (double_users pairs)) in
  tasks s !! i = Some t -> blocked s t ->
  exists j t' t'', tasks s !! j = Some t' /\ place_of t' <> Outside /\ tasks (spin_step s j) !! j = Some t'' /\ place_of t'' <> place_of t'.
Proof.
  intros [Hu Hasc]%double_users_ok s Hi [a Hw]. pose proof (spin_run_locked _ sched Hu) as Hs. fold s in Hs.
  assert (forall i t, tasks s !! i = Some t -> ascending (locks t)) as Hasc'.
  { intros i0 t0 H0. destruct (locks_run sched _ i0 t0 H0) as (u & Hu0 & ->). by apply (Forall_lookup_1 _ _ _ _ Hasc Hu0). }
  destruct (addresses_bounded (tasks s)) as [n Hn].
  destruct (some_not_blocked s (Z.to_nat (n - a)) i t a Hs Hasc') as (j & t' & Hj & Ho & Hb); [|done|done|].
  { intros i0 t0 b Hi0 (k & _ & Hb & _). assert (b < n); [|lia]. eapply Hn; [by eapply list_elem_of_lookup_2|by eapply list_elem_of_lookup_2]. }
  pose proof (turn_moves s t' (lk_tasks s Hs j t' Hj) Hb) as Hm. exists j, t', (Task (locks t') (pc t') (spin_turn t' (store s)).2).
  split; [done|]. split; [done|]. split; [|done]. unfold spin_step. rewrite Hj. destruct (spin_turn t' (store s)) as [m p].
  by apply list_lookup_insert_eq, lookup_lt_Some with t'.
Qed.

(** ** Two tasks and two locks *)

(** one names the locks the other way round *)
Definition crossing : list (Z * Z * Z) := [(0x1000, 0x2000, 0x500); (0x2000, 0x1000, 0x600)].

Lemma crossing_ok : Forall (fun u : Z * Z * Z => u.1.1 <> u.1.2) crossing.
Proof. repeat (apply Forall_cons_2; [done|]). apply Forall_nil_2. Qed.

(** the first has one lock, the second waits for it *)
Definition crossed : machine := spin_run [0; 0; 1; 1]%nat (free_locks (double_users crossing)).

Definition the_task (s : machine) (i : nat) : task := default (Task [] 0 Outside) (tasks s !! i).

Lemma spin_exclusion_witness : (forall i t, tasks crossed !! i = Some t -> 0x1000 ∈ holds t -> i = 0%nat) /\ store crossed 0x2000 = 0.
Proof.
  destruct (spin_exclusion (double_users crossing) [0; 0; 1; 1]%nat (proj1 (double_users_ok crossing crossing_ok))) as [H1 H0]. split.
  - intros i t Hi Ha. apply (H1 i 0%nat t (the_task crossed 0) 0x1000 Hi eq_refl Ha). vm_compute. by left.
  - apply H0. intros [|[|i]] t Hi; [injection Hi as <-..|discriminate Hi]; apply (bool_decide_unpack _); vm_compute; exact I.
Defined.

Lemma double_lock_no_deadlock_witness : exists j t' t'', tasks crossed !! j = Some t' /\ place_of t' <> Outside /\
  tasks (spin_step crossed j) !! j = Some t'' /\ place_of t'' <> place_of t'.
Proof.
  apply (double_lock_no_deadlock crossing [0; 0; 1; 1]%nat 1 (the_task crossed 1) crossing_ok eq_refl).
  exists 0x1000, 0%nat. vm_compute. split_and!; done.
Defined.

(** the order of the call, not of the addresses, would have both wait *)
Example by_call_order_deadlock :
  let s := spin_run [0; 1; 0; 1; 0; 1]%nat (free_locks [([0x1000; 0x2000], 0x500); ([0x2000; 0x1000], 0x600)]) in
  map place_of (tasks s) = [Taking 1; Taking 1] /\ map place_of (tasks (spin_step (spin_step s 0) 1)) = [Taking 1; Taking 1].
Proof. vm_compute. done. Qed.

(** the same lock twice is never got *)
Example same_lock_twice : map place_of (tasks (spin_run (replicate 50 0%nat) (free_locks [(double_order 0x1000 0x1000, 0x500)]))) = [Taking 1].
Proof. vm_compute. done. Qed.
