(* ===== verification/Ldep.v ===== *)
(** cp/nucleus/ldep.c: the lock dependency checker.

    Every task keeps a stack of the mutexes it holds; [ldep_lock] warns about a
    lock of a class the task holds already and [ldep_unlock] about a lock it
    does not hold, and either turns the checker off for good.  The stack is the
    array of [struct held_lock] in the task, 32 bytes an entry; the messages
    are kept in a log instead of being printed.  The theorems: nested use keeps
    the stack exact, and what releasing a lock below the top does. *)

From S2P Require Import Prelude.

Local Open Scope Z_scope.

Definition LDEP_STACK_SIZE : Z := 10.

Record held_lock := HeldLock {
  ra : Z;
  hl_lock : Z;
  lockname : Z;
  lclass : Z;
}.

#[global] Instance held_lock_eq_dec : EqDecision held_lock.
Proof. solve_decision. Defined.

(** the entry in storage: four doublewords *)
Definition held_lock_bytes (h : held_lock) : list Z :=
  be_bytes 8 (ra h) ++ be_bytes 8 (hl_lock h) ++ be_bytes 8 (lockname h) ++ be_bytes 8 (lclass h).

Definition sizeof_held_lock : Z := 32.

Definition dword (b : list Z) (off : Z) : outcome Z := x ← defined (aslice b off 8); Ret (be_val x).

Definition held_lock_at (b : list Z) (i : Z) : outcome held_lock :=
  r ← dword b (sizeof_held_lock * i); l ← dword b (sizeof_held_lock * i + 8);
  n ← dword b (sizeof_held_lock * i + 16); c ← dword b (sizeof_held_lock * i + 24);
  Ret (HeldLock r l n c).

Inductive message : Type :=
  | Recursive (lname : Z) (ra : Z)      (* possible recursive locking detected *)
  | TooMany                             (* exceeded the number of tracked locks *)
  | NotHeld (lname : Z) (ra : Z)        (* trying to release lock it doesn't have *)
  | StillHeld (ra : Z).                 (* holding a lock when it shouldn't *)

(** the checker and the current task's part of it: [lock_stack] is the bytes of
    the task's array *)
Record ldep := Ldep {
  ldep_enabled : bool;
  nr_locks : Z;
  lock_stack : list Z;
  log : list message;
}.

Definition ldep_on (s : ldep) : ldep := Ldep true (nr_locks s) (lock_stack s) (log s).

(** disable, after a message *)
Definition ldep_off (s : ldep) (m : message) : ldep := Ldep false (nr_locks s) (lock_stack s) (log s ++ [m]).

(** the new count, and whether there is no slot *)
Definition __get_stack_slot (s : ldep) : ldep * bool :=
  let s := Ldep (ldep_enabled s) (s32 (nr_locks s + 1)) (lock_stack s) (log s) in
  if nr_locks s =? LDEP_STACK_SIZE
  then (Ldep (ldep_enabled s) (nr_locks s) (lock_stack s) (log s ++ [TooMany]), true)
  else (s, false).

(** the first of the entries [i .. i+n-1] that satisfies [f] *)
Fixpoint scan (b : list Z) (f : held_lock -> bool) (i : Z) (n : nat) : outcome (option (Z * held_lock)) :=
  match n with
  | O => Ret None
  | S n => h ← held_lock_at b i; if f h then Ret (Some (i, h)) else scan b f (i + 1) n
  end.

Definition ldep_lock (s : ldep) (ra lock c lname : Z) : outcome ldep :=
  if negb (ldep_enabled s) then Ret s else
  hit ← scan (lock_stack s) (fun h => lclass h =? c) 0 (Z.to_nat (nr_locks s));
  match hit with
  | Some _ => Ret (ldep_off s (Recursive lname ra))
  | None =>
      let '(s, full) := __get_stack_slot s in
      if full then Ret s else
      b ← defined (ablit (lock_stack s) (sizeof_held_lock * (nr_locks s - 1))
                     (held_lock_bytes (HeldLock ra lock lname c)));
      Ret (Ldep (ldep_enabled s) (nr_locks s) b (log s))
  end.

(** [memcpy(&lock_stack[i], &lock_stack[i+1], n)], [n] bytes *)
Definition copy_down (b : list Z) (i n : Z) : outcome (list Z) :=
  src ← defined (aslice b (sizeof_held_lock * (i + 1)) n); defined (ablit b (sizeof_held_lock * i) src).

Definition ldep_unlock (s : ldep) (ra lock lname : Z) : outcome ldep :=
  if negb (ldep_enabled s) then Ret s else
  hit ← scan (lock_stack s) (fun h => hl_lock h =? lock) 0 (Z.to_nat (nr_locks s));
  match hit with
  | None => Ret (ldep_off s (NotHeld lname ra))
  | Some (i, _) =>
      b ← (if negb (i =? nr_locks s - 1) then copy_down (lock_stack s) i (nr_locks s - i - 1)
           else Ret (lock_stack s));
      Ret (Ldep (ldep_enabled s) (s32 (nr_locks s - 1)) b (log s))
  end.

Definition ldep_no_locks (s : ldep) (ra : Z) : ldep :=
  if negb (ldep_enabled s) then s else
  if nr_locks s =? 0 then s else ldep_off s (StillHeld ra).

(** * The stack as a list *)

Definition dword_ok (v : Z) : Prop := 0 <= v < 2 ^ 64.
Definition entry_ok (h : held_lock) : Prop :=
  dword_ok (ra h) /\ dword_ok (hl_lock h) /\ dword_ok (lockname h) /\ dword_ok (lclass h).

(** the bytes hold the entries [hs], oldest first *)
Definition holds (b : list Z) (hs : list held_lock) : Prop :=
  lenZ b = sizeof_held_lock * LDEP_STACK_SIZE /\ Forall entry_ok hs /\
  forall i h, hs !! i = Some h -> aslice b (sizeof_held_lock * Z.of_nat i) sizeof_held_lock = Some (held_lock_bytes h).

Lemma held_lock_bytes_len h : lenZ (held_lock_bytes h) = 32.
Proof. unfold held_lock_bytes, lenZ. rewrite !length_app, !be_bytes_length. done. Qed.

Lemma be_val_dword v : dword_ok v -> be_val (be_bytes 8 v) = v.
Proof. intros Hv. rewrite be_val_bytes. apply Z.mod_small. exact Hv. Qed.

Lemma held_lock_at_spec b i h :
  aslice b (sizeof_held_lock * i) sizeof_held_lock = Some (held_lock_bytes h) -> entry_ok h ->
  held_lock_at b i = Ret h.
Proof.
  intros Hb (H1 & H2 & H3 & H4). unfold held_lock_at, dword, sizeof_held_lock in *.
  assert (forall j, 0 <= j -> j + 8 <= 32 -> aslice b (32 * i + j) 8 =
            Some (take 8 (drop (Z.to_nat j) (held_lock_bytes h)))) as Hs.
  { intros j Hj Hj8. by rewrite (aslice_sub _ _ _ _ _ _ Hb) by lia. }
  pose proof (Hs 0 ltac:(lia) ltac:(lia)) as E0. rewrite Z.add_0_r in E0.
  rewrite E0, !Hs by lia. clear Hs E0 Hb.
  destruct h as [r l n c]. unfold held_lock_bytes. cbn [ra hl_lock lockname lclass] in *.
  transitivity (Ret (HeldLock (be_val (be_bytes 8 r)) (be_val (be_bytes 8 l)) (be_val (be_bytes 8 n))
    (be_val (be_bytes 8 c)))); [reflexivity|]. by rewrite !be_val_dword.
Qed.

(** the loop over the first [n] entries finds the first match *)
Lemma scan_spec b hs f k :
  holds b hs ->
  scan b f (Z.of_nat k) (length hs - k) =
  Ret (match list_find f (drop k hs) with Some (j, h) => Some (Z.of_nat (k + j), h) | None => None end).
Proof.
  intros (Hlen & Hok & Hh). remember (length hs - k)%nat as n eqn:En. revert k En.
  induction n as [|n IH]; intros k En; cbn [scan].
  { by rewrite drop_ge by lia. }
  destruct (lookup_lt_is_Some_2 hs k) as [h Hk]; [lia|].
  rewrite (held_lock_at_spec b _ h); [|by apply Hh|by apply (proj1 (Forall_lookup _ _) Hok k)].
  cbn [mbind outcome_bind]. rewrite (drop_S _ _ _ Hk). cbn [list_find].
  destruct (f h) eqn:Ef.
  - rewrite decide_True by done. by rewrite Nat.add_0_r.
  - rewrite decide_False by (by intros []).
    replace (Z.of_nat k + 1) with (Z.of_nat (S k)) by lia. rewrite IH by lia.
    destruct (list_find _ _) as [[j h']|]; [|done]. cbn. do 4 f_equal. lia.
Qed.

(** the checker's state for a task holding [hs] *)
Record tracks (s : ldep) (hs : list held_lock) : Prop := Tracks {
  t_on : ldep_enabled s = true;
  t_nr : nr_locks s = lenZ hs;
  t_few : lenZ hs < LDEP_STACK_SIZE;
  t_holds : holds (lock_stack s) hs;
}.

Lemma list_find_none {A} (P : A -> Prop) `{forall x, Decision (P x)} l :
  (forall x, x ∈ l -> ~ P x) -> list_find P l = None.
Proof. intros Hl. apply list_find_None. by apply Forall_forall. Qed.

Lemma tracks_scan s hs f : tracks s hs ->
  scan (lock_stack s) f 0 (Z.to_nat (nr_locks s)) =
  Ret (match list_find f hs with Some (j, h) => Some (Z.of_nat j, h) | None => None end).
Proof.
  intros []. rewrite t_nr0. unfold lenZ. rewrite Nat2Z.id.
  pose proof (scan_spec (lock_stack s) hs f 0 t_holds0) as E. rewrite Nat.sub_0_r, drop_0 in E. exact E.
Qed.

(** [ldep_lock] of a lock whose class is not held pushes an entry *)
Lemma ldep_lock_push s hs ra lock c lname :
  tracks s hs -> entry_ok (HeldLock ra lock lname c) -> lenZ hs + 1 < LDEP_STACK_SIZE ->
  (forall h, h ∈ hs -> lclass h <> c) ->
  exists s', ldep_lock s ra lock c lname = Ret s' /\ tracks s' (hs ++ [HeldLock ra lock lname c]) /\ log s' = log s.
Proof.
  intros Ht Hok Hfew Hcl. unfold ldep_lock. rewrite (t_on _ _ Ht). cbn [negb].
  rewrite (tracks_scan _ _ _ Ht), list_find_none by (intros h Hh E; apply (Hcl h Hh); by apply Z.eqb_eq, Is_true_true).
  cbn [mbind outcome_bind]. unfold __get_stack_slot. cbn [nr_locks ldep_enabled lock_stack log].
  rewrite (t_nr _ _ Ht). unfold LDEP_STACK_SIZE in *. pose proof (lenZ_nonneg hs). rewrite swrap_small by lia.
  destruct (Z.eqb_spec (lenZ hs + 1) 10); [lia|]. cbn [nr_locks ldep_enabled lock_stack log].
  replace (lenZ hs + 1 - 1) with (lenZ hs) by lia.
  destruct (t_holds _ _ Ht) as (Hlen & Hall & Hh). unfold sizeof_held_lock, LDEP_STACK_SIZE in *.
  destruct (ablit_is_Some (lock_stack s) (32 * lenZ hs) (held_lock_bytes (HeldLock ra lock lname c))) as [b Hb];
    [lia|rewrite held_lock_bytes_len; lia|]. rewrite Hb. cbn [defined mbind outcome_bind].
  eexists. split; [done|]. split; [|done]. split; cbn [nr_locks ldep_enabled lock_stack log].
  - by destruct Ht.
  - by rewrite lenZ_app.
  - rewrite lenZ_app. change (lenZ [_]) with 1. unfold LDEP_STACK_SIZE. lia.
  - split_and!; [by rewrite (ablit_lenZ _ _ _ _ Hb)|by apply Forall_app_2; [|constructor]|].
    intros i h Hi. unfold sizeof_held_lock. destruct (decide (i < length hs)%nat) as [Hlt|Hge].
    + rewrite lookup_app_l in Hi by done.
      rewrite (aslice_ablit_disjoint _ _ _ _ _ _ Hb) by (left; unfold lenZ; lia). by apply Hh.
    + rewrite lookup_app_r in Hi by lia. apply list_lookup_singleton_Some in Hi as [Hi <-].
      replace (Z.of_nat i) with (lenZ hs) by (unfold lenZ; lia).
      rewrite <- (held_lock_bytes_len (HeldLock ra lock lname c)). apply (aslice_ablit _ _ _ _ Hb).
Qed.

(** and of a class that is held: a warning, and the checker is off *)
Lemma ldep_lock_recursive s hs ra lock c lname h :
  tracks s hs -> h ∈ hs -> lclass h = c -> ldep_lock s ra lock c lname = Ret (ldep_off s (Recursive lname ra)).
Proof.
  intros Ht Hh Hc. unfold ldep_lock. rewrite (t_on _ _ Ht). cbn [negb]. rewrite (tracks_scan _ _ _ Ht).
  destruct (list_find _ hs) as [[j h']|] eqn:E; [done|]. apply list_find_None in E. rewrite Forall_forall in E.
  exfalso. apply (E h Hh). apply Is_true_true. by apply Z.eqb_eq.
Qed.

Lemma holds_prefix b hs h : holds b (hs ++ [h]) -> holds b hs.
Proof.
  intros (H1 & H2 & H3). split_and!; [done|by apply Forall_app in H2 as [? _]|].
  intros i h' Hi. apply H3. by apply lookup_app_l_Some.
Qed.

(** [ldep_unlock] of the top entry pops it *)
Lemma ldep_unlock_pop s hs h ra lname :
  tracks s (hs ++ [h]) -> (forall h', h' ∈ hs -> hl_lock h' <> hl_lock h) ->
  exists s', ldep_unlock s ra (hl_lock h) lname = Ret s' /\ tracks s' hs /\ log s' = log s.
Proof.
  intros Ht Hne. unfold ldep_unlock. rewrite (t_on _ _ Ht). cbn [negb]. rewrite (tracks_scan _ _ _ Ht).
  rewrite list_find_app_r by (apply list_find_none; intros h' Hh' E; apply (Hne h' Hh'); by apply Z.eqb_eq, Is_true_true).
  cbn [list_find]. rewrite decide_True by (by rewrite Z.eqb_refl). cbn.
  rewrite (t_nr _ _ Ht), lenZ_app. change (lenZ [h]) with 1.
  replace (lenZ hs + 1 - 1) with (lenZ hs) by lia. rewrite (proj2 (Z.eqb_eq (Z.of_nat (length hs)) (lenZ hs))) by done.
  cbn [negb mbind outcome_bind]. pose proof (t_few _ _ Ht) as Hf. rewrite lenZ_app in Hf. unfold LDEP_STACK_SIZE in Hf.
  change (lenZ [h]) with 1 in Hf. pose proof (lenZ_nonneg hs).
  eexists. split; [done|]. split; [|done]. split; cbn [nr_locks ldep_enabled lock_stack log].
  - by destruct Ht.
  - rewrite swrap_small; lia.
  - unfold LDEP_STACK_SIZE. lia.
  - by eapply holds_prefix, t_holds.
Qed.

(** ** Releasing a lock below the top *)

(** copying at most 8 bytes from the next entry only touches the return address *)
Lemma copy_down_bytes b hs i h g m :
  holds b hs -> hs !! i = Some h -> hs !! S i = Some g -> 0 <= m <= 8 ->
  exists b' r, copy_down b (Z.of_nat i) m = Ret b' /\
    holds b' (<[i := HeldLock r (hl_lock h) (lockname h) (lclass h)]> hs).
Proof.
  intros Hholds Hi Hg Hm. pose proof Hholds as (Hlen & Hok & Hh). unfold copy_down.
  pose proof (Hh (S i) g Hg) as Hgb. pose proof (Hh i h Hi) as Hhb. unfold sizeof_held_lock, LDEP_STACK_SIZE in *.
  pose proof (aslice_sub _ _ _ _ 0 m Hgb ltac:(lia) ltac:(lia) ltac:(lia)) as Hsrc. rewrite Z.add_0_r in Hsrc.
  replace (Z.of_nat i + 1) with (Z.of_nat (S i)) by lia. rewrite Hsrc. cbn [defined mbind outcome_bind].
  set (src := take _ _) in *. pose proof (aslice_lenZ _ _ _ _ Hsrc) as Hsl.
  assert (32 * Z.of_nat i + 32 <= lenZ b) as Hib by (revert Hhb; unfold aslice; case_decide; [lia|done]).
  destruct (ablit_is_Some b (32 * Z.of_nat i) src) as [b' Hb']; [lia|lia|].
  rewrite Hb'. cbn [defined mbind outcome_bind].
  set (rb := take (Z.to_nat m) (be_bytes 8 (ra g)) ++ drop (Z.to_nat m) (be_bytes 8 (ra h))).
  exists b', (be_val rb). split; [done|].
  assert (length rb = 8%nat) as Hrl.
  { unfold rb. rewrite length_app, length_take, length_drop, !be_bytes_length. lia. }
  assert (Forall (fun x => 0 <= x < 256) rb) as Hrr.
  { apply Forall_app_2; [apply Forall_take|apply Forall_drop]; apply be_bytes_range. }
  pose proof (be_val_range rb Hrr) as Hrv. unfold lenZ in Hrv. rewrite Hrl in Hrv.
  pose proof (be_bytes_val rb Hrr) as Hrb. rewrite Hrl in Hrb.
  pose proof (proj1 (Forall_lookup _ _) Hok i h Hi) as (_ & O2 & O3 & O4).
  split_and!; [by rewrite (ablit_lenZ _ _ _ _ Hb')|by apply Forall_insert; [done|split_and!]|].
  intros j h' Hj. unfold sizeof_held_lock. destruct (decide (i = j)) as [<-|Hij].
  - rewrite list_lookup_insert_eq in Hj by (by eapply lookup_lt_Some). injection Hj as <-.
    pose proof (aslice_ablit _ _ _ _ Hb') as Hfront. rewrite Hsl in Hfront.
    pose proof (aslice_sub _ _ _ _ m (32 - m) Hhb ltac:(lia) ltac:(lia) ltac:(lia)) as Hback.
    rewrite <- (aslice_ablit_disjoint _ _ _ _ (32 * Z.of_nat i + m) (32 - m) Hb') in Hback by lia.
    replace 32 with (m + (32 - m)) at 2 by lia. rewrite (aslice_join _ _ _ _ _ _ Hfront Hback). f_equal.
    unfold src. change (Z.to_nat 0) with 0%nat. rewrite drop_0. unfold held_lock_bytes. cbn [ra hl_lock lockname lclass].
    rewrite Hrb. unfold rb.
    rewrite (take_ge (drop _ _)) by (rewrite length_drop, !length_app, !be_bytes_length; lia).
    rewrite take_app_le, drop_app_le by (rewrite be_bytes_length; lia). by rewrite <- app_assoc.
  - rewrite list_lookup_insert_ne in Hj by done. rewrite (aslice_ablit_disjoint _ _ _ _ _ _ Hb') by lia. by apply Hh.
Qed.

(** what the checker compares *)
Definition key (h : held_lock) : Z * Z := (hl_lock h, lclass h).

Lemma list_find_lock (hs : list held_lock) i h :
  hs !! i = Some h -> NoDup (map hl_lock hs) -> list_find (fun h' => hl_lock h' =? hl_lock h) hs = Some (i, h).
Proof.
  intros Hi Hnd. apply list_find_Some. split_and!; [done|by rewrite Z.eqb_refl|].
  intros j h' Hj Hlt E%Is_true_true%Z.eqb_eq. rewrite NoDup_alt in Hnd.
  assert (j = i); [|lia]. eapply Hnd; rewrite list_lookup_fmap, ?Hj, ?Hi; [done|]. cbn. by rewrite E.
Qed.

Lemma ldep_unlock_below s hs i h ra lname :
  tracks s hs -> NoDup (map hl_lock hs) -> hs !! i = Some h -> (S i < length hs)%nat ->
  exists s' hs', ldep_unlock s ra (hl_lock h) lname = Ret s' /\ tracks s' hs' /\ log s' = log s /\
    map key hs' = take (length hs - 1) (map key hs).
Proof.
  intros Ht Hnd Hi Hlt. unfold ldep_unlock. rewrite (t_on _ _ Ht). cbn [negb].
  rewrite (tracks_scan _ _ _ Ht), (list_find_lock _ _ _ Hi Hnd). cbn [mbind outcome_bind].
  pose proof (t_few _ _ Ht) as Hfew. unfold LDEP_STACK_SIZE in Hfew. rewrite (t_nr _ _ Ht).
  destruct (Z.eqb_spec (Z.of_nat i) (lenZ hs - 1)) as [E|_]; [unfold lenZ in E; lia|]. cbn [negb].
  destruct (lookup_lt_is_Some_2 hs (S i)) as [g Hg]; [lia|].
  destruct (copy_down_bytes _ _ _ _ _ (lenZ hs - Z.of_nat i - 1) (t_holds _ _ Ht) Hi Hg) as (b' & r & -> & Hb').
  { unfold lenZ in *. lia. }
  cbn [mbind outcome_bind]. set (hs1 := <[i:=_]> hs) in *.
  assert (length hs1 = length hs) as Hl1 by apply length_insert.
  destruct (exists_last (l := hs1)) as (hs' & t & Ehs); [by destruct hs1, hs|].
  assert (length hs = S (length hs')) as Hl by (rewrite <- Hl1, Ehs, length_app; simpl; lia).
  eexists _, hs'. split; [done|]. split; [|split; [done|]].
  - split; cbn [nr_locks ldep_enabled lock_stack log].
    + by destruct Ht.
    + rewrite swrap_small; unfold lenZ in *; lia.
    + unfold LDEP_STACK_SIZE, lenZ in *. lia.
    + rewrite Ehs in Hb'. by eapply holds_prefix.
  - replace (map key hs) with (map key hs1).
    { rewrite Ehs, map_app, Hl. rewrite take_app_length' by (rewrite length_map; lia). done. }
    unfold hs1. change (map key) with (fmap (M := list) key). rewrite list_fmap_insert.
    apply list_insert_id. rewrite list_lookup_fmap, Hi. done.
Qed.

Lemma ldep_unlock_unknown s hs ra lock lname :
  tracks s hs -> lock ∉ map hl_lock hs -> ldep_unlock s ra lock lname = Ret (ldep_off s (NotHeld lname ra)).
Proof.
  intros Ht Hn. unfold ldep_unlock. rewrite (t_on _ _ Ht). cbn [negb]. rewrite (tracks_scan _ _ _ Ht), list_find_none; [done|].
  intros h Hh E%Is_true_true%Z.eqb_eq. apply Hn. subst lock. apply list_elem_of_fmap. eauto.
Qed.

(** ** Sequences of calls *)

Inductive call : Type :=
  | Acquire (h : held_lock)
  | Release (ra lock lname : Z).

Fixpoint calls (cs : list call) (s : ldep) : outcome ldep :=
  match cs with
  | [] => Ret s
  | Acquire h :: cs => s ← ldep_lock s (ra h) (hl_lock h) (lclass h) (lockname h); calls cs s
  | Release r l n :: cs => s ← ldep_unlock s r l n; calls cs s
  end.

Definition dword_okb (v : Z) : bool := (0 <=? v) && (v <? 2 ^ 64).
Definition entry_okb (h : held_lock) : bool :=
  dword_okb (ra h) && dword_okb (hl_lock h) && dword_okb (lockname h) && dword_okb (lclass h).

(** calls in which locks are released in the opposite order of their
    acquisition, those held at a time differ in lock and class, and are at most
    nine: the locks held at the end, oldest first *)
Fixpoint nested (cs : list call) (held : list held_lock) : option (list held_lock) :=
  match cs with
  | [] => Some held
  | Acquire h :: cs =>
      if entry_okb h && bool_decide (hl_lock h ∉ map hl_lock held) && bool_decide (lclass h ∉ map lclass held) &&
         (lenZ held + 1 <? LDEP_STACK_SIZE)
      then nested cs (held ++ [h]) else None
  | Release _ l _ :: cs =>
      match last held with
      | Some h => if hl_lock h =? l then nested cs (removelast held) else None
      | None => None
      end
  end.

Definition fresh_task (stack : list Z) : ldep := Ldep false 0 stack [].

Lemma fresh_tracks stack : lenZ stack = 320 -> tracks (ldep_on (fresh_task stack)) [].
Proof. intros Hs. split; try done.  Qed.

Lemma entry_okb_spec h : entry_okb h = true -> entry_ok h.
Proof. unfold entry_okb, dword_okb, entry_ok, dword_ok. rewrite !andb_true_iff, !Z.leb_le, !Z.ltb_lt. tauto. Qed.

Lemma nested_tracks cs s held hs :
  tracks s held -> NoDup (map hl_lock held) -> nested cs held = Some hs ->
  exists s', calls cs s = Ret s' /\ tracks s' hs /\ NoDup (map hl_lock hs) /\ log s' = log s.
Proof.
  revert s held. induction cs as [|[h|r l n] cs IH]; intros s held Ht Hnd; cbn [nested calls].
  - intros [= <-]. eauto.
  - destruct (_ && _) eqn:E; [|done]. intros Hrest.
    apply andb_true_iff in E as [[[Hok%entry_okb_spec Hl%bool_decide_eq_true]%andb_true_iff
      Hc%bool_decide_eq_true]%andb_true_iff Hn%Z.ltb_lt].
    destruct (ldep_lock_push s held (ra h) (hl_lock h) (lclass h) (lockname h)) as (s1 & -> & Ht1 & Hlog1); try done.
    { intros h' Hh' E. apply Hc. rewrite <- E. apply list_elem_of_fmap. eauto. }
    cbn [mbind outcome_bind]. replace (HeldLock _ _ _ _) with h in Ht1 by (by destruct h).
    destruct (IH s1 _ Ht1) as (s2 & E2 & Ht2 & Hnd2 & Hlog2); [|done|].
    { rewrite map_app. apply NoDup_app. split_and!; [done| |apply NoDup_singleton].
      intros x Hx Hx'. apply list_elem_of_singleton in Hx' as ->. done. }
    exists s2. split_and!; try done. congruence.
  - destruct (last held) as [h|] eqn:Elast; [|done]. destruct (Z.eqb_spec (hl_lock h) l) as [<-|]; [|done].
    apply last_Some in Elast as [pre ->]. rewrite removelast_last. intros Hrest.
    rewrite map_app in Hnd. apply NoDup_app in Hnd as (Hnd & Hdisj & _).
    destruct (ldep_unlock_pop s pre h r n) as (s1 & -> & Ht1 & Hlog1); [done| |].
    { intros h' Hh' E. apply (Hdisj (hl_lock h')); [apply list_elem_of_fmap; eauto|].
      rewrite E. cbn. by apply list_elem_of_singleton. }
    cbn [mbind outcome_bind]. destruct (IH s1 pre Ht1 Hnd Hrest) as (s2 & E2 & Ht2 & Hnd2 & Hlog2).
    exists s2. split_and!; try done. congruence.
Qed.

(** C39: For a task that releases its locks in the opposite order of taking them,
    holding at most nine at a time and no two of a class, the checker stays on,
    prints nothing and knows exactly the locks held; it then reports taking
    another lock of a class held, and releasing a lock not held. *)
Theorem ldep_nested_exact stack cs hs :
  lenZ stack = 320 -> nested cs [] = Some hs ->
  exists s, calls cs (ldep_on (fresh_task stack)) = Ret s /\ tracks s hs /\ log s = [] /\
    (forall ra lock lname c, c ∈ map lclass hs -> ldep_lock s ra lock c lname = Ret (ldep_off s (Recursive lname ra))) /\
    (forall ra lock lname, lock ∉ map hl_lock hs -> ldep_unlock s ra lock lname = Ret (ldep_off s (NotHeld lname ra))).
Proof.
  intros Hs Hn. destruct (nested_tracks cs _ [] hs (fresh_tracks stack Hs)) as (s & E & Ht & _ & Hlog); [constructor|done|].
  exists s. split_and!; try done.
  - intros ra lock lname c (h & -> & Hh)%list_elem_of_fmap. by eapply ldep_lock_recursive.
  - intros ra lock lname Hl. by eapply ldep_unlock_unknown.
Qed.

Definition sample_locks : list call :=
  [Acquire (HeldLock 4096 8 1 2); Acquire (HeldLock 4100 16 3 4); Release 4104 16 3; Acquire (HeldLock 5000 24 5 6)].

Lemma ldep_nested_exact_witness :
  let hs := [HeldLock 4096 8 1 2; HeldLock 5000 24 5 6] in
  exists s, calls sample_locks (ldep_on (fresh_task (replicate 320 0))) = Ret s /\ tracks s hs /\ log s = [] /\
    (forall ra lock lname c, c ∈ map lclass hs -> ldep_lock s ra lock c lname = Ret (ldep_off s (Recursive lname ra))) /\
    (forall ra lock lname, lock ∉ map hl_lock hs -> ldep_unlock s ra lock lname = Ret (ldep_off s (NotHeld lname ra))).
Proof. apply (ldep_nested_exact (replicate 320 0) sample_locks); by vm_compute. Defined.

(** Releasing a lock that is not the last one taken: [memcpy] moves as many
    bytes as entries, so that the entry stays and the last one is forgotten;
    releasing the last lock afterwards is reported as releasing a lock the task
    does not have, and the checker is off. *)
Theorem ldep_unlock_out_of_order s hs i h top ra lname ra' lname' :
  tracks s hs -> NoDup (map hl_lock hs) -> hs !! i = Some h -> (S i < length hs)%nat -> last hs = Some top ->
  exists s1 hs1, ldep_unlock s ra (hl_lock h) lname = Ret s1 /\ ldep_enabled s1 = true /\ tracks s1 hs1 /\
    map key hs1 = take (length hs - 1) (map key hs) /\
    ldep_unlock s1 ra' (hl_lock top) lname' = Ret (ldep_off s1 (NotHeld lname' ra')).
Proof.
  intros Ht Hnd Hi Hlt Htop. destruct (ldep_unlock_below s hs i h ra lname) as (s1 & hs1 & E1 & Ht1 & _ & Hk); try done.
  exists s1, hs1. split_and!; try done; [apply Ht1|]. apply (ldep_unlock_unknown _ hs1); [done|].
  assert (map hl_lock hs1 = take (length hs - 1) (map hl_lock hs)) as ->.
  { replace (map hl_lock hs1) with (map fst (map key hs1)) by (rewrite map_map; done).
    replace (map hl_lock hs) with (map fst (map key hs)) by (rewrite map_map; done).
    rewrite Hk. change (map fst) with (fmap (M := list) (@fst Z Z)). by rewrite fmap_take. }
  apply last_Some in Htop as [pre ->]. rewrite map_app in *. rewrite length_app. cbn [length map].
  rewrite take_app_length' by (rewrite length_map; lia). apply NoDup_app in Hnd as (_ & Hd & _).
  intros Hin. apply (Hd _ Hin). by apply list_elem_of_singleton.
Qed.

Lemma ldep_unlock_out_of_order_witness :
  exists s, calls sample_locks (ldep_on (fresh_task (replicate 320 0))) = Ret s /\
  exists s1 hs1, ldep_unlock s 77 8 1 = Ret s1 /\ ldep_enabled s1 = true /\ tracks s1 hs1 /\
    map key hs1 = [(8, 2)] /\ ldep_unlock s1 78 24 5 = Ret (ldep_off s1 (NotHeld 5 78)).
Proof.
  destruct (nested_tracks sample_locks _ [] [HeldLock 4096 8 1 2; HeldLock 5000 24 5 6]
    (fresh_tracks (replicate 320 0) eq_refl)) as (s & E & Ht & Hnd & _); [constructor|by vm_compute|].
  exists s. split; [done|].
  apply (ldep_unlock_out_of_order s _ 0 (HeldLock 4096 8 1 2) (HeldLock 5000 24 5 6) 77 1 78 5 Ht Hnd);
    [reflexivity|cbn; lia|reflexivity].
Defined.
