(* ===== verification/Dat.v ===== *)
(** cp/mm/dat.c: the tables of dynamic address translation, and copies between
    host and guest storage.

    Storage is a function from addresses to doublewords.  Pages for tables come
    from a page source, an interface that states what the table builder relies
    on; the buddy allocator (Buddy.v) implements it.  [walk] is the meaning of
    the tables: what an address is translated to.  The theorems: inserting pages
    one after the other builds tables that translate as the list of insertions
    says, and touches no other storage; the guest copy loop. *)

From S2P Require Import Prelude Buddy.

Local Open Scope Z_scope.

Definition EFAULT : Z := 9.

(** ** The page source *)

(** [ps_alloc order]: the address of [2^order] pages, or no memory *)
Class PageSource (A : Type) := {
  ps_alloc : Z -> A -> outcome (option Z * A);
  ps_inv : A -> Prop;
  ps_free : A -> Z -> Prop;
  ps_alloc_spec order a addr a' :
    ps_inv a -> ps_alloc order a = Ret (Some addr, a') ->
    ps_inv a' /\ 0 < addr < 2 ^ 62 /\ addr mod 4096 = 0 /\
    (forall n, ps_free a' n -> ps_free a n) /\
    (forall n, addr / 4096 <= n < addr / 4096 + 2 ^ order -> ps_free a n /\ ~ ps_free a' n);
}.

Definition buddy_alloc (order : Z) (b : buddy) : outcome (option Z * buddy) :=
  '(r, b) ← alloc_pages order ZONE_NORMAL b; Ret (option_map page_to_addr r, b).

#[global] Program Instance buddy_source : PageSource buddy := {
  ps_alloc := buddy_alloc;
  ps_inv b := wf b /\ NoDup (frees b) /\ Forall (fun n => 0 < n) (frees b);
  ps_free b n := n ∈ frees b;
}.
Next Obligation.
  intros order b addr b' (Hwf & Hnd & Hpos) H. unfold buddy_alloc in H.
  apply bind_Ret in H as ([[p|] b1] & E & H); [|done]. injection H as <- <-.
  apply alloc_pages_spec in E as (Hwf1 & Ho & (low & Hz & _) & Hf); [|done].
  assert (exists n, p = PAGE_INFO_BASE + sizeof_page * n /\ 0 <= n /\ n + 2 ^ order <= 2 ^ 30) as (n & -> & Hn & Hn').
  { destruct low; destruct Hz as [(n & -> & ? & ?) _]; exists n; (split; [done|lia]). }
  pose proof (Z.pow_pos_nonneg 2 order).
  rewrite pages_val in Hf. rewrite Hf in Hnd, Hpos. apply NoDup_app in Hnd as (_ & Hdisj & Hnd).
  apply Forall_app in Hpos as [Hpos1 Hpos2].
  assert (0 < n) as Hn0 by (rewrite Forall_forall in Hpos1; apply Hpos1, elem_of_seqZ; lia).
  rewrite page_to_addr_val by lia. unfold PAGE_SIZE. split_and!; try done; try lia; [divlia| |].
  - intros m Hm. rewrite Hf. apply elem_of_app. by right.
  - intros m Hm. assert (m ∈ seqZ n (2 ^ order)) as Hin by (apply elem_of_seqZ; divlia).
    split; [rewrite Hf; apply elem_of_app; by left|]. by apply Hdisj.
Qed.

(** ** Table entries *)

Definition DAT_RX (addr : Z) : Z := Z.shiftr addr 31.
Definition DAT_SX (addr : Z) : Z := Z.land (Z.shiftr addr 20) 0x7ff.
Definition DAT_PX (addr : Z) : Z := Z.land (Z.shiftr addr 12) 0xff.
Definition DAT_BX (addr : Z) : Z := Z.land addr 0xfff.

Definition DAT_RTE_TT_RTT : Z := 1.
Definition DAT_STE_TT_ST : Z := 0.

(** the bit fields of the entries, packed *)
Definition dat_rte (origin r0 tf i r1 tt tl : Z) : Z :=
  Z.shiftl origin 12 + Z.shiftl r0 8 + Z.shiftl tf 6 + Z.shiftl i 5 + Z.shiftl r1 4 + Z.shiftl tt 2 + tl.
Definition dat_ste (origin r0 p r1 i c tt r2 : Z) : Z :=
  Z.shiftl origin 11 + Z.shiftl r0 10 + Z.shiftl p 9 + Z.shiftl r1 6 + Z.shiftl i 5 + Z.shiftl c 4 + Z.shiftl tt 2 + r2.
Definition dat_pte (pfra z0 i p z1 r : Z) : Z :=
  Z.shiftl pfra 12 + Z.shiftl z0 11 + Z.shiftl i 10 + Z.shiftl p 9 + Z.shiftl z1 8 + r.

Definition rte_origin (e : Z) : Z := Z.shiftr e 12.
Definition ste_origin (e : Z) : Z := Z.shiftr e 11.
Definition ADDR_TO_RTE_ORIGIN (a : Z) : Z := Z.shiftr a 12.
Definition RTE_ORIGIN_TO_ADDR (o : Z) : Z := u64 (Z.shiftl o 12).
Definition ADDR_TO_STE_ORIGIN (a : Z) : Z := Z.shiftr a 11.
Definition STE_ORIGIN_TO_ADDR (o : Z) : Z := u64 (Z.shiftl o 11).

(** NULL is 0 *)
Record address_space := AddressSpace {
  region_table : Z;
  segment_table : Z;
}.

Section dat.
Context {A : Type} `{PageSource A}.

(** storage by doubleword address, and the page allocator *)
Record dat := Dat {
  storage : Z -> Z;
  pgs : A;
}.

Definition store (m : Z -> Z) (a v : Z) : Z -> Z := fun x => if x =? a then v else m x.
Definition fill (m : Z -> Z) (a len v : Z) : Z -> Z := fun x => if (a <=? x) && (x <? a + len) then v else m x.

(** [memset(addr, 0xff, PAGE_SIZE << order)] included *)
Definition alloc_table (order : Z) (s : dat) : outcome (Z * dat) :=
  '(r, pgs) ← ps_alloc order (pgs s);
  match r with
  | None => Stopped
  | Some addr => Ret (addr, Dat (fill (storage s) addr (Z.shiftl PAGE_SIZE order) (2 ^ 64 - 1)) pgs)
  end.

(** [walk_segment:] the rest of [dat_insert_page] *)
Definition walk_segment (segment phy virt : Z) (s : dat) : outcome dat :=
  let segment := segment + 8 * DAT_SX virt in
  s ← (if ste_origin (storage s segment) =? 0x1fffffffffffff then
         '(ptr, s) ← alloc_table 0 s;
         Ret (Dat (store (storage s) segment (dat_ste (ADDR_TO_STE_ORIGIN ptr) 0 0 0 0 0 DAT_STE_TT_ST 0)) (pgs s))
       else Ret s);
  let page := STE_ORIGIN_TO_ADDR (ste_origin (storage s segment)) + 8 * DAT_PX virt in
  Ret (Dat (store (storage s) page (dat_pte (Z.shiftr phy PAGE_SHIFT) 0 0 0 0 0)) (pgs s)).

Definition dat_insert_page (as_ : address_space) (phy virt : Z) (s : dat) : outcome (address_space * dat) :=
  let region := region_table as_ in
  if region =? 0 then
    '(as_, s) ← (if segment_table as_ =? 0 then '(t, s) ← alloc_table 2 s; Ret (AddressSpace 0 t, s) else Ret (as_, s));
    s ← walk_segment (segment_table as_) phy virt s; Ret (as_, s)
  else
    bug_on (negb (DAT_RX virt =? 0)) ;;
    s ← (if rte_origin (storage s region) =? 0xfffffffffffff then
           '(ptr, s) ← alloc_table 2 s;
           Ret (Dat (store (storage s) region (dat_rte (ADDR_TO_RTE_ORIGIN ptr) 0 0 0 0 DAT_RTE_TT_RTT 3)) (pgs s))
         else Ret s);
    s ← walk_segment (RTE_ORIGIN_TO_ADDR (rte_origin (storage s region))) phy virt s; Ret (as_, s).

(** * What the tables mean *)

(** the translation of [virt] through the segment table at [st], as the machine
    defines it: bits 33-43 of the address select the segment-table entry, bits
    44-51 the page-table entry; bits 58 and 53 of these mark them invalid *)
Definition walk (m : Z -> Z) (st virt : Z) : option Z :=
  let ste := m (st + 8 * (virt / 2 ^ 20 mod 2048)) in
  if Z.testbit ste 5 then None else
  let pte := m ((ste / 2048 * 2048) mod 2 ^ 64 + 8 * (virt / 2 ^ 12 mod 256)) in
  if Z.testbit pte 10 then None else Some (pte / 4096 * 4096 + virt mod 4096).

Definition ones : Z := 2 ^ 64 - 1.

(** entry [k] of the segment table is invalid, or points to a page of its own *)
Record wf_tables (F : Z -> Prop) (st : Z) (s : dat) : Prop := WfTables {
  wt_inv : ps_inv (pgs s);
  wt_free : forall n, ps_free (pgs s) n -> F n;
  wt_st : 0 < st < 2 ^ 62 /\ st mod 4096 = 0;
  wt_st_pages : forall n, st / 4096 <= n < st / 4096 + 4 -> F n /\ ~ ps_free (pgs s) n;
  wt_ste : forall k, 0 <= k < 2048 -> storage s (st + 8 * k) = ones \/
    (0 < storage s (st + 8 * k) < 2 ^ 62 /\ storage s (st + 8 * k) mod 4096 = 0 /\
     F (storage s (st + 8 * k) / 4096) /\ ~ ps_free (pgs s) (storage s (st + 8 * k) / 4096) /\
     ~ (st / 4096 <= storage s (st + 8 * k) / 4096 < st / 4096 + 4));
  wt_distinct : forall k k', 0 <= k < 2048 -> 0 <= k' < 2048 -> storage s (st + 8 * k) <> ones ->
    storage s (st + 8 * k) = storage s (st + 8 * k') -> k = k';
}.

(** ** Arithmetic of entries and addresses *)

Lemma DAT_SX_range v : 0 <= DAT_SX v < 2048.
Proof. unfold DAT_SX. change 0x7ff with (Z.ones 11). rewrite Z.land_ones by lia. apply Z.mod_pos_bound. lia. Qed.

Lemma DAT_PX_range v : 0 <= DAT_PX v < 256.
Proof. unfold DAT_PX. change 0xff with (Z.ones 8). rewrite Z.land_ones by lia. apply Z.mod_pos_bound. lia. Qed.

Lemma DAT_SX_val v : DAT_SX v = v / 2 ^ 20 mod 2048.
Proof. unfold DAT_SX. change 0x7ff with (Z.ones 11). by rewrite Z.land_ones, Z.shiftr_div_pow2 by lia. Qed.

Lemma DAT_PX_val v : DAT_PX v = v / 2 ^ 12 mod 256.
Proof. unfold DAT_PX. change 0xff with (Z.ones 8). by rewrite Z.land_ones, Z.shiftr_div_pow2 by lia. Qed.

Lemma DAT_BX_val v : DAT_BX v = v mod 4096.
Proof. unfold DAT_BX. change 0xfff with (Z.ones 12). by rewrite Z.land_ones by lia. Qed.

Lemma page_base p : Z.shiftl (Z.shiftr p 12) 12 = p / 4096 * 4096.
Proof. by rewrite Z.shiftl_mul_pow2, Z.shiftr_div_pow2 by lia. Qed.

(** the macros of the code cut addresses and entries as the machine does *)
Lemma walk_macros m st virt : walk m st virt =
  let ste := m (st + 8 * DAT_SX virt) in
  if Z.testbit ste 5 then None else
  let pte := m (STE_ORIGIN_TO_ADDR (ste_origin ste) + 8 * DAT_PX virt) in
  if Z.testbit pte 10 then None else Some (Z.shiftl (Z.shiftr pte 12) 12 + DAT_BX virt).
Proof.
  unfold walk, STE_ORIGIN_TO_ADDR, ste_origin. cbv zeta.
  rewrite DAT_SX_val, DAT_PX_val, DAT_BX_val, page_base, Z.shiftl_mul_pow2, Z.shiftr_div_pow2 by lia. done.
Qed.

Lemma aligned_bit a k : a mod 4096 = 0 -> 0 <= k < 12 -> Z.testbit a k = false.
Proof.
  intros Ha Hk. rewrite <- (Z.mod_pow2_bits_low a 12 k) by lia. change (2 ^ 12) with 4096. rewrite Ha. apply Z.testbit_0_l.
Qed.

Lemma ste_origin_addr a : 0 <= a < 2 ^ 62 -> a mod 4096 = 0 -> STE_ORIGIN_TO_ADDR (ste_origin a) = a.
Proof.
  intros Ha Hm. unfold STE_ORIGIN_TO_ADDR, ste_origin. rewrite Z.shiftl_mul_pow2, Z.shiftr_div_pow2 by lia.
  change (2 ^ 11) with 2048. rewrite wrap_small by divlia. divlia.
Qed.

Lemma dat_ste_addr a : a mod 4096 = 0 -> dat_ste (ADDR_TO_STE_ORIGIN a) 0 0 0 0 0 DAT_STE_TT_ST 0 = a.
Proof.
  intros Hm. unfold dat_ste, ADDR_TO_STE_ORIGIN, DAT_STE_TT_ST. rewrite !Z.shiftl_0_l.
  rewrite Z.shiftl_mul_pow2, Z.shiftr_div_pow2 by lia. change (2 ^ 11) with 2048. divlia.
Qed.

Lemma ste_origin_ones : ste_origin ones = 0x1fffffffffffff.
Proof. reflexivity. Qed.

Lemma ste_origin_valid a : 0 <= a < 2 ^ 62 -> ste_origin a <> 0x1fffffffffffff.
Proof. intros Ha. unfold ste_origin. rewrite Z.shiftr_div_pow2 by lia. change (2 ^ 11) with 2048. divlia. Qed.

Lemma dat_pte_valid phy : 0 <= phy ->
  Z.testbit (dat_pte (Z.shiftr phy PAGE_SHIFT) 0 0 0 0 0) 10 = false /\
  Z.shiftl (Z.shiftr (dat_pte (Z.shiftr phy PAGE_SHIFT) 0 0 0 0 0) 12) 12 = Z.shiftl (Z.shiftr phy 12) 12.
Proof.
  intros Hp. unfold dat_pte, PAGE_SHIFT. rewrite !Z.shiftl_0_l, !Z.add_0_r. split.
  - apply Z.shiftl_spec_low. lia.
  - by rewrite Z.shiftr_shiftl_l, Z.sub_diag, Z.shiftl_0_r by lia.
Qed.

(** addresses inside a table lie in the table's pages *)
Lemma pte_page a j : a mod 4096 = 0 -> 0 <= j < 512 -> (a + 8 * j) / 4096 = a / 4096.
Proof. intros. divlia. Qed.

Lemma ste_page a k : a mod 4096 = 0 -> 0 <= k < 2048 -> a / 4096 <= (a + 8 * k) / 4096 < a / 4096 + 4.
Proof. intros. divlia. Qed.

Definition same_page (v w : Z) : bool := (DAT_SX v =? DAT_SX w) && (DAT_PX v =? DAT_PX w).

Lemma same_page_val v w : same_page v w = ((v / 4096) mod 2 ^ 19 =? (w / 4096) mod 2 ^ 19).
Proof.
  assert (forall x, (x / 4096) mod 2 ^ 19 = DAT_PX x + 256 * DAT_SX x) as E.
  { intros x. rewrite DAT_SX_val, DAT_PX_val. change (2 ^ 19) with (256 * 2048). rewrite Z.rem_mul_r by lia.
    rewrite Z.div_div by lia. done. }
  rewrite !E. unfold same_page. pose proof (DAT_PX_range v). pose proof (DAT_PX_range w).
  destruct (Z.eqb_spec (DAT_SX v) (DAT_SX w)), (Z.eqb_spec (DAT_PX v) (DAT_PX w)); cbn [andb]; symmetry;
    [apply Z.eqb_eq|apply Z.eqb_neq..]; lia.
Qed.

(** the next [n] allocations for tables succeed *)
Fixpoint enough (n : nat) (a : A) : bool :=
  match n with
  | O => true
  | S n => forallb (fun order => match ps_alloc order a with Ret (Some _, a') => enough n a' | _ => false end) [0; 2]
  end.

Lemma enough_alloc n a order : enough (S n) a = true -> order = 0 \/ order = 2 ->
  exists addr a', ps_alloc order a = Ret (Some addr, a') /\ enough n a' = true.
Proof.
  cbn [enough forallb]. rewrite !andb_true_iff. intros (H0 & H2 & _) [-> | ->].
  - destruct (ps_alloc 0 a) as [[[addr|] a']| |]; [eauto|done..].
  - destruct (ps_alloc 2 a) as [[[addr|] a']| |]; [eauto|done..].
Qed.

Lemma enough_less n a : enough (S n) a = true -> enough n a = true.
Proof.
  revert a. induction n as [|n IH]; intros a Ha; [done|].
  destruct (enough_alloc _ _ 0 Ha) as (x0 & a0 & E0 & H0); [by left|].
  destruct (enough_alloc _ _ 2 Ha) as (x2 & a2 & E2 & H2); [by right|].
  cbn [enough forallb]. rewrite E0, E2, !IH by done. done.
Qed.

(** ** The segment-table entry exists *)

Definition ensure_segment (segment : Z) (s : dat) : outcome dat :=
  if ste_origin (storage s segment) =? 0x1fffffffffffff then
    '(ptr, s) ← alloc_table 0 s;
    Ret (Dat (store (storage s) segment (dat_ste (ADDR_TO_STE_ORIGIN ptr) 0 0 0 0 0 DAT_STE_TT_ST 0)) (pgs s))
  else Ret s.

Lemma alloc_table_spec n order s : enough (S n) (pgs s) = true -> order = 0 \/ order = 2 ->
  exists ptr a', alloc_table order s = Ret (ptr, Dat (fill (storage s) ptr (Z.shiftl PAGE_SIZE order) ones) a') /\
     ps_alloc order (pgs s) = Ret (Some ptr, a') /\ enough n a' = true.
Proof.
  intros Hn Ho. destruct (enough_alloc _ _ _ Hn Ho) as (ptr & a' & E & Ha). exists ptr, a'.
  unfold alloc_table. by rewrite E.
Qed.

Lemma ensure_segment_spec n F st virt s :
  wf_tables F st s -> enough (S n) (pgs s) = true ->
  exists s1, enough n (pgs s1) = true /\ ensure_segment (st + 8 * DAT_SX virt) s = Ret s1 /\ wf_tables F st s1 /\
     storage s1 (st + 8 * DAT_SX virt) <> ones /\
     (forall v, walk (storage s1) st v = walk (storage s) st v) /\
     (forall a, ~ F (a / 4096) -> storage s1 a = storage s a).
Proof.
  intros Hwf Hroom. pose proof (DAT_SX_range virt) as Hsx. unfold ensure_segment.
  pose proof (wt_ste _ _ _ Hwf _ Hsx) as Hste. set (seg := st + 8 * DAT_SX virt) in *.
  destruct Hste as [Hste|Hste].
  2:{ exists s. split; [by apply enough_less|]. rewrite (proj2 (Z.eqb_neq _ _)) by (apply ste_origin_valid; lia).
      split_and!; try done. unfold ones. lia. }
  rewrite Hste, ste_origin_ones, Z.eqb_refl.
  destruct (alloc_table_spec n 0 s Hroom) as (ptr & a' & -> & Hal & Hroom'); [by left|].
  cbn [mbind outcome_bind storage pgs].
  destruct (ps_alloc_spec _ _ _ _ (wt_inv _ _ _ Hwf) Hal) as (Hinv' & Hptr & Hpm & Hfr & Hnew).
  rewrite dat_ste_addr by done. change (Z.shiftl PAGE_SIZE 0) with 4096.
  set (m1 := store _ _ _). pose proof (wt_st _ _ _ Hwf) as [Hst Hstm].
  specialize (Hnew (ptr / 4096)) as Hnp. change (2 ^ 0) with 1 in Hnp. destruct Hnp as [Hpf Hpn]; [lia|].
  assert (forall n, st / 4096 <= n < st / 4096 + 4 -> n <> ptr / 4096) as Hpst.
  { intros k Hk ->. by destruct (wt_st_pages _ _ _ Hwf _ Hk). }
  (* addresses outside the new page and the entry keep their contents *)
  assert (forall x, x / 4096 <> ptr / 4096 -> x <> seg -> m1 x = storage s x) as Hm1.
  { intros x Hx Hne. unfold m1, store, fill. rewrite (proj2 (Z.eqb_neq _ _)) by done.
    destruct (Z.leb_spec ptr x) as [Hge|]; [|done]. destruct (Z.ltb_spec x (ptr + 4096)) as [Hlt|]; [|done].
    exfalso. apply Hx. clear -Hpm Hge Hlt. divlia. }
  assert (m1 seg = ptr) as Hseg by (unfold m1, store; by rewrite Z.eqb_refl).
  assert (forall k, 0 <= k < 2048 -> k <> DAT_SX virt -> m1 (st + 8 * k) = storage s (st + 8 * k)) as Hother.
  { intros k Hk Hne. apply Hm1; [|unfold seg; lia]. apply Hpst, ste_page; done. }
  assert (forall k, 0 <= k < 2048 -> k <> DAT_SX virt -> storage s (st + 8 * k) <> ptr) as Hnptr.
  { intros k Hk Hne E. destruct (wt_ste _ _ _ Hwf _ Hk) as [E1|(_ & _ & _ & Hnf & _)]; [unfold ones in E1; lia|].
    rewrite E in Hnf. done. }
  exists (Dat m1 a'). split; [done|]. split; [done|]. cbn [storage pgs]. split_and!.
  - split; cbn [storage pgs]; try done.
    + intros k Hk. by apply (wt_free _ _ _ Hwf), Hfr.
    + intros k Hk. destruct (wt_st_pages _ _ _ Hwf k Hk). split; [done|]. by intros ?%Hfr.
    + intros k Hk. destruct (decide (k = DAT_SX virt)) as [->|Hne].
      * right. fold seg. rewrite Hseg. split_and!; try done; try lia; [by apply (wt_free _ _ _ Hwf)|].
        intros Hn. by destruct (Hpst _ Hn).
      * rewrite Hother by done. destruct (wt_ste _ _ _ Hwf k Hk) as [?|(? & ? & ? & ? & ?)]; [by left|right].
        split_and!; try done; try lia. by intros ?%Hfr.
    + intros k k' Hk Hk' Hv. destruct (decide (k = DAT_SX virt)) as [->|Hne], (decide (k' = DAT_SX virt)) as [->|Hne']; try done.
      * fold seg. rewrite Hseg, Hother by done. intros E. by destruct (Hnptr k').
      * fold seg. rewrite Hseg, Hother by done. intros E. by destruct (Hnptr k).
      * rewrite !Hother in * by done. by apply (wt_distinct _ _ _ Hwf).
  - rewrite Hseg. unfold ones. lia.
  - intros v. pose proof (DAT_SX_range v). pose proof (DAT_PX_range v). rewrite !walk_macros. cbv zeta.
    destruct (decide (DAT_SX v = DAT_SX virt)) as [->|Hne].
    + fold seg. rewrite Hseg, Hste, (aligned_bit ptr) by (done || lia). change (Z.testbit ones 5) with true. cbv iota.
      rewrite ste_origin_addr by (done || lia).
      assert (m1 (ptr + 8 * DAT_PX v) = ones) as ->; [|done].
      unfold m1, store, fill. rewrite (proj2 (Z.eqb_neq _ _)).
      * destruct (Z.leb_spec ptr (ptr + 8 * DAT_PX v)); [|lia]. destruct (Z.ltb_spec (ptr + 8 * DAT_PX v) (ptr + 4096)); [done|lia].
      * intros E. apply (Hpst (seg / 4096)); [by apply ste_page|]. rewrite <- E. apply pte_page; [done|lia].
    + rewrite Hother by done. destruct (wt_ste _ _ _ Hwf (DAT_SX v)) as [->|(Hr & Hm & _ & Hnf & Hns)]; [done|done|].
      rewrite (aligned_bit _ _ Hm), ste_origin_addr by (done || lia).
      rewrite Hm1; [done| |].
      * rewrite pte_page by (done || lia). by intros E; rewrite E in Hnf.
      * intros E. apply Hns. rewrite <- (pte_page _ (DAT_PX v) Hm) by lia. rewrite E. by apply ste_page.
  - intros a Ha. apply Hm1.
    + intros E. apply Ha. rewrite E. by apply (wt_free _ _ _ Hwf).
    + intros ->. apply Ha. by apply (wt_st_pages _ _ _ Hwf), ste_page.
Qed.

(** ** Storing the page-table entry *)

Lemma store_pte_spec F st phy virt s :
  wf_tables F st s -> 0 <= phy -> storage s (st + 8 * DAT_SX virt) <> ones ->
  let page := STE_ORIGIN_TO_ADDR (ste_origin (storage s (st + 8 * DAT_SX virt))) + 8 * DAT_PX virt in
  let s' := Dat (store (storage s) page (dat_pte (Z.shiftr phy PAGE_SHIFT) 0 0 0 0 0)) (pgs s) in
  wf_tables F st s' /\
  (forall v, walk (storage s') st v =
     if same_page v virt then Some (Z.shiftl (Z.shiftr phy 12) 12 + DAT_BX v) else walk (storage s) st v) /\
  (forall a, ~ F (a / 4096) -> storage s' a = storage s a).
Proof.
  intros Hwf Hphy Hv page s'. pose proof (DAT_SX_range virt) as Hsx. pose proof (DAT_PX_range virt) as Hpx.
  destruct (wt_ste _ _ _ Hwf _ Hsx) as [?|(Hr & Hm & HF & Hnf & Hns)]; [done|].
  set (pt := storage s (st + 8 * DAT_SX virt)) in *.
  assert (page = pt + 8 * DAT_PX virt) as Epage by (unfold page; by rewrite ste_origin_addr by (done || lia)).
  assert (page / 4096 = pt / 4096) as Hpp by (rewrite Epage; apply pte_page; [done|lia]).
  pose proof (wt_st _ _ _ Hwf) as [Hst Hstm].
  assert (forall x, x <> page -> storage s' x = storage s x) as Hs'.
  { intros x Hx. unfold s', store. cbn [storage]. by rewrite (proj2 (Z.eqb_neq _ _)). }
  assert (forall k, 0 <= k < 2048 -> storage s' (st + 8 * k) = storage s (st + 8 * k)) as Hstes.
  { intros k Hk. apply Hs'. intros E. apply Hns. rewrite <- Hpp, <- E. by apply ste_page. }
  split_and!.
  - destruct Hwf. split; try done.
    + intros k Hk. rewrite Hstes by done. by apply wt_ste0.
    + intros k k' Hk Hk'. rewrite !Hstes by done. by apply wt_distinct0.
  - intros v. pose proof (DAT_SX_range v). pose proof (DAT_PX_range v). rewrite !walk_macros. cbv zeta. unfold same_page. rewrite Hstes by done.
    destruct (Z.eqb_spec (DAT_SX v) (DAT_SX virt)) as [E|Hne]; cbn [andb].
    + rewrite E. fold pt. rewrite (aligned_bit pt) by (done || lia). rewrite ste_origin_addr by (done || lia).
      destruct (Z.eqb_spec (DAT_PX v) (DAT_PX virt)) as [E'|Hne'].
      * rewrite E', <- Epage. unfold s', store. cbn [storage]. rewrite Z.eqb_refl.
        destruct (dat_pte_valid phy Hphy) as [-> ->]. done.
      * rewrite Hs' by lia. done.
    + destruct (wt_ste _ _ _ Hwf (DAT_SX v)) as [->|(Hr' & Hm' & _)]; [done|done|].
      rewrite (aligned_bit _ _ Hm'), ste_origin_addr by (done || lia). rewrite Hs'; [done|]. intros E.
      assert (storage s (st + 8 * DAT_SX v) / 4096 = pt / 4096) as Epg.
      { rewrite <- Hpp, <- E. symmetry. apply pte_page; [done|lia]. }
      assert (storage s (st + 8 * DAT_SX v) = pt) as Ept by (clear -Epg Hm Hm'; divlia).
      apply Hne. apply (wt_distinct _ _ _ Hwf); [done|done|by rewrite Ept|done].
  - intros a Ha. apply Hs'. intros ->. apply Ha. by rewrite Hpp.
Qed.

Lemma walk_segment_spec n F st phy virt s :
  wf_tables F st s -> enough (S n) (pgs s) = true -> 0 <= phy ->
  exists s', enough n (pgs s') = true /\ walk_segment st phy virt s = Ret s' /\ wf_tables F st s' /\
     (forall v, walk (storage s') st v =
        if same_page v virt then Some (Z.shiftl (Z.shiftr phy 12) 12 + DAT_BX v) else walk (storage s) st v) /\
     (forall a, ~ F (a / 4096) -> storage s' a = storage s a).
Proof.
  intros Hwf Hroom Hphy.
  destruct (ensure_segment_spec n F st virt s Hwf Hroom) as (s1 & Hroom1 & E1 & Hwf1 & Hv1 & Hw1 & Hf1).
  unfold walk_segment. unfold ensure_segment in E1. cbv zeta. rewrite E1. cbn [mbind outcome_bind].
  destruct (store_pte_spec F st phy virt s1 Hwf1 Hphy Hv1) as (Hwf2 & Hw2 & Hf2).
  eexists. split; [|split; [done|]]; [done|]. split_and!; [done| |].
  - intros v. rewrite Hw2, Hw1. done.
  - intros a Ha. by rewrite Hf2, Hf1.
Qed.

(** ** Sequences of insertions *)

(** insert the pages [(phy, virt)] in order *)
Fixpoint dat_inserts (ops : list (Z * Z)) (as_ : address_space) (s : dat) : outcome (address_space * dat) :=
  match ops with
  | [] => Ret (as_, s)
  | (phy, virt) :: ops => '(as_, s) ← dat_insert_page as_ phy virt s; dat_inserts ops as_ s
  end.

(** the specification: the last insertion for the page counts; addresses are
    those of a space of 2 GB, [2^19] pages *)
Definition mapped (ops : list (Z * Z)) (v : Z) (old : option Z) : option Z :=
  fold_left (fun r pv => if (v / 4096) mod 2 ^ 19 =? (pv.2 / 4096) mod 2 ^ 19 then Some (pv.1 / 4096 * 4096 + v mod 4096) else r) ops old.

Lemma mapped_cons phy virt ops v old : mapped ((phy, virt) :: ops) v old =
  mapped ops v (if same_page v virt then Some (Z.shiftl (Z.shiftr phy 12) 12 + DAT_BX v) else old).
Proof. unfold mapped. cbn [fold_left fst snd]. by rewrite same_page_val, page_base, DAT_BX_val. Qed.

Lemma first_table_spec n s : ps_inv (pgs s) -> enough (S n) (pgs s) = true ->
  exists st s', enough n (pgs s') = true /\ alloc_table 2 s = Ret (st, s') /\ wf_tables (ps_free (pgs s)) st s' /\
     (forall v, walk (storage s') st v = None) /\
     (forall a, ~ ps_free (pgs s) (a / 4096) -> storage s' a = storage s a).
Proof.
  intros Hinv Hroom. destruct (alloc_table_spec n 2 s Hroom) as (st & a' & E & Hal & Hroom'); [by right|].
  destruct (ps_alloc_spec _ _ _ _ Hinv Hal) as (Hinv' & Hst & Hm & Hfr & Hnew). change (2 ^ 2) with 4 in Hnew.
  eexists st, _. split; [|split; [done|]]; [done|]. cbn [storage pgs]. change (Z.shiftl PAGE_SIZE 2) with 16384.
  assert (forall k, 0 <= k < 2048 -> fill (storage s) st 16384 ones (st + 8 * k) = ones) as Hones.
  { intros k Hk. unfold fill. destruct (Z.leb_spec st (st + 8 * k)); [|lia].
    destruct (Z.ltb_spec (st + 8 * k) (st + 16384)); [done|lia]. }
  split_and!.
  - split; cbn [storage pgs]; try done.
    + intros k Hk. left. by apply Hones.
    + intros k k' Hk Hk' Hne. by rewrite Hones in Hne.
  - intros v. pose proof (DAT_SX_range v). rewrite walk_macros. cbv zeta. by rewrite Hones.
  - intros a Ha. unfold fill. destruct (Z.leb_spec st a) as [Hge|]; [|done].
    destruct (Z.ltb_spec a (st + 16384)) as [Hlt|]; [|done]. exfalso. apply Ha, Hnew. clear -Hm Hge Hlt. divlia.
Qed.

Lemma dat_inserts_wf F st ops s :
  wf_tables F st s -> enough (length ops) (pgs s) = true -> Forall (fun pv => 0 <= pv.1) ops ->
  exists s', dat_inserts ops (AddressSpace 0 st) s = Ret (AddressSpace 0 st, s') /\ wf_tables F st s' /\
     (forall v, walk (storage s') st v = mapped ops v (walk (storage s) st v)) /\
     (forall a, ~ F (a / 4096) -> storage s' a = storage s a).
Proof.
  intros Hwf Hroom Hops. revert s Hwf Hroom.
  induction Hops as [|[phy virt] ops Hphy _ IH]; intros s Hwf Hroom; [by exists s|].
  cbn [dat_inserts]. unfold dat_insert_page. cbn [region_table segment_table Z.eqb fst] in *.
  pose proof (wt_st _ _ _ Hwf) as [Hst _]. rewrite (proj2 (Z.eqb_neq st 0)) by lia. cbn [mbind outcome_bind segment_table].
  destruct (walk_segment_spec (length ops) F st phy virt s Hwf Hroom Hphy) as (s1 & Hroom1 & -> & Hwf1 & Hw1 & Hf1).
  cbn [mbind outcome_bind]. destruct (IH s1 Hwf1 Hroom1) as (s2 & -> & Hwf2 & Hw2 & Hf2).
  exists s2. split_and!; try done.
  - intros v. rewrite Hw2, Hw1, mapped_cons. done.
  - intros a Ha. by rewrite Hf2, Hf1.
Qed.

(** C27: Inserting pages into an empty address space, the page source having a
    page for each and one more block ([enough]) and the real addresses not
    negative: the tables built, walked as the machine walks them, translate an
    address (modulo 2 GB, as a segment table does) through the last page inserted
    for it, and to nothing when there is none; storage outside the pages that
    were free is not touched. *)
Theorem dat_insert_translates ops s :
  ps_inv (pgs s) -> enough (S (length ops)) (pgs s) = true -> Forall (fun pv => 0 <= pv.1) ops -> ops <> [] ->
  exists as_ s', dat_inserts ops (AddressSpace 0 0) s = Ret (as_, s') /\
     (forall v, walk (storage s') (segment_table as_) v = mapped ops v None) /\
     (forall a, ~ ps_free (pgs s) (a / 4096) -> storage s' a = storage s a).
Proof.
  intros Hinv Hroom Hops Hne.
  destruct (first_table_spec _ s Hinv Hroom) as (st & s1 & Hroom1 & E & Hwf & Hw & Hf).
  destruct (dat_inserts_wf _ st ops s1 Hwf Hroom1 Hops) as (s2 & E2 & _ & Hw2 & Hf2).
  exists (AddressSpace 0 st), s2. split_and!.
  - rewrite <- E2. destruct ops as [|[phy virt] ops]; [done|]. cbn [dat_inserts]. f_equal.
    unfold dat_insert_page. cbn [region_table segment_table Z.eqb]. rewrite E. cbn [mbind outcome_bind segment_table].
    pose proof (wt_st _ _ _ Hwf) as [Hst _]. rewrite (proj2 (Z.eqb_neq st 0)) by lia. done.
  - intros v. cbn [segment_table]. rewrite Hw2, Hw. done.
  - intros a Ha. by rewrite Hf2, Hf.
Qed.
End dat.
Arguments dat A : clear implicits.

(** a machine of 3 GB whose first pages are in use *)
Definition sample_dat : dat buddy := Dat (fun a => a) (init_buddy_alloc (3 * 2 ^ 30) 0x800000).

Definition sample_pages : list (Z * Z) := [(0x12345000, 0); (0x23456000, 0x1000); (0x77777000, 0x300000); (0x5000, 0x1000)].

Lemma dat_insert_translates_witness :
  exists as_ s', dat_inserts sample_pages (AddressSpace 0 0) sample_dat = Ret (as_, s') /\
     (forall v, walk (storage s') (segment_table as_) v = mapped sample_pages v None) /\
     (forall a, ~ ps_free (pgs sample_dat) (a / 4096) -> storage s' a = storage sample_dat a).
Proof.
  apply (dat_insert_translates sample_pages sample_dat); [|by vm_compute|by repeat constructor|done].
  destruct (init_buddy_spec (3 * 2 ^ 30) 0x800000) as [Hwf Hf]; [lia..|done|].
  cbn [ps_inv buddy_source pgs sample_dat]. rewrite Hf. split_and!; [done|apply NoDup_seqZ|].
  apply Forall_forall. intros n Hn%elem_of_seqZ. assert (0 < 0x800000 / 2 ^ 12) by done. lia.
Defined.

(** * Copies between host and guest *)

Section copy.
Context (virt2phy_current : Z -> option Z).  (* the LRAG instruction *)

Definition PAGE_MASK : Z := PAGE_SIZE - 1.

(** the [n] bytes at [a]; overwriting them *)
Definition read_bytes (m : Z -> Z) (a n : Z) : list Z := map m (seqZ a n).
Definition write_bytes (m : Z -> Z) (a : Z) (l : list Z) : Z -> Z :=
  fun x => if decide (a <= x) then default (m x) (l !! Z.to_nat (x - a)) else m x.

(** the loop: the result code, the bytes copied, storage (by bytes) and the data;
    every turn copies at least one byte *)
Fixpoint copy_loop (fuel : nat) (guest_addr copied len : Z) (m : Z -> Z) (data : list Z) (from : bool)
    : outcome (Z * Z * (Z -> Z) * list Z) :=
  match fuel with
  | O => Undef
  | S fuel =>
      if len =? 0 then Ret (0, copied, m, data) else
      match virt2phy_current guest_addr with
      | None => Ret (- EFAULT, copied, m, data)
      | Some host_addr =>
          let copy_len := Z.min (PAGE_SIZE - Z.land host_addr PAGE_MASK) len in
          if from then
            data ← defined (ablit data copied (read_bytes m host_addr copy_len));
            copy_loop fuel guest_addr (u64 (copied + copy_len)) (u64 (len - copy_len)) m data from
          else
            src ← defined (aslice data copied copy_len);
            copy_loop fuel guest_addr (u64 (copied + copy_len)) (u64 (len - copy_len))
              (write_bytes m host_addr src) data from
      end
  end.

Definition __memcpy_tofrom_guest (guest_addr : Z) (m : Z -> Z) (data : list Z) (len : Z) (from : bool)
    : outcome (Z * Z * (Z -> Z) * list Z) :=
  copy_loop (S (Z.to_nat len)) guest_addr 0 len m data from.

Lemma page_rest h : 0 < PAGE_SIZE - Z.land h PAGE_MASK <= PAGE_SIZE.
Proof.
  unfold PAGE_MASK, PAGE_SIZE. change (4096 - 1) with (Z.ones 12). rewrite Z.land_ones by lia.
  pose proof (Z.mod_pos_bound h (2 ^ 12)). lia.
Qed.

Lemma read_bytes_lookup m a n (k : nat) : Z.of_nat k < n -> read_bytes m a n !! k = Some (m (a + Z.of_nat k)).
Proof. intros Hk. unfold read_bytes. rewrite list_lookup_fmap, lookup_seqZ_lt by lia. done. Qed.

Lemma read_bytes_len m a n : 0 <= n -> lenZ (read_bytes m a n) = n.
Proof. intros. unfold read_bytes, lenZ. rewrite length_map, length_seqZ. lia. Qed.

Section one_address.
Context (guest host : Z) (Hv2p : virt2phy_current guest = Some host).

(** what is left of the page [host] is in *)
Let c := PAGE_SIZE - Z.land host PAGE_MASK.

Lemma copy_from_loop fuel copied len m data :
  0 <= copied -> 0 <= len < Z.of_nat fuel -> copied + len <= lenZ data -> copied + len < 2 ^ 64 ->
  exists data', copy_loop fuel guest copied len m data true = Ret (0, copied + len, m, data') /\
    lenZ data' = lenZ data /\
    forall k, 0 <= k -> aget data' k =
      if decide (copied <= k < copied + len) then Some (m (host + (k - copied) mod c)) else aget data k.
Proof.
  pose proof (page_rest host) as Hc. fold c in Hc.
  revert copied len data. induction fuel as [|fuel IH]; intros copied len data Hco Hl Hd H64; [lia|].
  cbn [copy_loop]. destruct (Z.eqb_spec len 0) as [->|Hne].
  { exists data. rewrite Z.add_0_r. split_and!; [done..|]. intros k Hk. case_decide; [lia|done]. }
  rewrite Hv2p. cbv zeta. fold c. set (n := Z.min c len). assert (0 < n <= len /\ n <= c) as Hn by (unfold n; lia).
  pose proof (read_bytes_len m host n ltac:(lia)) as Hrl.
  destruct (ablit_is_Some data copied (read_bytes m host n)) as [d1 Hd1]; [done|lia|].
  rewrite Hd1. cbn [defined mbind outcome_bind]. rewrite !wrap_small by lia.
  destruct (IH (copied + n) (len - n) d1) as (d2 & -> & Hlen & Hget); [lia|lia|rewrite (ablit_lenZ _ _ _ _ Hd1); lia|lia|].
  exists d2. split; [do 4 f_equal; lia|]. split; [by rewrite Hlen, (ablit_lenZ _ _ _ _ Hd1)|].
  intros k Hk. rewrite Hget, (aget_ablit _ _ _ _ _ Hd1), Hrl by done.
  destruct (decide (copied + n <= k < copied + n + (len - n))).
  - rewrite decide_True by lia. do 3 f_equal. assert (n = c) as Enc by (unfold n in *; lia).
    replace (k - copied) with (k - (copied + n) + 1 * c) by lia. by rewrite Z.mod_add by lia.
  - case_decide; [|by rewrite decide_False by lia]. rewrite decide_True by lia.
    rewrite read_bytes_lookup by lia. do 2 f_equal. rewrite Z.mod_small by lia. lia.
Qed.

Lemma copy_to_loop fuel copied len m data :
  0 <= copied -> 0 <= len < Z.of_nat fuel -> copied + len <= lenZ data -> copied + len < 2 ^ 64 ->
  exists m', copy_loop fuel guest copied len m data false = Ret (0, copied + len, m', data) /\
    forall x, ~ (host <= x < host + Z.min c len) -> m' x = m x.
Proof.
  pose proof (page_rest host) as Hc. fold c in Hc.
  revert copied len m. induction fuel as [|fuel IH]; intros copied len m Hco Hl Hd H64; [lia|].
  cbn [copy_loop]. destruct (Z.eqb_spec len 0) as [->|Hne].
  { exists m. by rewrite Z.add_0_r. }
  rewrite Hv2p. cbv zeta. fold c. set (n := Z.min c len). assert (0 < n <= len /\ n <= c) as Hn by (unfold n; lia).
  destruct (aslice_is_Some data copied n) as [src Hsrc]; [lia..|]. pose proof (aslice_lenZ _ _ _ _ Hsrc) as Hsl.
  rewrite Hsrc. cbn [defined mbind outcome_bind]. rewrite !wrap_small by lia.
  destruct (IH (copied + n) (len - n) (write_bytes m host src)) as (m2 & -> & Hm2); [lia..|].
  exists m2. split; [do 4 f_equal; lia|]. intros x Hx. rewrite Hm2 by lia. unfold write_bytes.
  case_decide; [|done]. rewrite lookup_ge_None_2; [done|]. unfold lenZ in Hsl. lia.
Qed.

(** The copy loops translate the guest address of the start of the copy in
    every turn and never advance it.  Copying from the guest delivers the bytes
    up to the end of the first page and then these bytes again; copying to the
    guest changes nothing beyond the end of the first page.  Both report success. *)
Theorem guest_copy_one_page m data len :
  0 <= len <= lenZ data -> len < 2 ^ 64 ->
  (exists data', __memcpy_tofrom_guest guest m data len true = Ret (0, len, m, data') /\
     forall k, 0 <= k -> aget data' k = if decide (k < len) then Some (m (host + k mod c)) else aget data k) /\
  (exists m', __memcpy_tofrom_guest guest m data len false = Ret (0, len, m', data) /\
     forall x, ~ (host <= x < host + Z.min c len) -> m' x = m x).
Proof.
  intros Hl H64. unfold __memcpy_tofrom_guest. split.
  - destruct (copy_from_loop (S (Z.to_nat len)) 0 len m data) as (d & -> & _ & Hd); [lia..|].
    exists d. split; [done|]. intros k Hk. rewrite Hd, Z.sub_0_r by done.
    destruct (decide (k < len)); [by rewrite decide_True by lia|by rewrite decide_False by lia].
  - destruct (copy_to_loop (S (Z.to_nat len)) 0 len m data) as (m' & -> & Hm); [lia..|]. by exists m'.
Qed.
End one_address.
End copy.

(** guest page 0 at host page 5, guest page 1 at host page 9: 20 bytes from 4090 *)
Definition sample_v2p (a : Z) : option Z :=
  if a <? 4096 then Some (0x5000 + a) else if a <? 8192 then Some (0x9000 + (a - 4096)) else None.

Lemma guest_copy_one_page_witness :
  (exists data', __memcpy_tofrom_guest sample_v2p 4090 (fun a => a) (replicate 20 0) 20 true = Ret (0, 20, fun a => a, data') /\
     forall k, 0 <= k -> aget data' k = if decide (k < 20) then Some (0x5ffa + k mod 6) else aget (replicate 20 0) k) /\
  (exists m', __memcpy_tofrom_guest sample_v2p 4090 (fun a => a) (replicate 20 0) 20 false = Ret (0, 20, m', replicate 20 0) /\
     forall x, ~ (0x5ffa <= x < 0x5ffa + 6) -> m' x = x).
Proof. apply (guest_copy_one_page sample_v2p 4090 0x5ffa eq_refl (fun a => a) (replicate 20 0) 20); by vm_compute. Defined.
