(* ===== verification/Edf.v ===== *)
(** cp/fs/edf.c and cp/fs/bcache.c: reading CMS minidisks (the enhanced disk
    format), with a cache of blocks for each file.

    A device is a parameter: what reading a block gives, an error code or the
    bytes.  FSTs and the ADT are kept as the bytes on disk.  Files are objects
    ([struct file] on the list [fs->files]) and live in a store; [mem_ok] says
    which allocations succeed.  The file and file system mutexes
    bracket the operations and are not repeated here.  The theorems: the cache
    delivers what the pointer blocks on the disk say, and lookup and record
    reads deliver what the directory and the data blocks hold. *)

From S2P Require Import Prelude Charset.

Local Open Scope Z_scope.

Definition ENOMEM : Z := 1.
Definition EINVAL : Z := 4.
Definition ENOENT : Z := 6.
Definition EFAULT : Z := 9.
Definition ECORRUPT : Z := 11.

(** ** On-disk structures *)

Definition field (b : list Z) (off n : nat) : list Z := take n (drop off b).
Definition be_field (b : list Z) (off n : nat) : Z := be_val (field b off n).

Definition sizeof_ADT : nat := 80.
Definition ADT_IDENT (a : list Z) : Z := be_field a 0 4.
Definition ADT_DBSIZ (a : list Z) : Z := be_field a 12 4.
Definition ADT_DOP (a : list Z) : Z := be_field a 16 4.
Definition ADT_FSTSZ (a : list Z) : Z := be_field a 36 4.
Definition ADT_NFST (a : list Z) : Z := be_field a 40 4.
Definition ADT_OFFST (a : list Z) : Z := be_field a 52 4.

Definition __ADTIDENT : Z := 0xC3D4E2F1.

Definition sizeof_FST : nat := 64.
Definition FST_FNAME (f : list Z) : list Z := field f 0 8.
Definition FST_FTYPE (f : list Z) : list Z := field f 8 8.
Definition FST_RECFM (f : list Z) : Z := be_field f 30 1.
Definition FST_LRECL (f : list Z) : Z := be_field f 32 4.
Definition FST_FOP (f : list Z) : Z := be_field f 40 4.
Definition FST_ADBC (f : list Z) : Z := be_field f 44 4.
Definition FST_AIC (f : list Z) : Z := be_field f 48 4.
Definition FST_NLVL (f : list Z) : Z := be_field f 52 1.
Definition FST_PTRSZ (f : list Z) : Z := be_field f 53 1.

Definition FSTDFIX : Z := 0xC6.
Definition EDF_LABEL_BLOCK_NO : Z := 3.
Definition EDF_SUPPORTED_BLOCK_SIZE : Z := 4096.
Definition DIRECTOR_FN : list Z := [0; 0; 0; 1; 0; 0; 0; 0].
Definition DIRECTOR_FT : list Z := [0xc4; 0xc9; 0xd9; 0xc5; 0xc3; 0xe3; 0xd6; 0xd9].
Definition ALLOCMAP_FN : list Z := [0; 0; 0; 2; 0; 0; 0; 0].
Definition ALLOCMAP_FT : list Z := [0xc1; 0xd3; 0xd3; 0xd6; 0xc3; 0xd4; 0xc1; 0xd7].

(** ** Objects *)

Record bcache_entry := Entry {
  level : Z;  (* 0 = data *)
  blk : Z;
  lba : Z;
  data : option (list Z);
}.

Record file := File {
  FST : list Z;
  bcache : list bcache_entry;
}.

Record fs := Fs {
  ADT : list Z;
  dir : Z;       (* a file *)
}.

(** the files of a file system, the order of [fs->files], and the number of
    allocations so far *)
Record disk := Disk {
  objects : gmap Z file;
  files : list Z;
  next : Z;
  allocs : nat;
}.

(** an operation gives an error code or a value *)
Definition io (A : Type) : Type := disk -> outcome ((Z + A) * disk).

#[global] Instance io_ret : MRet io := fun A a s => Ret (inr a, s).
#[global] Instance io_bind : MBind io := fun A B f m s =>
  '(r, s) ← m s; match r with inl e => Ret (inl e, s) | inr a => f a s end.

Definition err {A} (e : Z) : io A := fun s => Ret (inl e, s).

Definition get_file (id : Z) : io file := fun s => f ← defined (objects s !! id); Ret (inr f, s).
Definition put_file (id : Z) (f : file) : io unit := fun s =>
  Ret (inr tt, Disk (<[id := f]> (objects s)) (files s) (next s) (allocs s)).

Definition open_files : io (list Z) := fun s => Ret (inr (files s), s).

(** a call that cannot fail in the code *)
Definition lift {A} (m : outcome A) : io A := fun s => a ← m; Ret (inr a, s).

Section edf.
Context (bdev_read_block : Z -> Z + list Z).  (* the device *)
Context (mem_ok : nat -> bool).               (* the allocators *)

Definition alloc : io unit := fun s =>
  Ret (if mem_ok (allocs s) then inr tt else inl (- ENOMEM), Disk (objects s) (files s) (next s) (S (allocs s))).

Definition read_block (b : Z) : io (list Z) := fun s => Ret (bdev_read_block b, s).

(** ** The block cache *)

(** the index of the new entry *)
Definition __bcache_add (id lvl b l : Z) : io nat :=
  alloc ;;
  f ← get_file id;
  put_file id (File (FST f) (bcache f ++ [Entry lvl b l None])) ;;
  mret (length (bcache f)).

Definition bcache_add (id lvl b l : Z) : io unit := __bcache_add id lvl b l ;; mret tt.

(** [found:] the data of entry [i], read when it is not there yet *)
Definition found (id : Z) (i : nat) : io (list Z) :=
  f ← get_file id;
  e ← lift (defined (bcache f !! i));
  match data e with
   | Some d => mret d
   | None =>
       alloc ;;
       d ← read_block (lba e);
       put_file id (File (FST f) (<[i := Entry (level e) (blk e) (lba e) (Some d)]> (bcache f))) ;;
       mret d
   end.

(** the pointers in a block *)
Definition ptr_at (d : list Z) (off : Z) : Z := be_field d (Z.to_nat (4 * off)) 4.

Fixpoint bcache_read (fuel : nat) (a : list Z) (id lvl b : Z) : io (list Z) :=
  match fuel with
  | O => fun _ => Undef
  | S fuel =>
      f ← get_file id;
      lift (bug_on (FST_NLVL (FST f) <? lvl)) ;;
      match list_find (fun e => level e = lvl /\ blk e = b) (bcache f) with
       | Some (i, _) => found id i
       | None =>
           if lvl =? FST_NLVL (FST f) then
             i ← __bcache_add id lvl 0 (FST_FOP (FST f)); found id i
           else
             let off := b mod (ADT_DBSIZ a / 4) in
             let nblk := b / (ADT_DBSIZ a / 4) in
             ptrs ← bcache_read fuel a id (lvl + 1) nblk;
             i ← __bcache_add id lvl b (ptr_at ptrs off); found id i
       end
  end.

(** there are at most 256 levels *)
Definition bread (a : list Z) (id lvl b : Z) : io (list Z) := bcache_read 257 a id lvl b.

(** ** Files *)

Definition insert_file (f : file) : io Z := fun s =>
  Ret (inr (next s), Disk (<[next s := f]> (objects s)) (files s ++ [next s]) (next s + 1) (allocs s)).

Definition __alloc_file (fst : option (list Z)) : io Z :=
  alloc ;; insert_file (File (default (replicate sizeof_FST 0) fst) []).

Definition __free_file (id : Z) : io unit := fun s =>
  Ret (inr tt, Disk (delete id (objects s)) (base.filter (.≠ id) (files s)) (next s) (allocs s)).

(** the [i]th FST of a directory block *)
Definition fst_at (d : list Z) (i : nat) : list Z := field d (sizeof_FST * i) sizeof_FST.

(** run [m]; undo and fail when it does *)
Definition on_error {A} (m : io A) (undo : io unit) : io A := fun s =>
  '(r, s) ← m s;
  match r with inr a => Ret (inr a, s) | inl e => (undo ;; err e) s end.

Definition __init_dir (a : list Z) : io Z :=
  tmp ← read_block (ADT_DOP a);
  if negb (bool_decide (FST_FNAME (fst_at tmp 0) = DIRECTOR_FN)) ||
     negb (bool_decide (FST_FTYPE (fst_at tmp 0) = DIRECTOR_FT)) ||
     negb (FST_RECFM (fst_at tmp 0) =? FSTDFIX) ||
     negb (bool_decide (FST_FNAME (fst_at tmp 1) = ALLOCMAP_FN)) ||
     negb (bool_decide (FST_FTYPE (fst_at tmp 1) = ALLOCMAP_FT)) ||
     negb (FST_RECFM (fst_at tmp 1) =? FSTDFIX)
  then err (- ECORRUPT) else
  id ← __alloc_file (Some (fst_at tmp 0));
  on_error (bcache_add id 0 0 (ADT_DOP a)) (__free_file id) ;;
  mret id.

(** the page for [tmp] and [struct fs] are given back on every failure *)
Definition edf_mount : io fs :=
  alloc ;;
  alloc ;;
  tmp ← read_block EDF_LABEL_BLOCK_NO;
  let a := take sizeof_ADT tmp in
  if negb (ADT_IDENT a =? __ADTIDENT) || negb (ADT_DBSIZ a =? EDF_SUPPORTED_BLOCK_SIZE) ||
     negb (ADT_OFFST a =? 0) || negb (ADT_FSTSZ a =? Z.of_nat sizeof_FST)
  then err (- EINVAL) else
  d ← __init_dir a;
  mret (Fs a d).

Definition named (fn ft : list Z) (fst : list Z) : bool :=
  bool_decide (FST_FNAME fst = fn) && bool_decide (FST_FTYPE fst = ft).

(** the first open file of the name *)
Fixpoint cached (fn ft : list Z) (ids : list Z) : io (option Z) :=
  match ids with
  | [] => mret None
  | id :: ids => f ← get_file id; if named fn ft (FST f) then mret (Some id) else cached fn ft ids
  end.

(** the first of the FSTs [i ..] of a block that has the name *)
Fixpoint scan_block (fn ft d : list Z) (i : nat) (n : nat) : option (list Z) :=
  match n with
  | O => None
  | S n => if named fn ft (fst_at d i) then Some (fst_at d i) else scan_block fn ft d (S i) n
  end.

Fixpoint scan_dir (f : fs) (fn ft : list Z) (b : Z) (n : nat) : io (option (list Z)) :=
  match n with
  | O => mret None
  | S n =>
      d ← bread (ADT f) (dir f) 0 b;
      match scan_block fn ft d 0 (Z.to_nat (ADT_NFST (ADT f))) with
      | Some e => mret (Some e)
      | None => scan_dir f fn ft (b + 1) n
      end
  end.

Definition edf_lookup (f : fs) (fn ft : list Z) : io Z :=
  __fn ← lift (ascii2ebcdic (take 8 fn) 8);
  __ft ← lift (ascii2ebcdic (take 8 ft) 8);
  ids ← open_files;
  c ← cached __fn __ft ids;
  match c with
   | Some id => mret id
   | None =>
       id ← __alloc_file None;
       d ← on_error (get_file (dir f)) (__free_file id);
       r ← on_error (scan_dir f __fn __ft 0 (Z.to_nat (FST_ADBC (FST d)))) (__free_file id);
       match r with
       | Some e => g ← get_file id; put_file id (File e (bcache g)) ;; mret id
       | None => __free_file id ;; err (- ENOENT)
       end
   end.

(** the record's bytes; nothing is delivered on failure except what was copied *)
Definition edf_read_rec (f : fs) (id recno : Z) : io (list Z) :=
  g ← get_file id;
  let t := FST g in
  let DBSIZ := ADT_DBSIZ (ADT f) in
  if negb (FST_NLVL t =? 0) || negb (FST_PTRSZ t =? 4) || (DBSIZ <? FST_LRECL t) || negb (FST_RECFM t =? FSTDFIX)
  then err (- EINVAL) else
  if FST_AIC t <=? recno then err (- EINVAL) else
  let b := u32 (recno * FST_LRECL t) / DBSIZ in
  let off := u32 (recno * FST_LRECL t) mod DBSIZ in
  if DBSIZ <? off + FST_LRECL t then
    let flen := DBSIZ - off in
    let slen := FST_LRECL t - flen in
    d1 ← bread (ADT f) id 0 b;
    d2 ← bread (ADT f) id 0 (b + 1);
    mret (field d1 (Z.to_nat off) (Z.to_nat flen) ++ field d2 0 (Z.to_nat slen))
  else
    d ← bread (ADT f) id 0 b; mret (field d (Z.to_nat off) (Z.to_nat (FST_LRECL t))).

Definition edf_file_free (id : Z) : io unit := __free_file id.

(** * What the disk says *)

(** [n] levels of pointer blocks above: the block number of block [b], and the block *)
Fixpoint ref_lba (a t : list Z) (n : nat) (b : Z) : Z + Z :=
  match n with
  | O => inr (FST_FOP t)
  | S n =>
      match ref_lba a t n (b / (ADT_DBSIZ a / 4)) with
      | inl e => inl e
      | inr l => match bdev_read_block l with
                 | inl e => inl e
                 | inr d => inr (ptr_at d (b mod (ADT_DBSIZ a / 4)))
                 end
      end
  end.

Definition ref_read (a t : list Z) (n : nat) (b : Z) : Z + list Z :=
  match ref_lba a t n b with inl e => inl e | inr l => bdev_read_block l end.

Definition levels_above (t : list Z) (lvl : Z) : nat := Z.to_nat (FST_NLVL t - lvl).

(** an entry of the cache agrees with the disk *)
Definition entry_ok (a t : list Z) (e : bcache_entry) : Prop :=
  0 <= level e <= FST_NLVL t /\
  ref_lba a t (levels_above t (level e)) (blk e) = inr (lba e) /\
  (forall d, data e = Some d -> bdev_read_block (lba e) = inr d).

Definition coherent (a t : list Z) (f : file) : Prop := FST f = t /\ Forall (entry_ok a t) (bcache f).

Definition has (a : list Z) (id : Z) (t : list Z) (s : disk) : Prop :=
  exists f, objects s !! id = Some f /\ coherent a t f.

(** only the cache of file [id] changed *)
Definition only_cache (a : list Z) (id : Z) (t : list Z) (s s' : disk) : Prop :=
  exists f, objects s' = <[id := f]> (objects s) /\ coherent a t f /\ files s' = files s /\ next s' = next s.

Lemma only_cache_has a id t s s' : only_cache a id t s s' -> has a id t s'.
Proof. intros (f & E & Hc & _). exists f. split; [|done]. rewrite E. apply lookup_insert_eq. Qed.

Lemma only_cache_refl a id t s : has a id t s -> only_cache a id t s s.
Proof. intros (f & E & Hc). exists f. split_and!; try done. by rewrite insert_id. Qed.

Lemma only_cache_trans a id t s1 s2 s3 : only_cache a id t s1 s2 -> only_cache a id t s2 s3 -> only_cache a id t s1 s3.
Proof.
  intros (f & E & Hc & F & N) (g & E' & Hc' & F' & N'). exists g.
  split_and!; [|done|congruence|congruence]. rewrite E', E. apply insert_insert_eq.
Qed.

Lemma io_step {A B} (m : io A) (f : A -> io B) s a s' : m s = Ret (inr a, s') -> (m ≫= f) s = f a s'.
Proof. intros E. unfold mbind, io_bind. by rewrite E. Qed.

Lemma io_fail {A B} (m : io A) (f : A -> io B) s e s' : m s = Ret (inl e, s') -> (m ≫= f) s = Ret (inl e, s').
Proof. intros E. unfold mbind, io_bind. by rewrite E. Qed.

Lemma get_file_ok id f s : objects s !! id = Some f -> get_file id s = Ret (inr f, s).
Proof. intros E. unfold get_file. by rewrite E. Qed.

(** ** Allocations *)

(** an allocation of the run from [s] to [s'] failed *)
Definition starved (s s' : disk) : Prop := exists n, (allocs s <= n < allocs s')%nat /\ mem_ok n = false.

(** the run from [s] to [s'] with result [r] gave [x], unless memory ran out *)
Definition gives {B} (x r : Z + B) (s s' : disk) : Prop :=
  (allocs s <= allocs s')%nat /\ (r = x \/ r = inl (- ENOMEM) /\ starved s s').

Lemma starved_mono s0 s s' s1 : (allocs s0 <= allocs s)%nat -> (allocs s' <= allocs s1)%nat -> starved s s' -> starved s0 s1.
Proof. intros H0 H1 (n & Hn & Hm). exists n. split; [lia|done]. Qed.

Lemma gives_self {B} (x : Z + B) s : gives x x s s.
Proof. split; [done|by left]. Qed.

(** steps before it *)
Lemma gives_after {B} (x r : Z + B) s s1 s' : (allocs s <= allocs s1)%nat -> gives x r s1 s' -> gives x r s s'.
Proof. intros H [Hle Hg]. split; [lia|]. destruct Hg as [->|[-> Hs]]; [by left|right]. split; [done|]. by apply (starved_mono s s1 s' s'). Qed.

Lemma gives_enough {B} (x r : Z + B) s s' : (forall n, mem_ok n = true) -> gives x r s s' -> r = x.
Proof. intros Hmem [_ [->|[_ (n & _ & Hn)]]]; [done|]. by rewrite Hmem in Hn. Qed.

(** the state after an allocation *)
Definition counted (s : disk) : disk := Disk (objects s) (files s) (next s) (S (allocs s)).

Lemma alloc_cases s : mem_ok (allocs s) = true /\ alloc s = Ret (inr tt, counted s) \/
  starved s (counted s) /\ alloc s = Ret (inl (- ENOMEM), counted s).
Proof.
  unfold alloc, counted. destruct (mem_ok (allocs s)) eqn:E; [by left|right]. split; [|done].
  exists (allocs s). split; [cbn; lia|done].
Qed.

Lemma only_cache_counted a id t s : has a id t s -> only_cache a id t s (counted s).
Proof. intros (f & E & Hc). exists f. split_and!; try done. by rewrite insert_id. Qed.

(** ** The cache *)

Lemma bcache_add_spec a id t s lvl b l :
  has a id t s -> entry_ok a t (Entry lvl b l None) ->
  exists r s', __bcache_add id lvl b l s = Ret (r, s') /\ only_cache a id t s s' /\ (allocs s <= allocs s')%nat /\
    match r with
    | inr i => exists f, objects s' !! id = Some f /\ bcache f !! i = Some (Entry lvl b l None)
    | inl e => e = - ENOMEM /\ starved s s'
    end.
Proof.
  intros Hhas He. unfold __bcache_add. destruct (alloc_cases s) as [[_ E]|[Hs E]].
  2:{ rewrite (io_fail _ _ _ _ _ E). do 2 eexists. split; [done|]. split_and!; [by apply only_cache_counted|cbn; lia|done..]. }
  rewrite (io_step _ _ _ _ _ E). destruct Hhas as (f & Ef & Hft & Hfe).
  rewrite (io_step _ _ _ _ _ (get_file_ok id f (counted s) Ef)). unfold put_file, mbind, io_bind, mret, io_ret. cbn.
  do 2 eexists. split; [done|]. split_and!; [|cbn; lia|].
  - eexists. split; [done|]. split_and!; try done. split; [done|]. by apply Forall_app_2; [|constructor].
  - eexists. split; [apply lookup_insert_eq|]. cbn. by rewrite list_lookup_middle.
Qed.

Lemma found_spec a id t s f i e :
  objects s !! id = Some f -> coherent a t f -> bcache f !! i = Some e ->
  exists r s', found id i s = Ret (r, s') /\ only_cache a id t s s' /\ gives (bdev_read_block (lba e)) r s s'.
Proof.
  intros Ef Hc Hi. pose proof Hc as [Hft Hfe].
  pose proof (proj1 (Forall_lookup _ _) Hfe i e Hi) as He. destruct He as (Hlvl & Hlba & Hd).
  unfold found. rewrite (io_step _ _ _ _ _ (get_file_ok id f s Ef)).
  rewrite (io_step (lift _) _ s e s) by (unfold lift; by rewrite Hi).
  destruct (data e) as [d|] eqn:Ed.
  { exists (inr d), s. rewrite (Hd d eq_refl). split; [done|]. split; [|apply gives_self]. apply only_cache_refl. by exists f. }
  destruct (alloc_cases s) as [[_ E]|[Hs E]].
  2:{ rewrite (io_fail _ _ _ _ _ E). do 2 eexists. split; [done|]. split; [apply only_cache_counted; by exists f|].
      split; [cbn; lia|by right]. }
  rewrite (io_step _ _ _ _ _ E). unfold read_block, put_file, mbind, io_bind, mret, io_ret.
  destruct (bdev_read_block (lba e)) as [er|d] eqn:Er; cbn; do 2 eexists; (split; [done|]); (split; [|split; [cbn; lia|by left]]).
  - exists f. split_and!; try done. cbn. by rewrite insert_id.
  - eexists. split; [done|]. split_and!; try done. split; [done|]. apply Forall_insert; [done|].
    split_and!; try done; cbn; try lia. by intros d' [= <-].
Qed.

(** an entry added and read *)
Lemma add_found a id t s lvl b l : has a id t s -> entry_ok a t (Entry lvl b l None) ->
  exists r s', (i ← __bcache_add id lvl b l; found id i) s = Ret (r, s') /\ only_cache a id t s s' /\ gives (bdev_read_block l) r s s'.
Proof.
  intros Hhas He. destruct (bcache_add_spec a id t s lvl b l Hhas He) as ([e|i] & s1 & E1 & Ho1 & Hle & Hr).
  - destruct Hr as [-> Hs]. rewrite (io_fail _ _ _ _ _ E1). do 2 eexists. split; [done|]. split; [done|]. split; [done|by right].
  - destruct Hr as (f1 & Ef1 & Hi1). rewrite (io_step _ _ _ _ _ E1).
    pose proof (only_cache_has _ _ _ _ _ Ho1) as (f1' & Ef1' & Hc1). assert (f1' = f1) as -> by congruence.
    destruct (found_spec a id t s1 f1 i _ Ef1 Hc1 Hi1) as (r & s2 & E2 & Ho2 & Hg). exists r, s2. split; [exact E2|].
    split; [by eapply only_cache_trans|by eapply gives_after].
Qed.

(** the cached read gives what the disk says, and keeps the cache coherent *)
Lemma bcache_read_spec a id t fuel lvl b s :
  has a id t s -> 0 <= lvl <= FST_NLVL t -> (levels_above t lvl < fuel)%nat ->
  exists r s', bcache_read fuel a id lvl b s = Ret (r, s') /\ only_cache a id t s s' /\ gives (ref_read a t (levels_above t lvl) b) r s s'.
Proof.
  revert lvl b s. induction fuel as [|fuel IH]; intros lvl b s Hhas Hlvl Hfuel; [lia|].
  pose proof Hhas as (f & Ef & Hft & Hfe). cbn [bcache_read].
  rewrite (io_step _ _ _ _ _ (get_file_ok id f s Ef)).
  rewrite (io_step (lift _) _ s tt s) by (unfold lift; rewrite Hft, (proj2 (Z.ltb_ge _ _)) by lia; done).
  destruct (list_find _ (bcache f)) as [[i e]|] eqn:Efind.
  - apply list_find_Some in Efind as (Hi & [<- <-] & _).
    destruct (found_spec a id t s f i e Ef) as (r & s' & E & Ho & Hg); [done|done|]. exists r, s'. split; [done|]. split; [done|].
    destruct (proj1 (Forall_lookup _ _) Hfe i e Hi) as (_ & Hlba & _). unfold ref_read. by rewrite Hlba.
  - rewrite Hft. destruct (Z.eqb_spec lvl (FST_NLVL t)) as [->|Hne].
    + assert (levels_above t (FST_NLVL t) = O) as El by (unfold levels_above; lia). rewrite El in *.
      apply (add_found a id t s); [done|]. split_and!; [cbn; lia|cbn; lia|cbn; by rewrite El|done].
    + assert (levels_above t lvl = S (levels_above t (lvl + 1))) as El by (unfold levels_above; lia). rewrite El.
      destruct (IH (lvl + 1) (b / (ADT_DBSIZ a / 4)) s Hhas) as (r1 & s1 & E1 & Ho1 & Hle & Hg1); [lia|lia|]. cbv zeta.
      destruct Hg1 as [Hg1|[-> Hs]].
      2:{ rewrite (io_fail _ _ _ _ _ E1). do 2 eexists. split; [done|]. split; [done|]. split; [done|by right]. }
      unfold ref_read in Hg1 |- *. cbn [ref_lba].
      destruct (ref_lba a t (levels_above t (lvl + 1)) (b / (ADT_DBSIZ a / 4))) as [er|l1] eqn:El1.
      { subst r1. rewrite (io_fail _ _ _ _ _ E1). do 2 eexists. split; [done|]. split; [done|]. split; [done|by left]. }
      destruct (bdev_read_block l1) as [er|d] eqn:Ed; subst r1.
      { rewrite (io_fail _ _ _ _ _ E1). do 2 eexists. split; [done|]. split; [done|]. split; [done|by left]. }
      rewrite (io_step _ _ _ _ _ E1).
      destruct (add_found a id t s1 lvl b (ptr_at d (b mod (ADT_DBSIZ a / 4)))) as (r & s2 & E2 & Ho2 & Hg2).
      { by eapply only_cache_has. }
      { split_and!; [cbn; lia|cbn; lia| |done]. cbn [level blk lba]. rewrite El. cbn [ref_lba]. by rewrite El1, Ed. }
      exists r, s2. split; [exact E2|]. split; [by eapply only_cache_trans|by eapply gives_after].
Qed.

Lemma bread_spec a id t lvl b s :
  has a id t s -> 0 <= lvl <= FST_NLVL t -> FST_NLVL t < 256 ->
  exists r s', bread a id lvl b s = Ret (r, s') /\ only_cache a id t s s' /\ has a id t s' /\ gives (ref_read a t (levels_above t lvl) b) r s s'.
Proof.
  intros Hhas Hlvl Hn. destruct (bcache_read_spec a id t 257 lvl b s Hhas Hlvl) as (r & s' & E & Ho & Hg).
  { unfold levels_above. lia. }
  exists r, s'. split_and!; [exact E|done|by eapply only_cache_has|done].
Qed.

(** ... which is the block when allocations succeed *)
Lemma bread_enough (Hmem : forall n, mem_ok n = true) a id t lvl b s :
  has a id t s -> 0 <= lvl <= FST_NLVL t -> FST_NLVL t < 256 ->
  exists s', bread a id lvl b s = Ret (ref_read a t (levels_above t lvl) b, s') /\ only_cache a id t s s' /\ has a id t s'.
Proof.
  intros H1 H2 H3. destruct (bread_spec a id t lvl b s) as (r & s' & E & ? & ? & Hg); [done..|].
  apply (gives_enough _ _ _ _ Hmem) in Hg as ->. by exists s'.
Qed.

(** Reading block [b] of level [lvl] of a file whose cache agrees with the
    disk gives what following the file's pointer blocks on the disk gives, data
    or error, whatever of it was cached before; only the file's cache changes,
    and it still agrees with the disk. *)
Theorem bcache_read_correct a id t lvl b s :
  (forall n, mem_ok n = true) -> has a id t s -> 0 <= lvl <= FST_NLVL t -> FST_NLVL t < 256 ->
  exists s', bread a id lvl b s = Ret (ref_read a t (levels_above t lvl) b, s') /\ only_cache a id t s s' /\ has a id t s'.
Proof. intros. by apply bread_enough. Qed.

(** ** Looking up a file *)

Lemma on_error_ok {B} (m : io B) undo s x s' : m s = Ret (inr x, s') -> on_error m undo s = Ret (inr x, s').
Proof. intros E. unfold on_error. by rewrite E. Qed.

Lemma filter_true {B} (P : B -> Prop) `{forall x, Decision (P x)} (l : list B) :
  (forall x, x ∈ l -> P x) -> base.filter P l = l.
Proof.
  induction l as [|x l IH]; intros Hl; [done|].
  rewrite filter_cons_True by (apply Hl; left). f_equal. apply IH. intros y Hy. apply Hl. by right.
Qed.

(** the first open file with the name *)
Definition open_named (s : disk) (fn ft : list Z) (ids : list Z) : option Z :=
  List.find (fun id => match objects s !! id with Some g => named fn ft (FST g) | None => false end) ids.

Lemma cached_spec fn ft ids s : (forall id, id ∈ ids -> is_Some (objects s !! id)) ->
  cached fn ft ids s = Ret (inr (open_named s fn ft ids), s).
Proof.
  induction ids as [|id ids IH]; intros Hids; cbn [cached open_named List.find]; [done|].
  destruct (Hids id) as [g Hg]; [left|]. rewrite (io_step _ _ _ _ _ (get_file_ok id g s Hg)), Hg.
  destruct (named fn ft (FST g)); [done|]. apply IH. intros j Hj. apply Hids. by right.
Qed.

Lemma scan_block_find fn ft d i n : scan_block fn ft d i n = List.find (named fn ft) (map (fst_at d) (seq i n)).
Proof. revert i. induction n as [|n IH]; intros i; cbn; [done|]. by rewrite IH. Qed.

(** the FSTs in the blocks of a directory *)
Definition dir_entries (a : list Z) (blocks : list (list Z)) : list (list Z) :=
  concat (map (fun d => map (fst_at d) (seq 0 (Z.to_nat (ADT_NFST a)))) blocks).

(** the first [length blocks] blocks of the directory can be read, and hold [blocks] *)
Definition reads (a t : list Z) (blocks : list (list Z)) : Prop :=
  forall k d, blocks !! k = Some d -> ref_read a t (levels_above t 0) (Z.of_nat k) = inr d.

(** why a lookup that read [blocks] and no match ended with [e] *)
Definition gave_up (a t : list Z) (blocks : list (list Z)) (e : Z) (s s' : disk) : Prop :=
  (length blocks < Z.to_nat (FST_ADBC t))%nat /\ ref_read a t (levels_above t 0) (lenZ blocks) = inl e \/
  e = - ENOMEM /\ starved s s'.

Lemma dir_entries_snoc a blocks d : dir_entries a (blocks ++ [d]) = dir_entries a blocks ++ map (fst_at d) (seq 0 (Z.to_nat (ADT_NFST a))).
Proof. unfold dir_entries. rewrite map_app, concat_app. cbn. by rewrite app_nil_r. Qed.

Lemma scan_dir_spec f t fn ft n blocks s :
  has (ADT f) (dir f) t s -> 0 <= FST_NLVL t < 256 -> reads (ADT f) t blocks ->
  List.find (named fn ft) (dir_entries (ADT f) blocks) = None -> (length blocks + n = Z.to_nat (FST_ADBC t))%nat ->
  exists r s' blocks', scan_dir f fn ft (lenZ blocks) n s = Ret (r, s') /\ only_cache (ADT f) (dir f) t s s' /\ (allocs s <= allocs s')%nat /\
    reads (ADT f) t blocks' /\ (length blocks' <= Z.to_nat (FST_ADBC t))%nat /\
    match r with
    | inr o => List.find (named fn ft) (dir_entries (ADT f) blocks') = o /\ (o = None -> length blocks' = Z.to_nat (FST_ADBC t))
    | inl e => List.find (named fn ft) (dir_entries (ADT f) blocks') = None /\ gave_up (ADT f) t blocks' e s s'
    end.
Proof.
  revert blocks s. induction n as [|n IH]; intros blocks s Hhas Hn Hbl Hnone Hlen; cbn [scan_dir].
  { exists (inr None), s, blocks. split_and!; [done|by apply only_cache_refl|done|done|lia|done|lia]. }
  destruct (bread_spec (ADT f) (dir f) t 0 (lenZ blocks) s) as (r1 & s1 & E1 & Ho1 & Hhas1 & Hle1 & Hg1); [done|lia|lia|].
  destruct r1 as [e|d].
  { rewrite (io_fail _ _ _ _ _ E1). exists (inl e), s1, blocks. split_and!; [done|done|done|done|lia|done|].
    destruct Hg1 as [Hg1|[Hg1 Hs]]; [left; split; [lia|done]|right; split; [by injection Hg1|done]]. }
  destruct Hg1 as [Hd|[? _]]; [|done]. rewrite (io_step _ _ _ _ _ E1), scan_block_find.
  assert (reads (ADT f) t (blocks ++ [d])) as Hbl'.
  { intros k d' [Hk|(Hk & Hk')]%lookup_app_Some; [by apply Hbl|].
    apply list_lookup_singleton_Some in Hk' as [Hk0 ->]. replace (Z.of_nat k) with (lenZ blocks) by (unfold lenZ; lia). done. }
  assert (length (blocks ++ [d]) = S (length blocks)) as Hlen' by (rewrite length_app; cbn; lia).
  pose proof (dir_entries_snoc (ADT f) blocks d) as Esn.
  destruct (List.find (named fn ft) (map (fst_at d) _)) as [e|] eqn:Ef.
  - exists (inr (Some e)), s1, (blocks ++ [d]). split_and!; [done|done|done|done|lia|by rewrite Esn, find_app, Hnone|done].
  - destruct (IH (blocks ++ [d]) s1) as (r & s2 & blocks' & E2 & Ho2 & Hle2 & Hbl2 & Hlen2 & Hr); [done|done|done|by rewrite Esn, find_app, Hnone|lia|].
    replace (lenZ blocks + 1) with (lenZ (blocks ++ [d])) by (unfold lenZ; lia).
    exists r, s2, blocks'. split_and!; [exact E2|by eapply only_cache_trans|lia|done|done|].
    destruct r as [e|o]; [|done]. destruct Hr as [Hr1 [Hr2|[-> Hr2]]]; (split; [done|]); [by left|right].
    split; [done|]. by apply (starved_mono s s1 s2 s2).
Qed.

(** the objects of an open file system *)
Record wf_disk (f : fs) (t : list Z) (s : disk) : Prop := WfDisk {
  wd_dir : has (ADT f) (dir f) t s;
  wd_files : forall id, id ∈ files s -> is_Some (objects s !! id) /\ id < next s;
  wd_new : forall id, is_Some (objects s !! id) -> id < next s;
}.

(** a file of its own for the object [next s], with FST [e] *)
Definition opened (f : fs) (t e : list Z) (s s' : disk) : Prop :=
  objects s' !! next s = Some (File e []) /\ files s' = files s ++ [next s] /\
  (forall id, id <> next s -> id <> dir f -> objects s' !! id = objects s !! id) /\ wf_disk f t s'.

(** no file was opened: only the directory's cache differs *)
Definition unopened (f : fs) (t : list Z) (s s' : disk) : Prop :=
  (exists g, objects s' = <[dir f := g]> (objects s)) /\ files s' = files s /\ wf_disk f t s'.

(** the file object made by the lookup, and what the scan of the directory did *)
Definition scanned (f : fs) (t : list Z) (s s2 : disk) : Prop :=
  exists s1, only_cache (ADT f) (dir f) t s1 s2 /\
    s1 = Disk (<[next s := File (replicate sizeof_FST 0) []]> (objects s)) (files s ++ [next s]) (next s + 1) (S (allocs s)).

Lemma scanned_opened f t e s s2 : wf_disk f t s -> scanned f t s s2 ->
  exists s', (g ← get_file (next s); put_file (next s) (File e (bcache g)) ;; mret (next s)) s2 = Ret (inr (next s), s') /\ opened f t e s s'.
Proof.
  intros Hwf (s1 & (g & Eobj & Hg & Efiles & Enext) & ->).
  pose proof (wd_dir _ _ _ Hwf) as (g0 & Eg0 & _).
  assert (dir f <> next s) as Hdn by (pose proof (wd_new _ _ _ Hwf (dir f) ltac:(by rewrite Eg0)); lia).
  assert (objects s2 !! next s = Some (File (replicate sizeof_FST 0) [])) as Enew.
  { rewrite Eobj, lookup_insert_ne by done. apply lookup_insert_eq. }
  rewrite (io_step _ _ _ _ _ (get_file_ok _ _ s2 Enew)). unfold put_file, mbind, io_bind, mret, io_ret. cbn.
  eexists. split; [done|]. split_and!; cbn; [apply lookup_insert_eq|done| |].
  { intros id Hid Hdir. rewrite lookup_insert_ne, Eobj by done. cbn. by rewrite !lookup_insert_ne by done. }
  assert (forall id, id <> next s -> is_Some (objects s2 !! id) <-> is_Some (objects s !! id)) as Hsame.
  { intros id Hid. rewrite Eobj. cbn. destruct (decide (dir f = id)) as [<-|]; [rewrite lookup_insert_eq, Eg0; by split|].
    by rewrite lookup_insert_ne, lookup_insert_ne by done. }
  split; cbn.
  - exists g. split; [|done]. cbn. rewrite lookup_insert_ne by done. rewrite Eobj. apply lookup_insert_eq.
  - intros id Hid. rewrite Efiles in Hid. cbn in Hid. rewrite Enext. cbn.
    apply elem_of_app in Hid as [Hid| ->%list_elem_of_singleton]; [|split; [by rewrite lookup_insert_eq|lia]].
    destruct (wd_files _ _ _ Hwf id Hid) as [Hs Hlt]. split; [|lia]. rewrite lookup_insert_ne by lia. apply Hsame; [lia|done].
  - intros id. rewrite Enext. cbn. intros Hs. destruct (decide (next s = id)) as [<-|Hne]; [lia|].
    rewrite lookup_insert_ne in Hs by done. apply Hsame in Hs; [|done]. pose proof (wd_new _ _ _ Hwf id Hs). lia.
Qed.

Lemma scanned_freed f t s s2 : wf_disk f t s -> scanned f t s s2 ->
  exists s', __free_file (next s) s2 = Ret (inr tt, s') /\ unopened f t s s' /\ allocs s' = allocs s2.
Proof.
  intros Hwf (s1 & (g & Eobj & Hg & Efiles & Enext) & ->). eexists. split; [done|]. split; [|done].
  pose proof (wd_dir _ _ _ Hwf) as (g0 & Eg0 & _).
  assert (dir f <> next s) as Hdn by (pose proof (wd_new _ _ _ Hwf (dir f) ltac:(by rewrite Eg0)); lia).
  assert (objects s !! next s = None) as Hnone.
  { destruct (objects s !! next s) eqn:E; [|done]. pose proof (wd_new _ _ _ Hwf (next s) ltac:(by rewrite E)). lia. }
  assert (delete (next s) (objects s2) = <[dir f := g]> (objects s)) as Edel.
  { rewrite Eobj. cbn. rewrite delete_insert_ne by done. by rewrite delete_insert_id. }
  assert (base.filter (.≠ next s) (files s2) = files s) as Efil.
  { rewrite Efiles. cbn. rewrite list.filter_app, filter_cons_False by (by intros []). rewrite filter_nil, app_nil_r.
    apply filter_true. intros id Hid ->. destruct (wd_files _ _ _ Hwf _ Hid). lia. }
  assert (forall id, is_Some ((<[dir f := g]> (objects s)) !! id) <-> is_Some (objects s !! id)) as Hsame.
  { intros id. destruct (decide (dir f = id)) as [<-|]; [rewrite lookup_insert_eq, Eg0; by split|by rewrite lookup_insert_ne]. }
  split_and!; cbn; [exists g; exact Edel|done|]. rewrite Edel, Efil, Enext. split; cbn.
  - exists g. split; [|done]. apply lookup_insert_eq.
  - intros id Hid. destruct (wd_files _ _ _ Hwf id Hid) as [Hs Hlt]. split; [by apply Hsame|cbn; lia].
  - intros id Hs%Hsame. pose proof (wd_new _ _ _ Hwf id Hs). cbn. lia.
Qed.

(** C28: Looking up a file by a name and a type of eight characters, any
    allocation and any read of the device failing or not: an open file of the
    name is returned as it is.  Otherwise the blocks of the directory are read
    in order, as its pointer blocks on the disk say, and the first FST of the
    name is opened as a new file, every other file but the directory as it was.
    The lookup fails with [-ENOENT] when it has read all the blocks without
    finding the name, with the device's error when it gets to a block that
    cannot be read, and with [-ENOMEM] only when an allocation failed; then no
    file was opened: the file it made is given back, and only the cache of the
    directory differs.  The state is a mounted file system's ([wf_disk]: the
    cache of the directory agrees with the disk, at most 255 levels). *)
Theorem edf_lookup_correct f t fn ft efn eft s :
  wf_disk f t s -> 0 <= FST_NLVL t < 256 ->
  ascii2ebcdic (take 8 fn) 8 = Ret efn -> ascii2ebcdic (take 8 ft) 8 = Ret eft ->
  match open_named s efn eft (files s) with
  | Some id => edf_lookup f fn ft s = Ret (inr id, s)
  | None =>
      exists r s' blocks, edf_lookup f fn ft s = Ret (r, s') /\ reads (ADT f) t blocks /\ (length blocks <= Z.to_nat (FST_ADBC t))%nat /\
      let first := List.find (named efn eft) (dir_entries (ADT f) blocks) in
      match r with
      | inr id => id = next s /\ exists e, first = Some e /\ opened f t e s s'
      | inl e => first = None /\ unopened f t s s' /\
          (e = - ENOENT /\ length blocks = Z.to_nat (FST_ADBC t) \/ gave_up (ADT f) t blocks e s s')
      end
  end.
Proof.
  intros Hwf Hn Hfn Hft. unfold edf_lookup.
  rewrite (io_step (lift _) _ s efn s) by (unfold lift; by rewrite Hfn).
  rewrite (io_step (lift _) _ s eft s) by (unfold lift; by rewrite Hft).
  rewrite (io_step open_files _ s (files s) s) by done.
  assert (forall id, id ∈ files s -> is_Some (objects s !! id)) as Hopen by (intros id Hid; by apply (wd_files _ _ _ Hwf)).
  rewrite (io_step _ _ _ _ _ (cached_spec efn eft (files s) s Hopen)).
  destruct (open_named s efn eft (files s)) as [id|]; [done|].
  destruct (alloc_cases s) as [[_ Ea]|[Hs Ea]].
  2:{ rewrite (io_fail _ _ s (- ENOMEM) (counted s)) by (unfold __alloc_file; by rewrite (io_fail _ _ _ _ _ Ea)).
      exists (inl (- ENOMEM)), (counted s), []. split_and!; [done|by intros k d|cbn; lia|done| |right; by right].
      pose proof (wd_dir _ _ _ Hwf) as (g & Eg & Hg). split_and!; [exists g; cbn; by rewrite insert_id|done|].
      destruct Hwf. by split. }
  pose proof (wd_dir _ _ _ Hwf) as (g0 & Eg0 & Hg0). pose proof Hg0 as [Hg0t _].
  assert (dir f <> next s) as Hdn by (pose proof (wd_new _ _ _ Hwf (dir f) ltac:(by rewrite Eg0)); lia).
  set (s1 := Disk (<[next s := File (replicate sizeof_FST 0) []]> (objects s)) (files s ++ [next s]) (next s + 1) (S (allocs s))).
  assert (__alloc_file None s = Ret (inr (next s), s1)) as Eal by (unfold __alloc_file; by rewrite (io_step _ _ _ _ _ Ea)).
  assert (objects s1 !! dir f = Some g0) as Eg1 by (cbn; by rewrite lookup_insert_ne).
  rewrite (io_step _ _ _ _ _ Eal), (io_step _ _ _ _ _ (on_error_ok _ _ _ _ _ (get_file_ok _ _ s1 Eg1))), Hg0t.
  destruct (scan_dir_spec f t efn eft (Z.to_nat (FST_ADBC t)) [] s1) as (r & s2 & blocks & E2 & Ho & Hle & Hbl & Hlen & Hr);
    [by exists g0|lia|by intros k d|done|cbn; lia|]. change (lenZ []) with 0 in E2.
  assert (scanned f t s s2) as Hsc by (by exists s1).
  destruct (scanned_freed f t s s2 Hwf Hsc) as (s3 & E3 & Hun & Hal).
  assert (forall e, gave_up (ADT f) t blocks e s1 s2 -> gave_up (ADT f) t blocks e s s3) as Hgu.
  { intros e [?|[-> Hs]]; [by left|right]. split; [done|]. eapply starved_mono; [| |exact Hs]; cbn; lia. }
  destruct r as [e|[e|]].
  - rewrite (io_fail _ _ s1 e s3) by (unfold on_error; by rewrite E2; cbn [mbind outcome_bind]; rewrite (io_step _ _ _ _ _ E3)).
    destruct Hr as [Hnone Hgave]. exists (inl e), s3, blocks. split_and!; [done..|right; by apply Hgu].
  - rewrite (io_step _ _ _ _ _ (on_error_ok _ _ _ _ _ E2)). destruct (scanned_opened f t e s s2 Hwf Hsc) as (s4 & E4 & Hop).
    exists (inr (next s)), s4, blocks. split_and!; [exact E4|done|done|done|]. exists e. by destruct Hr.
  - rewrite (io_step _ _ _ _ _ (on_error_ok _ _ _ _ _ E2)), (io_step _ _ _ _ _ E3). destruct Hr as [Hnone Hall].
    exists (inl (- ENOENT)), s3, blocks. split_and!; [done..|left; auto].
Qed.

(** ** Reading a record *)

(** Reading a record: files with pointer blocks, other pointer sizes, records
    longer than a block or of varying length, and records past the end are
    refused with [-EINVAL] without touching anything; otherwise the record's
    bytes come from the file's block (a file without pointer blocks has one),
    the part beyond its end from its start, or the device's error is returned;
    only the file's cache changes. *)
Theorem edf_read_rec_correct f t id recno s :
  (forall n, mem_ok n = true) -> has (ADT f) id t s -> 0 <= FST_NLVL t < 256 -> 0 <= recno ->
  let DBSIZ := ADT_DBSIZ (ADT f) in
  let off := u32 (recno * FST_LRECL t) mod DBSIZ in
  let supported := (FST_NLVL t =? 0) && (FST_PTRSZ t =? 4) && (FST_LRECL t <=? DBSIZ) && (FST_RECFM t =? FSTDFIX) in
  if negb supported || (FST_AIC t <=? recno) then edf_read_rec f id recno s = Ret (inl (- EINVAL), s)
  else exists s', only_cache (ADT f) id t s s' /\
    edf_read_rec f id recno s = Ret (match bdev_read_block (FST_FOP t) with
      | inl e => inl e
      | inr d => inr (if DBSIZ <? off + FST_LRECL t
                      then field d (Z.to_nat off) (Z.to_nat (DBSIZ - off)) ++
                           field d 0 (Z.to_nat (FST_LRECL t - (DBSIZ - off)))
                      else field d (Z.to_nat off) (Z.to_nat (FST_LRECL t)))
      end, s').
Proof.
  intros Hmem Hhas Hn Hrec DBSIZ off supported. pose proof Hhas as (g & Eg & Hgt & _).
  unfold edf_read_rec. rewrite (io_step _ _ _ _ _ (get_file_ok id g s Eg)), Hgt. cbv zeta. fold DBSIZ off.
  assert (negb (FST_NLVL t =? 0) || negb (FST_PTRSZ t =? 4) || (DBSIZ <? FST_LRECL t) || negb (FST_RECFM t =? FSTDFIX)
          = negb supported) as ->.
  { unfold supported. rewrite !negb_andb, Z.ltb_antisym. done. }
  destruct supported eqn:Es; cbn [negb orb]; [|done].
  destruct (FST_AIC t <=? recno); [done|].
  assert (FST_NLVL t = 0) as El by (unfold supported in Es; rewrite !andb_true_iff in Es; lia).
  assert (forall b s, has (ADT f) id t s -> exists s', bread (ADT f) id 0 b s = Ret (bdev_read_block (FST_FOP t), s') /\
            only_cache (ADT f) id t s s') as Hread.
  { intros b s1 Hs1. destruct (bread_enough Hmem (ADT f) id t 0 b s1) as (s2 & E & Ho & _); [done|lia|lia|].
    exists s2. split; [|done]. rewrite E. unfold levels_above, ref_read. rewrite El. done. }
  destruct (DBSIZ <? off + FST_LRECL t).
  - destruct (Hread (u32 (recno * FST_LRECL t) / DBSIZ) s Hhas) as (s1 & E1 & Ho1).
    destruct (bdev_read_block (FST_FOP t)) as [e|d] eqn:Ed.
    + exists s1. split; [done|]. by apply io_fail.
    + rewrite (io_step _ _ _ _ _ E1).
      destruct (Hread (u32 (recno * FST_LRECL t) / DBSIZ + 1) s1) as (s2 & E2 & Ho2); [by eapply only_cache_has|].
      rewrite (io_step _ _ _ _ _ E2). exists s2. split; [by eapply only_cache_trans|done].
  - destruct (Hread (u32 (recno * FST_LRECL t) / DBSIZ) s Hhas) as (s1 & E1 & Ho1). exists s1. split; [done|].
    destruct (bdev_read_block (FST_FOP t)) as [e|d] eqn:Ed; [by apply io_fail|by rewrite (io_step _ _ _ _ _ E1)].
Qed.
End edf.

(** * A minidisk *)

Definition pad_block (l : list Z) : list Z := l ++ replicate (4096 - length l) 0.

Definition sample_ADT : list Z :=
  be_bytes 4 __ADTIDENT ++ replicate 8 0 ++ be_bytes 4 4096 ++ be_bytes 4 5 ++ replicate 16 0 ++
  be_bytes 4 64 ++ be_bytes 4 64 ++ replicate 36 0.

Definition sample_FST (fn ft : list Z) (lrecl fop adbc aic nlvl : Z) : list Z :=
  fn ++ ft ++ replicate 14 0 ++ [FSTDFIX; 0] ++ be_bytes 4 lrecl ++ replicate 4 0 ++
  be_bytes 4 fop ++ be_bytes 4 adbc ++ be_bytes 4 aic ++ [nlvl; 4] ++ replicate 10 0.

(** PROFILE EXEC in EBCDIC *)
Definition sample_fn : list Z := [0xd7; 0xd9; 0xd6; 0xc6; 0xc9; 0xd3; 0xc5; 0x40].
Definition sample_ft : list Z := [0xc5; 0xe7; 0xc5; 0xc3; 0x40; 0x40; 0x40; 0x40].

(** the label, a directory with a level of pointer blocks, and a file *)
Definition sample_dev (lba : Z) : Z + list Z :=
  if lba =? 3 then inr (pad_block sample_ADT)
  else if lba =? 5 then inr (pad_block (sample_FST DIRECTOR_FN DIRECTOR_FT 64 6 1 3 1 ++
         sample_FST ALLOCMAP_FN ALLOCMAP_FT 4096 9 1 1 0 ++ sample_FST sample_fn sample_ft 80 7 1 20 0))
  else if lba =? 6 then inr (pad_block (be_bytes 4 5))
  else if lba =? 7 then inr (pad_block (concat (map (fun i => replicate 80 i) (seqZ 1 20))))
  else inl (- EINVAL).

Definition sample_start : disk := Disk ∅ [] 1 0.
Definition sample_fs : fs := Fs sample_ADT 1.
Definition sample_dir_FST : list Z := sample_FST DIRECTOR_FN DIRECTOR_FT 64 6 1 3 1.

(** the state after [edf_mount] *)
Definition sample_mounted : disk := Disk {[1 := File sample_dir_FST [Entry 0 0 5 None]]} [1] 2 4.

Lemma sample_mount : edf_mount sample_dev (fun _ => true) sample_start = Ret (inr sample_fs, sample_mounted).
Proof. vm_compute. reflexivity. Qed.

Lemma sample_has : has sample_dev sample_ADT 1 sample_dir_FST sample_mounted.
Proof.
  exists (File sample_dir_FST [Entry 0 0 5 None]). split; [reflexivity|]. split; [done|].
  constructor; [|constructor]. split_and!; [by vm_compute|by vm_compute|vm_compute; reflexivity|done].
Qed.

Lemma sample_wf : wf_disk sample_dev sample_fs sample_dir_FST sample_mounted.
Proof.
  split.
  - exact sample_has.
  - intros id ->%list_elem_of_singleton. split; [by eexists|done].
  - intros id [g Hg]. cbn in Hg. apply lookup_singleton_Some in Hg as [<- _]. done.
Qed.

Lemma bcache_read_correct_witness :
  exists s', bread sample_dev (fun _ => true) sample_ADT 1 1 0 sample_mounted = Ret (inr (pad_block (be_bytes 4 5)), s') /\
    only_cache sample_dev sample_ADT 1 sample_dir_FST sample_mounted s' /\ has sample_dev sample_ADT 1 sample_dir_FST s'.
Proof.
  apply (bcache_read_correct sample_dev (fun _ => true) sample_ADT 1 sample_dir_FST 1 0 sample_mounted);
    [done|exact sample_has|by vm_compute|by vm_compute].
Defined.

(** "PROFILE EXEC" is the third entry of the directory's only block; the sixth
    allocation, for the page of that block, fails in the second run *)
Lemma edf_lookup_correct_witness :
  (exists s' e, edf_lookup sample_dev (fun _ => true) sample_fs (zs "PROFILE ") (zs "EXEC    ") sample_mounted = Ret (inr 2, s') /\
    opened sample_dev sample_fs sample_dir_FST e sample_mounted s') /\
  exists s', edf_lookup sample_dev (fun n => negb (Nat.eqb n 5)) sample_fs (zs "PROFILE ") (zs "EXEC    ") sample_mounted = Ret (inl (- ENOMEM), s') /\
    unopened sample_dev sample_fs sample_dir_FST sample_mounted s'.
Proof.
  assert (open_named sample_mounted sample_fn sample_ft (files sample_mounted) = None) as En by (vm_compute; reflexivity).
  split; [set (mem := fun _ : nat => true)|set (mem := fun n => negb (Nat.eqb n 5))];
    (pose proof (edf_lookup_correct sample_dev mem sample_fs sample_dir_FST (zs "PROFILE ") (zs "EXEC    ") sample_fn sample_ft
       sample_mounted sample_wf ltac:(by vm_compute) ltac:(by vm_compute) ltac:(by vm_compute)) as H;
     rewrite En in H; destruct H as (r & s' & blocks & Er & _ & _ & H)).
  - assert (exists x, edf_lookup sample_dev mem sample_fs (zs "PROFILE ") (zs "EXEC    ") sample_mounted = Ret (inr 2, x)) as [x Ex]
      by (eexists; vm_compute; reflexivity).
    rewrite Ex in Er. injection Er as <- <-. destruct H as (_ & e & _ & H). by exists x, e.
  - assert (exists x, edf_lookup sample_dev mem sample_fs (zs "PROFILE ") (zs "EXEC    ") sample_mounted = Ret (inl (- ENOMEM), x)) as [x Ex]
      by (eexists; vm_compute; reflexivity).
    rewrite Ex in Er. injection Er as <- <-. destruct H as (_ & H & _). by exists x.
Defined.

(** the fourth record of the file, opened as file 1 *)
Definition sample_open : disk := Disk {[1 := File (sample_FST sample_fn sample_ft 80 7 1 20 0) []]} [1] 2 0.

Lemma edf_read_rec_correct_witness :
  exists s', only_cache sample_dev sample_ADT 1 (sample_FST sample_fn sample_ft 80 7 1 20 0) sample_open s' /\
    edf_read_rec sample_dev (fun _ => true) sample_fs 1 3 sample_open = Ret (inr (replicate 80 4), s').
Proof.
  apply (edf_read_rec_correct sample_dev (fun _ => true) sample_fs
    (sample_FST sample_fn sample_ft 80 7 1 20 0) 1 3 sample_open); [done| |by vm_compute|done].
  eexists. split; [reflexivity|]. split; [done|constructor].
Defined.
