(* ===== verification/Disasm.v ===== *)
(** cp/shell/disassm.c: the instruction disassembler.

    The opcode tables are those of the source, with the C designators expanded
    by [make_table]: the level-1 table by the first byte, level-2 tables by a
    field of 4 or 8 bits elsewhere in the instruction.  Decoding gives the calls
    of [snprintf] the code makes, in order, format and arguments; [disassm] runs
    them on the buffer with the formatter of Format.v.  The theorems: decoding
    any instruction reads that instruction only and returns its length, and the
    operands it prints determine the instruction's operand bytes. *)

From S2P Require Import Prelude CString Format.

Local Open Scope Z_scope.

(** ** Tables *)

Inductive inst_fmt : Type :=
  | IF_INV | IF_VAR | IF_E | IF_I | IF_RI1 | IF_RI2 | IF_RIE | IF_RIL1 | IF_RIL2 | IF_RIS
  | IF_RR | IF_RR_MASK | IF_RRE | IF_RRF1 | IF_RRF2 | IF_RRF3 | IF_RRR | IF_RRS
  | IF_RS1 | IF_RS2 | IF_RSI | IF_RSL | IF_RSY1 | IF_RSY2 | IF_RX | IF_RX_MASK | IF_RXE | IF_RXF | IF_RXY
  | IF_S | IF_SI | IF_SIL | IF_SIY | IF_SS1 | IF_SS2 | IF_SS3 | IF_SS4 | IF_SS5 | IF_SSE | IF_SSF | IF_DIAG.

#[global] Instance inst_fmt_eq_dec : EqDecision inst_fmt.
Proof. solve_decision. Defined.

(** [struct disassm_instruction]: an instruction, or the next table with the
    length and the location in bits of its opcode field; an entry without a
    designator is all zeros, IF_INV *)
Inductive disassm_instruction : Type :=
  | Invalid
  | Inst (fmt : inst_fmt) (name : string)
  | Table (ptr : list disassm_instruction) (len loc : Z).

Abbreviation table := (list disassm_instruction).

(** a table of [n] entries with designated ones *)
Definition make_table (n : nat) (es : list (Z * disassm_instruction)) : table :=
  fold_left (fun t e => <[Z.to_nat e.1 := e.2]> t) es (replicate n Invalid).

Local Open Scope string_scope.

Definition l2_01 : table := make_table 256 [
  (1, Inst IF_E "PR"); (2, Inst IF_E "UPT"); (4, Inst IF_E "PTFF"); (7, Inst IF_E "SCKPF");
  (10, Inst IF_E "PFPO"); (11, Inst IF_E "TAM"); (12, Inst IF_E "SAM24"); (13, Inst IF_E "SAM31");
  (14, Inst IF_E "SAM64"); (255, Inst IF_E "TRAP2")].

Definition l2_a5 : table := make_table 16 [
  (0, Inst IF_RI1 "IIHH"); (1, Inst IF_RI1 "IIHL"); (2, Inst IF_RI1 "IILH"); (3, Inst IF_RI1 "IILL");
  (4, Inst IF_RI1 "NIHH"); (5, Inst IF_RI1 "NIHL"); (6, Inst IF_RI1 "NILH"); (7, Inst IF_RI1 "NILL");
  (8, Inst IF_RI1 "OIHH"); (9, Inst IF_RI1 "OIHL"); (10, Inst IF_RI1 "OILH"); (11, Inst IF_RI1 "OILL");
  (12, Inst IF_RI1 "LLIHH"); (13, Inst IF_RI1 "LLIHL"); (14, Inst IF_RI1 "LLILH"); (15, Inst IF_RI1 "LLILL")].

Definition l2_a7 : table := make_table 16 [
  (0, Inst IF_RI1 "TMLH"); (1, Inst IF_RI1 "TMLL"); (2, Inst IF_RI1 "TMHH"); (3, Inst IF_RI1 "TMHL");
  (4, Inst IF_RI2 "BRC"); (5, Inst IF_RI1 "BRAS"); (6, Inst IF_RI1 "BRCT"); (7, Inst IF_RI1 "BRCTG");
  (8, Inst IF_RI1 "LHI"); (9, Inst IF_RI1 "LGHI"); (10, Inst IF_RI1 "AHI"); (11, Inst IF_RI1 "AGHI");
  (12, Inst IF_RI1 "MHI"); (13, Inst IF_RI1 "MGHI"); (14, Inst IF_RI1 "CHI"); (15, Inst IF_RI1 "CGHI")].

Definition l2_b2 : table := make_table 256 [
  (2, Inst IF_S "STIDP"); (4, Inst IF_S "SCK"); (5, Inst IF_S "STCK"); (6, Inst IF_S "SCKC");
  (7, Inst IF_S "STCKC"); (8, Inst IF_S "SPT"); (9, Inst IF_S "STPT"); (10, Inst IF_S "SPKA");
  (11, Inst IF_S "IPK"); (13, Inst IF_S "PTLB"); (16, Inst IF_S "SPX"); (17, Inst IF_S "STPX");
  (18, Inst IF_S "STAP"); (20, Inst IF_S "SIE"); (24, Inst IF_S "PC"); (25, Inst IF_S "SAC");
  (26, Inst IF_S "CFC"); (33, Inst IF_RRE "IPTE"); (34, Inst IF_RRE "IPM"); (35, Inst IF_RRE "IVSK");
  (36, Inst IF_RRE "IAC"); (37, Inst IF_RRE "SSAR"); (38, Inst IF_RRE "EPAR"); (39, Inst IF_RRE "ESAR");
  (40, Inst IF_RRE "PT"); (41, Inst IF_RRE "ISKE"); (42, Inst IF_RRE "RRBE"); (43, Inst IF_RRF2 "SSKE");
  (44, Inst IF_RRE "TB"); (45, Inst IF_RRE "DXR"); (46, Inst IF_RRE "PGIN"); (47, Inst IF_RRE "PGOUT");
  (48, Inst IF_S "CSCH"); (49, Inst IF_S "HSCH"); (50, Inst IF_S "MSCH"); (51, Inst IF_S "SSCH");
  (52, Inst IF_S "STSCH"); (53, Inst IF_S "TSCH"); (54, Inst IF_S "TPI"); (55, Inst IF_S "SAL");
  (56, Inst IF_S "RSCH"); (57, Inst IF_S "STCRW"); (58, Inst IF_S "STCPS"); (59, Inst IF_S "RCHP");
  (61, Inst IF_S "SCHM"); (64, Inst IF_RRE "BAKR"); (65, Inst IF_RRE "CKSM"); (68, Inst IF_RRE "SQDR");
  (69, Inst IF_RRE "SQER"); (70, Inst IF_RRE "STURA"); (71, Inst IF_RRE "MSTA"); (72, Inst IF_RRE "PALB");
  (73, Inst IF_RRE "EREG"); (74, Inst IF_RRE "ESTA"); (75, Inst IF_RRE "LURA"); (76, Inst IF_RRE "TAR");
  (77, Inst IF_RRE "CPYA"); (78, Inst IF_RRE "SAR"); (79, Inst IF_RRE "EAR"); (80, Inst IF_RRE "CSP");
  (82, Inst IF_RRE "MSR"); (84, Inst IF_RRE "MVPG"); (85, Inst IF_RRE "MVST"); (87, Inst IF_RRE "CUSE");
  (88, Inst IF_RRE "BSG"); (90, Inst IF_RRE "BSA"); (93, Inst IF_RRE "CLST"); (94, Inst IF_RRE "SRST");
  (99, Inst IF_RRE "CMPSC"); (118, Inst IF_S "XSCH"); (119, Inst IF_S "RP"); (120, Inst IF_S "STCKE");
  (121, Inst IF_S "SACF"); (124, Inst IF_S "STCKF"); (125, Inst IF_S "STSI"); (153, Inst IF_S "SRNM");
  (156, Inst IF_S "STFPC"); (157, Inst IF_S "LFPC"); (165, Inst IF_RRE "TRE"); (166, Inst IF_RRF2 "CUUTF");
  (167, Inst IF_RRF2 "CUTFU"); (176, Inst IF_S "STFLE"); (177, Inst IF_S "STFL"); (178, Inst IF_S "LPSWE");
  (185, Inst IF_S "SRNMT"); (189, Inst IF_S "LFAS"); (255, Inst IF_S "TRAP4")].

Definition l2_b3 : table := make_table 256 [
  (0, Inst IF_RRE "LPEBR"); (1, Inst IF_RRE "LNEBR"); (2, Inst IF_RRE "LTEBR"); (3, Inst IF_RRE "LCEBR");
  (4, Inst IF_RRE "LDEBR"); (5, Inst IF_RRE "LXDBR"); (6, Inst IF_RRE "LXEBR"); (7, Inst IF_RRE "MXDBR");
  (8, Inst IF_RRE "KEBR"); (9, Inst IF_RRE "CEBR"); (10, Inst IF_RRE "AEBR"); (11, Inst IF_RRE "SEBR");
  (12, Inst IF_RRE "MDEBR"); (13, Inst IF_RRE "DEBR"); (14, Inst IF_RRF1 "MAEBR");
  (15, Inst IF_RRF1 "MSEBR"); (16, Inst IF_RRE "LPDBR"); (17, Inst IF_RRE "LNDBR");
  (18, Inst IF_RRE "LTDBR"); (19, Inst IF_RRE "LCDBR"); (20, Inst IF_RRE "SQEBR"); (21, Inst IF_RRE "SQDBR");
  (22, Inst IF_RRE "SQXBR"); (23, Inst IF_RRE "MEEBR"); (24, Inst IF_RRE "KDBR"); (25, Inst IF_RRE "CDBR");
  (26, Inst IF_RRE "ADBR"); (27, Inst IF_RRE "SDBR"); (28, Inst IF_RRE "MDBR"); (29, Inst IF_RRE "DDBR");
  (30, Inst IF_RRF1 "MADBR"); (31, Inst IF_RRF1 "MSDBR"); (36, Inst IF_RRE "LDER"); (37, Inst IF_RRE "LXDR");
  (38, Inst IF_RRE "LXER"); (46, Inst IF_RRF1 "MAER"); (47, Inst IF_RRF1 "MSER"); (54, Inst IF_RRE "SQXR");
  (55, Inst IF_RRE "MEER"); (56, Inst IF_RRF1 "MAYLR"); (57, Inst IF_RRF1 "MYLR"); (58, Inst IF_RRF1 "MAYR");
  (59, Inst IF_RRF1 "MYR"); (60, Inst IF_RRF1 "MAYHR"); (61, Inst IF_RRF1 "MYHR"); (62, Inst IF_RRF1 "MADR");
  (63, Inst IF_RRF1 "MSDR"); (64, Inst IF_RRE "LPXBR"); (65, Inst IF_RRE "LNXBR"); (66, Inst IF_RRE "LTXBR");
  (67, Inst IF_RRE "LCXBR"); (68, Inst IF_RRE "LEDBR"); (69, Inst IF_RRE "LDXBR"); (70, Inst IF_RRE "LEXBR");
  (71, Inst IF_RRF2 "FIXBR"); (72, Inst IF_RRE "KXBR"); (73, Inst IF_RRE "CXBR"); (74, Inst IF_RRE "AXBR");
  (75, Inst IF_RRE "SXBR"); (76, Inst IF_RRE "MXBR"); (77, Inst IF_RRE "DXBR"); (80, Inst IF_RRF2 "TBEDR");
  (81, Inst IF_RRF2 "TBDR"); (83, Inst IF_RRF3 "DIEBR"); (87, Inst IF_RRF2 "FIEBR");
  (88, Inst IF_RRE "THDER"); (89, Inst IF_RRE "THDR"); (91, Inst IF_RRF3 "DIDBR");
  (95, Inst IF_RRF2 "FIDBR"); (96, Inst IF_RRE "LPXR"); (97, Inst IF_RRE "LNXR"); (98, Inst IF_RRE "LTXR");
  (99, Inst IF_RRE "LCXR"); (101, Inst IF_RRE "LXR"); (102, Inst IF_RRE "LEXR"); (103, Inst IF_RRE "FIXR");
  (105, Inst IF_RRE "CXR"); (112, Inst IF_RRE "LPDFR"); (113, Inst IF_RRE "LNDFR");
  (114, Inst IF_RRF1 "CPSDR"); (115, Inst IF_RRE "LCDFR"); (116, Inst IF_RRE "LZER");
  (117, Inst IF_RRE "LZDR"); (118, Inst IF_RRE "LZXR"); (119, Inst IF_RRE "FIER"); (127, Inst IF_RRE "FIDR");
  (132, Inst IF_RRE "SFPC"); (133, Inst IF_RRE "SFASR"); (140, Inst IF_RRE "EFPC");
  (148, Inst IF_RRE "CEFBR"); (149, Inst IF_RRE "CDFBR"); (150, Inst IF_RRE "CXFBR");
  (152, Inst IF_RRF2 "CFEBR"); (153, Inst IF_RRF2 "CFDBR"); (154, Inst IF_RRF2 "CFXBR");
  (164, Inst IF_RRE "CEGBR"); (165, Inst IF_RRE "CDGBR"); (166, Inst IF_RRE "CXGBR");
  (168, Inst IF_RRF2 "CGEBR"); (169, Inst IF_RRF2 "CGDBR"); (170, Inst IF_RRF2 "CGXBR");
  (180, Inst IF_RRE "CEFR"); (181, Inst IF_RRE "CDFR"); (182, Inst IF_RRE "CXFR");
  (184, Inst IF_RRF2 "CFER"); (185, Inst IF_RRF2 "CFDR"); (186, Inst IF_RRF2 "CFXR");
  (193, Inst IF_RRE "LDGR"); (196, Inst IF_RRE "CEGR"); (197, Inst IF_RRE "CDGR"); (198, Inst IF_RRE "CXGR");
  (200, Inst IF_RRF2 "CGER"); (201, Inst IF_RRF2 "CGDR"); (202, Inst IF_RRF2 "CGXR");
  (205, Inst IF_RRE "LGDR"); (208, Inst IF_RRR "MDTR"); (209, Inst IF_RRR "DDTR"); (210, Inst IF_RRR "ADTR");
  (211, Inst IF_RRR "SDTR"); (212, Inst IF_RRF3 "LDETR"); (213, Inst IF_RRF3 "LEDTR");
  (214, Inst IF_RRE "LTDTR"); (215, Inst IF_RRF3 "FIDTR"); (216, Inst IF_RRR "MXTR");
  (217, Inst IF_RRR "DXTR"); (218, Inst IF_RRR "AXTR"); (219, Inst IF_RRR "SXTR");
  (220, Inst IF_RRF3 "LXDTR"); (221, Inst IF_RRF3 "LDXTR"); (222, Inst IF_RRE "LTXTR");
  (223, Inst IF_RRF3 "FIXTR"); (224, Inst IF_RRE "KDTR"); (225, Inst IF_RRF2 "CGDTR");
  (226, Inst IF_RRE "CUDTR"); (227, Inst IF_RRF3 "CSDTR"); (228, Inst IF_RRE "CDTR");
  (229, Inst IF_RRE "EEDTR"); (231, Inst IF_RRE "ESDTR"); (232, Inst IF_RRE "KXTR");
  (233, Inst IF_RRF2 "CGXTR"); (234, Inst IF_RRE "CUXTR"); (235, Inst IF_RRF3 "CSXTR");
  (236, Inst IF_RRE "CXTR"); (237, Inst IF_RRE "EEXTR"); (239, Inst IF_RRE "ESXTR");
  (241, Inst IF_RRE "CDGTR"); (242, Inst IF_RRE "CDUTR"); (243, Inst IF_RRE "CDSTR");
  (244, Inst IF_RRE "CEDTR"); (245, Inst IF_RRF3 "QADTR"); (246, Inst IF_RRF3 "IEDTR");
  (247, Inst IF_RRF3 "RRDTR"); (249, Inst IF_RRE "CXGTR"); (250, Inst IF_RRE "CXUTR");
  (251, Inst IF_RRE "CXSTR"); (252, Inst IF_RRE "CEXTR"); (253, Inst IF_RRF3 "QAXTR");
  (254, Inst IF_RRF3 "IEXTR"); (255, Inst IF_RRF3 "RRXTR")].

Definition l2_b9 : table := make_table 256 [
  (0, Inst IF_RRE "LPGR"); (1, Inst IF_RRE "LNGR"); (2, Inst IF_RRE "LTGR"); (3, Inst IF_RRE "LCGR");
  (4, Inst IF_RRE "LGR"); (5, Inst IF_RRE "LURAG"); (6, Inst IF_RRE "LGBR"); (7, Inst IF_RRE "LGHR");
  (8, Inst IF_RRE "AGR"); (9, Inst IF_RRE "SGR"); (10, Inst IF_RRE "ALGR"); (11, Inst IF_RRE "SLGR");
  (12, Inst IF_RRE "MSGR"); (13, Inst IF_RRE "DSGR"); (14, Inst IF_RRE "EREGG"); (15, Inst IF_RRE "LRVGR");
  (16, Inst IF_RRE "LPGFR"); (17, Inst IF_RRE "LNGFR"); (18, Inst IF_RRE "LTGFR"); (19, Inst IF_RRE "LCGFR");
  (20, Inst IF_RRE "LGFR"); (22, Inst IF_RRE "LLGFR"); (23, Inst IF_RRE "LLGTR"); (24, Inst IF_RRE "AGFR");
  (25, Inst IF_RRE "SGFR"); (26, Inst IF_RRE "ALGFR"); (27, Inst IF_RRE "SLGFR"); (28, Inst IF_RRE "MSGFR");
  (29, Inst IF_RRE "DSGFR"); (30, Inst IF_RRE "KMAC"); (31, Inst IF_RRE "LRVR"); (32, Inst IF_RRE "CGR");
  (33, Inst IF_RRE "CLGR"); (37, Inst IF_RRE "STURG"); (38, Inst IF_RRE "LBR"); (39, Inst IF_RRE "LHR");
  (46, Inst IF_RRE "KM"); (47, Inst IF_RRE "KMC"); (48, Inst IF_RRE "CGFR"); (49, Inst IF_RRE "CLGFR");
  (62, Inst IF_RRE "KIMD"); (63, Inst IF_RRE "KLMD"); (70, Inst IF_RRE "BCTGR"); (96, Inst IF_RRF2 "CGRT");
  (97, Inst IF_RRF2 "CLGRT"); (114, Inst IF_RRF2 "CRT"); (115, Inst IF_RRF2 "CLRT");
  (128, Inst IF_RRE "NGR"); (129, Inst IF_RRE "OGR"); (130, Inst IF_RRE "XGR"); (131, Inst IF_RRE "FLOGR");
  (132, Inst IF_RRE "LLGCR"); (133, Inst IF_RRE "LLGHR"); (134, Inst IF_RRE "MLGR");
  (135, Inst IF_RRE "DLGR"); (136, Inst IF_RRE "ALCGR"); (137, Inst IF_RRE "SLBGR");
  (138, Inst IF_RRE "CSPG"); (141, Inst IF_RRE "EPSW"); (142, Inst IF_RRF3 "IDTE");
  (144, Inst IF_RRF2 "TRTT"); (145, Inst IF_RRF2 "TRTO"); (146, Inst IF_RRF2 "TROT");
  (147, Inst IF_RRF2 "TROO"); (148, Inst IF_RRE "LLCR"); (149, Inst IF_RRE "LLHR"); (150, Inst IF_RRE "MLR");
  (151, Inst IF_RRE "DLR"); (152, Inst IF_RRE "ALCR"); (153, Inst IF_RRE "SLBR"); (154, Inst IF_RRE "EPAIR");
  (155, Inst IF_RRE "ESAIR"); (157, Inst IF_RRE "ESEA"); (158, Inst IF_RRE "PTI");
  (159, Inst IF_RRE "SSAIR"); (162, Inst IF_RRE "PTF"); (170, Inst IF_RRF3 "LPTEA");
  (175, Inst IF_RRE "PFMF"); (176, Inst IF_RRF2 "CU14"); (177, Inst IF_RRF2 "CU24");
  (178, Inst IF_RRE "CU41"); (179, Inst IF_RRE "CU42"); (189, Inst IF_RRF2 "TRTRE");
  (190, Inst IF_RRE "SRSTU"); (191, Inst IF_RRF2 "TRTE")].

Definition l2_c0 : table := make_table 16 [
  (0, Inst IF_RIL1 "LARL"); (1, Inst IF_RIL1 "LGFI"); (4, Inst IF_RIL2 "BRCL"); (5, Inst IF_RIL1 "BRASL");
  (6, Inst IF_RIL1 "XIHF"); (7, Inst IF_RIL1 "XILF"); (8, Inst IF_RIL1 "IIHF"); (9, Inst IF_RIL1 "IILF");
  (10, Inst IF_RIL1 "NIHF"); (11, Inst IF_RIL1 "NILF"); (12, Inst IF_RIL1 "OIHF"); (13, Inst IF_RIL1 "OILF");
  (14, Inst IF_RIL1 "LLIHF"); (15, Inst IF_RIL1 "LLILF")].

Definition l2_c2 : table := make_table 16 [
  (0, Inst IF_RIL1 "MSGFI"); (1, Inst IF_RIL1 "MSFI"); (4, Inst IF_RIL1 "SLGFI"); (5, Inst IF_RIL1 "SLFI");
  (8, Inst IF_RIL1 "AGFI"); (9, Inst IF_RIL1 "AFI"); (10, Inst IF_RIL1 "ALGFI"); (11, Inst IF_RIL1 "ALFI");
  (12, Inst IF_RIL1 "CGFI"); (13, Inst IF_RIL1 "CFI"); (14, Inst IF_RIL1 "CLGFI"); (15, Inst IF_RIL1 "CLFI")].

Definition l2_c4 : table := make_table 16 [
  (2, Inst IF_RIL1 "LLHRL"); (4, Inst IF_RIL1 "LGHRL"); (5, Inst IF_RIL1 "LHRL"); (6, Inst IF_RIL1 "LLGHRL");
  (7, Inst IF_RIL1 "STHRL"); (8, Inst IF_RIL1 "LGRL"); (11, Inst IF_RIL1 "STGRL");
  (12, Inst IF_RIL1 "LGFRL"); (13, Inst IF_RIL1 "LRL"); (14, Inst IF_RIL1 "LLGFRL"); (15, Inst IF_RIL1 "STRL")].

Definition l2_c6 : table := make_table 16 [
  (0, Inst IF_RIL1 "EXRL"); (2, Inst IF_RIL2 "PFDRL"); (4, Inst IF_RIL1 "CGHRL"); (5, Inst IF_RIL1 "CHRL");
  (6, Inst IF_RIL1 "CLGHRL"); (7, Inst IF_RIL1 "CLHRL"); (8, Inst IF_RIL1 "CGRL");
  (10, Inst IF_RIL1 "CLGRL"); (12, Inst IF_RIL1 "CGFRL"); (13, Inst IF_RIL1 "CRL");
  (14, Inst IF_RIL1 "CLGFRL"); (15, Inst IF_RIL1 "CLRL")].

Definition l2_c8 : table := make_table 16 [
  (0, Inst IF_SSF "MVCOS"); (1, Inst IF_SSF "ECTG"); (2, Inst IF_SSF "CSST")].

Definition l2_e3 : table := make_table 256 [
  (2, Inst IF_RXY "LTG"); (3, Inst IF_RXY "LRAG"); (4, Inst IF_RXY "LG"); (6, Inst IF_RXY "CVBY");
  (8, Inst IF_RXY "AG"); (9, Inst IF_RXY "SG"); (10, Inst IF_RXY "ALG"); (11, Inst IF_RXY "SLG");
  (12, Inst IF_RXY "MSG"); (13, Inst IF_RXY "DSG"); (14, Inst IF_RXY "CVBG"); (15, Inst IF_RXY "LRVG");
  (18, Inst IF_RXY "LT"); (19, Inst IF_RXY "LRAY"); (20, Inst IF_RXY "LGF"); (21, Inst IF_RXY "LGH");
  (22, Inst IF_RXY "LLGF"); (23, Inst IF_RXY "LLGT"); (24, Inst IF_RXY "AGF"); (25, Inst IF_RXY "SGF");
  (26, Inst IF_RXY "ALGF"); (27, Inst IF_RXY "SLGF"); (28, Inst IF_RXY "MSGF"); (29, Inst IF_RXY "DSGF");
  (30, Inst IF_RXY "LRV"); (31, Inst IF_RXY "LRVH"); (32, Inst IF_RXY "CG"); (33, Inst IF_RXY "CLG");
  (36, Inst IF_RXY "STG"); (38, Inst IF_RXY "CVDY"); (46, Inst IF_RXY "CVDG"); (47, Inst IF_RXY "STRVG");
  (48, Inst IF_RXY "CGF"); (49, Inst IF_RXY "CLGF"); (50, Inst IF_RXY "LTGF"); (52, Inst IF_RXY "CGH");
  (54, Inst IF_RXY "PFD"); (62, Inst IF_RXY "STRV"); (63, Inst IF_RXY "STRVH"); (70, Inst IF_RXY "BCTG");
  (80, Inst IF_RXY "STY"); (81, Inst IF_RXY "MSY"); (84, Inst IF_RXY "NY"); (85, Inst IF_RXY "CLY");
  (86, Inst IF_RXY "OY"); (87, Inst IF_RXY "XY"); (88, Inst IF_RXY "LY"); (89, Inst IF_RXY "CY");
  (90, Inst IF_RXY "AY"); (91, Inst IF_RXY "SY"); (92, Inst IF_RXY "MFY"); (94, Inst IF_RXY "ALY");
  (95, Inst IF_RXY "SLY"); (112, Inst IF_RXY "STHY"); (113, Inst IF_RXY "LAY"); (114, Inst IF_RXY "STCY");
  (115, Inst IF_RXY "ICY"); (117, Inst IF_RXY "LAEY"); (118, Inst IF_RXY "LB"); (119, Inst IF_RXY "LGB");
  (120, Inst IF_RXY "LHY"); (121, Inst IF_RXY "CHY"); (122, Inst IF_RXY "AHY"); (123, Inst IF_RXY "SHY");
  (124, Inst IF_RXY "MHY"); (128, Inst IF_RXY "NG"); (129, Inst IF_RXY "OG"); (130, Inst IF_RXY "XG");
  (134, Inst IF_RXY "MLG"); (135, Inst IF_RXY "DLG"); (136, Inst IF_RXY "ALCG"); (137, Inst IF_RXY "SLBG");
  (142, Inst IF_RXY "STPQ"); (143, Inst IF_RXY "LPQ"); (144, Inst IF_RXY "LLGC"); (145, Inst IF_RXY "LLGH");
  (148, Inst IF_RXY "LLC"); (149, Inst IF_RXY "LLH"); (150, Inst IF_RXY "ML"); (151, Inst IF_RXY "DL");
  (152, Inst IF_RXY "ALC"); (153, Inst IF_RXY "SLB")].

Definition l2_e5 : table := make_table 256 [
  (0, Inst IF_SSE "LASP"); (1, Inst IF_SSE "TPROT"); (2, Inst IF_SSE "STRAG"); (14, Inst IF_SSE "MVCSK");
  (15, Inst IF_SSE "MVCDK"); (68, Inst IF_SIL "MVHHI"); (72, Inst IF_SIL "MVGHI"); (76, Inst IF_SIL "MVHI");
  (84, Inst IF_SIL "CHHSI"); (85, Inst IF_SIL "CLHHSI"); (88, Inst IF_SIL "CGHSI");
  (89, Inst IF_SIL "CLGHSI"); (92, Inst IF_SIL "CHSI"); (93, Inst IF_SIL "CLFHSI")].

Definition l2_eb : table := make_table 256 [
  (4, Inst IF_RSY1 "LMG"); (10, Inst IF_RSY1 "SRAG"); (11, Inst IF_RSY1 "SLAG"); (12, Inst IF_RSY1 "SRLG");
  (13, Inst IF_RSY1 "SLLG"); (15, Inst IF_RSY1 "TRACG"); (20, Inst IF_RSY1 "CSY"); (28, Inst IF_RSY1 "RLLG");
  (29, Inst IF_RSY1 "RLL"); (32, Inst IF_RSY2 "CLMH"); (33, Inst IF_RSY2 "CLMY"); (36, Inst IF_RSY1 "STMG");
  (37, Inst IF_RSY1 "STCTG"); (38, Inst IF_RSY1 "STMH"); (44, Inst IF_RSY2 "STCMH");
  (45, Inst IF_RSY2 "STCMY"); (47, Inst IF_RSY1 "LCTLG"); (48, Inst IF_RSY1 "CSG");
  (49, Inst IF_RSY1 "CDSY"); (62, Inst IF_RSY1 "CDSG"); (68, Inst IF_RSY1 "BXHG");
  (69, Inst IF_RSY1 "BXLEG"); (76, Inst IF_RSY1 "ECAG"); (81, Inst IF_SIY "TMY"); (82, Inst IF_SIY "MVIY");
  (84, Inst IF_SIY "NIY"); (85, Inst IF_SIY "CLIY"); (86, Inst IF_SIY "OIY"); (87, Inst IF_SIY "XIY");
  (106, Inst IF_SIY "ASI"); (110, Inst IF_SIY "ALSI"); (128, Inst IF_RSY2 "ICMH");
  (129, Inst IF_RSY2 "ICMY"); (142, Inst IF_RSY1 "MVCLU"); (143, Inst IF_RSY1 "CLCLU");
  (144, Inst IF_RSY1 "STMY"); (150, Inst IF_RSY1 "LMH"); (152, Inst IF_RSY1 "LMY");
  (154, Inst IF_RSY1 "LAMY"); (155, Inst IF_RSY1 "STAMY"); (192, Inst IF_RSL "TP")].

Definition l2_ec : table := make_table 256 [
  (68, Inst IF_RIE "BRXHG"); (69, Inst IF_RIE "BRXLG"); (84, Inst IF_RIE "RNSBG"); (85, Inst IF_RIE "RISBG");
  (86, Inst IF_RIE "ROSBG"); (87, Inst IF_RIE "RXSBG"); (100, Inst IF_RIE "CGRJ");
  (101, Inst IF_RIE "CLGRJ"); (112, Inst IF_RIE "CGIT"); (113, Inst IF_RIE "CLGIT");
  (114, Inst IF_RIE "CIT"); (115, Inst IF_RIE "CLFIT"); (118, Inst IF_RIE "CRJ"); (119, Inst IF_RIE "CLRJ");
  (124, Inst IF_RIE "CGIJ"); (125, Inst IF_RIE "CLGIJ"); (126, Inst IF_RIE "CIJ"); (127, Inst IF_RIE "CLIJ");
  (228, Inst IF_RRS "CGRB"); (229, Inst IF_RRS "CLGRB"); (246, Inst IF_RRS "CRB"); (247, Inst IF_RRS "CLRB");
  (252, Inst IF_RIS "CGIB"); (253, Inst IF_RIS "CLGIB")].

Definition l2_ed : table := make_table 256 [
  (4, Inst IF_RXE "LDEB"); (5, Inst IF_RXE "LXDB"); (6, Inst IF_RXE "LXEB"); (7, Inst IF_RXE "MXDB");
  (8, Inst IF_RXE "KEB"); (9, Inst IF_RXE "CEB"); (10, Inst IF_RXE "AEB"); (11, Inst IF_RXE "SEB");
  (12, Inst IF_RXE "MDEB"); (13, Inst IF_RXE "DEB"); (14, Inst IF_RXE "MAEB"); (15, Inst IF_RXE "MSEB");
  (16, Inst IF_RXE "TCEB"); (17, Inst IF_RXE "TCDB"); (18, Inst IF_RXE "TCXB"); (20, Inst IF_RXE "SQEB");
  (21, Inst IF_RXE "SQDB"); (23, Inst IF_RXE "MEEB"); (24, Inst IF_RXE "KDB"); (25, Inst IF_RXE "CDB");
  (26, Inst IF_RXE "ADB"); (27, Inst IF_RXE "SDB"); (28, Inst IF_RXE "MDB"); (29, Inst IF_RXE "DDB");
  (30, Inst IF_RXF "MADB"); (31, Inst IF_RXF "MSDB"); (36, Inst IF_RXE "LDE"); (37, Inst IF_RXE "LXD");
  (38, Inst IF_RXE "LXE"); (46, Inst IF_RXF "MAE"); (47, Inst IF_RXF "MSE"); (52, Inst IF_RXE "SQE");
  (53, Inst IF_RXE "SQD"); (55, Inst IF_RXE "MEE"); (56, Inst IF_RXF "MAYL"); (57, Inst IF_RXF "MYL");
  (58, Inst IF_RXF "MAY"); (59, Inst IF_RXF "MY"); (60, Inst IF_RXF "MAYH"); (61, Inst IF_RXF "MYH");
  (62, Inst IF_RXF "MAD"); (63, Inst IF_RXF "MSD"); (64, Inst IF_RXF "SLDT"); (65, Inst IF_RXF "SRDT");
  (72, Inst IF_RXF "SLXT"); (73, Inst IF_RXF "SRXT"); (80, Inst IF_RXE "TDCET"); (81, Inst IF_RXE "TDGET");
  (84, Inst IF_RXE "TDCDT"); (85, Inst IF_RXE "TDGDT"); (88, Inst IF_RXE "TDCXT"); (89, Inst IF_RXE "TDGXT");
  (100, Inst IF_RXY "LEY"); (101, Inst IF_RXY "LDY"); (102, Inst IF_RXY "STEY"); (103, Inst IF_RXY "STDY")].

Definition l1 : table := make_table 256 [
  (1, Table l2_01 8 8); (4, Inst IF_RR "SPM"); (5, Inst IF_RR "BALR"); (6, Inst IF_RR "BCTR");
  (7, Inst IF_RR_MASK "BCR"); (10, Inst IF_I "SVC"); (11, Inst IF_RR "BSM"); (12, Inst IF_RR "BASSM");
  (13, Inst IF_RR "BASR"); (14, Inst IF_RR "MVCL"); (15, Inst IF_RR "CLCL"); (16, Inst IF_RR "LPR");
  (17, Inst IF_RR "LNR"); (18, Inst IF_RR "LTR"); (19, Inst IF_RR "LCR"); (20, Inst IF_RR "NR");
  (21, Inst IF_RR "CLR"); (22, Inst IF_RR "OR"); (23, Inst IF_RR "XR"); (24, Inst IF_RR "LR");
  (25, Inst IF_RR "CR"); (26, Inst IF_RR "AR"); (27, Inst IF_RR "SR"); (28, Inst IF_RR "MR");
  (29, Inst IF_RR "DR"); (30, Inst IF_RR "ALR"); (31, Inst IF_RR "SLR"); (32, Inst IF_RR "LPDR");
  (33, Inst IF_RR "LNDR"); (34, Inst IF_RR "LTDR"); (35, Inst IF_RR "LCDR"); (36, Inst IF_RR "HDR");
  (37, Inst IF_RR "LDXR"); (38, Inst IF_RR "MXR"); (39, Inst IF_RR "MXDR"); (40, Inst IF_RR "LDR");
  (41, Inst IF_RR "CDR"); (42, Inst IF_RR "ADR"); (43, Inst IF_RR "SDR"); (44, Inst IF_RR "MDR");
  (45, Inst IF_RR "DDR"); (46, Inst IF_RR "AWR"); (47, Inst IF_RR "SWR"); (48, Inst IF_RR "LPER");
  (49, Inst IF_RR "LNER"); (50, Inst IF_RR "LTER"); (51, Inst IF_RR "LCER"); (52, Inst IF_RR "HER");
  (53, Inst IF_RR "LEDR"); (54, Inst IF_RR "AXR"); (55, Inst IF_RR "SXR"); (56, Inst IF_RR "LER");
  (57, Inst IF_RR "CER"); (58, Inst IF_RR "AER"); (59, Inst IF_RR "SER"); (60, Inst IF_RR "MDER");
  (61, Inst IF_RR "DER"); (62, Inst IF_RR "AUR"); (63, Inst IF_RR "SUR"); (64, Inst IF_RX "STH");
  (65, Inst IF_RX "LA"); (66, Inst IF_RX "STC"); (67, Inst IF_RX "IC"); (68, Inst IF_RX "EX");
  (69, Inst IF_RX "BAL"); (70, Inst IF_RX "BCT"); (71, Inst IF_RX_MASK "BC"); (72, Inst IF_RX "LH");
  (73, Inst IF_RX "CH"); (74, Inst IF_RX "AH"); (75, Inst IF_RX "SH"); (76, Inst IF_RX "MH");
  (77, Inst IF_RX "BAS"); (78, Inst IF_RX "CVD"); (79, Inst IF_RX "CVB"); (80, Inst IF_RX "ST");
  (81, Inst IF_RX "LAE"); (84, Inst IF_RX "N"); (85, Inst IF_RX "CL"); (86, Inst IF_RX "O");
  (87, Inst IF_RX "X"); (88, Inst IF_RX "L"); (89, Inst IF_RX "C"); (90, Inst IF_RX "A");
  (91, Inst IF_RX "S"); (92, Inst IF_RX "M"); (93, Inst IF_RX "D"); (94, Inst IF_RX "AL");
  (95, Inst IF_RX "SL"); (96, Inst IF_RX "STD"); (103, Inst IF_RX "MXD"); (104, Inst IF_RX "LD");
  (105, Inst IF_RX "CD"); (106, Inst IF_RX "AD"); (107, Inst IF_RX "SD"); (108, Inst IF_RX "MD");
  (109, Inst IF_RX "DD"); (110, Inst IF_RX "AW"); (111, Inst IF_RX "SW"); (112, Inst IF_RX "STE");
  (113, Inst IF_RX "MS"); (120, Inst IF_RX "LE"); (121, Inst IF_RX "CE"); (122, Inst IF_RX "AE");
  (123, Inst IF_RX "SE"); (124, Inst IF_RX "MDE"); (125, Inst IF_RX "DE"); (126, Inst IF_RX "AU");
  (127, Inst IF_RX "SU"); (128, Inst IF_S "SSM"); (130, Inst IF_S "LPSW"); (131, Inst IF_DIAG "DIAG");
  (132, Inst IF_RSI "BRXH"); (133, Inst IF_RSI "BRXLE"); (134, Inst IF_RS1 "BXH"); (135, Inst IF_RS1 "BXLE");
  (136, Inst IF_RS1 "SRL"); (137, Inst IF_RS1 "SLL"); (138, Inst IF_RS1 "SRA"); (139, Inst IF_RS1 "SLA");
  (140, Inst IF_RS1 "SRDL"); (141, Inst IF_RS1 "SLDL"); (142, Inst IF_RS1 "SRDA"); (143, Inst IF_RS1 "SLDA");
  (144, Inst IF_RS1 "STM"); (145, Inst IF_SI "TM"); (146, Inst IF_SI "MVI"); (147, Inst IF_S "TS");
  (148, Inst IF_SI "NI"); (149, Inst IF_SI "CLI"); (150, Inst IF_SI "OI"); (151, Inst IF_SI "XI");
  (152, Inst IF_RS1 "LM"); (153, Inst IF_RS1 "TRACE"); (154, Inst IF_RS1 "LAM"); (155, Inst IF_RS1 "STAM");
  (165, Table l2_a5 4 12); (167, Table l2_a7 4 12); (168, Inst IF_RS1 "MVCLE"); (169, Inst IF_RS1 "CLCLE");
  (172, Inst IF_SI "STNSM"); (173, Inst IF_SI "STOSM"); (174, Inst IF_RS1 "SIGP"); (175, Inst IF_SI "MC");
  (177, Inst IF_RX "LRA"); (178, Table l2_b2 8 8); (179, Table l2_b3 8 8); (182, Inst IF_RS1 "STCTL");
  (183, Inst IF_RS1 "LCTL"); (185, Table l2_b9 8 8); (186, Inst IF_RS1 "CS"); (187, Inst IF_RS1 "CDS");
  (189, Inst IF_RS2 "CLM"); (190, Inst IF_RS2 "STCM"); (191, Inst IF_RS2 "ICM"); (192, Table l2_c0 4 12);
  (194, Table l2_c2 4 12); (196, Table l2_c4 4 12); (198, Table l2_c6 4 12); (200, Table l2_c8 4 12);
  (208, Inst IF_SS1 "TRTR"); (209, Inst IF_SS1 "MVN"); (210, Inst IF_SS1 "MVC"); (211, Inst IF_SS1 "MVZ");
  (212, Inst IF_SS1 "NC"); (213, Inst IF_SS1 "CLC"); (214, Inst IF_SS1 "OC"); (215, Inst IF_SS1 "XC");
  (217, Inst IF_SS4 "MVCK"); (218, Inst IF_SS4 "MVCP"); (219, Inst IF_SS4 "MVCS"); (220, Inst IF_SS1 "TR");
  (221, Inst IF_SS1 "TRT"); (222, Inst IF_SS1 "ED"); (223, Inst IF_SS1 "EDMK"); (225, Inst IF_SS1 "PKU");
  (226, Inst IF_SS1 "UNPKU"); (227, Table l2_e3 8 40); (229, Table l2_e5 8 8); (232, Inst IF_SS1 "MVCIN");
  (233, Inst IF_SS1 "PKA"); (234, Inst IF_SS1 "UNPKA"); (235, Table l2_eb 8 40); (236, Table l2_ec 8 40);
  (237, Table l2_ed 8 40); (238, Inst IF_SS5 "PLO"); (239, Inst IF_SS5 "LMD"); (240, Inst IF_SS3 "SRP");
  (241, Inst IF_SS2 "MVO"); (242, Inst IF_SS2 "PACK"); (243, Inst IF_SS2 "UNPK"); (248, Inst IF_SS2 "ZAP");
  (249, Inst IF_SS2 "CP"); (250, Inst IF_SS2 "AP"); (251, Inst IF_SS2 "SP"); (252, Inst IF_SS2 "MP");
  (253, Inst IF_SS2 "DP")].

Local Close Scope string_scope.

(** ** Decoding *)

(** an argument of snprintf: the name, a constant string, a number, the
    address of a table *)
Inductive arg : Type :=
  | Name (s : string)
  | Text (s : string)
  | Num (v : Z)
  | Ptr.

Record call := Call { c_fmt : string; c_args : list arg }.

(** [bytes[i]], [*((u16 * )(bytes+i))] and [*((u32 * )(bytes+i))] *)
Definition byte_at (b : list Z) (i : Z) : outcome Z := defined (aget b i).
Definition u16_at (b : list Z) (i : Z) : outcome Z := x ← defined (aslice b i 2); Ret (be_val x).
Definition u32_at (b : list Z) (i : Z) : outcome Z := x ← defined (aslice b i 4); Ret (be_val x).

Definition hi (v : Z) : Z := Z.shiftr v 4.
Definition lo (v : Z) : Z := Z.land v 0xf.
Definition disp12 (v : Z) : Z := Z.land v 0x0fff.
Definition reg_or_mask (r : bool) : arg := Text (if r then "R" else EmptyString).

(** [inst]'s call for its format *)
Definition inst_call (fmt : inst_fmt) (name : string) (bytes : list Z) : outcome call :=
  match fmt with
  | IF_DIAG =>
      w ← u32_at bytes 0;
      Ret (Call "%-6s X'%06X'" [Name name; Num (Z.land w 0xffffff)])
  | IF_E => Ret (Call "%-6s " [Name name])
  | IF_I => b1 ← byte_at bytes 1; Ret (Call "%-6s X'%02X'" [Name name; Num b1])
  | IF_RI1 | IF_RI2 =>
      b1 ← byte_at bytes 1; i2 ← u16_at bytes 2;
      Ret (Call "%-6s %s%d,%d" [Name name; reg_or_mask (bool_decide (fmt = IF_RI1)); Num (hi b1); Num i2])
  | IF_RIL1 | IF_RIL2 =>
      b1 ← byte_at bytes 1; i2 ← u32_at bytes 2;
      Ret (Call "%-6s %s%d,%d" [Name name; reg_or_mask (bool_decide (fmt = IF_RIL1)); Num (hi b1); Num i2])
  | IF_RR | IF_RR_MASK =>
      b1 ← byte_at bytes 1;
      Ret (Call "%-6s %s%d,R%d" [Name name; reg_or_mask (bool_decide (fmt <> IF_RR_MASK)); Num (hi b1); Num (lo b1)])
  | IF_RRE =>
      b3 ← byte_at bytes 3; Ret (Call "%-6s R%d,R%d" [Name name; Num (hi b3); Num (lo b3)])
  | IF_RS1 | IF_RS2 =>
      b1 ← byte_at bytes 1; d ← u16_at bytes 2; b2 ← byte_at bytes 2;
      Ret (Call "%-6s R%d,%s%d,%d(R%d)"
             [Name name; Num (hi b1); reg_or_mask (bool_decide (fmt = IF_RS1)); Num (lo b1); Num (disp12 d); Num (hi b2)])
  | IF_RSI =>
      b1 ← byte_at bytes 1; i2 ← u16_at bytes 2;
      Ret (Call "%-6s R%d,R%d,%d" [Name name; Num (hi b1); Num (lo b1); Num i2])
  | IF_RSY1 | IF_RSY2 =>
      b1 ← byte_at bytes 1; d ← u16_at bytes 2; b4 ← byte_at bytes 4; b2 ← byte_at bytes 2;
      Ret (Call "%-6s R%d,%s%d,%d(R%d)"
             [Name name; Num (hi b1); reg_or_mask (bool_decide (fmt = IF_RSY1)); Num (lo b1);
              Num (u32 (disp12 d + Z.shiftl b4 12)); Num (hi b2)])
  | IF_RX | IF_RX_MASK =>
      b1 ← byte_at bytes 1; d ← u16_at bytes 2; b2 ← byte_at bytes 2;
      Ret (Call "%-6s %s%d,%d(R%d,R%d)"
             [Name name; reg_or_mask (bool_decide (fmt <> IF_RX_MASK)); Num (hi b1); Num (disp12 d); Num (lo b1); Num (hi b2)])
  | IF_RXY =>
      b1 ← byte_at bytes 1; d ← u16_at bytes 2; b4 ← byte_at bytes 4; b2 ← byte_at bytes 2;
      Ret (Call "%-6s R%d,%d(R%d,R%d)"
             [Name name; Num (hi b1); Num (u32 (disp12 d + Z.shiftl b4 12)); Num (lo b1); Num (hi b2)])
  | IF_S =>
      d ← u16_at bytes 2; b2 ← byte_at bytes 2;
      Ret (Call "%-6s %d(R%d)" [Name name; Num (disp12 d); Num (hi b2)])
  | IF_SI =>
      d ← u16_at bytes 2; b2 ← byte_at bytes 2; b1 ← byte_at bytes 1;
      Ret (Call "%-6s %d(R%d),%d" [Name name; Num (disp12 d); Num (hi b2); Num b1])
  | IF_SS1 =>
      d1 ← u16_at bytes 2; b1 ← byte_at bytes 1; b2 ← byte_at bytes 2; d2 ← u16_at bytes 4; b4 ← byte_at bytes 4;
      Ret (Call "%-6s %d(%d,R%d),%d(R%d)"
             [Name name; Num (disp12 d1); Num (b1 + 1); Num (hi b2); Num (disp12 d2); Num (hi b4)])
  | IF_SS2 =>
      d1 ← u16_at bytes 2; b1 ← byte_at bytes 1; b2 ← byte_at bytes 2; d2 ← u16_at bytes 4; b4 ← byte_at bytes 4;
      Ret (Call "%-6s %d(%d,R%d),%d(%d,R%d)"
             [Name name; Num (disp12 d1); Num (hi b1 + 1); Num (hi b2); Num (disp12 d2); Num (lo b1 + 1); Num (hi b4)])
  | IF_SS3 =>
      d1 ← u16_at bytes 2; b1 ← byte_at bytes 1; b2 ← byte_at bytes 2; d2 ← u16_at bytes 4; b4 ← byte_at bytes 4;
      Ret (Call "%-6s %d(%d,R%d),%d(R%d),%d"
             [Name name; Num (disp12 d1); Num (hi b1 + 1); Num (hi b2); Num (disp12 d2); Num (hi b4); Num (lo b1)])
  | IF_SS4 =>
      d1 ← u16_at bytes 2; b1 ← byte_at bytes 1; b2 ← byte_at bytes 2; d2 ← u16_at bytes 4; b4 ← byte_at bytes 4;
      Ret (Call "%-6s %d(%d,R%d),%d(R%d),R%d"
             [Name name; Num (disp12 d1); Num (hi b1 + 1); Num (hi b2); Num (disp12 d2); Num (hi b4); Num (lo b1)])
  | IF_SS5 =>
      b1 ← byte_at bytes 1; d2 ← u16_at bytes 2; b2 ← byte_at bytes 2; d4 ← u16_at bytes 4; b4 ← byte_at bytes 4;
      Ret (Call "%-6s R%d,R%d,%d(R%d),%d(R%d)"
             [Name name; Num (hi b1); Num (lo b1); Num (disp12 d2); Num (hi b2); Num (disp12 d4); Num (hi b4)])
  | _ => Ret (Call "%s ???" [Name name])
  end.

(** the opcode field of the next table *)
Definition sub_opcode (bytes : list Z) (len loc : Z) : outcome Z :=
  b ← byte_at bytes (loc / 8);
  Ret (Z.land (u8 (Z.shiftr b (8 - len - loc mod 8))) (Z.shiftl 1 len - 1)).

(** the instruction length from the first two bits of the opcode *)
Definition inst_length (opcode : Z) : Z :=
  let ilc := Z.shiftr opcode 6 in 2 * (if ilc >=? 2 then ilc else ilc + 1).

(** the calls of [da_snprintf]; there are two levels of tables *)
Fixpoint da_calls (fuel : nat) (bytes : list Z) (opcode : Z) (t : table) : outcome (list call) :=
  match fuel with
  | O => Undef
  | S fuel =>
      inst ← defined (aget t opcode);
      match inst with
      | Invalid => Ret [Call "??" []]
      | Table ptr len loc =>
          subop ← sub_opcode bytes len loc;
          cs ← da_calls fuel bytes subop ptr;
          Ret (Call "??? (many, X'%02X'+  X'%02X', table = %p)" [Num opcode; Num subop; Ptr] :: cs)
      | Inst fmt name => c ← inst_call fmt name bytes; Ret [c]
      end
  end.

(** the calls for an instruction, and its length *)
Definition decode (bytes : list Z) : outcome (list call * Z) :=
  op ← byte_at bytes 0; cs ← da_calls 2 bytes op l1; Ret (cs, inst_length op).

(** ** Running the calls *)

(** strings from [addr] on, and the values passed for the arguments; [tbl] is
    where the next table is *)
Fixpoint lay_out (tbl addr : Z) (args : list arg) : list Z * list Z :=
  match args with
  | [] => ([], [])
  | (Name s | Text s) :: args =>
      let '(m, vs) := lay_out tbl (addr + lenZ (zs s) + 1) args in (zs s ++ [0] ++ m, addr :: vs)
  | Num v :: args => let '(m, vs) := lay_out tbl addr args in (m, v :: vs)
  | Ptr :: args => let '(m, vs) := lay_out tbl addr args in (m, tbl :: vs)
  end.

(** [snprintf(buf, buflen, fmt, ...)]: the format at address 0, the strings from 4096 on *)
Definition run_call (tbl buf : Z) (data : list Z) (buflen : Z) (c : call) : outcome (list Z) :=
  let '(strs, vs) := lay_out tbl 4096 (c_args c) in
  let f := zs (c_fmt c) in
  '(_, data, _) ← snprintf buf data buflen (f ++ replicate (4096 - length f) 0 ++ strs) 0 vs;
  Ret data.

Fixpoint run_calls (tbl buf : Z) (data : list Z) (buflen : Z) (cs : list call) : outcome (list Z) :=
  match cs with
  | [] => Ret data
  | c :: cs => data ← run_call tbl buf data buflen c; run_calls tbl buf data buflen cs
  end.

(** the buffer after the call, and the length returned *)
Definition disassm (tbl : Z) (bytes : list Z) (buf : Z) (data : list Z) (buflen : Z) : outcome (list Z * Z) :=
  '(cs, n) ← decode bytes; data ← run_calls tbl buf data buflen cs; Ret (data, n).

Example disassm_lm : disassm 0 [0x58; 0x12; 0x30; 0x64] 8192 (replicate 24 9) 24 =
  Ret (zs "L      R1,100(R2,R3)" ++ [0; 9; 9; 9], 4).
Proof. vm_compute. reflexivity. Qed.

(** * Decoding reads the instruction *)

(** how far the operands of a format reach *)
Definition reach (fmt : inst_fmt) : Z :=
  match fmt with
  | IF_I | IF_RR | IF_RR_MASK => 2
  | IF_DIAG | IF_RI1 | IF_RI2 | IF_RRE | IF_RS1 | IF_RS2 | IF_RSI | IF_RX | IF_RX_MASK | IF_S | IF_SI => 4
  | IF_RSY1 | IF_RSY2 | IF_RXY => 5
  | IF_RIL1 | IF_RIL2 | IF_SS1 | IF_SS2 | IF_SS3 | IF_SS4 | IF_SS5 => 6
  | _ => 1
  end.

(** an entry fits instructions of [n] bytes; a field selects inside its table *)
Definition inst_fits (n : Z) (e : disassm_instruction) : bool :=
  match e with Invalid => true | Inst fmt _ => reach fmt <=? n | Table _ _ _ => false end.

Definition entry_fits (n : Z) (e : disassm_instruction) : bool :=
  match e with
  | Table t len loc =>
      (0 <=? loc) && (loc / 8 <? n) && (0 <=? len) && (len + loc mod 8 <=? 8) && (2 ^ len <=? lenZ t) &&
      forallb (inst_fits n) t
  | _ => inst_fits n e
  end.

Lemma l1_fits : forallb (fun op => match aget l1 op with Some e => entry_fits (inst_length op) e | None => false end)
  (seqZ 0 256) = true.
Proof. vm_compute. reflexivity. Qed.

Lemma da_calls_table fuel bytes op t ptr len loc : aget t op = Some (Table ptr len loc) ->
  da_calls (S fuel) bytes op t =
    (subop ← sub_opcode bytes len loc;
     cs ← da_calls fuel bytes subop ptr;
     Ret (Call "??? (many, X'%02X'+  X'%02X', table = %p)" [Num op; Num subop; Ptr] :: cs)).
Proof. intros He. cbn [da_calls]. by rewrite He. Qed.

Section own_bytes.
Context (bytes : list Z) (n : Z).
Context (Hn : 0 <= n <= lenZ bytes).

Let own := take (Z.to_nat n) bytes.

Lemma own_slice i k : 0 <= i -> 0 <= k -> i + k <= n -> aslice own i k = aslice bytes i k.
Proof.
  intros. pose proof (aslice_sub bytes 0 n own i k) as Hs. rewrite Z.add_0_l in Hs.
  assert (aslice bytes 0 n = Some own) as E.
  { unfold aslice. rewrite decide_True by lia. by rewrite drop_0. }
  rewrite (Hs E) by lia. unfold aslice.
  pose proof (aslice_lenZ _ _ _ _ E) as Hl. rewrite decide_True by lia. done.
Qed.

Lemma own_byte i : 0 <= i < n -> exists v, byte_at bytes i = Ret v /\ byte_at own i = Ret v.
Proof.
  intros Hi. destruct (proj2 (aget_is_Some bytes i)) as [v Hv]; [lia|]. exists v. unfold byte_at. rewrite Hv.
  split; [done|]. unfold aget in *. rewrite decide_True in * by lia. unfold own.
  by rewrite lookup_take_lt, Hv by lia.
Qed.

Lemma own_u16 i : 0 <= i -> i + 2 <= n -> exists v, u16_at bytes i = Ret v /\ u16_at own i = Ret v.
Proof.
  intros H0 H1. destruct (aslice_is_Some bytes i 2) as [l Hl]; [lia..|].
  exists (be_val l). unfold u16_at. by rewrite own_slice, Hl by lia.
Qed.

Lemma own_u32 i : 0 <= i -> i + 4 <= n -> exists v, u32_at bytes i = Ret v /\ u32_at own i = Ret v.
Proof.
  intros H0 H1. destruct (aslice_is_Some bytes i 4) as [l Hl]; [lia..|].
  exists (be_val l). unfold u32_at. by rewrite own_slice, Hl by lia.
Qed.

(** read the operand fields one after the other, from both lists *)
Ltac own_fields :=
  repeat (match goal with
    | |- context [byte_at bytes ?i] => destruct (own_byte i) as (? & -> & ->); [lia|]
    | |- context [u16_at bytes ?i] => destruct (own_u16 i) as (? & -> & ->); [lia..|]
    | |- context [u32_at bytes ?i] => destruct (own_u32 i) as (? & -> & ->); [lia..|]
    end; cbn [mbind outcome_bind]).

Lemma inst_call_own fmt name : reach fmt <= n ->
  exists c, inst_call fmt name bytes = Ret c /\ inst_call fmt name own = Ret c.
Proof.
  intros Hr. destruct fmt; cbn [reach] in Hr; cbn [inst_call]; own_fields; by eexists.
Qed.

Lemma sub_opcode_own len loc : 0 <= loc -> loc / 8 < n -> 0 <= len -> len + loc mod 8 <= 8 ->
  exists v, sub_opcode bytes len loc = Ret v /\ sub_opcode own len loc = Ret v /\ 0 <= v < 2 ^ len.
Proof.
  intros H0 H1 H2 H3. unfold sub_opcode. destruct (own_byte (loc / 8)) as (b & -> & ->); [divlia|].
  cbn [mbind outcome_bind]. eexists. split; [done|]. split; [done|].
  rewrite Z.shiftl_1_l.
  replace (2 ^ len - 1) with (Z.ones len) by (rewrite Z.ones_equiv; lia). rewrite Z.land_ones by lia.
  apply Z.mod_pos_bound. lia.
Qed.

Lemma da_calls_inst fuel op t e : aget t op = Some e -> inst_fits n e = true ->
  exists cs, da_calls (S fuel) bytes op t = Ret cs /\ da_calls (S fuel) own op t = Ret cs.
Proof.
  intros He Hfit. cbn [da_calls]. rewrite He. cbn [defined mbind outcome_bind].
  destruct e as [|fmt name|ptr len loc]; [by eexists| |done]. apply Z.leb_le in Hfit.
  destruct (inst_call_own fmt name Hfit) as (c & -> & ->). by eexists.
Qed.

Lemma da_calls_entry op t e : aget t op = Some e -> entry_fits n e = true ->
  exists cs, da_calls 2 bytes op t = Ret cs /\ da_calls 2 own op t = Ret cs.
Proof.
  intros He Hfit. destruct e as [|fmt name|ptr len loc]; [by apply (da_calls_inst 1 op t _ He)..|].
  cbn [entry_fits] in Hfit. rewrite !andb_true_iff, !Z.leb_le, Z.ltb_lt, forallb_forall in Hfit.
  destruct Hfit as (((((H0 & H1) & H2) & H3) & H4) & Hall).
  rewrite !(da_calls_table 1 _ _ _ _ _ _ He).
  destruct (sub_opcode_own len loc H0 H1 H2 H3) as (v & -> & -> & Hv). cbn [mbind outcome_bind].
  destruct (proj2 (aget_is_Some ptr v)) as [e Hev]; [lia|].
  destruct (da_calls_inst 0 v ptr e Hev) as (cs & E1 & E2).
  { apply Hall. apply list_elem_of_In. apply aget_Some in Hev as [_ Hev]. by eapply list_elem_of_lookup_2. }
  rewrite E1, E2. by eexists.
Qed.
End own_bytes.

(** the operation code's first byte *)
Definition opcode (bytes : list Z) : Z := nth 0 bytes 0.

(** Disassembling an instruction: for bytes that hold a whole one (two, four
    or six bytes by the two leftmost bits of the first), decoding is defined,
    whatever the bytes: no table is indexed beyond its end and no byte after the
    instruction is read, so that cutting the bytes there changes nothing; the
    length returned is the instruction's. *)
Theorem disassm_reads_own_bytes bytes :
  let n := if opcode bytes <? 64 then 2 else if opcode bytes <? 192 then 4 else 6 in
  n <= lenZ bytes -> 0 <= opcode bytes < 256 ->
  exists cs, decode bytes = Ret (cs, n) /\ decode (take (Z.to_nat n) bytes) = Ret (cs, n).
Proof.
  intros n Hlen Hop.
  assert (inst_length (opcode bytes) = n) as En.
  { unfold inst_length, n. rewrite Z.shiftr_div_pow2 by lia. change (2 ^ 6) with 64.
    rewrite Z.geb_leb. repeat case_bool; divlia. }
  assert (2 <= n) as Hn by (unfold n; repeat case_bool; lia).
  assert (forall l : list Z, 0 < lenZ l -> byte_at l 0 = Ret (opcode l)) as Hb by (by intros [|x l]).
  assert (opcode (take (Z.to_nat n) bytes) = opcode bytes) as Eo.
  { destruct bytes; [by rewrite take_nil|]. destruct (Z.to_nat n) eqn:E; [lia|done]. }
  unfold decode. rewrite !Hb by (unfold lenZ in *; rewrite ?length_take; lia). cbn [mbind outcome_bind].
  rewrite Eo, En. pose proof l1_fits as Hfit. rewrite forallb_forall in Hfit.
  specialize (Hfit (opcode bytes)). rewrite En in Hfit.
  destruct (aget l1 (opcode bytes)) as [e|] eqn:He.
  2:{ discriminate Hfit. apply list_elem_of_In, elem_of_seqZ. lia. }
  destruct (da_calls_entry bytes n ltac:(lia) (opcode bytes) l1 e He) as (cs & -> & ->).
  { apply Hfit. apply list_elem_of_In, elem_of_seqZ. lia. }
  by exists cs.
Qed.

(** LMG R6,R15,48(R15) followed by bytes of the next instruction *)
Lemma disassm_reads_own_bytes_witness :
  exists cs, decode [0xeb; 0x6f; 0xf0; 0x30; 0; 0x04; 1; 2] = Ret (cs, 6) /\
             decode [0xeb; 0x6f; 0xf0; 0x30; 0; 0x04] = Ret (cs, 6).
Proof. apply (disassm_reads_own_bytes [0xeb; 0x6f; 0xf0; 0x30; 0; 0x04; 1; 2]); by vm_compute. Defined.

(** * The printed operands *)

Definition nums (c : call) : list Z := omap (fun a => match a with Num v => Some v | _ => None end) (c_args c).

(** the fields of an instruction from its operands, the other bits zero *)
Definition pair4 (a b : Z) : Z := 16 * a + b.
Definition base_disp (b d : Z) : list Z := [pair4 b (d / 256); d mod 256].

Definition assemble (fmt : inst_fmt) (vs : list Z) : list Z :=
  match fmt, vs with
  | IF_DIAG, [w] => [0; w / 65536; w / 256 mod 256; w mod 256]
  | IF_I, [i] => [0; i]
  | (IF_RI1 | IF_RI2), [r1; i2] => [0; pair4 r1 0; i2 / 256; i2 mod 256]
  | (IF_RIL1 | IF_RIL2), [r1; i2] => [0; pair4 r1 0] ++ be_bytes 4 i2
  | (IF_RR | IF_RR_MASK), [r1; r2] => [0; pair4 r1 r2]
  | IF_RRE, [r1; r2] => [0; 0; 0; pair4 r1 r2]
  | (IF_RS1 | IF_RS2), [r1; r3; d2; b2] => [0; pair4 r1 r3] ++ base_disp b2 d2
  | IF_RSI, [r1; r3; i2] => [0; pair4 r1 r3; i2 / 256; i2 mod 256]
  | (IF_RSY1 | IF_RSY2), [r1; r3; d2; b2] => [0; pair4 r1 r3] ++ base_disp b2 (d2 mod 4096) ++ [d2 / 4096]
  | (IF_RX | IF_RX_MASK), [r1; d2; x2; b2] => [0; pair4 r1 x2] ++ base_disp b2 d2
  | IF_RXY, [r1; d2; x2; b2] => [0; pair4 r1 x2] ++ base_disp b2 (d2 mod 4096) ++ [d2 / 4096]
  | IF_S, [d2; b2] => [0; 0] ++ base_disp b2 d2
  | IF_SI, [d1; b1; i2] => [0; i2] ++ base_disp b1 d1
  | IF_SS1, [d1; l; b1; d2; b2] => [0; l - 1] ++ base_disp b1 d1 ++ base_disp b2 d2
  | IF_SS2, [d1; l1; b1; d2; l2; b2] => [0; pair4 (l1 - 1) (l2 - 1)] ++ base_disp b1 d1 ++ base_disp b2 d2
  | IF_SS3, [d1; l1; b1; d2; b2; i3] => [0; pair4 (l1 - 1) i3] ++ base_disp b1 d1 ++ base_disp b2 d2
  | IF_SS5, [r1; r3; d2; b2; d4; b4] => [0; pair4 r1 r3] ++ base_disp b2 d2 ++ base_disp b4 d4
  | _, _ => [0]
  end.

(** the bits of each byte that hold operands; the others are the operation code
    or are ignored by the machine *)
Definition operand_mask (fmt : inst_fmt) : list Z :=
  match fmt with
  | IF_I | IF_RR | IF_RR_MASK => [0; 0xff]
  | IF_RI1 | IF_RI2 => [0; 0xf0; 0xff; 0xff]
  | IF_RIL1 | IF_RIL2 => [0; 0xf0; 0xff; 0xff; 0xff; 0xff]
  | IF_RRE => [0; 0; 0; 0xff]
  | IF_S => [0; 0; 0xff; 0xff]
  | IF_DIAG | IF_RS1 | IF_RS2 | IF_RSI | IF_RX | IF_RX_MASK | IF_SI => [0; 0xff; 0xff; 0xff]
  | IF_RSY1 | IF_RSY2 | IF_RXY => [0; 0xff; 0xff; 0xff; 0xff]
  | IF_SS1 | IF_SS2 | IF_SS3 | IF_SS5 => [0; 0xff; 0xff; 0xff; 0xff; 0xff]
  | _ => [0]
  end.

(** the formats whose operands are printed as they are.  The others: E has none;
    for RIE, RIS, RRF, RRR, RRS, RSL, RXE, RXF, SIL, SIY, SSE, SSF and the like
    question marks are printed; for SS4 the first register is printed as one more
    than it is ([move_with_key]) *)
Definition shown (fmt : inst_fmt) : bool :=
  match fmt with
  | IF_DIAG | IF_I | IF_RI1 | IF_RI2 | IF_RIL1 | IF_RIL2 | IF_RR | IF_RR_MASK | IF_RRE | IF_RS1 | IF_RS2 | IF_RSI
  | IF_RSY1 | IF_RSY2 | IF_RX | IF_RX_MASK | IF_RXY | IF_S | IF_SI | IF_SS1 | IF_SS2 | IF_SS3 | IF_SS5 => true
  | _ => false
  end.

(** MVCK with the registers 1 and 3: the first is shown as 2 *)
Example move_with_key :
  inst_call IF_SS4 "MVCK" [0xd9; 0x13; 0x40; 0x10; 0x50; 0x20] =
    Ret (Call "%-6s %d(%d,R%d),%d(R%d),R%d" [Name "MVCK"; Num 0x10; Num 2; Num 4; Num 0x20; Num 5; Num 3]).
Proof. by vm_compute. Qed.


(** ** Fields as arithmetic *)

Lemma byte_fields b : 0 <= b < 256 ->
  hi b = b / 16 /\ lo b = b mod 16 /\ Z.land b 0xf0 = 16 * (b / 16) /\ Z.land b 0xff = b.
Proof.
  intros Hb.
  assert (forallb (fun b => (hi b =? b / 16) && (lo b =? b mod 16) && (Z.land b 0xf0 =? 16 * (b / 16)) &&
    (Z.land b 0xff =? b)) (seqZ 0 256) = true) as H by (by vm_compute).
  rewrite forallb_forall in H. specialize (H b). rewrite !andb_true_iff, !Z.eqb_eq in H.
  destruct H as (((H1 & H2) & H3) & H4); [apply list_elem_of_In, elem_of_seqZ; lia|done].
Qed.

Lemma pair4_byte b : 0 <= b < 256 -> pair4 (hi b) (lo b) = Z.land b 0xff.
Proof. intros Hb. destruct (byte_fields b Hb) as (-> & -> & _ & ->). unfold pair4. pose proof (Z.div_mod b 16). lia. Qed.

Lemma pair4_high b : 0 <= b < 256 -> pair4 (hi b) 0 = Z.land b 0xf0.
Proof. intros Hb. destruct (byte_fields b Hb) as (-> & _ & -> & _). unfold pair4. pose proof (Z.div_mod b 16). lia. Qed.

Lemma be_val_2 b c : be_val [b; c] = 256 * b + c.
Proof. cbn [be_val]. change (256 ^ lenZ [c]) with 256. change (256 ^ lenZ (@nil Z)) with 1. lia. Qed.

Lemma disp12_val b c : 0 <= b < 256 -> 0 <= c < 256 -> disp12 (be_val [b; c]) = 256 * lo b + c.
Proof.
  intros Hb Hc. unfold disp12. change 0xfff with (Z.ones 12). rewrite Z.land_ones by lia.
  destruct (byte_fields b Hb) as (_ & -> & _). rewrite be_val_2. change (2 ^ 12) with 4096. divlia.
Qed.

Lemma base_disp_bytes b c d : 0 <= b < 256 -> 0 <= c < 256 -> d mod 4096 = disp12 (be_val [b; c]) -> d < 4096 -> 0 <= d ->
  base_disp (hi b) d = [Z.land b 0xff; Z.land c 0xff].
Proof.
  intros Hb Hc Hd Hd1 Hd0. rewrite disp12_val in Hd by done. unfold base_disp, pair4.
  destruct (byte_fields b Hb) as (Hh & Hl & _ & ->), (byte_fields c Hc) as (_ & _ & _ & ->).
  rewrite Hh, Hl in *. repeat f_equal; divlia.
Qed.

Lemma u16_bytes b c : 0 <= b < 256 -> 0 <= c < 256 ->
  [be_val [b; c] / 256; be_val [b; c] mod 256] = [Z.land b 0xff; Z.land c 0xff].
Proof.
  intros Hb Hc. destruct (byte_fields b Hb) as (_ & _ & _ & ->), (byte_fields c Hc) as (_ & _ & _ & ->).
  rewrite !be_val_2. repeat f_equal; divlia.
Qed.

(** ** Reassembly *)

Definition masked (fmt : inst_fmt) (bytes : list Z) : list Z := zip_with Z.land bytes (operand_mask fmt).

Section six_bytes.
Context (b0 b1 b2 b3 b4 b5 : Z) (r : list Z).
Context (H0 : 0 <= b0 < 256) (H1 : 0 <= b1 < 256) (H2 : 0 <= b2 < 256).
Context (H3 : 0 <= b3 < 256) (H4 : 0 <= b4 < 256) (H5 : 0 <= b5 < 256).

Let P := b0 :: b1 :: b2 :: b3 :: b4 :: b5 :: r.

Lemma six_slice i k : 0 <= i -> 0 <= k -> i + k <= 6 ->
  aslice P i k = Some (take (Z.to_nat k) (drop (Z.to_nat i) [b0; b1; b2; b3; b4; b5])).
Proof.
  intros. change P with ([b0; b1; b2; b3; b4; b5] ++ r). rewrite <- (Z.add_0_l i).
  rewrite (aslice_sub _ 0 6 [b0; b1; b2; b3; b4; b5]) by first [lia | apply (aslice_app_l [b0; b1; b2; b3; b4; b5])].
  by rewrite Z.add_0_l.
Qed.

Lemma six_u16 i : i = 2 \/ i = 4 -> u16_at P i = Ret (be_val (take 2 (drop (Z.to_nat i) [b0; b1; b2; b3; b4; b5]))).
Proof. intros Hi. unfold u16_at. by rewrite six_slice by lia. Qed.

Lemma six_u32 i : i = 0 \/ i = 2 -> u32_at P i = Ret (be_val (take 4 (drop (Z.to_nat i) [b0; b1; b2; b3; b4; b5]))).
Proof. intros Hi. unfold u32_at. by rewrite six_slice by lia. Qed.

Lemma long_disp :
  let d := u32 (disp12 (be_val [b2; b3]) + Z.shiftl b4 12) in
  base_disp (hi b2) (d mod 4096) ++ [d / 4096] = [Z.land b2 0xff; Z.land b3 0xff; Z.land b4 0xff].
Proof.
  intros d. pose proof (disp12_val b2 b3 H2 H3) as E. pose proof (byte_fields b2 H2) as (_ & El & _).
  assert (d = disp12 (be_val [b2; b3]) + 4096 * b4) as ->.
  { unfold d. rewrite Z.shiftl_mul_pow2 by lia. change (2 ^ 12) with 4096. unfold u32. rewrite Z.mod_small by divlia. lia. }
  rewrite (base_disp_bytes b2 b3) by (done || divlia). cbn [app].
  destruct (byte_fields b4 H4) as (_ & _ & _ & ->). repeat f_equal. divlia.
Qed.

Lemma short_disp b d : 0 <= b < 256 -> 0 <= d < 256 ->
  base_disp (hi b) (disp12 (be_val [b; d])) = [Z.land b 0xff; Z.land d 0xff].
Proof.
  intros Hb Hd. pose proof (disp12_val b d Hb Hd) as E. pose proof (byte_fields b Hb) as (_ & El & _).
  apply base_disp_bytes; try done; divlia.
Qed.

Lemma diag_bytes :
  let w := Z.land (be_val [b0; b1; b2; b3]) 0xffffff in
  [w / 65536; w / 256 mod 256; w mod 256] = [Z.land b1 0xff; Z.land b2 0xff; Z.land b3 0xff].
Proof.
  intros w. assert (w = 65536 * b1 + 256 * b2 + b3) as ->.
  { unfold w. change 0xffffff with (Z.ones 24). rewrite Z.land_ones by lia.
    replace (be_val [b0; b1; b2; b3]) with (b0 * 2 ^ 24 + (65536 * b1 + 256 * b2 + b3)); [divlia|].
    cbn -[Z.mul Z.pow Z.add]. unfold lenZ. cbn [length]. lia. }
  destruct (byte_fields b1 H1) as (_ & _ & _ & ->), (byte_fields b2 H2) as (_ & _ & _ & ->),
    (byte_fields b3 H3) as (_ & _ & _ & ->). repeat f_equal; divlia.
Qed.

Lemma word_bytes : be_bytes 4 (be_val [b2; b3; b4; b5]) = [Z.land b2 0xff; Z.land b3 0xff; Z.land b4 0xff; Z.land b5 0xff].
Proof.
  transitivity [b2; b3; b4; b5]; [apply (be_bytes_val [b2; b3; b4; b5]); repeat constructor; lia|].
  destruct (byte_fields b2 H2) as (_ & _ & _ & ->), (byte_fields b3 H3) as (_ & _ & _ & ->),
    (byte_fields b4 H4) as (_ & _ & _ & ->), (byte_fields b5 H5) as (_ & _ & _ & ->). done.
Qed.

Lemma byte_same b : 0 <= b < 256 -> Z.land b 0xff = b.
Proof. intros Hb. apply (byte_fields b Hb). Qed.

#[local] Opaque be_val be_bytes base_disp.

Lemma assemble_six fmt name c : shown fmt = true -> inst_call fmt name P = Ret c -> assemble fmt (nums c) = masked fmt P.
Proof.
  pose proof (u16_bytes b2 b3 H2 H3) as E16. pose proof diag_bytes as Ed. pose proof long_disp as El.
  destruct fmt; intros Hs; try discriminate Hs; cbn [inst_call]; rewrite ?six_u16, ?six_u32 by lia; cbn -[be_val be_bytes];
    intros [= <-]; cbn -[be_val be_bytes base_disp Z.add Z.sub Z.mul Z.div Z.modulo Z.land Z.shiftl u32 app] in *;
    rewrite ?Z.add_simpl_r, ?Z.land_0_r, ?zip_with_nil_r, ?pair4_byte, ?pair4_high, ?short_disp, ?word_bytes,
      ?E16, ?Ed, ?El by done; rewrite ?byte_same by done; try done.
Qed.
End six_bytes.

(** the bytes an operand field occupies are as many as decoding reads *)
Lemma operand_mask_reach fmt : shown fmt = true -> lenZ (operand_mask fmt) = reach fmt.
Proof. by destruct fmt. Qed.

(** C38: The operands that disassembly prints are those of the instruction, for
    the formats DIAG, I, RI, RIL, RR, RRE, RS, RSI, RSY, RX, RXY, S, SI, SS1, SS2,
    SS3 and SS5 ([shown]): putting the printed numbers (registers, masks, lengths,
    displacements of 12 and 20 bits, immediates, all unsigned) back into the
    fields of the format gives the bytes of the instruction with every bit
    outside the operand fields cleared.  Left out are SS4 (MVCK, MVCP, MVCS), whose
    first register is printed as one more than it is, and the formats of which
    only the name is printed. *)
Theorem assemble_disassembled fmt name bytes c :
  shown fmt = true ->
  Forall (fun b => 0 <= b < 256) bytes -> reach fmt <= lenZ bytes ->
  inst_call fmt name bytes = Ret c ->
  assemble fmt (nums c) = masked fmt bytes.
Proof.
  intros Hs Hb Hr Hc. set (P := bytes ++ replicate 6 0).
  assert (inst_call fmt name P = Ret c) as HP.
  { destruct (inst_call_own P (lenZ bytes)) with (fmt := fmt) (name := name) as (c' & -> & E).
    - unfold P. rewrite lenZ_app. pose proof (lenZ_nonneg bytes). unfold lenZ at 4. cbn. lia.
    - done.
    - unfold P, lenZ in E. rewrite Nat2Z.id, take_app_length in E. congruence. }
  assert (masked fmt bytes = masked fmt P) as ->.
  { unfold masked, P. rewrite zip_with_app_l. rewrite drop_ge, zip_with_nil_r, app_nil_r.
    - by rewrite take_ge by (pose proof (operand_mask_reach fmt Hs); unfold lenZ in *; lia).
    - pose proof (operand_mask_reach fmt Hs). unfold lenZ in *. lia. }
  assert (Forall (fun b => 0 <= b < 256) P) as HbP by (apply Forall_app; split; [done|repeat constructor; lia]).
  assert (6 <= length P)%nat as Hl by (unfold P; rewrite length_app; cbn; lia).
  clearbody P. do 6 (destruct P as [|? P]; [cbn in Hl; lia|]). do 6 apply Forall_cons in HbP as [? HbP].
  by eapply assemble_six.
Qed.

(** LG R1,74565(R2,R3), whose displacement is X'12345' *)
Lemma assemble_disassembled_witness :
  inst_call IF_RXY "LG" [0xe3; 0x12; 0x33; 0x45; 0x12; 0x04] =
    Ret (Call "%-6s R%d,%d(R%d,R%d)" [Name "LG"; Num 1; Num 0x12345; Num 2; Num 3]) /\
  assemble IF_RXY [1; 0x12345; 2; 3] = [0; 0x12; 0x33; 0x45; 0x12].
Proof.
  split; [by vm_compute|].
  apply (assemble_disassembled IF_RXY "LG" [0xe3; 0x12; 0x33; 0x45; 0x12; 0x04]
           (Call "%-6s R%d,%d(R%d,R%d)" [Name "LG"; Num 1; Num 0x12345; Num 2; Num 3])); [done| |by vm_compute..].
  repeat constructor; lia.
Defined.
