(* ===== verification/Layout.v ===== *)
(** include/channel.h, include/arch.h: the structures shared with the machine,
    as the bytes they are in storage.

    A structure is a list of bytes; a member is a [field], the bits it occupies
    counted from the left as in the C declarations (big-endian, bit fields from
    the high end).  [getf] and [setf] are the reads and the assignments; copies
    and [memset] of whole structures are operations on the bytes.  The lemmas:
    an assignment stores the value cut to the member's width and changes no
    other member. *)

From S2P Require Import Prelude.

Local Open Scope Z_scope.

Record field := Field { f_off : Z; f_width : Z }.

(** the distance of a member from the right end of [n] bytes *)
Definition f_pos (n : Z) (f : field) : Z := 8 * n - f_off f - f_width f.

Definition getf (f : field) (b : list Z) : Z :=
  Z.land (Z.shiftr (be_val b) (f_pos (lenZ b) f)) (Z.ones (f_width f)).

Definition setf (f : field) (v : Z) (b : list Z) : list Z :=
  let p := f_pos (lenZ b) f in
  be_bytes (length b)
    (Z.lor (Z.ldiff (be_val b) (Z.shiftl (Z.ones (f_width f)) p)) (Z.shiftl (Z.land v (Z.ones (f_width f))) p)).

(** [memset(p, 0, n)] *)
Definition zeros (n : nat) : list Z := replicate n 0.

(** a structure of [n] bytes *)
Definition struct_ok (n : Z) (b : list Z) : Prop := lenZ b = n /\ Forall (fun x => 0 <= x < 256) b.

Definition fits (n : Z) (f : field) : bool := (0 <=? f_off f) && (0 <=? f_width f) && (f_off f + f_width f <=? 8 * n).
Definition apart (f g : field) : bool :=
  (f_off f + f_width f <=? f_off g) || (f_off g + f_width g <=? f_off f).

(** ** Reads and assignments *)

Section fields.
Context (n : Z).
Implicit Types (b : list Z) (f g : field).

Lemma fits_spec f : fits n f = true <-> 0 <= f_off f /\ 0 <= f_width f /\ f_off f + f_width f <= 8 * n.
Proof. unfold fits. rewrite !andb_true_iff, !Z.leb_le. tauto. Qed.

Lemma apart_spec f g : apart f g = true <-> f_off f + f_width f <= f_off g \/ f_off g + f_width g <= f_off f.
Proof. unfold apart. by rewrite orb_true_iff, !Z.leb_le. Qed.

Lemma struct_len b : struct_ok n b -> Z.of_nat (length b) = n.
Proof. by intros [? _]. Qed.

Lemma be_val_bits b i : struct_ok n b -> 8 * n <= i -> Z.testbit (be_val b) i = false.
Proof.
  intros [Hl Hb] Hi. pose proof (be_val_range b Hb) as Hr. rewrite Hl in Hr.
  pose proof (lenZ_nonneg b). replace (256 ^ n) with (2 ^ (8 * n)) in Hr by (by rewrite Z.pow_mul_r by lia).
  rewrite <- (Z.mod_small (be_val b) (2 ^ (8 * n))) by lia. apply Z.mod_pow2_bits_high. lia.
Qed.

Lemma setf_ok f v b : struct_ok n b -> struct_ok n (setf f v b).
Proof.
  intros [Hl _]. unfold setf. split; [|apply be_bytes_range]. unfold lenZ in *. by rewrite be_bytes_length.
Qed.

(** the bits after an assignment *)
Lemma setf_bits f v b i : struct_ok n b -> fits n f = true -> 0 <= i ->
  Z.testbit (be_val (setf f v b)) i =
    if decide (f_pos n f <= i < f_pos n f + f_width f) then Z.testbit v (i - f_pos n f)
    else Z.testbit (be_val b) i.
Proof.
  intros Hb (Ho & Hw & Hf)%fits_spec Hi. pose proof (struct_len b Hb) as Hl. unfold setf, f_pos.
  replace (lenZ b) with n by apply Hl || (unfold lenZ; lia). rewrite be_val_bytes, Hl.
  replace (256 ^ n) with (2 ^ (8 * n)) by (by rewrite Z.pow_mul_r by lia).
  set (p := 8 * n - f_off f - f_width f). assert (0 <= p) as Hp by lia.
  destruct (decide (i < 8 * n)) as [Hlt|Hge].
  - rewrite Z.mod_pow2_bits_low by lia. rewrite Z.lor_spec, Z.ldiff_spec, !Z.shiftl_spec by lia.
    destruct (decide (p <= i)) as [Hpi|Hpi].
    + rewrite Z.land_spec, Z.testbit_ones by lia.
      case_decide; repeat case_bool; try lia; cbn [negb andb orb]; rewrite ?andb_false_r, ?andb_true_r, ?orb_false_r; done.
    + rewrite !(Z.testbit_neg_r _ (i - p)) by lia. rewrite decide_False by lia. cbn [negb]. by rewrite andb_true_r, orb_false_r.
  - rewrite Z.mod_pow2_bits_high by lia. rewrite decide_False by lia. symmetry. apply be_val_bits; [done|lia].
Qed.

Lemma getf_bits f b i : struct_ok n b -> fits n f = true -> 0 <= i ->
  Z.testbit (getf f b) i = if decide (i < f_width f) then Z.testbit (be_val b) (i + f_pos n f) else false.
Proof.
  intros [Hl _] (Ho & Hw & Hf)%fits_spec Hi. unfold getf. rewrite Hl, Z.land_spec, Z.shiftr_spec, Z.testbit_ones by lia.
  case_decide; repeat case_bool; try lia; cbn [andb]; by rewrite ?andb_true_r, ?andb_false_r.
Qed.

Lemma getf_setf f v b : struct_ok n b -> fits n f = true -> getf f (setf f v b) = wrap (f_width f) v.
Proof.
  intros Hb Hf. pose proof Hf as (Ho & Hw & Hn)%fits_spec. unfold wrap. apply Z.bits_inj'. intros i Hi.
  rewrite getf_bits by (done || by apply setf_ok). rewrite Z.testbit_mod_pow2 by lia.
  case_decide.
  - rewrite setf_bits by (done || unfold f_pos; lia). rewrite decide_True by lia. case_bool; [|lia]. cbn [andb]. f_equal. lia.
  - case_bool; [lia|done].
Qed.

Lemma getf_setf_ne f g v b : struct_ok n b -> fits n f = true -> fits n g = true -> apart f g = true ->
  getf g (setf f v b) = getf g b.
Proof.
  intros Hb Hf Hg Ha%apart_spec. pose proof Hf as (Ho & Hw & Hn)%fits_spec. pose proof Hg as (Ho' & Hw' & Hn')%fits_spec.
  apply Z.bits_inj'. intros i Hi. rewrite !getf_bits by (done || by apply setf_ok). case_decide; [|done].
  rewrite setf_bits by (done || unfold f_pos; lia). rewrite decide_False; [done|]. unfold f_pos. lia.
Qed.

Lemma getf_range f b : struct_ok n b -> fits n f = true -> 0 <= getf f b < 2 ^ f_width f.
Proof. intros Hb (Ho & Hw & Hn)%fits_spec. unfold getf. rewrite Z.land_ones by lia. apply Z.mod_pos_bound. lia. Qed.

(** assigning what a member holds changes nothing *)
Lemma struct_inj b b' : struct_ok n b -> struct_ok n b' -> (forall i, 0 <= i -> Z.testbit (be_val b) i = Z.testbit (be_val b') i) -> b = b'.
Proof.
  intros [Hl Hb] [Hl' Hb'] Hbits. rewrite <- (be_bytes_val b), <- (be_bytes_val b') by done.
  f_equal; [unfold lenZ in *; lia|]. by apply Z.bits_inj'.
Qed.
End fields.

Lemma zeros_ok n : struct_ok (Z.of_nat n) (zeros n).
Proof. split; [unfold lenZ, zeros; by rewrite length_replicate|]. apply Forall_replicate. lia. Qed.

Lemma be_val_zeros n : be_val (zeros n) = 0.
Proof. unfold zeros. induction n as [|n IH]; [done|]. cbn [replicate be_val]. rewrite IH. lia. Qed.

Lemma getf_zeros f n : getf f (zeros n) = 0.
Proof. unfold getf. by rewrite be_val_zeros, Z.shiftr_0_l, Z.land_0_l. Qed.

(** * The structures *)

(** [struct psw] *)
Definition psw_size : nat := 16.
Definition psw_r := Field 1 1.
Definition psw_t := Field 5 1.
Definition psw_io := Field 6 1.
Definition psw_ex := Field 7 1.
Definition psw_key := Field 8 4.
Definition psw_fmt := Field 12 1.
Definition psw_m := Field 13 1.
Definition psw_w := Field 14 1.
Definition psw_p := Field 15 1.
Definition psw_as := Field 16 2.
Definition psw_cc := Field 18 2.
Definition psw_prog_mask := Field 20 4.
Definition psw_ea := Field 31 1.
Definition psw_ba := Field 32 1.
Definition psw_ptr31 := Field 33 31.
Definition psw_ptr := Field 64 64.

(** [struct ccw] and [struct ccw0] *)
Definition ccw_size : nat := 8.
Definition ccw_cmd := Field 0 8.
Definition ccw_flags := Field 8 8.
Definition ccw_count := Field 16 16.
Definition ccw_addr := Field 32 32.

Definition ccw0_cmd := Field 0 8.
Definition ccw0_addr_hi := Field 8 8.
Definition ccw0_addr_lo := Field 16 16.
Definition ccw0_flags := Field 32 8.
Definition ccw0_count := Field 48 16.

Definition CCW_CMD_TIC : Z := 0x08.
Definition IS_CCW_WRITE (op : Z) : bool := Z.land op 0x03 =? 0x01.
Definition IS_CCW_READ (op : Z) : bool := Z.land op 0x03 =? 0x02.

Definition CCW_FLAG_CD : Z := 0x80.
Definition CCW_FLAG_CC : Z := 0x40.
Definition CCW_FLAG_SKP : Z := 0x10.
Definition CCW_FLAG_PCI : Z := 0x08.
Definition CCW_FLAG_IDA : Z := 0x04.
Definition CCW_FLAG_S : Z := 0x02.
Definition CCW_FLAG_MIDA : Z := 0x01.

Definition CCW0_ADDR (c : list Z) : Z := Z.lor (Z.shiftl (getf ccw0_addr_hi c) 16) (getf ccw0_addr_lo c).

Definition ccw0_to_ccw1 (out in_ : list Z) : list Z :=
  let out := setf ccw_cmd (if Z.land (getf ccw0_cmd in_) 0x0f =? CCW_CMD_TIC then CCW_CMD_TIC else getf ccw0_cmd in_) out in
  let out := setf ccw_flags (getf ccw0_flags in_) out in
  let out := setf ccw_count (getf ccw0_count in_) out in
  setf ccw_addr (CCW0_ADDR in_) out.

(** [struct orb] *)
Definition orb_size : nat := 32.
Definition orb_param := Field 0 32.
Definition orb_f := Field 40 1.
Definition orb_lpm := Field 48 8.
Definition orb_zero1 := Field 58 5.
Definition orb_addr := Field 64 32.
Definition orb_reserved1 := Field 104 8.
Definition orb_reserved2 := Field 120 8.
Definition orb_reserved3 := Field 128 32.
Definition orb_reserved4 := Field 160 32.
Definition orb_reserved5 := Field 192 32.
Definition orb_reserved6 := Field 224 32.

(** [struct scsw] *)
Definition FC_CLEAR : Z := 0x1.
Definition FC_HALT : Z := 0x2.
Definition FC_START : Z := 0x4.
Definition AC_RESUME : Z := 0x40.
Definition AC_START : Z := 0x20.
Definition AC_HALT : Z := 0x10.
Definition AC_CLEAR : Z := 0x08.
Definition AC_SCH_ACT : Z := 0x04.
Definition AC_DEV_ACT : Z := 0x02.
Definition AC_SUSP : Z := 0x01.
Definition SC_STATUS : Z := 0x01.
Definition SC_SECONDARY : Z := 0x02.
Definition SC_PRIMARY : Z := 0x04.
Definition SC_INTERMED : Z := 0x08.
Definition SC_ALERT : Z := 0x10.

Definition scsw_size : nat := 12.
Definition scsw_f := Field 8 1.
Definition scsw_fc := Field 17 3.
Definition scsw_ac := Field 20 7.
Definition scsw_sc := Field 27 5.
Definition scsw_addr := Field 32 32.
Definition scsw_dev_status := Field 64 8.
Definition scsw_sch_status := Field 72 8.
Definition scsw_count := Field 80 16.

(** [struct irb]: the subchannel status and 84 bytes of extended data *)
Definition irb_size : nat := 96.

(** [struct pmcw] *)
Definition pmcw_size : nat := 28.
Definition pmcw_interrupt_param := Field 0 32.
Definition pmcw_isc := Field 34 3.
Definition pmcw_e := Field 40 1.
Definition pmcw_lm := Field 41 2.
Definition pmcw_mm := Field 43 2.
Definition pmcw_d := Field 45 1.
Definition pmcw_t := Field 46 1.
Definition pmcw_v := Field 47 1.
Definition pmcw_dev_num := Field 48 16.
Definition pmcw_lpm := Field 64 8.
Definition pmcw_pnom := Field 72 8.
Definition pmcw_lpum := Field 80 8.
Definition pmcw_pim := Field 88 8.
Definition pmcw_mbi := Field 96 16.
Definition pmcw_pom := Field 112 8.
Definition pmcw_pam := Field 120 8.
Definition pmcw_chpid (i : Z) := Field (128 + 8 * i) 8.
Definition pmcw_f := Field 221 1.
Definition pmcw_x := Field 222 1.
Definition pmcw_s := Field 223 1.

(** [struct schib]: the pmcw, the scsw and 12 bytes more *)
Definition schib_size : nat := 52.
Definition schib_pmcw (b : list Z) : list Z := take pmcw_size b.
Definition offsetof_schib_pmcw : Z := 0.
Definition offsetof_schib_scsw : Z := 28.

(** device status and subchannel status *)
Definition SC_STATUS_CE : Z := 0x08.
Definition SC_STATUS_DE : Z := 0x04.
Definition SC_STATUS_UC : Z := 0x02.
Definition SC_PROG_CHK : Z := 0x20.
Definition SC_PROT_CHK : Z := 0x10.
Definition SENSE_CMDREJ : Z := 0x00.

(** ** Reading a format-0 CCW *)

Lemma ccw0_to_ccw1_ok out in_ : struct_ok 8 out -> struct_ok 8 (ccw0_to_ccw1 out in_).
Proof. intros Ho. unfold ccw0_to_ccw1. by repeat apply setf_ok. Qed.

(** read a member through a series of assignments; the members are closed *)
Ltac getf_set :=
  repeat first
    [ erewrite getf_setf by first [reflexivity | repeat apply setf_ok; eassumption]
    | erewrite getf_setf_ne by first [reflexivity | repeat apply setf_ok; eassumption] ].
