(* ===== verification/Guest.v ===== *)
(** cp/guest: a virtual machine, its resets, interruptions and the loop that runs
    it (reset.c, exception.c, system.c, run.c).

    [virt_sys] is the state: the virtual CPU with its SIE control block, the
    virtual devices in the order of [sys->virt_devs], storage by bytes at host
    addresses, and the console's output.  The PSW and the subchannel structures
    are the bytes of Layout.v.  [env] is what the code gets from outside: address
    translation by LRAG, and the allocators.  The mutexes of devices and of the
    interruption queue bracket the operations and are not repeated (Mutex.v).
    Console messages are events, without their final newline; the FIXME messages
    on the host's own console are left out. *)

From S2P Require Import Prelude Layout Dat Spool.

Local Open Scope Z_scope.

#[local] Arguments cons {A} & a l.

(** ** State *)

Inductive virt_cpustate := GUEST_STOPPED | GUEST_OPERATING | GUEST_LOAD | GUEST_CHECKSTOP.

#[global] Instance virt_cpustate_eq_dec : EqDecision virt_cpustate.
Proof. solve_decision. Defined.

Record vio_int := VioInt { ssid : Z; param : Z; intid : Z }.

(** the members of [struct sie_cb] the code uses *)
Record sie_cb := SieCb {
  cpuflags : Z;
  prefix : Z;
  icptcode : Z;
  ipa : Z;
  ipb : Z;
  gpsw : list Z;
  gcr : list Z;
}.

Record guest_regs := GuestRegs { gpr : list Z; ar : list Z; fpr : list Z; fpcr : Z }.

Record virt_cpu := VirtCpu {
  sie : sie_cb;
  regs : guest_regs;
  cpuid : Z;
  state : virt_cpustate;
  int_io : list (list vio_int);  (* by subclass *)
}.

Inductive directory_vdevtype := VDEV_INVAL | VDEV_CONS | VDEV_DED | VDEV_SPOOL | VDEV_MDISK | VDEV_LINK.

#[global] Instance vdevtype_eq_dec : EqDecision directory_vdevtype.
Proof. solve_decision. Defined.

(** the union: a real device, or a spool file that may not be there yet and
    whether there is an operations vector *)
Inductive vdev_data :=
  | Dedicate (rdev : Z)
  | Spooled (file : option spool_file) (ops : bool)
  | NoData.

Record virt_device := VirtDevice {
  vtype : directory_vdevtype;
  sch : Z;
  devtype : Z;
  model : Z;
  u : vdev_data;
  sense : Z;
  pmcw : list Z;
  scsw : list Z;
  orb : list Z;
}.

(** an argument of [con_printf]: a number, or the text a pointer points to *)
Inductive arg := Val (n : Z) | Str (s : list Z).
Coercion Val : Z >-> arg.

(** console output, format and arguments, and giving up the CPU *)
Inductive event :=
  | Con (fmt : string) (args : list arg)
  | Schedule.

Record virt_sys := VirtSys {
  cpu : virt_cpu;
  con : list event;  (* latest first *)
  print_ts : bool;
  guest_pages : list Z;
  virt_devs : list virt_device;
  storage : Z -> Z;
}.

Record env := Env {
  virt2phy_current : Z -> option Z;
  storage_size : Z;               (* directory->storage_size *)
  userid : list Z;                (* directory->userid *)
  auth : Z;                       (* directory->auth *)
  malloc_ok : bool;
  channel_buffer : option (list Z);  (* 64 KB, with what they hold *)
  below_buffer : list Z;          (* the bytes in front of them *)
  spool_pages : nat;              (* pages the allocator has for a record *)
  fresh_page : list Z;
}.

(** ** Changes of one member *)

Definition set_gpsw (p : list Z) (c : sie_cb) : sie_cb :=
  SieCb (cpuflags c) (prefix c) (icptcode c) (ipa c) (ipb c) p (gcr c).
Definition set_cpuflags (v : Z) (c : sie_cb) : sie_cb :=
  SieCb v (prefix c) (icptcode c) (ipa c) (ipb c) (gpsw c) (gcr c).
Definition set_prefix (v : Z) (c : sie_cb) : sie_cb :=
  SieCb (cpuflags c) v (icptcode c) (ipa c) (ipb c) (gpsw c) (gcr c).
Definition set_gcr (l : list Z) (c : sie_cb) : sie_cb :=
  SieCb (cpuflags c) (prefix c) (icptcode c) (ipa c) (ipb c) (gpsw c) l.

Definition on_sie (f : sie_cb -> sie_cb) (c : virt_cpu) : virt_cpu := VirtCpu (f (sie c)) (regs c) (cpuid c) (state c) (int_io c).
Definition on_regs (f : guest_regs -> guest_regs) (c : virt_cpu) : virt_cpu := VirtCpu (sie c) (f (regs c)) (cpuid c) (state c) (int_io c).
Definition set_state (v : virt_cpustate) (c : virt_cpu) : virt_cpu := VirtCpu (sie c) (regs c) (cpuid c) v (int_io c).
Definition set_int_io (l : list (list vio_int)) (c : virt_cpu) : virt_cpu := VirtCpu (sie c) (regs c) (cpuid c) (state c) l.

Definition set_pmcw (p : list Z) (d : virt_device) : virt_device :=
  VirtDevice (vtype d) (sch d) (devtype d) (model d) (u d) (sense d) p (scsw d) (orb d).
Definition set_scsw (p : list Z) (d : virt_device) : virt_device :=
  VirtDevice (vtype d) (sch d) (devtype d) (model d) (u d) (sense d) (pmcw d) p (orb d).
Definition set_orb (p : list Z) (d : virt_device) : virt_device :=
  VirtDevice (vtype d) (sch d) (devtype d) (model d) (u d) (sense d) (pmcw d) (scsw d) p.
Definition set_sense (v : Z) (d : virt_device) : virt_device :=
  VirtDevice (vtype d) (sch d) (devtype d) (model d) (u d) v (pmcw d) (scsw d) (orb d).
Definition set_u (v : vdev_data) (d : virt_device) : virt_device :=
  VirtDevice (vtype d) (sch d) (devtype d) (model d) v (sense d) (pmcw d) (scsw d) (orb d).

Definition on_cpu (f : virt_cpu -> virt_cpu) (s : virt_sys) : virt_sys :=
  VirtSys (f (cpu s)) (con s) (print_ts s) (guest_pages s) (virt_devs s) (storage s).
Definition set_devs (l : list virt_device) (s : virt_sys) : virt_sys :=
  VirtSys (cpu s) (con s) (print_ts s) (guest_pages s) l (storage s).
Definition set_storage (m : Z -> Z) (s : virt_sys) : virt_sys :=
  VirtSys (cpu s) (con s) (print_ts s) (guest_pages s) (virt_devs s) m.
Definition log (e : event) (s : virt_sys) : virt_sys :=
  VirtSys (cpu s) (e :: con s) (print_ts s) (guest_pages s) (virt_devs s) (storage s).

(** ** Operations that change the state *)

Definition guest (A : Type) : Type := virt_sys -> outcome (A * virt_sys).

#[global] Instance guest_ret : MRet guest := fun A a s => Ret (a, s).
#[global] Instance guest_bind : MBind guest := fun A B f m s => '(a, s) ← m s; f a s.

Definition get_sys : guest virt_sys := fun s => Ret (s, s).
Definition modify (f : virt_sys -> virt_sys) : guest unit := fun s => Ret (tt, f s).
Definition lift {A} (m : outcome A) : guest A := fun s => a ← m; Ret (a, s).

Definition con_printf (fmt : string) (args : list arg) : guest unit := modify (log (Con fmt args)).
Definition schedule : guest unit := modify (log Schedule).

Definition set_cc (cc : Z) : guest unit :=
  modify (on_cpu (on_sie (fun c => set_gpsw (setf psw_cc cc (gpsw c)) c))).
Definition stop_cpu : guest unit := modify (on_cpu (set_state GUEST_STOPPED)).

Definition get_dev (i : nat) : guest virt_device := fun s => d ← defined (virt_devs s !! i); Ret (d, s).
Definition on_dev (i : nat) (f : virt_device -> virt_device) : guest unit :=
  modify (fun s => set_devs (alter f i (virt_devs s)) s).

(** [errstrings[e]] *)
Definition errstrings (e : Z) : outcome arg :=
  s ← defined (aget ["Success"; "Out of memory"; "Resource busy"; "Try again"; "Invalid argument"; "File already exists";
                     "No such file"; "?"; "?"; "Invalid memory reference"; "Permission denied"; "Curruption detected";
                     "I/O error"]%string e);
  Ret (Str (zs s)).

Definition EFAULT : Z := 9.

(** ** Storage *)

Definition memcpy_from_guest (E : env) (addr len : Z) : guest (Z * Z * list Z) := fun s =>
  '(ret, copied, m, data) ← __memcpy_tofrom_guest (virt2phy_current E) addr (storage s) (zeros (Z.to_nat len)) len true;
  Ret ((ret, copied, data), set_storage m s).
Definition memcpy_to_guest (E : env) (addr : Z) (data : list Z) (len : Z) : guest (Z * Z) := fun s =>
  '(ret, copied, m, _) ← __memcpy_tofrom_guest (virt2phy_current E) addr (storage s) data len false;
  Ret ((ret, copied), set_storage m s).

(** ** Registers and addresses *)

Definition CPUSTAT_STOP_INT : Z := 0x04000000.
Definition CPUSTAT_ZARCH : Z := 0x00000800.

Definition VCPU_ZARCH (c : virt_cpu) : bool := negb (Z.land (cpuflags (sie c)) CPUSTAT_ZARCH =? 0).

Definition __guest_gpr (c : virt_cpu) (r : Z) : outcome Z :=
  v ← defined (aget (gpr (regs c)) r);
  Ret (if VCPU_ZARCH c then v else Z.land v 0xffffffff).

Definition __guest_addr (c : virt_cpu) (disp x b : Z) : outcome Z :=
  let psw := gpsw (sie c) in
  mask ← match Z.lor (Z.shiftl (getf psw_ea psw) 1) (getf psw_ba psw) with
         | 3 => Ret (2 ^ 64 - 1)
         | 1 => Ret 0x7fffffff
         | 0 => Ret 0x00ffffff
         | _ => Stopped
         end;
  vx ← if x =? 0 then Ret 0 else __guest_gpr c x;
  vb ← if b =? 0 then Ret 0 else __guest_gpr c b;
  Ret (Z.land (u64 (disp + vx + vb)) mask).

Definition IP_TO_RAW (c : sie_cb) : Z := Z.lor (Z.shiftl (ipa c) 32) (ipb c).

Definition RAW_S_1 (c : virt_cpu) : outcome Z :=
  let raw := IP_TO_RAW (sie c) in
  __guest_addr c (Z.land (Z.shiftr raw 16) 0xfff) (Z.land (Z.shiftr raw 28) 0xf) 0.

(** ** Exceptions and interruptions *)

Inductive PROG_EXCEPTION := PROG_OPERAND | PROG_PRIV | PROG_EXEC | PROG_PROT | PROG_ADDR | PROG_SPEC | PROG_DATA.

Definition prog_code (t : PROG_EXCEPTION) : Z :=
  match t with
  | PROG_OPERAND => 1 | PROG_PRIV => 2 | PROG_EXEC => 3 | PROG_PROT => 4
  | PROG_ADDR => 5 | PROG_SPEC => 6 | PROG_DATA => 7
  end.

Definition queue_prog_exception (t : PROG_EXCEPTION) (param : Z) : guest unit :=
  con_printf "FIXME: supposed to inject a %d program exception" [prog_code t] ;;
  stop_cpu.

Section guest.
Context (E : env).

Definition queue_io_interrupt (ssid param a isc : Z) : guest unit :=
  lift (bug_on (isc >=? 8)) ;;
  lift (bug_on (negb (a =? 0) && negb (a =? 1))) ;;
  lift (bug_on (negb (malloc_ok E))) ;;
  let ioint := VioInt ssid param (u32 (Z.lor (Z.shiftl a 31) (Z.shiftl isc 27))) in
  modify (on_cpu (fun c => set_int_io (alter (fun l => l ++ [ioint]) (Z.to_nat isc) (int_io c)) c)) ;;
  con_printf "queued I/O int %d %08x.%08x.%08x" [isc; ssid; param; intid ioint].

(** the guest's first page is at [gpsa] *)
Definition __do_psw_swap (gpsa old new len : Z) : guest unit :=
  modify (fun s =>
    let m := write_bytes (storage s) (gpsa + old) (take (Z.to_nat len) (gpsw (sie (cpu s)))) in
    on_cpu (on_sie (fun c => set_gpsw (read_bytes m (gpsa + new) len ++ drop (Z.to_nat len) (gpsw c)) c)) (set_storage m s)).

Definition store_u32 (a v : Z) : guest unit := modify (fun s => set_storage (write_bytes (storage s) a (be_bytes 4 v)) s).

(** from subclass [i] on: whether an interruption was made pending *)
Fixpoint io_int_loop (n : nat) (i cr6 : Z) : guest bool :=
  match n with
  | O => mret false
  | S n =>
      s ← get_sys;
      if Z.land cr6 (Z.shiftr 0x80000000 i) =? 0 then io_int_loop n (i + 1) cr6 else
      q ← lift (defined (aget (int_io (cpu s)) i));
      match q with
      | [] => io_int_loop n (i + 1) cr6
      | ioint :: q =>
          modify (on_cpu (fun c => set_int_io (<[Z.to_nat i := q]> (int_io c)) c)) ;;
          con_printf "Time for I/O int... isc:%d %08x.%08x.%08x" [i; ssid ioint; param ioint; intid ioint] ;;
          match virt2phy_current E 0 with
          | None =>
              e ← lift (errstrings EFAULT);
              con_printf "Failed to queue up I/O interruption: %d (%s)" [- EFAULT; e] ;;
              stop_cpu ;; mret false
          | Some phy =>
              (if VCPU_ZARCH (cpu s) then __do_psw_swap phy 0x170 0x1f0 16 else __do_psw_swap phy 56 120 8) ;;
              store_u32 (phy + 184) (ssid ioint) ;;
              store_u32 (phy + 188) (param ioint) ;;
              store_u32 (phy + 192) (intid ioint) ;;
              mret true
          end
      end
  end.

Definition __io_int : guest bool :=
  s ← get_sys;
  if getf psw_io (gpsw (sie (cpu s))) =? 0 then mret false else
  cr6 ← lift (defined (aget (gcr (sie (cpu s))) 6));
  io_int_loop 8 0 cr6.

(** [sie_run] is the SIE instruction, which runs the guest until the next
    interception *)
Definition run_guest (sie_run : virt_sys -> virt_sys) (handle_interception : guest unit) : guest unit :=
  let go := modify sie_run ;; handle_interception in
  taken ← __io_int;
  if (taken : bool) then go else
  s ← get_sys;
  let psw := gpsw (sie (cpu s)) in
  if negb (getf psw_w psw =? 0) then
    if (getf psw_io psw =? 0) && (getf psw_ex psw =? 0) && (getf psw_m psw =? 0) then
      con_printf "ENTERED CP DUE TO DISABLED WAIT" [] ;; stop_cpu
    else schedule
  else go.

(** one turn of the loop of [shell_start]; [process_cmd] finds no line *)
Definition shell_turn (sie_run : virt_sys -> virt_sys) (handle_interception : guest unit) : guest unit :=
  s ← get_sys;
  if decide (state (cpu s) = GUEST_OPERATING) then run_guest sie_run handle_interception else schedule.

(** ** BEGIN and STOP *)

Definition guest_begin : guest Z :=
  s ← get_sys;
  match state (cpu s) with
  | GUEST_STOPPED | GUEST_OPERATING => modify (on_cpu (set_state GUEST_OPERATING)) ;; mret 0
  | _ => mret (- EINVAL)
  end.

Definition guest_stop : guest Z :=
  s ← get_sys;
  match state (cpu s) with
  | GUEST_STOPPED | GUEST_OPERATING => modify (on_cpu (set_state GUEST_STOPPED)) ;; mret 0
  | _ => mret (- EINVAL)
  end.
End guest.

(** * Resets *)

Definition RESET_CPU : Z := 0x000001.
Definition SET_ESA390 : Z := 0x000002.
Definition RESET_PSW : Z := 0x000004.
Definition RESET_PREFIX : Z := 0x000008.
Definition RESET_CPU_TIMER : Z := 0x000010.
Definition RESET_CLK_COMP : Z := 0x000020.
Definition RESET_TOD_PROG_REG : Z := 0x000040.
Definition RESET_CR : Z := 0x000080.
Definition RESET_BREAK_EV_ADDR : Z := 0x000100.
Definition RESET_FPCR : Z := 0x000200.
Definition RESET_AR : Z := 0x000400.
Definition RESET_GPR : Z := 0x000800.
Definition RESET_FPR : Z := 0x001000.
Definition RESET_STORAGE_KEYS : Z := 0x002000.
Definition RESET_STORAGE : Z := 0x004000.
Definition RESET_NONVOL_STORAGE : Z := 0x008000.
Definition RESET_EXPANDED_STORAGE : Z := 0x010000.
Definition RESET_TOD : Z := 0x020000.
Definition RESET_TOD_STEER : Z := 0x040000.
Definition RESET_FLOATING_INTERRUPTIONS : Z := 0x080000.
Definition RESET_IO : Z := 0x100000.
Definition RESET_PLO_LOCKS : Z := 0x200000.
Definition __RESET_PLO_LOCKS_PRESERVE : Z := 0x400000.

Definition flags_of (l : list Z) : Z := foldr Z.lor 0 l.

Definition RESET_PLO_LOCKS_PRESERVE : Z := flags_of [RESET_PLO_LOCKS; __RESET_PLO_LOCKS_PRESERVE].
Definition SUBSYSTEM_RESET_FLAGS : Z := flags_of [RESET_FLOATING_INTERRUPTIONS; RESET_IO].
Definition CPU_RESET_FLAGS : Z := RESET_CPU.
Definition INIT_CPU_RESET_FLAGS : Z :=
  flags_of [RESET_CPU; SET_ESA390; RESET_PSW; RESET_PREFIX; RESET_CPU_TIMER; RESET_CLK_COMP; RESET_TOD_PROG_REG;
            RESET_CR; RESET_BREAK_EV_ADDR; RESET_FPCR].
Definition CLEAR_RESET_FLAGS : Z :=
  flags_of [RESET_CPU; SET_ESA390; RESET_PSW; RESET_PREFIX; RESET_CPU_TIMER; RESET_CLK_COMP; RESET_TOD_PROG_REG;
            RESET_CR; RESET_BREAK_EV_ADDR; RESET_FPCR; RESET_AR; RESET_GPR; RESET_FPR; RESET_STORAGE_KEYS;
            RESET_STORAGE; RESET_NONVOL_STORAGE; RESET_PLO_LOCKS; RESET_FLOATING_INTERRUPTIONS; RESET_IO].
Definition POWER_ON_RESET_FLAGS : Z :=
  flags_of [RESET_CPU; SET_ESA390; RESET_PSW; RESET_PREFIX; RESET_CPU_TIMER; RESET_CLK_COMP; RESET_TOD_PROG_REG;
            RESET_CR; RESET_BREAK_EV_ADDR; RESET_FPCR; RESET_AR; RESET_GPR; RESET_FPR; RESET_STORAGE_KEYS;
            RESET_STORAGE; RESET_EXPANDED_STORAGE; RESET_TOD; RESET_TOD_STEER; RESET_PLO_LOCKS_PRESERVE;
            RESET_FLOATING_INTERRUPTIONS; RESET_IO].

Definition has_flag (flags f : Z) : bool := negb (Z.land flags f =? 0).

(** [memset(p, 0, n * size)] of an array of longer or equal length *)
Definition clear_first (n : nat) (l : list Z) : list Z := zeros n ++ drop n l.

Definition initial_gcr (l : list Z) : list Z := <[14%nat := 0xC2000000]> (<[0%nat := 0xE0]> (clear_first 16 l)).

Definition when (c : bool) (m : guest unit) : guest unit := if c then m else mret tt.

(** the flags without an effect are those the code leaves open *)
Definition __perform_cpu_reset (flags : Z) : guest unit :=
  when (has_flag flags RESET_CPU) stop_cpu ;;
  when (has_flag flags RESET_PSW) (modify (on_cpu (on_sie (set_gpsw (zeros psw_size))))) ;;
  when (has_flag flags RESET_PREFIX) (modify (on_cpu (on_sie (set_prefix 0)))) ;;
  when (has_flag flags RESET_CR) (modify (on_cpu (on_sie (fun c => set_gcr (initial_gcr (gcr c)) c)))) ;;
  when (has_flag flags RESET_FPCR)
    (modify (on_cpu (on_regs (fun r => GuestRegs (gpr r) (ar r) (fpr r) 0)))) ;;
  when (has_flag flags RESET_AR)
    (modify (on_cpu (on_regs (fun r => GuestRegs (gpr r) (clear_first 16 (ar r)) (fpr r) (fpcr r))))) ;;
  when (has_flag flags RESET_GPR)
    (modify (on_cpu (on_regs (fun r => GuestRegs (clear_first 16 (gpr r)) (ar r) (fpr r) (fpcr r))))) ;;
  when (has_flag flags RESET_FPR)
    (modify (on_cpu (on_regs (fun r => GuestRegs (gpr r) (ar r) (clear_first 16 (fpr r)) (fpcr r))))) ;;
  when (has_flag flags RESET_STORAGE)
    (modify (fun s => set_storage (fold_left (fun m p => write_bytes m p (zeros 4096)) (guest_pages s) (storage s)) s)).

(** [vdev->pmcw] after an I/O reset *)
Definition reset_pmcw (p : list Z) : list Z :=
  let p := fold_left (fun p f => setf f 0 p)
    [pmcw_interrupt_param; pmcw_isc; pmcw_e; pmcw_lm; pmcw_mm; pmcw_d; pmcw_pnom; pmcw_lpum; pmcw_mbi; pmcw_f; pmcw_x; pmcw_s] p in
  let p := setf pmcw_pom 0xff p in
  let p := setf pmcw_t 0 p in
  let p := setf pmcw_lpm 0x80 p in
  let p := setf pmcw_pim 0x80 p in
  let p := setf pmcw_pam 0x80 p in
  fold_left (fun p i => setf (pmcw_chpid i) 0 p) (seqZ 0 8) p.

Definition reset_vdev (d : virt_device) : virt_device :=
  set_scsw (zeros scsw_size) (set_pmcw (reset_pmcw (pmcw d)) d).

Definition __perform_noncpu_reset (flags : Z) : guest unit :=
  when (has_flag flags RESET_IO) (modify (fun s => set_devs (map reset_vdev (virt_devs s)) s)).

Definition guest_power_on_reset : guest unit :=
  __perform_cpu_reset POWER_ON_RESET_FLAGS ;; __perform_noncpu_reset POWER_ON_RESET_FLAGS.
Definition guest_system_reset_normal : guest unit :=
  __perform_cpu_reset CPU_RESET_FLAGS ;; __perform_noncpu_reset SUBSYSTEM_RESET_FLAGS.
Definition guest_system_reset_clear : guest unit :=
  __perform_cpu_reset CLEAR_RESET_FLAGS ;; __perform_noncpu_reset CLEAR_RESET_FLAGS.
Definition guest_load_normal : guest unit :=
  __perform_cpu_reset INIT_CPU_RESET_FLAGS ;; __perform_noncpu_reset SUBSYSTEM_RESET_FLAGS.
Definition guest_load_clear : guest unit :=
  __perform_cpu_reset CLEAR_RESET_FLAGS ;; __perform_noncpu_reset CLEAR_RESET_FLAGS.
