(* ===== verification/Io.v ===== *)
(** cp/nucleus/io.c and the device table of cp/drivers/device.c: real devices and
    the I/O operations queued on them.

    A device and an operation are objects in a store, by address; the device
    table and the queues are lists of addresses.  Linking an object that is
    linked already is undefined.  The channel subsystem answers through the
    condition codes and the IRB an [event] carries: an operation is submitted, or
    an I/O interruption arrives.  A caller of [submit_io] waits until its
    operation is done; what else happens meanwhile are further events.  The
    queue lock is held with interruptions disabled, so an event is one step.

    The theorems: the operations of a device are started and completed in the
    order of submission, each exactly once; one whose start fails on an idle
    device is never completed by interruptions. *)

From S2P Require Import Prelude Layout Spool.

Local Open Scope Z_scope.

(** ** Devices and operations *)

Record io_op := IoOp {
  orb : list Z;
  handler : option (list Z -> Z -> Z);  (* [err] from the IRB and the old [err] *)
  dtor : bool;
  err : Z;
  done : bool;
}.

(** the union: [eckd.cyls], [tracks], [len], [recs], [sectors], [formula], [f1] to [f5];
    [fba.blk_size], [bpg], [bpp], [blks] *)
Inductive geometry :=
  | NoGeometry
  | Eckd (cyls tracks len recs sectors formula f1 f2 f3 f4 f5 : Z)
  | Fba (blk_size bpg bpp blks : Z).

(** [struct device_type]: [dt_id] tells the objects apart, the functions are there or not *)
Record device_type := DeviceType {
  dt_id : Z;
  dt_reg : bool;
  dt_interrupt : bool;
  dt_enable : bool;
  dt_snprintf : bool;
  dt_read : bool;
  dt_type : Z;
  dt_model : Z;
  all_models : bool;
}.

Record device := Device {
  sch : Z;
  type : Z;
  model : Z;
  ccuu : Z;
  dev : option device_type;
  q_cur : option Z;
  q_out : list Z;
  attention : Z;
  in_use : bool;
  refcnt : Z;
  geom : geometry;
}.

Record host := Host {
  store : gmap Z device;
  devices : list Z;
  device_types : list device_type;
  ops : gmap Z io_op;
  op_id_counter : Z;
  destroyed : list Z;  (* operations whose destructor ran *)
}.

Definition set_queue (c : option Z) (q : list Z) (d : device) : device :=
  Device (sch d) (type d) (model d) (ccuu d) (dev d) c q (attention d) (in_use d) (refcnt d) (geom d).
Definition set_attention (v : Z) (d : device) : device :=
  Device (sch d) (type d) (model d) (ccuu d) (dev d) (q_cur d) (q_out d) v (in_use d) (refcnt d) (geom d).
Definition set_refcnt (v : Z) (d : device) : device :=
  Device (sch d) (type d) (model d) (ccuu d) (dev d) (q_cur d) (q_out d) (attention d) (in_use d) v (geom d).

Definition put_dev (a : Z) (d : device) (h : host) : host :=
  Host (<[a := d]> (store h)) (devices h) (device_types h) (ops h) (op_id_counter h) (destroyed h).
Definition put_op (o : Z) (op : io_op) (h : host) : host :=
  Host (store h) (devices h) (device_types h) (<[o := op]> (ops h)) (op_id_counter h) (destroyed h).
Definition set_devices (l : list Z) (h : host) : host :=
  Host (store h) l (device_types h) (ops h) (op_id_counter h) (destroyed h).
Definition set_types (l : list device_type) (h : host) : host :=
  Host (store h) (devices h) l (ops h) (op_id_counter h) (destroyed h).

Definition get_dev (a : Z) (h : host) : outcome device := defined (store h !! a).
Definition get_op (o : Z) (h : host) : outcome io_op := defined (ops h !! o).

Definition set_err (v : Z) (op : io_op) : io_op := IoOp (orb op) (handler op) (dtor op) v (done op).
Definition set_done (v : bool) (op : io_op) : io_op := IoOp (orb op) (handler op) (dtor op) (err op) v.

(** [atomic_t] is a signed 32-bit integer *)
Definition dev_get (a : Z) (h : host) : outcome host :=
  d ← get_dev a h;
  bug_on (refcnt d <? 1) ;;
  Ret (put_dev a (set_refcnt (s32 (refcnt d + 1)) d) h).
Definition dev_put (a : Z) (h : host) : outcome host :=
  d ← get_dev a h;
  bug_on (s32 (refcnt d - 1) <? 1) ;;
  Ret (put_dev a (set_refcnt (s32 (refcnt d - 1)) d) h).

(** the first device of the table with the property, with a reference, or [-ENOENT] *)
Fixpoint find_in (p : device -> bool) (l : list Z) (h : host) : outcome ((Z + Z) * host) :=
  match l with
  | [] => Ret (inl (- ENOENT), h)
  | a :: l =>
      d ← get_dev a h;
      if p d then h ← dev_get a h; Ret (inr a, h) else find_in p l h
  end.

Definition find_device_by_ccuu (n : Z) (h : host) : outcome ((Z + Z) * host) :=
  find_in (fun d => ccuu d =? u16 n) (devices h) h.
Definition find_device_by_sch (n : Z) (h : host) : outcome ((Z + Z) * host) :=
  find_in (fun d => sch d =? n) (devices h) h.
Definition find_device_by_type (t m : Z) (h : host) : outcome ((Z + Z) * host) :=
  find_in (fun d => (type d =? t) && (model d =? m)) (devices h) h.

(** ** Condition codes *)

Definition EBUSY : Z := 2.
Definition EAGAIN : Z := 3.
Definition EUCHECK : Z := 8.

Definition start_sch (cc : Z) : Z := if (cc =? 1) || (cc =? 2) then - EBUSY else if cc =? 3 then - EINVAL else 0.
Definition test_sch (cc : Z) : Z := if cc =? 3 then - EINVAL else 0.

(** ** Operations *)

(** the zero and reserved members of the ORB *)
Definition reset_reserved (o : list Z) : list Z :=
  fold_left (fun o f => setf f 0 o)
    [orb_zero1; orb_reserved1; orb_reserved2; orb_reserved3; orb_reserved4; orb_reserved5; orb_reserved6] o.

(** [ssch] is the condition code START SUBCHANNEL would give for a subchannel and an ORB *)
Definition __submit_io (ssch : Z -> list Z -> Z) (a : Z) (h : host) : outcome host :=
  d ← get_dev a h;
  match q_cur d, q_out d with
  | Some _, _ => Ret h
  | None, [] => Ret h
  | None, o :: q =>
      op ← get_op o h;
      let e := start_sch (ssch (sch d) (orb op)) in
      if e =? 0 then Ret (put_dev a (set_queue (Some o) q d) h)
      else Ret (put_op o (set_err e op) h)
  end.

(** the list member of the operation is in a queue *)
Definition linked (o : Z) (h : host) : bool :=
  existsb (fun x => bool_decide (o ∈ q_out x.2)) (map_to_list (store h)).

(** up to the waiting *)
Definition submit_io (ssch : Z -> list Z -> Z) (a o : Z) (h : host) : outcome host :=
  op ← get_op o h;
  d ← get_dev a h;
  let id := s32 (op_id_counter h + 1) in
  let op := IoOp (setf orb_param id (reset_reserved (orb op))) (handler op) (dtor op) 0 false in
  let h := Host (store h) (devices h) (device_types h) (<[o := op]> (ops h)) id (destroyed h) in
  if linked o h then Undef else
  __submit_io ssch a (put_dev a (set_queue (q_cur d) (q_out d ++ [o]) d) h).

(** [init_io]: control register 6 with all interruption subclasses enabled *)
Definition BIT64 (x : Z) : Z := u32 (Z.shiftl 1 (63 - x)).
Definition init_io (cr6 : Z) : Z := fold_left (fun c x => Z.lor c (BIT64 x)) [32; 33; 34; 35; 36; 37; 38; 39] cr6.

Definition default_io_handler (irb : list Z) : Z :=
  let status := getf scsw_dev_status (take scsw_size irb) in
  if negb (Z.land status 0x04 =? 0) then 0
  else if negb (Z.land status 0x02 =? 0) then - EUCHECK else - EAGAIN.

(** the outcome of TEST SUBCHANNEL and the handler *)
Definition tested_err (tcc : Z) (irb : list Z) (op : io_op) : Z :=
  let e := test_sch tcc in
  if e =? 0 then match handler op with Some f => f irb e | None => default_io_handler irb end else e.

Definition __cpu_initiated_io (ssch : Z -> list Z -> Z) (tcc : Z) (irb : list Z) (a o : Z) (h : host) : outcome host :=
  op ← get_op o h;
  let op := set_err (tested_err tcc irb op) op in
  let h := put_op o op h in
  if err op =? - EAGAIN then Ret h else
  d ← get_dev a h;
  h ← __submit_io ssch a (put_dev a (set_queue None (q_out d) d) h);
  op ← get_op o h;
  let h := put_op o (set_done true op) h in
  Ret (if dtor op
       then Host (store h) (devices h) (device_types h) (ops h) (op_id_counter h) (o :: destroyed h) else h).

(** the interruption's subchannel and parameter.  No driver has an [interrupt]
    function, and [__dev_initiated_io] is empty. *)
Definition __io_int_handler (ssch : Z -> list Z -> Z) (tcc : Z) (irb : list Z) (ssid param : Z) (h : host) : outcome host :=
  '(r, h) ← find_device_by_sch ssid h;
  match r with
  | inl _ => Stopped
  | inr a =>
      d ← get_dev a h;
      cpu ← match q_cur d with
            | Some o => op ← get_op o h;
                        Ret (if (getf orb_param (orb op) =? param) && (sch d =? ssid) then Some o else None)
            | None => Ret None
            end;
      match cpu with
      | Some o => h ← __cpu_initiated_io ssch tcc irb a o h; dev_put a h
      | None =>
          bug_on (negb (test_sch tcc =? 0)) ;;
          let h := put_dev a (set_attention (s32 (attention d + 1)) d) h in
          t ← defined (dev d);
          if dt_interrupt t then Undef else dev_put a h
      end
  end.

(** ** Events *)

Inductive event :=
  | Submit (ssch : Z -> list Z -> Z) (a o : Z)
  | Interrupt (ssch : Z -> list Z -> Z) (tcc : Z) (irb : list Z) (ssid param : Z).

Definition step (e : event) (h : host) : outcome host :=
  match e with
  | Submit ssch a o => submit_io ssch a o h
  | Interrupt ssch tcc irb ssid param => __io_int_handler ssch tcc irb ssid param h
  end.

Fixpoint run (es : list event) (h : host) : outcome host :=
  match es with [] => Ret h | e :: es => h ← step e h; run es h end.

(** the operations submitted to a device, in order *)
Fixpoint submitted (a : Z) (es : list event) : list Z :=
  match es with
  | [] => []
  | Submit _ a' o :: es => if a =? a' then o :: submitted a es else submitted a es
  | _ :: es => submitted a es
  end.

(** * Queues *)

Definition queue_of (d : device) : option Z * list Z := (q_cur d, q_out d).

(** the operations of a device that are not completed, the one in progress first *)
Definition pending (q : option Z * list Z) : list Z := option_list q.1 ++ q.2.

Definition queues (h : host) : gmap Z (option Z * list Z) := queue_of <$> store h.
Definition flags (h : host) : gmap Z bool := done <$> ops h.

(** the queues are as before; up to starting the first operation *)
Definition quiet (h h' : host) : Prop := queues h' = queues h /\ flags h' = flags h.
Definition calm (h h' : host) : Prop := pending <$> queues h' = pending <$> queues h /\ flags h' = flags h.

Lemma quiet_trans h1 h2 h3 : quiet h1 h2 -> quiet h2 h3 -> quiet h1 h3.
Proof. unfold quiet. intuition congruence. Qed.

Lemma queues_lookup a d h : store h !! a = Some d -> queues h !! a = Some (queue_of d).
Proof. intros H. unfold queues. by rewrite lookup_fmap, H. Qed.

Lemma queues_put_dev a d h : queues (put_dev a d h) = <[a := queue_of d]> (queues h).
Proof. apply fmap_insert. Qed.

Lemma flags_put_op o op h : flags (put_op o op h) = <[o := done op]> (flags h).
Proof. apply fmap_insert. Qed.

Lemma quiet_put_dev a d d' h : store h !! a = Some d -> queue_of d' = queue_of d -> quiet h (put_dev a d' h).
Proof. intros Hd Hq. split; [|done]. rewrite queues_put_dev, Hq. by apply insert_id, queues_lookup. Qed.

Lemma quiet_put_op o op op' h : ops h !! o = Some op -> done op' = done op -> quiet h (put_op o op' h).
Proof.
  intros Ho Hd. split; [done|]. rewrite flags_put_op, Hd. apply insert_id. unfold flags. by rewrite lookup_fmap, Ho.
Qed.

Lemma dev_get_quiet a h h' : dev_get a h = Ret h' -> quiet h h'.
Proof. unfold dev_get, get_dev. intros H. inv_ret. by eapply quiet_put_dev. Qed.

Lemma dev_put_quiet a h h' : dev_put a h = Ret h' -> quiet h h'.
Proof. unfold dev_put, get_dev. intros H. inv_ret. by eapply quiet_put_dev. Qed.

Lemma find_in_quiet p l h r h' : find_in p l h = Ret (r, h') -> quiet h h'.
Proof.
  induction l as [|a l IH]; cbn [find_in]; intros H; [by inv_ret|].
  apply bind_Ret in H as (d & _ & H). destruct (p d); [|by apply IH].
  inv_ret. simplify_eq. by eapply dev_get_quiet.
Qed.

(** trying to start an operation moves it at most from the queue to the front *)
Lemma __submit_io_calm ssch a h h' : __submit_io ssch a h = Ret h' ->
  calm h h' /\ forall b, b <> a -> queues h' !! b = queues h !! b.
Proof.
  unfold __submit_io, get_dev, get_op. intros H. apply bind_Ret in H as (d & Hd%defined_Ret & H).
  destruct (q_cur d) eqn:Ec; [by inv_ret|]. destruct (q_out d) as [|o q] eqn:Eq; [by inv_ret|].
  apply bind_Ret in H as (op & Ho%defined_Ret & H). destruct (_ =? 0); inv_ret.
  - rewrite queues_put_dev. split; [split; [|done]|intros; by apply lookup_insert_ne].
    rewrite queues_put_dev, fmap_insert. apply insert_id.
    rewrite lookup_fmap, (queues_lookup _ _ _ Hd). unfold pending, queue_of. cbn. by rewrite Ec, Eq.
  - destruct (quiet_put_op o op (set_err (start_sch (ssch (sch d) (orb op))) op) h Ho eq_refl) as [Hq Hf].
    split; [split; [by rewrite Hq|done]|by intros; rewrite Hq].
Qed.

Lemma submit_io_queues ssch a o h h' : submit_io ssch a o h = Ret h' ->
  exists q, queues h !! a = Some q /\
    pending <$> queues h' = <[a := pending q ++ [o]]> (pending <$> queues h) /\ flags h' = <[o := false]> (flags h).
Proof.
  unfold submit_io, get_dev, get_op. intros H. apply bind_Ret in H as (op & Ho%defined_Ret & H).
  apply bind_Ret in H as (d & Hd%defined_Ret & H). cbv zeta in H.
  destruct (linked _ _); [done|]. apply __submit_io_calm in H as [[Hq Hf] _].
  exists (queue_of d). split; [by apply queues_lookup|]. rewrite Hq, Hf, queues_put_dev, fmap_insert. split.
  - f_equal. unfold pending, queue_of. cbn. by rewrite app_assoc.
  - unfold flags. cbn. by rewrite fmap_insert.
Qed.

(** an interruption changes nothing, or completes the operation in progress *)
Lemma io_int_queues ssch tcc irb ssid param h h' : __io_int_handler ssch tcc irb ssid param h = Ret h' ->
  quiet h h' \/
  exists a o q, queues h !! a = Some (Some o, q) /\
    pending <$> queues h' = <[a := q]> (pending <$> queues h) /\ flags h' = <[o := true]> (flags h) /\
    forall b, b <> a -> queues h' !! b = queues h !! b.
Proof.
  unfold __io_int_handler, find_device_by_sch, get_dev, get_op. intros H.
  apply bind_Ret in H as ([r h1] & [Eq1 Ef1]%find_in_quiet & H). destruct r as [|a]; [done|].
  apply bind_Ret in H as (d & Hd%defined_Ret & H). apply bind_Ret in H as (c & Hc & H). destruct c as [o|].
  - assert (q_cur d = Some o) as Ec.
    { destruct (q_cur d); [|discriminate Hc]. apply bind_Ret in Hc as (? & _ & [= Hc]). case_match; congruence. }
    apply bind_Ret in H as (h2 & H2 & [Eq3 Ef3]%dev_put_quiet). unfold quiet. rewrite <- Eq1, <- Ef1, Eq3, Ef3.
    clear h' Eq3 Ef3 Eq1 Ef1 Hc. unfold __cpu_initiated_io, get_op, get_dev in H2.
    apply bind_Ret in H2 as (op & Ho%defined_Ret & H2). cbv zeta in H2. cbn [err set_err] in H2.
    set (op' := set_err (tested_err tcc irb op) op) in *.
    pose proof (quiet_put_op o op op' h1 Ho eq_refl) as [Eq2 Ef2].
    destruct (_ =? - EAGAIN); [left; inv_ret; split; [exact Eq2|exact Ef2]|right]. exists a, o, (q_out d).
    rewrite (queues_lookup _ _ _ Hd). unfold queue_of. rewrite Ec. split; [done|].
    apply bind_Ret in H2 as (d' & Hd'%defined_Ret & H2). cbn in Hd'. rewrite Hd in Hd'. simplify_eq.
    apply bind_Ret in H2 as (h4 & H4 & H2). apply __submit_io_calm in H4 as [[Eq4 Ef4] Eb4].
    apply bind_Ret in H2 as (op2 & Ho2%defined_Ret & H2).
    rewrite queues_put_dev, Eq2, fmap_insert in Eq4. change (flags h4 = flags (put_op o op' h1)) in Ef4.
    assert (queues h2 = queues h4 /\ flags h2 = <[o := true]> (flags h4)) as [-> ->].
    { destruct (dtor op2); inv_ret; (split; [done|apply fmap_insert]). }
    rewrite Eq4, Ef4, Ef2. split_and!; [done|done|]. intros b Hb. rewrite Eb4 by done.
    by rewrite queues_put_dev, lookup_insert_ne, Eq2 by done.
  - left. apply bind_Ret in H as (_ & _ & H). cbv zeta in H. apply bind_Ret in H as (t & _ & H).
    destruct (dt_interrupt t); [done|]. apply dev_put_quiet in H.
    eapply quiet_trans; [by split|]. eapply quiet_trans; [|exact H]. by eapply quiet_put_dev.
Qed.

(** ** First in, first out *)

Fixpoint all_submitted (es : list event) : list Z :=
  match es with
  | [] => []
  | Submit _ _ o :: es => o :: all_submitted es
  | _ :: es => all_submitted es
  end.

Lemma submitted_app a es es' : submitted a (es ++ es') = submitted a es ++ submitted a es'.
Proof. induction es as [|[] es IH]; [done| |exact IH]. cbn. destruct (a =? _); by rewrite IH. Qed.

Lemma all_submitted_app es es' : all_submitted (es ++ es') = all_submitted es ++ all_submitted es'.
Proof. induction es as [|[] es IH]; [done| |exact IH]. cbn. by rewrite IH. Qed.

Lemma submitted_all a es o : o ∈ submitted a es -> o ∈ all_submitted es.
Proof. induction es as [|[] es IH]; cbn; [done| |done]. destruct (a =? _); set_solver. Qed.

Lemma submitted_once a es : NoDup (all_submitted es) -> NoDup (submitted a es).
Proof.
  induction es as [|[] es IH]; cbn; [done| |done]. rewrite NoDup_cons. intros [Hn H]. destruct (a =? _); [|by apply IH].
  apply NoDup_cons. split; [|by apply IH]. contradict Hn. by eapply submitted_all.
Qed.

Lemma submitted_to_one a b es o : NoDup (all_submitted es) -> o ∈ submitted a es -> o ∈ submitted b es -> a = b.
Proof.
  induction es as [|[] es IH]; cbn; [set_solver| |done]. rewrite NoDup_cons. intros [Hn H] Ha Hb.
  pose proof (submitted_all a es o). pose proof (submitted_all b es o).
  destruct (Z.eqb_spec a a0), (Z.eqb_spec b a0); subst; [done|set_solver..|by apply IH].
Qed.

(** what is pending for a device is the end of what was submitted to it; the
    rest is done *)
Definition in_order (es : list event) (P : gmap Z (list Z)) (F : gmap Z bool) : Prop :=
  forall a p, P !! a = Some p -> exists fin, submitted a es = fin ++ p /\
    Forall (fun o => F !! o = Some true) fin /\ Forall (fun o => F !! o = Some false) p.

Lemma flags_insert_ne (F : gmap Z bool) o v w l :
  o ∉ l -> Forall (fun x => F !! x = Some w) l -> Forall (fun x => <[o := v]> F !! x = Some w) l.
Proof.
  intros Hn Hl. rewrite Forall_forall in *. intros x Hx. rewrite lookup_insert_ne by (by intros ->). by apply Hl.
Qed.

Lemma in_order_submit es ssch a o p P F :
  NoDup (all_submitted (es ++ [Submit ssch a o])) -> in_order es P F -> P !! a = Some p ->
  in_order (es ++ [Submit ssch a o]) (<[a := p ++ [o]]> P) (<[o := false]> F).
Proof.
  rewrite all_submitted_app. intros (_ & Hn & _)%NoDup_app HI Hp b q Hb.
  assert (o ∉ all_submitted es) as Hfresh by set_solver. clear Hn.
  assert (forall b l, l ⊆ submitted b es -> o ∉ l) as Hl.
  { intros b' l Hl Hin. apply Hfresh. eapply submitted_all. by apply Hl. }
  rewrite submitted_app. cbn. destruct (Z.eqb_spec b a) as [->|Hne].
  - rewrite lookup_insert_eq in Hb. simplify_eq. destruct (HI a p Hp) as (fin & E & Hf & Hw). exists fin.
    rewrite E, <- app_assoc. split; [done|]. assert (o ∉ fin /\ o ∉ p) as [H1 H2] by (split; eapply (Hl a); rewrite E; set_solver).
    split; [by apply flags_insert_ne|]. apply Forall_app. split; [by apply flags_insert_ne|].
    constructor; [apply lookup_insert_eq|done].
  - rewrite lookup_insert_ne in Hb by done. destruct (HI b q Hb) as (fin & E & Hf & Hw). exists fin.
    rewrite app_nil_r, E. split; [done|]. assert (o ∉ fin /\ o ∉ q) as [H1 H2] by (split; eapply (Hl b); rewrite E; set_solver).
    split; by apply flags_insert_ne.
Qed.

Lemma in_order_complete es a o p P F :
  NoDup (all_submitted es) -> in_order es P F -> P !! a = Some (o :: p) ->
  in_order es (<[a := p]> P) (<[o := true]> F).
Proof.
  intros Hnd HI Hp b q Hb. destruct (HI a _ Hp) as (fin & E & Hf & Hw).
  pose proof (submitted_once a es Hnd) as Hna. rewrite E in Hna. apply NoDup_app in Hna as (_ & Hdis & Hna).
  apply NoDup_cons in Hna as [Hop _]. apply Forall_cons in Hw as [_ Hw].
  destruct (decide (b = a)) as [->|Hne].
  - rewrite lookup_insert_eq in Hb. simplify_eq. exists (fin ++ [o]). rewrite <- app_assoc. split; [done|].
    split; [|by apply flags_insert_ne]. apply Forall_app. split; [|constructor; [apply lookup_insert_eq|done]].
    apply flags_insert_ne; [|done]. set_solver.
  - rewrite lookup_insert_ne in Hb by done. destruct (HI b q Hb) as (fin' & E' & Hf' & Hw'). exists fin'. split; [done|].
    assert (o ∉ submitted b es) as Ho.
    { intros Ho. apply Hne. eapply submitted_to_one; [done|exact Ho|]. rewrite E. set_solver. }
    rewrite E' in Ho. split; (apply flags_insert_ne; [set_solver|done]).
Qed.

Lemma in_order_step es e h h' :
  NoDup (all_submitted (es ++ [e])) -> in_order es (pending <$> queues h) (flags h) -> step e h = Ret h' ->
  in_order (es ++ [e]) (pending <$> queues h') (flags h').
Proof.
  intros Hnd HI H. destruct e as [ssch a o|ssch tcc irb ssid param]; cbn in H.
  - apply submit_io_queues in H as (q & Hq & -> & ->). apply in_order_submit; [done..|]. by rewrite lookup_fmap, Hq.
  - assert (in_order (es ++ [Interrupt ssch tcc irb ssid param]) (pending <$> queues h) (flags h)) as HI'.
    { intros a p Hp. rewrite submitted_app, app_nil_r. by apply HI. }
    apply io_int_queues in H as [[-> ->]|(a & o & q & Hq & -> & -> & _)]; [done|]. apply in_order_complete; [done..|].
    by rewrite lookup_fmap, Hq.
Qed.

Lemma in_order_run es es' h h' :
  NoDup (all_submitted (es ++ es')) -> in_order es (pending <$> queues h) (flags h) -> run es' h = Ret h' ->
  in_order (es ++ es') (pending <$> queues h') (flags h').
Proof.
  revert es h. induction es' as [|e es' IH]; intros es h Hnd HI H; cbn in H.
  - inv_ret. by rewrite app_nil_r.
  - apply bind_Ret in H as (h1 & H1 & H). replace (es ++ e :: es') with ((es ++ [e]) ++ es') in * by (rewrite <- app_assoc; reflexivity).
    eapply IH; [done| |done]. eapply in_order_step; [|done|done].
    rewrite all_submitted_app in Hnd. by apply NoDup_app in Hnd as (? & _ & _).
Qed.

(** C15: However submissions and interruptions follow each other, whichever
    operations the channel subsystem refuses to start: the operations submitted to
    a device are completed in the order of submission, each once; the ones not
    completed are the one in progress and the queue, in this order. *)
Theorem io_in_order es h h' a d
    (Hidle : map_Forall (fun _ d => pending (queue_of d) = []) (store h))
    (Hnd : NoDup (all_submitted es)) (Hrun : run es h = Ret h') (Hd : store h' !! a = Some d) :
  exists completed, submitted a es = completed ++ option_list (q_cur d) ++ q_out d /\
    Forall (fun o => exists op, ops h' !! o = Some op /\ done op = true) completed /\
    Forall (fun o => exists op, ops h' !! o = Some op /\ done op = false) (option_list (q_cur d) ++ q_out d).
Proof.
  assert (in_order [] (pending <$> queues h) (flags h)) as H0.
  { intros b p Hp. exists []. unfold queues in Hp. rewrite !lookup_fmap in Hp. destruct (store h !! b) as [x|] eqn:Ex; [|done].
    cbn in Hp. simplify_eq. by rewrite (Hidle b x Ex). }
  pose proof (in_order_run [] es h h' Hnd H0 Hrun) as H. cbn [app] in H.
  destruct (H a (pending (queue_of d))) as (fin & E & Hf & Hw).
  { by rewrite lookup_fmap, (queues_lookup _ _ _ Hd). }
  exists fin. split; [exact E|].
  assert (forall l w, Forall (fun o => flags h' !! o = Some w) l ->
    Forall (fun o => exists op, ops h' !! o = Some op /\ done op = w) l) as Hl.
  { intros l w Hl. eapply Forall_impl; [exact Hl|]. intros o Ho. cbn in Ho. unfold flags in Ho.
    rewrite lookup_fmap in Ho. destruct (ops h' !! o) as [op|]; [|done]. exists op. cbn in Ho. naive_solver. }
  split; by apply Hl.
Qed.

(** A read on one device of two, then two more on the same; the first ends *)
Definition sample_type : device_type := DeviceType 1 false false false false false 0x3390 0 true.
Definition sample_device (n : Z) : device := Device n 0x3390 0x0a n (Some sample_type) None [] 0 false 1 NoGeometry.
Definition sample_op : io_op := IoOp (zeros orb_size) None true 0 false.
Definition sample_host : host :=
  Host (<[16 := sample_device 0x10000]> {[ 32 := sample_device 0x10001 ]}) [16; 32] [sample_type]
    (<[1 := sample_op]> (<[2 := sample_op]> {[ 3 := sample_op ]})) 0 [].

(** device end *)
Definition sample_irb : list Z := setf scsw_dev_status 0x0c (zeros scsw_size) ++ zeros 84.
Definition ready : Z -> list Z -> Z := fun _ _ => 0.
Definition sample_events : list event :=
  [Submit ready 32 1; Submit ready 32 2; Submit ready 16 3; Interrupt ready 0 sample_irb 0x10001 1].

Lemma io_in_order_witness : exists h' d, run sample_events sample_host = Ret h' /\ store h' !! 32 = Some d /\
  exists completed, submitted 32 sample_events = completed ++ option_list (q_cur d) ++ q_out d /\
    Forall (fun o => exists op, ops h' !! o = Some op /\ done op = true) completed /\
    Forall (fun o => exists op, ops h' !! o = Some op /\ done op = false) (option_list (q_cur d) ++ q_out d).
Proof.
  destruct (run sample_events sample_host) as [h'| |] eqn:E; [|by vm_compute in E..].
  assert (exists d, store h' !! 32 = Some d) as [d Hd].
  { vm_compute in E. injection E as <-. eexists. by vm_compute. }
  exists h', d. split; [done|]. split; [done|].
  apply (io_in_order sample_events sample_host h' 32 d); [| |exact E|exact Hd].
  - apply map_Forall_insert_2; [done|]. by apply map_Forall_singleton.
  - apply (bool_decide_unpack _). by vm_compute.
Defined.

(** ** A start that is refused *)

Definition interrupts (es : list event) : Prop := Forall (fun e => match e with Interrupt _ _ _ _ _ => True | _ => False end) es.

(** [o] waits alone on the idle device [a] *)
Definition stranded (a o : Z) (h : host) : Prop :=
  queues h !! a = Some (None, [o]) /\ flags h !! o = Some false /\
  (forall b q, b <> a -> queues h !! b = Some q -> o ∉ pending q).

Lemma stranded_interrupt ssch tcc irb ssid param a o h h' :
  stranded a o h -> __io_int_handler ssch tcc irb ssid param h = Ret h' -> stranded a o h'.
Proof.
  intros (Hq & Hf & Ho) [[Eq Ef]|(b & x & q & Hb & Hp & Hx & Hother)]%io_int_queues.
  - unfold stranded. by rewrite Eq, Ef.
  - assert (b <> a) as Hne by (intros ->; congruence).
    assert (x <> o) as Hxo by (intros ->; eapply (Ho b); [done|exact Hb|]; cbn; set_solver).
    split_and!.
    + by rewrite Hother.
    + by rewrite Hx, lookup_insert_ne.
    + intros c r Hc Hr Hin. assert ((pending <$> queues h') !! c = Some (pending r)) as Hpc by (by rewrite lookup_fmap, Hr).
      rewrite Hp in Hpc. destruct (decide (b = c)) as [->|Hbc].
      * rewrite lookup_insert_eq in Hpc. apply (Ho c _ Hne Hb). cbn. simplify_eq. set_solver.
      * rewrite lookup_insert_ne, lookup_fmap in Hpc by done. destruct (queues h !! c) as [q'|] eqn:E; [|done].
        cbn in Hpc. apply (Ho c q' Hc E). congruence.
Qed.

(** When the channel subsystem refuses to start an operation on an idle device,
    [submit_io] leaves the operation in the queue, sets its error code and not
    its completion: whatever interruptions arrive, on this device and others, the
    operation is not completed, and a caller that waits for it waits for ever
    unless somebody submits another operation to the device. *)
Theorem start_refused_strands ssch a o d es h h'
    (Hd : store h !! a = Some d) (Hidle : q_cur d = None /\ q_out d = [])
    (Hfree : map_Forall (fun _ d => o ∉ pending (queue_of d)) (store h))
    (Hrefused : forall n b, start_sch (ssch n b) <> 0) (Hes : interrupts es)
    (Hrun : run (Submit ssch a o :: es) h = Ret h') :
  exists op d', ops h' !! o = Some op /\ done op = false /\ store h' !! a = Some d' /\ q_cur d' = None /\ q_out d' = [o].
Proof.
  cbn [run] in Hrun. apply bind_Ret in Hrun as (h1 & H1 & Hrun). cbn [step] in H1.
  assert (stranded a o h1) as Hs.
  { destruct Hidle as [Hc Hq]. unfold submit_io, get_op, get_dev in H1.
    apply bind_Ret in H1 as (op & Ho%defined_Ret & H1). apply bind_Ret in H1 as (d1 & Hd1%defined_Ret & H1).
    rewrite Hd in Hd1. injection Hd1 as <-. set (op1 := IoOp _ _ _ _ _) in H1. assert (done op1 = false) as Hop1 by done.
    clearbody op1. cbv zeta in H1. destruct (linked _ _); [done|].
    unfold __submit_io, get_op, get_dev in H1. cbn [store put_dev ops] in H1. rewrite lookup_insert_eq in H1.
    cbn [defined mbind outcome_bind set_queue q_cur q_out sch] in H1. rewrite Hc, Hq in H1. cbn [app] in H1.
    rewrite lookup_insert_eq in H1. cbn [defined mbind outcome_bind orb] in H1.
    destruct (Z.eqb_spec (start_sch (ssch (sch d) (orb op1))) 0) as [E|_]; [by apply Hrefused in E|].
    inv_ret. unfold stranded, queues, flags. cbn. rewrite !fmap_insert. split_and!.
    - by rewrite lookup_insert_eq.
    - rewrite lookup_insert_eq. cbn. by rewrite Hop1.
    - intros b q Hb Hl. rewrite lookup_insert_ne, lookup_fmap in Hl by done.
      destruct (store h !! b) as [x|] eqn:Ex; [|done]. cbn in Hl. simplify_eq. exact (Hfree b x Ex). }
  clear Hd Hidle Hfree H1 Hrefused h. revert h1 Hs Hrun. induction Hes as [|e es He _ IH]; intros h Hs Hrun; cbn in Hrun.
  - inv_ret. destruct Hs as (Hq & Hf & _). unfold queues, flags in *. rewrite lookup_fmap in Hq; rewrite lookup_fmap in Hf.
    destruct (store h' !! a) as [d'|] eqn:Ed; [|done]. destruct (ops h' !! o) as [op|] eqn:Eo; [|done].
    cbn in *. unfold queue_of in Hq. exists op, d'. naive_solver.
  - apply bind_Ret in Hrun as (h1 & H1 & Hrun). destruct e as [|? ? ? ? ?]; [done|]. eapply IH; [|exact Hrun].
    by eapply stranded_interrupt.
Qed.

Lemma start_refused_strands_witness :
  exists h' op d', run [Submit (fun _ _ => 1) 32 1; Interrupt ready 0 sample_irb 0x10001 1] sample_host = Ret h' /\
    ops h' !! 1 = Some op /\ done op = false /\ store h' !! 32 = Some d' /\ q_cur d' = None /\ q_out d' = [1].
Proof.
  destruct (run [Submit (fun _ _ => 1) 32 1; Interrupt ready 0 sample_irb 0x10001 1] sample_host) as [h'| |] eqn:E;
    [|by vm_compute in E..].
  exists h'. destruct (start_refused_strands (fun _ _ => 1) 32 1 (sample_device 0x10001)
    [Interrupt ready 0 sample_irb 0x10001 1] sample_host h') as (op & d' & H); [done|done| |done| |exact E|by exists op, d'].
  - apply map_Forall_insert_2; [apply not_elem_of_nil|]. apply map_Forall_singleton. apply not_elem_of_nil.
  - by repeat constructor.
Defined.
