(* ===== verification/Device.v ===== *)
(** cp/drivers/device.c, dasd.c, 3215.c and cp/fs/bdev.c: finding the real devices
    and the disk drivers.

    [scan_devices] goes over the subchannels; what each subchannel and its device
    answer is a [probe].  The I/O it waits for is that of Io.v: the operation is
    submitted and the interruptions of the probe are handled until it is done;
    when they run out the code would wait for ever, which is undefined here.  The
    theorems: on devices that answer, the scan builds the table of the devices in
    the order of their subchannels, each with its driver; the address a block of a
    3390 is read from. *)

From S2P Require Import Prelude Layout Spool Format Io.

Local Open Scope Z_scope.

(** ** Device types *)

Definition fake_type : device_type := DeviceType 0 false false false false false 0 0 false.
Definition d3215 : device_type := DeviceType 1 false false false false false 0x3215 0 false.
Definition d3390 : device_type := DeviceType 2 true false false true true 0x3390 0 true.
Definition d9336 : device_type := DeviceType 3 true false false true false 0x9336 0 true.

Definition EEXIST : Z := 5.

Definition register_device_type (t : device_type) (h : host) : Z * host :=
  if existsb (fun e => (dt_id t =? dt_id e) || ((dt_type t =? dt_type e) && (dt_model t =? dt_model e))) (device_types h)
  then (- EEXIST, h) else (0, set_types (device_types h ++ [t]) h).

Definition unregister_device_type (t : device_type) (h : host) : host :=
  set_types (base.filter (fun e => dt_id e <> dt_id t) (device_types h)) h.

Definition register_driver_3215 (h : host) : Z * host := register_device_type d3215 h.
Definition register_driver_dasd (h : host) : Z * host :=
  let '(ret, h) := register_device_type d3390 h in
  if negb (ret =? 0) then (ret, h) else register_device_type d9336 h.
Definition register_drivers (h : host) : host := (register_driver_dasd (register_driver_3215 h).2).2.

(** ** Operations that are waited for *)

(** what a subchannel and its device answer: STORE SUBCHANNEL (nothing with
    condition code 3), MODIFY SUBCHANNEL, START SUBCHANNEL, the interruptions of
    an operation, and the data of a command *)
Record probe := Probe {
  p_schib : option (list Z);
  p_msch : Z;
  p_ssch : Z -> list Z -> Z;
  p_ints : list (Z * list Z);
  p_data : Z -> list Z;
}.

(** an ORB for a format-1 program at [addr] *)
Definition program_orb (addr : Z) : list Z := setf orb_f 1 (setf orb_addr addr (setf orb_lpm 0xff (zeros orb_size))).

Definition make_ccw (cmd flags count addr : Z) : list Z :=
  setf ccw_addr addr (setf ccw_count count (setf ccw_flags flags (setf ccw_cmd cmd (zeros ccw_size)))).

Definition CCW_FLAG_SLI : Z := 0x20.

(** [while(!done)] *)
Fixpoint wait_done (ssch : Z -> list Z -> Z) (ints : list (Z * list Z)) (ssid o : Z) (h : host) : outcome host :=
  op ← get_op o h;
  if done op then Ret h else
  match ints with
  | [] => Undef
  | (tcc, irb) :: ints =>
      h ← __io_int_handler ssch tcc irb ssid (getf orb_param (orb op)) h;
      wait_done ssch ints ssid o h
  end.

(** an operation on the stack at [o] whose CCW is at [ccw]; its error code *)
Definition simple_io (p : probe) (a o ccw : Z) (h : host) : outcome (Z * host) :=
  d ← get_dev a h;
  h ← submit_io (p_ssch p) a o (put_op o (IoOp (program_orb ccw) None false 0 false) h);
  h ← wait_done (p_ssch p) (p_ints p) (sch d) o h;
  op ← get_op o h;
  Ret (err op, h).

(** ** Drivers *)

Definition b16 (b : list Z) (i : nat) : Z := be_val (take 2 (drop i b)).
Definition b32 (b : list Z) (i : nat) : Z := be_val (take 4 (drop i b)).
Definition b8 (b : list Z) (i : nat) : Z := be_val (take 1 (drop i b)).

Definition ceil_quot (d1 d2 : Z) : Z := u32 (d1 + (d2 - 1)) / d2.

Definition d3390_recs_per_track (kl dl : Z) : Z :=
  let dn := ceil_quot (dl + 6) 232 + 1 in
  if kl =? 0 then 1729 / (10 + 9 + ceil_quot (dl + 6 * dn) 34)
  else let kn := ceil_quot (kl + 6) 232 + 1 in
       1729 / (10 + 9 + ceil_quot (kl + 6 * kn) 34 + 9 + ceil_quot (dl + 6 * dn) 34).

Definition set_geom (g : geometry) (d : device) : device :=
  Device (sch d) (type d) (model d) (ccuu d) (dev d) (q_cur d) (q_out d) (attention d) (in_use d) (refcnt d) g.

(** READ DEVICE CHARACTERISTICS into the 64 bytes of [buf]; [ioop.err] is not looked at *)
Definition rdc_ccw (buf : Z) : list Z := make_ccw 0x64 CCW_FLAG_SLI 64 buf.

(** with another formula [f1] to [f5] stay what they were; memory in which no geometry was set is zero *)
Definition eckd_of (buf : list Z) (old : geometry) : Z * geometry :=
  let g f1 f2 f3 f4 f5 :=
    Eckd (b16 buf 12) (b16 buf 14) (b16 buf 18) (u16 (d3390_recs_per_track 0 4096)) (b8 buf 16) (b8 buf 22) f1 f2 f3 f4 f5 in
  if b8 buf 22 =? 1 then (0, g (b8 buf 23) (b16 buf 24) (b16 buf 26) 0 0)
  else if b8 buf 22 =? 2 then (0, g (b8 buf 23) (b8 buf 24) (b8 buf 25) (b8 buf 26) (b8 buf 27))
  else (- EINVAL, match old with Eckd _ _ _ _ _ _ f1 f2 f3 f4 f5 => g f1 f2 f3 f4 f5 | _ => g 0 0 0 0 0 end).

Definition d3390_reg (p : probe) (a o ccw : Z) (h : host) : outcome (Z * host) :=
  d ← get_dev a h;
  if negb (bool_decide (model d ∈ [0x02; 0x06; 0x0a; 0x0c])) then Ret (- ENOENT, h) else
  '(_, h) ← simple_io p a o ccw h;
  d ← get_dev a h;
  let '(ret, g) := eckd_of (p_data p (getf ccw_cmd (rdc_ccw 0))) (geom d) in
  Ret (ret, put_dev a (set_geom g d) h).

Definition d9336_reg (p : probe) (a o ccw : Z) (h : host) : outcome (Z * host) :=
  d ← get_dev a h;
  if negb (bool_decide (model d ∈ [0x00; 0x10])) then Ret (- ENOENT, h) else
  '(_, h) ← simple_io p a o ccw h;
  d ← get_dev a h;
  let buf := p_data p (getf ccw_cmd (rdc_ccw 0)) in
  Ret (0, put_dev a (set_geom (Fba (b16 buf 4) (b32 buf 6) (b32 buf 10) (b32 buf 14)) d) h).

Definition reg (t : device_type) (p : probe) (a o ccw : Z) (h : host) : outcome (Z * host) :=
  if dt_id t =? dt_id d3390 then d3390_reg p a o ccw h
  else if dt_id t =? dt_id d9336 then d9336_reg p a o ccw h
  else Undef.

(** *** Reading a block *)

(** the CCWs, the seek and the search argument; [cmds], [seek], [search] and
    [buf] are where they lie.  The members of the union are those of the ECKD disk. *)
Definition d3390_read (d : device) (cmds seek search buf lba : Z)
    : outcome (Z + list (list Z) * list Z * list Z) :=
  match geom d with
  | Eckd _ tracks _ rpt _ _ _ _ _ _ _ =>
      let rpc := tracks * rpt in
      if lba <? 1 then Ret (inl (- EINVAL)) else
      let lba := lba - 1 in
      if (rpc =? 0) || (rpt =? 0) then Undef else
      let cc := u16 (lba / rpc) in
      let hh := u16 (lba mod rpc / rpt) in
      let r := u16 (u16 ((lba mod rpc) mod rpt) + 1) in
      Ret (inr ([make_ccw 0x07 (Z.lor CCW_FLAG_CC CCW_FLAG_SLI) 6 seek;
                 make_ccw 0x31 (Z.lor CCW_FLAG_CC CCW_FLAG_SLI) 5 search;
                 make_ccw 0x08 0 0 (cmds + 8);
                 make_ccw 0x86 0 4096 buf],
                [0; 0] ++ be_bytes 2 cc ++ be_bytes 2 hh,
                be_bytes 2 cc ++ be_bytes 2 hh ++ [u8 r]))
  | _ => Undef
  end.

(** [bdev_read_block], up to the I/O *)
Definition bdev_read_block (d : device) (cmds seek search buf lba : Z)
    : outcome (Z + list (list Z) * list Z * list Z) :=
  t ← defined (dev d);
  if negb (dt_read t) then Ret (inl (- EINVAL)) else d3390_read d cmds seek search buf lba.

(** ** Registering devices *)

Definition set_dev (t : option device_type) (d : device) : device :=
  Device (sch d) (type d) (model d) (ccuu d) t (q_cur d) (q_out d) (attention d) (in_use d) (refcnt d) (geom d).
Definition new_references (t : option device_type) (d : device) : device :=
  Device (sch d) (type d) (model d) (ccuu d) t (q_cur d) (q_out d) (attention d) false 1 (geom d).

(** the driver for a type and model *)
Definition driver_for (ts : list device_type) (ty m : Z) : option device_type :=
  List.find (fun t => (dt_type t =? ty) && (all_models t || (dt_model t =? m))) ts.

(** the stack at [o] and [ccw] is for the driver's [reg] *)
Definition __register_device (p : probe) (o ccw a : Z) (remove : bool) (h : host) : outcome (Z * host) :=
  d ← get_dev a h;
  let t := driver_for (device_types h) (type d) (model d) in
  let h := put_dev a (new_references t d) h in
  '(err, h) ← match t with
              | Some t =>
                  if dt_reg t then
                    '(err, h) ← reg t p a o ccw h;
                    d ← get_dev a h;
                    Ret (err, if err =? 0 then h else put_dev a (set_dev None d) h)
                  else Ret (0, h)
              | None => Ret (- ENOENT, h)
              end;
  let h := if remove then set_devices (base.filter (.≠ a) (devices h)) h else h in
  if bool_decide (a ∈ devices h) then Undef else Ret (err, set_devices (devices h ++ [a]) h).

(** number, type and model of the devices that do not identify themselves *)
Definition static_device_list : list (Z * (Z * Z)) := [(0x0009, (0x3215, 0))].

Definition sense_ccw (buf : Z) : list Z := make_ccw 0xe4 CCW_FLAG_SLI 7 buf.

(** [senseid_struct]: the device type and model in its 7 bytes *)
Definition sense_dev_type : field := Field 32 16.
Definition sense_dev_model : field := Field 48 8.

(** the error code, and the type and model *)
Definition do_sense_id (p : probe) (a dev_num o ccw : Z) (h : host) : outcome (Z * (Z * Z) * host) :=
  match List.find (fun s => s.1 =? dev_num) static_device_list with
  | Some s => Ret (0, s.2, h)
  | None =>
      '(err, h) ← simple_io p a o ccw h;
      let b := p_data p (getf ccw_cmd (sense_ccw 0)) in
      Ret (err, (getf sense_dev_type b, getf sense_dev_model b), h)
  end.

Definition modify_sch (cc : Z) : Z := if (cc =? 1) || (cc =? 2) then - EBUSY else if cc =? 3 then - EINVAL else 0.

(** ** The scan *)

Definition set_sch (n : Z) (d : device) : device :=
  Device n (type d) (model d) (ccuu d) (dev d) (q_cur d) (q_out d) (attention d) (in_use d) (refcnt d) (geom d).
Definition set_identity (ty m n : Z) (d : device) : device :=
  Device (sch d) ty m n (dev d) (q_cur d) (q_out d) (attention d) (in_use d) (refcnt d) (geom d).

(** the [malloc]ed device that is not in use yet, what [malloc] will return, and the host *)
Record scan := Scan { s_dev : option Z; s_mem : list (Z * device); s_host : host }.

Definition alloc_device (s : scan) : outcome (Z * list (Z * device) * host) :=
  match s_dev s with
  | Some a => Ret (a, s_mem s, s_host s)
  | None =>
      match s_mem s with
      | [] => Stopped
      | (a, d) :: mem =>
          Ret (a, mem, put_dev a (set_attention 0 (set_queue (q_cur d) [] (set_dev (Some fake_type) d))) (s_host s))
      end
  end.

(** one subchannel; [o] and [ccw] are on the stack *)
Definition scan_sch (o ccw n : Z) (p : probe) (s : scan) : outcome scan :=
  match p_schib p with
  | None => Ret s
  | Some schib =>
      let pmcw := schib_pmcw schib in
      if getf pmcw_v pmcw =? 0 then Ret s else
      '(a, mem, h) ← alloc_device s;
      if negb (modify_sch (p_msch p) =? 0) then Ret (Scan (Some a) mem h) else
      d ← get_dev a h;
      '(err, h) ← __register_device p o ccw a false (put_dev a (set_sch n d) h);
      bug_on (negb (err =? 0)) ;;
      d ← get_dev a h;
      bug_on (negb (bool_decide (dt_id <$> dev d = Some (dt_id fake_type)))) ;;
      '(ret, (ty, m), h) ← do_sense_id p a (getf pmcw_dev_num pmcw) o ccw h;
      if negb (ret =? 0) then Ret (Scan (Some a) mem h) else
      d ← get_dev a h;
      '(err, h) ← __register_device p o ccw a true (put_dev a (set_identity ty m (getf pmcw_dev_num pmcw) d) h);
      Ret (Scan None mem h)
  end.

Fixpoint scan_loop (o ccw n : Z) (ps : list probe) (s : scan) : outcome scan :=
  match ps with
  | [] => Ret s
  | p :: ps => s ← scan_sch o ccw n p s; scan_loop o ccw (n + 1) ps s
  end.

(** [ps] are the subchannels from 0x10000 on; [free] takes the device that is left *)
Definition scan_devices (o ccw : Z) (ps : list probe) (mem : list (Z * device)) (h : host) : outcome host :=
  let '(ret, h) := register_device_type fake_type h in
  bug_on (negb (ret =? 0)) ;;
  s ← scan_loop o ccw 0x10000 ps (Scan None mem h);
  let h := unregister_device_type fake_type (s_host s) in
  Ret match s_dev s with
      | Some a => Host (delete a (store h)) (devices h) (device_types h) (ops h) (op_id_counter h) (destroyed h)
      | None => h
      end.

(** [list_devices(f)]: the devices [f] is called with *)
Fixpoint list_devices (l : list Z) (h : host) : outcome (list device * host) :=
  match l with
  | [] => Ret ([], h)
  | a :: l =>
      h ← dev_get a h;
      d ← get_dev a h;
      h ← dev_put a h;
      '(ds, h) ← list_devices l h;
      Ret (d :: ds, h)
  end.

(** ** Texts *)

(** [d3390_snprintf] and [d9336_snprintf]: the format and the number *)
Definition dasd_text (d : device) : string * Z :=
  match geom d with
  | Fba _ _ _ blks => ("%10d BLK ", blks)
  | Eckd cyls _ _ _ _ _ _ _ _ _ _ => ("%10d CYL ", cyls)
  | NoGeometry => ("%10d CYL ", 0)
  end.

(** * Scanning *)

(** the parts of the host an operation leaves as they are *)
Definition same_table (h h' : host) : Prop :=
  store h' = store h /\ devices h' = devices h /\ device_types h' = device_types h.

(** [a] is the first device of the table with the subchannel [n] *)
Definition found (h : host) (a n : Z) : Prop :=
  exists l1 l2, devices h = l1 ++ a :: l2 /\
    Forall (fun b => a <> b /\ exists x, store h !! b = Some x /\ sch x <> n) l1.

Lemma find_in_skip p l1 l2 h : Forall (fun b => exists x, store h !! b = Some x /\ p x = false) l1 ->
  find_in p (l1 ++ l2) h = find_in p l2 h.
Proof.
  induction 1 as [|b l1 (x & Hx & Hp) _ IH]; [done|]. cbn. unfold get_dev. rewrite Hx. cbn. by rewrite Hp, IH.
Qed.

Lemma find_by_sch_found a n d h : found h a n -> store h !! a = Some d -> sch d = n ->
  find_device_by_sch n h = (h' ← dev_get a h; Ret (inr a, h')).
Proof.
  intros (l1 & l2 & El & Hl1) Hd Hn. unfold find_device_by_sch. rewrite El, find_in_skip.
  - cbn. unfold get_dev. rewrite Hd. cbn. by rewrite Hn, Z.eqb_refl.
  - eapply Forall_impl; [exact Hl1|]. intros b (_ & x & Hx & Hne). exists x. split; [done|]. by apply Z.eqb_neq.
Qed.

(** it depends on the table and the other devices only *)
Lemma found_frame a n h h' : found h a n -> devices h' = devices h ->
  (forall b, b <> a -> store h' !! b = store h !! b) -> found h' a n.
Proof.
  intros (l1 & l2 & El & Hl1) Hd Hs. exists l1, l2. rewrite Hd. split; [done|]. eapply Forall_impl; [exact Hl1|].
  intros b (Hne & x & Hx & Hn). split; [done|]. exists x. by rewrite Hs.
Qed.

Definition answers (p : probe) : Prop :=
  p_msch p = 0 /\ (forall n b, p_ssch p n b = 0) /\
  exists irb ints, p_ints p = (0, irb) :: ints /\ default_io_handler irb = 0.

Lemma linked_none o h : map_Forall (fun _ d => q_out d = []) (store h) -> linked o h = false.
Proof.
  intros H. unfold linked. apply not_true_is_false. intros ([a d] & Hin & Hb)%existsb_exists.
  apply list_elem_of_In, elem_of_map_to_list in Hin. apply bool_decide_eq_true in Hb. cbn in Hb.
  rewrite (H a d Hin) in Hb. set_solver.
Qed.

(** an operation on an idle device is started at once *)
Lemma submit_idle ssch a o op d h :
  store h !! a = Some d -> queue_of d = (None, []) -> ops h !! o = Some op -> linked o h = false ->
  (forall n b, ssch n b = 0) ->
  submit_io ssch a o h =
    Ret (Host (<[a := set_queue (Some o) [] d]> (store h)) (devices h) (device_types h)
          (<[o := IoOp (setf orb_param (s32 (op_id_counter h + 1)) (reset_reserved (orb op))) (handler op) (dtor op) 0 false]> (ops h))
          (s32 (op_id_counter h + 1)) (destroyed h)).
Proof.
  intros Hd Hq Ho Hl Hs. injection Hq as Hc Hq. unfold submit_io, get_op, get_dev. rewrite Ho, Hd.
  cbn [defined mbind outcome_bind]. cbv zeta. unfold linked in *. cbn [store]. rewrite Hl.
  unfold __submit_io, get_op, get_dev, put_dev. cbn [store ops]. rewrite lookup_insert_eq. cbn [defined mbind outcome_bind].
  cbn [set_queue q_cur q_out sch]. rewrite Hc, Hq. cbn [app q_out ops]. rewrite lookup_insert_eq.
  cbn [defined mbind outcome_bind]. rewrite Hs. cbn. by rewrite insert_insert_eq.
Qed.

(** project the members of what is built *)
Ltac host_simpl :=
  unfold put_dev, put_op, set_queue, set_refcnt, set_err, set_done;
  cbn [mbind outcome_bind defined bug_on andb negb store devices device_types ops op_id_counter destroyed put_dev put_op
       set_queue set_refcnt set_err set_done sch type model ccuu dev q_cur q_out attention in_use refcnt geom
       orb handler dtor err done].

(** and its interruption completes it *)
Lemma complete_idle ssch irb a o op d h :
  store h !! a = Some d -> queue_of d = (Some o, []) -> refcnt d = 1 -> found h a (sch d) -> ops h !! o = Some op ->
  handler op = None -> dtor op = false -> default_io_handler irb = 0 ->
  __io_int_handler ssch 0 irb (sch d) (getf orb_param (orb op)) h =
    Ret (Host (<[a := set_queue None [] d]> (store h)) (devices h) (device_types h)
          (<[o := IoOp (orb op) None false 0 true]> (ops h)) (op_id_counter h) (destroyed h)).
Proof.
  intros Hd Hq Hr Hf Ho Hh Hdt Hirb. injection Hq as Hc Hq. unfold __io_int_handler.
  rewrite (find_by_sch_found a _ d) by done. unfold dev_get, get_dev. rewrite Hd. host_simpl.
  rewrite Hr. change (1 <? 1) with false. change (s32 (1 + 1)) with 2. host_simpl.
  rewrite lookup_insert_eq. host_simpl. rewrite Hc. unfold get_op. host_simpl. rewrite Ho. host_simpl.
  rewrite !Z.eqb_refl. host_simpl.
  unfold __cpu_initiated_io, get_op, get_dev. host_simpl. rewrite Ho. host_simpl. cbv zeta. host_simpl.
  unfold tested_err. rewrite Hh, Hirb. change (test_sch 0 =? 0) with true. host_simpl.
  rewrite lookup_insert_eq. host_simpl. change (0 =? - EAGAIN) with false. host_simpl. rewrite insert_insert_eq.
  unfold __submit_io, get_dev. host_simpl. rewrite lookup_insert_eq. host_simpl. rewrite Hq. host_simpl. rewrite lookup_insert_eq. host_simpl.
  rewrite Hdt, insert_insert_eq. unfold dev_put, get_dev. host_simpl. rewrite lookup_insert_eq. host_simpl.
  change (s32 (2 - 1)) with 1. change (1 <? 1) with false. host_simpl. rewrite insert_insert_eq.
  reflexivity.
Qed.

Lemma wait_done_one ssch tcc irb ints ssid o op op' h h' :
  ops h !! o = Some op -> done op = false ->
  __io_int_handler ssch tcc irb ssid (getf orb_param (orb op)) h = Ret h' -> ops h' !! o = Some op' -> done op' = true ->
  wait_done ssch ((tcc, irb) :: ints) ssid o h = Ret h'.
Proof.
  intros Ho Hd Hi Ho' Hd'. cbn [wait_done]. unfold get_op. rewrite Ho. cbn [defined mbind outcome_bind]. rewrite Hd, Hi.
  cbn [mbind outcome_bind]. destruct ints as [|[? ?] ints]; cbn [wait_done]; unfold get_op; rewrite Ho'; cbn; by rewrite Hd'.
Qed.

Lemma simple_io_ok p a o ccw d h :
  store h !! a = Some d -> queue_of d = (None, []) -> refcnt d = 1 -> found h a (sch d) -> answers p ->
  map_Forall (fun _ d => q_out d = []) (store h) ->
  exists h', simple_io p a o ccw h = Ret (0, h') /\ same_table h h'.
Proof.
  intros Hd Hq Hr Hf (_ & Hssch & irb & ints & Hints & Hirb) Hidle. unfold simple_io, get_dev. rewrite Hd. host_simpl.
  set (op := IoOp _ _ _ _ _). rewrite (submit_idle _ _ _ op d); [|done|done|apply lookup_insert_eq|by apply linked_none|done].
  host_simpl. rewrite insert_insert_eq. set (op1 := IoOp _ _ _ _ _). rewrite Hints. set (h1 := Host _ _ _ _ _ _).
  assert (found h1 a (sch d)) as Hf1.
  { eapply found_frame; [exact Hf|done|]. intros b Hb. subst h1. host_simpl. by rewrite lookup_insert_ne. }
  pose proof (complete_idle (p_ssch p) irb a o op1 (set_queue (Some o) [] d) h1 (lookup_insert_eq _ _ _) eq_refl Hr Hf1
    (lookup_insert_eq _ _ _) eq_refl eq_refl Hirb) as Hc.
  rewrite (wait_done_one _ _ _ _ _ _ op1 _ _ _ (lookup_insert_eq _ _ _) eq_refl Hc (lookup_insert_eq _ _ _) eq_refl).
  unfold get_op. host_simpl. rewrite lookup_insert_eq. host_simpl. eexists. split; [done|]. unfold same_table. host_simpl.
  subst h1. host_simpl. split_and!; [|done|done]. rewrite insert_insert_eq. apply insert_id. rewrite Hd. f_equal.
  clear - Hq. destruct d. injection Hq as Hc Hq. cbn in Hc, Hq |- *. congruence.
Qed.

(** ** What the scan should find *)

(** the data of a command: big-endian numbers of one, two and four bytes *)
Definition byte_at (b : list Z) (i : nat) : Z := nth i b 0.
Definition half_at (b : list Z) (i : nat) : Z := 256 * byte_at b i + byte_at b (S i).
Definition word_at (b : list Z) (i : nat) : Z := 65536 * half_at b i + half_at b (S (S i)).

(** what a 3390 says of itself, with 12 records of 4096 bytes on a track; formula 1 has two numbers of two bytes, formula 2 five of
    one; of another formula the old members are left and the device is refused *)
Definition eckd_says (b : list Z) (old : geometry) : bool * geometry :=
  let g f1 f2 f3 f4 f5 := Eckd (half_at b 12) (half_at b 14) (half_at b 18) 12 (byte_at b 16) (byte_at b 22) f1 f2 f3 f4 f5 in
  if byte_at b 22 =? 1 then (true, g (byte_at b 23) (half_at b 24) (half_at b 26) 0 0)
  else if byte_at b 22 =? 2 then (true, g (byte_at b 23) (byte_at b 24) (byte_at b 25) (byte_at b 26) (byte_at b 27))
  else (false, match old with Eckd _ _ _ _ _ _ f1 f2 f3 f4 f5 => g f1 f2 f3 f4 f5 | _ => g 0 0 0 0 0 end).

(** a 9336 *)
Definition fba_says (b : list Z) : geometry := Fba (half_at b 4) (word_at b 6) (word_at b 10) (word_at b 14).

Definition has_device (p : probe) : bool :=
  match p_schib p with Some schib => negb (getf pmcw_v (schib_pmcw schib) =? 0) | None => false end.

Definition dev_num (p : probe) : Z :=
  match p_schib p with Some schib => getf pmcw_dev_num (schib_pmcw schib) | None => 0 end.

Definition identity (p : probe) : Z * Z :=
  match List.find (fun s => s.1 =? dev_num p) static_device_list with
  | Some s => s.2
  | None => let b := p_data p 0xe4 in (getf sense_dev_type b, getf sense_dev_model b)
  end.

Definition drivers : list device_type := [d3215; d3390; d9336; fake_type].

(** what a driver makes of a device: its return code and the geometry *)
Definition driver_answer (t : device_type) (p : probe) (d : device) : Z * geometry :=
  if dt_id t =? dt_id d3390 then
    if negb (bool_decide (model d ∈ [0x02; 0x06; 0x0a; 0x0c])) then (- ENOENT, geom d) else eckd_of (p_data p 0x64) (geom d)
  else
    if negb (bool_decide (model d ∈ [0x00; 0x10])) then (- ENOENT, geom d)
    else (0, Fba (b16 (p_data p 0x64) 4) (b32 (p_data p 0x64) 6) (b32 (p_data p 0x64) 10) (b32 (p_data p 0x64) 14)).

(** the entry for a subchannel, in the memory that held [g] *)
Definition table_entry (p : probe) (n : Z) (g : geometry) : device :=
  let '(ty, m) := identity p in
  let d t g := Device n ty m (dev_num p) t None [] 0 false 1 g in
  match driver_for drivers ty m with
  | None => d None g
  | Some t =>
      if dt_reg t then
        let '(ret, g) := driver_answer t p (d (Some t) g) in d (if ret =? 0 then Some t else None) g
      else d (Some t) g
  end.

Fixpoint table (n : Z) (ps : list probe) (mem : list (Z * device)) : list device :=
  match ps with
  | [] => []
  | p :: ps =>
      if has_device p then
        match mem with
        | (_, g) :: mem => table_entry p n (geom g) :: table (n + 1) ps mem
        | [] => []
        end
      else table (n + 1) ps mem
  end.

(** the operator's console does not identify itself; every other device does *)
Definition says (p : probe) : Z * Z :=
  if dev_num p =? 0x0009 then (0x3215, 0) else (half_at (p_data p 0xe4) 4, byte_at (p_data p 0xe4) 6).

(** the entry of a device, in memory that held the geometry [g].  A device that says it is nothing is taken for the type devices have
    before they are asked *)
Definition described (p : probe) (n : Z) (g : geometry) : device :=
  let '(ty, m) := says p in
  let entry t g := Device n ty m (dev_num p) t None [] 0 false 1 g in
  if bool_decide (ty = 0x3215 /\ m = 0) then entry (Some d3215) g
  else if bool_decide (ty = 0x3390 /\ m ∈ [0x02; 0x06; 0x0a; 0x0c]) then
    let '(ok, g) := eckd_says (p_data p 0x64) g in entry (if ok then Some d3390 else None) g
  else if bool_decide (ty = 0x9336 /\ m ∈ [0x00; 0x10]) then entry (Some d9336) (fba_says (p_data p 0x64))
  else if bool_decide (ty = 0 /\ m = 0) then entry (Some fake_type) g
  else entry None g.

(** one entry for each device, in the order of the subchannels from [n] on *)
Fixpoint found_devices (n : Z) (ps : list probe) (mem : list (Z * device)) : list device :=
  match ps, mem with
  | p :: ps', (_, old) :: mem' =>
      if has_device p then described p n (geom old) :: found_devices (n + 1) ps' mem' else found_devices (n + 1) ps' mem
  | _, _ => []
  end.

(** the answers have the lengths of the commands *)
Definition full_answers (p : probe) : Prop :=
  answers p /\ length (p_data p 0xe4) = 7%nat /\ Forall (fun c => 0 <= c < 256) (p_data p 0xe4) /\ length (p_data p 0x64) = 64%nat.

#[local] Ltac pow256 := repeat match goal with |- context [256 ^ ?k] => let v := eval vm_compute in (256 ^ k) in change (256 ^ k) with v end.

Lemma b8_at b i : (i < length b)%nat -> b8 b i = byte_at b i.
Proof.
  intros Hi. destruct (lookup_lt_is_Some_2 b i Hi) as [x Hx]. unfold b8, byte_at. rewrite (drop_S _ _ _ Hx), (nth_lookup_Some _ _ 0 _ Hx).
  cbn [take be_val]; rewrite ?take_0; cbn [be_val]. change (lenZ (@nil Z)) with 0. pow256. lia.
Qed.

Lemma b16_at b i : (S i < length b)%nat -> b16 b i = half_at b i.
Proof.
  intros Hi. destruct (lookup_lt_is_Some_2 b i ltac:(lia)) as [x Hx]. destruct (lookup_lt_is_Some_2 b (S i) Hi) as [y Hy].
  unfold b16, half_at, byte_at. rewrite (drop_S _ _ _ Hx), (drop_S _ _ _ Hy), (nth_lookup_Some _ _ 0 _ Hx), (nth_lookup_Some _ _ 0 _ Hy).
  cbn [take be_val]; rewrite ?take_0; cbn [be_val]. change (lenZ (@nil Z)) with 0. change (lenZ [y]) with 1. pow256. lia.
Qed.

Lemma b32_at b i : (S (S (S i)) < length b)%nat -> b32 b i = word_at b i.
Proof.
  intros Hi. destruct (lookup_lt_is_Some_2 b i ltac:(lia)) as [x Hx]. destruct (lookup_lt_is_Some_2 b (S i) ltac:(lia)) as [y Hy].
  destruct (lookup_lt_is_Some_2 b (S (S i)) ltac:(lia)) as [z Hz]. destruct (lookup_lt_is_Some_2 b (S (S (S i))) Hi) as [w Hw].
  unfold b32, word_at, half_at, byte_at. rewrite (drop_S _ _ _ Hx), (drop_S _ _ _ Hy), (drop_S _ _ _ Hz), (drop_S _ _ _ Hw).
  rewrite (nth_lookup_Some _ _ 0 _ Hx), (nth_lookup_Some _ _ 0 _ Hy), (nth_lookup_Some _ _ 0 _ Hz), (nth_lookup_Some _ _ 0 _ Hw).
  cbn [take be_val]; rewrite ?take_0; cbn [be_val]. change (lenZ (@nil Z)) with 0. change (lenZ [w]) with 1. change (lenZ [z; w]) with 2. change (lenZ [y; z; w]) with 3. pow256. lia.
Qed.

Lemma sense_at b : length b = 7%nat -> Forall (fun c => 0 <= c < 256) b -> getf sense_dev_type b = half_at b 4 /\ getf sense_dev_model b = byte_at b 6.
Proof.
  intros Hl Hb. do 7 (destruct b as [|? b]; [done|]). destruct b; [|done]. repeat (apply Forall_cons in Hb as [? Hb]). clear Hb Hl.
  unfold getf, half_at, byte_at, f_pos, sense_dev_type, sense_dev_model. cbn [f_off f_width nth]. rewrite !Z.land_ones, !Z.shiftr_div_pow2 by (vm_compute; done).
  unfold be_val, lenZ. cbn [length]. split.
  - change (8 * Z.of_nat 7 - 32 - 16) with 8. change (2 ^ 8) with 256. change (2 ^ 16) with 65536. cbn [Z.of_nat Pos.of_succ_nat Pos.succ].
    pow256. divlia.
  - change (8 * Z.of_nat 7 - 48 - 8) with 0. change (2 ^ 0) with 1. change (2 ^ 8) with 256. rewrite Z.div_1_r. cbn [Z.of_nat Pos.of_succ_nat Pos.succ]. pow256. divlia.
Qed.

Lemma identity_says p : full_answers p -> identity p = says p.
Proof.
  intros (_ & Hl & Hb & _). unfold identity, says. cbn [List.find static_device_list fst snd]. rewrite Z.eqb_sym. destruct (dev_num p =? 9); [done|].
  destruct (sense_at _ Hl Hb) as [-> ->]. done.
Qed.

Lemma table_entry_described p n g : full_answers p -> table_entry p n g = described p n g.
Proof.
  intros Hp. unfold table_entry, described. rewrite (identity_says p Hp). destruct Hp as (_ & _ & _ & Hl). destruct (says p) as [ty m].
  assert (eckd_of (p_data p 0x64) g = (if (eckd_says (p_data p 0x64) g).1 then 0 else - EINVAL, (eckd_says (p_data p 0x64) g).2)) as He.
  { unfold eckd_of, eckd_says. rewrite !b8_at, !b16_at by lia. change (u16 (d3390_recs_per_track 0 4096)) with 12.
    repeat case_match; done. }
  unfold driver_for, drivers. cbn [List.find dt_type dt_model all_models d3215 d3390 d9336 fake_type orb].
  rewrite !andb_true_r, (Z.eqb_sym 0 m), !(Z.eqb_sym _ ty).
  destruct (Z.eqb_spec ty 0x3215) as [->|H1]; [|destruct (Z.eqb_spec ty 0x3390) as [->|H2]; [|destruct (Z.eqb_spec ty 0x9336) as [->|H3]; [|destruct (Z.eqb_spec ty 0) as [->|H4]]]].
  - cbn [Z.eqb Pos.eqb andb]. destruct (Z.eqb_spec m 0) as [->|Hm].
    + rewrite bool_decide_true by done. done.
    + do 4 (rewrite bool_decide_false by naive_solver). done.
  - cbn [Z.eqb Pos.eqb andb]. rewrite bool_decide_false by naive_solver. cbn [dt_reg d3390]. unfold driver_answer. cbn [dt_id d3390 Z.eqb Pos.eqb model geom].
    destruct (bool_decide (m ∈ [0x02; 0x06; 0x0a; 0x0c])) eqn:Em; cbn [negb].
    + apply bool_decide_eq_true in Em. rewrite bool_decide_true by done. rewrite He. by destruct (eckd_says _ _) as [[] ?].
    + apply bool_decide_eq_false in Em. do 3 (rewrite bool_decide_false by naive_solver). done.
  - cbn [Z.eqb Pos.eqb andb]. do 2 (rewrite bool_decide_false by naive_solver). cbn [dt_reg d9336]. unfold driver_answer. cbn [dt_id d9336 d3390 Z.eqb Pos.eqb model geom].
    destruct (bool_decide (m ∈ [0x00; 0x10])) eqn:Em; cbn [negb].
    + apply bool_decide_eq_true in Em. rewrite bool_decide_true by done. unfold fba_says. by rewrite b16_at, !b32_at by lia.
    + apply bool_decide_eq_false in Em. do 2 (rewrite bool_decide_false by naive_solver). done.
  - cbn [Z.eqb Pos.eqb andb]. do 3 (rewrite bool_decide_false by naive_solver). destruct (Z.eqb_spec m 0) as [->|Hm].
    + by rewrite bool_decide_true.
    + by rewrite bool_decide_false by naive_solver.
  - cbn [andb]. do 4 (rewrite bool_decide_false by naive_solver). done.
Qed.

Lemma table_found ps : Forall (fun p => has_device p = true -> full_answers p) ps -> forall n mem,
  (length (filter has_device ps) <= length mem)%nat -> table n ps mem = found_devices n ps mem.
Proof.
  induction 1 as [|p ps Hp _ IH]; intros n mem Hl; [by destruct mem|]. cbn [table found_devices].
  destruct (has_device p) eqn:E.
  - rewrite filter_cons_True in Hl by (by rewrite E). destruct mem as [|[a g] mem]; [done|]. cbn [length] in Hl.
    rewrite table_entry_described by auto. f_equal. apply IH. lia.
  - rewrite filter_cons_False in Hl by (rewrite E; intros []). destruct mem as [|[a g] mem]; [|by apply IH].
    rewrite IH by done. by destruct ps.
Qed.

(** ** The steps of the scan *)

Definition table_is (h h' : host) (st : gmap Z device) : Prop :=
  store h' = st /\ devices h' = devices h /\ device_types h' = device_types h.

(** the device at [a] can do I/O *)
Record usable (h : host) (a : Z) (d : device) : Prop := Usable {
  us_store : store h !! a = Some d;
  us_queue : queue_of d = (None, []);
  us_refcnt : refcnt d = 1;
  us_found : found h a (sch d);
  us_idle : map_Forall (fun _ d => q_out d = []) (store h);
}.

Lemma usable_io p a o ccw d h : usable h a d -> answers p ->
  exists h', simple_io p a o ccw h = Ret (0, h') /\ same_table h h'.
Proof. intros [] Hp. by apply (simple_io_ok p a o ccw d h). Qed.

Lemma usable_put a d d' h : usable h a d -> queue_of d' = (None, []) -> refcnt d' = 1 -> sch d' = sch d ->
  usable (put_dev a d' h) a d'.
Proof.
  intros [] Hq Hr Hs. split; [apply lookup_insert_eq|done|done| |].
  - rewrite Hs. eapply found_frame; [done|done|]. intros b Hb. by apply lookup_insert_ne.
  - apply map_Forall_insert_2; [by injection Hq|done].
Qed.

Lemma reg_ok t p a o ccw d h : usable h a d -> answers p -> dt_id t = dt_id d3390 \/ dt_id t = dt_id d9336 ->
  exists h', reg t p a o ccw h = Ret ((driver_answer t p d).1, h') /\
    table_is h h' (<[a := set_geom (driver_answer t p d).2 d]> (store h)).
Proof.
  intros Hu Hp Ht. destruct (usable_io p a o ccw d h Hu Hp) as (h1 & E & Hs & Hd & Hty).
  pose proof (us_store _ _ _ Hu) as Ha. assert (set_geom (geom d) d = d) as Hg by (by destruct d).
  unfold reg, driver_answer. destruct Ht as [-> | ->]; cbn [Z.eqb dt_id d3390 d9336 Pos.eqb].
  - unfold d3390_reg, get_dev. rewrite Ha. cbn [defined mbind outcome_bind]. destruct (negb _).
    + eexists. split; [done|]. cbn [snd]. rewrite Hg. split; [by rewrite insert_id|done].
    + rewrite E. cbn [mbind outcome_bind]. rewrite Hs, Ha. cbn [defined mbind outcome_bind].
      change (getf ccw_cmd (rdc_ccw 0)) with 0x64. destruct (eckd_of _ _) as [ret g]. eexists. split; [done|].
      cbn [snd]. unfold table_is, put_dev. cbn. by rewrite Hs.
  - unfold d9336_reg, get_dev. rewrite Ha. cbn [defined mbind outcome_bind]. destruct (negb _).
    + eexists. split; [done|]. cbn [snd]. rewrite Hg. split; [by rewrite insert_id|done].
    + rewrite E. cbn [mbind outcome_bind]. rewrite Hs, Ha. cbn [defined mbind outcome_bind].
      change (getf ccw_cmd (rdc_ccw 0)) with 0x64. eexists. split; [done|].
      cbn [snd]. unfold table_is, put_dev. cbn. by rewrite Hs.
Qed.

(** the first registration, under the fake type *)
Lemma register_fake p o ccw a d h :
  store h !! a = Some d -> type d = 0 -> model d = 0 -> device_types h = drivers -> a ∉ devices h ->
  __register_device p o ccw a false h =
    Ret (0, set_devices (devices h ++ [a]) (put_dev a (new_references (Some fake_type) d) h)).
Proof.
  intros Hd Ht Hm Hty Ha. unfold __register_device, get_dev. rewrite Hd, Hty. cbn [defined mbind outcome_bind].
  rewrite Ht, Hm. change (driver_for drivers 0 0) with (Some fake_type). cbn [dt_reg fake_type mbind outcome_bind].
  by rewrite bool_decide_false.
Qed.

(** what the driver found for a device makes of it *)
Definition registration (p : probe) (d : device) : Z * geometry :=
  match driver_for drivers (type d) (model d) with
  | Some t => if dt_reg t then driver_answer t p d else (0, geom d)
  | None => (- ENOENT, geom d)
  end.

Definition registered (p : probe) (d : device) : device :=
  let '(err, g) := registration p d in
  set_geom g (new_references (if err =? 0 then driver_for drivers (type d) (model d) else None) d).

Lemma driver_with_reg ty m t : driver_for drivers ty m = Some t -> dt_reg t = true ->
  dt_id t = dt_id d3390 \/ dt_id t = dt_id d9336.
Proof. intros [Hin _]%List.find_some. cbn in Hin. destruct Hin as [<-|[<-|[<-|[<-|[]]]]]; cbn; intros Hr; try discriminate Hr; auto. Qed.

Lemma filter_last (a : Z) l : a ∉ l -> base.filter (.≠ a) (l ++ [a]) = l.
Proof.
  intros Ha. rewrite list.filter_app, filter_cons_False by (by intros []). rewrite filter_nil, app_nil_r.
  induction l as [|b l IH]; [done|]. rewrite filter_cons_True by set_solver. f_equal. apply IH. set_solver.
Qed.

(** the second, with the type and model known *)
Lemma register_again p o ccw a d l h :
  usable h a d -> answers p -> devices h = l ++ [a] -> a ∉ l -> device_types h = drivers ->
  exists err h', __register_device p o ccw a true h = Ret (err, h') /\
    store h' = <[a := registered p d]> (store h) /\ devices h' = l ++ [a] /\ device_types h' = drivers.
Proof.
  intros Hu Hp Hdev Ha Hty. pose proof (us_store _ _ _ Hu) as Hd. unfold __register_device, get_dev, registered, registration.
  rewrite Hd, Hty. cbn [defined mbind outcome_bind].
  assert (forall h1 e, devices h1 = l ++ [a] -> (let h1 := set_devices (base.filter (.≠ a) (devices h1)) h1 in
     if bool_decide (a ∈ devices h1) then Undef else Ret (e : Z, set_devices (devices h1 ++ [a]) h1)) =
     Ret (e, set_devices (l ++ [a]) h1)) as Hlink.
  { intros h1 e E. cbn. rewrite E, filter_last by done. by rewrite bool_decide_false. }
  destruct (driver_for drivers (type d) (model d)) as [t|] eqn:Et.
  - destruct (dt_reg t) eqn:Er.
    + assert (usable (put_dev a (new_references (Some t) d) h) a (new_references (Some t) d)) as Hu1
        by (apply (usable_put a d); [done|by destruct Hu|done..]).
      destruct (reg_ok t p a o ccw _ _ Hu1 Hp (driver_with_reg _ _ _ Et Er)) as (h1 & E & Hs & Hd1 & Hty1).
      assert (driver_answer t p (new_references (Some t) d) = driver_answer t p d) as Hans by (by destruct d).
      rewrite Hans in *. rewrite E. cbn [mbind outcome_bind].
      rewrite Hs, lookup_insert_eq. cbn [defined mbind outcome_bind]. destruct (driver_answer t p d) as [e g]. cbn [fst snd] in *.
      rewrite Hlink by (destruct (e =? 0); cbn; by rewrite Hd1). do 2 eexists. split; [done|].
      destruct (e =? 0); cbn; rewrite Hs; cbn; rewrite !insert_insert_eq, Hty1; by split_and!.
    + cbn [mbind outcome_bind]. rewrite Hlink by done. do 2 eexists. by split; [done|].
  - cbn [mbind outcome_bind]. rewrite Hlink by done. do 2 eexists. by split; [done|].
Qed.

(** ** The scan *)

(** [l] are the entries so far, of subchannels below [n], [ds] what they hold *)
Record scanned (n : Z) (l : list Z) (ds : list device) (mem : list (Z * device)) (h : host) : Prop := Scanned {
  sc_devices : devices h = l;
  sc_types : device_types h = drivers;
  sc_entries : Forall2 (fun a d => store h !! a = Some d) l ds;
  sc_below : Forall (fun d => sch d < n) ds;
  sc_idle : map_Forall (fun _ d => q_out d = []) (store h);
  sc_fresh : NoDup (l ++ mem.*1);
}.

(** memory nobody has written to *)
Definition zeroed (g : device) : Prop := type g = 0 /\ model g = 0 /\ q_cur g = None.

Lemma scanned_mono n l ds mem h : scanned n l ds mem h -> scanned (n + 1) l ds mem h.
Proof. intros []. split; try done. eapply Forall_impl; [done|]. cbn. lia. Qed.


Lemma entries_insert (st : gmap Z device) a d l ds : a ∉ l ->
  Forall2 (fun b x => st !! b = Some x) l ds -> Forall2 (fun b x => <[a := d]> st !! b = Some x) l ds.
Proof.
  intros Ha H. induction H as [|b x l ds Hb _ IH]; constructor.
  - rewrite lookup_insert_ne; [done|]. set_solver.
  - apply IH. set_solver.
Qed.

(** the last entry is the first one with its subchannel *)
Lemma last_found n h l ds a d : devices h = l ++ [a] -> a ∉ l -> Forall2 (fun b x => store h !! b = Some x) l ds ->
  Forall (fun d => sch d < n) ds -> sch d = n -> found h a (sch d).
Proof.
  intros Hd Ha He Hb Hn. exists l, []. split; [done|]. rewrite Hn. clear Hd. revert ds He Hb.
  induction l as [|b l IH]; intros ds He Hb; [constructor|]. inversion He; subst. apply Forall_cons in Hb as [Hlt Hb].
  constructor; [split; [set_solver|eexists; split; [done|]; lia]|]. eapply IH; [set_solver|done|done].
Qed.

Lemma table_entry_registered p n g :
  table_entry p n g =
    registered p (Device n (identity p).1 (identity p).2 (dev_num p) (Some fake_type) None [] 0 false 1 g).
Proof.
  unfold table_entry, registered, registration. destruct (identity p) as [ty m]. cbn [fst snd type model].
  destruct (driver_for drivers ty m) as [t|]; [|done]. destruct (dt_reg t); [|done].
  unfold driver_answer. cbn [model geom]. by destruct (dt_id t =? dt_id d3390), (negb _).
Qed.

Lemma sense_ok p a o ccw d h : usable h a d -> answers p ->
  exists h', do_sense_id p a (dev_num p) o ccw h = Ret (0, identity p, h') /\ same_table h h'.
Proof.
  intros Hu Hp. unfold do_sense_id, identity. destruct (List.find _ _) as [x|]; [by exists h|].
  destruct (usable_io p a o ccw d h Hu Hp) as (h' & E & Hs). exists h'. rewrite E. cbn [mbind outcome_bind].
  change (getf ccw_cmd (sense_ccw 0)) with 0xe4. done.
Qed.

Lemma get_dev_put a d h : get_dev a (put_dev a d h) = Ret d.
Proof. unfold get_dev, put_dev. cbn [store]. by rewrite lookup_insert_eq. Qed.

Lemma get_dev_store a d h : store h !! a = Some d -> get_dev a h = Ret d.
Proof. unfold get_dev. by intros ->. Qed.

(** the new device, registered under the fake type *)
Definition probed (n : Z) (g : device) : device := Device n 0 0 (ccuu g) (Some fake_type) None [] 0 false 1 (geom g).

Lemma probed_usable n l ds a g mem h : scanned n l ds ((a, g) :: mem) h -> a ∉ l ->
  usable (set_devices (l ++ [a]) (put_dev a (probed n g) h)) a (probed n g).
Proof.
  intros [] Ha. split; [apply lookup_insert_eq|done|done| |].
  - eapply (last_found n _ l ds); [done|done| |done|done]. by apply entries_insert.
  - by apply map_Forall_insert_2.
Qed.

(** a subchannel whose device answers gets the next entry *)
Lemma scan_sch_entry o ccw n p l ds a g mem h :
  scanned n l ds ((a, g) :: mem) h -> has_device p = true -> answers p -> zeroed g ->
  exists h', scan_sch o ccw n p (Scan None ((a, g) :: mem) h) = Ret (Scan None mem h') /\
    scanned (n + 1) (l ++ [a]) (ds ++ [table_entry p n (geom g)]) mem h'.
Proof.
  intros Hsc Hhas Hp (Hz1 & Hz2 & Hz3). pose proof Hsc as [Hdev Hty He Hb Hi Hf]. pose proof Hp as (Hm & _ & _).
  assert (a ∉ l) as Ha.
  { cbn in Hf. apply NoDup_app in Hf as (_ & Hf & _). intros Hin. apply (Hf a Hin). set_solver. }
  set (h1 := set_devices (l ++ [a]) (put_dev a (probed n g) h)).
  pose proof (probed_usable _ _ _ _ _ _ _ Hsc Ha) as Hu1. fold h1 in Hu1.
  destruct (sense_ok p a o ccw _ _ Hu1 Hp) as (h2 & Esense & Hs2 & Hd2 & Ht2).
  set (d2 := set_identity (identity p).1 (identity p).2 (dev_num p) (probed n g)).
  assert (usable (put_dev a d2 h2) a d2) as Hu2.
  { apply (usable_put a (probed n g)); [|done..]. destruct Hu1. split; rewrite ?Hs2; try done.
    eapply found_frame; [done|done|]. by intros; rewrite Hs2. }
  destruct (register_again p o ccw a d2 l (put_dev a d2 h2) Hu2 Hp) as (err & h3 & Ereg & Hs3 & Hd3 & Ht3);
    [by cbn; rewrite Hd2|done|by cbn; rewrite Ht2|].
  set (D := set_attention 0 (set_queue (q_cur g) [] (set_dev (Some fake_type) g))).
  assert (__register_device p o ccw a false (put_dev a (set_sch n D) (put_dev a D h)) = Ret (0, h1)) as Efake.
  { rewrite (register_fake p o ccw a (set_sch n D)); [|apply lookup_insert_eq|done|done|done|by cbn; rewrite Hdev].
    subst h1. unfold set_devices, put_dev. cbn [store devices device_types ops op_id_counter destroyed].
    rewrite !insert_insert_eq, Hdev. do 4 f_equal. unfold new_references, set_sch, probed. cbn. by rewrite Hz1, Hz2, Hz3. }
  exists h3. split.
  - unfold scan_sch. unfold has_device in Hhas. unfold dev_num in Esense, d2.
    destruct (p_schib p) as [schib|] eqn:Es; [|done].
    apply negb_true_iff in Hhas. rewrite Hhas. unfold alloc_device. cbn [s_dev s_mem s_host mbind outcome_bind].
    rewrite Hm. change (negb (modify_sch 0 =? 0)) with false. cbn match. fold D. rewrite get_dev_put. cbn [mbind outcome_bind]. rewrite Efake. cbn [mbind outcome_bind bug_on negb Z.eqb].
    rewrite (get_dev_store _ _ _ (us_store _ _ _ Hu1)). cbn [mbind outcome_bind].
    change (bug_on _) with (Ret tt). cbn [mbind outcome_bind]. rewrite Esense. destruct (identity p) as [ty m].
    cbn [mbind outcome_bind negb Z.eqb].
    rewrite (get_dev_store a (probed n g)) by (rewrite Hs2; apply Hu1). cbn [mbind outcome_bind].
    unfold d2 in Ereg. cbn [fst snd] in Ereg. rewrite Ereg. done.
  - assert (sch (registered p d2) = n /\ q_out (registered p d2) = []) as [Hn Hq].
    { unfold registered. by destruct (registration p d2). }
    rewrite table_entry_registered. change (Device n _ _ _ _ _ _ _ _ _ _) with d2. unfold put_dev in Hs3. cbn [store] in Hs3.
    rewrite insert_insert_eq, Hs2 in Hs3. unfold h1 in Hs3. cbn [store set_devices put_dev] in Hs3. rewrite insert_insert_eq in Hs3.
    split; rewrite ?Hs3; try done.
    + apply Forall2_app; [by apply entries_insert|]. constructor; [apply lookup_insert_eq|constructor].
    + apply Forall_app. split; [eapply Forall_impl; [exact Hb|]; cbn; lia|]. constructor; [lia|constructor].
    + by apply map_Forall_insert_2.
    + rewrite <- app_assoc. exact Hf.
Qed.

Lemma scan_loop_table o ccw ps : forall n l ds mem h,
  scanned n l ds mem h -> Forall (fun p => has_device p = true -> answers p) ps ->
  Forall zeroed mem.*2 -> (length (filter has_device ps) <= length mem)%nat ->
  exists mem' h', scan_loop o ccw n ps (Scan None mem h) = Ret (Scan None mem' h') /\
    devices h' = l ++ take (length (filter has_device ps)) mem.*1 /\ device_types h' = drivers /\
    Forall2 (fun a d => store h' !! a = Some d) (devices h') (ds ++ table n ps mem).
Proof.
  induction ps as [|p ps IH]; intros n l ds mem h Hsc Hans Hz Hlen; cbn [scan_loop table].
  - exists mem, h. cbn. rewrite !app_nil_r. destruct Hsc. split_and!; [done|done|done|]. by rewrite sc_devices0.
  - apply Forall_cons in Hans as [Hp Hans]. destruct (has_device p) eqn:Ehas.
    + rewrite filter_cons_True in * by (by rewrite Ehas). destruct mem as [|[a g] mem]; [cbn in Hlen; lia|].
      cbn in Hz, Hlen. apply Forall_cons in Hz as [Hg Hz].
      destruct (scan_sch_entry o ccw n p l ds a g mem h Hsc Ehas (Hp eq_refl) Hg) as (h1 & E & Hsc1).
      rewrite E. cbn [mbind outcome_bind].
      destruct (IH (n + 1) _ _ mem h1 Hsc1 Hans Hz ltac:(lia)) as (mem' & h' & E' & Hd & Ht & He).
      exists mem', h'. rewrite E', Hd. rewrite Hd in He. rewrite <- !app_assoc in *. by split_and!.
    + assert (filter has_device (p :: ps) = filter has_device ps) as Hfl by (apply filter_cons_False; rewrite Ehas; intros []).
      rewrite Hfl in *.
      assert (scan_sch o ccw n p (Scan None mem h) = Ret (Scan None mem h)) as ->.
      { unfold scan_sch, has_device in *. destruct (p_schib p); [|done]. by apply negb_false_iff in Ehas as ->. }
      cbn [mbind outcome_bind]. apply IH; [by apply scanned_mono|done..].
Qed.

(** C22: When the subchannels' devices answer, the scan fills the table with exactly
    the valid devices, in the order of their subchannels: each entry has its
    subchannel, its number, its type and model (those of a 3215 for device 9, of
    SENSE ID otherwise), the driver for them unless the driver refused the device,
    and the geometry READ DEVICE CHARACTERISTICS gave, byte by byte.  The members
    type, model and q_cur of every object that malloc hands out must be zero: the
    code does not clear them, registers the new device by its type and model before
    it asks for them (device.c:307), and stops the machine when they are others. *)
Theorem scan_devices_table o ccw ps mem h
    (Hempty : store h = ∅ /\ devices h = []) (Htypes : device_types h = [d3215; d3390; d9336])
    (Hans : Forall (fun p => has_device p = true -> full_answers p) ps)
    (Hmem : NoDup mem.*1 /\ Forall zeroed mem.*2 /\ (length (filter has_device ps) <= length mem)%nat) :
  exists h', scan_devices o ccw ps mem h = Ret h' /\ device_types h' = [d3215; d3390; d9336] /\
    devices h' = take (length (filter has_device ps)) mem.*1 /\
    Forall2 (fun a d => store h' !! a = Some d) (devices h') (found_devices 0x10000 ps mem).
Proof.
  rewrite <- (table_found ps Hans) by apply Hmem.
  assert (Forall (fun p => has_device p = true -> answers p) ps) as Hans' by (eapply Forall_impl; [exact Hans|]; intros p Hp Hd; apply Hp, Hd).
  destruct Hempty as [Hst Hdev]. destruct Hmem as (Hnd & Hz & Hlen). unfold scan_devices, register_device_type.
  rewrite Htypes. change (existsb _ _) with false. cbn [bug_on negb Z.eqb mbind outcome_bind].
  set (h0 := set_types _ h).
  assert (scanned 0x10000 [] [] mem h0) as H0.
  { split; [done|done|constructor|constructor| |done]. subst h0. cbn. rewrite Hst. apply map_Forall_empty. }
  destruct (scan_loop_table o ccw ps _ _ _ mem h0 H0 Hans' Hz Hlen) as (mem' & h1 & E & Hd & Ht & He).
  rewrite E. cbn [mbind outcome_bind s_host s_dev]. eexists. split; [done|].
  cbn [device_types devices store unregister_device_type set_types]. rewrite Ht. split_and!; [done|by rewrite Hd|exact He].
Qed.

(** ** Where a block is *)

Lemma recs_per_track_4096 : d3390_recs_per_track 0 4096 = 12.
Proof. reflexivity. Qed.

(** The seek and search arguments for block [lba] of a 3390 name the cylinder,
    head and record of the block: blocks are numbered from 1 along the records of
    a track, then the tracks of a cylinder; the head is below the number of tracks
    and the record between 1 and the number of records.  Different blocks have
    different arguments; blocks below 1 are refused. *)
Theorem d3390_read_address d cmds seek search buf lba cyls tracks len recs sectors formula f1 f2 f3 f4 f5
    (Hgeom : geom d = Eckd cyls tracks len recs sectors formula f1 f2 f3 f4 f5)
    (Ht : 0 < tracks < 2 ^ 16) (Hr : 0 < recs < 2 ^ 8) (Hlba : lba - 1 < 2 ^ 16 * (tracks * recs)) :
  if lba <? 1 then d3390_read d cmds seek search buf lba = Ret (inl (- EINVAL)) else
  exists ccws cc hh r, d3390_read d cmds seek search buf lba =
      Ret (inr (ccws, [0; 0] ++ be_bytes 2 cc ++ be_bytes 2 hh, be_bytes 2 cc ++ be_bytes 2 hh ++ [r])) /\
    lba = (cc * tracks + hh) * recs + r /\ 0 <= cc < 2 ^ 16 /\ 0 <= hh < tracks /\ 1 <= r <= recs.
Proof.
  unfold d3390_read. rewrite Hgeom. destruct (Z.ltb_spec lba 1); [done|]. cbv zeta.
  destruct (Z.eqb_spec (tracks * recs) 0); [nia|]. destruct (Z.eqb_spec recs 0); [lia|]. cbn [orb].
  set (b := lba - 1) in *. set (rpc := tracks * recs) in *. assert (0 < rpc) by (subst rpc; nia).
  pose proof (Z.div_mod b rpc ltac:(lia)) as E1. pose proof (Z.mod_pos_bound b rpc ltac:(lia)) as B1.
  pose proof (Z.div_mod (b mod rpc) recs ltac:(lia)) as E2. pose proof (Z.mod_pos_bound (b mod rpc) recs ltac:(lia)) as B2.
  set (cc := b / rpc) in *. set (hh := b mod rpc / recs) in *. set (r := (b mod rpc) mod recs) in *.
  assert (0 <= cc < 2 ^ 16) as Hcc by (subst cc; split; [apply Z.div_pos; lia|apply Z.div_lt_upper_bound; lia]).
  assert (0 <= hh < tracks) as Hhh by (subst hh; split; [apply Z.div_pos; lia|apply Z.div_lt_upper_bound; nia]).
  rewrite (wrap_small 16 cc), (wrap_small 16 hh), (wrap_small 16 r), (wrap_small 16 (r + 1)), (wrap_small 8 (r + 1)) by lia.
  eexists _, cc, hh, (r + 1). split; [done|]. subst rpc. split_and!; lia.
Qed.

(** the standard model 3 disk *)
Definition sample_3390 : device :=
  Device 0x10000 0x3390 0x0a 0x191 (Some d3390) None [] 0 false 1 (Eckd 3339 15 58786 12 0 2 0 0 0 0 0).

Lemma d3390_read_address_witness :
  exists ccws cc hh r, d3390_read sample_3390 0x1000 0x1020 0x1028 0x2000 200 =
      Ret (inr (ccws, [0; 0] ++ be_bytes 2 cc ++ be_bytes 2 hh, be_bytes 2 cc ++ be_bytes 2 hh ++ [r])) /\
    200 = (cc * 15 + hh) * 12 + r /\ 0 <= cc < 2 ^ 16 /\ 0 <= hh < 15 /\ 1 <= r <= 12.
Proof.
  apply (d3390_read_address sample_3390 0x1000 0x1020 0x1028 0x2000 200 3339 15 58786 12 0 2 0 0 0 0 0); [done|lia..].
Defined.

(** ** A machine with an operator console, an unused subchannel and a disk *)

Definition end_irb : list Z := setf scsw_dev_status 0x0c (zeros scsw_size) ++ zeros 84.

Definition rdc_3390 : list Z :=
  zeros 12 ++ be_bytes 2 3339 ++ be_bytes 2 15 ++ [0xe0; 0] ++ be_bytes 2 58786 ++ [0; 0] ++ [2; 32; 19; 9; 34; 6] ++ zeros 36.

Definition sample_probe (num ty m : Z) : probe :=
  Probe (Some (setf pmcw_v 1 (setf pmcw_dev_num num (zeros pmcw_size)) ++ zeros 24)) 0 (fun _ _ => 0) [(0, end_irb)]
    (fun cmd => if cmd =? 0xe4 then [0xff; 0x39; 0x90; 0xe9] ++ be_bytes 2 ty ++ [m] else rdc_3390).

Definition no_device : probe := Probe None 0 (fun _ _ => 0) [] (fun _ => []).

Definition sample_probes : list probe := [sample_probe 0x0009 0 0; no_device; sample_probe 0x0191 0x3390 0x0a].

Definition blank : device := Device 0 0 0 0 None None [] 0 false 0 NoGeometry.

Definition boot_host : host := register_drivers (Host ∅ [] [] ∅ 0 []).

Lemma scan_devices_table_witness :
  exists h', scan_devices 0x7000 0x7080 sample_probes [(0x100, blank); (0x200, blank)] boot_host = Ret h' /\
    device_types h' = [d3215; d3390; d9336] /\ devices h' = [0x100; 0x200] /\
    Forall2 (fun a d => store h' !! a = Some d) (devices h')
      [Device 0x10000 0x3215 0 9 (Some d3215) None [] 0 false 1 NoGeometry;
       Device 0x10002 0x3390 0x0a 0x191 (Some d3390) None [] 0 false 1 (Eckd 3339 15 58786 12 0xe0 2 32 19 9 34 6)].
Proof.
  assert (found_devices 0x10000 sample_probes [(0x100, blank); (0x200, blank)] =
    [Device 0x10000 0x3215 0 9 (Some d3215) None [] 0 false 1 NoGeometry;
     Device 0x10002 0x3390 0x0a 0x191 (Some d3390) None [] 0 false 1 (Eckd 3339 15 58786 12 0xe0 2 32 19 9 34 6)]) as <-
    by (by vm_compute).
  apply (scan_devices_table 0x7000 0x7080 sample_probes [(0x100, blank); (0x200, blank)] boot_host); [done|done| |].
  - assert (forall n t m, answers (sample_probe n t m)) as Ha
      by (intros; split; [done|split; [done|]]; exists end_irb, []; split; [done|by vm_compute]).
    constructor; [|constructor; [intros H; by vm_compute in H|constructor; [|constructor]]]; intros _; (split; [apply Ha|]);
      (split; [done|split; [by apply (bool_decide_unpack _); vm_compute|done]]).
  - split; [by apply (bool_decide_unpack _); vm_compute|]. split; [by repeat constructor|by vm_compute].
Defined.

(** a device that does not identify itself stays in the table and is linked again
    for the next subchannel *)
Example scan_links_twice :
  let fails p := Probe (p_schib p) (p_msch p) (p_ssch p) [(0, setf scsw_dev_status 0x02 (zeros scsw_size) ++ zeros 84)] (p_data p) in
  scan_devices 0x7000 0x7080 [fails (sample_probe 0x0190 0 0); sample_probe 0x0191 0x3390 0x0a]
    [(0x100, blank); (0x200, blank)] boot_host = Undef.
Proof. by vm_compute. Qed.
