(* ===== verification/VirtIo.v ===== *)
(** cp/guest/intercept.c, instruction.c, instruction_priv.c, cp/drivers/spooldev.c,
    spooldev_cons.c and vdevice.c: interceptions, the I/O instructions of a
    guest, and channel programs on virtual consoles.

    The handlers are operations on the virtual machine of Guest.v; MSCH, SSCH,
    STSCH and TSCH work on the subchannel structures of a virtual device, SSCH
    runs the channel program with the spool files of Spool.v.  The theorems: the
    states a subchannel goes through, the channel programs that end, and what a
    console's channel program writes. *)

From S2P Require Import Prelude Layout Dat Spool Guest.

Local Open Scope Z_scope.

#[local] Arguments cons {A} & a l.

(** ** Channel programs *)

(** [struct spdev_state] *)
Record spdev_state := SpdevState {
  dev_status : Z;
  sch_status : Z;
  addr : Z;       (* of the CCW *)
  f : Z;          (* CCW format *)
  iobuf : list Z;
  rem : Z;
  pos : Z;
  cd : bool;
  tic2tic : bool;
}.

Definition set_dev_status (v : Z) (st : spdev_state) : spdev_state :=
  SpdevState v (sch_status st) (addr st) (f st) (iobuf st) (rem st) (pos st) (cd st) (tic2tic st).
Definition set_sch_status (v : Z) (st : spdev_state) : spdev_state :=
  SpdevState (dev_status st) v (addr st) (f st) (iobuf st) (rem st) (pos st) (cd st) (tic2tic st).
Definition set_addr (v : Z) (st : spdev_state) : spdev_state :=
  SpdevState (dev_status st) (sch_status st) v (f st) (iobuf st) (rem st) (pos st) (cd st) (tic2tic st).
Definition set_tic (v : bool) (st : spdev_state) : spdev_state :=
  SpdevState (dev_status st) (sch_status st) (addr st) (f st) (iobuf st) (rem st) (pos st) (cd st) v.
Definition set_cd (v : bool) (st : spdev_state) : spdev_state :=
  SpdevState (dev_status st) (sch_status st) (addr st) (f st) (iobuf st) (rem st) (pos st) v (tic2tic st).
Definition set_buffer (b : list Z) (p r : Z) (st : spdev_state) : spdev_state :=
  SpdevState (dev_status st) (sch_status st) (addr st) (f st) b r p (cd st) (tic2tic st).

Definition CE_DE : Z := Z.lor SC_STATUS_CE SC_STATUS_DE.

Section virtio.
Context (E : env).

(** copies into a buffer that keeps the rest of its contents *)
Definition memcpy_from_guest_to (a : Z) (buf : list Z) (len : Z) : guest (Z * Z * list Z) := fun s =>
  '(ret, copied, m, data) ← __memcpy_tofrom_guest (virt2phy_current E) a (storage s) buf len true;
  Ret ((ret, copied, data), set_storage m s).

(** always 0 in the code *)
Definition __xfer_storage (st : spdev_state) (ccw : list Z) (write : bool) : guest spdev_state :=
  lift (bug_on (negb (Z.land (getf ccw_flags ccw) (Z.lor CCW_FLAG_IDA CCW_FLAG_MIDA) =? 0))) ;;
  let gaddr := getf ccw_addr ccw in
  let len := getf ccw_count ccw in
  if len =? 0 then mret st else
  if gaddr >? storage_size E then mret (set_sch_status SC_PROG_CHK st) else
  '(ret, len, buf) ← (if write then memcpy_from_guest_to gaddr (iobuf st) len
                      else '(ret, len) ← memcpy_to_guest E gaddr (iobuf st) len; mret (ret, len, iobuf st));
  let st := if ret =? 0 then st else set_sch_status SC_PROT_CHK st in
  mret (set_buffer buf 0 (u32 len) st).

Definition __get_ccw (st : spdev_state) (ccw : list Z) : guest (spdev_state * list Z) :=
  if ((f st =? 0) && negb (Z.land (addr st) 0xff000000 =? 0)) || (negb (f st =? 0) && negb (Z.land (addr st) 0x80000000 =? 0))
     || negb (Z.land (addr st) 0x00000007 =? 0)
  then mret (set_sch_status SC_PROG_CHK st, ccw) else
  '(ret, _, raw) ← memcpy_from_guest E (addr st) 8;
  if negb (ret =? 0) then
    con_printf "failed to fetch ccw %d " [ret] ;; mret (set_sch_status SC_PROT_CHK st, ccw)
  else mret (st, if f st =? 0 then ccw0_to_ccw1 ccw raw else raw).

(** *** The console's operations *)

Definition spooldev_cmdrej (i : nat) (st : spdev_state) : guest spdev_state :=
  on_dev i (set_sense SENSE_CMDREJ) ;;
  mret (set_dev_status (Z.lor CE_DE SC_STATUS_UC) st).

(** the file, opened when there is none yet, or the error *)
Definition open_spoolfile (i : nat) : guest Z :=
  d ← get_dev i;
  match u d with
  | Spooled (Some _) _ => mret 0
  | Spooled None ops =>
      if malloc_ok E then on_dev i (set_u (Spooled (Some alloc_spool) ops)) ;; mret 0 else mret (- ENOMEM)
  | _ => lift Undef
  end.

Definition cons_append (i : nat) (st : spdev_state) (len : Z) : guest Z :=
  d ← get_dev i;
  match u d with
  | Spooled (Some file) ops =>
      '(ret, file) ← lift (spool_append_rec (fresh_page E) (spool_pages E) file
                             (below_buffer E ++ iobuf st) (lenZ (below_buffer E)) len);
      on_dev i (set_u (Spooled (Some file) ops)) ;; mret ret
  | _ => lift Undef
  end.

Definition cons_write (i : nat) (ccw : list Z) (st : spdev_state) : guest spdev_state :=
  let st := set_dev_status CE_DE st in
  if negb (getf ccw_cmd ccw =? 0x01) then spooldev_cmdrej i st else
  ret ← open_spoolfile i;
  if negb (ret =? 0) then
    d ← get_dev i;
    e ← lift (errstrings ret);
    con_printf "Could not allocate a new spool file for device %04x (%s)" [getf pmcw_dev_num (pmcw d); e] ;;
    spooldev_cmdrej i st
  else
  let len := Z.min (getf ccw_count ccw) 150 in
  ret ← cons_append i st len;
  if negb (ret =? 0) then
    d ← get_dev i;
    e ← lift (errstrings ret);
    con_printf "Failed to append rec to spool file for device %04x (%s)" [getf pmcw_dev_num (pmcw d); e] ;;
    spooldev_cmdrej i st
  else mret (set_buffer (iobuf st) (u32 (pos st + len)) (u32 (rem st - len)) st).

(** [st.ops->f[ccw.cmd & 0xf]]; the only vector is the console's *)
Definition device_op (i : nat) (ops : bool) (ccw : list Z) (st : spdev_state) : guest spdev_state :=
  if ops && (Z.land (getf ccw_cmd ccw) 0xf =? 1) then cons_write i ccw st else spooldev_cmdrej i st.

(** *** The control unit *)

(** why a fetched command other than TIC is not executed *)
Definition invalid_ccw (st : spdev_state) (ccw : list Z) : bool :=
  let cmd := getf ccw_cmd ccw in let count := getf ccw_count ccw in
  (negb (cd st) && (Z.land cmd 0x0f =? 0)) ||
  ((f st =? 0) && (count =? 0)) ||
  (negb (f st =? 0) && cd st && (count =? 0)) ||
  (negb (f st =? 0) && negb (Z.land (getf ccw_addr ccw) 0x80000000 =? 0)).

Definition unsupported_flags : Z :=
  flags_of [CCW_FLAG_SKP; CCW_FLAG_PCI; CCW_FLAG_IDA; CCW_FLAG_S; CCW_FLAG_MIDA; CCW_FLAG_CD].

Definition prog_check (st : spdev_state) : spdev_state := set_sch_status SC_PROG_CHK st.

(** a command: the state, and whether the chain goes on *)
Definition run_ccw (i : nat) (ops : bool) (ccw : list Z) (st : spdev_state) : guest (spdev_state * bool) :=
  let st := set_tic false st in
  if invalid_ccw st ccw then mret (prog_check st, false) else
  if negb (Z.land (getf ccw_flags ccw) unsupported_flags =? 0) then
    con_printf "unsupported ccw flag " [] ;; mret (prog_check st, false)
  else
  st ← (if IS_CCW_WRITE (getf ccw_cmd ccw) then __xfer_storage st ccw true else mret st);
  st ← device_op i ops ccw st;
  if negb (dev_status st =? CE_DE) then mret (st, false) else
  st ← (if IS_CCW_READ (getf ccw_cmd ccw) then __xfer_storage st ccw false else mret st);
  con_printf "OK" [] ;;
  if Z.land (getf ccw_flags ccw) (Z.lor CCW_FLAG_CD CCW_FLAG_CC) =? 0 then mret (st, false) else
  let st := set_cd (negb (Z.land (getf ccw_flags ccw) CCW_FLAG_CD =? 0)) st in
  mret (set_addr (Z.land (u32 (addr st + 8)) 0x7fffffff) st, true).

(** one turn of the loop *)
Definition ccw_turn (i : nat) (ops : bool) (cnt : Z) (st : spdev_state) (ccw : list Z)
    : guest (spdev_state * list Z * bool) :=
  con_printf "CCW %3d @%08x, " [cnt; addr st] ;;
  '(st, ccw) ← __get_ccw st ccw;
  let st := set_addr (u32 (addr st + 8)) st in
  if negb (sch_status st =? 0) then mret (st, ccw, false) else
  con_printf "%02x %02x %04x %08x " [getf ccw_cmd ccw; getf ccw_flags ccw; getf ccw_count ccw; getf ccw_addr ccw] ;;
  if getf ccw_cmd ccw =? CCW_CMD_TIC then
    if tic2tic st then mret (prog_check st, ccw, false) else
    if negb (f st =? 0) && (negb (getf ccw_flags ccw =? 0) || negb (getf ccw_count ccw =? 0))
    then mret (prog_check st, ccw, false)
    else mret (set_tic true (set_addr (getf ccw_addr ccw) st), ccw, true)
  else
    '(st, more) ← run_ccw i ops ccw st; mret (st, ccw, more).

(** a channel program may go on for ever: [fuel] turns *)
Fixpoint ccw_loop (fuel : nat) (i : nat) (ops : bool) (cnt : Z) (st : spdev_state) (ccw : list Z) : guest spdev_state :=
  match fuel with
  | O => fun _ => Undef
  | S fuel =>
      '(st, ccw, more) ← ccw_turn i ops cnt st ccw;
      if (more : bool) then ccw_loop fuel i ops (s32 (cnt + 1)) st ccw else mret st
  end.

Definition on_scsw (g : list Z -> list Z) (d : virt_device) : virt_device := set_scsw (g (scsw d)) d.

(** the status left by the program *)
Definition final_scsw (st : spdev_state) (p : list Z) : list Z :=
  let failed := negb (sch_status st =? 0) || negb (dev_status st =? CE_DE) in
  let p := setf scsw_ac (Z.land (getf scsw_ac p) (Z.lnot (Z.lor AC_SCH_ACT AC_DEV_ACT))) p in
  let p := setf scsw_sc (Z.lor (getf scsw_sc p) (flags_of [SC_PRIMARY; SC_SECONDARY; SC_STATUS])) p in
  let p := if failed then setf scsw_sc (Z.lor (getf scsw_sc p) SC_ALERT) p else p in
  let p := setf scsw_dev_status (dev_status st) p in
  let p := setf scsw_sch_status (sch_status st) p in
  let p := setf scsw_addr (addr st) p in
  let p := setf scsw_count (rem st) p in
  setf scsw_f (f st) p.

Definition begin_exec (p : list Z) : list Z :=
  let p := setf scsw_ac (Z.land (getf scsw_ac p) (Z.lnot AC_START)) p in
  setf scsw_ac (Z.lor (getf scsw_ac p) (Z.lor AC_SCH_ACT AC_DEV_ACT)) p.

Definition spool_exec (fuel : nat) (i : nat) : guest Z :=
  match channel_buffer E with
  | None => con_printf "out of memory: could not allocate channel buffer (64kB)" [] ;; mret (- ENOMEM)
  | Some buf =>
      on_dev i (on_scsw begin_exec) ;;
      d ← get_dev i;
      ops ← lift (match u d with Spooled _ ops => Ret ops | _ => Undef end);
      let st := SpdevState 0 0 (getf orb_addr (orb d)) (getf orb_f (orb d)) buf 0 0 false false in
      con_printf "spool_exec for %04x (%08x), format-%d" [getf pmcw_dev_num (pmcw d); sch d; f st] ;;
      st ← ccw_loop fuel i ops 0 st (zeros ccw_size);
      (if negb (sch_status st =? 0) || negb (dev_status st =? CE_DE) then con_printf "FAILED" [] else mret tt) ;;
      on_dev i (on_scsw (final_scsw st)) ;;
      d ← get_dev i;
      queue_io_interrupt E (sch d) (getf pmcw_interrupt_param (pmcw d)) 0 (getf pmcw_isc (pmcw d)) ;;
      mret 0
  end.

(** ** The I/O instructions *)

(** the device, by its place in the list *)
Definition find_vdev (n : Z) (devs : list virt_device) : option nat :=
  fst <$> list_find (fun d => sch d = n) devs.

(** the subchannel number and the operand address, checked; [None] when the
    instruction ends here *)
Definition sch_operand : guest (option (Z * nat)) :=
  s ← get_sys;
  r1 ← lift (__guest_gpr (cpu s) 1);
  a ← lift (RAW_S_1 (cpu s));
  if negb (Z.land r1 0xffff0000 =? 0x00010000) then queue_prog_exception PROG_OPERAND r1 ;; mret None else
  if negb (Z.land a 0x3 =? 0) then queue_prog_exception PROG_SPEC a ;; mret None else
  match find_vdev (u32 r1) (virt_devs s) with
  | None => set_cc 3 ;; mret None
  | Some i => mret (Some (a, i))
  end.

(** an unsuccessful copy from or to the guest *)
Definition copy_failed (ret a : Z) : guest Z :=
  if ret =? - EFAULT then queue_prog_exception PROG_ADDR a ;; mret 0 else mret ret.

Definition status_pending (d : virt_device) : bool := negb (Z.land (getf scsw_sc (scsw d)) SC_STATUS =? 0).
Definition function_in_progress (d : virt_device) : bool :=
  negb (Z.land (getf scsw_fc (scsw d)) (flags_of [FC_START; FC_HALT; FC_CLEAR]) =? 0).

(** the members MSCH copies from the SCHIB *)
Definition msch_fields : list field :=
  [pmcw_interrupt_param; pmcw_e; pmcw_isc; pmcw_d; pmcw_lpm; pmcw_pom; pmcw_lm; pmcw_mm; pmcw_f; pmcw_x; pmcw_s; pmcw_mbi].
Definition copy_fields (fs : list field) (from to : list Z) : list Z :=
  fold_left (fun p fl => setf fl (getf fl from) p) fs to.

Definition handle_msch : guest Z :=
  o ← sch_operand;
  match o with
  | None => mret 0
  | Some (a, i) =>
      '(ret, _, gschib) ← memcpy_from_guest E a (Z.of_nat schib_size);
      if negb (ret =? 0) then copy_failed ret a else
      d ← get_dev i;
      if status_pending d then set_cc 1 ;; mret 0 else
      if function_in_progress d then set_cc 2 ;; mret 0 else
      let g := schib_pmcw gschib in
      (if getf pmcw_v g =? 0 then mret tt else on_dev i (fun d => set_pmcw (copy_fields msch_fields g (pmcw d)) d)) ;;
      set_cc 0 ;; mret 0
  end.

(** SSCH puts the ORB and the start function into the subchannel *)
Definition started (gorb : list Z) (d : virt_device) : virt_device :=
  set_orb gorb
    (set_pmcw (setf pmcw_interrupt_param (getf orb_param gorb) (pmcw d))
      (set_scsw (setf scsw_ac AC_START (setf scsw_fc FC_START (zeros scsw_size))) d)).

Definition handle_ssch (fuel : nat) : guest Z :=
  o ← sch_operand;
  match o with
  | None => mret 0
  | Some (a, i) =>
      '(ret, _, gorb) ← memcpy_from_guest E a (Z.of_nat orb_size);
      if negb (ret =? 0) then copy_failed ret a else
      d ← get_dev i;
      if status_pending d then set_cc 1 ;; mret 0 else
      if function_in_progress d then set_cc 2 ;; mret 0 else
      on_dev i (started gorb) ;;
      match vtype d with
      | VDEV_CONS | VDEV_SPOOL => ret ← spool_exec fuel i; set_cc 0 ;; mret ret
      | _ => stop_cpu ;; con_printf "SSCH handler - CPU STOPPED" [] ;; mret 0
      end
  end.

Definition handle_stsch : guest Z :=
  o ← sch_operand;
  match o with
  | None => mret 0
  | Some (a, i) =>
      d ← get_dev i;
      '(ret, _) ← memcpy_to_guest E (u64 (a + offsetof_schib_pmcw)) (pmcw d) (Z.of_nat pmcw_size);
      if negb (ret =? 0) then copy_failed ret (u64 (a + offsetof_schib_pmcw)) else
      '(ret, _) ← memcpy_to_guest E (u64 (a + offsetof_schib_scsw)) (scsw d) (Z.of_nat scsw_size);
      if negb (ret =? 0) then copy_failed ret (u64 (a + offsetof_schib_scsw)) else
      set_cc 0 ;; mret 0
  end.

(** the function, activity and status control bits after the status was taken *)
Definition tested_scsw (p : list Z) : list Z :=
  let fc := getf scsw_fc p in let ac := getf scsw_ac p in let sc := getf scsw_sc p in
  let has v b := negb (Z.land v b =? 0) in
  let all_acts := flags_of [AC_RESUME; AC_START; AC_HALT; AC_CLEAR] in
  let fc' := if negb (has sc SC_INTERMED) || (has fc FC_HALT && has ac AC_SUSP) then 0 else fc in
  let ac' :=
    if negb (has sc SC_INTERMED) then Z.land ac (Z.lnot all_acts)
    else if has ac AC_SUSP && has fc FC_START then
           if has fc FC_HALT then Z.land ac (Z.lnot all_acts) else Z.land ac (Z.lnot AC_RESUME)
         else ac in
  setf scsw_sc (Z.land sc (Z.lnot SC_STATUS)) (setf scsw_ac ac' (setf scsw_fc fc' p)).

(** the IRB that is built is not stored *)
Definition handle_tsch : guest Z :=
  o ← sch_operand;
  match o with
  | None => mret 0
  | Some (_, i) =>
      d ← get_dev i;
      if status_pending d then on_dev i (on_scsw tested_scsw) ;; set_cc 0 ;; mret 0
      else set_cc 1 ;; mret 0
  end.

(** ** Interceptions *)

Definition instruction_priv_funcs (fuel : nat) (op : Z) : option (guest Z) :=
  match op with
  | 0x32 => Some handle_msch
  | 0x33 => Some (handle_ssch fuel)
  | 0x34 => Some handle_stsch
  | 0x35 => Some handle_tsch
  | _ => None
  end.

Definition handle_instruction_priv (fuel : nat) : guest Z :=
  s ← get_sys;
  match instruction_priv_funcs fuel (Z.land (ipa (sie (cpu s))) 0xff) with
  | Some h => h
  | None => mret (- EINVAL)
  end.

Definition instruction_funcs (fuel : nat) (op : Z) : option (guest Z) :=
  if op =? 0xb2 then Some (handle_instruction_priv fuel) else None.

Definition handle_instruction (fuel : nat) : guest Z :=
  s ← get_sys;
  con_printf "INTRCPT: INST (%04x %08x)" [ipa (sie (cpu s)); ipb (sie (cpu s))] ;;
  match instruction_funcs fuel (Z.shiftr (ipa (sie (cpu s))) 8) with
  | Some h => h
  | None => mret (- EINVAL)
  end.

Definition handle_noop : guest Z := mret 0.

(** a message, and the CPU stops *)
Definition intercept_stop (msg : string) : guest Z := con_printf msg [] ;; stop_cpu ;; mret 0.

Definition handle_program : guest Z := intercept_stop "INTRCPT: PROG".
Definition handle_instruction_and_program : guest Z := intercept_stop "INTRCPT: INST+PROG".
Definition handle_ext_req : guest Z := intercept_stop "INTRCPT: EXT REQ".
Definition handle_ext_int : guest Z := intercept_stop "INTRCPT: EXT INT".
Definition handle_io_req : guest Z := intercept_stop "INTRCPT: IO REQ".
Definition handle_wait : guest Z := con_printf "INTRCPT: WAIT" [] ;; mret 0.
Definition handle_validity : guest Z := intercept_stop "INTRCPT: VALIDITY".
Definition handle_stop : guest Z :=
  modify (on_cpu (on_sie (fun c => set_cpuflags (Z.land (cpuflags c) (Z.lnot CPUSTAT_STOP_INT)) c))) ;; mret 0.
Definition handle_oper_except : guest Z := intercept_stop "INTRCPT: OPER EXCEPT".
Definition handle_exp_run : guest Z := intercept_stop "INTRCPT: EXP RUN".
Definition handle_exp_timer : guest Z := intercept_stop "INTRCPT: EXP TIMER".

(** 19 entries; those not named are NULL *)
Definition intercept_funcs (fuel : nat) : list (option (guest Z)) :=
  [Some handle_noop; Some (handle_instruction fuel); Some handle_program; Some handle_instruction_and_program;
   Some handle_ext_req; Some handle_ext_int; Some handle_io_req; Some handle_wait; Some handle_validity; None;
   Some handle_stop; Some handle_oper_except; None; None; None; None; None; Some handle_exp_run; Some handle_exp_timer].

Definition handle_interception (fuel : nat) : guest unit :=
  s ← get_sys;
  h ← lift (defined (aget (intercept_funcs fuel) (Z.shiftr (icptcode (sie (cpu s))) 2)));
  err ← match h with Some h => h | None => mret (- EINVAL) end;
  if negb (err =? 0) then
    stop_cpu ;; con_printf "Unknown/mis-handled intercept code %02x, err = %d" [icptcode (sie (cpu s)); err]
  else mret tt.
End virtio.

(** ** Virtual devices *)

(** [struct directory_vdev] *)
Inductive dirdev_data := DirDed (rdev : Z) | DirSpool (type model : Z) | DirMdisk (cyloff cylcnt rdev : Z) | DirOther.

Record directory_vdev := DirectoryVdev { d_type : directory_vdevtype; d_vdev : Z; d_u : dirdev_data }.

(** a real device, as far as a dedicated device needs it *)
Record real_device := RealDevice { ccuu : Z; r_type : Z; r_model : Z; in_use : bool }.

Definition EBUSY : Z := 2.

Section vdevices.
Context (mem_ok : bool).
Context (garbage : nat -> list Z).  (* what [malloc] returns holds *)

(** the real devices and the new device *)
Definition __setup_vdev_ded (rdevs : list real_device) (rdev : Z) (d : virt_device)
    : Z * list real_device * virt_device :=
  match list_find (fun r => ccuu r = rdev) rdevs with
  | None => (- ENOENT, rdevs, d)
  | Some (j, r) =>
      if in_use r then (- EBUSY, rdevs, d) else
      (0, <[j := RealDevice (ccuu r) (r_type r) (r_model r) true]> rdevs,
       VirtDevice (vtype d) (sch d) (r_type r) (r_model r) (Dedicate rdev) (sense d) (pmcw d) (scsw d) (orb d))
  end.

Definition alloc_virt_dev (rdevs : list real_device) (dirdev : directory_vdev) (n : Z) (devs : list virt_device)
    : Z * list real_device * list virt_device :=
  if negb mem_ok then (- ENOMEM, rdevs, devs) else
  let p := setf pmcw_v 1 (garbage pmcw_size) in
  let p := setf pmcw_dev_num (d_vdev dirdev) p in
  let p := setf pmcw_lpm 0x80 p in
  let p := setf pmcw_pim 0x80 p in
  let p := setf pmcw_pom 0xff p in
  let p := setf pmcw_pam 0x80 p in
  let mk ty m un := VirtDevice (d_type dirdev) n ty m un (hd 0 (garbage 1)) p (garbage scsw_size) (garbage orb_size) in
  let '(ret, rdevs, d) :=
    match d_type dirdev, d_u dirdev with
    | VDEV_CONS, _ => (0, rdevs, mk 0x3215 0 (Spooled None true))
    | VDEV_SPOOL, DirSpool ty m => (0, rdevs, mk ty m (Spooled None false))
    | VDEV_DED, DirDed rdev => __setup_vdev_ded rdevs rdev (mk 0 0 NoData)
    | VDEV_MDISK, _ => (0, rdevs, mk 0x3390 3 NoData)
    | _, _ => (- EINVAL, rdevs, mk 0 0 NoData)
    end in
  if ret =? 0 then (ret, rdevs, devs ++ [d]) else (ret, rdevs, devs).
End vdevices.
