(* ===== verification/VirtIoSpec.v ===== *)
(** What the I/O instructions and channel programs of VirtIo.v guarantee.

    [frames] are operations that leave the subchannel status words alone, [keeps]
    operations that preserve a property of the machine.  A machine is run by
    [action]s: turns of its shell loop, resets and operator commands. *)

From S2P Require Import Prelude Layout Dat Spool Guest VirtIo.

Local Open Scope Z_scope.

#[local] Arguments cons {A} & a l.

(** ** Reasoning about operations *)

Section rules.
Context (P : virt_sys -> virt_sys -> Prop).
Context (Hrefl : forall s, P s s) (Htrans : forall s t u, P s t -> P t u -> P s u).

(** [m] takes a state to one related to it *)
Definition relates {A} (m : guest A) : Prop := forall s a s', m s = Ret (a, s') -> P s s'.

Lemma relates_ret {A} (a : A) : relates (mret a).
Proof. intros s b s' [= <- <-]. apply Hrefl. Qed.

Lemma relates_bind {A B} (m : guest A) (g : A -> guest B) : relates m -> (forall a, relates (g a)) -> relates (m ≫= g).
Proof.
  intros Hm Hg s b s' H. unfold mbind, guest_bind in H. apply bind_Ret in H as ([a t] & E & H).
  eapply Htrans; [by eapply Hm|by eapply Hg].
Qed.

Lemma relates_lift {A} (o : outcome A) : relates (lift o).
Proof. intros s a s' H. unfold lift in H. apply bind_Ret in H as (x & _ & [= <- <-]). apply Hrefl. Qed.

Lemma relates_get : relates get_sys.
Proof. intros s a s' [= <- <-]. apply Hrefl. Qed.

Lemma relates_get_dev i : relates (get_dev i).
Proof. intros s a s' H. unfold get_dev in H. apply bind_Ret in H as (x & _ & [= <- <-]). apply Hrefl. Qed.

Lemma relates_modify f : (forall s, P s (f s)) -> relates (modify f).
Proof. intros Hf s a s' [= <- <-]. apply Hf. Qed.

Lemma relates_undef {A} : relates (fun _ => Undef : outcome (A * virt_sys)).
Proof. by intros s a s' [=]. Qed.
End rules.

(** the subchannels: types and status words *)
Definition subch (s : virt_sys) : list (directory_vdevtype * list Z) := map (fun d => (vtype d, scsw d)) (virt_devs s).

Definition same_subch (s t : virt_sys) : Prop := subch t = subch s.
Abbreviation frames := (relates same_subch).

Lemma same_subch_refl s : same_subch s s.
Proof. done. Qed.

Lemma same_subch_trans s t u : same_subch s t -> same_subch t u -> same_subch s u.
Proof. unfold same_subch. congruence. Qed.

(** case analysis on the tests of a handler *)
Ltac cases :=
  repeat match goal with
  | |- context [if ?b then _ else _] => destruct b
  | |- context [match ?x with _ => _ end] => destruct x
  end.

(** take an operation apart *)
Ltac relates_step refl trans :=
  first
    [ apply (relates_ret _ refl)
    | apply (relates_lift _ refl)
    | apply (relates_get _ refl)
    | apply (relates_get_dev _ refl)
    | apply relates_undef
    | solve [eauto with frames nocore]
    | apply (relates_bind _ trans); [|intros ?]
    | match goal with
      | |- relates _ (if ?b then _ else _) => destruct b
      | |- relates _ (match ?x with _ => _ end) => destruct x
      end ].

Create HintDb frames discriminated.

Ltac frame := repeat relates_step same_subch_refl same_subch_trans.

Lemma frames_modify f : (forall s, subch (f s) = subch s) -> frames (modify f).
Proof. intros Hf s a s' [= <- <-]. apply Hf. Qed.

Lemma frames_con fmt args : frames (con_printf fmt args).
Proof. apply frames_modify. reflexivity. Qed.

Lemma frames_schedule : frames schedule.
Proof. apply frames_modify. reflexivity. Qed.

Lemma frames_cpu f : frames (modify (on_cpu f)).
Proof. apply frames_modify. reflexivity. Qed.

(** a change of a device that leaves its status word *)
Lemma subch_alter f i s : (forall d, (vtype (f d), scsw (f d)) = (vtype d, scsw d)) ->
  subch (set_devs (alter f i (virt_devs s)) s) = subch s.
Proof.
  intros Hf. unfold subch. cbn [virt_devs set_devs]. apply list_eq. intros j. rewrite !list_lookup_fmap.
  rewrite list_lookup_alter. case_decide as Hij; [subst j|done].
  destruct (virt_devs s !! i) as [d|]; cbn; by rewrite ?Hf.
Qed.

Lemma frames_dev i f : (forall d, (vtype (f d), scsw (f d)) = (vtype d, scsw d)) -> frames (on_dev i f).
Proof. intros Hf. apply frames_modify. intros s. by apply subch_alter. Qed.

#[export] Hint Resolve frames_con frames_schedule frames_cpu : frames.
#[export] Hint Extern 1 (relates same_subch (on_dev _ (set_sense _))) => (by apply frames_dev) : frames.
#[export] Hint Extern 1 (relates same_subch (on_dev _ (set_u _))) => (by apply frames_dev) : frames.

Section env.
Context (E : env).

Lemma frames_copy addr data len from :
  frames (fun s => '(ret, copied, m, d) ← __memcpy_tofrom_guest (virt2phy_current E) addr (storage s) data len from;
                   Ret ((ret, copied, d), set_storage m s)).
Proof. intros s a s' H. apply bind_Ret in H as ([[[ret c] m] d] & _ & [= <- <-]). done. Qed.

Lemma frames_from_guest a n : frames (memcpy_from_guest E a n).
Proof. apply frames_copy. Qed.

Lemma frames_from_guest_to a b n : frames (memcpy_from_guest_to E a b n).
Proof. apply frames_copy. Qed.

Lemma frames_to_guest a d n : frames (memcpy_to_guest E a d n).
Proof. intros s x s' H. unfold memcpy_to_guest in H. apply bind_Ret in H as ([[[ret c] m] b] & _ & [= <- <-]). done. Qed.

#[local] Hint Resolve frames_from_guest frames_from_guest_to frames_to_guest : frames.

Lemma frames_prog t p : frames (queue_prog_exception t p).
Proof. unfold queue_prog_exception, stop_cpu. frame. Qed.

Lemma frames_queue a b c d : frames (queue_io_interrupt E a b c d).
Proof. unfold queue_io_interrupt. frame. Qed.

Lemma frames_set_cc cc : frames (set_cc cc).
Proof. apply frames_cpu. Qed.

Lemma frames_stop_cpu : frames stop_cpu.
Proof. apply frames_cpu. Qed.

#[local] Hint Resolve frames_prog frames_queue frames_set_cc frames_stop_cpu : frames.

Lemma frames_xfer st ccw w : frames (__xfer_storage E st ccw w).
Proof. unfold __xfer_storage. frame. Qed.

Lemma frames_get_ccw st ccw : frames (__get_ccw E st ccw).
Proof. unfold __get_ccw. frame. Qed.

Lemma frames_cmdrej i st : frames (spooldev_cmdrej i st).
Proof. unfold spooldev_cmdrej. frame. Qed.

#[local] Hint Resolve frames_xfer frames_get_ccw frames_cmdrej : frames.

Lemma frames_cons_write i ccw st : frames (cons_write E i ccw st).
Proof. unfold cons_write, open_spoolfile, cons_append. frame. Qed.

#[local] Hint Resolve frames_cons_write : frames.

Lemma frames_turn i ops cnt st ccw : frames (ccw_turn E i ops cnt st ccw).
Proof. unfold ccw_turn, run_ccw, device_op. frame. Qed.

#[local] Hint Resolve frames_turn : frames.

Lemma frames_loop fuel i ops cnt st ccw : frames (ccw_loop E fuel i ops cnt st ccw).
Proof. revert cnt st ccw. induction fuel as [|fuel IH]; intros; cbn [ccw_loop]; frame. Qed.
End env.

(** ** The states of a subchannel *)

Lemma guest_bind_Ret {A B} (m : guest A) (g : A -> guest B) s b t :
  (m ≫= g) s = Ret (b, t) <-> exists a s1, m s = Ret (a, s1) /\ g a s1 = Ret (b, t).
Proof.
  unfold mbind at 1, guest_bind. rewrite bind_Ret. split.
  - intros ([a s1] & H1 & H2). by exists a, s1.
  - intros (a & s1 & H1 & H2). by exists (a, s1).
Qed.

(** take a successful operation apart *)
Ltac inv_guest :=
  repeat match goal with
  | H : (_ ≫= _) _ = Ret (_, _) |- _ => apply guest_bind_Ret in H as (? & ? & ? & ?)
  | H : mret _ _ = Ret _ |- _ => injection H as ? ?; subst
  | H : get_sys _ = Ret _ |- _ => injection H as ? ?; subst
  end.

(** idle, or its function is done and its status pending *)
Definition settled (p : list Z) : Prop :=
  struct_ok 12 p /\ getf scsw_ac p = 0 /\ Z.land (getf scsw_sc p) SC_INTERMED = 0 /\
  (getf scsw_fc p = 0 /\ Z.land (getf scsw_sc p) SC_STATUS = 0 \/
   getf scsw_fc p = FC_START /\ Z.land (getf scsw_sc p) SC_STATUS <> 0).

Definition on_spool (t : directory_vdevtype) : bool := bool_decide (t = VDEV_CONS \/ t = VDEV_SPOOL).

(** a start function that is there for good: no memory was left for its channel program *)
Definition started_scsw : list Z := setf scsw_ac AC_START (setf scsw_fc FC_START (zeros scsw_size)).

Ltac scsw_set := getf_set; cbn [f_width scsw_fc scsw_ac scsw_sc].

Section handlers.
Context (E : env) (fuel : nat).

(** between two instructions *)
Definition kept (p : list Z) : Prop := settled p \/ (channel_buffer E = None /\ p = started_scsw).

Definition all_settled (l : list (directory_vdevtype * list Z)) : Prop :=
  Forall (fun tp => on_spool tp.1 = true -> kept tp.2) l.

Definition settles (s t : virt_sys) : Prop := all_settled (subch s) -> all_settled (subch t).

Lemma settles_refl s : settles s s.
Proof. intros H. exact H. Qed.

Lemma settles_trans s t u : settles s t -> settles t u -> settles s u.
Proof. unfold settles. auto. Qed.

Lemma settles_frames {A} (m : guest A) : frames m -> relates settles m.
Proof. intros Hm s a s' H Hs. by rewrite (Hm _ _ _ H). Qed.

(** status words change with [g] *)
Lemma subch_on_scsw i g s : subch (set_devs (alter (on_scsw g) i (virt_devs s)) s) = alter (prod_map id g) i (subch s).
Proof.
  unfold subch. cbn [virt_devs set_devs]. apply list_eq. intros j. rewrite list_lookup_alter, !list_lookup_fmap, list_lookup_alter.
  case_decide as Hij; [|done]. by destruct (virt_devs s !! i) as [d|].
Qed.

Lemma all_settled_alter i (g : directory_vdevtype * list Z -> directory_vdevtype * list Z) l :
  all_settled l -> (forall tp, l !! i = Some tp -> on_spool (g tp).1 = true -> kept (g tp).2) -> all_settled (alter g i l).
Proof.
  intros Hl Hg. apply Forall_lookup. intros j tp Hj. rewrite list_lookup_alter in Hj. case_decide as Hij.
  - apply fmap_Some in Hj as (tp' & Hj & ->). by apply Hg.
  - by apply (proj1 (Forall_lookup _ _) Hl j).
Qed.

Lemma settles_dev i g : (forall p, kept p -> kept (g p)) -> relates settles (on_dev i (on_scsw g)).
Proof.
  intros Hg s a s' [= <- <-] Hs. rewrite subch_on_scsw. apply all_settled_alter; [done|].
  intros [t p] Hi Ht. apply Hg. by apply (proj1 (Forall_lookup _ _) Hs i _ Hi).
Qed.

(** ** Status words *)

Lemma wrap_land_flags w v m : 0 <= w -> 0 <= m < 2 ^ w -> Z.land (wrap w v) m = Z.land v m.
Proof.
  intros Hw Hm. unfold wrap. rewrite <- (Z.land_ones v w) by lia. rewrite <- Z.land_assoc. f_equal.
  rewrite Z.land_comm, Z.land_ones by lia. by apply Z.mod_small.
Qed.

Lemma tested_settled p : settled p -> settled (tested_scsw p).
Proof.
  intros (Hok & Hac & Hsi & _). unfold tested_scsw. cbv zeta. rewrite Hsi, Hac. cbn [Z.eqb negb orb].
  split_and!; [by repeat apply setf_ok|..]; scsw_set.
  - done.
  - rewrite wrap_land_flags by done. rewrite <- Z.land_assoc, (Z.land_comm (Z.lnot _)), Z.land_assoc, Hsi. done.
  - left. split; [done|]. rewrite wrap_land_flags by done. rewrite <- Z.land_assoc. change (Z.land (Z.lnot SC_STATUS) SC_STATUS) with 0.
    apply Z.land_0_r.
Qed.

Lemma tested_kept p : kept p -> kept (tested_scsw p).
Proof.
  intros [Hp|[Hn ->]]; left; [by apply tested_settled|]. split; [apply (bool_decide_unpack _); by vm_compute|].
  split_and!; [by vm_compute..|left]. by split; vm_compute.
Qed.

(** after SSCH has started a function and the control unit has run it *)
Definition ended (st : spdev_state) : list Z :=
  final_scsw st (begin_exec started_scsw).

Lemma final_settled st p : struct_ok 12 p -> getf scsw_fc p = FC_START -> getf scsw_ac p = Z.lor AC_SCH_ACT AC_DEV_ACT ->
  getf scsw_sc p = 0 -> settled (final_scsw st p).
Proof.
  intros Hok Hfc Hac Hsc. unfold final_scsw. cbv zeta. set (failed := _ || _).
  set (p1 := setf scsw_ac _ p). assert (struct_ok 12 p1) as H1 by (by apply setf_ok).
  set (p2 := setf scsw_sc _ p1). assert (struct_ok 12 p2) as H2 by (by apply setf_ok).
  assert (getf scsw_sc p2 = 7) as Hs2.
  { unfold p2. scsw_set. unfold p1. scsw_set. by rewrite Hsc. }
  assert (getf scsw_ac p2 = 0) as Ha2.
  { unfold p2. scsw_set. unfold p1. scsw_set. by rewrite Hac. }
  assert (getf scsw_fc p2 = FC_START) as Hf2.
  { unfold p2. scsw_set. unfold p1. scsw_set. done. }
  assert (exists p3, (if failed then setf scsw_sc (Z.lor (getf scsw_sc p2) SC_ALERT) p2 else p2) = p3 /\ struct_ok 12 p3 /\
     getf scsw_ac p3 = 0 /\ getf scsw_fc p3 = FC_START /\ (getf scsw_sc p3 = 7 \/ getf scsw_sc p3 = 23)) as (p3 & -> & H3 & Ha3 & Hf3 & Hs3).
  { eexists. split; [done|]. destruct failed; [|by auto]. split; [by apply setf_ok|].
    rewrite Hs2. scsw_set. split_and!; [done|done|by right]. }
  split_and!; [by repeat apply setf_ok|..]; scsw_set; [done| |].
  - by destruct Hs3 as [-> | ->].
  - right. split; [done|]. by destruct Hs3 as [-> | ->].
Qed.

Lemma ended_settled st : settled (ended st).
Proof. apply final_settled; [|by vm_compute..]. unfold begin_exec. by repeat apply setf_ok; apply (zeros_ok 12). Qed.

Lemma reset_settled : settled (zeros scsw_size).
Proof. split; [apply (zeros_ok 12)|]. split_and!; [by vm_compute..|left]. by split; vm_compute. Qed.

Lemma settled_no_function d : settled (scsw d) -> status_pending d = false -> function_in_progress d = false.
Proof.
  intros (_ & _ & _ & Hc). unfold status_pending, function_in_progress. destruct Hc as [[-> _] | [_ Hs]]; [done|].
  by rewrite negb_false_iff, Z.eqb_eq.
Qed.

(** ** Handlers *)

Lemma frames_sch_operand : frames sch_operand.
Proof.
  pose proof frames_prog. unfold sch_operand, set_cc. frame; by eauto with frames nocore.
Qed.

Lemma frames_copy_failed ret a : frames (copy_failed ret a).
Proof. pose proof frames_prog. unfold copy_failed. frame. Qed.

Lemma frames_msch : frames (handle_msch E).
Proof.
  pose proof frames_sch_operand. pose proof frames_copy_failed. pose proof (frames_from_guest E). pose proof frames_set_cc.
  unfold handle_msch. frame. by apply frames_dev.
Qed.

Lemma frames_stsch : frames (handle_stsch E).
Proof.
  pose proof frames_sch_operand. pose proof frames_copy_failed. pose proof (frames_to_guest E). pose proof frames_set_cc.
  unfold handle_stsch. frame.
Qed.

Ltac settle :=
  repeat first
    [ solve [eauto using settles_frames with frames nocore]
    | relates_step settles_refl settles_trans ].

Lemma settles_tsch : relates settles handle_tsch.
Proof.
  pose proof frames_sch_operand. pose proof frames_set_cc. unfold handle_tsch. settle.
  apply settles_dev, tested_kept.
Qed.

(** a channel program on device [i] *)
Lemma spool_exec_subch i s r s' : spool_exec E fuel i s = Ret (r, s') ->
  (channel_buffer E = None /\ subch s' = subch s) \/
  exists st, subch s' = alter (prod_map id (fun p => final_scsw st (begin_exec p))) i (subch s).
Proof.
  unfold spool_exec. destruct (channel_buffer E) as [buf|].
  2:{ intros H. left. split; [done|]. apply guest_bind_Ret in H as (w & t & H1 & H2). injection H2 as _ <-. by apply frames_con in H1. }
  intros H. right. inv_guest.
  match goal with H : ccw_loop _ _ _ _ _ ?st0 _ _ = Ret (?st, _) |- _ => exists st end.
  repeat match goal with
  | H : ccw_loop _ _ _ _ _ _ _ ?a = Ret (_, ?b) |- _ => apply frames_loop in H
  | H : con_printf _ _ ?a = Ret (_, ?b) |- _ => apply frames_con in H
  | H : queue_io_interrupt _ _ _ _ _ ?a = Ret (_, ?b) |- _ => apply frames_queue in H
  | H : get_dev _ ?a = Ret (_, ?b) |- _ => apply (relates_get_dev _ same_subch_refl) in H
  | H : lift _ ?a = Ret (_, ?b) |- _ => apply (relates_lift _ same_subch_refl) in H
  | H : (if ?c then con_printf _ _ else mret _) _ = Ret _ |- _ => destruct c; [|injection H as ? ?; subst]
  | H : on_dev _ _ ?a = Ret (_, ?b) |- _ => injection H as ? ?; subst
  end; unfold same_subch in *; rewrite ?subch_on_scsw in *.
  all: repeat match goal with H : subch _ = _ |- _ => rewrite H; clear H end; rewrite list_alter_alter_eq.
  all: apply list_alter_ext; [by intros [t p]|done].
Qed.

Lemma spool_exec_settles i gorb s r s' :
  (on_dev i (started gorb) ;; spool_exec E fuel i) s = Ret (r, s') -> settles s s'.
Proof.
  intros H Hs. apply guest_bind_Ret in H as (w & s1 & H1 & H2). injection H1 as <- <-.
  assert (subch (set_devs (alter (started gorb) i (virt_devs s)) s) =
    alter (prod_map id (fun _ => started_scsw)) i (subch s)) as H1.
  { rewrite <- subch_on_scsw. unfold subch. cbn [virt_devs set_devs]. apply list_eq. intros j.
    rewrite !list_lookup_fmap, !list_lookup_alter. case_decide; [|done]. by destruct (virt_devs s !! i). }
  apply spool_exec_subch in H2 as [[Hn H2]|[st H2]]; rewrite H2, H1, ?list_alter_alter_eq; apply all_settled_alter; try done;
    intros [t p] _ _; [by right|left; apply (ended_settled st)].
Qed.

Lemma settles_set_cc cc (r : Z) : relates settles (set_cc cc ;; mret r : guest Z).
Proof. pose proof frames_set_cc. settle. Qed.

Lemma settles_start i gorb d s r s' : virt_devs s !! i = Some d ->
  (on_dev i (started gorb) ;;
   match vtype d with
   | VDEV_CONS | VDEV_SPOOL => ret ← spool_exec E fuel i; set_cc 0 ;; mret ret
   | _ => stop_cpu ;; con_printf "SSCH handler - CPU STOPPED" [] ;; mret 0
   end) s = Ret (r, s') -> settles s s'.
Proof.
  intros Hi H. destruct (on_spool (vtype d)) eqn:Ht.
  - assert ((on_dev i (started gorb) ;; ret ← spool_exec E fuel i; set_cc 0 ;; mret ret) s = Ret (r, s')) as H'.
    { unfold on_spool in Ht. by destruct (vtype d). }
    apply guest_bind_Ret in H' as (w & s1 & H1 & H'). apply guest_bind_Ret in H' as (ret & s2 & H2 & H3).
    apply settles_set_cc in H3. refine (settles_trans _ _ _ _ H3).
    apply (spool_exec_settles i gorb s ret). apply guest_bind_Ret. by exists w, s1.
  - assert ((on_dev i (started gorb) ;; stop_cpu ;; con_printf "SSCH handler - CPU STOPPED" [] ;; mret 0) s = Ret (r, s')) as H'.
    { unfold on_spool in Ht. by destruct (vtype d). }
    apply guest_bind_Ret in H' as (w & s1 & H1 & H2).
    assert (frames (stop_cpu ;; con_printf "SSCH handler - CPU STOPPED" [] ;; mret 0 : guest Z)) as Hfr.
    { pose proof frames_stop_cpu. frame. }
    unfold settles. rewrite (Hfr _ _ _ H2).
    injection H1 as <- <-. intros Hs. apply Forall_lookup. intros j tp Hj.
    unfold subch in Hj. cbn [virt_devs set_devs] in Hj. rewrite list_lookup_fmap, list_lookup_alter in Hj.
    case_decide as Hij; [subst j; rewrite Hi in Hj; injection Hj as <-; cbn; by rewrite Ht|].
    apply (proj1 (Forall_lookup _ _) Hs j). unfold subch. by rewrite list_lookup_fmap.
Qed.

Lemma settles_ssch : relates settles (handle_ssch E fuel).
Proof.
  pose proof frames_sch_operand. pose proof frames_copy_failed. pose proof (frames_from_guest E).
  pose proof frames_set_cc. unfold handle_ssch.
  apply (relates_bind _ settles_trans); [settle|]. intros [[a i]|]; [|settle].
  apply (relates_bind _ settles_trans); [settle|]. intros [[ret c] gorb]. destruct (negb _); [settle|].
  intros s r s' H3. apply guest_bind_Ret in H3 as (d & s1 & Hd & H3).
  unfold get_dev in Hd. apply bind_Ret in Hd as (d' & Hd%defined_Ret & [= -> ->]).
  destruct (status_pending d); [by apply (settles_set_cc 1 0) in H3|].
  destruct (function_in_progress d); [by apply (settles_set_cc 2 0) in H3|].
  by eapply settles_start.
Qed.

Lemma settles_lookup {A} (l : list (option (guest Z))) (k : guest Z -> guest A) (n : guest A) idx :
  Forall (fun o => if o is Some h then relates settles h else True) l ->
  (forall h, relates settles h -> relates settles (k h)) -> relates settles n ->
  relates settles (o ← lift (defined (aget l idx)); match o with Some h => k h | None => n end).
Proof.
  intros Hl Hk Hn s a s' H. apply guest_bind_Ret in H as (o & s1 & H1 & H2). unfold lift in H1.
  apply bind_Ret in H1 as (o' & Ho%defined_Ret & [= -> <-]). apply aget_Some in Ho as [_ Ho].
  destruct o as [h|]; [|by eapply Hn]. eapply Hk; [|done]. by apply (proj1 (Forall_lookup _ _) Hl _ _ Ho).
Qed.

Lemma settles_priv op h :
  instruction_priv_funcs E fuel op = Some h -> relates settles h.
Proof.
  unfold instruction_priv_funcs. repeat case_match; intros [= <-];
    eauto using settles_ssch, settles_tsch, settles_frames, frames_msch, frames_stsch.
Qed.

Lemma settles_instruction : relates settles (handle_instruction E fuel).
Proof.
  unfold handle_instruction. apply (relates_bind _ settles_trans); [settle|]. intros s.
  apply (relates_bind _ settles_trans); [settle|]. intros _. unfold instruction_funcs. destruct (_ =? 0xb2); [|settle].
  unfold handle_instruction_priv. apply (relates_bind _ settles_trans); [settle|]. intros t.
  destruct (instruction_priv_funcs _ _ _) as [h|] eqn:Hh; [|settle]. by eapply settles_priv.
Qed.

Lemma settles_stop msg : relates settles (intercept_stop msg).
Proof. pose proof frames_stop_cpu. unfold intercept_stop. settle. Qed.

Lemma settles_interception : relates settles (handle_interception E fuel).
Proof.
  pose proof settles_instruction. pose proof frames_stop_cpu.
  unfold handle_interception. apply (relates_bind _ settles_trans); [settle|]. intros s.
  intros s1 a s2 Hr. eapply (settles_lookup (intercept_funcs E fuel)
    (fun h => err ← h; if negb (err =? 0) then
       stop_cpu ;; con_printf "Unknown/mis-handled intercept code %02x, err = %d" [icptcode (sie (cpu s)); err] else mret tt)
    (stop_cpu ;; con_printf "Unknown/mis-handled intercept code %02x, err = %d" [icptcode (sie (cpu s)); - EINVAL])).
  - repeat constructor; try apply settles_stop; unfold handle_noop, handle_wait, handle_stop; settle.
  - intros h Hh. settle.
  - settle.
  - apply guest_bind_Ret in Hr as (o & t & Ho & Hr). apply guest_bind_Ret. exists o, t. split; [done|]. by destruct o.
Qed.
End handlers.

(** ** Running a machine *)

(** a turn of the shell loop, with what the guest does in SIE; operator
    commands; resets *)
Inductive action :=
  | Turn (sie_run : virt_sys -> virt_sys)
  | Begin | Stop
  | PowerOnReset | ResetNormal | ResetClear | LoadNormal | LoadClear.

Section machine.
Context (E : env) (fuel : nat).

Definition act (a : action) : guest unit :=
  match a with
  | Turn sie_run => shell_turn E sie_run (handle_interception E fuel)
  | Begin => _ ← guest_begin; mret tt
  | Stop => _ ← guest_stop; mret tt
  | PowerOnReset => guest_power_on_reset
  | ResetNormal => guest_system_reset_normal
  | ResetClear => guest_system_reset_clear
  | LoadNormal => guest_load_normal
  | LoadClear => guest_load_clear
  end.

Fixpoint acts (l : list action) : guest unit :=
  match l with
  | [] => mret tt
  | a :: l => act a ;; acts l
  end.

(** the guest changes its registers, storage and control block, not the devices *)
Definition sane (a : action) : Prop :=
  match a with Turn sie_run => forall s, virt_devs (sie_run s) = virt_devs s | _ => True end.

Lemma frames_io_int : frames (__io_int E).
Proof.
  assert (forall n i cr6, frames (io_int_loop E n i cr6)) as Hl.
  { pose proof frames_stop_cpu.
    assert (forall a o n l, frames (__do_psw_swap a o n l)) by (intros; by apply frames_modify).
    assert (forall a v, frames (store_u32 a v)) by (intros; by apply frames_modify).
    induction n as [|n IH]; intros; cbn [io_int_loop]; frame. }
  unfold __io_int. frame.
Qed.

Lemma settles_turn sie_run : sane (Turn sie_run) ->
  relates (settles E) (shell_turn E sie_run (handle_interception E fuel)).
Proof.
  intros Hsane. pose proof (settles_interception E fuel). pose proof frames_stop_cpu. pose proof frames_io_int.
  assert (frames (modify sie_run)) as Hsie by (apply frames_modify; intros s; unfold subch; by rewrite Hsane).
  unfold shell_turn, run_guest. 
  repeat first
    [ solve [eauto using settles_frames with frames nocore]
    | relates_step (settles_refl E) (settles_trans E) ].
Qed.

Lemma frames_when c m : frames m -> frames (when c m).
Proof. intros Hm. destruct c; [done|apply relates_ret, same_subch_refl]. Qed.

Lemma frames_cpu_reset flags : frames (__perform_cpu_reset flags).
Proof.
  pose proof frames_stop_cpu. unfold __perform_cpu_reset.
  repeat (apply (relates_bind _ same_subch_trans); [apply frames_when; [by eauto with frames]|intros _]).
  apply frames_when, frames_modify. intros s. done.
Qed.

Lemma settles_noncpu_reset flags : relates (settles E) (__perform_noncpu_reset flags).
Proof.
  unfold __perform_noncpu_reset, when. destruct (has_flag _ _); [|apply relates_ret, (settles_refl E)].
  intros s a s' [= <- <-] Hs. unfold subch. cbn [virt_devs set_devs]. apply Forall_fmap, Forall_fmap, Forall_true.
  intros d _. left. apply reset_settled.
Qed.

(** the resets of the I/O subsystem, whatever the machine was before *)
Definition resets (a : action) : bool :=
  match a with Turn _ | Begin | Stop => false | _ => true end.

Lemma reset_all_settled flags s r s' : has_flag flags RESET_IO = true ->
  __perform_noncpu_reset flags s = Ret (r, s') -> all_settled E (subch s').
Proof.
  intros Hf. unfold __perform_noncpu_reset, when. rewrite Hf. intros [= <- <-].
  unfold subch. cbn [virt_devs set_devs]. apply Forall_fmap, Forall_fmap, Forall_true. intros d _. left. apply reset_settled.
Qed.

Lemma act_resets a s r s' : resets a = true -> act a s = Ret (r, s') -> all_settled E (subch s').
Proof.
  destruct a; try done; intros _ H; apply guest_bind_Ret in H as (w & t & _ & H); by apply (reset_all_settled _ t r s') in H.
Qed.

Lemma settles_act a : sane a -> relates (settles E) (act a).
Proof.
  intros Hsane. pose proof settles_noncpu_reset. pose proof frames_cpu_reset.
  destruct a; cbn [act]; [by apply settles_turn|..];
    unfold guest_begin, guest_stop, guest_power_on_reset, guest_system_reset_normal, guest_system_reset_clear,
      guest_load_normal, guest_load_clear;
    repeat first [ solve [eauto using settles_frames with frames nocore] | relates_step (settles_refl E) (settles_trans E) ].
Qed.

Lemma acts_settled l : Forall sane l -> forall s s', acts l s = Ret (tt, s') ->
  all_settled E (subch s) \/ existsb resets l = true -> all_settled E (subch s').
Proof.
  intros Hl. induction Hl as [|a l Ha _ IH]; cbn [acts existsb]; intros s s' H Hs.
  - injection H as <-. by destruct Hs.
  - apply guest_bind_Ret in H as ([] & s1 & H1 & H2). apply (IH s1 s' H2).
    destruct (resets a) eqn:Er; [left; by eapply act_resets|]. destruct Hs as [Hs|Hs]; [left|by right]. by eapply settles_act.
Qed.

(** C3: The subchannels of virtual consoles and spool devices are never seen in
    the middle of a function.  However a machine is run, by turns in which the
    guest does anything to its registers and storage, operator commands and
    resets, each such subchannel is either idle, or with its start function
    done and its status pending, so that when no status is pending there is no
    function in progress and condition code 2 is not given for it; with one
    exception: where there is no memory for the channel buffer, SSCH
    (instruction_priv.c:222) leaves the start function it has set in a
    subchannel that is otherwise zero, and condition code 2 is given for it.
    The status words have to start out that way, or a reset of the machine has
    to be among the actions: those of a new device are what malloc returned
    (vdevice.c:60), and a reset puts any of them right. *)
Theorem subchannels_settled l s s' :
  Forall sane l -> acts l s = Ret (tt, s') ->
  existsb resets l = true \/ Forall (fun d => on_spool (vtype d) = true -> settled (scsw d)) (virt_devs s) ->
  Forall (fun d => on_spool (vtype d) = true ->
     (settled (scsw d) /\ (status_pending d = false -> function_in_progress d = false)) \/
     (channel_buffer E = None /\ scsw d = started_scsw /\ status_pending d = false /\ function_in_progress d = true)) (virt_devs s').
Proof.
  intros Hl H Hs. assert (all_settled E (subch s')) as Hs'.
  { apply (acts_settled l Hl s s' H). destruct Hs as [|Hs]; [by right|left]. apply Forall_fmap. eapply Forall_impl; [exact Hs|].
    intros d Hd Ht. left. by apply Hd. }
  unfold all_settled, subch in Hs'. rewrite Forall_fmap in Hs'. eapply Forall_impl; [exact Hs'|].
  intros d Hd Ht. destruct (Hd Ht) as [Hp|[Hn Hp]]; [left|right]; cbn in Hp.
  - split; [done|]. by apply settled_no_function.
  - unfold status_pending, function_in_progress. rewrite Hp. split_and!; [done..|by vm_compute|by vm_compute].
Qed.
End machine.

(** ** A machine with a console *)

(** storage of 64 KB at host address 1 MB *)
Definition sample_env : env := Env
  (fun a => if (0 <=? a) && (a <? 0x10000) then Some (0x100000 + a) else None)
  0x10000 (zs "GUEST") 0x02 true (Some (replicate (Z.to_nat 0x10000) 0xaa)) (replicate 256 0) 4 (replicate (Z.to_nat 4080) 0).

(** a PSW with 31-bit addressing, enabled for I/O interruptions *)
Definition sample_psw : list Z := setf psw_io 1 (setf psw_ba 1 (zeros psw_size)).

Definition sample_console : virt_device :=
  VirtDevice VDEV_CONS 0x10000 0x3215 0 (Spooled None true) 0
    (setf pmcw_v 1 (setf pmcw_dev_num 9 (zeros pmcw_size))) (zeros scsw_size) (zeros orb_size).

(** the guest's operands: R1 has the subchannel number, R2 points to the ORB at
    0x200 of a format-1 program at 0x300, which writes 5 and 6 bytes *)
Definition put (a : Z) (l : list Z) (m : Z -> Z) : Z -> Z := write_bytes m (0x100000 + a) l.
Definition sample_storage : Z -> Z :=
  put 0x200 (setf orb_addr 0x300 (setf orb_f 1 (setf orb_param 0x1234 (zeros orb_size))))
  (put 0x300 [0x01; 0x40; 0; 5; 0; 0; 4; 0]
  (put 0x308 [0x03; 0; 0; 1; 0; 0; 0; 0]
  (put 0x310 [0x01; 0; 0; 6; 0; 0; 4; 5]
  (put 0x400 (zs "HELLO WORLD") (fun _ => 0))))).

Definition sample_sys : virt_sys :=
  VirtSys (VirtCpu (SieCb 0 0 0 0 0 sample_psw (replicate 16 0))
                   (GuestRegs ([0; 0x10000; 0x200] ++ replicate 13 0) (zeros 16) (zeros 64) 0)
                   0xff00000000000000 GUEST_STOPPED (replicate 8 []))
    [] true [0x100000] [sample_console] sample_storage.

(** the guest issues the instruction with operation code [op] and operand 0(R2) *)
Definition issue (op : Z) (s : virt_sys) : virt_sys :=
  on_cpu (on_sie (fun c => SieCb (cpuflags c) (prefix c) 4 op 0x20000000 (gpsw c) (gcr c))) s.

Definition sample_actions : list action := [ResetNormal; Begin; Turn (issue 0xb233); Turn (issue 0xb235); Turn (issue 0xb235)].

Lemma sample_actions_run : exists s', acts sample_env 100 sample_actions sample_sys = Ret (tt, s').
Proof.
  assert (match acts sample_env 100 sample_actions sample_sys with Ret _ => true | _ => false end = true) as H by (by vm_compute).
  destruct (acts _ _ _ _) as [[[] s']| |]; [by exists s'|done..].
Qed.

(** the same machine where nothing is left for the channel buffer, made with a status word that is not cleared *)
Definition poor_env : env := Env (virt2phy_current sample_env) 0x10000 (zs "GUEST") 0x02 true None (replicate 256 0) 4 (replicate (Z.to_nat 4080) 0).
Definition new_console : virt_device := set_scsw (replicate scsw_size 0xa5) sample_console.
Definition new_sys : virt_sys := set_devs [new_console] sample_sys.
Definition first_scsw (s : virt_sys) : list Z := match virt_devs s with d :: _ => scsw d | [] => [] end.

Definition after (E : env) (l : list action) (s : virt_sys) : virt_sys := match acts E 100 l s with Ret (_, s') => s' | _ => s end.

Lemma after_run E l s : match acts E 100 l s with Ret _ => true | _ => false end = true -> acts E 100 l s = Ret (tt, after E l s).
Proof. unfold after. destruct (acts E 100 l s) as [[[] s']| |]; done. Qed.

(** the first device has a function without status *)
Definition started_first (ds : list virt_device) : bool :=
  match ds with d :: _ => on_spool (vtype d) && negb (getf scsw_fc (scsw d) =? 0) && (getf scsw_sc (scsw d) =? 0) | [] => false end.

Lemma stuck_first (none : Prop) ds :
  Forall (fun d => on_spool (vtype d) = true ->
     (settled (scsw d) /\ (status_pending d = false -> function_in_progress d = false)) \/
     (none /\ scsw d = started_scsw /\ status_pending d = false /\ function_in_progress d = true)) ds ->
  started_first ds = true -> exists d, d ∈ ds /\ scsw d = started_scsw /\ function_in_progress d = true.
Proof.
  intros H Hf. destruct ds as [|d ds]; [done|]. apply andb_true_iff in Hf as [[Ht Hfc]%andb_true_iff Hsc%Z.eqb_eq].
  apply Forall_cons in H as [H _]. exists d. split; [by left|]. destruct (H Ht) as [[(_ & _ & _ & Hc) _]|(_ & Hs & _ & Hf)]; [|done].
  exfalso. rewrite Hsc in Hc. apply negb_true_iff, Z.eqb_neq in Hfc. naive_solver.
Qed.

Lemma subchannels_settled_witness :
  (Forall (fun d => on_spool (vtype d) = true ->
     (settled (scsw d) /\ (status_pending d = false -> function_in_progress d = false)) \/
     (channel_buffer sample_env = None /\ scsw d = started_scsw /\ status_pending d = false /\ function_in_progress d = true))
     (virt_devs (after sample_env (take 3 sample_actions) sample_sys)) /\ getf scsw_fc (first_scsw (after sample_env (take 3 sample_actions) sample_sys)) = FC_START) /\
  (exists d, d ∈ virt_devs (after poor_env sample_actions new_sys) /\ scsw d = started_scsw /\ function_in_progress d = true).
Proof.
  split.
  - split; [|by vm_compute]. apply (subchannels_settled sample_env 100 (take 3 sample_actions) sample_sys).
    + repeat constructor.
    + apply after_run. by vm_compute.
    + right. constructor; [|constructor]. intros _. apply reset_settled.
  - assert (Forall sane sample_actions) as Hl by repeat constructor.
    assert (acts poor_env 100 sample_actions new_sys = Ret (tt, after poor_env sample_actions new_sys)) as Hrun by (apply after_run; by vm_compute).
    pose proof (subchannels_settled poor_env 100 sample_actions new_sys _ Hl Hrun (or_introl eq_refl)) as H.
    apply (stuck_first _ _ H). by vm_compute.
Defined.
