(* ===== verification/ChannelSpec.v ===== *)
(** Channel programs of virtual consoles (VirtIo.v): which ones end, and what
    they write.

    [wp m Q s]: the operation [m] from state [s] ends, with a result and a state
    as [Q] says.  A console's file only has to have the shape that records can be
    appended to, so that a program may also split records over pages. *)

From S2P Require Import Prelude Buddy Layout Dat Spool Guest VirtIo VirtIoSpec.

Local Open Scope Z_scope.

#[local] Arguments cons {A} & a l.

(** ** Total operations *)

Definition wp {A} (m : guest A) (Q : A -> virt_sys -> Prop) (s : virt_sys) : Prop :=
  exists a s', m s = Ret (a, s') /\ Q a s'.

Lemma wp_ret {A} (a : A) Q s : Q a s -> wp (mret a) Q s.
Proof. intros H. by exists a, s. Qed.

Lemma wp_bind {A B} (m : guest A) (k : A -> guest B) Q s : wp m (fun a => wp (k a) Q) s -> wp (m ≫= k) Q s.
Proof.
  intros (a & s1 & H1 & b & s2 & H2 & H). exists b, s2. split; [|done]. apply guest_bind_Ret. by exists a, s1.
Qed.

Lemma wp_mono {A} (m : guest A) (Q R : A -> virt_sys -> Prop) s : wp m Q s -> (forall a t, Q a t -> R a t) -> wp m R s.
Proof. intros (a & s1 & H1 & H) HQ. exists a, s1. auto. Qed.

Lemma wp_modify f Q s : Q tt (f s) -> wp (modify f) Q s.
Proof. intros H. by exists tt, (f s). Qed.

Lemma wp_lift {A} (a : A) Q s : Q a s -> wp (lift (Ret a)) Q s.
Proof. intros H. by exists a, s. Qed.

Lemma wp_get Q s : Q s s -> wp get_sys Q s.
Proof. intros H. by exists s, s. Qed.

Lemma wp_get_dev i d Q s : virt_devs s !! i = Some d -> Q d s -> wp (get_dev i) Q s.
Proof. intros Hi H. exists d, s. unfold get_dev. by rewrite Hi. Qed.

(** ** Copies from the guest *)

Lemma copy_from_total v2p fuel a copied len m data :
  0 <= copied -> 0 <= len < Z.of_nat fuel -> copied + len <= lenZ data -> copied + len < 2 ^ 64 ->
  exists ret n data', copy_loop v2p fuel a copied len m data true = Ret (ret, n, m, data') /\ lenZ data' = lenZ data /\
    copied <= n <= copied + len /\ (ret = 0 \/ ret = - Dat.EFAULT).
Proof.
  revert copied len data. induction fuel as [|fuel IH]; intros copied len data Hc Hl Hd H64; [lia|].
  cbn [copy_loop]. destruct (Z.eqb_spec len 0) as [->|Hne].
  { exists 0, copied, data. split_and!; [done..|lia|by left]. }
  destruct (v2p a) as [h|]; [|exists (- Dat.EFAULT), copied, data; split_and!; [done..|lia|by right]].
  cbv zeta. pose proof (page_rest h) as Hp. set (n := Z.min _ len). assert (0 < n <= len) as Hn by lia.
  pose proof (read_bytes_len m h n ltac:(lia)) as Hrl.
  destruct (ablit_is_Some data copied (read_bytes m h n)) as [d1 Hd1]; [done|lia|].
  rewrite Hd1. cbn [defined mbind outcome_bind]. rewrite !wrap_small by lia.
  destruct (IH (copied + n) (len - n) d1) as (ret & k & d2 & -> & Hlen & Hk & Hr);
    [lia|lia|rewrite (ablit_lenZ _ _ _ _ Hd1); lia|lia|].
  exists ret, k, d2. split_and!; [done|by rewrite Hlen, (ablit_lenZ _ _ _ _ Hd1)|lia|lia|done].
Qed.

(** ** Appending to a file of the right shape *)

Record file_ok (f : spool_file) : Prop := FileOk {
  fo_pages : Forall page_ok (pages_data f);
  fo_npages : 0 <= npages f < 2 ^ 64 /\ (npages f <> 0 -> pages_data f <> []);
  fo_lrecoff : 0 <= lrecoff f <= SPOOL_DATA_SIZE /\ lrecoff f mod 2 = 0;
}.

Lemma alloc_spool_ok : file_ok alloc_spool.
Proof. split; cbn; [by apply Forall_nil|done|done]. Qed.

Lemma put_u16_total d off v : 0 <= off -> off + 2 <= lenZ d -> exists d', put_u16 d off v = Ret d' /\ lenZ d' = lenZ d.
Proof.
  intros H0 H1. unfold put_u16. destruct (ablit_is_Some d off [u8 (Z.shiftr v 8); u8 v]) as [d' Hd]; [done|done|].
  exists d'. rewrite Hd. split; [done|]. by apply ablit_lenZ in Hd.
Qed.

Lemma memcpy_total d doff m soff n : 0 <= doff -> 0 <= soff -> 0 <= n -> doff + n <= lenZ d -> soff + n <= lenZ m ->
  exists d', memcpy d doff m soff n = Ret d' /\ lenZ d' = lenZ d.
Proof.
  intros. unfold memcpy. destruct (aslice_is_Some m soff n) as [b Hb]; [lia..|]. rewrite Hb. cbn [defined mbind outcome_bind].
  pose proof (aslice_lenZ _ _ _ _ Hb). destruct (ablit_is_Some d doff b) as [d' Hd]; [lia..|].
  exists d'. rewrite Hd. split; [done|]. by apply ablit_lenZ in Hd.
Qed.

Section append.
Context (fresh : list Z) (m : list Z) (buf len : Z) (avail : nat).
Context (Hfresh : page_ok fresh) (Hlen : 0 < len <= 150) (Hbuf : 150 <= buf) (Hm : buf + len <= lenZ m) (Havail : avail <> 0%nat).

(** at most one new page *)
Lemma append_loop_total copied loff : 0 <= copied <= len + 2 -> copied = 0 \/ 2 <= copied ->
  exists new loff', append_loop fresh avail m buf len (len + 2) copied loff [] = Ret (Some (new, loff')) /\
    Forall page_ok new /\ (new = [] /\ loff' = loff \/ new <> [] /\ 0 <= loff' <= 152).
Proof.
  intros Hc Hc2. destruct avail as [|n]; [done|]. cbn [append_loop].
  destruct (Z.eqb_spec (len + 2) (u32 copied)) as [E|Hne].
  { exists [], loff. split_and!; [done|constructor|by left]. }
  rewrite wrap_small in Hne by lia. unfold page_ok, SPOOL_DATA_SIZE in *.
  assert (forall d l, lenZ d = 4096 - 16 -> l = len + 2 - copied -> exists new loff',
    append_loop fresh n m buf len (len + 2) (s32 (copied + l)) l ([] ++ [d]) = Ret (Some (new, loff')) /\
    Forall (fun p => lenZ p = 4096 - 16) new /\ (new = [] /\ loff' = loff \/ new <> [] /\ 0 <= loff' <= 152)) as Hnext.
  { intros d l Hd ->. rewrite swrap_small by lia. replace (copied + _) with (len + 2) by lia.
    rewrite append_loop_done by lia. eexists [d], _. split; [done|]. split; [by constructor|]. right. split; [done|lia]. }
  destruct (Z.eqb_spec copied 0) as [->|Hn0].
  - destruct (put_u16_total fresh 0 len) as (d & -> & Hd); [lia..|]. cbn [mbind outcome_bind].
    destruct (memcpy_total d 2 m buf (Z.min len (4096 - 16 - 2))) as (d' & -> & Hd'); [lia..|].
    cbn [mbind outcome_bind]. apply Hnext; lia.
  - rewrite (wrap_small 32) by lia.
    destruct (memcpy_total fresh 0 m (buf - copied + 2) (Z.min (len + 2 - copied) (4096 - 16))) as (d' & -> & Hd'); [lia..|].
    cbn [mbind outcome_bind]. apply Hnext; lia.
Qed.
End append.

(** what goes into the last page: the pages, the bytes copied and the offset *)
Definition in_last_page (f : spool_file) (m : list Z) (buf len : Z) : outcome (list (list Z) * Z * Z) :=
  let left := u32 (SPOOL_DATA_SIZE - lrecoff f) in
  if negb (npages f =? 0) && (left >=? 2) then
    d ← defined (last (pages_data f)); d ← put_u16 d (lrecoff f) len;
    if negb (left - 2 =? 0) then
      let n := Z.min len (left - 2) in
      d ← memcpy d (lrecoff f + 2) m buf n; Ret (set_last (pages_data f) d, 2 + n, lrecoff f + (2 + n))
    else Ret (set_last (pages_data f) d, 2, lrecoff f + 2)
  else Ret (pages_data f, 0, 0).

Lemma set_last_ok ps d : Forall page_ok ps -> page_ok d -> Forall page_ok (set_last ps d) /\ set_last ps d <> [].
Proof.
  intros Hp Hd. unfold set_last. split; [|by destruct (removelast ps)].
  apply Forall_app. split; [|by constructor]. apply Forall_lookup. intros i x Hx.
  destruct ps as [|p ps] using rev_ind; [done|]. rewrite removelast_last in Hx.
  apply (proj1 (Forall_lookup _ _) Hp i). by apply lookup_app_l_Some.
Qed.

Lemma in_last_page_total f m buf len :
  0 < len <= 150 -> 0 <= buf -> buf + len <= lenZ m -> file_ok f ->
  exists pgs copied loff, in_last_page f m buf len = Ret (pgs, copied, loff) /\
    Forall page_ok pgs /\ (npages f <> 0 -> pgs <> []) /\ 0 <= loff <= SPOOL_DATA_SIZE /\
    0 <= copied <= len + 2 /\ (copied = 0 \/ 2 <= copied).
Proof.
  intros Hl Hb Hm [Hp [Hn Hnp] [Hlo Hev]]. unfold in_last_page.
  assert (SPOOL_DATA_SIZE = 4080) as ES by done. rewrite wrap_small by lia.
  destruct (Z.eqb_spec (npages f) 0) as [E|Hne]; cbn [negb andb]; [exists (pages_data f), 0, 0; split_and!; try done; lia|].
  rewrite Z.geb_leb. destruct (Z.leb_spec 2 (SPOOL_DATA_SIZE - lrecoff f)) as [Hleft|];
    [|exists (pages_data f), 0, 0; split_and!; try done; try lia; by auto].
  destruct (last (pages_data f)) as [d|] eqn:Hd; [|by apply last_None in Hd; destruct (Hnp Hne)].
  assert (page_ok d) as Hdp.
  { apply last_Some_elem_of in Hd. by apply (proj1 (Forall_forall _ _) Hp). }
  unfold page_ok in Hdp. cbn [defined mbind outcome_bind].
  destruct (put_u16_total d (lrecoff f) len) as (d1 & -> & Hd1); [lia..|]. cbn [mbind outcome_bind].
  destruct (Z.eqb_spec (SPOOL_DATA_SIZE - lrecoff f - 2) 0) as [E|Hne2]; cbn [negb].
  - destruct (set_last_ok (pages_data f) d1 Hp) as [? ?]; [unfold page_ok; lia|].
    eexists _, _, _. split_and!; try done; lia.
  - set (n := Z.min len _). assert (0 <= n <= len /\ lrecoff f + 2 + n <= 4080) as Hn2 by lia.
    destruct (memcpy_total d1 (lrecoff f + 2) m buf n) as (d2 & -> & Hd2); [lia..|]. cbn [mbind outcome_bind].
    destruct (set_last_ok (pages_data f) d2 Hp) as [? ?]; [unfold page_ok; lia|].
    eexists _, _, _. split_and!; try done; lia.
Qed.

Lemma file_ok_append fresh avail f m buf len :
  page_ok fresh -> 0 < len <= 150 -> 150 <= buf -> buf + len <= lenZ m -> avail <> 0%nat -> file_ok f ->
  exists f', spool_append_rec fresh avail f m buf len = Ret (0, f') /\ file_ok f'.
Proof.
  intros Hfr Hl Hb Hm Ha Hf.
  destruct (in_last_page_total f m buf len) as (pgs & copied & loff & E & Hpg & Hne & Hloff & Hc & Hc2); [done|lia|done..|].
  destruct Hf as [Hp [Hn Hnp] [Hlo Hev]]. unfold spool_append_rec.
  rewrite (proj2 (Z.eqb_neq _ _)) by lia. rewrite Hev. cbn [bug_on negb Z.eqb mbind outcome_bind].
  unfold in_last_page in E. cbv zeta in E |- *. rewrite E. cbn [mbind outcome_bind].
  rewrite (proj2 (Z.ltb_ge _ _)) by lia. cbn [bug_on mbind outcome_bind].
  destruct (append_loop_total fresh m buf len avail Hfr Hl Hb Hm Ha copied loff Hc Hc2) as (new & loff' & -> & Hnew & Hcase).
  cbn [mbind outcome_bind]. eexists. split; [done|].
  assert (SPOOL_DATA_SIZE = 4080) as ES by done.
  assert (0 <= loff' <= 4080) as Hl' by (destruct Hcase as [[_ ->]|[_ ?]]; lia).
  split; cbn [pages_data npages lrecoff].
  - by apply Forall_app.
  - split; [by apply wrap_range|]. intros H0 [-> ->]%app_eq_nil. apply Hne; [|done]. intros E0. apply H0.
    by rewrite E0.
  - destruct (Z.eqb_spec (loff' mod 2) 0) as [E0|E0]; cbn [negb]; rewrite wrap_small by lia; [lia|divlia].
Qed.

(** * Programs that end *)

Lemma getf_bound fl b : 0 <= f_width fl -> 0 <= getf fl b < 2 ^ f_width fl.
Proof. intros Hw. unfold getf. rewrite Z.land_ones by done. by apply Z.mod_pos_bound, Z.pow_pos_nonneg. Qed.

(** the allocators have what one program needs *)
Record env_ok (E : env) : Prop := EnvOk {
  eo_malloc : malloc_ok E = true;
  eo_buffer : exists buf, channel_buffer E = Some buf /\ lenZ buf = 0x10000;
  eo_below : 150 <= lenZ (below_buffer E);
  eo_pages : spool_pages E <> 0%nat;
  eo_fresh : page_ok (fresh_page E);
}.

(** every TIC in storage that a format-0 program can reach points forward *)
Definition forward_tics (E : env) (m : Z -> Z) : Prop :=
  forall a n m' raw, 0 <= a < 2 ^ 24 -> a mod 8 = 0 ->
    __memcpy_tofrom_guest (virt2phy_current E) a m (zeros 8) 8 true = Ret (0, n, m', raw) ->
    Z.land (getf ccw0_cmd raw) 0x0f = CCW_CMD_TIC -> a < CCW0_ADDR raw.

Definition spool_ok (v : vdev_data) : Prop :=
  match v with Spooled (Some file) _ => file_ok file | Spooled None _ => True | _ => False end.

(** device [i] is a console with number [n] and path information [p]; [m] and [c]
    are storage and the CPU, which a program does not change *)
Definition console_ok (i : nat) (m : Z -> Z) (c : virt_cpu) (n : Z) (p : list Z) (s : virt_sys) : Prop :=
  (storage s = m /\ cpu s = c) /\
  exists d, virt_devs s !! i = Some d /\ spool_ok (u d) /\ sch d = n /\ pmcw d = p /\ struct_ok 12 (scsw d).

Section programs.
Context (E : env) (HE : env_ok E) (i : nat) (m : Z -> Z) (c : virt_cpu) (n : Z) (p : list Z).

Let ok := console_ok i m c n p.

(** the state of the control unit that a command leaves alone *)
Definition same_unit (st st' : spdev_state) : Prop :=
  f st' = f st /\ addr st' = addr st /\ cd st' = cd st /\ tic2tic st' = tic2tic st /\ lenZ (iobuf st') = lenZ (iobuf st).

Lemma wp_con fmt args Q s : ok s -> (forall t, ok t -> Q tt t) -> wp (con_printf fmt args) Q s.
Proof. intros [Hm Hd] HQ. apply wp_modify, HQ. done. Qed.

(** a change of the device's sense data or spool file *)
Definition quiet (g : virt_device -> virt_device) : Prop :=
  forall d, spool_ok (u d) -> spool_ok (u (g d)) /\ sch (g d) = sch d /\ pmcw (g d) = pmcw d /\ scsw (g d) = scsw d.

Lemma ok_dev g s : ok s -> quiet g -> ok (set_devs (alter g i (virt_devs s)) s).
Proof.
  intros [Hm (d & Hd & Hu & Hn & Hp & Hw)] Hg. split; [done|]. exists (g d). cbn [virt_devs set_devs].
  rewrite list_lookup_alter, decide_True, Hd by done. destruct (Hg d Hu) as (? & -> & -> & ->). done.
Qed.

Lemma wp_on_dev g Q s : ok s -> quiet g -> (forall t, ok t -> Q tt t) -> wp (on_dev i g) Q s.
Proof. intros Hs Hg HQ. apply wp_modify, HQ. by apply ok_dev. Qed.

Lemma wp_cmdrej st (Q : spdev_state -> virt_sys -> Prop) s : ok s ->
  (forall st' t, ok t -> same_unit st st' -> dev_status st' <> CE_DE -> Q st' t) -> wp (spooldev_cmdrej i st) Q s.
Proof.
  intros Hs HQ. unfold spooldev_cmdrej. apply wp_bind, wp_on_dev; [done|done|]. intros t Ht.
  apply wp_ret, HQ; [done|done|]. done.
Qed.

Lemma wp_open Q s : ok s ->
  (forall t, ok t -> (exists d file ops, virt_devs t !! i = Some d /\ u d = Spooled (Some file) ops /\ file_ok file) -> Q 0 t) ->
  wp (open_spoolfile E i) Q s.
Proof.
  intros Hs HQ. pose proof Hs as [Hm (d & Hd & Hu & _)]. unfold open_spoolfile. apply wp_bind, (wp_get_dev _ d); [done|].
  destruct (u d) as [|[file|] ops|] eqn:Eu; [done| | |done].
  - apply wp_ret, HQ; [done|]. by exists d, file, ops.
  - rewrite (eo_malloc _ HE). apply wp_bind, wp_modify, wp_ret, HQ.
    + apply ok_dev; [done|]. intros d' _. split; [apply alloc_spool_ok|done].
    + eexists _, alloc_spool, ops. cbn [virt_devs set_devs]. rewrite list_lookup_alter, decide_True, Hd by done.
      split_and!; [done|done|apply alloc_spool_ok].
Qed.

Lemma wp_cons_write ccw st (Q : spdev_state -> virt_sys -> Prop) s : ok s -> lenZ (iobuf st) = 0x10000 -> getf ccw_count ccw <> 0 ->
  (forall st' t, ok t -> same_unit st st' -> (dev_status st' = CE_DE -> getf ccw_cmd ccw = 1) -> Q st' t) ->
  wp (cons_write E i ccw st) Q s.
Proof.
  intros Hs Hbuf Hcnt HQ. unfold cons_write. destruct (Z.eqb_spec (getf ccw_cmd ccw) 0x01) as [Hcmd|Hcmd]; cbn [negb].
  2:{ apply wp_cmdrej; [done|]. intros st' t Ht Hsame Hne. apply HQ; [done|done|done]. }
  apply wp_bind, wp_open; [done|]. intros t Ht (d & file & ops & Hd & Hu & Hf). cbn [Z.eqb negb].
  apply wp_bind. unfold cons_append. apply wp_bind, (wp_get_dev _ d); [done|]. rewrite Hu.
  pose proof (getf_bound ccw_count ccw ltac:(done)) as Hr.
  destruct (file_ok_append (fresh_page E) (spool_pages E) file (below_buffer E ++ iobuf st) (lenZ (below_buffer E))
    (Z.min (getf ccw_count ccw) 150)) as (file' & Ea & Hf'); [apply HE|lia|apply HE| |apply HE|done|].
  { rewrite lenZ_app. lia. }
  apply wp_bind. cbn [iobuf set_dev_status]. rewrite Ea. apply wp_lift.
  apply wp_bind, wp_modify, wp_ret. cbn [Z.eqb negb]. apply wp_ret, HQ; [by apply ok_dev| |done]. done.
Qed.

Lemma wp_device_op ops ccw st (Q : spdev_state -> virt_sys -> Prop) s : ok s -> lenZ (iobuf st) = 0x10000 -> getf ccw_count ccw <> 0 ->
  (forall st' t, ok t -> same_unit st st' -> (dev_status st' = CE_DE -> getf ccw_cmd ccw = 1) -> Q st' t) ->
  wp (device_op E i ops ccw st) Q s.
Proof.
  intros Hs Hbuf Hcnt HQ. unfold device_op. destruct (ops && _); [by apply wp_cons_write|].
  apply wp_cmdrej; [done|]. intros st' t Ht Hsame Hne. by apply HQ.
Qed.

Lemma flags_supported fl : Z.land fl unsupported_flags = 0 -> Z.land fl (Z.lor CCW_FLAG_IDA CCW_FLAG_MIDA) = 0.
Proof.
  intros H. change (Z.lor CCW_FLAG_IDA CCW_FLAG_MIDA) with (Z.land unsupported_flags 5). by rewrite Z.land_assoc, H.
Qed.

Lemma wp_fetch_data ccw st (Q : spdev_state -> virt_sys -> Prop) s : ok s -> lenZ (iobuf st) = 0x10000 ->
  Z.land (getf ccw_flags ccw) unsupported_flags = 0 ->
  (forall st' t, ok t -> same_unit st st' -> dev_status st' = dev_status st -> Q st' t) ->
  wp (__xfer_storage E st ccw true) Q s.
Proof.
  intros Hs Hbuf Hfl HQ. unfold __xfer_storage. rewrite (flags_supported _ Hfl). apply wp_bind, wp_lift.
  destruct (_ =? 0); [by apply wp_ret, HQ|]. destruct (_ >? _); [by apply wp_ret, HQ|].
  pose proof (getf_bound ccw_count ccw ltac:(done)) as Hr. change (2 ^ f_width ccw_count) with 65536 in Hr.
  destruct (copy_from_total (virt2phy_current E) (S (Z.to_nat (getf ccw_count ccw))) (getf ccw_addr ccw) 0 (getf ccw_count ccw)
    (storage s) (iobuf st)) as (ret & k & buf & Ec & Hl & Hn & _); [lia..|].
  apply wp_bind. exists (ret, k, buf), (set_storage (storage s) s). split.
  { unfold memcpy_from_guest_to, __memcpy_tofrom_guest. by rewrite Ec. }
  apply wp_ret, HQ; [by destruct s| |by destruct (ret =? 0)].
  unfold same_unit. destruct (ret =? 0); cbn; split_and!; try done; lia.
Qed.

(** one command; it goes on at the second doubleword after the one fetched *)
Lemma wp_run_ccw ops ccw st (Q : spdev_state * bool -> virt_sys -> Prop) s :
  ok s -> lenZ (iobuf st) = 0x10000 -> f st = 0 -> 0 <= addr st < 2 ^ 30 ->
  (forall st' more t, ok t -> f st' = 0 -> lenZ (iobuf st') = 0x10000 ->
     (more = true -> addr st' = addr st + 8) -> Q (st', more) t) ->
  wp (run_ccw E i ops ccw st) Q s.
Proof.
  intros Hs Hbuf Hf Ha HQ. unfold run_ccw. cbv zeta.
  destruct (invalid_ccw (set_tic false st) ccw) eqn:Hinv; [by apply wp_ret, HQ|].
  destruct (Z.eqb_spec (Z.land (getf ccw_flags ccw) unsupported_flags) 0) as [Hfl|Hfl]; cbn [negb].
  2:{ apply wp_bind, wp_con; [done|]. intros t Ht. by apply wp_ret, HQ. }
  assert (getf ccw_count ccw <> 0) as Hcnt.
  { unfold invalid_ccw in Hinv. cbn [f set_tic] in Hinv. rewrite Hf in Hinv.
    apply orb_false_iff in Hinv as [[[_ Hc]%orb_false_iff _]%orb_false_iff _]. cbn in Hc. by apply Z.eqb_neq. }
  apply wp_bind.
  assert (forall st' t, ok t -> same_unit (set_tic false st) st' -> dev_status st' = dev_status st ->
     wp (st0 ← device_op E i ops ccw st';
         if negb (dev_status st0 =? CE_DE) then mret (st0, false) else
         st ← (if IS_CCW_READ (getf ccw_cmd ccw) then __xfer_storage E st0 ccw false else mret st0);
         con_printf "OK" [] ;;
         if Z.land (getf ccw_flags ccw) (Z.lor CCW_FLAG_CD CCW_FLAG_CC) =? 0 then mret (st, false) else
         let st := set_cd (negb (Z.land (getf ccw_flags ccw) CCW_FLAG_CD =? 0)) st in
         mret (set_addr (Z.land (u32 (addr st + 8)) 0x7fffffff) st, true)) Q t) as Hop.
  { intros st1 t Ht (Hf1 & Ha1 & _ & _ & Hb1) _. cbn in Hf1, Ha1, Hb1. apply wp_bind, wp_device_op; [done|lia|done|].
    intros st2 t2 Ht2 (Hf2 & Ha2 & _ & _ & Hb2) Hcmd.
    destruct (Z.eqb_spec (dev_status st2) CE_DE) as [Hde|Hde]; cbn [negb]; [|apply wp_ret, HQ; try done; lia].
    rewrite (Hcmd Hde). cbn [IS_CCW_READ]. change (IS_CCW_READ 1) with false.
    apply wp_bind, wp_ret, wp_bind, wp_con; [done|]. intros t3 Ht3.
    destruct (_ =? 0); [apply wp_ret, HQ; try done; lia|]. apply wp_ret, HQ; [done|cbn; lia|cbn; lia|]. intros _.
    cbn [addr set_addr set_cd]. rewrite wrap_small by lia. change 0x7fffffff with (Z.ones 31).
    rewrite Z.land_ones by lia. rewrite Z.mod_small by lia. lia. }
  destruct (IS_CCW_WRITE _).
  - apply wp_fetch_data; [done|done|done|]. intros st1 t Ht Hsame Hde.
    by apply Hop.
  - apply wp_ret. by apply Hop.
Qed.

Lemma low_address a : 0 <= a < 2 ^ 32 -> Z.land a 0xff000000 = 0 -> a < 2 ^ 24.
Proof.
  intros Ha H. apply (f_equal (fun x => Z.shiftr x 24)) in H. rewrite Z.shiftr_land in H.
  change (Z.shiftr 0xff000000 24) with (Z.ones 8) in H. rewrite Z.land_ones, Z.shiftr_div_pow2, Z.shiftr_0_l in H by lia.
  change (2 ^ 24) with 16777216 in *. change (2 ^ 8) with 256 in H. divlia.
Qed.

(** fetching a CCW of a format-0 program *)
Lemma wp_get_ccw st ccw (Q : spdev_state * list Z -> virt_sys -> Prop) s :
  ok s -> f st = 0 -> 0 <= addr st < 2 ^ 32 ->
  (forall v t, ok t -> v <> 0 -> Q (set_sch_status v st, ccw) t) ->
  (forall t k m' raw, ok t -> addr st < 2 ^ 24 -> addr st mod 8 = 0 ->
     __memcpy_tofrom_guest (virt2phy_current E) (addr st) m (zeros 8) 8 true = Ret (0, k, m', raw) ->
     Q (st, ccw0_to_ccw1 ccw raw) t) ->
  wp (__get_ccw E st ccw) Q s.
Proof.
  intros Hs Hf Ha Hbad HQ. unfold __get_ccw. rewrite Hf. cbn [Z.eqb negb andb orb]. rewrite orb_false_r.
  destruct (Z.eqb_spec (Z.land (addr st) 0xff000000) 0) as [H1|H1]; cbn [negb orb]; [|apply wp_ret, Hbad; [done|unfold SC_PROG_CHK; lia]].
  destruct (Z.eqb_spec (Z.land (addr st) 0x00000007) 0) as [H2|H2]; cbn [negb orb]; [|apply wp_ret, Hbad; [done|unfold SC_PROG_CHK; lia]].
  change 7 with (Z.ones 3) in H2. rewrite Z.land_ones in H2 by lia.
  destruct (copy_from_total (virt2phy_current E) 9 (addr st) 0 8 (storage s) (zeros 8)) as (ret & k & raw & Ec & _ & _ & _); [done..|].
  apply wp_bind. exists (ret, k, raw), (set_storage (storage s) s). split.
  { unfold memcpy_from_guest, __memcpy_tofrom_guest. change (S (Z.to_nat 8)) with 9%nat. change (Z.to_nat 8) with 8%nat. by rewrite Ec. }
  assert (ok (set_storage (storage s) s)) as Hok by (by destruct s). destruct (Z.eqb_spec ret 0) as [->|Hr]; cbn [negb].
  - destruct Hs as [[Hm _] _]. apply wp_ret. eapply HQ; [done|by apply low_address|done|].
    unfold __memcpy_tofrom_guest. change (S (Z.to_nat 8)) with 9%nat. by rewrite <- Hm.
  - apply wp_bind, wp_con; [done|]. intros t Ht. apply wp_ret, Hbad; [done|unfold SC_PROT_CHK; lia].
Qed.

(** how far a program can still go *)
Definition to_go (st : spdev_state) : Z := 2 ^ 24 - addr st.

Context (Htics : forward_tics E m).

Lemma tic_target ccw raw : struct_ok 8 ccw -> getf ccw_cmd (ccw0_to_ccw1 ccw raw) = CCW_CMD_TIC ->
  Z.land (getf ccw0_cmd raw) 0x0f = CCW_CMD_TIC /\ getf ccw_addr (ccw0_to_ccw1 ccw raw) = CCW0_ADDR raw.
Proof.
  intros Hc. unfold ccw0_to_ccw1. getf_set. intros Ht. split.
  - destruct (Z.eqb_spec (Z.land (getf ccw0_cmd raw) 0x0f) CCW_CMD_TIC) as [|Hne]; [done|].
    pose proof (getf_bound ccw0_cmd raw ltac:(done)). cbn in Ht. rewrite wrap_small in Ht by done. rewrite Ht in Hne. done.
  - pose proof (getf_bound ccw0_addr_hi raw ltac:(done)) as Hh. pose proof (getf_bound ccw0_addr_lo raw ltac:(done)) as Hl.
    cbn in Hh, Hl |- *. unfold wrap. apply Z.bits_inj'. intros k Hk. rewrite Z.testbit_mod_pow2 by lia.
    case_bool; [done|]. cbn [andb]. unfold CCW0_ADDR. rewrite Z.lor_spec, Z.shiftl_spec by lia.
    rewrite <- (Z.mod_small (getf ccw0_addr_hi raw) (2 ^ 8)), <- (Z.mod_small (getf ccw0_addr_lo raw) (2 ^ 16)) by lia.
    by rewrite !Z.mod_pow2_bits_high by lia.
Qed.

Lemma wp_turn ops cnt st ccw (Q : spdev_state * list Z * bool -> virt_sys -> Prop) s :
  ok s -> lenZ (iobuf st) = 0x10000 -> f st = 0 -> 0 <= addr st < 2 ^ 32 -> struct_ok 8 ccw ->
  (forall st' ccw' more t, ok t -> f st' = 0 -> lenZ (iobuf st') = 0x10000 -> struct_ok 8 ccw' ->
     (more = true -> addr st < 2 ^ 24 /\ addr st < addr st' < 2 ^ 32) -> Q (st', ccw', more) t) ->
  wp (ccw_turn E i ops cnt st ccw) Q s.
Proof.
  intros Hs Hbuf Hf Ha Hccw HQ. unfold ccw_turn. apply wp_bind, wp_con; [done|]. intros t1 Ht1.
  apply wp_bind, wp_get_ccw; [done|done|lia| |].
  - intros v t Ht Hv. cbv zeta. cbn [sch_status set_addr set_sch_status]. rewrite (proj2 (Z.eqb_neq _ _) Hv). by apply wp_ret, HQ.
  - intros t k m' raw Ht Hlow Hal Hraw. cbv zeta. rewrite wrap_small by lia. cbn [sch_status set_addr addr].
    pose proof (ccw0_to_ccw1_ok ccw raw Hccw) as Hco.
    destruct (Z.eqb_spec (sch_status st) 0) as [Hsch|Hsch]; cbn [negb]; [|by apply wp_ret, HQ].
    apply wp_bind, wp_con; [done|]. intros t2 Ht2.
    destruct (Z.eqb_spec (getf ccw_cmd (ccw0_to_ccw1 ccw raw)) CCW_CMD_TIC) as [Htic|Htic].
    + cbn [tic2tic f set_addr]. destruct (tic2tic st); [by apply wp_ret, HQ|]. rewrite Hf. cbn [Z.eqb negb andb].
      destruct (tic_target _ _ Hccw Htic) as [Ht3 Htar]. pose proof (Htics (addr st) _ _ _ ltac:(lia) Hal Hraw Ht3) as Hfwd.
      pose proof (getf_bound ccw_addr (ccw0_to_ccw1 ccw raw) ltac:(done)) as Hr. change (2 ^ f_width ccw_addr) with (2 ^ 32) in Hr.
      apply wp_ret, HQ; try done. intros _. cbn [addr set_addr set_tic]. lia.
    + apply wp_bind, wp_run_ccw; [done|done|done|cbn; lia|]. intros st' more t3 Ht3 Hf' Hb' Hmore.
      apply wp_ret, HQ; try done. intros Hm. specialize (Hmore Hm). cbn [addr set_addr] in Hmore. lia.
Qed.

Lemma wp_loop fuel ops cnt st ccw (Q : spdev_state -> virt_sys -> Prop) s :
  ok s -> lenZ (iobuf st) = 0x10000 -> f st = 0 -> 0 <= addr st < 2 ^ 32 -> struct_ok 8 ccw ->
  to_go st < Z.of_nat fuel - 1 -> 0 < Z.of_nat fuel -> (forall st' t, ok t -> Q st' t) ->
  wp (ccw_loop E fuel i ops cnt st ccw) Q s.
Proof.
  revert cnt st ccw s. induction fuel as [|fuel IH]; intros cnt st ccw s Hs Hbuf Hf Ha Hccw Hgo Hfuel HQ; [lia|].
  cbn [ccw_loop]. apply wp_bind, wp_turn; [done..|]. intros st' ccw' more t Ht Hf' Hb' Hc' Hmore.
  destruct more; [|by apply wp_ret, HQ]. destruct Hmore as [Hlow Hadv]; [done|]. unfold to_go in *.
  apply IH; [done|done|done|lia|done|lia|lia|done].
Qed.
End programs.

(** ** The whole program *)

Lemma console_on_scsw g i s d : virt_devs s !! i = Some d -> spool_ok (u d) -> struct_ok 12 (g (scsw d)) ->
  console_ok i (storage s) (cpu s) (sch d) (pmcw d) (set_devs (alter (on_scsw g) i (virt_devs s)) s).
Proof.
  intros Hd Hu Hg. split; [done|]. exists (on_scsw g d). cbn [virt_devs set_devs].
  by rewrite list_lookup_alter, decide_True, Hd by done.
Qed.

Lemma final_scsw_ok st p : struct_ok 12 p -> struct_ok 12 (final_scsw st p) /\
  Z.land (getf scsw_sc (final_scsw st p)) SC_STATUS = SC_STATUS.
Proof.
  intros Hp. unfold final_scsw. cbv zeta. set (failed := _ || _). set (p1 := setf scsw_ac _ p).
  assert (struct_ok 12 p1) as H1 by (by apply setf_ok). set (sc := Z.lor (getf scsw_sc p1) _).
  assert (Z.land sc SC_STATUS = SC_STATUS) as Hsc.
  { unfold sc. apply Z.bits_inj'. intros k Hk. rewrite Z.land_spec, Z.lor_spec.
    destruct (decide (k = 0)) as [->|Hk0].
    { change (Z.testbit (flags_of _) 0) with true. by rewrite orb_true_r. }
    unfold SC_STATUS. change 1 with (2 ^ 0). rewrite Z.pow2_bits_false by lia. by rewrite andb_false_r. }
  set (p2 := setf scsw_sc sc p1). assert (struct_ok 12 p2) as H2 by (by apply setf_ok).
  split; [destruct failed; by repeat apply setf_ok|].
  assert (Z.land (getf scsw_sc p2) SC_STATUS = SC_STATUS) as Hs2.
  { unfold p2. scsw_set. by rewrite wrap_land_flags. }
  destruct failed; [set (p3 := setf scsw_sc _ p2); assert (struct_ok 12 p3) as H3 by (by apply setf_ok)|]; scsw_set; [|done].
  unfold p3. scsw_set. rewrite wrap_land_flags by done. rewrite Z.land_lor_distr_l, Hs2. done.
Qed.

(** C13: Channel programs end.  On a virtual console or spool device, a format-0
    program whose transfers in channel all point forward is over after at most
    2^24 commands, whatever else storage holds and wherever the program starts:
    the control unit reports, the status is pending, exactly one interruption
    with the device's number and parameter is queued for its subclass, and the
    guest's storage is as before. *)
Theorem channel_program_ends E fuel i s d :
  env_ok E -> 2 ^ 24 < Z.of_nat fuel - 1 ->
  virt_devs s !! i = Some d -> spool_ok (u d) -> struct_ok 12 (scsw d) ->
  getf orb_f (orb d) = 0 -> forward_tics E (storage s) ->
  exists s' d', spool_exec E fuel i s = Ret (0, s') /\
    virt_devs s' !! i = Some d' /\ status_pending d' = true /\ storage s' = storage s /\
    let isc := getf pmcw_isc (pmcw d) in
    let ioint := VioInt (sch d) (getf pmcw_interrupt_param (pmcw d)) (u32 (Z.shiftl isc 27)) in
    cpu s' = set_int_io (alter (fun l => l ++ [ioint]) (Z.to_nat isc) (int_io (cpu s))) (cpu s).
Proof.
  intros HE Hfuel Hd Hu Hw Hf Htics.
  set (isc := getf pmcw_isc (pmcw d)). set (ioint := VioInt (sch d) (getf pmcw_interrupt_param (pmcw d)) (u32 (Z.shiftl isc 27))).
  set (c' := set_int_io (alter (fun l => l ++ [ioint]) (Z.to_nat isc) (int_io (cpu s))) (cpu s)).
  assert (wp (spool_exec E fuel i) (fun r t => r = 0 /\ storage t = storage s /\ cpu t = c' /\
    exists d', virt_devs t !! i = Some d' /\ status_pending d' = true) s) as (r & s' & Hr & -> & Hst & Hc & d' & Hd' & Hp).
  2:{ by exists s', d'. }
  destruct (eo_buffer _ HE) as (buf & Hbuf & Hlen). unfold spool_exec. rewrite Hbuf.
  apply wp_bind, wp_modify. set (s1 := set_devs _ _).
  assert (console_ok i (storage s) (cpu s) (sch d) (pmcw d) s1) as Hs1.
  { apply console_on_scsw; [done|done|]. unfold begin_exec. by repeat apply setf_ok. }
  apply wp_bind, (wp_get_dev _ (on_scsw begin_exec d)).
  { unfold s1. cbn [virt_devs set_devs]. by rewrite list_lookup_alter, decide_True, Hd by done. }
  cbn [u orb on_scsw set_scsw]. destruct (u d) as [|file ops|]; [done| |done].
  apply wp_bind, wp_lift, wp_bind. eapply wp_con; [exact Hs1|]. intros t Ht.
  pose proof (getf_bound orb_addr (orb d) ltac:(done)) as Ha. change (2 ^ f_width orb_addr) with (2 ^ 32) in Ha.
  apply wp_bind. eapply wp_loop; try done; [|unfold to_go; cbn; lia|lia|].
  { apply (zeros_ok 8). }
  intros st t1 Ht1. apply wp_bind.
  assert (forall t, console_ok i (storage s) (cpu s) (sch d) (pmcw d) t ->
    wp (on_dev i (on_scsw (final_scsw st)) ;;
        d ← get_dev i;
        queue_io_interrupt E (sch d) (getf pmcw_interrupt_param (pmcw d)) 0 (getf pmcw_isc (pmcw d)) ;; mret 0)
      (fun r t => r = 0 /\ storage t = storage s /\ cpu t = c' /\
        exists d', virt_devs t !! i = Some d' /\ status_pending d' = true) t) as Hfin.
  { intros t2 [[Hm2 Hc2] (d2 & Hd2 & Hu2 & Hn2 & Hp2 & Hw2)]. apply wp_bind, wp_modify.
    destruct (final_scsw_ok st _ Hw2) as [Hok Hpend]. apply wp_bind, (wp_get_dev _ (on_scsw (final_scsw st) d2)).
    { cbn [virt_devs set_devs]. by rewrite list_lookup_alter, decide_True, Hd2 by done. }
    cbn [sch pmcw on_scsw set_scsw]. rewrite Hn2, Hp2. apply wp_bind. unfold queue_io_interrupt.
    pose proof (getf_bound pmcw_isc (pmcw d) ltac:(done)) as Hi. change (2 ^ f_width pmcw_isc) with 8 in Hi.
    rewrite Z.geb_leb, (proj2 (Z.leb_gt _ _)), (eo_malloc _ HE) by lia.
    apply wp_bind, wp_lift, wp_bind, wp_lift, wp_bind, wp_lift, wp_bind, wp_modify, wp_modify, wp_ret.
    cbn [storage cpu on_cpu set_devs log virt_devs]. split_and!; [done|done|by rewrite Hc2|].
    exists (on_scsw (final_scsw st) d2). rewrite list_lookup_alter, decide_True, Hd2 by done. split; [done|].
    unfold status_pending. cbn [scsw on_scsw set_scsw]. by rewrite Hpend. }
  destruct (_ || _); [eapply wp_con; [exact Ht1|]; intros t2 Ht2; by apply Hfin|by apply wp_ret, Hfin].
Qed.

(** ** A program with a transfer in channel *)

(** a guest of one page *)
Definition page_env : env := Env
  (fun a => if (0 <=? a) && (a <? 0x1000) then Some (0x100000 + a) else None)
  0x1000 (zs "GUEST") 0x02 true (channel_buffer sample_env) (below_buffer sample_env) 4 (fresh_page sample_env).

Lemma page_env_ok : env_ok page_env.
Proof.
  split; [done| |by vm_compute|done|by vm_compute].
  exists (replicate (Z.to_nat 0x10000) 0xaa). split; [done|]. by vm_compute.
Qed.

(** write 5 bytes, go to 0x320, write 6 bytes; the second doubleword after the
    first command is the TIC *)
Definition tic_storage : Z -> Z :=
  put 0x300 [0x01; 0; 4; 0; 0x40; 0; 0; 5]
  (put 0x310 [0x08; 0; 3; 0x20; 0; 0; 0; 0]
  (put 0x320 [0x01; 0; 4; 5; 0; 0; 0; 6]
  (put 0x400 (zs "hello world") (fun _ => 0)))).

Definition tic_console : virt_device :=
  set_orb (setf orb_addr 0x300 (zeros orb_size)) sample_console.

Definition tic_sys : virt_sys := set_storage tic_storage (set_devs [tic_console] sample_sys).

(** a check of every aligned address the guest has *)
Definition tic_forward_at (a : Z) : bool :=
  match __memcpy_tofrom_guest (virt2phy_current page_env) a tic_storage (zeros 8) 8 true with
  | Ret (0, _, _, raw) => negb (Z.land (getf ccw0_cmd raw) 0x0f =? CCW_CMD_TIC) || (a <? CCW0_ADDR raw)
  | _ => true
  end.

Lemma tic_forward_check : forallb (fun k => tic_forward_at (8 * k)) (seqZ 0 0x200) = true.
Proof. vm_compute. reflexivity. Qed.

Lemma tic_forward : forward_tics page_env tic_storage.
Proof.
  intros a k m' raw Ha Hal Hraw Htic. destruct (decide (a < 0x1000)) as [Hlow|Hhigh].
  - pose proof tic_forward_check as Hall. rewrite forallb_forall in Hall.
    specialize (Hall (a / 8)). replace (8 * (a / 8)) with a in Hall by divlia.
    unfold tic_forward_at in Hall. rewrite Hraw, Htic in Hall. cbn [Z.eqb negb orb] in Hall.
    apply Z.ltb_lt, Hall, list_elem_of_In, elem_of_seqZ. divlia.
  - exfalso. unfold __memcpy_tofrom_guest in Hraw. change (S (Z.to_nat 8)) with 9%nat in Hraw. cbn [copy_loop Z.eqb] in Hraw.
    cbn [virt2phy_current page_env] in Hraw. rewrite (proj2 (Z.ltb_ge a 0x1000)), andb_false_r in Hraw by lia. done.
Qed.

Lemma channel_program_ends_witness :
  exists s' d', spool_exec page_env (Z.to_nat (2 ^ 24 + 2)) 0 tic_sys = Ret (0, s') /\
    virt_devs s' !! 0%nat = Some d' /\ status_pending d' = true /\ storage s' = storage tic_sys /\
    cpu s' = set_int_io (alter (fun l => l ++ [VioInt 0x10000 0 0]) 0%nat (int_io (cpu tic_sys))) (cpu tic_sys).
Proof.
  apply (channel_program_ends page_env (Z.to_nat (2 ^ 24 + 2)) 0 tic_sys tic_console).
  - exact page_env_ok.
  - rewrite Z2Nat.id by lia. lia.
  - reflexivity.
  - exact I.
  - exact (zeros_ok 12).
  - reflexivity.
  - exact tic_forward.
Defined.

(** * What a console's program writes *)

(** the bytes of one page of guest storage *)
Definition guest_bytes (E : env) (m : Z -> Z) (a n : Z) : option (list Z) :=
  match virt2phy_current E a with
  | Some h => if Z.land h PAGE_MASK + n <=? PAGE_SIZE then Some (read_bytes m h n) else None
  | None => None
  end.

Definition decoded (fmt : Z) (raw : list Z) : list Z := if fmt =? 0 then ccw0_to_ccw1 (zeros ccw_size) raw else raw.

(** the CCW at [a] writes [r], with command chaining or not *)
Record write_at (E : env) (m : Z -> Z) (fmt a : Z) (r : list Z) (chained : bool) (raw : list Z) : Prop := WriteAt {
  wa_fetch : guest_bytes E m a 8 = Some raw;
  wa_addr : 0 <= a < (if fmt =? 0 then 2 ^ 24 else 2 ^ 31) - 16 /\ a mod 8 = 0;
  wa_cmd : getf ccw_cmd (decoded fmt raw) = 1;
  wa_flags : Z.land (getf ccw_flags (decoded fmt raw)) unsupported_flags = 0;
  wa_chained : negb (Z.land (getf ccw_flags (decoded fmt raw)) CCW_FLAG_CC =? 0) = chained;
  wa_count : getf ccw_count (decoded fmt raw) = lenZ r /\ 0 < lenZ r <= 150;
  wa_data : guest_bytes E m (getf ccw_addr (decoded fmt raw)) (lenZ r) = Some r;
  wa_storage : getf ccw_addr (decoded fmt raw) <= storage_size E /\ getf ccw_addr (decoded fmt raw) < 2 ^ 31;
}.

(** the chain from [a] on, a CCW in every second doubleword *)
Inductive chain (E : env) (m : Z -> Z) (fmt : Z) : Z -> list (list Z) -> Prop :=
  | chain_last a r raw : write_at E m fmt a r false raw -> chain E m fmt a [r]
  | chain_more a r raw rs : write_at E m fmt a r true raw -> chain E m fmt (a + 16) rs -> chain E m fmt a (r :: rs).

(** the records [rs] were appended to [file], one after the other *)
Inductive appended (fresh : list Z) (avail : nat) : spool_file -> list (list Z) -> spool_file -> Prop :=
  | appended_nil file : appended fresh avail file [] file
  | appended_cons file m buf r g rs h :
      aslice m buf (lenZ r) = Some r -> spool_append_rec fresh avail file m buf (lenZ r) = Ret (0, g) ->
      appended fresh avail g rs h -> appended fresh avail file (r :: rs) h.

Lemma copy_one_page E m a n r data : guest_bytes E m a n = Some r -> 0 < n <= lenZ data -> n < 2 ^ 64 ->
  __memcpy_tofrom_guest (virt2phy_current E) a m data n true = Ret (0, n, m, r ++ drop (Z.to_nat n) data) /\ lenZ r = n.
Proof.
  intros Hg Hn H64. unfold guest_bytes in Hg. unfold __memcpy_tofrom_guest. cbn [copy_loop].
  rewrite (proj2 (Z.eqb_neq n 0)) by lia. destruct (virt2phy_current E a) as [h|]; [|done].
  destruct (Z.leb_spec (Z.land h PAGE_MASK + n) PAGE_SIZE) as [Hle|]; [|done]. injection Hg as <-.
  cbv zeta. rewrite Z.min_r by lia. pose proof (read_bytes_len m h n ltac:(lia)) as Hl. split; [|done].
  unfold ablit. rewrite decide_True by lia. cbn [defined mbind outcome_bind]. rewrite Z.add_0_l, Z.sub_diag, !wrap_small by lia.
  destruct (Z.to_nat n) as [|k] eqn:Ek; [lia|]. cbn [copy_loop Z.eqb].
  change (Z.to_nat 0) with 0%nat. cbn [take app Nat.add]. replace (length (read_bytes m h n)) with (S k); [done|].
  unfold lenZ in Hl. lia.
Qed.

Section writes.
Context (E : env) (HE : env_ok E) (i : nat) (m : Z -> Z) (fmt : Z).

(** no status yet *)
Definition fresh_scsw (p : list Z) : Prop := struct_ok 12 p /\ getf scsw_sc p = 0.

(** the console's file *)
Definition at_console (file : option spool_file) (s : virt_sys) : Prop :=
  storage s = m /\ exists d, virt_devs s !! i = Some d /\ u d = Spooled file true /\ fresh_scsw (scsw d).

Lemma at_console_log file e s : at_console file s -> at_console file (log e s).
Proof. done. Qed.

Definition file_of (file : option spool_file) : spool_file := default alloc_spool file.

Lemma at_console_u file file' s : at_console file s ->
  at_console file' (set_devs (alter (set_u (Spooled file' true)) i (virt_devs s)) s).
Proof.
  intros [Hm (d & Hd & Hu & Hw)]. split; [done|]. exists (set_u (Spooled file' true) d). cbn [virt_devs set_devs].
  by rewrite list_lookup_alter, decide_True, Hd by done.
Qed.

Lemma wp_open_file file Q s : at_console file s ->
  (forall t, at_console (Some (file_of file)) t -> Q 0 t) -> wp (open_spoolfile E i) Q s.
Proof.
  intros Hs HQ. pose proof Hs as [Hm (d & Hd & Hu & Hw)]. unfold open_spoolfile. apply wp_bind, (wp_get_dev _ d); [done|].
  rewrite Hu. destruct file as [file|]; [by apply wp_ret, HQ|]. rewrite (eo_malloc _ HE).
  apply wp_bind, wp_modify, wp_ret, HQ. by eapply at_console_u.
Qed.

(** the buffer holds the record; a record is appended *)
Lemma wp_write file ccw st r tl (Q : spdev_state -> virt_sys -> Prop) s :
  at_console file s -> file_ok (file_of file) ->
  getf ccw_cmd ccw = 1 -> getf ccw_count ccw = lenZ r -> 0 < lenZ r <= 150 -> iobuf st = r ++ tl -> pos st = 0 -> rem st = lenZ r ->
  (forall g t, at_console (Some g) t -> file_ok g -> appended (fresh_page E) (spool_pages E) (file_of file) [r] g ->
     Q (set_buffer (iobuf st) (lenZ r) 0 (set_dev_status CE_DE st)) t) ->
  wp (device_op E i true ccw st) Q s.
Proof.
  intros Hs Hf Hcmd Hcnt Hr Hbuf Hpos Hrem HQ. unfold device_op. rewrite Hcmd. cbn [andb]. change (Z.land 1 0xf =? 1) with true.
  cbv iota. unfold cons_write. rewrite Hcmd. cbn [Z.eqb negb]. change (Z.eqb 1 0x01) with true. cbn [negb].
  apply wp_bind, (wp_open_file file); [done|]. intros t Ht. cbn [Z.eqb negb].
  pose proof Ht as [Hm (d & Hd & Hu & Hw)]. unfold cons_append. apply wp_bind, wp_bind, (wp_get_dev _ d); [done|]. rewrite Hu.
  rewrite Hcnt, Z.min_l by lia. cbn [iobuf set_dev_status].
  assert (aslice (below_buffer E ++ iobuf st) (lenZ (below_buffer E)) (lenZ r) = Some r) as Hsl.
  { unfold aslice. rewrite Hbuf, !lenZ_app, decide_True by (pose proof (lenZ_nonneg tl); pose proof (lenZ_nonneg (below_buffer E)); lia).
    rewrite drop_app_length' by (unfold lenZ; lia). by rewrite take_app_length' by (unfold lenZ; lia). }
  destruct (file_ok_append (fresh_page E) (spool_pages E) (file_of file) (below_buffer E ++ iobuf st) (lenZ (below_buffer E))
    (lenZ r)) as (g & Ea & Hg); [apply HE|lia|apply HE| |apply HE|done|].
  { rewrite Hbuf, !lenZ_app. pose proof (lenZ_nonneg tl). lia. }
  apply wp_bind. rewrite Ea. apply wp_lift, wp_bind, wp_modify, wp_ret. cbn [Z.eqb negb]. apply wp_ret.
  cbn [pos rem set_dev_status]. rewrite Hpos, Hrem, Z.add_0_l, Z.sub_diag, !wrap_small by lia.
  apply (HQ g); [by eapply at_console_u|done|]. econstructor; [exact Hsl|exact Ea|constructor].
Qed.

Lemma land_high x v k : 0 <= k -> 0 <= x < 2 ^ k -> Z.land x (Z.shiftl v k) = 0.
Proof.
  intros Hk Hx. apply Z.bits_inj'. intros j Hj. rewrite Z.land_spec, Z.shiftl_spec, Z.bits_0 by lia.
  destruct (decide (j < k)); [rewrite (Z.testbit_neg_r _ (j - k)) by lia; apply andb_false_r|].
  rewrite <- (Z.mod_small x (2 ^ k)), Z.mod_pow2_bits_high by lia. done.
Qed.

(** reading the record into the buffer *)
Lemma wp_load file ccw st r chained raw a (Q : spdev_state -> virt_sys -> Prop) s :
  at_console file s -> write_at E m fmt a r chained raw -> lenZ (iobuf st) = 0x10000 ->
  (forall fl, fl ∈ [ccw_cmd; ccw_flags; ccw_count; ccw_addr] -> getf fl ccw = getf fl (decoded fmt raw)) ->
  Q (set_buffer (r ++ drop (length r) (iobuf st)) 0 (lenZ r) st) s -> wp (__xfer_storage E st ccw true) Q s.
Proof.
  intros Hs [Hfetch Ha Hcmd Hfl Hch [Hcnt Hr] Hdata [Hst _]] Hbuf Hget HQ. unfold __xfer_storage.
  rewrite !Hget by set_solver. rewrite (flags_supported _ Hfl), Hcnt. apply wp_bind, wp_lift. cbn [negb Z.eqb].
  rewrite (proj2 (Z.eqb_neq _ _)), Z.gtb_ltb, (proj2 (Z.ltb_ge _ _)) by lia.
  destruct (copy_one_page E m _ (lenZ r) r (iobuf st) Hdata) as [Ec _]; [lia..|].
  apply wp_bind. exists (0, lenZ r, r ++ drop (Z.to_nat (lenZ r)) (iobuf st)), s. split.
  { unfold memcpy_from_guest_to. pose proof (proj1 Hs) as Hm. rewrite Hm, Ec. cbn [mbind outcome_bind]. rewrite <- Hm. by destruct s. }
  apply wp_ret. cbn [Z.eqb]. rewrite wrap_small by lia. unfold lenZ. by rewrite Nat2Z.id.
Qed.

Definition unit_ok (st : spdev_state) : Prop :=
  f st = fmt /\ sch_status st = 0 /\ cd st = false /\ lenZ (iobuf st) = 0x10000.

Lemma wp_write_ccw file ccw st r chained raw a (Q : spdev_state * bool -> virt_sys -> Prop) s :
  at_console file s -> file_ok (file_of file) -> write_at E m fmt a r chained raw -> unit_ok st -> addr st = a + 8 ->
  (forall fl, fl ∈ [ccw_cmd; ccw_flags; ccw_count; ccw_addr] -> getf fl ccw = getf fl (decoded fmt raw)) ->
  (forall st' g t, at_console (Some g) t -> file_ok g -> appended (fresh_page E) (spool_pages E) (file_of file) [r] g ->
     unit_ok st' -> dev_status st' = CE_DE -> rem st' = 0 -> addr st' = a + (if chained then 16 else 8) -> Q (st', chained) t) ->
  wp (run_ccw E i true ccw st) Q s.
Proof.
  intros Hs Hf Hw (Hfm & Hsch & Hcd & Hbuf) Hst Hget HQ. pose proof Hw as [_ [Ha _] Hcmd Hfl Hch [Hcnt Hr] _ [_ Hlow]].
  unfold run_ccw. cbv zeta.
  assert (invalid_ccw (set_tic false st) ccw = false) as ->.
  { unfold invalid_ccw. cbn [cd f set_tic]. rewrite !Hget by set_solver. rewrite Hcd, Hcmd, Hcnt.
    rewrite (proj2 (Z.eqb_neq (lenZ r) 0)) by lia. change 0x80000000 with (Z.shiftl 1 31).
    pose proof (getf_bound ccw_addr (decoded fmt raw) ltac:(done)).
    rewrite land_high by lia. cbn. by rewrite !andb_false_r. }
  rewrite !Hget by set_solver. rewrite Hfl, Hcmd. cbn [Z.eqb negb]. change (IS_CCW_WRITE 1) with true. change (IS_CCW_READ 1) with false. cbv iota.
  apply wp_bind. eapply wp_load; [done|done|done|exact Hget|]. apply wp_bind.
  eapply wp_write; [done|done|by rewrite Hget by set_solver|by rewrite Hget by set_solver|done|done|done|done|].
  intros g t Ht Hg Happ. cbn [dev_status set_buffer set_dev_status]. rewrite Z.eqb_refl. cbn [negb].
  apply wp_bind, wp_ret, wp_bind, wp_modify.
  assert (Z.land (getf ccw_flags (decoded fmt raw)) CCW_FLAG_CD = 0) as Hnocd.
  { change CCW_FLAG_CD with (Z.land unsupported_flags CCW_FLAG_CD). by rewrite Z.land_assoc, Hfl. }
  rewrite Z.land_lor_distr_r, Hnocd, Z.lor_0_l. cbn [Z.eqb negb].
  assert (lenZ (r ++ drop (length r) (iobuf st)) = 0x10000) as Hbuf'.
  { rewrite lenZ_app. unfold lenZ in *. rewrite length_drop. lia. }
  destruct (Z.land (getf ccw_flags _) CCW_FLAG_CC =? 0) eqn:Hlast; cbn [negb] in Hch; subst chained.
  - apply wp_ret, (HQ _ g); try done.
  - apply wp_ret, (HQ _ g); try done. cbn [addr set_addr set_cd set_buffer set_dev_status set_tic].
    rewrite Hst. assert (a + 16 < 2 ^ 31) by (destruct (fmt =? 0); lia). rewrite wrap_small by lia. change 0x7fffffff with (Z.ones 31).
    rewrite Z.land_ones, Z.mod_small by lia. lia.
Qed.

Lemma decoded_members c raw fl : struct_ok 8 c -> fl ∈ [ccw_cmd; ccw_flags; ccw_count; ccw_addr] ->
  getf fl (ccw0_to_ccw1 c raw) = getf fl (ccw0_to_ccw1 (zeros ccw_size) raw).
Proof.
  intros Hc Hin. pose proof (zeros_ok ccw_size) as Hz. change (Z.of_nat ccw_size) with 8 in Hz. unfold ccw0_to_ccw1.
  repeat (apply elem_of_cons in Hin as [->|Hin]; [getf_set; done|]). by apply elem_of_nil in Hin.
Qed.

Lemma wp_fetch ccw st a r chained raw file (Q : spdev_state * list Z -> virt_sys -> Prop) s :
  at_console file s -> write_at E m fmt a r chained raw -> f st = fmt -> addr st = a ->
  Q (st, if fmt =? 0 then ccw0_to_ccw1 ccw raw else raw) s -> wp (__get_ccw E st ccw) Q s.
Proof.
  intros Hs [Hfetch [Ha Hal] _ _ _ _ _ _] Hf Hst HQ. unfold __get_ccw. rewrite Hf, Hst.
  assert ((fmt =? 0) && negb (Z.land a 0xff000000 =? 0) || negb (fmt =? 0) && negb (Z.land a 0x80000000 =? 0)
          || negb (Z.land a 0x00000007 =? 0) = false) as ->.
  { change 7 with (Z.ones 3). rewrite (Z.land_ones a 3) by lia. change (2 ^ 3) with 8. rewrite Hal. cbn [Z.eqb negb]. rewrite orb_false_r.
    destruct (fmt =? 0); cbn [andb negb orb]; [rewrite orb_false_r; change 0xff000000 with (Z.shiftl 0xff 24)|change 0x80000000 with (Z.shiftl 1 31)];
      by rewrite land_high by lia. }
  destruct (copy_one_page E m a 8 raw (zeros 8) Hfetch) as [Ec Hl]; [done|done|].
  apply wp_bind. exists (0, 8, raw), s. split.
  { unfold memcpy_from_guest. pose proof (proj1 Hs) as Hm. change (Z.to_nat 8) with 8%nat. rewrite Hm, Ec.
    cbn [mbind outcome_bind]. rewrite <- Hm. change (drop (Z.to_nat 8) (zeros 8)) with (@nil Z). rewrite app_nil_r. by destruct s. }
  cbn [Z.eqb negb]. by apply wp_ret.
Qed.

Lemma wp_write_turn file cnt st ccw a r chained raw (Q : spdev_state * list Z * bool -> virt_sys -> Prop) s :
  at_console file s -> file_ok (file_of file) -> write_at E m fmt a r chained raw -> unit_ok st -> addr st = a ->
  (fmt = 0 -> struct_ok 8 ccw) ->
  (forall st' ccw' g t, at_console (Some g) t -> file_ok g ->
     appended (fresh_page E) (spool_pages E) (file_of file) [r] g ->
     unit_ok st' -> dev_status st' = CE_DE -> rem st' = 0 -> addr st' = a + (if chained then 16 else 8) ->
     (fmt = 0 -> struct_ok 8 ccw') -> Q (st', ccw', chained) t) ->
  wp (ccw_turn E i true cnt st ccw) Q s.
Proof.
  intros Hs Hf Hw (Hfm & Hsch & Hcd & Hbuf) Hst Hccw HQ. pose proof Hw as [_ [Ha _] Hcmd _ _ _ _ _].
  unfold ccw_turn. apply wp_bind, wp_modify, wp_bind. eapply wp_fetch; [by apply at_console_log|done|done|done|].
  cbv zeta. assert (a + 16 < 2 ^ 31) by (destruct (fmt =? 0); lia). rewrite Hst, wrap_small by lia.
  cbn [sch_status set_addr]. rewrite Hsch. cbn [Z.eqb negb].
  set (c := if fmt =? 0 then _ else _).
  assert (forall fl, fl ∈ [ccw_cmd; ccw_flags; ccw_count; ccw_addr] -> getf fl c = getf fl (decoded fmt raw)) as Hget.
  { intros fl Hin. unfold c, decoded. destruct (Z.eqb_spec fmt 0) as [E0|]; [|done]. apply decoded_members; auto. }
  apply wp_bind, wp_modify. rewrite (Hget ccw_cmd), Hcmd by set_solver. change (1 =? CCW_CMD_TIC) with false. cbv iota.
  apply wp_bind. eapply wp_write_ccw; [|done|done| |done|exact Hget|].
  { by do 2 apply at_console_log. }
  { by split_and!. }
  intros st' g t Ht Hg Happ Hu Hde Hrem Haddr. apply wp_ret, (HQ _ _ g); try done.
  intros E0. unfold c. rewrite E0. cbn [Z.eqb]. apply ccw0_to_ccw1_ok. auto.
Qed.

Lemma appended_step file r rs g h : appended (fresh_page E) (spool_pages E) file [r] g ->
  appended (fresh_page E) (spool_pages E) g rs h -> appended (fresh_page E) (spool_pages E) file (r :: rs) h.
Proof. intros H Hrs. inversion H as [|? ? ? ? g' ? ? Hm Ha Hn]; subst. inversion Hn; subst. by econstructor. Qed.

Lemma wp_chain fuel file cnt st ccw a rs (Q : spdev_state -> virt_sys -> Prop) s :
  chain E m fmt a rs -> (length rs <= fuel)%nat ->
  at_console file s -> file_ok (file_of file) -> unit_ok st -> addr st = a -> (fmt = 0 -> struct_ok 8 ccw) ->
  (forall st' g t, at_console (Some g) t -> appended (fresh_page E) (spool_pages E) (file_of file) rs g ->
     unit_ok st' -> dev_status st' = CE_DE -> rem st' = 0 -> addr st' = a + 16 * (lenZ rs - 1) + 8 -> Q st' t) ->
  wp (ccw_loop E fuel i true cnt st ccw) Q s.
Proof.
  intros Hch. revert fuel file cnt st ccw s.
  induction Hch as [a r raw Hw|a r raw rs Hw Hch IH]; intros fuel file cnt st ccw s Hfuel Hs Hf Hu Hst Hccw HQ;
    (destruct fuel as [|fuel]; [cbn in Hfuel; lia|]); cbn [ccw_loop].
  - apply wp_bind. eapply wp_write_turn; [done..|]. intros st' ccw' g t Ht Hg Happ Hu' Hde Hrem Haddr _.
    cbv iota in Haddr. apply wp_ret, (HQ _ g); try done. change (lenZ [r]) with 1. lia.
  - apply wp_bind. eapply wp_write_turn; [done..|]. intros st' ccw' g t Ht Hg Happ Hu' Hde Hrem Haddr Hc'. cbv iota in Haddr.
    eapply (IH fuel (Some g)); try done; [cbn in Hfuel; lia|]. intros st2 h t2 Ht2 Happ2 Hu2 Hde2 Hrem2 Haddr2.
    apply (HQ _ h); try done; [by eapply appended_step|]. unfold lenZ in *. cbn [length]. lia.
Qed.
End writes.

Lemma begin_exec_fresh p : fresh_scsw p -> fresh_scsw (begin_exec p).
Proof.
  intros [Hok Hsc]. unfold begin_exec. split; [by repeat apply setf_ok|]. set (q := setf _ _ p).
  assert (struct_ok 12 q) as Hq by (by apply setf_ok). getf_set. unfold q. by getf_set.
Qed.

(** the status word after a program without errors *)
Lemma final_scsw_done st p : fresh_scsw p -> sch_status st = 0 -> dev_status st = CE_DE -> rem st = 0 ->
  let q := final_scsw st p in
  getf scsw_dev_status q = CE_DE /\ getf scsw_sch_status q = 0 /\ getf scsw_count q = 0 /\
  getf scsw_sc q = flags_of [SC_PRIMARY; SC_SECONDARY; SC_STATUS] /\ getf scsw_addr q = u32 (addr st).
Proof.
  intros [Hok Hsc] Hsch Hde Hrem. unfold final_scsw. cbv zeta. rewrite Hsch, Hde, Hrem. rewrite !Z.eqb_refl. cbn [negb]. change (false || false) with false. cbv iota.
  set (p1 := setf scsw_ac _ p). assert (struct_ok 12 p1) as H1 by (by apply setf_ok).
  assert (getf scsw_sc p1 = 0) as Hsc1 by (unfold p1; by getf_set). rewrite Hsc1. split_and!; by getf_set.
Qed.

(** C12: What the channel program of a virtual console writes.  A chain of write
    commands, of either format, with a CCW in every second doubleword and each
    record in one page of the guest, appends the records to the console's spool
    file in the order of the chain, opening the file if there is none; the
    doublewords in between are not looked at.  The program ends with channel end
    and device end, no residual count and no alert, and with the address after
    the last CCW. *)
Theorem console_program_writes E fuel i s d file rs :
  env_ok E -> (length rs <= fuel)%nat ->
  virt_devs s !! i = Some d -> u d = Spooled file true -> file_ok (file_of file) -> struct_ok 12 (scsw d) ->
  getf scsw_sc (scsw d) = 0 ->
  chain E (storage s) (getf orb_f (orb d)) (getf orb_addr (orb d)) rs ->
  exists s' d' g, spool_exec E fuel i s = Ret (0, s') /\ virt_devs s' !! i = Some d' /\
    u d' = Spooled (Some g) true /\ appended (fresh_page E) (spool_pages E) (file_of file) rs g /\
    getf scsw_dev_status (scsw d') = CE_DE /\ getf scsw_sch_status (scsw d') = 0 /\ getf scsw_count (scsw d') = 0 /\
    getf scsw_sc (scsw d') = flags_of [SC_PRIMARY; SC_SECONDARY; SC_STATUS] /\
    getf scsw_addr (scsw d') = u32 (getf orb_addr (orb d) + 16 * (lenZ rs - 1) + 8).
Proof.
  intros HE Hfuel Hd Hu Hf Hw Hsc Hch. set (fmt := getf orb_f (orb d)) in *. set (a := getf orb_addr (orb d)) in *.
  assert (wp (spool_exec E fuel i) (fun r t => r = 0 /\ exists d' g, virt_devs t !! i = Some d' /\
    u d' = Spooled (Some g) true /\ appended (fresh_page E) (spool_pages E) (file_of file) rs g /\
    exists st p, fresh_scsw p /\ scsw d' = final_scsw st p /\ unit_ok fmt st /\ dev_status st = CE_DE /\ rem st = 0 /\
      addr st = a + 16 * (lenZ rs - 1) + 8) s)
    as (r & s' & Hr & -> & d' & g & Hd' & Hu' & Happ & st & p & Hp & Hfin & (_ & Hsch & _) & Hde & Hrem & Haddr).
  2:{ exists s', d', g. destruct (final_scsw_done st p Hp Hsch Hde Hrem) as (? & ? & ? & ? & Ea). rewrite Hfin.
      rewrite Haddr in Ea. by split_and!. }
  destruct (eo_buffer _ HE) as (buf & Hbuf & Hlen). unfold spool_exec. rewrite Hbuf.
  apply wp_bind, wp_modify. set (s1 := set_devs _ _).
  assert (at_console i (storage s) file s1) as Hs1.
  { split; [done|]. exists (on_scsw begin_exec d). unfold s1. cbn [virt_devs set_devs].
    rewrite list_lookup_alter, decide_True, Hd by done. split; [done|]. split; [done|]. by apply begin_exec_fresh. }
  apply wp_bind, (wp_get_dev _ (on_scsw begin_exec d)).
  { unfold s1. cbn [virt_devs set_devs]. by rewrite list_lookup_alter, decide_True, Hd by done. }
  cbn [u orb on_scsw set_scsw]. rewrite Hu. apply wp_bind, wp_lift, wp_bind, wp_modify, wp_bind.
  eapply (wp_chain E HE i (storage s) fmt fuel file); try done; [by intros _; apply (zeros_ok 8)|].
  intros st g t Ht Happ Hu2 Hde Hrem Haddr. pose proof Hu2 as (_ & Hsch & _). rewrite Hsch, Hde, Z.eqb_refl. cbn [Z.eqb negb orb].
  destruct Ht as [_ (d2 & Hd2 & Hu3 & Hw2)]. apply wp_bind, wp_ret, wp_bind, wp_modify, wp_bind.
  assert (virt_devs (set_devs (alter (on_scsw (final_scsw st)) i (virt_devs t)) t) !! i = Some (on_scsw (final_scsw st) d2)) as Hd3.
  { cbn [virt_devs set_devs]. by rewrite list_lookup_alter, decide_True, Hd2 by done. }
  apply (wp_get_dev _ (on_scsw (final_scsw st) d2)); [done|]. apply wp_bind. unfold queue_io_interrupt.
  pose proof (getf_bound pmcw_isc (pmcw (on_scsw (final_scsw st) d2)) ltac:(done)) as Hi. change (2 ^ f_width pmcw_isc) with 8 in Hi.
  rewrite Z.geb_leb, (proj2 (Z.leb_gt _ _)), (eo_malloc _ HE) by lia.
  apply wp_bind, wp_lift, wp_bind, wp_lift, wp_bind, wp_lift, wp_bind, wp_modify, wp_modify, wp_ret.
  split; [done|]. exists (on_scsw (final_scsw st) d2), g. split; [exact Hd3|]. split; [done|]. split; [done|].
  exists st, (scsw d2). by split_and!.
Qed.

(** the sample program of VirtIoSpec.v: "HELLO" and " WORLD", with a command that
    is skipped between the two *)
Definition hello_console : virt_device :=
  set_orb (setf orb_addr 0x300 (setf orb_f 1 (zeros orb_size))) sample_console.

Definition hello_sys : virt_sys := set_devs [hello_console] sample_sys.

Definition hello_records : list (list Z) := [zs "HELLO"; zs " WORLD"].

Lemma hello_chain : chain page_env sample_storage 1 0x300 hello_records.
Proof.
  apply (chain_more _ _ _ _ _ [0x01; 0x40; 0; 5; 0; 0; 4; 0]).
  - split; [by vm_compute|by vm_compute|by vm_compute|by vm_compute|by vm_compute|by vm_compute|by vm_compute|by vm_compute].
  - apply (chain_last _ _ _ _ _ [0x01; 0; 0; 6; 0; 0; 4; 5]).
    split; [by vm_compute|by vm_compute|by vm_compute|by vm_compute|by vm_compute|by vm_compute|by vm_compute|by vm_compute].
Qed.

Lemma console_program_writes_witness :
  exists s' d' g, spool_exec page_env 2 0 hello_sys = Ret (0, s') /\ virt_devs s' !! 0%nat = Some d' /\
    u d' = Spooled (Some g) true /\ appended (fresh_page page_env) (spool_pages page_env) alloc_spool hello_records g /\
    getf scsw_dev_status (scsw d') = CE_DE /\ getf scsw_sch_status (scsw d') = 0 /\ getf scsw_count (scsw d') = 0 /\
    getf scsw_sc (scsw d') = flags_of [SC_PRIMARY; SC_SECONDARY; SC_STATUS] /\
    getf scsw_addr (scsw d') = 0x318.
Proof.
  apply (console_program_writes page_env 2 0 hello_sys hello_console None hello_records).
  - exact page_env_ok.
  - reflexivity.
  - reflexivity.
  - reflexivity.
  - exact alloc_spool_ok.
  - exact (zeros_ok 12).
  - reflexivity.
  - exact hello_chain.
Defined.
