(* ===== verification/MachineSpec.v ===== *)
(** The types of a virtual machine: registers, storage and structures keep their
    widths and lengths whatever the machine does.

    [typed m R]: from a well-typed machine, [m] leaves one, with a result as [R]
    says. *)

From S2P Require Import Prelude Buddy Layout Dat Spool Guest VirtIo VirtIoSpec.

Local Open Scope Z_scope.

#[local] Arguments cons {A} & a l.

(** ** Well-typed machines *)

Definition bits (w v : Z) : Prop := 0 <= v < 2 ^ w.
Definition array (w : Z) (n : nat) (l : list Z) : Prop := length l = n /\ Forall (bits w) l.

Record sie_ok (c : sie_cb) : Prop := SieOk {
  so_cpuflags : bits 32 (cpuflags c);
  so_prefix : bits 32 (prefix c);
  so_icptcode : bits 8 (icptcode c);
  so_ipa : bits 16 (ipa c);
  so_ipb : bits 32 (ipb c);
  so_gpsw : struct_ok 16 (gpsw c);
  so_gcr : array 64 16 (gcr c);
}.

Record regs_ok (r : guest_regs) : Prop := RegsOk {
  ro_gpr : array 64 16 (gpr r);
  ro_ar : array 32 16 (ar r);
  ro_fpr : array 64 64 (fpr r);
  ro_fpcr : bits 32 (fpcr r);
}.

Definition ioint_ok (x : vio_int) : Prop := bits 32 (ssid x) /\ bits 32 (param x) /\ bits 32 (intid x).

Record cpu_ok (c : virt_cpu) : Prop := CpuOk {
  co_sie : sie_ok (sie c);
  co_regs : regs_ok (regs c);
  co_io : length (int_io c) = 8%nat /\ Forall (Forall ioint_ok) (int_io c);
}.

Record dev_ok (d : virt_device) : Prop := DevOk {
  do_sch : bits 32 (sch d);
  do_sense : bits 8 (sense d);
  do_pmcw : struct_ok 28 (pmcw d);
  do_scsw : struct_ok 12 (scsw d);
  do_orb : struct_ok 32 (orb d);
}.

Definition bytes_ok (l : list Z) : Prop := Forall (fun x => 0 <= x < 256) l.
Definition storage_ok (m : Z -> Z) : Prop := forall a, 0 <= m a < 256.

Record machine_ok (s : virt_sys) : Prop := MachineOk {
  mo_cpu : cpu_ok (cpu s);
  mo_devs : Forall dev_ok (virt_devs s);
  mo_storage : storage_ok (storage s);
}.

(** ** Rules *)

Definition typed {A} (m : guest A) (R : A -> Prop) : Prop :=
  forall s a s', machine_ok s -> m s = Ret (a, s') -> machine_ok s' /\ R a.

Abbreviation anything := (fun _ => True).

Lemma typed_ret {A} (a : A) (R : A -> Prop) : R a -> typed (mret a) R.
Proof. intros Ha s b s' Hs [= <- <-]. done. Qed.

Lemma typed_bind {A B} (m : guest A) (k : A -> guest B) (R : A -> Prop) (T : B -> Prop) :
  typed m R -> (forall a, R a -> typed (k a) T) -> typed (m ≫= k) T.
Proof.
  intros Hm Hk s b s' Hs H. apply guest_bind_Ret in H as (a & s1 & H1 & H2).
  destruct (Hm _ _ _ Hs H1) as [Hs1 Ha]. by apply (Hk a Ha s1).
Qed.

Lemma typed_weaken {A} (m : guest A) (R T : A -> Prop) : typed m R -> (forall a, R a -> T a) -> typed m T.
Proof. intros Hm HR s a s' Hs H. destruct (Hm _ _ _ Hs H). auto. Qed.

Lemma typed_any {A} (m : guest A) (R : A -> Prop) : typed m R -> typed m anything.
Proof. intros Hm. by eapply typed_weaken. Qed.

Lemma typed_lift {A} (o : outcome A) (R : A -> Prop) : (forall a, o = Ret a -> R a) -> typed (lift o) R.
Proof.
  intros Ho s a s' Hs H. unfold lift in H. apply bind_Ret in H as (x & Hx & [= <- <-]). auto.
Qed.

Lemma typed_get : typed get_sys machine_ok.
Proof. by intros s a s' Hs [= <- <-]. Qed.

Lemma typed_get_dev i : typed (get_dev i) dev_ok.
Proof.
  intros s a s' Hs H. unfold get_dev in H. apply bind_Ret in H as (x & Hx%defined_Ret & [= <- <-]). split; [done|].
  by apply (proj1 (Forall_lookup _ _) (mo_devs _ Hs) i).
Qed.

Lemma typed_modify f : (forall s, machine_ok s -> machine_ok (f s)) -> typed (modify f) anything.
Proof. intros Hf s a s' Hs [= <- <-]. split; [by apply Hf|done]. Qed.

Lemma typed_con fmt args : typed (con_printf fmt args) anything.
Proof. apply typed_modify. by intros s []. Qed.

Lemma typed_schedule : typed schedule anything.
Proof. apply typed_modify. by intros s []. Qed.

Lemma typed_cpu f : (forall c, cpu_ok c -> cpu_ok (f c)) -> typed (modify (on_cpu f)) anything.
Proof. intros Hf. apply typed_modify. intros s []. split; [by apply Hf|done|done]. Qed.

Lemma typed_sie f : (forall c, sie_ok c -> sie_ok (f c)) -> typed (modify (on_cpu (on_sie f))) anything.
Proof. intros Hf. apply typed_cpu. intros c []. split; [by apply Hf|done|done]. Qed.

Lemma typed_regs f : (forall c, regs_ok c -> regs_ok (f c)) -> typed (modify (on_cpu (on_regs f))) anything.
Proof. intros Hf. apply typed_cpu. intros c []. split; [done|by apply Hf|done]. Qed.

Lemma typed_on_dev i f : (forall d, dev_ok d -> dev_ok (f d)) -> typed (on_dev i f) anything.
Proof.
  intros Hf. apply typed_modify. intros s []. split; [done| |done]. cbn [virt_devs set_devs].
  apply Forall_lookup. intros j d Hj. rewrite list_lookup_alter in Hj. case_decide.
  - apply fmap_Some in Hj as (d' & Hd & ->). apply Hf. by apply (proj1 (Forall_lookup _ _) mo_devs0 i).
  - by apply (proj1 (Forall_lookup _ _) mo_devs0 j).
Qed.

Lemma typed_stop_cpu : typed stop_cpu anything.
Proof. apply typed_cpu. by intros c []. Qed.

Lemma typed_set_cc cc : typed (set_cc cc) anything.
Proof. apply typed_sie. intros c []. split; try done. by apply setf_ok. Qed.

Lemma typed_scsw i g : (forall p, struct_ok 12 p -> struct_ok 12 (g p)) -> typed (on_dev i (on_scsw g)) anything.
Proof. intros Hg. apply typed_on_dev. intros d []. split; try done. by apply Hg. Qed.

(** ** Copies *)

Lemma write_bytes_ok m a l : storage_ok m -> bytes_ok l -> storage_ok (write_bytes m a l).
Proof.
  intros Hm Hl x. unfold write_bytes. case_decide; [|done]. destruct (l !! _) as [v|] eqn:Hv; [|apply Hm].
  by apply (proj1 (Forall_lookup _ _) Hl _ _ Hv).
Qed.

Lemma read_bytes_ok m a n : storage_ok m -> bytes_ok (read_bytes m a n).
Proof. intros Hm. apply Forall_fmap, Forall_true. intros x. apply Hm. Qed.

Lemma ablit_ok l i src l' : ablit l i src = Some l' -> bytes_ok l -> bytes_ok src -> bytes_ok l'.
Proof.
  unfold ablit. case_decide; [|done]. intros [= <-] Hl Hs.
  apply Forall_app_2; [by apply Forall_take|]. apply Forall_app_2; [done|by apply Forall_drop].
Qed.

Lemma aslice_ok l i n r : aslice l i n = Some r -> bytes_ok l -> bytes_ok r.
Proof. unfold aslice. case_decide; [|done]. intros [= <-] Hl. by apply Forall_take, Forall_drop. Qed.

Lemma copy_loop_ok v2p fuel a copied len m data from ret n m' data' :
  copy_loop v2p fuel a copied len m data from = Ret (ret, n, m', data') -> storage_ok m -> bytes_ok data ->
  storage_ok m' /\ bytes_ok data' /\ length data' = length data.
Proof.
  revert copied len m data. induction fuel as [|fuel IH]; intros copied len m data H Hm Hd; [done|].
  cbn [copy_loop] in H. destruct (len =? 0); [by injection H as <- <- <- <-|].
  destruct (v2p a) as [h|]; [|by injection H as <- <- <- <-]. cbv zeta in H. destruct from.
  - apply bind_Ret in H as (d & Hb%defined_Ret & H). destruct (IH _ _ _ _ H Hm) as (? & ? & Hl).
    { eapply ablit_ok; [exact Hb|done|by apply read_bytes_ok]. }
    split_and!; [done..|]. apply ablit_lenZ in Hb. unfold lenZ in Hb. lia.
  - apply bind_Ret in H as (d & Hb%defined_Ret & H). apply (IH _ _ _ _ H); [|done].
    apply write_bytes_ok; [done|]. by eapply aslice_ok.
Qed.

Lemma zeros_bytes n : bytes_ok (zeros n).
Proof. apply zeros_ok. Qed.

Section machine.
Context (E : env).

Lemma typed_copy addr buf len : bytes_ok buf ->
  typed (memcpy_from_guest_to E addr buf len) (fun r => bytes_ok r.2 /\ length r.2 = length buf).
Proof.
  intros Hb s a s' [] H. unfold memcpy_from_guest_to in H. apply bind_Ret in H as ([[[ret c] m] d] & Hc & [= <- <-]).
  destruct (copy_loop_ok _ _ _ _ _ _ _ _ _ _ _ _ Hc) as (? & ? & ?); [done..|]. by split; [split|].
Qed.

Lemma typed_from_guest addr n : 0 <= n -> typed (memcpy_from_guest E addr n) (fun r => struct_ok n r.2).
Proof.
  intros Hn. eapply typed_weaken; [exact (typed_copy addr (zeros (Z.to_nat n)) n (zeros_bytes _))|].
  intros r [Hb Hl]. split; [|done]. unfold lenZ. rewrite Hl. unfold zeros. rewrite length_replicate. lia.
Qed.

Lemma typed_to_guest addr data n : bytes_ok data -> typed (memcpy_to_guest E addr data n) anything.
Proof.
  intros Hb s a s' [] H. unfold memcpy_to_guest in H. apply bind_Ret in H as ([[[ret c] m] d] & Hc & [= <- <-]).
  destruct (copy_loop_ok _ _ _ _ _ _ _ _ _ _ _ _ Hc) as (? & ? & ?); [done..|]. by split; [split|].
Qed.

(** ** Handlers *)

Lemma typed_lift_any {A} (o : outcome A) : typed (lift o) anything.
Proof. by apply typed_lift. Qed.

#[local] Hint Resolve typed_lift_any typed_get typed_get_dev typed_con typed_schedule typed_stop_cpu typed_set_cc : typed.

(** take an operation apart: the results so far are of the types given *)
Ltac typed_step :=
  first
    [ solve [eauto with typed nocore]
    | apply typed_ret; solve [done]
    | eapply typed_bind; [solve [eauto with typed nocore]|intros ? ?]
    | match goal with
      | |- typed (if ?b then _ else _) _ => destruct b
      | |- typed (match ?x with _ => _ end) _ => destruct x
      end ].
Ltac typing := repeat typed_step.

Lemma typed_prog t p : typed (queue_prog_exception t p) anything.
Proof. unfold queue_prog_exception. typing. Qed.

Lemma bits_wrap w v : 0 <= w -> bits w (wrap w v).
Proof. apply wrap_range. Qed.

Lemma bits_getf fl b w : 0 <= f_width fl <= w -> bits w (getf fl b).
Proof.
  intros Hw. unfold bits, getf. rewrite Z.land_ones by lia.
  pose proof (Z.mod_pos_bound (Z.shiftr (be_val b) (f_pos (lenZ b) fl)) (2 ^ f_width fl) ltac:(apply Z.pow_pos_nonneg; lia)).
  pose proof (Z.pow_le_mono_r 2 (f_width fl) w). lia.
Qed.

Lemma typed_queue n p a isc : bits 32 n -> bits 32 p -> typed (queue_io_interrupt E n p a isc) anything.
Proof.
  intros Hn Hp. unfold queue_io_interrupt. do 3 (eapply typed_bind; [apply typed_lift_any|intros _ _]). cbv zeta.
  eapply typed_bind; [|intros; apply typed_con]. apply typed_cpu. intros c [Hs Hr [Hl Hio]]. split; [done|done|].
  cbn [int_io set_int_io]. rewrite length_alter. split; [done|]. apply Forall_lookup. intros j q Hj.
  rewrite list_lookup_alter in Hj. case_decide; [|by apply (proj1 (Forall_lookup _ _) Hio j)].
  apply fmap_Some in Hj as (q' & Hq & ->). apply Forall_app. split; [by apply (proj1 (Forall_lookup _ _) Hio (Z.to_nat isc))|].
  constructor; [|constructor]. split_and!; [done|done|]. by apply bits_wrap.
Qed.

#[local] Hint Resolve typed_prog : typed.

Lemma typed_swap a old new len : 0 <= len <= 16 -> typed (__do_psw_swap a old new len) anything.
Proof.
  intros Hlen. apply typed_modify. intros s [Hc Hd Hm]. pose proof Hc as [[] Hr Hi].
  assert (storage_ok (write_bytes (storage s) (a + old) (take (Z.to_nat len) (gpsw (sie (cpu s)))))) as Hw.
  { apply write_bytes_ok; [done|]. apply Forall_take. by destruct so_gpsw0. }
  split; [|done|done]. split; [|done|done]. split; try done. cbn [gpsw set_gpsw sie on_sie on_cpu cpu set_storage]. destruct so_gpsw0 as [Hl Hb]. split.
  - rewrite lenZ_app, read_bytes_len by lia. unfold lenZ in *. rewrite length_drop. lia.
  - apply Forall_app_2; [by apply read_bytes_ok|by apply Forall_drop].
Qed.

Lemma typed_store_u32 a v : typed (store_u32 a v) anything.
Proof. apply typed_modify. intros s []. split; [done|done|]. apply write_bytes_ok; [done|]. apply be_bytes_range. Qed.

#[local] Hint Resolve typed_store_u32 : typed.

Lemma typed_io_int_loop n i cr6 : typed (io_int_loop E n i cr6) anything.
Proof.
  revert i. induction n as [|n IH]; intros i; cbn [io_int_loop]; [by apply typed_ret|].
  eapply typed_bind; [apply typed_get|]. intros s Hs. destruct (_ =? 0); [apply IH|].
  eapply typed_bind.
  { apply (typed_lift _ (fun q => Forall ioint_ok q)). intros q Hq%defined_Ret. apply aget_Some in Hq as [_ Hq].
    apply (proj1 (Forall_lookup _ _) (proj2 (co_io _ (mo_cpu _ Hs))) _ _ Hq). }
  intros [|x q] Hq; [apply IH|]. apply Forall_cons in Hq as [Hx Hq].
  eapply typed_bind.
  { apply typed_cpu. intros c [Hsie Hr [Hl Hio]]. split; [done|done|]. cbn [int_io set_int_io]. rewrite length_insert.
    split; [done|]. by apply Forall_insert. }
  intros _ _. eapply typed_bind; [apply typed_con|]. intros _ _. destruct (virt2phy_current E 0) as [h|]; [|typing].
  eapply (typed_bind _ _ anything); [destruct (VCPU_ZARCH _); by apply typed_swap|]. intros _ _. typing.
Qed.

Lemma typed_io_int : typed (__io_int E) anything.
Proof.
  unfold __io_int. eapply typed_bind; [apply typed_get|]. intros s _. destruct (_ =? 0); [by apply typed_ret|].
  eapply typed_bind; [apply typed_lift_any|]. intros cr6 _. apply typed_io_int_loop.
Qed.

(** *** Resets *)

Lemma zeros_array w n : 0 < w -> array w n (zeros n).
Proof.
  intros Hw. split; [apply length_replicate|]. apply Forall_replicate. unfold bits. pose proof (Z.pow_pos_nonneg 2 w). lia.
Qed.

Lemma clear_first_array w n k l : 0 < w -> (k <= n)%nat -> array w n l -> array w n (clear_first k l).
Proof.
  intros Hw Hk [Hl Hb]. unfold clear_first. split.
  - rewrite length_app, length_drop. unfold zeros. rewrite length_replicate. lia.
  - apply Forall_app_2; [by apply zeros_array|by apply Forall_drop].
Qed.

Lemma typed_when c m : typed m anything -> typed (when c m) anything.
Proof. intros Hm. destruct c; [done|by apply typed_ret]. Qed.

Lemma typed_cpu_reset flags : typed (__perform_cpu_reset flags) anything.
Proof.
  unfold __perform_cpu_reset. repeat (eapply typed_bind; [apply typed_when|intros _ _]); [..|apply typed_when].
  - apply typed_stop_cpu.
  - apply typed_sie. intros c []. split; try done. apply (zeros_ok 16).
  - apply typed_sie. by intros c []. 
  - apply typed_sie. intros c []. split; try done. cbn [gcr set_gcr]. unfold initial_gcr.
    destruct (clear_first_array 64 16 16 (gcr c)) as [Hl Hb]; [done|done|done|]. split; [by rewrite !length_insert|].
    by repeat apply Forall_insert.
  - apply typed_regs. by intros c [].
  - apply typed_regs. intros c []. split; try done. by apply clear_first_array.
  - apply typed_regs. intros c []. split; try done. by apply clear_first_array.
  - apply typed_regs. intros c []. split; try done. apply clear_first_array; [done|lia|done].
  - apply typed_modify. intros s []. split; [done|done|]. cbn [storage set_storage]. revert mo_storage0.
    generalize (storage s). induction (guest_pages s) as [|p l IH]; intros m Hm; [done|]. cbn [fold_left].
    apply IH, write_bytes_ok; [done|apply zeros_bytes].
Qed.

Lemma fold_setf_ok {A} n (fl : A -> field) (v : A -> Z) l p : struct_ok n p -> struct_ok n (fold_left (fun p x => setf (fl x) (v x) p) l p).
Proof. revert p. induction l as [|x l IH]; intros p Hp; [done|]. cbn [fold_left]. by apply IH, setf_ok. Qed.

Lemma reset_vdev_ok d : dev_ok d -> dev_ok (reset_vdev d).
Proof.
  intros []. split; try done; [|apply (zeros_ok 12)]. cbn [pmcw reset_vdev set_scsw set_pmcw]. unfold reset_pmcw. cbv zeta.
  apply (fold_setf_ok 28 pmcw_chpid (fun _ => 0)). by repeat apply setf_ok.
Qed.

Lemma typed_noncpu_reset flags : typed (__perform_noncpu_reset flags) anything.
Proof.
  unfold __perform_noncpu_reset. apply typed_when, typed_modify. intros s []. split; [done| |done].
  cbn [virt_devs set_devs]. apply Forall_fmap. eapply Forall_impl; [done|]. apply reset_vdev_ok.
Qed.

(** *** Channel programs *)

Context (Hbuf : forall buf, channel_buffer E = Some buf -> bytes_ok buf).

Definition unit_typed (st : spdev_state) : Prop := bytes_ok (iobuf st).

Lemma typed_xfer st ccw w : unit_typed st -> typed (__xfer_storage E st ccw w) unit_typed.
Proof.
  intros Hst. unfold __xfer_storage. eapply typed_bind; [apply typed_lift_any|]. intros _ _. cbv zeta.
  destruct (_ =? 0); [by apply typed_ret|]. destruct (_ >? _); [by apply typed_ret|].
  apply (typed_bind _ _ (fun r => bytes_ok r.2)).
  - destruct w; [eapply typed_weaken; [by apply typed_copy|by intros r []]|].
    eapply typed_bind; [by apply typed_to_guest|]. intros [ret len] _. by apply typed_ret.
  - intros [[ret len] buf] Hb. by apply typed_ret.
Qed.

Lemma typed_get_ccw st ccw : unit_typed st -> typed (__get_ccw E st ccw) (fun r => unit_typed r.1).
Proof.
  intros Hst. unfold __get_ccw. destruct (_ || _); [by apply typed_ret|].
  eapply typed_bind; [by apply typed_from_guest|]. intros [[ret n] raw] _. destruct (negb _); [|by apply typed_ret].
  eapply typed_bind; [apply typed_con|]. intros _ _. by apply typed_ret.
Qed.

Lemma typed_cmdrej i st : unit_typed st -> typed (spooldev_cmdrej i st) unit_typed.
Proof.
  intros Hst. unfold spooldev_cmdrej. eapply typed_bind; [|intros _ _; by apply typed_ret].
  apply typed_on_dev. by intros d [].
Qed.

Lemma typed_u i v : typed (on_dev i (set_u v)) anything.
Proof. apply typed_on_dev. by intros d []. Qed.

#[local] Hint Resolve typed_cmdrej typed_u typed_xfer typed_get_ccw : typed.

Lemma typed_cons_write i ccw st : unit_typed st -> typed (cons_write E i ccw st) unit_typed.
Proof.
  intros Hst. unfold cons_write. destruct (negb _); [by apply typed_cmdrej|].
  apply (typed_bind _ _ anything); [unfold open_spoolfile; typing|]. intros ret _.
  destruct (negb _); [typing|].
  apply (typed_bind _ _ anything).
  { unfold cons_append. eapply typed_bind; [apply typed_get_dev|]. intros d _. destruct (u d) as [|[file|] ops|]; [typing..| |typing|typing].
    eapply typed_bind; [apply typed_lift_any|]. intros [r g] _. typing. }
  intros ret2 _. destruct (negb _); [typing|]. by apply typed_ret.
Qed.

Lemma typed_device_op i ops ccw st : unit_typed st -> typed (device_op E i ops ccw st) unit_typed.
Proof. intros Hst. unfold device_op. destruct (_ && _); [by apply typed_cons_write|by apply typed_cmdrej]. Qed.

#[local] Hint Resolve typed_device_op : typed.

Lemma typed_run_ccw i ops ccw st : unit_typed st -> typed (run_ccw E i ops ccw st) (fun r => unit_typed r.1).
Proof.
  intros Hst. unfold run_ccw. cbv zeta. destruct (invalid_ccw _ _); [by apply typed_ret|].
  destruct (negb _); [eapply typed_bind; [apply typed_con|]; intros _ _; by apply typed_ret|].
  apply (typed_bind _ _ unit_typed); [destruct (IS_CCW_WRITE _); [by apply typed_xfer|by apply typed_ret]|]. intros st1 H1.
  eapply typed_bind; [by apply typed_device_op|]. intros st2 H2. destruct (negb _); [by apply typed_ret|].
  apply (typed_bind _ _ unit_typed); [destruct (IS_CCW_READ _); [by apply typed_xfer|by apply typed_ret]|]. intros st3 H3.
  eapply typed_bind; [apply typed_con|]. intros _ _. destruct (_ =? 0); by apply typed_ret.
Qed.

Lemma typed_turn i ops cnt st ccw : unit_typed st -> typed (ccw_turn E i ops cnt st ccw) (fun r => unit_typed r.1.1).
Proof.
  intros Hst. unfold ccw_turn. eapply typed_bind; [apply typed_con|]. intros _ _.
  eapply typed_bind; [by apply typed_get_ccw|]. intros [st1 ccw1] H1. cbv zeta. destruct (negb _); [by apply typed_ret|].
  eapply typed_bind; [apply typed_con|]. intros _ _. destruct (_ =? CCW_CMD_TIC).
  - destruct (tic2tic _); [by apply typed_ret|]. destruct (_ && _); by apply typed_ret.
  - eapply typed_bind; [by apply typed_run_ccw|]. intros [st2 more] H2. by apply typed_ret.
Qed.

Lemma typed_loop fuel i ops cnt st ccw : unit_typed st -> typed (ccw_loop E fuel i ops cnt st ccw) unit_typed.
Proof.
  revert cnt st ccw. induction fuel as [|fuel IH]; intros cnt st ccw Hst; cbn [ccw_loop]; [by intros s a s' _ [=]|].
  eapply typed_bind; [by apply typed_turn|]. intros [[st1 ccw1] more] H1. destruct more; [by apply IH|by apply typed_ret].
Qed.

Lemma typed_spool_exec fuel i : typed (spool_exec E fuel i) anything.
Proof.
  unfold spool_exec. destruct (channel_buffer E) as [buf|] eqn:Eb; [|typing].
  eapply typed_bind; [apply typed_scsw|]. { intros p Hp. unfold begin_exec. by repeat apply setf_ok. }
  intros _ _. eapply typed_bind; [apply typed_get_dev|]. intros d _. eapply typed_bind; [apply typed_lift_any|]. intros ops _. cbv zeta.
  eapply typed_bind; [apply typed_con|]. intros _ _. eapply typed_bind; [apply typed_loop; by apply Hbuf|]. intros st _.
  apply (typed_bind _ _ anything); [typing|]. intros _ _.
  eapply typed_bind; [apply typed_scsw|]. { intros p Hp. unfold final_scsw. cbv zeta. destruct (_ || _); by repeat apply setf_ok. }
  intros _ _. eapply typed_bind; [apply typed_get_dev|]. intros d' [].
  eapply typed_bind; [|intros; by apply typed_ret]. apply typed_queue; [done|]. by apply bits_getf.
Qed.

(** *** The I/O instructions *)

Lemma typed_sch_operand : typed sch_operand anything.
Proof. unfold sch_operand. typing. Qed.

Lemma typed_copy_failed ret a : typed (copy_failed ret a) anything.
Proof. unfold copy_failed. typing. Qed.

#[local] Hint Resolve typed_sch_operand typed_copy_failed typed_spool_exec : typed.

Lemma typed_msch : typed (handle_msch E) anything.
Proof.
  unfold handle_msch. eapply typed_bind; [apply typed_sch_operand|]. intros [[a i]|] _; [|typing].
  eapply typed_bind; [by apply typed_from_guest|]. intros [[ret n] g] _. destruct (negb _); [typing|].
  eapply typed_bind; [apply typed_get_dev|]. intros d _. do 2 (destruct (_ d); [typing|]).
  apply (typed_bind _ _ anything); [|intros _ _; typing]. destruct (_ =? 0); [by apply typed_ret|]. apply typed_on_dev.
  intros d' []. split; try done. by apply (fold_setf_ok 28 (fun f => f) (fun f => getf f (schib_pmcw g))).
Qed.

Lemma typed_ssch fuel : typed (handle_ssch E fuel) anything.
Proof.
  unfold handle_ssch. eapply typed_bind; [apply typed_sch_operand|]. intros [[a i]|] _; [|typing].
  eapply typed_bind; [by apply typed_from_guest|]. intros [[ret n] g] Hg. cbn [snd] in Hg. destruct (negb _); [typing|].
  eapply typed_bind; [apply typed_get_dev|]. intros d _. do 2 (destruct (_ d); [typing|]).
  eapply typed_bind; [apply typed_on_dev|intros _ _; typing].
  intros d' []. split; try done; [by apply setf_ok|by repeat apply setf_ok; apply (zeros_ok 12)].
Qed.

Lemma typed_stsch : typed (handle_stsch E) anything.
Proof.
  unfold handle_stsch. eapply typed_bind; [apply typed_sch_operand|]. intros [[a i]|] _; [|typing].
  eapply typed_bind; [apply typed_get_dev|]. intros d [_ _ [_ Hp] [_ Hw] _].
  eapply typed_bind; [by apply typed_to_guest|]. intros [ret n] _. destruct (negb _); [typing|].
  eapply typed_bind; [by apply typed_to_guest|]. intros [ret2 n2] _. typing.
Qed.

Lemma typed_tsch : typed handle_tsch anything.
Proof.
  unfold handle_tsch. eapply typed_bind; [apply typed_sch_operand|]. intros [[a i]|] _; [|typing].
  eapply typed_bind; [apply typed_get_dev|]. intros d _. destruct (status_pending d); [|typing].
  eapply typed_bind; [apply typed_scsw|intros _ _; typing]. intros p Hp. unfold tested_scsw. cbv zeta. by repeat apply setf_ok.
Qed.

Lemma typed_instruction fuel : typed (handle_instruction E fuel) anything.
Proof.
  unfold handle_instruction. eapply typed_bind; [apply typed_get|]. intros s _. eapply typed_bind; [apply typed_con|]. intros _ _.
  unfold instruction_funcs. destruct (_ =? 0xb2); [|typing].
  unfold handle_instruction_priv. eapply typed_bind; [apply typed_get|]. intros t _.
  destruct (instruction_priv_funcs E fuel _) as [h|] eqn:Hh; [|typing]. unfold instruction_priv_funcs in Hh.
  repeat case_match; simplify_eq; eauto using typed_msch, typed_ssch, typed_stsch, typed_tsch.
Qed.

Lemma typed_intercept msg : typed (intercept_stop msg) anything.
Proof. unfold intercept_stop. typing. Qed.

Lemma bits_clear w v k : 0 <= w -> bits w v -> bits w (Z.land v (Z.lnot k)).
Proof.
  intros Hw Hv. unfold bits in *. replace (Z.land v (Z.lnot k)) with (wrap w (Z.land v (Z.lnot k))); [by apply wrap_range|].
  unfold wrap. rewrite <- Z.land_ones by done. rewrite <- Z.land_assoc, (Z.land_comm (Z.lnot k)), Z.land_assoc.
  rewrite Z.land_ones by done. by rewrite Z.mod_small.
Qed.

Lemma typed_interception fuel : typed (handle_interception E fuel) anything.
Proof.
  unfold handle_interception. eapply typed_bind; [apply typed_get|]. intros s _.
  apply (typed_bind _ _ (fun o => if o is Some h then typed h anything else True)).
  { apply typed_lift. intros o Ho%defined_Ret. apply aget_Some in Ho as [_ Ho].
    assert (Forall (fun o => if o is Some h then typed h anything else True) (intercept_funcs E fuel)) as Hall.
    { assert (typed handle_stop anything) as Hstop; [|repeat apply Forall_cons_2; try exact I; try apply Forall_nil_2;
        first [apply typed_intercept | apply typed_instruction | exact Hstop | unfold handle_noop, handle_wait; typing]].
      unfold handle_stop. eapply typed_bind; [|intros; by apply typed_ret]. apply typed_sie. intros c []. split; try done.
      by apply bits_clear. }
    by apply (proj1 (Forall_lookup _ _) Hall _ _ Ho). }
  intros o Ho. apply (typed_bind _ _ anything); [destruct o; [done|by apply typed_ret]|]. intros err _. typing.
Qed.

(** what the guest does in SIE keeps the types *)
Definition typed_action (a : action) : Prop :=
  match a with Turn sie_run => forall s, machine_ok s -> machine_ok (sie_run s) | _ => True end.

Lemma typed_act fuel a : typed_action a -> typed (act E fuel a) anything.
Proof.
  intros Ha. destruct a as [sie_run| | | | | | |]; cbn [act];
    unfold guest_begin, guest_stop, guest_power_on_reset, guest_system_reset_normal, guest_system_reset_clear,
      guest_load_normal, guest_load_clear.
  - unfold shell_turn. eapply typed_bind; [apply typed_get|]. intros s _. destruct (decide _); [|typing].
    assert (typed (modify sie_run ;; handle_interception E fuel) anything) as Hgo.
    { eapply typed_bind; [by apply typed_modify|]. intros _ _. apply typed_interception. }
    unfold run_guest. eapply typed_bind; [apply typed_io_int|]. intros [] _; [exact Hgo|]. typing.
  - apply (typed_bind _ _ anything); [|by intros; apply typed_ret]. eapply typed_bind; [apply typed_get|]. intros s _.
    destruct (state _); try (by apply typed_ret); (eapply typed_bind; [|by intros; apply typed_ret]); apply typed_cpu; by intros c [].
  - apply (typed_bind _ _ anything); [|by intros; apply typed_ret]. eapply typed_bind; [apply typed_get|]. intros s _.
    destruct (state _); try (by apply typed_ret); (eapply typed_bind; [|by intros; apply typed_ret]); apply typed_cpu; by intros c [].
  - eapply typed_bind; [apply typed_cpu_reset|]. intros _ _. apply typed_noncpu_reset.
  - eapply typed_bind; [apply typed_cpu_reset|]. intros _ _. apply typed_noncpu_reset.
  - eapply typed_bind; [apply typed_cpu_reset|]. intros _ _. apply typed_noncpu_reset.
  - eapply typed_bind; [apply typed_cpu_reset|]. intros _ _. apply typed_noncpu_reset.
  - eapply typed_bind; [apply typed_cpu_reset|]. intros _ _. apply typed_noncpu_reset.
Qed.

(** The machine keeps its types.  Whatever is done with a virtual machine,
    turns in which the guest changes its own registers and storage within their
    widths, interceptions, I/O instructions, channel programs, interruptions,
    commands and resets: the registers stay as many and as wide as they are, the
    PSW and the subchannel structures keep their sizes, storage holds bytes, and
    every queued interruption has 32-bit members in one of the eight subclasses. *)
Theorem machine_stays_typed fuel l s s' :
  Forall typed_action l -> machine_ok s -> acts E fuel l s = Ret (tt, s') -> machine_ok s'.
Proof.
  intros Hl Hs H. assert (typed (acts E fuel l) anything) as Ht.
  { clear Hs H. induction Hl as [|a l Ha _ IH]; [by apply typed_ret|].
    eapply typed_bind; [by apply typed_act|]. by intros _ _. }
  by apply (Ht s tt s').
Qed.
End machine.

(** ** The sample machine is well-typed *)

Lemma bytes_ok_dec l : bool_decide (bytes_ok l) = true -> bytes_ok l.
Proof. apply bool_decide_eq_true_1. Qed.

Lemma array_dec w n l : bool_decide (length l = n) = true -> forallb (fun v => (0 <=? v) && (v <? 2 ^ w)) l = true -> array w n l.
Proof.
  intros Hl%bool_decide_eq_true_1 Hb. split; [done|]. apply Forall_forall. intros v Hv. rewrite forallb_forall in Hb.
  specialize (Hb v (proj1 (list_elem_of_In _ _) Hv)). apply andb_true_iff in Hb as [?%Z.leb_le ?%Z.ltb_lt]. done.
Qed.

Lemma sample_sys_ok : machine_ok sample_sys.
Proof.
  split.
  - split; [split|split|split]; try done; try (apply array_dec; vm_compute; reflexivity).
    + split; [done|]. by apply bytes_ok_dec.
    + repeat constructor.
  - apply Forall_cons_2; [|by apply Forall_nil_2]. split; try done; (split; [done|by apply bytes_ok_dec]).
  - assert (storage_ok (fun _ => 0)) as H0 by done.
    cbn [storage sample_sys]. unfold sample_storage, put.
    repeat (apply write_bytes_ok; [|by apply bytes_ok_dec]). done.
Qed.

Lemma typed_issue op s : 0 <= op < 2 ^ 16 -> machine_ok s -> machine_ok (issue op s).
Proof. intros Hop [[[] Hr Hi] Hd Hm]. split; [split; [|done|done]; by split|done|done]. Qed.

Lemma sample_buffer_ok buf : channel_buffer sample_env = Some buf -> bytes_ok buf.
Proof.
  intros H. unfold sample_env in H. cbn [channel_buffer] in H. apply (inj Some) in H. rewrite <- H. apply Forall_replicate. lia.
Qed.

Lemma sample_actions_typed : Forall typed_action sample_actions.
Proof.
  assert (forall op, 0 <= op < 2 ^ 16 -> typed_action (Turn (issue op))) as Ht by (intros op Hop s; by apply typed_issue).
  unfold sample_actions. repeat apply Forall_cons_2; [exact I|exact I| | | |by apply Forall_nil_2]; apply Ht; lia.
Qed.

Lemma machine_stays_typed_witness : exists s', acts sample_env 100 sample_actions sample_sys = Ret (tt, s') /\ machine_ok s'.
Proof.
  destruct sample_actions_run as [s' H]. exists s'. split; [exact H|].
  exact (machine_stays_typed sample_env sample_buffer_ok 100 sample_actions sample_sys s' sample_actions_typed sample_sys_ok H).
Defined.
