(* ===== verification/Printf.v ===== *)
(** cp/nucleus/printf.c and sclp.c: messages on a virtual console and on the
    host's own.

    A message is a format and its arguments, as in the events of Guest.v; here it
    becomes text: the format at address 0 of a memory, the strings it refers to
    from 4096 on, formatted with Format.v and translated with Charset.v.  (The call
    that would write the line to the console is commented out in the code.)  The
    theorem: the line made of a message. *)

From S2P Require Import Prelude CString Format Charset Clock Guest.

Local Open Scope Z_scope.

#[local] Arguments cons {A} & a l.

(** ** A message in memory *)

(** the strings from [addr] on, and the values passed *)
Fixpoint lay_out (addr : Z) (args : list arg) : list Z * list Z :=
  match args with
  | [] => ([], [])
  | Val v :: args => let '(m, vs) := lay_out addr args in (m, v :: vs)
  | Str s :: args => let '(m, vs) := lay_out (addr + lenZ s + 1) args in (s ++ [0] ++ m, addr :: vs)
  end.

Definition message (fmt : string) (args : list arg) : memory * list Z :=
  let '(strs, vs) := lay_out 4096 args in
  (zs fmt ++ replicate (4096 - length (zs fmt)) 0 ++ strs, vs).

(** the whole text of a message *)
Definition text_of (fmt : string) (args : list arg) : outcome (list Z) :=
  let '(m, vs) := message fmt args in r ← full_output m 0 vs; Ret r.1.

(** [snprintf(buf + at, len, fmt, ...)] on the bytes from [buf] on *)
Definition bprintf (buf pos len : Z) (data : list Z) (fmt : string) (args : list arg) : outcome (Z * list Z) :=
  let '(m, vs) := message fmt args in
  '(r, d, _) ← snprintf (buf + pos) (drop (Z.to_nat pos) data) len m 0 vs;
  Ret (r, take (Z.to_nat pos) data ++ d).

(** ** The console *)

(** [buf] is on the stack and holds [data], 128 bytes; the timestamp when it is printed *)
Definition vprintf (ts : option datetime) (buf : Z) (data : list Z) (fmt : string) (args : list arg)
    : outcome (Z * list Z) :=
  '(off, data) ← match ts with
                 | Some dt => bprintf buf 0 128 data "%02d:%02d:%02d " [th dt; tm dt; Clock.ts dt]
                 | None => Ret (0, data)
                 end;
  '(ret, data) ← (let '(m, vs) := message fmt args in
                  '(r, d, _) ← vsnprintf (buf + off) (drop (Z.to_nat off) data) (u64 (128 - off)) m 0 vs;
                  Ret (r, take (Z.to_nat off) data ++ d));
  if negb (ret =? 0) then data ← ascii2ebcdic data (off + ret); Ret (ret, data) else Ret (ret, data).

Definition con_line (now : datetime) (print_ts : bool) (buf : Z) (data : list Z) (e : event) : outcome (Z * list Z) :=
  match e with
  | Con fmt args => vprintf (if print_ts then Some now else None) buf data (fmt +:+ String (Ascii.ascii_of_nat 10) "") args
  | Schedule => Ret (0, data)
  end.

(** ** The service call *)

(** the members that are not zero; [mto] stays zero *)
Record sccb := Sccb {
  hdr_len : Z; hdr_flags : Z;
  evd_len : Z; evd_type : Z;
  mcd_len : Z; mcd_type : Z; mcd_tag : Z; mcd_code : Z;
  obj_len : Z; obj_type : Z;
  txt : list Z
}.

Definition SCCB_OBJ_TYPE_MESSAGE : Z := 0x0004.
Definition SCCB_EVD_TYPE_PRIOR : Z := 0x09.
Definition SCCB_FLAGS_SYNC : Z := 0x80.

(** [buf] is where [txt] is; the block given to the SERVC instruction, if any *)
Definition sclp_msg (buf : Z) (fmt : string) (args : list arg) : outcome (option sccb) :=
  let '(m, vs) := message fmt args in
  '(ret, txt, _) ← vsnprintf buf (replicate 256 0) 256 m 0 vs;
  if ret =? 0 then Ret None else
  txt ← ascii2ebcdic txt ret;
  let obj := u16 (ret + 6 + 4) in
  let mcd := u16 (obj + 12) in
  let evd := u16 (mcd + 6) in
  Ret (Some (Sccb (u16 (evd + 8)) SCCB_FLAGS_SYNC evd SCCB_EVD_TYPE_PRIOR mcd 0x0001 0xd4c4c240 0x00000001
               obj SCCB_OBJ_TYPE_MESSAGE txt)).

(** * The line *)

Lemma translate_stops table pre s rest (n : nat) :
  lenZ table = 256 -> Forall (fun c => 1 <= c < 256) s -> (length s <= n)%nat ->
  translate_loop n (pre ++ s ++ [0] ++ rest) (lenZ pre) table =
    Ret (pre ++ map (xlat table) s ++ [0] ++ rest).
Proof.
  intros Hl Hs. revert n pre. induction Hs as [|c s Hc Hs IH]; intros n pre Hn.
  - destruct n as [|n]; [done|]. cbn [translate_loop map app].
    assert (aget (pre ++ 0 :: rest) (lenZ pre) = Some 0) as ->; [|done].
    rewrite aget_Some. unfold lenZ. rewrite Nat2Z.id. split; [lia|]. by rewrite lookup_app_r, Nat.sub_diag by lia.
  - destruct n as [|n]; [cbn in Hn; lia|]. cbn [translate_loop map app].
    pose proof (translate_loop_map table pre [c] (s ++ [0] ++ rest) Hl) as H1. cbn [length translate_loop app] in H1.
    assert (aget (pre ++ c :: s ++ 0 :: rest) (lenZ pre) = Some c) as Hg.
    { rewrite aget_Some. unfold lenZ. rewrite Nat2Z.id. split; [lia|]. by rewrite lookup_app_r, Nat.sub_diag by lia. }
    cbn [app] in H1. rewrite Hg in *. cbn [defined mbind outcome_bind] in *. destruct (Z.eqb_spec c 0); [lia|].
    specialize (H1 ltac:(constructor; [done|constructor])). rewrite aget_nth in * by (done || lia). cbn [defined mbind outcome_bind] in *.
    destruct (aset _ _ _) as [b|]; [|done]. cbn [defined mbind outcome_bind map app] in *. injection H1 as ->.
    replace (pre ++ xlat table c :: s ++ 0 :: rest) with ((pre ++ [xlat table c]) ++ s ++ [0] ++ rest) by (by rewrite <- app_assoc).
    replace (lenZ pre + 1) with (lenZ (pre ++ [xlat table c])) by (by rewrite lenZ_app).
    rewrite IH by (cbn in Hn; lia). by rewrite <- app_assoc.
Qed.

Lemma s32_small_len (F : list Z) : lenZ F < 2 ^ 31 -> s32 (lenZ F) = lenZ F.
Proof. intros. apply swrap_small; [done|]. pose proof (lenZ_nonneg F). lia. Qed.

(** a message formatted into [size] bytes from [pos] on *)
Lemma bounded_text buf pos size data fmt args F :
  text_of fmt args = Ret F -> lenZ F < 2 ^ 31 -> 0 <= pos -> 0 < size < 2 ^ 31 -> pos + size = lenZ data ->
  0 <= buf -> buf + lenZ data < 2 ^ 64 ->
  exists rest, let out := take (Z.to_nat (size - 1)) F in
    (let '(m, vs) := message fmt args in
     '(r, d, _) ← vsnprintf (buf + pos) (drop (Z.to_nat pos) data) size m 0 vs; Ret (r, take (Z.to_nat pos) data ++ d)) =
      Ret (lenZ F, take (Z.to_nat pos) data ++ out ++ [0] ++ rest) /\
    lenZ (out ++ [0] ++ rest) = size.
Proof.
  intros HF Hlen Hp Hs Hd Hb Hb'. unfold text_of in HF. destruct (message fmt args) as [m vs].
  apply bind_Ret in HF as ([F' m'] & Ho & [= <-]). cbn [fst].
  pose proof (vsnprintf_out (buf + pos) (drop (Z.to_nat pos) data) size m m' 0 vs F' ltac:(lia)) as Hv.
  cbv zeta in Hv. rewrite Hv; [|unfold lenZ in *; rewrite length_drop; lia|lia|done]. rewrite decide_False by lia.
  cbn [mbind outcome_bind]. eexists. split; [by rewrite s32_small_len|].
  unfold lenZ in *. rewrite !length_app, length_drop, length_take, length_drop. cbn. lia.
Qed.

(** Whatever the format and its arguments, a message with a text of bytes 1 to
    255 becomes the first 127 bytes of timestamp and text in EBCDIC, terminated:
    nothing is stored outside the 128 bytes of the buffer, and the translation stops
    at the end of the line although the length it is given may be longer.  The
    result is the length of the whole text. *)
Theorem console_line ts buf data fmt args P F
    (Hdata : lenZ data = 128 /\ 0 <= buf /\ buf + 128 < 2 ^ 64)
    (Hstamp : match ts with
              | Some dt => text_of "%02d:%02d:%02d " [th dt; tm dt; Clock.ts dt] = Ret P
              | None => P = []
              end)
    (Htext : text_of fmt args = Ret F)
    (Hbytes : Forall (fun c => 1 <= c < 256) (P ++ F) /\ F <> [] /\ lenZ P < 128 /\ lenZ F < 2 ^ 31 - 128) :
  exists rest, vprintf ts buf data fmt args =
      Ret (lenZ F, map (xlat ascii2ebcdic_table) (take 127 (P ++ F)) ++ [0] ++ rest) /\
    lenZ (map (xlat ascii2ebcdic_table) (take 127 (P ++ F)) ++ [0] ++ rest) = 128.
Proof.
  destruct Hdata as (Hd & Hb & Hb'). destruct Hbytes as (Hby & Hne & HP & HF).
  assert (exists d1, (match ts with
                 | Some dt => bprintf buf 0 128 data "%02d:%02d:%02d " [th dt; tm dt; Clock.ts dt]
                 | None => Ret (0, data)
                 end) = Ret (lenZ P, d1) /\ take (length P) d1 = P /\ lenZ d1 = 128) as (d1 & E1 & T1 & L1).
  { destruct ts as [dt|]; [|subst P; by exists data].
    destruct (bounded_text buf 0 128 data _ _ P Hstamp) as (rest & E & L); [lia..|].
    exists (take (Z.to_nat 0) data ++ take (Z.to_nat (128 - 1)) P ++ [0] ++ rest). split; [exact E|].
    change (Z.to_nat 0) with 0%nat in *. rewrite take_0 in *; cbn [app] in *. rewrite (take_ge P) in * by (unfold lenZ in *; lia). split; [by rewrite take_app_length|done]. }
  unfold vprintf. rewrite E1. cbn [mbind outcome_bind]. pose proof (lenZ_nonneg P).
  rewrite wrap_small by lia.
  destruct (bounded_text buf (lenZ P) (128 - lenZ P) d1 fmt args F Htext) as (rest & E & L); [lia..|].
  rewrite E. cbn [mbind outcome_bind]. destruct (Z.eqb_spec (lenZ F) 0) as [Hz|_].
  { destruct F; [done|]. unfold lenZ in Hz. cbn in Hz. lia. }
  cbn [negb]. replace (Z.to_nat (lenZ P)) with (length P) by (unfold lenZ; lia). rewrite T1.
  assert (P ++ take (Z.to_nat (128 - lenZ P - 1)) F = take 127 (P ++ F)) as Hline.
  { rewrite take_app. rewrite (take_ge P) by (unfold lenZ in *; lia). f_equal. f_equal. unfold lenZ. lia. }
  rewrite app_assoc, Hline. unfold ascii2ebcdic, __translate.
  pose proof (translate_stops ascii2ebcdic_table [] (take 127 (P ++ F)) rest (Z.to_nat (lenZ P + lenZ F))) as Ht.
  cbn [app] in Ht |- *. change (lenZ []) with 0 in Ht. rewrite Ht; [|done|by apply Forall_take|].
  - cbn [mbind outcome_bind]. exists rest. split; [done|]. rewrite <- Hline. unfold lenZ in *.
    rewrite length_app in L. rewrite !length_app, length_map, length_app. cbn [length app] in *. lia.
  - rewrite length_take, length_app. unfold lenZ. lia.
Qed.

(** "12:34:56 CP" with a newline *)
Lemma console_line_witness :
  exists rest, vprintf (Some (Datetime 2011 5 4 12 34 56 0)) 0x8000 (replicate 128 0xff) "%s" [Str (zs "CP" ++ [10])] =
    Ret (3, [0xf1; 0xf2; 0x7a; 0xf3; 0xf4; 0x7a; 0xf5; 0xf6; 0x40; 0xc3; 0xd7; 0x15; 0] ++ rest).
Proof.
  destruct (console_line (Some (Datetime 2011 5 4 12 34 56 0)) 0x8000 (replicate 128 0xff) "%s" [Str (zs "CP" ++ [10])]
    (zs "12:34:56 ") (zs "CP" ++ [10])) as (rest & E & _).
  - by vm_compute.
  - by vm_compute.
  - by vm_compute.
  - split; [repeat (constructor; [by vm_compute|]); constructor|]. by vm_compute.
  - exists rest. exact E.
Defined.
