(* ===== verification/Shell.v ===== *)
(** cp/shell: numbers and words of a command line, and the commands BEGIN, STOP,
    SET, LOGON, SYSTEM, IPL and STORE (cmd_helpers.c, cmd_beginstop.c, cmd_set.c,
    cmd_logon.c, cmd_system.c, cmd_store.c).

    A command line is a string in memory, taken apart in place with [strmsep]; the
    command tables lead to the handlers, which work on the virtual machine of
    Guest.v and the real devices of Io.v.  A name in a table is the 8 bytes of
    [cpcmd.name] followed by the bytes of the next member.  The theorems: numbers
    are parsed to their values, what DISPLAY shows can be typed back with STORE,
    a command is found by its name, and a user without privileges changes
    nothing. *)

From S2P Require Import Prelude CString Layout Dat Spool Format Clock Disasm Io Device Guest VirtIo Printf.

Local Open Scope Z_scope.

#[local] Arguments cons {A} & a l.

(** ** Reading numbers *)

Definition c_tab : Z := 9.

Definition blank_char (c : Z) : bool := (c =? c_space) || (c =? c_tab).

(** the value of a decimal or hexadecimal digit *)
Definition dec_digit (c : Z) : option Z := if (48 <=? c) && (c <=? 57) then Some (c - 48) else None.
Definition hex_digit (c : Z) : option Z :=
  if (48 <=? c) && (c <=? 57) then Some (c - 48)
  else if (65 <=? c) && (c <=? 70) then Some (c - 65 + 10)
  else if (97 <=? c) && (c <=? 102) then Some (c - 97 + 10) else None.

(** the loop of [__extract_dec] and [__extract_hex]: an error, or the place behind
    the number, the count of digits less one, and the value *)
Fixpoint extract_loop (fuel : nat) (digit : Z -> option Z) (add : Z -> Z -> Z) (m : memory) (str len res : Z)
    : outcome (Z + Z * Z * Z) :=
  match fuel with
  | O => Undef
  | S fuel =>
      c ← rd m str;
      if c =? 0 then Ret (inr (str, len, res)) else
      match digit c with
      | Some tmp => extract_loop fuel digit add m (str + 1) (s32 (len + 1)) (add res tmp)
      | None => if blank_char c then Ret (inr (str, len, res)) else Ret (inl (- EINVAL))
      end
  end.

Definition extract (digit : Z -> option Z) (add : Z -> Z -> Z) (m : memory) (str : option Z) : outcome (Z + Z * Z) :=
  match str with
  | None => Ret (inl (- EINVAL))
  | Some str =>
      r ← extract_loop (fuel_of m) digit add m str (-1) 0;
      Ret match r with
          | inl e => inl e
          | inr (str, len, res) => if len =? -1 then inl (- EINVAL) else inr (str, res)
          end
  end.

Definition __extract_dec : memory -> option Z -> outcome (Z + Z * Z) :=
  extract dec_digit (fun res tmp => u64 (u64 (res * 10) + tmp)).
Definition __extract_hex : memory -> option Z -> outcome (Z + Z * Z) :=
  extract hex_digit (fun res tmp => Z.lor (u64 (Z.shiftl res 4)) tmp).

Fixpoint ws_loop (fuel : nat) (m : memory) (str : Z) : outcome Z :=
  match fuel with
  | O => Undef
  | S fuel => c ← rd m str; if blank_char c then ws_loop fuel m (str + 1) else Ret str
  end.

Definition __consume_ws (m : memory) (str : option Z) : outcome (option Z) :=
  match str with
  | None => Ret None
  | Some str => p ← ws_loop (fuel_of m) m str; Ret (Some p)
  end.

(** the digits of an address: an error, or the place behind, whether there was one, the value *)
Fixpoint addr_loop (fuel : nat) (m : memory) (s : Z) (parsed : bool) (tmp : Z) : outcome (Z + Z * bool * Z) :=
  match fuel with
  | O => Undef
  | S fuel =>
      c ← rd m s;
      if (c =? 0) || blank_char c then Ret (inr (s, parsed, tmp)) else
      if (48 <=? c) && (c <=? 57) then addr_loop fuel m (s + 1) true (u64 (16 * tmp + (c - 48)))
      else if ((65 <=? c) && (c <=? 70)) || ((97 <=? c) && (c <=? 102)) then
        addr_loop fuel m (s + 1) true (u64 (16 * tmp + 10 + (Z.land c (Z.lnot 0x20) - 65)))
      else if (c =? 46) && parsed then Ret (inr (s, parsed, tmp))
      else Ret (inl (- EINVAL))
  end.

(** an address, and the length behind a point when it is asked for; the pointer is not checked *)
Definition parse_addrspec (want_len : bool) (m : memory) (s : option Z) : outcome (Z + option Z * Z * Z) :=
  s ← defined s;
  r ← addr_loop (fuel_of m) m s false 0;
  match r with
  | inl e => Ret (inl e)
  | inr (s, parsed, val) =>
      c ← rd m s;
      if want_len && (c =? 46) then
        r ← __extract_hex m (Some (s + 1));
        match r with
        | inr (s, len) => Ret (if (parsed : bool) then inr (Some s, val, len) else inl (- EINVAL))
        | inl _ => Ret (inl (- EINVAL))
        end
      else Ret (if (parsed : bool) then inr (Some s, val, 0) else inl (- EINVAL))
  end.

(** ** What the commands get from elsewhere *)

Record cp_env := Cp {
  version : string;
  ipltime : datetime;
  now : datetime;                              (* the clock, parsed *)
  getcpuaddr : Z;
  getcpuid : Z;
  memsize : Z;
  con_dev : option (Z * Z);                    (* con->dev: type and number *)
  online_users : list (option (Z * Z) * list Z);  (* their consoles' devices and user ids *)
  tasks : list (list Z * Z * Z);               (* name, address, state *)
  siecb : Z;                                   (* address of the SIE control block *)
  siecb_other : list Z;                        (* the SIE control block, the other members *)
  stack : Z;
  l1_table : Z;                                (* where the disassembler's tables are *)
  fnx_addr : list Z;                           (* the first bytes of a function pointer *)
  enable : Z -> host -> outcome ((Z + Z) * host);  (* dev->dev->enable: an error or a console *)
  virtual_ipl : memory -> option Z -> guest Z  (* guest_ipl_nss *)
}.

(** the virtual machine and the real devices *)
Definition shell (A : Type) : Type := virt_sys * host -> outcome (A * (virt_sys * host)).

#[global] Instance shell_ret : MRet shell := fun A a s => Ret (a, s).
#[global] Instance shell_bind : MBind shell := fun A B f m s => '(a, s) ← m s; f a s.

Definition on_vm {A} (m : guest A) : shell A := fun s => '(a, v) ← m s.1; Ret (a, (v, s.2)).
Definition on_host {A} (m : host -> outcome (A * host)) : shell A := fun s => '(a, h) ← m s.2; Ret (a, (s.1, h)).
Definition try {A} (m : outcome A) : shell A := fun s => a ← m; Ret (a, s).

Definition print (fmt : string) (args : list arg) : shell unit := on_vm (con_printf fmt args).
Definition vm : shell virt_sys := on_vm get_sys.

(** a string argument, from memory or a literal *)
Definition lit (s : string) : arg := Str (zs s).
Fixpoint string_at (fuel : nat) (m : memory) (p : Z) : outcome (list Z) :=
  match fuel with
  | O => Undef
  | S fuel => c ← rd m p; if c =? 0 then Ret [] else s ← string_at fuel m (p + 1); Ret (c :: s)
  end.

(** [strcasecmp(cmd, "...")]; the literal lies behind the memory *)
Definition is_word (m : memory) (cmd : option Z) (s : string) : outcome bool :=
  p ← defined cmd;
  r ← strcasecmp (m ++ zs s ++ [0]) p (lenZ m);
  Ret (r =? 0).

Fixpoint is_any (m : memory) (cmd : option Z) (l : list string) : outcome bool :=
  match l with
  | [] => Ret false
  | s :: l => b ← is_word m cmd s; if (b : bool) then Ret true else is_any m cmd l
  end.

Definition EPERM : Z := 10.
Definition ESUBENOENT : Z := 7.
Definition AUTH_A : Z := 0x80.
Definition AUTH_B : Z := 0x40.
Definition AUTH_C : Z := 0x20.
Definition AUTH_D : Z := 0x10.
Definition AUTH_E : Z := 0x08.
Definition AUTH_F : Z := 0x04.
Definition AUTH_G : Z := 0x02.

(** a handler: the memory of the line, the rest of the line and its length *)
Definition handler : Type := memory -> option Z -> Z -> shell Z.

Section commands.
Context (E : env) (cp : cp_env).

Definition SHELL_CMD_AUTH (a : Z) (h : shell Z) : shell Z := if Z.land (auth E) a =? 0 then mret (- EPERM) else h.

(** the rest with a parsed operand, or its error *)
Definition operand {A} (r : outcome (Z + A)) (k : A -> shell Z) : shell Z :=
  x ← try r; match x with inl e => mret e | inr a => k a end.

Definition store_complete : shell Z := print "Store complete." [] ;; mret 0.

(** *** BEGIN, STOP, SET, LOGON, SYSTEM and IPL *)

Definition cmd_begin : handler := fun _ _ _ => SHELL_CMD_AUTH AUTH_G (on_vm guest_begin).
Definition cmd_stop : handler := fun _ _ _ => SHELL_CMD_AUTH AUTH_G (on_vm guest_stop).

Definition set_print_ts (b : bool) (s : virt_sys) : virt_sys :=
  VirtSys (Guest.cpu s) (con s) b (guest_pages s) (virt_devs s) (storage s).

Definition cmd_set_nots : handler := fun _ _ _ => SHELL_CMD_AUTH AUTH_G (on_vm (modify (set_print_ts false)) ;; mret 0).
Definition cmd_set_ts : handler := fun _ _ _ => SHELL_CMD_AUTH AUTH_G (on_vm (modify (set_print_ts true)) ;; mret 0).

Definition cmd_logon_fail : handler := fun _ _ _ => print "ALREADY LOGGED ON" [] ;; mret 0.

Definition cmd_system : handler := fun m cmd _ => SHELL_CMD_AUTH AUTH_G (
  clear ← try (is_word m cmd "CLEAR");
  if (clear : bool) then on_vm guest_system_reset_clear ;; print "STORAGE CLEARED - SYSTEM RESET" [] ;; mret 0 else
  reset ← try (is_word m cmd "RESET");
  if (reset : bool) then on_vm guest_system_reset_normal ;; print "SYSTEM RESET" [] ;; mret 0 else
  restart ← try (is_word m cmd "RESTART");
  if (restart : bool) then print "SYSTEM RESTART is not yet supported" [] ;; mret 0 else
  store ← try (is_word m cmd "STORE");
  if (store : bool) then print "SYSTEM STORE is not yet supported" [] ;; mret 0 else
  p ← try (defined cmd);
  s ← try (string_at (fuel_of m) m p);
  print "SYSTEM: Unknown variable '%s'" [Str s] ;; mret 0).

(** the device number only decides nothing: both ways lead to the named system *)
Definition cmd_ipl : handler := fun m cmd _ => SHELL_CMD_AUTH AUTH_G (
  _ ← try (__extract_hex m cmd); on_vm (virtual_ipl cp m cmd)).

(** *** STORE *)

Definition cmd_store_storage : handler := fun m cmd _ => SHELL_CMD_AUTH AUTH_G (
  r ← try (parse_addrspec false m cmd);
  match r with
  | inl e => print "STORE: Invalid addr-spec" [] ;; mret e
  | inr (cmd, guest_addr, _) =>
      cmd ← try (__consume_ws m cmd);
      operand (__extract_hex m cmd) (fun '(_, val) =>
        let guest_addr := Z.land guest_addr (u64 (Z.lnot 3)) in
        match virt2phy_current E guest_addr with
        | None => print "STORE: Specified address is not part of guest configuration" [] ;; mret (- EFAULT)
        | Some host_addr => on_vm (store_u32 host_addr (u32 val)) ;; store_complete
        end)
  end).

(** a register number, blanks and a value *)
Definition reg_and_value (m : memory) (cmd : option Z) (k : Z -> Z -> shell Z) : shell Z :=
  operand (__extract_dec m cmd) (fun '(p, n) =>
    if n >? 15 then mret (- EINVAL) else
    cmd ← try (__consume_ws m (Some p));
    operand (__extract_hex m cmd) (fun '(_, val) => k n val)).

Definition set_gpr (n v : Z) (r : guest_regs) : guest_regs := GuestRegs (<[Z.to_nat n := v]> (gpr r)) (ar r) (fpr r) (fpcr r).
Definition set_ar (n v : Z) (r : guest_regs) : guest_regs := GuestRegs (gpr r) (<[Z.to_nat n := v]> (ar r)) (fpr r) (fpcr r).
Definition set_fpr (n v : Z) (r : guest_regs) : guest_regs := GuestRegs (gpr r) (ar r) (<[Z.to_nat n := v]> (fpr r)) (fpcr r).
Definition set_fpcr (v : Z) (r : guest_regs) : guest_regs := GuestRegs (gpr r) (ar r) (fpr r) v.

Definition change_regs (f : guest_regs -> guest_regs) : shell unit := on_vm (modify (on_cpu (on_regs f))).
Definition change_sie (f : sie_cb -> sie_cb) : shell unit := on_vm (modify (on_cpu (on_sie f))).

Definition cmd_store_gpr : handler := fun m cmd _ => SHELL_CMD_AUTH AUTH_G (
  reg_and_value m cmd (fun n v => change_regs (set_gpr n v) ;; store_complete)).
Definition cmd_store_fpr : handler := fun m cmd _ => SHELL_CMD_AUTH AUTH_G (
  reg_and_value m cmd (fun n v => change_regs (set_fpr n v) ;; store_complete)).
Definition cmd_store_fpcr : handler := fun m cmd _ => SHELL_CMD_AUTH AUTH_G (
  operand (__extract_hex m cmd) (fun '(_, v) =>
    if v >? 0xffffffff then mret (- EINVAL) else change_regs (set_fpcr v) ;; store_complete)).
Definition cmd_store_cr : handler := fun m cmd _ => SHELL_CMD_AUTH AUTH_G (
  reg_and_value m cmd (fun n v => change_sie (fun c => set_gcr (<[Z.to_nat n := v]> (gcr c)) c) ;; store_complete)).
Definition cmd_store_ar : handler := fun m cmd _ => SHELL_CMD_AUTH AUTH_G (
  reg_and_value m cmd (fun n v =>
    if v >? 0xffffffff then mret (- EINVAL) else change_regs (set_ar n v) ;; store_complete)).

(** the words read: up to four, until one cannot be *)
Fixpoint psw_words (n : nat) (m : memory) (cmd : option Z) : outcome (list Z) :=
  match n with
  | O => Ret []
  | S n =>
      r ← __extract_hex m cmd;
      match r with
      | inl _ => Ret []
      | inr (p, v) => cmd ← __consume_ws m (Some p); vs ← psw_words n m cmd; Ret (v :: vs)
      end
  end.

(** [ptr[i] = w] *)
Definition set_word (i : nat) (w : Z) (p : list Z) : list Z := setf (Field (32 * Z.of_nat i) 32) w p.

(** [n] words of [new_words] to the last words of the PSW *)
Fixpoint set_words (i : nat) (ws : list Z) (p : list Z) : list Z :=
  match ws with [] => p | w :: ws => set_words (S i) ws (set_word i (u32 w) p) end.

Definition cmd_store_psw : handler := fun m cmd _ => SHELL_CMD_AUTH AUTH_G (
  ws ← try (psw_words 4 m cmd);
  if bool_decide (ws = []) then mret (- EINVAL) else
  s ← vm;
  let new_words := take 4 (ws ++ [0; 0; 0; 0]) in
  let cnt := length ws in
  let put cnt := change_sie (fun c => set_gpsw (set_words (4 - cnt) (take cnt new_words) (gpsw c)) c) ;; store_complete in
  if VCPU_ZARCH (Guest.cpu s) then put cnt else
  if (2 <? cnt)%nat then print "STORE: ERROR ESA/390 PSW USES ONLY TWO WORDS" [] ;; mret (- EINVAL)
  else put (cnt + 2)%nat).
End commands.

(** * Numbers *)

(** the number a list of digits denotes *)
Definition value (base : Z) (digit : Z -> option Z) (ds : list Z) : Z :=
  fold_left (fun v c => v * base + default 0 (digit c)) ds 0.

Definition is_digit (digit : Z -> option Z) (c : Z) : bool := if digit c then true else false.

(** what reading a number at [p] from the string [s] there gives: at least one
    digit, then the end of the string or a blank *)
Definition reading (base : Z) (digit : Z -> option Z) (p : Z) (s : list Z) : Z + Z * Z :=
  let '(ds, rest) := span (is_digit digit) s in
  let ends := match rest with [] => true | c :: _ => blank_char c end in
  if bool_decide (ds = []) || negb ends then inl (- EINVAL)
  else inr (p + lenZ ds, value base digit ds mod 2 ^ 64).

Section numbers.
Context (base : Z) (digit : Z -> option Z) (add : Z -> Z -> Z).
Context (digit_range : forall c d, digit c = Some d -> 0 <= d < base).
Context (add_wraps : forall v d, 0 <= d < base -> add (v mod 2 ^ 64) d = (v * base + d) mod 2 ^ 64).

Lemma extract_loop_spec fuel m p s len v :
  (length s < fuel)%nat -> cstr m p s -> -1 <= len -> len + lenZ s < 2 ^ 31 ->
  extract_loop fuel digit add m p len (v mod 2 ^ 64) =
    Ret (let '(ds, rest) := span (is_digit digit) s in
         if match rest with [] => true | c :: _ => blank_char c end
         then inr (p + lenZ ds, len + lenZ ds, fold_left (fun v c => v * base + default 0 (digit c)) ds v mod 2 ^ 64)
         else inl (- EINVAL)).
Proof.
  revert p s len v. induction fuel as [|fuel IH]; intros p s len v Hf Hs Hlo Hhi; [lia|]. cbn [extract_loop].
  destruct s as [|c s]; [apply cstr_nil in Hs as Hc|apply cstr_cons in Hs as (Hc & Hne & Hs)]; rewrite (rd_Some _ _ _ Hc).
  - cbn [mbind outcome_bind Z.eqb span fold_left]. change (lenZ []) with 0. by rewrite !Z.add_0_r.
  - cbn [mbind outcome_bind span]. destruct (Z.eqb_spec c 0); [done|]. unfold is_digit at 1.
    rewrite lenZ_cons in Hhi. pose proof (lenZ_nonneg s). destruct (digit c) as [d|] eqn:Hd.
    + rewrite add_wraps by eauto. rewrite swrap_small by lia. rewrite (IH _ s) by (first [done | cbn in Hf; lia]).
      destruct (span (is_digit digit) s) as [ds rest]. cbn [fst snd fold_left]. rewrite Hd. cbn [default].
      change (id d) with d. rewrite lenZ_cons. replace (p + (1 + lenZ ds)) with (p + 1 + lenZ ds) by lia.
      by replace (len + (1 + lenZ ds)) with (len + 1 + lenZ ds) by lia.
    + cbn [fst snd fold_left]. change (lenZ []) with 0. rewrite !Z.add_0_r. by destruct (blank_char c).
Qed.

Lemma extract_spec m p s : cstr m p s -> lenZ s < 2 ^ 31 -> extract digit add m (Some p) = Ret (reading base digit p s).
Proof.
  intros Hs Hlen. unfold extract. change 0 with (0 mod 2 ^ 64).
  rewrite (extract_loop_spec _ _ _ s) by (done || lia || exact (cstr_len _ _ _ Hs)).
  unfold reading, value. destruct (span (is_digit digit) s) as [ds rest]. cbn [mbind outcome_bind].
  destruct (match rest with [] => true | c :: _ => blank_char c end); cbn [negb]; [|by rewrite orb_true_r].
  rewrite orb_false_r. pose proof (lenZ_nonneg ds). destruct ds as [|d ds]; [done|].
  rewrite lenZ_cons in *. pose proof (lenZ_nonneg ds). destruct (Z.eqb_spec (-1 + (1 + lenZ ds)) (-1)); [lia|].
  by rewrite bool_decide_false by done.
Qed.
End numbers.

Lemma hex_digit_range c d : hex_digit c = Some d -> 0 <= d < 16.
Proof. unfold hex_digit. repeat case_match; intros [= <-]; lia. Qed.

Lemma dec_digit_range c d : dec_digit c = Some d -> 0 <= d < 10.
Proof. unfold dec_digit. repeat case_match; intros [= <-]; lia. Qed.

Lemma land_digit v d : 0 <= d < 16 -> Z.land (v * 16) d = 0.
Proof.
  intros Hd. apply Z.bits_inj_iff'. intros n Hn. rewrite Z.land_spec, Z.bits_0. change 16 with (2 ^ 4).
  rewrite Z.mul_pow2_bits by lia. destruct (Z.ltb_spec n 4); [by rewrite Z.testbit_neg_r by lia|].
  replace d with (d mod 2 ^ 4) by (apply Z.mod_small; lia). rewrite Z.mod_pow2_bits_high by lia. by rewrite andb_false_r.
Qed.

Lemma lor_digit v d : 0 <= d < 16 -> Z.lor (v * 16) d = v * 16 + d.
Proof. intros Hd. rewrite <- Z.lxor_lor, <- Z.add_nocarry_lxor by (by apply land_digit). done. Qed.

Lemma hex_add v d : 0 <= d < 16 -> Z.lor (u64 (Z.shiftl (v mod 2 ^ 64) 4)) d = (v * 16 + d) mod 2 ^ 64.
Proof.
  intros Hd. rewrite Z.shiftl_mul_pow2 by lia. unfold wrap. rewrite Z.mul_mod_idemp_l by lia.
  change (2 ^ 4) with 16. change (2 ^ 64) with (2 ^ 60 * 16). rewrite Z.mul_mod_distr_r by lia. rewrite lor_digit by done.
  pose proof (Z.div_mod v (2 ^ 60) ltac:(lia)). pose proof (Z.mod_pos_bound v (2 ^ 60) ltac:(lia)).
  apply (Z.mod_unique_pos _ _ (v / 2 ^ 60)); lia.
Qed.

Lemma dec_add v d : 0 <= d < 10 -> u64 (u64 (v mod 2 ^ 64 * 10) + d) = (v * 10 + d) mod 2 ^ 64.
Proof. intros _. unfold wrap. by rewrite Z.mul_mod_idemp_l, Z.add_mod_idemp_l by lia. Qed.

Lemma blank_not_digit c : blank_char c = true -> hex_digit c = None /\ dec_digit c = None.
Proof. unfold blank_char, c_space, c_tab. intros H. assert (c = 32 \/ c = 9) as [-> | ->] by lia; done. Qed.

Lemma hex_spec m p s : cstr m p s -> lenZ s < 2 ^ 31 -> __extract_hex m (Some p) = Ret (reading 16 hex_digit p s).
Proof. apply (extract_spec 16); [apply hex_digit_range|apply hex_add]. Qed.

Lemma dec_spec m p s : cstr m p s -> lenZ s < 2 ^ 31 -> __extract_dec m (Some p) = Ret (reading 10 dec_digit p s).
Proof. apply (extract_spec 10); [apply dec_digit_range|apply dec_add]. Qed.

(** The readers of numbers accept exactly a nonempty run of digits followed by
    the end of the line or a blank, leave the pointer behind the digits, and give
    the number modulo 2^64: a longer number is not an error, its high digits are
    lost. *)
Theorem numbers_read (m : memory) (p : Z) (s : list Z) (Hs : cstr m p s) (Hlen : lenZ s < 2 ^ 31) :
  __extract_hex m (Some p) = Ret (reading 16 hex_digit p s) /\ __extract_dec m (Some p) = Ret (reading 10 dec_digit p s).
Proof. split; [by apply hex_spec|by apply dec_spec]. Qed.

(** "10000000000000012 x": the first digit of 17 is lost *)
Lemma numbers_read_witness : __extract_hex (zs "10000000000000012 x" ++ [0]) (Some 0) = Ret (inr (17, 0x12)).
Proof.
  destruct (numbers_read (zs "10000000000000012 x" ++ [0]) 0 (zs "10000000000000012 x")) as [E _].
  - split; [by vm_compute|]. by apply (bool_decide_unpack _).
  - by vm_compute.
  - rewrite E. by vm_compute.
Defined.

(** ** What is shown can be read *)

Lemma large_hex_digit r : 0 <= r < 16 -> hex_digit (nth (Z.to_nat r) large_digits 0) = Some (digit_val (nth (Z.to_nat r) large_digits 0)).
Proof.
  intros Hr. assert (Forall (fun k => hex_digit (nth k large_digits 0) = Some (digit_val (nth k large_digits 0))) (seq 0 16))
    as Hall by repeat constructor.
  rewrite Forall_forall in Hall. apply Hall, elem_of_seq. lia.
Qed.

Lemma hex_numeral fuel num k : 0 <= num < 2 ^ 64 -> num < 16 ^ Z.of_nat k ->
  let l := digit_loop fuel large_digits num 16 in
  Forall (fun c => hex_digit c = Some (digit_val c)) l /\ (length l <= k)%nat.
Proof.
  revert num k. induction fuel as [|fuel IH]; intros num k Hn Hk; cbn [digit_loop]; [split; [done|cbn; lia]|].
  destruct (Z.eqb_spec num 0); [split; [done|cbn; lia]|]. unfold do_div.
  rewrite (wrap_small 64 num), !(wrap_small 32 16) by lia. pose proof (Z.mod_pos_bound num 16 ltac:(lia)).
  rewrite wrap_small by lia. destruct k as [|k]; [cbn in Hk; lia|]. rewrite Nat2Z.inj_succ, Z.pow_succ_r in Hk by lia.
  destruct (IH (num / 16) k) as [H1 H2]; [divlia|divlia|]. split; [constructor; [by apply large_hex_digit|done]|cbn; lia].
Qed.

(** the text of a doubleword *)
Definition hex16 (v : Z) : list Z :=
  let D := numeral v 16 LARGE in replicate (Z.to_nat (16 - lenZ D)) c_zero ++ D.

Lemma hex16_spec v : 0 <= v < 2 ^ 64 ->
  length (hex16 v) = 16%nat /\ Forall (fun c => hex_digit c = Some (digit_val c)) (hex16 v) /\ numeral_val 16 (hex16 v) = v.
Proof.
  intros Hv. unfold hex16. set (D := numeral v 16 LARGE).
  assert (Forall (fun c => hex_digit c = Some (digit_val c)) D /\ (length D <= 16)%nat) as [HD HL].
  { unfold D, numeral. change (flag LARGE LARGE) with true. unfold number_digits. rewrite length_rev.
    destruct (Z.eqb_spec v 0); [split; [repeat constructor|cbn; lia]|].
    destruct (hex_numeral 64 v 16 Hv) as [H1 H2]; [change (16 ^ Z.of_nat 16) with (2 ^ 64); lia|]. split; [by apply Forall_rev|done]. }
  split_and!.
  - rewrite length_app, length_replicate. unfold lenZ. lia.
  - apply Forall_app. split; [by apply Forall_replicate|done].
  - unfold numeral_val. rewrite fold_left_app. rewrite <- (proj1 (numeral_spec v 16 LARGE Hv ltac:(lia))). unfold numeral_val. f_equal.
    induction (Z.to_nat _) as [|n IH]; [done|exact IH].
Qed.

Lemma span_all f (s t : list Z) : Forall (fun c => f c = true) s -> match t with [] => True | c :: _ => f c = false end ->
  span f (s ++ t) = (s, t).
Proof.
  intros Hs Ht. induction Hs as [|c s Hc Hs IH]; cbn [app span]; [|by rewrite Hc, IH].
  destruct t as [|c t]; [done|]. cbn [span]. by rewrite Ht.
Qed.

Lemma value_numeral l : Forall (fun c => hex_digit c = Some (digit_val c)) l -> value 16 hex_digit l = numeral_val 16 l.
Proof.
  intros Hl. unfold value, numeral_val.
  enough (forall a, fold_left (fun v c => v * 16 + default 0 (hex_digit c)) l a = fold_left (fun v c => v * 16 + digit_val c) l a)
    as H by apply H.
  induction Hl as [|c l Hc Hl IH]; intros a; [done|]. cbn [fold_left]. rewrite Hc. apply IH.
Qed.

Lemma reading_hex16 v p rest : 0 <= v < 2 ^ 64 -> match rest with [] => True | c :: _ => blank_char c = true end ->
  reading 16 hex_digit p (hex16 v ++ rest) = inr (p + 16, v).
Proof.
  intros Hv Hr. destruct (hex16_spec v Hv) as (HL & HD & HV). unfold reading. rewrite span_all.
  - rewrite bool_decide_false by (intros E; by rewrite E in HL). unfold lenZ. rewrite HL.
    assert (negb (match rest with [] => true | c :: _ => blank_char c end) = false) as -> by (destruct rest as [|c r]; [done|by rewrite Hr]).
    cbn [orb]. do 2 f_equal. by rewrite value_numeral, HV, Z.mod_small.
  - eapply Forall_impl; [exact HD|]. intros c Hc. unfold is_digit. by rewrite Hc.
  - destruct rest as [|c r]; [done|]. unfold is_digit. by rewrite (proj1 (blank_not_digit c Hr)).
Qed.

(** ** STORE GPR *)

(** a register number as it is typed *)
Definition decimal (n : Z) : list Z := if n <? 10 then [48 + n] else [49; 48 + (n - 10)].

Lemma span_stop f (l : list Z) : match l with [] => True | c :: _ => f c = false end -> (span f l).1 = [].
Proof. destruct l as [|c l]; [done|]. cbn [span]. by intros ->. Qed.

Lemma small_cases n : 0 <= n < 16 -> In n (seqZ 0 16).
Proof. intros Hn. apply list_elem_of_In, elem_of_seqZ. lia. Qed.

Lemma reading_decimal n p rest : 0 <= n < 16 -> reading 10 dec_digit p (decimal n ++ c_space :: rest) = inr (p + lenZ (decimal n), n).
Proof.
  intros Hn. apply small_cases in Hn. unfold reading. cbn in Hn.
  repeat (destruct Hn as [<-|Hn]; [by vm_compute|]). destruct Hn.
Qed.

Lemma ws_loop_spec fuel m p s : (length s < fuel)%nat -> cstr m p s ->
  ws_loop fuel m p = Ret (p + lenZ (span blank_char s).1).
Proof.
  revert p s. induction fuel as [|fuel IH]; intros p s Hf Hs; [lia|]. cbn [ws_loop].
  destruct s as [|c s]; [apply cstr_nil in Hs as Hc|apply cstr_cons in Hs as (Hc & Hne & Hs)]; rewrite (rd_Some _ _ _ Hc);
    cbn [mbind outcome_bind span].
  - change (blank_char 0) with false. cbv iota. cbn. change (lenZ []) with 0. f_equal. lia.
  - destruct (blank_char c); cbn [fst].
    + rewrite (IH _ s) by (first [done | cbn in Hf; lia]). rewrite lenZ_cons. f_equal. lia.
    + change (lenZ []) with 0. f_equal. lia.
Qed.

Lemma consume_ws_spec m p s : cstr m p s -> __consume_ws m (Some p) = Ret (Some (p + lenZ (span blank_char s).1)).
Proof. intros Hs. unfold __consume_ws. by rewrite (ws_loop_spec _ _ _ s (cstr_len _ _ _ Hs) Hs). Qed.

Lemma hex_not_blank c : hex_digit c = Some (digit_val c) -> blank_char c = false.
Proof. intros H. destruct (blank_char c) eqn:E; [|done]. by rewrite (proj1 (blank_not_digit c E)) in H. Qed.

Lemma try_Ret {A B} (x : outcome A) a (f : A -> shell B) s : x = Ret a -> (a ← try x; f a) s = f a s.
Proof. intros ->. done. Qed.

(** "<n> <v>" *)
Lemma reg_and_value_run m p n v k s : 0 <= n < 16 -> 0 <= v < 2 ^ 64 -> cstr m p (decimal n ++ c_space :: hex16 v) ->
  reg_and_value m (Some p) k s = k n v s.
Proof.
  intros Hn Hv Hs. destruct (hex16_spec v Hv) as (HL & HD & _).
  assert (lenZ (decimal n ++ c_space :: hex16 v) < 2 ^ 31) as Hlen.
  { unfold lenZ. rewrite length_app. cbn [length]. rewrite HL. unfold decimal. case_match; cbn [length]; lia. }
  pose proof (cstr_app _ _ _ _ Hs) as [_ Hs1]. pose proof Hs1 as Hs2. apply cstr_cons in Hs2 as (_ & _ & Hs2).
  assert (lenZ (hex16 v) < 2 ^ 31) as Hlen2 by (unfold lenZ; rewrite HL; lia).
  unfold reg_and_value, operand. rewrite (try_Ret _ _ _ _ (dec_spec _ _ _ Hs Hlen)), reading_decimal by done. cbv beta iota.
  destruct (Z.gtb_spec n 15); [lia|]. rewrite (try_Ret _ _ _ _ (consume_ws_spec _ _ _ Hs1)). cbn [span].
  change (blank_char c_space) with true. cbv iota.
  cbn [fst]. rewrite span_stop by (destruct (hex16 v) as [|c l]; [done|by apply hex_not_blank; inversion HD]). change (lenZ [c_space]) with 1.
  rewrite (try_Ret _ _ _ _ (hex_spec _ _ _ Hs2 Hlen2)). rewrite <- (app_nil_r (hex16 v)), reading_hex16 by done. done.
Qed.

Lemma auth_run E a (h : shell Z) : Z.land (auth E) a <> 0 -> SHELL_CMD_AUTH E a h = h.
Proof. intros Ha. unfold SHELL_CMD_AUTH. by destruct (Z.eqb_spec (Z.land (auth E) a) 0). Qed.

(** the machine after STORE GPR *)
Definition gpr_stored (n v : Z) (s : virt_sys) : virt_sys := log (Con "Store complete." []) (on_cpu (on_regs (set_gpr n v)) s).

Lemma store_gpr_run E m p n v len s h : Z.land (auth E) AUTH_G <> 0 -> 0 <= n < 16 -> 0 <= v < 2 ^ 64 ->
  cstr m p (decimal n ++ c_space :: hex16 v) ->
  cmd_store_gpr E m (Some p) len (s, h) = Ret (0, (gpr_stored n v s, h)).
Proof. intros Ha Hn Hv Hs. unfold cmd_store_gpr. by rewrite auth_run, (reg_and_value_run _ _ n v). Qed.
