(* ===== verification/Display.v ===== *)
(** cp/shell/cmd_display.c: the DISPLAY commands.

    A handler only prints: storage as words or instructions, registers, PSWs and
    subchannels, read from the virtual machine of Guest.v.  Lines of storage are
    formatted into a buffer on the stack first. *)

From S2P Require Import Prelude Buddy CString Format Layout Dat Spool Disasm Guest VirtIo Printf Shell.

Local Open Scope Z_scope.

#[local] Arguments cons {A} & a l.

Section display.
Context (E : env) (cp : cp_env).

(** *** DISPLAY STORAGE *)

(** the string in a buffer *)
Definition buffer_text (b : list Z) : list Z := (span (fun c => negb (c =? 0)) b).1.

Definition load_u32 (m : Z -> Z) (a : Z) : Z := be_val (Dat.read_bytes m a 4).
Definition load_u64 (m : Z -> Z) (a : Z) : Z := be_val (Dat.read_bytes m a 8).

(** the words of a line: [k] are left, [mlen] for the lines after this one; the
    addresses, the text, and whether a page is missing *)
Fixpoint numeric_words (k : nat) (mlen : Z) (m : Z -> Z) (guest_addr host_addr bp : Z) (buf : list Z)
    : outcome (Z * Z * list Z * bool) :=
  match k with
  | O => Ret (guest_addr, host_addr, buf, false)
  | S k =>
      '(n, buf) ← bprintf (stack cp) bp (80 - bp) buf "%08X " [load_u32 m host_addr];
      let bp := bp + n in
      let guest_addr := u64 (guest_addr + 4) in
      let host_addr := u64 (host_addr + 4) in
      if negb (Z.land guest_addr PAGE_MASK =? 0) || (mlen =? 0)
      then numeric_words k mlen m guest_addr host_addr bp buf
      else match virt2phy_current E guest_addr with
           | None => Ret (guest_addr, host_addr, buf, true)
           | Some host_addr => numeric_words k mlen m guest_addr host_addr bp buf
           end
  end.

Definition no_such_address (guest_addr : Z) : shell unit :=
  print "DISPLAY: The address %016llX is not part of guest configuration (RC=%d,%d)" [guest_addr; - EFAULT; - EFAULT].

(** the lines; [fuel] is the number of words *)
Fixpoint numeric_lines (fuel : nat) (mlen guest_addr host_addr : Z) : shell unit :=
  match fuel with
  | O => mret tt
  | S fuel =>
      if mlen =? 0 then mret tt else
      s ← vm;
      let this_len := if mlen >? 4 then 4 else mlen in
      let mlen := mlen - this_len in
      '(bp, buf) ← try (bprintf (stack cp) 0 80 (replicate 80 0) "R%016llX  " [guest_addr]);
      '(guest_addr, host_addr, buf, missing) ← try (numeric_words (Z.to_nat this_len) mlen (storage s) guest_addr host_addr bp buf);
      print "%s" [Str (buffer_text buf)] ;;
      if (missing : bool) then no_such_address guest_addr else numeric_lines fuel mlen guest_addr host_addr
  end.

Definition __display_storage_numeric (guest_addr mlen : Z) : shell unit :=
  let guest_addr := Z.land guest_addr (u64 (Z.lnot 3)) in
  match virt2phy_current E guest_addr with
  | None => no_such_address guest_addr
  | Some host_addr =>
      let mlen := if mlen >? 4 then Z.shiftr mlen 2 + (if Z.land mlen 3 =? 0 then 0 else 1) else 1 in
      numeric_lines (Z.to_nat mlen) mlen guest_addr host_addr
  end.

(** every instruction has at least two bytes *)
Fixpoint instruct_lines (fuel : nat) (guest_addr end_addr host_addr : Z) : shell unit :=
  match fuel with
  | O => mret tt
  | S fuel =>
      if guest_addr <? end_addr then
        s ← vm;
        '(buf, ilen) ← try (disassm (l1_table cp) (Dat.read_bytes (storage s) host_addr 8) (stack cp) (replicate 64 0) 64);
        if Z.land host_addr PAGE_MASK >=? PAGE_SIZE - ilen then
          print "DISPLAY: Instruction spans page boundary - not supported" []
        else
          let val := Z.shiftr (load_u64 (storage s) host_addr) (8 * (8 - ilen)) in
          print "R%016llX  %0*llX%*s  %s" [guest_addr; 2 * ilen; val; 12 - 2 * ilen; Str []; Str (buffer_text buf)] ;;
          instruct_lines fuel (u64 (guest_addr + ilen)) end_addr (u64 (host_addr + ilen))
      else mret tt
  end.

Definition __display_storage_instruct (guest_addr mlen : Z) : shell unit :=
  match virt2phy_current E guest_addr with
  | None =>
      print "DISPLAY: Specified address is not part of guest configuration (RC=%d,%d)" [- EFAULT; - EFAULT]
  | Some host_addr =>
      let mlen := if mlen =? 0 then 1 else mlen in
      instruct_lines (Z.to_nat mlen) guest_addr (u64 (guest_addr + mlen)) host_addr
  end.

Definition cmd_display_storage : handler := fun m cmd _ => SHELL_CMD_AUTH E AUTH_G (
  p ← try (defined cmd);
  c ← try (rd m p);
  let numeric := (c =? 78) || (c =? 110) in
  let instruct := (c =? 73) || (c =? 105) in
  r ← try (parse_addrspec true m (Some (if numeric || instruct then p + 1 else p)));
  match r with
  | inl _ => print "DISPLAY: Invalid addr-spec" [] ;; mret 0
  | inr (_, guest_addr, mlen) =>
      (if instruct then __display_storage_instruct guest_addr mlen else __display_storage_numeric guest_addr mlen) ;;
      mret 0
  end).

(** *** DISPLAY of registers *)

(** the lines for the pairs of registers: name, format, first register *)
Fixpoint pair_lines (fmts : list string) (l : list Z) : shell unit :=
  match fmts, l with
  | f :: fmts, a :: b :: l => print f [a; b] ;; pair_lines fmts l
  | _, _ => mret tt
  end.

Definition cmd_display_gpr : handler := fun _ _ _ => SHELL_CMD_AUTH E AUTH_G (
  s ← vm;
  pair_lines ["GR  0 = %016llX %016llX"; "GR  2 = %016llX %016llX"; "GR  4 = %016llX %016llX"; "GR  6 = %016llX %016llX";
              "GR  8 = %016llX %016llX"; "GR 10 = %016llX %016llX"; "GR 12 = %016llX %016llX"; "GR 14 = %016llX %016llX"]%string
    (gpr (regs (Guest.cpu s))) ;; mret 0).
Definition cmd_display_fpcr : handler := fun _ _ _ => SHELL_CMD_AUTH E AUTH_G (
  s ← vm; print "FPCR  = %08X" [fpcr (regs (Guest.cpu s))] ;; mret 0).
Definition cmd_display_fpr : handler := fun _ _ _ => SHELL_CMD_AUTH E AUTH_G (
  s ← vm;
  pair_lines ["FR  0 = %016llX %016llX"; "FR  2 = %016llX %016llX"; "FR  4 = %016llX %016llX"; "FR  6 = %016llX %016llX";
              "FR  8 = %016llX %016llX"; "FR 10 = %016llX %016llX"; "FR 12 = %016llX %016llX"; "FR 14 = %016llX %016llX"]%string
    (fpr (regs (Guest.cpu s))) ;; mret 0).
Definition cmd_display_cr : handler := fun _ _ _ => SHELL_CMD_AUTH E AUTH_G (
  s ← vm;
  pair_lines ["CR  0 = %016llX %016llX"; "CR  2 = %016llX %016llX"; "CR  4 = %016llX %016llX"; "CR  6 = %016llX %016llX";
              "CR  8 = %016llX %016llX"; "CR 10 = %016llX %016llX"; "CR 12 = %016llX %016llX"; "CR 14 = %016llX %016llX"]%string
    (gcr (sie (Guest.cpu s))) ;; mret 0).
Definition cmd_display_ar : handler := fun _ _ _ => SHELL_CMD_AUTH E AUTH_G (
  s ← vm;
  pair_lines ["AR  0 = %08X %08X"; "AR  2 = %08X %08X"; "AR  4 = %08X %08X"; "AR  6 = %08X %08X";
              "AR  8 = %08X %08X"; "AR 10 = %08X %08X"; "AR 12 = %08X %08X"; "AR 14 = %08X %08X"]%string
    (ar (regs (Guest.cpu s))) ;; mret 0).

(** the 512 bytes of the SIE control block *)
Definition siecb_bytes (c : sie_cb) : list Z :=
  let put off bytes l := take off l ++ bytes ++ drop (off + length bytes) l in
  put 0%nat (be_bytes 4 (cpuflags c)) (put 4%nat (be_bytes 4 (prefix c)) (put 0x50%nat (be_bytes 1 (icptcode c))
    (put 0x56%nat (be_bytes 2 (ipa c)) (put 0x58%nat (be_bytes 4 (ipb c)) (put 0x90%nat (gpsw c)
      (put 0x100%nat (concat (map (be_bytes 8) (gcr c))) (siecb_other cp))))))).

Definition word (b : list Z) (i : Z) : Z := be_val (take 4 (drop (Z.to_nat (4 * i)) b)).

Fixpoint siecb_lines (n : nat) (i : Z) (b : list Z) : shell unit :=
  match n with
  | O => mret tt
  | S n => print "%03lX  %08X %08X %08X %08X" [i * 4; word b i; word b (i + 1); word b (i + 2); word b (i + 3)] ;;
           siecb_lines n (i + 4) b
  end.

Definition cmd_display_siecb : handler := fun _ _ _ => SHELL_CMD_AUTH E AUTH_E (
  s ← vm;
  print "SIECB FOR %s AT %p" [Str (userid E); siecb cp] ;;
  siecb_lines 32 0 (siecb_bytes (sie (Guest.cpu s))) ;; mret 0).

(** *** DISPLAY PSW *)

Definition D_PSW_CUR : Z := 0x01.
Definition D_PSW_EXT : Z := 0x02.
Definition D_PSW_SVC : Z := 0x04.
Definition D_PSW_PRG : Z := 0x08.
Definition D_PSW_MCH : Z := 0x10.
Definition D_PSW_IO : Z := 0x20.
Definition D_PSW_RST : Z := 0x40.
Definition D_PSW_ALL : Z := 0x7f.

Definition __d_psw (zarch : bool) (name : string) (obase nbase : Z) (odata ndata : list Z) (idx : Z) : shell unit :=
  if zarch then
    print "%s %04X  %3llX OLD %08X %08X %08X %08X"
      [lit name; 0xffff; obase + idx * 16; word odata (idx * 4); word odata (1 + idx * 4); word odata (2 + idx * 4);
       word odata (3 + idx * 4)] ;;
    print "          %3llX NEW %08X %08X %08X %08X"
      [nbase + idx * 16; word ndata (idx * 4); word ndata (1 + idx * 4); word ndata (2 + idx * 4); word ndata (3 + idx * 4)]
  else
    print "%s %04X  %3llX OLD %08X %08X" [lit name; 0xffff; obase + idx * 8; word odata (idx * 2); word odata (1 + idx * 2)] ;;
    print "          %3llX NEW %08X %08X" [nbase + idx * 8; word ndata (idx * 2); word ndata (1 + idx * 2)].

(** which PSWs a word selects *)
Fixpoint psw_choice (m : memory) (cmd : option Z) (l : list (string * Z)) : outcome Z :=
  match l with
  | [] => Ret D_PSW_CUR
  | (s, d) :: l => b ← is_word m cmd s; if (b : bool) then Ret d else psw_choice m cmd l
  end.

Definition psw_choices : list (string * Z) :=
  [("ALL"%string, D_PSW_ALL); ("RST"%string, D_PSW_RST); ("EXT"%string, D_PSW_EXT); ("SVC"%string, D_PSW_SVC);
   ("PRG"%string, D_PSW_PRG); ("MCH"%string, D_PSW_MCH); ("I/O"%string, D_PSW_IO)].

Definition shown (disp d : Z) (p : shell unit) : shell unit := if Z.land disp d =? 0 then mret tt else p.

Definition cmd_display_psw : handler := fun m cmd _ => SHELL_CMD_AUTH E AUTH_G (
  disp ← try (psw_choice m cmd psw_choices);
  s ← vm;
  let zarch := VCPU_ZARCH (Guest.cpu s) in
  let p := gpsw (sie (Guest.cpu s)) in
  shown disp D_PSW_CUR
    (if zarch then print "PSW = %08X %08X %08X %08X" [word p 0; word p 1; word p 2; word p 3]
     else print "PSW = %08X %08X" [word p 0; word p 1]) ;;
  let obase := if zarch then 0x120 else 0x18 in
  let nbase := if zarch then 0x1A0 else 0x58 in
  '(oret, _, odata) ← on_vm (memcpy_from_guest E obase 96);
  '(nret, _, ndata) ← on_vm (memcpy_from_guest E nbase 96);
  if negb (oret =? 0) || negb (nret =? 0) then
    print "Failed to fetch old/new PSWs from guest storage" [] ;; mret (if oret =? 0 then nret else oret)
  else
  shown disp D_PSW_RST (__d_psw zarch "RST" obase nbase odata ndata 0) ;;
  shown disp D_PSW_EXT (__d_psw zarch "EXT" obase nbase odata ndata 1) ;;
  shown disp D_PSW_SVC (__d_psw zarch "SVC" obase nbase odata ndata 2) ;;
  shown disp D_PSW_PRG (__d_psw zarch "PRG" obase nbase odata ndata 3) ;;
  shown disp D_PSW_MCH (__d_psw zarch "MCH" obase nbase odata ndata 4) ;;
  shown disp D_PSW_IO (__d_psw zarch "I/O" obase nbase odata ndata 5) ;;
  mret 0).

(** *** DISPLAY SCHIB *)

Definition __do_display_schib (d : virt_device) : shell unit :=
  let p := pmcw d in
  print "%05X %04X %08X   %d  %02X %02X  %02X  %02X %02X ---- %02X %02X %02X%02X%02X%02X %02X%02X%02X%02X"
    [Guest.sch d; getf pmcw_dev_num p; getf pmcw_interrupt_param p; getf pmcw_isc p;
     flags_of [Z.shiftl (getf pmcw_e p) 7; Z.shiftl (getf pmcw_lm p) 5; Z.shiftl (getf pmcw_mm p) 3;
               Z.shiftl (getf pmcw_d p) 2; Z.shiftl (getf pmcw_t p) 1; getf pmcw_v p];
     getf pmcw_lpm p; getf pmcw_pnom p; getf pmcw_lpum p; getf pmcw_pim p; getf pmcw_pom p; getf pmcw_pam p;
     getf (pmcw_chpid 0) p; getf (pmcw_chpid 1) p; getf (pmcw_chpid 2) p; getf (pmcw_chpid 3) p;
     getf (pmcw_chpid 4) p; getf (pmcw_chpid 5) p; getf (pmcw_chpid 6) p; getf (pmcw_chpid 7) p].

(** [all] is 0, 1 before and 2 after the heading *)
Fixpoint schib_loop (devs : list virt_device) (all n : Z) : shell unit :=
  match devs with
  | [] => mret tt
  | d :: devs =>
      if (Guest.sch d =? u32 n) || negb (all =? 0) then
        (if (all =? 0) || (all =? 1)
         then print "SCHIB DEV  INT-PARM ISC FLG LP PNO LPU PI MBI  PO PA CHPID0-3 CHPID4-7" [] else mret tt) ;;
        let all := if (all =? 0) || (all =? 1) then (if all =? 0 then 0 else 2) else all in
        __do_display_schib d ;;
        if all =? 0 then mret tt else schib_loop devs all n
      else schib_loop devs all n
  end.

Definition cmd_display_schib : handler := fun m cmd _ => SHELL_CMD_AUTH E AUTH_G (
  s ← vm;
  all ← try (is_word m cmd "ALL");
  if (all : bool) then schib_loop (virt_devs s) 1 0 ;; mret 0 else
  operand (__extract_hex m cmd) (fun '(_, n) =>
    if negb (Z.land n 0xffff0000 =? 0x00010000) then mret (- EINVAL) else schib_loop (virt_devs s) 0 n ;; mret 0)).
End display.

(** * The text of registers *)

(** the characters of a format that are put out as they are *)
Definition plain (c : Z) : Prop := c <> 0 /\ c <> c_percent.

Lemma format_plain m args n l i (st : list Z) :
  Forall plain l -> bytes_at m i l ->
  format_loop (length l + n) (FState st m args) i = format_loop n (FState (st ++ l) m args) (i + lenZ l).
Proof.
  intros Hl. revert i st. induction Hl as [|c l [H0 H1] Hl IH]; intros i st Hm.
  - cbn. change (lenZ []) with 0. by rewrite Z.add_0_r, app_nil_r.
  - destruct Hm as [Hc Hm]. cbn [length Nat.add format_loop f_mem f_out f_args]. rewrite (rd_Some _ _ _ Hc).
    cbn [mbind outcome_bind]. destruct (Z.eqb_spec c 0); [done|]. destruct (Z.eqb_spec c c_percent); [done|].
    cbn [negb emit log_sink]. cbn [mbind outcome_bind]. rewrite IH by done. rewrite lenZ_cons, <- app_assoc. f_equal. lia.
Qed.

Lemma convert_hex16 m v args st : 0 <= v < 2 ^ 64 ->
  convert (FState st m (v :: args)) 88 1 16 (-1) 76 = Ret (FState (st ++ hex16 v) m args, false).
Proof.
  intros Hv. unfold convert. cbn -[number Z.lor integer_arg]. unfold convert_integer. cbn -[number Z.lor integer_arg Z.add].
  change (integer_arg 76 (Z.lor 1 LARGE) v) with (u64 v). rewrite wrap_small by done.
  destruct (number_out st v 16 16 (-1) ZEROPAD 0 LARGE) as [E _]; [lia|done|by right|by left|by right|].
  change (Z.lor 1 LARGE) with (ZEROPAD + 0 + LARGE). rewrite E. cbn -[hex16 numeral lenZ].
  do 3 f_equal. unfold hex16. set (D := numeral v 16 LARGE). pose proof (lenZ_nonneg D).
  replace (Z.to_nat (-1 - lenZ D)) with 0%nat by lia. cbn [replicate app]. change (lenZ []) with 0. by do 2 f_equal.
Qed.

Lemma format_hex16 m v args n i st : (3 <= fuel_of m)%nat -> 0 <= v < 2 ^ 64 -> bytes_at m i (zs "%016llX") ->
  format_loop (S n) (FState st m (v :: args)) i = format_loop n (FState (st ++ hex16 v) m args) (i + 7).
Proof.
  intros Hf Hv Hm. destruct (fuel_of m) as [|[|[|k]]] eqn:Hk; [lia..|].
  change (zs "%016llX") with [37; 48; 49; 54; 108; 108; 88] in Hm. cbn [bytes_at] in Hm.
  destruct Hm as (B0 & B1 & B2 & B3 & B4 & B5 & B6 & _). apply rd_Some in B0, B1, B2, B3, B4, B5, B6.
  assert (fmt_flags (fuel_of m) m i 0 = Ret (1, i + 1 + 1)) as F1.
  { rewrite Hk. cbn [fmt_flags]. rewrite B1. cbn [mbind outcome_bind]. cbn [Z.eqb Pos.eqb fmt_flags]. by rewrite B2. }
  assert (fmt_width m (i + 1 + 1) 1 (v :: args) = Ret (16, 1, i + 1 + 1 + 1 + 1, v :: args)) as F2.
  { unfold fmt_width. rewrite B2. cbn [mbind outcome_bind]. change (isdigit 49) with true. cbv iota. rewrite Hk. cbn [skip_atoi].
    rewrite B2. cbn [mbind outcome_bind]. change (isdigit 49) with true. cbv iota. cbn [skip_atoi]. rewrite B3.
    cbn [mbind outcome_bind]. change (isdigit 54) with true. cbv iota. cbn [skip_atoi]. by rewrite B4. }
  assert (fmt_precision m (i + 1 + 1 + 1 + 1) (v :: args) = Ret (-1, i + 1 + 1 + 1 + 1, v :: args)) as F3.
  { unfold fmt_precision. by rewrite B4. }
  assert (fmt_qualifier m (i + 1 + 1 + 1 + 1) = Ret (76, i + 1 + 1 + 1 + 1 + 1 + 1)) as F4.
  { unfold fmt_qualifier. rewrite B4. cbn [mbind outcome_bind]. by rewrite B5. }
  cbn [format_loop f_mem f_out f_args]. rewrite B0. cbn [mbind outcome_bind]. change (negb _) with false. cbv iota.
  rewrite F1. cbn [mbind outcome_bind]. rewrite F2. cbn [mbind outcome_bind]. rewrite F3. cbn [mbind outcome_bind].
  rewrite F4. cbn [mbind outcome_bind]. rewrite B6. cbn [mbind outcome_bind]. rewrite convert_hex16 by done.
  cbn [mbind outcome_bind]. f_equal. lia.
Qed.

Lemma zs_app s t : zs (s +:+ t) = zs s ++ zs t.
Proof. unfold zs. induction s as [|c s IH]; [done|]. change (String c s +:+ t) with (String c (s +:+ t)). cbn. by f_equal. Qed.

(** a line with two registers *)
Lemma pair_text pre a b : Forall plain (zs pre) -> (length (zs pre) < 100)%nat -> 0 <= a < 2 ^ 64 -> 0 <= b < 2 ^ 64 ->
  text_of (pre +:+ "%016llX %016llX") [Val a; Val b] = Ret (zs pre ++ hex16 a ++ [c_space] ++ hex16 b).
Proof.
  intros Hp Hl Ha Hb. unfold text_of, message. cbn [lay_out]. rewrite zs_app.
  set (rest := replicate _ 0 ++ []). assert (exists rest', rest = 0 :: rest') as [rest' Hr].
  { unfold rest. rewrite length_app. change (length (zs "%016llX %016llX")) with 15%nat.
    destruct (4096 - (length (zs pre) + 15))%nat as [|k] eqn:E; [lia|]. cbn. eauto. }
  set (m := _ ++ rest). assert (bytes_at m 0 (zs pre ++ zs "%016llX" ++ [c_space] ++ zs "%016llX" ++ [0])) as Hm.
  { unfold m. rewrite Hr. replace (_ ++ 0 :: rest') with ((zs pre ++ zs "%016llX" ++ [c_space] ++ zs "%016llX" ++ [0]) ++ rest')
      by (by rewrite <- !app_assoc). apply bytes_at_self. }
  assert (exists n, fuel_of m = length (zs pre) + S (1 + S (S (S n))))%nat as [n Hf].
  { exists (fuel_of m - length (zs pre) - 5)%nat. unfold fuel_of, m. rewrite Hr, !length_app. cbn. lia. }
  unfold full_output. rewrite Hf at 1. rewrite !bytes_at_app in Hm. destruct Hm as (B0 & B1 & B2 & B3 & B4 & _).
  rewrite format_plain by done. rewrite format_hex16 by (done || lia).
  change 1%nat with (length [c_space]). rewrite format_plain; [|by repeat constructor|].
  2: { eapply eq_ind; [exact B2|]. f_equal. }
  rewrite format_hex16; [|lia|done|eapply eq_ind; [exact B3|]; f_equal].
  cbn [format_loop f_mem]. change (lenZ (zs "%016llX")) with 7 in *. change (lenZ [c_space]) with 1 in *.
  rewrite (rd_Some _ _ _ B4). cbn [mbind outcome_bind Z.eqb f_out fst]. by rewrite <- !app_assoc.
Qed.

Fixpoint line_events (fmts : list string) (l : list Z) : list event :=
  match fmts, l with
  | f :: fmts, a :: b :: l => Con f [Val a; Val b] :: line_events fmts l
  | _, _ => []
  end.

(** the machine after the messages [es], in this order *)
Definition said (es : list event) (s : virt_sys) : virt_sys := fold_left (fun s e => log e s) es s.

Lemma pair_lines_run fmts l s h : pair_lines fmts l (s, h) = Ret (tt, (said (line_events fmts l) s, h)).
Proof.
  revert l s. induction fmts as [|f fmts IH]; intros l s; [done|]. destruct l as [|a [|b l]]; [done..|].
  cbn [pair_lines line_events]. exact (IH l (log (Con f [Val a; Val b]) s)).
Qed.

(** how a line about general registers begins *)
Definition gr_prefix (k : nat) : string :=
  nth k ["GR  0 = "; "GR  2 = "; "GR  4 = "; "GR  6 = "; "GR  8 = "; "GR 10 = "; "GR 12 = "; "GR 14 = "]%string "".

Definition gr_formats : list string := map (fun k => gr_prefix k +:+ "%016llX %016llX") (seq 0 8).

Lemma gr_prefix_plain k : (k < 8)%nat -> Forall plain (zs (gr_prefix k)) /\ length (zs (gr_prefix k)) = 8%nat.
Proof.
  intros Hk. do 8 (destruct k as [|k]; [split; [by repeat constructor|done]|]). lia.
Qed.

Lemma line_events_lookup l k a b : length l = 16%nat -> (k < 8)%nat ->
  l !! (2 * k)%nat = Some a -> l !! (2 * k + 1)%nat = Some b ->
  line_events gr_formats l !! k = Some (Con (gr_prefix k +:+ "%016llX %016llX") [Val a; Val b]).
Proof.
  intros Hl Hk Ha Hb. do 16 (destruct l as [|? l]; [done|]). destruct l; [|done].
  do 8 (destruct k as [|k]; [cbn in Ha, Hb; by simplify_eq|]). lia.
Qed.

(** the sixteen digits of register [n] on its line *)
Definition digits_of (n : Z) (text : list Z) : list Z := take 16 (drop (Z.to_nat (8 + 17 * (n mod 2))) text).

(** C35: What DISPLAY GPR shows can be typed back, by a user with class G, when the
    sixteen registers hold 64 bits each: for each general register, the
    line with its pair has its sixteen digits, and STORE GPR with them gives the
    register this value, in whatever state the machine is by then, changes nothing
    else and says that it is done. *)
Theorem registers_typed_back (E : env) m cmd len (s : virt_sys) (h : Io.host)
    (Hauth : Z.land (auth E) AUTH_G <> 0)
    (Hregs : length (gpr (regs (Guest.cpu s))) = 16%nat /\ Forall (fun v => 0 <= v < 2 ^ 64) (gpr (regs (Guest.cpu s)))) :
  let lines := line_events gr_formats (gpr (regs (Guest.cpu s))) in
  cmd_display_gpr E m cmd len (s, h) = Ret (0, (said lines s, h)) /\
  forall n v, 0 <= n < 16 -> gpr (regs (Guest.cpu s)) !! Z.to_nat n = Some v ->
  exists fmt args text, lines !! Z.to_nat (n / 2) = Some (Con fmt args) /\ text_of fmt args = Ret text /\
  forall m p len s1 h1, cstr m p (decimal n ++ c_space :: digits_of n text) ->
    cmd_store_gpr E m (Some p) len (s1, h1) = Ret (0, (gpr_stored n v s1, h1)).
Proof.
  destruct Hregs as [Hl Hr]. cbv zeta. split.
  { unfold cmd_display_gpr. rewrite auth_run by done. set (l := gpr _).
    change ((pair_lines gr_formats l ;; mret 0 : shell Z) (s, h) = Ret (0, (said (line_events gr_formats l) s, h))).
    unfold mbind, shell_bind. by rewrite pair_lines_run. }
  intros n v Hn Hv. set (l := gpr (regs (Guest.cpu s))) in *. set (k := Z.to_nat (n / 2)).
  assert (k < 8)%nat as Hk by (unfold k; divlia).
  destruct (lookup_lt_is_Some_2 l (2 * k)%nat ltac:(lia)) as [a Ha].
  destruct (lookup_lt_is_Some_2 l (2 * k + 1)%nat ltac:(lia)) as [b Hb].
  rewrite Forall_lookup in Hr. pose proof (Hr _ _ Ha). pose proof (Hr _ _ Hb). pose proof (Hr _ _ Hv).
  destruct (gr_prefix_plain k Hk) as [Hp Hpl].
  do 3 eexists. split; [by apply line_events_lookup|]. split; [apply pair_text; (done || lia)|].
  intros m' p len' s1 h1 Hs. apply store_gpr_run; [done..|].
  replace (hex16 v) with (digits_of n (zs (gr_prefix k) ++ hex16 a ++ [c_space] ++ hex16 b)); [done|].
  unfold digits_of. destruct (hex16_spec a ltac:(done)) as (La & _). destruct (hex16_spec b ltac:(done)) as (Lb & _).
  pose proof (Z.div_mod n 2 ltac:(lia)). pose proof (Z.mod_pos_bound n 2 ltac:(lia)).
  destruct (decide (n mod 2 = 0)) as [E0|E0].
  - rewrite E0. change (Z.to_nat (8 + 17 * 0)) with 8%nat. rewrite <- Hpl, drop_app_length.
    rewrite take_app_le, take_ge by lia. replace (Z.to_nat n) with (2 * k)%nat in Hv by (unfold k; lia). congruence.
  - replace (n mod 2) with 1 by lia. rewrite !app_assoc, drop_app_length'.
    2: { rewrite !length_app, Hpl, La. done. }
    rewrite take_ge by lia. replace (Z.to_nat n) with (2 * k + 1)%nat in Hv by (unfold k; lia). congruence.
Qed.

Definition sample_sys (g : list Z) : virt_sys :=
  VirtSys (VirtCpu (SieCb 0 0 0 0 0 (zeros psw_size) (zeros 16)) (GuestRegs g (zeros 16) (zeros 16) 0) 0 GUEST_STOPPED (replicate 8 []))
    [] false [] [] (fun _ => 0).

Definition sample_env : env := Env (fun a => Some a) 0x100000 (zs "HVF") 0xff true None [] 0 [].

Definition sample_host : Io.host := Io.Host ∅ [] [] ∅ 0 [].

(** register 3 is typed back into a machine with other registers *)
Lemma registers_typed_back_witness :
  let s := sample_sys (zeros 16) in
  cmd_store_gpr sample_env (zs "3 000000000000A003" ++ [0]) (Some 0) 18 (s, sample_host) = Ret (0, (gpr_stored 3 0xA003 s, sample_host)).
Proof.
  intros s. destruct (registers_typed_back sample_env [] None 0 (sample_sys (seqZ 0xA000 16)) sample_host) as [_ H].
  - by vm_compute.
  - split; [done|]. apply (bool_decide_unpack _). by vm_compute.
  - destruct (H 3 0xA003) as (fmt & args & text & Hk & Ht & Hst); [lia|done|].
    vm_compute in Hk. injection Hk as <- <-. vm_compute in Ht. injection Ht as <-. apply Hst.
    split; [by vm_compute|]. by apply (bool_decide_unpack _).
Defined.
