(* ===== verification/Commands.v ===== *)
(** cp/shell: ENABLE and QUERY, the command tables and the shell itself
    (cmd_enable.c, cmd_query.c, cmds.c, init.c).

    A table entry has the 8 bytes of [cpcmd.name], which a longer name fills
    without a terminator; comparing goes on into the bytes of the next member.  The
    theorems: a command is the entry whose name is the first word, the rest of the
    line is its operand, and a user without privileges changes nothing. *)

From S2P Require Import Prelude CString Format Charset Clock Layout Spool Sched Device Io Guest Printf Shell Display.

Local Open Scope Z_scope.

#[local] Arguments cons {A} & a l.

Definition type2name (t : Z) : string :=
  match t with
  | 0x1403 => "PRT"
  | 0x1732 => "OSA"
  | 0x3088 => "CTCA"
  | 0x3215 => "CONS"
  | 0x3278 => "GRAF"
  | 0x3505 => "RDR"
  | 0x3525 => "PUN"
  | 0x3390 | 0x9336 => "DASD"
  | 0x3480 | 0x3490 | 0x3590 => "TAPE"
  | _ => "????"
  end.

Definition __guest_state_to_str (st : virt_cpustate) : string :=
  match st with
  | GUEST_STOPPED => "STOPPED"
  | GUEST_OPERATING => "RUNNING"
  | GUEST_LOAD => "LOADING"
  | GUEST_CHECKSTOP => "CHECK-STOP"
  end.

Section commands.
Context (E : env) (cp : cp_env).

(** ** ENABLE *)

(** the reference to the device is given back *)
Definition cmd_enable : handler := fun m cmd _ => SHELL_CMD_AUTH E AUTH_A (
  all ← try (is_word m cmd "ALL");
  if (all : bool) then print "ENABLE ALL not yet implemented!" [] ;; mret 0 else
  operand (__extract_hex m cmd) (fun '(_, devnum) =>
    if negb (Z.land devnum (u64 (Z.lnot 0xffff)) =? 0) then mret (- EINVAL) else
    r ← on_host (find_device_by_ccuu devnum);
    match r with
    | inl _ => print "Device %04llX not found in configuration" [devnum] ;; mret 0
    | inr a =>
        let put := on_host (fun h => h ← dev_put a h; Ret (0, h)) in
        d ← on_host (fun h => d ← Io.get_dev a h; Ret (d, h));
        if Io.in_use d then print "Device %04llX is already in use" [devnum] ;; put else
        t ← try (defined (Io.dev d));
        if negb (dt_enable t) then
          print "Device type %-4s cannot be enabled" [lit (type2name (Io.type d))] ;; put
        else
        con ← on_host (enable cp a);
        match con with
        | inl e => s ← try (errstrings (- e)); print "Failed to enable %04llX: %s" [Val devnum; s] ;; put
        | inr _ => mret 0
        end
    end)).

(** ** QUERY *)

Definition cmd_query_cplevel : handler := fun _ _ _ => SHELL_CMD_AUTH E AUTH_G (
  print ("HVF version " +:+ version cp) [] ;;
  (let dt := ipltime cp in
   print "IPL at %02d:%02d:%02d UTC %04d-%02d-%02d" [th dt; tm dt; Clock.ts dt; dy dt; dm dt; dd dt]) ;; mret 0).
Definition cmd_query_time : handler := fun _ _ _ => SHELL_CMD_AUTH E AUTH_G (
  (let dt := now cp in
   print "TIME IS %02d:%02d:%02d UTC %04d-%02d-%02d" [th dt; tm dt; Clock.ts dt; dy dt; dm dt; dd dt]) ;; mret 0).
Definition cmd_query_archmode : handler := fun _ _ _ => SHELL_CMD_AUTH E AUTH_G (
  s ← vm;
  print "ARCHMODE = %s" [lit (if VCPU_ZARCH (Guest.cpu s) then "z/Arch" else "ESA390")] ;; mret 0).

(** [con->dev] must be there for a console *)
Definition display_vdev (d : virt_device) : shell unit :=
  s ← vm;
  match vtype d with
  | VDEV_CONS =>
      '(ty, n) ← try (defined (con_dev cp));
      print "CONS %04X 3215 ON %s %04X %s SCH = %05X"
        [getf pmcw_dev_num (pmcw d); lit (type2name ty); Val n; lit (if print_ts s then "TS" else "NOTS"); Guest.sch d]
  | VDEV_DED =>
      rdev ← try (match u d with Dedicate a => Ret a | _ => Undef end);
      real ← on_host (fun h => r ← Io.get_dev rdev h; Ret (r, h));
      print "%-4s %04X %04X ON DEV %04X SCH = %05X"
        [lit (type2name (devtype d)); getf pmcw_dev_num (pmcw d); devtype d; ccuu real; Guest.sch d]
  | VDEV_SPOOL =>
      print "%-4s %04X %04X SCH = %05X" [lit (type2name (devtype d)); getf pmcw_dev_num (pmcw d); devtype d; Guest.sch d]
  | VDEV_MDISK => print "DASD %04X 3390 %6d CYL ON DASD %04X SCH = %05X" [getf pmcw_dev_num (pmcw d); 0; 0; Guest.sch d]
  | VDEV_LINK => print "LINK %04X TO %s %04X SCH = %05X" [getf pmcw_dev_num (pmcw d); lit "????"; 0xffff; Guest.sch d]
  | VDEV_INVAL => print "???? unknown device type (%04X, %05X)" [getf pmcw_dev_num (pmcw d); Guest.sch d]
  end.

(** [f] for each of a list *)
Fixpoint for_each {A} (f : A -> shell unit) (l : list A) : shell unit :=
  match l with [] => mret tt | x :: l => f x ;; for_each f l end.

Definition cmd_query_virtual : handler := fun _ _ _ => SHELL_CMD_AUTH E AUTH_G (
  s ← vm;
  print "CPU 00  ID  %016llX %s" [cpuid (Guest.cpu s); lit (__guest_state_to_str (state (Guest.cpu s)))] ;;
  print "STORAGE = %lluM" [Z.shiftr (storage_size E) 20] ;;
  for_each display_vdev (virt_devs s) ;; mret 0).

Definition display_rdev (d : device) : shell unit :=
  buf ← try (match Io.dev d with
             | Some t => if dt_snprintf t
                         then '(_, b) ← bprintf (stack cp) 0 40 (replicate 40 0) (dasd_text d).1 [Val (dasd_text d).2];
                              Ret (buffer_text b)
                         else Ret []
             | None => Ret []
             end);
  print "%-4s %04X %04X %s%sSCH = %05X"
    [lit (type2name (Io.type d)); ccuu d; Io.type d; Str buf; lit (if Io.in_use d then "" else "FREE "); Io.sch d].

Definition __cmd_query_real_cpus : shell unit := print "CPU %02d  ID  %016llX RUNNING" [getcpuaddr cp; getcpuid cp].
Definition __cmd_query_real_stor : shell unit := print "STORAGE = %lluM" [Z.shiftr (memsize cp) 20].

Definition QUERY_CPUS : Z := 1.
Definition QUERY_STOR : Z := 2.
Definition QUERY_DEVS : Z := 4.
Definition QUERY_DEVNUM : Z := 8.

(** what to show, or an error *)
Definition query_what (m : memory) (cmd : option Z) (len : Z) : outcome (Z + Z) :=
  p ← defined cmd;
  n ← strnlen m p (u64 len);
  if n =? 0 then Ret (inr (flags_of [QUERY_CPUS; QUERY_STOR; QUERY_DEVS])) else
  all ← is_word m cmd "ALL";
  if (all : bool) then Ret (inr (flags_of [QUERY_CPUS; QUERY_STOR; QUERY_DEVS])) else
  cpus ← is_word m cmd "CPUS";
  if (cpus : bool) then Ret (inr QUERY_CPUS) else
  stor ← is_any m cmd ["STOR"; "STORA"; "STORAG"; "STORAGE"]%string;
  if (stor : bool) then Ret (inr QUERY_STOR) else
  r ← __extract_hex m cmd;
  Ret match r with
      | inl e => inl e
      | inr (_, devnum) => if Z.land devnum (u64 (Z.lnot 0xffff)) =? 0 then inr QUERY_DEVNUM else inl (- EINVAL)
      end.

Definition cmd_query_real : handler := fun m cmd len => SHELL_CMD_AUTH E AUTH_B (
  operand (query_what m cmd len) (fun what =>
    shown what QUERY_CPUS __cmd_query_real_cpus ;;
    shown what QUERY_STOR __cmd_query_real_stor ;;
    shown what QUERY_DEVS (ds ← on_host (fun h => list_devices (devices h) h); for_each display_rdev ds) ;;
    shown what QUERY_DEVNUM (print "not implemented" []) ;;
    mret 0)).

Definition display_task (t : list Z * Z * Z) : shell unit :=
  let '(name, a, st) := t in
  let state := if st =? TASK_RUNNING then 82 else if st =? TASK_SLEEPING then 83
               else if st =? TASK_LOCKED then 76 else if st =? TASK_ZOMBIE then 90 else 63 in
  print "%*s %p %c" [- TASK_NAME_LEN; Str name; a; state].

Definition cmd_query_task : handler := fun _ _ _ => SHELL_CMD_AUTH E AUTH_E (for_each display_task (tasks cp) ;; mret 0).

Definition display_names (x : option (Z * Z) * list Z) : shell unit :=
  '(ty, n) ← try (defined x.1);
  print "%s %04X %-8s" [lit (type2name ty); Val n; Str x.2].

Definition cmd_query_names : handler := fun _ _ _ =>
  SHELL_CMD_AUTH E AUTH_G (for_each display_names (online_users cp) ;; mret 0).
Definition cmd_query_userid : handler := fun _ _ _ => SHELL_CMD_AUTH E AUTH_G (print "%s" [Str (userid E)] ;; mret 0).

(** ** The tables *)

Definition SHELL_CMD_MAX_LEN : nat := 8.

Inductive cpcmd := Cpcmd (name : string) (fnx : option handler) (sub : option (list cpcmd)).

Definition cmd (s : string) (h : handler) : cpcmd := Cpcmd s (Some h) None.
Definition group (s : string) (t : list cpcmd) : cpcmd := Cpcmd s None (Some t).
Definition alias (f : string -> cpcmd) (l : list string) : list cpcmd := map f l.

Definition cmd_tbl_display : list cpcmd :=
  alias (fun s => cmd s (cmd_display_ar E)) ["AR"; "A"]%string ++
  alias (fun s => cmd s (cmd_display_cr E)) ["CR"; "C"]%string ++
  [cmd "FPCR" (cmd_display_fpcr E)] ++
  alias (fun s => cmd s (cmd_display_fpr E)) ["FPR"; "FP"; "F"]%string ++
  alias (fun s => cmd s (cmd_display_gpr E)) ["GPR"; "GP"; "G"]%string ++
  [cmd "PSW" (cmd_display_psw E); cmd "SCHIB" (cmd_display_schib E); cmd "SIECB" (cmd_display_siecb E cp)] ++
  alias (fun s => cmd s (cmd_display_storage E cp)) ["STORAGE"; "STORAG"; "STORA"; "STOR"; "STO"]%string.

Definition cmd_tbl_query : list cpcmd :=
  [cmd "ARCHMODE" cmd_query_archmode; cmd "CPLEVEL" cmd_query_cplevel; cmd "TIME" cmd_query_time] ++
  alias (fun s => cmd s cmd_query_virtual) ["VIRTUAL"; "VIRTUA"; "VIRTU"; "VIRT"; "VIR"; "VI"; "V"]%string ++
  alias (fun s => cmd s cmd_query_real) ["REAL"; "REA"; "RE"; "R"]%string ++
  alias (fun s => cmd s cmd_query_names) ["NAMES"; "NAME"; "NAM"]%string ++
  [cmd "TASK" cmd_query_task; cmd "USERID" cmd_query_userid].

Definition cmd_tbl_set : list cpcmd := [cmd "NOTS" (cmd_set_nots E); cmd "TS" (cmd_set_ts E)].

Definition cmd_tbl_store : list cpcmd :=
  alias (fun s => cmd s (cmd_store_ar E)) ["AR"; "A"]%string ++
  alias (fun s => cmd s (cmd_store_cr E)) ["CR"; "C"]%string ++
  [cmd "FPCR" (cmd_store_fpcr E)] ++
  alias (fun s => cmd s (cmd_store_fpr E)) ["FPR"; "FP"; "F"]%string ++
  alias (fun s => cmd s (cmd_store_gpr E)) ["GPR"; "GP"; "G"]%string ++
  [cmd "PSW" (cmd_store_psw E)] ++
  alias (fun s => cmd s (cmd_store_storage E)) ["STORAGE"; "STORAG"; "STORA"; "STOR"; "STO"]%string.

Definition commands : list cpcmd :=
  alias (fun s => cmd s (cmd_begin E)) ["BEGIN"; "BEGI"; "BEG"; "BE"]%string ++
  alias (fun s => group s cmd_tbl_display) ["DISPLAY"; "DISPLA"; "DISPL"; "DISP"; "DIS"; "DI"; "D"]%string ++
  alias (fun s => cmd s cmd_enable) ["ENABLE"; "ENABL"; "ENAB"; "ENA"]%string ++
  alias (fun s => cmd s (cmd_ipl E cp)) ["IPL"; "IP"; "I"]%string ++
  alias (fun s => cmd s cmd_logon_fail) ["LOGIN"; "LOGON"; "LOGO"; "LOGI"; "LOG"; "LO"; "L"]%string ++
  alias (fun s => group s cmd_tbl_query) ["QUERY"; "QUER"; "QUE"; "QU"; "Q"]%string ++
  [group "SET" cmd_tbl_set; cmd "STOP" (cmd_stop E)] ++
  alias (fun s => group s cmd_tbl_store) ["STORE"; "STOR"; "STO"]%string ++
  alias (fun s => cmd s (cmd_system E)) ["SYSTEM"; "SYSTE"; "SYST"; "SYS"]%string.

(** the bytes of an entry from its name on *)
Definition name_bytes (s : string) : list Z :=
  take SHELL_CMD_MAX_LEN (zs s ++ replicate SHELL_CMD_MAX_LEN 0) ++ fnx_addr cp.

(** the entry of a table with the word at [tok]; the names lie behind the memory *)
Fixpoint find_cmd (t : list cpcmd) (m : memory) (tok : Z) : outcome (option cpcmd) :=
  match t with
  | [] => Ret None
  | Cpcmd s f sub :: t =>
      r ← strcasecmp (m ++ name_bytes s) (lenZ m) tok;
      if r =? 0 then Ret (Some (Cpcmd s f sub)) else find_cmd t m tok
  end.

(** [cmd - orig], where a null pointer is 0 *)
Definition pointer (p : option Z) : Z := default 0 p.

(** [fuel] is the depth of the tables; the result is with the memory, taken apart *)
Fixpoint __invoke_shell_cmd (fuel : nat) (t : list cpcmd) (m : memory) (cmd : option Z) (len : Z) : shell (Z * memory) :=
  match fuel with
  | O => try Undef
  | S fuel =>
      let orig := cmd in
      '(tok, cmd, mlit) ← try (strmsep (m ++ [c_space; 0]) cmd (lenZ m));
      let m := take (length m) mlit in
      match tok with
      | None => mret (- ENOENT, m)
      | Some tok =>
          e ← try (find_cmd t m tok);
          match e with
          | None => mret (- ENOENT, m)
          | Some (Cpcmd _ fnx sub) =>
              let len := s32 (len - (pointer cmd - pointer orig)) in
              match sub with
              | None => f ← try (defined fnx); ret ← f m cmd len; mret (ret, m)
              | Some sub =>
                  '(ret, m) ← __invoke_shell_cmd fuel sub m cmd len;
                  mret (if ret =? - ENOENT then - ESUBENOENT else ret, m)
              end
          end
      end
  end.

Definition invoke_shell_cmd (m : memory) (cmd : Z) (len : Z) : shell (Z * memory) :=
  __invoke_shell_cmd 2 commands m (Some cmd) len.

(** ** The shell *)

(** [ret] is what reading a line gives, [line] the buffer at 0; the code has no read yet and sets [ret] to -1 *)
Definition process_cmd_line (ret : Z) (line : memory) : shell unit :=
  if ret =? -1 then mret tt else
  if ret =? 0 then print "CP" [] else
  line ← try (ebcdic2ascii line ret);
  '(ret, line) ← invoke_shell_cmd line 0 ret;
  if ret =? 0 then mret tt else
  if ret =? - ENOENT then s ← try (string_at (fuel_of line) line 0); print "Invalid CP command: %s" [Str s] else
  if ret =? - ESUBENOENT then s ← try (string_at (fuel_of line) line 0); print "Invalid CP sub-command: %s" [Str s] else
  if ret =? - EINVAL then print "Operand missing or invalid" [] else
  if ret =? - EPERM then print "Not authorized" [] else
  s ← try (errstrings ret); print "RC=%d (%s)" [Val ret; s].

Definition process_cmd : shell unit := process_cmd_line (-1) [].

(** before the loop *)
Definition shell_logon : shell unit :=
  let dt := now cp in
  print "LOGON FOR %s AT %02d:%02d:%02d UTC %04d-%02d-%02d"
    [Str (userid E); Val (th dt); Val (tm dt); Val (Clock.ts dt); Val (dy dt); Val (dm dt); Val (dd dt)].

(** the loop, once: [line] stands for [process_cmd] *)
Definition shell_step (line : shell unit) (sie_run : virt_sys -> virt_sys) (handle_interception : guest unit) : shell unit :=
  line ;; on_vm (shell_turn E sie_run handle_interception).

(** [n] times *)
Fixpoint shell_steps (n : nat) (line : shell unit) (sie_run : virt_sys -> virt_sys) (handle_interception : guest unit)
    : shell unit :=
  match n with
  | O => mret tt
  | S n => shell_step line sie_run handle_interception ;; shell_steps n line sie_run handle_interception
  end.

Definition shell_start (n : nat) (sie_run : virt_sys -> virt_sys) (handle_interception : guest unit) : shell unit :=
  shell_logon ;; shell_steps n process_cmd sie_run handle_interception.
End commands.

(** * Finding a command *)

Definition name (e : cpcmd) : string := match e with Cpcmd s _ _ => s end.

(** the first entry with a name, upper and lower case alike *)
Definition lookup_cmd (t : list cpcmd) (w : list Z) : option cpcmd :=
  head (filter (fun e => lower (zs (name e)) = lower w) t).

(** names that fit, possibly without a terminator *)
Definition fits (s : string) : Prop := (length (zs s) <= SHELL_CMD_MAX_LEN)%nat /\ 0 ∉ zs s.

Inductive all_cmds (P : cpcmd -> Prop) : cpcmd -> Prop :=
  | all_cmds_intro s f sub : P (Cpcmd s f sub) -> (forall t, sub = Some t -> Forall (all_cmds P) t) ->
      all_cmds P (Cpcmd s f sub).

Section dispatch.
Context (cp : cp_env).
Context (fnx0 : exists l, fnx_addr cp = 0 :: l).

(** the byte after a name of eight is the first of the function's address *)
Lemma name_cstr m s : fits s -> cstr (m ++ name_bytes cp s) (lenZ m) (zs s).
Proof.
  intros [Hl H0]. destruct fnx0 as [l Hl0]. split; [|done]. unfold name_bytes, SHELL_CMD_MAX_LEN in *. rewrite Hl0.
  destruct (decide (length (zs s) = 8%nat)) as [E|E].
  - rewrite take_app_le, take_ge by lia. change (0 :: l) with ([0] ++ l). rewrite (app_assoc (zs s)). apply bytes_at_behind.
  - rewrite take_app, take_ge by lia. replace (8 - length (zs s))%nat with (S (7 - length (zs s))) by lia.
    cbn [replicate take]. rewrite <- !app_assoc. cbn [app].
    match goal with |- context [0 :: ?r] => change (0 :: r) with ([0] ++ r) end. rewrite (app_assoc (zs s) [0]). apply bytes_at_behind.
Qed.

Lemma find_cmd_spec t m p w : Forall (fun e => fits (name e)) t -> cstr m p w -> find_cmd cp t m p = Ret (lookup_cmd t w).
Proof.
  intros Ht Hw. induction Ht as [|[s f sub] t Hs Ht IH]; [done|]. cbn [find_cmd name] in *.
  set (mm := m ++ name_bytes cp s). pose proof (name_cstr m s Hs) as Hn.
  destruct (strcasecmp_loop_spec (fuel_of mm) mm (lenZ m) p (zs s) w) as (r & E & Hr);
    [by eapply cstr_len|done|by apply cstr_extend|].
  unfold strcasecmp. fold mm. rewrite E. cbn [mbind outcome_bind]. unfold lookup_cmd. rewrite filter_cons. cbn [name].
  destruct (Z.eqb_spec r 0) as [E0|E0].
  - rewrite decide_True by (by apply Hr). done.
  - rewrite decide_False by (intros H%Hr; done). exact IH.
Qed.

(** a line: blanks, a word, and maybe a blank and the rest *)
Definition line_of (k : nat) (w : list Z) (tail : option (list Z)) : list Z :=
  replicate k c_space ++ w ++ match tail with Some r => c_space :: r | None => [] end.

(** where the rest is *)
Definition rest_at (p : Z) (k : nat) (w : list Z) (tail : option (list Z)) : option Z :=
  match tail with Some _ => Some (p + Z.of_nat k + lenZ w + 1) | None => None end.

Definition rest_in (m : memory) (q : option Z) (tail : option (list Z)) : Prop :=
  match tail, q with Some r, Some q => cstr m q r | None, None => True | _, _ => False end.

Lemma take_word m p k w tail : w <> [] -> c_space ∉ w -> lenZ m < 2 ^ 63 -> cstr m p (line_of k w tail) ->
  exists m', strmsep (m ++ [c_space; 0]) (Some p) (lenZ m) =
      Ret (Some (p + Z.of_nat k), rest_at p k w tail, m') /\
    let m1 := take (length m) m' in
    length m1 = length m /\ cstr m1 (p + Z.of_nat k) w /\ rest_in m1 (rest_at p k w tail) tail.
Proof.
  intros Hne Hw Hm Hl. set (mm := m ++ [c_space; 0]).
  assert (cstr mm (lenZ m) [c_space]) as Hset.
  { split; [|apply (bool_decide_unpack _); by vm_compute]. unfold mm. rewrite <- (app_nil_r [c_space; 0]). apply (bytes_at_behind m ([c_space] ++ [0]) []). }
  assert (span (mem_of [c_space]) (line_of k w tail) =
    (replicate k c_space, w ++ match tail with Some r => c_space :: r | None => [] end)) as Hs1.
  { unfold line_of. apply span_all; [by apply Forall_replicate|]. destruct w as [|c w]; [done|]. cbn [app].
    apply not_elem_of_cons in Hw as [Hc _]. unfold mem_of. cbn [existsb]. rewrite orb_false_r. lia. }
  assert (span (fun c => negb (mem_of [c_space] c)) (w ++ match tail with Some r => c_space :: r | None => [] end) =
    (w, match tail with Some r => c_space :: r | None => [] end)) as Hs2.
  { apply span_all; [|by destruct tail]. apply Forall_forall. intros c Hc. unfold mem_of. cbn [existsb]. rewrite orb_false_r.
    destruct (Z.eqb_spec c c_space); [by subst|done]. }
  pose proof (strmsep_out mm p (lenZ m) _ _ (cstr_extend _ [c_space; 0] _ _ Hl) Hset) as Ho.
  rewrite Hs1 in Ho. cbn [fst snd] in Ho. rewrite Hs2 in Ho. cbn [fst snd] in Ho. replace (lenZ (replicate k c_space)) with (Z.of_nat k) in Ho by (unfold lenZ; by rewrite length_replicate).
  specialize (Ho ltac:(unfold mm, lenZ in *; rewrite length_app; cbn; lia)).
  assert (0 <= p /\ p + lenZ (line_of k w tail) < lenZ m) as [Hp Hr].
  { destruct Hl as [Hl _]. apply bytes_at_range in Hl as [Hl|[H1 H2]]; [by destruct (line_of k w tail)|].
    rewrite lenZ_app in H2. change (lenZ [0]) with 1 in H2. lia. }
  unfold line_of in Hr. rewrite !lenZ_app in Hr.
  replace (lenZ (replicate k c_space)) with (Z.of_nat k) in Hr by (unfold lenZ; by rewrite length_replicate).
  destruct tail as [r|]; cbn [rest_at rest_in].
  - destruct Ho as (m' & E & H1 & H2 & H3). exists m'. split; [exact E|]. cbv zeta. rewrite lenZ_cons in Hr. pose proof (lenZ_nonneg w). pose proof (lenZ_nonneg r).
    assert (aget m' (lenZ m + 1) = Some 0) as Ha.
    { rewrite H3 by lia. unfold mm. rewrite aget_Some. split; [lia|]. unfold lenZ.
      replace (Z.to_nat _) with (length m + 1)%nat by lia. by rewrite lookup_app_r, Nat.add_comm, Nat.add_sub by lia. }
    apply aget_lt in Ha. split; [rewrite length_take; unfold lenZ in Ha; lia|].
    split; apply cstr_take; (done || unfold lenZ in *; lia).
  - destruct Ho as [E H1]. exists mm. split; [exact E|]. unfold mm. rewrite take_app_length.
    change (lenZ []) with 0 in Hr. split; [done|]. split; [|done].
    rewrite <- (take_app_length m [c_space; 0]). apply cstr_take; [exact H1|]. unfold lenZ in *. lia.
Qed.

Context (E : env).

(** [-ENOENT] of a sub-command *)
Definition sub_result (x : Z * memory) : Z * memory := (if x.1 =? - ENOENT then - ESUBENOENT else x.1, x.2).

(** what is done with the entry that is found *)
Definition run_entry (fuel : nat) (e : option cpcmd) (m : memory) (q : option Z) (len : Z) : shell (Z * memory) :=
  match e with
  | None => mret (- ENOENT, m)
  | Some (Cpcmd _ f sub) =>
      match sub with
      | Some sub => x ← __invoke_shell_cmd cp fuel sub m q len; mret (sub_result x)
      | None => h ← try (defined f); ret ← h m q len; mret (ret, m)
      end
  end.

(** the length that is left *)
Definition len_left (p len : Z) (q : option Z) : Z := s32 (len - (pointer q - p)).

Lemma invoke_step fuel t m p k w tail len s :
  Forall (fun e => fits (name e)) t -> w <> [] -> c_space ∉ w -> lenZ m < 2 ^ 63 -> cstr m p (line_of k w tail) ->
  exists m', let q := rest_at p k w tail in
    length m' = length m /\ cstr m' (p + Z.of_nat k) w /\ rest_in m' q tail /\
    __invoke_shell_cmd cp (S fuel) t m (Some p) len s = run_entry fuel (lookup_cmd t w) m' q (len_left p len q) s.
Proof.
  intros Ht Hne Hw Hm Hl. destruct (take_word m p k w tail Hne Hw Hm Hl) as (m' & E1 & Hlen & Hc & Hr).
  exists (take (length m) m'). cbv zeta. split; [done|]. split; [done|]. split; [done|]. cbn [__invoke_shell_cmd].
  rewrite (try_Ret _ _ _ _ E1). cbv beta iota zeta. rewrite (try_Ret _ _ _ _ (find_cmd_spec _ _ _ _ Ht Hc)).
  unfold run_entry. destruct (lookup_cmd t w) as [[nm f [sub|]]|]; try done.
  unfold mbind, shell_bind, outcome_bind. by destruct (__invoke_shell_cmd _ _ _ _ _ _ _) as [[[r m1] s1]| |].
Qed.
End dispatch.

#[local] Ltac fit := split; apply (bool_decide_unpack _); reflexivity.
#[local] Ltac fits_all := repeat (apply Forall_cons_2; [fit|]); apply Forall_nil_2.

Lemma commands_fit E cp : Forall (fun e => fits (name e)) (commands E cp).
Proof. unfold commands, alias. cbn [map app]. fits_all. Qed.

Lemma tables_fit E cp : Forall (fun t => Forall (fun e => fits (name e)) t)
  [cmd_tbl_display E cp; cmd_tbl_query E cp; cmd_tbl_set E; cmd_tbl_store E].
Proof.
  repeat (apply Forall_cons_2; [unfold cmd_tbl_display, cmd_tbl_query, cmd_tbl_set, cmd_tbl_store, alias; cbn [map app]; fits_all|]).
  apply Forall_nil_2.
Qed.

Lemma subtables E cp w s f sub : lookup_cmd (commands E cp) w = Some (Cpcmd s f (Some sub)) ->
  sub ∈ [cmd_tbl_display E cp; cmd_tbl_query E cp; cmd_tbl_set E; cmd_tbl_store E].
Proof.
  intros H. assert (Cpcmd s f (Some sub) ∈ commands E cp) as Hin.
  { unfold lookup_cmd in H. apply head_Some in H as [l H].
    assert (Cpcmd s f (Some sub) ∈ filter (fun e => lower (zs (name e)) = lower w) (commands E cp)) as Hf by (rewrite H; left).
    by apply list_elem_of_filter in Hf as [_ Hf]. }
  clear H. unfold commands, alias in Hin. cbn [map app] in Hin.
  repeat (apply elem_of_cons in Hin as [Hin|Hin]; [unfold cmd, group in Hin; simplify_eq; rewrite !elem_of_cons; tauto|]). by apply not_elem_of_nil in Hin.
Qed.

Lemma invoke_nothing cp fuel t m len s : __invoke_shell_cmd cp (S fuel) t m None len s = Ret ((- ENOENT, m), s).
Proof.
  cbn [__invoke_shell_cmd]. rewrite (try_Ret _ (None, None, m ++ [c_space; 0])) by done. cbv beta iota zeta.
  by rewrite take_app_length.
Qed.

Lemma run_handler cp fuel nm h m q len st :
  run_entry cp fuel (Some (cmd nm h)) m q len st = ('(r, st) ← h m q len st; Ret ((r, m), st)).
Proof. done. Qed.

(** C24: A command line runs the entry its first word names, whatever the case of
    the letters: an unknown word is -ENOENT and changes nothing.  For a table of
    sub-commands the second word chooses, and nothing or an unknown word is
    -ESUBENOENT.  The handler gets the terminated rest of the line behind the word,
    or no operand.  (A name of eight letters is found because the next byte is the
    first of an address below 2^56.) *)
Theorem command_dispatched (E : env) (cp : cp_env) m p k w tail len s
    (Hfnx : exists l, fnx_addr cp = 0 :: l)
    (Hw : w <> [] /\ c_space ∉ w) (Hm : lenZ m < 2 ^ 63) (Hline : cstr m p (line_of k w tail)) :
  exists m', let q := rest_at p k w tail in let left := len_left p len q in
  rest_in m' q tail /\
  invoke_shell_cmd E cp m p len s = run_entry cp 1 (lookup_cmd (commands E cp) w) m' q left s /\
  forall nm f sub, lookup_cmd (commands E cp) w = Some (Cpcmd nm f (Some sub)) ->
    (tail = None -> invoke_shell_cmd E cp m p len s = Ret ((- ESUBENOENT, m'), s)) /\
    (forall r k2 w2 tail2, q = Some r -> tail = Some (line_of k2 w2 tail2) -> w2 <> [] -> c_space ∉ w2 ->
      exists m2, let q2 := rest_at r k2 w2 tail2 in
      rest_in m2 q2 tail2 /\
      invoke_shell_cmd E cp m p len s =
        (x ← run_entry cp 0 (lookup_cmd sub w2) m2 q2 (len_left r left q2); mret (sub_result x)) s).
Proof.
  destruct Hw as [Hne Hsp]. unfold invoke_shell_cmd.
  destruct (invoke_step cp Hfnx 1 (commands E cp) m p k w tail len s (commands_fit E cp) Hne Hsp Hm Hline)
    as (m' & Hlen & Hc & Hr & Hrun). exists m'. cbv zeta in *. rewrite Hrun. split; [done|]. split; [done|].
  intros nm f sub Hsub. rewrite Hsub. cbn [run_entry]. split.
  - intros ->. cbn [rest_at]. unfold mbind, shell_bind. rewrite invoke_nothing. done.
  - intros r k2 w2 tail2 Hq -> Hne2 Hsp2. rewrite Hq in *. cbn [rest_in] in Hr.
    assert (Forall (fun e => fits (name e)) sub) as Hfit.
    { pose proof (tables_fit E cp) as Ht. rewrite Forall_forall in Ht. by eapply Ht, subtables. }
    destruct (invoke_step cp Hfnx 0 sub m' r k2 w2 tail2 (len_left p len (Some r)) s Hfit Hne2 Hsp2) as (m2 & _ & _ & Hr2 & Hrun2);
      [unfold lenZ in *; lia|done|].
    exists m2. split; [done|]. unfold mbind, shell_bind. by rewrite Hrun2.
Qed.

Definition sample_cp : cp_env :=
  Cp "0.16" (Datetime 2011 5 4 12 34 56 0) (Datetime 2011 5 4 12 35 0 0) 0 0 0x10000000 (Some (0x3215, 9)) [] [] 0x8000 (zeros 512)
    0x9000 0xa000 (replicate 8 0) (fun _ h => Ret (inl (- EINVAL), h)) (fun _ _ => mret 0).

(** "sto gpr 3 000000000000A003" *)
Lemma command_dispatched_witness :
  let s := sample_sys (zeros 16) in
  exists m', invoke_shell_cmd sample_env sample_cp (zs " sto gpr 3 000000000000A003" ++ [0]) 0 27 (s, sample_host) =
    Ret ((0, m'), (gpr_stored 3 0xA003 s, sample_host)).
Proof.
  intros s.
  destruct (command_dispatched sample_env sample_cp (zs " sto gpr 3 000000000000A003" ++ [0]) 0 1 (zs "sto")
    (Some (zs "gpr 3 000000000000A003")) 27 (s, sample_host)) as (m' & _ & _ & H).
  - by exists (replicate 7 0).
  - by apply (bool_decide_unpack _).
  - by vm_compute.
  - split; [by vm_compute|]. by apply (bool_decide_unpack _).
  - destruct (H "STO"%string None (cmd_tbl_store sample_env) eq_refl) as [_ H2].
    destruct (H2 5 0%nat (zs "gpr") (Some (zs "3 000000000000A003")) eq_refl eq_refl) as (m2 & Hr & E);
      [by apply (bool_decide_unpack _)..|].
    exists m2. rewrite E. cbn [rest_in rest_at] in Hr.
    change (lookup_cmd (cmd_tbl_store sample_env) (zs "gpr")) with (Some (cmd "GPR" (cmd_store_gpr sample_env))).
    unfold mbind at 1, shell_bind at 1. rewrite run_handler.
    cbn [rest_at]. rewrite (store_gpr_run sample_env m2 _ 3 0xA003) by (first [done|lia|exact Hr]). done.
Defined.

(** * Privileges *)

(** the parts of a machine, its console's output left aside *)
Definition machine (s : virt_sys) := (Guest.cpu s, print_ts s, guest_pages s, virt_devs s, storage s).

Definition same_machine (s s' : virt_sys * host) : Prop := machine s'.1 = machine s.1.
Definition same_host (s s' : virt_sys * host) : Prop := s'.2 = s.2.

#[global] Instance same_machine_preorder : PreOrder same_machine.
Proof. split; [done|]. unfold same_machine. intros ? ? ? H1 H2. congruence. Qed.

#[global] Instance same_host_preorder : PreOrder same_host.
Proof. split; [done|]. unfold same_host. intros ? ? ? H1 H2. congruence. Qed.

Section keeps.
Context (R : relation (virt_sys * host)) `{!PreOrder R}.
Context (R_log : forall e v h, R (v, h) (log e v, h)).

(** whatever it returns, the state is related to the one before *)
Definition keeps {A} (p : shell A) : Prop := forall s a s', p s = Ret (a, s') -> R s s'.

Lemma keeps_ret {A} (a : A) : keeps (mret a).
Proof. intros s a' s' [= _ <-]. reflexivity. Qed.

Lemma keeps_bind {A B} (p : shell A) (f : A -> shell B) : keeps p -> (forall a, keeps (f a)) -> keeps (p ≫= f).
Proof.
  intros Hp Hf s b s' H. apply bind_Ret in H as ([a s1] & H1 & H2). etransitivity; [by eapply Hp|by eapply Hf].
Qed.

Lemma keeps_try {A} (x : outcome A) : keeps (try x).
Proof. intros s a s' H. apply bind_Ret in H as (a1 & _ & [= _ <-]). reflexivity. Qed.

Lemma keeps_print f l : keeps (print f l).
Proof. intros [v h] a s' [= _ <-]. apply R_log. Qed.

Lemma keeps_vm : keeps vm.
Proof. intros [v h] a s' [= _ <-]. reflexivity. Qed.

Lemma keeps_for_each {A} (f : A -> shell unit) l : (forall x, keeps (f x)) -> keeps (for_each f l).
Proof. intros Hf. induction l as [|x l IH]; [apply keeps_ret|]. by apply keeps_bind. Qed.

Lemma keeps_auth E a h : (Z.land (auth E) a <> 0 -> keeps h) -> keeps (SHELL_CMD_AUTH E a h).
Proof.
  intros H. unfold SHELL_CMD_AUTH. destruct (Z.eqb_spec (Z.land (auth E) a) 0); [apply keeps_ret|by apply H].
Qed.
End keeps.

Lemma machine_on_host {A} (f : host -> outcome (A * host)) : keeps same_machine (on_host f).
Proof. intros [v h] a s' H. apply bind_Ret in H as ([a1 h1] & _ & [= _ <-]). done. Qed.

Lemma host_on_vm {A} (f : guest A) : keeps same_host (on_vm f).
Proof. intros [v h] a s' H. apply bind_Ret in H as ([a1 v1] & _ & [= _ <-]). done. Qed.

Lemma machine_log e v h : same_machine (v, h) (log e v, h).
Proof. done. Qed.

Lemma host_log e v h : same_host (v, h) (log e v, h).
Proof. done. Qed.

Create HintDb keep discriminated.
#[local] Hint Resolve machine_on_host host_on_vm machine_log host_log : keep.

#[local] Ltac head_of t := lazymatch t with ?f _ => head_of f | _ => t end.

(** a handler, by the structure of its text *)
#[local] Ltac keeping :=
  repeat (cbv beta zeta; lazymatch goal with
    | |- keeps _ (mret _) => apply keeps_ret; exact _
    | |- keeps _ (mbind _ _) => apply keeps_bind; [exact _| |intros ?]
    | |- keeps _ (try _) => apply keeps_try; exact _
    | |- keeps _ (print _ _) => apply keeps_print; solve [eauto with keep]
    | |- keeps _ vm => apply keeps_vm; exact _
    | |- keeps _ (SHELL_CMD_AUTH _ _ _) => apply keeps_auth; [exact _|intros ?]
    | |- keeps _ (for_each _ _) => apply keeps_for_each; [exact _|intros ?]
    | |- keeps _ (match ?x with _ => _ end) => destruct x
    | |- keeps _ ?p => first [solve [eauto with keep] | let h := head_of p in progress unfold h]
    end).

(** the entries of a table, one after the other *)
#[local] Ltac each_entry tac :=
  unfold alias; cbn [map app];
  repeat (apply Forall_cons_2; [apply all_cmds_intro; [hnf; tac|intros ? [=]; subst]|]);
  try apply Forall_nil_2.

(** ** Without class G the machine stays as it is *)

Section machine.
Context (E : env) (cp : cp_env).

Definition handler_keeps (R : relation (virt_sys * host)) (h : handler) : Prop := forall m cmd len, keeps R (h m cmd len).

Lemma enable_machine : handler_keeps same_machine (cmd_enable E cp).
Proof. intros m c l. unfold cmd_enable. keeping. Qed.

Lemma query_real_machine : handler_keeps same_machine (cmd_query_real E cp).
Proof. intros m c l. unfold cmd_query_real, shown, __cmd_query_real_cpus, __cmd_query_real_stor, display_rdev. keeping. Qed.

Lemma query_task_machine : handler_keeps same_machine (cmd_query_task E cp).
Proof. intros m c l. unfold cmd_query_task, display_task. keeping. Qed.

Lemma siecb_machine : handler_keeps same_machine (cmd_display_siecb E cp).
Proof.
  intros m c l. unfold cmd_display_siecb. assert (forall n i b, keeps same_machine (siecb_lines n i b)) as Hl.
  { induction n as [|n IH]; intros i b; cbn [siecb_lines]; keeping. }
  keeping.
Qed.

(** every handler of the tables *)
Definition entry_keeps (R : relation (virt_sys * host)) (e : cpcmd) : Prop :=
  match e with Cpcmd _ (Some h) _ => handler_keeps R h | _ => True end.

Lemma invoke_keeps R `{!PreOrder R} fuel t m c len :
  Forall (all_cmds (entry_keeps R)) t -> keeps R (__invoke_shell_cmd cp fuel t m c len).
Proof.
  revert t m c len. induction fuel as [|fuel IH]; intros t m c len Ht; cbn [__invoke_shell_cmd]; [by apply keeps_try|].
  apply keeps_bind; [exact _|by apply keeps_try|]. intros [[tok c'] mlit]. destruct tok as [tok|]; [|by apply keeps_ret].
  intros s a s' H. apply bind_Ret in H as ([e s1] & H1 & H2). apply bind_Ret in H1 as (e' & H1 & [= <- <-]).
  destruct e' as [[nm f sub]|]; [|by eapply keeps_ret in H2].
  assert (all_cmds (entry_keeps R) (Cpcmd nm f sub)) as He.
  { rewrite Forall_forall in Ht. apply Ht. clear -H1. revert H1. induction t as [|[nm' f' sub'] t IHt]; [done|]. cbn [find_cmd].
    intros H. apply bind_Ret in H as (r & _ & H). destruct (r =? 0); [injection H as <- <- <-; left|right; by apply IHt]. }
  inversion He as [nm1 f1 sub1 Hh Hsub]; subst. destruct sub as [sub|].
  - revert H2. apply keeps_bind; [exact _|by apply IH, Hsub|]. intros [r m1]. by apply keeps_ret.
  - destruct f as [h|]; [|done]. assert (keeps R (ret ← h (take (length m) mlit) c'
      (s32 (len - (pointer c' - pointer c))); mret (ret, take (length m) mlit))) as Hk.
    { apply keeps_bind; [exact _|apply Hh|]. intros r. by apply keeps_ret. }
    exact (Hk _ _ _ H2).
Qed.

Section without_G.
Context (no_G : Z.land (auth E) AUTH_G = 0).

Lemma denied_machine h : handler_keeps same_machine (fun m c l => SHELL_CMD_AUTH E AUTH_G (h m c l)).
Proof. intros m c l. by apply keeps_auth; [exact _|]. Qed.

#[local] Ltac one := first
  [ exact enable_machine | exact query_real_machine | exact query_task_machine | exact siecb_machine
  | intros ? ? ?; apply (keeps_auth same_machine E AUTH_G); intros ?; done
  | intros ? ? ?; unfold cmd_logon_fail; keeping ].

Lemma commands_machine : Forall (all_cmds (entry_keeps same_machine)) (commands E cp).
Proof.
  assert (Forall (all_cmds (entry_keeps same_machine)) (cmd_tbl_display E cp)) as H1 by (unfold cmd_tbl_display; each_entry one).
  assert (Forall (all_cmds (entry_keeps same_machine)) (cmd_tbl_query E cp)) as H2 by (unfold cmd_tbl_query; each_entry one).
  assert (Forall (all_cmds (entry_keeps same_machine)) (cmd_tbl_set E)) as H3 by (unfold cmd_tbl_set; each_entry one).
  assert (Forall (all_cmds (entry_keeps same_machine)) (cmd_tbl_store E)) as H4 by (unfold cmd_tbl_store; each_entry one).
  unfold commands. each_entry ltac:(first [done | one]); done.
Qed.
End without_G.
End machine.

(** ** Without the classes A and B the real devices stay as they are *)

Section devices.
Context (E : env) (cp : cp_env).

Lemma host_pair_lines fmts l : keeps same_host (pair_lines fmts l).
Proof. revert l. induction fmts as [|f fmts IH]; intros [|a [|b l]]; cbn [pair_lines]; keeping. Qed.

Lemma host_siecb_lines n i b : keeps same_host (siecb_lines n i b).
Proof. revert i. induction n as [|n IH]; intros i; cbn [siecb_lines]; keeping. Qed.

Lemma host_schib_loop devs all n : keeps same_host (schib_loop devs all n).
Proof. revert all. induction devs as [|d devs IH]; intros all; cbn [schib_loop]; keeping. Qed.

Lemma host_numeric_lines fuel l a b : keeps same_host (numeric_lines E cp fuel l a b).
Proof. revert l a b. induction fuel as [|fuel IH]; intros l a b; cbn [numeric_lines]; keeping. Qed.

Lemma host_instruct_lines fuel a e b : keeps same_host (instruct_lines cp fuel a e b).
Proof. revert a b. induction fuel as [|fuel IH]; intros a b; cbn [instruct_lines]; keeping. Qed.

Lemma host_get_dev a : keeps same_host (on_host (fun h => r ← Io.get_dev a h; Ret (r, h))).
Proof.
  intros [v h] r s' H. apply bind_Ret in H as ([r1 h1] & H & [= _ <-]). by apply bind_Ret in H as (r2 & _ & [= _ <-]).
Qed.

#[local] Hint Resolve host_pair_lines host_siecb_lines host_schib_loop host_numeric_lines host_instruct_lines host_get_dev : keep.

Context (no_A : Z.land (auth E) AUTH_A = 0) (no_B : Z.land (auth E) AUTH_B = 0).

#[local] Ltac one := first
  [ intros ? ? ?; apply (keeps_auth same_host E AUTH_A); intros ?; done
  | intros ? ? ?; apply (keeps_auth same_host E AUTH_B); intros ?; done
  | intros ? ? ?; keeping ].

Lemma commands_host : Forall (all_cmds (entry_keeps same_host)) (commands E cp).
Proof.
  assert (Forall (all_cmds (entry_keeps same_host)) (cmd_tbl_display E cp)) as H1 by (unfold cmd_tbl_display; each_entry one).
  assert (Forall (all_cmds (entry_keeps same_host)) (cmd_tbl_query E cp)) as H2 by (unfold cmd_tbl_query; each_entry one).
  assert (Forall (all_cmds (entry_keeps same_host)) (cmd_tbl_set E)) as H3 by (unfold cmd_tbl_set; each_entry one).
  assert (Forall (all_cmds (entry_keeps same_host)) (cmd_tbl_store E)) as H4 by (unfold cmd_tbl_store; each_entry one).
  unfold commands. each_entry ltac:(first [done | one]); done.
Qed.
End devices.

(** C25: The privilege classes hold: whatever a user without class G types, the
    virtual machine stays as it is, except for the messages on its console; and
    whatever a user without the classes A and B types, the real devices, their
    references included, stay as they are. *)
Theorem privileges_hold (E : env) (cp : cp_env) (m m' : memory) (p len ret : Z) (s s' : virt_sys * host)
    (Hrun : invoke_shell_cmd E cp m p len s = Ret ((ret, m'), s')) :
  (Z.land (auth E) AUTH_G = 0 -> machine s'.1 = machine s.1) /\
  (Z.land (auth E) AUTH_A = 0 -> Z.land (auth E) AUTH_B = 0 -> s'.2 = s.2).
Proof.
  split.
  - intros HG. exact (invoke_keeps cp same_machine 2 _ _ _ _ (commands_machine E cp HG) _ _ _ Hrun).
  - intros HA HB. exact (invoke_keeps cp same_host 2 _ _ _ _ (commands_host E cp HA HB) _ _ _ Hrun).
Qed.

Definition no_class_env : env := Env (fun a => Some a) 0x100000 (zs "GUEST") 0 true None [] 0 [].

(** STORE GPR without class G *)
Lemma privileges_hold_witness :
  exists m' s', invoke_shell_cmd no_class_env sample_cp (zs "STORE GPR 3 A" ++ [0]) 0 13 (sample_sys (zeros 16), sample_host) =
    Ret ((- EPERM, m'), s') /\ machine s'.1 = machine (sample_sys (zeros 16)).
Proof.
  destruct (invoke_shell_cmd no_class_env sample_cp (zs "STORE GPR 3 A" ++ [0]) 0 13 (sample_sys (zeros 16), sample_host))
    as [[[r m'] s']| |] eqn:H; [|by vm_compute in H..].
  exists m', s'. pose proof (proj1 (privileges_hold _ _ _ _ _ _ _ _ _ H) eq_refl) as HM.
  split; [|exact HM]. f_equal. f_equal. f_equal. vm_compute in H. by injection H as <-.
Defined.
