(* ===== verification/Ipl.v ===== *)
(** cp/guest/ipl.c: the IPL of a named saved system, an ELF file on the system
    minidisk that is copied into the storage of a virtual machine.

    The parts involved are the file system (Edf.v), the virtual machine and its
    resets (Guest.v), the copies to guest storage (Dat.v) and control register 1,
    which holds the address space the copies go to.  What LRAG answers under an
    address space is a parameter.  A failure is an error code; [catch] is the
    jump to a label at the end of [guest_ipl_nss].  The theorem: the IPL of a
    well-formed file leaves its segments in storage that is zero otherwise, the
    CPU stopped at the entry point, and the host's address space as it was. *)

From S2P Require Import Prelude CString Charset Edf Buddy Dat Layout Guest.

Local Open Scope Z_scope.

Definition EIO : Z := 12.

(** * ELF files (include/binfmt_elf.h) *)

Definition EI_MAG0 : Z := 0.
Definition EI_MAG1 : Z := 1.
Definition EI_MAG2 : Z := 2.
Definition EI_MAG3 : Z := 3.
Definition EI_CLASS : Z := 4.
Definition EI_DATA : Z := 5.
Definition EI_VERSION : Z := 6.

Definition ELFMAG0 : Z := 0x7f.
Definition ELFMAG1 : Z := 69.
Definition ELFMAG2 : Z := 76.
Definition ELFMAG3 : Z := 70.
Definition ELFCLASS32 : Z := 1.
Definition ELFCLASS64 : Z := 2.
Definition ELFDATA2MSB : Z := 2.
Definition EV_CURRENT : Z := 1.
Definition ET_EXEC : Z := 2.
Definition EM_S390 : Z := 22.
Definition PT_LOAD : Z := 1.

(** a member of [n] bytes at [off], undefined outside the bytes *)
Definition member (b : list Z) (off n : Z) : outcome Z := v ← defined (aslice b off n); Ret (be_val v).

Definition e_ident (hdr : list Z) (i : Z) : outcome Z := member hdr i 1.
Definition e_type (hdr : list Z) : outcome Z := member hdr 16 2.
Definition e_machine (hdr : list Z) : outcome Z := member hdr 18 2.

(** the members whose place depends on the class: true for 31 bits *)
Definition e_entry (fmt : bool) (hdr : list Z) : outcome Z := if fmt then member hdr 24 4 else member hdr 24 8.
Definition e_phoff (fmt : bool) (hdr : list Z) : outcome Z := if fmt then member hdr 28 4 else member hdr 32 8.
Definition e_phentsize (fmt : bool) (hdr : list Z) : outcome Z := if fmt then member hdr 42 2 else member hdr 54 2.
Definition e_phnum (fmt : bool) (hdr : list Z) : outcome Z := if fmt then member hdr 44 2 else member hdr 56 2.

Definition p_type (fmt : bool) (phdr : list Z) : outcome Z := member phdr 0 4.
Definition p_offset (fmt : bool) (phdr : list Z) : outcome Z := if fmt then member phdr 4 4 else member phdr 8 8.
Definition p_vaddr (fmt : bool) (phdr : list Z) : outcome Z := if fmt then member phdr 8 4 else member phdr 16 8.
Definition p_filesz (fmt : bool) (phdr : list Z) : outcome Z := if fmt then member phdr 16 4 else member phdr 32 8.
Definition p_memsz (fmt : bool) (phdr : list Z) : outcome Z := if fmt then member phdr 20 4 else member phdr 40 8.
Definition p_align (fmt : bool) (phdr : list Z) : outcome Z := if fmt then member phdr 28 4 else member phdr 48 8.

(** * State *)

Record ipl := Ipl {
  sys : virt_sys;
  sysfs : disk;    (* the files of the system minidisk *)
  cr1 : Z;
}.

(** an operation gives an error code or a value *)
Definition load (A : Type) : Type := ipl -> outcome ((Z + A) * ipl).

#[global] Instance load_ret : MRet load := fun A a s => Ret (inr a, s).
#[global] Instance load_bind : MBind load := fun A B f m s =>
  '(r, s) ← m s; match r with inl e => Ret (inl e, s) | inr a => f a s end.

Definition fail {A} (e : Z) : load A := fun s => Ret (inl e, s).
Definition pure {A} (m : outcome A) : load A := fun s => a ← m; Ret (inr a, s).
Definition on_sys {A} (m : guest A) : load A := fun s => '(a, v) ← m (sys s); Ret (inr a, Ipl v (sysfs s) (cr1 s)).
Definition on_disk {A} (m : io A) : load A := fun s => '(r, d) ← m (sysfs s); Ret (r, Ipl (sys s) d (cr1 s)).

(** [if (IS_ERR(...)) goto label], the label giving the code for the error *)
Definition catch {A} (m : load A) (code : Z -> Z) : load A := fun s =>
  '(r, s) ← m s; Ret (match r with inl e => inl (code e) | inr a => inr a end, s).

Definition store_pasce : load Z := fun s => Ret (inr (cr1 s), s).
Definition load_pasce (pasce : Z) : load unit := fun s =>
  Ret (inr tt, if pasce =? 0 then s else Ipl (sys s) (sysfs s) pasce).

Definition DAT_TD_DT_ST : Z := 0.

(** the members of [struct dat_td] that are not zero *)
Definition dat_td (origin dt tl : Z) : Z := Z.lor (Z.shiftl (wrap 52 origin) 12) (Z.lor (Z.shiftl dt 2) tl).

Definition load_as (a : address_space) : load unit := fun s =>
  if segment_table a =? 0 then Stopped
  else Ret (inr tt, Ipl (sys s) (sysfs s) (dat_td (Z.shiftr (segment_table a) 12) DAT_TD_DT_ST 3)).

Section ipl.
Context (bdev_read_block : Z -> Z + list Z) (mem_ok : nat -> bool) (fs : fs).
Context (virt2phy : Z -> Z -> option Z).  (* LRAG: control register 1, address *)
Context (as_ : address_space).            (* sys->as *)

Definition DBSIZ : Z := ADT_DBSIZ (ADT fs).

Definition read_nss (file blk : Z) : load (list Z) := on_disk (bread bdev_read_block mem_ok (ADT fs) file 0 blk).

(** [glen = len; memcpy_to_guest(gaddr, data, &glen)] with its two tests *)
Definition to_guest (gaddr : Z) (data : list Z) (len : Z) : load unit := fun s =>
  '(ret, glen, m, _) ← __memcpy_tofrom_guest (virt2phy (cr1 s)) gaddr (storage (sys s)) data len false;
  let s := Ipl (set_storage m (sys s)) (sysfs s) (cr1 s) in
  if negb (ret =? 0) then Ret (inl ret, s) else
  bug_on (negb (glen =? len)) ;; Ret (inr tt, s).

(** what is left is the address and the length after the bytes of the file *)
Fixpoint copy_file (fuel : nat) (nss foff fslen gaddr memlen : Z) : load (Z * Z) :=
  match fuel with
  | O => fun _ => Undef
  | S fuel =>
      if fslen =? 0 then mret (gaddr, memlen) else
      let blk := u32 (foff / DBSIZ) in
      let off := u32 (foff mod DBSIZ) in
      let len := u32 (Z.min (u32 (DBSIZ - off)) fslen) in
      buf ← read_nss nss blk;
      to_guest gaddr (drop (Z.to_nat off) buf) len ;;
      copy_file fuel nss (u64 (foff + len)) (u64 (fslen - len)) (u64 (gaddr + len)) (u64 (memlen - len))
  end.

Definition zeropage : list Z := zeros 4096.

Fixpoint clear_rest (fuel : nat) (gaddr memlen : Z) : load unit :=
  match fuel with
  | O => fun _ => Undef
  | S fuel =>
      if memlen =? 0 then mret tt else
      let len := Z.min PAGE_SIZE memlen in
      to_guest gaddr zeropage len ;;
      clear_rest fuel (u64 (gaddr + len)) (u64 (memlen - len))
  end.

(** each turn but the first and the last takes a whole block or page *)
Definition __copy_segment (nss foff fslen gaddr memlen : Z) : load unit :=
  '(gaddr, memlen) ← copy_file (Z.to_nat (fslen / DBSIZ) + 3) nss foff fslen gaddr memlen;
  clear_rest (Z.to_nat (memlen / PAGE_SIZE) + 2) gaddr memlen.

(** the block of a program header; the test that should find a failed read
    looks at [file], so the header is read through the error code *)
Definition read_phdr (file blk : Z) : load (list Z) := fun s =>
  '(r, s) ← read_nss file blk s; match r with inl _ => Undef | inr d => Ret (inr d, s) end.

Definition load_phdr (fmt : bool) (file : Z) (phdr : list Z) : load unit :=
  t ← pure (p_type fmt phdr);
  if negb (t =? PT_LOAD) then mret tt else
  align ← pure (p_align fmt phdr);
  if negb (align =? PAGE_SIZE) then fail (- ECORRUPT) else
  foff ← pure (p_offset fmt phdr);
  fslen ← pure (p_filesz fmt phdr);
  gaddr ← pure (p_vaddr fmt phdr);
  memlen ← pure (p_memsz fmt phdr);
  catch (__copy_segment file foff fslen gaddr memlen) (fun _ => - ECORRUPT).

(** the headers [i], [i + 1], ... *)
Fixpoint LOAD_LOOP (fmt : bool) (file : Z) (hdr : list Z) (i : Z) (n : nat) : load unit :=
  match n with
  | O => mret tt
  | S n =>
      phoff ← pure (e_phoff fmt hdr);
      phentsize ← pure (e_phentsize fmt hdr);
      let foff := (if fmt then u32 else u64) (phoff + s32 (phentsize * i)) in
      let blk := u32 (foff / DBSIZ) in
      let off := u32 (foff mod DBSIZ) in
      pure (bug_on (u32 (DBSIZ - off) <? phentsize)) ;;
      buf ← read_phdr file blk;
      load_phdr fmt file (drop (Z.to_nat off) buf) ;;
      LOAD_LOOP fmt file hdr (i + 1) n
  end.

(** is this a header for this machine *)
Definition check_hdr (hdr : list Z) : outcome bool :=
  m0 ← e_ident hdr EI_MAG0; m1 ← e_ident hdr EI_MAG1; m2 ← e_ident hdr EI_MAG2; m3 ← e_ident hdr EI_MAG3;
  data ← e_ident hdr EI_DATA;
  version ← e_ident hdr EI_VERSION;
  type ← e_type hdr;
  machine ← e_machine hdr;
  Ret ((m0 =? ELFMAG0) && (m1 =? ELFMAG1) && (m2 =? ELFMAG2) && (m3 =? ELFMAG3) && (data =? ELFDATA2MSB) &&
       (version =? EV_CURRENT) && (type =? ET_EXEC) && (machine =? EM_S390)).

(** [gpsw] and the CPU flags of the loaded system *)
Definition start_at (fmt : bool) (entry : Z) (c : sie_cb) : sie_cb :=
  let psw := setf psw_ba 1 (setf psw_fmt (if fmt then 1 else 0) (zeros psw_size)) in
  if fmt then set_gpsw (setf psw_ptr31 entry psw) c
  else set_gpsw (setf psw_ptr entry (setf psw_ea 1 psw)) (set_cpuflags CPUSTAT_ZARCH c).

(** the name padded with blanks to eight characters, in upper case *)
Definition munge_name (m : memory) (nssname len : Z) : outcome (list Z) :=
  fn ← defined (aslice m nssname 8);
  fn ← (if len <? 8 then defined (ablit fn len (replicate (Z.to_nat (8 - len)) 32)) else Ret fn);
  ascii2upper fn 8.

Definition NSS_FILE_TYPE : list Z := zs "NSS     ".

(** the system is found, and its header *)
Definition find_nss (m : memory) (nssname : Z) : load (Z * list Z) :=
  len ← pure (strnlen m nssname 9);
  if 8 <? len then fail (- ENOENT) else
  fn ← pure (munge_name m nssname len);
  file ← catch (on_disk (edf_lookup bdev_read_block mem_ok fs fn NSS_FILE_TYPE))
               (fun e => if e =? - ENOENT then - ENOENT else - EIO);
  f ← on_disk (get_file file);
  pure (bug_on (negb ((FST_LRECL (FST f) =? PAGE_SIZE) && (FST_RECFM (FST f) =? FSTDFIX)))) ;;
  hdr ← catch (read_nss file 0) (fun _ => - EIO);
  mret (file, hdr).

(** the address space of the guest is current while it is loaded *)
Definition load_nss (fmt : bool) (file : Z) (hdr : list Z) : load unit :=
  on_sys guest_load_clear ;;
  on_sys (modify (on_cpu (set_state GUEST_LOAD))) ;;
  saved_pasce ← store_pasce;
  load_as as_ ;;
  n ← pure (e_phnum fmt hdr);
  LOAD_LOOP fmt file hdr 0 (Z.to_nat n) ;;
  load_pasce saved_pasce ;;
  entry ← pure (e_entry fmt hdr);
  on_sys (modify (on_cpu (on_sie (start_at fmt entry)))) ;;
  on_sys stop_cpu.

Definition ipl_nss (m : memory) (nssname : Z) : load unit :=
  '(file, hdr) ← find_nss m nssname;
  ok ← pure (check_hdr hdr);
  if negb (ok : bool) then fail (- ECORRUPT) else
  class ← pure (e_ident hdr EI_CLASS);
  if negb (class =? ELFCLASS32) && negb (class =? ELFCLASS64) then fail (- ECORRUPT) else
  load_nss (class =? ELFCLASS32) file hdr.

(** every label sets the state and returns its code *)
Definition guest_ipl_nss (m : memory) (nssname : Z) : ipl -> outcome (Z * ipl) := fun s =>
  '(r, s) ← ipl_nss m nssname s;
  match r with
  | inr _ => Ret (0, s)
  | inl e => Ret (e, Ipl (on_cpu (set_state GUEST_CHECKSTOP) (sys s)) (sysfs s) (cr1 s))
  end.
End ipl.

(** * The storage of a guest *)

(** guest page [n] is in the [n]th frame *)
Definition host (frames : list Z) (a : Z) : Z := default 0 (frames !! Z.to_nat (a / 4096)) + a mod 4096.

Record guest_space (v2p : Z -> option Z) (frames : list Z) : Prop := GuestSpace {
  gs_v2p : forall a, 0 <= a < 4096 * lenZ frames -> v2p a = Some (host frames a);
  gs_nodup : NoDup frames;
  gs_frames : Forall (fun p => 0 <= p /\ p mod 4096 = 0) frames;
  gs_size : 4096 * lenZ frames < 2 ^ 64;
}.

Section space.
Context (v2p : Z -> option Z) (frames : list Z) (Hgs : guest_space v2p frames).

Abbreviation size := (4096 * lenZ frames).

(** no guest address is at [x] *)
Definition outside (x : Z) : Prop := forall a, 0 <= a < size -> host frames a <> x.

Lemma frame_at a : 0 <= a < size -> exists p, frames !! Z.to_nat (a / 4096) = Some p /\ 0 <= p /\ p mod 4096 = 0.
Proof.
  intros Ha. assert (Z.to_nat (a / 4096) < length frames)%nat as Hl by (unfold lenZ in Ha; divlia).
  apply lookup_lt_is_Some_2 in Hl as [p Hp]. exists p. split; [done|].
  by apply (proj1 (Forall_lookup _ _) (gs_frames _ _ Hgs) _ _ Hp).
Qed.

Lemma host_page a : 0 <= a < size -> 0 <= host frames a /\ host frames a mod 4096 = a mod 4096.
Proof.
  intros Ha. destruct (frame_at a Ha) as (p & Hp & Hp0 & Hpm). unfold host. rewrite Hp. cbn [default from_option id].
  pose proof (Z.mod_pos_bound a 4096). split; [lia|]. divlia.
Qed.

Lemma host_inj a b : 0 <= a < size -> 0 <= b < size -> host frames a = host frames b -> a = b.
Proof.
  intros Ha Hb E.
  destruct (frame_at a Ha) as (p & Hp & _ & Ep), (frame_at b Hb) as (q & Hq & _ & Eq). unfold host in E. rewrite Hp, Hq in E.
  cbn [default from_option id] in E. assert (p = q) as <- by divlia.
  pose proof (NoDup_lookup _ _ _ _ (gs_nodup _ _ Hgs) Hp Hq) as En. apply Z2Nat.inj in En; divlia.
Qed.

Lemma host_add a k : 0 <= k -> a mod 4096 + k < 4096 -> host frames (a + k) = host frames a + k.
Proof.
  intros Hk Hp. unfold host. assert ((a + k) / 4096 = a / 4096) as -> by divlia.
  assert ((a + k) mod 4096 = a mod 4096 + k) as -> by divlia. lia.
Qed.

Lemma host_land a : 0 <= a < size -> PAGE_SIZE - Z.land (host frames a) PAGE_MASK = 4096 - a mod 4096.
Proof.
  intros Ha. destruct (host_page a Ha) as [_ E]. unfold PAGE_MASK, PAGE_SIZE. change (4096 - 1) with (Z.ones 12).
  rewrite Z.land_ones by lia. change (2 ^ 12) with 4096. by rewrite E.
Qed.

(** the guest address at [x], when [x] is in the page of [a] *)
Lemma host_of a x : 0 <= a < size -> host frames a <= x < host frames a + (4096 - a mod 4096) ->
  exists b, a <= b < a + (4096 - a mod 4096) /\ 0 <= b < size /\ x = host frames b.
Proof.
  intros Ha Hx. exists (a + (x - host frames a)). split_and!; [lia|lia|lia|divlia|]. rewrite host_add by lia. lia.
Qed.

(** writing inside a page, as the guest sees it *)
Lemma write_inside m a l b : 0 <= a < size -> a mod 4096 + lenZ l <= 4096 -> 0 <= b < size ->
  write_bytes m (host frames a) l (host frames b) =
    (if decide (a <= b < a + lenZ l) then default 0 (l !! Z.to_nat (b - a)) else m (host frames b)).
Proof.
  intros Ha Hl Hb. unfold write_bytes. destruct (decide (a <= b < a + lenZ l)) as [Hin|Hin].
  - assert (host frames b = host frames a + (b - a)) as ->.
    { rewrite <- host_add by lia. f_equal. lia. }
    rewrite decide_True by lia. replace (host frames a + (b - a) - host frames a) with (b - a) by lia.
    destruct (lookup_lt_is_Some_2 l (Z.to_nat (b - a))) as [v ->]; [unfold lenZ in *; lia|done].
  - case_decide as Hle; [|done]. destruct (l !! Z.to_nat (host frames b - host frames a)) as [v|] eqn:E; [|done].
    exfalso. apply lookup_lt_Some in E.
    destruct (host_of a (host frames b)) as (c & Hc & Hcs & Ec); [done|unfold lenZ in *; lia|].
    apply host_inj in Ec; [subst c|done|done]. assert (host frames b = host frames a + (b - a)) as Eb.
    { rewrite <- host_add by lia. f_equal. lia. }
    unfold lenZ in *. lia.
Qed.

Lemma write_outside m a l x : 0 <= a < size -> a mod 4096 + lenZ l <= 4096 -> outside x ->
  write_bytes m (host frames a) l x = m x.
Proof.
  intros Ha Hl Hx. unfold write_bytes. case_decide; [|done].
  destruct (l !! Z.to_nat (x - host frames a)) as [v|] eqn:E; [|done]. apply lookup_lt_Some in E.
  destruct (host_of a x) as (c & _ & Hcs & ->); [done|unfold lenZ in *; lia|]. by destruct (Hx c).
Qed.

(** ** Copies of at most a page *)

Lemma copy_within m a data len : 0 <= a < size -> 0 < len -> a mod 4096 + len <= 4096 -> len <= lenZ data ->
  __memcpy_tofrom_guest v2p a m data len false =
    Ret (0, len, write_bytes m (host frames a) (take (Z.to_nat len) data), data).
Proof.
  intros Ha Hlen Hp Hd. pose proof (Z.mod_pos_bound a 4096 ltac:(lia)). unfold __memcpy_tofrom_guest. replace (Z.to_nat len) with (S (Z.to_nat (len - 1))) at 1 by lia.
  cbn [copy_loop]. destruct (Z.eqb_spec len 0) as [->|_]; [lia|]. rewrite (gs_v2p _ _ Hgs a Ha). cbv zeta.
  rewrite host_land by done. rewrite Z.min_r by lia.
  destruct (aslice_is_Some data 0 len) as [src Hs]; [lia..|]. rewrite Hs. cbn [defined mbind outcome_bind].
  assert (src = take (Z.to_nat len) data) as ->.
  { unfold aslice in Hs. rewrite decide_True in Hs by lia. by injection Hs as <-. }
  rewrite Z.sub_diag. change (u64 0 =? 0) with true. cbn [negb]. rewrite Z.add_0_l, wrap_small by lia. done.
Qed.

(** zeros, not advancing: whatever the length, zeros in this page *)
Lemma clear_loop fuel m a copied len :
  0 <= a < size -> 0 <= copied -> 0 <= len < Z.of_nat fuel -> copied + len <= 4096 ->
  exists m', copy_loop v2p fuel a copied len m zeropage false = Ret (0, copied + len, m', zeropage) /\
    forall x, m' x = m x \/ m' x = 0 /\ host frames a <= x < host frames a + Z.min (4096 - a mod 4096) len.
Proof.
  intros Ha. revert m copied len. pose proof (Z.mod_pos_bound a 4096 ltac:(lia)).
  induction fuel as [|fuel IH]; intros m copied len Hc Hl Hs; [lia|]. cbn [copy_loop].
  destruct (Z.eqb_spec len 0) as [->|Hne]; [exists m; rewrite Z.add_0_r; split; [done|by left]|].
  rewrite (gs_v2p _ _ Hgs a Ha). cbv zeta. rewrite host_land by done.
  remember (Z.min (4096 - a mod 4096) len) as n eqn:En. assert (0 < n <= len) by lia.
  destruct (aslice_is_Some zeropage copied n) as [src Hsrc]; [lia|lia|change (lenZ zeropage) with 4096; lia|].
  rewrite Hsrc. cbn [defined mbind outcome_bind]. rewrite !wrap_small by lia.
  destruct (IH (write_bytes m (host frames a) src) (copied + n) (len - n)) as (m' & -> & Hm'); [lia..|].
  exists m'. split; [do 4 f_equal; lia|]. intros x. destruct (Hm' x) as [->|[Hz Hin]]; [|right; split; [done|lia]].
  unfold write_bytes. case_decide as Hle; [|by left].
  destruct (src !! Z.to_nat (x - host frames a)) as [v|] eqn:E; [|by left]. right. cbn [default from_option id].
  pose proof (aslice_lenZ _ _ _ _ Hsrc) as Hsl. apply lookup_lt_Some in E as Hlt. unfold lenZ in Hsl.
  split; [|lia]. unfold aslice in Hsrc. case_decide; [|done]. injection Hsrc as <-.
  apply lookup_take_Some in E as [E _]. rewrite lookup_drop in E. apply lookup_replicate in E. by destruct E.
Qed.
End space.

(** * Loading *)

Lemma load_step {A B} (m : load A) (f : A -> load B) s a s' : m s = Ret (inr a, s') -> (m ≫= f) s = f a s'.
Proof. intros E. unfold mbind, load_bind. by rewrite E. Qed.

Lemma pure_step {A B} (m : outcome A) (f : A -> load B) s a : m = Ret a -> (pure m ≫= f) s = f a s.
Proof. intros ->. done. Qed.

Lemma sys_step {A B} (m : guest A) (f : A -> load B) s a v :
  m (sys s) = Ret (a, v) -> (on_sys m ≫= f) s = f a (Ipl v (sysfs s) (cr1 s)).
Proof. intros E. apply load_step. unfold on_sys. by rewrite E. Qed.

Definition byte (image : list Z) (p : Z) : Z := default 0 (image !! Z.to_nat p).
Definition block_of (image : list Z) (b : Z) : list Z := take 4096 (drop (Z.to_nat (4096 * b)) image).

(** the disk holds the bytes of a file whose directory entry is [t] *)
Record file_image (bdev_read_block : Z -> Z + list Z) (a t image : list Z) : Prop := FileImage {
  fi_levels : 0 <= FST_NLVL t < 256;
  fi_blocks : forall b, 0 <= b < lenZ image / 4096 ->
    ref_read bdev_read_block a t (levels_above t 0) b = inr (block_of image b);
  fi_length : lenZ image mod 4096 = 0;
  fi_limit : lenZ image < 2 ^ 44;
}.

Section loading.
Context (bdev_read_block : Z -> Z + list Z) (mem_ok : nat -> bool) (fs : fs) (virt2phy : Z -> Z -> option Z).
Context (Hmem : forall n, mem_ok n = true) (Hdb : DBSIZ fs = 4096).
Context (nss : Z) (t image : list Z) (Himg : file_image bdev_read_block (ADT fs) t image).
Context (frames : list Z).

Abbreviation size := (4096 * lenZ frames).
Abbreviation has_nss := (has bdev_read_block (ADT fs) nss t).
Abbreviation view s := (fun a => storage (sys s) (host frames a)).

(** a state in which loading can go on *)
Definition ready (s : ipl) : Prop := has_nss (sysfs s) /\ guest_space (virt2phy (cr1 s)) frames.

(** only storage and the cache of the file changed; the guest sees [V] *)
Definition loaded (s s' : ipl) (V : Z -> Z) : Prop :=
  exists m d, s' = Ipl (set_storage m (sys s)) d (cr1 s) /\ has_nss d /\
    (forall a, 0 <= a < size -> m (host frames a) = V a) /\
    (forall x, outside frames x -> m x = storage (sys s) x).

Lemma loaded_ready s s' V : ready s -> loaded s s' V -> ready s'.
Proof. intros [_ Hg] (m & d & -> & Hd & _). by split. Qed.

Lemma loaded_view s s' V a : loaded s s' V -> 0 <= a < size -> view s' a = V a.
Proof. intros (m & d & -> & _ & HV & _). apply HV. Qed.

Lemma loaded_trans s s1 s2 V V' W :
  loaded s s1 V -> loaded s1 s2 V' -> (forall a, 0 <= a < size -> V' a = W a) -> loaded s s2 W.
Proof.
  intros (m & d & -> & _ & _ & Ho) (m' & d' & -> & Hd & HV & Ho') HW. exists m', d'. split_and!; [done|done| |].
  - intros a Ha. by rewrite HV, HW.
  - intros x Hx. by rewrite Ho', <- Ho.
Qed.

Lemma loaded_refl s : ready s -> loaded s s (view s).
Proof. intros [Hd _]. exists (storage (sys s)), (sysfs s). by destruct s as [[] ? ?]. Qed.

Lemma block_lookup b k : 0 <= b -> 0 <= k < 4096 -> block_of image b !! Z.to_nat k = image !! Z.to_nat (4096 * b + k).
Proof. intros Hb Hk. unfold block_of. rewrite lookup_take_lt, lookup_drop by lia. f_equal. lia. Qed.

Lemma block_len b : 0 <= b < lenZ image / 4096 -> lenZ (block_of image b) = 4096.
Proof.
  intros Hb. unfold block_of, lenZ in *. rewrite length_take, length_drop.
  pose proof (fi_length _ _ _ _ Himg) as Hm. unfold lenZ in Hm. divlia.
Qed.

Lemma read_nss_disk s b : has_nss (sysfs s) -> 0 <= b < lenZ image / 4096 ->
  exists d, read_nss bdev_read_block mem_ok fs nss b s = Ret (inr (block_of image b), Ipl (sys s) d (cr1 s)) /\ has_nss d.
Proof.
  intros Hd Hb. destruct Himg as [Hlv Hbl _ _].
  destruct (bread_enough _ _ Hmem (ADT fs) nss t 0 b (sysfs s) Hd) as (d & E & _ & Hd'); [lia|lia|].
  exists d. unfold read_nss, on_disk. by rewrite E, (Hbl b Hb).
Qed.

Lemma read_nss_spec s b : ready s -> 0 <= b < lenZ image / 4096 ->
  exists d, read_nss bdev_read_block mem_ok fs nss b s = Ret (inr (block_of image b), Ipl (sys s) d (cr1 s)) /\
    loaded s (Ipl (sys s) d (cr1 s)) (view s).
Proof.
  intros [Hd Hg] Hb. destruct (read_nss_disk s b Hd Hb) as (d & E & Hd'). exists d. split; [done|].
  exists (storage (sys s)), d. by destruct s as [[] ? ?].
Qed.

Lemma to_guest_spec s gaddr data len : ready s -> 0 <= gaddr < size -> 0 < len ->
  gaddr mod 4096 + len <= 4096 -> len <= lenZ data ->
  exists s', to_guest virt2phy gaddr data len s = Ret (inr tt, s') /\
    loaded s s' (fun a => if decide (gaddr <= a < gaddr + len) then default 0 (data !! Z.to_nat (a - gaddr)) else view s a).
Proof.
  intros [Hd Hg] Ha Hl Hp Hdat. unfold to_guest. rewrite (copy_within _ _ Hg) by done.
  cbn [mbind outcome_bind negb Z.eqb]. rewrite Z.eqb_refl. eexists. split; [done|].
  assert (lenZ (take (Z.to_nat len) data) = len) as Et by (unfold lenZ in *; rewrite length_take; lia).
  do 2 eexists. split; [done|]. split; [done|]. split.
  - intros a Hin. rewrite (write_inside _ _ Hg), Et by (done || lia). destruct (decide _); [|done].
    rewrite lookup_take_lt by lia. done.
  - intros x Hx. apply write_outside; [done|lia|done].
Qed.

(** the bytes of the file from [foff] on at [gaddr] *)
Definition overlay (foff gaddr n : Z) (V : Z -> Z) (a : Z) : Z :=
  if decide (gaddr <= a < gaddr + n) then byte image (foff + (a - gaddr)) else V a.

Lemma copy_file_spec fuel s foff fslen gaddr memlen :
  ready s -> 0 <= foff -> 0 <= fslen -> foff + fslen <= lenZ image -> 0 <= gaddr -> gaddr + fslen <= size ->
  foff mod 4096 = gaddr mod 4096 -> fslen <= memlen < 2 ^ 64 -> (0 < fuel)%nat ->
  (0 < fslen -> foff mod 4096 + fslen <= 4096 * (Z.of_nat fuel - 1)) ->
  exists s', copy_file bdev_read_block mem_ok fs virt2phy fuel nss foff fslen gaddr memlen s =
      Ret (inr (gaddr + fslen, memlen - fslen), s') /\
    loaded s s' (overlay foff gaddr fslen (view s)).
Proof.
  revert s foff fslen gaddr memlen. induction fuel as [|fuel IH]; intros s foff fslen gaddr memlen Hs Hf Hl Hfi Hg Hgs Hm Hml Hfu Hfuel; [lia|].
  cbn [copy_file]. destruct (Z.eqb_spec fslen 0) as [->|Hne].
  { exists s. rewrite Z.add_0_r, Z.sub_0_r. split; [done|]. eapply loaded_trans; [by apply loaded_refl|by apply loaded_refl|].
    intros a Ha. unfold overlay. by rewrite decide_False by lia. }
  rewrite Hdb. cbv zeta. pose proof (fi_limit _ _ _ _ Himg) as Hlim. pose proof (gs_size _ _ (proj2 Hs)) as Hsz.
  pose proof (Z.mod_pos_bound foff 4096 ltac:(lia)) as Hoff.
  assert (0 <= foff / 4096 < lenZ image / 4096) as Hblk by (pose proof (fi_length _ _ _ _ Himg); divlia).
  rewrite (wrap_small 32 (foff / 4096)) by divlia. rewrite (wrap_small 32 (foff mod 4096)) by lia.
  rewrite (wrap_small 32 (4096 - _)) by lia. remember (Z.min (4096 - foff mod 4096) fslen) as len eqn:Elen.
  assert (0 < len <= fslen /\ foff mod 4096 + len <= 4096) as Hlen by lia. rewrite (wrap_small 32 len) by lia.
  destruct (read_nss_spec s (foff / 4096) Hs Hblk) as (d & Er & Hl0). rewrite (load_step _ _ _ _ _ Er).
  remember (Ipl (sys s) d (cr1 s)) as s0 eqn:E0. pose proof (loaded_ready _ _ _ Hs Hl0) as Hs0.
  pose proof (block_len _ Hblk) as Hbl.
  destruct (to_guest_spec s0 gaddr (drop (Z.to_nat (foff mod 4096)) (block_of image (foff / 4096))) len) as (s1 & E1 & Hl1);
    [done|lia|lia|lia|unfold lenZ in *; rewrite length_drop; lia|].
  rewrite (load_step _ _ _ _ _ E1). pose proof (loaded_ready _ _ _ Hs0 Hl1) as Hs1.
  rewrite !(wrap_small 64) by lia.
  destruct (IH s1 (foff + len) (fslen - len) (gaddr + len) (memlen - len)) as (s2 & E2 & Hl2); [done|lia..| |lia|lia| |].
  { divlia. }
  { intros H0. assert (len = 4096 - foff mod 4096) by lia. assert ((foff + len) mod 4096 = 0) as -> by divlia. lia. }
  exists s2. split. { rewrite E2. replace (gaddr + len + (fslen - len)) with (gaddr + fslen) by lia.
    by replace (memlen - len - (fslen - len)) with (memlen - fslen) by lia. }
  eapply loaded_trans; [eapply loaded_trans; [exact Hl0|exact Hl1|done]|exact Hl2|].
  intros a Ha. cbv beta. unfold overlay. pose proof (loaded_view _ _ _ _ Hl1 Ha) as Ev1. pose proof (loaded_view _ _ _ _ Hl0 Ha) as Ev0.
  cbv beta in Ev0, Ev1. destruct (decide (gaddr + len <= a < gaddr + len + (fslen - len))).
  - rewrite decide_True by lia. f_equal. lia.
  - rewrite Ev1, Ev0. destruct (decide (gaddr <= a < gaddr + len)); [|by rewrite decide_False by lia].
    rewrite decide_True by lia. unfold byte. rewrite lookup_drop. f_equal.
    replace (Z.to_nat (foff mod 4096) + Z.to_nat (a - gaddr))%nat with (Z.to_nat (foff mod 4096 + (a - gaddr))) by lia.
    rewrite block_lookup by divlia. f_equal. divlia.
Qed.

(** zeros over zeros *)
Lemma clear_rest_spec fuel s gaddr memlen :
  ready s -> 0 <= gaddr -> 0 <= memlen -> gaddr + memlen <= size ->
  (forall a, gaddr <= a < gaddr + memlen -> view s a = 0) ->
  memlen <= 4096 * (Z.of_nat fuel - 1) -> (0 < fuel)%nat ->
  exists s', clear_rest virt2phy fuel gaddr memlen s = Ret (inr tt, s') /\ loaded s s' (view s).
Proof.
  revert s gaddr memlen. induction fuel as [|fuel IH]; intros s gaddr memlen Hs Hg Hm Hgs Hz Hfuel Hfu; [lia|].
  cbn [clear_rest]. destruct (Z.eqb_spec memlen 0) as [->|Hne]; [exists s; split; [done|by apply loaded_refl]|].
  pose proof (gs_size _ _ (proj2 Hs)) as Hsz. cbv zeta. unfold PAGE_SIZE.
  remember (Z.min 4096 memlen) as len eqn:Elen. assert (0 < len <= memlen /\ len <= 4096) as Hlen by lia.
  destruct (clear_loop _ _ (proj2 Hs) (S (Z.to_nat len)) (storage (sys s)) gaddr 0 len) as (m & Ec & Hc); [lia..|].
  assert (to_guest virt2phy gaddr zeropage len s = Ret (inr tt, Ipl (set_storage m (sys s)) (sysfs s) (cr1 s))) as Et.
  { unfold to_guest, __memcpy_tofrom_guest. rewrite Ec. cbn [mbind outcome_bind negb Z.eqb]. by rewrite Z.add_0_l, Z.eqb_refl. }
  rewrite (load_step _ _ _ _ _ Et). remember (Ipl (set_storage m (sys s)) (sysfs s) (cr1 s)) as s1 eqn:E1.
  assert (loaded s s1 (view s)) as Hl1.
  { exists m, (sysfs s). split_and!; [done|apply Hs| |].
    - intros a Ha. destruct (Hc (host frames a)) as [->|[-> Hin]]; [done|].
      destruct (host_of frames gaddr (host frames a)) as (b & Hb & Hbs & Eb); [lia|lia|].
      apply (host_inj _ _ (proj2 Hs)) in Eb; [subst b|done|done]. symmetry. apply Hz.
      assert (host frames a = host frames gaddr + (a - gaddr)) as Ea.
      { rewrite <- host_add by lia. f_equal. lia. }
      lia.
    - intros x Hx. destruct (Hc x) as [->|[_ Hin]]; [done|].
      destruct (host_of frames gaddr x) as (b & _ & Hbs & ->); [lia|lia|]. by destruct (Hx b). }
  pose proof (loaded_ready _ _ _ Hs Hl1) as Hs1. rewrite !wrap_small by lia.
  destruct (IH s1 (gaddr + len) (memlen - len)) as (s2 & E2 & Hl2); [done|lia..| |lia|lia|].
  { intros a Ha. pose proof (loaded_view _ _ _ a Hl1 ltac:(lia)) as Ev. cbv beta in Ev. rewrite Ev. apply Hz. lia. }
  exists s2. split; [exact E2|]. eapply loaded_trans; [exact Hl1|exact Hl2|]. intros a Ha. apply (loaded_view _ _ _ _ Hl1 Ha).
Qed.
(** ** Segments *)

Record segment := Segment { s_off : Z; s_filesz : Z; s_vaddr : Z; s_memsz : Z }.

Definition in_file (g : segment) (a : Z) : Prop := s_vaddr g <= a < s_vaddr g + s_filesz g.
Definition in_mem (g : segment) (a : Z) : Prop := s_vaddr g <= a < s_vaddr g + s_memsz g.

#[export] Instance in_file_dec g a : Decision (in_file g a).
Proof. unfold in_file. apply _. Defined.

(** a segment that fits in the file and in storage, at the same place in a page *)
Record segment_ok (g : segment) : Prop := SegmentOk {
  so_off : 0 <= s_off g;
  so_filesz : 0 <= s_filesz g <= s_memsz g;
  so_vaddr : 0 <= s_vaddr g;
  so_image : s_off g + s_filesz g <= lenZ image;
  so_size : s_vaddr g + s_memsz g <= size;
  so_align : s_off g mod 4096 = s_vaddr g mod 4096;
}.

Lemma copy_segment_spec s g : ready s -> segment_ok g -> (forall a, in_mem g a -> view s a = 0) ->
  exists s', __copy_segment bdev_read_block mem_ok fs virt2phy nss (s_off g) (s_filesz g) (s_vaddr g) (s_memsz g) s = Ret (inr tt, s') /\
    loaded s s' (overlay (s_off g) (s_vaddr g) (s_filesz g) (view s)).
Proof.
  intros Hs [] Hz. unfold __copy_segment. rewrite Hdb. pose proof (gs_size _ _ (proj2 Hs)) as Hsz.
  destruct (copy_file_spec (Z.to_nat (s_filesz g / 4096) + 3) s (s_off g) (s_filesz g) (s_vaddr g) (s_memsz g))
    as (s1 & E1 & Hl1); [done|lia..|divlia|].
  rewrite (load_step _ _ _ _ _ E1). pose proof (loaded_ready _ _ _ Hs Hl1) as Hs1. cbv beta iota. unfold PAGE_SIZE.
  destruct (clear_rest_spec (Z.to_nat ((s_memsz g - s_filesz g) / 4096) + 2) s1 (s_vaddr g + s_filesz g) (s_memsz g - s_filesz g))
    as (s2 & E2 & Hl2); [done|lia..| |divlia|lia|].
  { intros a Ha. pose proof (loaded_view _ _ _ a Hl1 ltac:(lia)) as Ev. cbv beta in Ev. rewrite Ev. unfold overlay.
    rewrite decide_False by lia. apply Hz. unfold in_mem. lia. }
  exists s2. split; [exact E2|]. eapply loaded_trans; [exact Hl1|exact Hl2|]. intros a Ha. apply (loaded_view _ _ _ _ Hl1 Ha).
Qed.

(** what the code finds at a place in the file *)
Definition phdr_at (p : Z) : list Z := drop (Z.to_nat (p mod 4096)) (block_of image (p / 4096)).

Definition phdr_is (fmt : bool) (phdr : list Z) (o : option segment) : Prop :=
  match o with
  | None => exists ty, p_type fmt phdr = Ret ty /\ ty <> PT_LOAD
  | Some g =>
      p_type fmt phdr = Ret PT_LOAD /\ p_align fmt phdr = Ret PAGE_SIZE /\
      p_offset fmt phdr = Ret (s_off g) /\ p_filesz fmt phdr = Ret (s_filesz g) /\
      p_vaddr fmt phdr = Ret (s_vaddr g) /\ p_memsz fmt phdr = Ret (s_memsz g)
  end.

Lemma load_phdr_segment fmt s phdr g : ready s -> phdr_is fmt phdr (Some g) -> segment_ok g ->
  (forall a, in_mem g a -> view s a = 0) ->
  exists s', load_phdr bdev_read_block mem_ok fs virt2phy fmt nss phdr s = Ret (inr tt, s') /\
    loaded s s' (overlay (s_off g) (s_vaddr g) (s_filesz g) (view s)).
Proof.
  intros Hs (Ht & Ha & Ho & Hf & Hv & Hm) Hg Hz. unfold load_phdr.
  rewrite (pure_step _ _ _ _ Ht), Z.eqb_refl. cbn [negb]. rewrite (pure_step _ _ _ _ Ha), Z.eqb_refl. cbn [negb].
  rewrite (pure_step _ _ _ _ Ho), (pure_step _ _ _ _ Hf), (pure_step _ _ _ _ Hv), (pure_step _ _ _ _ Hm).
  destruct (copy_segment_spec s g Hs Hg Hz) as (s' & E & Hl). exists s'. split; [|done]. unfold catch. by rewrite E.
Qed.

Lemma load_phdr_other fmt s phdr : phdr_is fmt phdr None ->
  load_phdr bdev_read_block mem_ok fs virt2phy fmt nss phdr s = Ret (inr tt, s).
Proof.
  intros (ty & Ht & Hne). unfold load_phdr. rewrite (pure_step _ _ _ _ Ht).
  destruct (Z.eqb_spec ty PT_LOAD); [done|]. done.
Qed.

(** what the guest sees when the segments are over [V] *)
Fixpoint nss_view (l : list (option segment)) (V : Z -> Z) (a : Z) : Z :=
  match l with
  | [] => V a
  | None :: l => nss_view l V a
  | Some g :: l => if decide (in_file g a) then byte image (s_off g + (a - s_vaddr g)) else nss_view l V a
  end.

Lemma nss_view_ext l V W a : V a = W a -> nss_view l V a = nss_view l W a.
Proof. intros E. induction l as [|[g|] l IH]; cbn [nss_view]; [done| |done]. by rewrite IH. Qed.

Lemma nss_view_skip l V a : (forall g, Some g ∈ l -> ~ in_file g a) -> nss_view l V a = V a.
Proof.
  intros Hl. induction l as [|[g|] l IH]; cbn [nss_view]; [done| |].
  - rewrite decide_False by (apply Hl; left). apply IH. intros h Hh. apply Hl. by right.
  - apply IH. intros h Hh. apply Hl. by right.
Qed.

(** no byte of storage belongs to two segments *)
Definition apart (segs : list (option segment)) : Prop :=
  forall i j g h a, segs !! i = Some (Some g) -> segs !! j = Some (Some h) -> in_mem g a -> in_mem h a -> i = j.

(** the program headers of a file: each within a block, their segments fit and
    are apart *)
Record phdrs_ok (fmt : bool) (hdr : list Z) (segs : list (option segment)) : Prop := PhdrsOk {
  po_place : exists phoff phentsize, e_phoff fmt hdr = Ret phoff /\ e_phentsize fmt hdr = Ret phentsize /\
    0 <= phoff /\ 0 <= phentsize /\
    forall i o, segs !! i = Some o -> let p := phoff + phentsize * Z.of_nat i in
      p < lenZ image /\ p < 2 ^ 31 /\ p mod 4096 + phentsize <= 4096 /\ phdr_is fmt (phdr_at p) o;
  po_segments : forall g, Some g ∈ segs -> segment_ok g;
  po_apart : apart segs;
}.

(** one turn of the loop reads the header of the next segment *)
Lemma load_loop_step fmt hdr segs i n o s :
  phdrs_ok fmt hdr segs -> ready s -> segs !! i = Some o ->
  exists h s0, phdr_is fmt h o /\ loaded s s0 (view s) /\
    LOAD_LOOP bdev_read_block mem_ok fs virt2phy fmt nss hdr (Z.of_nat i) (S n) s =
    (load_phdr bdev_read_block mem_ok fs virt2phy fmt nss h ;;
     LOAD_LOOP bdev_read_block mem_ok fs virt2phy fmt nss hdr (Z.of_nat (S i)) n) s0.
Proof.
  intros Hp Hs Ho. destruct (po_place _ _ _ Hp) as (phoff & sz & Eoff & Esz & Hoff & Hsz & Hph).
  destruct (Hph i o Ho) as (Hin & Hlim & Hblk & Hphdr). cbn [LOAD_LOOP].
  rewrite (pure_step _ _ _ _ Eoff), (pure_step _ _ _ _ Esz). cbv zeta. rewrite Hdb.
  rewrite (swrap_small 32) by nia. remember (phoff + sz * Z.of_nat i) as p eqn:Ep. assert (0 <= p) as Hp0 by nia.
  assert ((if fmt then u32 else u64) p = p) as -> by (destruct fmt; apply wrap_small; lia).
  rewrite (wrap_small 32 (p / 4096)) by divlia. rewrite (wrap_small 32 (p mod 4096)) by divlia.
  rewrite (wrap_small 32 (4096 - _)) by divlia.
  rewrite (pure_step _ _ _ tt) by (by rewrite (proj2 (Z.ltb_ge _ _)) by lia).
  assert (0 <= p / 4096 < lenZ image / 4096) as Hb by (pose proof (fi_length _ _ _ _ Himg); divlia).
  destruct (read_nss_spec s (p / 4096) Hs Hb) as (d & Er & Hl0).
  exists (phdr_at p), (Ipl (sys s) d (cr1 s)). split_and!; [done|done|].
  rewrite (load_step _ _ _ (block_of image (p / 4096)) (Ipl (sys s) d (cr1 s))) by (unfold read_phdr; by rewrite Er).
  by replace (Z.of_nat i + 1) with (Z.of_nat (S i)) by lia.
Qed.

Lemma drop_elem {A} (x : A) n l : x ∈ drop n l -> x ∈ l.
Proof. intros H. rewrite <- (take_drop n l). apply elem_of_app. by right. Qed.

(** a segment over what the earlier ones left *)
Lemma nss_view_cons g segs i V V1 :
  segs !! i = Some (Some g) -> apart segs -> (forall h, Some h ∈ segs -> segment_ok h) ->
  (forall a, 0 <= a < size -> V1 a = overlay (s_off g) (s_vaddr g) (s_filesz g) V a) ->
  forall a, 0 <= a < size -> nss_view (drop (S i) segs) V1 a = nss_view (drop i segs) V a.
Proof.
  intros Hi Hap Hok HV a Ha. rewrite (drop_S _ _ _ Hi). cbn [nss_view]. specialize (HV a Ha).
  unfold overlay in HV. fold (in_file g a) in HV. destruct (decide (in_file g a)) as [Hf|Hf]; [|by apply nss_view_ext].
  rewrite nss_view_skip; [done|]. intros h Hh Hfh. pose proof (Hok h (drop_elem _ _ _ Hh)) as [].
  pose proof (Hok g (list_elem_of_lookup_2 _ _ _ Hi)) as []. apply list_elem_of_lookup in Hh as [k Hk]. rewrite lookup_drop in Hk.
  assert (i = S i + k)%nat; [|lia]. apply (Hap _ _ g h a Hi Hk); unfold in_mem, in_file in *; lia.
Qed.

Lemma load_loop_spec fmt hdr segs n i s :
  phdrs_ok fmt hdr segs -> ready s -> length segs = (i + n)%nat ->
  (forall g a, Some g ∈ drop i segs -> in_mem g a -> view s a = 0) ->
  exists s', LOAD_LOOP bdev_read_block mem_ok fs virt2phy fmt nss hdr (Z.of_nat i) n s = Ret (inr tt, s') /\
    loaded s s' (nss_view (drop i segs) (view s)).
Proof.
  intros Hp. revert i s. induction n as [|n IH]; intros i s Hs Hlen Hz.
  { exists s. rewrite drop_ge by lia. split; [done|by apply loaded_refl]. }
  destruct (lookup_lt_is_Some_2 segs i) as [o Ho]; [lia|].
  destruct (load_loop_step _ _ _ _ n _ _ Hp Hs Ho) as (h & s0 & Hphdr & Hl0 & ->).
  pose proof (loaded_ready _ _ _ Hs Hl0) as Hs0. pose proof (po_segments _ _ _ Hp) as Hok.
  assert (forall a, 0 <= a < size -> view s0 a = view s a) as Ev0 by (intros a Ha; apply (loaded_view _ _ _ _ Hl0 Ha)).
  rewrite (drop_S _ _ _ Ho) in Hz. destruct o as [g|].
  - pose proof (Hok g (list_elem_of_lookup_2 _ _ _ Ho)) as Hg.
    destruct (load_phdr_segment fmt s0 h g Hs0 Hphdr Hg) as (s1 & E1 & Hl1).
    { intros a Ha. destruct Hg. unfold in_mem in Ha. rewrite Ev0 by lia. apply (Hz g a); [left|done]. }
    rewrite (load_step _ _ _ _ _ E1). pose proof (loaded_ready _ _ _ Hs0 Hl1) as Hs1.
    assert (forall a, 0 <= a < size -> view s1 a = overlay (s_off g) (s_vaddr g) (s_filesz g) (view s) a) as Ev1.
    { intros a Ha. rewrite (loaded_view _ _ _ _ Hl1 Ha). unfold overlay. by destruct (decide _); [|apply Ev0]. }
    destruct (IH (S i) s1) as (s2 & E2 & Hl2); [done|lia| |].
    { intros k a Hk Ha. pose proof (Hok k (drop_elem _ _ _ Hk)) as []. unfold in_mem in Ha. rewrite Ev1 by lia. unfold overlay.
      destruct (decide _) as [Hf|]; [|apply (Hz k a); [by right|done]]. destruct Hg.
      apply list_elem_of_lookup in Hk as [j Hj]. rewrite lookup_drop in Hj.
      assert (i = S i + j)%nat; [|lia]. apply (po_apart _ _ _ Hp _ _ g k a Ho Hj); unfold in_mem; lia. }
    exists s2. split; [exact E2|]. eapply loaded_trans; [eapply loaded_trans; [exact Hl0|exact Hl1|done]|exact Hl2|].
    by apply (nss_view_cons g); [|apply Hp| |].
  - rewrite (load_step _ _ _ _ _ (load_phdr_other fmt s0 _ Hphdr)).
    destruct (IH (S i) s0) as (s2 & E2 & Hl2); [done|lia| |].
    { intros k a Hk Ha. pose proof (Hok k (drop_elem _ _ _ Hk)) as []. unfold in_mem in Ha.
      rewrite Ev0 by lia. apply (Hz k a); [by right|done]. }
    exists s2. split; [exact E2|]. eapply loaded_trans; [exact Hl0|exact Hl2|]. intros a Ha.
    rewrite (drop_S _ _ _ Ho). cbn [nss_view]. apply nss_view_ext. by apply Ev0.
Qed.

(** ** The whole system *)

Definition pasce (a : address_space) : Z := dat_td (Z.shiftr (segment_table a) 12) DAT_TD_DT_ST 3.

(** an executable for this machine with these segments *)
Record nss_file (fmt : bool) (entry : Z) (segs : list (option segment)) : Prop := NssFile {
  nf_size : 0 < lenZ image;
  nf_hdr : check_hdr (block_of image 0) = Ret true;
  nf_class : e_ident (block_of image 0) EI_CLASS = Ret (if fmt then ELFCLASS32 else ELFCLASS64);
  nf_entry : e_entry fmt (block_of image 0) = Ret entry;
  nf_phnum : e_phnum fmt (block_of image 0) = Ret (lenZ segs);
  nf_phdrs : phdrs_ok fmt (block_of image 0) segs;
}.

(** the name of the file is found, for a file of whole pages *)
Record nss_found (m : memory) (nssname : Z) (s : ipl) : Prop := NssFound {
  fd_lookup : exists len fn d, strnlen m nssname 9 = Ret len /\ len <= 8 /\ munge_name m nssname len = Ret fn /\
    edf_lookup bdev_read_block mem_ok fs fn NSS_FILE_TYPE (sysfs s) = Ret (inr nss, d) /\ has_nss d;
  fd_lrecl : FST_LRECL t = PAGE_SIZE;
  fd_recfm : FST_RECFM t = FSTDFIX;
}.

(** the PSW of a system that starts at [entry], in 31-bit or 64-bit mode *)
Definition starts_at (fmt : bool) (entry : Z) (psw : list Z) : Prop :=
  getf psw_fmt psw = Z.b2z fmt /\ getf psw_ba psw = 1 /\ getf psw_ea psw = Z.b2z (negb fmt) /\
  (if fmt then getf psw_ptr31 psw = wrap 31 entry else getf psw_ptr psw = wrap 64 entry).

Lemma start_at_psw fmt entry c : starts_at fmt entry (gpsw (start_at fmt entry c)).
Proof.
  unfold start_at. assert (struct_ok 16 (zeros psw_size)) as H0 by (apply (zeros_ok 16)).
  destruct fmt; cbn [gpsw set_gpsw set_cpuflags]; unfold starts_at; cbn [negb Z.b2z];
    repeat match goal with
    | |- _ /\ _ => split
    | |- getf ?f (setf ?f _ _) = _ => rewrite (getf_setf 16) by (repeat apply setf_ok; done)
    | |- getf ?f (setf ?g _ _) = _ => rewrite (getf_setf_ne 16) by (repeat apply setf_ok; done)
    end; try done; rewrite getf_zeros; done.
Qed.

Lemma find_nss_spec m nssname s : nss_found m nssname s -> 0 < lenZ image ->
  exists d, find_nss bdev_read_block mem_ok fs m nssname s = Ret (inr (nss, block_of image 0), Ipl (sys s) d (cr1 s)) /\ has_nss d.
Proof.
  intros [(len & fn & d & Elen & Hlen & Efn & El & Hd) Hr Hf] Hi. unfold find_nss.
  rewrite (pure_step _ _ _ _ Elen), (proj2 (Z.ltb_ge _ _)) by done. rewrite (pure_step _ _ _ _ Efn).
  remember (Ipl (sys s) d (cr1 s)) as s1 eqn:E1.
  rewrite (load_step _ _ _ nss s1) by (unfold catch, on_disk; by rewrite El, E1).
  pose proof Hd as (f & Ef & Hft & _). rewrite (load_step _ _ _ f s1) by (rewrite E1; unfold on_disk; cbn; by rewrite (get_file_ok _ _ _ Ef)).
  rewrite (pure_step _ _ _ tt) by (by rewrite Hft, Hr, Hf, !Z.eqb_refl).
  destruct (read_nss_disk s1 0) as (d2 & E2 & Hd2); [by rewrite E1|pose proof (fi_length _ _ _ _ Himg); divlia|].
  rewrite (load_step _ _ _ (block_of image 0) (Ipl (sys s1) d2 (cr1 s1))) by (unfold catch; by rewrite E2).
  exists d2. split; [by rewrite E1|done].
Qed.

(** clearing the frames of a guest *)
Lemma clear_frames pages m x :
  fold_left (fun m p => write_bytes m p (zeros 4096)) pages m x =
    if decide (Exists (fun p => p <= x < p + 4096) pages) then 0 else m x.
Proof.
  revert m. induction pages as [|p pages IH]; intros m; cbn [fold_left].
  { rewrite decide_False; [done|]. by intros ?%Exists_nil. }
  rewrite IH. destruct (decide (Exists _ pages)) as [He|He]; [by rewrite decide_True by (by right)|].
  unfold write_bytes. destruct (decide (p <= x < p + 4096)) as [Hx|Hx].
  - rewrite (decide_True (P := Exists _ _)) by (by left). rewrite decide_True by lia. unfold zeros.
    by rewrite lookup_replicate_2 by lia.
  - rewrite (decide_False (P := Exists _ _)) by (by intros [|]%Exists_cons). case_decide; [|done].
    unfold zeros. by rewrite lookup_ge_None_2 by (rewrite length_replicate; lia).
Qed.

Lemma load_clear_spec v : exists v', guest_load_clear v = Ret (tt, v') /\ guest_pages v' = guest_pages v /\
  storage v' = fold_left (fun m p => write_bytes m p (zeros 4096)) (guest_pages v) (storage v).
Proof. by eexists. Qed.

Lemma cleared_view v2p v m a : guest_space v2p frames -> guest_pages v ≡ₚ frames -> 0 <= a < size ->
  fold_left (fun m p => write_bytes m p (zeros 4096)) (guest_pages v) m (host frames a) = 0.
Proof.
  intros Hg Hp Ha. rewrite clear_frames, decide_True; [done|]. destruct (frame_at _ _ Hg a Ha) as (p & Hpa & _).
  apply Exists_exists. exists p. split; [rewrite Hp; by eapply list_elem_of_lookup_2|].
  unfold host. rewrite Hpa. cbn [default from_option id]. pose proof (Z.mod_pos_bound a 4096). lia.
Qed.

Lemma cleared_outside v2p v m x : guest_space v2p frames -> guest_pages v ≡ₚ frames -> outside frames x ->
  fold_left (fun m p => write_bytes m p (zeros 4096)) (guest_pages v) m x = m x.
Proof.
  intros Hg Hp Hx. rewrite clear_frames, decide_False; [done|]. intros (p & Hin & Hpx)%Exists_exists.
  rewrite Hp in Hin. apply list_elem_of_lookup in Hin as [n Hn].
  apply (Hx (4096 * Z.of_nat n + (x - p))); [apply lookup_lt_Some in Hn; unfold lenZ; lia|].
  unfold host. assert ((4096 * Z.of_nat n + (x - p)) / 4096 = Z.of_nat n) as -> by divlia. rewrite Nat2Z.id, Hn.
  cbn [default from_option id]. divlia.
Qed.

Lemma load_nss_spec as_ fmt entry segs s :
  nss_file fmt entry segs -> has_nss (sysfs s) -> segment_table as_ <> 0 ->
  guest_space (virt2phy (pasce as_)) frames -> guest_pages (sys s) ≡ₚ frames ->
  exists s', load_nss bdev_read_block mem_ok fs virt2phy as_ fmt nss (block_of image 0) s = Ret (inr tt, s') /\
    (forall a, 0 <= a < size -> storage (sys s') (host frames a) = nss_view segs (fun _ => 0) a) /\
    (forall x, outside frames x -> storage (sys s') x = storage (sys s) x) /\
    state (cpu (sys s')) = GUEST_STOPPED /\ starts_at fmt entry (gpsw (sie (cpu (sys s')))) /\
    cr1 s' = (if cr1 s =? 0 then pasce as_ else cr1 s) /\ has_nss (sysfs s').
Proof.
  intros [_ _ _ Hen Hnum Hph] Hd Has Hg Hpages. unfold load_nss.
  destruct (load_clear_spec (sys s)) as (v & Ev & Hgp & Hst). rewrite (sys_step _ _ _ _ _ Ev).
  rewrite (sys_step _ _ _ tt (on_cpu (set_state GUEST_LOAD) v)) by done.
  remember (Ipl (on_cpu (set_state GUEST_LOAD) v) (sysfs s) (cr1 s)) as s1 eqn:E1.
  rewrite (load_step _ _ _ (cr1 s) s1) by (by rewrite E1).
  remember (Ipl (sys s1) (sysfs s1) (pasce as_)) as s2 eqn:E2.
  rewrite (load_step _ _ _ tt s2) by (unfold load_as; by rewrite (proj2 (Z.eqb_neq _ _) Has), E2).
  rewrite (pure_step _ _ _ _ Hnum). unfold lenZ. rewrite Nat2Z.id.
  assert (ready s2) as Hs2 by (rewrite E2, E1; by split).
  assert (forall a, 0 <= a < size -> view s2 a = 0) as Hzero.
  { intros a Ha. rewrite E2, E1. cbn. rewrite Hst. by apply (cleared_view _ _ _ _ Hg). }
  destruct (load_loop_spec fmt _ segs (length segs) 0 s2 Hph Hs2) as (s3 & E3 & Hl3); [done| |].
  { intros g a Hin Ha. rewrite drop_0 in Hin. destruct (po_segments _ _ _ Hph g Hin). apply Hzero. unfold in_mem in Ha. lia. }
  rewrite (load_step _ _ _ _ _ E3). destruct Hl3 as (m & d & -> & Hd3 & HV & Hout). rewrite drop_0 in HV.
  rewrite (load_step _ _ _ tt _ eq_refl), (pure_step _ _ _ _ Hen), (sys_step _ _ _ tt _ eq_refl).
  eexists. split; [reflexivity|].
  split_and!.
  - intros a Ha. destruct (cr1 s =? 0); cbn; rewrite (HV a Ha); apply nss_view_ext; by apply Hzero.
  - intros x Hx. assert (storage (sys s2) x = storage (sys s) x) as <-.
    { rewrite E2, E1. cbn. rewrite Hst. by apply (cleared_outside _ _ _ _ Hg). }
    destruct (cr1 s =? 0); cbn; by apply Hout.
  - by destruct (cr1 s =? 0).
  - destruct (cr1 s =? 0); apply start_at_psw.
  - destruct (cr1 s =? 0); [|done]. by rewrite E2.
  - by destruct (cr1 s =? 0).
Qed.

(** C16: The IPL of a named system whose file is found on the system minidisk and
    is an executable for this machine, with segments that are apart, fit in the
    guest's storage and lie at the same place in a page as in the file: the
    call succeeds; every byte of guest storage is the byte its segment has in
    the file, or zero; no storage outside the guest's frames changes; the CPU is
    stopped with the PSW at the entry point; and the host's own address space
    is current again, when there was one. *)
Theorem ipl_loads_system as_ m nssname fmt entry segs s :
  nss_found m nssname s -> nss_file fmt entry segs -> segment_table as_ <> 0 ->
  guest_space (virt2phy (pasce as_)) frames -> guest_pages (sys s) ≡ₚ frames ->
  exists s', guest_ipl_nss bdev_read_block mem_ok fs virt2phy as_ m nssname s = Ret (0, s') /\
    (forall a, 0 <= a < size -> storage (sys s') (host frames a) = nss_view segs (fun _ => 0) a) /\
    (forall x, outside frames x -> storage (sys s') x = storage (sys s) x) /\
    state (cpu (sys s')) = GUEST_STOPPED /\ starts_at fmt entry (gpsw (sie (cpu (sys s')))) /\
    cr1 s' = (if cr1 s =? 0 then pasce as_ else cr1 s) /\ has_nss (sysfs s').
Proof.
  intros Hfd Hf Has Hg Hp. destruct (find_nss_spec m nssname s Hfd (nf_size _ _ _ Hf)) as (d & Ed & Hd).
  destruct (load_nss_spec as_ fmt entry segs (Ipl (sys s) d (cr1 s)) Hf Hd Has Hg Hp) as (s' & E & Hrest).
  exists s'. split; [|exact Hrest]. destruct Hf. unfold guest_ipl_nss, ipl_nss.
  rewrite (load_step _ _ _ _ _ Ed). cbv beta iota. rewrite (pure_step _ _ _ _ nf_hdr0). cbn [negb].
  rewrite (pure_step _ _ _ _ nf_class0).
  destruct fmt; cbn; cbn in E; by rewrite E.
Qed.
End loading.

(** Every failure leaves the CPU in the check-stop state with one of three codes. *)
Definition ipl_code (e : Z) : Prop := e = - EIO \/ e = - ECORRUPT \/ e = - Edf.ENOENT.

Definition coded {A} (m : load A) : Prop := forall s e s', m s = Ret (inl e, s') -> ipl_code e.

Lemma coded_bind {A B} (m : load A) (f : A -> load B) : coded m -> (forall a, coded (f a)) -> coded (m ≫= f).
Proof.
  intros Hm Hf s e s' E. unfold mbind, load_bind in E. apply bind_Ret in E as ([[e1|a] s1] & E1 & E2).
  - injection E2 as -> ->. by eapply Hm.
  - by eapply Hf.
Qed.

Lemma coded_pure {A} (m : outcome A) : coded (pure m).
Proof. intros s e s' E. unfold pure in E. by apply bind_Ret in E as (? & ? & ?). Qed.

Lemma coded_sys {A} (m : guest A) : coded (on_sys m).
Proof. intros s e s' E. unfold on_sys in E. by apply bind_Ret in E as ([] & ? & ?). Qed.

Lemma coded_catch {A} (m : load A) code : (forall e, ipl_code (code e)) -> coded (catch m code).
Proof.
  intros Hc s e s' E. unfold catch in E. apply bind_Ret in E as ([[e1|a] s1] & _ & E2); [|done]. injection E2 as <- <-. apply Hc.
Qed.

Lemma coded_never {A} (m : load A) : (forall s e s', m s <> Ret (inl e, s')) -> coded m.
Proof. intros H s e s' E. by apply H in E. Qed.

(** what holds in every state a computation that succeeds ends in *)
Definition ends {A} (m : load A) (P : ipl -> Prop) : Prop := forall s a s', m s = Ret (inr a, s') -> P s'.

Lemma ends_bind {A B} (m : load A) (f : A -> load B) P : (forall a, ends (f a) P) -> ends (m ≫= f) P.
Proof.
  intros Hf s b s' E. unfold mbind, load_bind in E. apply bind_Ret in E as ([[e1|a] s1] & _ & E2); [done|by eapply Hf].
Qed.

Section errors.
Context (bdev_read_block : Z -> Z + list Z) (mem_ok : nat -> bool) (fs : fs) (virt2phy : Z -> Z -> option Z) (as_ : address_space).

Lemma coded_phdr fmt file phdr : coded (load_phdr bdev_read_block mem_ok fs virt2phy fmt file phdr).
Proof.
  unfold load_phdr. apply coded_bind; [apply coded_pure|]. intros ty. destruct (negb (ty =? PT_LOAD)); [by apply coded_never|].
  apply coded_bind; [apply coded_pure|]. intros al. destruct (negb _).
  { intros s e s' [= <- <-]. right. by left. }
  do 4 (apply coded_bind; [apply coded_pure|]; intros ?). apply coded_catch. intros _. right. by left.
Qed.

Lemma coded_loop fmt file hdr i n : coded (LOAD_LOOP bdev_read_block mem_ok fs virt2phy fmt file hdr i n).
Proof.
  revert i. induction n as [|n IH]; intros i; cbn [LOAD_LOOP]; [by apply coded_never|].
  do 3 (apply coded_bind; [apply coded_pure|]; intros ?). apply coded_bind.
  { apply coded_never. intros s e s' E. unfold read_phdr in E. by apply bind_Ret in E as ([[]] & _ & ?). }
  intros ?. apply coded_bind; [apply coded_phdr|]. intros _. apply IH.
Qed.

Lemma coded_ipl m nssname : coded (ipl_nss bdev_read_block mem_ok fs virt2phy as_ m nssname).
Proof.
  unfold ipl_nss, find_nss. apply coded_bind.
  - apply coded_bind; [apply coded_pure|]. intros len. destruct (8 <? len).
    { intros s e s' [= <- <-]. right. by right. }
    apply coded_bind; [apply coded_pure|]. intros fn. apply coded_bind.
    { apply coded_catch. intros e. destruct (e =? _); [right; by right|by left]. }
    intros file. apply coded_bind.
    { apply coded_never. intros s e s' E. unfold on_disk, get_file in E.
      apply bind_Ret in E as ([r d] & E & E2). apply bind_Ret in E as (f & _ & [= <- <-]). done. }
    intros f. apply coded_bind; [apply coded_pure|]. intros _. apply coded_bind; [|intros ?; by apply coded_never].
    apply coded_catch. intros _. by left.
  - intros [file hdr]. apply coded_bind; [apply coded_pure|]. intros ok.
    destruct (negb ok); [intros s e s' [= <- <-]; right; by left|].
    apply coded_bind; [apply coded_pure|]. intros class.
    destruct (_ && _); [intros s e s' [= <- <-]; right; by left|]. unfold load_nss.
    do 2 (apply coded_bind; [apply coded_sys|]; intros _). apply coded_bind; [by apply coded_never|]. intros saved.
    apply coded_bind. { apply coded_never. intros s e s'. unfold load_as. by destruct (_ =? _). }
    intros _. apply coded_bind; [apply coded_pure|]. intros k. apply coded_bind; [apply coded_loop|]. intros _.
    apply coded_bind; [by apply coded_never|]. intros _. apply coded_bind; [apply coded_pure|]. intros entry.
    apply coded_bind; [apply coded_sys|]. intros _. apply coded_sys.
Qed.

Lemma ipl_outcome m nssname s r s' :
  guest_ipl_nss bdev_read_block mem_ok fs virt2phy as_ m nssname s = Ret (r, s') ->
  (r = 0 /\ state (cpu (sys s')) = GUEST_STOPPED) \/ (ipl_code r /\ state (cpu (sys s')) = GUEST_CHECKSTOP).
Proof.
  unfold guest_ipl_nss. intros E. apply bind_Ret in E as ([[e|[]] s1] & E1 & [= <- <-]).
  - right. split; [by eapply coded_ipl|done].
  - left. split; [done|]. revert E1. apply (ends_bind _ _ (fun s => state (cpu (sys s)) = GUEST_STOPPED)).
    intros [file hdr]. apply ends_bind. intros ok. destruct (negb ok); [done|]. apply ends_bind. intros class.
    destruct (_ && _); [done|]. unfold load_nss. repeat (apply ends_bind; intros ?).
    intros s0 [] s2 E. by injection E as <-.
Qed.
End errors.

(** * An executable of one block *)

(** a note, and 8 bytes of text at 0x1100, in a segment of 32 bytes *)
Definition sample_text : list Z := [0x0a; 0; 0x07; 0xfe; 1; 2; 3; 4].

Definition sample_image : list Z :=
  pad_block (([0x7f; 69; 76; 70; 1; 2; 1] ++ zeros 9 ++ be_bytes 2 ET_EXEC ++ be_bytes 2 EM_S390 ++ be_bytes 4 1 ++
    be_bytes 4 0x1104 ++ be_bytes 4 52 ++ zeros 4 ++ zeros 4 ++ be_bytes 2 52 ++ be_bytes 2 32 ++ be_bytes 2 2 ++ zeros 6) ++
    (be_bytes 4 4 ++ zeros 28) ++
    (be_bytes 4 PT_LOAD ++ be_bytes 4 0x100 ++ be_bytes 4 0x1100 ++ zeros 4 ++ be_bytes 4 8 ++ be_bytes 4 32 ++ zeros 4 ++ be_bytes 4 4096) ++
    zeros (256 - 116) ++ sample_text).

Definition sample_segs : list (option segment) := [None; Some (Segment 0x100 8 0x1100 32)].

(** CMS NSS in EBCDIC, at block 8 *)
Definition nss_fn : list Z := [0xc3; 0xd4; 0xe2; 0x40; 0x40; 0x40; 0x40; 0x40].
Definition nss_ft : list Z := [0xd5; 0xe2; 0xe2; 0x40; 0x40; 0x40; 0x40; 0x40].
Definition nss_FST : list Z := sample_FST nss_fn nss_ft 4096 8 1 1 0.

Definition nss_dev (lba : Z) : Z + list Z :=
  if lba =? 5 then inr (pad_block (sample_dir_FST ++ sample_FST ALLOCMAP_FN ALLOCMAP_FT 4096 9 1 1 0 ++ nss_FST))
  else if lba =? 8 then inr sample_image
  else sample_dev lba.

Definition nss_frames : list Z := [0x5000; 0x9000].
Definition nss_as : address_space := AddressSpace 0 0x3000.

Definition nss_virt2phy (cr1 a : Z) : option Z :=
  if (cr1 =? pasce nss_as) && (0 <=? a) && (a <? 8192) then Some (host nss_frames a) else None.

Definition nss_sys : virt_sys :=
  VirtSys (VirtCpu (SieCb 0 0 0 0 0 (zeros 16) (replicate 16 0))
    (GuestRegs (replicate 16 0) (replicate 16 0) (replicate 16 0) 0) 0 GUEST_OPERATING (replicate 8 []))
    [] false (rev nss_frames) [] (fun a => a).

(** the host has an address space of its own *)
Definition nss_start : ipl := Ipl nss_sys sample_mounted 0x7003.

Definition nss_after_lookup : disk :=
  match edf_lookup nss_dev (fun _ => true) sample_fs (zs "CMS     ") NSS_FILE_TYPE sample_mounted with
  | Ret (_, d) => d
  | _ => sample_mounted
  end.

Lemma sample_file : file_image nss_dev sample_ADT nss_FST sample_image.
Proof.
  split; [by vm_compute| |by vm_compute|by vm_compute]. intros b Hb. assert (b = 0) as ->.
  { change (lenZ sample_image / 4096) with 1 in Hb. lia. }
  vm_compute. reflexivity.
Qed.

Lemma sample_space : guest_space (nss_virt2phy (pasce nss_as)) nss_frames.
Proof.
  split.
  - intros a Ha. change (4096 * lenZ nss_frames) with 8192 in Ha. unfold nss_virt2phy. rewrite Z.eqb_refl.
    by rewrite (proj2 (Z.leb_le _ _)), (proj2 (Z.ltb_lt _ _)) by lia.
  - apply (bool_decide_unpack _). by vm_compute.
  - apply (bool_decide_unpack _). by vm_compute.
  - done.
Qed.

Lemma sample_phdrs : phdrs_ok sample_image nss_frames true (block_of sample_image 0) sample_segs.
Proof.
  split.
  - exists 52, 32. split_and!; [by vm_compute..|]. intros [|[|i]] o Ho; try discriminate Ho; injection Ho as <-.
    + split_and!; [by vm_compute..|]. exists 4. by vm_compute.
    + split_and!; by vm_compute.
  - intros g Hg. unfold sample_segs in Hg. rewrite !elem_of_cons in Hg.
    destruct Hg as [[=]|[[= ->]|Hn%not_elem_of_nil]]; [|done]. split; by vm_compute.
  - intros [|[|i]] [|[|j]] g h a Hi Hj; try discriminate; done.
Qed.

Lemma sample_nss : nss_file sample_image nss_frames true 0x1104 sample_segs.
Proof. split; [by vm_compute..|exact sample_phdrs]. Qed.

Lemma sample_found : nss_found nss_dev (fun _ => true) sample_fs 2 nss_FST (zs "cms" ++ zeros 5) 0 nss_start.
Proof.
  split; [|done|done]. exists 3, (zs "CMS     "), nss_after_lookup. split_and!; [by vm_compute..|].
  exists (File nss_FST []). split; [by vm_compute|]. split; [done|constructor].
Qed.

(** the text is at 0x9100, in the frame of guest page 1; the rest is zero *)
Lemma ipl_loads_system_witness : exists s',
  guest_ipl_nss nss_dev (fun _ => true) sample_fs nss_virt2phy nss_as (zs "cms" ++ zeros 5) 0 nss_start = Ret (0, s') /\
  (forall a, 0 <= a < 4096 * lenZ nss_frames ->
     storage (sys s') (host nss_frames a) = nss_view sample_image sample_segs (fun _ => 0) a) /\
  (forall x, outside nss_frames x -> storage (sys s') x = x) /\
  state (cpu (sys s')) = GUEST_STOPPED /\ starts_at true 0x1104 (gpsw (sie (cpu (sys s')))) /\
  cr1 s' = 0x7003 /\ has nss_dev sample_ADT 2 nss_FST (sysfs s').
Proof.
  apply (ipl_loads_system nss_dev (fun _ => true) sample_fs nss_virt2phy (fun _ => eq_refl) eq_refl 2 nss_FST sample_image
    sample_file nss_frames nss_as (zs "cms" ++ zeros 5) 0 true 0x1104 sample_segs nss_start).
  - exact sample_found.
  - exact sample_nss.
  - done.
  - exact sample_space.
  - symmetry. apply (Permutation_rev nss_frames).
Defined.

Example sample_text_at : map (nss_view sample_image sample_segs (fun _ => 0)) (seqZ 0x1100 8) = sample_text.
Proof. vm_compute. reflexivity. Qed.
