(* ===== verification/Create.v ===== *)
(** cp/guest/init.c and cp/guest/attach.c: making a virtual machine, and giving
    it a real device.

    A virtual machine is made of parts from everywhere: pages for its storage and
    its CPU (Buddy.v), tables that map the storage (Dat.v), objects from [malloc],
    spool files for its console (Spool.v), virtual devices (VirtIo.v) and a task
    (Sched.v).  [kernel] is the state they come from; an operation gives an error
    code or a value, and what it holds at a failure is given back.  The second
    section is about storage and is for any page source; the rest uses the
    buddy allocator.  The theorems: the storage of a new machine is mapped, page
    by page, to frames of its own that its tables are not in; a machine that is
    not made leaves every page and object it asked for free again; a device that
    is attached gets a number and a subchannel no other device has. *)

From S2P Require Import Prelude CString Format Buddy Dat Spool Sched Layout Guest VirtIo Ipl.

Local Open Scope Z_scope.

#[local] Arguments cons {A} & a l.

(** * Guest storage *)

Section storage.
Context {A : Type} `{PageSource A}.

(** [pages] are left; the frames so far, the last one first *)
Fixpoint alloc_frames (pages : nat) (guest_pages : list Z) (a : address_space) (s : dat A)
    : outcome (Z * list Z * address_space * dat A) :=
  match pages with
  | O => Ret (0, guest_pages, a, s)
  | S pages =>
      '(r, pgs) ← ps_alloc 0 (pgs s);
      let s := Dat (Dat.storage s) pgs in
      match r with
      | None => Ret (- ENOMEM, guest_pages, a, s)
      | Some p =>
          '(a, s) ← dat_insert_page a p (Z.shiftl (Z.of_nat pages) Buddy.PAGE_SHIFT) s;
          alloc_frames pages (p :: guest_pages) a s
      end
  end.

Definition alloc_guest_storage (storage_size : Z) (a : address_space) (s : dat A) : outcome (Z * list Z * address_space * dat A) :=
  alloc_frames (Z.to_nat (Z.shiftr storage_size Buddy.PAGE_SHIFT)) [] a s.
End storage.

(** * A machine and what it is made from *)

(** [struct user] *)
Record user := User {
  u_userid : list Z;
  u_storage_size : Z;
  u_devices : list directory_vdev;
  u_auth : Z;
}.

(** [struct virt_cons]; a spool file is an object and what is in it *)
Record virt_cons := VirtCons {
  v_dev : option Z;
  wlines : Z * spool_file;
  rlines : Z * spool_file;
  bigbuf : Z;
}.

(** the members of [struct sie_cb] that are only set here *)
Record sie_setup := SieSetup { gmsor : Z; gmslm : Z; gbea : Z; ecb : Z; eca : Z }.

(** [struct virt_sys] while it is made; [Guest.virt_sys] is what runs *)
Record vm := Vm {
  object : Z;
  directory : user;
  console : virt_cons;
  vcpu_page : Z;
  vcpu : virt_cpu;
  setup : sie_setup;
  vm_task : Z;
  vm_print_ts : bool;
  vm_pages : list Z;
  vm_devs : list virt_device;
  as_ : address_space;
  vm_con : list event;
}.

(** pages and storage, the objects [malloc] gave, and the lists of the system *)
Record kernel := Kernel {
  mm : dat buddy;
  live : list Z;
  mallocs : nat;
  rdevs : list real_device;
  users : list user;
  online : list vm;
  tasks : Sched.sys;
}.

Definition set_mm (m : dat buddy) (h : kernel) : kernel := Kernel m (live h) (mallocs h) (rdevs h) (users h) (online h) (tasks h).
Definition set_rdevs (l : list real_device) (h : kernel) : kernel := Kernel (mm h) (live h) (mallocs h) l (users h) (online h) (tasks h).
Definition set_users (l : list user) (h : kernel) : kernel := Kernel (mm h) (live h) (mallocs h) (rdevs h) l (online h) (tasks h).
Definition set_online (l : list vm) (h : kernel) : kernel := Kernel (mm h) (live h) (mallocs h) (rdevs h) (users h) l (tasks h).
Definition set_tasks (t : Sched.sys) (h : kernel) : kernel := Kernel (mm h) (live h) (mallocs h) (rdevs h) (users h) (online h) t.

Definition kern (A : Type) : Type := kernel -> outcome ((Z + A) * kernel).

#[global] Instance kern_ret : MRet kern := fun A a h => Ret (inr a, h).
#[global] Instance kern_bind : MBind kern := fun A B f m h =>
  '(r, h) ← m h; match r with inl e => Ret (inl e, h) | inr a => f a h end.

Definition get_kernel : kern kernel := fun h => Ret (inr h, h).
Definition modify (f : kernel -> kernel) : kern unit := fun h => Ret (inr tt, f h).
Definition fails {A} (e : Z) : kern A := fun h => Ret (inl e, h).
Definition call {A} (m : outcome A) : kern A := fun h => a ← m; Ret (inr a, h).

(** the [goto]s to the labels that give things back *)
Definition undo {A} (m : kern A) (u : kern unit) : kern A := fun h =>
  '(r, h) ← m h;
  match r with inr a => Ret (inr a, h) | inl e => (u ;; fails e) h end.

(** a call of [assert(!ret)] *)
Definition must {A} (m : kern A) : kern A := fun h =>
  '(r, h) ← m h; match r with inl _ => Stopped | inr a => Ret (inr a, h) end.

Section create.
Context (malloc_at : nat -> option Z).      (* what each call of [malloc] gives *)
Context (garbage : nat -> nat -> list Z).   (* what the object of a call holds *)
Context (old_as : Z -> address_space).      (* [sys->as] in the object *)
Context (getcpuid : Z) (oper_userid : list Z).
Context (start_task shell_start : Z).       (* addresses of functions *)

Definition malloc : kern Z := fun h =>
  let h' o := Kernel (mm h) (o ++ live h) (S (mallocs h)) (rdevs h) (users h) (online h) (tasks h) in
  match malloc_at (mallocs h) with
  | Some p => Ret (inr p, h' [p])
  | None => Ret (inl (- ENOMEM), h' [])
  end.

Definition free (p : Z) : kern unit := fun h =>
  Ret (inr tt, Kernel (mm h) (remove Z.eq_dec p (live h)) (mallocs h) (rdevs h) (users h) (online h) (tasks h)).

(** the address of a page *)
Definition alloc_page : kern Z := fun h =>
  '(r, b) ← buddy_alloc 0 (pgs (mm h));
  Ret (match r with Some p => inr p | None => inl (- ENOMEM) end, set_mm (Dat (Dat.storage (mm h)) b) h).

Definition free_page (p : Z) : kern unit := fun h =>
  b ← free_pages p 0 (pgs (mm h)); Ret (inr tt, set_mm (Dat (Dat.storage (mm h)) b) h).

(** ** Devices *)

Definition new_vdev (d : directory_vdev) (n : Z) (devs : list virt_device) : kernel -> outcome (Z * list virt_device * kernel) := fun h =>
  '(r, h1) ← malloc h;
  let '(ret, rd, devs) := alloc_virt_dev (match r with inr _ => true | inl _ => false end) (garbage (mallocs h)) (rdevs h) d n devs in
  let h2 := set_rdevs rd h1 in
  match r with
  | inr p => if ret =? 0 then Ret (ret, devs, h2) else '(_, h2) ← free p h2; Ret (ret, devs, h2)
  | inl _ => Ret (ret, devs, h2)
  end.

Fixpoint alloc_guest_devices (dir : list directory_vdev) (i : Z) (devs : list virt_device) (con : list event)
    : kernel -> outcome (list virt_device * list event * kernel) := fun h =>
  match dir with
  | [] => Ret (devs, con, h)
  | cur :: dir =>
      '(ret, devs, h) ← new_vdev cur (u32 (0x10000 + i)) devs h;
      con ← (if ret =? 0 then Ret con else
               e ← errstrings (- ret);
               Ret (Con "Failed to allocate vdev %04X, SCH = %05X (%s)" [d_vdev cur; 0x10000 + i; e] :: con));
      alloc_guest_devices dir (i + 1) devs con h
  end.

(** ** The virtual CPU *)

Definition vcpu_name : outcome (list Z) :=
  let fmt := zs "%s-vcpu0" ++ [0] in
  '(n, tname, _) ← snprintf 0x1000 (zeros 17) 32 (fmt ++ oper_userid ++ [0]) 0 [lenZ fmt];
  Ret (take (Z.to_nat n) tname).

(** the page and the object are both asked for before they are tested *)
Definition create_task (nm : list Z) (f data : Z) : kern Z := fun h =>
  '(page, h) ← alloc_page h;
  '(new, h) ← malloc h;
  let ok r := match r with inr p => Some p | inl _ => None end in
  '(r, t) ← Sched.create_task start_task (ok page) (ok new) nm f data (tasks h);
  let h := set_tasks t h in
  match r with
  | Some t => Ret (inr t, h)
  | None => (match new with inr t => free t | inl _ => mret tt end ;;
             match page with inr p => free_page p | inl _ => mret tt end ;;
             fails (- ENOMEM)) h
  end.

(** the page is cleared first *)
Definition new_vcpu : virt_cpu :=
  VirtCpu (SieCb 0 0 0 0 0 (zeros psw_size) (replicate 16 0))
    (GuestRegs (replicate 16 0) (replicate 16 0) (replicate 64 0) 0)
    (Z.lor getcpuid 0xFF00000000000000) GUEST_STOPPED (replicate 8 []).

Definition free_vcpu (page : Z) (c : virt_cpu) : kern unit :=
  call (bug_on (negb (forallb (fun l => bool_decide (l = [])) (int_io c)))) ;; free_page page.

(** the page of the CPU, the CPU, the other members and the task; the task gets
    the machine at [obj] *)
Definition alloc_vcpu (obj storage_size : Z) : kern (Z * virt_cpu * sie_setup * Z) :=
  page ← alloc_page;
  tname ← call vcpu_name;
  task ← undo (create_task tname shell_start obj) (free_vcpu page new_vcpu);
  mret (page, new_vcpu, SieSetup 0 storage_size 1 2 0xC1002001, task).

(** ** The console *)

Definition alloc_spool : kern (Z * spool_file) := o ← malloc; mret (o, Spool.alloc_spool).
Definition free_spool (f : Z * spool_file) : kern unit := free f.1.

Definition alloc_console (rcon : option Z) : kern virt_cons :=
  w ← alloc_spool;
  r ← undo alloc_spool (free_spool w);
  page ← undo alloc_page (free_spool r ;; free_spool w);
  mret (VirtCons rcon w r page).

Definition free_console (c : virt_cons) : kern unit :=
  free_spool (rlines c) ;; free_spool (wlines c) ;; free_page (bigbuf c).

(** ** The directory and the users *)

(** two strings at their places in storage *)
Definition strings (cmp : memory -> Z -> Z -> outcome Z) (a b : list Z) : outcome bool :=
  r ← cmp (a ++ [0] ++ b ++ [0]) 0 (lenZ a + 1); Ret (r =? 0).

Fixpoint find_user (l : list user) (userid : list Z) : outcome (option user) :=
  match l with
  | [] => Ret None
  | u :: l => same ← strings strcasecmp (u_userid u) userid; if (same : bool) then Ret (Some u) else find_user l userid
  end.

Definition find_user_by_id (userid : option (list Z)) : kern user := fun h =>
  match userid with
  | None => Ret (inl (- ENOENT), h)
  | Some id => u ← find_user (users h) id; Ret (match u with Some u => inr u | None => inl (- ENOENT) end, h)
  end.

(** [prop] is the storage size when there is one *)
Definition directory_alloc_user (name : option (list Z)) (auth : Z) (prop : option Z) (vdevs : list directory_vdev) : kern unit :=
  name ← call (match name with Some n => Ret n | None => Stopped end);
  size ← call (match prop with Some n => Ret n | None => Stopped end);
  must malloc ;;
  modify (fun h => set_users (users h ++ [User name size vdevs auth]) h).

Fixpoint is_online (l : list vm) (name : list Z) : outcome bool :=
  match l with
  | [] => Ret false
  | v :: l => same ← strings strcmp (u_userid (directory v)) name; if (same : bool) then Ret true else is_online l name
  end.

(** ** The machine *)

Definition guest_storage (size : Z) (a : address_space) : kern (list Z * address_space) := fun h =>
  '(ret, pages, a, m) ← alloc_guest_storage size a (mm h);
  Ret (if ret =? 0 then inr (pages, a) else inl ret, set_mm m h).

(** the rest once the user is known; the name of the task is always made of the operator's id *)
Definition make_vm (obj : Z) (con : virt_cons) (u : user) : kern vm :=
  fun h => '(devs, msgs, h) ← alloc_guest_devices (u_devices u) 0 [] [] h;
  (('(pages, a) ← must (guest_storage (u_storage_size u) (old_as obj));
    '(page, c, st, task) ← must (alloc_vcpu obj (u_storage_size u));
    let v := Vm obj u con page c st task true pages devs a msgs in
    modify (fun h => set_online (online h ++ [v]) h) ;; mret v) h).

Definition guest_create_or (name : list Z) (rcon : option Z) : kern vm :=
  h ← get_kernel;
  on ← call (is_online (online h) name);
  if (on : bool) then fails (- EBUSY) else
  obj ← malloc;
  con ← undo (alloc_console rcon) (free obj);
  u ← undo (find_user_by_id (Some name)) (free_console con ;; free obj);
  make_vm obj con u.

(** every failure is NULL *)
Definition guest_create (name : list Z) (rcon : option Z) : kernel -> outcome (option vm * kernel) := fun h =>
  '(r, h) ← guest_create_or name rcon h; Ret (match r with inr v => Some v | inl _ => None end, h).

(** the callback is given the machines in the order they came *)
Definition list_users {B} (f : option (vm -> kernel -> outcome (B * kernel))) : kernel -> outcome (list B * kernel) := fun h =>
  match f with
  | None => Ret ([], h)
  | Some f => fold_left (fun r v => '(l, h) ← r; '(b, h) ← f v h; Ret (l ++ [b], h)) (online h) (Ret ([], h))
  end.

(** ** Attaching a real device *)

(** the first of [n] numbers that is not [used]; the last test decides *)
Fixpoint first_free (used : Z -> bool) (k : Z) (n : nat) : option Z :=
  match n with
  | O => None
  | S n => if used k then first_free used (k + 1) n else Some k
  end.

Definition pick_vdev (devs : list virt_device) (vdev : Z) : option Z :=
  if vdev =? 2 ^ 64 - 1 then first_free (fun k => existsb (fun d => getf pmcw_dev_num (pmcw d) =? k) devs) 0 65536
  else Some vdev.

Definition pick_sch (devs : list virt_device) : option Z :=
  first_free (fun k => existsb (fun d => sch d =? k) devs) 0x10000 65536.

Definition guest_attach (v : vm) (rdev vdev : Z) : kernel -> outcome (Z * list virt_device * kernel) := fun h =>
  let devs := vm_devs v in
  match pick_vdev devs vdev with
  | None => Ret (- EBUSY, devs, h)
  | Some vdev =>
      match pick_sch devs with
      | None => Ret (- EBUSY, devs, h)
      | Some n => new_vdev (DirectoryVdev VDEV_DED (u16 vdev) (DirDed (u16 rdev))) n devs h
      end
  end.
End create.

(** * Storage is mapped to frames of its own *)

(** LRAG in a segment table of the full length: control register 1, address *)
Definition lrag (m : Z -> Z) (cr1 a : Z) : option Z :=
  if (0 <=? a) && (a <? 2 ^ 31) then walk m (Z.shiftl (Z.shiftr cr1 12) 12) a else None.

Section mapped.
Context {A : Type} `{PageSource A}.

(** page numbers of frames are not for tables *)
Definition apart_from (F : Z -> Prop) (l : list Z) (n : Z) : Prop := F n /\ forall p, p ∈ l -> n <> p / 4096.

Definition page_index (v : Z) : Z := DAT_SX v * 256 + DAT_PX v.

(** the frames [l] are those of pages [k], [k + 1], ... *)
Record laid (F : Z -> Prop) (st k : Z) (l : list Z) (s : dat A) : Prop := Laid {
  ld_wf : wf_tables (apart_from F l) st s;
  ld_nodup : NoDup l;
  ld_frames : Forall (fun p => 0 < p < 2 ^ 62 /\ p mod 4096 = 0) l;
  ld_pages : forall p, p ∈ l -> F (p / 4096);
  ld_walk : forall v, walk (Dat.storage s) st v =
    if decide (k <= page_index v) then option_map (fun p => p + DAT_BX v) (l !! Z.to_nat (page_index v - k)) else None;
}.

Lemma wf_tables_weaken (F G : Z -> Prop) st (s : dat A) : (forall n, F n -> G n) -> wf_tables F st s -> wf_tables G st s.
Proof.
  intros HFG []. split; try done.
  - intros n Hn. by apply HFG, wt_free.
  - intros n Hn. destruct (wt_st_pages n Hn). split; [by apply HFG|done].
  - intros k Hk. destruct (wt_ste k Hk) as [?|(? & ? & ? & ? & ?)]; [by left|right]. split_and!; try done; try lia. by apply HFG.
Qed.

(** another page is taken from the source *)
Lemma wf_tables_take F l st (s : dat A) p a :
  wf_tables (apart_from F l) st s -> ps_alloc 0 (pgs s) = Ret (Some p, a) ->
  wf_tables (apart_from F (p :: l)) st (Dat (Dat.storage s) a).
Proof.
  intros [] E. destruct (ps_alloc_spec _ _ _ _ wt_inv E) as (Hinv & _ & _ & Hfr & Hnew).
  destruct (Hnew (p / 4096)) as [Hpf Hpn]; [lia|].
  assert (forall n, apart_from F l n -> n <> p / 4096 -> apart_from F (p :: l) n) as Hap.
  { intros n [Hn Hl] Hne. split; [done|]. intros q [->|Hq]%elem_of_cons; [done|by apply Hl]. }
  split; cbn [Dat.storage pgs]; try done.
  - intros n Hn. apply Hap; [by apply wt_free, Hfr|]. by intros ->.
  - intros n Hn. destruct (wt_st_pages n Hn) as [HF Hnf]. split; [|by intros ?%Hfr]. apply Hap; [done|]. by intros ->.
  - intros k Hk. destruct (wt_ste k Hk) as [?|(? & ? & HF & Hnf & ?)]; [by left|right]. split_and!; try done; try lia.
    + apply Hap; [done|]. intros E'. by rewrite E' in Hnf.
    + by intros ?%Hfr.
Qed.

Lemma bx_mod v : DAT_BX v = v mod 4096.
Proof. unfold DAT_BX. change 0xfff with (Z.ones 12). by rewrite Z.land_ones. Qed.

Lemma page_index_low v : 0 <= v < 2 ^ 31 -> page_index v = v / 4096.
Proof.
  intros Hv. unfold page_index, DAT_SX, DAT_PX. change 0x7ff with (Z.ones 11). change 0xff with (Z.ones 8).
  rewrite !Z.land_ones, !Z.shiftr_div_pow2 by lia. change (2 ^ 20) with 1048576. change (2 ^ 12) with 4096.
  change (2 ^ 11) with 2048. change (2 ^ 8) with 256. divlia.
Qed.

Lemma same_page_index v w : same_page v w = true <-> page_index v = page_index w.
Proof.
  unfold same_page, page_index. pose proof (DAT_PX_range v). pose proof (DAT_PX_range w).
  rewrite andb_true_iff, !Z.eqb_eq. lia.
Qed.

(** page [k - 1] is inserted, at a frame that is taken *)
Lemma insert_laid F st k l p n (s : dat A) :
  wf_tables (apart_from F (p :: l)) st s -> NoDup (p :: l) -> Forall (fun p => 0 < p < 2 ^ 62 /\ p mod 4096 = 0) (p :: l) ->
  (forall q, q ∈ p :: l -> F (q / 4096)) ->
  (forall v, walk (Dat.storage s) st v =
    if decide (k <= page_index v) then option_map (fun p => p + DAT_BX v) (l !! Z.to_nat (page_index v - k)) else None) ->
  0 < k <= 2 ^ 19 -> enough (S n) (pgs s) = true ->
  exists s', walk_segment st p (Z.shiftl (k - 1) 12) s = Ret s' /\ enough n (pgs s') = true /\
    laid F st (k - 1) (p :: l) s' /\ (forall x, ~ F (x / 4096) -> Dat.storage s' x = Dat.storage s x).
Proof.
  intros Hwf Hnd Hfr HF Hold Hk Hroom. pose proof (proj1 (Forall_cons _ _ _) Hfr) as [[Hp Hpm] _].
  destruct (walk_segment_spec n _ st p (Z.shiftl (k - 1) 12) s Hwf Hroom) as (s' & Hroom' & E & Hwf' & Hw & Hout); [lia|].
  exists s'. split_and!; [done|done| |intros x Hx; rewrite Hout; [done|by intros [? _]]].
  split; [done..|]. intros v. rewrite Hw, Hold.
  assert (page_index (Z.shiftl (k - 1) 12) = k - 1) as Ek.
  { rewrite Z.shiftl_mul_pow2 by lia. change (2 ^ 12) with 4096. rewrite page_index_low by lia. divlia. }
  assert (Z.shiftl (Z.shiftr p 12) 12 = p) as Ep.
  { rewrite Z.shiftl_mul_pow2, Z.shiftr_div_pow2 by lia. change (2 ^ 12) with 4096. divlia. }
  destruct (same_page v _) eqn:Es.
  - apply same_page_index in Es. rewrite Es, Ek, Ep. rewrite decide_True by lia. by rewrite Z.sub_diag.
  - assert (page_index v <> k - 1) as Hne. { intros Ev. rewrite <- Ek in Ev. apply same_page_index in Ev. congruence. }
    destruct (decide (k <= page_index v)) as [Hle|Hle]; [|by rewrite decide_False by lia].
    rewrite decide_True by lia. replace (Z.to_nat (page_index v - (k - 1))) with (S (Z.to_nat (page_index v - k))) by lia. done.
Qed.

Lemma laid_step F st k l p a n (s : dat A) :
  laid F st k l s -> 0 < k <= 2 ^ 19 -> ps_alloc 0 (pgs s) = Ret (Some p, a) -> enough (S n) a = true ->
  exists s', walk_segment st p (Z.shiftl (k - 1) 12) (Dat (Dat.storage s) a) = Ret s' /\ enough n (pgs s') = true /\
    laid F st (k - 1) (p :: l) s' /\ (forall x, ~ F (x / 4096) -> Dat.storage s' x = Dat.storage s x).
Proof.
  intros Hl Hk Ea Hroom. pose proof (ld_wf _ _ _ _ _ Hl) as Hwf.
  destruct (ps_alloc_spec _ _ _ _ (wt_inv _ _ _ Hwf) Ea) as (_ & Hp & Hpm & Hfr & Hnew).
  destruct (Hnew (p / 4096)) as [Hpf Hpn]; [lia|]. destruct (wt_free _ _ _ Hwf _ Hpf) as [HpF Hpl].
  apply (insert_laid F st k l p n (Dat (Dat.storage s) a)); try done.
  - by apply wf_tables_take.
  - constructor; [|apply Hl]. intros Hin. by destruct (Hpl p Hin).
  - constructor; [done|apply Hl].
  - intros q [->|Hq]%elem_of_cons; [done|by apply (ld_pages _ _ _ _ _ Hl)].
  - apply (ld_walk _ _ _ _ _ Hl).
Qed.

Lemma alloc_frames_laid F st n l (s : dat A) :
  laid F st (Z.of_nat n) l s -> Z.of_nat n <= 2 ^ 19 -> enough (n + n) (pgs s) = true ->
  exists l' s', alloc_frames n l (AddressSpace 0 st) s = Ret (0, l', AddressSpace 0 st, s') /\
    lenZ l' = Z.of_nat n + lenZ l /\ laid F st 0 l' s' /\ (forall x, ~ F (x / 4096) -> Dat.storage s' x = Dat.storage s x).
Proof.
  revert l s. induction n as [|n IH]; intros l s Hl Hn Hroom; [by exists l, s|].
  replace (S n + S n)%nat with (S (S (n + n))) in Hroom by lia.
  destruct (enough_alloc _ _ 0 Hroom) as (p & a & Ea & Hroom1); [by left|].
  destruct (laid_step _ _ _ _ _ _ _ _ Hl ltac:(lia) Ea Hroom1) as (s1 & E1 & Hroom2 & Hl1 & Hout1).
  replace (Z.of_nat (S n) - 1) with (Z.of_nat n) in * by lia.
  destruct (IH (p :: l) s1 Hl1 ltac:(lia) Hroom2) as (l' & s' & E & Hlen & Hl' & Hout).
  exists l', s'. split_and!; [|rewrite Hlen; unfold lenZ; cbn [length]; lia|done|intros x Hx; by rewrite Hout, Hout1].
  cbn [alloc_frames]. rewrite Ea. cbn [mbind outcome_bind]. unfold dat_insert_page. cbn [region_table segment_table Z.eqb].
  pose proof (wt_st _ _ _ (ld_wf _ _ _ _ _ Hl)) as [Hst _]. rewrite (proj2 (Z.eqb_neq st 0)) by lia.
  cbn [mbind outcome_bind segment_table]. change Buddy.PAGE_SHIFT with 12. rewrite E1. exact E.
Qed.

(** the first page: the tables are made after it *)
Lemma first_frame n (s : dat A) : Z.of_nat (S n) <= 2 ^ 19 -> ps_inv (pgs s) -> enough (S (S (S (n + n)))) (pgs s) = true ->
  exists p st s', laid (ps_free (pgs s)) st (Z.of_nat n) [p] s' /\ enough (n + n) (pgs s') = true /\
    alloc_frames (S n) [] (AddressSpace 0 0) s = alloc_frames n [p] (AddressSpace 0 st) s' /\
    (forall x, ~ ps_free (pgs s) (x / 4096) -> Dat.storage s' x = Dat.storage s x).
Proof.
  intros Hn Hinv Hroom. destruct (enough_alloc _ _ 0 Hroom) as (p & a & Ea & Hroom1); [by left|].
  destruct (ps_alloc_spec _ _ _ _ Hinv Ea) as (Hinv1 & Hp & Hpm & Hfr & Hnew).
  destruct (Hnew (p / 4096)) as [Hpf Hpn]; [lia|].
  destruct (first_table_spec _ (Dat (Dat.storage s) a) Hinv1 Hroom1) as (st & s1 & Hroom2 & E1 & Hwf & Hw & Hout1). cbn [Dat.storage pgs] in *.
  destruct (insert_laid (ps_free (pgs s)) st (Z.of_nat (S n)) [] p (n + n) s1) as (s2 & E2 & Hroom3 & Hl2 & Hout2); try done.
  - eapply wf_tables_weaken; [|exact Hwf]. intros k Hk. split; [by apply Hfr|]. intros q ->%list_elem_of_singleton. by intros ->.
  - apply NoDup_singleton.
  - by apply Forall_singleton.
  - by intros q ->%list_elem_of_singleton.
  - intros v. rewrite Hw. by destruct (decide _).
  - replace (Z.of_nat (S n) - 1) with (Z.of_nat n) in * by lia. exists p, st, s2. split_and!; [done|done| |].
    + cbn [alloc_frames]. rewrite Ea. cbn [mbind outcome_bind]. unfold dat_insert_page. cbn [region_table segment_table Z.eqb].
      rewrite E1. cbn [mbind outcome_bind segment_table]. change Buddy.PAGE_SHIFT with 12. by rewrite E2.
    + intros x Hx. rewrite Hout2 by done. apply Hout1. by intros ?%Hfr.
Qed.

(** LRAG reads the tables only *)
Lemma lrag_laid F st l (s : dat A) m a : laid F st 0 l s -> lenZ l <= 2 ^ 19 ->
  (forall x, (forall p, p ∈ l -> x / 4096 <> p / 4096) -> m x = Dat.storage s x) ->
  lrag m (pasce (AddressSpace 0 st)) a =
    if decide (0 <= a < 4096 * lenZ l) then Some (host l a) else None.
Proof.
  intros Hl Hlen Hm. destruct (wt_st _ _ _ (ld_wf _ _ _ _ _ Hl)) as [Hst Hstm].
  assert (Z.shiftl (Z.shiftr (pasce (AddressSpace 0 st)) 12) 12 = st) as Epa.
  { unfold pasce, dat_td. cbn [segment_table]. rewrite (wrap_small 52) by (rewrite Z.shiftr_div_pow2 by lia; change (2 ^ 12) with 4096; divlia).
    change (Z.lor (Z.shiftl DAT_TD_DT_ST 2) 3) with 3. apply Z.bits_inj'. intros i Hi.
    rewrite !Z.shiftl_spec by lia. destruct (decide (i < 12)) as [Hlt|].
    - rewrite Z.testbit_neg_r by lia. symmetry. apply aligned_bit; [done|lia].
    - rewrite Z.shiftr_spec by lia. rewrite Z.lor_spec, Z.shiftl_spec, Z.shiftr_spec by lia.
      replace (i - 12 + 12 - 12 + 12) with i by lia. replace (i - 12 + 12) with i by lia.
      assert (Z.testbit 3 i = false) as ->; [|by rewrite orb_false_r]. apply Z.bits_above_log2; [done|]. change (Z.log2 3) with 1. lia. }
  unfold lrag. rewrite Epa. destruct (Z.leb_spec 0 a) as [H0|]; [|by rewrite decide_False by lia].
  destruct (Z.ltb_spec a (2 ^ 31)) as [H31|]; cbn [andb]; [|by rewrite decide_False by lia].
  assert (walk m st a = walk (Dat.storage s) st a) as ->.
  { pose proof (DAT_SX_range a) as Hsx. pose proof (DAT_PX_range a). rewrite !walk_macros. cbv zeta.
    assert (m (st + 8 * DAT_SX a) = Dat.storage s (st + 8 * DAT_SX a)) as ->.
    { apply Hm. apply (wt_st_pages _ _ _ (ld_wf _ _ _ _ _ Hl)). by apply ste_page. }
    destruct (wt_ste _ _ _ (ld_wf _ _ _ _ _ Hl) _ Hsx) as [->|(Hr & Hmod & [_ Hap] & _ & _)]; [done|].
    rewrite ste_origin_addr by (done || lia). rewrite Hm; [done|]. rewrite pte_page by (done || lia). done. }
  rewrite (ld_walk _ _ _ _ _ Hl), page_index_low, bx_mod by done. rewrite decide_True by divlia. rewrite Z.sub_0_r.
  unfold host. case_decide as Hin.
  - destruct (lookup_lt_is_Some_2 l (Z.to_nat (a / 4096))) as [p ->]; [unfold lenZ in Hin; divlia|]. done.
  - rewrite lookup_ge_None_2; [done|]. unfold lenZ in Hin. divlia.
Qed.

Lemma laid_space F st l (s : dat A) : laid F st 0 l s -> lenZ l <= 2 ^ 19 ->
  guest_space (lrag (Dat.storage s) (pasce (AddressSpace 0 st))) l.
Proof.
  intros Hl Hlen. split; [|apply Hl| |lia].
  - intros a Ha. rewrite (lrag_laid F st l s) by done. by rewrite decide_True.
  - eapply Forall_impl; [apply Hl|]. cbn. intros; lia.
Qed.

(** C20: The storage of a new machine of up to 2 GB, when the page source has the
    pages and the address space the machine starts from is empty (the code does
    not see to that: init.c:73 hands [dat_insert_page] the [as] that malloc gave,
    with whatever it held; the theorem is about a member that was zero): as many frames as the size has pages, taken from the free pages; LRAG
    under the tables built gives every guest address the byte of its frame, no
    two the same, and no address beyond the size anything; whatever the guest
    stores in its frames, its addresses are translated alike; and nothing but
    free pages is stored to. *)
Theorem guest_storage_mapped size (s : dat A) :
  4096 <= size <= 2 ^ 31 -> ps_inv (pgs s) -> enough (S (2 * Z.to_nat (size / 4096))) (pgs s) = true ->
  exists frames a s', alloc_guest_storage size (AddressSpace 0 0) s = Ret (0, frames, a, s') /\
    lenZ frames = size / 4096 /\ (forall p, p ∈ frames -> ps_free (pgs s) (p / 4096) /\ ~ ps_free (pgs s') (p / 4096)) /\
    guest_space (lrag (Dat.storage s') (pasce a)) frames /\
    (forall v, 4096 * lenZ frames <= v -> lrag (Dat.storage s') (pasce a) v = None) /\
    (forall m, (forall x, (forall p, p ∈ frames -> x / 4096 <> p / 4096) -> m x = Dat.storage s' x) ->
       forall v, lrag m (pasce a) v = lrag (Dat.storage s') (pasce a) v) /\
    (forall x, ~ ps_free (pgs s) (x / 4096) -> Dat.storage s' x = Dat.storage s x).
Proof.
  intros Hsize Hinv Hroom. unfold alloc_guest_storage. rewrite Z.shiftr_div_pow2 by (vm_compute; done).
  change (2 ^ Buddy.PAGE_SHIFT) with 4096. assert (0 < size / 4096 <= 2 ^ 19) as Hn by divlia.
  destruct (Z.to_nat (size / 4096)) as [|n] eqn:En; [lia|].
  replace (S (2 * S n)) with (S (S (S (n + n)))) in Hroom by lia.
  destruct (first_frame n s) as (p & st & s1 & Hl1 & Hroom1 & -> & Hout1); [lia|done..|].
  destruct (alloc_frames_laid _ _ _ _ _ Hl1) as (l & s2 & E & Hlen & Hl & Hout); [lia|done|].
  assert (lenZ l = size / 4096) as Hlz by (rewrite Hlen; unfold lenZ; cbn [length]; lia).
  exists l, (AddressSpace 0 st), s2. split_and!; [done|done| | | | |].
  - intros q Hq. split; [by apply (ld_pages _ _ _ _ _ Hl)|]. intros Hf.
    destruct (wt_free _ _ _ (ld_wf _ _ _ _ _ Hl) _ Hf) as [_ Hne]. by destruct (Hne q Hq).
  - apply (laid_space _ _ _ _ Hl). lia.
  - intros v Hv. rewrite (lrag_laid _ _ _ _ _ v Hl) by (done || lia). by rewrite decide_False by lia.
  - intros m Hm v. rewrite (lrag_laid _ _ _ _ m v Hl), (lrag_laid _ _ _ _ _ v Hl) by (done || lia). done.
  - intros x Hx. by rewrite Hout, Hout1.
Qed.
End mapped.

(** * A machine that is not made leaves nothing behind *)

Section failure.
Context (malloc_at : nat -> option Z).
Context (garbage : nat -> nat -> list Z) (old_as : Z -> address_space) (getcpuid : Z) (oper_userid : list Z).
Context (start_task shell_start : Z).

(** [h] with another page allocator, objects and number of allocations *)
Definition with_ (b : buddy) (l : list Z) (n : nat) (h : kernel) : kernel :=
  Kernel (Dat (Dat.storage (mm h)) b) l n (rdevs h) (users h) (online h) (tasks h).

Lemma with_self h : with_ (pgs (mm h)) (live h) (mallocs h) h = h.
Proof. by destruct h as [[]]. Qed.

Lemma malloc_cases b l n h r h' : malloc malloc_at (with_ b l n h) = Ret (r, h') ->
  match r with
  | inr p => malloc_at n = Some p /\ h' = with_ b (p :: l) (S n) h
  | inl _ => h' = with_ b l (S n) h
  end.
Proof. unfold malloc. cbn. by destruct (malloc_at n); intros [= <- <-]. Qed.

Lemma free_head p b l n h : p ∉ l -> free p (with_ b (p :: l) n h) = Ret (inr tt, with_ b l n h).
Proof.
  intros Hp. unfold free. cbn. destruct (Z.eq_dec p p); [|done].
  by rewrite List.notin_remove by (by rewrite <- list_elem_of_In).
Qed.

(** the objects [malloc] gives next are not in use *)
Definition fresh_objects (k : nat) (l : list Z) (n : nat) : Prop :=
  forall i p, (n <= i < n + k)%nat -> malloc_at i = Some p -> p ∉ l /\ forall j, (n <= j < i)%nat -> malloc_at j <> Some p.

Lemma fresh_next k l n p : fresh_objects (S k) l n -> malloc_at n = Some p -> p ∉ l /\ fresh_objects k (p :: l) (S n).
Proof.
  intros Hf Hp. split; [apply (Hf n p); [lia|done]|]. intros i q Hi Hq. destruct (Hf i q) as [Hl Hj]; [lia|done|].
  split; [|intros j Hji; apply Hj; lia]. intros [->|?]%elem_of_cons; [|done]. by destruct (Hj n); [lia|].
Qed.

Lemma fresh_less k l n : fresh_objects (S k) l n -> fresh_objects k l n.
Proof. intros Hf i p Hi. apply Hf. lia. Qed.

(** a page taken: what is left and the page make what there was *)
Definition one_page (b b' : buddy) (addr : Z) : Prop :=
  exists p, addr = page_to_addr p /\ Buddy.wf b' /\ (exists low, zone_block low 0 p) /\ frees b ≡ₚ pages p 0 ++ frees b'.

Lemma alloc_page_cases b l n h r h' : Buddy.wf b -> alloc_page (with_ b l n h) = Ret (r, h') ->
  match r with
  | inr p => exists b', h' = with_ b' l n h /\ one_page b b' p
  | inl _ => h' = with_ b l n h
  end.
Proof.
  intros Hwf E. unfold alloc_page, buddy_alloc in E. cbn [with_ mm pgs] in E. apply bind_Ret in E as ([r1 b1] & E1 & E2).
  apply bind_Ret in E1 as ([r2 b2] & E1 & E3). injection E3 as <- <-.
  apply alloc_pages_spec in E1 as [Hwf2 Hp]; [|done]. injection E2 as <- <-. destruct r2 as [p|]; cbn in *.
  - destruct Hp as (_ & (low & Hz & _) & Hf). exists b2. split; [done|]. exists p. split_and!; [done|done|by exists low|done].
  - by rewrite Hp.
Qed.

Lemma free_page_spec b b1 p l n h : one_page b b1 p ->
  exists b2, free_page p (with_ b1 l n h) = Ret (inr tt, with_ b2 l n h) /\ Buddy.wf b2 /\ frees b2 ≡ₚ frees b.
Proof.
  intros (q & -> & Hwf & (low & Hz) & Hf). destruct (free_pages_spec q low 0 b1 Hwf ltac:(lia) Hz) as (b2 & E & Hwf2 & Hf2).
  exists b2. split_and!; [|done|by rewrite Hf2, Hf]. unfold free_page. cbn. by rewrite E.
Qed.

Lemma alloc_console_cases rcon b l n h r h' : Buddy.wf b -> fresh_objects 2 l n ->
  alloc_console malloc_at rcon (with_ b l n h) = Ret (r, h') ->
  match r with
  | inr c => exists b', h' = with_ b' ((rlines c).1 :: (wlines c).1 :: l) (S (S n)) h /\ one_page b b' (bigbuf c) /\
      (wlines c).1 ∉ l /\ (rlines c).1 ∉ (wlines c).1 :: l
  | inl _ => exists n', h' = with_ b l n' h
  end.
Proof.
  intros Hwf Hf E. unfold alloc_console in E. apply bind_Ret in E as ([r1 h1] & E1 & E).
  unfold alloc_spool in E1. apply bind_Ret in E1 as ([r0 h0] & E0 & E1). apply malloc_cases in E0.
  destruct r0 as [e|p]; [injection E1 as <- <-; injection E as <- <-; by exists (S n)|].
  destruct E0 as [Ep ->]. injection E1 as <- <-. destruct (fresh_next _ _ _ _ Hf Ep) as [Hp Hf1].
  apply bind_Ret in E as ([r2 h2] & E2 & E). unfold undo in E2. apply bind_Ret in E2 as ([r3 h3] & E3 & E2).
  unfold alloc_spool in E3. apply bind_Ret in E3 as ([r0 h0] & E0 & E3). apply malloc_cases in E0.
  destruct r0 as [e|q].
  { injection E3 as <- <-. unfold free_spool, mbind, kern_bind in E2. rewrite E0, (free_head _ _ _ _ _ Hp) in E2.
    injection E2 as <- <-. injection E as <- <-. by eexists. }
  destruct E0 as [Eq ->]. injection E3 as <- <-. injection E2 as <- <-.
  destruct (fresh_next _ _ _ _ Hf1 Eq) as [Hq _].
  apply bind_Ret in E as ([r4 h4] & E4 & E). unfold undo in E4. apply bind_Ret in E4 as ([r5 h5] & E5 & E4).
  apply alloc_page_cases in E5; [|done]. destruct r5 as [e|pg].
  - unfold free_spool, mbind, kern_bind in E4. cbn [fst] in E4.
    rewrite E5, (free_head _ _ _ _ _ Hq) in E4. cbn [mbind outcome_bind] in E4. rewrite (free_head _ _ _ _ _ Hp) in E4.
    injection E4 as <- <-. injection E as <- <-. by eexists.
  - destruct E5 as (b' & -> & Hpg). injection E4 as <- <-. injection E as <- <-. cbn. by exists b'.
Qed.

(** [h'] is [h] up to the order of free pages and the count of allocations *)
Record nothing_kept (h h' : kernel) : Prop := NothingKept {
  nk_storage : Dat.storage (mm h') = Dat.storage (mm h);
  nk_pages : Buddy.wf (pgs (mm h')) /\ frees (pgs (mm h')) ≡ₚ frees (pgs (mm h));
  nk_live : live h' = live h;
  nk_devices : rdevs h' = rdevs h;
  nk_lists : users h' = users h /\ online h' = online h;
  nk_tasks : tasks h' = tasks h;
}.

Lemma kept_with b n h : Buddy.wf b -> frees b ≡ₚ frees (pgs (mm h)) -> nothing_kept h (with_ b (live h) n h).
Proof. by split. Qed.

Lemma must_Ret {X} (m : kern X) h r h' : must m h = Ret (r, h') -> exists a, r = inr a.
Proof. unfold must. intros E. apply bind_Ret in E as ([[e|a] h1] & _ & E); [done|]. injection E as <- <-. by exists a. Qed.

Lemma make_vm_some obj con u h r h' :
  make_vm malloc_at garbage old_as getcpuid oper_userid start_task shell_start obj con u h = Ret (r, h') -> exists v, r = inr v.
Proof.
  unfold make_vm. intros E. apply bind_Ret in E as ([[devs msgs] h1] & _ & E).
  apply bind_Ret in E as ([r1 h2] & E1 & E). apply must_Ret in E1 as [[pages a] ->].
  apply bind_Ret in E as ([r2 h3] & E2 & E). apply must_Ret in E2 as [[[[page c] st] task] ->].
  injection E as <- <-. by eexists.
Qed.

(** C23: When no machine is made (the user is online already or not in the
    directory, or memory runs out for the machine or its console), everything
    asked for is given back: the free pages are the same, no object is left, and
    storage, real devices, users, machines and tasks are as they were. *)
Theorem guest_create_fails name rcon h h' :
  Buddy.wf (pgs (mm h)) -> fresh_objects 3 (live h) (mallocs h) ->
  guest_create malloc_at garbage old_as getcpuid oper_userid start_task shell_start name rcon h = Ret (None, h') ->
  nothing_kept h h'.
Proof.
  intros Hwf Hf E. unfold guest_create in E. apply bind_Ret in E as ([r h1] & E & E').
  destruct r as [e|v]; [|done]. injection E' as <-. unfold guest_create_or in E.
  rewrite <- (with_self h) in E at 1. remember (pgs (mm h)) as b eqn:Eb. 
  apply bind_Ret in E as ([r0 h0] & E0 & E). injection E0 as <- <-. apply bind_Ret in E as ([r1 h2] & E1 & E).
  unfold call in E1. apply bind_Ret in E1 as (on & _ & E1). injection E1 as <- <-.
  destruct on. { injection E as <- <-. by apply kept_with; [|by subst b]. }
  apply bind_Ret in E as ([r1 h2] & E1 & E). apply malloc_cases in E1.
  destruct r1 as [e1|obj]. { injection E as <- <-. subst h2. by apply kept_with; [|by subst b]. }
  destruct E1 as [Eobj ->]. destruct (fresh_next _ _ _ _ Hf Eobj) as [Hobj Hf1].
  apply bind_Ret in E as ([r1 h2] & E1 & E). unfold undo in E1. apply bind_Ret in E1 as ([r2 h3] & E2 & E1).
  apply alloc_console_cases in E2; [|done|done]. destruct r2 as [e2|con].
  { destruct E2 as [n' ->]. unfold mbind, kern_bind in E1. rewrite (free_head _ _ _ _ _ Hobj) in E1.
    injection E1 as <- <-. injection E as <- <-. by apply kept_with; [|by subst b]. }
  destruct E2 as (b1 & -> & Hpg & Hw & Hr). injection E1 as <- <-.
  apply bind_Ret in E as ([r1 h2] & E1 & E). destruct r1 as [e1|u]; [|by apply make_vm_some in E as [? [=]]].
  injection E as <- <-. unfold undo in E1. apply bind_Ret in E1 as ([r2 h3] & E2 & E1).
  unfold find_user_by_id in E2. apply bind_Ret in E2 as (u & _ & E2). injection E2 as <- <-.
  destruct u as [u|]; [done|]. unfold free_console, free_spool, mbind, kern_bind in E1.
  rewrite (free_head _ _ _ _ _ Hr) in E1. cbn [mbind outcome_bind] in E1. rewrite (free_head _ _ _ _ _ Hw) in E1. cbn [mbind outcome_bind] in E1.
  destruct (free_page_spec b b1 (bigbuf con) (obj :: live h) (S (S (S (mallocs h)))) h Hpg) as (b2 & Ep & Hwf2 & Hfr).
  rewrite Ep in E1. cbn [mbind outcome_bind] in E1. rewrite (free_head _ _ _ _ _ Hobj) in E1. injection E1 as <- <-.
  apply kept_with; [done|by subst b].
Qed.
End failure.

(** * Attaching a device *)

Lemma first_free_spec used k n :
  match first_free used k n with
  | Some j => k <= j < k + Z.of_nat n /\ used j = false /\ (forall i, k <= i < j -> used i = true)
  | None => forall i, k <= i < k + Z.of_nat n -> used i = true
  end.
Proof.
  revert k. induction n as [|n IH]; intros k; cbn [first_free]; [intros i Hi; lia|].
  destruct (used k) eqn:Ek; [|split_and!; [lia|lia|done|intros i Hi; lia]]. specialize (IH (k + 1)).
  destruct (first_free used (k + 1) n) as [j|].
  - destruct IH as (Hj & Hu & Hb). split_and!; [lia|lia|done|]. intros i Hi. destruct (decide (i = k)) as [->|]; [done|]. apply Hb. lia.
  - intros i Hi. destruct (decide (i = k)) as [->|]; [done|]. apply IH. lia.
Qed.

Lemma existsb_false {X} (f : X -> Z) (l : list X) k : existsb (fun x => f x =? k) l = false <-> k ∉ map f l.
Proof.
  induction l as [|x l IH]; cbn [existsb map]; [split; [intros _ ?%elem_of_nil|]; done|].
  rewrite orb_false_iff, IH, not_elem_of_cons, Z.eqb_neq. naive_solver.
Qed.

(** the least number from [k] on that is not in [l] *)
Definition least_free (l : list Z) (k j : Z) : Prop := k <= j < k + 65536 /\ j ∉ l /\ forall i, k <= i < j -> i ∈ l.

Lemma first_free_least {X} (f : X -> Z) (l : list X) k j :
  first_free (fun i => existsb (fun x => f x =? i) l) k 65536 = Some j -> least_free (map f l) k j.
Proof.
  intros E. pose proof (first_free_spec (fun i => existsb (fun x => f x =? i) l) k 65536) as Hs. rewrite E in Hs.
  destruct Hs as (Hj & Hu & Hb). change (Z.of_nat 65536) with 65536 in Hj. split_and!; [lia|lia|by apply existsb_false|]. intros i Hi. specialize (Hb i Hi).
  destruct (decide (i ∈ map f l)) as [|Hn]; [done|]. apply existsb_false in Hn. cbv beta in Hb. congruence.
Qed.

Section attach.
Context (malloc_at : nat -> option Z) (garbage : nat -> nat -> list Z).
Context (Hgarbage : forall i, struct_ok 28 (garbage i pmcw_size)).

Definition dev_num (d : virt_device) : Z := getf pmcw_dev_num (pmcw d).

(** what a dedicated device becomes: it is appended, and the real one is in use *)
Lemma new_dedicated number n rdev devs h ret devs' h' :
  0 <= number < 65536 ->
  new_vdev malloc_at garbage (DirectoryVdev VDEV_DED number (DirDed rdev)) n devs h = Ret (ret, devs', h') ->
  (ret = 0 /\ exists d j r, devs' = devs ++ [d] /\ sch d = n /\ dev_num d = number /\ vtype d = VDEV_DED /\ u d = Dedicate rdev /\
     rdevs h !! j = Some r /\ ccuu r = rdev /\ in_use r = false /\ devtype d = r_type r /\ model d = r_model r /\
     rdevs h' = <[j := RealDevice rdev (r_type r) (r_model r) true]> (rdevs h)) \/
  (ret ∈ [- ENOMEM; - Spool.ENOENT; - EBUSY] /\ devs' = devs /\ rdevs h' = rdevs h).
Proof.
  intros Hnum E. unfold new_vdev in E. apply bind_Ret in E as ([r h1] & Em & E).
  assert (rdevs h1 = rdevs h) as Er1. { unfold malloc in Em. destruct (malloc_at (mallocs h)); by injection Em as <- <-. }
  unfold alloc_virt_dev in E. destruct r as [e|p].
  { cbn [negb] in E. injection E as <- <- <-. right. split; [|done]. unfold ENOMEM. set_solver. }
  cbn [negb d_type d_u d_vdev] in E. unfold __setup_vdev_ded in E.
  destruct (list_find _ (rdevs h)) as [[j r]|] eqn:Ef.
  - apply list_find_Some in Ef as (Hj & Hc & _). destruct (in_use r) eqn:Eu.
    + cbn in E. injection E as <- <- <-. right. split; [|done]. set_solver.
    + cbn in E. injection E as <- <- <-. left. split; [done|]. do 3 eexists. split; [done|]. cbn.
      split_and!; try done; [|by rewrite Hc].
      unfold dev_num. cbn [pmcw]. rewrite !(getf_setf_ne 28) by (repeat apply setf_ok; done).
      rewrite (getf_setf 28) by (repeat apply setf_ok; done). by apply wrap_small.
  - cbn in E. injection E as <- <- <-. right. split; [|done]. set_solver.
Qed.

(** Attaching a real device either appends one virtual device, on the least
    free subchannel from 0x10000 on, with the least free device number when none
    is asked for and otherwise the number asked for, for a real device of that
    number that was not in use and now is; or fails, changing neither the
    machine's devices nor the real ones, when nothing is free, there is no memory
    or no such device, or the device is in use.  Subchannels stay distinct. *)
Theorem guest_attached v rdev vdev h ret devs h' :
  guest_attach malloc_at garbage v rdev vdev h = Ret (ret, devs, h') ->
  ((ret = 0 /\ exists d j r, devs = vm_devs v ++ [d] /\ least_free (map sch (vm_devs v)) 0x10000 (sch d) /\
      (if vdev =? 2 ^ 64 - 1 then least_free (map dev_num (vm_devs v)) 0 (dev_num d) else dev_num d = u16 vdev) /\
      vtype d = VDEV_DED /\ u d = Dedicate (u16 rdev) /\
      rdevs h !! j = Some r /\ ccuu r = u16 rdev /\ in_use r = false /\ devtype d = r_type r /\ model d = r_model r /\
      rdevs h' = <[j := RealDevice (u16 rdev) (r_type r) (r_model r) true]> (rdevs h)) \/
   (ret ∈ [- ENOMEM; - Spool.ENOENT; - EBUSY] /\ devs = vm_devs v /\ rdevs h' = rdevs h)) /\
  (NoDup (map sch (vm_devs v)) -> NoDup (map sch devs)).
Proof.
  intros E. match goal with |- ?P /\ _ => assert P as HP end.
  { unfold guest_attach in E.
    destruct (pick_vdev (vm_devs v) vdev) as [number|] eqn:En; [|injection E as <- <- <-; right; set_solver].
    destruct (pick_sch (vm_devs v)) as [n|] eqn:Es; [|injection E as <- <- <-; right; set_solver].
    apply first_free_least in Es. apply new_dedicated in E as [(-> & d & j & r & -> & Hsch & Hnum & Hrest)|Hfail].
    - left. split; [done|]. exists d, j, r. rewrite Hsch. split; [done|]. split; [done|]. split; [|exact Hrest]. rewrite Hnum.
      unfold pick_vdev in En. destruct (vdev =? 2 ^ 64 - 1) eqn:Ev; [|by injection En as <-].
      apply (first_free_least (fun d => getf pmcw_dev_num (pmcw d))) in En. rewrite wrap_small; [exact En|]. destruct En; lia.
    - by right.
    - apply wrap_range. lia. }
  split; [exact HP|]. intros Hnd. destruct HP as [(-> & d & j & r & -> & (_ & Hn & _) & _)|(_ & -> & _)]; [|done].
  rewrite map_app. cbn [map]. apply NoDup_app. split_and!; [done| |apply NoDup_singleton].
  intros x Hx ->%list_elem_of_singleton. done.
Qed.
End attach.

(** * A system with two users *)

Definition two_pages : dat buddy := Dat (fun a => a) (init_buddy_alloc (3 * 2 ^ 30) 0x800000).

Lemma two_pages_inv : ps_inv (pgs two_pages) /\ Buddy.wf (pgs two_pages).
Proof.
  destruct (init_buddy_spec (3 * 2 ^ 30) 0x800000) as [Hwf Hf]; [lia..|done|]. split; [|done].
  cbn [ps_inv buddy_source pgs two_pages]. rewrite Hf. split_and!; [done|apply NoDup_seqZ|].
  apply Forall_forall. intros n Hn%elem_of_seqZ. assert (0 < 0x800000 / 2 ^ 12) by done. lia.
Qed.

Lemma guest_storage_mapped_witness :
  exists frames a s', alloc_guest_storage 8192 (AddressSpace 0 0) two_pages = Ret (0, frames, a, s') /\
    lenZ frames = 2 /\ (forall p, p ∈ frames -> ps_free (pgs two_pages) (p / 4096) /\ ~ ps_free (pgs s') (p / 4096)) /\
    guest_space (lrag (Dat.storage s') (pasce a)) frames /\
    (forall v, 4096 * lenZ frames <= v -> lrag (Dat.storage s') (pasce a) v = None) /\
    (forall m, (forall x, (forall p, p ∈ frames -> x / 4096 <> p / 4096) -> m x = Dat.storage s' x) ->
       forall v, lrag m (pasce a) v = lrag (Dat.storage s') (pasce a) v) /\
    (forall x, ~ ps_free (pgs two_pages) (x / 4096) -> Dat.storage s' x = x).
Proof. apply (guest_storage_mapped 8192 two_pages); [lia|exact (proj1 two_pages_inv)|by vm_compute]. Defined.

Definition sample_task : task := Task (Regs 0 [] 0) 0 TASK_RUNNING 0 [].

Definition sample_kernel : kernel :=
  Kernel two_pages [] 0 [RealDevice 0x580 0x3390 3 false; RealDevice 0x9 0x3215 0 false]
    [User (zs "OPERATOR") 0x2000 [DirectoryVdev VDEV_CONS 9 DirOther] 0xff;
     User (zs "*LOGIN") 0x100000 [] 0x02] []
    (Sched.Sys [] [0] {[0 := sample_task]} 0 0 (Regs 0 [] 0) []).

Definition sample_malloc (n : nat) : option Z := Some (0x700000 + 1024 * Z.of_nat n).
Abbreviation sample_create := (guest_create sample_malloc (fun _ n => zeros n) (fun _ => AddressSpace 0 0) 0x1234 (zs "OPERATOR") 0x5000 0x6000).

(** the user *LOGIN gets 256 frames and a task; a user who is not in the
    directory gets nothing *)
Example login_created :
  match sample_create (zs "*LOGIN") None sample_kernel with
  | Ret (Some v, h) => (lenZ (vm_pages v), vm_task v, runnable (tasks h), lenZ (online h), lenZ (live h))
  | _ => (0, 0, [], 0, 0)
  end = (256, 0x700000 + 1024 * 3, [0x700000 + 1024 * 3], 1, 4).
Proof. vm_compute. reflexivity. Qed.

Lemma nobody : exists h, sample_create (zs "NOBODY") None sample_kernel = Ret (None, h).
Proof.
  assert (match sample_create (zs "NOBODY") None sample_kernel with Ret (None, _) => true | _ => false end = true) as Hn
    by (vm_compute; reflexivity).
  destruct (sample_create (zs "NOBODY") None sample_kernel) as [[[v|] h]| |]; try done. by exists h.
Qed.

Lemma sample_fresh : fresh_objects sample_malloc 3 (live sample_kernel) (mallocs sample_kernel).
Proof.
  intros i p Hi Hp. injection Hp as <-. split; [apply not_elem_of_nil|]. intros j Hj Hp. injection Hp as Hp. lia.
Qed.

Lemma sample_kernel_wf : Buddy.wf (pgs (mm sample_kernel)).
Proof. exact (proj2 two_pages_inv). Qed.

Lemma guest_create_fails_witness : exists h',
  sample_create (zs "NOBODY") None sample_kernel = Ret (None, h') /\ nothing_kept sample_kernel h'.
Proof.
  destruct nobody as [h E]. exists h. split; [exact E|].
  exact (guest_create_fails sample_malloc (fun _ n => zeros n) (fun _ => AddressSpace 0 0) 0x1234 (zs "OPERATOR") 0x5000 0x6000
    (zs "NOBODY") None sample_kernel h sample_kernel_wf sample_fresh E).
Defined.

(** a machine with a console, number 9, on the first subchannel *)
Definition sample_vm : vm :=
  Vm 0x700000 (User (zs "OPERATOR") 0x2000 [] 0xff) (VirtCons None (1, Spool.alloc_spool) (2, Spool.alloc_spool) 0x5000)
    0x6000 (new_vcpu 0) (SieSetup 0 0x2000 1 2 0) 0 true []
    [VirtDevice VDEV_CONS 0x10000 0x3215 0 (Spooled None true) 0 (setf pmcw_dev_num 9 (zeros pmcw_size)) (zeros scsw_size) (zeros orb_size)]
    (AddressSpace 0 0) [].

Abbreviation attached := (guest_attach sample_malloc (fun _ n => zeros n) sample_vm 0x580 (2 ^ 64 - 1) sample_kernel).

Lemma guest_attached_witness : exists d h', attached = Ret (0, vm_devs sample_vm ++ [d], h') /\
  sch d = 0x10001 /\ dev_num d = 0 /\ NoDup (map sch (vm_devs sample_vm ++ [d])).
Proof.
  destruct attached as [[[ret devs] h']| |] eqn:E.
  - destruct (guest_attached sample_malloc (fun _ n => zeros n) (fun i => zeros_ok 28) sample_vm 0x580 (2 ^ 64 - 1) sample_kernel
      ret devs h' E) as [HP Hnd].
    assert (match attached with Ret (ret, devs, _) => (ret, map sch devs, map dev_num devs) | _ => (1, [], []) end = (0, [0x10000; 0x10001], [9; 0]))
      as Hr by (vm_compute; reflexivity). rewrite E in Hr.
    destruct HP as [(-> & d & j & r & -> & _)|(Hret & _)].
    + exists d, h'. cbn in Hr. injection Hr as -> ->. split_and!; [done..|]. apply Hnd. apply (bool_decide_unpack _). by vm_compute.
    + injection Hr as -> _ _. exfalso. unfold ENOMEM, Spool.ENOENT, EBUSY in Hret. rewrite !elem_of_cons in Hret.
      destruct Hret as [[=]|[[=]|[[=]|?%elem_of_nil]]]; done.
  - assert (match attached with Stopped => true | _ => false end = false) as Hn by (vm_compute; reflexivity). by rewrite E in Hn.
  - assert (match attached with Undef => true | _ => false end = false) as Hn by (vm_compute; reflexivity). by rewrite E in Hn.
Defined.

(** the users online are compared by case, the directory is not: *LOGIN twice *)
Example same_user_twice :
  match sample_create (zs "*LOGIN") None sample_kernel with
  | Ret (_, h) => match sample_create (zs "*login") None h with
                  | Ret (Some _, h) => map (fun v => u_userid (directory v)) (online h)
                  | _ => []
                  end
  | _ => []
  end = [zs "*LOGIN"; zs "*LOGIN"].
Proof. vm_compute. reflexivity. Qed.
