(* ===== verification/Archive.v ===== *)
(** build/mkarchive.c, build/padcat.c and installer/cpio.c: the archive the
    installer reads, made on the build machine, cut into cards, read from the card
    reader.

    The writer is a function from the arguments and the files to the standard
    output; the reader keeps a buffer (bytes by offset), how far it is filled, and
    the cards that are left.  Where the files go is behind the interface [Disk],
    which Installer.v implements.  The theorem: what mkarchive and padcat make of
    a list of files is taken apart into the same files, each stored once and in
    order, up to the trailer. *)

From S2P Require Import Prelude CString Charset Dat Spool Guest.

Local Open Scope Z_scope.

#[local] Arguments cons {A} & a l.

(** ** The header *)

(** offsets of the members of [struct cpio_hdr], which has 76 bytes *)
Definition cpio_hdr_size : Z := 76.
Definition hdr_nlink : Z := 36.
Definition hdr_namesize : Z := 59.
Definition hdr_filesize : Z := 65.

(** ** The writer *)

Module mkarchive.

(** the digits of [val] from [buf + len] down; a value too long for the member
    goes on into the bytes before it *)
Fixpoint storeoct (fuel : nat) (hdr : list Z) (pos val : Z) : outcome (list Z) :=
  match fuel with
  | O => Undef
  | S fuel =>
      if val =? 0 then Ret hdr else
      hdr ← defined (aset hdr pos (48 + val mod 8));
      storeoct fuel hdr (pos - 1) (val / 8)
  end.

(** an [unsigned] has at most 11 octal digits *)
Definition store_octal (hdr : list Z) (buf len val : Z) : outcome (list Z) := storeoct 12 hdr (buf + len - 1) val.

Definition mkhdr (fn : list Z) (filesize : Z) : outcome (list Z) :=
  let hdr := replicate (Z.to_nat cpio_hdr_size) 48 in
  let hdr := <[1%nat := 55]> (<[3%nat := 55]> (<[5%nat := 55]> hdr)) in
  let hdr := <[Z.to_nat (hdr_nlink + 5) := 49]> hdr in
  hdr ← store_octal hdr hdr_namesize 6 (u32 (lenZ fn + 1));
  store_octal hdr hdr_filesize 11 filesize.

(** [basename] of libgen *)
Fixpoint drop_slashes (r : list Z) : list Z :=
  match r with 47 :: r => drop_slashes r | _ => r end.

Definition basename (p : list Z) : list Z :=
  match p with
  | [] => [46]
  | _ => match drop_slashes (rev p) with
         | [] => [47]
         | r => rev (span (fun c => negb (c =? 47)) r).1
         end
  end.

(** [fgets]: up to [k] characters, through the first newline *)
Fixpoint line (k : nat) (f : list Z) : list Z * list Z :=
  match k, f with
  | S k, c :: f => if c =? 10 then ([c], f) else let r := line k f in (c :: r.1, r.2)
  | _, _ => ([], f)
  end.

Definition fgets (n : Z) (f : list Z) : option (list Z * list Z) :=
  if n <? 1 then None else match f with [] => None | _ => Some (line (Z.to_nat (n - 1)) f) end.

(** the record made of what [fgets] read *)
Definition record (lrecl : Z) (data : list Z) : list Z :=
  let l := lenZ (span (fun c => negb (c =? 0)) data).1 in
  let l := if negb (l =? 0) && negb (nth (Z.to_nat (l - 1)) data 0 =? 0) then l - 1 else l in
  take (Z.to_nat l) data ++ replicate (Z.to_nat (lrecl - l)) 32.

Fixpoint records (fuel : nat) (lrecl : Z) (f : list Z) : list (list Z) :=
  match fuel with
  | O => []
  | S fuel => match fgets (lrecl + 1) f with
              | None => []
              | Some (data, f) => record lrecl data :: records fuel lrecl f
              end
  end.

(** the header, the name and the data of one file, and the sum the functions return *)
Definition entry (fn : list Z) (flen : Z) (data : list (list Z)) : outcome (list Z * Z) :=
  hdr ← mkhdr (basename fn) flen;
  Ret (hdr ++ basename fn ++ [0] ++ concat data, u32 (flen + lenZ (basename fn) + 1 + cpio_hdr_size)).

(** [exit(n)], or the output and the result *)
Definition __text (files : list Z -> option (list Z)) (fn : list Z) (lrecl : Z) : outcome (Z + list Z * Z) :=
  if lrecl =? 0 then Ret (inl 1) else
  match files fn with
  | None => Ret (inl 1)
  | Some f =>
      let rs := records (S (length f)) lrecl f in
      r ← entry fn (u32 (lenZ rs * lrecl)) rs; Ret (inr r)
  end.

Definition BUF_LEN : nat := 4096.

(** what [fread] gives, buffer by buffer *)
Fixpoint buffers (fuel : nat) (f : list Z) : list (list Z) :=
  match fuel, f with
  | S fuel, _ :: _ => take BUF_LEN f :: buffers fuel (drop BUF_LEN f)
  | _, _ => []
  end.

Definition __bin (files : list Z -> option (list Z)) (fn : list Z) : outcome (Z + list Z * Z) :=
  match files fn with
  | None => Ret (inl 1)
  | Some f =>
      let bs := buffers (length f) f in
      r ← entry fn (u32 (fold_left (fun n b => n + lenZ b) bs 0)) bs; Ret (inr r)
  end.

Definition trailer_name : list Z := zs "TRAILER!!!".

(** the name goes out without its terminator, and [len] is that of the files *)
Definition mktail (len : Z) : outcome (list Z) :=
  hdr ← mkhdr trailer_name 0;
  Ret (hdr ++ trailer_name ++ replicate (Z.to_nat ((- len) mod 512)) 0).

(** [atoi] *)
Fixpoint atoi_digits (s : list Z) (v : Z) : Z :=
  match s with
  | c :: s => if (48 <=? c) && (c <=? 57) then atoi_digits s (v * 10 + (c - 48)) else v
  | [] => v
  end.
Definition atoi (s : list Z) : Z :=
  match (span isspace s).2 with
  | 45 :: s => s32 (- atoi_digits s 0)
  | 43 :: s => s32 (atoi_digits s 0)
  | s => s32 (atoi_digits s 0)
  end.

(** the arguments from [argv[i]] on: the output and the exit status *)
Fixpoint main_loop (fuel : nat) (files : list Z -> option (list Z)) (args : list (list Z)) (len : Z) (out : list Z)
    : outcome (list Z * Z) :=
  match fuel with
  | O => Undef
  | S fuel =>
      match args with
      | fn :: kind :: args =>
          if bool_decide (kind = zs "text") then
            match args with
            | [] => Undef
            | n :: args =>
                r ← __text files fn (atoi n);
                match r with
                | inl e => Ret (out, e)
                | inr (o, l) => main_loop fuel files args (u32 (len + l)) (out ++ o)
                end
            end
          else if bool_decide (kind = zs "bin") then
            r ← __bin files fn;
            match r with
            | inl e => Ret (out, e)
            | inr (o, l) => main_loop fuel files args (u32 (len + l)) (out ++ o)
            end
          else Ret (out, 1)
      | _ => t ← mktail len; Ret (out ++ t, 0)
      end
  end.

Definition main (files : list Z -> option (list Z)) (args : list (list Z)) : outcome (list Z * Z) :=
  main_loop (S (length args)) files args 0 [].
End mkarchive.

(** ** Cards *)

(** padcat: 80 bytes each, the last one filled up with zeros; a file that cannot be opened ends it *)
Fixpoint cat (fuel : nat) (f : list Z) : list (list Z) :=
  match fuel, f with
  | S fuel, _ :: _ => (take 80 f ++ replicate (80 - length f) 0) :: cat fuel (drop 80 f)
  | _, _ => []
  end.

Fixpoint padcat (files : list Z -> option (list Z)) (args : list (list Z)) : list (list Z) * Z :=
  match args with
  | [] => ([], 0)
  | fn :: args =>
      match files fn with
      | None => ([], 1)
      | Some f => let r := padcat files args in (cat (length f) f ++ r.1, r.2)
      end
  end.

(** ** The reader *)

(** what the installer needs of a disk: the operations on files and blocks.  A file
    that is found or made is a handle [F], which appending updates. *)
Class Disk (D F : Type) := {
  find_file : list Z -> list Z -> D -> outcome (option F * D);
  create_file : list Z -> list Z -> Z -> D -> outcome (F * D);
  append_record : F -> list Z -> D -> outcome (F * D);
  write_blk : list Z -> Z -> D -> outcome D;
}.

Module cpio.

Record table := Table { arch : list Z; fn : list Z; ft : list Z; lrecl : Z; text : bool; lba : Z }.

Definition the_table : list table :=
  [Table (zs "hvf.directory") (zs "HVF     ") (zs "DIRECT  ") 80 true 0;
   Table (zs "system.config") (zs "SYSTEM  ") (zs "CONFIG  ") 80 true 0;
   Table (zs "local-3215.txt") (zs "HVF     ") (zs "LOGO    ") 80 true 0;
   Table (zs "hvf") (zs "HVF     ") (zs "ELF     ") 4096 false 0;
   Table (zs "eckd.rto") (zs "ECKDLOAD") (zs "BIN     ") 4096 false 1;
   Table (zs "loader.rto") (zs "DASDLOAD") (zs "BIN     ") 4096 false 2;
   Table (zs "installed_files.txt") (zs "HVF     ") (zs "TEXT    ") 80 true 0;
   Table (zs "8ball") (zs "8BALL   ") (zs "NSS     ") 4096 false 0;
   Table (zs "ipldev") (zs "IPLDEV  ") (zs "NSS     ") 4096 false 0;
   Table (zs "login") (zs "LOGIN   ") (zs "NSS     ") 4096 false 0].

Section reader.
Context {D F : Type} `{Disk D F}.

(** the buffer by offset, how far it is filled, the cards left ([None]: the read
    fails), whether the end was seen, the disk and the messages, latest first *)
Record state := State {
  buf : Z -> Z;
  fill : Z;
  cards : list (option (list Z));
  eof : bool;
  disk : D;
  msgs : list event;
}.

Definition BUFFER_SIZE : Z := 2 * 1024 * 1024.

Definition wto (fmt : string) (args : list arg) (s : state) : state :=
  State (buf s) (fill s) (cards s) (eof s) (disk s) (Con fmt args :: msgs s).
Definition set_buf (b : Z -> Z) (s : state) : state := State b (fill s) (cards s) (eof s) (disk s) (msgs s).
Definition set_fill (n : Z) (s : state) : state := State (buf s) n (cards s) (eof s) (disk s) (msgs s).
Definition set_disk (d : D) (s : state) : state := State (buf s) (fill s) (cards s) (eof s) d (msgs s).

(** [readcard(dasd_buf + pos)] *)
Definition readcard (pos : Z) (s : state) : outcome state :=
  if eof s then Ret s else
  match cards s with
  | [] => Ret (State (buf s) (fill s) [] true (disk s) (msgs s))
  | None :: _ => Stopped
  | Some c :: cs =>
      if pos + 80 <=? BUFFER_SIZE
      then Ret (State (write_bytes (buf s) pos c) (fill s) cs false (disk s) (msgs s)) else Undef
  end.

(** [while (n > fill)]; a turn reads 80 bytes *)
Fixpoint fetch_loop (fuel : nat) (n : Z) (s : state) : outcome state :=
  match fuel with
  | O => Undef
  | S fuel =>
      if n >? fill s then s ← readcard (fill s) s; fetch_loop fuel n (set_fill (fill s + 80) s) else Ret s
  end.

Definition fetch (n : Z) (s : state) : outcome state := fetch_loop (S (Z.to_nat (n / 80 + 1))) n s.

(** bytes [a] to [a + n] of the buffer *)
Definition bytes (s : state) (a n : Z) : outcome (list Z) :=
  if (0 <=? a) && (a + n <=? BUFFER_SIZE) then Ret (read_bytes (buf s) a n) else Undef.

Definition getnumber (data : list Z) : Z := fold_left (fun ret c => u32 (u32 (ret * 8) + u32 (c - 48))) data 0.

Fixpoint append_records (h : F) (recs : list (list Z)) (d : D) : outcome (F * D) :=
  match recs with
  | [] => Ret (h, d)
  | r :: recs => '(h, d) ← append_record h r d; append_records h recs d
  end.

(** the whole records, and the last one filled up with zeros *)
Fixpoint split_records (fuel : nat) (lrecl : nat) (l : list Z) : list (list Z) :=
  match fuel, l with
  | S fuel, _ :: _ => (take lrecl l ++ replicate (lrecl - length l) 0) :: split_records fuel lrecl (drop lrecl l)
  | _, _ => []
  end.

Definition save_file (te : table) (filesize : Z) (s : state) : outcome state :=
  '(found, d) ← find_file (fn te) (ft te) (disk s);
  match found with
  | Some _ => Stopped (* the messages before [die] *)
  | None =>
      '(h, d) ← create_file (fn te) (ft te) (lrecl te) d;
      data ← bytes s 0 filesize;
      data ← (if text te then ascii2ebcdic data filesize else Ret data);
      let s := set_buf (write_bytes (buf s) 0 data) s in
      '(s, d) ← (if lba te =? 0 then Ret (s, d) else
                 if filesize >? lrecl te then Stopped else
                 blk ← bytes s 0 4096;
                 d ← write_blk blk (lba te) d;
                 Ret (wto "special file, writing copy of data to LBA %d" [lba te] s, d));
      '(_, d) ← append_records h (split_records (length data) (Z.to_nat (lrecl te)) data) d;
      Ret (set_disk d s)
  end.

(** [strncmp("TRAILER!!!", data, 10)] and [strcmp(data, arch)]: they read no more of
    the buffer than the length of the literal and its terminator *)
Definition is_trailer (s : state) : outcome bool :=
  w ← bytes s cpio_hdr_size 11;
  r ← strncmp (w ++ mkarchive.trailer_name ++ [0]) 11 0 10; Ret (r =? 0).

Fixpoint find_entry (l : list table) (s : state) : outcome (option table) :=
  match l with
  | [] => Ret None
  | te :: l =>
      w ← bytes s cpio_hdr_size (lenZ (arch te) + 1);
      r ← strcmp (w ++ arch te ++ [0]) 0 (lenZ w);
      if r =? 0 then Ret (Some te) else find_entry l s
  end.

(** the name in the buffer, for a message of 131 characters *)
Definition name_text (s : state) : list Z := (span (fun c => negb (c =? 0)) (read_bytes (buf s) cpio_hdr_size 132)).1.

(** [memmove(dasd_buf, dasd_buf + n, fill - n)] *)
Definition consume (n : Z) (s : state) : outcome state :=
  let s := set_fill (fill s - n) s in
  rest ← bytes s n (fill s);
  Ret (set_buf (write_bytes (buf s) 0 rest) s).

(** the data of one file *)
Definition unload_data (te : option table) (filesize : Z) (s : state) : outcome (bool * state) :=
  s ← fetch filesize s;
  s ← match te with Some te => save_file te filesize s | None => Ret s end;
  s ← consume filesize s;
  Ret (false, s).

(** the name and the data of one file; [true] at the trailer *)
Definition unload_named (namesize filesize : Z) (s : state) : outcome (bool * state) :=
  s ← fetch (namesize + cpio_hdr_size) s;
  t ← (if namesize =? 11 then is_trailer s else Ret false);
  if (t : bool) then Ret (true, s) else
  te ← find_entry the_table s;
  let nm := Str (name_text s) in
  let s := match te with
           | Some te => wto "processing '%.8s' '%.8s' => '%s'" [Str (fn te); Str (ft te); nm] s
           | None => wto "skipping   '%s'" [nm] s
           end in
  s ← consume (namesize + cpio_hdr_size) s;
  unload_data te filesize s.

(** one turn of the loop *)
Definition unload_one (s : state) : outcome (bool * state) :=
  s ← (if fill s <? cpio_hdr_size then s ← readcard (fill s) s; Ret (set_fill (fill s + 80) s) else Ret s);
  namesize ← bytes s hdr_namesize 6;
  filesize ← bytes s hdr_filesize 11;
  unload_named (getnumber namesize) (getnumber filesize) s.

(** [fuel] is the number of files and the trailer *)
Fixpoint unload_loop (fuel : nat) (s : state) : outcome state :=
  match fuel with
  | O => Undef
  | S fuel => '(last, s) ← unload_one s; if (last : bool) then Ret s else unload_loop fuel s
  end.

(** [malloc] gives a buffer with something in it *)
Definition unload_archive (fuel : nat) (junk : Z -> Z) (cs : list (option (list Z))) (d : D) : outcome state :=
  unload_loop fuel (State junk 0 cs false d [Con "" []]).
End reader.
End cpio.

(** * Numbers in a header *)

(** the [n] octal digits of a number, the highest first *)
Fixpoint oct (n : nat) (v : Z) : list Z :=
  match n with O => [] | S n => oct n (v / 8) ++ [48 + v mod 8] end.

Lemma oct_length n v : length (oct n v) = n.
Proof. revert v. induction n as [|n IH]; intros v; [done|]. cbn. rewrite length_app, IH. cbn. lia. Qed.

Lemma oct_0 n : oct n 0 = replicate n 48.
Proof. induction n as [|n IH]; [done|]. cbn [oct]. change (0 / 8) with 0. rewrite IH. symmetry. apply replicate_cons_app. Qed.

Lemma aset_app (pre : list Z) c post i v : i = lenZ pre -> aset (pre ++ c :: post) i v = Some (pre ++ v :: post).
Proof.
  intros ->. rewrite aset_insert by (unfold lenZ; rewrite length_app; cbn; lia). unfold lenZ. rewrite Nat2Z.id.
  by rewrite insert_app_r_alt, Nat.sub_diag by lia.
Qed.

Lemma storeoct_spec fuel n pre post v : 0 <= v < 8 ^ Z.of_nat n -> (n < fuel)%nat ->
  mkarchive.storeoct fuel (pre ++ replicate n 48 ++ post) (lenZ pre + Z.of_nat n - 1) v = Ret (pre ++ oct n v ++ post).
Proof.
  revert n post v. induction fuel as [|fuel IH]; intros n post v Hv Hf; [lia|]. cbn [mkarchive.storeoct].
  destruct (Z.eqb_spec v 0) as [->|Hne]; [by rewrite oct_0|]. destruct n as [|n]; [cbn in Hv; lia|].
  rewrite replicate_S_end, <- app_assoc, app_assoc. cbn [app].
  rewrite (aset_app (pre ++ replicate n 48)) by (unfold lenZ; rewrite length_app, length_replicate; lia).
  cbn [defined mbind outcome_bind]. rewrite <- app_assoc. replace (lenZ pre + Z.of_nat (S n) - 1 - 1) with (lenZ pre + Z.of_nat n - 1) by lia.
  rewrite Nat2Z.inj_succ, Z.pow_succ_r in Hv by lia. rewrite IH by (divlia || lia). cbn [oct]. by rewrite <- !app_assoc.
Qed.

Lemma getnumber_snoc l c : cpio.getnumber (l ++ [c]) = u32 (u32 (cpio.getnumber l * 8) + u32 (c - 48)).
Proof. unfold cpio.getnumber. by rewrite fold_left_app. Qed.

Lemma getnumber_oct n v : 0 <= v < 8 ^ Z.of_nat n -> v < 2 ^ 32 -> cpio.getnumber (oct n v) = v.
Proof.
  revert v. induction n as [|n IH]; intros v Hv Hs; [cbn in *; lia|]. cbn [oct]. rewrite Nat2Z.inj_succ, Z.pow_succ_r in Hv by lia.
  rewrite getnumber_snoc, IH by divlia. pose proof (Z.mod_pos_bound v 8 ltac:(lia)). pose proof (Z.div_mod v 8 ltac:(lia)).
  rewrite !wrap_small by (rewrite ?wrap_small by lia; lia). lia.
Qed.

(** the header of a file *)
Definition header (nm : list Z) (size : Z) : list Z :=
  zs "070707" ++ replicate 30 48 ++ zs "000001" ++ replicate 17 48 ++ oct 6 (lenZ nm + 1) ++ oct 11 size.

Lemma mkhdr_spec nm size : lenZ nm + 1 < 8 ^ 6 -> 0 <= size < 2 ^ 32 -> mkarchive.mkhdr nm size = Ret (header nm size).
Proof.
  intros Hn Hs. pose proof (lenZ_nonneg nm). unfold mkarchive.mkhdr. rewrite wrap_small by lia. set (h := <[_ := 49]> _).
  assert (h = (zs "070707" ++ replicate 30 48 ++ zs "000001" ++ replicate 17 48) ++ replicate 6 48 ++ replicate 11 48) as -> by done.
  unfold mkarchive.store_octal. set (P := zs "070707" ++ _).
  change (hdr_namesize + 6 - 1) with (lenZ P + Z.of_nat 6 - 1). rewrite (storeoct_spec 12 6 _ _ (lenZ nm + 1)); [|change (Z.of_nat 6) with 6; lia|lia].
  cbn [mbind outcome_bind]. rewrite app_assoc.
  replace (hdr_filesize + 11 - 1) with (lenZ (P ++ oct 6 (lenZ nm + 1)) + Z.of_nat 11 - 1).
  2: { rewrite lenZ_app. unfold lenZ at 2. rewrite oct_length. done. }
  pose proof (storeoct_spec 12 11 (P ++ oct 6 (lenZ nm + 1)) [] size) as E.
  rewrite !app_nil_r in E. rewrite E; [|change (8 ^ Z.of_nat 11) with (2 ^ 33); lia|lia]. unfold header. by rewrite <- !app_assoc.
Qed.

Lemma header_length nm size : lenZ (header nm size) = cpio_hdr_size.
Proof. unfold header. rewrite !lenZ_app. unfold lenZ. rewrite !oct_length, !length_replicate. done. Qed.

(** * What mkarchive writes *)

(** a member of an archive: its name and its data *)
Definition member_bytes (m : list Z * list Z) : list Z := header m.1 (lenZ m.2) ++ m.1 ++ [0] ++ m.2.

Definition trailer_bytes (len : Z) : list Z :=
  header mkarchive.trailer_name 0 ++ mkarchive.trailer_name ++ replicate (Z.to_nat ((- len) mod 512)) 0.

Definition archive (ms : list (list Z * list Z)) : list Z :=
  concat (map member_bytes ms) ++ trailer_bytes (lenZ (concat (map member_bytes ms))).

(** arguments for one file *)
Inductive item := Text (fn n : list Z) | Bin (fn : list Z).

Definition item_args (x : item) : list (list Z) :=
  match x with Text fn n => [fn; zs "text"; n] | Bin fn => [fn; zs "bin"] end.

(** the last component of a path *)
Definition base_of (path nm : list Z) : Prop :=
  nm <> [] /\ 47 ∉ nm /\ (path = nm \/ exists dir, path = dir ++ [47] ++ nm).

(** a record: the text filled up with blanks *)
Definition blank_filled (n : Z) (l : list Z) : list Z := l ++ replicate (Z.to_nat (n - lenZ l)) 32.

(** the records of a text without NULs.  A line [l] and its newline become a record; a line that fills the record, and a last line
    without a newline, end in a character of their own instead, which is lost as well (mkarchive.c:93): it is not in the record *)
Inductive text_records (n : Z) : list Z -> list (list Z) -> Prop :=
  | no_lines : text_records n [] []
  | next_line l c f rs : Forall (fun x => x <> 0 /\ x <> 10) l -> c <> 0 -> lenZ l < n ->
      c = 10 \/ lenZ l + 1 = n \/ f = [] -> text_records n f rs -> text_records n (l ++ c :: f) (blank_filled n l :: rs).

(** the number that is written with these decimal digits *)
Definition numeral (ds : list Z) (n : Z) : Prop :=
  Forall (fun c => 48 <= c <= 57) ds /\ n = place_value 10 (map (fun c => c - 48) ds).

(** the member an argument stands for *)
Inductive packs (files : list Z -> option (list Z)) : item -> list Z * list Z -> Prop :=
  | packs_text fn ds n f nm rs : files fn = Some f -> base_of fn nm -> numeral ds n -> 0 < n < 2 ^ 31 -> text_records n f rs ->
      packs files (Text fn ds) (nm, concat rs)
  | packs_bin fn f nm : files fn = Some f -> base_of fn nm -> packs files (Bin fn) (nm, f).

(** what the code makes of it *)
Definition item_member (files : list Z -> option (list Z)) (x : item) : option (list Z * list Z) :=
  match x with
  | Text fn n =>
      f ← files fn;
      if mkarchive.atoi n <? 1 then None
      else Some (mkarchive.basename fn, concat (mkarchive.records (S (length f)) (mkarchive.atoi n) f))
  | Bin fn => f ← files fn; Some (mkarchive.basename fn, f)
  end.

(** sizes that fit the header *)
Definition fits_header (m : list Z * list Z) : Prop := lenZ m.1 + 1 < 8 ^ 6 /\ lenZ m.2 < 2 ^ 31.

(** ** The arguments *)

Lemma drop_slashes_id r : head r <> Some 47 -> mkarchive.drop_slashes r = r.
Proof.
  destruct r as [|c r]; [done|]. intros H. destruct (decide (c = 47)) as [->|Hc]; [by destruct H|].
  cbn. destruct c as [|p|p]; try done. do 6 (destruct p as [p|p|]; try done).
Qed.

Lemma span_run (p : Z -> bool) l r : Forall (fun c => p c = true) l -> head r ≫= (fun c => if p c then Some c else None) = None ->
  span p (l ++ r) = (l, r).
Proof.
  intros Hl Hr. induction Hl as [|c l Hc _ IH]; cbn [app span].
  - destruct r as [|c r]; [done|]. cbn in *. by destruct (p c).
  - by rewrite Hc, IH.
Qed.

Lemma basename_spec path nm : base_of path nm -> mkarchive.basename path = nm.
Proof.
  intros (Hne & Hns & Hp).
  assert (head (rev nm) <> Some 47) as Hh.
  { destruct (rev nm) as [|c r] eqn:E; [done|]. intros [= ->]. apply Hns. rewrite list_elem_of_In, in_rev, E. by left. }
  assert (exists r, rev path = rev nm ++ r /\ (r = [] \/ head r = Some 47)) as (r & Er & Hr).
  { destruct Hp as [->|[dir ->]]; [exists []; rewrite app_nil_r; auto|].
    exists (47 :: rev dir). rewrite !rev_app_distr. cbn [rev app]. rewrite <- app_assoc. auto. }
  assert (rev nm <> []) as Hrn by (intros E; apply (f_equal (@rev Z)) in E; rewrite rev_involutive in E; by subst).
  assert (path <> []) as Hpn by (intros ->; by destruct (rev nm)).
  unfold mkarchive.basename. destruct path as [|c path]; [done|]. rewrite Er, drop_slashes_id by (by destruct (rev nm)).
  destruct (rev nm ++ r) as [|c' r'] eqn:E; [by destruct (rev nm)|]. rewrite <- E. clear E Er.
  rewrite span_run; [cbn [fst]; by rewrite rev_involutive| |].
  - apply Forall_forall. intros x Hx. apply negb_true_iff, Z.eqb_neq. intros ->. apply Hns. by rewrite list_elem_of_In, in_rev, <- list_elem_of_In.
  - by destruct Hr as [->|Hr]; [|rewrite Hr].
Qed.

Lemma atoi_digits_spec ds v : Forall (fun c => 48 <= c <= 57) ds ->
  mkarchive.atoi_digits ds v = fold_left (fun v d => v * 10 + d) (map (fun c => c - 48) ds) v.
Proof.
  intros H. revert v. induction H as [|c ds Hc _ IH]; intros v; [done|]. cbn [mkarchive.atoi_digits map fold_left].
  destruct (Z.leb_spec 48 c), (Z.leb_spec c 57); try lia. cbn [andb]. apply IH.
Qed.

Lemma atoi_spec ds n : numeral ds n -> 0 < n < 2 ^ 31 -> mkarchive.atoi ds = n.
Proof.
  intros [Hds Hv] Hn. destruct ds as [|c ds]; [cbn in Hv; lia|]. unfold mkarchive.atoi. pose proof (Forall_inv Hds) as Hc. cbv beta in Hc.
  assert (isspace c = false) as Hsp.
  { assert (Forall (fun x => isspace x = false) (seqZ 48 10)) as Hall by (apply (bool_decide_unpack _); by vm_compute).
    apply (proj1 (Forall_forall _ _) Hall). apply elem_of_seqZ. lia. }
  cbn [span]. rewrite Hsp. cbn [snd].
  assert (s32 (mkarchive.atoi_digits (c :: ds) 0) = n) as H.
  { rewrite atoi_digits_spec, place_value_fold, <- Hv by done. rewrite swrap_small by lia. lia. }
  destruct c as [|p|p]; try lia. do 6 (destruct p as [p|p|]; try lia; try exact H).
Qed.

(** ** Text *)

(** [fgets] takes a line *)
Lemma line_of k l c f : Forall (fun x => x <> 0 /\ x <> 10) l -> (length l < k)%nat -> c = 10 \/ S (length l) = k \/ f = [] ->
  mkarchive.line k (l ++ c :: f) = (l ++ [c], f).
Proof.
  intros Hl. revert k. induction Hl as [|x l [_ Hx] _ IH]; intros [|k] Hk Hc; cbn in Hk; try lia.
  - cbn [app mkarchive.line]. destruct (Z.eqb_spec c 10); [done|]. destruct Hc as [Hc0 | [Hc | ->] ]; [done| |].
    + injection Hc as <-. by destruct f.
    + by destruct k.
  - cbn [app mkarchive.line]. destruct (Z.eqb_spec x 10); [done|]. rewrite IH; [done|lia|]. destruct Hc as [?|[?|?]]; [by left|right; left; cbn in *; lia|by right; right].
Qed.

Lemma record_line n l c : Forall (fun x => x <> 0 /\ x <> 10) l -> c <> 0 -> mkarchive.record n (l ++ [c]) = blank_filled n l.
Proof.
  intros Hl Hc. unfold mkarchive.record, blank_filled.
  rewrite <- (app_nil_r (l ++ [c])), span_run by (done || (apply Forall_app; split; [eapply Forall_impl; [exact Hl|]; intros x [Hx _]; by destruct (Z.eqb_spec x 0)|by constructor; [destruct (Z.eqb_spec c 0)|]])).
  rewrite app_nil_r. cbn [fst]. rewrite lenZ_app. change (lenZ [c]) with 1.
  pose proof (lenZ_nonneg l). destruct (Z.eqb_spec (lenZ l + 1) 0); [lia|]. cbn [negb andb].
  replace (Z.to_nat (lenZ l + 1 - 1)) with (length l) by (unfold lenZ; lia). rewrite app_nth2, Nat.sub_diag by lia. cbn [nth].
  destruct (Z.eqb_spec c 0); [done|]. cbn [negb]. rewrite Z.add_simpl_r. f_equal. replace (Z.to_nat (lenZ l)) with (length l) by (unfold lenZ; lia).
  by rewrite take_app_length.
Qed.

Lemma text_records_spec n f rs : text_records n f rs -> forall fuel, (length f < fuel)%nat -> mkarchive.records fuel n f = rs.
Proof.
  induction 1 as [|l c f rs Hl Hc Hlen Hend _ IH]; intros [|fuel] Hf; try lia; cbn [mkarchive.records]; unfold mkarchive.fgets.
  - by destruct (n + 1 <? 1).
  - pose proof (lenZ_nonneg l). destruct (Z.ltb_spec (n + 1) 1); [lia|]. rewrite length_app in Hf. cbn [length] in Hf.
    assert (mkarchive.line (Z.to_nat (n + 1 - 1)) (l ++ c :: f) = (l ++ [c], f)) as E.
    { apply line_of; [done|unfold lenZ in *; lia|]. unfold lenZ in *. destruct Hend as [?|[?|?]]; [by left|right; left; lia|by right; right]. }
    destruct (l ++ c :: f) as [|c' r] eqn:El; [by destruct l|]. rewrite E. cbn [fst snd]. rewrite record_line by done. by rewrite IH by lia.
Qed.

(** every text without NULs has its records *)
Lemma text_records_exist n f : 1 <= n -> Forall (fun c => c <> 0) f -> exists rs, text_records n f rs.
Proof.
  intros Hn. remember (length f) as k eqn:Ek. assert (length f <= k)%nat as Hk by lia. clear Ek. revert f Hk.
  induction k as [|k IH]; intros f Hk Hf; [destruct f; [eexists; constructor|cbn in Hk; lia]|].
  destruct f as [|x f]; [eexists; constructor|].
  assert (exists l c g, x :: f = l ++ c :: g /\ Forall (fun x => x <> 0 /\ x <> 10) l /\ c <> 0 /\ lenZ l < n /\ (c = 10 \/ lenZ l + 1 = n \/ g = [])) as (l & c & g & E & Hl & Hc & Hlen & Hend).
  { clear IH Hk. revert n Hn x Hf. induction f as [|y f IH]; intros n Hn x Hf; apply Forall_cons in Hf as [Hx Hf].
    - exists [], x, []. split_and!; try done; [by change (lenZ []) with 0; lia|auto].
    - destruct (decide (x = 10 \/ n = 1)) as [Hd|Hd].
      + exists [], x, (y :: f). split_and!; try done; [by change (lenZ []) with 0; lia|]. change (lenZ []) with 0. destruct Hd as [?|?]; [by left|right; left; lia].
      + destruct (IH (n - 1) ltac:(lia) y Hf) as (l & c & g & E & Hl & Hc & Hlen & Hend). exists (x :: l), c, g.
        unfold lenZ in *. cbn [length app]. rewrite E. split_and!; [done|constructor; [tauto|done]|done|lia|]. destruct Hend as [?|[?|?]]; [by left|right; left; lia|by right; right]. }
  rewrite E in Hk, Hf. rewrite length_app in Hk. cbn [length] in Hk. apply Forall_app in Hf as [_ Hf]. apply Forall_cons in Hf as [_ Hf].
  destruct (IH g ltac:(lia) Hf) as [rs Hrs]. exists (blank_filled n l :: rs). rewrite E. by apply next_line.
Qed.

Lemma packs_member files x m : packs files x m -> item_member files x = Some m.
Proof.
  intros [fn ds n f nm rs Hf Hb Hd Hn Hr|fn f nm Hf Hb]; cbn [item_member]; rewrite Hf; unfold mbind, option_bind; cbv beta iota.
  - rewrite (atoi_spec ds n) by done. destruct (Z.ltb_spec n 1); [lia|]. rewrite (basename_spec fn nm) by done. by rewrite (text_records_spec n f rs Hr) by lia.
  - by rewrite (basename_spec fn nm).
Qed.

Lemma concat_buffers fuel f : (length f <= fuel)%nat -> concat (mkarchive.buffers fuel f) = f.
Proof.
  revert f. induction fuel as [|fuel IH]; intros [|c f] Hf; [done|cbn in Hf; lia|done|]. cbn [mkarchive.buffers concat].
  rewrite IH; [apply take_drop|]. rewrite length_drop. cbn [length] in *. unfold mkarchive.BUF_LEN. lia.
Qed.

Lemma sum_lengths (bs : list (list Z)) n : fold_left (fun n b => n + lenZ b) bs n = n + lenZ (concat bs).
Proof.
  revert n. induction bs as [|b bs IH]; intros n; cbn [fold_left concat]; [change (@lenZ Z []) with 0; lia|].
  rewrite IH, lenZ_app. lia.
Qed.

Lemma line_length k f : (length (mkarchive.line k f).1 <= k)%nat.
Proof.
  revert f. induction k as [|k IH]; intros [|c f]; cbn [mkarchive.line fst length]; [lia..|].
  case_match; cbn [fst length]; [lia|]. specialize (IH f). lia.
Qed.

Lemma span_length (f : Z -> bool) s : (length (span f s).1 <= length s)%nat.
Proof. induction s as [|c s IH]; cbn [span]; [done|]. case_match; cbn [fst length]; lia. Qed.

(** every record has the length asked for *)
Lemma record_length n data : lenZ data <= n -> lenZ (mkarchive.record n data) = n.
Proof.
  intros Hd. unfold mkarchive.record. pose proof (span_length (fun c => negb (c =? 0)) data) as Hs.
  set (k := lenZ (span _ data).1) in *. assert (0 <= k <= lenZ data) as Hk by (unfold k, lenZ in *; lia).
  match goal with |- context [if ?b then k - 1 else k] => set (l := if b then k - 1 else k) end. assert (0 <= l <= lenZ data) as Hl by (unfold l; case_match; lia).
  unfold lenZ in *. rewrite length_app, length_take, length_replicate. lia.
Qed.

Lemma records_length fuel n f : 1 <= n -> lenZ (concat (mkarchive.records fuel n f)) = lenZ (mkarchive.records fuel n f) * n.
Proof.
  intros Hn. revert f. induction fuel as [|fuel IH]; intros f; [done|]. cbn [mkarchive.records]. unfold mkarchive.fgets.
  destruct (Z.ltb_spec (n + 1) 1); [lia|]. destruct f as [|c f]; [done|].
  destruct (mkarchive.line (Z.to_nat (n + 1 - 1)) (c :: f)) as [data rest] eqn:E. cbn [concat].
  rewrite lenZ_app, lenZ_cons, IH, record_length; [lia|]. pose proof (line_length (Z.to_nat (n + 1 - 1)) (c :: f)) as Hl.
  rewrite E in Hl. cbn [fst] in Hl. unfold lenZ. lia.
Qed.

Lemma member_length m : lenZ (member_bytes m) = lenZ m.2 + lenZ m.1 + 1 + cpio_hdr_size.
Proof. unfold member_bytes. rewrite !lenZ_app, header_length. change (lenZ [0]) with 1. lia. Qed.

(** one file of the command line *)
Lemma item_written files x m : item_member files x = Some m -> fits_header m ->
  exists rs, concat rs = m.2 /\
  match x with
  | Text fn n => mkarchive.__text files fn (mkarchive.atoi n)
  | Bin fn => mkarchive.__bin files fn
  end = Ret (inr (member_bytes m, u32 (lenZ (member_bytes m)))).
Proof.
  intros Hx [Hn Hs]. assert (0 <= lenZ m.2 < 2 ^ 32) as Hs' by (pose proof (lenZ_nonneg m.2); lia).
  destruct x as [fn n|fn]; cbn [item_member] in Hx; destruct (files fn) as [f|] eqn:Ef; try discriminate Hx; unfold mbind, option_bind in Hx; cbv beta iota in Hx.
  - destruct (Z.ltb_spec (mkarchive.atoi n) 1) as [|Hr]; [discriminate|].
    pose proof (records_length (S (length f)) _ f Hr) as Hlen. set (rs := mkarchive.records _ _ _) in *.
    injection Hx as <-. cbn [fst snd] in *. exists rs. split; [done|]. unfold mkarchive.__text. destruct (Z.eqb_spec (mkarchive.atoi n) 0); [lia|]. rewrite Ef. fold rs.
    unfold mkarchive.entry. rewrite Hlen in Hs, Hs'. rewrite (wrap_small 32 (lenZ rs * mkarchive.atoi n)) by lia. rewrite mkhdr_spec by done. cbn [mbind outcome_bind].
    rewrite member_length. unfold member_bytes. cbn [fst snd]. by rewrite Hlen.
  - injection Hx as <-. cbn [fst snd] in *. exists (mkarchive.buffers (length f) f). split; [by apply concat_buffers|].
    unfold mkarchive.__bin. rewrite Ef, sum_lengths, concat_buffers, Z.add_0_l by done. rewrite wrap_small by done.
    unfold mkarchive.entry. rewrite mkhdr_spec by done. cbn [mbind outcome_bind].
    rewrite concat_buffers by done. by rewrite member_length.
Qed.

Lemma mod512_wrap n : (- u32 n) mod 512 = (- n) mod 512.
Proof. unfold wrap. divlia. Qed.

Lemma mktail_spec n : mkarchive.mktail (u32 n) = Ret (trailer_bytes n).
Proof. unfold mkarchive.mktail. rewrite mkhdr_spec by done. cbn [mbind outcome_bind]. by rewrite mod512_wrap. Qed.

Lemma main_loop_spec files items ms fuel len out :
  Forall2 (fun x m => item_member files x = Some m /\ fits_header m) items ms ->
  (length (concat (map item_args items)) < fuel)%nat ->
  mkarchive.main_loop fuel files (concat (map item_args items)) (u32 len) out =
    Ret (out ++ concat (map member_bytes ms) ++ trailer_bytes (len + lenZ (concat (map member_bytes ms))), 0).
Proof.
  intros Hf. revert fuel len out. induction Hf as [|x m items ms [Hx Hm] Hf IH]; intros fuel len out Hfuel.
  - destruct fuel; [cbn in Hfuel; lia|]. cbn [map concat mkarchive.main_loop]. rewrite mktail_spec. cbn [mbind outcome_bind app].
    change (@lenZ Z []) with 0. by rewrite Z.add_0_r.
  - destruct (item_written files x m Hx Hm) as (rs & _ & E). cbn [map concat] in Hfuel |- *. rewrite length_app in Hfuel.
    assert (forall k, (length (concat (map item_args items)) < k)%nat ->
      mkarchive.main_loop k files (concat (map item_args items)) (u32 (u32 len + u32 (lenZ (member_bytes m)))) (out ++ member_bytes m) =
      Ret (out ++ (member_bytes m ++ concat (map member_bytes ms)) ++
           trailer_bytes (len + lenZ (member_bytes m ++ concat (map member_bytes ms))), 0)) as Hk.
    { intros k Hk. replace (u32 (u32 len + u32 (lenZ (member_bytes m)))) with (u32 (len + lenZ (member_bytes m))).
      2: { unfold wrap. by rewrite <- Z.add_mod by lia. }
      rewrite IH by done. by rewrite lenZ_app, Z.add_assoc, <- !app_assoc. }
    destruct x as [fn n|fn]; cbn [item_args app length] in *; (destruct fuel as [|fuel]; [lia|]); cbn [mkarchive.main_loop].
    + rewrite bool_decide_true by done. rewrite E. cbn [mbind outcome_bind]. apply Hk. lia.
    + rewrite bool_decide_false by done. rewrite bool_decide_true by done. rewrite E. cbn [mbind outcome_bind]. apply Hk. lia.
Qed.

(** the archive *)
Lemma main_spec files items ms :
  Forall2 (fun x m => item_member files x = Some m /\ fits_header m) items ms ->
  mkarchive.main files (concat (map item_args items)) = Ret (archive ms, 0).
Proof.
  intros Hf. unfold mkarchive.main. change 0 with (u32 0) at 1. rewrite (main_loop_spec files items ms) by (done || lia). done.
Qed.

(** * What the reader reads *)

Section reading.
Context {D F : Type} `{Disk D F}.

Notation state := (cpio.state (D := D)).

(** the bytes that are still to come: those in the buffer and those on the cards *)
Definition pending (s : state) (l : list Z) : Prop :=
  0 <= cpio.fill s /\ cpio.eof s = false /\
  exists cs, cpio.cards s = map Some cs /\ Forall (fun c => length c = 80%nat) cs /\
  read_bytes (cpio.buf s) 0 (cpio.fill s) ++ concat cs = l.

(** nothing but the reader's own state differs *)
Definition same_disk (s s' : state) : Prop := cpio.disk s' = cpio.disk s /\ cpio.msgs s' = cpio.msgs s.

Lemma read_write_before (m : Z -> Z) a l n : 0 <= n <= a -> read_bytes (write_bytes m a l) 0 n = read_bytes m 0 n.
Proof.
  intros Hn. unfold read_bytes. apply map_ext_in. intros x Hx%list_elem_of_In. apply elem_of_seqZ in Hx.
  unfold write_bytes. by rewrite decide_False by lia.
Qed.

Lemma read_bytes_app m a n k : 0 <= n -> 0 <= k -> read_bytes m a (n + k) = read_bytes m a n ++ read_bytes m (a + n) k.
Proof. intros Hn Hk. unfold read_bytes. by rewrite seqZ_app, map_app by lia. Qed.

Lemma read_written (m : Z -> Z) a l : read_bytes (write_bytes m a l) a (lenZ l) = l.
Proof.
  apply list_eq. intros i. destruct (decide (i < length l)%nat) as [Hi|Hi].
  - rewrite read_bytes_lookup by (unfold lenZ; lia). unfold write_bytes. rewrite decide_True by lia.
    replace (Z.to_nat (a + Z.of_nat i - a)) with i by lia. destruct (lookup_lt_is_Some_2 l i Hi) as [x ->]. done.
  - rewrite !lookup_ge_None_2; [done|lia|]. pose proof (read_bytes_len (write_bytes m a l) a (lenZ l) (lenZ_nonneg l)) as HL.
    unfold lenZ in *. lia.
Qed.

Lemma read_bytes_take m a n k : 0 <= k <= n -> read_bytes m a k = take (Z.to_nat k) (read_bytes m a n).
Proof.
  intros Hk. replace n with (k + (n - k)) by lia. rewrite read_bytes_app by lia. rewrite take_app_length'; [done|].
  pose proof (read_bytes_len m a k ltac:(lia)) as HL. unfold lenZ in HL. lia.
Qed.

Lemma read_bytes_drop m a n k : 0 <= k <= n -> read_bytes m (a + k) (n - k) = drop (Z.to_nat k) (read_bytes m a n).
Proof.
  intros Hk. replace (read_bytes m a n) with (read_bytes m a k ++ read_bytes m (a + k) (n - k)).
  - rewrite drop_app_length'; [done|]. pose proof (read_bytes_len m a k ltac:(lia)) as HL. unfold lenZ in HL. lia.
  - rewrite <- read_bytes_app by lia. f_equal. lia.
Qed.

(** one card more *)
Lemma readcard_pending s l : pending s l -> cpio.fill s < lenZ l -> cpio.fill s + 80 <= cpio.BUFFER_SIZE ->
  exists s', (s ← cpio.readcard (cpio.fill s) s; Ret (cpio.set_fill (cpio.fill s + 80) s)) = Ret s' /\
    pending s' l /\ cpio.fill s' = cpio.fill s + 80 /\ same_disk s s'.
Proof.
  intros (H0 & He & cs & Hc & Hl & Hp) Hlt Hcap. unfold cpio.readcard. rewrite He, Hc. destruct cs as [|c cs].
  { cbn [concat] in Hp. rewrite app_nil_r in Hp. rewrite <- Hp, read_bytes_len in Hlt by done. lia. }
  cbn [map]. destruct (Z.leb_spec (cpio.fill s + 80) cpio.BUFFER_SIZE); [|lia]. cbn [mbind outcome_bind].
  eexists. split; [done|]. split; [|by split; [|split]]. apply Forall_cons in Hl as [Hc80 Hl].
  split; [cbn; lia|]. split; [done|]. exists cs. split; [done|]. split; [done|].
  cbn [cpio.buf cpio.set_fill cpio.fill]. rewrite read_bytes_app by lia. rewrite read_write_before by lia. rewrite Z.add_0_l.
  replace 80 with (lenZ c) by (unfold lenZ; lia). rewrite read_written. rewrite <- Hp. cbn [concat]. by rewrite <- app_assoc.
Qed.

Lemma fetch_loop_pending fuel n s l : pending s l -> n <= lenZ l -> n + 80 <= cpio.BUFFER_SIZE ->
  n - cpio.fill s <= 80 * (Z.of_nat fuel - 1) -> (1 <= fuel)%nat ->
  exists s', cpio.fetch_loop fuel n s = Ret s' /\ pending s' l /\ n <= cpio.fill s' <= Z.max (cpio.fill s) (n + 79) /\ same_disk s s'.
Proof.
  intros Hs Hn Hcap Hfuel H1. revert s Hs Hfuel. induction fuel as [|fuel IH]; intros s Hs Hfuel; [lia|]. cbn [cpio.fetch_loop].
  destruct (Z.gtb_spec n (cpio.fill s)).
  - destruct (readcard_pending s l Hs ltac:(lia) ltac:(lia)) as (s1 & E & Hs1 & Hf1 & Hd1).
    destruct fuel as [|fuel]; [lia|]. destruct (IH ltac:(lia) s1 Hs1 ltac:(lia)) as (s2 & E2 & Hs2 & Hf2 & Hd2).
    exists s2. destruct (cpio.readcard (cpio.fill s) s) as [sr| |]; [|done..]. cbn [mbind outcome_bind] in *. injection E as ->.
    split; [exact E2|]. split; [done|]. split; [lia|]. unfold same_disk in *. destruct Hd1, Hd2. split; congruence.
  - exists s. split; [done|]. split; [done|]. split; [lia|done].
Qed.

Lemma fetch_pending n s l : pending s l -> 0 <= n <= lenZ l -> n + 80 <= cpio.BUFFER_SIZE ->
  exists s', cpio.fetch n s = Ret s' /\ pending s' l /\ n <= cpio.fill s' <= Z.max (cpio.fill s) (n + 79) /\ same_disk s s'.
Proof.
  intros Hs Hn Hcap. pose proof Hs as (H0 & _). apply fetch_loop_pending; [done|lia|lia| |lia].
  rewrite Nat2Z.inj_succ, Z2Nat.id by divlia. divlia.
Qed.

(** the first bytes of what is pending are in the buffer *)
Lemma pending_bytes s l a n : pending s l -> 0 <= a -> 0 <= n -> a + n <= cpio.fill s -> a + n <= cpio.BUFFER_SIZE ->
  cpio.bytes s a n = Ret (take (Z.to_nat n) (drop (Z.to_nat a) l)).
Proof.
  intros (H0 & _ & cs & _ & _ & Hp) Ha Hn Hf Hb. unfold cpio.bytes.
  destruct (Z.leb_spec 0 a); [|lia]. destruct (Z.leb_spec (a + n) cpio.BUFFER_SIZE); [|lia]. cbn [andb]. f_equal.
  pose proof (read_bytes_len (cpio.buf s) 0 (cpio.fill s) H0) as HL.
  rewrite <- Hp, drop_app_le by (unfold lenZ in HL; lia). rewrite take_app_le by (rewrite length_drop; unfold lenZ in HL; lia).
  rewrite <- read_bytes_drop by lia. rewrite Z.add_0_l. apply read_bytes_take. lia.
Qed.

Lemma consume_pending n s l : pending s l -> 0 <= n <= cpio.fill s -> cpio.fill s <= cpio.BUFFER_SIZE ->
  exists s', cpio.consume n s = Ret s' /\ pending s' (drop (Z.to_nat n) l) /\ cpio.fill s' = cpio.fill s - n /\ same_disk s s'.
Proof.
  intros (H0 & He & cs & Hc & Hl & Hp) Hn Hcap. unfold cpio.consume, cpio.bytes. cbn [cpio.fill cpio.set_fill].
  destruct (Z.leb_spec 0 n); [|lia]. destruct (Z.leb_spec (n + (cpio.fill s - n)) cpio.BUFFER_SIZE); [|lia].
  cbn [andb mbind outcome_bind]. eexists. split; [done|]. split; [|by split; [|split]].
  split; [cbn; lia|]. split; [done|]. exists cs. split; [done|]. split; [done|]. cbn [cpio.buf cpio.set_buf cpio.fill cpio.set_fill].
  set (r := read_bytes (cpio.buf s) n (cpio.fill s - n)).
  assert (lenZ r = cpio.fill s - n) as Hr by (apply read_bytes_len; lia). rewrite <- Hr, read_written. unfold r.
  pose proof (read_bytes_len (cpio.buf s) 0 (cpio.fill s) H0) as HL.
  rewrite <- Hp, drop_app_le by (unfold lenZ in HL; lia). f_equal. rewrite <- read_bytes_drop by lia. by rewrite Z.add_0_l.
Qed.
End reading.

(** * The files that are installed *)

Section installing.
Context {D F : Type} `{Disk D F}.

Notation state := (cpio.state (D := D)).

(** cut into pieces of [n] bytes *)
Definition cut (n : nat) (l : list Z) : list (list Z) := map (fun i => take n (drop (i * n) l)) (seq 0 (length l / n)).

(** filled up with zeros to whole records *)
Definition zero_filled (n : Z) (l : list Z) : list Z := l ++ replicate (Z.to_nat ((- lenZ l) mod n)) 0.

(** a text goes to the disk in EBCDIC *)
Definition encoded (te : cpio.table) (data : list Z) : list Z :=
  if cpio.text te then translated ascii2ebcdic_table data else data.

Definition disk_records (te : cpio.table) (d : list Z) : list (list Z) := cut (Z.to_nat (cpio.lrecl te)) (zero_filled (cpio.lrecl te) d).

(** a new file with these records, one after the other *)
Fixpoint append_all (h : F) (recs : list (list Z)) (d : D) : outcome D :=
  match recs with
  | [] => Ret d
  | r :: recs => '(h, d) ← append_record h r d; append_all h recs d
  end.

(** storing a file with a table entry; [rest] is what fills up the block of a boot file *)
Definition install_entry (te : cpio.table) (data rest : list Z) (d : D) : outcome D :=
  '(found, d) ← find_file (cpio.fn te) (cpio.ft te) d;
  match found with
  | Some _ => Stopped
  | None =>
      '(h, d) ← create_file (cpio.fn te) (cpio.ft te) (cpio.lrecl te) d;
      d ← (if cpio.lba te =? 0 then Ret d else
           if lenZ data >? cpio.lrecl te then Stopped else write_blk (encoded te data ++ rest) (cpio.lba te) d);
      append_all h (disk_records te (encoded te data)) d
  end.

(** the same as the code does it *)
Definition entry_steps (te : cpio.table) (data rest : list Z) (d : D) : outcome D :=
  '(found, d) ← find_file (cpio.fn te) (cpio.ft te) d;
  match found with
  | Some _ => Stopped
  | None =>
      '(h, d) ← create_file (cpio.fn te) (cpio.ft te) (cpio.lrecl te) d;
      data ← (if cpio.text te then ascii2ebcdic data (lenZ data) else Ret data);
      d ← (if cpio.lba te =? 0 then Ret d else
           if lenZ data >? cpio.lrecl te then Stopped else write_blk (data ++ rest) (cpio.lba te) d);
      '(_, d) ← cpio.append_records h (cpio.split_records (length data) (Z.to_nat (cpio.lrecl te)) data) d;
      Ret d
  end.

Lemma append_all_steps h recs d : append_all h recs d = ('(_, d) ← cpio.append_records h recs d; Ret d).
Proof.
  revert h d. induction recs as [|r recs IH]; intros h d; [done|]. cbn [append_all cpio.append_records].
  destruct (append_record h r d) as [[h1 d1]| |]; [|done..]. apply IH.
Qed.

Lemma cut_nil n : (0 < n)%nat -> cut n [] = [].
Proof. intros Hn. unfold cut. cbn [length]. by rewrite Nat.div_0_l by lia. Qed.

Lemma cut_app n l k : (0 < n)%nat -> length l = n -> cut n (l ++ k) = l :: cut n k.
Proof.
  intros Hn Hl. unfold cut. rewrite length_app, Hl. replace ((n + length k) / n)%nat with (S (length k / n)).
  2:{ replace (n + length k)%nat with (length k + 1 * n)%nat by lia. rewrite Nat.div_add by lia. lia. }
  cbn [seq map]. f_equal; [rewrite drop_0; by apply take_app_length'|]. rewrite <- seq_shift, map_map. apply map_ext. intros i.
  cbn [Nat.mul]. rewrite <- drop_drop, drop_app_length' by done. done.
Qed.

Lemma zero_filled_step n l : 0 < n -> n <= lenZ l -> zero_filled n l = take (Z.to_nat n) l ++ zero_filled n (drop (Z.to_nat n) l).
Proof.
  intros Hn Hl. unfold zero_filled. rewrite app_assoc, take_drop. do 2 f_equal. unfold lenZ in *. rewrite length_drop.
  f_equal. rewrite Nat2Z.inj_sub, Z2Nat.id by lia. replace (- (Z.of_nat (length l) - n)) with (- Z.of_nat (length l) + 1 * n) by lia. by rewrite Z.mod_add by lia.
Qed.

Lemma zero_filled_len n l : 0 < n -> exists k, lenZ (zero_filled n l) = k * n.
Proof.
  intros Hn. exists ((lenZ l + (- lenZ l) mod n) / n). unfold zero_filled. rewrite lenZ_app. unfold lenZ at 2. rewrite length_replicate.
  pose proof (Z.mod_pos_bound (- lenZ l) n Hn). rewrite Z2Nat.id by lia.
  pose proof (Z.div_mod (- lenZ l) n ltac:(lia)). set (q := - lenZ l / n) in *. set (r := (- lenZ l) mod n) in *.
  replace (lenZ l + r) with ((- q) * n) by lia. by rewrite Z.div_mul by lia.
Qed.

Lemma split_records_cut fuel n l : 0 < n -> (length l <= fuel)%nat -> cpio.split_records fuel (Z.to_nat n) l = cut (Z.to_nat n) (zero_filled n l).
Proof.
  intros Hn. revert l. induction fuel as [|fuel IH]; intros [|c l] Hl.
  1, 3: unfold zero_filled; change (lenZ []) with 0; rewrite Z.mod_0_l by lia; by rewrite cut_nil by lia.
  { cbn in Hl. lia. }
  cbn [cpio.split_records]. set (g := c :: l) in *. assert (0 < lenZ g) as Hg by done. clearbody g.
  destruct (Z.le_gt_cases n (lenZ g)) as [Hle|Hgt].
  - rewrite (zero_filled_step n g) by done. unfold lenZ in *. rewrite cut_app by (rewrite ?length_take; lia). rewrite IH by (rewrite length_drop; lia).
    replace (Z.to_nat n - length g)%nat with 0%nat by lia. cbn [replicate]. by rewrite app_nil_r.
  - unfold zero_filled. replace ((- lenZ g) mod n) with (n - lenZ g).
    2:{ apply (Z.mod_unique_pos _ _ (-1)); lia. }
    rewrite <- (app_nil_r (g ++ _)). unfold lenZ in *. rewrite cut_app by (rewrite ?length_app, ?length_replicate; lia).
    rewrite take_ge, drop_ge by lia. replace (Z.to_nat (n - Z.of_nat (length g))) with (Z.to_nat n - length g)%nat by lia.
    f_equal. rewrite cut_nil by lia. by destruct fuel.
Qed.

Lemma concat_cut n l k : (0 < n)%nat -> length l = (k * n)%nat -> concat (cut n l) = l /\ length (cut n l) = k /\ Forall (fun r => length r = n) (cut n l).
Proof.
  intros Hn. revert l. induction k as [|k IH]; intros l Hl.
  - destruct l; [|done]. rewrite cut_nil by lia. by split_and!.
  - rewrite <- (take_drop n l). rewrite cut_app by (rewrite ?length_take; lia). destruct (IH (drop n l)) as (E1 & E2 & E3); [rewrite length_drop; lia|].
    cbn [concat length]. rewrite E1, E2. split_and!; [done..|]. constructor; [|done]. rewrite length_take. lia.
Qed.

Lemma stored_length te data : length (encoded te data) = length data.
Proof. unfold encoded. destruct (cpio.text te); [apply translated_length|done]. Qed.

Lemma install_entry_steps te data rest d : 0 < cpio.lrecl te -> Forall byte data -> install_entry te data rest d = entry_steps te data rest d.
Proof.
  intros Hl Hb. unfold install_entry, entry_steps. destruct (find_file _ _ _) as [[[f|] d1]| |]; [done| |done..]. cbn [mbind outcome_bind].
  destruct (create_file _ _ _ _) as [[h d2]| |]; [|done..]. cbn [mbind outcome_bind].
  assert ((if cpio.text te then ascii2ebcdic data (lenZ data) else Ret data) = Ret (encoded te data)) as ->.
  { unfold encoded. destruct (cpio.text te); [by apply translate_bytes|done]. }
  cbn [mbind outcome_bind]. assert (lenZ (encoded te data) = lenZ data) as -> by (unfold lenZ; by rewrite stored_length).
  destruct (if cpio.lba te =? 0 then _ else _) as [d3| |]; [|done..]. cbn [mbind outcome_bind]. rewrite append_all_steps.
  by rewrite split_records_cut.
Qed.

(** the entry with a name *)
Definition entry_of (nm : list Z) : option cpio.table := head (filter (fun te => cpio.arch te = nm) cpio.the_table).

Definition install (m : list Z * list Z) (rest : list Z) (d : D) : outcome D :=
  match entry_of m.1 with Some te => install_entry te m.2 rest d | None => Ret d end.

Fixpoint install_all (ms : list ((list Z * list Z) * list Z)) (d : D) : outcome D :=
  match ms with [] => Ret d | (m, rest) :: ms => d ← install m rest d; install_all ms d end.

(** the name that ends the archive is not the first ten letters of this one *)
Definition not_trailer (nm : list Z) : Prop := ~ (length nm = 10%nat /\ head nm = Some 84).

(** a name that can be told from the trailer's, and sizes the buffer holds *)
Definition readable (m : list Z * list Z) : Prop :=
  Forall (fun c => 1 <= c < 256) m.1 /\ m.1 <> [] /\ not_trailer m.1 /\ Forall byte m.2 /\
  lenZ m.1 + lenZ m.2 + 400 <= cpio.BUFFER_SIZE.

Lemma translate_loop_length n buf pos table b : translate_loop n buf pos table = Ret b -> lenZ b = lenZ buf.
Proof.
  revert buf pos. induction n as [|n IH]; intros buf pos E; cbn [translate_loop] in E; [by injection E as ->|].
  apply bind_Ret in E as (c & _ & E). destruct (c =? 0); [by injection E as ->|].
  apply bind_Ret in E as (x & _ & E). apply bind_Ret in E as (b1 & Hb & E). apply defined_Ret in Hb.
  rewrite (IH _ _ E). by eapply aset_lenZ.
Qed.

Lemma header_fields nm size l : let h := header nm size ++ l in
  take 6 (drop 59 h) = oct 6 (lenZ nm + 1) /\ take 11 (drop 65 h) = oct 11 size /\ drop 76 h = l.
Proof.
  intros h. set (P := zs "070707" ++ replicate 30 48 ++ zs "000001" ++ replicate 17 48).
  assert (h = P ++ oct 6 (lenZ nm + 1) ++ oct 11 size ++ l) as -> by (unfold h, header, P; by rewrite <- !app_assoc).
  assert (length P = 59%nat) as HP by done. split_and!.
  - by rewrite drop_app_length', take_app_length' by (done || by rewrite ?oct_length).
  - rewrite app_assoc, drop_app_length' by (rewrite length_app, oct_length; lia). by rewrite take_app_length' by (by rewrite oct_length).
  - rewrite !app_assoc, drop_app_length'; [done|]. rewrite !length_app, !oct_length. lia.
Qed.

Lemma sizes_read (s : state) nm size l : pending s (header nm size ++ l) -> cpio_hdr_size <= cpio.fill s ->
  cpio.bytes s hdr_namesize 6 = Ret (oct 6 (lenZ nm + 1)) /\ cpio.bytes s hdr_filesize 11 = Ret (oct 11 size).
Proof.
  intros Hs Hf. unfold cpio_hdr_size in Hf. destruct (header_fields nm size l) as (F1 & F2 & _). split.
  - rewrite <- F1. by apply (pending_bytes s _ 59 6 Hs); [lia..|done].
  - rewrite <- F2. by apply (pending_bytes s _ 65 11 Hs); [lia..|done].
Qed.

(** the data is in the buffer after it was translated *)
Lemma pending_written (s : state) l n data : pending s l -> lenZ data = n -> 0 <= n <= cpio.fill s ->
  pending (cpio.set_buf (write_bytes (cpio.buf s) 0 data) s) (data ++ drop (Z.to_nat n) l).
Proof.
  intros (H0 & He & cs & Hc & Hl & Hp) <- Hf. split; [done|]. split; [done|]. exists cs. split; [done|]. split; [done|].
  cbn [cpio.buf cpio.set_buf cpio.fill]. replace (cpio.fill s) with (lenZ data + (cpio.fill s - lenZ data)) by lia.
  rewrite read_bytes_app, read_written by lia. rewrite <- app_assoc. f_equal. rewrite Z.add_0_l.
  pose proof (read_bytes_len (cpio.buf s) 0 (cpio.fill s) H0) as HL.
  rewrite <- Hp, drop_app_le by (unfold lenZ in *; lia). f_equal. rewrite <- read_bytes_drop by lia.
  rewrite Z.add_0_l. unfold read_bytes. apply map_ext_in. intros x Hx%list_elem_of_In. apply elem_of_seqZ in Hx.
  unfold write_bytes. rewrite decide_True by lia. rewrite lookup_ge_None_2; [done|]. unfold lenZ in *. lia.
Qed.

Lemma save_file_spec te (s : state) l n : (cpio.lba te <> 0 -> cpio.lrecl te <= 4096) -> pending s l -> n = lenZ (take (Z.to_nat n) l) -> 0 <= n <= cpio.fill s -> cpio.fill s <= cpio.BUFFER_SIZE ->
  exists rest s1, let data := take (Z.to_nat n) l in
    cpio.save_file te n s = (d ← entry_steps te data rest (cpio.disk s); Ret (cpio.set_disk d s1)) /\
    (lenZ data <= 4096 -> lenZ data + lenZ rest = 4096) /\
    (exists data', lenZ data' = n /\ pending s1 (data' ++ drop (Z.to_nat n) l)) /\ cpio.fill s1 = cpio.fill s.
Proof.
  intros Hlrecl Hp Hn Hf Hcap. set (data := take (Z.to_nat n) l) in *.
  set (tr := if cpio.text te then ascii2ebcdic data n else Ret data).
  set (data' := match tr with Ret x => x | _ => data end).
  assert (lenZ data' = n) as Hd'.
  { unfold data', tr. destruct (cpio.text te); [|done]. destruct (ascii2ebcdic data n) as [x| |] eqn:E; [|done..].
    unfold ascii2ebcdic, __translate in E. apply translate_loop_length in E. lia. }
  set (s0 := cpio.set_buf (write_bytes (cpio.buf s) 0 data') s).
  pose proof (pending_written s l n data' Hp Hd' Hf) as Hp0. fold s0 in Hp0.
  set (blk := read_bytes (cpio.buf s0) 0 4096).
  assert (lenZ data' <= 4096 -> blk = data' ++ drop (length data') blk) as Hblk.
  { intros Hle. rewrite <- (take_drop (length data') blk) at 1. f_equal. unfold blk.
    replace (length data') with (Z.to_nat (lenZ data')) by (unfold lenZ; lia).
    rewrite <- read_bytes_take by (unfold lenZ in *; lia). unfold s0. cbn [cpio.buf cpio.set_buf]. apply read_written. }
  exists (if lenZ data' <=? 4096 then drop (length data') blk else []).
  exists (if cpio.lba te =? 0 then s0
          else cpio.wto "special file, writing copy of data to LBA %d" [Val (cpio.lba te)] s0).
  cbv zeta. split; [|split; [|split]].
  - unfold cpio.save_file, entry_steps. destruct (find_file _ _ _) as [[[f|] d1]| |]; [done| |done..]. cbn [mbind outcome_bind].
    destruct (create_file _ _ _ _) as [[h d2]| |]; [|done..]. cbn [mbind outcome_bind].
    pose proof (pending_bytes s l 0 n Hp ltac:(lia) ltac:(lia) ltac:(lia) ltac:(lia)) as Hb. rewrite drop_0 in Hb. fold data in Hb.
    rewrite Hb. cbn [mbind outcome_bind]. rewrite <- Hn. fold tr. destruct tr as [x| |] eqn:Et; [|done..].
    assert (data' = x) as Hx by done. cbn [mbind outcome_bind]. rewrite <- Hx. rewrite Hd'.
    fold s0. destruct (Z.eqb_spec (cpio.lba te) 0) as [|Hlba].
    + cbn [mbind outcome_bind]. destruct (cpio.append_records _ _ _) as [[h' d3]| |]; done.
    + destruct (n >? cpio.lrecl te) eqn:Eg; [done|]. unfold cpio.bytes at 1. change ((0 <=? 0) && (0 + 4096 <=? cpio.BUFFER_SIZE)) with true.
      cbv iota. cbn [mbind outcome_bind]. fold blk. destruct (Z.gtb_spec n (cpio.lrecl te)); [done|].
      specialize (Hlrecl Hlba). destruct (Z.leb_spec n 4096); [|lia]. rewrite <- Hblk by lia.
      destruct (write_blk blk _ _) as [d3| |]; [|done..]. cbn [mbind outcome_bind].
      destruct (cpio.append_records _ _ _) as [[h' d4]| |]; done.
  - intros Hle. rewrite Hd'. destruct (Z.leb_spec n 4096); [|lia]. unfold lenZ in *. rewrite length_drop.
    pose proof (read_bytes_len (cpio.buf s0) 0 4096 ltac:(lia)) as HB. unfold lenZ in HB. fold blk in HB. lia.
  - exists data'. split; [done|]. by destruct (cpio.lba te =? 0).
  - by destruct (cpio.lba te =? 0).
Qed.

(** the name with its terminator is in the buffer *)
Definition has_name (s : state) (nm : list Z) : Prop :=
  read_bytes (cpio.buf s) cpio_hdr_size (lenZ nm + 1) = nm ++ [0].

Lemma window (s : state) nm n : has_name s nm -> 0 <= n ->
  read_bytes (cpio.buf s) cpio_hdr_size (n + 1) = take (Z.to_nat (n + 1)) (nm ++ [0] ++ drop (S (length nm)) (read_bytes (cpio.buf s) cpio_hdr_size (n + 1))).
Proof.
  intros Hn H0. pose proof (read_bytes_len (cpio.buf s) cpio_hdr_size (n + 1) ltac:(lia)) as HL.
  pose proof (lenZ_nonneg nm). destruct (Z.le_gt_cases (lenZ nm) n).
  - set (R := read_bytes _ _ _) in *. assert (take (S (length nm)) R = nm ++ [0]) as Ht.
    { rewrite <- Hn. replace (S (length nm)) with (Z.to_nat (lenZ nm + 1)) by (unfold lenZ; lia). symmetry. apply read_bytes_take. lia. }
    rewrite app_assoc, <- Ht, take_drop, take_ge; [done|]. unfold lenZ in HL. lia.
  - set (R := read_bytes _ _ _) in *. assert (R = take (Z.to_nat (n + 1)) (nm ++ [0])) as Ht.
    { unfold R. rewrite (read_bytes_take _ _ (lenZ nm + 1) (n + 1)) by lia. by rewrite Hn. }
    rewrite app_assoc, take_app_le; [done|]. rewrite length_app. unfold lenZ in *. cbn. lia.
Qed.

Lemma strcmp_window (s : state) nm ar : has_name s nm -> Forall (fun c => 1 <= c < 256) nm -> Forall (fun c => 1 <= c < 256) ar ->
  let w := read_bytes (cpio.buf s) cpio_hdr_size (lenZ ar + 1) in
  exists r, strcmp (w ++ ar ++ [0]) 0 (lenZ w) = Ret r /\ (r = 0 <-> ar = nm).
Proof.
  intros Hn Hnm Har w. pose proof (window s nm (lenZ ar) Hn (lenZ_nonneg ar)) as Hw. fold w in Hw.
  assert (forall l, Forall (fun c => 1 <= c < 256) l -> 0 ∉ l /\ Forall byte l) as Hok.
  { intros l Hl. split; [intros H0; rewrite Forall_forall in Hl; specialize (Hl _ H0); lia|].
    eapply Forall_impl; [exact Hl|]. intros c Hc. cbn beta in Hc. unfold byte. lia. }
  destruct (Hok _ Hnm) as [N0 NB]. destruct (Hok _ Har) as [A0 AB].
  assert (cstr (w ++ ar ++ [0]) (lenZ w) ar) as HA.
  { split; [|done]. pose proof (bytes_at_behind w (ar ++ [0]) []) as Hb. by rewrite app_nil_r in Hb. }
  assert (lenZ w = lenZ ar + 1) as HL by (apply read_bytes_len; pose proof (lenZ_nonneg ar); lia).
  destruct (decide (length nm <= length ar)%nat) as [Hle|Hgt].
  - assert (cstr (w ++ ar ++ [0]) 0 nm) as HN.
    { split; [|done]. rewrite Hw. rewrite (app_assoc nm), take_app_ge by (rewrite length_app; unfold lenZ in *; cbn; lia).
      rewrite <- (app_assoc _ _ (ar ++ [0])). apply bytes_at_self. }
    exists (s8 (first_diff nm ar)). split; [apply strcmp_loop_spec; [by eapply cstr_len|done..]|].
    rewrite s8_diff_0 by (by apply first_diff_range). rewrite first_diff_0 by done. done.
  - assert (w = take (S (length ar)) nm) as Hw'.
    { rewrite Hw. replace (Z.to_nat (lenZ ar + 1)) with (S (length ar)) by (unfold lenZ; lia). by rewrite take_app_le by lia. }
    assert (Forall (fun c => 1 <= c < 256) w) as Hwr by (rewrite Hw'; by apply Forall_take).
    destruct (Hok _ Hwr) as [W0 WB].
    assert (cstr (w ++ ar ++ [0]) 0 (w ++ ar)) as HN.
    { split; [|set_solver]. rewrite <- (app_nil_r (w ++ ar ++ [0])), app_assoc. apply bytes_at_self. }
    exists (s8 (first_diff (w ++ ar) ar)). split; [apply strcmp_loop_spec; [by eapply cstr_len|by apply Forall_app|done..]|].
    rewrite s8_diff_0 by (apply first_diff_range; [by apply Forall_app|done]). rewrite first_diff_0 by (done || set_solver).
    split; intros E; exfalso.
    + apply (f_equal length) in E. rewrite length_app in E. unfold lenZ in HL. lia.
    + subst. lia.
Qed.

Lemma find_entry_spec l (s : state) nm : has_name s nm -> Forall (fun c => 1 <= c < 256) nm ->
  Forall (fun te => Forall (fun c => 1 <= c < 256) (cpio.arch te) /\ lenZ (cpio.arch te) <= 100) l ->
  cpio.find_entry l s = Ret (head (filter (fun te => cpio.arch te = nm) l)).
Proof.
  intros Hn Hnm Hl. induction Hl as [|te l [Hte Hlen] Hl IH]; [done|]. cbn [cpio.find_entry]. unfold cpio.bytes.
  change (0 <=? cpio_hdr_size) with true. unfold cpio.BUFFER_SIZE, cpio_hdr_size in *.
  destruct (Z.leb_spec (76 + (lenZ (cpio.arch te) + 1)) (2 * 1024 * 1024)); [|lia]. cbn [andb mbind outcome_bind].
  destruct (strcmp_window s nm (cpio.arch te) Hn Hnm Hte) as (r & E & Hr). unfold cpio_hdr_size in E. cbv zeta in E. rewrite E.
  cbn [mbind outcome_bind]. rewrite filter_cons. destruct (Z.eqb_spec r 0).
  - rewrite decide_True by (by apply Hr). done.
  - rewrite decide_False by (by rewrite <- Hr). exact IH.
Qed.

Lemma table_ok : Forall (fun te => Forall (fun c => 1 <= c < 256) (cpio.arch te) /\ lenZ (cpio.arch te) <= 100) cpio.the_table.
Proof. repeat (apply Forall_cons_2; [split; [by apply (bool_decide_unpack _)|done]|]). apply Forall_nil_2. Qed.

(** [strncmp] looks at one character only *)
Lemma is_trailer_spec (s : state) : cpio.is_trailer s = Ret (s8 (84 - cpio.buf s cpio_hdr_size) =? 0).
Proof.
  change (cpio.is_trailer s) with (let r := s8 (84 - cpio.buf s cpio_hdr_size) in
    x ← (if negb (r =? 0) || (84 =? 0) then Ret r else Ret r); Ret (x =? 0)). cbv zeta. by case_match.
Qed.

(** the header of a member, and enough of it to see the name *)
Lemma head_read (s : state) l : pending s l -> cpio.fill s < 80 -> cpio_hdr_size <= lenZ l ->
  exists s', (if cpio.fill s <? cpio_hdr_size then s ← cpio.readcard (cpio.fill s) s; Ret (cpio.set_fill (cpio.fill s + 80) s) else Ret s) = Ret s' /\
    pending s' l /\ cpio_hdr_size <= cpio.fill s' <= 155 /\ same_disk s s'.
Proof.
  intros Hs Hf Hl. pose proof Hs as (H0 & _). unfold cpio_hdr_size in *. destruct (Z.ltb_spec (cpio.fill s) 76).
  - destruct (readcard_pending s l Hs) as (s' & E & Hs' & Hf' & Hd); [lia|unfold cpio.BUFFER_SIZE; lia|].
    exists s'.
    split; [|split; [done|split; [lia|done]]]. revert E. unfold cpio.readcard.
    destruct (cpio.eof s); [done|]. destruct (cpio.cards s) as [|[c|] cs]; [done| |done]. case_match; done.
  - exists s. split; [done|]. split; [done|]. split; [lia|done].
Qed.

Lemma name_in_buffer (s : state) nm size l : pending s (header nm size ++ nm ++ [0] ++ l) -> lenZ nm + 1 + cpio_hdr_size <= cpio.fill s ->
  lenZ nm + 1 + cpio_hdr_size <= cpio.BUFFER_SIZE -> has_name s nm.
Proof.
  intros Hs Hf Hb. pose proof (lenZ_nonneg nm). unfold has_name, cpio_hdr_size in *.
  pose proof (pending_bytes s _ 76 (lenZ nm + 1) Hs ltac:(lia) ltac:(lia) ltac:(lia) ltac:(lia)) as E.
  unfold cpio.bytes in E. destruct (Z.leb_spec (76 + (lenZ nm + 1)) cpio.BUFFER_SIZE); [|lia]. cbn [andb Z.leb Z.compare] in E.
  injection E as E. rewrite E. rewrite drop_0. change (0 :: l) with ([0] ++ l). rewrite app_assoc, take_app_length'; [done|]. rewrite length_app. unfold lenZ. cbn. lia.
Qed.

Lemma lookup_entry te nm : entry_of nm = Some te -> cpio.lba te <> 0 -> cpio.lrecl te <= 4096.
Proof.
  unfold entry_of. intros He%head_Some. destruct He as [l He].
  assert (te ∈ cpio.the_table) as Hin. { assert (te ∈ filter (fun te => cpio.arch te = nm) cpio.the_table) as Hf by (rewrite He; left). by apply list_elem_of_filter in Hf as [_ Hf]. }
  revert Hin. clear. intros Hin. assert (Forall (fun te => cpio.lrecl te <= 4096) cpio.the_table) as Hall by (repeat constructor; done).
  rewrite Forall_forall in Hall. intros _. by apply Hall.
Qed.

Lemma entry_lrecl te nm : entry_of nm = Some te -> 0 < cpio.lrecl te.
Proof.
  unfold entry_of. intros [l He]%head_Some.
  assert (te ∈ cpio.the_table) as Hin. { assert (te ∈ filter (fun te => cpio.arch te = nm) cpio.the_table) as Hf by (rewrite He; left). by apply list_elem_of_filter in Hf as [_ Hf]. }
  assert (Forall (fun te => 0 < cpio.lrecl te) cpio.the_table) as Hall by (repeat constructor; done).
  rewrite Forall_forall in Hall. by apply Hall.
Qed.

Lemma consume_set_disk n d (s : state) :
  cpio.consume n (cpio.set_disk d s) = (s' ← cpio.consume n s; Ret (cpio.set_disk d s')).
Proof. unfold cpio.consume, cpio.bytes. cbn [cpio.fill cpio.set_fill cpio.set_disk cpio.buf]. by case_match. Qed.

Lemma not_trailer_seen (s : state) nm : has_name s nm -> Forall (fun c => 1 <= c < 256) nm -> lenZ nm + 1 = 11 -> not_trailer nm ->
  cpio.is_trailer s = Ret false.
Proof.
  intros Hn Hnm E10 Htr. rewrite is_trailer_spec. f_equal. destruct nm as [|c nm]; [done|].
  assert (cpio.buf s cpio_hdr_size = c) as ->.
  { unfold has_name in Hn. apply (f_equal (lookup 0%nat)) in Hn. pose proof (lenZ_nonneg nm).
    rewrite read_bytes_lookup in Hn by (rewrite lenZ_cons; lia). rewrite Z.add_0_r in Hn. by injection Hn. }
  apply Forall_cons in Hnm as [Hc _]. destruct (Z.eqb_spec (s8 (84 - c)) 0) as [Hz|]; [|done].
  apply (proj1 (s8_diff_0 (84 - c) ltac:(lia))) in Hz. exfalso. apply Htr. split; [unfold lenZ in E10; lia|].
  cbn. f_equal. lia.
Qed.

Lemma drop_named nm size l : drop (Z.to_nat (lenZ nm + 1 + cpio_hdr_size)) (header nm size ++ nm ++ [0] ++ l) = l.
Proof.
  rewrite !app_assoc. apply drop_app_length'. pose proof (header_length nm size) as HH.
  rewrite !length_app. unfold lenZ, cpio_hdr_size in *. cbn [length]. lia.
Qed.

(** up to the data of a member *)
Lemma unload_member_name (s : state) nm size l : pending s (header nm size ++ nm ++ [0] ++ l) -> cpio.fill s < 80 ->
  Forall (fun c => 1 <= c < 256) nm -> nm <> [] -> not_trailer nm -> 0 <= size < 2 ^ 31 -> lenZ nm + 1 < 262144 ->
  exists s1, pending s1 l /\ cpio.disk s1 = cpio.disk s /\ cpio.fill s1 < 80 /\
    cpio.unload_one s = cpio.unload_data (entry_of nm) size s1.
Proof.
  intros Hs Hf Hnm Hne Htr Hsz Hname. set (S0 := header nm size ++ nm ++ [0] ++ l) in *.
  pose proof (lenZ_nonneg nm). pose proof (lenZ_nonneg l).
  assert (lenZ S0 = 76 + lenZ nm + 1 + lenZ l) as HS0.
  { unfold S0. rewrite !lenZ_app, header_length. change (lenZ [0]) with 1. unfold cpio_hdr_size. lia. }
  destruct (head_read s S0 Hs Hf ltac:(unfold cpio_hdr_size; lia)) as (s1 & E1 & Hs1 & Hf1 & Hd1). unfold cpio_hdr_size in Hf1.
  unfold cpio.unload_one. rewrite E1. cbn [mbind outcome_bind].
  destruct (sizes_read s1 nm size (nm ++ [0] ++ l) Hs1 ltac:(unfold cpio_hdr_size; lia)) as [F1 F2]. rewrite F1. cbn [mbind outcome_bind].
  rewrite F2. cbn [mbind outcome_bind].
  rewrite (getnumber_oct 6) by (change (8 ^ Z.of_nat 6) with 262144; lia).
  rewrite (getnumber_oct 11) by (change (8 ^ Z.of_nat 11) with (2 ^ 33); lia).
  unfold cpio.unload_named.
  destruct (fetch_pending (lenZ nm + 1 + cpio_hdr_size) s1 S0 Hs1) as (s2 & E2 & Hs2 & Hf2 & Hd2);
    [unfold cpio_hdr_size; lia|unfold cpio_hdr_size, cpio.BUFFER_SIZE; lia|]. unfold cpio_hdr_size in Hf2.
  rewrite E2. cbn [mbind outcome_bind].
  pose proof (name_in_buffer s2 nm size l Hs2 ltac:(unfold cpio_hdr_size; lia) ltac:(unfold cpio_hdr_size, cpio.BUFFER_SIZE; lia)) as Hname2.
  assert ((if lenZ nm + 1 =? 11 then cpio.is_trailer s2 else Ret false) = Ret false) as ->.
  { destruct (Z.eqb_spec (lenZ nm + 1) 11) as [E10|]; [|done]. by apply (not_trailer_seen s2 nm). }
  cbn [mbind outcome_bind]. rewrite (find_entry_spec _ s2 nm Hname2 Hnm table_ok). cbn [mbind outcome_bind]. fold (entry_of nm).
  set (s3 := match entry_of nm with Some _ => _ | None => _ end).
  assert (pending s3 S0 /\ cpio.fill s3 = cpio.fill s2 /\ cpio.disk s3 = cpio.disk s2) as (Hs3 & Hf3 & Hd3).
  { unfold s3. by destruct (entry_of nm). }
  clearbody s3.
  destruct (consume_pending (lenZ nm + 1 + cpio_hdr_size) s3 S0 Hs3) as (s4 & E4 & Hs4 & Hf4 & Hd4);
    [unfold cpio_hdr_size; lia|unfold cpio.BUFFER_SIZE; lia|]. unfold cpio_hdr_size in Hf4.
  rewrite E4. cbn [mbind outcome_bind]. exists s4. split; [|split; [|split; [lia|done]]].
  - unfold S0 in Hs4. by rewrite drop_named in Hs4.
  - unfold same_disk in *. destruct Hd1, Hd2, Hd4. congruence.
Qed.

(** the data of a member *)
Lemma unload_data_spec (s : state) te data l : pending s (data ++ l) -> cpio.fill s < 80 -> lenZ data + 400 <= cpio.BUFFER_SIZE ->
  (forall t, te = Some t -> cpio.lba t <> 0 -> cpio.lrecl t <= 4096) ->
  exists rest s1, (lenZ data <= 4096 -> lenZ data + lenZ rest = 4096) /\
    cpio.unload_data te (lenZ data) s =
      (d ← match te with Some t => entry_steps t data rest (cpio.disk s) | None => Ret (cpio.disk s) end; Ret (false, cpio.set_disk d s1)) /\
    pending s1 l /\ cpio.fill s1 < 80.
Proof.
  intros Hs Hf Hsize Hte. unfold cpio.BUFFER_SIZE in Hsize. pose proof (lenZ_nonneg data). pose proof (lenZ_nonneg l).
  unfold cpio.unload_data. destruct (fetch_pending (lenZ data) s (data ++ l) Hs) as (s5 & E5 & Hs5 & Hf5 & [Hd5 _]);
    [rewrite lenZ_app; lia|unfold cpio.BUFFER_SIZE; lia|]. rewrite E5. cbn [mbind outcome_bind]. clear E5.
  assert (take (Z.to_nat (lenZ data)) (data ++ l) = data /\ drop (Z.to_nat (lenZ data)) (data ++ l) = l) as [HT HDr].
  { replace (Z.to_nat (lenZ data)) with (length data) by (unfold lenZ; lia). by rewrite take_app_length, drop_app_length. }
  rewrite <- Hd5. destruct te as [te|].
  - destruct (save_file_spec te s5 (data ++ l) (lenZ data) (Hte te eq_refl) Hs5) as (rest & s6 & E6 & Hrest & (data' & Hd' & Hs6) & Hf6);
      [by rewrite HT|lia|unfold cpio.BUFFER_SIZE; lia|]. cbv zeta in E6, Hrest. rewrite HT in E6, Hrest. rewrite HDr in Hs6.
    destruct (consume_pending (lenZ data) s6 _ Hs6) as (s7 & E7 & Hs7 & Hf7 & _); [lia|unfold cpio.BUFFER_SIZE; lia|].
    exists rest, s7. split; [done|]. rewrite E6. split; [|split; [|lia]].
    + destruct (entry_steps te data rest (cpio.disk s5)) as [d| |]; [|done..]. cbn [mbind outcome_bind].
      by rewrite consume_set_disk, E7.
    + replace (Z.to_nat (lenZ data)) with (length data') in Hs7 by (unfold lenZ in *; lia). by rewrite drop_app_length in Hs7.
  - destruct (consume_pending (lenZ data) s5 _ Hs5) as (s7 & E7 & Hs7 & Hf7 & [Hd7 _]); [lia|unfold cpio.BUFFER_SIZE; lia|].
    rewrite HDr in Hs7. exists (replicate (Z.to_nat (4096 - lenZ data)) 0), s7.
    split; [intros; unfold lenZ; rewrite length_replicate; unfold lenZ in *; lia|]. cbn [mbind outcome_bind]. rewrite E7.
    cbn [mbind outcome_bind]. split; [|split; [done|lia]]. rewrite <- Hd7. by destruct s7.
Qed.

(** one member *)
Lemma unload_member (s : state) m l : pending s (member_bytes m ++ l) -> cpio.fill s < 80 -> readable m -> fits_header m ->
  exists rest s1, (lenZ m.2 <= 4096 -> lenZ m.2 + lenZ rest = 4096) /\
    cpio.unload_one s = (d ← install m rest (cpio.disk s); Ret (false, cpio.set_disk d s1)) /\
    pending s1 l /\ cpio.fill s1 < 80.
Proof.
  destruct m as [nm data]. intros Hs Hf (Hnm & Hne & Htr & Hbyte & Hsize) [Hname Hdata]. cbn [fst snd] in *. change (8 ^ 6) with 262144 in Hname.
  pose proof (lenZ_nonneg data). pose proof (lenZ_nonneg nm).
  unfold member_bytes in Hs. cbn [fst snd] in Hs. rewrite <- !app_assoc in Hs.
  destruct (unload_member_name s nm (lenZ data) (data ++ l) Hs Hf Hnm Hne Htr ltac:(lia) Hname) as (s4 & Hs4 & Hd4 & Hf4 & ->).
  destruct (unload_data_spec s4 (entry_of nm) data l Hs4 Hf4 ltac:(lia)) as (rest & s7 & Hrest & E & Hs7 & Hf7).
  { intros t Ht. by apply (lookup_entry t nm). }
  exists rest, s7. split; [done|]. rewrite E, Hd4. split; [|done]. unfold install. cbn [fst snd].
  destruct (entry_of nm) as [te|] eqn:Et; [|done]. rewrite install_entry_steps; [done| |done]. by apply (entry_lrecl te nm).
Qed.

(** the trailer: the byte after its name may already be missing *)
Lemma fetch_trailer (s : state) l : pending s l -> cpio_hdr_size <= cpio.fill s <= 155 -> 86 <= lenZ l ->
  exists s', cpio.fetch (11 + cpio_hdr_size) s = Ret s' /\ same_disk s s' /\ Some (cpio.buf s' cpio_hdr_size) = l !! 76%nat.
Proof.
  unfold cpio_hdr_size. intros Hs Hf Hl.
  assert (forall t : state, pending t l -> 77 <= cpio.fill t -> Some (cpio.buf t 76) = l !! 76%nat) as Hbyte.
  { intros t (H0 & _ & cs & _ & _ & <-) Ht. pose proof (read_bytes_len (cpio.buf t) 0 (cpio.fill t) H0) as HL. unfold lenZ in HL.
    rewrite lookup_app_l by lia. by rewrite read_bytes_lookup by lia. }
  unfold cpio.fetch. change (S (Z.to_nat ((11 + 76) / 80 + 1))) with 3%nat. cbn [cpio.fetch_loop]. change (11 + 76) with 87.
  destruct (Z.gtb_spec 87 (cpio.fill s)) as [Hgt|]; [|by exists s; split; [done|]; split; [done|]; apply Hbyte; [|lia]].
  destruct (Z.lt_ge_cases (cpio.fill s) (lenZ l)).
  - destruct (readcard_pending s l Hs) as (s1 & E1 & Hs1 & Hf1 & Hd1); [lia|unfold cpio.BUFFER_SIZE; lia|].
    destruct (cpio.readcard (cpio.fill s) s) as [sr| |]; [|done..]. cbn [mbind outcome_bind] in *. injection E1 as ->.
    destruct (Z.gtb_spec 87 (cpio.fill s1)); [lia|]. exists s1. split; [done|]. split; [done|]. apply Hbyte; [done|lia].
  - pose proof Hs as (HF0 & He & cs & Hc & Hall & Hp). unfold cpio.readcard. rewrite He, Hc. destruct cs as [|c cs].
    + cbn [map mbind outcome_bind cpio.fill cpio.set_fill]. destruct (Z.gtb_spec 87 (cpio.fill s + 80)); [lia|].
      eexists. split; [done|]. split; [done|]. apply (Hbyte s Hs). lia.
    + exfalso. apply (f_equal lenZ) in Hp. rewrite lenZ_app, read_bytes_len in Hp by done. cbn [concat] in Hp.
      apply Forall_cons in Hall as [Hc80 _]. rewrite lenZ_app in Hp. pose proof (lenZ_nonneg (concat cs)). unfold lenZ at 1 in Hp. lia.
Qed.

Lemma unload_trailer (s : state) l : pending s (header mkarchive.trailer_name 0 ++ mkarchive.trailer_name ++ l) -> cpio.fill s < 80 ->
  exists s1, cpio.unload_one s = Ret (true, s1) /\ cpio.disk s1 = cpio.disk s.
Proof.
  intros Hs Hf. set (S0 := header _ 0 ++ _) in *. pose proof (lenZ_nonneg l).
  assert (lenZ S0 = 86 + lenZ l) as HS0.
  { unfold S0. rewrite !lenZ_app, header_length. change (lenZ mkarchive.trailer_name) with 10. unfold cpio_hdr_size. lia. }
  destruct (head_read s S0 Hs Hf ltac:(unfold cpio_hdr_size; lia)) as (s1 & E1 & Hs1 & Hf1 & [Hd1 _]).
  unfold cpio.unload_one. rewrite E1. cbn [mbind outcome_bind].
  destruct (sizes_read s1 mkarchive.trailer_name 0 (mkarchive.trailer_name ++ l) Hs1 ltac:(lia)) as [F1 F2].
  rewrite F1. cbn [mbind outcome_bind]. rewrite F2. cbn [mbind outcome_bind].
  change (cpio.getnumber (oct 6 (lenZ mkarchive.trailer_name + 1))) with 11. unfold cpio.unload_named.
  destruct (fetch_trailer s1 S0 Hs1 Hf1 ltac:(lia)) as (s2 & E2 & [Hd2 _] & Hb). rewrite E2. cbn [mbind outcome_bind].
  assert (S0 !! 76%nat = Some 84) as HT by reflexivity. rewrite HT in Hb. injection Hb as Hb.
  change (11 =? 11) with true. cbv iota. rewrite is_trailer_spec, Hb. cbn [mbind outcome_bind].
  change (s8 (84 - 84) =? 0) with true. cbv iota. exists s2. split; [done|]. congruence.
Qed.

(** the rest of the block of a boot file: what was in the buffer behind it *)
Definition fills (m : list Z * list Z) (rest : list Z) : Prop := lenZ m.2 <= 4096 -> lenZ m.2 + lenZ rest = 4096.

Lemma fills_exists ms : exists rests, Forall2 fills ms rests.
Proof.
  induction ms as [|m ms [rests IH]]; [by exists []|]. exists (replicate (Z.to_nat (4096 - lenZ m.2)) 0 :: rests).
  constructor; [|done]. intros Hm. unfold lenZ in *. rewrite length_replicate. lia.
Qed.

Lemma unload_members ms (s : state) l :
  pending s (concat (map member_bytes ms) ++ header mkarchive.trailer_name 0 ++ mkarchive.trailer_name ++ l) -> cpio.fill s < 80 ->
  Forall readable ms -> Forall fits_header ms ->
  exists rests, Forall2 fills ms rests /\
    (s' ← cpio.unload_loop (S (length ms)) s; Ret (cpio.disk s')) = install_all (zip ms rests) (cpio.disk s).
Proof.
  revert s. induction ms as [|m ms IH]; intros s Hs Hf Hr Hh.
  - exists []. split; [done|]. destruct (unload_trailer s l Hs Hf) as (s1 & E & Hd). cbn [length cpio.unload_loop]. rewrite E.
    cbn [mbind outcome_bind]. by rewrite Hd.
  - apply Forall_cons in Hr as [Hr Hrs]. apply Forall_cons in Hh as [Hh Hhs]. cbn [map concat] in Hs. rewrite <- app_assoc in Hs.
    destruct (unload_member s m _ Hs Hf Hr Hh) as (rest & s1 & Hrest & E & Hs1 & Hf1).
    cbn [length]. change (cpio.unload_loop (S (S (length ms))) s) with
      ('(last, s) ← cpio.unload_one s; if (last : bool) then Ret s else cpio.unload_loop (S (length ms)) s). rewrite E.
    destruct (install m rest (cpio.disk s)) as [d| |] eqn:Ei.
    2,3: destruct (fills_exists ms) as [rests Hrests]; exists (rest :: rests); (split; [by constructor|]); cbn [zip zip_with install_all]; by rewrite Ei.
    destruct (IH (cpio.set_disk d s1)) as (rests & Hrests & E2); [done..|]. exists (rest :: rests). split; [by constructor|].
    cbn [zip zip_with install_all]. rewrite Ei. cbn [mbind outcome_bind]. exact E2.
Qed.

(** the cards of an archive *)
Lemma cat_cards fuel f : (length f <= fuel)%nat ->
  Forall (fun c => length c = 80%nat) (cat fuel f) /\ exists k, concat (cat fuel f) = f ++ replicate k 0.
Proof.
  revert f. induction fuel as [|fuel IH]; intros [|c f] Hf; [by split; [constructor|exists 0%nat]|cbn in Hf; lia|by split; [constructor|exists 0%nat]|].
  cbn [cat concat]. set (g := c :: f) in *. assert (length g <> 0%nat) as Hg by done. clearbody g.
  destruct (IH (drop 80 g)) as [Hall [k Hk]]; [rewrite length_drop; lia|]. split.
  - constructor; [|done]. rewrite length_app, length_take, length_replicate. lia.
  - rewrite Hk. destruct (decide (length g <= 80)%nat).
    + exists (80 - length g + k)%nat. rewrite take_ge, (drop_ge g) by lia. cbn [app]. by rewrite replicate_add, <- app_assoc.
    + exists k. replace (80 - length g)%nat with 0%nat by lia. cbn [replicate]. by rewrite app_nil_r, app_assoc, take_drop.
Qed.
End installing.

(** what comes back of an archive on cards *)
Lemma unload_cards {D F : Type} `{Disk D F} ms junk (d : D) : Forall readable ms -> Forall fits_header ms ->
  exists rests, Forall2 fills ms rests /\
    (s ← cpio.unload_archive (S (length ms)) junk (map Some (cat (length (archive ms)) (archive ms))) d; Ret (cpio.disk s)) = install_all (zip ms rests) d.
Proof.
  intros Hread Hfit. destruct (cat_cards (length (archive ms)) (archive ms) (le_n _)) as [Hall [k Hk]].
  set (pad := replicate (Z.to_nat ((- lenZ (concat (map member_bytes ms))) mod 512)) 0).
  destruct (unload_members ms (cpio.State junk 0 (map Some (cat (length (archive ms)) (archive ms))) false d [Con "" []])
    (pad ++ replicate k 0)) as (rests & Hrests & E); [|done|done|done|by exists rests].
  split; [done|]. split; [done|]. exists (cat (length (archive ms)) (archive ms)). split; [done|]. split; [done|].
  cbn [cpio.buf cpio.fill]. rewrite Hk. unfold archive, trailer_bytes. fold pad. by rewrite <- !app_assoc.
Qed.

Lemma items_members files items ms : Forall2 (packs files) items ms -> Forall fits_header ms ->
  Forall2 (fun x m => item_member files x = Some m /\ fits_header m) items ms.
Proof. induction 1 as [|x m items ms Hx _ IH]; intros Hf; [constructor|]. apply Forall_cons in Hf as [Hm Hf]. constructor; [by split; [apply packs_member|]|by apply IH]. Qed.

(** * An archive is unpacked as it was packed *)

(** C31: mkarchive's output for a list of text and binary files, cut into cards by padcat and read by the installer,
    is taken apart into exactly those files, under their own names and with their own data: each one that has a table
    entry is created and filled record by record, in order, and the reader stops at the trailer.  The disk it leaves
    (or the failure) is the one of installing the files directly.  The records of a text are its lines filled up with
    blanks, less the last character of a line that fills the record and of a last line without a newline
    (mkarchive.c:93); on the disk texts are in EBCDIC and the last record is filled up with zeros.  The files' names
    are not of ten letters that begin with T (cpio.c:168 takes those for the trailer), texts hold no NUL, and a file
    with its name fits in the installer's buffer of 2 MB. *)
Theorem archive_unpacked {D F : Type} `{Disk D F} files items ms junk (d : D)
    (Hitems : Forall2 (packs files) items ms) (Hfit : Forall fits_header ms) (Hread : Forall readable ms) :
  exists out, mkarchive.main files (concat (map item_args items)) = Ret (out, 0) /\
  exists rests, Forall2 fills ms rests /\
    (s ← cpio.unload_archive (S (length ms)) junk (map Some (cat (length out) out)) d; Ret (cpio.disk s)) = install_all (zip ms rests) d.
Proof.
  exists (archive ms). split; [by apply main_spec, items_members|]. by apply unload_cards.
Qed.

(** * Text files *)

(** a line as long as the record, or the last line when no newline ends it, loses its last character *)
Example record_loses_a_character : mkarchive.records 3 4 (zs "ABCD" ++ [10] ++ zs "XY") = [zs "ABC "; zs "    "; zs "X   "].
Proof. done. Qed.

(** a disk that keeps a list of files (a file is its position) and the blocks written *)
#[export] Instance list_disk : Disk (list (list Z * list Z * list (list Z)) * list (Z * list Z)) nat := {
  find_file fn ft d := Ret (list_find (fun f => f.1 = (fn, ft)) d.1 ≫= fun r => Some r.1, d);
  create_file fn ft _ d := Ret (length d.1, (d.1 ++ [((fn, ft), [])], d.2));
  append_record h r d := Ret (h, (alter (fun f => (f.1, f.2 ++ [r])) h d.1, d.2));
  write_blk b lba d := Ret (d.1, (lba, b) :: d.2);
}.

(** a text file of two lines, and a binary file the installer does not know *)
Definition sample_files (fn : list Z) : option (list Z) :=
  if bool_decide (fn = zs "cf/system.config") then Some (zs "OPER" ++ [10] ++ zs "RDEV" ++ [10])
  else if bool_decide (fn = zs "README") then Some [1; 2; 3] else None.

Definition sample_items : list item := [Text (zs "cf/system.config") (zs "80"); Bin (zs "README")].

Definition sample_members : list (list Z * list Z) :=
  [(zs "system.config", zs "OPER" ++ replicate 76 32 ++ zs "RDEV" ++ replicate 76 32); (zs "README", [1; 2; 3])].

Lemma sample_packs : Forall2 (packs sample_files) sample_items sample_members.
Proof.
  apply Forall2_cons_2; [|apply Forall2_cons_2; [|apply Forall2_nil_2]].
  - apply (packs_text _ _ _ 80 (zs "OPER" ++ [10] ++ zs "RDEV" ++ [10]) _ [zs "OPER" ++ replicate 76 32; zs "RDEV" ++ replicate 76 32]); try done.
    + split; [done|]. split; [by apply (bool_decide_unpack _)|]. right. by exists (zs "cf").
    + split; [by apply (bool_decide_unpack _)|done].
    + apply (next_line 80 (zs "OPER") 10); [by apply (bool_decide_unpack _)|done|done|by left|].
      apply (next_line 80 (zs "RDEV") 10); [by apply (bool_decide_unpack _)|done|done|by left|constructor].
  - apply packs_bin; [done|]. split; [done|]. split; [by apply (bool_decide_unpack _)|by left].
Qed.

Lemma sample_fits : Forall fits_header sample_members.
Proof. repeat (apply Forall_cons_2; [by split; vm_compute|]). apply Forall_nil_2. Qed.

Lemma sample_readable : Forall readable sample_members.
Proof.
  repeat (apply Forall_cons_2; [split; [by apply (bool_decide_unpack _)|split; [done|split; [intros [E _]; by vm_compute in E|split; [by apply (bool_decide_unpack _); vm_compute|by vm_compute]]]]|]).
  apply Forall_nil_2.
Qed.

Theorem archive_unpacked_witness :
  exists out, mkarchive.main sample_files (concat (map item_args sample_items)) = Ret (out, 0) /\
  exists rests, Forall2 fills sample_members rests /\
    (s ← cpio.unload_archive 3 (fun _ => 0) (map Some (cat (length out) out)) ([], []); Ret (cpio.disk s)) =
      install_all (zip sample_members rests) ([], []).
Proof.
  apply (archive_unpacked sample_files sample_items sample_members (fun _ => 0) ([], [])).
  - exact sample_packs.
  - exact sample_fits.
  - exact sample_readable.
Defined.

(** what it makes of the configuration file: two records in EBCDIC *)
Example archive_sample_disk :
  match mkarchive.main sample_files (concat (map item_args sample_items)) with
  | Ret (out, _) => s ← cpio.unload_archive 3 (fun _ => 0) (map Some (cat (length out) out)) ([], []); Ret (cpio.disk s)
  | _ => Undef
  end = Ret ([((zs "SYSTEM  ", zs "CONFIG  "),
               [[214; 215; 197; 217] ++ replicate 76 64; [217; 196; 197; 229] ++ replicate 76 64])], []).
Proof. by vm_compute. Qed.
