(* ===== verification/Installer.v ===== *)
(** installer/edf.c, and reading and writing a block in installer/loader_c.c: the
    writing side of the enhanced disk format.

    The volume is a function from the search argument of a record to its 4096
    bytes.  Every block of a file the installer touched is an entry of the block
    map: which block of which file, where it is, and its bytes once they were read.
    Nothing goes to the volume before [writeback_buffers].  An FST is kept as its 64
    bytes; a [struct FST *] is either a place in the first block of the directory,
    which is where [directory] and [allocmap] point, or a copy of the caller's.
    The theorems: a file that is made and filled record by record is, on the volume
    written back, a file whose blocks hold those records when it is read as
    cp/fs/edf.c reads it (Edf.v), and the files that were there keep theirs. *)

From S2P Require Import Prelude CString Charset Edf Archive.

Local Open Scope Z_scope.

(** ** Blocks of the volume *)

Definition RECORDS_PER_CYL : Z := 15 * 12.
Definition RECORDS_PER_TRACK : Z := 12.

(** the seek and the search argument of a block; the program is SEEK, SEARCH ID
    EQUAL, TIC and the read or write *)
Definition seek_data (lba : Z) : list Z :=
  let cc := u16 (u32 (lba - 1) / RECORDS_PER_CYL) in
  let hh := u16 (u32 (lba - 1) mod RECORDS_PER_CYL / RECORDS_PER_TRACK) in
  [0; 0; cc / 256; cc mod 256; hh / 256; hh mod 256].

Definition search_data (lba : Z) : list Z :=
  let cc := u16 (u32 (lba - 1) / RECORDS_PER_CYL) in
  let hh := u16 (u32 (lba - 1) mod RECORDS_PER_CYL / RECORDS_PER_TRACK) in
  let r := u16 (u32 (lba - 1) mod RECORDS_PER_CYL mod RECORDS_PER_TRACK) in
  [cc / 256; cc mod 256; hh / 256; hh mod 256; u8 (u16 (r + 1))].

Definition volume : Type := list Z -> list Z.

(** [*p = v] on bytes of a structure *)
Definition put_field (b : list Z) (off : nat) (v : list Z) : list Z := take off b ++ v ++ drop (off + length v) b.

Definition set_FOP (t : list Z) (v : Z) : list Z := put_field t 40 (be_bytes 4 v).
Definition set_ADBC (t : list Z) (v : Z) : list Z := put_field t 44 (be_bytes 4 v).
Definition set_AIC (t : list Z) (v : Z) : list Z := put_field t 48 (be_bytes 4 v).
Definition set_NLVL (t : list Z) (v : Z) : list Z := put_field t 52 (be_bytes 1 v).

(** * The installer's file system *)

Module edf.

(** the key, and the value; a block is dirty when it must be written back *)
Record block_map := BlockMap {
  fn : list Z;
  ft : list Z;
  level : Z;
  blk_no : Z;
  lba : Z;
  buf : option (list Z);
  dirty : bool;
}.

Record state := State {
  adt : list Z;
  blocks : list block_map;
  vol : volume;
}.

(** [struct FST *]: the [i]th FST of the first directory block, or a copy *)
Inductive fstp := In_dir (i : nat) | Local (t : list Z).

Definition directory : fstp := In_dir 0.
Definition allocmap : fstp := In_dir 1.

Definition st (A : Type) : Type := state -> outcome (A * state).
#[global] Instance st_ret : MRet st := fun A a s => Ret (a, s).
#[global] Instance st_bind : MBind st := fun A B f m s => '(a, s) ← m s; f a s.

Definition die {A} : st A := fun _ => Stopped.
Definition undef {A} : st A := fun _ => Undef.
Definition lift {A} (m : outcome A) : st A := fun s => a ← m; Ret (a, s).
Definition set_blocks (l : list block_map) : st unit := fun s => Ret (tt, State (adt s) l (vol s)).

(** [adt->adt] *)
Definition DBSIZ : st Z := fun s => Ret (ADT_DBSIZ (adt s), s).
Definition NFST : st Z := fun s => Ret (ADT_NFST (adt s), s).

Section device.
Context (io_ok : Z -> bool).   (* does the program for a block end well *)

(** [__readwrite_blk] *)
Definition read_blk (l : Z) : st (list Z) := fun s =>
  if l <? 1 then Stopped else if io_ok l then Ret (vol s (search_data l), s) else Stopped.
Definition write_blk (b : list Z) (l : Z) : st unit := fun s =>
  if l <? 1 then Stopped else
  if io_ok l
  then Ret (tt, State (adt s) (blocks s) (fun k => if bool_decide (k = search_data l) then b else vol s k))
  else Stopped.

(** ** The block map *)

Definition same_key (f t : list Z) (lv b : Z) (cur : block_map) : Prop :=
  f = fn cur /\ t = ft cur /\ lv = level cur /\ b = blk_no cur.
#[global] Instance same_key_dec f t lv b cur : Decision (same_key f t lv b cur) := _.

Definition block_map_find (f t : list Z) (lv b : Z) : st (option (nat * block_map)) := fun s =>
  Ret (list_find (same_key f t lv b) (blocks s), s).

Definition block_map_add (f t : list Z) (lv b l : Z) : st unit :=
  map ← block_map_find f t lv b;
  match map with
  | Some (_, m) => if lba m =? l then mret tt else die
  | None => fun s => set_blocks (BlockMap f t lv b l None false :: blocks s) s
  end.

Definition put_entry (i : nat) (m : block_map) : st unit := fun s => set_blocks (<[i := m]> (blocks s)) s.

Definition read_file_blk (f t : list Z) (lv b : Z) : st (list Z) :=
  map ← block_map_find f t lv b;
  match map with
  | None => die
  | Some (i, m) =>
      match buf m with
      | Some d => mret d
      | None =>
          d ← read_blk (lba m);
          put_entry i (BlockMap (fn m) (ft m) (level m) (blk_no m) (lba m) (Some d) (dirty m)) ;; mret d
      end
  end.

Definition blk_set_dirty (f t : list Z) (lv b : Z) : st unit :=
  map ← block_map_find f t lv b;
  match map with
  | Some (i, BlockMap f t lv b l (Some d) _) => put_entry i (BlockMap f t lv b l (Some d) true)
  | _ => die
  end.

(** a store into the buffer [read_file_blk] gave *)
Definition poke (f t : list Z) (lv b : Z) (off : Z) (src : list Z) : st unit :=
  map ← block_map_find f t lv b;
  match map with
  | Some (i, BlockMap f t lv b l (Some d) y) =>
      d ← lift (defined (ablit d off src)); put_entry i (BlockMap f t lv b l (Some d) y)
  | _ => undef
  end.

Fixpoint write_each (l : list block_map) : st unit :=
  match l with
  | [] => mret tt
  | cur :: l =>
      (if negb (dirty cur) then mret tt else
       match buf cur with None => die | Some d => write_blk d (lba cur) end) ;; write_each l
  end.

Definition writeback_buffers : st unit := fun s => write_each (blocks s) s.

(** ** FSTs *)

Definition get_fst (p : fstp) : st (list Z) :=
  match p with
  | Local t => mret t
  | In_dir i =>
      map ← block_map_find DIRECTOR_FN DIRECTOR_FT 0 0;
      match map with
      | Some (_, BlockMap _ _ _ _ _ (Some d) _) => mret (fst_at d i)
      | _ => undef
      end
  end.

Definition set_fst (p : fstp) (t : list Z) : st fstp :=
  match p with
  | Local _ => mret (Local t)
  | In_dir i => poke DIRECTOR_FN DIRECTOR_FT 0 0 (Z.of_nat (sizeof_FST * i)) t ;; mret p
  end.

(** the first of [n] directory blocks from [b] that holds an FST of the name: the block and the FST *)
Fixpoint scan_dir (f t : list Z) (b : Z) (n : nat) : st (option (Z * nat * list Z)) :=
  match n with
  | O => mret None
  | S n =>
      d ← read_file_blk DIRECTOR_FN DIRECTOR_FT 0 b;
      nf ← NFST;
      match list_find (fun i => named f t (fst_at d i)) (seq 0 (Z.to_nat nf)) with
      | Some (_, i) => mret (Some (b, i, fst_at d i))
      | None => scan_dir f t (b + 1) n
      end
  end.

Definition find_file (f t : list Z) : st (option (list Z)) :=
  f ← lift (ascii2ebcdic (take 8 f) 8);
  t ← lift (ascii2ebcdic (take 8 t) 8);
  dir ← get_fst directory;
  r ← scan_dir f t 0 (Z.to_nat (FST_ADBC dir));
  mret (option_map snd r).

Definition update_directory (p : fstp) : st unit :=
  t ← get_fst p;
  dir ← get_fst directory;
  r ← scan_dir (FST_FNAME t) (FST_FTYPE t) 0 (Z.to_nat (FST_ADBC dir));
  match r with
  | None => die
  | Some (b, i, _) =>
      poke DIRECTOR_FN DIRECTOR_FT 0 b (Z.of_nat (sizeof_FST * i)) t ;;
      blk_set_dirty DIRECTOR_FN DIRECTOR_FT 0 b
  end.

(** how many blocks of a level [ADBC] blocks need, in [int]s *)
Fixpoint blks_power (level : nat) (ptrs_per_block : Z) : Z :=
  match level with O => 1 | S n => s32 (u32 (blks_power n ptrs_per_block * ptrs_per_block)) end.

Definition file_blocks_at_level (ADBC level : Z) : st Z :=
  db ← DBSIZ;
  let blks := blks_power (Z.to_nat level) (db / 4) in
  if blks =? 0 then undef else mret (s32 (u32 (ADBC + blks - 1) / u32 blks)).

(** the pointers of a block, into the map *)
Fixpoint add_pointers (f t : list Z) (lv : Z) (d : list Z) (first : Z) (j n : nat) : st unit :=
  match n with
  | O => mret tt
  | S n => block_map_add f t lv (u32 (first + Z.of_nat j)) (ptr_at d (Z.of_nat j)) ;; add_pointers f t lv d first (S j) n
  end.

(** [i] blocks of a level of pointers *)
Fixpoint read_level (f t : list Z) (lv : Z) (ptrs : Z) (i n : nat) : st unit :=
  match n with
  | O => mret tt
  | S n =>
      d ← read_file_blk f t lv (Z.of_nat i);
      add_pointers f t (lv - 1) d (Z.of_nat i * ptrs) 0 (Z.to_nat ptrs) ;;
      read_level f t lv ptrs (S i) n
  end.

(** the levels from [lv] down to 1 *)
Fixpoint read_levels (top : bool) (f t : list Z) (adbc ptrs : Z) (lv : nat) : st unit :=
  match lv with
  | O => mret tt
  | S n =>
      blocks ← file_blocks_at_level adbc (Z.of_nat lv);
      if top && negb (blocks =? 1) then die else
      read_level f t (Z.of_nat lv) ptrs 0 (Z.to_nat blocks) ;; read_levels false f t adbc ptrs n
  end.

Definition __read_file (p : fstp) : st unit :=
  t ← get_fst p;
  db ← DBSIZ;
  if FST_PTRSZ t =? 0 then undef else
  let ptrs_per_block := db / FST_PTRSZ t in
  if FST_NLVL t =? 0 then block_map_add (FST_FNAME t) (FST_FTYPE t) 0 0 (FST_FOP t)
  else
    block_map_add (FST_FNAME t) (FST_FTYPE t) (FST_NLVL t) 0 (FST_FOP t) ;;
    read_levels true (FST_FNAME t) (FST_FTYPE t) (FST_ADBC t) ptrs_per_block (Z.to_nat (FST_NLVL t)).

(** ** Allocation *)

(** the first byte of the map with a zero bit, and the bit *)
Definition zero_bit (c : Z) : option Z :=
  if c =? 0xff then None
  else if Z.land c 0x80 =? 0 then Some 0 else if Z.land c 0x40 =? 0 then Some 1
  else if Z.land c 0x20 =? 0 then Some 2 else if Z.land c 0x10 =? 0 then Some 3
  else if Z.land c 0x08 =? 0 then Some 4 else if Z.land c 0x04 =? 0 then Some 5
  else if Z.land c 0x02 =? 0 then Some 6 else if Z.land c 0x01 =? 0 then Some 7
  else None.

Fixpoint scan_bytes (d : list Z) (i : Z) (n : nat) : outcome (option (Z * Z * Z)) :=
  match n with
  | O => Ret None
  | S n =>
      c ← defined (aget d i);
      match zero_bit c with
      | Some bit => Ret (Some (i, bit, Z.lor c (Z.shiftr 0x80 bit)))
      | None => scan_bytes d (i + 1) n
      end
  end.

Fixpoint scan_map (f t : list Z) (b : Z) (n : nat) : st Z :=
  match n with
  | O => die
  | S n =>
      d ← read_file_blk f t 0 b;
      db ← DBSIZ;
      r ← lift (scan_bytes d 0 (Z.to_nat db));
      match r with
      | Some (i, bit, c) =>
          poke f t 0 b i [c] ;;
          blk_set_dirty f t 0 b ;;
          mret (u32 (b * db * 8 + i * 8 + bit + 1))
      | None => scan_map f t (b + 1) n
      end
  end.

Definition __get_free_block : st Z :=
  t ← get_fst allocmap;
  scan_map (FST_FNAME t) (FST_FTYPE t) 0 (Z.to_nat (FST_ADBC t)).

(** the levels from [lvl] up, [prevlba] the block that was added below *)
Fixpoint append_levels (fuel : nat) (p : fstp) (lvl prevlba : Z) : st fstp :=
  match fuel with
  | O => undef
  | S fuel =>
      t ← get_fst p;
      let f := FST_FNAME t in
      let ty := FST_FTYPE t in
      if FST_NLVL t <? lvl then
        let top := u8 (FST_NLVL t + 1) in
        l ← __get_free_block;
        block_map_add f ty top 0 l ;;
        read_file_blk f ty top 0 ;;
        blk_set_dirty f ty top 0 ;;
        poke f ty top 0 0 (be_bytes 4 (FST_FOP t)) ;;
        poke f ty top 0 4 (be_bytes 4 prevlba) ;;
        set_fst p (set_ADBC (set_NLVL (set_FOP t l) top) (u32 (FST_ADBC t + 1)))
      else
        blk ← file_blocks_at_level (u32 (FST_ADBC t + 1)) lvl;
        map ← block_map_find f ty lvl (u32 (blk - 1));
        match map with
        | Some _ =>
            if lvl =? 0 then die else
            read_file_blk f ty lvl (u32 (blk - 1)) ;;
            blk_set_dirty f ty lvl (u32 (blk - 1)) ;;
            n ← file_blocks_at_level (u32 (FST_ADBC t + 1)) (lvl - 1);
            db ← DBSIZ;
            let x := s32 (u32 n mod (db / 4)) in
            poke f ty lvl (u32 (blk - 1)) (4 * (x - 1)) (be_bytes 4 prevlba) ;;
            set_fst p (set_ADBC t (u32 (FST_ADBC t + 1)))
        | None =>
            l ← __get_free_block;
            block_map_add f ty lvl (u32 (blk - 1)) l ;;
            if lvl =? 0 then append_levels fuel p (u8 (lvl + 1)) l else
            read_file_blk f ty lvl (u32 (blk - 1)) ;;
            blk_set_dirty f ty lvl (u32 (blk - 1)) ;;
            poke f ty lvl (u32 (blk - 1)) 0 (be_bytes 4 prevlba) ;;
            append_levels fuel p (u8 (lvl + 1)) l
        end
  end.

(** [lvl] is a byte, so there are at most 256 turns *)
Definition __append_block (p : fstp) : st fstp :=
  t ← get_fst p;
  if FST_ADBC t =? 0 then
    p ← set_fst p (set_NLVL (set_ADBC t 1) 0);
    l ← __get_free_block;
    t ← get_fst p;
    p ← set_fst p (set_FOP t l);
    block_map_add (FST_FNAME t) (FST_FTYPE t) 0 0 l ;;
    mret p
  else append_levels 257 p 0 0.

(** the record's bytes, into one block or two *)
Definition write_record (f ty : list Z) (blk off rem lrecl : Z) (src : list Z) : st unit :=
  read_file_blk f ty 0 blk ;;
  if (rem =? 0) || (lrecl <=? rem) then
    a ← lift (defined (aslice src 0 lrecl));
    poke f ty 0 blk off a ;;
    blk_set_dirty f ty 0 blk
  else
    a ← lift (defined (aslice src 0 rem));
    poke f ty 0 blk off a ;;
    blk_set_dirty f ty 0 blk ;;
    read_file_blk f ty 0 (blk + 1) ;;
    b ← lift (defined (aslice src rem (lrecl - rem)));
    poke f ty 0 (blk + 1) 0 b ;;
    blk_set_dirty f ty 0 (blk + 1).

Definition append_record (p : fstp) (src : list Z) : st fstp :=
  t ← get_fst p;
  if negb (FST_RECFM t =? FSTDFIX) then die else
  db ← DBSIZ;
  let lrecl := FST_LRECL t in
  let foff := u32 (FST_AIC t * lrecl) in
  if db =? 0 then undef else
  let blk := foff / db in
  let off := foff mod db in
  let rem := u32 (FST_ADBC t * db - foff) in
  p ← (if rem <? lrecl then __append_block p else mret p);
  t ← get_fst p;
  let f := FST_FNAME t in
  let ty := FST_FTYPE t in
  write_record f ty blk off rem lrecl src ;;
  t ← get_fst p;
  p ← set_fst p (set_AIC t (u32 (FST_AIC t + 1)));
  update_directory p ;;
  mret p.

(** the new FST: mode A1, fixed records, pointers of four bytes *)
Definition new_fst (f t : list Z) (lrecl : Z) : list Z :=
  f ++ t ++ replicate 8 0 ++ [0xc1; 0xf1] ++ replicate 4 0 ++ [FSTDFIX; 0] ++ be_bytes 4 lrecl ++ replicate 17 0 ++ [4] ++ replicate 10 0.

Definition create_file (f t : list Z) (lrecl : Z) : st (list Z) :=
  f ← lift (ascii2ebcdic (take 8 f) 8);
  t ← lift (ascii2ebcdic (take 8 t) 8);
  let fst := new_fst f t (u32 lrecl) in
  append_record directory fst ;; mret fst.

Definition mount_fs : st unit :=
  a ← read_blk EDF_LABEL_BLOCK_NO;
  if negb (ADT_IDENT a =? __ADTIDENT) || negb (ADT_DBSIZ a =? EDF_SUPPORTED_BLOCK_SIZE) ||
     negb (ADT_OFFST a =? 0) || negb (ADT_FSTSZ a =? Z.of_nat sizeof_FST)
  then die else
  (fun s => Ret (tt, State a (blocks s) (vol s))) ;;
  block_map_add DIRECTOR_FN DIRECTOR_FT 0 0 (ADT_DOP a) ;;
  d ← read_file_blk DIRECTOR_FN DIRECTOR_FT 0 0;
  if negb (bool_decide (FST_FNAME (fst_at d 0) = DIRECTOR_FN)) ||
     negb (bool_decide (FST_FTYPE (fst_at d 0) = DIRECTOR_FT)) ||
     negb (FST_RECFM (fst_at d 0) =? FSTDFIX) ||
     negb (bool_decide (FST_FNAME (fst_at d 1) = ALLOCMAP_FN)) ||
     negb (bool_decide (FST_FTYPE (fst_at d 1) = ALLOCMAP_FT)) ||
     negb (FST_RECFM (fst_at d 1) =? FSTDFIX)
  then die else
  __read_file directory ;;
  __read_file allocmap.

(** the caller's FST is passed by its address *)
Definition append_to (t src : list Z) : st (list Z) :=
  p ← append_record (Local t) src; match p with Local t => mret t | In_dir _ => undef end.

#[global] Instance edf_disk : Disk state (list Z) := {
  Archive.find_file f t := find_file f t;
  Archive.create_file f t l := create_file f t l;
  Archive.append_record h r := append_to h r;
  Archive.write_blk b l := fun s => '(_, s) ← write_blk b l s; Ret s;
}.
End device.
End edf.
