(* ===== verification/InstallerSpec.v ===== *)
(** The correctness of the installer's file system (Installer.v): what it writes, the
    nucleus reads (Edf.v).

    First the block map as a function from keys to blocks, and the three ways a block
    changes; then the allocation map as a set of bits; the invariant of the state
    between two operations ([inv]), with the directory as a list of FSTs; the
    specification of every operation (a block more, a record more, a new file, the
    write back, the mount), each with the exact number of blocks it takes; and the
    two theorems: one file, and a whole archive from mkarchive to the volume.
    Files have at most 1023 blocks of 4096 bytes here: at the 1024th the code
    stores a pointer before its block (a finding). *)

From S2P Require Import Prelude CString Charset Edf Archive Installer.

Local Open Scope Z_scope.

(** * Blocks side by side *)

Section blocks_of.
Context (n : nat).

Lemma concat_at (l : list (list Z)) i x : Forall (fun x => length x = n) l -> l !! i = Some x -> take n (drop (n * i) (concat l)) = x.
Proof.
  intros Hl. revert i. induction Hl as [|y l Hy Hl IH]; intros [|i] Hi; cbn in Hi; try done; cbn [concat].
  - injection Hi as ->. rewrite Nat.mul_0_r, drop_0. by rewrite take_app_length' by lia.
  - rewrite drop_app_ge by lia. replace (n * S i - length y)%nat with (n * i)%nat by lia. by apply IH.
Qed.

Lemma concat_length_n (l : list (list Z)) : Forall (fun x => length x = n) l -> length (concat l) = (n * length l)%nat.
Proof. induction 1 as [|y l Hy Hl IH]; cbn; [lia|]. rewrite length_app, IH. lia. Qed.

(** a store inside one block *)
Lemma concat_ablit (l : list (list Z)) i x off v y : Forall (fun x => length x = n) l -> l !! i = Some x ->
  ablit x off v = Some y -> ablit (concat l) (Z.of_nat (n * i) + off) v = Some (concat (<[i := y]> l)).
Proof.
  intros Hl. revert i. induction Hl as [|z l Hz Hl IH]; intros [|i] Hi Hy; cbn in Hi; try done; cbn [concat].
  - injection Hi as ->. rewrite Nat.mul_0_r. cbn. by apply ablit_app_l.
  - cbn [insert list_insert concat]. replace (Z.of_nat (n * S i) + off) with (lenZ z + (Z.of_nat (n * i) + off)) by (unfold lenZ; lia).
    apply ablit_app_r. by apply IH.
Qed.
End blocks_of.

(** * Fields of a structure *)

Lemma put_field_length b off v : (off + length v <= length b)%nat -> length (put_field b off v) = length b.
Proof. intros H. unfold put_field. rewrite !length_app, length_take, length_drop. lia. Qed.

Lemma field_put_same b off v n : (off + length v <= length b)%nat -> n = length v -> field (put_field b off v) off n = v.
Proof.
  intros H ->. unfold field, put_field. rewrite drop_app_length' by (rewrite length_take; lia). by rewrite take_app_length.
Qed.

Lemma field_put_other b off v off' n : (off + length v <= length b)%nat -> (off' + n <= off \/ off + length v <= off')%nat ->
  field (put_field b off v) off' n = field b off' n.
Proof.
  intros H [Ho|Ho]; unfold field, put_field.
  - rewrite drop_app_le by (rewrite length_take; lia). rewrite take_app_le by (rewrite length_drop, length_take; lia).
    rewrite !take_drop_commute, take_take. by rewrite Nat.min_l by lia.
  - rewrite app_assoc, drop_app_ge by (rewrite length_app, length_take; lia). rewrite length_app, length_take.
    rewrite drop_drop. do 2 f_equal. lia.
Qed.

Definition fst_ok (t : list Z) : Prop := length t = 64%nat.

(** the fields of an FST *)
Record finfo := FInfo {
  i_fn : list Z; i_ft : list Z; i_recfm : Z; i_lrecl : Z; i_fop : Z; i_adbc : Z; i_aic : Z; i_nlvl : Z; i_ptrsz : Z;
}.
Definition info (t : list Z) : finfo :=
  FInfo (FST_FNAME t) (FST_FTYPE t) (FST_RECFM t) (FST_LRECL t) (FST_FOP t) (FST_ADBC t) (FST_AIC t) (FST_NLVL t) (FST_PTRSZ t).

Ltac info_put := unfold info, FST_FNAME, FST_FTYPE, FST_RECFM, FST_LRECL, FST_FOP, FST_ADBC, FST_AIC, FST_NLVL, FST_PTRSZ, be_field;
  f_equal; first [by rewrite field_put_other by (rewrite be_bytes_length; lia)
                 |rewrite field_put_same, be_val_bytes by (rewrite ?be_bytes_length; lia); by apply Z.mod_small].

Lemma info_FOP t v : fst_ok t -> 0 <= v < 2 ^ 32 -> fst_ok (set_FOP t v) /\
  info (set_FOP t v) = FInfo (FST_FNAME t) (FST_FTYPE t) (FST_RECFM t) (FST_LRECL t) v (FST_ADBC t) (FST_AIC t) (FST_NLVL t) (FST_PTRSZ t).
Proof.
  unfold fst_ok. intros H Hv. unfold set_FOP. split; [by rewrite put_field_length by (rewrite be_bytes_length; lia)|].
  info_put.
Qed.

Lemma info_ADBC t v : fst_ok t -> 0 <= v < 2 ^ 32 -> fst_ok (set_ADBC t v) /\
  info (set_ADBC t v) = FInfo (FST_FNAME t) (FST_FTYPE t) (FST_RECFM t) (FST_LRECL t) (FST_FOP t) v (FST_AIC t) (FST_NLVL t) (FST_PTRSZ t).
Proof.
  unfold fst_ok. intros H Hv. unfold set_ADBC. split; [by rewrite put_field_length by (rewrite be_bytes_length; lia)|].
  info_put.
Qed.

Lemma info_AIC t v : fst_ok t -> 0 <= v < 2 ^ 32 -> fst_ok (set_AIC t v) /\
  info (set_AIC t v) = FInfo (FST_FNAME t) (FST_FTYPE t) (FST_RECFM t) (FST_LRECL t) (FST_FOP t) (FST_ADBC t) v (FST_NLVL t) (FST_PTRSZ t).
Proof.
  unfold fst_ok. intros H Hv. unfold set_AIC. split; [by rewrite put_field_length by (rewrite be_bytes_length; lia)|].
  info_put.
Qed.

Lemma info_NLVL t v : fst_ok t -> 0 <= v < 2 ^ 8 -> fst_ok (set_NLVL t v) /\
  info (set_NLVL t v) = FInfo (FST_FNAME t) (FST_FTYPE t) (FST_RECFM t) (FST_LRECL t) (FST_FOP t) (FST_ADBC t) (FST_AIC t) v (FST_PTRSZ t).
Proof.
  unfold fst_ok. intros H Hv. unfold set_NLVL. split; [by rewrite put_field_length by (rewrite be_bytes_length; lia)|].
  info_put.
Qed.

(** the fields of an FST with a new value, as equations *)
Ltac fst_info E := let H := fresh in destruct E as [? H]; [assumption || lia|lia|unfold info in H; injection H; clear H; intros].

(** * The block map *)

Section map.
Import edf.

Definition key : Type := list Z * list Z * Z * Z.
Definition key_of (m : block_map) : key := (edf.fn m, edf.ft m, edf.level m, edf.blk_no m).

(** the bytes of a block: those in the buffer, or those on the volume *)
Definition cur (v : volume) (m : block_map) : list Z := default (v (search_data (edf.lba m))) (buf m).

Definition entry_at (s : state) (k : key) : option (nat * block_map) := list_find (fun m => key_of m = k) (blocks s).

(** where the block with a key is, and its bytes *)
Definition content (s : state) (k : key) : option (Z * list Z) :=
  (fun r => (edf.lba r.2, cur (vol s) r.2)) <$> entry_at s k.

Record wf (s : state) : Prop := Wf {
  wf_size : ADT_DBSIZ (adt s) = 4096;
  wf_keys : NoDup (map key_of (blocks s));
  wf_lbas : NoDup (map edf.lba (blocks s));
  wf_range : forall m, m ∈ blocks s -> 4 <= edf.lba m <= 32768;
  wf_vol : forall k, length (vol s k) = 4096%nat;
  wf_buf : forall m d, m ∈ blocks s -> buf m = Some d -> length d = 4096%nat;
  wf_clean : forall m d, m ∈ blocks s -> dirty m = false -> buf m = Some d -> d = vol s (search_data (edf.lba m));
  wf_dirty : forall m, m ∈ blocks s -> dirty m = true -> is_Some (buf m);
}.

Lemma find_key f t lv b s : block_map_find f t lv b s = Ret (entry_at s (f, t, lv, b), s).
Proof.
  unfold block_map_find, entry_at. do 2 f_equal. apply list_find_ext. intros m. unfold same_key, key_of. naive_solver.
Qed.

Lemma map_entry_elem s k i m : entry_at s k = Some (i, m) -> m ∈ blocks s /\ key_of m = k.
Proof. intros (Hi & Hk & _)%list_find_Some. split; [by eapply list_elem_of_lookup_2|done]. Qed.

Lemma content_entry s k l d : content s k = Some (l, d) -> exists i m, entry_at s k = Some (i, m) /\ edf.lba m = l /\ cur (vol s) m = d.
Proof. unfold content. destruct (entry_at s k) as [[i m]|]; [|done]. intros [= <- <-]. by exists i, m. Qed.

Lemma content_length s k l d : wf s -> content s k = Some (l, d) -> length d = 4096%nat.
Proof.
  intros Hw (i & m & E & _ & <-)%content_entry. apply map_entry_elem in E as [E _]. unfold cur.
  destruct (buf m) eqn:Eb; cbn; [by eapply wf_buf|by apply wf_vol].
Qed.

(** a change of the entry with one key *)
Definition at_key (g : block_map -> block_map) (k : key) (s : state) : state :=
  State (adt s) (map (fun m => if decide (key_of m = k) then g m else m) (blocks s)) (vol s).

Lemma put_at_key (g : block_map -> block_map) k s i m : NoDup (map key_of (blocks s)) -> entry_at s k = Some (i, m) ->
  put_entry i (g m) s = Ret (tt, at_key g k s).
Proof.
  intros Hnd (Hi & Hk & _)%list_find_Some. unfold put_entry, set_blocks, at_key. do 3 f_equal.
  revert i Hi Hnd. generalize (blocks s) as bs. induction bs as [|x l IH]; intros i Hi Hnd; [done|].
  cbn [map] in Hnd. apply NoDup_cons in Hnd as [Hx Hnd]. destruct i as [|i]; cbn in Hi.
  - injection Hi as ->. cbn [insert list_insert map]. rewrite decide_True by done. f_equal.
    rewrite <- (map_id l) at 1. apply map_ext_in. intros y Hy%list_elem_of_In. rewrite decide_False; [done|].
    intros Hyk. apply Hx. rewrite Hk, <- Hyk. apply list_elem_of_fmap. by exists y.
  - cbn [insert list_insert map]. rewrite decide_False; [f_equal; by apply IH|]. intros Hxk. apply Hx. rewrite Hxk, <- Hk.
    apply list_elem_of_fmap. exists m. split; [done|]. by eapply list_elem_of_lookup_2.
Qed.

(** changes that keep the key and the place *)
Definition keeps (g : block_map -> block_map) : Prop := forall m, key_of (g m) = key_of m /\ edf.lba (g m) = edf.lba m.

Lemma entry_at_key g k s k' : keeps g ->
  entry_at (at_key g k s) k' = (fun r => (r.1, if decide (k' = k) then g r.2 else r.2)) <$> entry_at s k'.
Proof.
  intros Hg. unfold entry_at, at_key. cbn [blocks]. generalize (blocks s) as bs. induction bs as [|x l IH]; [done|].
  cbn [map list_find]. assert (key_of (if decide (key_of x = k) then g x else x) = key_of x) as Hx by (destruct (decide (key_of x = k)); [apply Hg|done]).
  rewrite Hx. destruct (decide (key_of x = k')) as [->|].
  - done.
  - rewrite IH. destruct (list_find (fun m => key_of m = k') l) as [[i m]|]; done.
Qed.

Lemma content_at_key g k s k' : keeps g ->
  content (at_key g k s) k' = (fun r => (edf.lba r.2, cur (vol s) (if decide (k' = k) then g r.2 else r.2))) <$> entry_at s k'.
Proof.
  intros Hg. unfold content. rewrite entry_at_key by done. destruct (entry_at s k') as [[i m]|]; [|done]. cbn. f_equal. f_equal.
  case_decide; [apply Hg|done].
Qed.

(** the block was read; a store into it; the same with the flag *)
Definition with_buf (d : list Z) (m : block_map) : block_map :=
  BlockMap (edf.fn m) (edf.ft m) (edf.level m) (edf.blk_no m) (edf.lba m) (Some d) (dirty m).
Definition with_dirty (d : list Z) (m : block_map) : block_map :=
  BlockMap (edf.fn m) (edf.ft m) (edf.level m) (edf.blk_no m) (edf.lba m) (Some d) true.

Definition load (k : key) (d : list Z) (s : state) : state := at_key (with_buf d) k s.
Definition upd (k : key) (d : list Z) (s : state) : state := at_key (with_dirty d) k s.

Lemma content_upd k d s k' l d0 : content s k = Some (l, d0) ->
  content (upd k d s) k' = if decide (k' = k) then Some (l, d) else content s k'.
Proof.
  intros E. unfold upd. rewrite content_at_key by done. apply content_entry in E as (i & m & E & <- & _).
  destruct (decide (k' = k)) as [->|]; [by rewrite E|]. unfold content. by destruct (entry_at s k') as [[? ?]|].
Qed.

Lemma content_load k d s k' l : content s k = Some (l, d) -> content (load k d s) k' = content s k'.
Proof.
  intros E. unfold load. rewrite content_at_key by done. destruct (decide (k' = k)) as [->|].
  - pose proof E as (i & m & E' & <- & Ed)%content_entry. rewrite E. by rewrite E'.
  - unfold content. by destruct (entry_at s k') as [[? ?]|].
Qed.

Lemma at_key_elem g k s m : m ∈ blocks (at_key g k s) -> exists m0, m0 ∈ blocks s /\ m = (if decide (key_of m0 = k) then g m0 else m0).
Proof. cbn. intros (m0 & -> & Hm)%list_elem_of_fmap. by exists m0. Qed.

Lemma at_key_map {A} (h : block_map -> A) g k s : (forall m, h (g m) = h m) -> map h (blocks (at_key g k s)) = map h (blocks s).
Proof. intros Hh. cbn. rewrite map_map. apply map_ext. intros m. by destruct (decide (key_of m = k)). Qed.

Lemma wf_upd k d s : wf s -> length d = 4096%nat -> wf (upd k d s).
Proof.
  intros Hw Hd. destruct Hw. split; cbn [adt vol]; try done.
  - unfold upd. by rewrite at_key_map.
  - unfold upd. by rewrite at_key_map.
  - intros m (m0 & Hm & ->)%at_key_elem. specialize (wf_range0 m0 Hm). by destruct (decide (key_of m0 = k)).
  - intros m d' (m0 & Hm & ->)%at_key_elem. destruct (decide (key_of m0 = k)); [by intros [= <-]|by eapply wf_buf0].
  - intros m d' (m0 & Hm & ->)%at_key_elem. destruct (decide (key_of m0 = k)); [done|by eapply wf_clean0].
  - intros m (m0 & Hm & ->)%at_key_elem. destruct (decide (key_of m0 = k)); [by eexists|by eapply wf_dirty0].
Qed.

Lemma wf_load k l d s : wf s -> content s k = Some (l, d) -> wf (load k d s).
Proof.
  intros Hw Hc. pose proof (content_length s k l d Hw Hc) as Hd. pose proof Hc as (i & m1 & E & _ & Ec)%content_entry.
  pose proof (map_entry_elem _ _ _ _ E) as [Hm1 Hk1].
  assert (forall m0, m0 ∈ blocks s -> key_of m0 = k -> m0 = m1) as Huniq.
  { intros m0 Hm0 Hk0. apply list_elem_of_lookup in Hm0 as [j Hj]. apply list_elem_of_lookup in Hm1 as [j1 Hj1].
    assert (j = j1) as ->; [|congruence]. eapply (NoDup_lookup _ _ _ (key_of m0) (wf_keys s Hw)); rewrite list_lookup_fmap.
    - by rewrite Hj.
    - rewrite Hj1. cbn. congruence. }
  destruct Hw. split; cbn [adt vol]; try done.
  - unfold load. by rewrite at_key_map.
  - unfold load. by rewrite at_key_map.
  - intros m (m0 & Hm & ->)%at_key_elem. specialize (wf_range0 m0 Hm). by destruct (decide (key_of m0 = k)).
  - intros m d' (m0 & Hm & ->)%at_key_elem. destruct (decide (key_of m0 = k)); [by intros [= <-]|by eapply wf_buf0].
  - intros m d' (m0 & Hm & ->)%at_key_elem. destruct (decide (key_of m0 = k)) as [Hk0|]; [|by eapply wf_clean0].
    cbn. intros Hdirty [= <-]. rewrite (Huniq m0 Hm Hk0) in Hdirty |- *. rewrite <- Ec. unfold cur.
    destruct (buf m1) as [b|] eqn:Eb; cbn; [|done]. by eapply wf_clean0.
  - intros m (m0 & Hm & ->)%at_key_elem. destruct (decide (key_of m0 = k)); [by eexists|by eapply wf_dirty0].
Qed.

(** ** The operations *)

Context (io_ok : Z -> bool) (Hio : forall l, 4 <= l <= 32768 -> io_ok l = true).

Lemma st_step {A B} (m : st A) (f : A -> st B) s a s' : m s = Ret (a, s') -> (m ≫= f) s = f a s'.
Proof. intros E. unfold mbind, st_bind. rewrite E. done. Qed.

Lemma read_file_blk_spec f t lv b s l d : wf s -> content s (f, t, lv, b) = Some (l, d) ->
  read_file_blk io_ok f t lv b s = Ret (d, load (f, t, lv, b) d s).
Proof.
  intros Hw (i & m & E & <- & Ec)%content_entry. unfold read_file_blk. rewrite (st_step _ _ _ _ _ (find_key _ _ _ _ _)), E.
  pose proof (put_at_key (with_buf d) _ _ _ _ (wf_keys s Hw) E) as Hput. unfold cur in Ec. destruct (buf m) as [d'|] eqn:Eb; cbn in Ec; subst.
  - assert (with_buf d m = m) as Hm by (destruct m; cbn in Eb |- *; unfold with_buf; cbn; by rewrite Eb). rewrite Hm in Hput.
    unfold put_entry, set_blocks in Hput. apply list_find_Some in E as (Hi & _). rewrite list_insert_id in Hput by done.
    unfold mret, st_ret, load. replace (at_key (with_buf d) (f, t, lv, b) s) with (State (adt s) (blocks s) (vol s)) by congruence.
    by destruct s.
  - assert (read_blk io_ok (edf.lba m) s = Ret (vol s (search_data (edf.lba m)), s)) as Hr.
    { pose proof (wf_range s Hw m (proj1 (map_entry_elem _ _ _ _ E))). unfold read_blk. destruct (Z.ltb_spec (edf.lba m) 1); [lia|].
      by rewrite Hio. }
    rewrite (st_step _ _ _ _ _ Hr). by rewrite (st_step _ _ _ _ _ Hput).
Qed.

Lemma at_key_twice g h k s : keeps g -> at_key h k (at_key g k s) = at_key (fun m => h (g m)) k s.
Proof.
  intros Hg. unfold at_key. cbn [blocks adt vol]. f_equal. rewrite map_map. apply map_ext. intros m.
  destruct (decide (key_of m = k)) as [Hm|]; [|by rewrite decide_False]. rewrite decide_True; [done|]. by rewrite (proj1 (Hg m)).
Qed.

(** a state in which the block of [k] is in its buffer *)
Lemma poke_at (g : list Z -> block_map -> block_map) f t lv b s l d0 d off v d' :
  (forall d m, keeps (g d) /\ buf (g d m) = Some d) -> (forall d d' m, with_buf d' (g d m) = g d' m) ->
  wf s -> content s (f, t, lv, b) = Some (l, d0) -> ablit d off v = Some d' ->
  poke f t lv b off v (at_key (g d) (f, t, lv, b) s) = Ret (tt, at_key (g d') (f, t, lv, b) s).
Proof.
  intros Hg Hgg Hw (i & m & E & _ & _)%content_entry Hd. unfold poke. rewrite (st_step _ _ _ _ _ (find_key _ _ _ _ _)).
  set (k := (f, t, lv, b)) in *. assert (entry_at (at_key (g d) k s) k = Some (i, g d m)) as E'.
  { rewrite entry_at_key by (by apply Hg). rewrite E. cbn. by rewrite decide_True. }
  pose proof (put_at_key (with_buf d') k (at_key (g d) k s) i (g d m)) as Hput.
  rewrite at_key_twice in Hput by (by apply Hg). rewrite E'. destruct (Hg d m) as [_ Hb].
  assert (with_buf d' (g d m) = g d' m) as Hm by apply Hgg.
  destruct (g d m) as [f0 t0 lv0 b0 l0 b1 y0] eqn:Eg. cbn in Hb. subst b1. unfold lift. rewrite Hd.
  unfold mbind at 1, st_bind. cbn [defined mbind outcome_bind].
  change (BlockMap f0 t0 lv0 b0 l0 (Some d') y0) with (with_buf d' (BlockMap f0 t0 lv0 b0 l0 (Some d) y0)).
  rewrite Hput; [|rewrite (at_key_map key_of) by (intros m1; apply (proj1 (Hg d m1))); by apply wf_keys|done].
  unfold at_key. do 3 f_equal. apply map_ext. intros m1. destruct (decide (key_of m1 = k)); [|done]. by rewrite Hgg.
Qed.

Lemma poke_load f t lv b s l d0 d off v d' : wf s -> content s (f, t, lv, b) = Some (l, d0) -> ablit d off v = Some d' ->
  poke f t lv b off v (load (f, t, lv, b) d s) = Ret (tt, load (f, t, lv, b) d' s).
Proof. by apply (poke_at with_buf). Qed.

Lemma poke_upd f t lv b s l d0 d off v d' : wf s -> content s (f, t, lv, b) = Some (l, d0) -> ablit d off v = Some d' ->
  poke f t lv b off v (upd (f, t, lv, b) d s) = Ret (tt, upd (f, t, lv, b) d' s).
Proof. by apply (poke_at with_dirty). Qed.

Lemma blk_set_dirty_at (g : list Z -> block_map -> block_map) f t lv b s l d0 d :
  (forall d m, keeps (g d) /\ buf (g d m) = Some d) -> (forall d m, with_dirty d (g d m) = with_dirty d m) ->
  wf s -> content s (f, t, lv, b) = Some (l, d0) ->
  blk_set_dirty f t lv b (at_key (g d) (f, t, lv, b) s) = Ret (tt, upd (f, t, lv, b) d s).
Proof.
  intros Hg Hgg Hw (i & m & E & _ & _)%content_entry. unfold blk_set_dirty. rewrite (st_step _ _ _ _ _ (find_key _ _ _ _ _)).
  set (k := (f, t, lv, b)) in *. assert (entry_at (at_key (g d) k s) k = Some (i, g d m)) as E'.
  { rewrite entry_at_key by (by apply Hg). rewrite E. cbn. by rewrite decide_True. }
  pose proof (put_at_key (with_dirty d) k (at_key (g d) k s) i (g d m)) as Hput.
  rewrite at_key_twice in Hput by (by apply Hg). rewrite E'. destruct (Hg d m) as [_ Hb].
  destruct (g d m) as [f0 t0 lv0 b0 l0 b1 y0] eqn:Eg. cbn in Hb. subst b1.
  change (BlockMap f0 t0 lv0 b0 l0 (Some d) true) with (with_dirty d (BlockMap f0 t0 lv0 b0 l0 (Some d) y0)).
  rewrite Hput; [|rewrite (at_key_map key_of) by (intros m1; apply (proj1 (Hg d m1))); by apply wf_keys|done].
  unfold upd, at_key. do 3 f_equal. apply map_ext. intros m1. destruct (decide (key_of m1 = k)); [|done]. by rewrite Hgg.
Qed.

Lemma dirty_load f t lv b s l d0 d : wf s -> content s (f, t, lv, b) = Some (l, d0) ->
  blk_set_dirty f t lv b (load (f, t, lv, b) d s) = Ret (tt, upd (f, t, lv, b) d s).
Proof. by apply (blk_set_dirty_at with_buf). Qed.

Lemma dirty_upd f t lv b s l d0 d : wf s -> content s (f, t, lv, b) = Some (l, d0) ->
  blk_set_dirty f t lv b (upd (f, t, lv, b) d s) = Ret (tt, upd (f, t, lv, b) d s).
Proof. by apply (blk_set_dirty_at with_dirty). Qed.

Lemma read_upd f t lv b s l d0 d : wf s -> content s (f, t, lv, b) = Some (l, d0) -> length d = 4096%nat ->
  read_file_blk io_ok f t lv b (upd (f, t, lv, b) d s) = Ret (d, upd (f, t, lv, b) d s).
Proof.
  intros Hw Hc Hd. rewrite (read_file_blk_spec _ _ _ _ _ l d); [|by apply wf_upd|by rewrite (content_upd _ _ _ _ _ _ Hc), decide_True].
  do 2 f_equal. unfold load, upd. by rewrite at_key_twice.
Qed.

(** a block that is new in the map *)
Definition add_entry (k : key) (l : Z) (s : state) : state :=
  let '(f, t, lv, b) := k in State (adt s) (BlockMap f t lv b l None false :: blocks s) (vol s).

Lemma block_map_add_new f t lv b l s : content s (f, t, lv, b) = None -> block_map_add f t lv b l s = Ret (tt, add_entry (f, t, lv, b) l s).
Proof.
  intros Hc. unfold block_map_add. rewrite (st_step _ _ _ _ _ (find_key _ _ _ _ _)). unfold content in Hc.
  by destruct (entry_at s (f, t, lv, b)) as [[i m]|].
Qed.

Lemma content_none s k : content s k = None <-> k ∉ map key_of (blocks s).
Proof.
  unfold content. split.
  - intros E (m & -> & Hm)%list_elem_of_fmap. destruct (entry_at s (key_of m)) as [r|] eqn:E'; [done|].
    unfold entry_at in E'. apply list_find_None in E'. rewrite Forall_forall in E'. by apply (E' m Hm).
  - intros Hk. destruct (entry_at s k) as [[i m]|] eqn:E; [|done]. apply map_entry_elem in E as [Hm <-]. exfalso. apply Hk.
    apply list_elem_of_fmap. by exists m.
Qed.

Lemma content_add k l s k' : content s k = None ->
  content (add_entry k l s) k' = if decide (k' = k) then Some (l, vol s (search_data l)) else content s k'.
Proof.
  destruct k as [[[f t] lv] b]. intros Hc. unfold content, entry_at, add_entry. cbn [blocks vol list_find]. unfold key_of at 1. cbn [edf.fn edf.ft edf.level edf.blk_no].
  destruct (decide (k' = (f, t, lv, b))) as [->|Hne]; [by rewrite decide_True|]. rewrite decide_False by done.
  by destruct (list_find _ (blocks s)) as [[i m]|].
Qed.

Lemma wf_add k l s : wf s -> content s k = None -> l ∉ map edf.lba (blocks s) -> 4 <= l <= 32768 -> wf (add_entry k l s).
Proof.
  destruct k as [[[f t] lv] b]. intros Hw Hk%content_none Hl Hr. destruct Hw. split; cbn [add_entry adt vol blocks map]; try done.
  - by constructor.
  - by constructor.
  - intros m [->|Hm]%elem_of_cons; [done|by apply wf_range0].
  - intros m d [->|Hm]%elem_of_cons; [done|by eapply wf_buf0].
  - intros m d [->|Hm]%elem_of_cons; [done|by eapply wf_clean0].
  - intros m [->|Hm]%elem_of_cons; [done|by eapply wf_dirty0].
Qed.

(** ** The allocation map *)

(** the bit of a block, and how many bits of a map are zero *)
Definition used (bm : list Z) (l : Z) : Prop :=
  exists c, bm !! Z.to_nat ((l - 1) / 8) = Some c /\ Z.testbit c (7 - (l - 1) mod 8) = true.
Definition zeros (c : Z) : nat := length (List.filter (fun j => negb (Z.testbit c j)) (seqZ 0 8)).
Definition free (bm : list Z) : nat := foldr (fun c n => (zeros c + n)%nat) O bm.

Definition is_byte (c : Z) : Prop := 0 <= c < 256.

Definition zero_bit_check (c : Z) : bool :=
  match zero_bit c with
  | Some b =>
      let c' := Z.lor c (Z.shiftr 0x80 b) in
      (0 <=? b) && (b <? 8) && (0 <=? c') && (c' <? 256) && negb (Z.testbit c (7 - b)) && Z.testbit c' (7 - b) &&
      forallb (fun j => implb (Z.testbit c j) (Z.testbit c' j)) (seqZ 0 8) && (zeros c =? S (zeros c'))%nat
  | None => (zeros c =? 0)%nat
  end.

Lemma zero_bit_checked c : is_byte c -> zero_bit_check c = true.
Proof.
  intros Hc. assert (forallb zero_bit_check (seqZ 0 256) = true) as Hall by (by vm_compute).
  rewrite forallb_forall in Hall. apply Hall. apply list_elem_of_In, elem_of_seqZ. unfold is_byte in Hc. lia.
Qed.

Lemma zero_bit_Some c b : is_byte c -> zero_bit c = Some b ->
  let c' := Z.lor c (Z.shiftr 0x80 b) in
  0 <= b < 8 /\ is_byte c' /\ Z.testbit c (7 - b) = false /\ Z.testbit c' (7 - b) = true /\
  (forall j, 0 <= j < 8 -> Z.testbit c j = true -> Z.testbit c' j = true) /\ zeros c = S (zeros c').
Proof.
  intros Hc Hb c'. pose proof (zero_bit_checked c Hc) as H. unfold zero_bit_check in H. rewrite Hb in H. fold c' in H.
  rewrite !andb_true_iff, forallb_forall, Nat.eqb_eq, negb_true_iff in H. destruct H as [[[[[[[H1 H2] H3] H4] H5] H6] H7] H8].
  unfold is_byte. split_and!; try lia; try done. intros j Hj Hcj.
  specialize (H7 j ltac:(apply list_elem_of_In, elem_of_seqZ; lia)). by rewrite Hcj in H7.
Qed.

Lemma zero_bit_None c : is_byte c -> zero_bit c = None -> zeros c = 0%nat.
Proof. intros Hc Hb. pose proof (zero_bit_checked c Hc) as H. unfold zero_bit_check in H. rewrite Hb in H. by apply Nat.eqb_eq. Qed.

Lemma scan_bytes_spec d n i : Forall is_byte d -> i = (length d - n)%nat -> (n <= length d)%nat ->
  match scan_bytes d (Z.of_nat i) n with
  | Ret None => free (drop i d) = 0%nat
  | Ret (Some (j, b, c')) => exists k c, j = Z.of_nat k /\ d !! k = Some c /\ zero_bit c = Some b /\ c' = Z.lor c (Z.shiftr 0x80 b)
  | _ => False
  end.
Proof.
  intros Hd. revert i. induction n as [|n IH]; intros i -> Hn; cbn [scan_bytes]; [by rewrite Nat.sub_0_r, drop_all|].
  set (i := (length d - S n)%nat). destruct (lookup_lt_is_Some_2 d i ltac:(unfold i; lia)) as [c Hc].
  assert (aget d (Z.of_nat i) = Some c) as -> by (apply aget_Some; rewrite Nat2Z.id; split; [lia|done]). cbn [defined mbind outcome_bind].
  destruct (zero_bit c) as [b|] eqn:Eb; [by exists i, c|]. pose proof (proj1 (Forall_lookup _ _) Hd i c Hc) as Hbyte.
  replace (Z.of_nat i + 1) with (Z.of_nat (S i)) by lia. specialize (IH (S i) ltac:(unfold i; lia) ltac:(lia)).
  rewrite (drop_S d c i Hc). cbn [free foldr]. fold (free (drop (S i) d)). rewrite (zero_bit_None c Hbyte Eb).
  destruct (scan_bytes d (Z.of_nat (S i)) n) as [[[[j b] c']|]| |]; done.
Qed.

Lemma used_byte bm k b : 0 <= b < 8 -> forall l, l = Z.of_nat k * 8 + b + 1 -> used bm l <-> exists c, bm !! k = Some c /\ Z.testbit c (7 - b) = true.
Proof. intros Hb l ->. unfold used. replace (Z.to_nat ((Z.of_nat k * 8 + b + 1 - 1) / 8)) with k by divlia. by replace ((Z.of_nat k * 8 + b + 1 - 1) mod 8) with b by divlia. Qed.

(** a zero bit was set *)
Lemma set_bit bm k c b : Forall is_byte bm -> bm !! k = Some c -> zero_bit c = Some b ->
  let bm' := <[k := Z.lor c (Z.shiftr 0x80 b)]> bm in let l := Z.of_nat k * 8 + b + 1 in
  0 <= b < 8 /\ ~ used bm l /\ used bm' l /\ (forall l', used bm l' -> used bm' l') /\ free bm = S (free bm') /\ Forall is_byte bm'.
Proof.
  intros Hbm Hk Hb bm' l. pose proof (proj1 (Forall_lookup _ _) Hbm k c Hk) as Hc. pose proof (lookup_lt_Some _ _ _ Hk) as Hlt.
  destruct (zero_bit_Some c b Hc Hb) as (B & Hc' & F & T & M & Z0). split_and!; [lia|lia| | | | |].
  - rewrite (used_byte bm k b B l eq_refl). intros (c1 & Hc1 & Ht). congruence.
  - rewrite (used_byte bm' k b B l eq_refl). exists (Z.lor c (Z.shiftr 0x80 b)). split; [by apply list_lookup_insert_eq|done].
  - intros l' (c1 & Hc1 & Ht). destruct (decide (Z.to_nat ((l' - 1) / 8) = k)) as [E|E].
    + exists (Z.lor c (Z.shiftr 0x80 b)). rewrite E in *. split; [by apply list_lookup_insert_eq|]. apply M; [divlia|congruence].
    + exists c1. split; [|done]. unfold bm'. by rewrite list_lookup_insert_ne.
  - unfold bm'. clear -Hk Z0. revert k Hk. induction bm as [|x bm IH]; intros [|k] Hk; cbn in Hk; try done.
    + injection Hk as ->. change ((zeros c + free bm)%nat = S (zeros (Z.lor c (Z.shiftr 0x80 b)) + free bm)). rewrite Z0. lia.
    + change ((zeros x + free bm)%nat = S (zeros x + free (<[k := Z.lor c (Z.shiftr 0x80 b)]> bm))). rewrite (IH k Hk). lia.
  - by apply Forall_insert.
Qed.

(** ** The buffer that is pointed to *)

Definition dirkey : key := (DIRECTOR_FN, DIRECTOR_FT, 0, 0).
Definition mapkey : key := (ALLOCMAP_FN, ALLOCMAP_FT, 0, 0).

Definition has_buf (s : state) (k : key) (d : list Z) : Prop := exists i m, entry_at s k = Some (i, m) /\ buf m = Some d.

Lemma has_buf_content s k d : has_buf s k d -> exists l, content s k = Some (l, d).
Proof. intros (i & m & E & Hb). exists (edf.lba m). unfold content. rewrite E. cbn. unfold cur. by rewrite Hb. Qed.

Lemma has_buf_at (g : list Z -> block_map -> block_map) k' d' s k d l0 d0 : (forall d m, keeps (g d) /\ buf (g d m) = Some d) ->
  content s k' = Some (l0, d0) -> has_buf s k d -> has_buf (at_key (g d') k' s) k (if decide (k = k') then d' else d).
Proof.
  intros Hg _ (i & m & E & Hb). exists i, (if decide (k = k') then g d' m else m). rewrite entry_at_key by exact (proj1 (Hg d' m)).
  rewrite E. split; [done|]. case_decide; [by apply (Hg d' m)|done].
Qed.

Lemma has_buf_upd k' d' s k d l0 d0 : content s k' = Some (l0, d0) -> has_buf s k d -> has_buf (upd k' d' s) k (if decide (k = k') then d' else d).
Proof. by apply (has_buf_at with_dirty). Qed.

Lemma has_buf_add k' l s k d : content s k' = None -> has_buf s k d -> has_buf (add_entry k' l s) k d.
Proof.
  destruct k' as [[[f t] lv] b]. intros Hc (i & m & E & Hb). exists (S i), m. split; [|done]. unfold entry_at, add_entry in *. cbn [blocks list_find].
  rewrite decide_False; [by rewrite E|]. intros Hk. unfold key_of in Hk. cbn [edf.fn edf.ft edf.level edf.blk_no] in Hk. subst k. unfold content, entry_at in Hc. by rewrite E in Hc.
Qed.

Lemma get_fst_dir s d i : has_buf s dirkey d -> get_fst (In_dir i) s = Ret (fst_at d i, s).
Proof.
  intros (j & [f t lv b l bf y] & E & Hb). cbn in Hb. subst bf. unfold get_fst. rewrite (st_step _ _ _ _ _ (find_key _ _ _ _ _)).
  fold dirkey. by rewrite E.
Qed.

(** ** The state while files are made *)

(** the name of a block's file, and of an FST *)
Definition name_of (k : key) : list Z * list Z := (k.1.1.1, k.1.1.2).
Definition fst_name (t : list Z) : list Z * list Z := (FST_FNAME t, FST_FTYPE t).

(** the directory is one block with 64 FSTs, [n] of them in use, and the map is one block *)
Record inv (s : state) (fsts : list (list Z)) (bm : list Z) (n : nat) : Prop := Inv {
  inv_wf : wf s;
  inv_nfst : ADT_NFST (adt s) = 64;
  inv_dir : has_buf s dirkey (concat fsts);
  inv_len : length fsts = 64%nat;
  inv_ok : Forall fst_ok fsts;
  inv_map : exists l, content s mapkey = Some (l, bm);
  inv_bytes : Forall is_byte bm;
  inv_used : forall m, m ∈ blocks s -> used bm (edf.lba m);
  inv_boot : used bm 1 /\ used bm 2 /\ used bm 3;
  inv_dirfst : exists t, fsts !! 0%nat = Some t /\ fst_name t = (DIRECTOR_FN, DIRECTOR_FT) /\ FST_ADBC t = 1 /\
    FST_RECFM t = FSTDFIX /\ FST_LRECL t = 64 /\ FST_AIC t = Z.of_nat n;
  inv_dirlba : exists t, fsts !! 0%nat = Some t /\ FST_NLVL t = 0 /\ fst <$> content s dirkey = Some (FST_FOP t) /\ FST_FOP t = ADT_DOP (adt s);
  inv_mapfst : exists t, fsts !! 1%nat = Some t /\ fst_name t = (ALLOCMAP_FN, ALLOCMAP_FT) /\ FST_ADBC t = 1;
  inv_count : (2 <= n <= 64)%nat;
  inv_names : forall m, m ∈ blocks s -> exists i t, fsts !! i = Some t /\ (i < n)%nat /\ fst_name t = name_of (key_of m);
}.

Lemma fst_at_concat fsts i t : Forall fst_ok fsts -> fsts !! i = Some t -> fst_at (concat fsts) i = t.
Proof. intros Hok Hi. unfold fst_at, field. by apply (concat_at 64). Qed.

Lemma ablit_full (x y : list Z) : length x = length y -> ablit x 0 y = Some y.
Proof.
  intros H. unfold ablit. rewrite decide_True by (unfold lenZ; lia). change (Z.to_nat 0) with 0%nat. rewrite drop_ge by lia. cbn [take app].
  by rewrite app_nil_r.
Qed.

Lemma ablit_fst fsts i x t : Forall fst_ok fsts -> fsts !! i = Some x -> fst_ok t ->
  ablit (concat fsts) (Z.of_nat (sizeof_FST * i)) t = Some (concat (<[i := t]> fsts)).
Proof.
  intros Hok Hi Ht. rewrite <- (Z.add_0_r (Z.of_nat _)). apply (concat_ablit 64 _ _ x); [done|done|]. apply ablit_full.
  pose proof (proj1 (Forall_lookup _ _) Hok i x Hi). unfold fst_ok in *. lia.
Qed.

Lemma lba_elem s k l d : content s k = Some (l, d) -> exists m, m ∈ blocks s /\ edf.lba m = l /\ key_of m = k.
Proof. intros (i & m & E & <- & _)%content_entry. apply map_entry_elem in E as [Hm Hk]. by exists m. Qed.

(** every change of one block keeps the rest of the invariant *)
Lemma inv_upd s fsts bm n k d l d0 : inv s fsts bm n -> content s k = Some (l, d0) -> length d = 4096%nat -> k <> dirkey -> k <> mapkey ->
  inv (upd k d s) fsts bm n.
Proof.
  intros I Hc Hd Hk1 Hk2. destruct I. split; try done.
  - by apply wf_upd.
  - pose proof (has_buf_upd k d s dirkey _ l d0 Hc inv_dir0) as H. by rewrite decide_False in H.
  - destruct inv_map0 as [ml Hm]. exists ml. rewrite (content_upd _ _ _ _ _ _ Hc). by rewrite decide_False.
  - intros m (m0 & Hm & ->)%at_key_elem. specialize (inv_used0 m0 Hm). by destruct (decide (key_of m0 = k)).
  - by rewrite (content_upd _ _ _ _ _ _ Hc), decide_False.
  - intros m (m0 & Hm & ->)%at_key_elem. specialize (inv_names0 m0 Hm). by destruct (decide (key_of m0 = k)).
Qed.

Lemma dirkey_mapkey : dirkey <> mapkey.
Proof. done. Qed.

(** the directory block with other FSTs *)
Lemma inv_set_dir s fsts bm n fsts' n' t0 t1 : inv s fsts bm n -> length fsts' = 64%nat -> Forall fst_ok fsts' -> (n <= n' <= 64)%nat ->
  fsts' !! 0%nat = Some t0 -> fst_name t0 = (DIRECTOR_FN, DIRECTOR_FT) -> FST_ADBC t0 = 1 -> FST_RECFM t0 = FSTDFIX -> FST_LRECL t0 = 64 ->
  FST_AIC t0 = Z.of_nat n' -> FST_NLVL t0 = 0 -> fst <$> content s dirkey = Some (FST_FOP t0) -> fsts' !! 1%nat = Some t1 -> fst_name t1 = (ALLOCMAP_FN, ALLOCMAP_FT) -> FST_ADBC t1 = 1 ->
  (forall i t, (i < n)%nat -> fsts !! i = Some t -> exists t', fsts' !! i = Some t' /\ fst_name t' = fst_name t) ->
  inv (upd dirkey (concat fsts') s) fsts' bm n'.
Proof.
  intros I Hlen Hok Hn' H0 N0 A0 R0 L0 C0 NL0 FO0 H1 N1 A1 Hnames. destruct I. pose proof (has_buf_content _ _ _ inv_dir0) as [dl Hdl].
  split; try done.
  - apply wf_upd; [done|]. rewrite (concat_length_n 64) by done. lia.
  - pose proof (has_buf_upd dirkey (concat fsts') s dirkey _ dl _ Hdl inv_dir0) as H. by rewrite decide_True in H.
  - destruct inv_map0 as [ml Hm]. exists ml. by rewrite (content_upd _ _ _ _ _ _ Hdl).
  - intros m (m0 & Hm & ->)%at_key_elem. specialize (inv_used0 m0 Hm). by destruct (decide (key_of m0 = dirkey)).
  - by exists t0.
  - exists t0. split; [done|]. split; [done|]. rewrite (content_upd _ _ _ _ _ _ Hdl), decide_True by done. rewrite Hdl in FO0. split; [done|].
    destruct inv_dirlba0 as (t & _ & _ & E & D). change (FST_FOP t0 = ADT_DOP (adt s)). rewrite <- D. rewrite Hdl in E. congruence.
  - by exists t1.
  - lia.
  - intros m (m0 & Hm & ->)%at_key_elem. destruct (inv_names0 m0 Hm) as (i & t & Hi & Hin & Hname).
    destruct (Hnames i t Hin Hi) as (t' & Hi' & Hn0). exists i, t'. split; [done|]. split; [lia|]. rewrite Hn0, Hname.
    by destruct (decide (key_of m0 = dirkey)).
Qed.

(** the FST of a file changed *)
Lemma inv_set_fst s fsts bm n i t t' : inv s fsts bm n -> fsts !! i = Some t -> (2 <= i < n)%nat -> fst_ok t' -> fst_name t' = fst_name t ->
  inv (upd dirkey (concat (<[i := t']> fsts)) s) (<[i := t']> fsts) bm n.
Proof.
  intros I Hi Hin Ht' Hname. pose proof I as []. destruct inv_dirfst0 as (t0 & H0 & N0 & A0 & R0 & L0 & C0). destruct inv_mapfst0 as (t1 & H1 & N1 & A1).
  destruct inv_dirlba0 as (t0' & H0' & NL0 & FO0 & _). assert (t0' = t0) as -> by congruence.
  eapply (inv_set_dir s fsts bm n _ n t0 t1); try done.
  - by rewrite length_insert.
  - by apply Forall_insert.
  - lia.
  - by rewrite list_lookup_insert_ne by lia.
  - by rewrite list_lookup_insert_ne by lia.
  - intros j x Hj Hx. destruct (decide (i = j)) as [->|].
    + exists t'. split; [|congruence]. apply list_lookup_insert_eq. by eapply lookup_lt_Some.
    + exists x. by rewrite list_lookup_insert_ne.
Qed.

Lemma DBSIZ_spec s : wf s -> DBSIZ s = Ret (4096, s).
Proof. intros Hw. unfold DBSIZ. by rewrite (wf_size _ Hw). Qed.

(** a block is taken *)
Lemma get_free_block_spec s fsts bm n : inv s fsts bm n -> (0 < free bm)%nat ->
  exists l bm', __get_free_block io_ok s = Ret (l, upd mapkey bm' s) /\ inv (upd mapkey bm' s) fsts bm' n /\
    4 <= l <= 32768 /\ ~ used bm l /\ used bm' l /\ (forall l', used bm l' -> used bm' l') /\ free bm = S (free bm').
Proof.
  intros I Hfree. pose proof I as []. destruct inv_mapfst0 as (t & Ht & Hn & Ha). destruct inv_map0 as [ml Hml].
  pose proof (content_length _ _ _ _ inv_wf0 Hml) as Hlen. unfold fst_name in Hn. injection Hn as Hfn Hft.
  unfold __get_free_block. rewrite (st_step _ _ _ _ _ (get_fst_dir _ _ 1 inv_dir0)), (fst_at_concat _ _ _ inv_ok0 Ht), Hfn, Hft, Ha.
  change (Z.to_nat 1) with 1%nat. cbn [scan_map]. rewrite (st_step _ _ _ _ _ (read_file_blk_spec _ _ _ _ _ _ _ inv_wf0 Hml)). fold mapkey.
  rewrite (st_step _ _ _ _ _ (DBSIZ_spec _ (wf_load _ _ _ _ inv_wf0 Hml))).
  pose proof (scan_bytes_spec bm (length bm) 0 inv_bytes0 ltac:(lia) ltac:(lia)) as Hscan. rewrite drop_0 in Hscan.
  change (Z.to_nat 4096) with 4096%nat. rewrite <- Hlen. change (Z.of_nat 0) with 0 in Hscan.
  destruct (scan_bytes bm 0 (length bm)) as [[[[j b] c']|]| |] eqn:Es; [|lia|done..].
  destruct Hscan as (k & c & -> & Hk & Hb & ->). destruct (set_bit bm k c b inv_bytes0 Hk Hb) as (B & Hu & Hu' & Hmono & Hf & Hbytes).
  set (bm' := <[k := Z.lor c (Z.shiftr 0x80 b)]> bm) in *. pose proof (lookup_lt_Some _ _ _ Hk) as Hlt.
  assert (ablit bm (Z.of_nat k) [Z.lor c (Z.shiftr 0x80 b)] = Some bm') as Hab.
  { unfold ablit. rewrite decide_True by (unfold lenZ; cbn [length]; lia). f_equal. unfold bm'. rewrite Nat2Z.id, insert_take_drop by done.
    cbn [length app]. do 3 f_equal. lia. }
  set (l := Z.of_nat k * 8 + b + 1) in *.
  rewrite (st_step (lift _) _ _ (Some (Z.of_nat k, b, Z.lor c (Z.shiftr 0x80 b))) (load mapkey bm s)) by done.
  rewrite (st_step _ _ _ tt (load mapkey bm' s)) by (by eapply poke_load).
  rewrite (st_step _ _ _ tt (upd mapkey bm' s)) by (by eapply dirty_load).
  exists l, bm'. assert (u32 (0 * 4096 * 8 + Z.of_nat k * 8 + b + 1) = l) as -> by (unfold l; rewrite wrap_small; lia).
  assert (4 <= l <= 32768) as Hr.
  { destruct inv_boot0 as (U1 & U2 & U3). assert (l <> 1) by (by intros ->). assert (l <> 2) by (by intros ->). assert (l <> 3) by (by intros ->). unfold l in *. lia. }
  split; [done|]. split; [|done]. split; try done; [by apply wf_upd; [|unfold bm'; rewrite length_insert]|..].
  - pose proof (has_buf_upd mapkey bm' s dirkey _ ml _ Hml inv_dir0) as H. by rewrite decide_False in H.
  - exists ml. by rewrite (content_upd _ _ _ _ _ _ Hml), decide_True.
  - intros m (m0 & Hm & ->)%at_key_elem. apply Hmono. specialize (inv_used0 m0 Hm). by destruct (decide (key_of m0 = mapkey)).
  - destruct inv_boot0 as (U1 & U2 & U3). split_and!; by apply Hmono.
  - by rewrite (content_upd _ _ _ _ _ _ Hml), decide_False.
  - by exists t; rewrite Ht; unfold fst_name; rewrite Hfn, Hft.
  - intros m (m0 & Hm & ->)%at_key_elem. specialize (inv_names0 m0 Hm). by destruct (decide (key_of m0 = mapkey)).
Qed.

(** ** The directory *)

Lemma load_has_buf s k d : wf s -> has_buf s k d -> load k d s = s.
Proof.
  intros Hw (i & m & E & Hb). pose proof (put_at_key (with_buf d) _ _ _ _ (wf_keys s Hw) E) as Hput.
  assert (with_buf d m = m) as Hm by (destruct m; cbn in Hb |- *; unfold with_buf; cbn; by rewrite Hb). rewrite Hm in Hput.
  unfold put_entry, set_blocks in Hput. apply list_find_Some in E as (Hi & _). rewrite list_insert_id in Hput by done.
  unfold load. transitivity (State (adt s) (blocks s) (vol s)); [congruence|by destruct s].
Qed.

Lemma read_has_buf s f t lv b d : wf s -> has_buf s (f, t, lv, b) d -> read_file_blk io_ok f t lv b s = Ret (d, s).
Proof.
  intros Hw Hb. destruct (has_buf_content _ _ _ Hb) as [l Hl]. rewrite (read_file_blk_spec _ _ _ _ _ _ _ Hw Hl). by rewrite load_has_buf.
Qed.

(** the place of the first FST with a name *)
Definition place (fsts : list (list Z)) (f t : list Z) : option nat := fst <$> list_find (fun x => named f t x) fsts.

Lemma find_places {B} (Q : B -> Prop) `{forall x, Decision (Q x)} (P : nat -> Prop) `{forall i, Decision (P i)} (l : list B) j :
  (forall i x, l !! i = Some x -> P (j + i)%nat <-> Q x) ->
  list_find P (seq j (length l)) = (fun r => (r.1, (j + r.1)%nat)) <$> list_find Q l.
Proof.
  revert j. induction l as [|x l IH]; intros j Hl; [done|]. cbn [length seq list_find]. pose proof (Hl 0%nat x eq_refl) as Hx. rewrite Nat.add_0_r in Hx.
  destruct (decide (Q x)); [rewrite decide_True by (by apply Hx); cbn; by rewrite Nat.add_0_r|]. rewrite decide_False by (by rewrite Hx).
  rewrite (IH (S j)) by (intros i y Hi; rewrite Nat.add_succ_comm; by apply (Hl (S i) y)).
  destruct (list_find Q l) as [[i y]|]; [|done]. cbn. by rewrite Nat.add_succ_r.
Qed.

Lemma scan_dir_find s fsts bm n f t : inv s fsts bm n ->
  edf.scan_dir io_ok f t 0 1 s = Ret ((fun i => (0, i, fst_at (concat fsts) i)) <$> place fsts f t, s).
Proof.
  intros []. cbn [edf.scan_dir]. rewrite (st_step _ _ _ _ _ (read_has_buf _ _ _ _ _ _ inv_wf0 inv_dir0)).
  rewrite (st_step NFST _ s 64 s) by (unfold NFST; by rewrite inv_nfst0). change (Z.to_nat 64) with 64%nat. rewrite <- inv_len0.
  rewrite (find_places (fun x => named f t x) (fun i => named f t (fst_at (concat fsts) i)) fsts 0).
  2: { intros i x Hi. by rewrite Nat.add_0_l, (fst_at_concat _ _ _ inv_ok0 Hi). }
  unfold place. by destruct (list_find _ fsts) as [[i x]|].
Qed.

(** the directory's own FST *)
Lemma directory_spec s fsts bm n : inv s fsts bm n ->
  exists t, get_fst directory s = Ret (t, s) /\ fsts !! 0%nat = Some t /\ fst_ok t /\ fst_name t = (DIRECTOR_FN, DIRECTOR_FT) /\
    FST_ADBC t = 1 /\ FST_RECFM t = FSTDFIX /\ FST_LRECL t = 64 /\ FST_AIC t = Z.of_nat n.
Proof.
  intros []. destruct inv_dirfst0 as (t & Ht & Hn). exists t. unfold directory. rewrite (get_fst_dir _ _ 0 inv_dir0).
  rewrite (fst_at_concat _ _ _ inv_ok0 Ht). split; [done|]. split; [done|]. split; [by eapply (proj1 (Forall_lookup _ _) inv_ok0)|done].
Qed.


(** the place of an FST in a directory is the first one with its name *)
Definition placed (fsts : list (list Z)) (i : nat) (t : list Z) : Prop :=
  exists x, fsts !! i = Some x /\ fst_name x = fst_name t /\ forall j y, (j < i)%nat -> fsts !! j = Some y -> fst_name y <> fst_name t.

Lemma placed_place fsts i t : placed fsts i t -> place fsts (FST_FNAME t) (FST_FTYPE t) = Some i.
Proof.
  intros (x & Hi & Hn & Hb). unfold place. assert (list_find (fun x => named (FST_FNAME t) (FST_FTYPE t) x) fsts = Some (i, x)) as ->; [|done].
  unfold fst_name in *. apply list_find_Some. split; [done|]. split.
  - unfold named. injection Hn as -> ->. by rewrite !bool_decide_true.
  - intros j y Hj Hlt Hy. apply (Hb j y Hlt Hj). unfold named in Hy. rewrite Is_true_true, andb_true_iff, !bool_decide_eq_true in Hy. destruct Hy. congruence.
Qed.

Lemma update_directory_spec s fsts bm n p i t : inv s fsts bm n -> get_fst p s = Ret (t, s) -> fst_ok t -> placed fsts i t ->
  update_directory io_ok p s = Ret (tt, upd dirkey (concat (<[i := t]> fsts)) s).
Proof.
  intros I Hp Ht Hpl. unfold update_directory. rewrite (st_step _ _ _ _ _ Hp).
  destruct (directory_spec s fsts bm n I) as (d & Ed & _ & _ & _ & Ha & _). rewrite (st_step _ _ _ _ _ Ed), Ha.
  rewrite (st_step _ _ _ _ _ (scan_dir_find s fsts bm n _ _ I)), (placed_place _ _ _ Hpl). cbn [fmap option_fmap option_map].
  destruct I. destruct Hpl as (x & Hi & _). pose proof (has_buf_content _ _ _ inv_dir0) as [dl Hdl].
  pose proof (load_has_buf s dirkey _ inv_wf0 inv_dir0) as Hload.
  rewrite <- Hload at 1. rewrite (st_step _ _ _ tt (load dirkey (concat (<[i := t]> fsts)) s)).
  - by eapply dirty_load.
  - eapply poke_load; [done|done|]. by eapply ablit_fst.
Qed.

Lemma aslice_whole (l : list Z) n : lenZ l = n -> aslice l 0 n = Some l.
Proof. intros <-. apply aslice_full. Qed.

(** a piece of a record goes into a block that was read *)
Lemma write_piece f t lv b s l d off src j n a d' : wf s -> content s (f, t, lv, b) = Some (l, d) -> aslice src j n = Some a -> ablit d off a = Some d' ->
  (a ← lift (defined (aslice src j n)); poke f t lv b off a ;; blk_set_dirty f t lv b) (load (f, t, lv, b) d s) =
    Ret (tt, upd (f, t, lv, b) d' s).
Proof.
  intros Hw Hc Ha Hd. rewrite (st_step (lift _) _ _ a (load (f, t, lv, b) d s)) by (unfold lift; by rewrite Ha).
  rewrite (st_step _ _ _ tt (load (f, t, lv, b) d' s)) by (by eapply poke_load). by eapply dirty_load.
Qed.

Lemma upd_twice k d d' s : upd k d' (upd k d s) = upd k d' s.
Proof. unfold upd. by rewrite at_key_twice. Qed.

(** an FST is appended to the directory *)
Lemma append_dir_spec s fsts bm n rec : inv s fsts bm n -> (n < 64)%nat -> fst_ok rec ->
  exists t0, fsts !! 0%nat = Some t0 /\
  let fsts' := <[0%nat := set_AIC t0 (Z.of_nat n + 1)]> (<[n := rec]> fsts) in
  append_record io_ok directory rec s = Ret (directory, upd dirkey (concat fsts') s) /\ inv (upd dirkey (concat fsts') s) fsts' bm (S n).
Proof.
  intros I Hn Hrec. destruct (directory_spec s fsts bm n I) as (t0 & Et & H0 & Hok & Hname & HA & HR & HL & HC). exists t0. split; [done|]. cbv zeta.
  pose proof I as []. pose proof (has_buf_content _ _ _ inv_dir0) as [dl Hdl].
  pose proof (info_AIC t0 (Z.of_nat n + 1)) as E. fst_info E.
  assert (t0' : exists t0', t0' = set_AIC t0 (Z.of_nat n + 1)) by eauto. destruct t0' as [t0' Et0']. rewrite <- Et0' in *.
  set (fsts1 := <[n := rec]> fsts) in *. set (fsts2 := <[0%nat := t0']> fsts1) in *.
  assert (Forall fst_ok fsts1) as Hok1 by (by apply Forall_insert). assert (Forall fst_ok fsts2) as Hok2 by (by apply Forall_insert).
  assert (fsts1 !! 0%nat = Some t0) as H01 by (unfold fsts1; by rewrite list_lookup_insert_ne by lia).
  assert (fsts2 !! 0%nat = Some t0') as H02 by (apply list_lookup_insert_eq; unfold fsts1; rewrite length_insert; lia).
  assert (inv (upd dirkey (concat fsts2) s) fsts2 bm (S n)) as I2.
  { destruct inv_mapfst0 as (t1 & H1' & N1 & A1). destruct inv_dirlba0 as (t0'' & H0'' & NL0 & FO0 & _). assert (t0'' = t0) as -> by congruence. eapply (inv_set_dir s fsts bm n fsts2 (S n) t0' t1); try done; try lia; try (unfold fst_name in *; congruence).
    - unfold fsts2, fsts1. by rewrite !length_insert.
    - unfold fsts2, fsts1. by rewrite !list_lookup_insert_ne by lia.
    - intros i t Hi Ht. unfold fsts2, fsts1. destruct i as [|i].
      + exists t0'. rewrite list_lookup_insert_eq by (rewrite length_insert; lia). split; [done|]. unfold fst_name in *. congruence.
      + exists t. by rewrite !list_lookup_insert_ne by lia. }
  split; [|done]. unfold append_record. rewrite (st_step _ _ _ _ _ Et), HR, Z.eqb_refl. cbn [negb].
  rewrite (st_step _ _ _ _ _ (DBSIZ_spec _ inv_wf0)), HL, HC, HA. change (4096 =? 0) with false. cbv iota zeta.
  rewrite (wrap_small 32 (Z.of_nat n * 64)) by lia. rewrite (wrap_small 32 (1 * 4096 - Z.of_nat n * 64)) by lia.
  replace (Z.of_nat n * 64 / 4096) with 0 by divlia. replace ((Z.of_nat n * 64) mod 4096) with (Z.of_nat n * 64) by divlia.
  destruct (Z.ltb_spec (1 * 4096 - Z.of_nat n * 64) 64); [lia|]. unfold mret, st_ret at 1.
  rewrite (st_step (fun s => Ret (directory, s)) _ s directory s) by done. rewrite (st_step _ _ _ _ _ Et).
  unfold fst_name in Hname. injection Hname as -> ->.
  pose proof (load_has_buf s dirkey _ inv_wf0 inv_dir0) as Hload. rewrite <- Hload at 1.
  assert (forall i x t, Forall fst_ok x -> i ∈ seq 0 64 -> length x = 64%nat -> fst_ok t -> ablit (concat x) (Z.of_nat (sizeof_FST * i)) t = Some (concat (<[i := t]> x))) as Hblit.
  { intros i x t Hx Hi Hlen Ht. apply elem_of_seq in Hi. destruct (lookup_lt_is_Some_2 x i ltac:(lia)) as [y Hy]. by eapply ablit_fst. }
  rewrite (st_step _ _ _ tt (upd dirkey (concat fsts1) s)).
  2: { unfold write_record. rewrite Hload, (st_step _ _ _ _ _ (read_has_buf _ _ _ _ _ _ inv_wf0 inv_dir0)).
       destruct (Z.leb_spec 64 (1 * 4096 - Z.of_nat n * 64)); [|lia]. rewrite orb_true_r. rewrite <- Hload at 1.
       eapply (write_piece _ _ _ _ _ _ _ _ rec 0 64); [done|done|by apply aslice_whole; unfold fst_ok, lenZ in *; lia|].
       replace (Z.of_nat n * 64) with (Z.of_nat (sizeof_FST * n)) by (unfold sizeof_FST; lia). apply Hblit; try done. apply elem_of_seq. lia. }
  assert (has_buf (upd dirkey (concat fsts1) s) dirkey (concat fsts1)) as Hb1.
  { pose proof (has_buf_upd dirkey (concat fsts1) s dirkey _ dl _ Hdl inv_dir0) as Hb. by rewrite decide_True in Hb. }
  rewrite (st_step _ _ _ _ _ (get_fst_dir _ _ 0 Hb1)), (fst_at_concat _ _ _ Hok1 H01), HC. rewrite (wrap_small 32 (Z.of_nat n + 1)) by lia.
  rewrite <- Et0'. unfold set_fst at 1, directory at 1.
  rewrite (st_step _ _ _ directory (upd dirkey (concat fsts2) s)).
  2: { rewrite (st_step _ _ _ tt (upd dirkey (concat fsts2) s)); [done|]. eapply poke_upd; [done|done|].
       apply Hblit; try done; [by apply elem_of_seq; lia|unfold fsts1; by rewrite length_insert]. }
  rewrite (st_step _ _ _ tt (upd dirkey (concat fsts2) s)); [done|].
  pose proof (inv_wf _ _ _ _ I2) as Hw2. pose proof (inv_dir _ _ _ _ I2) as Hb2.
  rewrite (update_directory_spec _ fsts2 bm (S n) directory 0 t0' I2); [|by rewrite <- (fst_at_concat fsts2 0 t0' Hok2 H02); apply get_fst_dir|done|].
  - by rewrite upd_twice, list_insert_id.
  - exists t0'. split; [done|]. split; [done|]. intros j y Hj. lia.
Qed.

(** ** Blocks of a file *)

(** only blocks with a key in [K] changed, and new blocks were free *)
Record step (K : key -> Prop) (s s' : state) : Prop := Step {
  step_content : forall k, ~ K k -> content s' k = content s k;
  step_vol : vol s' = vol s;
  step_adt : adt s' = adt s;
  step_map : forall ml bm, content s mapkey = Some (ml, bm) -> exists bm', content s' mapkey = Some (ml, bm') /\ forall l, used bm l -> used bm' l;
  step_lbas : forall ml bm, content s mapkey = Some (ml, bm) -> forall l, l ∈ map edf.lba (blocks s') -> l ∈ map edf.lba (blocks s) \/ ~ used bm l;
}.

Lemma step_refl K s : step K s s.
Proof. split; try done; [intros ml bm H; by exists bm|intros; by left]. Qed.

Lemma step_trans K s1 s2 s3 : step K s1 s2 -> step K s2 s3 -> step K s1 s3.
Proof.
  intros [C V A M L] [C' V' A' M' L']. split; [intros k Hk; by rewrite C', C|congruence|congruence| |].
  - intros ml bm H. destruct (M ml bm H) as (bm2 & H2 & U). destruct (M' ml bm2 H2) as (bm3 & H3 & U'). exists bm3. split; [done|]. intros l Hl. by apply U', U.
  - intros ml bm H l Hl. destruct (M ml bm H) as (bm2 & H2 & U). destruct (L' ml bm2 H2 l Hl) as [Hl2|Hl2]; [by apply (L ml bm H)|].
    right. intros Hu. by apply Hl2, U.
Qed.

Lemma step_upd (K : key -> Prop) k d s l d0 : K k -> k <> mapkey -> content s k = Some (l, d0) -> step K s (upd k d s).
Proof.
  intros HK Hm Hc. split; [|done|done| |].
  - intros k' Hk'. rewrite (content_upd _ _ _ _ _ _ Hc), decide_False; [done|by intros ->].
  - intros ml bm H. exists bm. by rewrite (content_upd _ _ _ _ _ _ Hc), decide_False.
  - intros ml bm _ l' Hl'. left. unfold upd in Hl'. by rewrite (at_key_map edf.lba) in Hl'.
Qed.

Definition fkey (t : list Z) (lv b : Z) : key := (FST_FNAME t, FST_FTYPE t, lv, b).

(** the blocks of the file, and the map *)
Definition of_file (nm : list Z * list Z) (k : key) : Prop := name_of k = nm \/ k = mapkey.

Record file_blocks (s : state) (t : list Z) (lbs : list Z) (bks : list (list Z)) : Prop := FileBlocks {
  fb_len : length lbs = length bks;
  fb_adbc : FST_ADBC t = lenZ bks;
  fb_small : lenZ bks < 1024;
  fb_data : forall b l d, lbs !! b = Some l -> bks !! b = Some d -> content s (fkey t 0 (Z.of_nat b)) = Some (l, d);
  fb_none : forall b, lenZ bks <= b -> content s (fkey t 0 b) = None;
  fb_high : forall lv b, FST_NLVL t < lv -> content s (fkey t lv b) = None;
  fb_one : lenZ bks <= 1 -> FST_NLVL t = 0 /\ forall l, lbs !! 0%nat = Some l -> FST_FOP t = l;
  fb_more : 2 <= lenZ bks -> FST_NLVL t = 1 /\ exists P, content s (fkey t 1 0) = Some (FST_FOP t, P) /\
    forall b l, lbs !! b = Some l -> ptr_at P (Z.of_nat b) = l;
}.

Lemma inv_add s fsts bm n k l i t : inv s fsts bm n -> content s k = None -> l ∉ map edf.lba (blocks s) -> 4 <= l <= 32768 -> used bm l ->
  fsts !! i = Some t -> (i < n)%nat -> fst_name t = name_of k -> inv (add_entry k l s) fsts bm n.
Proof.
  intros I Hc Hl Hr Hu Hi Hin Hn. destruct I. pose proof k as [[[kf kt] klv] kb]. split; try done.
  - by apply wf_add.
  - by destruct k as [[[? ?] ?] ?].
  - by apply has_buf_add.
  - destruct inv_map0 as [ml Hml]. exists ml. rewrite (content_add _ _ _ _ Hc), decide_False; [done|]. intros <-. congruence.
  - destruct k as [[[? ?] ?] ?]. intros m [->|Hm]%elem_of_cons; [done|by apply inv_used0].
  - destruct inv_dirlba0 as (y & Y & N & E & D). exists y. rewrite (content_add _ _ _ _ Hc), decide_False.
    + split_and!; try done. by destruct k as [[[? ?] ?] ?].
    + intros <-. destruct (has_buf_content _ _ _ inv_dir0). congruence.
  - destruct k as [[[? ?] ?] ?]. intros m [->|Hm]%elem_of_cons; [by exists i, t|by apply inv_names0].
Qed.

(** a file's place in the directory *)
Definition placed_in (fsts : list (list Z)) (n i : nat) (t : list Z) : Prop := placed fsts i t /\ (2 <= i < n)%nat.

Lemma placed_names s fsts bm n i t : inv s fsts bm n -> placed_in fsts n i t ->
  fst_name t <> (DIRECTOR_FN, DIRECTOR_FT) /\ fst_name t <> (ALLOCMAP_FN, ALLOCMAP_FT) /\ exists x, fsts !! i = Some x /\ fst_name x = fst_name t.
Proof.
  intros [] [(x & Hi & Hn & Hb) H2]. destruct inv_dirfst0 as (t0 & H0 & N0 & _). destruct inv_mapfst0 as (t1 & H1 & N1 & _).
  pose proof (Hb 0%nat t0 ltac:(lia) H0). pose proof (Hb 1%nat t1 ltac:(lia) H1). split; [congruence|]. split; [congruence|by exists x].
Qed.

(** a new block for a file *)
Lemma take_block s fsts bm n i t lv b : inv s fsts bm n -> placed_in fsts n i t -> (0 < free bm)%nat -> content s (fkey t lv b) = None ->
  exists l bm' s1 s2 d, __get_free_block io_ok s = Ret (l, s1) /\
    block_map_add (FST_FNAME t) (FST_FTYPE t) lv b l s1 = Ret (tt, s2) /\ inv s2 fsts bm' n /\ free bm = S (free bm') /\ 4 <= l <= 32768 /\
    content s2 (fkey t lv b) = Some (l, d) /\ step (fun k => k = fkey t lv b \/ k = mapkey) s s2.
Proof.
  intros I Hp Hf Hc. destruct (placed_names _ _ _ _ _ _ I Hp) as (ND & NM & x & Hi & Hx).
  destruct (get_free_block_spec s fsts bm n I Hf) as (l & bm' & E & I' & Hr & Hu & Hu' & Hmono & Hfree). destruct (inv_map _ _ _ _ I) as [ml Hml].
  assert (fkey t lv b <> mapkey) as Hne by (intros Hk; apply NM; unfold fkey in Hk; injection Hk as H1 H2 _ _; unfold fst_name; congruence).
  assert (content (upd mapkey bm' s) (fkey t lv b) = None) as Hc' by (by rewrite (content_upd _ _ _ _ _ _ Hml), decide_False).
  exists l, bm', (upd mapkey bm' s), (add_entry (fkey t lv b) l (upd mapkey bm' s)), (vol s (search_data l)).
  split; [done|]. split; [by apply block_map_add_new|]. split; [|split; [done|split; [done|split]]].
  - apply (inv_add _ _ _ _ _ _ i x); try done; [|apply Hp]. unfold upd. rewrite (at_key_map edf.lba) by done.
    intros (m & -> & Hm)%list_elem_of_fmap. apply Hu. by apply (inv_used _ _ _ _ I).
  - by rewrite (content_add _ _ _ _ Hc'), decide_True.
  - split; [|done|done| |].
    + intros k Hk. rewrite (content_add _ _ _ _ Hc'), decide_False by (intros ->; apply Hk; by left).
      rewrite (content_upd _ _ _ _ _ _ Hml), decide_False; [done|]. intros ->. apply Hk. by right.
    + intros ml1 bm1 H1. exists bm'. rewrite (content_add _ _ _ _ Hc'), decide_False by done. rewrite (content_upd _ _ _ _ _ _ Hml), decide_True by done.
      assert (bm1 = bm) as -> by congruence. split; [congruence|done].
    + intros ml1 bm1 H1 l1 [->|Hl1]%elem_of_cons; [right; by assert (bm1 = bm) as -> by congruence|left].
      unfold upd in Hl1. cbn [blocks at_key] in Hl1. by rewrite <- (at_key_map edf.lba (with_dirty bm') mapkey s).
Qed.

Lemma blocks_level0 s a : wf s -> 0 <= a < 2 ^ 31 -> file_blocks_at_level a 0 s = Ret (a, s).
Proof.
  intros Hw Ha. unfold file_blocks_at_level. rewrite (st_step _ _ _ _ _ (DBSIZ_spec _ Hw)). change (blks_power (Z.to_nat 0) (4096 / 4)) with 1. change (1 =? 0) with false.
  cbv iota. unfold mret, st_ret. replace (a + 1 - 1) with a by lia. change (u32 1) with 1. rewrite Z.div_1_r, (wrap_small 32) by lia. by rewrite swrap_small by lia.
Qed.

Lemma blocks_level1 s a : wf s -> 1 <= a <= 1024 -> file_blocks_at_level a 1 s = Ret (1, s).
Proof.
  intros Hw Ha. unfold file_blocks_at_level. rewrite (st_step _ _ _ _ _ (DBSIZ_spec _ Hw)). change (blks_power (Z.to_nat 1) (4096 / 4)) with 1024. change (1024 =? 0) with false.
  cbv iota. unfold mret, st_ret. change (u32 1024) with 1024. rewrite (wrap_small 32) by lia. replace ((a + 1024 - 1) / 1024) with 1 by divlia. done.
Qed.

(** ** A block more *)

Lemma ablit_put (d : list Z) off v : (off + length v <= length d)%nat -> ablit d (Z.of_nat off) v = Some (put_field d off v).
Proof. intros H. unfold ablit. rewrite decide_True by (unfold lenZ; lia). by rewrite Nat2Z.id. Qed.

Lemma ptr_put (P : list Z) x v j : length P = 4096%nat -> (x < 1024)%nat -> 0 <= v < 2 ^ 32 ->
  ptr_at (put_field P (4 * x) (be_bytes 4 v)) (Z.of_nat j) = if decide (j = x) then v else ptr_at P (Z.of_nat j).
Proof.
  intros HP Hx Hv. unfold ptr_at, be_field. replace (Z.to_nat (4 * Z.of_nat j)) with (4 * j)%nat by lia. case_decide as Hj.
  - subst. rewrite field_put_same by (rewrite be_bytes_length; lia). rewrite be_val_bytes. by apply Z.mod_small.
  - rewrite field_put_other; [done|rewrite be_bytes_length; lia|rewrite be_bytes_length; lia].
Qed.

(** blocks a file of [nb] data blocks takes *)
Definition cost (nb : Z) : nat := Z.to_nat (if 2 <=? nb then nb + 1 else nb).

(** what appending blocks and records leaves of an FST *)
Definition same_file (t t' : list Z) : Prop :=
  fst_ok t' /\ fst_name t' = fst_name t /\ FST_RECFM t' = FST_RECFM t /\ FST_LRECL t' = FST_LRECL t /\ FST_PTRSZ t' = FST_PTRSZ t.

Definition block_appended (s : state) (fsts : list (list Z)) (bm : list Z) (n : nat) (t : list Z) (lbs : list Z) (bks : list (list Z)) : Prop :=
  exists l d s' bm' t', __append_block io_ok (Local t) s = Ret (Local t', s') /\ inv s' fsts bm' n /\
    file_blocks s' t' (lbs ++ [l]) (bks ++ [d]) /\ same_file t t' /\ FST_AIC t' = FST_AIC t /\ step (of_file (fst_name t)) s s' /\
    (free bm + cost (lenZ bks) = free bm' + cost (lenZ bks + 1))%nat.

Lemma fkey_same t t' lv b : fst_name t' = fst_name t -> fkey t' lv b = fkey t lv b.
Proof. unfold fst_name, fkey. by intros [= -> ->]. Qed.

Lemma step_weaken (K K' : key -> Prop) s s' : (forall k, K k -> K' k) -> step K s s' -> step K' s s'.
Proof. intros HK [C V A M L]. split; [|done..]. intros k Hk. apply C. intros H. by apply Hk, HK. Qed.

Lemma fkey_of_file t lv b : of_file (fst_name t) (fkey t lv b).
Proof. by left. Qed.

(** the first block *)
Lemma append_first s fsts bm n i t : inv s fsts bm n -> placed_in fsts n i t -> fst_ok t -> file_blocks s t [] [] -> (0 < free bm)%nat ->
  block_appended s fsts bm n t [] [].
Proof.
  intros I Hp Hok [] Hf. unfold block_appended, __append_block.
  rewrite (st_step (get_fst (Local t)) _ s t s) by done. rewrite fb_adbc0. change (lenZ [] =? 0) with true. cbv iota.
  pose proof (info_ADBC t 1) as E. fst_info E. pose proof (info_NLVL (set_ADBC t 1) 0) as E. fst_info E.
  remember (set_NLVL (set_ADBC t 1) 0) as t1 eqn:Et1. clear Et1.
  rewrite (st_step (set_fst (Local t) t1) _ s (Local t1) s) by done.
  destruct (take_block s fsts bm n i t 0 0 I Hp Hf (fb_none0 0 ltac:(done))) as (l & bm' & s1 & s2 & d & E1 & E2 & I2 & Hfree & Hr & Hc2 & Hst).
  rewrite (st_step _ _ _ _ _ E1). rewrite (st_step (get_fst (Local t1)) _ s1 t1 s1) by done.
  pose proof (info_FOP t1 l) as E. fst_info E. remember (set_FOP t1 l) as t2 eqn:Et2. clear Et2.
  rewrite (st_step (set_fst (Local t1) t2) _ s1 (Local t2) s1) by done. 
  assert (FST_FNAME t1 = FST_FNAME t) as -> by congruence. assert (FST_FTYPE t1 = FST_FTYPE t) as -> by congruence.
  rewrite (st_step _ _ _ _ _ E2). exists l, d, s2, bm', t2. split; [done|]. split; [done|].
  assert (fst_name t2 = fst_name t) as Hn by (unfold fst_name; congruence).
  assert (forall lv b, fkey t2 lv b = fkey t lv b) as Hk by (intros; by apply fkey_same).
  assert (forall lv b, (lv, b) <> (0, 0) -> content s2 (fkey t lv b) = content s (fkey t lv b)) as Hsame.
  { intros lv b Hlv. apply (step_content _ _ _ Hst). intros [Hx|Hx]; [unfold fkey in Hx; congruence|].
    destruct (placed_names _ _ _ _ _ _ I Hp) as (_ & HM & _). apply HM. unfold fkey in Hx. unfold fst_name. injection Hx as -> -> _ _. done. }
  split; [|split; [|split; [congruence|split]]].
  - split; try done; cbn [app length].
    + change (lenZ [d]) with 1. congruence.
    + intros b l0 d0 Hl Hd. destruct b as [|b]; [|done]. cbn in Hl, Hd. injection Hl as <-. injection Hd as <-. by rewrite Hk.
    + intros b Hb. change (lenZ [d]) with 1 in Hb. rewrite Hk, Hsame by (intros [= ->]; lia). apply fb_none0. change (lenZ []) with 0. lia.
    + intros lv b Hlv. assert (0 < lv) as Hlv0 by (assert (FST_NLVL t2 = 0) by congruence; lia). rewrite Hk, Hsame by (intros [= -> ->]; lia).
      apply fb_high0. destruct (fb_one0 ltac:(done)) as [-> _]. done.
    + intros _. split; [congruence|]. intros l0 [= <-]. congruence.
  - unfold same_file. split_and!; congruence.
  - eapply step_weaken; [|exact Hst]. intros k [-> | ->]; [apply fkey_of_file|by right].
  - rewrite Hfree. change (lenZ [] + 1) with 1. change (cost 1) with 1%nat. change (cost (lenZ [])) with 0%nat. lia.
Qed.

Lemma fkey_map s fsts bm n i t lv b : inv s fsts bm n -> placed_in fsts n i t -> fkey t lv b <> mapkey.
Proof.
  intros I Hp Hk. destruct (placed_names _ _ _ _ _ _ I Hp) as (_ & HM & _). apply HM. unfold fkey in Hk. unfold fst_name.
  by injection Hk as -> -> _ _.
Qed.

Lemma fkey_dir s fsts bm n i t lv b : inv s fsts bm n -> placed_in fsts n i t -> fkey t lv b <> dirkey.
Proof.
  intros I Hp Hk. destruct (placed_names _ _ _ _ _ _ I Hp) as (HD & _). apply HD. unfold fkey in Hk. unfold fst_name.
  by injection Hk as -> -> _ _.
Qed.

Lemma fkey_inj t lv b lv' b' : fkey t lv b = fkey t lv' b' -> lv = lv' /\ b = b'.
Proof. unfold fkey. by intros [= -> ->]. Qed.

Lemma get_fst_local t s : get_fst (Local t) s = Ret (t, s).
Proof. done. Qed.

(** the loop finds the data block missing, and takes one *)
Lemma append_levels_data fuel s fsts bm n i t lbs bks pv : inv s fsts bm n -> placed_in fsts n i t -> file_blocks s t lbs bks -> (0 < free bm)%nat ->
  lenZ bks + 1 < 1024 ->
  exists l bm' s2 d, append_levels io_ok (S fuel) (Local t) 0 pv s = append_levels io_ok fuel (Local t) 1 l s2 /\
    inv s2 fsts bm' n /\ free bm = S (free bm') /\ 4 <= l <= 32768 /\ content s2 (fkey t 0 (lenZ bks)) = Some (l, d) /\
    step (fun k => k = fkey t 0 (lenZ bks) \/ k = mapkey) s s2.
Proof.
  intros I Hp F Hf Hsmall. destruct F. pose proof (lenZ_nonneg bks).
  destruct (take_block s fsts bm n i t 0 (lenZ bks) I Hp Hf (fb_none0 (lenZ bks) ltac:(lia))) as (l & bm' & s1 & s2 & d & E1 & E2 & I2 & Hfree & Hr & Hc2 & Hst).
  exists l, bm', s2, d. split; [|done]. cbn [append_levels]. rewrite (st_step _ _ _ _ _ (get_fst_local t s)).
  destruct (Z.ltb_spec (FST_NLVL t) 0) as [Hneg|_].
  { destruct (Z.le_gt_cases (lenZ bks) 1) as [Hle|Hgt]; [destruct (fb_one0 Hle) as [-> _]; lia|destruct (fb_more0 ltac:(lia)) as [Hn _]; lia]. }
  cbv zeta. rewrite fb_adbc0, (wrap_small 32 (lenZ bks + 1)) by lia.
  rewrite (st_step _ _ _ _ _ (blocks_level0 s (lenZ bks + 1) (inv_wf _ _ _ _ I) ltac:(lia))).
  replace (lenZ bks + 1 - 1) with (lenZ bks) by lia. rewrite (wrap_small 32 (lenZ bks)) by lia.
  rewrite (st_step _ _ _ _ _ (find_key _ _ _ _ _)). fold (fkey t 0 (lenZ bks)).
  assert (entry_at s (fkey t 0 (lenZ bks)) = None) as ->.
  { specialize (fb_none0 (lenZ bks) ltac:(lia)). unfold content in fb_none0. by destruct (entry_at s (fkey t 0 (lenZ bks))). }
  rewrite (st_step _ _ _ _ _ E1), (st_step _ _ _ _ _ E2). change (0 =? 0) with true. cbv iota. by change (u8 (0 + 1)) with 1.
Qed.

Lemma lookup_snoc {A} (l : list A) x b y : (l ++ [x]) !! b = Some y -> l !! b = Some y \/ (b = length l /\ x = y).
Proof.
  intros Hb. destruct (decide (b < length l)%nat).
  - left. by rewrite lookup_app_l in Hb.
  - rewrite lookup_app_r in Hb by lia. destruct (b - length l)%nat eqn:E; cbn in Hb; [|done]. right. injection Hb as <-. split; [lia|done].
Qed.

(** the data blocks after the new one *)
Lemma data_appended s s2 (K : key -> Prop) t t' lbs bks l d : file_blocks s t lbs bks -> step K s s2 -> fst_name t' = fst_name t ->
  (forall b, b <> lenZ bks -> ~ K (fkey t 0 b)) -> content s2 (fkey t 0 (lenZ bks)) = Some (l, d) ->
  (forall b l0 d0, (lbs ++ [l]) !! b = Some l0 -> (bks ++ [d]) !! b = Some d0 -> content s2 (fkey t' 0 (Z.of_nat b)) = Some (l0, d0)) /\
  (forall b, lenZ (bks ++ [d]) <= b -> content s2 (fkey t' 0 b) = None).
Proof.
  intros [] Hst Hn HK Hc. split.
  - intros b l0 d0 Hl%lookup_snoc Hd%lookup_snoc. rewrite (fkey_same _ _ _ _ Hn). destruct Hl as [Hl|[-> <-]], Hd as [Hd|[Hb <-]].
    + rewrite (step_content _ _ _ Hst); [by apply fb_data0|]. apply HK. pose proof (lookup_lt_Some _ _ _ Hd). unfold lenZ. lia.
    + exfalso. pose proof (lookup_lt_Some _ _ _ Hl). lia.
    + exfalso. pose proof (lookup_lt_Some _ _ _ Hd). lia.
    + rewrite fb_len0. by rewrite <- Hc.
  - intros b Hb. rewrite lenZ_app in Hb. change (lenZ [d]) with 1 in Hb. rewrite (fkey_same _ _ _ _ Hn), (step_content _ _ _ Hst); [apply fb_none0; lia|apply HK; lia].
Qed.

(** the second block comes with a block of pointers *)
Lemma append_second s fsts bm n i t lbs bks : inv s fsts bm n -> placed_in fsts n i t -> fst_ok t -> file_blocks s t lbs bks ->
  lenZ bks = 1 -> (1 < free bm)%nat -> block_appended s fsts bm n t lbs bks.
Proof.
  intros I Hp Hok F H1 Hf. unfold block_appended, __append_block. pose proof F as [].
  rewrite (st_step _ _ _ _ _ (get_fst_local t s)), fb_adbc0, H1. change (1 =? 0) with false. cbv iota.
  change 257%nat with (S (S 255)). generalize 255%nat as fuel. intros fuel.
  destruct (append_levels_data (S fuel) s fsts bm n i t lbs bks 0 I Hp F ltac:(lia) ltac:(lia)) as (l & bm2 & s2 & d & -> & I2 & Hfree & Hr & Hc2 & Hst2).
  destruct (fb_one0 ltac:(lia)) as [HN HF]. rewrite H1 in *.
  assert (content s2 (fkey t 1 0) = None) as Hnone.
  { rewrite (step_content _ _ _ Hst2); [apply fb_high0; lia|]. intros [Hx|Hx]; [apply fkey_inj in Hx; lia|by apply (fkey_map _ _ _ _ _ _ _ _ I Hp) in Hx]. }
  destruct (take_block s2 fsts bm2 n i t 1 0 I2 Hp ltac:(lia) Hnone) as (l2 & bm3 & s2' & s3 & P & E1 & E2 & I3 & Hfree3 & Hr3 & Hc3 & Hst3).
  cbn [append_levels]. rewrite (st_step _ _ _ _ _ (get_fst_local t s2)), HN. change (0 <? 1) with true. change (u8 (0 + 1)) with 1. cbv iota zeta.
  rewrite (st_step _ _ _ _ _ E1), (st_step _ _ _ _ _ E2). pose proof (inv_wf _ _ _ _ I3) as Hw3.
  pose proof (content_length _ _ _ _ Hw3 Hc3) as HP.
  rewrite (st_step _ _ _ _ _ (read_file_blk_spec _ _ _ _ _ _ _ Hw3 Hc3)).
  rewrite (st_step _ _ _ _ _ (dirty_load _ _ _ _ _ _ _ _ Hw3 Hc3)).
  destruct lbs as [|l1 lbs]; [by destruct bks|]. pose proof (HF l1 eq_refl) as HFOP.
  assert (content s (fkey t 0 0) = Some (l1, hd [] bks)) as Hc1 by (destruct bks; [done|by apply (fb_data0 0%nat)]).
  assert (1 <= l1 < 2 ^ 32) as Hl1.
  { destruct (lba_elem _ _ _ _ Hc1) as (m & Hm & <- & _). pose proof (wf_range _ (inv_wf _ _ _ _ I) m Hm). lia. }
  set (P1 := put_field P 0 (be_bytes 4 (FST_FOP t))). set (P2 := put_field P1 4 (be_bytes 4 l)).
  assert (length P1 = 4096%nat) as HP1 by (unfold P1; rewrite put_field_length; rewrite ?be_bytes_length; lia).
  assert (length P2 = 4096%nat) as HP2 by (unfold P2; rewrite put_field_length; rewrite ?be_bytes_length; lia).
  rewrite (st_step _ _ _ tt (upd (fkey t 1 0) P1 s3)) by (eapply poke_upd; [done|done|apply (ablit_put P 0); rewrite be_bytes_length; lia]).
  rewrite (st_step _ _ _ tt (upd (fkey t 1 0) P2 s3)) by (eapply poke_upd; [done|done|apply (ablit_put P1 4); rewrite be_bytes_length; lia]).
  replace (u32 (FST_ADBC t + 1)) with 2 by (rewrite fb_adbc0; done).
  pose proof (info_FOP t l2) as E. fst_info E. pose proof (info_NLVL (set_FOP t l2) 1) as E. fst_info E. pose proof (info_ADBC (set_NLVL (set_FOP t l2) 1) 2) as E. fst_info E.
  remember (set_ADBC (set_NLVL (set_FOP t l2) 1) 2) as t' eqn:Et'. clear Et'.
  assert (fst_name t' = fst_name t) as Hn by (unfold fst_name; congruence).
  exists l, d, (upd (fkey t 1 0) P2 s3), bm3, t'. split; [done|].
  assert (fkey t 1 0 <> dirkey) as HnD by (by eapply fkey_dir). assert (fkey t 1 0 <> mapkey) as HnM by (by eapply fkey_map).
  split; [by eapply inv_upd|]. pose (K := fun k => k = fkey t 0 1 \/ k = fkey t 1 0 \/ k = mapkey).
  assert (step K s (upd (fkey t 1 0) P2 s3)) as Hst.
  { eapply step_trans; [|eapply step_trans]; [eapply step_weaken; [|exact Hst2]|eapply step_weaken; [|exact Hst3]|by eapply step_upd; [right; left|..]];
      intros k [-> | ->]; unfold K; tauto. }
  split; [|split; [unfold same_file; split_and!; congruence|split; [congruence|split]]].
  - assert (content (upd (fkey t 1 0) P2 s3) (fkey t 0 1) = Some (l, d)) as Hcd.
    { rewrite (content_upd _ _ _ _ _ _ Hc3), decide_False by (intros Hx; apply fkey_inj in Hx; lia). rewrite (step_content _ _ _ Hst3), Hc2; [done|].
      intros [Hx|Hx]; [apply fkey_inj in Hx; lia|by apply (fkey_map _ _ _ _ _ _ _ _ I Hp) in Hx]. }
    destruct (data_appended s _ K t t' (l1 :: lbs) bks l d F Hst Hn) as [HA HB]; [|by rewrite H1|].
    { intros b Hb [Hx|[Hx|Hx]]; [apply fkey_inj in Hx; lia|apply fkey_inj in Hx; lia|by apply (fkey_map _ _ _ _ _ _ _ _ I Hp) in Hx]. }
    destruct lbs as [|l1' lbs]; [|cbn in fb_len0; unfold lenZ in H1; lia].
    split; try done; rewrite ?lenZ_app, ?H1; try done.
    + rewrite !length_app. cbn. unfold lenZ in H1. lia.
    + intros lv b Hlv. rewrite (fkey_same _ _ _ _ Hn), (step_content _ _ _ Hst); [apply fb_high0; lia|].
      intros [Hx|[Hx|Hx]]; [apply fkey_inj in Hx; lia|apply fkey_inj in Hx; lia|by apply (fkey_map _ _ _ _ _ _ _ _ I Hp) in Hx].
    + intros _. split; [congruence|]. exists P2. split.
      { rewrite (fkey_same _ _ _ _ Hn), (content_upd _ _ _ _ _ _ Hc3), decide_True by done. congruence. }
      intros b l0 Hb. unfold P2. change 4%nat with (4 * 1)%nat at 1. rewrite ptr_put by (done || lia).
      destruct b as [|[|b]]; cbn in Hb; [| |done]; injection Hb as <-; [|done]. rewrite decide_False by done.
      unfold P1. change 0%nat with (4 * 0)%nat at 1. rewrite ptr_put by (done || lia). by rewrite decide_True.
  - eapply step_weaken; [|exact Hst]. intros k [-> | [-> | ->]]; [apply fkey_of_file..|by right].
  - rewrite Hfree, Hfree3. change (cost (1 + 1)) with 3%nat. change (cost 1) with 1%nat. lia.
Qed.

(** every later block goes into the block of pointers *)
Lemma append_more s fsts bm n i t lbs bks : inv s fsts bm n -> placed_in fsts n i t -> fst_ok t -> file_blocks s t lbs bks ->
  2 <= lenZ bks -> lenZ bks + 1 < 1024 -> (0 < free bm)%nat -> block_appended s fsts bm n t lbs bks.
Proof.
  intros I Hp Hok F H2 Hsmall Hf. unfold block_appended, __append_block. pose proof F as [].
  rewrite (st_step _ _ _ _ _ (get_fst_local t s)), fb_adbc0. destruct (Z.eqb_spec (lenZ bks) 0); [lia|].
  change 257%nat with (S (S 255)). generalize 255%nat as fuel. intros fuel.
  destruct (append_levels_data (S fuel) s fsts bm n i t lbs bks 0 I Hp F Hf Hsmall) as (l & bm2 & s2 & d & -> & I2 & Hfree & Hr & Hc2 & Hst2).
  destruct (fb_more0 H2) as (HN & P & HcP & Hptrs).
  assert (content s2 (fkey t 1 0) = Some (FST_FOP t, P)) as HcP2.
  { rewrite (step_content _ _ _ Hst2); [done|]. intros [Hx|Hx]; [apply fkey_inj in Hx; lia|by apply (fkey_map _ _ _ _ _ _ _ _ I Hp) in Hx]. }
  pose proof (inv_wf _ _ _ _ I2) as Hw2. pose proof (content_length _ _ _ _ Hw2 HcP2) as HP.
  cbn [append_levels]. rewrite (st_step _ _ _ _ _ (get_fst_local t s2)), HN. change (1 <? 1) with false. cbv iota zeta.
  rewrite fb_adbc0, (wrap_small 32 (lenZ bks + 1)) by lia.
  rewrite (st_step _ _ _ _ _ (blocks_level1 s2 (lenZ bks + 1) Hw2 ltac:(lia))). change (u32 (1 - 1)) with 0.
  rewrite (st_step _ _ _ _ _ (find_key _ _ _ _ _)). fold (fkey t 1 0).
  pose proof HcP2 as (j & m & Em & _)%content_entry. rewrite Em. change (1 =? 0) with false. cbv iota.
  rewrite (st_step _ _ _ _ _ (read_file_blk_spec _ _ _ _ _ _ _ Hw2 HcP2)).
  rewrite (st_step _ _ _ _ _ (dirty_load _ _ _ _ _ _ _ _ Hw2 HcP2)). fold (fkey t 1 0).
  assert (wf (upd (fkey t 1 0) P s2)) as Hw3 by (by apply wf_upd). change (1 - 1) with 0.
  rewrite (st_step _ _ _ _ _ (blocks_level0 _ (lenZ bks + 1) Hw3 ltac:(lia))), (st_step _ _ _ _ _ (DBSIZ_spec _ Hw3)).
  change (4096 / 4) with 1024. rewrite (wrap_small 32 (lenZ bks + 1)), Z.mod_small by lia. rewrite (swrap_small 32) by lia.
  replace (4 * (lenZ bks + 1 - 1)) with (Z.of_nat (4 * length bks)) by (unfold lenZ; lia).
  set (P2 := put_field P (4 * length bks) (be_bytes 4 l)).
  assert (length P2 = 4096%nat) as HP2 by (unfold P2; rewrite put_field_length; rewrite ?be_bytes_length; unfold lenZ in *; lia).
  rewrite (st_step _ _ _ tt (upd (fkey t 1 0) P2 s2)) by (eapply poke_upd; [done|done|apply ablit_put; rewrite be_bytes_length; unfold lenZ in *; lia]).
  pose proof (info_ADBC t (lenZ bks + 1)) as E. fst_info E. remember (set_ADBC t (lenZ bks + 1)) as t' eqn:Et'. clear Et'.
  assert (fst_name t' = fst_name t) as Hn by (unfold fst_name; congruence).
  exists l, d, (upd (fkey t 1 0) P2 s2), bm2, t'. split; [done|].
  assert (fkey t 1 0 <> dirkey) as HnD by (by eapply fkey_dir). assert (fkey t 1 0 <> mapkey) as HnM by (by eapply fkey_map).
  split; [by eapply inv_upd|]. pose (K := fun k => k = fkey t 0 (lenZ bks) \/ k = fkey t 1 0 \/ k = mapkey).
  assert (step K s (upd (fkey t 1 0) P2 s2)) as Hst.
  { eapply step_trans; [eapply step_weaken; [|exact Hst2]|by eapply step_upd; [right; left|..]]. intros k [-> | ->]; unfold K; tauto. }
  split; [|split; [unfold same_file; split_and!; congruence|split; [congruence|split]]].
  - destruct (data_appended s _ K t t' lbs bks l d F Hst Hn) as [HA HB].
    { intros b Hb [Hx|[Hx|Hx]]; [apply fkey_inj in Hx; lia|apply fkey_inj in Hx; lia|by apply (fkey_map _ _ _ _ _ _ _ _ I Hp) in Hx]. }
    { rewrite (content_upd _ _ _ _ _ _ HcP2), decide_False by (intros Hx; apply fkey_inj in Hx; lia). done. }
    assert (lenZ (bks ++ [d]) = lenZ bks + 1) as HL by (by rewrite lenZ_app).
    split; rewrite ?HL; try done.
    + rewrite !length_app. cbn. lia.
    + intros b Hb. apply HB. lia.
    + intros lv b Hlv. rewrite (fkey_same _ _ _ _ Hn), (step_content _ _ _ Hst); [apply fb_high0; lia|].
      intros [Hx|[Hx|Hx]]; [apply fkey_inj in Hx; lia|apply fkey_inj in Hx; lia|by apply (fkey_map _ _ _ _ _ _ _ _ I Hp) in Hx].
    + lia.
    + intros _. split; [congruence|]. exists P2. split.
      { rewrite (fkey_same _ _ _ _ Hn), (content_upd _ _ _ _ _ _ HcP2), decide_True by done. congruence. }
      intros b l0 Hb%lookup_snoc. unfold P2. rewrite ptr_put by (done || unfold lenZ in *; lia). destruct Hb as [Hb|[-> <-]].
      * pose proof (lookup_lt_Some _ _ _ Hb). rewrite decide_False by lia. by apply Hptrs.
      * by rewrite fb_len0, decide_True.
  - eapply step_weaken; [|exact Hst]. intros k [-> | [-> | ->]]; [apply fkey_of_file..|by right].
  - rewrite Hfree. unfold cost. destruct (Z.leb_spec 2 (lenZ bks)), (Z.leb_spec 2 (lenZ bks + 1)); lia.
Qed.

Lemma append_block_spec s fsts bm n i t lbs bks : inv s fsts bm n -> placed_in fsts n i t -> fst_ok t -> file_blocks s t lbs bks ->
  lenZ bks + 1 < 1024 -> (cost (lenZ bks + 1) <= free bm + cost (lenZ bks))%nat -> block_appended s fsts bm n t lbs bks.
Proof.
  intros I Hp Hok F Hsmall Hf. pose proof (lenZ_nonneg bks). unfold cost in Hf.
  destruct (Z.leb_spec 2 (lenZ bks)), (Z.leb_spec 2 (lenZ bks + 1)); try lia.
  - eapply append_more; try done. lia.
  - eapply append_second; try done; lia.
  - assert (bks = []) as -> by (destruct bks; [done|unfold lenZ in *; cbn in *; lia]).
    assert (lbs = []) as -> by (apply nil_length_inv; by rewrite (fb_len _ _ _ _ F)).
    eapply append_first; try done. change (lenZ (A:=list Z) []) with 0 in *. lia.
Qed.

(** ** A record more *)

Lemma step_write s t lbs bks b l d d' : file_blocks s t lbs bks -> lbs !! b = Some l -> bks !! b = Some d ->
  file_blocks (upd (fkey t 0 (Z.of_nat b)) d' s) t lbs (<[b := d']> bks).
Proof.
  intros F Hl Hd. pose proof F as []. pose proof (fb_data0 b l d Hl Hd) as Hc. assert (lenZ (<[b := d']> bks) = lenZ bks) as HL by (unfold lenZ; by rewrite length_insert).
  pose proof (lookup_lt_Some _ _ _ Hd) as Hlt.
  split; rewrite ?HL; try done.
  - by rewrite length_insert.
  - intros b0 l0 d0 Hl0 Hd0. rewrite (content_upd _ _ _ _ _ _ Hc). destruct (decide (b0 = b)) as [->|Hne].
    + rewrite decide_True by done. rewrite list_lookup_insert_eq in Hd0 by done. congruence.
    + rewrite decide_False by (intros Hx; apply fkey_inj in Hx; lia). rewrite list_lookup_insert_ne in Hd0 by done. by apply fb_data0.
  - intros b0 Hb0. rewrite (content_upd _ _ _ _ _ _ Hc), decide_False; [by apply fb_none0|intros Hx; apply fkey_inj in Hx; unfold lenZ in *; lia].
  - intros lv b0 Hlv. assert (0 <= FST_NLVL t) by (destruct (Z.le_gt_cases (lenZ bks) 1) as [Hle|Hgt]; [destruct (fb_one0 Hle) as [-> _]|destruct (fb_more0 ltac:(lia)) as [-> _]]; lia).
    rewrite (content_upd _ _ _ _ _ _ Hc), decide_False; [by apply fb_high0|intros Hx; apply fkey_inj in Hx; lia].
  - intros H2. destruct (fb_more0 H2) as (HN & P & HP & Hptr). split; [done|]. exists P. split; [|done].
    rewrite (content_upd _ _ _ _ _ _ Hc), decide_False; [done|intros Hx; apply fkey_inj in Hx; lia].
Qed.

Lemma blocks_length s t lbs bks : wf s -> file_blocks s t lbs bks -> Forall (fun d => length d = 4096%nat) bks.
Proof.
  intros Hw []. apply Forall_lookup. intros b d Hd. destruct (lookup_lt_is_Some_2 lbs b) as [l Hl]; [pose proof (lookup_lt_Some _ _ _ Hd); lia|].
  by eapply content_length; [|apply fb_data0].
Qed.

Lemma data_written (B B' dat a : list Z) : take (length dat) B = dat -> ablit B (lenZ dat) a = Some B' -> take (length (dat ++ a)) B' = dat ++ a.
Proof.
  intros Hd. unfold ablit. case_decide as Hle; [|done]. intros [= <-]. unfold lenZ in *. rewrite Nat2Z.id, Hd, app_assoc.
  by rewrite take_app_length.
Qed.

(** a piece inside one block *)
Lemma piece_fits s t lbs bks b off dat a : wf s -> file_blocks s t lbs bks -> take (length dat) (concat bks) = dat ->
  lenZ dat = 4096 * Z.of_nat b + off -> 0 <= off -> off + lenZ a <= 4096 -> Z.of_nat b < lenZ bks ->
  exists l d d', lbs !! b = Some l /\ bks !! b = Some d /\ ablit d off a = Some d' /\ length d' = 4096%nat /\
    take (length (dat ++ a)) (concat (<[b := d']> bks)) = dat ++ a.
Proof.
  intros Hw F Hdat Hlen Hoff Ha Hb. destruct (lookup_lt_is_Some_2 bks b ltac:(unfold lenZ in *; lia)) as [d Hd].
  destruct (lookup_lt_is_Some_2 lbs b ltac:(rewrite (fb_len _ _ _ _ F); unfold lenZ in *; lia)) as [l Hl].
  pose proof (blocks_length _ _ _ _ Hw F) as Hall. pose proof (proj1 (Forall_lookup _ _) Hall b d Hd) as Hd4. cbn beta in Hd4.
  destruct (ablit_is_Some d off a) as [d' Hd']; [done|unfold lenZ in *; lia|]. exists l, d, d'. split_and!; try done.
  - apply ablit_lenZ in Hd'. unfold lenZ in Hd'. lia.
  - eapply data_written; [exact Hdat|]. rewrite Hlen. replace (4096 * Z.of_nat b + off) with (Z.of_nat (4096 * b) + off) by lia. by eapply concat_ablit.
Qed.

Lemma write_record_spec s fsts bm n i t lbs bks dat src rem : inv s fsts bm n -> placed_in fsts n i t -> file_blocks s t lbs bks ->
  take (length dat) (concat bks) = dat -> 1 <= lenZ src <= 4096 -> lenZ dat + lenZ src <= 4096 * lenZ bks ->
  rem = (- lenZ dat) mod 4096 ->
  exists s' bks', write_record io_ok (FST_FNAME t) (FST_FTYPE t) (lenZ dat / 4096) (lenZ dat mod 4096) rem (lenZ src) src s = Ret (tt, s') /\
    inv s' fsts bm n /\ file_blocks s' t lbs bks' /\ length bks' = length bks /\ take (length (dat ++ src)) (concat bks') = dat ++ src /\
    step (of_file (fst_name t)) s s'.
Proof.
  intros I Hp F Hdat Hsrc Hfit Hrem. pose proof (inv_wf _ _ _ _ I) as Hw. pose proof (lenZ_nonneg dat) as Hd0.
  set (b := Z.to_nat (lenZ dat / 4096)). set (off := lenZ dat mod 4096) in *. assert (lenZ dat / 4096 = Z.of_nat b) as Eb by (unfold b; divlia).
  assert (lenZ dat = 4096 * Z.of_nat b + off) as Elen by (rewrite <- Eb; unfold off; divlia). assert (0 <= off < 4096) as Hoff by (unfold off; divlia).
  clearbody b off. unfold write_record. rewrite Eb. destruct ((rem =? 0) || (lenZ src <=? rem)) eqn:Erem.
  - assert (off + lenZ src <= 4096) by (subst rem; rewrite orb_true_iff in Erem; destruct Erem as [Er|Er]; divlia).
    destruct (piece_fits s t lbs bks b off dat src Hw F Hdat Elen ltac:(lia) ltac:(lia) ltac:(lia)) as (l & d & d' & Hl & Hd & Ha & Hd4 & Hout).
    pose proof (fb_data _ _ _ _ F b l d Hl Hd) as Hc. rewrite (st_step _ _ _ _ _ (read_file_blk_spec _ _ _ _ _ _ _ Hw Hc)).
    rewrite (write_piece _ _ _ _ s l d _ _ _ _ src d' Hw Hc) by (done || by apply aslice_whole).
    exists (upd (fkey t 0 (Z.of_nat b)) d' s), (<[b := d']> bks). split; [done|]. split; [|split; [by eapply step_write|split; [by rewrite length_insert|split; [done|]]]].
    + eapply inv_upd; [done|exact Hc|done|by eapply fkey_dir|by eapply fkey_map].
    + eapply step_upd; [apply fkey_of_file|by eapply fkey_map|done].
  - rewrite orb_false_iff in Erem. assert (rem = 4096 - off /\ 0 < rem < lenZ src) as [Er Hr] by (subst rem; divlia).
    set (a1 := take (Z.to_nat rem) src). set (a2 := drop (Z.to_nat rem) src).
    assert (lenZ a1 = rem) as La1 by (unfold a1, lenZ in *; rewrite length_take; lia).
    assert (lenZ a2 = lenZ src - rem) as La2 by (unfold a2, lenZ in *; rewrite length_drop; lia).
    assert (src = a1 ++ a2) as Esrc by (unfold a1, a2; by rewrite take_drop).
    destruct (piece_fits s t lbs bks b off dat a1 Hw F Hdat Elen ltac:(lia) ltac:(lia) ltac:(lia)) as (l & d & d' & Hl & Hd & Ha & Hd4 & Hout).
    pose proof (fb_data _ _ _ _ F b l d Hl Hd) as Hc. rewrite (st_step _ _ _ _ _ (read_file_blk_spec _ _ _ _ _ _ _ Hw Hc)).
    assert (aslice src 0 rem = Some a1) as Hs1 by (unfold aslice; rewrite decide_True by lia; by rewrite drop_0).
    assert (aslice src rem (lenZ src - rem) = Some a2) as Hs2.
    { unfold aslice. rewrite decide_True by lia. f_equal. apply take_ge. unfold lenZ in *. lia. }
    rewrite (st_step (lift _) _ _ a1 (load (fkey t 0 (Z.of_nat b)) d s)) by (unfold lift; by rewrite Hs1).
    rewrite (st_step _ _ _ tt (load (fkey t 0 (Z.of_nat b)) d' s)) by (by eapply poke_load).
    rewrite (st_step _ _ _ tt (upd (fkey t 0 (Z.of_nat b)) d' s)) by (by eapply dirty_load).
    set (s1 := upd (fkey t 0 (Z.of_nat b)) d' s). pose proof (step_write s t lbs bks b l d d' F Hl Hd) as F1. fold s1 in F1.
    assert (inv s1 fsts bm n) as I1 by (eapply inv_upd; [done|exact Hc|done|by eapply fkey_dir|by eapply fkey_map]).
    pose proof (inv_wf _ _ _ _ I1) as Hw1.
    assert (lenZ (<[b:=d']> bks) = lenZ bks) as HLb by (unfold lenZ; by rewrite length_insert).
    destruct (piece_fits s1 t lbs (<[b:=d']> bks) (S b) 0 (dat ++ a1) a2 Hw1 F1 Hout ltac:(rewrite lenZ_app; lia) ltac:(lia) ltac:(lia) ltac:(lia))
      as (l2 & d2 & d2' & Hl2 & Hd2 & Ha2 & Hd42 & Hout2).
    pose proof (fb_data _ _ _ _ F1 (S b) l2 d2 Hl2 Hd2) as Hc2. replace (Z.of_nat b + 1) with (Z.of_nat (S b)) by lia.
    rewrite (st_step _ _ _ _ _ (read_file_blk_spec _ _ _ _ _ _ _ Hw1 Hc2)).
    rewrite (write_piece _ _ _ _ s1 l2 d2 _ _ _ _ a2 d2' Hw1 Hc2 Hs2 Ha2).
    exists (upd (fkey t 0 (Z.of_nat (S b))) d2' s1), (<[S b := d2']> (<[b := d']> bks)). split; [done|].
    split; [eapply inv_upd; [done|exact Hc2|done|by eapply fkey_dir|by eapply fkey_map]|].
    split; [by eapply step_write|]. split; [by rewrite !length_insert|]. split; [by rewrite Esrc, app_assoc|].
    eapply step_trans; [eapply step_upd; [apply fkey_of_file|by eapply fkey_map|done]|eapply step_upd; [apply fkey_of_file|by eapply fkey_map|done]].
Qed.

(** a file with the bytes [dat] in it *)
Record file_at (s : state) (fsts : list (list Z)) (n i : nat) (t dat : list Z) (lbs : list Z) (bks : list (list Z)) : Prop := FileAt {
  fa_fst : fsts !! i = Some t;
  fa_place : placed_in fsts n i t;
  fa_ok : fst_ok t;
  fa_recfm : FST_RECFM t = FSTDFIX;
  fa_ptrsz : FST_PTRSZ t = 4;
  fa_lrecl : 1 <= FST_LRECL t <= 4096;
  fa_aic : FST_AIC t * FST_LRECL t = lenZ dat;
  fa_blocks : file_blocks s t lbs bks;
  fa_count : lenZ bks = (lenZ dat + 4095) / 4096;
  fa_data : take (length dat) (concat bks) = dat;
}.

Definition blocks_for (len : Z) : Z := (len + 4095) / 4096.

(** blocks of other files and the directory stay as they are *)
Definition own_or_dir (nm : list Z * list Z) (k : key) : Prop := of_file nm k \/ k = dirkey.

Lemma fsts_place fsts n i t t' : placed_in fsts n i t -> fst_name t' = fst_name t -> placed_in (<[i := t']> fsts) n i t'.
Proof.
  intros [(x & Hi & Hx & Hb) Hin] Hn. split; [|done]. exists t'. split; [apply list_lookup_insert_eq; by eapply lookup_lt_Some|].
  split; [done|]. intros j y Hj Hy. rewrite list_lookup_insert_ne in Hy by lia. rewrite Hn. by eapply Hb.
Qed.

Lemma step_dir s fsts bm n d : inv s fsts bm n -> step (fun k => k = dirkey) s (upd dirkey d s).
Proof. intros I. destruct (has_buf_content _ _ _ (inv_dir _ _ _ _ I)) as [l Hl]. by eapply step_upd. Qed.

Lemma file_blocks_frame s s' t t' lbs bks (K : key -> Prop) : file_blocks s t lbs bks ->
  (forall k, ~ K k -> content s' k = content s k) -> (forall lv b, ~ K (fkey t lv b)) ->
  fst_name t' = fst_name t -> FST_ADBC t' = FST_ADBC t -> FST_NLVL t' = FST_NLVL t -> FST_FOP t' = FST_FOP t -> file_blocks s' t' lbs bks.
Proof.
  intros [] Hst HK Hn HA HN HF. assert (forall lv b, content s' (fkey t' lv b) = content s (fkey t lv b)) as Hc.
  { intros lv b. rewrite (fkey_same _ _ _ _ Hn). by apply Hst. }
  split; try done.
  - congruence.
  - intros. rewrite Hc. by apply fb_data0.
  - intros. rewrite Hc. by apply fb_none0.
  - intros lv b Hlv. rewrite Hc. apply fb_high0. congruence.
  - intros H1. rewrite HN, HF. by apply fb_one0.
  - intros H2. rewrite HN, HF. destruct (fb_more0 H2) as (HN1 & P & HP & Hptr). split; [done|]. exists P. by rewrite Hc.
Qed.

(** a block is taken when the record does not fit *)
Lemma make_room s fsts bm n i t dat lbs bks lrecl : inv s fsts bm n -> file_at s fsts n i t dat lbs bks -> lrecl = FST_LRECL t ->
  lenZ dat + lrecl <= 1023 * 4096 -> (cost (blocks_for (lenZ dat + lrecl)) <= free bm + cost (lenZ bks))%nat ->
  exists t' s' bm' lbs' bks', (if u32 (FST_ADBC t * 4096 - lenZ dat) <? lrecl then __append_block io_ok (Local t) else mret (Local t)) s = Ret (Local t', s') /\
    inv s' fsts bm' n /\ file_blocks s' t' lbs' bks' /\ same_file t t' /\ FST_AIC t' = FST_AIC t /\ step (of_file (fst_name t)) s s' /\
    take (length dat) (concat bks') = dat /\ lenZ bks' = blocks_for (lenZ dat + lrecl) /\
    (free bm + cost (lenZ bks) = free bm' + cost (lenZ bks'))%nat.
Proof.
  intros I [] -> Hmax Hcost. pose proof fa_blocks0 as F. pose proof (fb_adbc _ _ _ _ F) as HA. pose proof (lenZ_nonneg dat).
  rewrite HA, wrap_small by (rewrite fa_count0; divlia). unfold blocks_for in *. destruct (Z.ltb_spec (lenZ bks * 4096 - lenZ dat) (FST_LRECL t)).
  - assert ((lenZ dat + FST_LRECL t + 4095) / 4096 = lenZ bks + 1) as Hnb by (rewrite fa_count0 in *; divlia). rewrite Hnb in *.
    destruct (append_block_spec s fsts bm n i t lbs bks I fa_place0 fa_ok0 F ltac:(divlia) Hcost) as (l & d & s' & bm' & t' & E & I' & F' & Hsame & Haic & Hst & Hfree).
    exists t', s', bm', (lbs ++ [l]), (bks ++ [d]). assert (lenZ (bks ++ [d]) = lenZ bks + 1) as HL by (by rewrite lenZ_app). rewrite HL. split_and!; try done.
    pose proof (blocks_length _ _ _ _ (inv_wf _ _ _ _ I) F) as Hall. rewrite concat_app, take_app_le; [done|].
    rewrite (concat_length_n 4096 _ Hall). unfold lenZ in *. divlia.
  - assert ((lenZ dat + FST_LRECL t + 4095) / 4096 = lenZ bks) as Hnb by (rewrite fa_count0 in *; divlia). rewrite Hnb in *.
    exists t, s, bm, lbs, bks. split; [done|]. split; [done|]. split; [done|]. split; [done|]. split; [done|]. split; [apply step_refl|done].
Qed.

(** a record is appended to a file: the data grows by it, the FST counts it, and the directory holds the FST *)
Lemma append_to_spec s fsts bm n i t dat lbs bks src : inv s fsts bm n -> file_at s fsts n i t dat lbs bks -> lenZ src = FST_LRECL t ->
  lenZ dat + lenZ src <= 1023 * 4096 -> (cost (blocks_for (lenZ dat + lenZ src)) <= free bm + cost (lenZ bks))%nat ->
  exists t' s' bm' lbs' bks', append_to io_ok t src s = Ret (t', s') /\ inv s' (<[i := t']> fsts) bm' n /\
    file_at s' (<[i := t']> fsts) n i t' (dat ++ src) lbs' bks' /\ same_file t t' /\ FST_AIC t' = FST_AIC t + 1 /\ step (own_or_dir (fst_name t)) s s' /\
    (free bm + cost (lenZ bks) = free bm' + cost (lenZ bks'))%nat.
Proof.
  intros I Hf Hsrc Hmax Hcost. pose proof Hf as [Hi Hp _ HR HZ HL HA _ Hcnt Hdat]. pose proof (lenZ_nonneg dat). pose proof (inv_wf _ _ _ _ I) as Hw.
  rewrite Hsrc in Hmax, Hcost. destruct (make_room s fsts bm n i t dat lbs bks _ I Hf eq_refl Hmax Hcost)
    as (t1 & s1 & bm1 & lbs1 & bks1 & E1 & I1 & F1 & (Ok1 & N1 & R1 & L1 & Z1) & A1 & St1 & D1 & B1 & C1).
  assert (placed_in fsts n i t1) as Hp1 by (destruct Hp as [(x & Hx & Nx & Bx) Hin]; split; [exists x; rewrite N1; done|done]).
  unfold blocks_for in B1.
  destruct (write_record_spec s1 fsts bm1 n i t1 lbs1 bks1 dat src _ I1 Hp1 F1 D1 ltac:(lia) ltac:(rewrite B1, Hsrc; divlia) eq_refl)
    as (s2 & bks2 & E2 & I2 & F2 & B2 & D2 & St2).
  assert (0 <= FST_AIC t < 2 ^ 31) as Haic by nia.
  pose proof (info_AIC t1 (FST_AIC t + 1)) as E. fst_info E. remember (set_AIC t1 (FST_AIC t + 1)) as t2 eqn:Et2.
  assert (fst_name t2 = fst_name t1) as N2 by (unfold fst_name; congruence).
  assert (placed fsts i t2) as Hp2 by (destruct Hp1 as [(x & Hx & Nx & Bx) _]; exists x; rewrite N2; done).
  pose proof (inv_set_fst s2 fsts bm1 n i t t2 I2 Hi (proj2 Hp) ltac:(done) ltac:(congruence)) as I3.
  exists t2, (upd dirkey (concat (<[i := t2]> fsts)) s2), bm1, lbs1, bks2. split_and!.
  - unfold append_to, append_record. rewrite (st_step _ _ s (Local t2) (upd dirkey (concat (<[i := t2]> fsts)) s2)); [done|].
    rewrite (st_step _ _ _ _ _ (get_fst_local t s)), HR, Z.eqb_refl. cbn [negb]. rewrite (st_step _ _ _ _ _ (DBSIZ_spec _ Hw)).
    change (4096 =? 0) with false. cbv iota zeta. rewrite HA, (wrap_small 32 (lenZ dat)) by lia.
    rewrite (st_step _ _ _ _ _ E1), (st_step _ _ _ _ _ (get_fst_local t1 s1)).
    assert (u32 (FST_ADBC t * 4096 - lenZ dat) = (- lenZ dat) mod 4096) as ->.
    { rewrite (fb_adbc _ _ _ _ (fa_blocks _ _ _ _ _ _ _ _ Hf)), Hcnt, wrap_small by divlia. divlia. }
    rewrite <- Hsrc, (st_step _ _ _ _ _ E2), (st_step _ _ _ _ _ (get_fst_local t1 s2)), A1, (wrap_small 32 (FST_AIC t + 1)) by lia.
    rewrite <- Et2. rewrite (st_step (set_fst (Local t1) t2) _ s2 (Local t2) s2) by done.
    by rewrite (st_step _ _ _ _ _ (update_directory_spec s2 fsts bm1 n (Local t2) i t2 I2 (get_fst_local t2 s2) ltac:(done) Hp2)).
  - done.
  - split.
    + apply list_lookup_insert_eq. by eapply lookup_lt_Some.
    + eapply fsts_place; [exact Hp1|done].
    + done.
    + congruence.
    + congruence.
    + congruence.
    + rewrite lenZ_app. assert (FST_AIC t2 = FST_AIC t + 1) as -> by congruence. assert (FST_LRECL t2 = FST_LRECL t) as -> by congruence. lia.
    + eapply file_blocks_frame; [exact F2|by eapply step_content, step_dir| |done|congruence..]. intros lv b. exact (fkey_dir _ _ _ _ _ _ lv b I2 Hp1).
    + rewrite lenZ_app. unfold lenZ at 1. rewrite B2. unfold lenZ in B1, Hsrc |- *. rewrite B1, Hsrc. done.
    + done.
  - unfold same_file in *. split_and!; congruence.
  - congruence.
  - eapply step_trans; [|eapply step_trans]; [eapply step_weaken; [|exact St1]|eapply step_weaken; [|exact St2]|eapply step_weaken; [|by eapply step_dir]].
    + intros k Hk. by left.
    + intros k Hk. left. by rewrite <- N1.
    + intros k ->. by right.
  - unfold lenZ in *. rewrite B2. lia.
Qed.

(** ** Making a file *)

Lemma new_fst_info F T lrecl : length F = 8%nat -> length T = 8%nat -> 0 <= lrecl < 2 ^ 32 ->
  fst_ok (new_fst F T lrecl) /\ info (new_fst F T lrecl) = FInfo F T FSTDFIX lrecl 0 0 0 0 4.
Proof.
  intros HF HT Hl. split; [unfold fst_ok, new_fst; rewrite !length_app, HF, HT; reflexivity|].
  do 9 (destruct F as [|? F]; try done). do 9 (destruct T as [|? T]; try done). unfold info. f_equal.
  change (FST_LRECL _) with (be_val (be_bytes 4 lrecl)). rewrite be_val_bytes. by apply Z.mod_small.
Qed.

Lemma ebcdic_length x F : length x = 8%nat -> ascii2ebcdic (take 8 x) 8 = Ret F -> length F = 8%nat.
Proof.
  intros Hx E. unfold ascii2ebcdic, __translate in E. apply translate_loop_length in E. unfold lenZ in E. rewrite length_take in E. lia.
Qed.

Lemma place_none fsts F T i t : place fsts F T = None -> fsts !! i = Some t -> fst_name t <> (F, T).
Proof.
  unfold place. intros HN Hi Hn. destruct (list_find _ fsts) as [r|] eqn:E; [done|]. apply list_find_None in E.
  rewrite Forall_lookup in E. apply (E i t Hi). unfold fst_name in Hn. injection Hn as <- <-. unfold named. by rewrite !bool_decide_true.
Qed.

(** no name but one is new *)
Definition more_names (fsts fsts' : list (list Z)) (nm : list Z * list Z) : Prop :=
  forall i y, fsts' !! i = Some y -> fst_name y = nm \/ exists y0, fsts !! i = Some y0 /\ fst_name y = fst_name y0.

Lemma create_file_spec s fsts bm n f t F T lrecl : inv s fsts bm n -> (n < 64)%nat -> length f = 8%nat -> length t = 8%nat ->
  ascii2ebcdic (take 8 f) 8 = Ret F -> ascii2ebcdic (take 8 t) 8 = Ret T -> place fsts F T = None -> 1 <= lrecl <= 4096 ->
  exists x s' fsts', edf.create_file io_ok f t lrecl s = Ret (x, s') /\ inv s' fsts' bm (S n) /\ file_at s' fsts' (S n) n x [] [] [] /\
    fst_name x = (F, T) /\ FST_LRECL x = lrecl /\ FST_AIC x = 0 /\ step (fun k => k = dirkey) s s' /\
    (forall i y, (0 < i < n)%nat -> fsts !! i = Some y -> fsts' !! i = Some y) /\ more_names fsts fsts' (F, T).
Proof.
  intros I Hn Hf Ht HF HT HP Hl. pose proof (ebcdic_length f F Hf HF) as LF. pose proof (ebcdic_length t T Ht HT) as LT.
  destruct (new_fst_info F T lrecl LF LT ltac:(lia)) as [Hok Hinfo]. unfold edf.create_file.
  rewrite (st_step (lift _) _ s F s) by (unfold lift; by rewrite HF). rewrite (st_step (lift _) _ s T s) by (unfold lift; by rewrite HT).
  rewrite wrap_small by lia. remember (new_fst F T lrecl) as x eqn:Ex. clear Ex. unfold info in Hinfo. injection Hinfo as I1 I2 I3 I4 I5 I6 I7 I8 I9.
  destruct (append_dir_spec s fsts bm n x I Hn Hok) as (t0 & H0 & E & I').
  set (fsts' := <[0%nat := _]> _) in *. rewrite (st_step _ _ _ _ _ E). exists x, (upd dirkey (concat fsts') s), fsts'.
  assert (length fsts = 64%nat) as Hlen by apply I.
  assert (fst_name x = (F, T)) as Hname by (unfold fst_name; congruence).
  assert (fsts' !! n = Some x) as Hx.
  { pose proof (inv_count _ _ _ _ I). unfold fsts'. rewrite list_lookup_insert_ne by lia. apply list_lookup_insert_eq. lia. }
  assert (forall i y, (0 < i < n)%nat -> fsts !! i = Some y -> fsts' !! i = Some y) as Hother.
  { intros i y Hi Hy. unfold fsts'. by rewrite !list_lookup_insert_ne by lia. }
  assert (step (fun k => k = dirkey) s (upd dirkey (concat fsts') s)) as Hst by (by eapply step_dir).
  assert (forall k, k <> dirkey -> name_of k = (F, T) -> content (upd dirkey (concat fsts') s) k = None) as Hnone.
  { intros k Hk Hkn. rewrite (step_content _ _ _ Hst) by done. destruct (content s k) as [[l d]|] eqn:Ec; [|done].
    destruct (lba_elem _ _ _ _ Ec) as (m & Hm & _ & Hkey). destruct (inv_names _ _ _ _ I m Hm) as (i & y & Hi & _ & Hy).
    rewrite Hkey, Hkn in Hy. by apply (place_none _ _ _ _ _ HP) in Hi. }
  assert (forall lv b, fkey x lv b <> dirkey) as Hdk.
  { intros lv b Hx0. destruct (directory_spec s fsts bm n I) as (d0 & _ & Hd0 & _ & Hdn & _). apply (place_none _ _ _ _ _ HP Hd0).
    rewrite Hdn. unfold fkey in Hx0. unfold fst_name in Hname. injection Hx0 as <- <- _ _. done. }
  assert (more_names fsts fsts' (F, T)) as Hmore.
  { intros i y Hy. destruct (decide (i = 0%nat)) as [->|]; [|destruct (decide (i = n)) as [->|]; [left; congruence|]].
    - right. destruct (inv_dirfst _ _ _ _ I') as (d1 & Hd1 & Hdn1 & _). destruct (inv_dirfst _ _ _ _ I) as (d0 & Hd0 & Hdn & _). exists d0. split; [done|]. congruence.
    - right. exists y. unfold fsts' in Hy. by rewrite !list_lookup_insert_ne in Hy by lia. }
  split; [done|]. split; [done|]. split; [|by split_and!]. split; try done.
  - split; [|pose proof (inv_count _ _ _ _ I); lia]. exists x. split; [done|]. split; [done|]. intros j y Hj Hy. rewrite Hname.
    destruct j as [|j].
    + destruct (inv_dirfst _ _ _ _ I') as (d1 & Hd1 & Hdn1 & _). assert (y = d1) as -> by congruence. rewrite Hdn1.
      destruct (inv_dirfst _ _ _ _ I) as (d0 & Hd0 & Hdn & _). rewrite <- Hdn. by eapply place_none.
    + destruct (lookup_lt_is_Some_2 fsts (S j) ltac:(lia)) as [y' Hy']. rewrite (Hother (S j) y' ltac:(lia) Hy') in Hy. injection Hy as <-. by eapply place_none.
  - lia.
  - rewrite I7. done.
  - split; try done.
    + intros b _. by apply Hnone; [|unfold name_of, fkey; cbn; unfold fst_name in Hname].
    + intros lv b _. by apply Hnone; [|unfold name_of, fkey; cbn; unfold fst_name in Hname].
Qed.

(** ** All the records *)

Lemma cost_mono a b : a <= b -> (cost a <= cost b)%nat.
Proof. intros H. unfold cost. destruct (Z.leb_spec 2 a), (Z.leb_spec 2 b); lia. Qed.

Lemma blocks_for_mono a b : a <= b -> blocks_for a <= blocks_for b.
Proof. intros H. unfold blocks_for. divlia. Qed.

Lemma append_records_spec recs s fsts bm n i t dat lbs bks : inv s fsts bm n -> file_at s fsts n i t dat lbs bks ->
  Forall (fun r => lenZ r = FST_LRECL t) recs -> lenZ dat + lenZ (concat recs) <= 1023 * 4096 ->
  (cost (blocks_for (lenZ dat + lenZ (concat recs))) <= free bm + cost (lenZ bks))%nat ->
  exists t' s' bm' lbs' bks', cpio.append_records (H := edf_disk io_ok) t recs s = Ret (t', s') /\ inv s' (<[i := t']> fsts) bm' n /\
    file_at s' (<[i := t']> fsts) n i t' (dat ++ concat recs) lbs' bks' /\ same_file t t' /\ FST_AIC t' = FST_AIC t + lenZ recs /\
    step (own_or_dir (fst_name t)) s s' /\ (free bm + cost (lenZ bks) = free bm' + cost (lenZ bks'))%nat.
Proof.
  revert s fsts bm t dat lbs bks. induction recs as [|r recs IH]; intros s fsts bm t dat lbs bks I Hf Hr Hmax Hcost.
  - exists t, s, bm, lbs, bks. cbn [cpio.append_records concat]. rewrite list_insert_id by apply Hf. rewrite app_nil_r. change (lenZ []) with 0.
    split; [done|]. split; [done|]. split; [done|]. split; [unfold same_file; split_and!; try done; apply Hf|].
    split; [lia|]. split; [apply step_refl|done].
  - apply Forall_cons in Hr as [Hr Hrs]. cbn [concat] in *. rewrite lenZ_app in Hmax, Hcost. pose proof (lenZ_nonneg (concat recs)).
    destruct (append_to_spec s fsts bm n i t dat lbs bks r I Hf Hr ltac:(lia)) as (t1 & s1 & bm1 & lbs1 & bks1 & E1 & I1 & F1 & S1 & A1 & St1 & C1).
    { pose proof (cost_mono _ _ (blocks_for_mono (lenZ dat + lenZ r) (lenZ dat + (lenZ r + lenZ (concat recs))) ltac:(lia))). lia. }
    pose proof S1 as (Ok1 & N1 & R1 & L1 & Z1).
    destruct (IH s1 _ bm1 t1 (dat ++ r) lbs1 bks1 I1 F1) as (t2 & s2 & bm2 & lbs2 & bks2 & E2 & I2 & F2 & S2 & A2 & St2 & C2).
    { by rewrite L1. } { rewrite lenZ_app. lia. } { rewrite lenZ_app, <- Z.add_assoc. lia. }
    rewrite list_insert_insert_eq in I2, F2. exists t2, s2, bm2, lbs2, bks2. split_and!.
    + cbn [cpio.append_records]. change (Archive.append_record t r s) with (append_to io_ok t r s). rewrite E1. cbn [mbind outcome_bind]. exact E2.
    + done.
    + by rewrite app_assoc.
    + unfold same_file in *. destruct S2 as (Ok2 & N2 & R2 & L2 & Z2). split_and!; congruence.
    + rewrite A2, A1, lenZ_cons. lia.
    + eapply step_trans; [exact St1|]. by rewrite <- N1.
    + lia.
Qed.

(** ** The other files *)

Lemma file_at_frame s s' fsts n i t' nm j t dat lbs bks : file_at s fsts n j t dat lbs bks -> j <> i ->
  placed_in fsts n i t' -> fst_name t' = nm -> (forall k, ~ own_or_dir nm k -> content s' k = content s k) -> (forall lv b, fkey t lv b <> dirkey /\ fkey t lv b <> mapkey) ->
  file_at s' (<[i := t']> fsts) n j t dat lbs bks.
Proof.
  intros [] Hne Hp' Hnm Hst Hkeys. destruct fa_place0 as [(x & Hx & Nx & Bx) Hjn]. destruct Hp' as [(y & Hy & Ny & By) Hin].
  assert (fst_name t <> nm) as Hdiff.
  { intros Heq. destruct (decide (j < i)%nat); [apply (By j x); congruence|]. apply (Bx i y ltac:(lia) Hy). congruence. }
  split; try done.
  - by rewrite list_lookup_insert_ne.
  - split; [|done]. exists x. rewrite list_lookup_insert_ne by done. split; [done|]. split; [done|]. intros k z Hk Hz.
    destruct (decide (k = i)) as [->|]; [|rewrite list_lookup_insert_ne in Hz by done; by eapply Bx].
    rewrite list_lookup_insert_eq in Hz by (by eapply lookup_lt_Some). injection Hz as <-. congruence.
  - eapply file_blocks_frame; [exact fa_blocks0|exact Hst| |done..]. intros lv b. destruct (Hkeys lv b) as [K1 K2].
    intros [[Hx0|Hx0]|Hx0]; [|done..]. apply Hdiff. done.
Qed.

(** ** Back to the volume *)

Lemma search_data_inj a b : 1 <= a <= 32768 -> 1 <= b <= 32768 -> search_data a = search_data b -> a = b.
Proof.
  unfold search_data, RECORDS_PER_CYL, RECORDS_PER_TRACK. intros Ha Hb. cbv zeta. unfold wrap. change (2 ^ 32) with 4294967296. change (2 ^ 16) with 65536. change (2 ^ 8) with 256.
  rewrite (Z.mod_small (a - 1)), (Z.mod_small (b - 1)) by lia. intros [= E1 E2 E3 E4 E5].
  assert ((a - 1) / 180 = (b - 1) / 180) by divlia. assert ((a - 1) mod 180 / 12 = (b - 1) mod 180 / 12) by divlia.
  assert (((a - 1) mod 180) mod 12 = ((b - 1) mod 180) mod 12) by divlia. divlia.
Qed.

Lemma write_each_spec l s : NoDup (map edf.lba l) -> (forall m, m ∈ l -> 4 <= edf.lba m <= 32768) ->
  (forall m, m ∈ l -> dirty m = true -> is_Some (buf m)) ->
  exists s', write_each io_ok l s = Ret (tt, s') /\ blocks s' = blocks s /\ adt s' = adt s /\
    (forall m d, m ∈ l -> dirty m = true -> buf m = Some d -> vol s' (search_data (edf.lba m)) = d) /\
    (forall a, 1 <= a <= 32768 -> (forall m, m ∈ l -> dirty m = true -> edf.lba m <> a) -> vol s' (search_data a) = vol s (search_data a)).
Proof.
  revert s. induction l as [|m l IH]; intros s Hnd Hr Hd; [by exists s; split_and!; try done; intros ? ? ?%elem_of_nil|].
  cbn [map] in Hnd. apply NoDup_cons in Hnd as [Hm Hnd]. cbn [write_each].
  assert (forall m0, m0 ∈ l -> 4 <= edf.lba m0 <= 32768) as Hr' by (intros m0 Hm0; apply Hr; by right).
  assert (forall m0, m0 ∈ l -> dirty m0 = true -> is_Some (buf m0)) as Hd' by (intros m0 Hm0; apply Hd; by right).
  pose proof (Hr m ltac:(by left)) as Hrm. destruct (dirty m) eqn:Edirty; cbn [negb].
  - destruct (Hd m ltac:(by left) Edirty) as [d Eb]. rewrite Eb.
    set (s1 := State (adt s) (blocks s) (fun k => if bool_decide (k = search_data (edf.lba m)) then d else vol s k)).
    rewrite (st_step (write_blk io_ok d (edf.lba m)) _ s tt s1).
    2: { unfold write_blk. destruct (Z.ltb_spec (edf.lba m) 1); [lia|]. by rewrite Hio by lia. }
    destruct (IH s1 Hnd Hr' Hd') as (s' & E & Hb & Ha & Hw & Hk). exists s'. rewrite E. split; [done|]. split; [done|]. split; [done|]. split.
    + intros m0 d0 [->|Hm0]%elem_of_cons Hdm Hbm; [|by eapply Hw]. assert (d0 = d) as -> by congruence. rewrite Hk; [cbn; by rewrite bool_decide_true|lia|].
      intros m1 Hm1 _ Heq. apply Hm. apply list_elem_of_fmap. by exists m1.
    + intros a Hra Ham. rewrite Hk by (try done; intros m0 Hm0; apply Ham; by right). cbn. rewrite bool_decide_false; [done|].
      intros Heq%search_data_inj; try lia. by apply (Ham m ltac:(by left) Edirty).
  - rewrite (st_step (mret tt) _ s tt s) by done. destruct (IH s Hnd Hr' Hd') as (s' & E & Hb & Ha & Hw & Hk). exists s'. split; [done|]. split; [done|]. split; [done|]. split.
    + intros m0 d0 [->|Hm0]%elem_of_cons Hdm Hbm; [congruence|by eapply Hw].
    + intros a Hra Ham. apply Hk; [done|]. intros m0 Hm0. apply Ham. by right.
Qed.

(** after the write back the volume holds every block of the map *)
Lemma writeback_spec s : wf s ->
  exists s', writeback_buffers io_ok s = Ret (tt, s') /\
    (forall k l d, content s k = Some (l, d) -> vol s' (search_data l) = d) /\
    (forall a, 1 <= a <= 32768 -> a ∉ map edf.lba (blocks s) -> vol s' (search_data a) = vol s (search_data a)).
Proof.
  intros Hw. destruct Hw. destruct (write_each_spec (blocks s) s wf_lbas0 wf_range0 wf_dirty0) as (s' & E & Hb & Ha & Hwr & Hk).
  exists s'. split; [done|]. split.
  - intros k l d (i & m & Em & <- & Hc)%content_entry. apply map_entry_elem in Em as [Hm _]. destruct (dirty m) eqn:Ed.
    + destruct (wf_dirty0 m Hm Ed) as [d' Eb]. unfold cur in Hc. rewrite Eb in Hc. cbn in Hc. subst d'. by eapply Hwr.
    + rewrite Hk; [|specialize (wf_range0 m Hm); lia|].
      * unfold cur in Hc. destruct (buf m) as [d'|] eqn:Eb; cbn in Hc; [|done]. subst d'. symmetry. by eapply wf_clean0.
      * intros m1 Hm1 Hd1 Heq. apply list_elem_of_lookup in Hm as [j Hj]. apply list_elem_of_lookup in Hm1 as [j1 Hj1].
        assert (j = j1) as ->; [|congruence]. eapply (NoDup_lookup _ _ _ (edf.lba m) wf_lbas0); rewrite list_lookup_fmap; [by rewrite Hj|by rewrite Hj1; cbn; rewrite Heq].
  - intros a Hra Hna. apply Hk; [done|]. intros m Hm _ <-. apply Hna. apply list_elem_of_fmap. by exists m.
Qed.

(** ** Mounting *)

(** a formatted volume: the label in block 3, a directory of one block with [n] files, a map of one block, and the
    blocks of both and the first three taken *)
Record formatted (v : volume) (a : list Z) (fsts : list (list Z)) (bm : list Z) (n : nat) : Prop := Formatted {
  fm_blocks : forall k, length (v k) = 4096%nat;
  fm_label : v (search_data 3) = a /\ ADT_IDENT a = __ADTIDENT /\ ADT_DBSIZ a = 4096 /\ ADT_OFFST a = 0 /\ ADT_FSTSZ a = 64 /\ ADT_NFST a = 64;
  fm_dir : v (search_data (ADT_DOP a)) = concat fsts /\ length fsts = 64%nat /\ Forall fst_ok fsts /\ 4 <= ADT_DOP a <= 32768 /\ used bm (ADT_DOP a);
  fm_dirfst : exists t, fsts !! 0%nat = Some t /\ fst_name t = (DIRECTOR_FN, DIRECTOR_FT) /\ FST_ADBC t = 1 /\
    FST_RECFM t = FSTDFIX /\ FST_LRECL t = 64 /\ FST_AIC t = Z.of_nat n /\ FST_NLVL t = 0 /\ FST_FOP t = ADT_DOP a /\ FST_PTRSZ t = 4;
  fm_mapfst : exists t, fsts !! 1%nat = Some t /\ fst_name t = (ALLOCMAP_FN, ALLOCMAP_FT) /\ FST_ADBC t = 1 /\
    FST_RECFM t = FSTDFIX /\ FST_NLVL t = 0 /\ FST_PTRSZ t = 4 /\ 4 <= FST_FOP t <= 32768 /\ FST_FOP t <> ADT_DOP a /\
    v (search_data (FST_FOP t)) = bm /\ used bm (FST_FOP t);
  fm_bytes : Forall is_byte bm;
  fm_boot : used bm 1 /\ used bm 2 /\ used bm 3;
  fm_count : (2 <= n <= 64)%nat;
}.

Lemma block_map_add_same f t lv b l d s : content s (f, t, lv, b) = Some (l, d) -> block_map_add f t lv b l s = Ret (tt, s).
Proof.
  intros (i & m & E & <- & _)%content_entry. unfold block_map_add. rewrite (st_step _ _ _ _ _ (find_key _ _ _ _ _)), E. by rewrite Z.eqb_refl.
Qed.

Lemma read_file_spec p s t : wf s -> get_fst p s = Ret (t, s) -> FST_PTRSZ t = 4 -> FST_NLVL t = 0 ->
  __read_file io_ok p s = block_map_add (FST_FNAME t) (FST_FTYPE t) 0 0 (FST_FOP t) s.
Proof.
  intros Hw Hp HZ HN. unfold __read_file. rewrite (st_step _ _ _ _ _ Hp), (st_step _ _ _ _ _ (DBSIZ_spec _ Hw)), HZ, HN. done.
Qed.

Lemma read_blk_spec l s : io_ok l = true -> 1 <= l -> read_blk io_ok l s = Ret (vol s (search_data l), s).
Proof. intros H Hl. unfold read_blk. destruct (Z.ltb_spec l 1); [lia|]. by rewrite H. Qed.

Lemma mount_spec v a fsts bm n : io_ok 3 = true -> formatted v a fsts bm n ->
  exists s, mount_fs io_ok (State [] [] v) = Ret (tt, s) /\ inv s fsts bm n /\ vol s = v /\ adt s = a /\
    forall l, l ∈ map edf.lba (blocks s) -> l = ADT_DOP a \/ exists t, fsts !! 1%nat = Some t /\ l = FST_FOP t.
Proof.
  intros H3 [Hbl (L1 & L2 & L3 & L4 & L5 & L6) (D1 & D2 & D3 & D4 & D5) (t0 & T0 & N0 & A0 & R0 & RL0 & C0 & NL0 & F0 & Z0)
    (t1 & T1 & N1 & A1 & R1 & NL1 & Z1 & F1 & NF1 & M1 & U1) Hby Hboot Hn].
  unfold mount_fs. rewrite (st_step (read_blk io_ok EDF_LABEL_BLOCK_NO) _ _ a (State [] [] v)) by (rewrite read_blk_spec by done; change EDF_LABEL_BLOCK_NO with 3; cbn [vol]; by rewrite L1).
  rewrite L2, L3, L4, L5. 
  change (negb (__ADTIDENT =? __ADTIDENT) || negb (4096 =? EDF_SUPPORTED_BLOCK_SIZE) || negb (0 =? 0) || negb (64 =? Z.of_nat sizeof_FST)) with false. cbv iota.
  set (s0 := State a [] v). rewrite (st_step (fun s => Ret (tt, State a (blocks s) (vol s))) _ _ tt s0) by done.
  assert (wf s0) as Hw0 by (split; try done; try (intros ? ?%elem_of_nil; done); try (intros ? ? ?%elem_of_nil; done); constructor).
  set (s1 := add_entry dirkey (ADT_DOP a) s0). rewrite (st_step _ _ _ tt s1) by done.
  assert (wf s1) as Hw1 by (apply wf_add; try done; by intros ?%elem_of_nil).
  assert (content s1 dirkey = Some (ADT_DOP a, concat fsts)) as Hc1 by (unfold s1; rewrite content_add, decide_True by done; cbn; by rewrite D1).
  rewrite (st_step _ _ _ _ _ (read_file_blk_spec _ _ _ _ _ _ _ Hw1 Hc1)). fold dirkey.
  rewrite (fst_at_concat _ 0 _ D3 T0), (fst_at_concat _ 1 _ D3 T1).
  assert (FST_FNAME t0 = DIRECTOR_FN /\ FST_FTYPE t0 = DIRECTOR_FT) as [NA0 NB0] by (unfold fst_name in N0; by injection N0).
  assert (FST_FNAME t1 = ALLOCMAP_FN /\ FST_FTYPE t1 = ALLOCMAP_FT) as [NA1 NB1] by (unfold fst_name in N1; by injection N1).
  rewrite NA0, NB0, NA1, NB1, R0, R1, !bool_decide_true, Z.eqb_refl by done. cbn [negb orb].
  set (s2 := load dirkey (concat fsts) s1). assert (wf s2) as Hw2 by (by eapply wf_load).
  assert (content s2 dirkey = Some (ADT_DOP a, concat fsts)) as Hc2 by (unfold s2; by rewrite (content_load _ _ _ _ _ Hc1)).
  assert (has_buf s2 dirkey (concat fsts)) as Hb2.
  { eexists 0%nat, _. split; [unfold entry_at, s2, load, at_key; cbn; by rewrite !decide_True by done|done]. }
  assert (__read_file io_ok directory s2 = Ret (tt, s2)) as E1.
  { rewrite (read_file_spec directory s2 t0 Hw2) by (done || (rewrite <- (fst_at_concat _ 0 _ D3 T0); by apply get_fst_dir)).
    rewrite NA0, NB0, F0. by eapply block_map_add_same. }
  rewrite (st_step _ _ _ _ _ E1). rewrite (read_file_spec allocmap s2 t1 Hw2) by (done || (rewrite <- (fst_at_concat _ 1 _ D3 T1); by apply get_fst_dir)).
  rewrite NA1, NB1. assert (content s2 mapkey = None) as Hcm.
  { unfold s2. rewrite (content_load _ _ _ _ _ Hc1). by unfold s1; rewrite content_add, decide_False by done. }
  rewrite (block_map_add_new _ _ _ _ _ _ Hcm). fold mapkey. set (s3 := add_entry mapkey (FST_FOP t1) s2). exists s3.
  assert (map edf.lba (blocks s2) = [ADT_DOP a]) as Hlbas by (unfold s2, load; by rewrite (at_key_map edf.lba)).
  split; [done|]. split; [|split; [done|split; [done|]]].
  - split; try done.
    + apply wf_add; [done|done|rewrite Hlbas; by intros ?%list_elem_of_singleton|done].
    + by apply has_buf_add.
    + exists (FST_FOP t1). unfold s3. rewrite content_add, decide_True by done. cbn. by rewrite M1.
    + intros m [->|Hm]%elem_of_cons; [done|]. assert (edf.lba m = ADT_DOP a) as ->; [|done].
      assert (edf.lba m ∈ map edf.lba (blocks s2)) as Hx by (apply list_elem_of_fmap; by exists m).
      rewrite Hlbas in Hx. by apply list_elem_of_singleton in Hx.
    + exists t0. split_and!; done.
    + exists t0. split; [done|]. split; [done|]. unfold s3. rewrite content_add, decide_False by done. rewrite Hc2. split; [cbn; by rewrite F0|done].
    + exists t1. split_and!; done.
    + intros m [->|Hm]%elem_of_cons; [exists 1%nat, t1; split; [done|]; split; [lia|done]|].
      assert (key_of m ∈ map key_of (blocks s2)) as Hx by (apply list_elem_of_fmap; by exists m).
      unfold s2, load in Hx. rewrite (at_key_map key_of) in Hx by done. apply list_elem_of_singleton in Hx.
      rewrite Hx. exists 0%nat, t0. split; [done|]. split; [lia|done].
  - intros l [->|Hl]%elem_of_cons; [right; by exists t1|]. assert (l ∈ map edf.lba (blocks s2)) as Hx by exact Hl.
    rewrite Hlbas in Hx. apply list_elem_of_singleton in Hx. by left.
Qed.
End map.

(** * Read by the nucleus *)

(** the volume as a device of cp/fs/edf.c *)
Definition device_of (v : volume) (l : Z) : Z + list Z := inr (v (search_data l)).

(** a file of a volume: its FST is the first of its name in the directory block at [dop], and its data blocks, read as
    bcache.c finds them, hold the bytes [dat] *)
Definition file_on (v : volume) (a : list Z) (dop : Z) (F T : list Z) (t dat : list Z) : Prop :=
  List.find (named F T) (dir_entries a [v (search_data dop)]) = Some t /\
  FST_RECFM t = FSTDFIX /\ FST_PTRSZ t = 4 /\ FST_AIC t * FST_LRECL t = lenZ dat /\
  exists bks, FST_ADBC t = lenZ bks /\ take (length dat) (concat bks) = dat /\
    forall b d, bks !! b = Some d -> ref_read (device_of v) a t (levels_above t 0) (Z.of_nat b) = inr d.

Lemma find_list {A} (p : A -> bool) l i x : list_find (fun x => p x) l = Some (i, x) -> List.find p l = Some x.
Proof.
  revert i. induction l as [|y l IH]; intros i; [done|]. cbn [list_find List.find]. destruct (p y) eqn:E.
  - rewrite decide_True by done. by intros [= _ <-].
  - rewrite decide_False by (by intros []). destruct (list_find _ l) as [[j z]|] eqn:El; [|done]. intros [= _ <-]. by eapply IH.
Qed.

Lemma file_at_read s fsts bm n i t dat lbs bks v a : inv s fsts bm n -> file_at s fsts n i t dat lbs bks ->
  (forall k l d, content s k = Some (l, d) -> v (search_data l) = d) -> ADT_DBSIZ a = 4096 -> ADT_NFST a = 64 ->
  exists t0, fsts !! 0%nat = Some t0 /\ file_on v a (FST_FOP t0) (FST_FNAME t) (FST_FTYPE t) t dat.
Proof.
  intros I [] Hv Ha Hn. destruct (inv_dirlba _ _ _ _ I) as (t0 & H0 & NL & Hdir & _). exists t0. split; [done|].
  destruct (has_buf_content _ _ _ (inv_dir _ _ _ _ I)) as [l Hl]. rewrite Hl in Hdir. injection Hdir as ->. destruct fa_blocks0.
  split; [|split; [done|split; [done|split; [done|]]]].
  - unfold dir_entries. rewrite (Hv _ _ _ Hl), Hn. cbn [map concat]. rewrite app_nil_r. change (Z.to_nat 64) with 64%nat.
    assert (map (fst_at (concat fsts)) (seq 0 64) = fsts) as ->.
    { apply list_eq. intros j. rewrite list_lookup_fmap. destruct (decide (j < 64)%nat).
      - rewrite lookup_seq_lt by done. cbn. destruct (lookup_lt_is_Some_2 fsts j) as [y Hy]; [rewrite (inv_len _ _ _ _ I); lia|].
        rewrite Hy. f_equal. by apply fst_at_concat; [apply I|].
      - rewrite lookup_seq_ge by lia. cbn. symmetry. apply lookup_ge_None_2. rewrite (inv_len _ _ _ _ I). lia. }
    pose proof (placed_place fsts i t (proj1 fa_place0)) as Hp. unfold place in Hp.
    destruct (list_find _ fsts) as [[j y]|] eqn:E; [|done]. cbn in Hp. injection Hp as ->. rewrite (find_list _ _ _ _ E).
    apply list_find_Some in E as (Hy & _ & _). congruence.
  - exists bks. split; [done|]. split; [done|]. intros b d Hd. pose proof (lookup_lt_Some _ _ _ Hd) as Hb.
    destruct (lookup_lt_is_Some_2 lbs b ltac:(lia)) as [l1 Hl1]. pose proof (fb_data0 b l1 d Hl1 Hd) as Hc. unfold ref_read, levels_above.
    destruct (Z.le_gt_cases (lenZ bks) 1) as [Hle|Hgt].
    + destruct (fb_one0 Hle) as [-> HF]. change (Z.to_nat (0 - 0)) with 0%nat. cbn [ref_lba]. assert (b = 0%nat) as -> by (unfold lenZ in Hle; lia).
      unfold device_of. rewrite (HF l1 Hl1). by rewrite (Hv _ _ _ Hc).
    + destruct (fb_more0 ltac:(lia)) as (-> & P & HP & Hptr). change (Z.to_nat (1 - 0)) with 1%nat. cbn [ref_lba]. unfold device_of.
      rewrite (Hv _ _ _ HP), Ha. change (4096 / 4) with 1024. rewrite Z.mod_small by (unfold lenZ in *; lia). rewrite (Hptr b l1 Hl1).
      by rewrite (Hv _ _ _ Hc).
Qed.

(** * Installing *)

Section installation.
Import edf.
Context (io_ok : Z -> bool) (Hio : forall l, 1 <= l <= 32768 -> io_ok l = true).

#[local] Instance the_disk : Disk state (list Z) := edf_disk io_ok.

Lemma Hio4 l : 4 <= l <= 32768 -> io_ok l = true.
Proof. intros Hl. apply Hio. lia. Qed.

(** the files made so far, each with its name and its bytes *)
Definition holds (s : state) (fsts : list (list Z)) (n : nat) (fs : list ((list Z * list Z) * list Z)) : Prop :=
  Forall (fun x => exists i t lbs bks, file_at s fsts n i t x.2 lbs bks /\ fst_name t = x.1) fs.

(** a new file leaves the others *)
Lemma holds_create s s' fsts fsts' bm n fs x F T : inv s fsts bm n -> inv s' fsts' bm (S n) -> (forall k, k <> dirkey -> content s' k = content s k) ->
  (forall i y, (0 < i < n)%nat -> fsts !! i = Some y -> fsts' !! i = Some y) -> fst_name x = (F, T) ->
  holds s fsts n fs -> holds s' fsts' (S n) fs.
Proof.
  intros I I' Hst Hother _ Hfs. eapply Forall_impl; [exact Hfs|]. intros [nm dat]. cbn [fst snd]. intros (i & t & lbs & bks & [] & Hnm).
  exists i, t, lbs, bks. split; [|done]. pose proof (placed_names _ _ _ _ _ _ I fa_place0) as (ND & _). destruct fa_place0 as [(y & Hy & Ny & By) Hin].
  assert (forall lv b, fkey t lv b <> dirkey) as Hk.
  { intros lv b Hx. apply ND. unfold fkey in Hx. unfold fst_name. by injection Hx as -> -> _ _. }
  split; try done.
  - apply Hother; [lia|done].
  - split; [|lia]. exists y. split; [apply Hother; [lia|done]|]. split; [done|]. intros j z Hj Hz. destruct j as [|j].
    + destruct (inv_dirfst _ _ _ _ I') as (d1 & Hd1 & Hdn1 & _). assert (z = d1) as -> by congruence. rewrite Hdn1. by apply not_eq_sym.
    + destruct (lookup_lt_is_Some_2 fsts (S j) ltac:(rewrite (inv_len _ _ _ _ I); pose proof (inv_count _ _ _ _ I); lia)) as [z' Hz'].
      rewrite (Hother (S j) z' ltac:(lia) Hz') in Hz. injection Hz as <-. by eapply By.
  - eapply file_blocks_frame; [done|exact Hst|exact Hk|done..].
Qed.

Lemma holds_append s s' fsts bm n i t t' fs : inv s fsts bm n -> placed_in fsts n i t' -> (forall x, x ∈ fs -> x.1 <> fst_name t') ->
  (forall k, ~ own_or_dir (fst_name t') k -> content s' k = content s k) -> fst_name t = fst_name t' -> holds s fsts n fs -> holds s' (<[i := t']> fsts) n fs.
Proof.
  intros I Hp Hne Hst _ Hfs. unfold holds in *. rewrite Forall_forall in Hfs |- *. intros x Hx. destruct (Hfs x Hx) as (j & y & lbs & bks & Hf & Hn).
  exists j, y, lbs, bks. split; [|done]. eapply file_at_frame; [exact Hf| |exact Hp|done|exact Hst|].
  - intros ->. apply (Hne x Hx). rewrite <- Hn. destruct Hf as [Hi [(z & Hz & Nz & _) _] _ _ _ _ _ _ _ _].
    destruct Hp as [(z' & Hz' & Nz' & _) _]. congruence.
  - intros lv b. split; [by eapply fkey_dir; [|apply Hf]|by eapply fkey_map; [|apply Hf]].
Qed.

(** a block written beside the files *)
Definition boot_write (b : option (list Z * Z)) (s : state) : outcome state :=
  match b with Some (d, l) => Archive.write_blk d l s | None => Ret s end.

Lemma boot_write_spec b s fsts bm n : inv s fsts bm n -> (forall d l, b = Some (d, l) -> length d = 4096%nat /\ 1 <= l <= 2) ->
  exists s', boot_write b s = Ret s' /\ inv s' fsts bm n /\ (forall k, content s' k = content s k) /\ adt s' = adt s /\ (b = None -> s' = s).
Proof.
  intros I Hb. destruct b as [[d l]|]; [|by exists s]. destruct (Hb d l eq_refl) as [Hd Hl]. clear Hb. pose proof I as [].
  set (s' := State (adt s) (blocks s) (fun k => if bool_decide (k = search_data l) then d else vol s k)). exists s'.
  assert (forall m, m ∈ blocks s -> vol s' (search_data (edf.lba m)) = vol s (search_data (edf.lba m))) as Hv.
  { intros m Hm. cbn. pose proof (wf_range _ inv_wf0 m Hm). rewrite bool_decide_false; [done|]. intros E%search_data_inj; lia. }
  assert (forall k, content s' k = content s k) as Hc.
  { intros k. unfold content. change (entry_at s' k) with (entry_at s k). destruct (entry_at s k) as [[i m]|] eqn:E; [|done]. cbn [fmap option_fmap option_map fst snd].
    unfold cur. rewrite (Hv m); [done|]. by apply (map_entry_elem _ _ _ _ E). }
  split; [|split; [|done]].
  - cbn. unfold write_blk. destruct (Z.ltb_spec l 1); [lia|]. by rewrite Hio by lia.
  - split; try done; [|by rewrite Hc..]. destruct inv_wf0. split; try done.
    + intros k. cbn. by case_bool_decide.
    + intros m d0 Hm Hdm Hbm. rewrite Hv by done. by apply wf_clean0.
Qed.

(** a file is made and filled *)
Lemma make_file s fsts bm n fs f t F T lrecl recs b : inv s fsts bm n -> holds s fsts n fs -> (n < 64)%nat -> length f = 8%nat -> length t = 8%nat ->
  ascii2ebcdic (take 8 f) 8 = Ret F -> ascii2ebcdic (take 8 t) 8 = Ret T -> place fsts F T = None -> 1 <= lrecl <= 4096 ->
  Forall (fun r => lenZ r = lrecl) recs -> lenZ (concat recs) <= 1023 * 4096 ->
  (cost (blocks_for (lenZ (concat recs))) <= free bm)%nat -> (forall d l, b = Some (d, l) -> length d = 4096%nat /\ 1 <= l <= 2) ->
  exists x s' fsts' bm', ('(h, s) ← Archive.create_file f t lrecl s; s ← boot_write b s; cpio.append_records h recs s) = Ret (x, s') /\
    inv s' fsts' bm' (S n) /\ holds s' fsts' (S n) (((F, T), concat recs) :: fs) /\ FST_AIC x = lenZ recs /\ FST_LRECL x = lrecl /\
    (exists lbs bks, file_at s' fsts' (S n) n x (concat recs) lbs bks) /\ fst_name x = (F, T) /\
    (b = None -> step (own_or_dir (F, T)) s s') /\ (forall i y, (0 < i < n)%nat -> fsts !! i = Some y -> fsts' !! i = Some y) /\
    more_names fsts fsts' (F, T) /\ adt s' = adt s /\ (free bm = free bm' + cost (blocks_for (lenZ (concat recs))))%nat.
Proof.
  intros I Hfs Hn Hf Ht HF HT HP Hl Hr Hmax Hcost Hb.
  destruct (create_file_spec io_ok Hio4 s fsts bm n f t F T lrecl I Hn Hf Ht HF HT HP Hl) as (x & s1 & fsts1 & E1 & I1 & F1 & N1 & L1 & A1 & St1 & O1 & M1).
  destruct (boot_write_spec b s1 fsts1 bm (S n) I1 Hb) as (sb & Eb & Ib & Cb & Bb & Nb).
  assert (file_at sb fsts1 (S n) n x [] [] []) as Fb.
  { destruct F1. split; try done. eapply (file_blocks_frame s1 sb x x _ _ (fun _ => False)); try done. by intros ? ? []. }
  destruct (append_records_spec io_ok Hio4 recs sb fsts1 bm (S n) n x [] [] [] Ib Fb) as (x2 & s2 & bm2 & lbs2 & bks2 & E2 & I2 & F2 & S2 & A2 & St2 & C2).
  { by rewrite L1. } { done. } { change (lenZ []) with 0. rewrite Z.add_0_l. lia. }
  pose proof S2 as (_ & N2 & _ & L2 & _). cbn [app] in F2. exists x2, s2, (<[n := x2]> fsts1), bm2.
  assert (lenZ bks2 = blocks_for (lenZ (concat recs))) as HB by apply F2.
  split_and!.
  - change (Archive.create_file f t lrecl s) with (edf.create_file io_ok f t lrecl s). rewrite E1. cbn [mbind outcome_bind]. rewrite Eb. cbn [mbind outcome_bind]. exact E2.
  - done.
  - constructor; [exists n, x2, lbs2, bks2; split; [exact F2|cbn; congruence]|].
    eapply (holds_append sb s2 fsts1 bm (S n) n x x2); [done| | | |done|].
    3: { intros k Hk. apply (step_content _ _ _ St2). by rewrite <- N2. }
    3: { eapply (holds_create s sb fsts fsts1 bm n fs x F T); [done|done| |done|done|done].
         intros k Hk. rewrite Cb. by apply (step_content _ _ _ St1). }
    + destruct (fa_place _ _ _ _ _ _ _ _ F1) as [(y & Hy & Ny & By) Hin]. split; [exists y; rewrite N2; done|done].
    + intros y Hy Hyn. rewrite N2, N1 in Hyn. unfold holds in Hfs. rewrite Forall_forall in Hfs. destruct (Hfs y Hy) as (i & z & lbs & bks & Fz & Nz).
      apply (place_none _ _ _ i z HP (fa_fst _ _ _ _ _ _ _ _ Fz)). congruence.
  - rewrite A2, A1. lia.
  - congruence.
  - by exists lbs2, bks2.
  - congruence.
  - intros ->. rewrite (Nb eq_refl) in St2. eapply step_trans; [eapply step_weaken; [|exact St1]; intros k ->; by right|by rewrite <- N1].
  - intros i y Hi Hy. rewrite list_lookup_insert_ne by lia. by apply O1.
  - intros i y Hy. destruct (decide (i = n)) as [->|].
    + left. rewrite list_lookup_insert_eq in Hy by (eapply lookup_lt_Some; apply F1). injection Hy as <-. congruence.
    + rewrite list_lookup_insert_ne in Hy by done. by apply M1.
  - rewrite (step_adt _ _ _ St2), Bb. by apply (step_adt _ _ _ St1).
  - rewrite <- HB. change (cost (lenZ [])) with 0%nat in C2. lia.
Qed.



(** ** The files of an archive *)














(** [load_nucleus] from the mount to the write back *)
Definition install_volume (fuel : nat) (junk : Z -> Z) (cards : list (option (list Z))) (v : volume) : outcome state :=
  '(_, s) ← mount_fs io_ok (State [] [] v);
  r ← cpio.unload_archive fuel junk cards s;
  '(_, s) ← writeback_buffers io_ok (cpio.disk r);
  Ret s.
End installation.

(** The installer makes a file: on a formatted volume without a file of the name, with room in the directory and enough
    free blocks, mounting, creating the file, appending its records one by one and writing the buffers back always
    succeeds; then the nucleus finds the file in the directory under its name, with the record length and count asked
    for, and its blocks, read as the nucleus reads them, hold the records one after the other; the files that were
    there keep their directory entries, and no block in use before, except the directory's and the map's, is changed. *)
Theorem file_installed io_ok v a fsts bm n f t F T lrecl recs
    (Hio : forall l, 1 <= l <= 32768 -> io_ok l = true) (Hv : formatted v a fsts bm n) (Hroom : (n < 64)%nat)
    (Hname : length f = 8%nat /\ length t = 8%nat /\ ascii2ebcdic (take 8 f) 8 = Ret F /\ ascii2ebcdic (take 8 t) 8 = Ret T)
    (Hnew : place fsts F T = None) (Hlrecl : 1 <= lrecl <= 4096) (Hrecs : Forall (fun r => lenZ r = lrecl) recs)
    (Hsize : lenZ (concat recs) <= 1023 * 4096) (Hfree : (cost (blocks_for (lenZ (concat recs))) <= free bm)%nat) :
  exists x s, (let H := edf.edf_disk io_ok in
    '(_, s) ← edf.mount_fs io_ok (edf.State [] [] v);
    '(h, s) ← create_file f t lrecl s;
    '(h, s) ← cpio.append_records h recs s;
    '(_, s) ← edf.writeback_buffers io_ok s;
    Ret (h, s)) = Ret (x, s) /\
  file_on (edf.vol s) a (ADT_DOP a) F T x (concat recs) /\ FST_LRECL x = lrecl /\ FST_AIC x = lenZ recs /\
  (forall i y, (0 < i < n)%nat -> fsts !! i = Some y -> fst_at (edf.vol s (search_data (ADT_DOP a))) i = y) /\
  (forall l, 1 <= l <= 32768 -> used bm l -> l <> ADT_DOP a -> (forall y, fsts !! 1%nat = Some y -> l <> FST_FOP y) ->
    edf.vol s (search_data l) = v (search_data l)).
Proof.
  destruct Hname as (Lf & Lt & HF & HT).
  destruct (mount_spec io_ok (Hio4 io_ok Hio) v a fsts bm n (Hio 3 ltac:(lia)) Hv) as (s0 & E0 & I0 & V0 & Ea & B0).
  destruct (make_file io_ok Hio s0 fsts bm n [] f t F T lrecl recs None I0 (Forall_nil_2 _) Hroom Lf Lt HF HT Hnew Hlrecl Hrecs Hsize Hfree)
    as (x & s1 & fsts1 & bm1 & E1 & I1 & _ & A1 & L1 & (lbs & bks & F1) & N1 & St1 & O1 & _ & _); [done|].
  specialize (St1 eq_refl). destruct (writeback_spec io_ok (Hio4 io_ok Hio) s1 (inv_wf _ _ _ _ I1)) as (s2 & E2 & Hc & Hk).
  destruct (fm_label _ _ _ _ _ Hv) as (_ & _ & Hsz & _ & _ & Hnf).
  destruct (file_at_read s1 fsts1 bm1 (S n) n x (concat recs) lbs bks (edf.vol s2) a I1 F1 Hc Hsz Hnf) as (t0 & H0 & Hon).
  assert (FST_FOP t0 = ADT_DOP a) as Edop.
  { destruct (inv_dirlba _ _ _ _ I1) as (t0' & H0' & _ & _ & Hd). rewrite <- Ea, <- (step_adt _ _ _ St1). congruence. }
  rewrite Edop in Hon. unfold fst_name in N1. injection N1 as NF NT. rewrite NF, NT in Hon.
  exists x, s2. split; [|split; [done|split; [done|split; [done|split]]]].
  - unfold the_disk in E1. rewrite E0. cbn [mbind outcome_bind boot_write] in E1 |- *. destruct (create_file f t lrecl s0) as [[h s3]| |]; [|done..]. cbn [mbind outcome_bind] in E1 |- *.
    cbv beta iota zeta in E1 |- *. rewrite E1. cbn [mbind outcome_bind]. by rewrite E2.
  - intros i y Hi Hy. rewrite <- Edop. destruct (inv_dirlba _ _ _ _ I1) as (t1 & H1 & _ & Hdir & _). assert (t1 = t0) as -> by congruence.
    destruct (has_buf_content _ _ _ (inv_dir _ _ _ _ I1)) as [dl Hdl]. rewrite Hdl in Hdir. injection Hdir as ->. rewrite (Hc _ _ _ Hdl).
    apply fst_at_concat; [apply I1|by apply O1].
  - intros l Hl Hu Hd Hm. rewrite Hk; [by rewrite (step_vol _ _ _ St1), V0|done|]. intros Hin.
    destruct (inv_map _ _ _ _ I0) as [ml Hml]. destruct (step_lbas _ _ _ St1 ml bm Hml l Hin) as [Hin0|]; [|done].
    destruct (B0 l Hin0) as [|(y & Hy & Hly)]; [done|]. by apply (Hm y Hy).
Qed.


(** * An empty volume *)

Definition empty_fsts : list (list Z) :=
  sample_FST DIRECTOR_FN DIRECTOR_FT 64 5 1 2 0 :: sample_FST ALLOCMAP_FN ALLOCMAP_FT 4096 4 1 1 0 :: replicate 62 (replicate 64 0).
Definition empty_map : list Z := pad_block [0xf8].

(** the label, the map and the directory; everything else is left over from before *)
Definition empty_volume : volume := fun k =>
  if bool_decide (k = search_data 3) then pad_block sample_ADT
  else if bool_decide (k = search_data 4) then empty_map
  else if bool_decide (k = search_data 5) then concat empty_fsts
  else replicate 4096 0xee.

Lemma empty_formatted : formatted empty_volume (pad_block sample_ADT) empty_fsts empty_map 2.
Proof.
  assert (forall l, In l [1; 2; 3; 4; 5] -> used empty_map l) as Hused.
  { intros l Hl. exists 0xf8. repeat (destruct Hl as [<-|Hl]; [by split|]). destruct Hl. }
  split.
  - intros k. unfold empty_volume. repeat case_bool_decide; by vm_compute.
  - split_and!; by vm_compute.
  - split_and!; [by vm_compute|done| |by vm_compute..|apply Hused; cbn; tauto].
    unfold empty_fsts. apply Forall_cons_2; [done|]. apply Forall_cons_2; [done|]. apply Forall_replicate. done.
  - eexists. split; [reflexivity|]. split_and!; by vm_compute.
  - eexists. split; [reflexivity|]. split_and!; try by vm_compute. apply Hused. cbn. tauto.
  - apply Forall_forall. intros c Hc. unfold empty_map, pad_block in Hc. apply elem_of_app in Hc as [->%list_elem_of_singleton|[-> _]%elem_of_replicate]; done.
  - split_and!; apply Hused; cbn; tauto.
  - lia.
Qed.

Theorem file_installed_witness :
  exists x s, (let H := edf.edf_disk (fun _ => true) in
    '(_, s) ← edf.mount_fs (fun _ => true) (edf.State [] [] empty_volume);
    '(h, s) ← create_file (zs "HVF     ") (zs "LOGO    ") 80 s;
    '(h, s) ← cpio.append_records h [replicate 80 1; replicate 80 2] s;
    '(_, s) ← edf.writeback_buffers (fun _ => true) s;
    Ret (h, s)) = Ret (x, s) /\
  file_on (edf.vol s) (pad_block sample_ADT) 5 [200; 229; 198; 64; 64; 64; 64; 64] [211; 214; 199; 214; 64; 64; 64; 64] x
    (replicate 80 1 ++ replicate 80 2) /\ FST_LRECL x = 80 /\ FST_AIC x = 2 /\
  (forall i y, (0 < i < 2)%nat -> empty_fsts !! i = Some y -> fst_at (edf.vol s (search_data 5)) i = y) /\
  (forall l, 1 <= l <= 32768 -> used empty_map l -> l <> 5 -> (forall y, empty_fsts !! 1%nat = Some y -> l <> FST_FOP y) ->
    edf.vol s (search_data l) = empty_volume (search_data l)).
Proof.
  apply (file_installed (fun _ => true) empty_volume (pad_block sample_ADT) empty_fsts empty_map 2 (zs "HVF     ") (zs "LOGO    ")
    [200; 229; 198; 64; 64; 64; 64; 64] [211; 214; 199; 214; 64; 64; 64; 64] 80 [replicate 80 1; replicate 80 2]).
  - done.
  - exact empty_formatted.
  - lia.
  - split_and!; by vm_compute.
  - by vm_compute.
  - lia.
  - by repeat constructor.
  - by vm_compute.
  - apply Nat.leb_le. by vm_compute.
Defined.


(** the record of the configuration file, and what the directory says of it *)
Example installed_sample :
  match mkarchive.main sample_files (concat (map item_args sample_items)) with
  | Ret (out, _) =>
      s ← install_volume (fun _ => true) 3 (fun _ => 0) (map Some (cat (length out) out)) empty_volume;
      let t := fst_at (edf.vol s (search_data 5)) 2 in
      Ret (FST_FOP t, FST_AIC t, take 4 (edf.vol s (search_data (FST_FOP t))), take 4 (drop 80 (edf.vol s (search_data (FST_FOP t)))))
  | _ => Undef
  end = Ret (6, 2, [214; 215; 197; 217], [217; 196; 197; 229]).
Proof. by vm_compute. Qed.
