(* ===== verification/Loader.v ===== *)
(** loader/loader_c.c: the nucleus loader, the first C code that runs.

    The loader works on absolute storage: a function from addresses to bytes.  It
    reads the file HVF ELF from the volume it was IPLed from to 4 MB, copies the
    segments to where they are linked, packs the ELF header with the symbol and
    string tables from 8 KB on, measures storage and calls the nucleus.  What a
    channel program reads, and TEST PROTECTION, are parameters; [die] stops the
    CPU.  The theorems: the file read is the one the installer put there
    (InstallerSpec.v); the segments end up where they belong; and what is packed
    is what a function on lists makes of the file. *)

From S2P Require Import Prelude Edf Installer InstallerSpec Dat Layout Ipl.

Local Open Scope Z_scope.

#[local] Abbreviation field := Edf.field.

Definition TEMP_BASE : Z := 0x400000.
Definition SYMTAB_BASE : Z := 8192.
Definition buf : Z := 16 * 1024.
Definition ptrbuf : Z := 20 * 1024.

(** HVF ELF in EBCDIC *)
Definition CP_FN : list Z := [0xC8; 0xE5; 0xC6; 0x40; 0x40; 0x40; 0x40; 0x40].
Definition CP_FT : list Z := [0xC5; 0xD3; 0xC6; 0x40; 0x40; 0x40; 0x40; 0x40].

Definition SHT_NULL : Z := 0.
Definition SHT_SYMTAB : Z := 2.
Definition SHT_STRTAB : Z := 3.

(** turns enough for a 16-bit count *)
Definition counts : nat := Z.to_nat 65536.

Definition store : Type := Z -> Z.

(** the [n]-byte member at [a] *)
Definition ld (m : store) (a n : Z) : Z := be_val (read_bytes m a n).
Definition st (m : store) (a : Z) (n : nat) (v : Z) : store := write_bytes m a (be_bytes n v).

(** the ranges must not overlap *)
Definition memcpy (m : store) (d s n : Z) : outcome store :=
  if (d + n <=? s) || (s + n <=? d) then Ret (write_bytes m d (read_bytes m s n)) else Undef.
Definition memset (m : store) (d n : Z) : store := write_bytes m d (zeros (Z.to_nat n)).

(** * How much storage there is *)

(** up to [p] turns of a loop that ends with a result *)
Fixpoint turns {S R} (f : S -> S + R) (p : positive) (s : S) : S + R :=
  match p with
  | xH => f s
  | xO p => match turns f p s with inl s => turns f p s | inr r => inr r end
  | xI p => match f s with
            | inl s => match turns f p s with inl s => turns f p s | inr r => inr r end
            | inr r => inr r
            end
  end.

Definition SKIP_SIZE : Z := 1024 * 1024.

Section loader.
Context (dev : list Z -> option (list Z)).   (* by search argument; none after a unit check *)
Context (tprot : Z -> Z).                    (* the condition code; 3 outside the configuration *)
Context (PGMHANDLER : Z).

Definition sense_turn (size : Z) : Z + Z :=
  if size <? u64 (Z.lnot SKIP_SIZE) - 1 then
    if tprot size =? 3 then inr size else inl (u64 (size + SKIP_SIZE))
  else inr size.

(** 2^44 turns reach the end of 64-bit addresses *)
Definition sense_memsize (m : store) : outcome (Z * store) :=
  let m := write_bytes m 0x1d0 (be_bytes 8 0x0000000180000000 ++ be_bytes 8 PGMHANDLER) in
  match turns sense_turn (2 ^ 44) 0 with
  | inl _ => Undef
  | inr size => Ret (size, memset m 0x1d0 16)
  end.

(** * Reading the file *)

Definition search_arg (lba : Z) : list Z :=
  let n := u32 (lba - 1) in
  let cc := u16 (n / RECORDS_PER_CYL) in
  let hh := u16 (n mod RECORDS_PER_CYL / RECORDS_PER_TRACK) in
  let r := u16 (n mod RECORDS_PER_CYL mod RECORDS_PER_TRACK) in
  [cc / 256; cc mod 256; hh / 256; hh mod 256; u8 (u16 (r + 1))].

(** [__do_io] tells whether there was a unit check; nobody asks *)
Definition read_blk (ptr lba : Z) (m : store) : outcome store :=
  if lba <? 1 then Stopped
  else Ret (match dev (search_arg lba) with Some d => write_bytes m ptr (take 4096 d) | None => m end).

(** [FST[i]] at [buf] *)
Definition fst_in (m : store) (i : Z) : list Z := read_bytes m (buf + 64 * i) 64.

Fixpoint find_nucleus (m : store) (i : Z) (n : nat) : option (list Z) :=
  match n with
  | O => None
  | S n => if named CP_FN CP_FT (fst_in m i) then Some (fst_in m i) else find_nucleus m (i + 1) n
  end.

Fixpoint read_blocks (i : Z) (n : nat) (m : store) : outcome store :=
  match n with
  | O => Ret m
  | S n => m ← read_blk (TEMP_BASE + s32 (4096 * i)) (ld m (ptrbuf + 4 * i) 4) m; read_blocks (i + 1) n m
  end.

Definition readnucleus (m : store) : outcome store :=
  m ← read_blk buf EDF_LABEL_BLOCK_NO m;
  let adt := read_bytes m buf 80 in
  if negb (ADT_IDENT adt =? __ADTIDENT) || negb (ADT_DBSIZ adt =? EDF_SUPPORTED_BLOCK_SIZE) ||
     negb (ADT_OFFST adt =? 0) || negb (ADT_FSTSZ adt =? 64) then Stopped else
  let nfst := ADT_NFST adt in
  m ← read_blk buf (ADT_DOP adt) m;
  if negb (FST_NLVL (fst_in m 0) =? 0) then Stopped else
  match find_nucleus m 0 (Z.to_nat nfst) with
  | None => Stopped
  | Some fst =>
      if negb (FST_PTRSZ fst =? 4) || negb (FST_LRECL fst =? 4096) || negb (FST_RECFM fst =? FSTDFIX) then Stopped else
      if 3 * 1024 * 1024 <? u32 (FST_AIC (fst_in m 0) * FST_LRECL (fst_in m 0)) then Stopped else
      m ← read_blk ptrbuf (FST_FOP fst) m;
      read_blocks 0 (Z.to_nat (FST_AIC fst)) m
  end.

(** * The segments *)

(** members of the header at [h] *)
Definition ehdr_entry (m : store) (h : Z) : Z := ld m (h + 24) 8.
Definition ehdr_phoff (m : store) (h : Z) : Z := ld m (h + 32) 8.
Definition ehdr_shoff (m : store) (h : Z) : Z := ld m (h + 40) 8.
Definition ehdr_ehsize (m : store) (h : Z) : Z := ld m (h + 52) 2.
Definition ehdr_phentsize (m : store) (h : Z) : Z := ld m (h + 54) 2.
Definition ehdr_phnum (m : store) (h : Z) : Z := ld m (h + 56) 2.
Definition ehdr_shentsize (m : store) (h : Z) : Z := ld m (h + 58) 2.
Definition ehdr_shnum (m : store) (h : Z) : Z := ld m (h + 60) 2.
Definition ehdr_shstrndx (m : store) (h : Z) : Z := ld m (h + 62) 2.

Definition valid_elf (m : store) : bool :=
  (ld m TEMP_BASE 1 =? 0x7f) && (ld m (TEMP_BASE + 1) 1 =? 69) && (ld m (TEMP_BASE + 2) 1 =? 76) && (ld m (TEMP_BASE + 3) 1 =? 70) &&
  (ld m (TEMP_BASE + EI_CLASS) 1 =? ELFCLASS64) && (ld m (TEMP_BASE + EI_DATA) 1 =? ELFDATA2MSB) &&
  (ld m (TEMP_BASE + EI_VERSION) 1 =? EV_CURRENT) && (ld m (TEMP_BASE + 16) 2 =? ET_EXEC) &&
  (ld m (TEMP_BASE + 18) 2 =? 0x16) && (ld m (TEMP_BASE + 20) 4 =? EV_CURRENT).

(** the [i]th program header, and the [i]th section header of the header at [h] *)
Definition phdr_addr (m : store) (i : Z) : Z := u64 (TEMP_BASE + ehdr_phoff m TEMP_BASE + s32 (ehdr_phentsize m TEMP_BASE * i)).
Definition shdr_addr (m : store) (h i : Z) : Z := u64 (h + ehdr_shoff m h + s32 (ehdr_shentsize m h * i)).

Definition load_segment (segment : Z) (m : store) : outcome store :=
  if negb (ld m segment 4 =? PT_LOAD) then Ret m else
  let p_offset := ld m (segment + 8) 8 in
  let p_vaddr := ld m (segment + 16) 8 in
  let p_filesz := ld m (segment + 32) 8 in
  let p_memsz := ld m (segment + 40) 8 in
  m' ← (if p_filesz =? 0 then Ret m else memcpy m p_vaddr (u64 (TEMP_BASE + p_offset)) p_filesz);
  Ret (if p_filesz =? p_memsz then m' else memset m' (u64 (p_vaddr + p_filesz)) (u64 (p_memsz - p_filesz))).

(** the number is asked for in every turn; [fuel] is its 16 bits *)
Fixpoint load_segments (fuel : nat) (i : Z) (m : store) : outcome store :=
  match fuel with
  | O => Undef
  | S fuel =>
      if i <? ehdr_phnum m TEMP_BASE then m ← load_segment (phdr_addr m i) m; load_segments fuel (i + 1) m
      else Ret m
  end.

(** * The symbol table *)

(** a header is kept for the null section, symbol tables and string tables *)
Fixpoint copy_headers (fuel : nat) (i symtab : Z) (m : store) : outcome (Z * store) :=
  match fuel with
  | O => Undef
  | S fuel =>
      if negb (i <? ehdr_shnum m TEMP_BASE) then Ret (symtab, m) else
      let section := shdr_addr m TEMP_BASE i in
      let type := ld m (section + 4) 4 in
      if (type =? SHT_STRTAB) || (type =? SHT_NULL) || (type =? SHT_SYMTAB) then
        let m := if (type =? SHT_STRTAB) && (i =? ehdr_shstrndx m TEMP_BASE)
                 then st m (SYMTAB_BASE + 62) 2 (ehdr_shnum m SYMTAB_BASE) else m in
        m ← memcpy m symtab section (ehdr_shentsize m TEMP_BASE);
        let m := st m (SYMTAB_BASE + 60) 2 (u16 (ehdr_shnum m SYMTAB_BASE + 1)) in
        copy_headers fuel (i + 1) (symtab + ehdr_shentsize m TEMP_BASE) m
      else copy_headers fuel (i + 1) symtab m
  end.

(** the first of the kept headers [j], ... that is the header at [tmp] *)
Fixpoint find_link (fuel : nat) (tmp j : Z) (m : store) : outcome (option Z) :=
  match fuel with
  | O => Undef
  | S fuel =>
      if negb (j <? ehdr_shnum m SYMTAB_BASE) then Ret None else
      let n := ehdr_shentsize m SYMTAB_BASE in
      if bool_decide (read_bytes m tmp n = read_bytes m (shdr_addr m SYMTAB_BASE j) n) then Ret (Some j)
      else find_link fuel tmp (j + 1) m
  end.

Fixpoint fix_links (fuel : nat) (i : Z) (m : store) : outcome store :=
  match fuel with
  | O => Undef
  | S fuel =>
      if negb (i <? ehdr_shnum m SYMTAB_BASE) then Ret m else
      let section := shdr_addr m SYMTAB_BASE i in
      let link := ld m (section + 40) 4 in
      if link =? 0 then fix_links fuel (i + 1) m else
      let tmp := u64 (TEMP_BASE + ehdr_shoff m TEMP_BASE + u32 (ehdr_shentsize m TEMP_BASE * link)) in
      r ← find_link counts tmp 0 m;
      fix_links fuel (i + 1) (match r with Some j => st m (section + 40) 4 j | None => m end)
  end.

Fixpoint copy_sections (fuel : nat) (i symtab : Z) (m : store) : outcome (Z * store) :=
  match fuel with
  | O => Undef
  | S fuel =>
      if negb (i <? ehdr_shnum m SYMTAB_BASE) then Ret (symtab, m) else
      let section := shdr_addr m SYMTAB_BASE i in
      m ← memcpy m symtab (u64 (TEMP_BASE + ld m (section + 24) 8)) (ld m (section + 32) 8);
      let m := st m (section + 24) 8 (symtab - SYMTAB_BASE) in
      copy_sections fuel (i + 1) (u64 (symtab + ld m (section + 32) 8)) m
  end.

(** the header and the program headers *)
Definition copy_elf (m : store) : outcome (Z * store) :=
  let ehsize := ehdr_ehsize m TEMP_BASE in
  m ← memcpy m SYMTAB_BASE TEMP_BASE ehsize;
  let symtab := SYMTAB_BASE + ehsize in
  let m := st m (SYMTAB_BASE + 32) 8 (symtab - SYMTAB_BASE) in
  let size := s32 (ehdr_phentsize m TEMP_BASE * ehdr_phnum m TEMP_BASE) in
  m ← memcpy m symtab (u64 (TEMP_BASE + ehdr_phoff m TEMP_BASE)) (u64 size);
  let symtab := symtab + size in
  let m := st m (SYMTAB_BASE + 40) 8 (symtab - SYMTAB_BASE) in
  Ret (symtab, st m (SYMTAB_BASE + 60) 2 0).

Definition copy_symtab (m : store) : outcome store :=
  '(symtab, m) ← copy_elf m;
  '(symtab, m) ← copy_headers counts 0 symtab m;
  m ← fix_links counts 0 m;
  '(_, m) ← copy_sections counts 1 symtab m;
  Ret m.

(** the call of the nucleus: its address, storage size, subchannel and tables *)
Record start := Start { entry : Z; memsize : Z; iplsch : Z; elfhdr : Z }.

Definition load_nucleus (m : store) : outcome (start * store) :=
  let iplsch := ld m 0xb8 4 in
  m ← readnucleus m;
  if negb (valid_elf m) then Stopped else
  m ← load_segments counts 0 m;
  m ← copy_symtab m;
  let entry := ehdr_entry m TEMP_BASE in
  '(size, m) ← sense_memsize m;
  Ret (Start entry size iplsch SYMTAB_BASE, m).
End loader.
