(* ===== verification/LoaderSpec.v ===== *)
(** The nucleus loader (Loader.v), specified.

    Storage is compared point by point ([same]).  [readnucleus_spec]: on a volume
    the installer wrote, the file read to 4 MB is the one that was installed.
    [load_segments_spec]: the segments end up where they are linked.  The table
    from 8 KB on is a function on lists, [symtab_image]: the ELF header, the
    program headers, the headers of the symbol and string tables with their links
    and offsets moved, and their contents. *)

From S2P Require Import Prelude Edf Installer InstallerSpec Dat Layout Ipl Loader.

Local Open Scope Z_scope.

#[local] Abbreviation field := Edf.field.


(** * Storage up to extensionality *)

Definition same (m m' : store) : Prop := forall x, m x = m' x.

#[export] Instance same_equiv : Equivalence same.
Proof. split; [by intros m x|intros m m' H x; by rewrite H|intros m m' m'' H H' x; by rewrite H]. Qed.

#[export] Instance read_bytes_same : Proper (same ==> eq ==> eq ==> eq) read_bytes.
Proof. intros m m' H a ? <- n ? <-. unfold read_bytes. apply map_ext. intros x. apply H. Qed.

#[export] Instance write_bytes_same : Proper (same ==> eq ==> eq ==> same) write_bytes.
Proof. intros m m' H a ? <- l ? <- x. unfold write_bytes. by rewrite (H x). Qed.

#[export] Instance ld_same : Proper (same ==> eq ==> eq ==> eq) ld.
Proof. intros m m' H a ? <- n ? <-. unfold ld. by rewrite H. Qed.

Lemma write_in m a l x : a <= x < a + lenZ l -> write_bytes m a l x = default 0 (l !! Z.to_nat (x - a)).
Proof.
  intros Hx. unfold write_bytes. rewrite decide_True by lia.
  destruct (lookup_lt_is_Some_2 l (Z.to_nat (x - a))) as [v ->]; [unfold lenZ in Hx; lia|done].
Qed.

Lemma write_out m a l x : ~ (a <= x < a + lenZ l) -> write_bytes m a l x = m x.
Proof.
  intros Hx. unfold write_bytes. case_decide; [|done]. rewrite lookup_ge_None_2; [done|]. unfold lenZ in Hx. lia.
Qed.

Lemma read_bytes_ext m m' a n : (forall x, a <= x < a + n -> m x = m' x) -> read_bytes m a n = read_bytes m' a n.
Proof. intros H. unfold read_bytes. apply map_ext_in. intros x Hx%list_elem_of_In%elem_of_seqZ. apply H. lia. Qed.

Lemma read_outside m b w a n : a + n <= b \/ b + lenZ w <= a -> read_bytes (write_bytes m b w) a n = read_bytes m a n.
Proof. intros Hd. apply read_bytes_ext. intros x Hx. apply write_out. lia. Qed.

Lemma read_inside m b w (off n : nat) : (off + n <= length w)%nat ->
  read_bytes (write_bytes m b w) (b + Z.of_nat off) (Z.of_nat n) = field w off n.
Proof.
  intros Hn. apply list_eq. intros i. unfold read_bytes, field. rewrite list_lookup_fmap.
  destruct (decide (i < n)%nat) as [Hi|Hi].
  - rewrite lookup_seqZ_lt by lia. rewrite lookup_take_lt, lookup_drop by lia. cbn [fmap option_fmap option_map].
    rewrite write_in by (unfold lenZ; lia). replace (Z.to_nat (b + Z.of_nat off + Z.of_nat i - b)) with (off + i)%nat by lia.
    destruct (lookup_lt_is_Some_2 w (off + i)) as [v ->]; [lia|done].
  - rewrite lookup_seqZ_ge by lia. rewrite lookup_take_ge by lia. done.
Qed.

Lemma append_same m b w l : same (write_bytes (write_bytes m b w) (b + lenZ w) l) (write_bytes m b (w ++ l)).
Proof.
  intros x. destruct (decide (b + lenZ w <= x < b + lenZ w + lenZ l)) as [Hx|Hx].
  - rewrite write_in by done. rewrite write_in by (rewrite lenZ_app; pose proof (lenZ_nonneg w); lia).
    rewrite lookup_app_r by (unfold lenZ in Hx; lia). do 2 f_equal. unfold lenZ in *. lia.
  - rewrite write_out by done. destruct (decide (b <= x < b + lenZ w)) as [Hw|Hw].
    + rewrite write_in by done. rewrite write_in by (rewrite lenZ_app; pose proof (lenZ_nonneg l); lia).
      rewrite lookup_app_l by (unfold lenZ in Hw; lia). done.
    + rewrite write_out by done. rewrite write_out by (rewrite lenZ_app; lia). done.
Qed.

Lemma put_same m b w (off : nat) v : (off + length v <= length w)%nat ->
  same (write_bytes (write_bytes m b w) (b + Z.of_nat off) v) (write_bytes m b (put_field w off v)).
Proof.
  intros Hv x. assert (lenZ (put_field w off v) = lenZ w) as Hl.
  { unfold put_field, lenZ. rewrite !length_app, length_take, length_drop. lia. }
  destruct (decide (b <= x < b + lenZ w)) as [Hx|Hx].
  2:{ rewrite (write_out m b (put_field w off v)) by lia. rewrite write_out by (unfold lenZ in *; lia). by rewrite write_out. }
  rewrite (write_in m b (put_field w off v)) by lia. unfold put_field.
  destruct (decide (b + Z.of_nat off <= x < b + Z.of_nat off + lenZ v)) as [Hin|Hin].
  - rewrite write_in by done. rewrite lookup_app_r by (rewrite length_take; lia).
    rewrite lookup_app_l by (rewrite length_take; unfold lenZ in *; lia). rewrite length_take. do 2 f_equal. unfold lenZ in *. lia.
  - rewrite write_out by done. rewrite write_in by done. destruct (decide (x < b + Z.of_nat off)) as [Hlt|Hlt].
    + rewrite lookup_app_l by (rewrite length_take; unfold lenZ in *; lia). by rewrite lookup_take_lt by lia.
    + rewrite !lookup_app_r by (rewrite ?length_take; unfold lenZ in *; lia). rewrite lookup_drop, length_take. do 2 f_equal.
      unfold lenZ in *. lia.
Qed.

(** ** Storage with a list at an address *)

Lemma read_all m b w : read_bytes (write_bytes m b w) b (lenZ w) = w.
Proof.
  pose proof (read_inside m b w 0 (length w) ltac:(lia)) as H. rewrite Z.add_0_r in H. unfold lenZ. rewrite H.
  unfold Edf.field. rewrite drop_0. apply take_ge. lia.
Qed.

(** a part of a list that is in storage *)
Lemma read_part m a w (off n : nat) : read_bytes m a (lenZ w) = w -> (off + n <= length w)%nat ->
  read_bytes m (a + Z.of_nat off) (Z.of_nat n) = field w off n.
Proof.
  intros Hw Hn. rewrite <- (read_inside m a w off n Hn). apply read_bytes_ext. intros x Hx.
  rewrite write_in by (unfold lenZ; lia). rewrite <- Hw. unfold read_bytes at 1. rewrite list_lookup_fmap.
  rewrite lookup_seqZ_lt by (unfold lenZ; lia). cbn. f_equal. lia.
Qed.

Lemma ld_part m a w (off n : nat) : read_bytes m a (lenZ w) = w -> (off + n <= length w)%nat ->
  ld m (a + Z.of_nat off) (Z.of_nat n) = be_field w off n.
Proof. intros Hw Hn. unfold ld, be_field. by rewrite (read_part _ _ w). Qed.

(** * The file *)

(** what the installer leaves, for a nucleus of more than one block and at most 1024 (one level of pointer blocks is taken for
    granted, loader_c.c:197), when the first entry of the block of the directory is below the limit (loader_c.c:193) *)
Record nucleus_on (v : volume) (a t dat : list Z) : Prop := NucleusOn {
  no_blocks : forall k, length (v k) = 4096%nat;
  no_label : v (search_data EDF_LABEL_BLOCK_NO) = a /\ ADT_IDENT a = __ADTIDENT /\ ADT_DBSIZ a = 4096 /\ ADT_OFFST a = 0 /\
    ADT_FSTSZ a = 64 /\ ADT_NFST a = 64 /\ 1 <= ADT_DOP a;
  no_dir : FST_NLVL (fst_at (v (search_data (ADT_DOP a))) 0) = 0 /\
    u32 (FST_AIC (fst_at (v (search_data (ADT_DOP a))) 0) * FST_LRECL (fst_at (v (search_data (ADT_DOP a))) 0)) <= 3 * 1024 * 1024;
  no_file : file_on v a (ADT_DOP a) CP_FN CP_FT t dat;
  no_fst : FST_LRECL t = 4096 /\ FST_NLVL t = 1 /\ 0 <= FST_AIC t <= 1024;
  no_lbas : 1 <= FST_FOP t /\ forall i, 0 <= i < FST_AIC t -> 1 <= ptr_at (v (search_data (FST_FOP t))) i;
}.

Section volume.
Context (v : volume) (Hv : forall k, length (v k) = 4096%nat).

Abbreviation dev := (fun k => Some (v k)).

Lemma read_blk_ok ptr lba m : 1 <= lba -> read_blk dev ptr lba m = Ret (write_bytes m ptr (v (search_data lba))).
Proof.
  intros Hl. unfold read_blk. rewrite (proj2 (Z.ltb_ge _ _)) by lia. rewrite take_ge by (rewrite Hv; lia). done.
Qed.

Lemma find_nucleus_spec m d (n i : nat) : read_bytes m buf (lenZ d) = d -> (64 * (i + n) <= length d)%nat ->
  find_nucleus m (Z.of_nat i) n = List.find (named CP_FN CP_FT) (map (fst_at d) (seq i n)).
Proof.
  intros Hd. revert i. induction n as [|n IH]; intros i Hn; [done|]. cbn [find_nucleus seq map List.find].
  assert (fst_in m (Z.of_nat i) = fst_at d i) as ->.
  { unfold fst_in, fst_at. replace (buf + 64 * Z.of_nat i) with (buf + Z.of_nat (64 * i)) by lia.
    change 64 with (Z.of_nat 64). rewrite (read_part _ _ d) by (done || lia). done. }
  destruct (named _ _ _); [done|]. replace (Z.of_nat i + 1) with (Z.of_nat (S i)) by lia. apply IH. lia.
Qed.

Lemma read_blocks_spec p bks (i : nat) m : length p = 4096%nat -> read_bytes m ptrbuf 4096 = p ->
  (i + length bks <= 1024)%nat ->
  (forall k d, bks !! k = Some d -> 1 <= ptr_at p (Z.of_nat (i + k)) /\ v (search_data (ptr_at p (Z.of_nat (i + k)))) = d) ->
  exists m', read_blocks dev (Z.of_nat i) (length bks) m = Ret m' /\
    same m' (write_bytes m (TEMP_BASE + 4096 * Z.of_nat i) (concat bks)).
Proof.
  intros Hp. revert i m. induction bks as [|d bks IH]; intros i m Hm Hi Hb; cbn [read_blocks length concat].
  { exists m. split; [done|]. intros x. rewrite write_out; [done|]. change (lenZ []) with 0. lia. }
  cbn [length] in Hi. destruct (Hb 0%nat d eq_refl) as [Hl Hd]. rewrite Nat.add_0_r in Hl, Hd.
  assert (ld m (ptrbuf + 4 * Z.of_nat i) 4 = ptr_at p (Z.of_nat i)) as ->.
  { replace (ptrbuf + 4 * Z.of_nat i) with (ptrbuf + Z.of_nat (4 * i)) by lia. change (ld m (ptrbuf + Z.of_nat (4 * i)) 4) with (ld m (ptrbuf + Z.of_nat (4 * i)) (Z.of_nat 4)).
    rewrite (ld_part _ _ p); [|unfold lenZ; by rewrite Hp|lia]. unfold ptr_at. by replace (Z.to_nat (4 * Z.of_nat i)) with (4 * i)%nat by lia. }
  rewrite swrap_small by lia. rewrite read_blk_ok by done. cbn [mbind outcome_bind]. rewrite Hd.
  assert (lenZ d = 4096) as Hld by (rewrite <- Hd; unfold lenZ; rewrite Hv; done).
  replace (Z.of_nat i + 1) with (Z.of_nat (S i)) by lia.
  destruct (IH (S i) (write_bytes m (TEMP_BASE + 4096 * Z.of_nat i) d)) as (m' & E & Hm').
  - rewrite read_outside; [done|]. left. unfold ptrbuf, TEMP_BASE. lia.
  - lia.
  - intros k e Hk. replace (S i + k)%nat with (i + S k)%nat by lia. by apply Hb.
  - exists m'. split; [exact E|]. rewrite Hm'.
    replace (TEMP_BASE + 4096 * Z.of_nat (S i)) with (TEMP_BASE + 4096 * Z.of_nat i + lenZ d) by lia. apply append_same.
Qed.
End volume.

Lemma be_field_take (l : list Z) k off n : (off + n <= k)%nat -> be_field (take k l) off n = be_field l off n.
Proof. intros H. unfold be_field, Edf.field. rewrite skipn_firstn_comm, take_take. do 3 f_equal. lia. Qed.

Lemma adt_at (m : store) a : (80 <= length a)%nat -> read_bytes (write_bytes m buf a) buf 80 = take 80 a.
Proof. intros Ha. pose proof (read_inside m buf a 0 80 Ha) as H. rewrite Z.add_0_r in H. exact H. Qed.

Lemma concat_blocks (bks : list (list Z)) n : Forall (fun d => length d = 4096%nat) bks -> (n <= length bks)%nat ->
  concat (take n bks) = take (4096 * n) (concat bks).
Proof.
  intros Hb. revert n. induction Hb as [|d bks Hd _ IH]; intros n Hn; [by cbn; rewrite !take_nil|].
  destruct n as [|n]; [done|]. cbn [take concat]. cbn [length] in Hn. rewrite IH by lia.
  rewrite take_app_ge by lia. rewrite Hd. do 3 f_equal. lia.
Qed.

Lemma length_concat_blocks (bks : list (list Z)) : Forall (fun d => length d = 4096%nat) bks -> length (concat bks) = (4096 * length bks)%nat.
Proof. induction 1 as [|d bks Hd _ IH]; [done|]. cbn [concat length]. rewrite length_app, IH. lia. Qed.

(** the blocks of the file are those of its pointer block *)
Lemma nucleus_blocks v a t dat : nucleus_on v a t dat ->
  exists bks, length bks = Z.to_nat (FST_AIC t) /\ concat bks = dat /\
    forall k d, bks !! k = Some d -> v (search_data (ptr_at (v (search_data (FST_FOP t))) (Z.of_nat k))) = d.
Proof.
  intros [Hlen Hlabel _ (_ & _ & _ & Haic & bks & Hadbc & Hdat & Hblk) (Hlrecl & Hnlvl & Hn) _].
  assert (forall b d, bks !! b = Some d -> length d = 4096%nat /\
    v (search_data (ptr_at (v (search_data (FST_FOP t))) (Z.of_nat b mod 1024))) = d) as Hb.
  { intros b d Hbd. specialize (Hblk b d Hbd). unfold levels_above in Hblk. rewrite Hnlvl in Hblk. change (Z.to_nat (1 - 0)) with 1%nat in Hblk.
    unfold ref_read in Hblk. cbn [ref_lba] in Hblk. unfold device_of in Hblk. destruct Hlabel as (_ & _ & Hdb & _).
    rewrite Hdb in Hblk. change (4096 / 4) with 1024 in Hblk. injection Hblk as <-. by rewrite Hlen. }
  assert (Forall (fun d => length d = 4096%nat) bks) as Hall.
  { apply Forall_lookup. intros b d Hbd. by destruct (Hb b d Hbd). }
  assert (length dat = (4096 * Z.to_nat (FST_AIC t))%nat) as Hld by (unfold lenZ in Haic; lia).
  assert (Z.to_nat (FST_AIC t) <= length bks)%nat as Hle.
  { assert (length dat <= length (concat bks))%nat as Hd by (rewrite <- Hdat, length_take; lia).
    rewrite length_concat_blocks in Hd by done. lia. }
  exists (take (Z.to_nat (FST_AIC t)) bks). split_and!.
  - rewrite length_take. lia.
  - rewrite concat_blocks by done. by rewrite <- Hld.
  - intros k d Hk. apply lookup_take_Some in Hk as [Hk Hkn]. destruct (Hb k d Hk) as [_ Hd].
    rewrite Z.mod_small in Hd by lia. exact Hd.
Qed.

Lemma readnucleus_spec v a t dat m : nucleus_on v a t dat ->
  exists m', readnucleus (fun k => Some (v k)) m = Ret m' /\ read_bytes m' TEMP_BASE (lenZ dat) = dat /\
    forall x, ~ (buf <= x < buf + 8192) -> ~ (TEMP_BASE <= x < TEMP_BASE + lenZ dat) -> m' x = m x.
Proof.
  intros Hon. pose proof Hon as [Hv (Hlab & Hid & Hdb & Hoff & Hfsz & Hnf & Hdop) (Hn0 & Haic0) Hfile (Hlrecl & Hnlvl & Haic) (Hfop & Hptr)].
  destruct Hfile as (Hfind & Hrecfm & Hps & _ & _). destruct (nucleus_blocks _ _ _ _ Hon) as (bks & Hlb & <- & Hbks).
  unfold readnucleus. rewrite (read_blk_ok v Hv) by done. cbn [mbind outcome_bind]. rewrite Hlab.
  assert (length a = 4096%nat) as Hla by (by rewrite <- Hlab, Hv).
  cbv zeta. rewrite adt_at by lia. unfold ADT_IDENT, ADT_DBSIZ, ADT_OFFST, ADT_FSTSZ, ADT_NFST, ADT_DOP in *.
  rewrite !be_field_take by lia. rewrite Hid, Hdb, Hoff, Hfsz, Hnf, !Z.eqb_refl. cbn [negb orb].
  rewrite (read_blk_ok v Hv) by done. cbn [mbind outcome_bind].
  remember (v (search_data (be_field a 16 4))) as dir eqn:Edir. assert (length dir = 4096%nat) as Hdir by (by rewrite Edir, Hv).
  remember (write_bytes (write_bytes m buf a) buf dir) as m2 eqn:Em2.
  assert (read_bytes m2 buf (lenZ dir) = dir) as Hr2 by (rewrite Em2; apply read_all).
  assert (fst_in m2 0 = fst_at dir 0) as E0.
  { unfold fst_in, fst_at. rewrite Z.mul_0_r. change 64 with (Z.of_nat 64). change (buf + 0) with (buf + Z.of_nat 0).
    by rewrite (read_part _ _ dir) by (done || lia). }
  rewrite E0, Hn0, Z.eqb_refl. cbn [negb].
  change (find_nucleus m2 0 (Z.to_nat 64)) with (find_nucleus m2 (Z.of_nat 0) 64). rewrite (find_nucleus_spec m2 dir 64 0 Hr2) by lia.
  unfold dir_entries in Hfind. cbn [map concat] in Hfind. rewrite app_nil_r in Hfind. unfold ADT_NFST in Hfind. rewrite Hnf in Hfind.
  change (Z.to_nat 64) with 64%nat in Hfind. rewrite Hfind, Hps, Hlrecl, Hrecfm, !Z.eqb_refl. cbn [negb orb].
  rewrite (proj2 (Z.ltb_ge _ _)) by lia. rewrite (read_blk_ok v Hv) by done. cbn [mbind outcome_bind].
  remember (v (search_data (FST_FOP t))) as p eqn:Ep. assert (length p = 4096%nat) as Hpl by (by rewrite Ep, Hv).
  destruct (read_blocks_spec v Hv p bks 0 (write_bytes m2 ptrbuf p)) as (m' & E & Hm').
  { done. }
  { pose proof (read_all m2 ptrbuf p) as Hra. unfold lenZ in Hra. by rewrite Hpl in Hra. }
  { lia. }
  { intros k d Hk. rewrite Nat.add_0_l. split; [|by apply Hbks]. apply Hptr. apply lookup_lt_Some in Hk. lia. }
  change (Z.of_nat 0) with 0 in *. rewrite Hlb in E. exists m'. split; [exact E|]. rewrite Z.mul_0_r, Z.add_0_r in Hm'. split.
  - rewrite Hm'. apply read_all.
  - intros x Hx1 Hx2. rewrite Hm', write_out by lia. unfold ptrbuf, buf in *. rewrite write_out by (unfold lenZ; rewrite Hpl; lia).
    rewrite Em2. rewrite !write_out; [done|unfold lenZ; lia|unfold lenZ; lia].
Qed.

(** * The segments *)

Definition holds (m : store) (img : list Z) : Prop := read_bytes m TEMP_BASE (lenZ img) = img.

Lemma holds_ld m img (off n : nat) : holds m img -> (off + n <= length img)%nat ->
  ld m (TEMP_BASE + Z.of_nat off) (Z.of_nat n) = be_field img off n.
Proof. intros. by apply ld_part. Qed.

Lemma holds_same m m' img : holds m img -> (forall x, TEMP_BASE <= x < TEMP_BASE + lenZ img -> m' x = m x) -> holds m' img.
Proof. intros H Hs. unfold holds. rewrite <- H at 2. by apply read_bytes_ext. Qed.

(** a program header as a segment *)
Definition seg_of (h : list Z) : option segment :=
  if be_field h 0 4 =? PT_LOAD then Some (Segment (be_field h 8 8) (be_field h 32 8) (be_field h 16 8) (be_field h 40 8)) else None.

Definition phdr64 (img : list Z) (i : nat) : list Z :=
  field img (Z.to_nat (be_field img 32 8 + be_field img 54 2 * Z.of_nat i)) 56.

Definition segments (img : list Z) : list (option segment) :=
  map (fun i => seg_of (phdr64 img i)) (seq 0 (Z.to_nat (be_field img 56 2))).

(** the bytes of a segment, and zeros *)
Definition over (img : list Z) (o : option segment) (m : store) : store := fun a =>
  match o with
  | None => m a
  | Some g => if decide (in_file g a) then byte img (s_off g + (a - s_vaddr g)) else
              if decide (s_vaddr g <= a < s_vaddr g + s_memsz g) then 0 else m a
  end.

Definition seg_view (img : list Z) (l : list (option segment)) (m : store) : store :=
  fold_left (fun m o => over img o m) l m.

(** in the file, below the end of addresses, and away from the file's copy *)
Record seg_ok (img : list Z) (g : segment) : Prop := SegOk {
  sk_off : 0 <= s_off g /\ s_off g + s_filesz g <= lenZ img;
  sk_size : 0 <= s_filesz g <= s_memsz g;
  sk_addr : 0 <= s_vaddr g /\ s_vaddr g + s_memsz g < 2 ^ 64;
  sk_apart : s_vaddr g + s_memsz g <= TEMP_BASE \/ TEMP_BASE + lenZ img <= s_vaddr g;
}.

Lemma over_same img o m m' : same m m' -> same (over img o m) (over img o m').
Proof. intros H a. unfold over. destruct o; [|apply H]. by repeat destruct (decide _). Qed.

Lemma seg_view_same img l m m' : same m m' -> same (seg_view img l m) (seg_view img l m').
Proof. revert m m'. induction l as [|o l IH]; intros m m' H; [done|]. apply IH. by apply over_same. Qed.

(** the copy and the zeros of one segment *)
Lemma fill_segment img g m : holds m img -> lenZ img < 2 ^ 32 -> seg_ok img g ->
  exists m', (m1 ← (if s_filesz g =? 0 then Ret m else memcpy m (s_vaddr g) (u64 (TEMP_BASE + s_off g)) (s_filesz g));
     Ret (if s_filesz g =? s_memsz g then m1 else memset m1 (u64 (s_vaddr g + s_filesz g)) (u64 (s_memsz g - s_filesz g)))) = Ret m' /\
    same m' (over img (Some g) m).
Proof.
  intros Hm Himg [[Ho Hoi] [Hf Hfm] [Ha Hai] Hap].
  assert (exists m1, (if s_filesz g =? 0 then Ret m else memcpy m (s_vaddr g) (u64 (TEMP_BASE + s_off g)) (s_filesz g)) = Ret m1 /\
    forall a, m1 a = if decide (in_file g a) then byte img (s_off g + (a - s_vaddr g)) else m a) as (m1 & -> & Hm1).
  { destruct (Z.eqb_spec (s_filesz g) 0) as [E0|Hne].
    - exists m. split; [done|]. intros a. rewrite decide_False; [done|]. unfold in_file. lia.
    - rewrite wrap_small by (unfold TEMP_BASE; lia). unfold memcpy.
      assert ((s_vaddr g + s_filesz g <=? TEMP_BASE + s_off g) || (TEMP_BASE + s_off g + s_filesz g <=? s_vaddr g) = true) as ->.
      { apply orb_true_iff. rewrite !Z.leb_le. lia. }
      eexists. split; [done|]. intros a.
      assert (read_bytes m (TEMP_BASE + s_off g) (s_filesz g) = field img (Z.to_nat (s_off g)) (Z.to_nat (s_filesz g))) as ->.
      { rewrite <- (read_part m TEMP_BASE img) by (done || unfold lenZ in *; lia). by rewrite !Z2Nat.id by lia. }
      assert (lenZ (field img (Z.to_nat (s_off g)) (Z.to_nat (s_filesz g))) = s_filesz g) as Hl.
      { unfold lenZ, Edf.field in *. rewrite length_take, length_drop. lia. }
      unfold in_file. case_decide as Hin; [|by rewrite write_out by lia]. rewrite write_in by lia.
      unfold byte, Edf.field. rewrite lookup_take_lt, lookup_drop by lia. do 2 f_equal. lia. }
  cbn [mbind outcome_bind]. eexists. split; [done|]. intros a. cbn [over]. destruct (Z.eqb_spec (s_filesz g) (s_memsz g)) as [E|Hne].
  - rewrite Hm1. case_decide; [done|]. rewrite decide_False; [done|]. unfold in_file in *. lia.
  - unfold memset. rewrite !wrap_small by lia.
    assert (lenZ (zeros (Z.to_nat (s_memsz g - s_filesz g))) = s_memsz g - s_filesz g) as Hl by (unfold lenZ, zeros; rewrite length_replicate; lia).
    destruct (decide (in_file g a)) as [Hin|Hin].
    + unfold in_file in Hin. rewrite write_out by lia. rewrite Hm1. by rewrite decide_True.
    + case_decide as Hmem; unfold in_file in Hin.
      * rewrite write_in by lia. unfold zeros. by rewrite lookup_replicate_2 by lia.
      * rewrite write_out by lia. rewrite Hm1. by rewrite decide_False.
Qed.

Lemma over_holds img o m : holds m img -> (forall g, o = Some g -> seg_ok img g) -> holds (over img o m) img.
Proof.
  intros Hm Hok. apply (holds_same m); [done|]. intros x Hx. unfold over. destruct o as [g|]; [|done].
  destruct (Hok g eq_refl). unfold in_file. rewrite !decide_False by lia. done.
Qed.

(** the headers are in the file *)
Record phdrs_ok (img : list Z) : Prop := PhdrsOk {
  ph_ehdr : 64 <= lenZ img < 2 ^ 31;
  ph_table : 0 <= be_field img 32 8 /\ be_field img 32 8 + be_field img 54 2 * be_field img 56 2 <= lenZ img;
  ph_size : 56 <= be_field img 54 2;
  ph_num : 0 <= be_field img 56 2 < 65536;
}.

Lemma ehdr_member m img (off n : nat) : holds m img -> (off + n <= length img)%nat ->
  ld m (TEMP_BASE + Z.of_nat off) (Z.of_nat n) = be_field img off n.
Proof. intros. by apply ld_part. Qed.

Lemma load_segment_spec img m (i : nat) : holds m img -> phdrs_ok img -> (i < Z.to_nat (be_field img 56 2))%nat ->
  (forall g, seg_of (phdr64 img i) = Some g -> seg_ok img g) ->
  exists m', load_segment (phdr_addr m (Z.of_nat i)) m = Ret m' /\ same m' (over img (seg_of (phdr64 img i)) m).
Proof.
  intros Hm [Hl [Hp0 Hp] Hs Hn] Hi Hok. unfold lenZ in *.
  assert (phdr_addr m (Z.of_nat i) = TEMP_BASE + Z.of_nat (Z.to_nat (be_field img 32 8 + be_field img 54 2 * Z.of_nat i))) as ->.
  { unfold phdr_addr, ehdr_phoff, ehdr_phentsize.
    change (TEMP_BASE + 32) with (TEMP_BASE + Z.of_nat 32). change (TEMP_BASE + 54) with (TEMP_BASE + Z.of_nat 54).
    change (ld m (TEMP_BASE + Z.of_nat 32) 8) with (ld m (TEMP_BASE + Z.of_nat 32) (Z.of_nat 8)).
    change (ld m (TEMP_BASE + Z.of_nat 54) 2) with (ld m (TEMP_BASE + Z.of_nat 54) (Z.of_nat 2)).
    rewrite !(ehdr_member m img) by (done || lia).
    rewrite swrap_small by nia. rewrite wrap_small by (unfold TEMP_BASE; nia). rewrite Z2Nat.id by nia. lia. }
  assert (Z.to_nat (be_field img 32 8 + be_field img 54 2 * Z.of_nat i) + 56 <= length img)%nat as Hin by nia.
  unfold phdr64 in *. remember (Z.to_nat (be_field img 32 8 + be_field img 54 2 * Z.of_nat i)) as off eqn:Eoff. clear Eoff.
  assert (forall (o n : nat), (o + n <= 56)%nat -> ld m (TEMP_BASE + Z.of_nat off + Z.of_nat o) (Z.of_nat n) = be_field (field img off 56) o n) as Hld.
  { intros o n Ho. replace (TEMP_BASE + Z.of_nat off + Z.of_nat o) with (TEMP_BASE + Z.of_nat (off + o)) by lia.
    rewrite (ehdr_member m img) by (done || lia). unfold be_field, Edf.field. rewrite skipn_firstn_comm, take_take, drop_drop.
    do 3 f_equal. lia. }
  pose proof (Hld 0%nat 4%nat ltac:(lia)) as H0. pose proof (Hld 8%nat 8%nat ltac:(lia)) as H8. pose proof (Hld 16%nat 8%nat ltac:(lia)) as H16.
  pose proof (Hld 32%nat 8%nat ltac:(lia)) as H32. pose proof (Hld 40%nat 8%nat ltac:(lia)) as H40.
  change (Z.of_nat 0) with 0 in H0. rewrite Z.add_0_r in H0. change (Z.of_nat 4) with 4 in H0. change (Z.of_nat 8) with 8 in *.
  change (Z.of_nat 16) with 16 in *. change (Z.of_nat 32) with 32 in *. change (Z.of_nat 40) with 40 in *.
  unfold load_segment. rewrite H0, H8, H16, H32, H40. unfold seg_of in *.
  destruct (be_field (field img off 56) 0 4 =? PT_LOAD) eqn:Et; cbn [negb].
  - specialize (Hok _ eq_refl). destruct (fill_segment img _ m Hm ltac:(unfold lenZ; lia) Hok) as (m' & E & Hm'). exists m'. split; [exact E|done].
  - exists m. split; [done|]. intros a. done.
Qed.

Lemma load_segments_spec img (n : nat) : forall (i fuel : nat) m, holds m img -> phdrs_ok img ->
  (i + n = Z.to_nat (be_field img 56 2))%nat -> (n < fuel)%nat ->
  (forall k g, (k < Z.to_nat (be_field img 56 2))%nat -> seg_of (phdr64 img k) = Some g -> seg_ok img g) ->
  exists m', load_segments fuel (Z.of_nat i) m = Ret m' /\
    same m' (seg_view img (map (fun i => seg_of (phdr64 img i)) (seq i n)) m) /\ holds m' img.
Proof.
  induction n as [|n IH]; intros i fuel m Hm Hph Hi Hf Hok; (destruct fuel as [|fuel]; [lia|]); cbn [load_segments seq map];
    pose proof Hph as [Hl _ _ Hn];
    (assert (ehdr_phnum m TEMP_BASE = be_field img 56 2) as -> by
      (change (ehdr_phnum m TEMP_BASE) with (ld m (TEMP_BASE + Z.of_nat 56) (Z.of_nat 2)); apply ehdr_member; [done|unfold lenZ in Hl; lia])).
  - rewrite (proj2 (Z.ltb_ge _ _)) by lia. exists m. done.
  - rewrite (proj2 (Z.ltb_lt _ _)) by lia.
    destruct (load_segment_spec img m i Hm Hph ltac:(lia) (fun g => Hok i g ltac:(lia))) as (m1 & -> & H1). cbn [mbind outcome_bind].
    assert (holds m1 img) as Hm1.
    { unfold holds. rewrite H1. apply over_holds; [done|]. intros g. apply Hok. lia. }
    replace (Z.of_nat i + 1) with (Z.of_nat (S i)) by lia.
    destruct (IH (S i) fuel m1 Hm1 Hph ltac:(lia) ltac:(lia) Hok) as (m' & E & H' & Hh). exists m'. split_and!; [exact E| |done].
    rewrite H'. cbn [seg_view fold_left]. by apply seg_view_same.
Qed.

Lemma counts_val : Z.of_nat counts = 65536.
Proof. unfold counts. by rewrite Z2Nat.id. Qed.

#[local] Opaque counts.

(** * The symbol table *)

Lemma field_app_l (l k : list Z) off n : (off + n <= length l)%nat -> field (l ++ k) off n = field l off n.
Proof. intros H. unfold Edf.field. rewrite drop_app_le by lia. by rewrite take_app_le by (rewrite length_drop; lia). Qed.

Lemma field_app_r (l k : list Z) off n : field (l ++ k) (length l + off) n = field k off n.
Proof. unfold Edf.field. rewrite drop_app_ge by lia. do 2 f_equal. lia. Qed.

Lemma put_app_l (l k v : list Z) off : (off + length v <= length l)%nat -> put_field (l ++ k) off v = put_field l off v ++ k.
Proof. intros H. unfold put_field. rewrite take_app_le, drop_app_le by lia. by rewrite <- !app_assoc. Qed.

Lemma put_app_r (l k v : list Z) off : put_field (l ++ k) (length l + off) v = l ++ put_field k off v.
Proof.
  unfold put_field. rewrite take_app_ge, drop_app_ge by lia.
  replace (length l + off - length l)%nat with off by lia. replace (length l + off + length v - length l)%nat with (off + length v)%nat by lia.
  by rewrite <- app_assoc.
Qed.

(** in the [k]th of records of [n] bytes *)
Section records.
Context (n : nat) (hs : list (list Z)) (Hhs : Forall (fun h => length h = n) hs) (tail : list Z).

Lemma field_record k h off c : hs !! k = Some h -> (off + c <= n)%nat -> field (concat hs ++ tail) (n * k + off) c = field h off c.
Proof.
  intros Hk Hc. assert (k < length hs)%nat as Hlt by (by eapply lookup_lt_Some).
  rewrite field_app_l by (rewrite (concat_length_n n) by done; nia).
  pose proof (concat_at n hs k h Hhs Hk) as <-. unfold Edf.field. rewrite skipn_firstn_comm, take_take, drop_drop.
  do 2 f_equal; lia.
Qed.

Lemma put_record k h off v : hs !! k = Some h -> (off + length v <= n)%nat ->
  put_field (concat hs ++ tail) (n * k + off) v = concat (<[k := put_field h off v]> hs) ++ tail.
Proof.
  intros Hk Hv. assert (k < length hs)%nat as Hlt by (by eapply lookup_lt_Some).
  assert (length h = n) as Hh by (by eapply (Forall_lookup_1 (fun h => length h = n))).
  rewrite put_app_l by (rewrite (concat_length_n n) by done; nia). f_equal.
  rewrite <- (take_drop_middle hs k h Hk) at 1. rewrite concat_app. cbn [concat].
  rewrite insert_take_drop by done. rewrite concat_app. cbn [concat].
  assert (length (concat (take k hs)) = n * k)%nat as Hl.
  { rewrite (concat_length_n n) by (by apply Forall_take). rewrite length_take. lia. }
  rewrite <- Hl, put_app_r. f_equal. apply put_app_l. lia.
Qed.
End records.

(** storage while the table [W] is put together *)
Record packing (m0 : store) (img W : list Z) (m : store) : Prop := Packing {
  pk_table : same m (write_bytes m0 SYMTAB_BASE W);
  pk_img : holds m0 img;
  pk_room : SYMTAB_BASE + lenZ W <= TEMP_BASE;
}.

Section packing.
Context (m0 : store) (img : list Z).

Lemma packing_append W m (off n : nat) : packing m0 img W m -> (off + n <= length img)%nat ->
  SYMTAB_BASE + lenZ W + Z.of_nat n <= TEMP_BASE ->
  exists m', memcpy m (SYMTAB_BASE + lenZ W) (TEMP_BASE + Z.of_nat off) (Z.of_nat n) = Ret m' /\ packing m0 img (W ++ field img off n) m'.
Proof.
  intros [Hw Hi Hr] Hn Hroom. unfold memcpy. rewrite (proj2 (Z.leb_le _ _)) by lia. cbn [orb]. eexists. split; [done|].
  assert (read_bytes m (TEMP_BASE + Z.of_nat off) (Z.of_nat n) = field img off n) as ->.
  { rewrite Hw, read_outside by lia. by apply (read_part _ _ img). }
  split; [|done|].
  - intros x. rewrite <- append_same. by apply write_bytes_same.
  - rewrite lenZ_app. assert (lenZ (field img off n) = Z.of_nat n) as ->; [|lia].
    unfold lenZ, Edf.field. rewrite length_take, length_drop. lia.
Qed.

Lemma packing_put W m (off n : nat) v : packing m0 img W m -> (off + n <= length W)%nat ->
  packing m0 img (put_field W off (be_bytes n v)) (st m (SYMTAB_BASE + Z.of_nat off) n v).
Proof.
  intros [Hw Hi Hr] Hn. split; [|done|].
  - intros x. rewrite <- put_same by (rewrite be_bytes_length; lia). by apply write_bytes_same.
  - unfold lenZ in *. rewrite put_field_length by (rewrite be_bytes_length; lia). lia.
Qed.

Lemma packing_table W m : packing m0 img W m -> read_bytes m SYMTAB_BASE (lenZ W) = W.
Proof. intros [Hw _ _]. rewrite Hw. apply read_all. Qed.

Lemma packing_ld W m (off n : nat) : packing m0 img W m -> (off + n <= length W)%nat ->
  ld m (SYMTAB_BASE + Z.of_nat off) (Z.of_nat n) = be_field W off n.
Proof. intros Hp Hn. apply ld_part; [by apply packing_table|done]. Qed.

Lemma packing_holds W m : packing m0 img W m -> holds m img.
Proof.
  intros [Hw Hi Hr]. apply (holds_same m0); [done|]. intros x Hx. rewrite Hw. apply write_out. lia.
Qed.

Lemma packing_img W m (off n : nat) : packing m0 img W m -> (off + n <= length img)%nat ->
  ld m (TEMP_BASE + Z.of_nat off) (Z.of_nat n) = be_field img off n.
Proof. intros Hp Hn. apply ehdr_member; [by eapply packing_holds|done]. Qed.
End packing.

Lemma packing_start m0 img : holds m0 img -> packing m0 img [] m0.
Proof.
  intros H. split; [|done|by vm_compute].
  intros x. rewrite write_out; [done|]. change (lenZ []) with 0. lia.
Qed.

(** ** What is packed, as a list *)

Section table.
Context (img : list Z).

Definition e_phoff : Z := be_field img 32 8.
Definition e_shoff : Z := be_field img 40 8.
Definition e_ehsize : Z := be_field img 52 2.
Definition e_phsize : Z := be_field img 54 2 * be_field img 56 2.
Definition e_shentsize : Z := be_field img 58 2.
Definition e_shnum : Z := be_field img 60 2.

(** the section header, and its type, link, offset and size *)
Definition shdr (k : nat) : list Z := field img (Z.to_nat (e_shoff + e_shentsize * Z.of_nat k)) (Z.to_nat e_shentsize).
Definition sh_type (h : list Z) : Z := be_field h 4 4.
Definition sh_offset (h : list Z) : Z := be_field h 24 8.
Definition sh_size (h : list Z) : Z := be_field h 32 8.
Definition sh_link (h : list Z) : Z := be_field h 40 4.

Definition kept (h : list Z) : bool := (sh_type h =? SHT_STRTAB) || (sh_type h =? SHT_NULL) || (sh_type h =? SHT_SYMTAB).

(** the ELF header that leads to the program headers behind it and to no section yet *)
Definition pack_header : list Z :=
  let w := put_field (field img 0 (Z.to_nat e_ehsize)) 32 (be_bytes 8 e_ehsize) ++ field img (Z.to_nat e_phoff) (Z.to_nat e_phsize) in
  put_field (put_field w 40 (be_bytes 8 (lenZ w))) 60 (be_bytes 2 0).

Definition pack_section (t : list Z * list (list Z)) (k : nat) : list Z * list (list Z) :=
  let (hdr, hs) := t in
  let h := shdr k in
  if kept h then
    let hdr := if (sh_type h =? SHT_STRTAB) && (Z.of_nat k =? be_field img 62 2) then put_field hdr 62 (be_bytes 2 (lenZ hs)) else hdr in
    (put_field hdr 60 (be_bytes 2 (lenZ hs + 1)), hs ++ [h])
  else t.

Definition packed_headers : list Z * list (list Z) := fold_left pack_section (seq 0 (Z.to_nat e_shnum)) (pack_header, []).

(** the link is the place of the section among those kept *)
Definition relink (hs : list (list Z)) (h : list Z) : list Z :=
  if sh_link h =? 0 then h else
  match list_find (fun x => x = shdr (Z.to_nat (sh_link h))) hs with
  | Some (j, _) => put_field h 40 (be_bytes 4 (Z.of_nat j))
  | None => h
  end.

(** contents follow each other from [base] on *)
Fixpoint relocate (base : Z) (hs : list (list Z)) : list (list Z) :=
  match hs with
  | [] => []
  | h :: hs => put_field h 24 (be_bytes 8 base) :: relocate (base + sh_size h) hs
  end.

Definition contents (h : list Z) : list Z := field img (Z.to_nat (sh_offset h)) (Z.to_nat (sh_size h)).

Definition total_size (hs : list (list Z)) : Z := foldr (fun h s => sh_size h + s) 0 hs.

(** the first section has no contents *)
Definition symtab_image : list Z :=
  let (hdr, hs) := packed_headers in
  let base := lenZ hdr + e_shentsize * lenZ hs in
  match map (relink hs) hs with
  | [] => hdr
  | h :: t => hdr ++ concat (h :: relocate base t) ++ concat (map contents t)
  end.

(** a linked file, that leaves room for the table below 4 MB *)
Record elf_ok : Prop := ElfOk {
  ek_bytes : Forall (fun b => 0 <= b < 256) img;
  ek_ehsize : 64 <= e_ehsize <= lenZ img;
  ek_phdrs : phdrs_ok img;
  ek_shdrs : 64 <= e_shentsize /\ e_shoff + e_shentsize * e_shnum <= lenZ img;
  ek_links : forall k, (k < Z.to_nat e_shnum)%nat -> kept (shdr k) = true -> sh_link (shdr k) <> 0 ->
    sh_type (shdr k) = SHT_SYMTAB /\ sh_link (shdr k) < e_shnum /\ sh_type (shdr (Z.to_nat (sh_link (shdr k)))) = SHT_STRTAB;
  ek_contents : forall k, (k < Z.to_nat e_shnum)%nat -> kept (shdr k) = true -> sh_offset (shdr k) + sh_size (shdr k) <= lenZ img;
  ek_room : SYMTAB_BASE + e_ehsize + e_phsize + e_shentsize * e_shnum + total_size packed_headers.2 <= TEMP_BASE;
}.
End table.

Lemma be_field_range l off n : Forall (fun b => 0 <= b < 256) l -> 0 <= be_field l off n < 256 ^ Z.of_nat n.
Proof.
  intros Hl. unfold be_field. assert (Forall (fun b => 0 <= b < 256) (Edf.field l off n)) as Hf by (by apply Forall_take, Forall_drop).
  pose proof (be_val_range _ Hf) as Hr. split; [lia|]. eapply Z.lt_le_trans; [apply Hr|]. apply Z.pow_le_mono_r; [lia|].
  unfold lenZ, Edf.field. rewrite length_take. lia.
Qed.

Lemma be_field_put b off n v : (off + n <= length b)%nat -> be_field (put_field b off (be_bytes n v)) off n = v mod 256 ^ Z.of_nat n.
Proof. intros H. unfold be_field. rewrite field_put_same by (rewrite be_bytes_length; lia). apply be_val_bytes. Qed.

Lemma be_field_put_other b off n v off' c : (off + n <= length b)%nat -> (off' + c <= off \/ off + n <= off')%nat ->
  be_field (put_field b off (be_bytes n v)) off' c = be_field b off' c.
Proof. intros H Ho. unfold be_field. rewrite field_put_other; [done|rewrite be_bytes_length; lia|rewrite be_bytes_length; lia]. Qed.

Lemma be_field_app_l l k off n : (off + n <= length l)%nat -> be_field (l ++ k) off n = be_field l off n.
Proof. intros H. unfold be_field. by rewrite field_app_l. Qed.

Lemma length_put b off n v : (off + n <= length b)%nat -> length (put_field b off (be_bytes n v)) = length b.
Proof. intros H. apply put_field_length. rewrite be_bytes_length. lia. Qed.

Section packed.
Context (m0 : store) (img : list Z) (Hm0 : holds m0 img) (Hok : elf_ok img).

Abbreviation packing W m := (packing m0 img W m).
Abbreviation esz := (e_ehsize img).
Abbreviation psz := (e_phsize img).
Abbreviation ssz := (e_shentsize img).
Abbreviation snum := (e_shnum img).
Abbreviation soff := (e_shoff img).
Abbreviation sh := (shdr img).

Lemma member_range off n : 0 <= be_field img off n < 256 ^ Z.of_nat n.
Proof. apply be_field_range, Hok. Qed.

Lemma img_small : 64 <= lenZ img < 2 ^ 31.
Proof. apply Hok. Qed.

(** a member of the ELF header at 4 MB *)
Lemma at_temp W m (off n : nat) : packing W m -> (off + n <= 64)%nat ->
  ld m (TEMP_BASE + Z.of_nat off) (Z.of_nat n) = be_field img off n.
Proof. intros Hp Hn. apply (packing_img m0 img W); [done|]. pose proof img_small. unfold lenZ in *. lia. Qed.

Lemma temp_phoff W m : packing W m -> ehdr_phoff m TEMP_BASE = e_phoff img.
Proof. intros Hp. exact (at_temp W m 32 8 Hp ltac:(lia)). Qed.
Lemma temp_shoff W m : packing W m -> ehdr_shoff m TEMP_BASE = soff.
Proof. intros Hp. exact (at_temp W m 40 8 Hp ltac:(lia)). Qed.
Lemma temp_ehsize W m : packing W m -> ehdr_ehsize m TEMP_BASE = esz.
Proof. intros Hp. exact (at_temp W m 52 2 Hp ltac:(lia)). Qed.
Lemma temp_phentsize W m : packing W m -> ehdr_phentsize m TEMP_BASE = be_field img 54 2.
Proof. intros Hp. exact (at_temp W m 54 2 Hp ltac:(lia)). Qed.
Lemma temp_phnum W m : packing W m -> ehdr_phnum m TEMP_BASE = be_field img 56 2.
Proof. intros Hp. exact (at_temp W m 56 2 Hp ltac:(lia)). Qed.
Lemma temp_shentsize W m : packing W m -> ehdr_shentsize m TEMP_BASE = ssz.
Proof. intros Hp. exact (at_temp W m 58 2 Hp ltac:(lia)). Qed.
Lemma temp_shnum W m : packing W m -> ehdr_shnum m TEMP_BASE = snum.
Proof. intros Hp. exact (at_temp W m 60 2 Hp ltac:(lia)). Qed.
Lemma temp_shstrndx W m : packing W m -> ehdr_shstrndx m TEMP_BASE = be_field img 62 2.
Proof. intros Hp. exact (at_temp W m 62 2 Hp ltac:(lia)). Qed.

(** the packed ELF header, with [n] sections so far *)
Record hdr_ok (hdr : list Z) (n : nat) : Prop := HdrOk {
  hk_length : lenZ hdr = esz + psz;
  hk_phoff : be_field hdr 32 8 = esz;
  hk_shoff : be_field hdr 40 8 = esz + psz;
  hk_shentsize : be_field hdr 58 2 = ssz;
  hk_shnum : be_field hdr 60 2 = Z.of_nat n;
}.

Lemma sizes : 64 <= esz < 65536 /\ 0 <= psz < 2 ^ 32 /\ 64 <= ssz < 65536 /\ 0 <= snum < 65536 /\ 0 <= soff.
Proof.
  pose proof (member_range 52 2) as R1. pose proof (member_range 54 2) as R2. pose proof (member_range 56 2) as R3.
  pose proof (member_range 58 2) as R4. pose proof (member_range 60 2) as R5. pose proof (member_range 40 8) as R6.
  change (256 ^ Z.of_nat 2) with 65536 in *. destruct Hok as [_ He _ Hs _ _ _].
  unfold e_ehsize, e_phsize, e_shentsize, e_shnum, e_shoff in *. split_and!; try lia.
  pose proof (Z.mul_le_mono_nonneg (be_field img 54 2) 65535 (be_field img 56 2) 65535 ltac:(lia) ltac:(lia) ltac:(lia) ltac:(lia)) as Hm. lia.
Qed.

Lemma total_size_nonneg hs : Forall (fun h => 0 <= sh_size h) hs -> 0 <= total_size hs.
Proof. unfold total_size. induction 1; cbn [foldr]; [done|lia]. Qed.

Lemma shdr_ok k : (k < Z.to_nat snum)%nat -> length (sh k) = Z.to_nat ssz /\ Forall (fun b => 0 <= b < 256) (sh k).
Proof.
  intros Hk. destruct sizes as (_ & _ & ? & ? & ?). destruct Hok as [Hb _ _ [_ Hs] _ _ _]. unfold shdr. split.
  - unfold Edf.field. rewrite length_take, length_drop. unfold lenZ in Hs. nia.
  - by apply Forall_take, Forall_drop.
Qed.

Lemma copy_elf_spec : SYMTAB_BASE + esz + psz <= TEMP_BASE ->
  exists m', copy_elf m0 = Ret (SYMTAB_BASE + lenZ (pack_header img), m') /\ packing (pack_header img) m' /\ hdr_ok (pack_header img) 0.
Proof.
  intros Hroom. destruct sizes as (Heh & Hps & Hse & Hsn & Hso). pose proof img_small as Himg.
  pose proof (packing_start m0 img Hm0) as Hp. unfold copy_elf. rewrite (temp_ehsize _ _ Hp).
  destruct Hok as [Hb Hehl [_ [Hpo Hpl] _ _] _ _ _ _].
  assert (esz = Z.of_nat (Z.to_nat esz)) as Eeh by lia.
  destruct (packing_append m0 img [] m0 0 (Z.to_nat esz) Hp) as (m1 & E1 & Hp1); [unfold lenZ in *; lia|change (lenZ []) with 0; lia|].
  rewrite <- Eeh in E1. change (lenZ []) with 0 in E1. rewrite !Z.add_0_r in E1. rewrite E1. cbn [mbind outcome_bind]. clear E1.
  cbn [app] in Hp1. assert (length (field img 0 (Z.to_nat esz)) = Z.to_nat esz) as Hl0.
  { unfold Edf.field. rewrite length_take, length_drop. unfold lenZ in *. lia. }
  replace (SYMTAB_BASE + esz - SYMTAB_BASE) with esz by lia.
  apply (packing_put m0 img _ _ 32 8 esz) in Hp1; [|lia].
  set (w0 := put_field (field img 0 (Z.to_nat esz)) 32 (be_bytes 8 esz)) in *.
  assert (length w0 = Z.to_nat esz) as Hl1 by (unfold w0; rewrite length_put; lia).
  change (SYMTAB_BASE + Z.of_nat 32) with (SYMTAB_BASE + 32) in Hp1.
  rewrite (temp_phentsize _ _ Hp1), (temp_phnum _ _ Hp1), (temp_phoff _ _ Hp1). fold psz.
  assert (e_phoff img + psz <= lenZ img) as Hpl' by exact Hpl.
  assert (0 <= e_phoff img) as Hpo' by exact Hpo.
  rewrite swrap_small by lia. rewrite !wrap_small by (unfold TEMP_BASE; lia).
  destruct (packing_append m0 img w0 _ (Z.to_nat (e_phoff img)) (Z.to_nat psz) Hp1) as (m2 & E2 & Hp2);
    [unfold lenZ in *; lia|unfold lenZ in *; lia|].
  rewrite !Z2Nat.id in E2 by lia. replace (lenZ w0) with esz in E2 by (unfold lenZ; lia). rewrite E2. cbn [mbind outcome_bind].
  clear E2. set (w1 := w0 ++ field img (Z.to_nat (e_phoff img)) (Z.to_nat psz)) in *.
  assert (length w1 = Z.to_nat (esz + psz)) as Hl2.
  { unfold w1. rewrite length_app, Hl1. unfold Edf.field. rewrite length_take, length_drop. unfold lenZ in *. lia. }
  replace (SYMTAB_BASE + esz + psz - SYMTAB_BASE) with (lenZ w1) by (unfold lenZ; lia).
  apply (packing_put m0 img _ _ 40 8 (lenZ w1)) in Hp2; [|lia].
  apply (packing_put m0 img _ _ 60 2 0) in Hp2; [|rewrite length_put; lia].
  assert (pack_header img = put_field (put_field w1 40 (be_bytes 8 (lenZ w1))) 60 (be_bytes 2 0)) as -> by reflexivity.
  eexists. split_and!; [|exact Hp2|].
  - do 2 f_equal. unfold lenZ. rewrite !length_put by (rewrite ?length_put; lia). lia.
  - assert (0 <= esz + psz < 2 ^ 64) by lia. split.
    + unfold lenZ. rewrite !length_put by (rewrite ?length_put; lia). lia.
    + rewrite !be_field_put_other by (rewrite ?length_put; lia). unfold w1. rewrite be_field_app_l by lia.
      unfold w0. rewrite be_field_put by lia. apply Z.mod_small. lia.
    + rewrite be_field_put_other by (rewrite ?length_put; lia). rewrite be_field_put by lia. rewrite Z.mod_small; unfold lenZ; lia.
    + rewrite !be_field_put_other by (rewrite ?length_put; lia). unfold w1. rewrite be_field_app_l by lia.
      unfold w0. rewrite be_field_put_other by lia. unfold Edf.be_field, Edf.field. rewrite drop_0, skipn_firstn_comm, take_take.
      unfold e_shentsize, Edf.be_field, Edf.field. do 2 f_equal. lia.
    + rewrite be_field_put by (rewrite length_put; lia). done.
Qed.

Lemma sh_addr_temp W m k : packing W m -> (k < Z.to_nat snum)%nat ->
  shdr_addr m TEMP_BASE (Z.of_nat k) = TEMP_BASE + Z.of_nat (Z.to_nat (soff + ssz * Z.of_nat k)).
Proof.
  intros Hp Hk. destruct sizes as (_ & _ & Hse & Hsn & Hso). destruct Hok as [_ _ _ [_ Hs] _ _ _]. pose proof img_small.
  unfold shdr_addr. rewrite (temp_shoff _ _ Hp), (temp_shentsize _ _ Hp). rewrite swrap_small by nia.
  rewrite wrap_small by (unfold TEMP_BASE; nia). nia.
Qed.

Lemma sh_at_temp W m k (off n : nat) : packing W m -> (k < Z.to_nat snum)%nat -> (off + n <= 64)%nat ->
  ld m (shdr_addr m TEMP_BASE (Z.of_nat k) + Z.of_nat off) (Z.of_nat n) = be_field (sh k) off n.
Proof.
  intros Hp Hk Hn. destruct sizes as (_ & _ & Hse & Hsn & Hso). destruct Hok as [_ _ _ [_ Hs] _ _ _].
  rewrite (sh_addr_temp _ _ k Hp Hk).
  replace (TEMP_BASE + Z.of_nat (Z.to_nat (soff + ssz * Z.of_nat k)) + Z.of_nat off)
    with (TEMP_BASE + Z.of_nat (Z.to_nat (soff + ssz * Z.of_nat k) + off)) by lia.
  rewrite (packing_img m0 img W) by (done || (unfold lenZ in *; nia)).
  unfold Edf.be_field, shdr, Edf.field. rewrite skipn_firstn_comm, take_take, drop_drop. do 3 f_equal. lia.
Qed.

Lemma hdr_ok_put62 hdr n v : hdr_ok hdr n -> hdr_ok (put_field hdr 62 (be_bytes 2 v)) n.
Proof.
  destruct sizes as (He & Hps & _). intros [H1 H2 H3 H4 H5].
  assert (64 <= length hdr)%nat by (unfold lenZ in *; lia).
  split; [unfold lenZ in *; by rewrite length_put by lia|by rewrite be_field_put_other by lia..].
Qed.

Lemma hdr_ok_put60 hdr n n' : hdr_ok hdr n -> Z.of_nat n' < 65536 -> hdr_ok (put_field hdr 60 (be_bytes 2 (Z.of_nat n'))) n'.
Proof.
  destruct sizes as (He & Hps & _). intros [H1 H2 H3 H4 H5] Hn.
  assert (64 <= length hdr)%nat by (unfold lenZ in *; lia).
  split; [unfold lenZ in *; by rewrite length_put by lia|by rewrite be_field_put_other by lia..|].
  rewrite be_field_put by lia. apply Z.mod_small. change (256 ^ Z.of_nat 2) with 65536. lia.
Qed.

Definition sized (hs : list (list Z)) : Prop := Forall (fun h => length h = Z.to_nat ssz) hs.

(** the header of one section, kept or not *)
Lemma copy_header_step hdr hs m k : packing (hdr ++ concat hs) m -> hdr_ok hdr (length hs) -> sized hs -> (length hs <= k)%nat ->
  (k < Z.to_nat snum)%nat -> SYMTAB_BASE + esz + psz + ssz * snum <= TEMP_BASE -> kept (sh k) = true ->
  let t := pack_section img (hdr, hs) k in
  let m1 := if (sh_type (sh k) =? SHT_STRTAB) && (Z.of_nat k =? be_field img 62 2)
            then st m (SYMTAB_BASE + 62) 2 (ehdr_shnum m SYMTAB_BASE) else m in
  exists m2, memcpy m1 (SYMTAB_BASE + lenZ (hdr ++ concat hs)) (shdr_addr m TEMP_BASE (Z.of_nat k)) (ehdr_shentsize m1 TEMP_BASE) = Ret m2 /\
    packing (t.1 ++ concat t.2) (st m2 (SYMTAB_BASE + 60) 2 (u16 (ehdr_shnum m2 SYMTAB_BASE + 1))) /\
    hdr_ok t.1 (length t.2) /\ t.2 = hs ++ [sh k] /\ lenZ (t.1 ++ concat t.2) = lenZ (hdr ++ concat hs) + ssz.
Proof.
  intros Hp Hh Hhs Hk Hkn Hroom Hkept t m1. destruct sizes as (Hehl & Hpsl & Hse & Hsn & Hso).
  pose proof (hk_length _ _ Hh) as Hl. pose proof img_small as Himg.
  assert (length (concat hs) = (Z.to_nat ssz * length hs)%nat) as Hlc by (by apply concat_length_n).
  set (hdr1 := if (sh_type (sh k) =? SHT_STRTAB) && (Z.of_nat k =? be_field img 62 2) then put_field hdr 62 (be_bytes 2 (lenZ hs)) else hdr).
  assert (packing (hdr1 ++ concat hs) m1 /\ hdr_ok hdr1 (length hs)) as [Hp1 Hh1].
  { unfold m1, hdr1. destruct (_ && _); [|done]. split; [|by apply hdr_ok_put62].
    assert (ehdr_shnum m SYMTAB_BASE = lenZ hs) as ->.
    { transitivity (be_field (hdr ++ concat hs) 60 2); [|rewrite be_field_app_l by (unfold lenZ in *; lia); apply Hh].
      change (ehdr_shnum m SYMTAB_BASE) with (ld m (SYMTAB_BASE + Z.of_nat 60) (Z.of_nat 2)). apply (packing_ld m0 img); [done|].
      rewrite length_app. unfold lenZ in *. lia. }
    rewrite <- put_app_l by (rewrite be_bytes_length; unfold lenZ in *; lia).
    apply (packing_put m0 img _ _ 62 2 (lenZ hs)); [done|]. rewrite length_app. unfold lenZ in *. lia. }
  pose proof (hk_length _ _ Hh1) as Hl1.
  rewrite (temp_shentsize _ _ Hp1), (sh_addr_temp _ _ k Hp Hkn).
  destruct (shdr_ok k Hkn) as [Hlk _].
  destruct (packing_append m0 img _ m1 (Z.to_nat (soff + ssz * Z.of_nat k)) (Z.to_nat ssz) Hp1) as (m2 & E2 & Hp2).
  { destruct Hok as [_ _ _ [_ Hs] _ _ _]. unfold lenZ in *. nia. }
  { unfold lenZ in *. rewrite length_app, Hlc. nia. }
  fold (shdr img k) in Hp2. replace (lenZ (hdr1 ++ concat hs)) with (lenZ (hdr ++ concat hs)) in E2 by (rewrite !lenZ_app; lia).
  rewrite (Z2Nat.id ssz) in E2 by lia. exists m2. split; [exact E2|]. rewrite <- app_assoc in Hp2.
  assert (concat hs ++ sh k = concat (hs ++ [sh k])) as Ec by (rewrite concat_app; cbn [concat]; by rewrite app_nil_r).
  rewrite Ec in Hp2. unfold t, pack_section. rewrite Hkept. fold hdr1. cbn [fst snd].
  assert (ehdr_shnum m2 SYMTAB_BASE = lenZ hs) as ->.
  { transitivity (be_field (hdr1 ++ concat (hs ++ [sh k])) 60 2); [|rewrite be_field_app_l by (unfold lenZ in *; lia); apply Hh1].
    change (ehdr_shnum m2 SYMTAB_BASE) with (ld m2 (SYMTAB_BASE + Z.of_nat 60) (Z.of_nat 2)). apply (packing_ld m0 img); [done|].
    rewrite length_app. unfold lenZ in *. lia. }
  rewrite wrap_small by (unfold lenZ; lia). split_and!.
  - rewrite <- put_app_l by (rewrite be_bytes_length; unfold lenZ in *; lia).
    apply (packing_put m0 img _ _ 60 2 (lenZ hs + 1)); [done|]. rewrite length_app. unfold lenZ in *. lia.
  - replace (lenZ hs + 1) with (Z.of_nat (length (hs ++ [sh k]))) by (rewrite length_app; unfold lenZ; cbn [length]; lia).
    apply (hdr_ok_put60 _ (length hs)); [done|]. rewrite length_app. cbn [length]. lia.
  - done.
  - rewrite <- Ec, !lenZ_app. unfold lenZ in *. rewrite length_put by lia. lia.
Qed.

Lemma copy_headers_spec n : forall (k fuel : nat) hdr hs m, packing (hdr ++ concat hs) m -> hdr_ok hdr (length hs) -> sized hs ->
  (length hs <= k)%nat -> (k + n = Z.to_nat snum)%nat -> (n < fuel)%nat -> SYMTAB_BASE + esz + psz + ssz * snum <= TEMP_BASE ->
  let t := fold_left (pack_section img) (seq k n) (hdr, hs) in
  exists m', copy_headers fuel (Z.of_nat k) (SYMTAB_BASE + lenZ (hdr ++ concat hs)) m = Ret (SYMTAB_BASE + lenZ (t.1 ++ concat t.2), m') /\
    packing (t.1 ++ concat t.2) m' /\ hdr_ok t.1 (length t.2) /\ sized t.2 /\ (length t.2 <= Z.to_nat snum)%nat.
Proof.
  induction n as [|n IH]; intros k fuel hdr hs m Hp Hh Hhs Hk Hn Hf Hroom; (destruct fuel as [|fuel]; [lia|]);
    cbn [copy_headers seq fold_left]; rewrite (temp_shnum _ _ Hp); destruct sizes as (_ & _ & Hse & Hsn & _).
  - rewrite (proj2 (Z.ltb_ge _ _)) by lia. cbn [negb fst snd]. exists m. split_and!; try done; lia.
  - rewrite (proj2 (Z.ltb_lt _ _)) by lia. cbn [negb].
    assert (ld m (shdr_addr m TEMP_BASE (Z.of_nat k) + 4) 4 = sh_type (sh k)) as ->
      by (exact (sh_at_temp _ m k 4 4 Hp ltac:(lia) ltac:(lia))).
    fold (kept (sh k)). replace (Z.of_nat k + 1) with (Z.of_nat (S k)) by lia. destruct (kept (sh k)) eqn:Ek.
    + rewrite (temp_shstrndx _ _ Hp).
      destruct (copy_header_step hdr hs m k Hp Hh Hhs Hk ltac:(lia) Hroom Ek) as (m2 & E2 & Hp2 & Hh2 & Et & El).
      rewrite E2. cbn [mbind outcome_bind]. destruct (pack_section img (hdr, hs) k) as [hdr2 hs2]. cbn [fst snd] in *. subst hs2.
      rewrite (temp_shentsize _ _ Hp2). rewrite <- Z.add_assoc, <- El.
      apply (IH (S k) fuel hdr2 (hs ++ [sh k]) _ Hp2 Hh2); try done; try lia.
      { apply Forall_app. split; [done|]. constructor; [|done]. by apply shdr_ok; lia. }
      { rewrite length_app. cbn [length]. lia. }
    + assert (pack_section img (hdr, hs) k = (hdr, hs)) as -> by (unfold pack_section; by rewrite Ek).
      apply IH; try done; lia.
Qed.

(** ** The kept headers behind the ELF header *)

Section kept.
Context (hdr tail : list Z) (hs : list (list Z)) (Hh : hdr_ok hdr (length hs)) (Hhs : sized hs).
Context (m : store) (Hp : packing (hdr ++ concat hs ++ tail) m).

Lemma hdr_member (off n : nat) : (off + n <= 64)%nat -> ld m (SYMTAB_BASE + Z.of_nat off) (Z.of_nat n) = be_field hdr off n.
Proof.
  intros Hn. destruct sizes as (? & ? & _). pose proof (hk_length _ _ Hh) as Hl. unfold lenZ in Hl.
  rewrite (packing_ld m0 img (hdr ++ concat hs ++ tail)) by (done || (rewrite length_app; lia)). apply be_field_app_l. lia.
Qed.

Lemma kept_shnum : ehdr_shnum m SYMTAB_BASE = lenZ hs.
Proof. etransitivity; [exact (hdr_member 60 2 ltac:(lia))|apply Hh]. Qed.

Lemma kept_shentsize : ehdr_shentsize m SYMTAB_BASE = ssz.
Proof. etransitivity; [exact (hdr_member 58 2 ltac:(lia))|apply Hh]. Qed.

Definition place (k : nat) : nat := length hdr + Z.to_nat ssz * k.

Lemma kept_addr k : (k <= length hs)%nat -> shdr_addr m SYMTAB_BASE (Z.of_nat k) = SYMTAB_BASE + Z.of_nat (place k).
Proof.
  intros Hk. destruct sizes as (He & Hps & Hse & _). pose proof (hk_length _ _ Hh) as Hl.
  assert (ehdr_shoff m SYMTAB_BASE = esz + psz) as Hso by (etransitivity; [exact (hdr_member 40 8 ltac:(lia))|apply Hh]).
  destruct Hp as [_ _ Hroom]. rewrite !lenZ_app in Hroom. unfold lenZ in *. rewrite (concat_length_n (Z.to_nat ssz)) in Hroom by done.
  unfold shdr_addr, place. rewrite Hso, kept_shentsize. unfold TEMP_BASE, SYMTAB_BASE in *.
  rewrite swrap_small by nia. rewrite wrap_small by nia. nia.
Qed.

Lemma kept_ld k h (off n : nat) : hs !! k = Some h -> (off + n <= 64)%nat ->
  ld m (shdr_addr m SYMTAB_BASE (Z.of_nat k) + Z.of_nat off) (Z.of_nat n) = be_field h off n.
Proof.
  intros Hk Hn. destruct sizes as (_ & _ & Hse & _). assert (k < length hs)%nat as Hlt by (by eapply lookup_lt_Some).
  rewrite kept_addr by lia. unfold place. replace (SYMTAB_BASE + Z.of_nat (length hdr + Z.to_nat ssz * k) + Z.of_nat off)
    with (SYMTAB_BASE + Z.of_nat (length hdr + (Z.to_nat ssz * k + off))) by lia.
  rewrite (packing_ld m0 img (hdr ++ concat hs ++ tail)).
  - unfold Edf.be_field. rewrite field_app_r. by rewrite (field_record _ hs Hhs tail k h) by (done || lia).
  - done.
  - rewrite !length_app, (concat_length_n (Z.to_nat ssz)) by done. nia.
Qed.

Lemma kept_read k h : hs !! k = Some h -> read_bytes m (shdr_addr m SYMTAB_BASE (Z.of_nat k)) ssz = h.
Proof.
  intros Hk. destruct sizes as (_ & _ & Hse & _). assert (k < length hs)%nat as Hlt by (by eapply lookup_lt_Some).
  rewrite kept_addr by lia. unfold place. replace ssz with (Z.of_nat (Z.to_nat ssz)) at 2 by lia.
  rewrite (read_part m SYMTAB_BASE (hdr ++ concat hs ++ tail)).
  - rewrite field_app_r. rewrite <- (Nat.add_0_r (Z.to_nat ssz * k)), (field_record _ hs Hhs tail k h) by (done || lia).
    unfold Edf.field. rewrite drop_0. apply take_ge. rewrite (Forall_lookup_1 _ _ _ _ Hhs Hk). lia.
  - by apply (packing_table m0 img).
  - rewrite !length_app, (concat_length_n (Z.to_nat ssz)) by done. nia.
Qed.

Lemma kept_put k h (off n : nat) v : hs !! k = Some h -> (off + n <= 64)%nat ->
  packing (hdr ++ concat (<[k := put_field h off (be_bytes n v)]> hs) ++ tail)
    (st m (shdr_addr m SYMTAB_BASE (Z.of_nat k) + Z.of_nat off) n v).
Proof.
  intros Hk Hn. destruct sizes as (_ & _ & Hse & _). assert (k < length hs)%nat as Hlt by (by eapply lookup_lt_Some).
  rewrite kept_addr by lia. unfold place. rewrite <- (put_record _ hs Hhs tail) by (done || (rewrite be_bytes_length; lia)).
  rewrite <- put_app_r. replace (SYMTAB_BASE + Z.of_nat (length hdr + Z.to_nat ssz * k) + Z.of_nat off)
    with (SYMTAB_BASE + Z.of_nat (length hdr + (Z.to_nat ssz * k + off))) by lia.
  apply packing_put; [done|]. rewrite !length_app, (concat_length_n (Z.to_nat ssz)) by done. nia.
Qed.

Lemma find_link_spec tmp x n : read_bytes m tmp ssz = x -> forall j fuel, (j + n = length hs)%nat -> (n < fuel)%nat ->
  find_link fuel tmp (Z.of_nat j) m = Ret ((fun p => Z.of_nat (j + p.1)) <$> list_find (fun h => h = x) (drop j hs)).
Proof.
  intros Hx. induction n as [|n IH]; intros j fuel Hj Hf; (destruct fuel as [|fuel]; [lia|]); cbn [find_link];
    rewrite kept_shnum, kept_shentsize.
  - rewrite (proj2 (Z.ltb_ge _ _)) by (unfold lenZ; lia). by rewrite drop_ge by lia.
  - rewrite (proj2 (Z.ltb_lt _ _)) by (unfold lenZ; lia). cbn [negb].
    destruct (lookup_lt_is_Some_2 hs j ltac:(lia)) as [h Hk]. rewrite (kept_read j h Hk), Hx.
    rewrite (drop_S hs h j Hk). cbn [list_find]. destruct (decide (h = x)) as [->|Hne].
    + rewrite bool_decide_true by done. cbn. by rewrite Nat.add_0_r.
    + rewrite bool_decide_false by congruence. replace (Z.of_nat j + 1) with (Z.of_nat (S j)) by lia.
      rewrite IH by lia. f_equal. destruct (list_find _ _) as [[i y]|]; [|done]. cbn. do 2 f_equal. lia.
Qed.
End kept.

Lemma list_find_pointwise (P Q : list Z -> Prop) `{!forall x, Decision (P x), !forall x, Decision (Q x)} l l' :
  Forall2 (fun a b => P a <-> Q b) l l' -> fst <$> list_find P l = fst <$> list_find Q l'.
Proof.
  induction 1 as [|a b l l' Hab _ IH]; [done|]. cbn [list_find].
  destruct (decide (P a)), (decide (Q b)); try tauto.
  destruct (list_find P l) as [[i x]|], (list_find Q l') as [[j y]|]; cbn in *; congruence.
Qed.

Lemma relink_length hs h : length h = Z.to_nat ssz -> length (relink img hs h) = Z.to_nat ssz.
Proof.
  intros Hl. destruct sizes as (_ & _ & ? & _). unfold relink. destruct (_ =? 0); [done|]. destruct (list_find _ _) as [[j x]|]; [|done].
  rewrite length_put by lia. done.
Qed.

Lemma relink_member hs h off n : length h = Z.to_nat ssz -> (off + n <= 40)%nat -> be_field (relink img hs h) off n = be_field h off n.
Proof.
  intros Hl Hn. destruct sizes as (_ & _ & ? & _). unfold relink. destruct (_ =? 0); [done|]. destruct (list_find _ _) as [[j x]|]; [|done].
  by rewrite be_field_put_other by lia.
Qed.

(** the headers kept are headers of the file *)
Definition from_file (hs : list (list Z)) : Prop :=
  forall h, h ∈ hs -> exists i, (i < Z.to_nat snum)%nat /\ h = sh i /\ kept h = true.

Lemma from_file_sized hs : from_file hs -> sized hs.
Proof. intros Hf. apply Forall_forall. intros h Hh. destruct (Hf h Hh) as (i & Hi & -> & _). by apply shdr_ok. Qed.

(** a search among headers whose links were moved in part *)
Lemma find_moved hs h i : from_file hs -> h ∈ hs -> sh_link h <> 0 ->
  fst <$> list_find (fun x => x = sh (Z.to_nat (sh_link h))) (map (relink img hs) (take i hs) ++ drop i hs)
  = fst <$> list_find (fun x => x = sh (Z.to_nat (sh_link h))) hs.
Proof.
  intros Hf Hh Hl. destruct (Hf h Hh) as (k & Hk & -> & Hkept). destruct Hok as [_ _ _ _ Hlinks _ _].
  destruct (Hlinks k Hk Hkept Hl) as (_ & _ & Hstr). apply list_find_pointwise.
  refine (eq_ind _ (Forall2 _ _) _ _ (take_drop i hs)). apply Forall2_app; [|by apply Forall_Forall2_diag, Forall_true].
  apply Forall2_fmap_l, Forall_Forall2_diag, Forall_forall. intros a Ha.
  apply list_elem_of_lookup_1 in Ha as [n Ha]. apply lookup_take_Some in Ha as [Ha _]. apply list_elem_of_lookup_2 in Ha.
  destruct (Hf a Ha) as (ka & Hka & -> & Hakept). unfold compose, relink. destruct (decide (sh_link (sh ka) = 0)) as [E0|Hne].
  { by rewrite E0. }
  destruct (Hlinks ka Hka Hakept Hne) as (Hsym & _). destruct (shdr_ok ka Hka) as [Hlen _].
  fold (relink img hs (sh ka)). split; intros E; exfalso; apply (f_equal sh_type) in E; unfold sh_type in *;
    rewrite ?relink_member in E by (done || lia); rewrite Hstr, Hsym in E; discriminate E.
Qed.

Lemma fix_links_spec hdr hs n : hdr_ok hdr (length hs) -> from_file hs -> forall i fuel m,
  packing (hdr ++ concat (map (relink img hs) (take i hs) ++ drop i hs) ++ []) m -> (i + n = length hs)%nat -> (n < fuel)%nat ->
  (length hs < counts)%nat ->
  exists m', fix_links fuel (Z.of_nat i) m = Ret m' /\ packing (hdr ++ concat (map (relink img hs) hs) ++ []) m'.
Proof.
  intros Hh Hf. pose proof (from_file_sized hs Hf) as Hs.
  induction n as [|n IH]; intros i fuel m Hp Hi Hfuel Hmax; (destruct fuel as [|fuel]; [lia|]); cbn [fix_links].
  all: set (cur := map (relink img hs) (take i hs) ++ drop i hs) in *.
  all: assert (length cur = length hs) as Hlc by (unfold cur; rewrite length_app, length_map, length_take, length_drop; lia).
  all: assert (sized cur) as Hsc by (unfold cur; apply Forall_app; split; [|by apply Forall_drop];
    apply Forall_fmap, Forall_take; eapply Forall_impl; [exact Hs|]; intros x; apply relink_length).
  all: assert (hdr_ok hdr (length cur)) as Hhc by (by rewrite Hlc).
  all: rewrite (kept_shnum hdr [] cur Hhc m Hp).
  { rewrite (proj2 (Z.ltb_ge _ _)) by (unfold lenZ; lia). cbn [negb]. exists m. split; [done|]. unfold cur in Hp.
    rewrite take_ge, drop_ge, (app_nil_r (map _ _)) in Hp by lia. exact Hp. }
  rewrite (proj2 (Z.ltb_lt _ _)) by (unfold lenZ; lia). cbn [negb].
  destruct (lookup_lt_is_Some_2 hs i ltac:(lia)) as [h Hk].
  assert (cur !! i = Some h) as Hkc.
  { unfold cur. rewrite lookup_app_r by (rewrite length_map, length_take; lia). rewrite length_map, length_take, lookup_drop.
    rewrite Nat.min_l by lia. by rewrite Nat.sub_diag, Nat.add_0_r. }
  pose proof (kept_ld hdr [] cur Hhc Hsc m Hp i h 40 4 Hkc ltac:(lia)) as Hlink.
  change (Z.of_nat 40) with 40 in Hlink. change (Z.of_nat 4) with 4 in Hlink. rewrite Hlink. fold (sh_link h).
  assert (forall x, <[i := x]> cur = map (relink img hs) (take i hs) ++ x :: drop (S i) hs) as Hins.
  { intros x. unfold cur. rewrite (drop_S hs h i Hk). rewrite insert_app_r_alt by (rewrite length_map, length_take; lia).
    rewrite length_map, length_take, Nat.min_l by lia. by rewrite Nat.sub_diag. }
  assert (forall m2, packing (hdr ++ concat (<[i := relink img hs h]> cur) ++ []) m2 ->
    exists m', fix_links fuel (Z.of_nat (S i)) m2 = Ret m' /\ packing (hdr ++ concat (map (relink img hs) hs) ++ []) m') as Hnext.
  { intros m2 Hp2. apply IH; try done; try lia. rewrite Hins in Hp2. rewrite (take_S_r hs i h Hk), map_app, <- app_assoc. exact Hp2. }
  replace (Z.of_nat i + 1) with (Z.of_nat (S i)) by lia. unfold relink in Hnext. destruct (Z.eqb_spec (sh_link h) 0) as [E0|Hne].
  { apply Hnext. by rewrite list_insert_id by done. }
  destruct (Hf h ltac:(by eapply list_elem_of_lookup_2)) as (k & Hkk & Eh & Hkept).
  pose proof (find_moved hs h i Hf ltac:(by eapply list_elem_of_lookup_2) Hne) as Hfind. fold cur in Hfind.
  destruct (ek_links _ Hok k Hkk ltac:(by rewrite <- Eh) ltac:(by rewrite <- Eh)) as (_ & Hlt & _). rewrite <- Eh in Hlt.
  destruct (shdr_ok k Hkk) as [_ Hbytes]. rewrite <- Eh in Hbytes. pose proof (be_field_range h 40 4 Hbytes) as Hlr. fold (sh_link h) in Hlr.
  destruct sizes as (_ & _ & Hse & Hsn & Hso).
  set (l := Z.to_nat (sh_link h)) in *.
  assert (u64 (TEMP_BASE + ehdr_shoff m TEMP_BASE + u32 (ehdr_shentsize m TEMP_BASE * sh_link h)) = shdr_addr m TEMP_BASE (Z.of_nat l)) as ->.
  { rewrite (sh_addr_temp _ m l Hp) by lia. rewrite (temp_shoff _ _ Hp), (temp_shentsize _ _ Hp).
    destruct Hok as [_ _ _ [_ Hsh] _ _ _]. pose proof img_small. replace (Z.of_nat l) with (sh_link h) by (unfold l; lia).
    assert (0 <= ssz * sh_link h <= ssz * snum) as Hprod by nia. unfold TEMP_BASE. rewrite !(wrap_small _ (ssz * sh_link h)) by lia.
    rewrite wrap_small by lia. lia. }
  assert (read_bytes m (shdr_addr m TEMP_BASE (Z.of_nat l)) ssz = sh l) as Hread.
  { rewrite (sh_addr_temp _ m l Hp) by lia. destruct Hok as [_ _ _ [_ Hsh] _ _ _].
    pose proof (read_part m TEMP_BASE img (Z.to_nat (soff + ssz * Z.of_nat l)) (Z.to_nat ssz) (packing_holds m0 img _ _ Hp)) as Hr.
    rewrite (Z2Nat.id ssz) in Hr by lia. apply Hr. unfold lenZ in Hsh. nia. }
  pose proof (find_link_spec hdr [] cur Hhc Hsc m Hp _ _ (length cur) Hread 0 counts ltac:(lia) ltac:(lia)) as Hfl.
  change (Z.of_nat 0) with 0 in Hfl. rewrite Hfl. cbn [mbind outcome_bind]. rewrite drop_0.
  destruct (list_find (fun x => x = sh l) cur) as [[j x]|]; destruct (list_find (fun x => x = sh l) hs) as [[j' x']|]; cbn in Hfind; try discriminate Hfind.
  - injection Hfind as <-. cbn [fmap option_fmap option_map fst]. apply Hnext.
    exact (kept_put hdr [] cur Hhc Hsc m Hp i h 40 4 (Z.of_nat (0 + j)) Hkc ltac:(lia)).
  - cbn [fmap option_fmap option_map]. apply Hnext. by rewrite list_insert_id by done.
Qed.

Definition in_image (h : list Z) : Prop :=
  length h = Z.to_nat ssz /\ 0 <= sh_offset h /\ 0 <= sh_size h /\ sh_offset h + sh_size h <= lenZ img.

Lemma contents_length h : in_image h -> lenZ (contents img h) = sh_size h.
Proof.
  intros (_ & Ho & Hs & Hi). unfold contents, Edf.field, lenZ in *. rewrite length_take, length_drop. lia.
Qed.

Lemma copy_sections_spec hdr n rest : Forall in_image rest -> hdr_ok hdr n -> forall dn tail fuel m,
  sized dn -> length (dn ++ rest) = n -> (length rest < fuel)%nat ->
  let W := hdr ++ concat (dn ++ rest) ++ tail in
  packing W m -> SYMTAB_BASE + lenZ W + total_size rest <= TEMP_BASE ->
  exists x m', copy_sections fuel (Z.of_nat (length dn)) (SYMTAB_BASE + lenZ W) m = Ret (x, m') /\
    packing (hdr ++ concat (dn ++ relocate (lenZ W) rest) ++ tail ++ concat (map (contents img) rest)) m'.
Proof.
  intros Hrest Hh. destruct sizes as (_ & _ & Hse & _). induction Hrest as [|h rest Hin Hrest IH]; intros dn tail fuel m Hdn Hn Hf W Hp Hroom;
    (destruct fuel as [|fuel]; [lia|]); cbn [copy_sections].
  { assert (sized (dn ++ [])) as Hsz by (by rewrite app_nil_r). assert (hdr_ok hdr (length (dn ++ []))) as Hh' by (by rewrite Hn). rewrite (kept_shnum hdr tail _ Hh' m Hp).
    rewrite (proj2 (Z.ltb_ge _ _)) by (rewrite app_nil_r; unfold lenZ; lia). cbn [negb]. eexists _, m. split; [done|].
    cbn [relocate map concat]. rewrite !app_nil_r. unfold W in Hp. by rewrite app_nil_r in Hp. }
  assert (sized (dn ++ rest)) as Hsz by (apply Forall_app; split; [done|]; eapply Forall_impl; [exact Hrest|]; by intros ? []).
  pose proof (contents_length h Hin) as Hlen. destruct Hin as (Hlh & Hoff & Hsize & Hend).
  set (hs := dn ++ h :: rest) in *. assert (sized hs) as Hs.
  { unfold hs. apply Forall_app in Hsz as [? ?]. apply Forall_app. split; [done|]. by constructor. }
  assert (hs !! length dn = Some h) as Hk by (unfold hs; by apply list_lookup_middle).
  assert (hdr_ok hdr (length hs)) as Hh' by (by rewrite Hn). rewrite (kept_shnum hdr tail hs Hh' m Hp).
  rewrite (proj2 (Z.ltb_lt _ _)) by (unfold hs, lenZ; rewrite length_app; cbn [length]; lia). cbn [negb].
  pose proof (kept_ld hdr tail hs Hh' Hs m Hp _ h 24 8 Hk ltac:(lia)) as H24. pose proof (kept_ld hdr tail hs Hh' Hs m Hp _ h 32 8 Hk ltac:(lia)) as H32.
  change (Z.of_nat 24) with 24 in H24. change (Z.of_nat 32) with 32 in H32. change (Z.of_nat 8) with 8 in *.
  rewrite H24, H32. fold (sh_offset h) (sh_size h). pose proof img_small as Himg.
  rewrite wrap_small by (unfold TEMP_BASE; lia). cbn [total_size foldr] in Hroom. fold (total_size rest) in Hroom.
  assert (0 <= total_size rest) as Htot.
  { apply total_size_nonneg. eapply Forall_impl; [exact Hrest|]. by intros ? (_ & _ & ? & _). }
  destruct (packing_append m0 img W m (Z.to_nat (sh_offset h)) (Z.to_nat (sh_size h)) Hp) as (m1 & E1 & Hp1); [unfold lenZ in *; lia|lia|].
  rewrite !Z2Nat.id in E1 by lia. rewrite E1. cbn [mbind outcome_bind]. fold (contents img h) in Hp1.
  assert (packing (hdr ++ concat hs ++ (tail ++ contents img h)) m1) as Hp1' by (unfold W in Hp1; by rewrite <- !app_assoc in Hp1).
  assert (shdr_addr m SYMTAB_BASE (Z.of_nat (length dn)) = shdr_addr m1 SYMTAB_BASE (Z.of_nat (length dn))) as ->.
  { apply lookup_lt_Some in Hk. rewrite (kept_addr hdr tail hs Hh' Hs m Hp), (kept_addr hdr (tail ++ contents img h) hs Hh' Hs m1 Hp1') by lia. done. }
  replace (SYMTAB_BASE + lenZ W - SYMTAB_BASE) with (lenZ W) by lia.
  pose proof (kept_put hdr (tail ++ contents img h) hs Hh' Hs m1 Hp1' _ h 24 8 (lenZ W) Hk ltac:(lia)) as Hp2.
  set (m2 := st m1 (shdr_addr m1 SYMTAB_BASE (Z.of_nat (length dn)) + Z.of_nat 24) 8 (lenZ W)) in *.
  change (st m1 (shdr_addr m1 SYMTAB_BASE (Z.of_nat (length dn)) + 24) 8 (lenZ W)) with m2.
  set (h' := put_field h 24 (be_bytes 8 (lenZ W))) in *.
  assert (length h' = Z.to_nat ssz) as Hlh' by (unfold h'; rewrite length_put by lia; done).
  assert (<[length dn := h']> hs = (dn ++ [h']) ++ rest) as Ehs.
  { unfold hs. rewrite insert_app_r_alt, Nat.sub_diag by lia. by rewrite <- app_assoc. }
  rewrite Ehs in Hp2. assert (length ((dn ++ [h']) ++ rest) = n) as Hn' by (rewrite <- Ehs, length_insert; done).
  assert (sized ((dn ++ [h']) ++ rest)) as Hs2.
  { apply Forall_app in Hsz as [? ?]. apply Forall_app. split; [|done]. apply Forall_app. split; [done|]. by constructor. }
  assert (hdr_ok hdr (length ((dn ++ [h']) ++ rest))) as Hh2 by (by rewrite Hn').
  assert (((dn ++ [h']) ++ rest) !! length dn = Some h') as Hk2 by (rewrite <- app_assoc; by apply list_lookup_middle).
  assert (shdr_addr m1 SYMTAB_BASE (Z.of_nat (length dn)) = shdr_addr m2 SYMTAB_BASE (Z.of_nat (length dn))) as Ea.
  { apply lookup_lt_Some in Hk, Hk2. rewrite (kept_addr hdr _ hs Hh' Hs m1 Hp1'), (kept_addr hdr _ _ Hh2 Hs2 m2 Hp2) by lia. done. }
  pose proof (kept_ld hdr _ _ Hh2 Hs2 m2 Hp2 _ h' 32 8 Hk2 ltac:(lia)) as H32'. rewrite <- Ea in H32'.
  change (Z.of_nat 32) with 32 in H32'. change (Z.of_nat 8) with 8 in H32'. rewrite H32'.
  unfold h' at 1. rewrite be_field_put_other by lia. fold (sh_size h).
  assert (lenZ (hdr ++ concat ((dn ++ [h']) ++ rest) ++ tail ++ contents img h) = lenZ W + sh_size h) as El.
  { rewrite <- Hlen. unfold W. rewrite !lenZ_app. unfold lenZ. rewrite !(concat_length_n (Z.to_nat ssz)) by done.
    rewrite Hn', Hn. lia. }
  rewrite wrap_small by (unfold SYMTAB_BASE, TEMP_BASE in *; pose proof (lenZ_nonneg W); lia).
  replace (Z.of_nat (length dn) + 1) with (Z.of_nat (length (dn ++ [h']))) by (rewrite length_app; cbn [length]; lia).
  rewrite <- Z.add_assoc, <- El.
  destruct (IH (dn ++ [h']) (tail ++ contents img h) fuel m2) as (x & m' & E & Hp').
  { apply Forall_app in Hs2 as [? _]. done. }
  { done. }
  { cbn [length] in Hf. lia. }
  { exact Hp2. }
  { rewrite El. lia. }
  exists x, m'. split; [exact E|]. rewrite El in Hp'. cbn [relocate map concat]. fold h'. rewrite <- !app_assoc in Hp'. exact Hp'.
Qed.

Lemma relocate_length base hs : length (relocate base hs) = length hs.
Proof. revert base. induction hs as [|h hs IH]; intros base; [done|]. cbn. by rewrite IH. Qed.

Lemma total_size_relink hs l : sized l -> total_size (map (relink img hs) l) = total_size l.
Proof.
  unfold total_size. induction 1 as [|h l Hl _ IH]; [done|]. cbn [map foldr]. rewrite IH. unfold sh_size. by rewrite relink_member by (done || lia).
Qed.

Lemma relink_in_image hs l : from_file l -> Forall in_image (map (relink img hs) l).
Proof.
  intros Hf. apply Forall_fmap, Forall_forall. intros h Hh. destruct (Hf h Hh) as (i & Hi & -> & Hk).
  destruct (shdr_ok i Hi) as [Hl Hb]. unfold compose, in_image. rewrite relink_length by done. unfold sh_offset, sh_size.
  rewrite !relink_member by (done || lia). pose proof (be_field_range (sh i) 24 8 Hb). pose proof (be_field_range (sh i) 32 8 Hb).
  split_and!; try lia. by apply Hok.
Qed.

Lemma packed_from_file l hdr hs : (forall k, k ∈ l -> (k < Z.to_nat snum)%nat) -> from_file hs ->
  from_file (fold_left (pack_section img) l (hdr, hs)).2.
Proof.
  revert hdr hs. induction l as [|k l IH]; intros hdr hs Hl Hf; [exact Hf|]. cbn [fold_left].
  assert (forall i, i ∈ l -> (i < Z.to_nat snum)%nat) as Hl' by (intros i Hi; apply Hl; by apply list_elem_of_further).
  unfold pack_section at 2. destruct (kept (sh k)) eqn:Ek; apply IH; try done.
  intros h [Hh|Hh]%elem_of_app; [by apply Hf|]. apply list_elem_of_singleton in Hh as ->. exists k. split_and!; [|done|done].
  apply Hl, list_elem_of_here.
Qed.

Lemma from_file_sizes hs : from_file hs -> 0 <= total_size hs.
Proof.
  intros Hf. apply total_size_nonneg, Forall_forall. intros h Hh. destruct (Hf h Hh) as (i & Hi & -> & _).
  apply (be_field_range (sh i) 32 8). by apply shdr_ok.
Qed.

(** [symtab_image] is what is packed *)
Lemma copy_symtab_spec : exists m', copy_symtab m0 = Ret m' /\ packing (symtab_image img) m'.
Proof.
  unfold copy_symtab. pose proof counts_val as Hfuel. revert Hfuel.
  generalize counts at 1 2 3 4. intros f Hfuel.
  destruct sizes as (He & Hps & Hse & Hsn & Hso). pose proof (ek_room _ Hok) as Hroom. unfold symtab_image, packed_headers in *.
  assert (from_file (fold_left (pack_section img) (seq 0 (Z.to_nat snum)) (pack_header img, [])).2) as Hf.
  { apply packed_from_file; [intros k Hk%elem_of_seq; lia|by intros h Hh%elem_of_nil]. }
  pose proof (from_file_sizes _ Hf) as Htot.
  destruct copy_elf_spec as (m1 & E1 & Hp1 & Hh1); [nia|]. rewrite E1. cbn [mbind outcome_bind].
  destruct (copy_headers_spec (Z.to_nat snum) 0 f (pack_header img) [] m1) as (m2 & E2 & Hp2 & Hh2 & Hs2 & Hl2);
    try (cbn [concat length]; rewrite ?app_nil_r; done || lia). { by constructor. }
  rewrite Nat2Z.inj_0 in E2. cbn [concat] in E2. rewrite app_nil_r in E2. rewrite E2. cbn [mbind outcome_bind].
  destruct (fold_left (pack_section img) (seq 0 (Z.to_nat snum)) (pack_header img, [])) as [hdr hs]. cbn [fst snd] in *.
  destruct (fix_links_spec hdr hs (length hs) Hh2 Hf 0 f m2) as (m3 & E3 & Hp3); [|lia|lia|apply Nat2Z.inj_lt; rewrite counts_val; lia|].
  { cbn [take map app]. rewrite drop_0, app_nil_r. exact Hp2. }
  rewrite Nat2Z.inj_0 in E3. rewrite E3. cbn [mbind outcome_bind].
  pose proof (total_size_relink hs hs Hs2) as Et. pose proof (relink_in_image hs hs Hf) as Hin.
  assert (length (map (relink img hs) hs) = length hs) as Elen by apply length_map.
  assert (lenZ (hdr ++ concat hs) = lenZ hdr + ssz * lenZ hs) as El.
  { rewrite lenZ_app. unfold lenZ. rewrite (concat_length_n (Z.to_nat ssz)) by done. lia. }
  assert (lenZ (hdr ++ concat (map (relink img hs) hs)) = lenZ hdr + ssz * lenZ hs) as El3.
  { rewrite lenZ_app. unfold lenZ. rewrite (concat_length_n (Z.to_nat ssz)), Elen by (eapply Forall_impl; [exact Hin|]; by intros ? []). lia. }
  pose proof (hk_length _ _ Hh2) as Hlh. assert (ssz * lenZ hs <= ssz * snum) as Hmul by (unfold lenZ; nia).
  destruct (map (relink img hs) hs) as [|h t] eqn:Em.
  { destruct f as [|n]; [lia|]. cbn [copy_sections].
    assert (hdr_ok hdr (length (@nil (list Z)))) as Hh0 by (by rewrite Elen). rewrite (kept_shnum hdr [] [] Hh0 m3 Hp3).
    cbn [negb Z.ltb lenZ]. change (1 <? lenZ []) with false. cbn [negb mbind outcome_bind]. exists m3. split; [done|].
    cbn [concat] in Hp3. by rewrite !app_nil_r in Hp3. }
  apply Forall_cons_1 in Hin as [Hinh Hint].
  destruct (copy_sections_spec hdr (length hs) t Hint Hh2 [h] [] f m3) as (x & m' & E & Hp'); try done.
  { constructor; [apply Hinh|by constructor]. }
  { cbn [length] in Elen. lia. }
  { rewrite app_nil_r. cbn [app]. rewrite El3. cbn [total_size foldr] in Et. fold (total_size t) in Et.
    destruct Hinh as (_ & _ & ? & _). lia. }
  cbn [app length] in E. rewrite app_nil_r, El3, <- El in E. rewrite (eq_refl : Z.of_nat 1 = 1) in E. rewrite E. cbn [mbind outcome_bind]. exists m'. split; [done|].
  cbn [app] in Hp'. rewrite app_nil_r, El3 in Hp'. exact Hp'.
Qed.
End packed.

(** * Storage *)

Fixpoint iterate {S R} (f : S -> S + R) (n : nat) (s : S) : S + R :=
  match n with
  | O => inl s
  | S n => match f s with inl s => iterate f n s | inr r => inr r end
  end.

Lemma iterate_add {S R} (f : S -> S + R) a b s :
  iterate f (a + b) s = match iterate f a s with inl s => iterate f b s | inr r => inr r end.
Proof. revert s. induction a as [|a IH]; intros s; [done|]. cbn. destruct (f s); [apply IH|done]. Qed.

Lemma turns_iterate {S R} (f : S -> S + R) p s : turns f p s = iterate f (Pos.to_nat p) s.
Proof.
  revert s. induction p as [p IH|p IH|]; intros s; cbn [turns].
  - rewrite Pos2Nat.inj_xI. replace (2 * Pos.to_nat p)%nat with (Pos.to_nat p + Pos.to_nat p)%nat by lia. cbn [iterate].
    destruct (f s) as [s1|r]; [|reflexivity]. rewrite iterate_add, <- IH. destruct (turns f p s1); [apply IH|reflexivity].
  - rewrite Pos2Nat.inj_xO. replace (2 * Pos.to_nat p)%nat with (Pos.to_nat p + Pos.to_nat p)%nat by lia.
    rewrite iterate_add, <- IH. destruct (turns f p s); [apply IH|reflexivity].
  - change (Pos.to_nat 1) with 1%nat. cbn [iterate]. by destruct (f s).
Qed.

Section storage.
Context (tprot : Z -> Z) (n : nat) (Hn : Z.of_nat n < 2 ^ 43) (Hend : tprot (SKIP_SIZE * Z.of_nat n) = 3).
Context (Hin : forall i, (i < n)%nat -> tprot (SKIP_SIZE * Z.of_nat i) <> 3).

Lemma sense_iterate k i : (i + k = n)%nat -> iterate (sense_turn tprot) (S k) (SKIP_SIZE * Z.of_nat i) = inr (SKIP_SIZE * Z.of_nat n).
Proof.
  revert i. induction k as [|k IH]; intros i Hi; cbn [iterate]; unfold sense_turn at 1;
    (assert ((SKIP_SIZE * Z.of_nat i <? u64 (Z.lnot SKIP_SIZE) - 1) = true) as -> by
      (apply Z.ltb_lt; change (u64 (Z.lnot SKIP_SIZE) - 1) with (2 ^ 64 - 2 ^ 20 - 2); unfold SKIP_SIZE; lia)).
  - replace i with n by lia. by rewrite Hend.
  - rewrite (proj2 (Z.eqb_neq _ _)) by (apply Hin; lia).
    rewrite wrap_small by (unfold SKIP_SIZE; lia). replace (SKIP_SIZE * Z.of_nat i + SKIP_SIZE) with (SKIP_SIZE * Z.of_nat (S i)) by lia.
    apply IH. lia.
Qed.

Lemma iterate_more {S R} (f : S -> S + R) a b s r : (a <= b)%nat -> iterate f a s = inr r -> iterate f b s = inr r.
Proof. intros Hab E. replace b with (a + (b - a))%nat by lia. by rewrite iterate_add, E. Qed.

Lemma sense_memsize_spec PGMHANDLER m : exists m', sense_memsize tprot PGMHANDLER m = Ret (SKIP_SIZE * Z.of_nat n, m') /\
  forall x, ~ (0x1d0 <= x < 0x1e0) -> m' x = m x.
Proof.
  unfold sense_memsize. rewrite turns_iterate.
  assert (S n <= Pos.to_nat (2 ^ 44))%nat as Hle by (apply Nat2Z.inj_le; rewrite positive_nat_Z; lia).
  pose proof (sense_iterate n 0 ltac:(lia)) as E. rewrite Nat2Z.inj_0, Z.mul_0_r in E. rewrite (iterate_more _ _ _ _ _ Hle E).
  eexists. split; [done|]. intros x Hx. unfold memset. change (zeros (Z.to_nat 16)) with (zeros 16).
  rewrite !write_out; [done|unfold lenZ; rewrite length_app, !be_bytes_length; lia|unfold lenZ, zeros; rewrite length_replicate; lia].
Qed.
End storage.

(** what the loader accepts *)
Definition elf_magic (img : list Z) : bool :=
  (be_field img 0 1 =? 0x7f) && (be_field img 1 1 =? 69) && (be_field img 2 1 =? 76) && (be_field img 3 1 =? 70) &&
  (be_field img 4 1 =? ELFCLASS64) && (be_field img 5 1 =? ELFDATA2MSB) &&
  (be_field img 6 1 =? EV_CURRENT) && (be_field img 16 2 =? ET_EXEC) &&
  (be_field img 18 2 =? 0x16) && (be_field img 20 4 =? EV_CURRENT).

Lemma valid_elf_spec m img : holds m img -> (64 <= length img)%nat -> valid_elf m = elf_magic img.
Proof.
  intros Hm Hl. unfold valid_elf, elf_magic.
  pose proof (fun off n => ehdr_member m img off n Hm) as H.
  pose proof (H 0 1 ltac:(lia))%nat as H0. rewrite Nat2Z.inj_0, Z.add_0_r in H0. change (Z.of_nat 1) with 1 in H0.
  repeat match goal with |- context [ld m (TEMP_BASE + ?o) ?n] =>
    let H1 := fresh in pose proof (H (Z.to_nat o) (Z.to_nat n) ltac:(vm_compute Z.to_nat; lia)) as H1;
    change (Z.of_nat (Z.to_nat o)) with o in H1; change (Z.of_nat (Z.to_nat n)) with n in H1; rewrite H1; clear H1 end.
  by rewrite H0.
Qed.


Lemma bind_step {A B} (m : outcome A) (f : A -> outcome B) a r : m = Ret a -> f a = r -> m ≫= f = r.
Proof. by intros -> <-. Qed.

Lemma load_nucleus_run dev tprot PGMHANDLER m m1 m2 m3 m4 size : readnucleus dev m = Ret m1 -> valid_elf m1 = true ->
  load_segments counts 0 m1 = Ret m2 -> copy_symtab m2 = Ret m3 -> sense_memsize tprot PGMHANDLER m3 = Ret (size, m4) ->
  load_nucleus dev tprot PGMHANDLER m = Ret (Start (ehdr_entry m3 TEMP_BASE) size (ld m 0xb8 4) SYMTAB_BASE, m4).
Proof.
  intros E1 Ev E2 E3 E4. unfold load_nucleus.
  refine (bind_step _ _ _ _ E1 _). rewrite Ev. refine (bind_step _ _ _ _ E2 _). refine (bind_step _ _ _ _ E3 _).
  refine (bind_step _ _ _ _ E4 _). reflexivity.
Qed.

(** [g] is one of the segments, its bytes are not where the table [T] or the new program check PSW go *)
Definition clear_segment (dat T : list Z) (g : segment) : Prop :=
  Some g ∈ segments dat /\ (s_vaddr g + s_memsz g <= SYMTAB_BASE \/ SYMTAB_BASE + lenZ T <= s_vaddr g) /\
  (s_vaddr g + s_memsz g <= 0x1d0 \/ 0x1e0 <= s_vaddr g).

(** C17: the loader starts the nucleus that was installed: from a volume that holds the file HVF ELF, a linked executable,
    it copies every segment to its place, zeros behind the file's part, packs the symbol table from 8 KB on, and calls the
    entry point with the amount of storage, the subchannel it was IPLed from and the table.  A segment that is clear of
    the packed table and of the new program check PSW is complete then.  Nothing sees to it that they are
    (loader_c.c:346): where the table and a segment overlap, storage holds the table; everything else outside the
    loader's buffers is what the segments make of it.  The file has one level of pointer blocks, hence 2 to 1024 blocks,
    for the loader takes that for granted (loader_c.c:197), and the 3 MB limit is one on the first entry of the
    directory's block, against which the code checks it (loader_c.c:193). *)
Theorem nucleus_loaded (v : volume) a t dat m tprot PGMHANDLER n :
  nucleus_on v a t dat -> elf_magic dat = true -> elf_ok dat ->
  (forall k g, (k < Z.to_nat (be_field dat 56 2))%nat -> seg_of (phdr64 dat k) = Some g -> seg_ok dat g) ->
  Z.of_nat n < 2 ^ 43 -> tprot (SKIP_SIZE * Z.of_nat n) = 3 ->
  (forall i, (i < n)%nat -> tprot (SKIP_SIZE * Z.of_nat i) <> 3) ->
  let T := symtab_image dat in
  exists m' base, load_nucleus (fun k => Some (v k)) tprot PGMHANDLER m =
    Ret (Start (be_field dat 24 8) (SKIP_SIZE * Z.of_nat n) (ld m 0xb8 4) SYMTAB_BASE, m') /\
    read_bytes m' SYMTAB_BASE (lenZ T) = T /\
    (forall g x, clear_segment dat T g -> s_vaddr g <= x < s_vaddr g + s_memsz g -> m' x = seg_view dat (segments dat) base x) /\
    (forall x, ~ (0x1d0 <= x < 0x1e0) -> ~ (SYMTAB_BASE <= x < SYMTAB_BASE + lenZ T) -> m' x = seg_view dat (segments dat) base x) /\
    (forall x, ~ (buf <= x < buf + 8192) -> ~ (TEMP_BASE <= x < TEMP_BASE + lenZ dat) -> base x = m x).
Proof.
  intros Hon Hmagic Hok Hseg Hn Hend Hin T. destruct (readnucleus_spec v a t dat m Hon) as (m1 & E1 & Hm1 & Hrest).
  pose proof (ek_phdrs _ Hok) as Hph. pose proof Hph as [Hlen _ _ Hphn].
  destruct (load_segments_spec dat (Z.to_nat (be_field dat 56 2)) 0 counts m1) as (m2 & E2 & Hs2 & Hh2); [done|done|done| |done|].
  { apply Nat2Z.inj_lt. rewrite counts_val. lia. }
  rewrite Nat2Z.inj_0 in E2. fold (segments dat) in Hs2.
  destruct (copy_symtab_spec m2 dat Hh2 Hok) as (m3 & E3 & Hp3).
  destruct (sense_memsize_spec tprot n Hn Hend Hin PGMHANDLER m3) as (m4 & E4 & Hm4).
  assert (valid_elf m1 = true) as Ev by (rewrite (valid_elf_spec m1 dat); [done|done|unfold lenZ in *; lia]).
  assert (ehdr_entry m3 TEMP_BASE = be_field dat 24 8) as Ee by exact (packing_img _ _ _ _ 24 8 Hp3 ltac:(unfold lenZ in *; lia)).
  assert (forall x, ~ (0x1d0 <= x < 0x1e0) -> ~ (SYMTAB_BASE <= x < SYMTAB_BASE + lenZ T) -> m4 x = seg_view dat (segments dat) m1 x) as Hview.
  { intros x Hx Hx2. rewrite Hm4 by done. rewrite (pk_table _ _ _ _ Hp3), write_out by done. apply Hs2. }
  exists m4, m1. rewrite (load_nucleus_run _ _ _ m m1 m2 m3 m4 _ E1 Ev E2 E3 E4), Ee. split_and!; [reflexivity| | |exact Hview|exact Hrest].
  - transitivity (read_bytes m3 SYMTAB_BASE (lenZ T)); [|exact (packing_table m2 dat _ m3 Hp3)].
    apply read_bytes_ext. intros x Hx. apply Hm4. unfold SYMTAB_BASE in Hx. lia.
  - intros g x (_ & Ht & Hp) Hx. apply Hview; lia.
Qed.

(** ** A small nucleus *)

Definition sample_sym (name info value size : Z) : list Z :=
  be_bytes 4 name ++ [info; 0] ++ be_bytes 2 1 ++ be_bytes 8 value ++ be_bytes 8 size.

Definition sample_shdr (type off size link entsize : Z) : list Z :=
  be_bytes 4 0 ++ be_bytes 4 type ++ zeros 16 ++ be_bytes 8 off ++ be_bytes 8 size ++ be_bytes 4 link ++ zeros 12 ++ be_bytes 8 entsize.

Definition sample_elf : list Z := pad_block (
  [0x7f; 69; 76; 70; 2; 2; 1] ++ zeros 9 ++ be_bytes 2 2 ++ be_bytes 2 0x16 ++ be_bytes 4 1 ++ be_bytes 8 0x100004 ++
  be_bytes 8 64 ++ be_bytes 8 128 ++ zeros 4 ++ be_bytes 2 64 ++ be_bytes 2 56 ++ be_bytes 2 1 ++ be_bytes 2 64 ++ be_bytes 2 4 ++ be_bytes 2 3 ++
  be_bytes 4 PT_LOAD ++ be_bytes 4 5 ++ be_bytes 8 512 ++ be_bytes 8 0x100000 ++ be_bytes 8 0x100000 ++ be_bytes 8 8 ++ be_bytes 8 12 ++ be_bytes 8 4 ++
  zeros 8 ++
  sample_shdr 0 0 0 0 0 ++ sample_shdr 1 512 8 0 0 ++ sample_shdr 2 520 72 3 24 ++ sample_shdr 3 592 9 0 0 ++
  zeros 128 ++ [0x07; 0xfe; 0x07; 0xfe; 1; 2; 3; 4] ++
  sample_sym 0 0 0 0 ++ sample_sym 1 0x12 0x100000 4 ++ sample_sym 5 0x12 0x100004 4 ++ [0; 105; 110; 105; 0; 114; 117; 110; 0]).

Definition nucleus_label : list Z := pad_block (be_bytes 4 __ADTIDENT ++ zeros 8 ++ be_bytes 4 4096 ++ be_bytes 4 5 ++ zeros 16 ++ be_bytes 4 64 ++ be_bytes 4 64).

Definition nucleus_FST : list Z :=
  CP_FN ++ CP_FT ++ zeros 14 ++ [FSTDFIX; 0] ++ be_bytes 4 4096 ++ zeros 4 ++ be_bytes 4 7 ++ be_bytes 4 1 ++ be_bytes 4 1 ++ [1; 4] ++ zeros 10.

Definition nucleus_volume : volume := fun k =>
  if bool_decide (k = search_data 3) then nucleus_label else
  if bool_decide (k = search_data 5) then pad_block (zeros 32 ++ be_bytes 4 64 ++ zeros 12 ++ be_bytes 4 2 ++ zeros 12 ++ nucleus_FST) else
  if bool_decide (k = search_data 7) then pad_block (be_bytes 4 8) else
  if bool_decide (k = search_data 8) then sample_elf else zeros 4096.

Lemma nucleus_volume_on : nucleus_on nucleus_volume nucleus_label nucleus_FST sample_elf.
Proof.
  split.
  - intros k. unfold nucleus_volume. repeat case_bool_decide; by vm_compute.
  - split_and!; try by vm_compute.
  - split_and!; by vm_compute.
  - split_and!; [by vm_compute..|]. exists [sample_elf]. split_and!; [by vm_compute|by vm_compute|].
    intros [|b] d Hb; [|done]. injection Hb as <-. by vm_compute.
  - split_and!; by vm_compute.
  - split; [by vm_compute|]. intros i Hi. assert (FST_AIC nucleus_FST = 1) as E by (by vm_compute). assert (i = 0) as -> by lia. by vm_compute.
Qed.

Lemma sample_elf_ok : elf_ok sample_elf.
Proof.
  assert (Z.to_nat (e_shnum sample_elf) = 4%nat) as En by (by vm_compute).
  split.
  - apply (bool_decide_unpack _). by vm_compute.
  - split; by vm_compute.
  - split; split_and?; by vm_compute.
  - split; by vm_compute.
  - rewrite En. intros k Hk Hkept Hl. do 4 (destruct k as [|k]; [vm_compute in Hkept, Hl; try discriminate; try (by destruct Hl); by vm_compute|]). lia.
  - rewrite En. intros k Hk _. do 4 (destruct k as [|k]; [by vm_compute|]). lia.
  - by vm_compute.
Qed.

Lemma sample_segments k g : (k < Z.to_nat (be_field sample_elf 56 2))%nat -> seg_of (phdr64 sample_elf k) = Some g -> seg_ok sample_elf g.
Proof.
  assert (Z.to_nat (be_field sample_elf 56 2) = 1%nat) as -> by (by vm_compute). intros Hk. destruct k as [|k]; [|lia].
  assert (seg_of (phdr64 sample_elf 0) = Some (Segment 512 8 0x100000 12)) as -> by (by vm_compute). intros [= <-].
  split; split_and?; try by vm_compute. left. by vm_compute.
Qed.

#[local] Abbreviation sample_store := (fun a => if (0xb8 <=? a) && (a <? 0xbc) then 1 else 0xee).

Theorem nucleus_loaded_witness :
  let T := symtab_image sample_elf in
  exists m' base, load_nucleus (fun k => Some (nucleus_volume k)) (fun a => if a <? 0x1000000 then 0 else 3) 0x3000 sample_store =
    Ret (Start (be_field sample_elf 24 8) (SKIP_SIZE * Z.of_nat 16) (ld sample_store 0xb8 4) SYMTAB_BASE, m') /\
    read_bytes m' SYMTAB_BASE (lenZ T) = T /\
    (forall g x, clear_segment sample_elf T g -> s_vaddr g <= x < s_vaddr g + s_memsz g -> m' x = seg_view sample_elf (segments sample_elf) base x) /\
    (forall x, ~ (0x1d0 <= x < 0x1e0) -> ~ (SYMTAB_BASE <= x < SYMTAB_BASE + lenZ T) -> m' x = seg_view sample_elf (segments sample_elf) base x) /\
    (forall x, ~ (buf <= x < buf + 8192) -> ~ (TEMP_BASE <= x < TEMP_BASE + lenZ sample_elf) -> base x = sample_store x).
Proof.
  apply (nucleus_loaded nucleus_volume nucleus_label nucleus_FST sample_elf sample_store _ 0x3000 16).
  - exact nucleus_volume_on.
  - by vm_compute.
  - exact sample_elf_ok.
  - exact sample_segments.
  - done.
  - done.
  - intros i Hi. rewrite (proj2 (Z.ltb_lt _ _)); [done|]. unfold SKIP_SIZE. lia.
Defined.

(** its segment is clear of the table *)
Example sample_clear : clear_segment sample_elf (symtab_image sample_elf) (Segment 512 8 0x100000 12).
Proof.
  assert (segments sample_elf = [Some (Segment 512 8 0x100000 12)]) as E by (by vm_compute).
  split; [rewrite E; by left|]. split; right; by vm_compute.
Qed.

(** the table of the sample: the text section is gone, the link of the symbols is 2, and the contents follow the headers *)
Example sample_table :
  let T := symtab_image sample_elf in
  (lenZ T, be_field T 60 2, be_field T 62 2, map (fun k => (be_field T (120 + 64 * k + 4) 4, be_field T (120 + 64 * k + 24) 8, be_field T (120 + 64 * k + 40) 4))
    [0; 1; 2]%nat, drop (Z.to_nat 384) T) =
  (393, 3, 2, [(0, 0, 0); (2, 312, 2); (3, 384, 0)], [0; 105; 110; 105; 0; 114; 117; 110; 0]).
Proof. by vm_compute. Qed.
