(* ===== verification/Diag.v ===== *)
(** cp/nucleus/symtab.c, pgm.c, mch.c and util.c: what the host says when it fails.

    The symbol table is the one the loader packs (Loader.v), read from absolute
    storage; a program check prints the registers and the frames of the stack with
    the symbols their return addresses belong to, a machine check the damage and the
    channel report words.  Messages are formats with arguments, as in Printf.v.  The
    loops that follow entries and frames take fuel; the theorems say when they end.
    The theorems: the symbol found is the first that covers the address; the stack is
    walked to its end; decimal numbers typed as hexadecimal digits are read. *)

From S2P Require Import Prelude CString Format Layout Dat Guest Printf Shell Loader LoaderSpec.

Local Open Scope Z_scope.

#[local] Arguments cons {A} & a l.

(** * symtab.c *)

Definition STB_LOCAL : Z := 0.
Definition STB_GLOBAL : Z := 1.
Definition STT_OBJECT : Z := 1.
Definition STT_FUNC : Z := 2.

(** members of a section header and of a symbol *)
Definition shdr_type (m : store) (s : Z) : Z := ld m (s + 4) 4.
Definition shdr_offset (m : store) (s : Z) : Z := ld m (s + 24) 8.
Definition shdr_size (m : store) (s : Z) : Z := ld m (s + 32) 8.
Definition shdr_link (m : store) (s : Z) : Z := ld m (s + 40) 4.
Definition shdr_entsize (m : store) (s : Z) : Z := ld m (s + 56) 8.
Definition st_name (m : store) (s : Z) : Z := ld m s 4.
Definition st_info (m : store) (s : Z) : Z := ld m (s + 4) 1.
Definition st_value (m : store) (s : Z) : Z := ld m (s + 8) 8.
Definition st_size (m : store) (s : Z) : Z := ld m (s + 16) 8.

Section symtab.
Context (symtab : Z).

Definition __get_section (m : store) (i : Z) : Z := shdr_addr m symtab i.

(** the first section of the type among the [n] from [i] on *)
Fixpoint find_section (m : store) (type i : Z) (n : nat) : option Z :=
  match n with
  | O => None
  | S n => if shdr_type m (__get_section m i) =? type then Some (__get_section m i) else find_section m type (i + 1) n
  end.

(** the address, [*entsize] and [*size] *)
Definition get_section (m : store) (type : Z) : option (Z * Z * Z) :=
  let getstr := type =? SHT_STRTAB in
  let type := if getstr then SHT_SYMTAB else type in
  match find_section m type 0 (Z.to_nat (ehdr_shnum m symtab)) with
  | None => None
  | Some cur =>
      let cur := if getstr then __get_section m (s32 (shdr_link m cur)) else cur in
      Some (u64 (symtab + shdr_offset m cur), s32 (shdr_entsize m cur), s32 (shdr_size m cur))
  end.

Definition wanted (m : store) (cur : Z) : bool :=
  let bind := Z.shiftr (st_info m cur) 4 in
  let type := Z.land (st_info m cur) 0xf in
  ((bind =? STB_LOCAL) || (bind =? STB_GLOBAL)) && ((type =? STT_OBJECT) || (type =? STT_FUNC)).

(** every turn goes to the next entry before it looks *)
Fixpoint text_range (fuel : nat) (m : store) (tab entsize size cur s e : Z) : outcome (Z * Z) :=
  match fuel with
  | O => Undef
  | S fuel =>
      if negb (s64 (cur - tab) <? size) then Ret (s, e) else
      let cur := u64 (cur + entsize) in
      if negb (wanted m cur) then text_range fuel m tab entsize size cur s e else
      let s := if st_value m cur <? s then st_value m cur else s in
      let e := if e <? u64 (st_value m cur + st_size m cur) then u64 (st_value m cur + st_size m cur) else e in
      text_range fuel m tab entsize size cur s e
  end.

(** [*start] and [*end] keep their values when there is no table *)
Definition symtab_find_text_range (fuel : nat) (m : store) : outcome (option (Z * Z)) :=
  match get_section m SHT_SYMTAB with
  | None => Ret None
  | Some (tab, entsize, size) => r ← text_range fuel m tab entsize size tab (u64 (-1)) 0; Ret (Some r)
  end.

Fixpoint find_symbol (fuel : nat) (m : store) (addr tab entsize size cur : Z) : outcome (option Z) :=
  match fuel with
  | O => Undef
  | S fuel =>
      if negb (s64 (cur - tab) <? size) then Ret None else
      let cur := u64 (cur + entsize) in
      if negb (wanted m cur) || (addr <? st_value m cur) || (u64 (st_value m cur + st_size m cur) <=? addr)
      then find_symbol fuel m addr tab entsize size cur
      else Ret (Some cur)
  end.

(** the string at [a]; [n] bytes are looked at *)
Fixpoint string_at (n : nat) (m : store) (a : Z) : outcome (list Z) :=
  match n with
  | O => Undef
  | S n => if m a =? 0 then Ret [] else l ← string_at n m (a + 1); Ret (m a :: l)
  end.

(** the string returned; [buf] is where the [buflen] bytes [data] are.  A name ends
    inside the string table, or what is behind it is read *)
Definition symtab_lookup (fuel : nat) (m : store) (addr buf : Z) (data : list Z) (buflen : Z) : outcome (list Z) :=
  match get_section m SHT_SYMTAB, get_section m SHT_STRTAB with
  | Some (tab, entsize, size), Some (strtab, _, strsize) =>
      r ← find_symbol fuel m addr tab entsize size tab;
      match r with
      | None => Ret (zs "???")
      | Some cur =>
          if u32 strsize <? st_name m cur then Ret (zs "???") else
          name ← string_at (S (Z.to_nat strsize)) m (strtab + st_name m cur);
          '(_, data) ← bprintf buf 0 buflen data "%s+%#llx" [Str name; Val (u64 (addr - st_value m cur))];
          Ret (span (fun c => negb (c =? 0)) data).1
      end
  | _, _ => Ret (zs "???")
  end.
End symtab.

(** * pgm.c *)

Definition PAGE_MASK : Z := 4095.
Definition sizeof_stack_frame : Z := 160.

Definition msg : Type := string * list arg.

Section diag.
Context (symtab memsize : Z).
Context (buf : Z) (data : list Z).    (* dump_stack's buffer, and what it holds *)
Context (syms : nat).                 (* turns of a lookup *)

Definition back_chain (m : store) (cur : Z) : Z := ld m cur 8.
Definition frame_ra (m : store) (cur : Z) : Z := ld m (cur + 16 + 8 * 12) 8.

Fixpoint walk_stack (fuel : nat) (m : store) (start stop cur : Z) : outcome (list msg) :=
  match fuel with
  | O => Undef
  | S fuel =>
      if negb ((start <=? cur) && (cur <? stop)) then Ret [] else
      let ra := frame_ra m cur in
      name ← symtab_lookup symtab syms m ra buf data (lenZ data);
      let line := ("   %016llx   %-s
"%string, [Val ra; Str name]) in
      if back_chain m cur =? 0 then Ret [line] else
      l ← walk_stack fuel m start stop (back_chain m cur);
      Ret (line :: l)
  end.

Definition dump_stack (fuel : nat) (m : store) (addr : Z) : outcome (list msg) :=
  let head := ("Stack trace:
"%string, []) in
  if memsize <? addr then Ret [head] else
  let addr := Z.land addr (u64 (Z.lnot 7)) in
  let stop := Z.land addr (u64 (Z.lnot PAGE_MASK)) + 4096 - sizeof_stack_frame in
  l ← walk_stack fuel m addr stop addr;
  Ret (head :: l).

Definition PSA_INT_GPR (m : store) (i : Z) : Z := ld m (0x200 + 8 * i) 8.

(** what is printed before the CPU stops *)
Definition abend (fuel : nat) (m : store) : outcome (list msg) :=
  let regs := map (fun i => ("R%-2d = %016llx        R%-2d = %016llx
"%string, [Val i; Val (PSA_INT_GPR m i); Val (i + 8); Val (PSA_INT_GPR m (i + 8))])) [0; 1; 2; 3; 4; 5; 6; 7] in
  trace ← dump_stack fuel m (PSA_INT_GPR m 15);
  Ret ([("ABEND
"%string, []); ("PROG %04x, ILC %d
"%string, [Val (ld m 0x8e 2); Val (Z.shiftr (ld m 0x8d 1) 1)]); ("
"%string, [])] ++ regs ++ [("
"%string, []); ("PSW = %016llx %016llx
"%string, [Val (ld m 0x150 8); Val (ld m 0x158 8)]); ("
"%string, [])] ++ trace).

Definition __pgm_int_handler (fuel : nat) (m : store) : outcome (list msg) := abend fuel m.
End diag.

(** * mch.c *)

Definition crw_c : field := Field 3 1.
Definition crw_rsc : field := Field 4 4.
Definition crw_erc : field := Field 10 6.
Definition crw_id : field := Field 16 16.

(** [crws] are the channel report words pending, as STORE CRW gives them *)
Fixpoint get_crw (crws : list (list Z)) : list msg * list (list Z) :=
  match crws with
  | [] => ([], [])
  | crw :: crws =>
      let here := [("%08x:"%string, [Val (be_val crw)]); ("RSC: %x"%string, [Val (getf crw_rsc crw)]);
                   ("ERC: %x"%string, [Val (getf crw_erc crw)]); ("ID:  %x"%string, [Val (getf crw_id crw)])] in
      if getf crw_c crw =? 0 then (here, crws) else
      let '(l, rest) := get_crw crws in (here ++ l, rest)
  end.

(** the bits of the interruption code that are looked at *)
Definition mch_sd : field := Field 0 1.
Definition mch_pd : field := Field 1 1.
Definition mch_sr : field := Field 2 1.
Definition mch_cd : field := Field 4 1.
Definition mch_ed : field := Field 5 1.
Definition mch_dg : field := Field 7 1.
Definition mch_w : field := Field 8 1.
Definition mch_cp : field := Field 9 1.
Definition mch_sp : field := Field 10 1.
Definition mch_ck : field := Field 11 1.

Definition mch_names : list (field * string) :=
  [(mch_sd, "-> system damage"); (mch_pd, "-> instruction processing damage"); (mch_sr, "-> system recovery");
   (mch_cd, "-> timing-facility damage"); (mch_ed, "-> external damage"); (mch_dg, "-> degradation");
   (mch_w, "-> warning"); (mch_cp, "-> channel report pending"); (mch_sp, "-> service-processor damage");
   (mch_ck, "-> channel-subsystem damage")]%string.

(** the messages, and whether the host goes on: none when it does not *)
Definition __mch_int_handler (code : list Z) (crws : list (list Z)) : list msg * option (list (list Z)) :=
  let on f := negb (getf f code =? 0) in
  let said := [("MCH INTERRUPT!"%string, []); ("%016llx: "%string, [Val (be_val code)])] ++
              map (fun p => (p.2, [])) (List.filter (fun p => on p.1) mch_names) in
  if on mch_sd || on mch_ck then (said, None) else
  if on mch_cp then let '(l, rest) := get_crw crws in (said ++ l, Some rest) else (said, Some crws).

(** * util.c *)

(** the copy is as long as the string: its end is not copied *)
Definition strdup (alloc : bool) (m : memory) (s : Z) : outcome (option (list Z)) :=
  l ← (fix go n p := match n with
       | O => Undef
       | S n => c ← rd m p; if c =? 0 then Ret [] else l ← go n (p + 1); Ret (c :: l)
       end) (fuel_of m) s;
  Ret (if alloc then Some l else None).

(** the characters from [a] to [b]; none when the result is 1 *)
Fixpoint hex_loop (s : list Z) (val : Z) : option Z :=
  match s with
  | [] => Some val
  | c :: s =>
      if (48 <=? c) && (c <=? 57) then hex_loop s (Z.lor (u64 (Z.shiftl val 4)) (c - 48)) else
      if (65 <=? c) && (c <=? 70) then hex_loop s (Z.lor (u64 (Z.shiftl val 4)) (c - 65 + 10)) else
      if (97 <=? c) && (c <=? 102) then hex_loop s (Z.lor (u64 (Z.shiftl val 4)) (c - 97 + 10)) else None
  end.

Definition hex (s : list Z) : option Z := match s with [] => None | _ => hex_loop s 0 end.

(** 16 digits are all there are *)
Fixpoint bcd_loop (fuel : nat) (val v scale : Z) : outcome (option Z) :=
  match fuel with
  | O => Undef
  | S fuel =>
      if val =? 0 then Ret (Some v) else
      let x := Z.land val 0xf in
      if 10 <=? x then Ret None else bcd_loop fuel (Z.shiftr val 4) (u64 (v + u64 (x * scale))) (u64 (scale * 10))
  end.

Definition bcd2dec (val : Z) : outcome (option Z) := bcd_loop 17 val 0 1.

(** * Symbols *)

(** the entry at [cur] is a local or global symbol, of an object or a function, that
    covers the address; in the layout of an ELF symbol *)
Definition covers (m : store) (addr cur : Z) : bool :=
  let info := ld m (cur + 4) 1 in
  let value := ld m (cur + 8) 8 in
  let size := ld m (cur + 16) 8 in
  ((info / 16 =? 0) || (info / 16 =? 1)) && ((info mod 16 =? 1) || (info mod 16 =? 2)) &&
  (value <=? addr) && (addr <? (value + size) mod 2 ^ 64).

Lemma covers_wanted m addr cur :
  covers m addr cur = wanted m cur && (st_value m cur <=? addr) && (addr <? u64 (st_value m cur + st_size m cur)).
Proof.
  unfold covers, wanted, STB_LOCAL, STB_GLOBAL, STT_OBJECT, STT_FUNC. cbv zeta. change 0xf with (Z.ones 4).
  rewrite Z.land_ones, Z.shiftr_div_pow2 by lia. done.
Qed.

(** the entries of the table *)
Definition entries (tab entsize : Z) (n : nat) : list Z := map (fun k => tab + entsize * Z.of_nat k) (seq 0 n).

Section lookup.
Context (symtab : Z) (m : store) (tab entsize : Z) (n : nat).
Context (Hent : 0 < entsize) (Hsize : entsize * Z.of_nat n < 2 ^ 31) (Htab : 0 <= tab < 2 ^ 63).

Lemma find_symbol_from addr j : forall k fuel, (k + j = n)%nat -> (j < fuel)%nat ->
  find_symbol fuel m addr tab entsize (entsize * Z.of_nat n) (tab + entsize * Z.of_nat k) =
    Ret (List.find (covers m addr) (map (fun k => tab + entsize * Z.of_nat k) (seq (S k) j))).
Proof.
  induction j as [|j IH]; intros k fuel Hk Hf; (destruct fuel as [|fuel]; [lia|]); cbn [find_symbol seq map List.find].
  all: replace (tab + entsize * Z.of_nat k - tab) with (entsize * Z.of_nat k) by lia; rewrite (swrap_small 64) by nia.
  - rewrite (proj2 (Z.ltb_ge _ _)) by nia. done.
  - rewrite (proj2 (Z.ltb_lt _ _)) by nia. cbn [negb].
    rewrite (wrap_small 64) by nia. replace (tab + entsize * Z.of_nat k + entsize) with (tab + entsize * Z.of_nat (S k)) by lia.
    set (cur := tab + entsize * Z.of_nat (S k)). rewrite covers_wanted. rewrite !Z.leb_antisym.
    destruct (wanted m cur), (addr <? st_value m cur), (addr <? u64 (st_value m cur + st_size m cur)); cbn [negb orb andb];
      solve [apply IH; lia|reflexivity].
Qed.

(** the first entry is the null symbol, and the bytes behind the last do not make a symbol that covers the address *)
Lemma find_symbol_spec addr fuel : st_info m tab = 0 -> covers m addr (tab + entsize * Z.of_nat n) = false -> (n < fuel)%nat ->
  find_symbol fuel m addr tab entsize (entsize * Z.of_nat n) tab = Ret (List.find (covers m addr) (entries tab entsize n)).
Proof.
  intros Hnull Hbehind Hf. pose proof (find_symbol_from addr n 0 fuel ltac:(lia) Hf) as E.
  rewrite Z.mul_0_r, Z.add_0_r in E. rewrite E. f_equal. unfold entries.
  assert (covers m addr (tab + entsize * Z.of_nat 0) = false) as H0.
  { rewrite Z.mul_0_r, Z.add_0_r. rewrite covers_wanted. unfold wanted. by rewrite Hnull. }
  assert (List.find (covers m addr) (map (fun k => tab + entsize * Z.of_nat k) (seq 0 (S n))) =
          List.find (covers m addr) (map (fun k => tab + entsize * Z.of_nat k) (seq 1 n))) as <-.
  { cbn [seq map List.find]. by rewrite H0. }
  rewrite seq_S, map_app. cbn [map]. rewrite find_app. cbn [List.find Nat.add]. rewrite Hbehind. clear E. by destruct (List.find _ _).
Qed.

Context (Hsym : get_section symtab m SHT_SYMTAB = Some (tab, entsize, entsize * Z.of_nat n)).
Context (addr : Z) (Hnull : st_info m tab = 0) (Hbehind : covers m addr (tab + entsize * Z.of_nat n) = false).

Lemma span_nonzero l rest : Forall (fun c => 1 <= c < 256) l -> (span (fun c => negb (c =? 0)) (l ++ [0] ++ rest)).1 = l.
Proof.
  induction 1 as [|c l Hc _ IH]; [done|]. cbn [app span]. rewrite (proj2 (Z.eqb_neq _ _)) by lia. cbn [negb].
  cbn [app] in IH. destruct (span _ (l ++ 0 :: rest)) as [a b]. cbn in *. by rewrite IH.
Qed.

Lemma lookup_found strtab e strsize cur name F buf data fuel :
  get_section symtab m SHT_STRTAB = Some (strtab, e, strsize) -> (n < fuel)%nat -> 0 <= strsize ->
  List.find (covers m addr) (entries tab entsize n) = Some cur -> st_name m cur <= strsize ->
  string_at (S (Z.to_nat strsize)) m (strtab + st_name m cur) = Ret name ->
  text_of "%s+%#llx" [Str name; Val (u64 (addr - st_value m cur))] = Ret F -> Forall (fun c => 1 <= c < 256) F -> lenZ F < 2 ^ 31 ->
  0 < lenZ data < 2 ^ 31 -> 0 <= buf -> buf + lenZ data < 2 ^ 64 ->
  symtab_lookup symtab fuel m addr buf data (lenZ data) = Ret (take (Z.to_nat (lenZ data - 1)) F).
Proof.
  intros Hstr Hf Hs Hfind Hname Hat HF Hnz Hlen Hd Hb1 Hb2. unfold symtab_lookup. rewrite Hsym, Hstr.
  rewrite find_symbol_spec by done. cbn [mbind outcome_bind]. rewrite Hfind.
  assert (strsize < 2 ^ 32) as Hss.
  { unfold get_section in Hstr. destruct (find_section _ _ _ _ _); [|done]. injection Hstr as _ _ <-.
    match goal with |- s32 ?x < _ => pose proof (swrap_range 32 x ltac:(lia)) end. lia. }
  rewrite (wrap_small 32) by lia. rewrite (proj2 (Z.ltb_ge _ _)) by lia. rewrite Hat. cbn [mbind outcome_bind].
  destruct (bounded_text buf 0 (lenZ data) data _ _ F HF Hlen ltac:(lia) ltac:(lia) ltac:(lia) Hb1 Hb2) as (rest & E & _).
  change (take (Z.to_nat 0) data) with (@nil Z) in E. cbv zeta in E. unfold bprintf.
  unfold snprintf. rewrite (swrap_small 32 (lenZ data)), (wrap_small 64 (lenZ data)) by lia. destruct (message _ _) as [mm vs]. change (Z.to_nat 0) with 0%nat in *.
  cbn [take app] in *. destruct (vsnprintf _ _ _ _ _ _) as [[[r d] m']| |]; cbn [mbind outcome_bind] in *; [|discriminate E..].
  injection E as _ ->. f_equal. apply (span_nonzero _ rest). by apply Forall_take.
Qed.

Lemma lookup_missed strtab e strsize buf data fuel :
  get_section symtab m SHT_STRTAB = Some (strtab, e, strsize) -> (n < fuel)%nat ->
  List.find (covers m addr) (entries tab entsize n) = None ->
  symtab_lookup symtab fuel m addr buf data (lenZ data) = Ret (zs "???").
Proof.
  intros Hstr Hf Hfind. unfold symtab_lookup. rewrite Hsym, Hstr, find_symbol_spec by done. cbn [mbind outcome_bind]. by rewrite Hfind.
Qed.
End lookup.

Lemma lookup_bad_name symtab m tab entsize n strtab e strsize addr cur buf data fuel :
  0 < entsize -> entsize * Z.of_nat n < 2 ^ 31 -> 0 <= tab < 2 ^ 63 ->
  st_info m tab = 0 -> covers m addr (tab + entsize * Z.of_nat n) = false ->
  get_section symtab m SHT_SYMTAB = Some (tab, entsize, entsize * Z.of_nat n) ->
  get_section symtab m SHT_STRTAB = Some (strtab, e, strsize) -> (n < fuel)%nat -> 0 <= strsize < 2 ^ 31 ->
  List.find (covers m addr) (entries tab entsize n) = Some cur -> strsize < st_name m cur ->
  symtab_lookup symtab fuel m addr buf data (lenZ data) = Ret (zs "???").
Proof.
  intros He Hs Ht Hnull Hbehind Hsym Hstr Hf Hss Hfind Hname. unfold symtab_lookup. rewrite Hsym, Hstr, find_symbol_spec by done.
  cbn [mbind outcome_bind]. rewrite Hfind, (wrap_small 32) by lia. by rewrite (proj2 (Z.ltb_lt _ _)) by lia.
Qed.

(** C29: the symbol an address is shown with is the first of the table's entries that covers it: the text is its name
    with the distance, cut to the buffer; without such an entry, or with a name outside the string table, it is three
    question marks.  As many turns as there are entries are enough.  Conditions: the first entry is the null symbol, as
    in every symbol table, and the bytes behind the table, which symtab.c:105 looks at after the last entry, do not look
    like a symbol that covers the address ([symbol_behind_the_table]: when they do, it is shown); the sections are
    found, their sizes are less than 2 GB, and the text is shorter than 2 GB and has no zero byte *)
Theorem symtab_lookup_first symtab m tab entsize n strtab e strsize addr buf data fuel :
  0 < entsize -> entsize * Z.of_nat n < 2 ^ 31 -> 0 <= tab < 2 ^ 63 ->
  st_info m tab = 0 -> covers m addr (tab + entsize * Z.of_nat n) = false ->
  get_section symtab m SHT_SYMTAB = Some (tab, entsize, entsize * Z.of_nat n) ->
  get_section symtab m SHT_STRTAB = Some (strtab, e, strsize) -> 0 <= strsize < 2 ^ 31 -> (n < fuel)%nat ->
  0 < lenZ data < 2 ^ 31 -> 0 <= buf -> buf + lenZ data < 2 ^ 64 ->
  let r := symtab_lookup symtab fuel m addr buf data (lenZ data) in
  match List.find (covers m addr) (entries tab entsize n) with
  | None => r = Ret (zs "???")
  | Some cur =>
      (strsize < st_name m cur -> r = Ret (zs "???")) /\
      forall name F, st_name m cur <= strsize -> string_at (S (Z.to_nat strsize)) m (strtab + st_name m cur) = Ret name ->
        text_of "%s+%#llx" [Str name; Val (u64 (addr - st_value m cur))] = Ret F ->
        Forall (fun c => 1 <= c < 256) F -> lenZ F < 2 ^ 31 -> r = Ret (take (Z.to_nat (lenZ data - 1)) F)
  end.
Proof.
  intros He Hs Ht Hnull Hbehind Hsym Hstr Hss Hf Hd Hb Hb' r. destruct (List.find _ _) as [cur|] eqn:Hfind; [split|].
  - intros Hn. by eapply lookup_bad_name.
  - intros name F Hn Hat HF Hnz Hl. eapply (lookup_found symtab m tab entsize n); eauto; lia.
  - by eapply (lookup_missed symtab m tab entsize n).
Qed.

(** * The stack *)

(** frames from [cur] on, each where the one before points to; the last one points nowhere or outside *)
Inductive frames (m : store) (start stop : Z) : Z -> list Z -> Prop :=
  | frames_out cur : ~ (start <= cur < stop) -> frames m start stop cur []
  | frames_last cur : start <= cur < stop -> back_chain m cur = 0 -> frames m start stop cur [cur]
  | frames_more cur l : start <= cur < stop -> back_chain m cur <> 0 -> frames m start stop (back_chain m cur) l ->
      frames m start stop cur (cur :: l).

Section walk.
Context (symtab buf : Z) (data : list Z) (syms : nat) (m : store) (start stop : Z).

Definition frame_line (cur : Z) : outcome msg :=
  name ← symtab_lookup symtab syms m (frame_ra m cur) buf data (lenZ data);
  Ret ("   %016llx   %-s
"%string, [Val (frame_ra m cur); Str name]).

Lemma walk_stack_frames cur fs lines fuel : frames m start stop cur fs -> Forall2 (fun f l => frame_line f = Ret l) fs lines ->
  (length fs < fuel)%nat -> walk_stack symtab buf data syms fuel m start stop cur = Ret lines.
Proof.
  intros Hf. revert lines fuel. induction Hf as [cur Hout|cur Hin H0|cur l Hin Hne Hf IH]; intros lines fuel Hl Hfuel;
    (destruct fuel as [|fuel]; [cbn in Hfuel; lia|]); cbn [walk_stack].
  - apply Forall2_nil_inv_l in Hl as ->.
    destruct (Z.leb_spec start cur), (Z.ltb_spec cur stop); cbn [andb negb]; try reflexivity. lia.
  - apply Forall2_cons_inv_l in Hl as (x & l' & E & Hl & ->). apply Forall2_nil_inv_l in Hl as ->.
    rewrite (proj2 (Z.leb_le _ _)), (proj2 (Z.ltb_lt _ _)) by lia. cbn [andb negb]. unfold frame_line in E.
    destruct (symtab_lookup _ _ _ _ _ _ _); [|discriminate E..]. cbn [mbind outcome_bind] in *. rewrite H0. cbn. by injection E as <-.
  - apply Forall2_cons_inv_l in Hl as (x & l' & E & Hl & ->).
    rewrite (proj2 (Z.leb_le _ _)), (proj2 (Z.ltb_lt _ _)) by lia. cbn [andb negb]. unfold frame_line in E.
    destruct (symtab_lookup _ _ _ _ _ _ _); [|discriminate E..]. cbn [mbind outcome_bind] in *.
    rewrite (proj2 (Z.eqb_neq _ _)) by done. rewrite (IH l') by (done || (cbn in Hfuel; lia)). cbn. by injection E as <-.
Qed.

(** a frame that points to itself is printed for ever *)
Lemma walk_stack_loops cur fuel : start <= cur < stop -> back_chain m cur = cur -> cur <> 0 ->
  walk_stack symtab buf data syms fuel m start stop cur = Undef \/ exists a, frame_line cur = a /\ (a = Undef \/ a = Stopped).
Proof.
  intros Hin Hb Hne. destruct (frame_line cur) as [x| |] eqn:E; [left|right; eauto..].
  induction fuel as [|fuel IH]; [done|]. cbn [walk_stack].
  rewrite (proj2 (Z.leb_le _ _)), (proj2 (Z.ltb_lt _ _)) by lia. cbn [andb negb]. unfold frame_line in E.
  destruct (symtab_lookup _ _ _ _ _ _ _); [|discriminate E..]. cbn [mbind outcome_bind] in *.
  rewrite Hb, (proj2 (Z.eqb_neq _ _)) by done. by rewrite IH.
Qed.

(** frames of a set that the back chain does not leave, and grows in *)
Context (P : Z -> Prop) (HP : forall f, P f -> start <= f < stop -> back_chain m f = 0 \/ (f < back_chain m f /\ P (back_chain m f))).

Lemma frames_inside cur fs : frames m start stop cur fs -> P cur -> Forall (fun f => start <= f < stop /\ P f) fs.
Proof.
  induction 1 as [cur Hout|cur Hin H0|cur l Hin Hne Hf IH]; intros Hp.
  - apply Forall_nil_2.
  - apply Forall_cons_2; [done|apply Forall_nil_2].
  - apply Forall_cons_2; [done|]. apply IH. by destruct (HP cur Hp Hin) as [?|[_ ?]].
Qed.

(** they are at most as many as the addresses *)
Lemma frames_grow cur fs : frames m start stop cur fs -> P cur -> fs = [] \/ lenZ fs <= stop - cur.
Proof.
  induction 1 as [cur Hout|cur Hin H0|cur l Hin Hne Hf IH]; intros Hp; [by left|right; unfold lenZ; cbn; lia|].
  right. destruct (HP cur Hp Hin) as [?|[Hlt Hp']]; [done|]. destruct (IH Hp') as [->|Hl]; unfold lenZ in *; cbn [length]; lia.
Qed.

Lemma frames_exist (k : nat) cur : P cur -> stop - cur <= Z.of_nat k -> exists fs, frames m start stop cur fs.
Proof.
  revert cur. induction k as [|k IH]; intros cur Hp Hk.
  - exists []. constructor. lia.
  - destruct (decide (start <= cur < stop)) as [Hin|Hout]; [|by exists []; constructor].
    destruct (decide (back_chain m cur = 0)) as [E0|Hne]; [by exists [cur]; constructor|].
    destruct (HP cur Hp Hin) as [?|[Hlt Hp']]; [done|]. destruct (IH (back_chain m cur)) as [l Hl]; [done|lia|].
    exists (cur :: l). by constructor.
Qed.
End walk.

Lemma land_le_l a b : 0 <= a -> 0 <= b -> Z.land a b <= a.
Proof.
  intros Ha Hb. rewrite <- (Z2N.id a), <- (Z2N.id b) by done. rewrite <- N2Z.inj_land. apply N2Z.inj_le, N.land_le_l.
Qed.

(** The trace of a program check: when the frames the back chain leads to ([P]) lie higher and higher in the page of
    the stack pointer, the walk ends within the 4096 turns a page has addresses, and prints the return address of every
    frame once, in order; addresses beyond storage are not followed *)
Theorem dump_stack_walks symtab memsize buf data syms m addr fuel (P : Z -> Prop) :
  0 <= addr < 2 ^ 64 -> (4096 < fuel)%nat ->
  let start := Z.land addr (u64 (Z.lnot 7)) in
  let stop := Z.land start (u64 (Z.lnot PAGE_MASK)) + 4096 - sizeof_stack_frame in
  P start ->
  (forall f, P f -> start <= f < stop -> back_chain m f = 0 \/ (f < back_chain m f /\ P (back_chain m f))) ->
  (forall f, P f -> start <= f < stop -> exists l, frame_line symtab buf data syms m f = Ret l) ->
  exists fs lines, frames m start stop start fs /\ Forall2 (fun f l => frame_line symtab buf data syms m f = Ret l) fs lines /\
    dump_stack symtab memsize buf data syms fuel m addr =
      Ret (("Stack trace:
"%string, []) :: if memsize <? addr then [] else lines).
Proof.
  intros Ha Hfuel start stop Hp HP Hline. destruct (frames_exist m start stop P HP (Z.to_nat (stop - start)) start Hp ltac:(lia)) as [fs Hfs].
  pose proof (frames_inside m start stop P HP _ _ Hfs Hp) as Hin.
  assert (exists lines, Forall2 (fun f l => frame_line symtab buf data syms m f = Ret l) fs lines) as [lines Hl].
  { clear -Hin Hline. induction Hin as [|f fs [Hf Hpf] _ [ls IH]]; [by exists []|]. destruct (Hline f Hpf Hf) as [l E]. exists (l :: ls). by constructor. }
  exists fs, lines. split_and!; [done|done|]. unfold dump_stack. destruct (memsize <? addr); [done|]. fold start. fold stop.
  rewrite (walk_stack_frames symtab buf data syms m start stop start fs lines fuel Hfs Hl); [done|].
  destruct (frames_grow m start stop P HP _ _ Hfs Hp) as [->|Hlen]; [cbn; lia|].
  assert (stop - start <= 4096); [|unfold lenZ in Hlen; lia]. unfold stop, sizeof_stack_frame, PAGE_MASK.
  enough (Z.land start (u64 (Z.lnot 4095)) <= start) by lia. apply land_le_l; [|by apply Z.mod_pos_bound].
  unfold start. apply Z.land_nonneg. left. lia.
Qed.

(** * Decimal numbers typed as hexadecimal digits *)

Definition decimal (c : Z) : Prop := 48 <= c <= 57.
Definition in_base (b : Z) (s : list Z) : Z := fold_left (fun v c => b * v + (c - 48)) s 0.

Lemma in_base_snoc b s c : in_base b (s ++ [c]) = b * in_base b s + (c - 48).
Proof. unfold in_base. by rewrite fold_left_app. Qed.

Lemma in_base_range b s : 10 <= b -> Forall decimal s -> 0 <= in_base b s < b ^ lenZ s.
Proof.
  intros Hb. induction s as [|c s IH] using rev_ind; [done|]. intros [Hs Hc]%Forall_app. apply Forall_cons_1 in Hc as [Hc _].
  specialize (IH Hs). rewrite in_base_snoc, lenZ_app. change (lenZ [c]) with 1. rewrite Z.pow_add_r, Z.pow_1_r by (unfold lenZ; lia).
  unfold decimal in Hc. nia.
Qed.

Lemma hex_loop_app s c v : hex_loop (s ++ [c]) v = match hex_loop s v with Some v => hex_loop [c] v | None => None end.
Proof. revert v. induction s as [|x s IH]; intros v; [done|]. cbn [app]. change (hex_loop (x :: s ++ [c]) v) with
  (if (48 <=? x) && (x <=? 57) then hex_loop (s ++ [c]) (Z.lor (u64 (Z.shiftl v 4)) (x - 48)) else
   if (65 <=? x) && (x <=? 70) then hex_loop (s ++ [c]) (Z.lor (u64 (Z.shiftl v 4)) (x - 65 + 10)) else
   if (97 <=? x) && (x <=? 102) then hex_loop (s ++ [c]) (Z.lor (u64 (Z.shiftl v 4)) (x - 97 + 10)) else None).
  rewrite !IH. cbn [hex_loop]. by repeat destruct (_ && _). Qed.

Lemma hex_loop_decimal s : Forall decimal s -> lenZ s <= 16 -> hex_loop s 0 = Some (in_base 16 s).
Proof.
  induction s as [|c s IH] using rev_ind; [done|]. intros Hf Hl. pose proof (in_base_range 16 (s ++ [c]) ltac:(lia) Hf) as Hr.
  apply Forall_app in Hf as [Hs Hc]. apply Forall_cons_1 in Hc as [Hc _]. unfold decimal in Hc.
  rewrite hex_loop_app. rewrite lenZ_app in Hl. change (lenZ [c]) with 1 in Hl. rewrite IH by (done || lia). cbn [hex_loop].
  rewrite (proj2 (Z.leb_le _ _)), (proj2 (Z.leb_le _ _)) by lia. cbn [andb].
  assert (16 ^ lenZ (s ++ [c]) <= 2 ^ 64) as Hp.
  { change (2 ^ 64) with (16 ^ 16). apply Z.pow_le_mono_r; [lia|]. rewrite lenZ_app. change (lenZ [c]) with 1. lia. }
  pose proof (in_base_range 16 s ltac:(lia) Hs) as Hr0. rewrite in_base_snoc in *.
  rewrite <- (Z.mod_small (in_base 16 s) (2 ^ 64)) at 1 by lia. rewrite hex_add by lia. rewrite Z.mod_small by lia. f_equal. lia.
Qed.

(** [k] digits were read *)
Lemma bcd_loop_decimal s : Forall decimal s -> forall (fuel : nat) (k v : Z), 0 <= k -> lenZ s + k <= 16 -> (length s < fuel)%nat -> 0 <= v < 10 ^ k ->
  bcd_loop fuel (in_base 16 s) v (10 ^ k) = Ret (Some (v + 10 ^ k * in_base 10 s)).
Proof.
  induction s as [|c s IH] using rev_ind; intros Hf fuel k v Hk Hl Hfuel Hv; (destruct fuel as [|fuel]; [cbn in *; lia|]); cbn [bcd_loop].
  { change (in_base 16 []) with 0. change (in_base 10 []) with 0. cbn [Z.eqb]. do 2 f_equal. lia. }
  apply Forall_app in Hf as [Hs Hc]. apply Forall_cons_1 in Hc as [Hc _]. unfold decimal in Hc.
  rewrite lenZ_app in Hl. change (lenZ [c]) with 1 in Hl. rewrite length_app in Hfuel. cbn [length] in Hfuel.
  rewrite !in_base_snoc. pose proof (in_base_range 16 s ltac:(lia) Hs) as Hr. pose proof (in_base_range 10 s ltac:(lia) Hs) as Hr10.
  assert (10 ^ (k + 1) = 10 * 10 ^ k) as Ek by (rewrite Z.pow_add_r by lia; lia).
  assert (10 ^ (k + 1) <= 10 ^ 16) as Hbig by (apply Z.pow_le_mono_r; pose proof (lenZ_nonneg s); lia).
  destruct (Z.eqb_spec (16 * in_base 16 s + (c - 48)) 0) as [E0|Hne].
  - assert (in_base 16 s = 0) as Ez by lia. assert (c = 48) as -> by lia.
    specialize (IH Hs (S (length s)) k v Hk ltac:(lia) ltac:(lia) Hv). rewrite Ez in IH. cbn [bcd_loop Z.eqb] in IH.
    injection IH as IH. do 2 f_equal. nia.
  - replace (Z.land (16 * in_base 16 s + (c - 48)) 0xf) with (c - 48).
    2:{ change 0xf with (Z.ones 4). rewrite Z.land_ones by lia. change (2 ^ 4) with 16.
        rewrite (Z.mul_comm 16), Z.add_comm, Z.mod_add, Z.mod_small by lia. done. }
    rewrite (proj2 (Z.leb_gt _ _)) by lia. rewrite Z.shiftr_div_pow2 by lia. change (2 ^ 4) with 16.
    replace ((16 * in_base 16 s + (c - 48)) / 16) with (in_base 16 s) by (apply Z.div_unique with (c - 48); lia).
    rewrite (wrap_small 64 ((c - 48) * 10 ^ k)) by nia. rewrite (wrap_small 64 (v + _)) by nia. rewrite (wrap_small 64 (10 ^ k * 10)) by lia.
    replace (10 ^ k * 10) with (10 ^ (k + 1)) by lia. rewrite (IH Hs) by (lia || nia). do 2 f_equal. nia.
Qed.

(** A number of the directory is typed in decimal digits, read as hexadecimal ones and converted: up to 16 digits
    give their decimal value *)
Theorem decimal_read s : s <> [] -> Forall decimal s -> lenZ s <= 16 ->
  exists v, hex s = Some v /\ bcd2dec v = Ret (Some (in_base 10 s)).
Proof.
  intros Hne Hs Hl. exists (in_base 16 s). split.
  - unfold hex. destruct s as [|c s]; [done|]. by apply hex_loop_decimal.
  - unfold bcd2dec. pose proof (bcd_loop_decimal s Hs 17 0 0 ltac:(lia) ltac:(lia) ltac:(unfold lenZ in *; lia) ltac:(lia)) as E.
    change (10 ^ 0) with 1 in E. rewrite E. do 2 f_equal. lia.
Qed.

Theorem decimal_read_witness : exists v, hex (zs "4096") = Some v /\ bcd2dec v = Ret (Some (in_base 10 (zs "4096"))).
Proof. apply decimal_read; [done| |done]. repeat constructor; by vm_compute. Defined.

(** * Samples: the table of LoaderSpec.v in storage *)

Definition sample_memory : store := write_bytes (fun _ => 0) SYMTAB_BASE (symtab_image sample_elf).

Example sample_lookups :
  (let look a := symtab_lookup SYMTAB_BASE 10 sample_memory a 0x5000 (replicate 64 0) 64 in
   r1 ← look 0x100002; r2 ← look 0x100004; r3 ← look 0x100018; r4 ← symtab_find_text_range SYMTAB_BASE 10 sample_memory;
   Ret (r1, r2, r3, r4)) = Ret (zs "ini+0x2", zs "run+0x0", zs "???", Some (0x100000, 0x100008)).
Proof. by vm_compute. Qed.

(** a string table that starts like a symbol is taken for one *)
Example symbol_behind_the_table :
  let m := write_bytes sample_memory (SYMTAB_BASE + 384) (be_bytes 4 0 ++ [2] ++ replicate 3 0 ++ be_bytes 8 0x200000 ++ be_bytes 8 16) in
  List.find (covers m 0x200004) (entries (SYMTAB_BASE + 312) 24 3) = None /\
  symtab_lookup SYMTAB_BASE 10 m 0x200004 0x5000 (replicate 64 0) 64 = Ret (zs "+0x4").
Proof. by vm_compute. Qed.

#[local] Abbreviation sample_name := (symtab_lookup SYMTAB_BASE 4 sample_memory 0x100002 0x5000 (replicate 64 0) (lenZ (replicate 64 0))).

Theorem symtab_lookup_first_witness :
  match List.find (covers sample_memory 0x100002) (entries (SYMTAB_BASE + 312) 24 3) with
  | None => sample_name = Ret (zs "???")
  | Some cur =>
      (9 < st_name sample_memory cur -> sample_name = Ret (zs "???")) /\
      forall name F, st_name sample_memory cur <= 9 ->
        string_at (S (Z.to_nat 9)) sample_memory (SYMTAB_BASE + 384 + st_name sample_memory cur) = Ret name ->
        text_of "%s+%#llx" [Str name; Val (u64 (0x100002 - st_value sample_memory cur))] = Ret F ->
        Forall (fun c => 1 <= c < 256) F -> lenZ F < 2 ^ 31 -> sample_name = Ret (take (Z.to_nat (lenZ (replicate 64 0) - 1)) F)
  end.
Proof.
  apply (symtab_lookup_first SYMTAB_BASE sample_memory (SYMTAB_BASE + 312) 24 3 (SYMTAB_BASE + 384) 0 9 0x100002 0x5000 (replicate 64 0) 4).
  - done.
  - done.
  - done.
  - by vm_compute.
  - by vm_compute.
  - by vm_compute.
  - by vm_compute.
  - done.
  - lia.
  - done.
  - done.
  - done.
Defined.

(** two frames: the second is the last *)
Definition sample_stack : store :=
  write_bytes (write_bytes (write_bytes (write_bytes sample_memory 0x7100 (be_bytes 8 0x7200)) 0x7170 (be_bytes 8 0x100002))
    0x7200 (be_bytes 8 0)) 0x7270 (be_bytes 8 0x100006).

Lemma sample_frames f : (f = 0x7100 \/ f = 0x7200) ->
  (back_chain sample_stack f = 0 \/ (f < back_chain sample_stack f /\ (back_chain sample_stack f = 0x7100 \/ back_chain sample_stack f = 0x7200))) /\
  exists l, frame_line SYMTAB_BASE 0x5000 (replicate 64 0) 4 sample_stack f = Ret l.
Proof.
  intros [->| ->]; (split; [|eexists; by vm_compute]).
  - right. split; [by vm_compute|right; by vm_compute].
  - left. by vm_compute.
Qed.

#[local] Abbreviation sample_line := (fun f l => frame_line SYMTAB_BASE 0x5000 (replicate 64 0) 4 sample_stack f = Ret l).
#[local] Abbreviation sample_start := (Z.land 0x7103 (u64 (Z.lnot 7))).
#[local] Abbreviation sample_stop := (Z.land sample_start (u64 (Z.lnot PAGE_MASK)) + 4096 - sizeof_stack_frame).

Theorem dump_stack_walks_witness :
  exists fs lines, frames sample_stack sample_start sample_stop sample_start fs /\ Forall2 sample_line fs lines /\
    dump_stack SYMTAB_BASE 0x100000 0x5000 (replicate 64 0) 4 5000 sample_stack 0x7103 =
      Ret (("Stack trace:
"%string, []) :: if 0x100000 <? 0x7103 then [] else lines).
Proof.
  apply (dump_stack_walks SYMTAB_BASE 0x100000 0x5000 (replicate 64 0) 4 sample_stack 0x7103 5000 (fun f => f = 0x7100 \/ f = 0x7200)).
  - lia.
  - apply Nat.ltb_lt. by vm_compute.
  - by left.
  - intros f Hf _. by apply sample_frames.
  - intros f Hf _. by apply sample_frames.
Defined.

Example sample_trace :
  dump_stack SYMTAB_BASE 0x100000 0x5000 (replicate 64 0) 4 10 sample_stack 0x7103 =
    Ret [("Stack trace:
"%string, []); ("   %016llx   %-s
"%string, [Val 0x100002; Str (zs "ini+0x2")]); ("   %016llx   %-s
"%string, [Val 0x100006; Str (zs "run+0x2")])].
Proof. by vm_compute. Qed.

(** a report of two words chained, and one that is left *)
Example sample_reports :
  __mch_int_handler ([0; 0x40] ++ zeros 6) [[0x10; 0; 0; 1]; [0x03; 0; 0; 2]; [0; 0; 0; 3]] =
    ([("MCH INTERRUPT!"%string, []); ("%016llx: "%string, [Val 0x0040000000000000]); ("-> channel report pending"%string, []);
      ("%08x:"%string, [Val 0x10000001]); ("RSC: %x"%string, [Val 0]); ("ERC: %x"%string, [Val 0]); ("ID:  %x"%string, [Val 1]);
      ("%08x:"%string, [Val 0x03000002]); ("RSC: %x"%string, [Val 3]); ("ERC: %x"%string, [Val 0]); ("ID:  %x"%string, [Val 2])],
     Some [[0; 0; 0; 3]]).
Proof. by vm_compute. Qed.
