(* ===== verification/Deck.v ===== *)
(** build/ccw_gen.c: the boot deck of the installer.

    The program prints assembler source of nothing but [.byte] lines: card 1, a PSW and
    two CCWs with padding, then the CCWs that read the cards behind them.  The model is
    those bytes; headings and comments are left out, and a PSW byte is the two
    characters that are copied from the argument.  padcat.c (Archive.v) fills the deck up
    to whole cards and puts the program behind it.  What a card reader does with the
    cards at IPL is the specification: a channel program of READ, NOP and TRANSFER IN
    CHANNEL.  The theorem: the deck loads the program and starts its PSW, for the sizes
    the number of CCWs is computed right for; the others are a finding. *)

From S2P Require Import Prelude Edf Archive Installer InstallerSpec Dat Layout Guest Printf Shell Loader LoaderSpec.

Local Open Scope Z_scope.

#[local] Abbreviation field := Edf.field.

(** * The program *)

(** a [.byte] line: of two characters, or of a number *)
Inductive item := Chars (c d : Z) | Byte (v : Z).

Definition CHAIN : Z := 0x40.

Definition unhex (c : Z) : outcome Z :=
  if (48 <=? c) && (c <=? 57) then Ret (c - 48) else
  if (65 <=? c) && (c <=? 70) then Ret (c - 65 + 10) else
  if (97 <=? c) && (c <=? 102) then Ret (c - 97 + 10) else Stopped.

(** an address as its three bytes *)
Definition addr3 : Type := (Z * Z * Z).

(** the carry of the first one would go to [addr[-1]] *)
Definition __add (addr : addr3) (a : Z) : outcome addr3 :=
  let '(a0, a1, a2) := addr in
  let a2 := u32 (a2 + a) in
  let '(a1, a2) := if 255 <? a2 then (u32 (a1 + a2 / 256), a2 mod 256) else (a1, a2) in
  let '(a0, a1) := if 255 <? a1 then (u32 (a0 + a1 / 256), a1 mod 256) else (a0, a1) in
  if 255 <? a0 then Undef else Ret (a0, a1, a2).

Definition parse_byte (s : list Z) (i : nat) : outcome Z :=
  match s !! i, s !! S i with
  | Some c, Some d => h ← unhex c; l ← unhex d; Ret (Z.lor (Z.shiftl h 4) l)
  | _, _ => Undef
  end.

Definition parse_addr (s : list Z) : outcome addr3 :=
  a0 ← parse_byte s 0; a1 ← parse_byte s 2; a2 ← parse_byte s 4; Ret (a0, a1, a2).

Fixpoint pairs (s : list Z) : list item :=
  match s with c :: d :: s => Chars c d :: pairs s | _ => [] end.

Definition ADDRS (a : addr3) : list item := let '(a0, a1, a2) := a in [Byte a0; Byte a1; Byte a2].

Definition psw_tail (ccw_addr : addr3) : list item :=
  Byte 0x02 :: ADDRS ccw_addr ++ [Byte CHAIN; Byte 0; Byte 0; Byte 0x50] ++
  Byte 0x08 :: ADDRS ccw_addr ++ [Byte 0; Byte 0; Byte 0; Byte 0].

Definition pad : list item := replicate 56 (Byte 0x40).
Definition cp_ccw (a : addr3) : list item := Byte 0x02 :: ADDRS a ++ [Byte 0x40; Byte 0; Byte 0; Byte 0x50].
Definition data_ccw (a : addr3) (flag : Z) : list item := Byte 0x02 :: ADDRS a ++ [Byte flag; Byte 0; Byte 0; Byte 0x50].
Definition nop_ccw : list item := [Byte 0x03; Byte 0; Byte 0; Byte 0x08; Byte 0x60; Byte 0; Byte 0; Byte 0x01].

(** CCWs that read CCWs, the address after them *)
Fixpoint cp_ccws (n : nat) (ccw_addr : addr3) : outcome (list item) :=
  match n with
  | O => Ret []
  | S n => next ← __add ccw_addr 80; l ← cp_ccws n next; Ret (cp_ccw ccw_addr ++ l)
  end.

(** the cards from [i] on; the last is not chained *)
Fixpoint data_ccws (n : nat) (i data_cards : Z) (addr : addr3) : outcome (list item) :=
  match n with
  | O => Ret []
  | S n =>
      next ← __add addr 80; l ← data_ccws n (i + 1) data_cards next;
      Ret (data_ccw addr (if i =? data_cards then 0 else CHAIN) ++ l)
  end.

(** how many cards of CCWs are read by CCWs: the loop runs up to this number less 1 *)
Definition cp_count (data_cards : Z) : Z :=
  u32 (u32 (data_cards + 9) / 10 + u32 (u32 (data_cards + 9) / 10 + 9) / 10 - 2) + 1.

(** up to the next multiple of 10 *)
Definition nops (i : Z) : nat := Z.to_nat ((10 - i mod 10) mod 10).

(** [args] are those behind the program's name, [atol] what the third one is *)
Definition main (psw1 psw2 : list Z) (atol : Z) (addr ccw_addr : list Z) : outcome (list item) :=
  if negb (lenZ psw1 =? 8) || negb (lenZ psw2 =? 8) then Stopped else
  let size := u32 atol in
  if size =? 0 then Stopped else
  if negb (lenZ addr =? 6) || negb (lenZ ccw_addr =? 6) then Stopped else
  addr ← parse_addr addr;
  ccw_addr ← parse_addr ccw_addr;
  let size := if negb (size mod 80 =? 0) then u32 (size - size mod 80 + 80) else size in
  let data_cards := size / 80 in
  if data_cards =? 1 then Stopped else
  ccw_addr' ← __add ccw_addr 80;
  cp ← cp_ccws (Z.to_nat (cp_count data_cards)) ccw_addr';
  data ← data_ccws (Z.to_nat data_cards) 1 data_cards addr;
  Ret (pairs psw1 ++ pairs psw2 ++ psw_tail ccw_addr ++ pad ++ cp ++ concat (replicate (nops (cp_count data_cards)) nop_ccw) ++ data).

(** * The bytes *)

Definition item_byte (i : item) : option Z :=
  match i with
  | Byte v => Some v
  | Chars c d => match unhex c, unhex d with Ret h, Ret l => Some (16 * h + l) | _, _ => None end
  end.

(** what the assembler makes of the lines *)
Definition assembled (l : list item) : option (list Z) := mapM item_byte l.

(** * The IPL of a deck of cards *)

(** the command, address, flags and count of the CCW at [a] *)
Definition ccw_at (m : store) (a : Z) : Z * Z * Z * Z := (ld m a 1, ld m (a + 1) 3, ld m (a + 4) 1, ld m (a + 6) 2).

Fixpoint channel (fuel : nat) (a : Z) (cards : list (list Z)) (m : store) : option store :=
  match fuel with
  | O => None
  | S fuel =>
      let '(cmd, addr, flags, count) := ccw_at m a in
      if cmd =? 0x08 then channel fuel addr cards m else
      let next cards m := if Z.land flags CHAIN =? 0 then Some m else channel fuel (a + 8) cards m in
      if cmd =? 0x03 then next cards m else
      if cmd =? 0x02 then
        match cards with
        | card :: cards => next cards (write_bytes m addr (take (Z.to_nat count) card))
        | [] => None
        end
      else None
  end.

(** 24 bytes are read to 0; the CCWs at 8 are executed; then the PSW at 0 is loaded *)
Definition ipl (fuel : nat) (cards : list (list Z)) (m : store) : option store :=
  match cards with
  | card :: cards => channel fuel 8 cards (write_bytes m 0 (take 24 card))
  | [] => None
  end.

(** padcat's cards of the deck, and of the program behind it *)
Definition boot_cards (deck program : list Z) : list (list Z) := cat (length deck) deck ++ cat (length program) program.

(** * Cards *)

Lemma cat_count fuel f : (length f <= fuel)%nat -> Z.of_nat (length (cat fuel f)) = (lenZ f + 79) / 80.
Proof.
  revert f. induction fuel as [|fuel IH]; intros [|c f] Hf; [done|cbn in Hf; lia|done|].
  cbn [cat length]. set (g := c :: f) in *. assert (1 <= length g)%nat as Hg by (unfold g; cbn; lia). clearbody g.
  rewrite Nat2Z.inj_succ, IH by (rewrite length_drop; lia). unfold lenZ. rewrite length_drop.
  destruct (decide (80 <= length g)%nat).
  - replace (Z.of_nat (length g) + 79) with (Z.of_nat (length g - 80) + 79 + 1 * 80) by lia. rewrite Z.div_add by lia. lia.
  - replace (length g - 80)%nat with 0%nat by lia. change ((Z.of_nat 0 + 79) / 80) with 0.
    apply Z.div_unique with (Z.of_nat (length g) - 1); lia.
Qed.

(** * Addresses *)

Definition av (a : addr3) : Z := let '(a0, a1, a2) := a in a0 * 65536 + a1 * 256 + a2.
Definition canon (a : addr3) : Prop := let '(a0, a1, a2) := a in 0 <= a0 < 256 /\ 0 <= a1 < 256 /\ 0 <= a2 < 256.

Lemma add_80 a a' : canon a -> __add a 80 = Ret a' -> canon a' /\ av a' = av a + 80.
Proof.
  destruct a as [[a0 a1] a2]. intros (H0 & H1 & H2) H. unfold __add in H. rewrite wrap_small in H by lia.
  assert (exists b1 b2, (if 255 <? a2 + 80 then (u32 (a1 + (a2 + 80) / 256), (a2 + 80) mod 256) else (a1, a2 + 80)) = (b1, b2) /\
    0 <= b1 <= 256 /\ 0 <= b2 < 256 /\ b1 * 256 + b2 = a1 * 256 + a2 + 80) as (b1 & b2 & E & Hb1 & Hb2 & Hb).
  { destruct (Z.ltb_spec 255 (a2 + 80)).
    - eexists _, _. split; [done|]. pose proof (Z.div_mod (a2 + 80) 256 ltac:(lia)). pose proof (Z.mod_pos_bound (a2 + 80) 256 ltac:(lia)).
      assert ((a2 + 80) / 256 = 1) as E1 by (symmetry; apply Z.div_unique with (a2 + 80 - 256); lia). rewrite E1 in *. rewrite wrap_small by lia. lia.
    - eexists _, _. split; [done|]. lia. }
  rewrite E in H. clear E.
  assert (exists c0 c1, (if 255 <? b1 then (u32 (a0 + b1 / 256), b1 mod 256) else (a0, b1)) = (c0, c1) /\
    0 <= c0 /\ 0 <= c1 < 256 /\ c0 * 256 + c1 = a0 * 256 + b1) as (c0 & c1 & E & Hc0 & Hc1 & Hc).
  { destruct (Z.ltb_spec 255 b1).
    - assert (b1 = 256) as -> by lia. eexists _, _. split; [done|]. change (256 / 256) with 1. change (256 mod 256) with 0. rewrite wrap_small by lia. lia.
    - eexists _, _. split; [done|]. lia. }
  rewrite E in H. destruct (Z.ltb_spec 255 c0); [done|]. injection H as <-. unfold canon, av. lia.
Qed.

Lemma unhex_range c v : unhex c = Ret v -> 0 <= v < 16.
Proof.
  unfold unhex. destruct (Z.leb_spec 48 c), (Z.leb_spec c 57); cbn [andb]; try (intros [= <-]; lia).
  all: destruct (Z.leb_spec 65 c), (Z.leb_spec c 70); cbn [andb]; try (intros [= <-]; lia).
  all: destruct (Z.leb_spec 97 c), (Z.leb_spec c 102); cbn [andb]; try (intros [= <-]; lia); done.
Qed.

Lemma parse_byte_range s i v : parse_byte s i = Ret v -> 0 <= v < 256.
Proof.
  unfold parse_byte. destruct (s !! i) as [c|]; [|done]. destruct (s !! S i) as [d|]; [|done].
  intros (h & Hh & H)%bind_Ret. apply bind_Ret in H as (l & Hl & [= <-]). apply unhex_range in Hh, Hl.
  rewrite Z.shiftl_mul_pow2 by lia. rewrite lor_digit by lia. lia.
Qed.

Lemma parse_addr_canon s a : parse_addr s = Ret a -> canon a.
Proof.
  intros (a0 & H0 & H)%bind_Ret. apply bind_Ret in H as (a1 & H1 & H). apply bind_Ret in H as (a2 & H2 & [= <-]).
  apply parse_byte_range in H0, H1, H2. done.
Qed.

(** * The CCWs *)

Definition ccw (cmd addr flags count : Z) : list Z := cmd :: be_bytes 3 addr ++ [flags; 0] ++ be_bytes 2 count.

Lemma ADDRS_bytes a : canon a -> ADDRS a = map Byte (be_bytes 3 (av a)).
Proof.
  destruct a as [[a0 a1] a2]. intros (H0 & H1 & H2). cbn [ADDRS be_bytes map]. unfold av.
  change (256 ^ Z.of_nat 2) with 65536. change (256 ^ Z.of_nat 1) with 256. change (256 ^ Z.of_nat 0) with 1. rewrite Z.div_1_r.
  assert ((a0 * 65536 + a1 * 256 + a2) / 65536 = a0) as -> by (symmetry; apply Z.div_unique with (a1 * 256 + a2); lia).
  assert ((a0 * 65536 + a1 * 256 + a2) / 256 = a0 * 256 + a1) as -> by (symmetry; apply Z.div_unique with a2; lia).
  rewrite Z.mod_small by lia. rewrite (Z.add_comm (a0 * 256)), Z.mod_add, Z.mod_small by lia.
  replace (a0 * 65536 + a1 * 256 + a2) with (a2 + (a0 * 256 + a1) * 256) by lia. by rewrite Z.mod_add, Z.mod_small by lia.
Qed.

Lemma av_range a : canon a -> 0 <= av a < 2 ^ 24.
Proof. destruct a as [[a0 a1] a2]. unfold canon, av. lia. Qed.

Definition cp_list (n : nat) (a : Z) : list (list Z) := map (fun k => ccw 2 (a + 80 * Z.of_nat k) CHAIN 80) (seq 0 n).
Definition data_list (n : nat) (a : Z) : list (list Z) :=
  map (fun k => ccw 2 (a + 80 * Z.of_nat k) (if decide (S k = n) then 0 else CHAIN) 80) (seq 0 n).

Lemma cp_list_S n a : cp_list (S n) a = ccw 2 a CHAIN 80 :: cp_list n (a + 80).
Proof.
  unfold cp_list. cbn [seq map]. rewrite Z.mul_0_r, Z.add_0_r, <- seq_shift, map_map. f_equal. apply map_ext. intros k. f_equal. lia.
Qed.

Lemma data_list_S n a : data_list (S n) a = ccw 2 a (if decide (n = 0%nat) then 0 else CHAIN) 80 :: data_list n (a + 80).
Proof.
  unfold data_list. cbn [seq map]. rewrite Z.mul_0_r, Z.add_0_r, <- seq_shift, map_map. f_equal.
  - do 2 f_equal. by repeat case_decide; lia.
  - apply map_ext. intros k. f_equal; [lia|]. by repeat case_decide; lia.
Qed.

Lemma cp_ccws_spec n a l : canon a -> cp_ccws n a = Ret l -> l = map Byte (concat (cp_list n (av a))).
Proof.
  revert a l. induction n as [|n IH]; intros a l Ha H; [by injection H as <-|]. cbn [cp_ccws] in H.
  apply bind_Ret in H as (a' & Ea & H). apply bind_Ret in H as (l' & El & [= <-]). destruct (add_80 a a' Ha Ea) as [Ha' Hav].
  rewrite cp_list_S. cbn [concat]. rewrite map_app, <- Hav, <- (IH a' l' Ha' El). f_equal. unfold cp_ccw. by rewrite ADDRS_bytes.
Qed.

Lemma data_ccws_spec n a i l : canon a -> data_ccws n i (i + Z.of_nat n - 1) a = Ret l -> l = map Byte (concat (data_list n (av a))).
Proof.
  revert a i l. induction n as [|n IH]; intros a i l Ha H; [by injection H as <-|]. cbn [data_ccws] in H.
  apply bind_Ret in H as (a' & Ea & H). replace (i + Z.of_nat (S n) - 1) with (i + 1 + Z.of_nat n - 1) in H by lia.
  apply bind_Ret in H as (l' & El & [= <-]). destruct (add_80 a a' Ha Ea) as [Ha' Hav].
  rewrite data_list_S. cbn [concat]. rewrite map_app, <- Hav, <- (IH a' _ l' Ha' El). f_equal. unfold data_ccw. rewrite ADDRS_bytes by done.
  destruct (Z.eqb_spec i (i + 1 + Z.of_nat n - 1)); destruct (decide (n = 0%nat)); try lia; reflexivity.
Qed.

(** * What the channel does *)

Lemma ccw_length cmd a fl n : length (ccw cmd a fl n) = 8%nat.
Proof. unfold ccw. cbn [length]. rewrite !length_app, !be_bytes_length. done. Qed.

Lemma ccw_at_spec m p cmd a fl n : read_bytes m p 8 = ccw cmd a fl n -> 0 <= a < 2 ^ 24 -> 0 <= n < 65536 -> ccw_at m p = (cmd, a, fl, n).
Proof.
  intros H Ha Hn. unfold ccw_at.
  assert (forall off c : nat, (off + c <= 8)%nat -> ld m (p + Z.of_nat off) (Z.of_nat c) = be_field (ccw cmd a fl n) off c) as Hld.
  { intros off c Hc. apply ld_part; unfold lenZ; rewrite ccw_length; done. }
  pose proof (Hld 0 1 ltac:(lia))%nat as H0. pose proof (Hld 1 3 ltac:(lia))%nat as H1. pose proof (Hld 4 1 ltac:(lia))%nat as H4.
  pose proof (Hld 6 2 ltac:(lia))%nat as H6.
  change (Z.of_nat 0) with 0 in H0. change (Z.of_nat 1) with 1 in *. change (Z.of_nat 3) with 3 in *. change (Z.of_nat 4) with 4 in *.
  change (Z.of_nat 6) with 6 in *. change (Z.of_nat 2) with 2 in *. rewrite Z.add_0_r in H0. rewrite H0, H1, H4, H6.
  assert (be_field (ccw cmd a fl n) 0 1 = cmd) as -> by (unfold Edf.be_field, Edf.field, ccw; cbn [take drop firstn skipn be_bytes app be_val]; change (lenZ []) with 0; lia).
  assert (be_field (ccw cmd a fl n) 1 3 = a) as ->.
  { change (be_field (ccw cmd a fl n) 1 3) with (be_val (be_bytes 3 a)). rewrite be_val_bytes. apply Z.mod_small. exact Ha. }
  assert (be_field (ccw cmd a fl n) 4 1 = fl) as -> by (unfold Edf.be_field, Edf.field, ccw; cbn [take drop firstn skipn be_bytes app be_val]; change (lenZ []) with 0; lia).
  assert (be_field (ccw cmd a fl n) 6 2 = n) as ->.
  { change (be_field (ccw cmd a fl n) 6 2) with (be_val (be_bytes 2 n)). rewrite be_val_bytes. apply Z.mod_small. exact Hn. }
  done.
Qed.

Section boot.
Context (C A : Z).                           (* where the CCWs and the program go *)
Context (L : list (list Z)) (cards : list (list Z)).   (* the CCWs, and the cards they are on *)
Context (HL : Forall (fun w => length w = 8%nat) L) (Hcards : Forall (fun c => length c = 80%nat) cards).
Context (z : nat) (Hon : concat cards = concat L ++ replicate z 0).

(** the first [k] cards of CCWs are in storage *)
Definition loaded (k : nat) (m : store) : Prop := read_bytes m C (80 * Z.of_nat k) = concat (take k cards).

Lemma take_cards k : (k <= length cards)%nat -> length (concat (take k cards)) = (80 * k)%nat.
Proof. intros Hk. rewrite (concat_length_n 80) by (by apply Forall_take). rewrite length_take. lia. Qed.

(** the CCW at [C + 8 i] *)
Lemma loaded_ccw k m i w : loaded k m -> (k <= length cards)%nat -> L !! i = Some w -> (8 * i + 8 <= 80 * k)%nat ->
  read_bytes m (C + 8 * Z.of_nat i) 8 = w.
Proof.
  intros Hm Hk Hi Hle. pose proof (take_cards k Hk) as Hlen.
  replace (C + 8 * Z.of_nat i) with (C + Z.of_nat (8 * i)) by lia. change 8 with (Z.of_nat 8).
  rewrite (read_part m C (concat (take k cards))).
  2:{ replace (lenZ (concat (take k cards))) with (80 * Z.of_nat k) by (unfold lenZ; lia). exact Hm. }
  2:{ lia. }
  rewrite <- (field_app_l _ (concat (drop k cards))) by lia. rewrite <- concat_app, take_drop, Hon.
  rewrite <- (Nat.add_0_r (8 * i)), (field_record 8 L HL _ i w) by (done || lia).
  unfold Edf.field. rewrite drop_0. apply take_ge. by rewrite (Forall_lookup_1 _ _ _ _ HL Hi).
Qed.

Lemma loaded_more k m c : loaded k m -> cards !! k = Some c -> loaded (S k) (write_bytes m (C + 80 * Z.of_nat k) c).
Proof.
  intros Hm Hk. assert (k < length cards)%nat as Hlt by (by eapply lookup_lt_Some).
  assert (length c = 80%nat) as Hc by (by eapply (Forall_lookup_1 (fun c => length c = 80%nat))).
  pose proof (take_cards k ltac:(lia)) as Hlen. unfold loaded in *.
  rewrite (take_S_r cards k c Hk), concat_app. cbn [concat]. rewrite app_nil_r.
  apply list_eq. intros i. unfold Dat.read_bytes in *. rewrite list_lookup_fmap.
  destruct (decide (i < 80 * S k)%nat) as [Hi|Hi].
  - rewrite lookup_seqZ_lt by lia. cbn [fmap option_fmap option_map]. destruct (decide (i < 80 * k)%nat) as [Hi2|Hi2].
    + rewrite lookup_app_l by lia. rewrite <- Hm, list_lookup_fmap, lookup_seqZ_lt by lia. cbn. f_equal.
      apply write_out. unfold lenZ. lia.
    + rewrite lookup_app_r by lia. rewrite write_in by (unfold lenZ; lia).
      replace (Z.to_nat (C + Z.of_nat i - (C + 80 * Z.of_nat k))) with (i - length (concat (take k cards)))%nat by lia.
      destruct (lookup_lt_is_Some_2 c (i - length (concat (take k cards)))%nat) as [v ->]; [lia|done].
  - rewrite lookup_seqZ_ge by lia. rewrite lookup_ge_None_2; [done|]. rewrite length_app. lia.
Qed.

Lemma loaded_same k m m' : loaded k m -> (forall x, C <= x < C + 80 * Z.of_nat k -> m' x = m x) -> loaded k m'.
Proof. intros H Hs. unfold loaded. rewrite <- H. by apply read_bytes_ext. Qed.

Lemma channel_read fuel a card rest m addr fl : read_bytes m a 8 = ccw 2 addr fl 80 -> 0 <= addr < 2 ^ 24 -> length card = 80%nat ->
  channel (S fuel) a (card :: rest) m =
    if Z.land fl CHAIN =? 0 then Some (write_bytes m addr card) else channel fuel (a + 8) rest (write_bytes m addr card).
Proof.
  intros H Ha Hc. cbn [channel]. rewrite (ccw_at_spec m a 2 addr fl 80 H Ha) by lia. cbn [Z.eqb Pos.eqb].
  rewrite take_ge by lia. done.
Qed.

(** CCWs that read CCWs *)
Lemma cp_phase n : forall i m rest fuel, loaded (S i) m -> (S i + n = length cards)%nat ->
  (forall j, (j < n)%nat -> L !! (i + j)%nat = Some (ccw 2 (C + 80 * Z.of_nat (S i + j)) CHAIN 80)) ->
  0 <= C -> C + 80 * Z.of_nat (length cards) <= 2 ^ 24 ->
  exists m', channel (n + fuel) (C + 8 * Z.of_nat i) (drop (S i) cards ++ rest) m = channel fuel (C + 8 * Z.of_nat (i + n)) rest m' /\
    loaded (length cards) m' /\ (forall x, ~ (C <= x < C + 80 * Z.of_nat (length cards)) -> m' x = m x).
Proof.
  induction n as [|n IH]; intros i m rest fuel Hm Hn Hccw HC HC2.
  - exists m. rewrite drop_ge by lia. rewrite Nat.add_0_r. cbn [Nat.add app]. split_and!; [done| |done].
    by replace (length cards) with (S i) by lia.
  - destruct (lookup_lt_is_Some_2 cards (S i) ltac:(lia)) as [c Hc]. rewrite (drop_S cards c (S i) Hc). cbn [app Nat.add].
    assert (length c = 80%nat) as Hlc by (by eapply (Forall_lookup_1 (fun c => length c = 80%nat))).
    pose proof (Hccw 0%nat ltac:(lia)) as H0. rewrite !Nat.add_0_r in H0.
    rewrite (channel_read _ _ c _ m (C + 80 * Z.of_nat (S i)) CHAIN);
      [|by eapply (loaded_ccw (S i)); [done|lia|done|lia]|lia|done].
    cbn [Z.land CHAIN Pos.land Z.eqb].
    destruct (IH (S i) (write_bytes m (C + 80 * Z.of_nat (S i)) c) rest fuel) as (m' & E & Hm' & Hrest); try done.
    + by apply loaded_more.
    + lia.
    + intros j Hj. replace (S i + j)%nat with (i + S j)%nat by lia. rewrite (Hccw (S j)) by lia. do 3 f_equal. lia.
    + exists m'. replace (i + S n)%nat with (S i + n)%nat by lia. replace (C + 8 * Z.of_nat i + 8) with (C + 8 * Z.of_nat (S i)) by lia.
      split_and!; [exact E|done|]. intros x Hx. rewrite Hrest by done. apply write_out. unfold lenZ. lia.
Qed.

Lemma nop_phase n : forall i m rest fuel, loaded (length cards) m -> (8 * (i + n) <= 80 * length cards)%nat ->
  (forall j, (j < n)%nat -> L !! (i + j)%nat = Some (ccw 3 8 0x60 1)) ->
  channel (n + fuel) (C + 8 * Z.of_nat i) rest m = channel fuel (C + 8 * Z.of_nat (i + n)) rest m.
Proof.
  induction n as [|n IH]; intros i m rest fuel Hm Hn Hccw; [by rewrite Nat.add_0_r|]. cbn [Nat.add channel].
  pose proof (Hccw 0%nat ltac:(lia)) as H0. rewrite Nat.add_0_r in H0.
  rewrite (ccw_at_spec m _ 3 8 0x60 1) by (lia || (eapply (loaded_ccw (length cards)); [done|lia|done|lia])).
  cbn [Z.eqb Pos.eqb Z.land CHAIN Pos.land]. replace (i + S n)%nat with (S i + n)%nat by lia.
  replace (C + 8 * Z.of_nat i + 8) with (C + 8 * Z.of_nat (S i)) by lia. apply IH; [done|lia|].
  intros j Hj. replace (S i + j)%nat with (i + S j)%nat by lia. apply Hccw. lia.
Qed.

(** CCWs that read the program *)
Lemma data_phase n : forall k i a m file fuel, loaded (length cards) m -> length file = n -> (0 < n)%nat ->
  Forall (fun c => length c = 80%nat) file -> (8 * (i + n) <= 80 * length cards)%nat ->
  (forall j, (j < n)%nat -> L !! (i + j)%nat = Some (ccw 2 (a + 80 * Z.of_nat j) (if decide (S (k + j) = k + n)%nat then 0 else CHAIN) 80)) ->
  0 <= a -> a + 80 * Z.of_nat n <= 2 ^ 24 -> a + 80 * Z.of_nat n <= C \/ C + 80 * Z.of_nat (length cards) <= a ->
  exists m', channel (n + fuel) (C + 8 * Z.of_nat i) file m = Some m' /\ same m' (write_bytes m a (concat file)).
Proof.
  induction n as [|n IH]; intros k i a m file fuel Hm Hlen Hpos Hfile Hn Hccw Ha Ha2 Hap; [lia|].
  destruct file as [|c file]; [done|]. apply Forall_cons_1 in Hfile as [Hc Hfile]. cbn [length] in Hlen. injection Hlen as Hlen.
  pose proof (Hccw 0%nat ltac:(lia)) as H0. rewrite Z.mul_0_r, Z.add_0_r, !Nat.add_0_r in H0. cbn [Nat.add].
  rewrite (channel_read _ _ c _ m a _ ltac:(eapply (loaded_ccw (length cards)); [done|lia|exact H0|lia])) by (lia || done).
  case_decide as Hlast.
  - assert (n = 0%nat) as -> by lia. destruct file; [|done]. cbn [Z.land Z.eqb]. eexists. split; [done|].
    cbn [concat]. by rewrite app_nil_r.
  - cbn [Z.land CHAIN Pos.land Z.eqb]. destruct (IH (S k) (S i) (a + 80) (write_bytes m a c) file fuel) as (m' & E & Hm'); try done; try lia.
    + apply (loaded_same _ m); [done|]. intros x Hx. apply write_out. unfold lenZ. lia.
    + intros j Hj. replace (S i + j)%nat with (i + S j)%nat by lia. rewrite (Hccw (S j)) by lia. f_equal. f_equal; [lia|].
      repeat case_decide; lia || done.
    + exists m'. replace (C + 8 * Z.of_nat i + 8) with (C + 8 * Z.of_nat (S i)) by lia. split; [exact E|].
      rewrite Hm'. cbn [concat]. replace (a + 80) with (a + lenZ c) by (unfold lenZ; lia). apply append_same.
Qed.
End boot.

(** * The deck *)

Lemma assembled_app l1 l2 : assembled (l1 ++ l2) = (b1 ← assembled l1; b2 ← assembled l2; Some (b1 ++ b2)).
Proof.
  unfold assembled. induction l1 as [|i l1 IH]; [cbn; by destruct (mapM item_byte l2)|]. cbn [app mapM]. rewrite IH.
  destruct (item_byte i); [|done]. cbn. destruct (mapM item_byte l1); [|done]. cbn. by destruct (mapM item_byte l2).
Qed.

Lemma assembled_bytes l : assembled (map Byte l) = Some l.
Proof. unfold assembled. induction l as [|b l IH]; [done|]. cbn [map mapM item_byte]. by rewrite IH. Qed.

Lemma assembled_length l b : assembled l = Some b -> length b = length l.
Proof.
  unfold assembled. revert b. induction l as [|i l IH]; intros b; cbn [mapM]; [by intros [= <-]|].
  destruct (item_byte i); [|done]. cbn. destruct (mapM item_byte l) as [b'|]; [|done]. intros [= <-]. cbn. by rewrite (IH b').
Qed.

Lemma pairs_length s n : length s = (2 * n)%nat -> length (pairs s) = n.
Proof.
  revert s. induction n as [|n IH]; intros s Hs; [by destruct s|]. destruct s as [|c [|d s]]; cbn in Hs; try lia. cbn. f_equal. apply IH. lia.
Qed.

Definition nop_word : list Z := ccw 3 8 0x60 1.

(** the CCWs behind card 1 *)
Definition deck_ccws (D : Z) (A C : Z) : list (list Z) :=
  cp_list (Z.to_nat (cp_count D)) (C + 80) ++ replicate (nops (cp_count D)) nop_word ++ data_list (Z.to_nat D) A.

Lemma nop_bytes n : concat (replicate n nop_ccw) = map Byte (concat (replicate n nop_word)).
Proof. induction n as [|n IH]; [done|]. cbn [replicate concat]. by rewrite IH, map_app. Qed.

(** cards of 80 bytes *)
Definition data_cards (size : Z) : Z := (size + 79) / 80.

Lemma rounded_cards size : 0 < size < 2 ^ 32 - 80 ->
  (if negb (size mod 80 =? 0) then u32 (size - size mod 80 + 80) else size) / 80 = data_cards size.
Proof.
  intros Hs. unfold data_cards. pose proof (Z.div_mod size 80 ltac:(lia)) as E. pose proof (Z.mod_pos_bound size 80 ltac:(lia)).
  destruct (Z.eqb_spec (size mod 80) 0); cbn [negb].
  - apply Z.div_unique with 79; lia.
  - rewrite wrap_small by lia. replace (size - size mod 80 + 80) with ((size / 80 + 1) * 80) by lia. rewrite Z.div_mul by lia.
    apply Z.div_unique with (size mod 80 - 1); lia.
Qed.

Lemma cp_ccws_bound n a l : canon a -> cp_ccws n a = Ret l -> av a + 80 * Z.of_nat n < 2 ^ 24.
Proof.
  revert a l. induction n as [|n IH]; intros a l Ha H; [pose proof (av_range a Ha); lia|]. cbn [cp_ccws] in H.
  apply bind_Ret in H as (a' & Ea & H). apply bind_Ret in H as (l' & El & _). destruct (add_80 a a' Ha Ea) as [Ha' Hav].
  pose proof (IH a' l' Ha' El). lia.
Qed.

Lemma data_ccws_bound n i d a l : canon a -> data_ccws n i d a = Ret l -> av a + 80 * Z.of_nat n < 2 ^ 24.
Proof.
  revert i a l. induction n as [|n IH]; intros i a l Ha H; [pose proof (av_range a Ha); lia|]. cbn [data_ccws] in H.
  apply bind_Ret in H as (a' & Ea & H). apply bind_Ret in H as (l' & El & _). destruct (add_80 a a' Ha Ea) as [Ha' Hav].
  pose proof (IH _ a' l' Ha' El). lia.
Qed.

Lemma deck_spec psw1 psw2 size addr ccw_addr deck : 0 < size < 2 ^ 32 - 80 -> main psw1 psw2 size addr ccw_addr = Ret deck ->
  exists a c, parse_addr addr = Ret a /\ parse_addr ccw_addr = Ret c /\ canon a /\ canon c /\
    lenZ psw1 = 8 /\ lenZ psw2 = 8 /\ data_cards size <> 1 /\
    deck = (pairs psw1 ++ pairs psw2) ++ map Byte (ccw 2 (av c) CHAIN 80 ++ ccw 8 (av c) 0 0 ++ replicate 56 0x40 ++
      concat (deck_ccws (data_cards size) (av a) (av c))) /\
    av a + 80 * data_cards size < 2 ^ 24 /\ av c + 80 * (cp_count (data_cards size) + 1) < 2 ^ 24.
Proof.
  intros Hs H. unfold main in H. destruct (Z.eqb_spec (lenZ psw1) 8); [|done]. destruct (Z.eqb_spec (lenZ psw2) 8); [|done]. cbn [negb orb] in H.
  rewrite (wrap_small 32 size) in H by lia. rewrite (proj2 (Z.eqb_neq _ _)) in H by lia.
  destruct (negb (lenZ addr =? 6) || negb (lenZ ccw_addr =? 6)); [done|].
  apply bind_Ret in H as (a & Ha & H). apply bind_Ret in H as (c & Hc & H). rewrite rounded_cards in H by done.
  destruct (Z.eqb_spec (data_cards size) 1); [done|].
  apply bind_Ret in H as (c' & Hc' & H). apply bind_Ret in H as (cp & Hcp & H). apply bind_Ret in H as (dl & Hdl & [= <-]).
  pose proof (parse_addr_canon _ _ Ha) as Hca. pose proof (parse_addr_canon _ _ Hc) as Hcc. destruct (add_80 c c' Hcc Hc') as [Hcc' Hav].
  pose proof (cp_ccws_bound _ _ _ Hcc' Hcp). pose proof (data_ccws_bound _ _ _ _ _ Hca Hdl).
  assert (0 <= data_cards size) by (apply Z.div_pos; lia).
  exists a, c. split_and!; try done; try lia. rewrite (cp_ccws_spec _ _ _ Hcc' Hcp), Hav.
  assert (0 <= data_cards size) as Hpos by (apply Z.div_pos; lia).
  replace (data_cards size) with (1 + Z.of_nat (Z.to_nat (data_cards size)) - 1) in Hdl at 2 by lia.
  rewrite (data_ccws_spec _ _ _ _ Hca Hdl), nop_bytes. unfold deck_ccws. rewrite !concat_app, !map_app, <- !app_assoc. do 2 f_equal.
  unfold psw_tail. by rewrite ADDRS_bytes.
Qed.

Lemma deck_bytes p q rest bytes : lenZ p = 8 -> lenZ q = 8 -> assembled ((pairs p ++ pairs q) ++ map Byte rest) = Some bytes ->
  exists psw, bytes = psw ++ rest /\ length psw = 8%nat.
Proof.
  intros Hp Hq H. rewrite assembled_app, assembled_bytes in H. destruct (assembled (pairs p ++ pairs q)) as [b|] eqn:E; [|done].
  injection H as <-. exists b. split; [done|]. rewrite (assembled_length _ _ E), length_app.
  unfold lenZ in Hp, Hq. rewrite !(pairs_length _ 4) by lia. done.
Qed.

Lemma cat_fuel n1 n2 f : (length f <= n1)%nat -> (length f <= n2)%nat -> cat n1 f = cat n2 f.
Proof.
  revert n2 f. induction n1 as [|n1 IH]; intros [|n2] [|c f] H1 H2; try done; try (cbn in *; lia).
  cbn [cat]. f_equal. apply IH; rewrite length_drop; cbn in *; lia.
Qed.

Lemma cat_card a b : length a = 80%nat -> cat (length (a ++ b)) (a ++ b) = a :: cat (length b) b.
Proof.
  intros Ha. destruct a as [|x a]; [done|]. change ((x :: a) ++ b) with (x :: (a ++ b)) at 2. cbn [length app cat].
  change (x :: a ++ b) with ((x :: a) ++ b). rewrite take_app_length', drop_app_length' by done. f_equal.
  - change (S (length (a ++ b))) with (length ((x :: a) ++ b)). rewrite length_app, Ha. cbn [Nat.add Nat.sub replicate]. apply app_nil_r.
  - apply cat_fuel; rewrite ?length_app; lia.
Qed.

Lemma cp_list_lookup n a j : (j < n)%nat -> cp_list n a !! j = Some (ccw 2 (a + 80 * Z.of_nat j) CHAIN 80).
Proof. intros Hj. unfold cp_list. rewrite list_lookup_fmap, lookup_seq_lt by done. done. Qed.

Lemma data_list_lookup n a j : (j < n)%nat ->
  data_list n a !! j = Some (ccw 2 (a + 80 * Z.of_nat j) (if decide (S j = n) then 0 else CHAIN) 80).
Proof. intros Hj. unfold data_list. rewrite list_lookup_fmap, lookup_seq_lt by done. done. Qed.

Lemma cp_list_length n a : length (cp_list n a) = n.
Proof. unfold cp_list. by rewrite length_map, length_seq. Qed.

Lemma data_list_length n a : length (data_list n a) = n.
Proof. unfold data_list. by rewrite length_map, length_seq. Qed.

Lemma deck_ccws_words D A C : Forall (fun w => length w = 8%nat) (deck_ccws D A C).
Proof.
  unfold deck_ccws. rewrite !Forall_app. split_and!.
  - unfold cp_list. apply Forall_map, Forall_true. intros k. apply ccw_length.
  - apply Forall_replicate, ccw_length.
  - unfold data_list. apply Forall_map, Forall_true. intros k. apply ccw_length.
Qed.

(** for up to 190 cards of program, as many cards of CCWs are read as there are *)
Definition count_right (D : nat) : bool :=
  let N := cp_count (Z.of_nat D) in
  (1 <=? N) && (8 * (N + Z.of_nat (nops N) + Z.of_nat D) + 79 <? 80 * (N + 2)) && (80 * (N + 1) <=? 8 * (N + Z.of_nat (nops N) + Z.of_nat D) + 79).

Lemma counts_right D : (2 <= D <= 190)%nat -> count_right D = true.
Proof.
  intros HD. assert (forallb count_right (seq 2 189) = true) as H by (vm_compute; reflexivity).
  rewrite forallb_forall in H. apply H, in_seq. lia.
Qed.

Lemma ccw_cards D A C : 2 <= D <= 190 ->
  1 <= cp_count D /\ Z.of_nat (length (cat (length (concat (deck_ccws D A C))) (concat (deck_ccws D A C)))) = cp_count D + 1.
Proof.
  intros HD. pose proof (counts_right (Z.to_nat D) ltac:(lia)) as H. unfold count_right in H. rewrite Z2Nat.id in H by lia.
  apply andb_prop in H as [H H3]. apply andb_prop in H as [H1 H2].
  apply Z.leb_le in H1, H3. apply Z.ltb_lt in H2. split; [done|]. rewrite cat_count by lia.
  assert (lenZ (concat (deck_ccws D A C)) = 8 * (cp_count D + Z.of_nat (nops (cp_count D)) + D)) as ->.
  { unfold lenZ. rewrite (concat_length_n 8) by apply deck_ccws_words. unfold deck_ccws.
    rewrite !length_app, cp_list_length, data_list_length, length_replicate. lia. }
  symmetry. apply Z.div_unique with (8 * (cp_count D + Z.of_nat (nops (cp_count D)) + D) + 79 - 80 * (cp_count D + 1)); lia.
Qed.

(** ** The boot *)

Section deck.
Context (D : Z) (A C : Z) (HD : 2 <= D <= 190) (HA : 24 <= A) (HA2 : A + 80 * D <= 2 ^ 24).
Context (HC : 24 <= C) (HC2 : C + 80 * (cp_count D + 1) <= 2 ^ 24).
Context (Hap : A + 80 * D <= C \/ C + 80 * (cp_count D + 1) <= A).
#[local] Abbreviation L := (deck_ccws D A C).
#[local] Abbreviation cards := (cat (length (concat L)) (concat L)).

(** from the first card of CCWs on *)
Lemma ccws_run c0 rest file m fuel : cards = c0 :: rest -> Z.of_nat (length file) = D -> Forall (fun c => length c = 80%nat) file ->
  loaded C cards 1 m ->
  exists m', channel (Z.to_nat (cp_count D) + (nops (cp_count D) + (Z.to_nat D + fuel))) C (rest ++ file) m = Some m' /\
    read_bytes m' A (lenZ (concat file)) = concat file /\ (forall x, 0 <= x < 8 -> m' x = m x).
Proof.
  intros Hc Hfile Hall Hm. destruct (cat_cards (length (concat L)) (concat L) (le_n _)) as [Hcards [z Hz]].
  destruct (ccw_cards D A C HD) as [Hn HK]. set (N := Z.to_nat (cp_count D)).
  pose proof (deck_ccws_words D A C) as HL.
  assert (length L = N + (nops (cp_count D) + Z.to_nat D))%nat as HlL
    by (unfold deck_ccws; rewrite !length_app, cp_list_length, data_list_length, length_replicate; done).
  assert (8 * length L <= 80 * length cards)%nat as Hfit.
  { rewrite <- (concat_length_n 80 cards), Hz, length_app, (concat_length_n 8) by done. lia. }
  destruct (cp_phase C L cards HL Hcards z Hz N 0 m file (nops (cp_count D) + (Z.to_nat D + fuel))) as (m1 & E1 & Hm1 & Hs1); try done; try lia.
  { intros j Hj. unfold deck_ccws. rewrite lookup_app_l by (by rewrite cp_list_length). cbn [Nat.add]. rewrite cp_list_lookup by done.
    do 2 f_equal. lia. }
  destruct (data_phase C L cards HL Hcards z Hz (Z.to_nat D) 0 (N + nops (cp_count D)) A m1 file fuel) as (m2 & E2 & Hm2); try done; try lia.
  { intros j Hj. unfold deck_ccws. rewrite app_assoc, lookup_app_r by (rewrite length_app, cp_list_length, length_replicate; lia).
    rewrite length_app, cp_list_length, length_replicate. replace (N + nops (cp_count D) + j - _)%nat with j by lia.
    by rewrite data_list_lookup. }
  exists m2. split_and!.
  - rewrite Hc in E1 at 1. change (drop 1 (c0 :: rest)) with rest in E1. change (8 * Z.of_nat 0) with 0 in E1. rewrite Z.add_0_r in E1. rewrite E1.
    rewrite (nop_phase C L cards HL Hcards z Hz); [|done|lia|].
    + rewrite Nat.add_0_l. exact E2.
    + intros j Hj. unfold deck_ccws. rewrite lookup_app_r by (rewrite cp_list_length; lia). rewrite cp_list_length.
      replace (0 + N + j - _)%nat with j by lia. rewrite lookup_app_l by (by rewrite length_replicate). by apply lookup_replicate_2.
  - rewrite (read_bytes_ext _ (write_bytes m1 A (concat file))) by (intros x _; apply Hm2). apply read_written.
  - intros x Hx. rewrite Hm2, write_out, Hs1; [done|lia|]. unfold lenZ. rewrite (concat_length_n 80) by done. lia.
Qed.

(** the whole deck *)
Lemma deck_run psw file m : length psw = 8%nat -> Z.of_nat (length file) = D -> Forall (fun c => length c = 80%nat) file ->
  let bytes := psw ++ ccw 2 C CHAIN 80 ++ ccw 8 C 0 0 ++ replicate 56 0x40 ++ concat L in
  exists fuel m', ipl fuel (cat (length bytes) bytes ++ file) m = Some m' /\
    read_bytes m' A (lenZ (concat file)) = concat file /\ read_bytes m' 0 8 = psw.
Proof.
  intros Hpsw Hfile Hall bytes. destruct (ccw_cards D A C HD) as [Hn HK].
  destruct (cat_cards (length (concat L)) (concat L) (le_n _)) as [Hcards _].
  set (h := psw ++ ccw 2 C CHAIN 80 ++ ccw 8 C 0 0). assert (length h = 24%nat) as Hh by (unfold h; rewrite !length_app, !ccw_length; lia).
  assert (bytes = (h ++ replicate 56 0x40) ++ concat L) as -> by (unfold bytes, h; by rewrite <- !app_assoc).
  rewrite cat_card by (rewrite length_app, length_replicate; lia).
  destruct cards as [|c0 rest] eqn:Ec; [cbn in HK; lia|]. pose proof (Forall_inv Hcards) as Hc0.
  set (m1 := write_bytes m 0 h). set (m2 := write_bytes m1 C c0).
  assert (read_bytes m1 0 (lenZ h) = h) as Hm1 by apply read_written.
  assert (forall k w, Edf.field h k 8 = w -> (k + 8 <= 24)%nat -> read_bytes m1 (Z.of_nat k) 8 = w) as Hpart.
  { intros k w <- Hk. change 8 with (Z.of_nat 8). rewrite <- (Z.add_0_l (Z.of_nat k)). apply (read_part m1 0 h k 8 Hm1). unfold lenZ. lia. }
  assert (read_bytes m1 8 8 = ccw 2 C CHAIN 80) as H8.
  { apply (Hpart 8%nat); [|lia]. unfold Edf.field, h. rewrite drop_app_length' by done. apply take_app_length'. by rewrite ccw_length. }
  assert (read_bytes m1 16 8 = ccw 8 C 0 0) as H16.
  { apply (Hpart 16%nat); [|lia]. unfold Edf.field, h. rewrite app_assoc, drop_app_length' by (rewrite length_app, ccw_length; lia).
    apply take_ge. by rewrite ccw_length. }
  assert (read_bytes m1 0 8 = psw) as H0 by (apply (Hpart 0%nat); [|lia]; unfold Edf.field, h; rewrite drop_0; by apply take_app_length').
  destruct (ccws_run c0 rest file m2 0 Ec Hfile Hall) as (m' & E & Hprog & Hlow).
  { unfold loaded. rewrite Ec. cbn [take firstn concat]. rewrite app_nil_r. change (80 * Z.of_nat 1) with (Z.of_nat 80).
    rewrite <- Hc0. apply read_written. }
  exists (S (S (Z.to_nat (cp_count D) + (nops (cp_count D) + (Z.to_nat D + 0))))), m'. split_and!; [|done|].
  - cbn [app ipl]. rewrite take_app_length' by done. fold m1. change (c0 :: rest ++ file) with (c0 :: (rest ++ file)).
    rewrite (channel_read _ 8 c0 _ m1 C CHAIN H8) by (lia || done). cbn [Z.land CHAIN Pos.land Z.eqb]. fold m2. cbn [channel].
    rewrite (ccw_at_spec m2 (8 + 8) 8 C 0 0); [exact E| |lia|lia]. change (8 + 8) with 16. rewrite <- H16. apply read_bytes_ext.
    intros x Hx. apply write_out. unfold lenZ. lia.
  - rewrite <- H0. apply read_bytes_ext. intros x Hx. rewrite Hlow by lia. apply write_out. lia.
Qed.
End deck.

(** C21: the deck ccw_gen makes for a program of 81 to 15200 bytes, with padcat's cards of the program behind it,
    is a boot deck: wherever the CCWs and the program are put, above the first 24 bytes and apart from each other,
    the IPL ends, the program is at its address, and the PSW that is loaded is the one of the arguments. *)
Theorem deck_boots psw1 psw2 program addr ccw_addr a c deck bytes m :
  80 < lenZ program <= 15200 ->
  main psw1 psw2 (lenZ program) addr ccw_addr = Ret deck -> assembled deck = Some bytes ->
  parse_addr addr = Ret a -> parse_addr ccw_addr = Ret c -> 24 <= av a -> 24 <= av c ->
  (let D := data_cards (lenZ program) in av a + 80 * D <= av c \/ av c + 80 * (cp_count D + 1) <= av a) ->
  exists fuel m', ipl fuel (boot_cards bytes program) m = Some m' /\
    read_bytes m' (av a) (lenZ program) = program /\ assembled (pairs psw1 ++ pairs psw2) = Some (read_bytes m' 0 8).
Proof.
  intros Hsize Hmain Hbytes Ha Hc HA HC Hap. set (D := data_cards (lenZ program)) in *.
  assert (2 <= D <= 190) as HD by (unfold D, data_cards; split; [apply Z.div_le_lower_bound|apply Z.lt_succ_r, Z.div_lt_upper_bound]; lia).
  destruct (deck_spec psw1 psw2 (lenZ program) addr ccw_addr deck ltac:(lia) Hmain) as (a' & c' & Ha' & Hc' & Hca & Hcc & Hp & Hq & _ & -> & HA2 & HC2). fold D in HA2, HC2.
  rewrite Ha in Ha'. injection Ha' as <-. rewrite Hc in Hc'. injection Hc' as <-.
  destruct (deck_bytes _ _ _ _ Hp Hq Hbytes) as (psw & -> & Hpsw). rewrite assembled_app, assembled_bytes in Hbytes.
  destruct (assembled (pairs psw1 ++ pairs psw2)) as [psw'|] eqn:Epsw; [|done]. cbn [mbind option_bind] in Hbytes. injection Hbytes as Hbytes.
  apply app_inj_2 in Hbytes as [-> _]; [|done].
  destruct (cat_cards (length program) program (le_n _)) as [Hfile [k Hk]].
  assert (Z.of_nat (length (cat (length program) program)) = D) as HDfile by (apply cat_count; lia).
  destruct (deck_run D (av a) (av c) HD HA ltac:(lia) HC ltac:(lia) Hap psw _ m Hpsw HDfile Hfile) as (fuel & m' & E & Hread & H0).
  exists fuel, m'. split_and!; [exact E| |by rewrite H0].
  rewrite Hk in Hread. rewrite (read_bytes_take _ _ (lenZ (program ++ replicate k 0)) (lenZ program)) by (unfold lenZ; rewrite length_app; lia).
  rewrite Hread. unfold lenZ. rewrite Nat2Z.id. by apply take_app_length'.
Qed.

(** a program of three cards *)
Definition sample_program : list Z := map (fun i => Z.of_nat i mod 256) (seq 0 200).
Definition ascii (s : string) : list Z := map (fun c => Z.of_nat (Ascii.nat_of_ascii c)) (String.list_ascii_of_string s).
Definition sample_deck : list item :=
  match main (ascii "00080000") (ascii "80000400") 200 (ascii "000400") (ascii "000200") with Ret l => l | _ => [] end.
Definition sample_bytes : list Z := match assembled sample_deck with Some l => l | None => [] end.

Lemma deck_boots_witness : exists fuel m', ipl fuel (boot_cards sample_bytes sample_program) (fun _ => 0) = Some m' /\
  read_bytes m' 0x400 200 = sample_program /\
  assembled (pairs (ascii "00080000") ++ pairs (ascii "80000400")) = Some (read_bytes m' 0 8).
Proof.
  apply (deck_boots (ascii "00080000") (ascii "80000400") sample_program (ascii "000400") (ascii "000200") (0, 4, 0) (0, 2, 0)
    sample_deck sample_bytes (fun _ => 0)); try (vm_compute; split; congruence); try (vm_compute; reflexivity).
  - vm_compute. congruence.
  - vm_compute. congruence.
  - right. vm_compute. congruence.
Defined.

(** the first size the number of CCWs is wrong for: 191 cards of program want 22 cards of CCWs behind the first,
    21 are read, and the last one is then read as a card of the program *)
Example too_many : map (fun D => cp_count D) [190; 191; 192] = [20; 21; 21] /\
  map (fun D => (8 * (cp_count D + Z.of_nat (nops (cp_count D)) + D) + 79) / 80 - 1) [190; 191; 192] = [20; 22; 22].
Proof. vm_compute. split; reflexivity. Qed.
