(* ===== verification/Lexer.v ===== *)
(** cp/include/lexer.h and what nucleus/config.l and nucleus/direct.l have in common: the
    text of a file of 80 character records and the scanner re2c makes of a list of rules.

    A record is translated to upper case ASCII and loses its trailing blanks; records are
    put into a buffer of 160 bytes, a line feed behind each.  Before a token the scanner
    sees to it that there are [maxfill] bytes (what re2c computes of the rules) if
    the file has them, then takes the rule with the longest match, the first of several.
    The theorem: tokens come as from one text, wherever records end and buffers are filled. *)

From S2P Require Import Prelude Charset CString Edf.

Local Open Scope Z_scope.

Definition CONFIG_LRECL : Z := 80.

(** [struct lexer]; [buflen] is never used *)
Record lexer := Lexer { init : bool; lfile : Z; recno : Z; recoff : nat; filllen : nat; lbuf : list Z }.

(** what [memset] leaves *)
Definition new_lexer : lexer := Lexer false 0 0 0 0 (replicate 160 0).

(** * A line *)

(** without the blanks at the end *)
Fixpoint trim (b : list Z) : list Z :=
  match b with
  | [] => []
  | c :: b => match trim b with [] => if c =? 32 then [] else [c] | t => c :: t end
  end.

Definition line_of (b : list Z) : outcome (list Z) :=
  a ← ebcdic2ascii b CONFIG_LRECL; u ← ascii2upper a CONFIG_LRECL; Ret (trim u).

(** bytes that are not used yet move to the start of the buffer *)
Definition move_down (l : lexer) : lexer :=
  if (recoff l =? 0)%nat then l else
  let n := (filllen l - recoff l)%nat in
  Lexer (init l) (lfile l) (recno l) 0 n (field (lbuf l) (recoff l) n ++ drop n (lbuf l)).

Definition add_line (t : list Z) (l : lexer) : outcome lexer :=
  let n := (filllen l + length t + 1)%nat in
  if (160 <? n)%nat then Undef else
  Ret (Lexer (init l) (lfile l) (recno l) (recoff l) n (take (filllen l) (lbuf l) ++ t ++ [10] ++ drop n (lbuf l))).

(** * Rules *)

(** a string, a comment line, a run of characters, a run with a character behind it *)
Inductive pattern := Lit (s : list Z) | Remark | Run (p : Z -> bool) | Suffixed (p q : Z -> bool).

Fixpoint run (p : Z -> bool) (l : list Z) : nat :=
  match l with c :: l => if p c then S (run p l) else O | [] => O end.

Definition in_line (c : Z) : bool := negb (c =? 10).

Definition match_len (p : pattern) (l : list Z) : nat :=
  match p with
  | Lit s => if bool_decide (take (length s) l = s) then length s else O
  | Remark => match l with c :: l => if c =? 42 then S (run in_line l) else O | [] => O end
  | Run p => run p l
  | Suffixed p q =>
      match run p l with
      | O => O
      | n => match l !! n with Some c => if q c then S n else O | None => O end
      end
  end.

(** more bytes are wanted to know the match *)
Definition undecided (l : list Z) (p : pattern) : bool :=
  match p with
  | Lit s => (length l <? length s)%nat && bool_decide (take (length l) s = l)
  | Remark => match l with c :: l => (c =? 42) && (run in_line l =? length l)%nat | [] => true end
  | Run p | Suffixed p _ => (run p l =? length l)%nat
  end.

(** the longest match, the first of the longest *)
Fixpoint best {K} (rules : list (pattern * K)) (l : list Z) : nat * option K :=
  match rules with
  | [] => (O, None)
  | (p, k) :: rules =>
      let n := match_len p l in
      let b := best rules l in
      if (0 <? n)%nat && (b.1 <=? n)%nat then (n, Some k) else b
  end.

(** * The scanner *)

Section lexing.
Context (bdev_read_block : Z -> Z + list Z) (mem_ok : nat -> bool) (f : fs).
Context (maxfill : nat).

(** a record more; the error code of the last call otherwise *)
Definition __fill (fn ft : list Z) (l : lexer) (s : disk) : outcome (Z * lexer * disk) :=
  '(r, l, s) ←
    (if init l then Ret (0, l, s) else
     '(r, s) ← edf_lookup bdev_read_block mem_ok f fn ft s;
     match r with
     | inl e => Ret (e, l, s)
     | inr id =>
         g ← defined (objects s !! id);
         if negb (FST_LRECL (FST g) =? CONFIG_LRECL) || negb (FST_RECFM (FST g) =? FSTDFIX)
         then Ret (- EINVAL, Lexer false id (recno l) (recoff l) (filllen l) (lbuf l), s)
         else Ret (0, Lexer true id (recno l) 0 0 (lbuf l), s)
     end);
  if negb (r =? 0) then Ret (r, l, s) else
  let l := move_down l in
  if CONFIG_LRECL <=? Z.of_nat (filllen l) then Stopped else
  '(r, s) ← edf_read_rec bdev_read_block mem_ok f (lfile l) (recno l) s;
  let l := Lexer (init l) (lfile l) (recno l + 1) (recoff l) (filllen l) (lbuf l) in
  match r with
  | inl e => Ret (e, l, s)
  | inr b => t ← line_of b; l ← add_line t l; Ret (0, l, s)
  end.

(** one match: what its rule says, and the bytes; [None] when the file has no more *)
Definition scan {K} (rules : list (pattern * K)) (fn ft : list Z) (l : lexer) (s : disk) : outcome (option (K * list Z) * lexer * disk) :=
  '(r, l, s) ← (if (filllen l - recoff l <? maxfill)%nat then __fill fn ft l s else Ret (0, l, s));
  if negb (r =? 0) && (filllen l =? recoff l)%nat then Ret (None, l, s) else
  let av := field (lbuf l) (recoff l) (filllen l - recoff l) in
  if existsb (undecided av) (map fst rules) then Undef else
  match best rules av with
  | (S n, Some k) => Ret (Some (k, take (S n) av), Lexer (init l) (lfile l) (recno l) (recoff l + S n) (filllen l) (lbuf l), s)
  | _ => Undef
  end.

(** [goto next] where a rule says [None] *)
Fixpoint lex {K} (fuel : nat) (rules : list (pattern * option K)) (fn ft : list Z) (l : lexer) (s : disk)
    : outcome (option (K * list Z) * lexer * disk) :=
  match fuel with
  | O => Undef
  | S fuel =>
      '(r, l, s) ← scan rules fn ft l s;
      match r with
      | None => Ret (None, l, s)
      | Some (Some k, w) => Ret (Some (k, w), l, s)
      | Some (None, _) => lex fuel rules fn ft l s
      end
  end.
End lexing.

(** * What the parsers of byacc work on

    Tokens are read when they are wanted; a parser stops the system at an error (its
    [error] is [BUG()]), so that no error recovery is ever run, and its stack of 50 places
    is never full.  The value is what the actions of the grammar have made so far. *)
Record parser (X : Type) := Parser { p_lex : lexer; p_disk : disk; mallocs : nat; val : X }.
Arguments Parser {X}.
Arguments p_lex {X}.
Arguments p_disk {X}.
Arguments mallocs {X}.
Arguments val {X}.

Definition parse (X A : Type) : Type := parser X -> outcome (A * parser X).

#[global] Instance parse_ret X : MRet (parse X) := fun A a p => Ret (a, p).
#[global] Instance parse_bind X : MBind (parse X) := fun A B f m p => '(a, p) ← m p; f a p.

Definition syntax_error {X A} : parse X A := fun _ => Stopped.

Definition computes {X A} (m : outcome A) : parse X A := fun p => a ← m; Ret (a, p).

(** an action on the value *)
Definition act {X} (a : X -> outcome X) : parse X unit := fun p =>
  x ← a (val p); Ret (tt, Parser (p_lex p) (p_disk p) (mallocs p) x).


(** the next token's rule and characters *)
Definition next_match {X K} (bdev_read_block : Z -> Z + list Z) (mem_ok : nat -> bool) (f : fs) (maxfill : nat)
    (rules : list (pattern * option K)) (fn ft : list Z) : parse X (option (K * list Z)) := fun p =>
  '(r, l, s) ← lex bdev_read_block mem_ok f maxfill 160 rules fn ft (p_lex p) (p_disk p);
  Ret (r, Parser l s (mallocs p) (val p)).

(** * The longest match on a text and on the start of it *)

Definition good (p : pattern) : Prop :=
  match p with
  | Lit s => s = [10] \/ (10 ∉ s /\ s <> [])
  | Remark => True
  | Run p | Suffixed p _ => p 10 = false
  end.

Lemma run_stop p a b : p 10 = false -> run p (a ++ 10 :: b) = run p a.
Proof. intros Hp. induction a as [|c a IH]; cbn [app run]; [by rewrite Hp|by rewrite IH]. Qed.

Lemma run_le p l : (run p l <= length l)%nat.
Proof. induction l as [|c l IH]; cbn; [lia|]. destruct (p c); lia. Qed.

Lemma lit_text s a b : s = [10] \/ (10 ∉ s /\ s <> []) ->
  bool_decide (take (length s) (a ++ 10 :: b) = s) = bool_decide (take (length s) (a ++ [10]) = s).
Proof.
  intros Hs. apply bool_decide_ext. destruct (decide (length s <= S (length a))%nat) as [Hle|Hgt].
  { replace (a ++ 10 :: b) with ((a ++ [10]) ++ b) by (by rewrite <- app_assoc). rewrite take_app_le; [done|]. rewrite length_app. cbn. lia. }
  destruct Hs as [->|[Hs _]]; [cbn in Hgt; lia|].
  assert (forall c, take (length s) (a ++ 10 :: c) = s -> False) as Hno; [|split; intros H; by apply Hno in H].
  intros c H. apply Hs. rewrite <- H. rewrite take_app_ge by lia. apply elem_of_app. right.
  destruct (length s - length a)%nat eqn:E; [lia|]. cbn. left.
Qed.

Lemma match_len_text p a b : good p -> match_len p (a ++ 10 :: b) = match_len p (a ++ [10]).
Proof.
  destruct p as [s| |p|p q]; cbn [good match_len]; intros Hg.
  - by rewrite lit_text.
  - destruct a as [|c a]; cbn [app]; [done|]. by rewrite !run_stop.
  - by rewrite !run_stop.
  - rewrite !run_stop by done. destruct (run p a) as [|n] eqn:E; [done|]. pose proof (run_le p a) as Hle. rewrite E in Hle.
    destruct (decide (S n < length a)%nat); [by rewrite !lookup_app_l by lia|].
    rewrite !lookup_app_r by lia. by replace (S n - length a)%nat with 0%nat by lia.
Qed.

Lemma decided p a : good p -> undecided (a ++ [10]) p = false.
Proof.
  destruct p as [s| |p|p q]; cbn [good undecided]; intros Hg.
  - destruct (Nat.ltb_spec (length (a ++ [10])) (length s)) as [Hlt|]; [|done]. cbn [andb]. apply bool_decide_eq_false. intros H.
    destruct Hg as [->|[Hs _]]; [rewrite length_app in Hlt; cbn in Hlt; lia|]. apply Hs.
    rewrite <- (take_drop (length (a ++ [10])) s), H. rewrite !elem_of_app. left. right. left.
  - destruct a as [|c a]; cbn [app]; [done|]. rewrite run_stop by done. pose proof (run_le in_line a).
    apply andb_false_intro2, Nat.eqb_neq. rewrite length_app. cbn. lia.
  - rewrite run_stop by done. pose proof (run_le p a). apply Nat.eqb_neq. rewrite length_app. cbn. lia.
  - rewrite run_stop by done. pose proof (run_le p a). apply Nat.eqb_neq. rewrite length_app. cbn. lia.
Qed.

Lemma best_text {K} (rules : list (pattern * K)) a b : Forall good (map fst rules) -> best rules (a ++ 10 :: b) = best rules (a ++ [10]).
Proof. induction rules as [|[p k] rules IH]; cbn [map]; [done|]. intros [Hp Hg]%Forall_cons_1. cbn [best]. by rewrite match_len_text, IH. Qed.

Lemma match_len_le p l : (match_len p l <= length l)%nat.
Proof.
  destruct p as [s| |p|p q]; cbn [match_len].
  - case_bool_decide as H; [|lia]. rewrite <- H at 1. rewrite length_take. lia.
  - destruct l as [|c l]; [done|]. destruct (c =? 42); cbn; [|lia]. pose proof (run_le in_line l). lia.
  - apply run_le.
  - destruct (run p l) as [|n]; [lia|]. destruct (l !! S n) as [c|] eqn:E; [|lia]. apply lookup_lt_Some in E. destruct (q c); lia.
Qed.

Lemma best_le {K} (rules : list (pattern * K)) l : ((best rules l).1 <= length l)%nat.
Proof.
  induction rules as [|[p k] rules IH]; cbn [best]; [cbn; lia|]. destruct (_ && _); [|done]. cbn. apply match_len_le.
Qed.

(** * Records of a file *)

Lemma trim_length b : (length (trim b) <= length b)%nat.
Proof. induction b as [|c b IH]; [done|]. cbn [trim]. destruct (trim b); cbn in *; [destruct (c =? 32); cbn; lia|lia]. Qed.

Lemma translate_length n buf pos table b : translate_loop n buf pos table = Ret b -> length b = length buf.
Proof.
  revert buf pos. induction n as [|n IH]; intros buf pos; cbn [translate_loop]; [by intros [= <-]|].
  intros (c & _ & H)%bind_Ret. destruct (c =? 0); [by injection H as <-|].
  apply bind_Ret in H as (t & _ & H). apply bind_Ret in H as (buf' & E & H). apply IH in H. rewrite H.
  destruct (aset buf pos t) eqn:Ea; [|done]. injection E as <-. apply aset_lenZ in Ea. unfold lenZ in Ea. lia.
Qed.

Lemma line_of_length b t : length b = 80%nat -> line_of b = Ret t -> (length t <= 80)%nat.
Proof.
  intros Hb H. unfold line_of in H. apply bind_Ret in H as (a & Ha & H). apply bind_Ret in H as (u & Hu & [= <-]).
  apply translate_length in Ha, Hu. pose proof (trim_length u). lia.
Qed.

Section text.
Context (dev : Z -> Z + list Z) (mem_ok : nat -> bool) (Hmem : forall n, mem_ok n = true) (f : fs) (id : Z).
Context (recs lines : list (list Z)) (Hlines : Forall2 (fun r t => length r = 80%nat /\ line_of r = Ret t) recs lines).
Context (maxfill : nat) (Hfill : (1 <= maxfill <= 80)%nat).

(** a file of 80 byte records in one block *)
Definition serves (s : disk) : Prop := exists t d,
  has dev (ADT f) id t s /\ ADT_DBSIZ (ADT f) = 4096 /\ FST_LRECL t = 80 /\ FST_RECFM t = FSTDFIX /\ FST_NLVL t = 0 /\ FST_PTRSZ t = 4 /\
  FST_AIC t = lenZ recs /\ lenZ recs <= 51 /\ dev (FST_FOP t) = inr d /\ forall k r, recs !! k = Some r -> field d (80 * k) 80 = r.

Lemma serves_read k s : serves s -> exists s', serves s' /\
  edf_read_rec dev mem_ok f id (Z.of_nat k) s = Ret (match recs !! k with Some r => inr r | None => inl (- EINVAL) end, s').
Proof.
  intros (t & d & Hhas & Hdb & Hl & Hf & Hn & Hp & Ha & Hle & Hd & Hrec).
  assert (forall s', has dev (ADT f) id t s' -> serves s') as Hkeep by (intros s' H; exists t, d; done).
  unfold edf_read_rec. pose proof Hhas as (g & Eg & Hgt & _). rewrite (io_step _ _ _ _ _ (get_file_ok id g s Eg)), Hgt.
  cbv zeta. rewrite Hdb, Hl, Hf, Hn, Hp, Ha. cbn [Z.eqb Pos.eqb negb orb Z.ltb Z.compare Pos.compare Pos.compare_cont].
  destruct (recs !! k) as [r|] eqn:E.
  2:{ apply lookup_ge_None in E. rewrite (proj2 (Z.leb_le _ _)) by (unfold lenZ; lia). exists s. split; [by apply Hkeep|done]. }
  pose proof (lookup_lt_Some _ _ _ E) as Hlt. unfold lenZ in *. rewrite (proj2 (Z.leb_gt _ _)) by lia.
  rewrite wrap_small by lia. rewrite Z.div_small, Z.mod_small by lia. rewrite (proj2 (Z.ltb_ge _ _)) by lia.
  assert (ref_read dev (ADT f) t (levels_above t 0) 0 = inr d) as Hblock by (unfold ref_read, levels_above; rewrite Hn; exact Hd).
  destruct (bread_enough dev mem_ok Hmem (ADT f) id t 0 0 s Hhas) as (s' & E' & _ & Hhas'); [lia|lia|].
  rewrite Z.eqb_refl. cbn [negb]. rewrite (io_step _ _ s d s'); [|by rewrite E', Hblock].
  exists s'. split; [by apply Hkeep|]. unfold mret, io_ret. do 3 f_equal. rewrite <- (Hrec k r E). f_equal; lia.
Qed.

(** the text that is not used yet: what is in the buffer, and the lines of the records behind *)
Record holds (l : lexer) (s : disk) (av txt : list Z) : Prop := Holds {
  h_serves : serves s;
  h_init : init l = true;
  h_file : lfile l = id;
  h_recno : 0 <= recno l;
  h_buf : length (lbuf l) = 160%nat;
  h_off : (recoff l <= filllen l <= 160)%nat;
  h_av : field (lbuf l) (recoff l) (filllen l - recoff l) = av;
  h_end : av = [] \/ last av = Some 10;
  h_text : txt = av ++ concat (map (fun t => t ++ [10]) (drop (Z.to_nat (recno l)) lines));
}.

Lemma av_length l s av txt : holds l s av txt -> length av = (filllen l - recoff l)%nat.
Proof. intros H. rewrite <- (h_av _ _ _ _ H). unfold field. rewrite length_take, length_drop, (h_buf _ _ _ _ H). pose proof (h_off _ _ _ _ H). lia. Qed.

Lemma moved_down l s av txt : holds l s av txt -> holds (move_down l) s av txt /\ recoff (move_down l) = 0%nat.
Proof.
  intros H. pose proof (av_length _ _ _ _ H) as Hl. destruct H as [Hs Hi Hid Hr Hb Ho Ha He Ht]. unfold move_down.
  destruct (Nat.eqb_spec (recoff l) 0); [by split|]. split; [|done]. split; cbn [init lfile recno lbuf recoff filllen]; try done; try lia.
  - rewrite Ha, length_app, length_drop. lia.
  - rewrite Ha, Nat.sub_0_r. unfold field. rewrite drop_0. by apply take_app_length'.
Qed.

Lemma nth_line k r : recs !! k = Some r -> exists t, lines !! k = Some t /\ line_of r = Ret t /\ (length t <= 80)%nat.
Proof. intros H. destruct (Forall2_lookup_l _ _ _ _ _ Hlines H) as (t & Ht & Hl & Hr). exists t. split_and!; [done..|]. by eapply line_of_length. Qed.

(** more text in the buffer, or there is no more *)
Definition filled (r : Z) (av av' txt : list Z) : Prop :=
  (r = 0 /\ av' <> []) \/ (r <> 0 /\ av' = av /\ txt = av).

Lemma fill_more fn ft l s av txt : holds l s av txt -> (length av < 80)%nat ->
  exists r l' s' av', __fill dev mem_ok f fn ft l s = Ret (r, l', s') /\ holds l' s' av' txt /\ filled r av av' txt.
Proof.
  intros H Hav. unfold __fill. rewrite (h_init _ _ _ _ H). cbn [mbind outcome_bind Z.eqb negb].
  destruct (moved_down _ _ _ _ H) as [H' H0]. pose proof (av_length _ _ _ _ H') as Hl. set (l1 := move_down l) in *.
  rewrite (proj2 (Z.leb_gt _ _)) by (change CONFIG_LRECL with 80; lia).
  destruct H' as [Hs Hi Hid Hr Hb Ho Ha He Ht]. rewrite Hid.
  destruct (serves_read (Z.to_nat (recno l1)) s Hs) as (s' & Hs' & E). rewrite Z2Nat.id in E by lia. rewrite E. cbn [mbind outcome_bind].
  rewrite H0 in *. rewrite Nat.sub_0_r in *.
  destruct (recs !! Z.to_nat (recno l1)) as [b|] eqn:Eb.
  - destruct (nth_line _ _ Eb) as (t & Et & Eline & Htl). rewrite Eline. cbn [mbind outcome_bind]. unfold add_line. cbn [filllen lbuf].
    destruct (Nat.ltb_spec 160 (filllen l1 + length t + 1)); [lia|]. cbn [mbind outcome_bind].
    assert (take (filllen l1) (lbuf l1) = av) as Htake by (rewrite <- Ha; unfold field; by rewrite drop_0).
    eexists _, _, _, (av ++ t ++ [10]). split_and!; [done| |left; split; [done|by destruct av; destruct t]].
    split; cbn [init lfile recno lbuf recoff filllen]; try done; try lia.
    + rewrite !length_app, length_drop, Htake, Hb. cbn [length]. lia.
    + rewrite Nat.sub_0_r. unfold field. rewrite drop_0, Htake, !app_assoc, <- (app_assoc _ t). apply take_app_length'. rewrite !length_app. cbn [length]. lia.
    + right. by rewrite app_assoc, last_snoc.
    + rewrite Ht. rewrite (drop_S _ _ _ Et), Z2Nat.inj_add by lia. cbn [map concat]. rewrite <- !app_assoc.
      by replace (Z.to_nat (recno l1) + Z.to_nat 1)%nat with (S (Z.to_nat (recno l1))) by lia.
  - eexists _, _, _, av. split_and!; [done| |].
    + assert (drop (Z.to_nat (recno l1)) lines = []) as Hnil
        by (apply drop_ge; rewrite <- (Forall2_length _ _ _ Hlines); by apply lookup_ge_None).
      split; cbn [init lfile recno lbuf recoff filllen]; try done; try lia; [by rewrite Nat.sub_0_r|].
      rewrite Ht, Hnil, (drop_ge lines); [done|]. apply lookup_ge_None in Eb. rewrite <- (Forall2_length _ _ _ Hlines). lia.
    + right. split_and!; [done|done|]. rewrite Ht, (drop_ge lines); [apply app_nil_r|].
      apply lookup_ge_None in Eb. by rewrite <- (Forall2_length _ _ _ Hlines).
Qed.

(** a file that is looked up at the first token *)
Context (fn ft : list Z).
Definition text : list Z := concat (map (fun t => t ++ [10]) lines).

Definition found_file (s : disk) : Prop := exists s1, edf_lookup dev mem_ok f fn ft s = Ret (inr id, s1) /\ serves s1.

Definition ready (l : lexer) (s : disk) (txt : list Z) : Prop :=
  (exists av, holds l s av txt) \/ (found_file s /\ l = new_lexer /\ txt = text).

Lemma serves_format s : serves s -> exists g, objects s !! id = Some g /\ FST_LRECL (FST g) = 80 /\ FST_RECFM (FST g) = FSTDFIX.
Proof. intros (t & d & (g & Eg & <- & _) & _ & Hl & Hf & _). by exists g. Qed.

Lemma first_fill l s : found_file s -> l = new_lexer ->
  exists r l' s' av', __fill dev mem_ok f fn ft l s = Ret (r, l', s') /\ holds l' s' av' text /\ filled r [] av' text.
Proof.
  intros (s1 & E & Hs) ->. destruct (serves_format s1 Hs) as (g & Eg & Hl & Hf).
  set (l1 := Lexer true id 0 0 0 (replicate 160 0)).
  assert (__fill dev mem_ok f fn ft new_lexer s = __fill dev mem_ok f fn ft l1 s1) as ->.
  { unfold __fill. cbn [init new_lexer l1 mbind outcome_bind]. rewrite E. cbn [mbind outcome_bind]. rewrite Eg. cbn [defined mbind outcome_bind].
    rewrite Hl, Hf. done. }
  apply (fill_more fn ft l1 s1 [] text); [|cbn; lia]. split; try done; cbn; try lia. by left.
Qed.

Lemma scan_text {K} (rules : list (pattern * K)) l s txt : Forall good (map fst rules) -> ready l s txt ->
  match txt with
  | [] => exists l' s', scan dev mem_ok f maxfill rules fn ft l s = Ret (None, l', s') /\ ready l' s' []
  | _ => forall n k, best rules txt = (S n, Some k) ->
      exists l' s', scan dev mem_ok f maxfill rules fn ft l s = Ret (Some (k, take (S n) txt), l', s') /\ ready l' s' (drop (S n) txt)
  end.
Proof.
  intros Hgood Hready.
  assert (exists r l' s' av, (if (filllen l - recoff l <? maxfill)%nat then __fill dev mem_ok f fn ft l s else Ret (0, l, s)) = Ret (r, l', s') /\
    holds l' s' av txt /\ (r = 0 /\ av <> [] \/ r <> 0 /\ txt = av)) as (r & l' & s' & av & E & Hl & Hr).
  { destruct Hready as [[av H]|(Hf & -> & ->)].
    - pose proof (av_length _ _ _ _ H) as Hlen. destruct (Nat.ltb_spec (filllen l - recoff l) maxfill).
      + destruct (fill_more fn ft l s av txt H ltac:(lia)) as (r & l' & s' & av' & E & H' & [[? ?]|(? & -> & ?)]);
          exists r, l', s'; eexists; (split; [exact E|split; [exact H'|by auto]]).
      + exists 0, l, s, av. split; [done|]. split; [done|]. left. split; [done|]. intros ->. cbn in Hlen. lia.
    - cbn [new_lexer filllen recoff Nat.sub]. rewrite (proj2 (Nat.ltb_lt _ _)) by lia.
      destruct (first_fill new_lexer s Hf eq_refl) as (r & l' & s' & av' & E & H' & [[? ?]|(? & -> & ?)]);
        exists r, l', s'; eexists; (split; [exact E|split; [exact H'|by auto]]). }
  unfold scan. rewrite E. cbn [mbind outcome_bind]. pose proof (av_length _ _ _ _ Hl) as Hlen.
  destruct (decide (av = [])) as [->|Hne].
  { destruct Hr as [[_ ?]|[Hr ->]]; [done|]. rewrite (proj2 (Z.eqb_neq _ _) Hr). cbn [negb andb].
    pose proof (h_off _ _ _ _ Hl). rewrite (proj2 (Nat.eqb_eq _ _)) by (cbn in Hlen; lia). exists l', s'. split; [done|]. left. by exists []. }
  assert (filllen l' =? recoff l' = false)%nat as -> by (apply Nat.eqb_neq; destruct av; cbn in Hlen; [done|lia]). rewrite andb_false_r.
  rewrite (h_av _ _ _ _ Hl).
  assert (exists a, av = a ++ [10]) as [a Ea].
  { destruct (h_end _ _ _ _ Hl) as [?|Hlast]; [done|]. by apply last_Some in Hlast. }
  assert (existsb (undecided av) (map fst rules) = false) as ->.
  { rewrite Ea. clear -Hgood. induction Hgood as [|p ps Hp _ IH]; [done|]. cbn [existsb]. by rewrite decided. }
  pose proof (h_text _ _ _ _ Hl) as Ht. destruct txt as [|c0 txt0] eqn:Etxt; [by destruct av|]. rewrite <- Etxt in *. intros n k Hb.
  assert (best rules av = (S n, Some k)) as Hbav.
  { rewrite <- Hb, Ht, Ea, <- app_assoc. symmetry. apply best_text, Hgood. }
  pose proof (best_le rules av) as Hle. rewrite Hbav in Hle. rewrite Hbav. cbn [fst] in Hle.
  eexists _, _. split; [by rewrite Ht, take_app_le|]. left. exists (drop (S n) av).
  destruct Hl as [Hs Hi Hid Hrec Hbuf Ho Ha He _]. split; cbn [init lfile recno lbuf recoff filllen]; try done; try lia.
  - rewrite <- Ha. unfold field. rewrite skipn_firstn_comm, drop_drop. f_equal. lia.
  - destruct (decide (S n = length av)) as [Eq|]; [left; by apply drop_ge; lia|]. right. rewrite Ea, drop_app_le.
    + apply last_snoc.
    + rewrite Ea, length_app in *. cbn in *. lia.
  - rewrite Ht, drop_app_le by done. done.
Qed.

(** a match, after one of the rule that is skipped if that is the longest *)
Definition lexes {K} (rules : list (pattern * option K)) (txt : list Z) (k : K) (w rest : list Z) : Prop :=
  exists b, txt = b ++ w ++ rest /\ w <> [] /\ (b = [] \/ best rules txt = (length b, Some None)) /\
    best rules (w ++ rest) = (length w, Some (Some k)).

Lemma scan_match {K} (rules : list (pattern * K)) l s w rest k : Forall good (map fst rules) -> w <> [] ->
  ready l s (w ++ rest) -> best rules (w ++ rest) = (length w, Some k) ->
  exists l' s', scan dev mem_ok f maxfill rules fn ft l s = Ret (Some (k, w), l', s') /\ ready l' s' rest.
Proof.
  intros Hg Hw Hready Hb. pose proof (scan_text rules l s _ Hg Hready) as H. destruct w as [|c w]; [done|].
  destruct (H (length w) k Hb) as (l' & s' & E & H'). exists l', s'. change (S (length w)) with (length (c :: w)) in E, H'.
  by rewrite take_app_length in E; rewrite drop_app_length in H'.
Qed.

Lemma lex_spec {K} (rules : list (pattern * option K)) fuel l s txt k w rest : Forall good (map fst rules) ->
  ready l s txt -> lexes rules txt k w rest ->
  exists l' s', lex dev mem_ok f maxfill (S (S fuel)) rules fn ft l s = Ret (Some (k, w), l', s') /\ ready l' s' rest.
Proof.
  intros Hg Hready (b & -> & Hw & Hb & Hk).
  assert (forall n l s, ready l s (w ++ rest) -> exists l' s', lex dev mem_ok f maxfill (S n) rules fn ft l s = Ret (Some (k, w), l', s') /\ ready l' s' rest) as Hlast.
  { intros n l1 s1 H1. destruct (scan_match rules l1 s1 w rest (Some k) Hg Hw H1 Hk) as (l2 & s2 & E & H2).
    exists l2, s2. cbn [lex]. by rewrite E. }
  destruct b as [|c b]; [by apply Hlast|]. destruct Hb as [|Hb]; [done|].
  destruct (scan_match rules l s (c :: b) (w ++ rest) None Hg ltac:(done) Hready Hb) as (l1 & s1 & E & H1).
  cbn [lex]. rewrite E. cbn [mbind outcome_bind]. by apply Hlast.
Qed.

Lemma lex_end {K} (rules : list (pattern * option K)) fuel l s : Forall good (map fst rules) -> ready l s [] ->
  exists l' s', lex dev mem_ok f maxfill (S fuel) rules fn ft l s = Ret (None, l', s') /\ ready l' s' [].
Proof.
  intros Hg H. destruct (scan_text rules l s [] Hg H) as (l' & s' & E & H'). exists l', s'. cbn [lex]. by rewrite E.
Qed.
End text.

(** * Words on a line *)

Definition blank (c : Z) : bool := (c =? 32) || (c =? 9).
Definition digit (c : Z) : bool := (48 <=? c) && (c <=? 57).
Definition letter (c : Z) : bool := (65 <=? c) && (c <=? 90).
Definition hexa (c : Z) : bool := digit c || ((65 <=? c) && (c <=? 70)).
Definition alnum (c : Z) : bool := digit c || letter c.

(** the rules that can match at a character *)
Definition starts (c : Z) (p : pattern) : bool :=
  match p with
  | Lit s => match s with d :: _ => d =? c | [] => false end
  | Remark => c =? 42
  | Run p | Suffixed p _ => p c
  end.

Lemma no_start c p l : starts c p = false -> match_len p (c :: l) = 0%nat.
Proof.
  destruct p as [s| |p|p q]; cbn [starts match_len].
  - destruct s as [|d s]; [done|]. intros H. apply Z.eqb_neq in H. rewrite bool_decide_eq_false_2; [done|]. cbn. congruence.
  - by intros ->.
  - intros H. cbn. by rewrite H.
  - intros H. cbn. by rewrite H.
Qed.

Lemma best_starts {K} (rules : list (pattern * K)) c l :
  best rules (c :: l) = best (List.filter (fun r => starts c r.1) rules) (c :: l).
Proof.
  induction rules as [|[p k] rules IH]; [done|]. cbn [List.filter fst]. destruct (starts c p) eqn:E; cbn [best]; rewrite IH; [done|].
  by rewrite no_start.
Qed.

Lemma run_app p a b : Forall (fun c => p c = true) a -> run p (a ++ b) = (length a + run p b)%nat.
Proof. induction 1 as [|c a Hc _ IH]; [done|]. cbn [app run length]. by rewrite Hc, IH. Qed.

Definition tight (c : Z) : Prop := blank c = true \/ c = 10.

(** a pattern sees a word and not what is behind the blank *)
Definition wordy (p : pattern) : Prop :=
  match p with
  | Lit s => Forall (fun c => alnum c = true) s \/ (exists d s', s = d :: s' /\ alnum d = false)
  | Remark => True
  | Run p => (forall c, tight c -> p c = false) \/ (forall c, alnum c = true -> p c = false)
  | Suffixed p q => forall c, tight c -> p c = false /\ q c = false
  end.

Lemma tight_alnum c : tight c -> alnum c = false.
Proof. unfold tight, blank, alnum, digit, letter. lia. Qed.

Lemma run_tight p a c b : p c = false -> run p (a ++ c :: b) = run p a.
Proof. intros Hp. induction a as [|d a IH]; cbn [app run]; [by rewrite Hp|by rewrite IH]. Qed.

Lemma word_match p w c rest : wordy p -> w <> [] -> Forall (fun c => alnum c = true) w -> tight c ->
  match_len p (w ++ c :: rest) = match_len p (w ++ [10]).
Proof.
  intros Hp Hw Ha Hc. assert (tight 10) as H10 by by right. destruct p as [s| |p|p q]; cbn [wordy match_len] in *.
  - enough (bool_decide (take (length s) (w ++ c :: rest) = s) = bool_decide (take (length s) (w ++ [10]) = s)) as -> by done.
    apply bool_decide_ext. destruct Hp as [Hs|(d & s' & -> & Hd)].
    + destruct (decide (length s <= length w)%nat); [by rewrite !take_app_le|].
      assert (forall x l, tight x -> take (length s) (w ++ x :: l) = s -> False) as Hno.
      { intros x l Hx E. assert (x ∈ s) as Hin.
        { rewrite <- E, take_app_ge by lia. apply elem_of_app. right. destruct (length s - length w)%nat eqn:El; [lia|]. cbn. left. }
        rewrite Forall_forall in Hs. apply Hs in Hin. by rewrite (tight_alnum x Hx) in Hin. }
      split; intros H; by apply Hno in H.
    + destruct w as [|x w]; [done|]. apply Forall_cons_1 in Ha as [Hx _]. cbn. split; intros [= -> _]; congruence.
  - destruct w as [|x w]; [done|]. apply Forall_cons_1 in Ha as [Hx _]. cbn [app].
    rewrite (proj2 (Z.eqb_neq x 42)); [done|]. intros ->. done.
  - destruct Hp as [Hp|Hp]; [by rewrite !run_tight by auto|]. destruct w as [|x w]; [done|]. apply Forall_cons_1 in Ha as [Hx _].
    cbn [app run]. by rewrite Hp.
  - destruct (Hp c Hc) as [Hpc Hqc], (Hp 10 H10) as [Hp1 Hq1]. rewrite !run_tight by done.
    pose proof (run_le p w) as Hle. destruct (run p w) as [|n]; [done|].
    destruct (decide (S n < length w)%nat); [by rewrite !lookup_app_l by lia|]. rewrite !lookup_app_r by lia.
    replace (S n - length w)%nat with 0%nat by lia. cbn. by rewrite Hqc, Hq1.
Qed.

(** the word, alone on a line, is the token [k] *)
Definition spells {K} (rules : list (pattern * option K)) (w : list Z) (k : K) : Prop :=
  w <> [] /\ Forall (fun c => alnum c = true) w /\ best rules (w ++ [10]) = (length w, Some (Some k)).

Lemma best_word {K} (rules : list (pattern * K)) w c rest : Forall wordy (map fst rules) -> w <> [] ->
  Forall (fun c => alnum c = true) w -> tight c -> best rules (w ++ c :: rest) = best rules (w ++ [10]).
Proof.
  induction rules as [|[p k] rules IH]; cbn [map]; [done|]. intros [Hp Hr]%Forall_cons_1 Hw Ha Hc. cbn [best].
  by rewrite (word_match p w c rest), IH.
Qed.

(** rules with blanks between tokens, a token for the end of a line and one for a comment *)
Record rules_ok {K} (rules : list (pattern * option K)) (nl remark : K) : Prop := RulesOk {
  ro_good : Forall good (map fst rules);
  ro_wordy : Forall wordy (map fst rules);
  ro_blank : forall c, blank c = true -> List.filter (fun r => starts c r.1) rules = [(Run blank, None)];
  ro_nl : List.filter (fun r => starts 10 r.1) rules = [(Lit [10], Some nl)];
  ro_remark : List.filter (fun r => starts 42 r.1) rules = [(Remark, Some remark)];
}.

Section rules.
Context {K : Type} (rules : list (pattern * option K)) (nl remark : K) (Hok : rules_ok rules nl remark).

(** blanks are skipped *)
Lemma lexes_blanks b w rest k c w' : Forall (fun c => blank c = true) b -> w = c :: w' -> blank c = false ->
  best rules (w ++ rest) = (length w, Some (Some k)) -> lexes rules (b ++ w ++ rest) k w rest.
Proof.
  intros Hb -> Hc Hk. exists b. split_and!; [done|done| |done]. destruct b as [|d b]; [by left|right]. pose proof (Forall_inv Hb) as Hd. cbn beta in Hd.
  pose proof (run_app blank (d :: b) ((c :: w') ++ rest) Hb) as Hrun. cbn [app run] in Hrun. rewrite Hc, Nat.add_0_r in Hrun.
  cbn [app]. rewrite best_starts, (ro_blank _ _ _ Hok) by done. cbn [best match_len fst run]. rewrite Hd in *. by rewrite Hrun.
Qed.

Lemma lexes_word b w k c rest : Forall (fun c => blank c = true) b -> spells rules w k -> tight c ->
  lexes rules (b ++ w ++ c :: rest) k w (c :: rest).
Proof.
  intros Hb (Hw & Ha & Hbest) Hc. destruct w as [|d w]; [done|]. pose proof (Forall_inv Ha) as Hd. cbn beta in Hd.
  eapply lexes_blanks; [done|done| |].
  - destruct (blank d) eqn:E; [|done]. rewrite tight_alnum in Hd by (by left). done.
  - rewrite best_word; [exact Hbest|apply Hok|done|done|done].
Qed.

Lemma lexes_nl b rest : Forall (fun c => blank c = true) b -> lexes rules (b ++ 10 :: rest) nl [10] rest.
Proof.
  intros Hb. apply (lexes_blanks b [10] rest nl 10 []); [done|done|done|].
  cbn [app]. rewrite best_starts, (ro_nl _ _ _ Hok). done.
Qed.

Lemma lexes_remark b w rest : Forall (fun c => blank c = true) b -> 10 ∉ w -> lexes rules (b ++ (42 :: w) ++ 10 :: rest) remark (42 :: w) (10 :: rest).
Proof.
  intros Hb Hw. apply (lexes_blanks b (42 :: w) (10 :: rest) remark 42 w); [done|done|done|].
  cbn [app]. rewrite best_starts, (ro_remark _ _ _ Hok). cbn [best match_len fst Z.eqb Pos.eqb].
  rewrite run_app by (apply Forall_forall; intros c Hc; unfold in_line; destruct (Z.eqb_spec c 10); [by subst|done]).
  cbn [run in_line Z.eqb Pos.eqb negb]. rewrite Nat.add_0_r. done.
Qed.
End rules.

(** the rule in the middle has the longest match *)
Lemma best_middle {K} (pre post : list (pattern * K)) p k l n : match_len p l = S n ->
  Forall (fun q => (match_len q l < S n)%nat) (map fst pre) -> Forall (fun q => (match_len q l <= S n)%nat) (map fst post) ->
  best (pre ++ (p, k) :: post) l = (S n, Some k).
Proof.
  intros Hp Hpre Hpost.
  assert ((best post l).1 <= S n)%nat as Hb.
  { clear Hpre. induction post as [|[q kq] post IH]; [cbn; lia|]. apply Forall_cons_1 in Hpost as [Hq Hpost]. cbn [best].
    destruct (_ && _); [done|by apply IH]. }
  induction pre as [|[q kq] pre IH]; cbn [app best].
  - rewrite Hp. by rewrite (proj2 (Nat.leb_le _ _) Hb).
  - apply Forall_cons_1 in Hpre as [Hq Hpre]. cbn [fst] in Hq. rewrite (IH Hpre). cbn [fst].
    rewrite (proj2 (Nat.leb_gt (S n) (match_len q l))) by lia. by rewrite andb_false_r.
Qed.

(** a keyword is not what starts a longer or another word *)
Lemma lit_shorter s w : w <> [] -> Forall (fun c => alnum c = true) w -> s <> w -> s = [10] \/ 10 ∉ s -> (match_len (Lit s) (w ++ [10%Z]) < length w)%nat.
Proof.
  intros Hw Ha Hs H10. cbn [match_len]. assert (0 < length w)%nat by (destruct w; [done|cbn; lia]). case_bool_decide as E; [|done].
  destruct (Nat.lt_trichotomy (length s) (length w)) as [|[Heq|Hgt]]; [done| |].
  - exfalso. apply Hs. rewrite <- E, Heq. by apply take_app_length.
  - exfalso. rewrite take_ge in E by (rewrite length_app; cbn; lia). destruct H10 as [->|H10].
    + cbn in Hgt. lia.
    + apply H10. rewrite <- E. apply elem_of_app. right. left.
Qed.

(** a keyword with a character that is not in the word *)
Lemma lit_fails s w c : c ∈ s -> c <> 10 -> c ∉ w -> match_len (Lit s) (w ++ [10]) = 0%nat.
Proof.
  intros Hs Hc Hw. cbn [match_len]. rewrite bool_decide_eq_false_2; [done|]. intros E.
  assert (c ∈ w ++ [10]) as Hin by (rewrite <- (take_drop (length s) (w ++ [10])), E; apply elem_of_app; by left).
  apply elem_of_app in Hin as [Hin|Hin%list_elem_of_singleton]; done.
Qed.

(** ** Which token a word is *)

Lemma match_word_le p w : wordy p -> w <> [] -> Forall (fun c => alnum c = true) w -> (match_len p (w ++ [10%Z]) <= length w)%nat.
Proof.
  intros Hp Hw Ha. destruct p as [s| |p|p q]; cbn [wordy] in Hp.
  - cbn [match_len]. case_bool_decide as E; [|lia]. destruct (decide (length s <= length w)%nat) as [|Hgt]; [done|].
    rewrite take_ge in E by (rewrite length_app; cbn; lia). destruct Hp as [Hs|(d & s' & -> & Hd)].
    + rewrite <- E, Forall_app, Forall_cons in Hs. by destruct Hs as (_ & Hs & _).
    + destruct w as [|c w]; [done|]. injection E as -> _. apply Forall_inv in Ha. cbn beta in Ha. congruence.
  - destruct w as [|c w]; [done|]. apply Forall_inv in Ha. cbn [app match_len]. destruct (Z.eqb_spec c 42) as [->|]; [done|lia].
  - destruct Hp as [Hp|Hp]; cbn [match_len].
    + rewrite run_stop by (apply Hp; by right). apply run_le.
    + destruct w as [|c w]; [done|]. apply Forall_inv in Ha. cbn [app run]. rewrite Hp by done. lia.
  - destruct (Hp 10) as [Hp1 Hq1]; [by right|]. cbn [match_len]. rewrite run_stop by done. pose proof (run_le p w).
    destruct (run p w) as [|n]; [lia|]. destruct (decide (S n < length w)%nat).
    + destruct (_ !! S n); [|lia]. destruct (q z); lia.
    + rewrite lookup_app_r by lia. replace (S n - length w)%nat with 0%nat by lia. cbn. rewrite Hq1. lia.
Qed.

Lemma run_all p w : p 10 = false -> run p (w ++ [10]) = length w <-> Forall (fun c => p c = true) w.
Proof.
  intros Hp. rewrite run_stop by done. induction w as [|c w IH]; cbn [run length]; [by split|].
  rewrite Forall_cons, <- IH. destruct (p c); split; [intros [= ?]|intros [_ ->]|intros|intros [? _]]; done.
Qed.

(** the first rule that takes the whole word *)
Lemma spells_rule {K} pre post p (k : K) w : let rules := pre ++ (p, Some k) :: post in
  Forall wordy (map fst rules) -> w <> [] -> Forall (fun c => alnum c = true) w -> match_len p (w ++ [10]) = length w ->
  Forall (fun q => match_len q (w ++ [10]) <> length w) (map fst pre) -> spells rules w k.
Proof.
  intros rules Hr Hw Ha Hp Hpre. split_and!; [done..|]. unfold rules in *. rewrite map_app, Forall_app in Hr. cbn [map fst] in Hr.
  destruct Hr as [Hr1 Hr2]. apply Forall_cons_1 in Hr2 as [_ Hr2]. destruct (length w) as [|n] eqn:El; [by destruct w|].
  apply best_middle; [done| |].
  - rewrite Forall_forall in *. intros q Hq. pose proof (match_word_le q w (Hr1 q Hq) Hw Ha). specialize (Hpre q Hq). lia.
  - rewrite Forall_forall in *. intros q Hq. pose proof (match_word_le q w (Hr2 q Hq) Hw Ha). lia.
Qed.

Lemma lit_whole s w : w <> [] -> Forall (fun c => alnum c = true) w -> s = [10] \/ 10 ∉ s -> s <> w -> match_len (Lit s) (w ++ [10]) <> length w.
Proof. intros Hw Ha Hs Hne. pose proof (lit_shorter s w Hw Ha Hne Hs). lia. Qed.

Lemma hexa_alnum c : hexa c = true -> alnum c = true.
Proof. unfold hexa, alnum, letter. destruct (digit c); [done|]. cbn. lia. Qed.

Definition numeral (w : list Z) : Prop := w <> [] /\ Forall (fun c => hexa c = true) w.

(** of letters, with one that is not a digit, and not a keyword *)
Definition name (kws : list (list Z)) (w : list Z) : Prop :=
  w <> [] /\ (length w <= 80)%nat /\ Forall (fun c => letter c = true) w /\ ~ Forall (fun c => hexa c = true) w /\ w ∉ kws.

(** ** Lines *)

(** the words with what is before each: blanks, but for the first one *)
Definition laid_out (bs : list (list Z)) (ws : list (list Z)) : list Z := concat (zip_with app bs ws).

Definition layout (bs ws : list (list Z)) : Prop :=
  length bs = length ws /\ Forall (Forall (fun c => blank c = true)) bs /\ Forall (fun b => b <> []) (tail bs).

Lemma parse_step {X A B} (m : parse X A) (g : A -> parse X B) p a p' : m p = Ret (a, p') -> (m ≫= g) p = g a p'.
Proof. intros E. unfold mbind, parse_bind. by rewrite E. Qed.

Lemma parse_stop {X A B} (m : parse X A) (g : A -> parse X B) p : m p = Stopped -> (m ≫= g) p = Stopped.
Proof. intros E. unfold mbind, parse_bind. by rewrite E. Qed.

Lemma layout_tail b bs w ws : layout (b :: bs) (w :: ws) -> layout bs ws /\ Forall (fun c => blank c = true) b /\ Forall (fun b => b <> []) bs.
Proof.
  intros (Hl & Hb & Ht). apply Forall_cons_1 in Hb as [Hb Hbs]. cbn [tail] in Ht. split_and!; [|done|done].
  split_and!; [cbn in Hl; lia|done|]. by destruct bs; [|apply Forall_cons_1 in Ht as [_ Ht]].
Qed.

(** what is behind a word is a blank or the end of the line *)
Lemma behind_word bs ws rest : layout bs ws -> Forall (fun b => b <> []) bs -> exists c l, laid_out bs ws ++ 10 :: rest = c :: l /\ tight c.
Proof.
  intros (Hl & Hb & _) Hne. destruct bs as [|b bs]; [by eexists _, _; split; [|right]|]. destruct ws as [|w ws]; [done|].
  apply Forall_inv in Hb, Hne. destruct b as [|c b]; [done|]. eexists _, _. split; [done|]. left. by apply Forall_inv in Hb.
Qed.

(** the first word of the rest of a line *)
Lemma line_lexes {K} (rules : list (pattern * option K)) nl remark b bs w ws k rest : rules_ok rules nl remark ->
  layout (b :: bs) (w :: ws) -> spells rules w k -> lexes rules (laid_out (b :: bs) (w :: ws) ++ 10 :: rest) k w (laid_out bs ws ++ 10 :: rest).
Proof.
  intros Hok Hl Hs. apply layout_tail in Hl as (Hl & Hb & Hne). destruct (behind_word bs ws rest Hl Hne) as (c & l & E & Hc).
  unfold laid_out at 1. cbn [zip_with concat]. fold (laid_out bs ws). rewrite <- !app_assoc, E. by eapply lexes_word.
Qed.

Section matches.
Context (dev : Z -> Z + list Z) (mem_ok : nat -> bool) (Hmem : forall n, mem_ok n = true) (f : fs) (id : Z).
Context (recs lines : list (list Z)) (Hlines : Forall2 (fun r t => length r = 80%nat /\ line_of r = Ret t) recs lines).
Context (maxfill : nat) (Hfill : (1 <= maxfill <= 80)%nat) (fn ft : list Z).
Context {X K : Type} (rules : list (pattern * option K)) (nl remark : K) (Hok : rules_ok rules nl remark).

(** the parser is at the text *)
Definition at_ (p : parser X) (txt : list Z) : Prop := ready dev mem_ok f id recs lines fn ft (p_lex p) (p_disk p) txt.

#[local] Abbreviation next := (next_match dev mem_ok f maxfill rules fn ft).

Lemma match_lexes p txt k w rest : at_ p txt -> lexes rules txt k w rest ->
  exists p', next p = Ret (Some (k, w), p') /\ at_ p' rest /\ val p' = val p.
Proof.
  intros Hp Hlex.
  destruct (lex_spec dev mem_ok Hmem f id recs lines Hlines maxfill Hfill fn ft rules 158 _ _ txt k w rest (ro_good _ _ _ Hok) Hp Hlex) as (l' & s' & E & H').
  eexists. unfold next_match. rewrite E. split_and!; [done|exact H'|done].
Qed.

Lemma match_end p : at_ p [] -> exists p', next p = Ret (None, p') /\ val p' = val p.
Proof.
  intros Hp.
  destruct (lex_end dev mem_ok Hmem f id recs lines Hlines maxfill Hfill fn ft rules 159 _ _ (ro_good _ _ _ Hok) Hp) as (l' & s' & E & _).
  eexists. unfold next_match. by rewrite E.
Qed.
End matches.

Ltac rule_good := first [exact I | reflexivity | left; reflexivity | right; split; [by apply (bool_decide_unpack _); vm_compute|discriminate]].
Ltac all_alnum := repeat (apply Forall_cons_2; [reflexivity|]); apply Forall_nil_2.
Ltac rule_wordy := first [exact I | right; eexists _, _; split; reflexivity | left; all_alnum].
Ltac keyword_spells := split; [done|split; [all_alnum|reflexivity]].

Lemma layout_cons bs w ws : layout bs (w :: ws) -> exists b bs', bs = b :: bs'.
Proof. intros [Hl _]. destruct bs as [|b bs]; [done|]. by exists b, bs. Qed.

(** a step of the parser: [S] says what comes of it *)
Ltac step S H := let p := fresh "p" in let E := fresh "E" in let V := fresh "V" in let H' := fresh "H" in
  destruct S as (p & E & H' & V); rewrite (parse_step _ _ _ _ _ E); clear E H; rename H' into H.
Ltac step_word S H := let o := fresh "o" in let p := fresh "p" in let E := fresh "E" in let V := fresh "V" in let H' := fresh "H" in
  destruct S as (o & p & E & H' & V); rewrite (parse_step _ _ _ _ _ E); clear E H; rename H' into H.

Ltac values := repeat match goal with V : val ?q = val _ |- context [val ?q] => rewrite V end.

Ltac shape H := match type of H with _ /\ layout ?bs (_ :: _) => let b := fresh "b" in let bs' := fresh "bs" in
  destruct (layout_cons _ _ _ (proj2 H)) as (b & bs' & ->) | _ /\ layout ?bs [] => destruct bs; [|by destruct H as [_ [? _]]] end.
