(* ===== verification/Config.v ===== *)
(** nucleus/config.l and nucleus/config.y: SYSTEM CONFIG.

    The lexer is Lexer.v's scanner with the rules of config.l; the parser is the grammar of
    config.y, token by token as the tables of byacc go through it: every rule of a
    statement is reduced once its NLINE is there, which is when its action runs.
    What [malloc] says and what is behind the characters of a string (strdup does not copy
    the terminator) are arguments.  The theorem: a file of statements configures what they
    say. *)

From S2P Require Import Prelude Shell Charset CString Edf Diag Lexer.

Local Open Scope Z_scope.

Definition CONFIG_FILE_NAME : list Z := zs "SYSTEM  ".
Definition CONFIG_FILE_TYPE : list Z := zs "CONFIG  ".

(** * The configuration *)

Record logo := Logo { conn : Z; devtype : Z; l_fn : list Z; l_ft : list Z; l_lines : list (list Z) }.

(** [rdevs] stays empty *)
Record sysconf := Sysconf {
  oper_con : Z;
  oper_userid : list Z;
  logos : list logo;
  direct_fn : list Z;
  direct_ft : list Z;
}.

Definition LOGO_CONN_LOCAL : Z := 1.

(** * Tokens *)

Inductive token :=
  | WORD (s : option (list Z)) | NUM (n : Z)
  | OPERATOR | RDEV | LOGO | CONSOLE | USERID | LOCAL | DIRECTORY
  | NLINE | COMMENT | EOF.

Inductive kind := Fixed (t : token) | Number | Name.

Definition config_rules : list (pattern * option kind) := [
  (Lit [10], Some (Fixed NLINE));
  (Remark, Some (Fixed COMMENT));
  (Lit (zs "DIRECTORY"), Some (Fixed DIRECTORY));
  (Lit (zs "OPERATOR"), Some (Fixed OPERATOR));
  (Lit (zs "RDEV"), Some (Fixed RDEV));
  (Lit (zs "LOGO"), Some (Fixed LOGO));
  (Lit (zs "CONSOLE"), Some (Fixed CONSOLE));
  (Lit (zs "USERID"), Some (Fixed USERID));
  (Lit (zs "LOCAL"), Some (Fixed LOCAL));
  (Run hexa, Some Number);
  (Run letter, Some Name);
  (Run blank, None)].

(** * Actions *)

(** blanks up to 8 characters *)
Definition copy_fn (src : option (list Z)) : outcome (list Z) :=
  src ← defined src;
  len ← strnlen src 0 8;
  Ret (take (Z.to_nat len) src ++ replicate (Z.to_nat (8 - len)) 32).

Definition __oper_con (n : Z) (c : sysconf) : outcome sysconf :=
  if 0xffff <? n then Stopped else Ret (Sysconf (u16 n) (oper_userid c) (logos c) (direct_fn c) (direct_ft c)).

Definition __oper_userid (name : option (list Z)) (c : sysconf) : outcome sysconf :=
  name ← defined name;
  m ← strncpy (oper_userid c ++ name) 0 9 8;
  Ret (Sysconf (oper_con c) (take 8 m ++ [0]) (logos c) (direct_fn c) (direct_ft c)).

(** the pair is not saved *)
Definition __rdev (devnum devtype : Z) (c : sysconf) : outcome sysconf :=
  if (0xffff <? devtype) || (0xffff <? devnum) then Stopped else Ret c.

(** [ok]: there is memory *)
Definition __logo (ok : bool) (lcl : bool) (devtype : Z) (fn ft : option (list Z)) (c : sysconf) : outcome sysconf :=
  if 0xffff <? devtype then Stopped else
  if negb ok then Stopped else
  if negb lcl then Stopped else
  fn ← copy_fn fn; ft ← copy_fn ft;
  Ret (Sysconf (oper_con c) (oper_userid c) (logos c ++ [Logo LOGO_CONN_LOCAL (u16 devtype) fn ft []]) (direct_fn c) (direct_ft c)).

Definition __direct (fn ft : option (list Z)) (c : sysconf) : outcome sysconf :=
  fn ← copy_fn fn; ft ← copy_fn ft;
  Ret (Sysconf (oper_con c) (oper_userid c) (logos c) fn ft).

(** a string of the program *)
Definition literal (s : string) : option (list Z) := Some (zs s ++ [0]).

(** * The lexer and the parser *)

Section config.
Context (bdev_read_block : Z -> Z + list Z) (mem_ok : nat -> bool) (f : fs).   (* the file system *)
Context (maxfill : nat).
Context (malloc : nat -> option (list Z)).   (* what an object holds that an allocation gives *)

(** WORD's value: the characters, and what the object holds behind them *)
Definition new_word {X} (w : list Z) : parse X (option (list Z)) := fun p =>
  if (80 <? length w)%nat then Undef else
  let object := malloc (mallocs p) in
  d ← strdup (match object with Some _ => true | None => false end) (w ++ [0]) 0;
  Ret (match d, object with Some d, Some o => Some (d ++ drop (length d) o) | _, _ => None end,
       Parser (p_lex p) (p_disk p) (S (mallocs p)) (val p)).

Definition config_match : parse sysconf (option (kind * list Z)) :=
  next_match bdev_read_block mem_ok f maxfill config_rules CONFIG_FILE_NAME CONFIG_FILE_TYPE.

Definition config_lex : parse sysconf token :=
  r ← config_match;
  match r with
  | None => mret EOF
  | Some (Fixed t, _) => mret t
  | Some (Number, w) => n ← computes (defined (hex w)); mret (NUM n)
  | Some (Name, w) => s ← new_word w; mret (WORD s)
  end.

Definition nline : parse sysconf unit := t ← config_lex; match t with NLINE => mret tt | _ => syntax_error end.
Definition num : parse sysconf Z := t ← config_lex; match t with NUM n => mret n | _ => syntax_error end.
Definition word : parse sysconf (option (list Z)) := t ← config_lex; match t with WORD s => mret s | _ => syntax_error end.

(** the action takes an object for the logo *)
Definition add_logo (n : Z) (fn ft : option (list Z)) : parse sysconf unit := fun p =>
  if 0xffff <? n then Stopped else
  let ok := match malloc (mallocs p) with Some _ => true | None => false end in
  c ← __logo ok true n fn ft (val p);
  Ret (tt, Parser (p_lex p) (p_disk p) (S (mallocs p)) c).

(** a statement that starts with [t] *)
Definition stmt (t : token) : parse sysconf unit :=
  match t with
  | OPERATOR =>
      t ← config_lex;
      match t with
      | CONSOLE => n ← num; nline ;; act (__oper_con n)
      | USERID =>
          t ← config_lex;
          match t with
          | WORD w => nline ;; act (__oper_userid w)
          | OPERATOR => nline ;; act (__oper_userid (literal "OPERATOR"))
          | _ => syntax_error
          end
      | _ => syntax_error
      end
  | RDEV => a ← num; b ← num; nline ;; act (__rdev a b)
  | LOGO =>
      t ← config_lex;
      match t with
      | LOCAL =>
          n ← num; fn ← word; t ← config_lex;
          match t with
          | WORD ft => nline ;; add_logo n fn ft
          | LOGO => nline ;; add_logo n fn (literal "LOGO")
          | _ => syntax_error
          end
      | _ => syntax_error
      end
  | DIRECTORY => fn ← word; ft ← word; nline ;; act (__direct fn ft)
  | COMMENT => nline
  | NLINE => mret tt
  | _ => syntax_error
  end.

Fixpoint stmts (fuel : nat) : parse sysconf unit :=
  match fuel with
  | O => fun _ => Undef
  | S fuel => t ← config_lex; match t with EOF => mret tt | _ => stmt t ;; stmts fuel end
  end.

(** at least one *)
Definition config_parse (fuel : nat) : parse sysconf unit := t ← config_lex; stmt t ;; stmts fuel.
End config.

(** * Files of statements *)

(** a statement as it is typed *)
Inductive statement :=
  | Oper_con (n : list Z) | Oper_user (w : list Z) | Oper_operator
  | Rdev (n t : list Z) | Logo_ (n fn ft : list Z) | Logo_logo (n fn : list Z)
  | Direct (fn ft : list Z) | Note (t : list Z) | Empty.

Definition keywords : list (list Z) := map zs ["DIRECTORY"; "OPERATOR"; "RDEV"; "LOGO"; "CONSOLE"; "USERID"; "LOCAL"]%string.

Definition words (s : statement) : list (list Z) :=
  match s with
  | Oper_con n => [zs "OPERATOR"; zs "CONSOLE"; n]
  | Oper_user w => [zs "OPERATOR"; zs "USERID"; w]
  | Oper_operator => [zs "OPERATOR"; zs "USERID"; zs "OPERATOR"]
  | Rdev n t => [zs "RDEV"; n; t]
  | Logo_ n fn ft => [zs "LOGO"; zs "LOCAL"; n; fn; ft]
  | Logo_logo n fn => [zs "LOGO"; zs "LOCAL"; n; fn; zs "LOGO"]
  | Direct fn ft => [zs "DIRECTORY"; fn; ft]
  | Note t => [42 :: t]
  | Empty => []
  end.

Definition valid (s : statement) : Prop :=
  match s with
  | Oper_con n => numeral n
  | Oper_user w => name keywords w
  | Oper_operator | Empty => True
  | Rdev n t => numeral n /\ numeral t
  | Logo_ n fn ft => numeral n /\ name keywords fn /\ name keywords ft
  | Logo_logo n fn => numeral n /\ name keywords fn
  | Direct fn ft => name keywords fn /\ name keywords ft
  | Note t => 10 ∉ t
  end.

(** ** What they say *)

(** a number is typed in hexadecimal digits; 64 bits, the last 16 digits, are kept of it *)
Definition digit_value (c : Z) : Z := if c <=? 57 then c - 48 else c - 55.
Definition value (w : list Z) : Z := place_value 16 (map digit_value w) mod 2 ^ 64.
Definition pad8 (w : list Z) : list Z := take 8 w ++ replicate (8 - length w) 32.
Definition id9 (w : list Z) : list Z := take 8 w ++ replicate (8 - length w) 0 ++ [0].

Definition effect (s : statement) (c : sysconf) : outcome sysconf :=
  match s with
  | Oper_con n =>
      if 0xffff <? value n then Stopped else Ret (Sysconf (value n) (oper_userid c) (logos c) (direct_fn c) (direct_ft c))
  | Oper_user w => Ret (Sysconf (oper_con c) (id9 w) (logos c) (direct_fn c) (direct_ft c))
  | Oper_operator => Ret (Sysconf (oper_con c) (id9 (zs "OPERATOR")) (logos c) (direct_fn c) (direct_ft c))
  | Rdev n t => if (0xffff <? value t) || (0xffff <? value n) then Stopped else Ret c
  | Logo_ n fn ft =>
      if 0xffff <? value n then Stopped else
      Ret (Sysconf (oper_con c) (oper_userid c) (logos c ++ [Logo LOGO_CONN_LOCAL (value n) (pad8 fn) (pad8 ft) []]) (direct_fn c) (direct_ft c))
  | Logo_logo n fn =>
      if 0xffff <? value n then Stopped else
      Ret (Sysconf (oper_con c) (oper_userid c) (logos c ++ [Logo LOGO_CONN_LOCAL (value n) (pad8 fn) (pad8 (zs "LOGO")) []]) (direct_fn c) (direct_ft c))
  | Direct fn ft => Ret (Sysconf (oper_con c) (oper_userid c) (logos c) (pad8 fn) (pad8 ft))
  | Note _ | Empty => Ret c
  end.

Fixpoint effects (ss : list statement) (c : sysconf) : outcome sysconf :=
  match ss with [] => Ret c | s :: ss => c ← effect s c; effects ss c end.

(** ** Tokens of the rules *)

Lemma config_rules_ok : rules_ok config_rules (Fixed NLINE) (Fixed COMMENT).
Proof.
  split.
  - repeat (apply Forall_cons_2; [cbn [good]; rule_good|]). apply Forall_nil_2.
  - repeat (apply Forall_cons_2; [cbn [wordy fst]; try rule_wordy|]); [| | |apply Forall_nil_2].
    + left. intros c [H|H]; unfold blank, hexa, digit in *; lia.
    + left. intros c [H|H]; unfold blank, letter in *; lia.
    + right. intros c. unfold alnum, blank, digit, letter. lia.
  - intros c H. assert (c = 32 \/ c = 9) as [-> | ->] by (unfold blank in H; lia); reflexivity.
  - reflexivity.
  - reflexivity.
Qed.

(** a literal of the rules is a keyword or the line feed *)
Lemma whole_rules w pre post : config_rules = pre ++ post -> (length pre <= 9)%nat -> w <> [] -> Forall (fun c => alnum c = true) w ->
  w ∉ keywords -> Forall (fun q => match_len q (w ++ [10]) <> length w) (map fst pre).
Proof.
  intros E Hpre Hw Ha Hk. assert (pre = take (length pre) (take 9 config_rules)) as Ep.
  { rewrite take_take, Nat.min_l, E by done. by rewrite take_app_length. }
  rewrite Ep, <- firstn_map. apply Forall_take. cbn [map fst config_rules take firstn].
  apply Forall_cons_2; [apply lit_whole; [done|done|by left|intros <-]|apply Forall_cons_2].
  - apply Forall_inv in Ha. done.
  - destruct w as [|c w]; [done|]. apply Forall_inv in Ha. cbn [app match_len]. by destruct (Z.eqb_spec c 42) as [->|].
  - repeat (apply Forall_cons_2; [apply lit_whole; [done|done|right; by apply (bool_decide_unpack _); vm_compute|
      intros <-; apply Hk; by apply (bool_decide_unpack _); vm_compute]|]). apply Forall_nil_2.
Qed.

Lemma numeral_spells w : numeral w -> spells config_rules w Number.
Proof.
  intros [Hw Hh]. assert (Forall (fun c => alnum c = true) w) as Ha by (eapply Forall_impl; [exact Hh|exact hexa_alnum]).
  apply (spells_rule (take 9 config_rules) (drop 10 config_rules) (Run hexa) Number w); [apply config_rules_ok|done|done| |].
  - by apply run_all.
  - apply (whole_rules w _ (drop 9 config_rules)); [done|done|done|done|]. intros Hk.
    assert (Forall (fun k => existsb (fun c => negb (hexa c)) k = true) keywords) as Hkw by (repeat constructor).
    rewrite Forall_forall in Hkw. apply Hkw in Hk. apply existsb_exists in Hk as (c & Hc & Hn). apply list_elem_of_In in Hc.
    rewrite Forall_forall in Hh. rewrite Hh in Hn; done.
Qed.

Lemma name_spells w : name keywords w -> spells config_rules w Name.
Proof.
  intros (Hw & _ & Hl & Hx & Hk). assert (Forall (fun c => alnum c = true) w) as Ha.
  { eapply Forall_impl; [exact Hl|]. intros c Hc. unfold alnum. by rewrite Hc, orb_true_r. }
  apply (spells_rule (take 10 config_rules) (drop 11 config_rules) (Run letter) Name w); [apply config_rules_ok|done|done| |].
  - by apply run_all.
  - change (take 10 config_rules) with (take 9 config_rules ++ [(Run hexa, Some Number)]). rewrite map_app, Forall_app. split.
    + by apply (whole_rules w _ (drop 9 config_rules)).
    + apply Forall_cons_2; [|apply Forall_nil_2]. intros E. apply Hx. by apply run_all.
Qed.

(** ** Strings *)

Lemma cstr_prefix w o : 0 ∉ w -> cstr (w ++ 0 :: o) 0 w.
Proof.
  intros Hw. split; [|done]. assert (forall pre v, bytes_at (pre ++ v ++ o) (lenZ pre) v) as H.
  { intros pre v. revert pre. induction v as [|c v IH]; intros pre; [done|]. split.
    - apply aget_Some. unfold lenZ. rewrite Nat2Z.id. split; [lia|]. by rewrite lookup_app_r, Nat.sub_diag by lia.
    - specialize (IH (pre ++ [c])). rewrite lenZ_app, <- app_assoc in IH. exact IH. }
  specialize (H [] (w ++ [0])). by rewrite <- app_assoc in H.
Qed.

Lemma strdup_spec (b : bool) w : 0 ∉ w -> strdup b (w ++ [0]) 0 = Ret (if b then Some w else None).
Proof.
  intros Hw. unfold strdup. pose proof (cstr_prefix w [] Hw) as Hc. pose proof (cstr_len _ _ _ Hc) as Hl.
  set (go := fix go n p := match n with O => Undef | S n => c ← rd (w ++ [0]) p; if c =? 0 then Ret [] else l ← go n (p + 1); Ret (c :: l) end).
  assert (forall n p v, (length v < n)%nat -> cstr (w ++ [0]) p v -> go n p = Ret v) as Hgo.
  { induction n as [|n IH]; intros p v Hn Hv; [lia|]. cbn [go]. destruct v as [|c v].
    - apply cstr_nil in Hv. by rewrite (rd_Some _ _ _ Hv).
    - apply cstr_cons in Hv as (Hg & Hne & Hv). rewrite (rd_Some _ _ _ Hg). cbn [mbind outcome_bind].
      rewrite (proj2 (Z.eqb_neq _ _) Hne). rewrite (IH (p + 1) v); [done|cbn in Hn; lia|done]. }
  rewrite (Hgo _ 0 w Hl Hc). by destruct b.
Qed.

Lemma strnlen_loop_spec fuel m p v count : (length v < fuel)%nat -> cstr m p v -> 0 <= count < 2 ^ 64 ->
  strnlen_loop fuel m p count = Ret (p + Z.min (lenZ v) count).
Proof.
  revert p v count. induction fuel as [|fuel IH]; intros p v count Hf Hv Hc; [lia|]. cbn [strnlen_loop].
  destruct (Z.eqb_spec count 0) as [->|Hne]; [f_equal; pose proof (lenZ_nonneg v); lia|]. destruct v as [|c v].
  - apply cstr_nil in Hv. rewrite (rd_Some _ _ _ Hv). cbn. f_equal. unfold lenZ. cbn. lia.
  - apply cstr_cons in Hv as (Hg & Hc0 & Hv). rewrite (rd_Some _ _ _ Hg). cbn [mbind outcome_bind].
    rewrite (proj2 (Z.eqb_neq _ _) Hc0), wrap_small by lia. rewrite (IH (p + 1) v) by (done || cbn in Hf; lia). f_equal. rewrite lenZ_cons. lia.
Qed.

Lemma copy_fn_spec w o : 0 ∉ w -> copy_fn (Some (w ++ 0 :: o)) = Ret (pad8 w).
Proof.
  intros Hw. unfold copy_fn. cbn [defined mbind outcome_bind]. pose proof (cstr_prefix w o Hw) as Hc.
  unfold strnlen. rewrite (strnlen_loop_spec _ _ 0 w 8 (cstr_len _ _ _ Hc) Hc) by lia. cbn [mbind outcome_bind]. f_equal. unfold pad8, lenZ.
  destruct (decide (length w <= 8)%nat).
  - rewrite Z.min_l by lia. rewrite Z.sub_0_r, Z.add_0_l, Nat2Z.id, take_app_length, (take_ge w) by done. do 2 f_equal. lia.
  - rewrite Z.min_r by lia. change (Z.to_nat (0 + 8 - 0)) with 8%nat. rewrite take_app_le by lia. do 2 f_equal. lia.
Qed.

Lemma padded_spec n w : padded n w = take n w ++ replicate (n - length w) 0.
Proof.
  revert w. induction n as [|n IH]; intros w; [by rewrite take_0|]. destruct w as [|c w]; cbn [padded take firstn length app].
  - rewrite IH, take_nil. cbn. by rewrite Nat.sub_0_r.
  - by rewrite IH.
Qed.

Lemma bytes_at_take m s : bytes_at m 0 s -> take (length s) m = s.
Proof.
  intros H. apply list_eq. intros i. destruct (decide (i < length s)%nat) as [Hi|Hi].
  - rewrite lookup_take_lt by done. destruct (lookup_lt_is_Some_2 s i Hi) as [x Hx]. rewrite Hx.
    rewrite <- (take_drop i s), (drop_S s x i Hx) in H. apply bytes_at_app in H as [_ [H _]].
    apply aget_Some in H as [_ H]. rewrite <- H. f_equal. unfold lenZ. rewrite length_take. lia.
  - rewrite lookup_take_ge, lookup_ge_None_2; [done|lia|lia].
Qed.

Lemma oper_userid_spec w o c : length (oper_userid c) = 9%nat -> 0 ∉ w ->
  __oper_userid (Some (w ++ 0 :: o)) c = Ret (Sysconf (oper_con c) (id9 w) (logos c) (direct_fn c) (direct_ft c)).
Proof.
  intros Hl Hw. unfold __oper_userid. cbn [defined mbind outcome_bind]. unfold strncpy.
  assert (cstr (oper_userid c ++ w ++ 0 :: o) 9 w) as Hc.
  { split; [|done]. destruct (cstr_prefix w o Hw) as [H _]. clear Hw. revert H. generalize (w ++ [0]) as v, (w ++ 0 :: o) as m. intros v m.
    assert (forall p, 0 <= p -> bytes_at m p v -> bytes_at (oper_userid c ++ m) (9 + p) v) as Hshift.
    { induction v as [|x v IH]; intros p Hp; [done|]. intros [Hx Hv]. split; [|rewrite <- Z.add_assoc; apply IH; [lia|done]].
      apply aget_Some in Hx as [_ Hx]. apply aget_Some. split; [lia|]. rewrite lookup_app_r by lia. rewrite Hl. rewrite <- Hx. f_equal. lia. }
    intros H. by apply (Hshift 0). }
  destruct (strncpy_loop_spec (Z.to_nat 8) (oper_userid c ++ w ++ 0 :: o) 0 9 w Hc) as (m' & E & Hb & Hm & _); [lia| |left; lia|].
  { rewrite lenZ_app. unfold lenZ. rewrite Hl. lia. }
  rewrite E. cbn [mbind outcome_bind]. rewrite padded_spec in Hb. apply bytes_at_take in Hb. rewrite length_app, length_take, length_replicate in Hb.
  replace (Z.to_nat 8 `min` length w + (Z.to_nat 8 - length w))%nat with 8%nat in Hb by lia. rewrite Hb. unfold id9. by rewrite <- app_assoc.
Qed.

(** ** Tokens of a line *)

Lemma hex_loop_value l z : Forall (fun c => hexa c = true) l -> 0 <= z < 2 ^ 64 ->
  hex_loop l z = Some ((z * 16 ^ lenZ l + place_value 16 (map digit_value l)) mod 2 ^ 64).
Proof.
  intros Hl. revert z. induction Hl as [|c l Hc _ IH]; intros z Hz; cbn [hex_loop map place_value].
  { change (lenZ (@nil Z)) with 0. rewrite Z.pow_0_r, Z.mul_1_r, Z.add_0_r, Z.mod_small by done. done. }
  assert (forall d, 0 <= d < 16 -> digit_value c = d -> hex_loop l (Z.lor (u64 (Z.shiftl z 4)) d) =
    Some ((z * 16 ^ lenZ (c :: l) + (digit_value c * 16 ^ lenZ (map digit_value l) + place_value 16 (map digit_value l))) mod 2 ^ 64)) as Hstep.
  { intros d Hd <-. rewrite <- (Z.mod_small z (2 ^ 64)) at 1 by done. rewrite hex_add by done. rewrite IH by (apply Z.mod_pos_bound; lia). f_equal.
    assert (lenZ (c :: l) = Z.succ (lenZ l) /\ lenZ (map digit_value l) = lenZ l) as [-> ->] by (unfold lenZ; rewrite length_map; cbn [length]; lia).
    rewrite Z.pow_succ_r by apply lenZ_nonneg. rewrite Z.add_mod, Z.mul_mod, Z.mod_mod, <- Z.mul_mod, <- Z.add_mod by lia. f_equal. lia. }
  unfold hexa, digit in Hc. unfold digit_value in Hstep. destruct ((48 <=? c) && (c <=? 57)) eqn:E1.
  - apply Hstep; [lia|]. destruct (Z.leb_spec c 57); lia.
  - cbn [orb] in Hc. rewrite Hc. apply Hstep; [lia|]. destruct (Z.leb_spec c 57); lia.
Qed.

Lemma numeral_hex w : numeral w -> hex w = Some (value w).
Proof.
  intros [Hw Hh]. unfold hex, value. destruct w as [|c w]; [done|]. rewrite hex_loop_value by done. by rewrite Z.mul_0_l.
Qed.

Lemma letters_nonzero w : Forall (fun c => letter c = true) w -> 0 ∉ w.
Proof. intros H H0. rewrite Forall_forall in H. by apply H in H0. Qed.

Lemma letters_only kws w : name kws w -> 0 ∉ w.
Proof. intros (_ & _ & Hl & _). by apply letters_nonzero. Qed.

Lemma new_word_spec {X} malloc (Hmalloc : forall n, exists o, malloc n = Some o /\ forall i, (i <= 80)%nat -> o !! i = Some 0) (p : parser X) kws w :
  name kws w -> exists o p', new_word malloc w p = Ret (Some (w ++ 0 :: o), p') /\ p_lex p' = p_lex p /\ p_disk p' = p_disk p /\ val p' = val p.
Proof.
  intros Hw. pose proof (letters_only _ _ Hw). destruct Hw as (_ & Hl & _). destruct (Hmalloc (mallocs p)) as (o & Eo & Hz).
  exists (drop (S (length w)) o). eexists. unfold new_word. rewrite (proj2 (Nat.ltb_ge _ _)) by done.
  rewrite Eo, strdup_spec by done. cbn [mbind outcome_bind]. rewrite (drop_S o 0) by (apply Hz; lia). done.
Qed.

Lemma value_nonneg w : 0 <= value w.
Proof. by apply Z.mod_pos_bound. Qed.

Lemma act_ok {X} (a : X -> outcome X) p : act a p = (x ← a (val p); Ret (tt, Parser (p_lex p) (p_disk p) (mallocs p) x)).
Proof. done. Qed.

Lemma u16_value w : (0xffff <? value w) = false -> u16 (value w) = value w.
Proof. intros H%Z.ltb_ge. pose proof (value_nonneg w). apply wrap_small. lia. Qed.

Section config_file.
Context (dev : Z -> Z + list Z) (mem_ok : nat -> bool) (Hmem : forall n, mem_ok n = true) (f : fs) (id : Z).
Context (recs lines : list (list Z)) (Hlines : Forall2 (fun r t => length r = 80%nat /\ line_of r = Ret t) recs lines).
Context (maxfill : nat) (Hfill : (1 <= maxfill <= 80)%nat).
Context (malloc : nat -> option (list Z)) (Hmalloc : forall n, exists o, malloc n = Some o /\ forall i, (i <= 80)%nat -> o !! i = Some 0).

#[local] Abbreviation at_ := (Lexer.at_ dev mem_ok f id recs lines CONFIG_FILE_NAME CONFIG_FILE_TYPE).
#[local] Abbreviation next_token := (config_lex dev mem_ok f maxfill malloc).

Definition token_is (k : kind) (w : list Z) (t : token) : Prop :=
  match k with
  | Fixed t' => t = t'
  | Number => hex w = Some (value w) /\ t = NUM (value w)
  | Name => exists o, t = WORD (Some (w ++ 0 :: o))
  end.

Lemma lex_token p txt k w rest : at_ p txt -> lexes config_rules txt k w rest ->
  (k = Number -> numeral w) -> (k = Name -> name keywords w) ->
  exists t p', next_token p = Ret (t, p') /\ token_is k w t /\ at_ p' rest /\ val p' = val p.
Proof.
  intros Hp Hlex Hnum Hname. unfold config_lex.
  destruct (match_lexes dev mem_ok Hmem f id recs lines Hlines maxfill Hfill _ _ _ _ _ config_rules_ok p txt k w rest Hp Hlex) as (p1 & E & H1 & V1).
  unfold config_match. rewrite (parse_step _ _ _ _ _ E). destruct k as [t| |]; cbn [token_is].
  - by exists t, p1.
  - rewrite (numeral_hex w) by auto. by exists (NUM (value w)), p1.
  - destruct (new_word_spec malloc Hmalloc p1 keywords w (Hname eq_refl)) as (o & p2 & E2 & El & Ed & V2). rewrite (parse_step _ _ _ _ _ E2).
    eexists _, p2. split_and!; [done|by exists o| |congruence]. unfold Lexer.at_ in *. by rewrite El, Ed.
Qed.

(** the next word of a line *)
Lemma line_token p b bs w ws rest k : at_ p (laid_out (b :: bs) (w :: ws) ++ 10 :: rest) -> layout (b :: bs) (w :: ws) ->
  spells config_rules w k -> (k = Number -> numeral w) -> (k = Name -> name keywords w) ->
  exists t p', next_token p = Ret (t, p') /\ token_is k w t /\ at_ p' (laid_out bs ws ++ 10 :: rest) /\ layout bs ws /\ val p' = val p.
Proof.
  intros Hp Hl Hs Hnum Hname.
  destruct (lex_token p _ k w _ Hp (line_lexes _ _ _ b bs w ws k rest config_rules_ok Hl Hs) Hnum Hname) as (t & p' & E & Ht & Hp' & Hv).
  apply layout_tail in Hl as [Hl _]. by exists t, p'.
Qed.

Lemma line_end p rest : at_ p (laid_out [] [] ++ 10 :: rest) -> exists p', next_token p = Ret (NLINE, p') /\ at_ p' rest /\ val p' = val p.
Proof.
  intros Hp. destruct (lex_token p (10 :: rest) (Fixed NLINE) [10] rest) as (t & p' & E & -> & H); try done; [|by exists p'].
  apply (lexes_nl _ _ _ config_rules_ok []). done.
Qed.

Lemma file_end p : at_ p [] -> exists p', next_token p = Ret (EOF, p') /\ val p' = val p.
Proof.
  intros Hp. destruct (match_end dev mem_ok Hmem f id recs lines Hlines maxfill Hfill _ _ _ _ _ config_rules_ok p Hp) as (p' & E & V).
  exists p'. split; [|done]. unfold config_lex, config_match. by rewrite (parse_step _ _ _ _ _ E).
Qed.

#[local] Abbreviation here p bs ws rest := (at_ p (laid_out bs ws ++ 10 :: rest) /\ layout bs ws).
#[local] Abbreviation nline_ := (nline dev mem_ok f maxfill malloc).
#[local] Abbreviation num_ := (num dev mem_ok f maxfill malloc).
#[local] Abbreviation word_ := (word dev mem_ok f maxfill malloc).
#[local] Abbreviation stmt_ := (stmt dev mem_ok f maxfill malloc).

Lemma keyword_spec T p b bs w ws rest : here p (b :: bs) (w :: ws) rest -> spells config_rules w (Fixed T) ->
  exists p', next_token p = Ret (T, p') /\ here p' bs ws rest /\ val p' = val p.
Proof. intros [H L] Hs. destruct (line_token _ _ _ _ _ _ _ H L Hs) as (t & p' & E & -> & H' & L' & V); try done. by exists p'. Qed.

Lemma num_spec p b bs w ws rest : here p (b :: bs) (w :: ws) rest -> numeral w ->
  exists p', num_ p = Ret (value w, p') /\ here p' bs ws rest /\ val p' = val p.
Proof.
  intros [H L] Hw. destruct (line_token _ _ _ _ _ _ _ H L (numeral_spells w Hw)) as (t & p' & E & [_ ->] & H' & L' & V); try done.
  exists p'. split; [|done]. unfold num. by rewrite (parse_step _ _ _ _ _ E).
Qed.

Lemma word_spec p b bs w ws rest : here p (b :: bs) (w :: ws) rest -> name keywords w ->
  exists o p', word_ p = Ret (Some (w ++ 0 :: o), p') /\ here p' bs ws rest /\ val p' = val p.
Proof.
  intros [H L] Hw. destruct (line_token _ _ _ _ _ _ _ H L (name_spells w Hw)) as (t & p' & E & [o ->] & H' & L' & V); try done.
  exists o, p'. split; [|done]. unfold word. by rewrite (parse_step _ _ _ _ _ E).
Qed.

Lemma name_spec p b bs w ws rest : here p (b :: bs) (w :: ws) rest -> name keywords w ->
  exists o p', next_token p = Ret (WORD (Some (w ++ 0 :: o)), p') /\ here p' bs ws rest /\ val p' = val p.
Proof.
  intros [H L] Hw. destruct (line_token _ _ _ _ _ _ _ H L (name_spells w Hw)) as (t & p' & E & [o ->] & H' & L' & V); try done. by exists o, p'.
Qed.

Lemma nline_spec p rest : here p [] [] rest -> exists p', nline_ p = Ret (tt, p') /\ at_ p' rest /\ val p' = val p.
Proof.
  intros [H _]. destruct (line_end _ _ H) as (p' & E & H' & V). exists p'. split; [|done]. unfold nline. by rewrite (parse_step _ _ _ _ _ E).
Qed.

(** the next word is the keyword [T] *)
Ltac keyword T H := let p := fresh "p" in let E := fresh "E" in let V := fresh "V" in let H' := fresh "H" in
  destruct (keyword_spec T _ _ _ _ _ _ H ltac:(keyword_spells)) as (p & E & H' & V); rewrite (parse_step _ _ _ _ _ E); cbn [stmt];
  clear E H; rename H' into H.
Lemma some_object n : exists o, malloc n = Some o.
Proof. destruct (Hmalloc n) as (o & E & _). by exists o. Qed.

(** what a line of the statement does *)
Lemma stmt_spec s bs p rest : valid s -> here p bs (words s) rest -> length (oper_userid (val p)) = 9%nat ->
  match effect s (val p) with
  | Ret c => exists p', (t ← next_token; stmt_ t) p = Ret (tt, p') /\ at_ p' rest /\ val p' = c
  | _ => (t ← next_token; stmt_ t) p = Stopped
  end.
Proof.
  intros Hv H H9. destruct s as [n|w| |n t|n fn ft|n fn|fn ft|t|]; cbn [words valid effect] in *; shape H.
  - keyword OPERATOR H. shape H. keyword CONSOLE H. shape H. step (num_spec _ _ _ _ _ _ H Hv) H. shape H. step (nline_spec _ _ H) H.
    rewrite act_ok. values. unfold __oper_con. destruct (0xffff <? value n) eqn:E; [done|]. rewrite u16_value by done. by eexists.
  - keyword OPERATOR H. shape H. keyword USERID H. shape H. step_word (name_spec _ _ _ _ _ _ H Hv) H. shape H. step (nline_spec _ _ H) H.
    rewrite act_ok. values. rewrite oper_userid_spec; [by eexists|exact H9|by eapply letters_only].
  - keyword OPERATOR H. shape H. keyword USERID H. shape H. keyword OPERATOR H. shape H. step (nline_spec _ _ H) H.
    rewrite act_ok. values. unfold literal. rewrite oper_userid_spec; [by eexists|exact H9|by apply (bool_decide_unpack _); vm_compute].
  - destruct Hv as [Hn Ht]. keyword RDEV H. shape H. step (num_spec _ _ _ _ _ _ H Hn) H. shape H. step (num_spec _ _ _ _ _ _ H Ht) H. shape H.
    step (nline_spec _ _ H) H. rewrite act_ok. values. unfold __rdev. destruct (_ || _); [done|by eexists].
  - destruct Hv as (Hn & Hfn & Hft). keyword LOGO H. shape H. keyword LOCAL H. shape H. step (num_spec _ _ _ _ _ _ H Hn) H. shape H.
    step_word (word_spec _ _ _ _ _ _ H Hfn) H. shape H. step_word (name_spec _ _ _ _ _ _ H Hft) H. shape H. step (nline_spec _ _ H) H.
    unfold add_logo. destruct (0xffff <? value n) eqn:E; [done|]. destruct (some_object (mallocs p5)) as [ob ->]. unfold __logo. rewrite E. cbn [negb].
    rewrite !copy_fn_spec by (by eapply letters_only). cbn [mbind outcome_bind]. values. rewrite u16_value by done. by eexists.
  - destruct Hv as (Hn & Hfn). keyword LOGO H. shape H. keyword LOCAL H. shape H. step (num_spec _ _ _ _ _ _ H Hn) H. shape H.
    step_word (word_spec _ _ _ _ _ _ H Hfn) H. shape H. keyword LOGO H. shape H. step (nline_spec _ _ H) H.
    unfold add_logo. destruct (0xffff <? value n) eqn:E; [done|]. destruct (some_object (mallocs p5)) as [ob ->]. unfold __logo, literal. rewrite E. cbn [negb].
    rewrite (copy_fn_spec (zs "LOGO") []) by (by apply (bool_decide_unpack _); vm_compute).
    rewrite copy_fn_spec by (by eapply letters_only). cbn [mbind outcome_bind]. values.
    rewrite u16_value by done. by eexists.
  - destruct Hv as (Hfn & Hft). keyword DIRECTORY H. shape H. step_word (word_spec _ _ _ _ _ _ H Hfn) H. shape H.
    step_word (word_spec _ _ _ _ _ _ H Hft) H. shape H. step (nline_spec _ _ H) H. rewrite act_ok. values.
    unfold __direct. rewrite !copy_fn_spec by (by eapply letters_only). by eexists.
  - destruct H as [H L]. apply layout_tail in L as ((L & _) & Hb & _). destruct bs0; [|done]. unfold laid_out in H. cbn [zip_with concat] in H. rewrite !app_nil_r, <- app_assoc in H.
    destruct (lex_token p _ _ _ _ H (lexes_remark _ _ _ config_rules_ok b t rest Hb Hv)) as (k & p1 & E & -> & H1 & V1); try done.
    rewrite (parse_step _ _ _ _ _ E). cbn [stmt]. destruct (nline_spec p1 rest) as (p2 & E2 & H2 & V2); [by split; [|split]|].
    exists p2. split; [exact E2|]. split; [done|congruence].
  - destruct (line_end p rest (proj1 H)) as (p1 & E & H1 & V). rewrite (parse_step _ _ _ _ _ E). by exists p1.
Qed.

Lemma first_token s bs p rest : valid s -> here p bs (words s) rest -> exists t p', next_token p = Ret (t, p') /\ t <> EOF.
Proof.
  intros Hv H. destruct s as [n|w| |n t|n fn ft|n fn|fn ft|t|]; cbn [words valid] in *; shape H.
  all: try (match type of H with at_ _ (laid_out (_ :: _) (?w :: _) ++ _) /\ _ =>
    match w with zs _ => destruct (line_token _ _ _ _ _ _ (Fixed _) (proj1 H) (proj2 H) ltac:(keyword_spells)) as (t' & p' & E & -> & _); try done; by eexists _, _ end end).
  - destruct H as [H L]. apply layout_tail in L as ((L & _) & Hb & _). destruct bs0; [|done]. unfold laid_out in H. cbn [zip_with concat] in H.
    rewrite !app_nil_r, <- app_assoc in H.
    destruct (lex_token p _ _ _ _ H (lexes_remark _ _ _ config_rules_ok b t rest Hb Hv)) as (k & p1 & E & -> & _); try done. by exists COMMENT, p1.
  - destruct (line_end p rest (proj1 H)) as (p1 & E & _). by exists NLINE, p1.
Qed.

(** a file of statements *)
Definition file_text (ss : list (list (list Z) * statement)) : list Z := concat (map (fun bs => laid_out bs.1 (words bs.2) ++ [10]) ss).

Lemma effect_userid s c c' : effect s c = Ret c' -> length (oper_userid c) = 9%nat -> length (oper_userid c') = 9%nat.
Proof.
  intros E H9. assert (forall w, length (id9 w) = 9%nat) as Hid.
  { intros w. unfold id9. rewrite !length_app, length_take, length_replicate. cbn [length]. lia. }
  destruct s; cbn [effect] in E; repeat case_match; try done; injection E as <-; cbn [oper_userid]; (exact H9 || apply Hid).
Qed.

Lemma stmts_spec ss p fuel : Forall (fun bs => valid bs.2 /\ layout bs.1 (words bs.2)) ss -> at_ p (file_text ss) -> length (oper_userid (val p)) = 9%nat ->
  (length ss < fuel)%nat -> (r ← stmts dev mem_ok f maxfill malloc fuel p; Ret (val r.2)) = effects (map snd ss) (val p).
Proof.
  intros Hv. revert p fuel. induction Hv as [|[bs s] ss [Hs Hl] _ IH]; intros p [|fuel] Hp H9 Hf; try (cbn in Hf; lia).
  - destruct (file_end p Hp) as (p' & E & V). cbn [stmts map effects]. rewrite (parse_step _ _ _ _ _ E). cbn. by rewrite V.
  - unfold file_text in Hp. cbn [map concat fst snd] in Hp. fold (file_text ss) in Hp. rewrite <- app_assoc in Hp. cbn [app] in Hp.
    pose proof (stmt_spec s bs p (file_text ss) Hs (conj Hp Hl) H9) as H. cbn [map snd effects].
    destruct (first_token s bs p (file_text ss) Hs (conj Hp Hl)) as (t & p0 & E0 & Hne).
    rewrite (parse_step _ _ _ _ _ E0) in H. cbn [stmts]. rewrite (parse_step _ _ _ _ _ E0).
    assert (match t with EOF => mret tt | _ => stmt_ t ;; stmts dev mem_ok f maxfill malloc fuel end = (stmt_ t ;; stmts dev mem_ok f maxfill malloc fuel)) as ->
      by by destruct t.
    destruct (effect s (val p)) as [c| |] eqn:Es.
    + destruct H as (p1 & E & H1 & <-). rewrite (parse_step _ _ _ _ _ E).
      apply IH; [done|by apply (effect_userid s (val p))|cbn in Hf; lia].
    + by rewrite (parse_stop _ _ _ H).
    + destruct s; cbn [effect] in Es; repeat case_match; done.
Qed.

(** at least one statement *)
Lemma parse_spec s ss p fuel : Forall (fun bs => valid bs.2 /\ layout bs.1 (words bs.2)) (s :: ss) -> at_ p (file_text (s :: ss)) ->
  length (oper_userid (val p)) = 9%nat -> (length ss < fuel)%nat ->
  (r ← config_parse dev mem_ok f maxfill malloc fuel p; Ret (val r.2)) = effects (map snd (s :: ss)) (val p).
Proof.
  intros Hv Hp H9 Hf. rewrite <- (stmts_spec (s :: ss) p (S fuel) Hv Hp H9) by (cbn; lia). unfold config_parse. cbn [stmts].
  destruct s as [bs s]. apply Forall_inv in Hv as [Hs Hl]. unfold file_text in Hp. cbn [map concat fst snd] in Hp. rewrite <- app_assoc in Hp.
  destruct (first_token s bs p _ Hs (conj Hp Hl)) as (t & p0 & E0 & Hne). rewrite !(parse_step _ _ _ _ _ E0). by destruct t.
Qed.
End config_file.

(** * A file configures what its statements say *)

Definition line (bs : list (list Z) * statement) : list Z := laid_out bs.1 (words bs.2).

(** C18: Parsing SYSTEM CONFIG, a file of records of 80 characters: whatever statements its lines are, however they are
    spaced and wherever the buffer is filled, the parser ends, having done in order what the statements say - or
    having stopped the system at the first number that is too big.  Every object that malloc hands out must be zero in
    its first 81 bytes: the code does not clear them, and strdup (config.l:112) does not copy the terminator, so that
    otherwise a name shorter than 8 characters goes on with what the object held ([unterminated_name]). *)
Theorem config_loaded dev mem_ok f id recs maxfill malloc ss s n c fuel :
  (forall n, mem_ok n = true) -> (1 <= maxfill <= 80)%nat ->
  (forall n, exists o, malloc n = Some o /\ forall i, (i <= 80)%nat -> o !! i = Some 0) ->
  found_file dev mem_ok f id recs CONFIG_FILE_NAME CONFIG_FILE_TYPE s ->
  Forall2 (fun r t => length r = 80%nat /\ line_of r = Ret t) recs (map line ss) ->
  Forall (fun bs => valid bs.2 /\ layout bs.1 (words bs.2)) ss -> ss <> [] -> (length ss <= fuel)%nat ->
  length (oper_userid c) = 9%nat ->
  (r ← config_parse dev mem_ok f maxfill malloc fuel (Parser new_lexer s n c); Ret (val r.2)) = effects (map snd ss) c.
Proof.
  intros Hmem Hfill Hmalloc Hfile Hlines Hv Hne Hf H9. destruct ss as [|s1 ss]; [done|].
  apply (parse_spec dev mem_ok Hmem f id recs _ Hlines maxfill Hfill malloc Hmalloc s1 ss); [done| |done|cbn in Hf; lia].
  right. split_and!; [exact Hfile|done|]. unfold file_text, text. by rewrite map_map.
Qed.

(** ** system.config of the source, on a volume *)

Definition card (t : string) : list Z := map (xlat ascii2ebcdic_table) (take 80 (zs t ++ replicate 80 32)).

Definition ebc8 (t : string) : list Z := map (xlat ascii2ebcdic_table) (zs t).

(** a volume with SYSTEM CONFIG and HVF DIRECT *)
Definition system_dev (config direct : list (list Z)) (lba : Z) : Z + list Z :=
  if lba =? 3 then inr (pad_block sample_ADT)
  else if lba =? 5 then inr (pad_block (sample_FST DIRECTOR_FN DIRECTOR_FT 64 6 1 4 1 ++ sample_FST ALLOCMAP_FN ALLOCMAP_FT 4096 9 1 1 0 ++
         sample_FST (ebc8 "SYSTEM  ") (ebc8 "CONFIG  ") 80 7 1 (lenZ config) 0 ++ sample_FST (ebc8 "HVF     ") (ebc8 "DIRECT  ") 80 8 1 (lenZ direct) 0))
  else if lba =? 6 then inr (pad_block (be_bytes 4 5))
  else if lba =? 7 then inr (pad_block (concat config))
  else if lba =? 8 then inr (pad_block (concat direct))
  else inl (- EINVAL).

Definition sample_config : list (list Z) := map card [
  "* SPECIFY THE FILE WITH THE USER DIRECTORY";
  "DIRECTORY HVF DIRECT";
  "";
  "* DEFINE OPERATOR ENVIRONMENT";
  "OPERATOR CONSOLE 0009";
  "OPERATOR USERID OPERATOR";
  "";
  "* DEFINE REAL DEVICES THAT DON'T SUPPORT SENSE-ID";
  "RDEV 0009 3215";
  "";
  "* DEFINE LOGOS";
  "LOGO LOCAL 3215 HVF LOGO"]%string.

Definition sample_statements : list (list (list Z) * statement) := [
  ([[]], Note (zs " SPECIFY THE FILE WITH THE USER DIRECTORY"));
  ([[]; [32]; [32]], Direct (zs "HVF") (zs "DIRECT"));
  ([], Empty);
  ([[]], Note (zs " DEFINE OPERATOR ENVIRONMENT"));
  ([[]; [32]; [32]], Oper_con (zs "0009"));
  ([[]; [32]; [32]], Oper_operator);
  ([], Empty);
  ([[]], Note (zs " DEFINE REAL DEVICES THAT DON'T SUPPORT SENSE-ID"));
  ([[]; [32]; [32]], Rdev (zs "0009") (zs "3215"));
  ([], Empty);
  ([[]], Note (zs " DEFINE LOGOS"));
  ([[]; [32]; [32]; [32]; [32]], Logo_logo (zs "3215") (zs "HVF"))].

Definition no_config : sysconf := Sysconf 0 (replicate 9 0) [] (replicate 8 0) (replicate 8 0).
Definition system_mounted (d : Z -> Z + list Z) : outcome ((Z + fs) * disk) := edf_mount d (fun _ => true) sample_start.
Definition system_fs : fs := Fs sample_ADT 1.
Definition system_disk (direct : list (list Z)) : disk :=
  match system_mounted (system_dev sample_config direct) with Ret (_, s) => s | _ => sample_start end.

Ltac decided := by apply (bool_decide_unpack _); vm_compute.

(** the statements, and how their lines are laid out *)
Lemma sample_valid : Forall (fun bs => valid bs.2 /\ layout bs.1 (words bs.2)) sample_statements.
Proof. repeat (apply Forall_cons_2; [cbn [fst snd valid words]; split; [try decided; unfold numeral, name; repeat (split; [decided|]); decided|split; [done|split; decided]]|]); apply Forall_nil_2. Qed.

Lemma sample_lines : Forall2 (fun r t => length r = 80%nat /\ line_of r = Ret t) sample_config (map line sample_statements).
Proof. repeat (apply Forall2_cons_2; [split; vm_compute; reflexivity|]); apply Forall2_nil_2. Qed.

Lemma config_found : found_file (system_dev sample_config []) (fun _ => true) system_fs 2 sample_config CONFIG_FILE_NAME CONFIG_FILE_TYPE (system_disk []).
Proof.
  eexists. split; [vm_compute; reflexivity|]. eexists _, _. split.
  - eexists. split; [reflexivity|]. split; [reflexivity|constructor].
  - split_and!; try (vm_compute; (reflexivity || congruence)).
    intros k r Hk. do 12 (destruct k as [|k]; [injection Hk as <-; vm_compute; reflexivity|]). discriminate Hk.
Qed.

Definition zeros16 (n : nat) : option (list Z) := Some (replicate 96 0).

Lemma zeros16_ok n : exists o, zeros16 n = Some o /\ forall i, (i <= 80)%nat -> o !! i = Some 0.
Proof. eexists. split; [done|]. intros i Hi. apply lookup_replicate_2. lia. Qed.

Lemma config_loaded_witness :
  (r ← config_parse (system_dev sample_config []) (fun _ => true) system_fs 10 zeros16 12 (Parser new_lexer (system_disk []) 0 no_config); Ret (val r.2)) =
    Ret (Sysconf 9 (zs "OPERATOR" ++ [0]) [Logo LOGO_CONN_LOCAL 0x3215 (zs "HVF     ") (zs "LOGO    ") []] (zs "HVF     ") (zs "DIRECT  ")).
Proof.
  rewrite (config_loaded (system_dev sample_config []) (fun _ => true) system_fs 2 sample_config 10 zeros16 sample_statements (system_disk []) 0 no_config 12
    (fun _ => eq_refl) ltac:(lia) zeros16_ok config_found sample_lines sample_valid ltac:(done) ltac:(cbn; lia) eq_refl). vm_compute. reflexivity.
Defined.

(** a name of the letters A to F is a number, and the statement an error *)
Example hexadecimal_name : best config_rules (zs "FACADE" ++ [10]) = (6%nat, Some (Some Number)).
Proof. reflexivity. Qed.

(** what is behind a name that is shorter than 8 characters becomes part of it *)
Example unterminated_name : copy_fn (Some (zs "HVF" ++ zs "TRAIL")) = Ret (zs "HVFTRAIL").
Proof. reflexivity. Qed.
