(* ===== verification/Direct.v ===== *)
(** nucleus/direct.l, nucleus/direct.y and nucleus/direct.c: the user directory.

    As in Config.v: Lexer.v's scanner with the rules of direct.l, the grammar of direct.y
    with its actions.  [props] and [vdevs] are lists that grow as their lines are read, so
    the token behind the last line is read before the action of the user runs.  The list
    heads in semantic values are copied as values, and list_splice only follows their two
    pointers: they are lists here, new devices in front.  A user goes into the directory of
    Create.v.  The theorem: a directory file makes the users it describes. *)

From S2P Require Import Prelude Charset CString Edf Diag Guest VirtIo Shell Create Lexer Config.

Local Open Scope Z_scope.

(** * Tokens *)

Inductive token :=
  | WORD (s : option (list Z)) | STORSPEC (n : Z) | NUM (n : Z)
  | USER | MACHINE | STORAGE | CONSOLE | SPOOL | READER | PUNCH | PRINT | MDISK
  | NLINE | COMMENT | EOF.

Inductive kind := Fixed (t : token) | Size | Number | Name.

Definition suffix (c : Z) : bool := (c =? 75) || (c =? 77) || (c =? 71) || (c =? 84) || (c =? 80).

Definition direct_rules : list (pattern * option kind) := [
  (Lit [10], Some (Fixed NLINE));
  (Remark, Some (Fixed COMMENT));
  (Lit (zs "USER"), Some (Fixed USER));
  (Lit (zs "MACHINE"), Some (Fixed MACHINE));
  (Lit (zs "STORAGE"), Some (Fixed STORAGE));
  (Lit (zs "CONSOLE"), Some (Fixed CONSOLE));
  (Lit (zs "SPOOL"), Some (Fixed SPOOL));
  (Lit (zs "READER"), Some (Fixed READER));
  (Lit (zs "PUNCH"), Some (Fixed PUNCH));
  (Lit (zs "PRINT"), Some (Fixed PRINT));
  (Lit (zs "MDISK"), Some (Fixed MDISK));
  (Suffixed digit suffix, Some Size);
  (Run hexa, Some Number);
  (Run letter, Some Name);
  (Run blank, None)].

(** P falls through to T, T to G, and so on *)
Definition scale (c n : Z) : Z :=
  let n := if c =? 80 then u64 (n * 1024) else n in
  let n := if (c =? 80) || (c =? 84) then u64 (n * 1024) else n in
  let n := if (c =? 80) || (c =? 84) || (c =? 71) then u64 (n * 1024) else n in
  let n := if (c =? 80) || (c =? 84) || (c =? 71) || (c =? 77) then u64 (n * 1024) else n in
  if (c =? 80) || (c =? 84) || (c =? 71) || (c =? 77) || (c =? 75) then u64 (n * 1024) else n.

(** the digits are those of a decimal number; [bcd2dec] leaves it alone when they are not *)
Definition storspec (w : list Z) : outcome Z :=
  n ← defined (hex (take (length w - 1) w));
  d ← bcd2dec n;
  c ← defined (last w);
  Ret (scale c (match d with Some d => d | None => n end)).

(** * Actions *)

(** the storage sizes, where there are some *)
Definition merge_props (a b : option Z) : outcome (option Z) :=
  match a, b with
  | Some _, Some _ => Stopped
  | Some n, None | None, Some n => Ret (Some n)
  | None, None => Ret None
  end.

(** up to the NUL *)
Fixpoint __auth_str (s : list Z) (a : Z) : outcome Z :=
  match s with
  | [] => Undef
  | c :: s =>
      if c =? 0 then Ret a else
      if c =? 65 then __auth_str s (Z.lor a AUTH_A) else
      if c =? 66 then __auth_str s (Z.lor a AUTH_B) else
      if c =? 67 then __auth_str s (Z.lor a AUTH_C) else
      if c =? 68 then __auth_str s (Z.lor a AUTH_D) else
      if c =? 69 then __auth_str s (Z.lor a AUTH_E) else
      if c =? 70 then __auth_str s (Z.lor a AUTH_F) else
      if c =? 71 then __auth_str s (Z.lor a AUTH_G) else Ret (-1)
  end.

Definition __auth_int (n : Z) : Z := AUTH_G.

(** the string at a pointer that may be NULL *)
Fixpoint until_nul (s : list Z) : outcome (list Z) :=
  match s with [] => Undef | c :: s => if c =? 0 then Ret [] else l ← until_nul s; Ret (c :: l) end.

Definition string_of (s : option (list Z)) : outcome (option (list Z)) :=
  match s with Some s => l ← until_nul s; Ret (Some l) | None => Ret None end.

Section direct.
Context (bdev_read_block : Z -> Z + list Z) (mem_ok : nat -> bool) (f : fs).   (* the file system *)
Context (maxfill : nat) (direct_fn direct_ft : list Z).
Context (object : nat -> option (list Z)).   (* what an object for a string holds *)
Context (malloc_at : nat -> option Z).       (* the other objects *)

Definition direct_match : parse kernel (option (kind * list Z)) :=
  next_match bdev_read_block mem_ok f maxfill direct_rules direct_fn direct_ft.

Definition direct_lex : parse kernel token :=
  r ← direct_match;
  match r with
  | None => mret EOF
  | Some (Fixed t, _) => mret t
  | Some (Size, w) => n ← computes (storspec w); mret (STORSPEC n)
  | Some (Number, w) => n ← computes (defined (hex w)); mret (NUM n)
  | Some (Name, w) => s ← new_word object w; mret (WORD s)
  end.

Definition nline : parse kernel unit := t ← direct_lex; match t with NLINE => mret tt | _ => syntax_error end.
Definition num : parse kernel Z := t ← direct_lex; match t with NUM n => mret n | _ => syntax_error end.
Definition word : parse kernel (option (list Z)) := t ← direct_lex; match t with WORD s => mret s | _ => syntax_error end.

(** a call on the kernel that is asserted to succeed *)
Definition asserted {A} (m : kern A) : parse kernel A := fun p =>
  '(r, h) ← m (val p);
  match r with inr a => Ret (a, Parser (p_lex p) (p_disk p) (mallocs p) h) | inl _ => Stopped end.

Definition __alloc_spool_vdev (type : directory_vdevtype) (devnum typenum : Z) : parse kernel directory_vdev :=
  if (0xffff <? devnum) || (0xffff <? typenum) then syntax_error else
  asserted (malloc malloc_at) ;;
  match type with
  | VDEV_CONS => mret (DirectoryVdev type (u16 devnum) DirOther)
  | VDEV_SPOOL => mret (DirectoryVdev type (u16 devnum) (DirSpool (u16 typenum) 0))
  | _ => syntax_error
  end.

(** [typenum] is checked, and not used *)
Definition __alloc_mdisk_vdev (devnum typenum start len rdev : Z) : parse kernel directory_vdev :=
  if (0xffff <? devnum) || (0xffff <? typenum) || (0xffff <? start) || (0xffff <? len) || (0xffff <? rdev) then syntax_error else
  asserted (malloc malloc_at) ;;
  mret (DirectoryVdev VDEV_MDISK (u16 devnum) (DirMdisk (u16 start) (u16 len) (u16 rdev))).

(** * The grammar *)

(** a line that starts with [t] *)
Definition prop (t : token) : parse kernel (option Z) :=
  match t with
  | MACHINE => word ;; num ;; nline ;; mret None
  | STORAGE =>
      t ← direct_lex;
      match t with
      | STORSPEC n => nline ;; mret (Some n)
      | NUM n =>
          nline ;;
          d ← computes (bcd2dec n);
          match d with Some d => mret (Some d) | None => syntax_error end
      | _ => syntax_error
      end
  | _ => syntax_error
  end.

Definition starts_prop (t : token) : bool := match t with MACHINE | STORAGE => true | _ => false end.

(** the properties, and the token behind them *)
Fixpoint more_props (fuel : nat) (a : option Z) : parse kernel (option Z * token) :=
  match fuel with
  | O => fun _ => Undef
  | S fuel =>
      t ← direct_lex;
      if starts_prop t then b ← prop t; a ← computes (merge_props a b); more_props fuel a else mret (a, t)
  end.

Definition props (fuel : nat) : parse kernel (option Z * token) := t ← direct_lex; a ← prop t; more_props fuel a.

Definition vdev (t : token) : parse kernel directory_vdev :=
  match t with
  | CONSOLE => a ← num; b ← num; nline ;; __alloc_spool_vdev VDEV_CONS a b
  | SPOOL =>
      a ← num; b ← num; t ← direct_lex;
      match t with
      | READER | PUNCH | PRINT => nline ;; __alloc_spool_vdev VDEV_SPOOL a b
      | _ => syntax_error
      end
  | MDISK => a ← num; b ← num; c ← num; d ← num; e ← num; nline ;; __alloc_mdisk_vdev a b c d e
  | _ => syntax_error
  end.

Definition starts_vdev (t : token) : bool := match t with CONSOLE | SPOOL | MDISK => true | _ => false end.

(** new ones in front *)
Fixpoint more_vdevs (fuel : nat) (l : list directory_vdev) : parse kernel (list directory_vdev * token) :=
  match fuel with
  | O => fun _ => Undef
  | S fuel => t ← direct_lex; if starts_vdev t then v ← vdev t; more_vdevs fuel (v :: l) else mret (l, t)
  end.

Definition vdevs (fuel : nat) (t : token) : parse kernel (list directory_vdev * token) := v ← vdev t; more_vdevs fuel [v].

(** behind USER; the token behind the user is an empty line or the end *)
Definition user_ (fuel : nat) : parse kernel token :=
  n ← word;
  t ← direct_lex;
  match t with
  | WORD _ | NUM _ =>
      nline ;;
      '(size, t1) ← props fuel;
      '(l, t2) ← vdevs fuel t1;
      match t2 with
      | NLINE | EOF =>
          auth ← computes (match t with WORD s => s ← defined s; __auth_str s 0 | NUM v => Ret (__auth_int v) | _ => Stopped end);
          n ← computes (string_of n);
          asserted (directory_alloc_user malloc_at n (u8 auth) size l) ;;
          mret t2
      | _ => syntax_error
      end
  | _ => syntax_error
  end.

(** [t] is the token behind the users so far *)
Fixpoint more_users (fuel : nat) (t : token) : parse kernel unit :=
  match fuel with
  | O => fun _ => Undef
  | S fuel =>
      match t with
      | EOF => mret tt
      | NLINE =>
          t ← direct_lex;
          match t with USER => t ← user_ fuel; more_users fuel t | _ => syntax_error end
      | _ => syntax_error
      end
  end.

Definition direct_parse (fuel : nat) : parse kernel unit :=
  t ← direct_lex;
  match t with
  | USER => t ← user_ fuel; more_users fuel t
  | NLINE => t ← direct_lex; more_users fuel t
  | _ => syntax_error
  end.

(** an error of the parser never comes back: the result of the load is 0 *)
Definition load_directory (fuel : nat) (s : disk) (n : nat) (h : kernel) : outcome (Z * kernel * disk) :=
  '(_, p) ← direct_parse fuel (Parser new_lexer s n h); Ret (0, val p, p_disk p).
End direct.

(** * Directory files *)

Inductive dir_class := Letters (w : list Z) | Digits (w : list Z).
Inductive dir_prop := Machine (w n : list Z) | Storage_spec (d : list Z) (c : Z) | Storage_num (d : list Z).
Inductive reader := Reader | Punch | Print.
Inductive dir_dev := Console (a b : list Z) | Spool (a b : list Z) (r : reader) | Mdisk (a b c d e : list Z).

(** a line and what is before its words *)
Definition lined (A : Type) : Type := list (list Z) * A.

Record dir_user := DirUser {
  du_blanks : list (list Z);
  du_name : list Z;
  du_class : dir_class;
  du_prop : lined dir_prop;
  du_props : list (lined dir_prop);
  du_dev : lined dir_dev;
  du_devs : list (lined dir_dev);
}.

Definition class_word (c : dir_class) : list Z := match c with Letters w | Digits w => w end.
Definition user_words (u : dir_user) : list (list Z) := [zs "USER"; du_name u; class_word (du_class u)].
Definition prop_words (p : dir_prop) : list (list Z) :=
  match p with
  | Machine w n => [zs "MACHINE"; w; n]
  | Storage_spec d c => [zs "STORAGE"; d ++ [c]]
  | Storage_num d => [zs "STORAGE"; d]
  end.
Definition reader_word (r : reader) : list Z := match r with Reader => zs "READER" | Punch => zs "PUNCH" | Print => zs "PRINT" end.
Definition dev_words (v : dir_dev) : list (list Z) :=
  match v with
  | Console a b => [zs "CONSOLE"; a; b]
  | Spool a b r => [zs "SPOOL"; a; b; reader_word r]
  | Mdisk a b c d e => [zs "MDISK"; a; b; c; d; e]
  end.

Definition dir_keywords : list (list Z) :=
  map zs ["USER"; "MACHINE"; "STORAGE"; "CONSOLE"; "SPOOL"; "READER"; "PUNCH"; "PRINT"; "MDISK"]%string.

(** decimal, and as many digits as 64 bits hold of a hexadecimal number *)
Definition decimal_word (d : list Z) : Prop := d <> [] /\ Forall (fun c => digit c = true) d /\ lenZ d <= 16.

Definition is_class (c : Z) : bool := (65 <=? c) && (c <=? 71).
Definition valid_class (c : dir_class) : Prop :=
  match c with Letters w => name dir_keywords w /\ Forall (fun c => is_class c = true) w | Digits w => numeral w end.
Definition valid_prop (p : dir_prop) : Prop :=
  match p with
  | Machine w n => name dir_keywords w /\ numeral n
  | Storage_spec d c => decimal_word d /\ suffix c = true
  | Storage_num d => decimal_word d
  end.
Definition valid_dev (v : dir_dev) : Prop :=
  match v with
  | Console a b | Spool a b _ => numeral a /\ numeral b
  | Mdisk a b c d e => numeral a /\ numeral b /\ numeral c /\ numeral d /\ numeral e
  end.

Definition good_line {A} (valid : A -> Prop) (words : A -> list (list Z)) (l : lined A) : Prop := valid l.2 /\ layout l.1 (words l.2).

Definition valid_user (u : dir_user) : Prop :=
  name dir_keywords (du_name u) /\ valid_class (du_class u) /\ layout (du_blanks u) (user_words u) /\
  Forall (good_line valid_prop prop_words) (du_prop u :: du_props u) /\ Forall (good_line valid_dev dev_words) (du_dev u :: du_devs u).

(** ** What they say *)

Definition unit_size (c : Z) : Z :=
  if c =? 75 then 2 ^ 10 else if c =? 77 then 2 ^ 20 else if c =? 71 then 2 ^ 30 else if c =? 84 then 2 ^ 40 else 2 ^ 50.

Definition prop_size (p : dir_prop) : option Z :=
  match p with
  | Machine _ _ => None
  | Storage_spec d c => Some (u64 (in_base 10 d * unit_size c))
  | Storage_num d => Some (in_base 10 d)
  end.

(** one size is wanted *)
Definition sizes (ps : list dir_prop) : list Z := omap prop_size ps.

(** class A is bit 0 of the authorization, G is bit 6; letters that could be a hexadecimal number are one, and count as class G
    ([hexadecimal_class]) *)
Definition class_bit (c : Z) : Z := 2 ^ (72 - c).
Definition auth_of (c : dir_class) : Z :=
  match c with
  | Letters w => fold_left (fun a c => Z.lor a (class_bit c)) w 0
  | Digits _ => AUTH_G
  end.

Definition small (w : list Z) : bool := value w <=? 0xffff.

Definition dev_of (v : dir_dev) : outcome directory_vdev :=
  match v with
  | Console a b => if small a && small b then Ret (DirectoryVdev VDEV_CONS (value a) DirOther) else Stopped
  | Spool a b _ => if small a && small b then Ret (DirectoryVdev VDEV_SPOOL (value a) (DirSpool (value b) 0)) else Stopped
  | Mdisk a b c d e =>
      if small a && small b && small c && small d && small e
      then Ret (DirectoryVdev VDEV_MDISK (value a) (DirMdisk (value c) (value d) (value e))) else Stopped
  end.

Fixpoint devs_of (vs : list dir_dev) : outcome (list directory_vdev) :=
  match vs with [] => Ret [] | v :: vs => d ← dev_of v; ds ← devs_of vs; Ret (ds ++ [d]) end.

Definition user_of (u : dir_user) : outcome user :=
  match sizes (map snd (du_prop u :: du_props u)) with
  | [n] => ds ← devs_of (map snd (du_dev u :: du_devs u)); Ret (User (du_name u) n ds (auth_of (du_class u)))
  | _ => Stopped
  end.

Fixpoint users_of (us : list dir_user) : outcome (list user) :=
  match us with [] => Ret [] | u :: us => x ← user_of u; l ← users_of us; Ret (x :: l) end.

(** ** As a text *)

Definition text_line {A} (words : A -> list (list Z)) (l : lined A) : list Z := laid_out l.1 (words l.2).
Definition user_lines (u : dir_user) : list (list Z) :=
  laid_out (du_blanks u) (user_words u) :: map (text_line prop_words) (du_prop u :: du_props u) ++ map (text_line dev_words) (du_dev u :: du_devs u).

(** an empty line between users *)
Fixpoint users_lines (us : list dir_user) : list (list Z) :=
  match us with [] => [] | [u] => user_lines u | u :: us => user_lines u ++ [] :: users_lines us end.

(** ** Tokens of the rules *)

Lemma suffix_cases c : suffix c = true -> c = 75 \/ c = 77 \/ c = 71 \/ c = 84 \/ c = 80.
Proof. unfold suffix. lia. Qed.

Lemma direct_rules_ok : rules_ok direct_rules (Fixed NLINE) (Fixed COMMENT).
Proof.
  split.
  - repeat (apply Forall_cons_2; [cbn [good]; rule_good|]). apply Forall_nil_2.
  - repeat (apply Forall_cons_2; [cbn [wordy fst]; try rule_wordy|]); [| | | |apply Forall_nil_2].
    + intros c [H|H]; unfold blank, suffix, digit in *; lia.
    + left. intros c [H|H]; unfold blank, hexa, digit in *; lia.
    + left. intros c [H|H]; unfold blank, letter in *; lia.
    + right. intros c. unfold alnum, blank, digit, letter. lia.
  - intros c H. assert (c = 32 \/ c = 9) as [-> | ->] by (unfold blank in H; lia); reflexivity.
  - reflexivity.
  - reflexivity.
Qed.

Lemma whole_dir_rules w pre post : direct_rules = pre ++ post -> (length pre <= 11)%nat -> w <> [] -> Forall (fun c => alnum c = true) w ->
  w ∉ dir_keywords -> Forall (fun q => match_len q (w ++ [10]) <> length w) (map fst pre).
Proof.
  intros E Hpre Hw Ha Hk. assert (pre = take (length pre) (take 11 direct_rules)) as Ep.
  { rewrite take_take, Nat.min_l, E by done. by rewrite take_app_length. }
  rewrite Ep, <- firstn_map. apply Forall_take. cbn [map fst direct_rules take firstn].
  apply Forall_cons_2; [apply lit_whole; [done|done|by left|intros <-]|apply Forall_cons_2].
  - apply Forall_inv in Ha. done.
  - destruct w as [|c w]; [done|]. apply Forall_inv in Ha. cbn [app match_len]. by destruct (Z.eqb_spec c 42) as [->|].
  - repeat (apply Forall_cons_2; [apply lit_whole; [done|done|right; by apply (bool_decide_unpack _); vm_compute|
      intros <-; apply Hk; by apply (bool_decide_unpack _); vm_compute]|]). apply Forall_nil_2.
Qed.

(** a keyword has a letter behind F *)
Lemma not_keyword (p : Z -> bool) w : Forall (fun k => existsb (fun c => negb (p c)) k = true) dir_keywords -> Forall (fun c => p c = true) w -> w ∉ dir_keywords.
Proof.
  intros Hkw Hp Hk. rewrite Forall_forall in Hkw. apply Hkw in Hk. apply existsb_exists in Hk as (c & Hc & Hn). apply list_elem_of_In in Hc.
  rewrite Forall_forall in Hp. rewrite Hp in Hn; done.
Qed.

(** a run of digits with a suffix *)
Lemma suffixed_all (p q : Z -> bool) w : p 10 = false -> q 10 = false -> (match_len (Suffixed p q) (w ++ [10%Z]) = length w) -> w <> [] ->
  exists d c, w = d ++ [c] /\ Forall (fun c => p c = true) d /\ q c = true.
Proof.
  intros Hp Hq H Hw. cbn [match_len] in H. rewrite run_stop in H by done. pose proof (run_le p w) as Hle.
  destruct (run p w) as [|n] eqn:E; [by destruct w|]. destruct (decide (S n < length w)%nat) as [Hlt|].
  - destruct (lookup_lt_is_Some_2 w (S n) Hlt) as [c Hc]. rewrite lookup_app_l, Hc in H by done. destruct (q c) eqn:Eq; [|lia].
    exists (take (S n) w), c. split_and!; [by rewrite <- take_S_r, take_ge by (done || lia)| |done].
    clear -E. revert n E. induction w as [|x w IH]; intros n E; [done|]. cbn [run] in E. destruct (p x) eqn:Ex; [|done]. injection E as E.
    cbn [take firstn]. apply Forall_cons_2; [done|]. destruct n as [|n]; [apply Forall_nil_2|by apply IH].
  - rewrite lookup_app_r in H by lia. replace (S n - length w)%nat with 0%nat in H by lia. cbn in H. rewrite Hq in H. lia.
Qed.

Lemma numeral_spells_ w : numeral w -> spells direct_rules w Number.
Proof.
  intros [Hw Hh]. assert (Forall (fun c => alnum c = true) w) as Ha by (eapply Forall_impl; [exact Hh|exact hexa_alnum]).
  apply (spells_rule (take 12 direct_rules) (drop 13 direct_rules) (Run hexa) Number w); [apply direct_rules_ok|done|done| |].
  - by apply run_all.
  - change (take 12 direct_rules) with (take 11 direct_rules ++ [(Suffixed digit suffix, Some Size)]). rewrite map_app, Forall_app. split.
    + apply (whole_dir_rules w _ (drop 11 direct_rules)); [done|done|done|done|]. apply (not_keyword hexa); [repeat constructor|done].
    + apply Forall_cons_2; [|apply Forall_nil_2]. intros E. apply suffixed_all in E as (d & c & -> & _ & Hc); [|done..].
      apply Forall_app in Hh as [_ Hh]. apply Forall_inv in Hh. cbn beta in Hh. by destruct (suffix_cases c Hc) as [-> | [-> | [-> | [-> | ->]]]].
Qed.

Lemma name_spells_ w : name dir_keywords w -> spells direct_rules w Name.
Proof.
  intros (Hw & _ & Hl & Hx & Hk). assert (Forall (fun c => alnum c = true) w) as Ha.
  { eapply Forall_impl; [exact Hl|]. intros c Hc. unfold alnum. by rewrite Hc, orb_true_r. }
  apply (spells_rule (take 13 direct_rules) (drop 14 direct_rules) (Run letter) Name w); [apply direct_rules_ok|done|done| |].
  - by apply run_all.
  - change (take 13 direct_rules) with (take 11 direct_rules ++ [(Suffixed digit suffix, Some Size); (Run hexa, Some Number)]).
    rewrite map_app, Forall_app. split; [by apply (whole_dir_rules w _ (drop 11 direct_rules))|]. apply Forall_cons_2; [|apply Forall_cons_2; [|apply Forall_nil_2]].
    + cbn [fst match_len]. rewrite run_stop by done. destruct w as [|c w]; [done|]. apply Forall_inv in Hl. cbn beta in Hl. cbn [run].
      assert (digit c = false) as -> by (unfold letter in Hl; unfold digit; lia). done.
    + intros E. apply Hx. by apply run_all.
Qed.

Lemma size_spells d c : d <> [] -> Forall (fun c => digit c = true) d -> suffix c = true -> spells direct_rules (d ++ [c]) Size.
Proof.
  intros Hd Hdig Hc.
  assert (Forall (fun c => alnum c = true) (d ++ [c])) as Ha.
  { apply Forall_app. split; [eapply Forall_impl; [exact Hdig|]; intros x Hx; unfold alnum; by rewrite Hx|].
    apply Forall_cons_2; [|apply Forall_nil_2]. by destruct (suffix_cases c Hc) as [-> | [-> | [-> | [-> | ->]]]]. }
  apply (spells_rule (take 11 direct_rules) (drop 12 direct_rules) (Suffixed digit suffix) Size); [apply direct_rules_ok|by destruct d|done| |].
  - cbn [match_len]. rewrite run_stop, run_app by done. cbn [run]. assert (digit c = false) as ->.
    { destruct (suffix_cases c Hc) as [-> | [-> | [-> | [-> | ->]]]]; done. }
    rewrite Nat.add_0_r, <- app_assoc. destruct d as [|x d]; [done|]. cbn [length]. rewrite lookup_app_r by done. rewrite Nat.sub_diag. cbn [app lookup list_lookup].
    rewrite Hc. cbn [length app]. rewrite length_app. cbn [length]. lia.
  - apply (whole_dir_rules _ _ (drop 11 direct_rules)); [done|done|by destruct d|done|]. intros Hk.
    assert (Forall (fun k => match k with x :: _ => digit x = false | [] => False end) dir_keywords) as Hkw by (repeat constructor).
    rewrite Forall_forall in Hkw. apply Hkw in Hk. destruct d as [|x d]; [done|]. apply Forall_inv in Hdig. cbn in *. congruence.
Qed.

(** ** Values *)

Lemma digit_decimal d : Forall (fun c => digit c = true) d -> Forall Diag.decimal d.
Proof. intros H. eapply Forall_impl; [exact H|]. unfold digit, Diag.decimal. lia. Qed.

Lemma unit_scale c n : suffix c = true -> scale c n = u64 (n * unit_size c).
Proof.
  intros Hc. assert (forall a b, u64 (u64 a * b) = u64 (a * b)) as Hm by (intros a b; unfold wrap; by rewrite Zmult_mod_idemp_l).
  destruct (suffix_cases c Hc) as [-> | [-> | [-> | [-> | ->]]]]; unfold scale, unit_size; cbn [Z.eqb Pos.eqb Datatypes.orb]; repeat first [rewrite Hm | rewrite <- Z.mul_assoc]; reflexivity.
Qed.

Lemma storspec_spec d c : decimal_word d -> suffix c = true -> storspec (d ++ [c]) = Ret (u64 (in_base 10 d * unit_size c)).
Proof.
  intros (Hd & Hdig & Hl) Hc. unfold storspec. rewrite length_app. cbn [length]. replace (length d + 1 - 1)%nat with (length d) by lia.
  rewrite take_app_length. destruct (decimal_read d Hd (digit_decimal d Hdig) Hl) as (v & -> & Hv). cbn [defined mbind outcome_bind].
  rewrite Hv. cbn [mbind outcome_bind]. rewrite last_snoc. cbn [defined mbind outcome_bind]. by rewrite unit_scale.
Qed.

Lemma class_bits s a o : forallb is_class s = true -> __auth_str (s ++ 0 :: o) a = Ret (fold_left (fun a c => Z.lor a (class_bit c)) s a).
Proof.
  revert a. induction s as [|c s IH]; intros a H; [done|]. cbn [forallb] in H. apply andb_prop in H as [Hc H].
  assert (c = 65 \/ c = 66 \/ c = 67 \/ c = 68 \/ c = 69 \/ c = 70 \/ c = 71) as Hcase by (unfold is_class in Hc; lia).
  destruct Hcase as [-> | [-> | [-> | [-> | [-> | [-> | ->]]]]]]; cbn [app __auth_str Z.eqb Pos.eqb fold_left]; rewrite IH by done; done.
Qed.

Lemma no_class s a o : forallb is_class s = false -> 0 ∉ s -> __auth_str (s ++ 0 :: o) a = Ret (-1).
Proof.
  revert a. induction s as [|c s IH]; intros a H H0; [done|]. apply not_elem_of_cons in H0 as [Hc0 H0]. cbn [forallb] in H. cbn [app __auth_str].
  rewrite (proj2 (Z.eqb_neq c 0)) by lia. destruct (is_class c) eqn:Hc.
  - change (forallb is_class s = false) in H. unfold is_class in Hc.
    repeat match goal with |- context [c =? ?k] => destruct (Z.eqb_spec c k); [by apply IH|] end. done.
  - unfold is_class in Hc. repeat (rewrite (proj2 (Z.eqb_neq c _)) by lia). done.
Qed.

Lemma lor_bound a b n : 0 <= n -> 0 <= a < 2 ^ n -> 0 <= b < 2 ^ n -> 0 <= Z.lor a b < 2 ^ n.
Proof.
  intros Hn Ha Hb. split; [apply Z.lor_nonneg; lia|]. rewrite <- (Z.mod_small a (2 ^ n)), <- (Z.mod_small b (2 ^ n)), <- !Z.land_ones by lia.
  rewrite <- Z.land_lor_distr_l, Z.land_ones by done. apply Z.mod_pos_bound. lia.
Qed.

Lemma class_mask w a : 0 <= a < 256 -> forallb is_class w = true -> 0 <= fold_left (fun a c => Z.lor a (class_bit c)) w a < 256.
Proof.
  revert a. induction w as [|c w IH]; intros a Ha H; [done|]. cbn [forallb] in H. apply andb_prop in H as [Hc H]. cbn [fold_left]. apply IH; [|done].
  assert (0 <= class_bit c < 2 ^ 8) as Hb.
  { unfold class_bit, is_class in *. split; [apply Z.pow_nonneg; lia|apply Z.pow_lt_mono_r; lia]. }
  change 256 with (2 ^ 8) in *. by apply (lor_bound _ _ 8).
Qed.

(** the authorization of the class letters *)
Lemma auth_str_spec w o : 0 ∉ w -> Forall (fun c => is_class c = true) w -> exists a, __auth_str (w ++ 0 :: o) 0 = Ret a /\ u8 a = auth_of (Letters w).
Proof.
  intros H0 Hw. cbn [auth_of]. assert (forallb is_class w = true) as E by (apply forallb_forall; intros c Hc%list_elem_of_In; by rewrite Forall_forall in Hw; apply Hw).
  eexists. rewrite class_bits by done. split; [done|]. apply wrap_small. apply class_mask; [lia|done].
Qed.

Lemma until_nul_spec w o : 0 ∉ w -> until_nul (w ++ 0 :: o) = Ret w.
Proof.
  induction w as [|c w IH]; intros H; [done|]. apply not_elem_of_cons in H as [Hc H]. cbn [app until_nul].
  rewrite (proj2 (Z.eqb_neq c 0)) by lia. by rewrite IH.
Qed.

(** ** Tokens of a line *)

Section directory_file.
Context (dev : Z -> Z + list Z) (mem_ok : nat -> bool) (Hmem : forall n, mem_ok n = true) (f : fs) (id : Z).
Context (recs lines : list (list Z)) (Hlines : Forall2 (fun r t => length r = 80%nat /\ line_of r = Ret t) recs lines).
Context (maxfill : nat) (Hfill : (1 <= maxfill <= 80)%nat) (fn ft : list Z).
Context (object : nat -> option (list Z)) (Hobject : forall n, exists o, object n = Some o /\ forall i, (i <= 80)%nat -> o !! i = Some 0).
Context (malloc_at : nat -> option Z) (Hmalloc : forall n, is_Some (malloc_at n)).

#[local] Abbreviation at_ := (Lexer.at_ dev mem_ok f id recs lines fn ft).
#[local] Abbreviation next_token := (direct_lex dev mem_ok f maxfill fn ft object).
#[local] Abbreviation here p bs ws rest := (at_ p (laid_out bs ws ++ 10 :: rest) /\ layout bs ws).
#[local] Abbreviation nline_ := (nline dev mem_ok f maxfill fn ft object).
#[local] Abbreviation num_ := (num dev mem_ok f maxfill fn ft object).
#[local] Abbreviation word_ := (word dev mem_ok f maxfill fn ft object).

Definition fits (k : kind) (w : list Z) : Prop :=
  match k with
  | Fixed _ => True
  | Size => exists d c, w = d ++ [c] /\ decimal_word d /\ suffix c = true
  | Number => numeral w
  | Name => name dir_keywords w
  end.

Definition token_is (k : kind) (w : list Z) (t : token) : Prop :=
  match k with
  | Fixed t' => t = t'
  | Size => forall d c, w = d ++ [c] -> t = STORSPEC (u64 (in_base 10 d * unit_size c))
  | Number => t = NUM (value w)
  | Name => exists o, t = WORD (Some (w ++ 0 :: o))
  end.

Lemma dir_token p txt k w rest : at_ p txt -> lexes direct_rules txt k w rest -> fits k w ->
  exists t p', next_token p = Ret (t, p') /\ token_is k w t /\ at_ p' rest /\ val p' = val p.
Proof.
  intros Hp Hlex Hw. unfold direct_lex, direct_match.
  destruct (match_lexes dev mem_ok Hmem f id recs lines Hlines maxfill Hfill _ _ _ _ _ direct_rules_ok p txt k w rest Hp Hlex) as (p1 & E & H1 & V1).
  rewrite (parse_step _ _ _ _ _ E). destruct k as [t| | |]; cbn [token_is fits] in *.
  - by exists t, p1.
  - destruct Hw as (d & c & -> & Hd & Hc). rewrite (storspec_spec d c Hd Hc). eexists _, p1. split_and!; [done| |done|done].
    intros d' c' Heq. by apply app_inj_tail in Heq as [-> ->].
  - rewrite (numeral_hex w) by done. by exists (NUM (value w)), p1.
  - destruct (new_word_spec object Hobject p1 dir_keywords w Hw) as (o & p2 & E2 & El & Ed & V2). rewrite (parse_step _ _ _ _ _ E2).
    eexists _, p2. split_and!; [done|by exists o| |congruence]. unfold Lexer.at_ in *. by rewrite El, Ed.
Qed.

Lemma dir_line_token k p b bs w ws rest : here p (b :: bs) (w :: ws) rest -> spells direct_rules w k -> fits k w ->
  exists t p', next_token p = Ret (t, p') /\ token_is k w t /\ here p' bs ws rest /\ val p' = val p.
Proof.
  intros [Hp Hl] Hs Hw.
  destruct (dir_token p _ k w _ Hp (line_lexes _ _ _ b bs w ws k rest direct_rules_ok Hl Hs) Hw) as (t & p' & E & Ht & Hp' & Hv).
  apply layout_tail in Hl as [Hl _]. by exists t, p'.
Qed.

Lemma dir_keyword T p b bs w ws rest : here p (b :: bs) (w :: ws) rest -> spells direct_rules w (Fixed T) ->
  exists p', next_token p = Ret (T, p') /\ here p' bs ws rest /\ val p' = val p.
Proof. intros H Hs. destruct (dir_line_token _ _ _ _ _ _ _ H Hs I) as (t & p' & E & -> & H' & V). by exists p'. Qed.

Lemma dir_num p b bs w ws rest : here p (b :: bs) (w :: ws) rest -> numeral w ->
  exists p', num_ p = Ret (value w, p') /\ here p' bs ws rest /\ val p' = val p.
Proof.
  intros H Hw. destruct (dir_line_token _ _ _ _ _ _ _ H (numeral_spells_ w Hw) Hw) as (t & p' & E & -> & H' & V).
  exists p'. split; [|done]. unfold num. by rewrite (parse_step _ _ _ _ _ E).
Qed.

Lemma dir_word p b bs w ws rest : here p (b :: bs) (w :: ws) rest -> name dir_keywords w ->
  exists o p', word_ p = Ret (Some (w ++ 0 :: o), p') /\ here p' bs ws rest /\ val p' = val p.
Proof.
  intros H Hw. destruct (dir_line_token _ _ _ _ _ _ _ H (name_spells_ w Hw) Hw) as (t & p' & E & [o ->] & H' & V).
  exists o, p'. split; [|done]. unfold word. by rewrite (parse_step _ _ _ _ _ E).
Qed.

Lemma empty_line p rest : at_ p (10 :: rest) -> exists p', next_token p = Ret (NLINE, p') /\ at_ p' rest /\ val p' = val p.
Proof.
  intros Hp. destruct (dir_token p (10 :: rest) (Fixed NLINE) [10] rest) as (t & p' & E & -> & H); try done; [|by exists p'].
  apply (lexes_nl _ _ _ direct_rules_ok []). done.
Qed.

Lemma dir_nline p rest : here p [] [] rest -> exists p', nline_ p = Ret (tt, p') /\ at_ p' rest /\ val p' = val p.
Proof.
  intros [H _]. destruct (empty_line _ _ H) as (p' & E & H' & V). exists p'. split; [|done]. unfold nline. by rewrite (parse_step _ _ _ _ _ E).
Qed.

Lemma dir_end p : at_ p [] -> exists p', next_token p = Ret (EOF, p') /\ val p' = val p.
Proof.
  intros Hp. destruct (match_end dev mem_ok Hmem f id recs lines Hlines maxfill Hfill _ _ _ _ _ direct_rules_ok p Hp) as (p' & E & V).
  exists p'. split; [|done]. unfold direct_lex, direct_match. by rewrite (parse_step _ _ _ _ _ E).
Qed.

(** the next word is the keyword [T] *)
Ltac keyword T H := let p := fresh "p" in let E := fresh "E" in let V := fresh "V" in let H' := fresh "H" in
  destruct (dir_keyword T _ _ _ _ _ _ H ltac:(keyword_spells)) as (p & E & H' & V); rewrite (parse_step _ _ _ _ _ E); clear E H; rename H' into H.

(** the first word of a line, which the caller reads *)
Ltac first_word T H := let p := fresh "p" in let E := fresh "E" in let V := fresh "V" in let H' := fresh "H" in
  destruct (dir_keyword T _ _ _ _ _ _ H ltac:(keyword_spells)) as (p & E & H' & V); clear H; rename H' into H; exists T, p; split; [exact E|]; clear E.

(** ** Properties *)

Lemma prop_spec q bs p rest : valid_prop q -> here p bs (prop_words q) rest ->
  exists t p0, next_token p = Ret (t, p0) /\ starts_prop t = true /\
    exists p', prop dev mem_ok f maxfill fn ft object t p0 = Ret (prop_size q, p') /\ at_ p' rest /\ val p' = val p.
Proof.
  intros Hv H. destruct q as [w n|d c|d]; cbn [prop_words valid_prop prop_size] in *; shape H.
  - destruct Hv as [Hw Hn]. first_word MACHINE H. split; [done|]. cbn [prop]. shape H. step_word (dir_word _ _ _ _ _ _ H Hw) H. shape H.
    step (dir_num _ _ _ _ _ _ H Hn) H. shape H. step (dir_nline _ _ H) H. eexists. split; [done|]. split; [exact H|]. values. done.
  - destruct Hv as [Hd Hc]. first_word STORAGE H. split; [done|]. cbn [prop]. shape H.
    destruct (dir_line_token Size _ _ _ _ _ _ H) as (t & p1 & E & Ht & H1 & V1); [by apply size_spells; [apply Hd|apply Hd|]|by exists d, c|].
    cbn [token_is] in Ht. specialize (Ht d c eq_refl) as ->. rewrite (parse_step _ _ _ _ _ E). shape H1. step (dir_nline _ _ H1) H1.
    eexists. split; [done|]. split; [exact H1|]. values. done.
  - first_word STORAGE H. split; [done|]. cbn [prop]. shape H. destruct Hv as (Hd & Hdig & Hl).
    assert (numeral d) as Hn by (split; [done|eapply Forall_impl; [exact Hdig|]; intros c Hc; unfold hexa; by rewrite Hc]).
    destruct (dir_line_token Number _ _ _ _ _ _ H (numeral_spells_ d Hn) Hn) as (t & p1 & E & -> & H1 & V1).
    rewrite (parse_step _ _ _ _ _ E). shape H1. step (dir_nline _ _ H1) H1.
    destruct (decimal_read d Hd (digit_decimal d Hdig) Hl) as (v & Ev & Hbcd). rewrite (numeral_hex d Hn) in Ev. injection Ev as ->.
    unfold computes. unfold mbind at 1, parse_bind. rewrite Hbcd. cbn [mbind outcome_bind].
    eexists. split; [done|]. split; [exact H1|]. values. done.
Qed.

Fixpoint merge_all (a : option Z) (l : list (option Z)) : outcome (option Z) :=
  match l with [] => Ret a | b :: l => a ← merge_props a b; merge_all a l end.

Lemma merge_sizes l a : merge_all a l =
  match match a with Some n => [n] | None => [] end ++ omap (fun x => x) l with [] => Ret None | [n] => Ret (Some n) | _ => Stopped end.
Proof.
  revert a. induction l as [|[n|] l IH]; intros [m|]; cbn [merge_all merge_props omap list_omap app mbind outcome_bind]; try done.
  all: by rewrite IH.
Qed.

Definition lines_text {A} (words : A -> list (list Z)) (l : list (lined A)) : list Z := concat (map (fun x => text_line words x ++ [10]) l).

Lemma lines_text_cons {A} (words : A -> list (list Z)) x (l : list (lined A)) rest :
  lines_text words (x :: l) ++ rest = laid_out x.1 (words x.2) ++ 10 :: lines_text words l ++ rest.
Proof. unfold lines_text, text_line. cbn [map concat]. by rewrite <- !app_assoc. Qed.

(** the lines of properties are read, and what they say is merged *)
Lemma more_props_spec qs a p rest fuel : Forall (good_line valid_prop prop_words) qs -> at_ p (lines_text prop_words qs ++ rest) ->
  match merge_all a (map (fun q => prop_size q.2) qs) with
  | Ret a' => exists p1, at_ p1 rest /\ val p1 = val p /\
      more_props dev mem_ok f maxfill fn ft object (length qs + fuel) a p = more_props dev mem_ok f maxfill fn ft object fuel a' p1
  | _ => more_props dev mem_ok f maxfill fn ft object (length qs + fuel) a p = Stopped
  end.
Proof.
  intros Hq. revert a p. induction Hq as [|[bs q] qs [Hv Hl] _ IH]; intros a p Hp; [by exists p|].
  rewrite lines_text_cons in Hp. cbn [fst snd] in *.
  destruct (prop_spec q bs p _ Hv (conj Hp Hl)) as (t & p0 & E & Ht & p1 & E1 & H1 & V1).
  cbn [map merge_all length Nat.add more_props fst snd].
  assert (forall r, (t ← next_token; if starts_prop t then b ← prop dev mem_ok f maxfill fn ft object t; a ← computes (merge_props a b); r a else mret (a, t)) p =
    (a ← computes (merge_props a (prop_size q)); r a) p1) as -> by (intros r; by rewrite (parse_step _ _ _ _ _ E), Ht, (parse_step _ _ _ _ _ E1)).
  destruct (merge_props a (prop_size q)) as [a'| |] eqn:Em; cbn [mbind outcome_bind].
  - specialize (IH a' p1 H1). destruct (merge_all a' _).
    + destruct IH as (p2 & H2 & V2 & E2). exists p2. split; [done|]. split; [congruence|exact E2].
    + exact IH.
    + exact IH.
  - done.
  - destruct a, (prop_size q); done.
Qed.

(** ** Devices *)

Lemma malloc_ok p : exists o h', asserted (malloc malloc_at) p = Ret (o, Parser (p_lex p) (p_disk p) (mallocs p) h') /\ users h' = users (val p).
Proof.
  destruct (Hmalloc (Create.mallocs (val p))) as [o Ho]. exists o. eexists. unfold asserted, malloc. rewrite Ho. cbn [mbind outcome_bind]. done.
Qed.

Lemma small_le w : small w = negb (0xffff <? value w).
Proof. unfold small. by rewrite Z.ltb_antisym, negb_involutive. Qed.

Lemma small_u16 w : small w = true -> u16 (value w) = value w.
Proof. rewrite small_le. intros H. apply u16_value. by destruct (0xffff <? value w). Qed.

(** the action of a device *)
Lemma spool_vdev ty a b p : ty = VDEV_CONS \/ ty = VDEV_SPOOL ->
  let d := DirectoryVdev ty (value a) (match ty with VDEV_SPOOL => DirSpool (value b) 0 | _ => DirOther end) in
  if small a && small b
  then exists p', __alloc_spool_vdev malloc_at ty (value a) (value b) p = Ret (d, p') /\ p_lex p' = p_lex p /\ p_disk p' = p_disk p /\ users (val p') = users (val p)
  else __alloc_spool_vdev malloc_at ty (value a) (value b) p = Stopped.
Proof.
  intros Hty d. unfold __alloc_spool_vdev. pose proof (small_le a) as Ha. pose proof (small_le b) as Hb. rewrite Ha, Hb.
  destruct (0xffff <? value a) eqn:Ea; [done|]. destruct (0xffff <? value b) eqn:Eb; [done|]. cbn [Datatypes.orb negb andb].
  destruct (malloc_ok p) as (o & h' & E & Hu). rewrite (parse_step _ _ _ _ _ E). unfold d.
  destruct Hty as [-> | ->]; rewrite !u16_value by done; by eexists.
Qed.

Lemma mdisk_vdev a b c d e p :
  if small a && small b && small c && small d && small e
  then exists p', __alloc_mdisk_vdev malloc_at (value a) (value b) (value c) (value d) (value e) p =
      Ret (DirectoryVdev VDEV_MDISK (value a) (DirMdisk (value c) (value d) (value e)), p') /\
    p_lex p' = p_lex p /\ p_disk p' = p_disk p /\ users (val p') = users (val p)
  else __alloc_mdisk_vdev malloc_at (value a) (value b) (value c) (value d) (value e) p = Stopped.
Proof.
  unfold __alloc_mdisk_vdev. rewrite !small_le.
  destruct (0xffff <? value a) eqn:Ea; [done|]. destruct (0xffff <? value b) eqn:Eb; [done|]. destruct (0xffff <? value c) eqn:Ec; [done|].
  destruct (0xffff <? value d) eqn:Ed; [done|]. destruct (0xffff <? value e) eqn:Ee; [done|]. cbn [Datatypes.orb negb andb].
  destruct (malloc_ok p) as (o & h' & E & Hu). rewrite (parse_step _ _ _ _ _ E), !u16_value by done. by eexists.
Qed.

(** what an action gives, at the text that is left *)
Definition gives {A} (m : outcome (A * parser kernel)) (r : outcome A) (rest : list Z) (us : list user) : Prop :=
  match r with Ret a => exists p', m = Ret (a, p') /\ at_ p' rest /\ users (val p') = us | _ => m = Stopped end.

Lemma vdev_spec v bs p rest : valid_dev v -> here p bs (dev_words v) rest ->
  exists t p0, next_token p = Ret (t, p0) /\ starts_vdev t = true /\ starts_prop t = false /\
    gives (vdev dev mem_ok f maxfill fn ft object malloc_at t p0) (dev_of v) rest (users (val p)).
Proof.
  assert (forall ty a b q, at_ q rest -> ty = VDEV_CONS \/ ty = VDEV_SPOOL -> users (val q) = users (val p) ->
    gives (__alloc_spool_vdev malloc_at ty (value a) (value b) q)
      (if small a && small b then Ret (DirectoryVdev ty (value a) (match ty with VDEV_SPOOL => DirSpool (value b) 0 | _ => DirOther end)) else Stopped)
      rest (users (val p))) as Hspool.
  { intros ty a b q Hq Hty Hu. pose proof (spool_vdev ty a b q Hty) as Hs. cbv zeta in Hs. destruct (small a && small b); [|exact Hs].
    destruct Hs as (q' & E & El & Ed & Eu). exists q'. split; [exact E|]. split; [unfold Lexer.at_; by rewrite El, Ed|congruence]. }
  intros Hv H. destruct v as [a b|a b r|a b c d e]; cbn [dev_words valid_dev dev_of] in *; shape H.
  - destruct Hv as [Ha Hb]. first_word CONSOLE H. split; [done|]. split; [done|]. cbn [vdev]. shape H. step (dir_num _ _ _ _ _ _ H Ha) H. shape H.
    step (dir_num _ _ _ _ _ _ H Hb) H. shape H. step (dir_nline _ _ H) H. apply Hspool; [done|by left|congruence].
  - destruct Hv as [Ha Hb]. first_word SPOOL H. split; [done|]. split; [done|]. cbn [vdev]. shape H. step (dir_num _ _ _ _ _ _ H Ha) H. shape H.
    step (dir_num _ _ _ _ _ _ H Hb) H. shape H. destruct r; cbn [reader_word] in H.
    + keyword READER H. shape H. step (dir_nline _ _ H) H. apply Hspool; [done|by right|congruence].
    + keyword PUNCH H. shape H. step (dir_nline _ _ H) H. apply Hspool; [done|by right|congruence].
    + keyword PRINT H. shape H. step (dir_nline _ _ H) H. apply Hspool; [done|by right|congruence].
  - destruct Hv as (Ha & Hb & Hc & Hd & He). first_word MDISK H. split; [done|]. split; [done|]. cbn [vdev].
    do 5 (shape H; step (dir_num _ _ _ _ _ _ H ltac:(eassumption)) H). shape H. step (dir_nline _ _ H) H.
    match type of H with at_ ?q _ => pose proof (mdisk_vdev a b c d e q) as Hs end. destruct (small a && small b && small c && small d && small e); [|exact Hs].
    destruct Hs as (q' & E & El & Ed & Eu). exists q'. split; [exact E|]. split; [unfold Lexer.at_; by rewrite El, Ed|congruence].
Qed.

(** the lines of devices: the last one is the first of the list *)
Lemma more_vdevs_spec vs l p rest fuel : Forall (good_line valid_dev dev_words) vs -> at_ p (lines_text dev_words vs ++ rest) ->
  match devs_of (map snd vs) with
  | Ret ds => exists p1, at_ p1 rest /\ users (val p1) = users (val p) /\
      more_vdevs dev mem_ok f maxfill fn ft object malloc_at (length vs + fuel) l p = more_vdevs dev mem_ok f maxfill fn ft object malloc_at fuel (ds ++ l) p1
  | _ => more_vdevs dev mem_ok f maxfill fn ft object malloc_at (length vs + fuel) l p = Stopped
  end.
Proof.
  intros Hq. revert l p. induction Hq as [|[bs v] vs [Hv Hl] _ IH]; intros l p Hp; [by exists p|].
  rewrite lines_text_cons in Hp. cbn [fst snd] in *. destruct (vdev_spec v bs p _ Hv (conj Hp Hl)) as (t & p0 & E & Ht & _ & Hg).
  cbn [map devs_of length Nat.add more_vdevs snd].
  assert (forall r, (t ← next_token; if starts_vdev t then v ← vdev dev mem_ok f maxfill fn ft object malloc_at t; r (v :: l) else mret (l, t)) p =
    (v ← vdev dev mem_ok f maxfill fn ft object malloc_at t; r (v :: l)) p0) as -> by (intros r; by rewrite (parse_step _ _ _ _ _ E), Ht).
  unfold gives in Hg. destruct (dev_of v) as [d| |] eqn:Ed; cbn [mbind outcome_bind]; [|by rewrite (parse_stop _ _ _ Hg)..].
  destruct Hg as (p1 & E1 & H1 & U1). rewrite (parse_step _ _ _ _ _ E1). specialize (IH (d :: l) p1 H1).
  destruct (devs_of (map snd vs)) as [ds| |]; cbn [mbind outcome_bind]; [|exact IH..].
  destruct IH as (p2 & H2 & U2 & E2). exists p2. split; [done|]. split; [congruence|]. by rewrite <- app_assoc.
Qed.

(** ** Users *)

Lemma add_user nm auth n ds p : exists p', asserted (directory_alloc_user malloc_at (Some nm) auth (Some n) ds) p = Ret (tt, p') /\
  p_lex p' = p_lex p /\ p_disk p' = p_disk p /\ users (val p') = users (val p) ++ [User nm n ds auth].
Proof.
  destruct (Hmalloc (Create.mallocs (val p))) as [o Ho]. unfold asserted, directory_alloc_user, call, must, malloc, modify.
  unfold mbind, kern_bind. cbn [mbind outcome_bind]. unfold mbind, outcome_bind. rewrite Ho. by eexists.
Qed.

(** what is behind a user: nothing, or an empty line *)
Inductive behind : list Z -> token -> parser kernel -> Prop :=
  | at_end p : behind [] EOF p
  | at_gap r p : at_ p r -> behind (10 :: r) NLINE p.

Lemma behind_ends rest t p : behind rest t p -> starts_vdev t = false.
Proof. by destruct 1. Qed.

Lemma behind_token rest p : at_ p rest -> rest = [] \/ (exists r, rest = 10 :: r) ->
  exists t p', next_token p = Ret (t, p') /\ behind rest t p' /\ val p' = val p.
Proof.
  intros Hp [->|[r ->]].
  - destruct (dir_end p Hp) as (p' & E & V). exists EOF, p'. split; [done|]. split; [constructor|done].
  - destruct (empty_line p r Hp) as (p' & E & H & V). exists NLINE, p'. split; [done|]. split; [by constructor|done].
Qed.

Definition user_text (u : dir_user) : list Z := concat (map (fun l => l ++ [10]) (user_lines u)).

Lemma user_text_app u rest : user_text u ++ rest =
  laid_out (du_blanks u) (user_words u) ++ 10 :: lines_text prop_words (du_prop u :: du_props u) ++ lines_text dev_words (du_dev u :: du_devs u) ++ rest.
Proof.
  unfold user_text, user_lines, lines_text. cbn [map concat]. rewrite map_app, concat_app. cbn [map concat]. rewrite !map_map, <- !app_assoc. done.
Qed.

#[local] Abbreviation props_ := (props dev mem_ok f maxfill fn ft object).
#[local] Abbreviation vdevs_ := (vdevs dev mem_ok f maxfill fn ft object malloc_at).

(** the first property, and those behind it, up to the token of the first device *)
Lemma props_spec u p rest fuel : Forall (good_line valid_prop prop_words) (du_prop u :: du_props u) ->
  Forall (good_line valid_dev dev_words) (du_dev u :: du_devs u) ->
  at_ p (lines_text prop_words (du_prop u :: du_props u) ++ lines_text dev_words (du_dev u :: du_devs u) ++ rest) -> (length (du_props u) < fuel)%nat ->
  match sizes (map snd (du_prop u :: du_props u)) with
  | [] | [_] => exists t p0,
      props_ fuel p = Ret ((head (sizes (map snd (du_prop u :: du_props u))), t), p0) /\
      gives (vdev dev mem_ok f maxfill fn ft object malloc_at t p0) (dev_of (du_dev u).2) (lines_text dev_words (du_devs u) ++ rest) (users (val p))
  | _ => props_ fuel p = Stopped
  end.
Proof.
  intros Hq Hd Hp Hf. apply Forall_cons_1 in Hq as [Hq0 Hqs]. apply Forall_cons_1 in Hd as [Hd0 _]. rewrite lines_text_cons in Hp.
  destruct Hq0 as [Hv0 Hl0]. destruct (prop_spec _ _ p _ Hv0 (conj Hp Hl0)) as (t & p1 & E1 & _ & p2 & E2 & H2 & V2).
  unfold props. rewrite (parse_step _ _ _ _ _ E1), (parse_step _ _ _ _ _ E2).
  pose proof (more_props_spec (du_props u) (prop_size (du_prop u).2) p2 _ (fuel - length (du_props u)) Hqs H2) as H.
  rewrite Nat.add_sub_assoc in H by lia. replace (length (du_props u) + fuel - length (du_props u))%nat with fuel in H by lia.
  rewrite merge_sizes in H. unfold sizes. cbn [map omap list_omap].
  assert (omap (fun x => x) (map (fun q => prop_size q.2) (du_props u)) = omap prop_size (map snd (du_props u))) as Eo.
  { clear. induction (du_props u) as [|q l IH]; [done|]. cbn [map omap list_omap]. rewrite IH. done. }
  rewrite Eo in H.
  assert (forall a, (exists p1, at_ p1 (lines_text dev_words (du_dev u :: du_devs u) ++ rest) /\ val p1 = val p2 /\
      more_props dev mem_ok f maxfill fn ft object fuel (prop_size (du_prop u).2) p2 =
      more_props dev mem_ok f maxfill fn ft object (fuel - length (du_props u)) a p1) ->
    exists t p0, more_props dev mem_ok f maxfill fn ft object fuel (prop_size (du_prop u).2) p2 = Ret ((a, t), p0) /\
      gives (vdev dev mem_ok f maxfill fn ft object malloc_at t p0) (dev_of (du_dev u).2) (lines_text dev_words (du_devs u) ++ rest) (users (val p))) as Hlook.
  { intros a (p3 & H3 & V3 & ->). rewrite lines_text_cons in H3. destruct Hd0 as [Hvd Hld].
    destruct (vdev_spec _ _ p3 _ Hvd (conj H3 Hld)) as (t3 & p4 & E4 & _ & Hno & Hg). exists t3, p4. rewrite V3, V2 in Hg. split; [|exact Hg].
    destruct (fuel - length (du_props u))%nat as [|n] eqn:En; [lia|]. cbn [more_props]. rewrite (parse_step _ _ _ _ _ E4), Hno. done. }
  destruct (prop_size (du_prop u).2) as [m|]; cbn [app] in H; destruct (omap prop_size (map snd (du_props u))) as [|n [|n2 ns]];
    cbn [head]; first [exact H | by apply Hlook].
Qed.

(** the first device, and those behind it, up to the token behind the user *)
Lemma vdevs_spec u t p us rest fuel : Forall (good_line valid_dev dev_words) (du_devs u) -> rest = [] \/ (exists r, rest = 10 :: r) ->
  gives (vdev dev mem_ok f maxfill fn ft object malloc_at t p) (dev_of (du_dev u).2) (lines_text dev_words (du_devs u) ++ rest) us ->
  (length (du_devs u) < fuel)%nat ->
  match devs_of (map snd (du_dev u :: du_devs u)) with
  | Ret ds => exists t2 p2, vdevs_ fuel t p = Ret ((ds, t2), p2) /\ behind rest t2 p2 /\ users (val p2) = us
  | _ => vdevs_ fuel t p = Stopped
  end.
Proof.
  intros Hd Hrest Hg Hf. unfold vdevs, gives in *. cbn [map devs_of].
  destruct (dev_of (du_dev u).2) as [d| |]; cbn [mbind outcome_bind]; [|by rewrite (parse_stop _ _ _ Hg)..].
  destruct Hg as (p1 & E1 & H1 & U1). rewrite (parse_step _ _ _ _ _ E1).
  pose proof (more_vdevs_spec (du_devs u) [d] p1 rest (fuel - length (du_devs u)) Hd H1) as H.
  rewrite Nat.add_sub_assoc in H by lia. replace (length (du_devs u) + fuel - length (du_devs u))%nat with fuel in H by lia.
  destruct (devs_of (map snd (du_devs u))) as [ds| |]; cbn [mbind outcome_bind]; [|exact H..].
  destruct H as (p2 & H2 & U2 & ->). destruct (behind_token rest p2 H2 Hrest) as (t3 & p3 & E3 & Hb & V3).
  exists t3, p3. split; [|split; [done|congruence]].
  destruct (fuel - length (du_devs u))%nat as [|n] eqn:En; [lia|]. cbn [more_vdevs]. by rewrite (parse_step _ _ _ _ _ E3), (behind_ends _ _ _ Hb).
Qed.

(** the class of a user *)
Definition token_auth (t : token) : outcome Z :=
  match t with WORD s => s ← defined s; __auth_str s 0 | NUM v => Ret (__auth_int v) | _ => Stopped end.

Lemma class_spec c p b rest : valid_class c -> here p [b] [class_word c] rest ->
  exists t p' a, next_token p = Ret (t, p') /\ here p' [] [] rest /\ val p' = val p /\ token_auth t = Ret a /\ u8 a = auth_of c /\
    match t with WORD _ | NUM _ => True | _ => False end.
Proof.
  intros Hv H. destruct c as [w|w]; cbn [valid_class class_word] in *.
  - destruct Hv as [Hv Hcl]. destruct (dir_line_token Name _ _ _ _ _ _ H (name_spells_ w Hv) Hv) as (t & p' & E & [o ->] & H' & V).
    destruct (auth_str_spec w o (letters_only _ _ Hv) Hcl) as (a & Ea & Ha). by exists (WORD (Some (w ++ 0 :: o))), p', a.
  - destruct (dir_line_token Number _ _ _ _ _ _ H (numeral_spells_ w Hv) Hv) as (t & p' & E & -> & H' & V).
    by exists (NUM (value w)), p', AUTH_G.
Qed.

#[local] Abbreviation user__ := (user_ dev mem_ok f maxfill fn ft object malloc_at).

(** the two lists of lines are read, then the user is made *)
Definition user_body (fuel : nat) (n : option (list Z)) (t : token) : parse kernel token :=
  '(size, t1) ← props_ fuel;
  '(l, t2) ← vdevs_ fuel t1;
  match t2 with
  | NLINE | EOF =>
      auth ← computes (token_auth t);
      n ← computes (string_of n);
      asserted (directory_alloc_user malloc_at n (u8 auth) size l) ;;
      mret t2
  | _ => syntax_error
  end.

Lemma body_spec u p rest fuel t a o : valid_user u -> rest = [] \/ (exists r, rest = 10 :: r) ->
  at_ p (lines_text prop_words (du_prop u :: du_props u) ++ lines_text dev_words (du_dev u :: du_devs u) ++ rest) ->
  (length (du_props u) < fuel)%nat -> (length (du_devs u) < fuel)%nat -> token_auth t = Ret a -> u8 a = auth_of (du_class u) ->
  match user_of u with
  | Ret x => exists t2 p', user_body fuel (Some (du_name u ++ 0 :: o)) t p = Ret (t2, p') /\ behind rest t2 p' /\ users (val p') = users (val p) ++ [x]
  | _ => user_body fuel (Some (du_name u ++ 0 :: o)) t p = Stopped
  end.
Proof.
  intros (Hname & _ & _ & Hq & Hd) Hrest Hp Hf1 Hf2 Ha Hauth. pose proof (props_spec u p rest fuel Hq Hd Hp Hf1) as H.
  unfold user_of, user_body.
  assert (forall t1 p1 size, props_ fuel p = Ret ((size, t1), p1) ->
    gives (vdev dev mem_ok f maxfill fn ft object malloc_at t1 p1) (dev_of (du_dev u).2) (lines_text dev_words (du_devs u) ++ rest) (users (val p)) ->
    match size, devs_of (map snd (du_dev u :: du_devs u)) with
    | Some n, Ret ds => exists t2 p', user_body fuel (Some (du_name u ++ 0 :: o)) t p = Ret (t2, p') /\ behind rest t2 p' /\
        users (val p') = users (val p) ++ [User (du_name u) n ds (auth_of (du_class u))]
    | _, _ => user_body fuel (Some (du_name u ++ 0 :: o)) t p = Stopped
    end) as Hrun.
  { intros t1 p1 size E1 Hg. unfold user_body. apply Forall_cons_1 in Hd as [_ Hds].
    pose proof (vdevs_spec u t1 p1 _ rest fuel Hds Hrest Hg Hf2) as Hv. rewrite (parse_step _ _ _ _ _ E1). cbn beta iota.
    destruct (devs_of (map snd (du_dev u :: du_devs u))) as [ds| |]; [|destruct size; by rewrite (parse_stop _ _ _ Hv)..].
    destruct Hv as (t2 & p2 & E2 & Hb & U2). rewrite (parse_step _ _ _ _ _ E2). cbn beta iota.
    assert (match t2 with NLINE | EOF => True | _ => False end) as Ht2 by by destruct Hb.
    assert ((auth ← computes (token_auth t); n ← computes (string_of (Some (du_name u ++ 0 :: o)));
      asserted (directory_alloc_user malloc_at n (u8 auth) size ds) ;; mret t2) p2 =
      (asserted (directory_alloc_user malloc_at (Some (du_name u)) (auth_of (du_class u)) size ds) ;; mret t2) p2) as Eact.
    { unfold computes. unfold mbind at 1, parse_bind. rewrite Ha. cbn [mbind outcome_bind]. unfold mbind at 1, parse_bind. cbn [string_of].
      rewrite until_nul_spec by (by eapply letters_only). cbn [mbind outcome_bind]. by rewrite Hauth. }
    assert ((match t2 with NLINE | EOF => auth ← computes (token_auth t); n ← computes (string_of (Some (du_name u ++ 0 :: o)));
      asserted (directory_alloc_user malloc_at n (u8 auth) size ds) ;; mret t2 | _ => syntax_error end) p2 =
      (asserted (directory_alloc_user malloc_at (Some (du_name u)) (auth_of (du_class u)) size ds) ;; mret t2) p2) as ->
      by (rewrite <- Eact; by destruct t2).
    destruct size as [n|]; [|done]. destruct (add_user (du_name u) (auth_of (du_class u)) n ds p2) as (p3 & E3 & El & Ed & Eu).
    rewrite (parse_step _ _ _ _ _ E3). exists t2, p3. split; [done|]. split; [|congruence].
    destruct Hb; constructor. unfold Lexer.at_ in *. by rewrite El, Ed. }
  unfold user_body in Hrun.
  destruct (sizes (map snd (du_prop u :: du_props u))) as [|n [|n2 ns]] eqn:Es; cbn [head] in H.
  - destruct H as (t1 & p1 & E1 & Hg). exact (Hrun t1 p1 None E1 Hg).
  - destruct H as (t1 & p1 & E1 & Hg). specialize (Hrun t1 p1 (Some n) E1 Hg). cbn beta iota in Hrun.
    destruct (devs_of (map snd (du_dev u :: du_devs u))); exact Hrun.
  - by rewrite (parse_stop _ _ _ H).
Qed.

Lemma user_spec u p rest fuel : valid_user u -> rest = [] \/ (exists r, rest = 10 :: r) -> at_ p (user_text u ++ rest) ->
  (length (du_props u) < fuel)%nat -> (length (du_devs u) < fuel)%nat ->
  exists p0, next_token p = Ret (USER, p0) /\
  match user_of u with
  | Ret x => exists t2 p', user__ fuel p0 = Ret (t2, p') /\ behind rest t2 p' /\ users (val p') = users (val p) ++ [x]
  | _ => user__ fuel p0 = Stopped
  end.
Proof.
  intros Hu Hrest Hp Hf1 Hf2. rewrite user_text_app in Hp. pose proof Hu as (Hname & Hclass & Hlay & _ & _).
  assert (here p (du_blanks u) (user_words u) (lines_text prop_words (du_prop u :: du_props u) ++ lines_text dev_words (du_dev u :: du_devs u) ++ rest)) as H by done.
  generalize dependent (du_blanks u). intros bs _ _ H. unfold user_words in H. shape H.
  destruct (dir_keyword USER _ _ _ _ _ _ H ltac:(keyword_spells)) as (p0 & E0 & H0 & V0). exists p0. split; [done|].
  shape H0. destruct (dir_word _ _ _ _ _ _ H0 Hname) as (o & p1 & E1 & H1 & V1). shape H1.
  match type of H1 with here _ (_ :: ?l) _ _ => assert (l = []) as -> by (destruct H1 as [_ [Hl _]]; by destruct l) end.
  destruct (class_spec _ _ _ _ Hclass H1) as (t & p2 & a & E2 & H2 & V2 & Ea & Ha & Ht). destruct (dir_nline _ _ H2) as (p3 & E3 & H3 & V3).
  pose proof (body_spec u p3 rest fuel t a o Hu Hrest H3 Hf1 Hf2 Ea Ha) as Hb.
  assert (user__ fuel p0 = user_body fuel (Some (du_name u ++ 0 :: o)) t p3) as ->.
  { unfold user_. rewrite (parse_step _ _ _ _ _ E1), (parse_step _ _ _ _ _ E2). destruct t; try done; by rewrite (parse_step _ _ _ _ _ E3). }
  replace (val p) with (val p3) by congruence. exact Hb.
Qed.

Definition users_text (us : list dir_user) : list Z := concat (map (fun l => l ++ [10]) (users_lines us)).
Definition gap_text (us : list dir_user) : list Z := match us with [] => [] | _ => 10 :: users_text us end.

Lemma users_text_cons u us : users_text (u :: us) = user_text u ++ gap_text us.
Proof.
  unfold users_text, gap_text, user_text. destruct us as [|u2 us]; [by rewrite app_nil_r|].
  change (users_lines (u :: u2 :: us)) with (user_lines u ++ [] :: users_lines (u2 :: us)). by rewrite map_app, concat_app.
Qed.

Lemma users_lines_length u us : (length (du_props u) + length (du_devs u) + 3 + length (users_lines us) <= length (users_lines (u :: us)))%nat.
Proof.
  assert (length (user_lines u) = length (du_props u) + length (du_devs u) + 3)%nat as Hl.
  { unfold user_lines. cbn [length]. rewrite length_app, !length_map. cbn [length]. lia. }
  destruct us as [|u2 us]; cbn [users_lines]; [cbn [length]; lia|]. rewrite length_app. cbn [length]. lia.
Qed.

Lemma gap_cases us : gap_text us = [] \/ exists r, gap_text us = 10 :: r.
Proof. destruct us; [by left|right; by eexists]. Qed.

Lemma user_defined u : user_of u <> Undef.
Proof.
  assert (forall v, dev_of v <> Undef) as Hv by (intros [a b|a b r|a b c d e]; cbn [dev_of]; by destruct (_ && _)).
  assert (forall vs, devs_of vs <> Undef) as Hvs.
  { induction vs as [|v vs IH]; cbn [devs_of]; [done|]. specialize (Hv v). destruct (dev_of v); cbn [mbind outcome_bind]; [|done..]. by destruct (devs_of vs). }
  unfold user_of. destruct (sizes _) as [|n [|m l]]; [done| |done].
  specialize (Hvs (map snd (du_dev u :: du_devs u))). by destruct (devs_of _).
Qed.

Lemma more_users_spec us t p fuel : Forall valid_user us -> behind (gap_text us) t p -> (length (users_lines us) < fuel)%nat ->
  (r ← more_users dev mem_ok f maxfill fn ft object malloc_at fuel t p; Ret (users (val r.2))) = (xs ← users_of us; Ret (users (val p) ++ xs)).
Proof.
  intros Hu. revert t p fuel. induction Hu as [|u us Hu _ IH]; intros t p [|fuel] Hb Hf; try (cbn in Hf; lia).
  - inversion Hb; subst. cbn. by rewrite app_nil_r.
  - inversion Hb as [|r p' H]; subst. cbn [more_users]. rewrite users_text_cons in H. pose proof (users_lines_length u us) as Hlen.
    destruct (user_spec u p (gap_text us) fuel Hu (gap_cases us) H ltac:(lia) ltac:(lia)) as (p0 & E0 & Hx).
    rewrite (parse_step _ _ _ _ _ E0). cbn [users_of]. destruct (user_of u) as [x| |] eqn:Ex; cbn [mbind outcome_bind]; [|by rewrite (parse_stop _ _ _ Hx)|by apply user_defined in Ex].
    destruct Hx as (t2 & p2 & E2 & Hb2 & U2). rewrite (parse_step _ _ _ _ _ E2). rewrite (IH t2 p2 fuel Hb2) by lia.
    rewrite U2. destruct (users_of us); cbn [mbind outcome_bind]; [|done..]. by rewrite <- app_assoc.
Qed.

Lemma direct_parse_spec us p fuel : Forall valid_user us -> us <> [] -> at_ p (users_text us) -> (length (users_lines us) <= fuel)%nat ->
  (r ← direct_parse dev mem_ok f maxfill fn ft object malloc_at fuel p; Ret (users (val r.2))) = (xs ← users_of us; Ret (users (val p) ++ xs)).
Proof.
  intros Hu Hne Hp Hf. destruct us as [|u us]; [done|]. apply Forall_cons_1 in Hu as [Hu Hus]. rewrite users_text_cons in Hp.
  pose proof (users_lines_length u us) as Hlen. unfold direct_parse.
  destruct (user_spec u p (gap_text us) fuel Hu (gap_cases us) Hp ltac:(lia) ltac:(lia)) as (p0 & E0 & Hx).
  rewrite (parse_step _ _ _ _ _ E0). cbn [users_of]. destruct (user_of u) as [x| |] eqn:Ex; cbn [mbind outcome_bind];
    [|by rewrite (parse_stop _ _ _ Hx)|by apply user_defined in Ex].
  destruct Hx as (t2 & p2 & E2 & Hb2 & U2). rewrite (parse_step _ _ _ _ _ E2). rewrite (more_users_spec us t2 p2 fuel Hus Hb2) by lia.
  rewrite U2. destruct (users_of us); cbn [mbind outcome_bind]; [|done..]. by rewrite <- app_assoc.
Qed.
End directory_file.

(** * A directory file makes the users it describes *)

(** C19: Loading the user directory, a file of records of 80 characters: whatever users its lines describe, however they are
    spaced, with one empty line between users, the load ends with 0 and the users in the directory behind those that were
    there, in order, with their storage, their devices from the last to the first, and their privilege classes - or it has
    stopped the system, at a number that is too big or a user without exactly one storage size.  The class letters are A
    to G (any other letter counts as every class, [wrong_class]); a class word that could be a hexadecimal number counts
    as class G alone ([hexadecimal_class]).  Every object that malloc hands out must be zero in its first 81 bytes: the
    code does not clear them, and the names made by strdup (direct.l, direct.c:98) have no terminator of their own. *)
Theorem directory_loaded dev mem_ok f id recs maxfill fn ft object malloc_at us s n h fuel :
  (forall n, mem_ok n = true) -> (1 <= maxfill <= 80)%nat ->
  (forall n, exists o, object n = Some o /\ forall i, (i <= 80)%nat -> o !! i = Some 0) -> (forall n, is_Some (malloc_at n)) ->
  found_file dev mem_ok f id recs fn ft s ->
  Forall2 (fun r t => length r = 80%nat /\ line_of r = Ret t) recs (users_lines us) ->
  Forall valid_user us -> us <> [] -> (length (users_lines us) <= fuel)%nat ->
  ('(ret, h', _) ← load_directory dev mem_ok f maxfill fn ft object malloc_at fuel s n h; Ret (ret, users h')) =
    (xs ← users_of us; Ret (0, users h ++ xs)).
Proof.
  intros Hmem Hfill Hobject Hmalloc Hfile Hlines Hu Hne Hf.
  pose proof (direct_parse_spec dev mem_ok Hmem f id recs _ Hlines maxfill Hfill fn ft object Hobject malloc_at Hmalloc us (Parser new_lexer s n h) fuel Hu Hne) as H.
  unfold load_directory. destruct (direct_parse _ _ _ _ _ _ _ _ _ _) as [[[] p]| |]; cbn [mbind outcome_bind] in *.
  all: specialize (H ltac:(right; split_and!; [exact Hfile|done|reflexivity]) Hf); cbn [mbind outcome_bind val snd] in H.
  all: destruct (users_of us); cbn [mbind outcome_bind] in *; try done; by injection H as ->.
Qed.

(** ** hvf.directory of the source *)

Definition sample_directory : list (list Z) := map card [
  "USER OPERATOR ABCDEG";
  "    MACHINE ESA 1";
  "    STORAGE 17M";
  "    CONSOLE 0009 3215";
  "    SPOOL 000C 3505 READER";
  "    SPOOL 000D 3525 PUNCH";
  "    SPOOL 000E 1403 PRINT";
  "    MDISK 0191 3390 15 100 0192";
  "";
  "USER OBIWAN G";
  "    MACHINE ESA 1";
  "    STORAGE 2M";
  "    CONSOLE 0009 3215";
  "    SPOOL 000C 3505 READER";
  "    SPOOL 000D 3525 PUNCH";
  "    SPOOL 000E 1403 PRINT";
  "    MDISK 0193 3390 15 100 0192"]%string.

Definition indented (n : nat) : list (list Z) := replicate 4 32 :: replicate n [32].

Definition sample_user (nm class : string) (size : list Z) (disk : string) : dir_user :=
  DirUser [[]; [32]; [32]] (zs nm) (Letters (zs class))
    (indented 2, Machine (zs "ESA") (zs "1")) [(indented 1, Storage_spec size 77)]
    (indented 2, Console (zs "0009") (zs "3215"))
    [(indented 3, Spool (zs "000C") (zs "3505") Reader); (indented 3, Spool (zs "000D") (zs "3525") Punch);
     (indented 3, Spool (zs "000E") (zs "1403") Print); (indented 5, Mdisk (zs disk) (zs "3390") (zs "15") (zs "100") (zs "0192"))].

Definition sample_users : list dir_user := [sample_user "OPERATOR" "ABCDEG" (zs "17") "0191"; sample_user "OBIWAN" "G" (zs "2") "0193"].

Ltac word_ok := first [decided | split; word_ok].

Lemma sample_user_valid nm class size disk : name dir_keywords (zs nm) -> valid_class (Letters (zs class)) -> decimal_word size -> numeral (zs disk) ->
  valid_user (sample_user nm class size disk).
Proof.
  intros Hn Hc Hs Hd. split_and!; [exact Hn|exact Hc|split; [done|split; decided]| |].
  - repeat (apply Forall_cons_2; [split; [|split; [done|split; decided]]|]); [|by split|apply Forall_nil_2].
    cbn [snd valid_prop]. unfold name, numeral. word_ok.
  - repeat (apply Forall_cons_2; [split; [|split; [done|split; decided]]|]); [..|apply Forall_nil_2].
    all: cbn [snd valid_dev]. 1-4: unfold numeral; word_ok. split; [exact Hd|unfold numeral; word_ok].
Qed.

Lemma directory_found : found_file (system_dev [] sample_directory) (fun _ => true) system_fs 2 sample_directory (zs "HVF     ") (zs "DIRECT  ")
  (match edf_mount (system_dev [] sample_directory) (fun _ => true) sample_start with Ret (_, s) => s | _ => sample_start end).
Proof.
  eexists. split; [vm_compute; reflexivity|]. eexists _, _. split.
  - eexists. split; [reflexivity|]. split; [reflexivity|constructor].
  - split_and!; try (vm_compute; (reflexivity || congruence)).
    intros k r Hk. do 17 (destruct k as [|k]; [injection Hk as <-; vm_compute; reflexivity|]). discriminate Hk.
Qed.

Lemma new_users h (m : outcome (Z * kernel * Edf.disk)) us xs :
  ('(ret, h', _) ← m; Ret (ret, users h')) = (xs ← users_of us; Ret (0, users h ++ xs)) -> users_of us = Ret xs ->
  ('(ret, h', _) ← m; Ret (ret, drop (length (users h)) (users h'))) = Ret (0, xs).
Proof.
  intros H E. rewrite E in H. destruct m as [[[ret h'] s']| |]; cbn [mbind outcome_bind] in *; try done.
  injection H as -> ->. by rewrite drop_app_length.
Qed.

Lemma directory_loaded_witness :
  ('(ret, h', _) ← load_directory (system_dev [] sample_directory) (fun _ => true) system_fs 8 (zs "HVF     ") (zs "DIRECT  ") zeros16 (fun n => Some (Z.of_nat n)) 17
      (match edf_mount (system_dev [] sample_directory) (fun _ => true) sample_start with Ret (_, s) => s | _ => sample_start end) 0 sample_kernel;
   Ret (ret, drop (length (users sample_kernel)) (users h'))) =
    Ret (0, [User (zs "OPERATOR") (17 * 2 ^ 20)
               [DirectoryVdev VDEV_MDISK 0x191 (DirMdisk 0x15 0x100 0x192); DirectoryVdev VDEV_SPOOL 0xe (DirSpool 0x1403 0);
                DirectoryVdev VDEV_SPOOL 0xd (DirSpool 0x3525 0); DirectoryVdev VDEV_SPOOL 0xc (DirSpool 0x3505 0); DirectoryVdev VDEV_CONS 9 DirOther] 0xfa;
             User (zs "OBIWAN") (2 * 2 ^ 20)
               [DirectoryVdev VDEV_MDISK 0x193 (DirMdisk 0x15 0x100 0x192); DirectoryVdev VDEV_SPOOL 0xe (DirSpool 0x1403 0);
                DirectoryVdev VDEV_SPOOL 0xd (DirSpool 0x3525 0); DirectoryVdev VDEV_SPOOL 0xc (DirSpool 0x3505 0); DirectoryVdev VDEV_CONS 9 DirOther] 0x02]).
Proof.
  eapply new_users.
  - apply (directory_loaded (system_dev [] sample_directory) (fun _ => true) system_fs 2 sample_directory 8 (zs "HVF     ") (zs "DIRECT  ")
      zeros16 (fun n => Some (Z.of_nat n)) sample_users _ 0 sample_kernel 17); [done|lia|exact zeros16_ok|by intros; eexists|exact directory_found| | |done|cbn; lia].
    + repeat (apply Forall2_cons_2; [split; vm_compute; reflexivity|]); apply Forall2_nil_2.
    + apply Forall_cons_2; [|apply Forall_cons_2; [|apply Forall_nil_2]]; apply sample_user_valid; unfold valid_class, name, decimal_word, numeral; word_ok.
  - vm_compute. reflexivity.
Defined.

(** ** What stops the system *)

Definition directory_of (records : list (list Z)) : outcome Z :=
  let d := system_dev [] records in
  let s := match edf_mount d (fun _ => true) sample_start with Ret (_, s) => s | _ => sample_start end in
  '(ret, _, _) ← load_directory d (fun _ => true) system_fs 8 (zs "HVF     ") (zs "DIRECT  ") zeros16 (fun n => Some (Z.of_nat n)) 30 s 0 sample_kernel;
  Ret ret.

Definition short_directory : list (list Z) := map card ["USER OBIWAN G"; "    STORAGE 2M"; "    CONSOLE 0009 3215"]%string.

(** an empty line at the end, one at the start, and a comment are errors; a file of two empty lines and a user is not *)
Example empty_lines : directory_of short_directory = Ret 0 /\ directory_of (short_directory ++ [card ""]) = Stopped /\
  directory_of (card "" :: short_directory) = Stopped /\ directory_of (card "* USERS" :: short_directory) = Stopped /\
  directory_of (card "" :: card "" :: short_directory) = Ret 0.
Proof. vm_compute. split_and!; reflexivity. Qed.

(** a letter that is no class *)
Example wrong_class : u8 (-1) = 0xff /\ __auth_str (zs "GX" ++ [0]) 0 = Ret (-1).
Proof. split; reflexivity. Qed.

(** classes that could be a hexadecimal number are one, and give class G *)
Example hexadecimal_class : best direct_rules (zs "ABCDEF" ++ [10]) = (6%nat, Some (Some Number)) /\ __auth_int 0xabcdef = AUTH_G.
Proof. split; reflexivity. Qed.
