(* ===== verification/Boot.v ===== *)
(** nucleus/init.c, nucleus/config.c and mm/page.c: how the parts are put together.

    [start] makes the page structures and the free lists of the buddy allocator before
    anything else; the task *finish-loading reads the configuration and the directory,
    creates the guest *LOGIN, loads its system, starts it and attaches the operator's
    console.  The definitions call the operations of the other files in the order of the
    source; a guest while it is made (Create.v) and while it runs (Guest.v) are two views
    of one structure.  Any failure stops the system; so a parser that returns has read its
    whole file, and its result is not looked at here.  The theorems: what the allocator
    ever gives out is clear of the nucleus and of the page structures; the last task ends
    with *LOGIN operating and the console attached when its parts are there, and in no other
    way; a system with the configuration and the directory of the source is started by
    evaluation. *)

From S2P Require Import Prelude Clock Io Dlist Buddy Charset CString Edf Dat Layout Guest VirtIo Create Ipl Lexer Config Direct.

Local Open Scope Z_scope.

(** * Pages *)

Definition __init_page (page : Z) (h : heap) : outcome heap := INIT_LIST_HEAD page h.

(** pages [pnum], [pnum + 1], ... *)
Fixpoint init_pages_from (n : nat) (pnum : Z) (h : heap) : outcome heap :=
  match n with
  | O => Ret h
  | S n => h ← __init_page (page_num_to_ptr pnum) h; init_pages_from n (pnum + 1) h
  end.

Definition init_pages (memsize : Z) : heap -> outcome heap := init_pages_from (Z.to_nat (Z.shiftr memsize PAGE_SHIFT)) 0.

(** behind the page structures, rounded up *)
Definition first_free_page (memsize : Z) : Z :=
  let struct_page_bytes := u64 (Z.shiftr memsize PAGE_SHIFT * sizeof_page) in
  let p := u64 (PAGE_INFO_BASE + struct_page_bytes) in
  if negb (Z.land struct_page_bytes (PAGE_SIZE - 1) =? 0) then u64 (p + (PAGE_SIZE - Z.land struct_page_bytes (PAGE_SIZE - 1))) else p.

(** the first steps of [start] *)
Definition start_memory (memsize : Z) (h : heap) : outcome (heap * buddy) :=
  h ← init_pages memsize h; Ret (h, init_buddy_alloc memsize (first_free_page memsize)).

(** * The logos *)

Section logos.
Context (bdev_read_block : Z -> Z + list Z) (mem_ok : nat -> bool) (f : Edf.fs).

(** the records [i], [i + 1], ...; the ones read so far are lost at an error *)
Fixpoint logo_records (n : nat) (id i : Z) : io (list (list Z)) :=
  match n with
  | O => mret []
  | S n =>
      alloc mem_ok ;;
      r ← edf_read_rec bdev_read_block mem_ok f id i;
      a ← Edf.lift (ebcdic2ascii r CONFIG_LRECL);
      l ← logo_records n id (i + 1);
      mret (a :: l)
  end.

Definition load_logo (l : logo) : io logo :=
  id ← edf_lookup bdev_read_block mem_ok f (l_fn l) (l_ft l);
  g ← get_file id;
  if negb (FST_LRECL (FST g) =? CONFIG_LRECL) || negb (FST_RECFM (FST g) =? FSTDFIX) then err (- EINVAL) else
  rs ← logo_records (Z.to_nat (FST_AIC (FST g))) id 0;
  mret (Logo (conn l) (Config.devtype l) (l_fn l) (l_ft l) (l_lines l ++ rs)).

(** [remove:] drops the logo *)
Fixpoint __load_logos (ls : list logo) (s : Edf.disk) : outcome (list logo * Edf.disk) :=
  match ls with
  | [] => Ret ([], s)
  | l :: ls =>
      '(r, s) ← load_logo l s;
      '(ls', s) ← __load_logos ls s;
      Ret (match r with inr l' => l' :: ls' | inl _ => ls' end, s)
  end.
End logos.

(** * Configuration and directory *)

Definition sysconf0 : sysconf := Sysconf 0 (replicate 9 0) [] (replicate 8 0) (replicate 8 0).

Section boot.
Context (find_device_by_sch : Z -> option (Z -> Z + list Z)).   (* the blocks of the device on a subchannel *)
Context (mem_ok : nat -> bool) (maxfill : nat).
Context (object : nat -> option (list Z)) (malloc_at : nat -> option Z) (garbage : nat -> nat -> list Z) (old_as : Z -> address_space).
Context (cpuid start_task shell_start : Z).
Context (fuel : nat).

(** the file system with what is known of it, the configuration and the directory *)
Definition load_config (iplsch : Z) (s : Edf.disk) (h : kernel) : outcome ((Z + Edf.fs) * sysconf * kernel * Edf.disk) :=
  match find_device_by_sch iplsch with
  | None => Ret (inl (- Edf.ENOENT), sysconf0, h, s)
  | Some dev =>
      '(r, s) ← edf_mount dev mem_ok s;
      match r with
      | inl e => Ret (inl e, sysconf0, h, s)
      | inr f =>
          '(_, p) ← config_parse dev mem_ok f maxfill object fuel (Parser new_lexer s 0 sysconf0);
          let c := val p in
          '(_, h, s) ← load_directory dev mem_ok f maxfill (Config.direct_fn c) (Config.direct_ft c) object malloc_at fuel (p_disk p) (Lexer.mallocs p) h;
          '(ls, s) ← __load_logos dev mem_ok f (logos c) s;
          Ret (inr f, Sysconf (oper_con c) (oper_userid c) ls (Config.direct_fn c) (Config.direct_ft c), h, s)
      end
  end.

Definition __add_internal_users (h : kernel) : outcome kernel :=
  '(r, h) ← directory_alloc_user malloc_at (Some (zs "*LOGIN")) Shell.AUTH_G (Some (1024 * 1024)) [] h;
  match r with inr _ => Ret h | inl _ => Stopped end.

(** ** *LOGIN *)

(** a machine that runs, and back *)
Definition running (v : vm) (h : kernel) : virt_sys :=
  VirtSys (vcpu v) (vm_con v) (vm_print_ts v) (vm_pages v) (vm_devs v) (Dat.storage (mm h)).

Definition replace_vm (v : vm) (h : kernel) : kernel :=
  set_online (map (fun w => if Create.object w =? Create.object v then v else w) (online h)) h.

Definition put_back (s : virt_sys) (v : vm) (h : kernel) : vm * kernel :=
  let v := Vm (Create.object v) (directory v) (console v) (vcpu_page v) (Guest.cpu s) (setup v) (vm_task v)
              (print_ts s) (guest_pages s) (virt_devs s) (Create.as_ v) (Guest.con s) in
  (v, replace_vm v (set_mm (Dat (Guest.storage s) (pgs (mm h))) h)).

Definition with_devs (ds : list virt_device) (v : vm) : vm :=
  Vm (Create.object v) (directory v) (console v) (vcpu_page v) (vcpu v) (setup v) (vm_task v) (vm_print_ts v) (vm_pages v) ds (Create.as_ v) (vm_con v).

(** [cr1] is the host's address space; the name is "login" with its NUL, and what is behind it *)
Definition login_name : list Z := zs "login" ++ zeros 5.

Definition load_login (dev : Z -> Z + list Z) (f : Edf.fs) (cr1 : Z) (v : vm) (s : Edf.disk) (h : kernel) : outcome (vm * kernel * Edf.disk) :=
  '(ret, i) ← guest_ipl_nss dev mem_ok f (lrag (Dat.storage (mm h))) (Create.as_ v) login_name 0 (Ipl (running v h) s cr1);
  if negb (ret =? 0) then Stopped else
  '(ret, g) ← guest_begin (sys i);
  if negb (ret =? 0) then Stopped else
  let '(v, h) := put_back g v h in Ret (v, h, sysfs i).

(** [iplsch] and [cr1]; [cr14] and [clk] are the host's control register 14 and clock when the last steps are reached: channel report
    words are enabled, the time is kept in [ipltime] *)
Definition ipltime0 : datetime := Datetime 0 0 0 0 0 0 0.

Definition __finish_loading (iplsch cr1 cr14 : Z) (clk : Z * Z) (s : Edf.disk) (h : kernel) :
    outcome (vm * sysconf * kernel * Edf.disk * Z * datetime) :=
  '(r, c, h, s) ← load_config iplsch s h;
  match r, find_device_by_sch iplsch with
  | inr f, Some dev =>
      h ← __add_internal_users h;
      '(v, h) ← guest_create malloc_at garbage old_as cpuid (oper_userid c) start_task shell_start (zs "*LOGIN") None h;
      match v with
      | None => Stopped
      | Some v =>
          '(v, h, s) ← load_login dev f cr1 v s h;
          '(ret, ds, h) ← guest_attach malloc_at garbage v (oper_con c) (2 ^ 64 - 1) h;
          if negb (ret =? 0) then Stopped else
          let v := with_devs ds v in
          let cr14 := Z.lor cr14 (Io.BIT64 35) in
          '(_, ipltime) ← get_parsed_tod clk ipltime0;
          Ret (v, c, replace_vm v h, s, cr14, ipltime)
      end
  | _, _ => Stopped
  end.
End boot.

(** * The theorems *)

Lemma page_struct_val memsize n : 0 <= memsize < 2 ^ 64 -> 0 <= n < memsize / 4096 -> page_num_to_ptr n = PAGE_INFO_BASE + sizeof_page * n.
Proof. intros Hm Hn. apply page_num_to_ptr_val. divlia. Qed.

Lemma page_struct_inj memsize n m : 0 <= memsize < 2 ^ 64 -> 0 <= n < memsize / 4096 -> 0 <= m < memsize / 4096 ->
  page_num_to_ptr n = page_num_to_ptr m -> n = m.
Proof. intros Hm Hn Hl. rewrite !(page_struct_val memsize) by done. unfold sizeof_page. lia. Qed.

(** every structure becomes a list of its own, nothing else changes *)
Lemma init_pages_from_spec memsize n pnum h : 0 <= memsize < 2 ^ 64 -> 0 <= pnum -> pnum + Z.of_nat n <= memsize / 4096 ->
  (forall i, pnum <= i < pnum + Z.of_nat n -> Dlist.live h (page_num_to_ptr i)) ->
  exists h', init_pages_from n pnum h = Ret h' /\
    (forall i, pnum <= i < pnum + Z.of_nat n -> dlist h' (page_num_to_ptr i) []) /\
    only_touches (map page_num_to_ptr (seqZ pnum (Z.of_nat n))) h h'.
Proof.
  intros Hm. revert pnum h. induction n as [|n IH]; intros pnum h Hp Hn Hlive.
  { exists h. split_and!; [done|intros; lia|done]. }
  destruct (Dlist.init_spec h (page_num_to_ptr pnum) (Hlive pnum ltac:(lia))) as (h1 & E1 & D1 & T1).
  assert (forall i, pnum < i < pnum + Z.of_nat (S n) -> page_num_to_ptr i ∉ [page_num_to_ptr pnum]) as Hother.
  { intros i Hi [E|[]%elem_of_nil]%elem_of_cons. apply (page_struct_inj memsize) in E; lia. }
  destruct (IH (pnum + 1) h1) as (h' & E & D & T); [lia|lia| |].
  { intros i Hi. destruct (T1 _ (Hother i ltac:(lia))) as [En Ep]. unfold Dlist.live. rewrite En, Ep. apply Hlive. lia. }
  exists h'. cbn [init_pages_from]. unfold __init_page. rewrite E1. split; [exact E|].
  assert (seqZ pnum (Z.of_nat (S n)) = pnum :: seqZ (pnum + 1) (Z.of_nat n)) as ->.
  { rewrite seqZ_cons by lia. do 2 f_equal; lia. }
  split.
  - intros i Hi. destruct (decide (i = pnum)) as [->|]; [|apply D; lia].
    eapply dlist_frame; [exact T| |exact D1]. intros x [->|[]%elem_of_nil]%elem_of_cons (j & Ej & Hj%elem_of_seqZ)%list_elem_of_fmap.
    apply (page_struct_inj memsize) in Ej; lia.
  - intros a [Ha Ha']%not_elem_of_cons. destruct (T a Ha') as [-> ->]. apply T1. set_solver.
Qed.

Lemma land_page x : Z.land x (PAGE_SIZE - 1) = x mod 4096.
Proof. exact (Z.land_ones x 12 ltac:(lia)). Qed.

Lemma first_free_page_spec memsize : 0 <= memsize < 2 ^ 60 ->
  first_free_page memsize mod 2 ^ 12 = 0 /\
  PAGE_INFO_BASE + sizeof_page * (memsize / 4096) <= first_free_page memsize < PAGE_INFO_BASE + sizeof_page * (memsize / 4096) + PAGE_SIZE.
Proof.
  intros Hm. unfold first_free_page. cbv zeta. rewrite Z.shiftr_div_pow2 by (unfold PAGE_SHIFT; lia). unfold PAGE_SHIFT, sizeof_page, PAGE_INFO_BASE.
  change (2 ^ 12) with 4096. rewrite (wrap_small 64 (memsize / 4096 * 16)) by divlia.
  set (k := memsize / 4096) in *. assert (0 <= k < 2 ^ 48) as Hk by (unfold k; divlia).
  rewrite land_page, (wrap_small 64 (4194304 + k * 16)) by lia. unfold PAGE_SIZE. case_bool; cbn [negb].
  - divlia.
  - rewrite wrap_small by divlia. divlia.
Qed.

(** a block inside a run of pages *)
Lemma block_in_run low k p lo n : 0 <= k -> zone_block low k p -> 0 <= lo -> (forall q, q ∈ pages p k -> q ∈ seqZ lo n) ->
  PAGE_SIZE * lo <= page_to_addr p /\ page_to_addr p + PAGE_SIZE * 2 ^ k <= PAGE_SIZE * (lo + n).
Proof.
  intros Hk Hz Hlo Hin. pose proof (Z.pow_pos_nonneg 2 k ltac:(lia) Hk) as Hpos.
  assert (exists j, p = PAGE_INFO_BASE + sizeof_page * j /\ 0 <= j < 2 ^ 52) as (j & -> & Hj).
  { destruct low; destruct Hz as [(j & -> & Hj) _]; exists j; split; try done; lia. }
  rewrite pages_val in Hin. rewrite page_to_addr_val by done. unfold PAGE_SIZE.
  pose proof (Hin j ltac:(apply elem_of_seqZ; lia)) as H1%elem_of_seqZ.
  pose proof (Hin (j + 2 ^ k - 1) ltac:(apply elem_of_seqZ; lia)) as H2%elem_of_seqZ. lia.
Qed.

Lemma block_range memsize start b A p k : 0 < start <= 2 ^ 31 -> start <= memsize < 6 * 2 ^ 30 -> start mod 2 ^ 12 = 0 ->
  history (init_buddy_alloc memsize start) b A -> (p, k) ∈ A -> start <= page_to_addr p /\ page_to_addr p + PAGE_SIZE * 2 ^ k <= memsize.
Proof.
  intros Hs Hm Ha Hist HA. destruct (init_buddy_spec memsize start Hs Hm Ha) as [Hwf Hf].
  destruct (history_inv _ b A Hwf Hist) as (_ & Hz & HP). rewrite Hf in HP.
  destruct (Hz _ HA) as (Hk & low & Hb). cbn [fst snd] in *.
  destruct (block_in_run low k p (start / 2 ^ 12) ((memsize - start) / 2 ^ 12) Hk Hb) as [H1 H2]; [divlia| |unfold PAGE_SIZE in *; divlia].
  intros q Hq. rewrite <- HP. apply elem_of_app. left. apply list_elem_of_bind. by exists (p, k).
Qed.

Lemma allocated_nodup memsize start b A : 0 < start <= 2 ^ 31 -> start <= memsize < 6 * 2 ^ 30 -> start mod 2 ^ 12 = 0 ->
  history (init_buddy_alloc memsize start) b A -> NoDup (allocated A).
Proof.
  intros Hs Hm Ha Hist. destruct (init_buddy_spec memsize start Hs Hm Ha) as [Hwf Hf].
  destruct (history_inv _ b A Hwf Hist) as (_ & _ & HP). rewrite Hf in HP.
  assert (NoDup (allocated A ++ frees b)) as HN by (rewrite HP; apply NoDup_seqZ). by apply NoDup_app in HN as [HN _].
Qed.

(** C2: On a machine with less than 6 GB of storage (at 6 GB and more the allocator itself, buddy.c:37, overlaps low storage:
    [Buddy.init_buddy_alloc_8GB]) that holds the nucleus and the page structures, the first steps of [start] make every page
    structure an empty list and touch nothing else, and whatever blocks the allocator built after them gives out and takes back,
    in any order: each starts behind the last page structure, ends within storage, and no page is in two of them. *)
Theorem boot_memory (memsize : Z) (h : heap) (Hmem : first_free_page memsize <= memsize < 6 * 2 ^ 30)
    (Hlive : forall n, 0 <= n < memsize / 4096 -> Dlist.live h (page_num_to_ptr n)) :
  exists h' b0, start_memory memsize h = Ret (h', b0) /\
    (forall n, 0 <= n < memsize / 4096 -> dlist h' (page_num_to_ptr n) []) /\
    only_touches (map page_num_to_ptr (seqZ 0 (memsize / 4096))) h h' /\
    forall b A, history b0 b A -> NoDup (allocated A) /\
      forall p k, (p, k) ∈ A ->
        (forall n, 0 <= n < memsize / 4096 -> page_num_to_ptr n + sizeof_page <= page_to_addr p) /\
        page_to_addr p + PAGE_SIZE * 2 ^ k <= memsize.
Proof.
  assert (0 <= memsize) as H0.
  { destruct (decide (0 <= memsize)); [done|]. assert (0 <= first_free_page memsize); [|lia]. unfold first_free_page. cbv zeta. case_bool; cbn [negb]; apply Z.mod_pos_bound; lia. }
  pose proof (first_free_page_spec memsize ltac:(lia)) as [Hal Hfirst].
  assert (0 < first_free_page memsize <= 2 ^ 31) as Hs by (unfold PAGE_INFO_BASE, sizeof_page, PAGE_SIZE in Hfirst; divlia).
  destruct (init_pages_from_spec memsize (Z.to_nat (memsize / 4096)) 0 h) as (h' & E & D & T); [lia|lia|divlia|intros; apply Hlive; lia|].
  rewrite Z2Nat.id in D, T by divlia. exists h', (init_buddy_alloc memsize (first_free_page memsize)).
  unfold start_memory, init_pages. rewrite Z.shiftr_div_pow2 by (unfold PAGE_SHIFT; lia). change (2 ^ PAGE_SHIFT) with 4096.
  rewrite E. split_and!; [done|done|done|]. intros b A Hist. split; [by eapply allocated_nodup|]. intros p k HA.
  destruct (block_range memsize _ b A p k Hs Hmem Hal Hist HA) as [H1 H2]. split; [|done].
  intros n Hn. rewrite (page_struct_val memsize) by lia. unfold sizeof_page in *. lia.
Qed.

(** 5 MB of storage: 255 free pages, an interrupt stack out of them *)
Definition sample_heap : heap :=
  let m := list_to_map (map (fun n => (page_num_to_ptr n, 0)) (seqZ 0 1280)) in Heap m m.

Lemma boot_memory_witness : exists h' b0 p b, start_memory 0x500000 sample_heap = Ret (h', b0) /\
  alloc_pages 0 ZONE_NORMAL b0 = Ret (Some p, b) /\ page_num_to_ptr 1279 + sizeof_page <= page_to_addr p.
Proof.
  assert (forall n, 0 <= n < 0x500000 / 4096 -> Dlist.live sample_heap (page_num_to_ptr n)) as Hlive.
  { intros n Hn. assert (forallb (fun n => match nx sample_heap !! page_num_to_ptr n, pv sample_heap !! page_num_to_ptr n with Some _, Some _ => true | _, _ => false end) (seqZ 0 1280) = true) as H by (vm_compute; reflexivity).
    rewrite forallb_forall in H. specialize (H n). specialize (H ltac:(apply list_elem_of_In, elem_of_seqZ; exact Hn)).
    unfold Dlist.live. destruct (nx sample_heap !! _), (pv sample_heap !! _); try done; eauto. }
  destruct (boot_memory 0x500000 sample_heap) as (h' & b0 & E & _ & _ & Hb); [split; vm_compute; congruence|exact Hlive|].
  exists h', b0. destruct (alloc_pages 0 ZONE_NORMAL b0) as [[[p|] b]| |] eqn:Ea.
  2-4: unfold start_memory in E; apply bind_Ret in E as (h2 & _ & [= _ <-]); vm_compute in Ea; discriminate Ea.
  exists p, b. split; [done|]. split; [done|].
  destruct (Hb b [(p, 0)] (H_alloc b0 0 ZONE_NORMAL b0 [] p b (H_init b0) Ea)) as [_ Hp].
  destruct (Hp p 0 ltac:(by left)) as [Hn _]. apply Hn. split; [done|reflexivity].
Defined.

(** ** *LOGIN *)

Lemma find_user_some l id u : find_user l id = Ret (Some u) -> u ∈ l /\ strings strcasecmp (u_userid u) id = Ret true.
Proof.
  induction l as [|x l IH]; cbn [find_user]; intros E; [done|]. apply bind_Ret in E as ([] & Es & E).
  - injection E as <-. split; [by left|done].
  - destruct (IH E). split; [by right|done].
Qed.

Section login.
Context (malloc_at : nat -> option Z) (garbage : nat -> nat -> list Z) (Hgarbage : forall i, struct_ok 28 (garbage i pmcw_size)).

Lemma new_vdev_kept d n devs h ret devs' h' : new_vdev malloc_at garbage d n devs h = Ret (ret, devs', h') -> online h' = online h /\ users h' = users h.
Proof.
  unfold new_vdev. intros E. apply bind_Ret in E as ([r h1] & Em & E).
  assert (online h1 = online h /\ users h1 = users h) as H1. { unfold malloc in Em. destruct (malloc_at (Create.mallocs h)); by injection Em as <- <-. }
  destruct (alloc_virt_dev _ _ _ _ _ _) as [[ret1 rd] devs1]. destruct r as [e|p]; [by injection E as <- <- <-|].
  destruct (ret1 =? 0); [by injection E as <- <- <-|]. cbn in E. by injection E as <- <- <-.
Qed.

Lemma attach_kept v rdev vdev h ret devs h' : guest_attach malloc_at garbage v rdev vdev h = Ret (ret, devs, h') -> online h' = online h /\ users h' = users h.
Proof.
  unfold guest_attach. destruct (pick_vdev _ _); [|by intros [= <- <- <-]]. destruct (pick_sch _); [|by intros [= <- <- <-]]. apply new_vdev_kept.
Qed.

(** of more numbers than devices one is free *)
Lemma first_free_some {X} (f : X -> Z) (l : list X) k : lenZ l < 65536 -> exists j, first_free (fun i => existsb (fun x => f x =? i) l) k 65536 = Some j.
Proof.
  intros Hl. pose proof (first_free_spec (fun i => existsb (fun x => f x =? i) l) k 65536) as Hs. destruct (first_free _ _ _) as [j|]; [by exists j|].
  change (Z.of_nat 65536) with 65536 in Hs. exfalso. assert (seqZ k 65536 ⊆+ map f l) as Hsub%submseteq_length.
  { apply NoDup_submseteq; [apply NoDup_seqZ|]. intros i Hi%elem_of_seqZ. specialize (Hs i ltac:(lia)). apply existsb_exists in Hs as (x & Hx & E%Z.eqb_eq).
    apply list_elem_of_fmap. exists x. split; [done|]. by apply list_elem_of_In. }
  rewrite length_seqZ, length_fmap in Hsub. unfold lenZ in Hl. lia.
Qed.

(** the first real device of that number is free *)
Definition can_attach (rdev : Z) (h : kernel) : Prop :=
  is_Some (malloc_at (Create.mallocs h)) /\ exists j r, list_find (fun r => ccuu r = u16 rdev) (rdevs h) = Some (j, r) /\ in_use r = false.

Lemma attach_some v rdev h : lenZ (vm_devs v) < 65536 -> can_attach rdev h ->
  exists devs h', guest_attach malloc_at garbage v rdev (2 ^ 64 - 1) h = Ret (0, devs, h').
Proof.
  intros Hl ([p Hp] & j & r & Hf & Hu). unfold guest_attach, pick_vdev, pick_sch. rewrite Z.eqb_refl.
  destruct (first_free_some (fun d => getf pmcw_dev_num (pmcw d)) (vm_devs v) 0 Hl) as [k ->]. destruct (first_free_some sch (vm_devs v) 0x10000 Hl) as [n ->].
  unfold new_vdev, malloc, alloc_virt_dev. rewrite Hp. cbn [mbind outcome_bind negb d_type d_u]. unfold __setup_vdev_ded. cbn [rdevs]. rewrite Hf, Hu. cbn. by eexists _, _.
Qed.

(** what becomes of the device *)
Lemma attach_done v rdev h devs h' : guest_attach malloc_at garbage v rdev (2 ^ 64 - 1) h = Ret (0, devs, h') ->
  exists d, devs = vm_devs v ++ [d] /\ vtype d = VDEV_DED /\ u d = Dedicate (u16 rdev) /\ sch d ∉ map sch (vm_devs v) /\
    exists j r, rdevs h' !! j = Some r /\ ccuu r = u16 rdev /\ in_use r = true.
Proof.
  unfold guest_attach. intros E. destruct (pick_vdev _ _); [|done]. destruct (pick_sch _) as [n|] eqn:Es; [|done].
  apply first_free_least in Es as (_ & Hs & _).
  apply new_dedicated in E as [(_ & d & j & r & -> & <- & _ & Ht & Hu & Hj & _ & _ & _ & _ & Hr)|(Hret & _)]; [| |done|apply wrap_range; lia].
  - exists d. split_and!; try done. exists j, (RealDevice (u16 rdev) (r_type r) (r_model r) true). rewrite Hr. split; [|done].
    apply list_lookup_insert_eq. by eapply lookup_lt_Some.
  - exfalso. unfold ENOMEM, Spool.ENOENT, EBUSY in Hret. set_solver.
Qed.
End login.

Section finish.
Context (find_device_by_sch : Z -> option (Z -> Z + list Z)) (mem_ok : nat -> bool) (maxfill : nat).
Context (object : nat -> option (list Z)) (malloc_at : nat -> option Z) (garbage : nat -> nat -> list Z) (old_as : Z -> address_space).
Context (cpuid start_task shell_start : Z) (fuel : nat).

Abbreviation create c := (guest_create malloc_at garbage old_as cpuid (oper_userid c) start_task shell_start).
Abbreviation finish := (__finish_loading find_device_by_sch mem_ok maxfill object malloc_at garbage old_as cpuid start_task shell_start fuel).
Abbreviation config := (load_config find_device_by_sch mem_ok maxfill object malloc_at fuel).

(** a machine that is made is online, for a user of that name in the directory *)
Lemma created oper name rcon h v h' : guest_create malloc_at garbage old_as cpuid oper start_task shell_start name rcon h = Ret (Some v, h') ->
  v ∈ online h' /\ strings strcasecmp (u_userid (directory v)) name = Ret true.
Proof.
  unfold guest_create. intros E. apply bind_Ret in E as ([[e|v'] h1] & E & [= <- <-]). unfold guest_create_or in E.
  apply bind_Ret in E as ([r0 h0] & E0 & E). injection E0 as <- <-. apply bind_Ret in E as ([r1 h2] & E1 & E).
  destruct r1 as [e1|on]; [done|]. destruct on; [done|].
  apply bind_Ret in E as ([[e2|obj] h3] & _ & E); [done|]. apply bind_Ret in E as ([[e3|con] h4] & _ & E); [done|].
  apply bind_Ret in E as ([[e4|u] h5] & Eu & E); [done|]. split.
  - unfold make_vm in E. apply bind_Ret in E as ([[devs msgs] h6] & _ & E). apply bind_Ret in E as ([r6 h7] & E6 & E).
    apply must_Ret in E6 as [[pages a] ->]. apply bind_Ret in E as ([r7 h8] & E7 & E). apply must_Ret in E7 as [[[[page c] st] task] ->].
    injection E as <- <-. cbn. apply elem_of_app. right. by left.
  - assert (directory v' = u) as ->.
    { unfold make_vm in E. apply bind_Ret in E as ([[devs msgs] h6] & _ & E). apply bind_Ret in E as ([r6 h7] & E6 & E).
      apply must_Ret in E6 as [[pages a] ->]. apply bind_Ret in E as ([r7 h8] & E7 & E). apply must_Ret in E7 as [[[[page c] st] task] ->].
      by injection E as <- <-. }
    unfold undo in Eu. apply bind_Ret in Eu as ([r h6] & Ef & Eu). unfold find_user_by_id in Ef. apply bind_Ret in Ef as (o & Ef & [= <- <-]).
    destruct o as [u'|].
    + injection Eu as <- <-. by apply find_user_some in Ef as [_ Ef].
    + apply bind_Ret in Eu as ([[] ?] & _ & Eu); [done|]. discriminate Eu.
Qed.

Lemma replaced w v h : w ∈ online h -> Create.object v = Create.object w -> v ∈ online (replace_vm v h).
Proof. intros Hw Ho. cbn. apply list_elem_of_fmap. exists w. rewrite Ho, Z.eqb_refl. done. Qed.

(** *LOGIN as the last task leaves it *)
Record ready (c : sysconf) (v : vm) (h : kernel) : Prop := Ready {
  rd_online : v ∈ online h;
  rd_name : strings strcasecmp (u_userid (directory v)) (zs "*LOGIN") = Ret true;
  rd_operating : state (vcpu v) = GUEST_OPERATING;
  rd_console : exists ds d, vm_devs v = ds ++ [d] /\ vtype d = VDEV_DED /\ u d = Dedicate (u16 (oper_con c)) /\ sch d ∉ map sch ds;
  rd_taken : exists j r, rdevs h !! j = Some r /\ ccuu r = u16 (oper_con c) /\ in_use r = true;
}.

(** the system of *LOGIN is there *)
Definition loads (dev : Z -> Z + list Z) (f : Edf.fs) (cr1 : Z) (v : vm) (s : Edf.disk) (h : kernel) (i : ipl) : Prop :=
  guest_ipl_nss dev mem_ok f (lrag (Dat.storage (mm h))) (Create.as_ v) login_name 0 (Ipl (running v h) s cr1) = Ret (0, i).

Lemma load_login_spec dev f cr1 v s h i : loads dev f cr1 v s h i -> v ∈ online h ->
  exists v' h', load_login mem_ok dev f cr1 v s h = Ret (v', h', sysfs i) /\ v' ∈ online h' /\ directory v' = directory v /\
    state (vcpu v') = GUEST_OPERATING /\ rdevs h' = rdevs h /\ Create.mallocs h' = Create.mallocs h /\ vm_devs v' = virt_devs (sys i).
Proof.
  unfold loads, load_login. intros E Hv. rewrite E. cbn [mbind outcome_bind].
  destruct (ipl_outcome _ _ _ _ _ _ _ _ _ _ E) as [[_ Hs]|[[H0|[H0|H0]] _]]; [|done..].
  cbn [Z.eqb negb]. unfold guest_begin. cbn [mbind guest_bind get_sys]. unfold mbind, guest_bind, get_sys. cbn [mbind outcome_bind]. rewrite Hs. cbn.
  eexists _, _. split; [done|]. split_and!; try done. eapply (replaced v); [exact Hv|done].
Qed.

Context (Hgarbage : forall i, struct_ok 28 (garbage i pmcw_size)).

Lemma ready_attached c v h devs h' : v ∈ online h -> strings strcasecmp (u_userid (directory v)) (zs "*LOGIN") = Ret true -> state (vcpu v) = GUEST_OPERATING ->
  guest_attach malloc_at garbage v (oper_con c) (2 ^ 64 - 1) h = Ret (0, devs, h') -> ready c (with_devs devs v) (replace_vm (with_devs devs v) h').
Proof.
  intros Hv Hn Ho E. destruct (attach_kept _ _ _ _ _ _ _ _ _ E) as [Eo _].
  destruct (attach_done _ _ Hgarbage _ _ _ _ _ E) as (d & -> & Ht & Hu & Hs & j & r & Hj & Hc & Hi). split; try done.
  - eapply (replaced v); [by rewrite Eo|done].
  - by exists (vm_devs v), d.
  - by exists j, r.
Qed.

(** Whenever the last task returns, *LOGIN is ready: every other end stops the system. *)
Theorem finish_only_ready iplsch cr1 cr14 clk s h v c h' s' cr' t : finish iplsch cr1 cr14 clk s h = Ret (v, c, h', s', cr', t) -> ready c v h'.
Proof.
  unfold __finish_loading. intros E. apply bind_Ret in E as ([[[[e|f] c1] h1] s1] & _ & E); [done|].
  destruct (find_device_by_sch iplsch) as [dev|]; [|done]. apply bind_Ret in E as (h2 & _ & E).
  apply bind_Ret in E as ([[v0|] h3] & Ev & E); [|done]. apply bind_Ret in E as ([[v1 h4] s4] & El & E).
  apply bind_Ret in E as ([[ret ds] h5] & Ea & E). destruct (Z.eqb_spec ret 0) as [->|]; [|done]. cbn [negb] in E.
  apply bind_Ret in E as ([cc t1] & _ & E). injection E as <- <- <- <- _ _.
  destruct (created _ _ _ _ _ _ Ev) as [Hv Hn].
  assert (exists i, loads dev f cr1 v0 s1 h3 i) as [i Hi].
  { unfold load_login in El. apply bind_Ret in El as ([ret i] & Ei & El). destruct (Z.eqb_spec ret 0) as [->|]; [|done]. by exists i. }
  destruct (load_login_spec _ _ _ _ _ _ _ Hi Hv) as (v' & h' & E' & Hv' & Hd & Ho & _). rewrite E' in El. injection El as <- <- <-.
  apply (ready_attached c1 v' h'); try done. by rewrite Hd.
Qed.

(** C9: When the configuration is read, *LOGIN can be made, its system loads and the operator's console is a real device that is
    free, the last task of the start of the system returns, with *LOGIN online and operating and the console, now in use, its last
    device, channel report words enabled in control register 14 and the time read from the clock. *)
Theorem login_started iplsch cr1 cr14 clk s h dev f c h1 s1 h2 v0 h3 i :
  find_device_by_sch iplsch = Some dev ->
  config iplsch s h = Ret (inr f, c, h1, s1) -> __add_internal_users malloc_at h1 = Ret h2 -> create c (zs "*LOGIN") None h2 = Ret (Some v0, h3) ->
  loads dev f cr1 v0 s1 h3 i -> lenZ (virt_devs (sys i)) < 65536 -> can_attach malloc_at (oper_con c) h3 ->
  exists v h' t, finish iplsch cr1 cr14 clk s h = Ret (v, c, h', sysfs i, Z.lor cr14 (2 ^ 28), t) /\ ready c v h' /\
    get_parsed_tod clk ipltime0 = Ret (clk.1, t).
Proof.
  intros Hd Hc Hi Hv Hl Hlen Ha. destruct (created _ _ _ _ _ _ Hv) as [Hon Hn].
  destruct (load_login_spec _ _ _ _ _ _ _ Hl Hon) as (v & h4 & E & Hon' & Hdir & Ho & Hr & Hm & Hdevs).
  assert (can_attach malloc_at (oper_con c) h4) as Ha' by (unfold can_attach; by rewrite Hr, Hm).
  destruct (attach_some malloc_at garbage v (oper_con c) h4) as (ds & h5 & Eat); [by rewrite Hdevs|done|].
  destruct (get_parsed_tod_total clk ipltime0) as [t Et].
  exists (with_devs ds v), (replace_vm (with_devs ds v) h5), t. split; [|split; [|exact Et]]; [|apply (ready_attached c v h4); try done; by rewrite Hdir].
  unfold __finish_loading. rewrite Hc. cbn [mbind outcome_bind]. rewrite Hd, Hi. cbn [mbind outcome_bind]. rewrite Hv. cbn [mbind outcome_bind].
  rewrite E. cbn [mbind outcome_bind]. rewrite Eat. cbn [mbind outcome_bind Z.eqb negb]. by rewrite Et.
Qed.
End finish.

(** ** A system of the configuration and directory of the source *)

Definition boot_logo : list (list Z) := map card ["H V F"; "A HYPERVISOR"]%string.

(** the volume with a logo and a system for *LOGIN *)
Definition boot_dev (lba : Z) : Z + list Z :=
  if lba =? 5 then
    match system_dev sample_config sample_directory 5 with
    | inr b => inr (pad_block (take 256 b ++ sample_FST (ebc8 "LOGIN   ") (ebc8 "NSS     ") 4096 10 1 1 0 ++ sample_FST (ebc8 "HVF     ") (ebc8 "LOGO    ") 80 11 1 2 0))
    | inl e => inl e
    end
  else if lba =? 10 then inr sample_image
  else if lba =? 11 then inr (pad_block (concat boot_logo))
  else system_dev sample_config sample_directory lba.

Definition boot_find (sch : Z) : option (Z -> Z + list Z) := if sch =? 0x10009 then Some boot_dev else None.
Definition no_as (obj : Z) : address_space := AddressSpace 0 0.
Definition boot_kernel : kernel := set_users [] sample_kernel.

Abbreviation with_boot f := (f boot_find (fun _ => true) 10%nat zeros16 sample_malloc (fun _ n => zeros n) no_as 0x1234 0x5000 0x6000 100%nat).
Abbreviation boot_config := (load_config boot_find (fun _ => true) 10 zeros16 sample_malloc 100 0x10009 sample_start boot_kernel).

Definition configured (o : outcome ((Z + Edf.fs) * sysconf * kernel * Edf.disk)) : Edf.fs * sysconf * kernel * Edf.disk :=
  match o with Ret (inr f, c, h, s) => (f, c, h, s) | _ => (system_fs, sysconf0, boot_kernel, sample_start) end.
Definition the_config := configured boot_config.

Lemma the_config_ok : match boot_config with Ret (inr _, _, _, _) => true | _ => false end = true.
Proof. vm_compute. reflexivity. Qed.

Definition boot_c := the_config.1.1.2.
Definition boot_h2 : kernel := match __add_internal_users sample_malloc the_config.1.2 with Ret h => h | _ => boot_kernel end.
Definition boot_made : outcome (option vm * kernel) :=
  guest_create sample_malloc (fun _ n => zeros n) no_as 0x1234 (oper_userid boot_c) 0x5000 0x6000 (zs "*LOGIN") None boot_h2.
Definition made (o : outcome (option vm * kernel)) : vm * kernel := match o with Ret (Some v, h) => (v, h) | _ => (sample_vm, boot_kernel) end.
Definition boot_vm : vm * kernel := made boot_made.
Definition boot_ipl : outcome (Z * ipl) :=
  guest_ipl_nss boot_dev (fun _ => true) the_config.1.1.1 (lrag (Dat.storage (mm boot_vm.2))) (Create.as_ boot_vm.1) login_name 0
    (Ipl (running boot_vm.1 boot_vm.2) the_config.2 0).
Definition loaded (d : ipl) (o : outcome (Z * ipl)) : ipl := match o with Ret (_, i) => i | _ => d end.
Definition boot_i : ipl := loaded (Ipl (running boot_vm.1 boot_vm.2) the_config.2 0) boot_ipl.

(** what is computed: each part is there *)
Lemma boot_parts :
  match __add_internal_users sample_malloc the_config.1.2 with Ret _ => true | _ => false end = true /\
  match boot_made with Ret (Some _, _) => true | _ => false end = true /\
  match boot_ipl with Ret (r, _) => r =? 0 | _ => false end = true /\
  (lenZ (virt_devs (sys boot_i)) <? 65536) = true /\
  match list_find (fun r => ccuu r = u16 (oper_con boot_c)) (rdevs boot_vm.2) with Some (_, r) => negb (in_use r) | None => false end = true.
Proof. vm_compute. split_and!; reflexivity. Qed.

Lemma boot_config_ok : boot_config = Ret (inr the_config.1.1.1, boot_c, the_config.1.2, the_config.2).
Proof. pose proof the_config_ok as Hc. unfold boot_c, the_config. destruct boot_config as [[[[[e|f] c] h] s]| |]; [discriminate Hc|reflexivity|discriminate Hc..]. Qed.

Lemma boot_users_ok : __add_internal_users sample_malloc the_config.1.2 = Ret boot_h2.
Proof. destruct boot_parts as (H & _). unfold boot_h2. destruct (__add_internal_users _ _); [reflexivity|discriminate H..]. Qed.

Lemma boot_made_ok : boot_made = Ret (Some boot_vm.1, boot_vm.2).
Proof. destruct boot_parts as (_ & H & _). unfold boot_vm. destruct boot_made as [[[v|] h]| |]; [reflexivity|discriminate H..]. Qed.

Lemma boot_ipl_ok : boot_ipl = Ret (0, boot_i).
Proof.
  destruct boot_parts as (_ & _ & H & _). unfold boot_i. destruct boot_ipl as [[r i]| |]; [|discriminate H..].
  apply Z.eqb_eq in H. by rewrite H.
Qed.

Lemma boot_console_ok : can_attach sample_malloc (oper_con boot_c) boot_vm.2.
Proof.
  destruct boot_parts as (_ & _ & _ & _ & H). split; [eexists; reflexivity|]. destruct (list_find _ _) as [[j r]|]; [|discriminate H].
  exists j, r. split; [reflexivity|]. by apply negb_true_iff.
Qed.

(** the clock is set, to the first second of 2009 *)
Definition boot_clock : Z * Z := (0, 0xC3870CB9BB600000).

Lemma login_started_witness : exists v h' s' t,
  with_boot __finish_loading 0x10009 0 0xc2000000 boot_clock sample_start boot_kernel = Ret (v, boot_c, h', s', 0xd2000000, t) /\ t = Datetime 2009 1 1 0 0 0 0 /\ state (vcpu v) = GUEST_OPERATING /\ v ∈ online h' /\
  exists ds d, vm_devs v = ds ++ [d] /\ u d = Dedicate (u16 (oper_con boot_c)).
Proof.
  destruct (login_started boot_find (fun _ => true) 10 zeros16 sample_malloc (fun _ n => zeros n) no_as 0x1234 0x5000 0x6000 100 (fun i => zeros_ok 28)
    0x10009 0 0xc2000000 boot_clock sample_start boot_kernel boot_dev the_config.1.1.1 boot_c the_config.1.2 the_config.2 boot_h2 boot_vm.1 boot_vm.2 boot_i
    eq_refl boot_config_ok boot_users_ok boot_made_ok boot_ipl_ok) as (v & h' & t & E & R & Et).
  - apply Z.ltb_lt. by destruct boot_parts as (_ & _ & _ & H & _).
  - exact boot_console_ok.
  - exists v, h', (sysfs boot_i), t. vm_compute in Et. destruct R as [R1 _ R3 (ds & d & Hd & _ & Hdu & _) _]. split; [exact E|]. split; [by injection Et|]. split; [exact R3|]. split; [exact R1|].
    exists ds, d. split; [exact Hd|exact Hdu].
Defined.

(** the system's configuration, the users, and the logo with its lines *)
Example boot_configured :
  (oper_con boot_c, map u_userid (users boot_h2), map (fun l => map (take 13) (l_lines l)) (logos boot_c)) =
    (9, map zs ["OPERATOR"; "OBIWAN"; "*LOGIN"]%string, [map zs ["H V F        "; "A HYPERVISOR "]%string]).
Proof. vm_compute. reflexivity. Qed.

(** no disk on the subchannel, or a volume without the system of *LOGIN: the system stops *)
Example boot_stops :
  with_boot __finish_loading 0x10008 0 0 boot_clock sample_start boot_kernel = Stopped /\
  __finish_loading (fun _ => Some (system_dev sample_config sample_directory)) (fun _ => true) 10 zeros16 sample_malloc (fun _ n => zeros n) no_as 0x1234 0x5000 0x6000 100
    0x10009 0 0 boot_clock sample_start boot_kernel = Stopped.
Proof. split; vm_compute; reflexivity. Qed.
