(* ===== verification/Screen.v ===== *)
(** nss/debuggers/src/debug.c: the screen of the stand-alone debugger, a 3270 data stream.

    The helpers write at a place of [buf] and return how far they got; here each is the
    bytes it writes, and [place] puts them in the buffer of 24 by 80 bytes and counts, with
    an access behind its end undefined.  What a display does with the stream (the orders
    SBA, SF and IC, data at the next address, after an Erase/Write) is [display], from the
    description of the 3270.  The theorem: the drawing ends within the buffer, and
    the screen has the digits of every register at its place, so that they can be read
    back. *)

From S2P Require Import Prelude.

Local Open Scope Z_scope.

(** * Orders and strings *)

Definition WE : Z := 0x05.
Definition SBA : Z := 0x11.
Definition IC : Z := 0x13.
Definition SF : Z := 0x1d.

Definition start_field (prot num highlight sel : bool) : list Z :=
  let attr := 0xc0 in
  let attr := if prot then Z.lor attr 0x20 else attr in
  let attr := if num then Z.lor attr 0x10 else attr in
  let attr := if highlight then Z.lor attr 0x08 else if sel then Z.lor attr 0x04 else attr in
  [SF; attr].

Definition insert_cur : list Z := [IC].

Definition set_addr (r c : Z) : list Z := [SBA; (r * 80 + c) / 256; (r * 80 + c) mod 256].

Definition __ebc_dig (d : Z) : Z := if d <? 10 then u8 (0xf0 + d) else u8 (0xc1 - 10 + d).

(** [i] from [width] down to 4, [n] digits left *)
Fixpoint hex_from (n : nat) (v : Z) : list Z :=
  match n with
  | O => []
  | S n => __ebc_dig (Z.land (Z.shiftr v (4 * Z.of_nat n)) 0xf) :: hex_from n v
  end.

Definition place_hex (v width : Z) : list Z := hex_from (Z.to_nat (width / 4)) v.

(** from the right; the first place always has a digit *)
Fixpoint int_from (n : nat) (first : bool) (v : Z) (right : list Z) : list Z :=
  match n with
  | O => right
  | S n => if negb (v =? 0) || first then int_from n false (v / 10) (__ebc_dig (v mod 10) :: right) else int_from n false v (0x40 :: right)
  end.

Definition place_int (v width : Z) : list Z := int_from (Z.to_nat width) true v [].

Definition rule : list Z := 0x4e :: replicate 78 0x60 ++ [0x4e].
Definition prompt : list Z := [0x7e; 0x7e; 0x7e; 0x6e].
Definition mode : list (list Z) := [[0xe2; 0x61; 0xf3; 0xf9; 0xf0]; [0xc5; 0xe2; 0xc1; 0xd4; 0xc5]].
Definition as_ : list (list Z) := [[0xd7]; [0xc1]; [0xe2]; [0xc8]].
Definition amode : list (list Z) := [[0xf2; 0xf4]; [0xf0; 0xf0]; [0xf3; 0xf1]; [0xf6; 0xf4]].

(** * The state shown *)

Record state := State { S_mode : bool; S_psw : list Z; S_gpr : list Z; S_cr : list Z }.

Definition reg (l : list Z) (i : nat) : Z := default 0 (l !! i).

(** * The drawing *)

Definition BUF_SIZE : Z := 24 * 80.

(** the buffer and [len] *)
Definition buffer : Type := list Z * Z.

(** bytes at [&buf[len]], and the result of the helper added to [len] *)
Definition place (bs : list Z) (ret : Z) : buffer -> outcome buffer := fun '(b, len) =>
  if (0 <=? len) && (len + lenZ bs <=? lenZ b) then Ret (take (Z.to_nat len) b ++ bs ++ drop (Z.to_nat (len + lenZ bs)) b, len + ret) else Undef.

Definition field (prot num highlight sel : bool) := place (start_field prot num highlight sel) 2.
Definition cur := place insert_cur 1.
Definition addr (r c : Z) := place (set_addr r c) 3.
Definition hex (v width : Z) := place (place_hex v width) (width / 8 * 2).
Definition int_ (v width : Z) := place (place_int v width) width.

(** [memcpy] of [len] bytes of a string constant, with its terminator *)
Definition str (s : list Z) (len : Z) : buffer -> outcome buffer := fun b =>
  if len <=? lenZ s + 1 then place (take (Z.to_nat len) (s ++ [0])) len b else Undef.

Definition then_ (f g : buffer -> outcome buffer) : buffer -> outcome buffer := fun b => b ← f b; g b.
Infix ";;;" := then_ (at level 62, right associativity).

Definition skip : buffer -> outcome buffer := fun b => Ret b.

Definition HL_REG (x : nat) : Z := Z.shiftl 1 (Z.of_nat x).
Definition HL_NONE : Z := 0.

Definition lit (mask : Z) (i : nat) : bool := negb (Z.land (HL_REG i) mask =? 0).

(** registers [i], [i + 1], ..., [n] of them *)
Fixpoint xrs64 (n i : nat) (regs : list Z) (mask : Z) : buffer -> outcome buffer :=
  match n with
  | O => skip
  | S n =>
      int_ (Z.of_nat i) 2 ;;; field false false (lit mask i) false ;;; hex (reg regs i) 64 ;;; field true false false true ;;;
      xrs64 n (S i) regs mask
  end.

Fixpoint xrs32 (n i : nat) (regs : list Z) (mask : Z) : buffer -> outcome buffer :=
  match n with
  | O => skip
  | S n =>
      (if (i =? 0)%nat then str [0x40; 0x40; 0xf0; 0x40] 4 else skip) ;;;
      (if (i =? 8)%nat then field true false false true ;;; str [0x40; 0x40; 0x40; 0x40; 0x40; 0xf8; 0x40] 7 else skip) ;;;
      field false false (lit mask i) false ;;; hex (Z.land (reg regs i) 0xffffffff) 32 ;;;
      xrs32 n (S i) regs mask
  end.

Definition place_xrs (mode : bool) (regs : list Z) (mask : Z) : buffer -> outcome buffer :=
  if mode then xrs64 16 0 regs mask
  else xrs32 16 0 regs mask ;;; field true false false true ;;; str [0x40; 0x40; 0x40] 3.

Definition bit (w mask : Z) : bool := negb (Z.land w mask =? 0).

Definition entry (l : list (list Z)) (i : Z) (len : Z) : buffer -> outcome buffer :=
  match aget l i with Some s => str s len | None => fun _ => Undef end.

(** the values [full_draw] stores first *)
Definition marked (s : state) : state :=
  State (S_mode s) (S_psw s) (<[9%nat := 1985]> (<[3%nat := 1980]> (<[1%nat := 0xcafebabedeadbeef]> (S_gpr s)))) (<[0%nat := 0xdeadbeefcafebabe]> (S_cr s)).

(** the stream before [write]; [buf] is static *)
Definition draw (s : state) : buffer -> outcome buffer :=
  let m := S_mode s in
  let psw := reg (S_psw s) in
  place [WE; 0xf7] 2 ;;;
  addr 0 0 ;;; str rule 80 ;;;
  field false false false true ;;; hex (psw 0%nat) 32 ;;;
  field false false false true ;;; hex (psw 1%nat) 32 ;;;
  (if m then field false false false true ;;; hex (psw 2%nat) 32 ;;; field false false false true ;;; hex (psw 3%nat) 32 else skip) ;;;
  field true false false false ;;;
  str (if bit (psw 0%nat) 0x40000000 then [0xd9] else [0x4b]) 1 ;;;
  str (if bit (psw 0%nat) 0x04000000 then [0xe3] else [0x4b]) 1 ;;;
  str (if bit (psw 0%nat) 0x02000000 then [0xc9] else [0x4b]) 1 ;;;
  str (if bit (psw 0%nat) 0x01000000 then [0xc5] else [0x4b]) 1 ;;;
  str (if bit (psw 0%nat) 0x00040000 then [0xd4] else [0x4b]) 1 ;;;
  str (if bit (psw 0%nat) 0x00020000 then [0xe5] else [0x4b]) 1 ;;;
  str (if bit (psw 0%nat) 0x00010000 then [0xd7] else [0x4b]) 1 ;;;
  str [0x40; 0xd2; 0x85; 0xa8; 0x7a] 5 ;;;
  int_ (Z.land (Z.shiftr (psw 0%nat) 20) 0xf) 2 ;;;
  str [0x40; 0xc1; 0xe2; 0x7a] 4 ;;;
  (if bit (psw 0%nat) 0x40000000 then entry as_ (Z.shiftr (Z.land (psw 0%nat) 0x0000c000) 14) 1 else str [0xd9] 1) ;;;
  entry amode (Z.lor (Z.land (psw 0%nat) 1) (Z.shiftr (Z.land (psw 1%nat) 0x80000000) 30)) 2 ;;;
  str [0x40; 0xc3; 0xc3; 0x7a] 4 ;;;
  int_ (Z.land (Z.shiftr (psw 0%nat) 12) 3) 1 ;;;
  addr 1 75 ;;; entry mode (if m then 1 else 0) 5 ;;;
  str rule 80 ;;; place_xrs m (S_gpr s) (HL_REG 10) ;;;
  str rule 80 ;;; place_xrs m (S_cr s) HL_NONE ;;;
  str rule 80 ;;;
  addr 23 0 ;;; field true false true false ;;; str prompt 5 ;;; field false false false true ;;; cur ;;;
  addr 23 77 ;;; field true false false false ;;;
  place [0xff] 1 ;;; place [0xef] 1.

(** what [write] is given *)
Definition full_draw (s : state) (buf : list Z) : outcome (list Z) :=
  '(b, len) ← draw (marked s) (buf, 0); Ret (take (Z.to_nat len) b).

Definition no_regs := State true [0;0;0;0] (replicate 16 0) (replicate 16 0).

(** * A display *)

Inductive cell := Null | Char (c : Z) | Attr (a : Z).

Record screen := Screen { cells : list cell; at_ : Z; cursor : Z }.

Definition blank : screen := Screen (replicate 1920 Null) 0 0.

Definition write_cell (c : cell) (d : screen) : screen :=
  Screen (<[Z.to_nat (at_ d) := c]> (cells d)) ((at_ d + 1) mod 1920) (cursor d).

(** 14 bits, or 12 bits in two parts *)
Definition buffer_address (x y : Z) : Z := if x <? 64 then 256 * x + y else 64 * Z.land x 63 + Z.land y 63.

(** orders and data *)
Fixpoint display (bs : list Z) (d : screen) : screen :=
  match bs with
  | [] => d
  | b :: r =>
      if b =? SBA then match r with x :: y :: r => display r (Screen (cells d) (buffer_address x y) (cursor d)) | _ => d end
      else if b =? SF then match r with a :: r => display r (write_cell (Attr a) d) | _ => d end
      else if b =? IC then display r (Screen (cells d) (at_ d) (at_ d))
      else display r (write_cell (Char b) d)
  end.

(** Erase/Write: the first byte is the write control character *)
Definition erase_write (bs : list Z) : screen := display (tail bs) blank.

(** the value of [n] hexadecimal digits from [pos] on *)
Definition ebc_val (c : Z) : Z := if 0xf0 <=? c then c - 0xf0 else c - 0xc1 + 10.

Definition read_hex (d : screen) (pos n : nat) : option Z :=
  foldl (fun v k => v ← v; match cells d !! (pos + k)%nat with Some (Char c) => Some (16 * v + ebc_val c) | _ => None end) (Some 0) (seq 0 n).

(** ** What a stream puts on the screen *)

Inductive item := Put (c : cell) | Goto (n : Z) | Cursor.

Definition encode1 (i : item) : list Z :=
  match i with
  | Put (Char c) => [c]
  | Put (Attr a) => [SF; a]
  | Put Null => [0]
  | Goto n => [SBA; n / 256; n mod 256]
  | Cursor => [IC]
  end.

Definition encode (l : list item) : list Z := l ≫= encode1.

Definition text (bs : list Z) : list item := map (fun c => Put (Char c)) bs.

Definition item_ok (i : item) : Prop :=
  match i with
  | Put (Char c) => c <> SBA /\ c <> SF /\ c <> IC
  | Put Null => False
  | Goto n => 0 <= n < 1920
  | _ => True
  end.

Definition do_item (d : screen) (i : item) : screen :=
  match i with
  | Put c => write_cell c d
  | Goto n => Screen (cells d) n (cursor d)
  | Cursor => Screen (cells d) (at_ d) (at_ d)
  end.

Lemma encode_app l1 l2 : encode (l1 ++ l2) = encode l1 ++ encode l2.
Proof. apply bind_app. Qed.

Lemma encode_text bs : encode (text bs) = bs.
Proof. induction bs as [|b bs IH]; [done|]. cbn. f_equal. exact IH. Qed.

Lemma display_items l rest d : Forall item_ok l -> display (encode l ++ rest) d = display rest (foldl do_item d l).
Proof.
  intros H. revert d. induction l as [|i l IH]; intros d; [done|]. apply Forall_cons in H as [Hi H]. specialize (IH H).
  unfold encode. rewrite bind_cons, <- app_assoc. fold (encode l). cbn [foldl]. rewrite <- IH.
  destruct i as [[|c|a]|n|]; cbn [encode1 app do_item]; [done| |done| |done].
  - destruct Hi as (H1 & H2 & H3). cbn [display]. by rewrite (proj2 (Z.eqb_neq _ _) H1), (proj2 (Z.eqb_neq _ _) H2), (proj2 (Z.eqb_neq _ _) H3).
  - cbn [item_ok] in Hi. cbn [display]. change (SBA =? SBA) with true. cbn iota. unfold buffer_address. destruct (Z.ltb_spec (n / 256) 64); [|divlia].
    do 3 f_equal. divlia.
Qed.

(** where things come to be, when the address never goes back *)
Fixpoint layout (p : Z) (l : list item) : list (Z * cell) :=
  match l with
  | [] => []
  | Put c :: l => (p, c) :: layout (p + 1) l
  | Goto n :: l => layout n l
  | Cursor :: l => layout p l
  end.

Fixpoint next (p : Z) (l : list item) : Z :=
  match l with
  | [] => p
  | Put _ :: l => next (p + 1) l
  | Goto n :: l => next n l
  | Cursor :: l => next p l
  end.

Fixpoint forward (p : Z) (l : list item) : bool :=
  match l with
  | [] => true
  | Put _ :: l => (p <? 1920) && forward (p + 1) l
  | Goto n :: l => (p <=? n) && (n <? 1920) && forward n l
  | Cursor :: l => forward p l
  end.

Lemma layout_app l1 l2 p : layout p (l1 ++ l2) = layout p l1 ++ layout (next p l1) l2.
Proof. revert p. induction l1 as [|[] l1 IH]; intros p; cbn; by rewrite ?IH. Qed.

Lemma next_app l1 l2 p : next p (l1 ++ l2) = next (next p l1) l2.
Proof. revert p. induction l1 as [|[] l1 IH]; intros p; cbn; by rewrite ?IH. Qed.

Lemma forward_app l1 l2 p : forward p (l1 ++ l2) = forward p l1 && forward (next p l1) l2.
Proof. revert p. induction l1 as [|[] l1 IH]; intros p; cbn; rewrite ?IH, ?andb_assoc; done. Qed.

Lemma next_text bs p : next p (text bs) = p + lenZ bs.
Proof. revert p. induction bs as [|b bs IH]; intros p; cbn [text map next]; [unfold lenZ; cbn; lia|]. fold (text bs). rewrite IH. unfold lenZ. cbn [length]. lia. Qed.

Lemma forward_text bs p : p + lenZ bs <= 1920 -> forward p (text bs) = true.
Proof.
  revert p. induction bs as [|b bs IH]; intros p H; [done|]. cbn [text map forward]. fold (text bs). unfold lenZ in *. cbn [length] in *.
  rewrite IH by lia. rewrite (proj2 (Z.ltb_lt _ _)) by lia. done.
Qed.

Lemma layout_text bs p k b : bs !! k = Some b -> (p + Z.of_nat k, Char b) ∈ layout p (text bs).
Proof.
  revert p k. induction bs as [|x bs IH]; intros p [|k] H; [done..| |]; cbn [text map layout].
  - injection H as ->. rewrite Z.add_0_r. by left.
  - right. replace (p + Z.of_nat (S k)) with (p + 1 + Z.of_nat k) by lia. by apply IH.
Qed.

Lemma display_layout l p d : forward p l = true -> 0 <= p -> at_ d = p mod 1920 -> length (cells d) = 1920%nat ->
  let d' := foldl do_item d l in
  length (cells d') = 1920%nat /\ (forall q, 0 <= q < p -> cells d' !! Z.to_nat q = cells d !! Z.to_nat q) /\
  forall q c, (q, c) ∈ layout p l -> cells d' !! Z.to_nat q = Some c.
Proof.
  revert p d. induction l as [|[c|n|] l IH]; intros p d Hf Hp Ha Hl; cbn [foldl layout forward] in *.
  - split_and!; [done|done|]. intros q c ?%elem_of_nil. done.
  - apply andb_true_iff in Hf as [Hlt%Z.ltb_lt Hf]. rewrite Z.mod_small in Ha by lia.
    destruct (IH (p + 1) (do_item d (Put c)) Hf ltac:(lia)) as (H1 & H2 & H3).
    { cbn. by rewrite Ha. }
    { cbn. by rewrite length_insert. }
    cbn [do_item write_cell cells at_] in *. rewrite Ha in *. split; [done|]. split.
    + intros q Hq. rewrite H2 by lia. apply list_lookup_insert_ne. lia.
    + intros q c' [[= -> ->]|Hin]%elem_of_cons; [|by apply H3]. rewrite H2 by lia. apply list_lookup_insert_eq. lia.
  - apply andb_true_iff in Hf as [[Hle%Z.leb_le Hlt%Z.ltb_lt]%andb_true_iff Hf].
    destruct (IH n (do_item d (Goto n)) Hf ltac:(lia)) as (H1 & H2 & H3); [cbn; by rewrite Z.mod_small by lia|done|].
    split; [done|]. split; [|done]. intros q Hq. by rewrite H2 by lia.
  - destruct (IH p (do_item d Cursor) Hf Hp Ha Hl) as (H1 & H2 & H3). done.
Qed.

(** ** The items of the drawing *)

(** [f] writes the bytes of [l] and counts them *)
Definition writes (f : buffer -> outcome buffer) (l : list item) : Prop :=
  forall b len, 0 <= len -> length b = 1920%nat -> len + lenZ (encode l) <= 1920 ->
    exists b', f (b, len) = Ret (b', len + lenZ (encode l)) /\ length b' = 1920%nat /\ take (Z.to_nat (len + lenZ (encode l))) b' = take (Z.to_nat len) b ++ encode l.

Lemma writes_place bs ret l : encode l = bs -> ret = lenZ bs -> writes (place bs ret) l.
Proof.
  intros <- -> b len H0 Hb Hl. pose proof (lenZ_nonneg (encode l)). unfold place.
  rewrite (proj2 (Z.leb_le 0 len)) by lia. rewrite (proj2 (Z.leb_le (len + _) _)) by (unfold lenZ at 2; lia). cbn [andb].
  eexists. split; [done|]. unfold lenZ in *. rewrite !length_app, length_take, length_drop. split; [lia|].
  rewrite app_assoc, take_app_length' by (rewrite length_app, length_take; lia). done.
Qed.

Lemma writes_then f g l1 l2 : writes f l1 -> writes g l2 -> writes (then_ f g) (l1 ++ l2).
Proof.
  intros Hf Hg b len H0 Hb Hl. rewrite encode_app in *. pose proof (lenZ_nonneg (encode l1)). pose proof (lenZ_nonneg (encode l2)).
  assert (lenZ (encode l1 ++ encode l2) = lenZ (encode l1) + lenZ (encode l2)) as El by (unfold lenZ; rewrite length_app; lia).
  destruct (Hf b len H0 Hb) as (b1 & E1 & Hb1 & T1); [lia|]. destruct (Hg b1 (len + lenZ (encode l1))) as (b2 & E2 & Hb2 & T2); [lia|done|lia|].
  unfold then_. rewrite E1. cbn [mbind outcome_bind]. rewrite E2, El, Z.add_assoc. exists b2. split; [done|]. split; [done|].
  by rewrite T2, T1, app_assoc.
Qed.

Lemma writes_skip : writes skip [].
Proof. intros b len H0 Hb Hl. exists b. unfold skip. cbn. rewrite Z.add_0_r, app_nil_r. done. Qed.

Lemma writes_str s len : (Z.to_nat len <= length s)%nat -> 0 <= len -> writes (str s len) (text (take (Z.to_nat len) s)).
Proof.
  intros Hl H0. unfold writes, str. intros b n Hn Hb Hfit. rewrite (proj2 (Z.leb_le _ _)) by (unfold lenZ; lia).
  apply (writes_place _ len); try done; rewrite ?encode_text, take_app_le by lia; [done|]. unfold lenZ. rewrite length_take. lia.
Qed.

(** ** Digits *)

Lemma hex_length n v : length (hex_from n v) = n.
Proof. induction n; cbn; congruence. Qed.

Lemma int_length n first v r : length (int_from n first v r) = (n + length r)%nat.
Proof. revert first v r. induction n as [|n IH]; intros; cbn [int_from]; [done|]. case_match; rewrite IH; cbn; lia. Qed.

(** bytes that are no orders *)
Definition data (c : Z) : Prop := 0x40 <= c.

Lemma data_ok bs : Forall data bs -> Forall item_ok (text bs).
Proof. intros H. apply Forall_map. eapply Forall_impl; [exact H|]. intros c Hc. unfold data in Hc. cbn. unfold SBA, SF, IC. lia. Qed.

Lemma dig_data d : 0 <= d < 16 -> data (__ebc_dig d) /\ ebc_val (__ebc_dig d) = d.
Proof.
  intros Hd. unfold __ebc_dig, data, ebc_val. destruct (Z.ltb_spec d 10); rewrite wrap_small by lia; [rewrite (proj2 (Z.leb_le _ _)) by lia; lia|].
  destruct (Z.leb_spec 0xf0 (0xc1 - 10 + d)); lia.
Qed.

Lemma nibble v n : 0 <= Z.land (Z.shiftr v (4 * Z.of_nat n)) 0xf < 16.
Proof. change 0xf with (Z.ones 4). rewrite Z.land_ones by lia. apply Z.mod_pos_bound. lia. Qed.

Lemma hex_data n v : Forall data (hex_from n v).
Proof. induction n as [|n IH]; cbn [hex_from]; constructor; [|done]. apply dig_data, nibble. Qed.

Lemma int_data n first v r : Forall data r -> Forall data (int_from n first v r).
Proof.
  revert first v r. induction n as [|n IH]; intros first v r Hr; cbn [int_from]; [done|].
  case_match; apply IH; (constructor; [|done]); [apply dig_data; pose proof (Z.mod_pos_bound v 10); lia|unfold data; lia].
Qed.

(** the digits have the value *)
Lemma hex_value n v a : 0 <= v ->
  foldl (fun x c => 16 * x + ebc_val c) a (hex_from n v) = a * 16 ^ Z.of_nat n + v mod 16 ^ Z.of_nat n.
Proof.
  intros Hv. revert a. induction n as [|n IH]; intros a; [cbn; rewrite Z.mod_1_r; lia|]. cbn [hex_from foldl]. rewrite IH.
  destruct (dig_data _ (nibble v n)) as [_ ->]. change 0xf with (Z.ones 4). rewrite Z.land_ones, Z.shiftr_div_pow2 by lia.
  replace (2 ^ (4 * Z.of_nat n)) with (16 ^ Z.of_nat n) by (rewrite Z.pow_mul_r by lia; done).
  rewrite Nat2Z.inj_succ, Z.pow_succ_r by lia. pose proof (Z.pow_pos_nonneg 16 (Z.of_nat n) ltac:(lia) ltac:(lia)) as Hp. change (2 ^ 4) with 16.
  rewrite (Z.mul_comm 16 (16 ^ _)), Z.rem_mul_r by lia. lia.
Qed.

(** ** The whole drawing *)

Definition hex_item (v width : Z) : list item := text (place_hex v width).
Definition field_item (prot num highlight sel : bool) : list item := [Put (Attr (nth 1 (start_field prot num highlight sel) 0))].
Definition flag (b : bool) (c : Z) : list item := text [if b then c else 0x4b].

Fixpoint xrs64_items (n i : nat) (regs : list Z) (mask : Z) : list item :=
  match n with
  | O => []
  | S n =>
      text (place_int (Z.of_nat i) 2) ++ field_item false false (lit mask i) false ++ hex_item (reg regs i) 64 ++ field_item true false false true ++
      xrs64_items n (S i) regs mask
  end.

Lemma writes_field p n h s : writes (field p n h s) (field_item p n h s).
Proof. by apply writes_place. Qed.

Lemma writes_hex v width : width = 32 \/ width = 64 -> writes (hex v width) (hex_item v width).
Proof. intros [-> | ->]; (apply writes_place; [apply encode_text|]); unfold lenZ, place_hex; by rewrite hex_length. Qed.

Lemma writes_int v width : 0 <= width -> writes (int_ v width) (text (place_int v width)).
Proof. intros H. apply writes_place; [apply encode_text|]. unfold lenZ, place_int. rewrite int_length. cbn. lia. Qed.

Lemma writes_addr r c : writes (addr r c) [Goto (r * 80 + c)].
Proof. by apply writes_place. Qed.

Lemma writes_cur : writes cur [Cursor].
Proof. by apply writes_place. Qed.

Lemma writes_flag (b : bool) c : writes (str (if b then [c] else [0x4b]) 1) (flag b c).
Proof. destruct b; apply (writes_str [_] 1); cbn; lia. Qed.

Lemma writes_xrs64 n i regs mask : writes (xrs64 n i regs mask) (xrs64_items n i regs mask).
Proof.
  revert i. induction n as [|n IH]; intros i; cbn [xrs64 xrs64_items]; [apply writes_skip|].
  repeat apply writes_then; [apply writes_int; lia|apply writes_field|apply writes_hex; by right|apply writes_field|apply IH].
Qed.

(** the 4 entries of a table *)
Definition pick (l : list (list Z)) (i : Z) : list Z := default [] (aget l i).

Lemma aget_four (l : list (list Z)) i : length l = 4%nat -> 0 <= i < 4 -> exists s, aget l i = Some s /\ s ∈ l.
Proof.
  intros Hl Hi. destruct (proj2 (aget_is_Some l i)) as [s Hs]; [unfold lenZ; lia|]. exists s. split; [done|].
  apply aget_Some in Hs as [_ Hs]. by eapply list_elem_of_lookup_2.
Qed.

Lemma as_index w : 0 <= Z.shiftr (Z.land w 0x0000c000) 14 < 4.
Proof. rewrite Z.shiftr_land. change (Z.shiftr 0xc000 14) with (Z.ones 2). rewrite Z.land_ones by lia. apply Z.mod_pos_bound. lia. Qed.

Lemma amode_index w0 w1 : 0 <= Z.lor (Z.land w0 1) (Z.shiftr (Z.land w1 0x80000000) 30) < 4.
Proof.
  assert (0 <= Z.land w0 1 < 2) as H0 by (change 1 with (Z.ones 1); rewrite Z.land_ones by lia; apply Z.mod_pos_bound; lia).
  assert (Z.shiftr (Z.land w1 0x80000000) 30 = 0 \/ Z.shiftr (Z.land w1 0x80000000) 30 = 2) as H1.
  { assert (Z.land w1 0x80000000 = if Z.testbit w1 31 then 0x80000000 else 0) as ->; [|destruct (Z.testbit w1 31); [by right|by left]].
    apply Z.bits_inj'. intros n Hn. rewrite Z.land_spec. change 0x80000000 with (2 ^ 31). rewrite Z.pow2_bits_eqb by lia.
    destruct (Z.eqb_spec 31 n) as [<-|Hne]; destruct (Z.testbit w1 31) eqn:E; rewrite ?E, ?andb_false_r, ?Z.bits_0, ?Z.pow2_bits_eqb by lia; try done.
    by rewrite (proj2 (Z.eqb_neq _ _)). }
  assert (Z.land w0 1 = 0 \/ Z.land w0 1 = 1) as [-> | ->] by lia; destruct H1 as [-> | ->]; split; by vm_compute.
Qed.

Definition as_name (w : Z) : list Z := if bit w 0x40000000 then pick as_ (Z.shiftr (Z.land w 0x0000c000) 14) else [0xd9].
Definition amode_name (w0 w1 : Z) : list Z := pick amode (Z.lor (Z.land w0 1) (Z.shiftr (Z.land w1 0x80000000) 30)).

Lemma as_name_ok w : length (as_name w) = 1%nat /\ Forall data (as_name w).
Proof.
  unfold as_name, pick. destruct (bit _ _); [|split; [done|repeat constructor; unfold data; lia]].
  destruct (aget_four as_ _ eq_refl (as_index w)) as (s & -> & Hs). cbn. unfold as_ in Hs. rewrite !elem_of_cons in Hs.
  destruct_or! Hs; subst; try (split; [done|repeat constructor; unfold data; lia]). by apply elem_of_nil in Hs.
Qed.

Lemma amode_name_ok w0 w1 : length (amode_name w0 w1) = 2%nat /\ Forall data (amode_name w0 w1).
Proof.
  unfold amode_name, pick. destruct (aget_four amode _ eq_refl (amode_index w0 w1)) as (s & -> & Hs). cbn. unfold amode in Hs. rewrite !elem_of_cons in Hs.
  destruct_or! Hs; subst; try (split; [done|repeat constructor; unfold data; lia]). by apply elem_of_nil in Hs.
Qed.

Lemma writes_as w : writes (if bit w 0x40000000 then entry as_ (Z.shiftr (Z.land w 0x0000c000) 14) 1 else str [0xd9] 1) (text (as_name w)).
Proof.
  pose proof (as_name_ok w) as [Hl _]. unfold as_name, pick in *. destruct (bit _ _); [|apply (writes_str [_] 1); cbn; lia].
  destruct (aget_four as_ _ eq_refl (as_index w)) as (s & E & _). rewrite E in Hl |- *. cbn in Hl.
  unfold entry. rewrite ?E. cbn [default from_option]. pose proof (writes_str s 1 ltac:(lia) ltac:(lia)) as H. by rewrite take_ge in H by lia.
Qed.

Lemma writes_amode w0 w1 : writes (entry amode (Z.lor (Z.land w0 1) (Z.shiftr (Z.land w1 0x80000000) 30)) 2) (text (amode_name w0 w1)).
Proof.
  pose proof (amode_name_ok w0 w1) as [Hl _]. unfold amode_name, pick in *. destruct (aget_four amode _ eq_refl (amode_index w0 w1)) as (s & E & _). rewrite E in Hl |- *. cbn in Hl.
  unfold entry. rewrite ?E. cbn [default from_option]. pose proof (writes_str s 2 ltac:(lia) ltac:(lia)) as H. by rewrite take_ge in H by lia.
Qed.

Definition head_items (psw : nat -> Z) : list item :=
  [Goto (0 * 80 + 0)] ++ text rule ++
  field_item false false false true ++ hex_item (psw 0%nat) 32 ++ field_item false false false true ++ hex_item (psw 1%nat) 32 ++
  (field_item false false false true ++ hex_item (psw 2%nat) 32 ++ field_item false false false true ++ hex_item (psw 3%nat) 32) ++
  field_item true false false false ++
  flag (bit (psw 0%nat) 0x40000000) 0xd9 ++ flag (bit (psw 0%nat) 0x04000000) 0xe3 ++ flag (bit (psw 0%nat) 0x02000000) 0xc9 ++
  flag (bit (psw 0%nat) 0x01000000) 0xc5 ++ flag (bit (psw 0%nat) 0x00040000) 0xd4 ++ flag (bit (psw 0%nat) 0x00020000) 0xe5 ++
  flag (bit (psw 0%nat) 0x00010000) 0xd7 ++ text [0x40; 0xd2; 0x85; 0xa8; 0x7a] ++ text (place_int (Z.land (Z.shiftr (psw 0%nat) 20) 0xf) 2) ++
  text [0x40; 0xc1; 0xe2; 0x7a] ++ text (as_name (psw 0%nat)) ++ text (amode_name (psw 0%nat) (psw 1%nat)) ++
  text [0x40; 0xc3; 0xc3; 0x7a] ++ text (place_int (Z.land (Z.shiftr (psw 0%nat) 12) 3) 1) ++
  [Goto (1 * 80 + 75)] ++ text (nth 1 mode []) ++ text rule.

Definition tail_items : list item :=
  text rule ++ [Goto (23 * 80 + 0)] ++ field_item true false true false ++ text (prompt ++ [0]) ++ field_item false false false true ++ [Cursor] ++
  [Goto (23 * 80 + 77)] ++ field_item true false false false ++ text [0xff] ++ text [0xef].

Definition body_items (s : state) : list item :=
  head_items (reg (S_psw s)) ++ xrs64_items 16 0 (S_gpr s) (HL_REG 10) ++ text rule ++ xrs64_items 16 0 (S_cr s) HL_NONE ++ tail_items.

Lemma writes_text bs ret : ret = lenZ bs -> writes (place bs ret) (text bs).
Proof. apply writes_place, encode_text. Qed.

(** with its terminator *)
Lemma writes_prompt : writes (str prompt 5) (text (prompt ++ [0])).
Proof. change (str prompt 5) with (place (prompt ++ [0]) 5). by apply writes_place. Qed.

Lemma writes_mode : writes (entry mode 1 5) (text (nth 1 mode [])).
Proof. apply (writes_str (nth 1 mode []) 5); cbn; lia. Qed.

Ltac writes_one :=
  match goal with
  | |- writes (then_ _ _) _ => apply writes_then
  | |- writes skip _ => apply writes_skip
  | |- writes (field _ _ _ _) _ => apply writes_field
  | |- writes (hex _ _) _ => apply writes_hex; left; reflexivity
  | |- writes (int_ _ _) _ => apply writes_int; lia
  | |- writes (addr _ _) _ => apply writes_addr
  | |- writes cur _ => apply writes_cur
  | |- writes (xrs64 _ _ _ _) _ => apply writes_xrs64
  | |- writes (str prompt _) _ => apply writes_prompt
  | |- writes (str (if _ then _ else _) _) _ => apply writes_flag
  | |- writes (str _ _) _ => apply writes_str; cbn; lia
  | |- writes (if _ then _ else _) _ => apply writes_as
  | |- writes (entry mode _ _) _ => apply writes_mode
  | |- writes (entry _ _ _) _ => apply writes_amode
  | |- writes (place _ _) _ => apply writes_text; done
  end.

Lemma writes_eq f l l' : writes f l -> l = l' -> writes f l'.
Proof. by intros H <-. Qed.

Lemma writes_draw s : S_mode s = true -> writes (draw s) (text [WE; 0xf7] ++ body_items s).
Proof.
  intros Hm. unfold draw. rewrite Hm. cbv zeta. unfold place_xrs. cbv iota.
  eapply writes_eq.
  - repeat writes_one.
  - unfold body_items, head_items, tail_items. rewrite <- !app_assoc. reflexivity.
Qed.

(** ** Where the registers come to be *)

(** the items go forward from address [p] to [q] *)
Definition fills (p : Z) (l : list item) (q : Z) : Prop := next p l = q /\ forward p l = true.

Lemma fills_app p l1 l2 q r : fills p l1 q -> fills q l2 r -> fills p (l1 ++ l2) r.
Proof. intros [<- H1] [<- H2]. split; [by rewrite next_app|]. by rewrite forward_app, H1, H2. Qed.

Lemma fills_text p bs q : q = p + lenZ bs -> q <= 1920 -> fills p (text bs) q.
Proof. intros -> H. split; [apply next_text|by apply forward_text]. Qed.

Lemma fills_hex p v n q : q = p + n / 4 -> 0 <= n / 4 -> q <= 1920 -> fills p (hex_item v n) q.
Proof. intros -> Hn H. apply fills_text; [|done]. unfold lenZ, place_hex. rewrite hex_length. lia. Qed.

Lemma fills_int p v n q : q = p + n -> 0 <= n -> q <= 1920 -> fills p (text (place_int v n)) q.
Proof. intros -> Hn H. apply fills_text; [|done]. unfold lenZ, place_int. rewrite int_length. cbn. lia. Qed.

Lemma fills_field p a b c d q : q = p + 1 -> q <= 1920 -> fills p (field_item a b c d) q.
Proof. intros -> H. split; [done|]. cbn. rewrite (proj2 (Z.ltb_lt _ _)) by lia. done. Qed.

Lemma fills_flag p b c q : q = p + 1 -> q <= 1920 -> fills p (flag b c) q.
Proof. intros -> H. by apply fills_text. Qed.

Lemma fills_goto p n : p <= n -> n < 1920 -> fills p [Goto n] n.
Proof. intros H1 H2. split; [done|]. cbn. by rewrite (proj2 (Z.leb_le _ _)), (proj2 (Z.ltb_lt _ _)) by lia. Qed.

Lemma fills_xrs n i regs mask p q : q = p + 20 * Z.of_nat n -> q <= 1920 -> fills p (xrs64_items n i regs mask) q.
Proof.
  intros -> Hq. revert i p Hq. induction n as [|n IH]; intros i p Hq; cbn [xrs64_items]; [split; cbn; [lia|done]|].
  eapply fills_app; [apply fills_int; [reflexivity|lia|lia]|]. eapply fills_app; [apply fills_field; [reflexivity|lia]|].
  eapply fills_app; [apply fills_hex; [reflexivity|by vm_compute|change (64 / 4) with 16; lia]|]. eapply fills_app; [apply fills_field; [reflexivity|change (64 / 4) with 16; lia]|].
  change (64 / 4) with 16. replace (p + 20 * Z.of_nat (S n)) with (p + 2 + 1 + 16 + 1 + 20 * Z.of_nat n) by lia. apply IH. lia.
Qed.

Lemma xrs_layout n i regs mask p j k c : (j < n)%nat -> place_hex (reg regs (i + j)) 64 !! k = Some c ->
  (p + 20 * Z.of_nat j + 3 + Z.of_nat k, Char c) ∈ layout p (xrs64_items n i regs mask).
Proof.
  revert i p j. induction n as [|n IH]; intros i p j Hj Hk; [lia|]. cbn [xrs64_items]. rewrite !layout_app.
  unfold hex_item. rewrite !next_text. change (lenZ (place_hex _ 64)) with 16. replace (lenZ (place_int (Z.of_nat i) 2)) with 2 by (unfold lenZ, place_int; by rewrite int_length).
  cbn [next field_item]. rewrite !elem_of_app. destruct j as [|j].
  - rewrite Nat.add_0_r in Hk. right. right. left. replace (p + 20 * Z.of_nat 0 + 3 + Z.of_nat k) with (p + 2 + 1 + Z.of_nat k) by lia. by apply layout_text.
  - right. right. right. right. replace (p + 20 * Z.of_nat (S j) + 3 + Z.of_nat k) with (p + 2 + 1 + 16 + 1 + 20 * Z.of_nat j + 3 + Z.of_nat k) by lia.
    apply IH; [lia|]. by replace (S i + j)%nat with (i + S j)%nat by lia.
Qed.

Lemma fills_as p w q : q = p + 1 -> q <= 1920 -> fills p (text (as_name w)) q.
Proof. intros -> H. apply fills_text; [|done]. unfold lenZ. by rewrite (proj1 (as_name_ok w)). Qed.

Lemma fills_amode p w0 w1 q : q = p + 2 -> q <= 1920 -> fills p (text (amode_name w0 w1)) q.
Proof. intros -> H. apply fills_text; [|done]. unfold lenZ. by rewrite (proj1 (amode_name_ok w0 w1)). Qed.

Lemma fills_cursor p : fills p [Cursor] p.
Proof. done. Qed.

Lemma fills_end p l q r : fills p l q -> q = r -> fills p l r.
Proof. by intros H <-. Qed.

Ltac fills_one :=
  match goal with
  | |- fills _ (_ ++ _) _ => eapply fills_app
  | |- fills _ (field_item _ _ _ _) _ => apply fills_field; [reflexivity|by vm_compute]
  | |- fills _ (flag _ _) _ => apply fills_flag; [reflexivity|by vm_compute]
  | |- fills _ [Goto _] _ => apply fills_goto; by vm_compute
  | |- fills _ [Cursor] _ => apply fills_cursor
  | |- fills _ (hex_item _ _) _ => apply fills_hex; [reflexivity|by vm_compute|by vm_compute]
  | |- fills _ (text (place_int _ _)) _ => apply fills_int; [reflexivity|by vm_compute|by vm_compute]
  | |- fills _ (text (as_name _)) _ => apply fills_as; [reflexivity|by vm_compute]
  | |- fills _ (text (amode_name _ _)) _ => apply fills_amode; [reflexivity|by vm_compute]
  | |- fills _ (xrs64_items _ _ _ _) _ => apply fills_xrs; [reflexivity|by vm_compute]
  | |- fills _ (text _) _ => apply fills_text; [reflexivity|by vm_compute]
  end.

Ltac fills_all := eapply fills_end; [repeat fills_one|by vm_compute].

Lemma fills_head psw : fills 0 (head_items psw) 240.
Proof. unfold head_items. fills_all. Qed.

Lemma fills_body s : fills 0 (body_items s) 1920.
Proof.
  unfold body_items. eapply fills_app; [apply fills_head|]. unfold tail_items. fills_all.
Qed.

Lemma flag_ok b c : data c -> Forall item_ok (flag b c).
Proof. intros H. apply data_ok. apply Forall_cons_2; [|apply Forall_nil_2]. destruct b; [done|unfold data; lia]. Qed.

Lemma rule_ok : Forall item_ok (text rule).
Proof. apply data_ok. by apply (bool_decide_unpack _); vm_compute. Qed.

Lemma xrs_ok n i regs mask : Forall item_ok (xrs64_items n i regs mask).
Proof.
  revert i. induction n as [|n IH]; intros i; [apply Forall_nil_2|]. cbn [xrs64_items]. rewrite !Forall_app. split_and!; [apply data_ok, int_data, Forall_nil_2|by apply Forall_cons_2|apply data_ok, hex_data|by apply Forall_cons_2|apply IH].
Qed.

Lemma field_ok a b c d : Forall item_ok (field_item a b c d).
Proof. by apply Forall_cons_2; [|apply Forall_nil_2]. Qed.

Lemma goto_ok n : 0 <= n < 1920 -> Forall item_ok [Goto n].
Proof. intros H. by apply Forall_cons_2; [|apply Forall_nil_2]. Qed.

Ltac ok_step :=
  match goal with
  | |- Forall _ (_ ++ _) => apply Forall_app; split
  | |- Forall _ (field_item _ _ _ _) => apply field_ok
  | |- Forall _ (flag _ _) => apply flag_ok; unfold data; lia
  | |- Forall _ [Goto _] => apply goto_ok; lia
  | |- Forall _ [Cursor] => by apply Forall_cons_2; [|apply Forall_nil_2]
  | |- Forall _ (hex_item _ _) => apply data_ok, hex_data
  | |- Forall _ (text (place_int _ _)) => apply data_ok, int_data, Forall_nil_2
  | |- Forall _ (text (as_name _)) => apply data_ok, as_name_ok
  | |- Forall _ (text (amode_name _ _)) => apply data_ok, amode_name_ok
  | |- Forall _ (xrs64_items _ _ _ _) => apply xrs_ok
  | |- Forall _ (text rule) => apply rule_ok
  | |- Forall _ (text _) => repeat (apply Forall_cons_2; [by vm_compute|]); apply Forall_nil_2
  end.

Lemma body_ok s : Forall item_ok (body_items s).
Proof. unfold body_items, head_items, tail_items. repeat ok_step. Qed.

Lemma body_layout s : layout 0 (body_items s) =
  layout 0 (head_items (reg (S_psw s))) ++ layout 240 (xrs64_items 16 0 (S_gpr s) (HL_REG 10)) ++ layout 560 (text rule) ++
  layout 640 (xrs64_items 16 0 (S_cr s) HL_NONE) ++ layout 960 tail_items.
Proof.
  unfold body_items. rewrite !layout_app, (proj1 (fills_head _)), (proj1 (fills_xrs 16 0 _ _ 240 560 eq_refl ltac:(lia))).
  change (next 560 (text rule)) with 640. by rewrite (proj1 (fills_xrs 16 0 _ _ 640 960 eq_refl ltac:(lia))).
Qed.

Lemma encode_lengths l1 l2 : lenZ (encode (l1 ++ l2)) = lenZ (encode l1) + lenZ (encode l2).
Proof. rewrite encode_app. unfold lenZ. rewrite length_app. lia. Qed.

Lemma hex_bytes v w : lenZ (encode (hex_item v w)) = Z.of_nat (Z.to_nat (w / 4)).
Proof. unfold hex_item. rewrite encode_text. unfold lenZ, place_hex. by rewrite hex_length. Qed.

Lemma xrs_bytes n i regs mask : lenZ (encode (xrs64_items n i regs mask)) = 22 * Z.of_nat n.
Proof.
  revert i. induction n as [|n IH]; intros i; [done|]. cbn [xrs64_items]. rewrite !encode_lengths, hex_bytes, IH, encode_text.
  unfold lenZ at 1, place_int. rewrite int_length. change (Z.to_nat (64 / 4)) with 16%nat. cbn [length encode field_item]. unfold lenZ. cbn. lia.
Qed.

(** the bytes of the stream *)
Lemma body_bytes s : lenZ (encode (text [WE; 0xf7] ++ body_items s)) = 1125.
Proof.
  unfold body_items, head_items. rewrite !encode_lengths, !xrs_bytes, !hex_bytes, !encode_text.
  unfold lenZ, place_int. rewrite !int_length, (proj1 (as_name_ok _)), (proj1 (amode_name_ok _ _)). by vm_compute.
Qed.

(** digits on the screen *)
Lemma read_digits d pos bs : (forall k c, bs !! k = Some c -> cells d !! (pos + k)%nat = Some (Char c)) ->
  read_hex d pos (length bs) = Some (foldl (fun x c => 16 * x + ebc_val c) 0 bs).
Proof.
  unfold read_hex. induction bs as [|c bs IH] using rev_ind; intros H; [done|].
  rewrite length_app, Nat.add_comm. cbn [length Nat.add]. rewrite seq_S, foldl_app, IH.
  - cbn [foldl mbind option_bind Nat.add]. rewrite (H (length bs) c) by (rewrite lookup_app_r, Nat.sub_diag by lia; done). by rewrite foldl_app.
  - intros k x Hk. apply H. by apply lookup_app_l_Some.
Qed.

Lemma at_next l p d : Forall item_ok l -> at_ d = p mod 1920 -> at_ (foldl do_item d l) = next p l mod 1920.
Proof.
  revert p d. induction l as [|[c|n|] l IH]; intros p d H Ha; [done|..]; apply Forall_cons in H as [Hi H]; cbn [foldl next].
  - apply (IH (p + 1)); [done|]. cbn. rewrite Ha. by rewrite Zplus_mod_idemp_l.
  - apply (IH n); [done|]. cbn in *. by rewrite Z.mod_small by lia.
  - by apply IH.
Qed.

Lemma cursor_kept l d : Cursor ∉ l -> cursor (foldl do_item d l) = cursor d.
Proof. revert d. induction l as [|i l IH]; intros d H; [done|]. apply not_elem_of_cons in H as [Hi H]. cbn [foldl]. rewrite IH by done. by destruct i. Qed.

Definition after_cursor : list item := [Goto (23 * 80 + 77)] ++ field_item true false false false ++ text [0xff] ++ text [0xef].

Lemma no_cursor_after : Cursor ∉ after_cursor.
Proof. unfold after_cursor. cbn. rewrite !not_elem_of_cons. split_and!; try done. apply not_elem_of_nil. Qed.

Lemma body_split s : exists l, body_items s = l ++ [Cursor] ++ after_cursor /\ next 0 l = 1847.
Proof.
  exists (head_items (reg (S_psw s)) ++ xrs64_items 16 0 (S_gpr s) (HL_REG 10) ++ text rule ++ xrs64_items 16 0 (S_cr s) HL_NONE ++
    text rule ++ [Goto (23 * 80 + 0)] ++ field_item true false true false ++ text (prompt ++ [0]) ++ field_item false false false true).
  split; [unfold body_items, tail_items, after_cursor; by rewrite <- !app_assoc|].
  rewrite next_app, (proj1 (fills_head _)), next_app, (proj1 (fills_xrs 16 0 _ _ 240 560 eq_refl ltac:(lia))), next_app.
  change (next 560 (text rule)) with 640. rewrite next_app, (proj1 (fills_xrs 16 0 _ _ 640 960 eq_refl ltac:(lia))). reflexivity.
Qed.

Definition word64 (v : Z) : Prop := 0 <= v < 2 ^ 64.

Lemma reg_word l i : Forall word64 l -> word64 (reg l i).
Proof. intros H. unfold reg. destruct (l !! i) as [v|] eqn:E; [exact (Forall_lookup_1 _ _ _ _ H E)|done]. Qed.

Lemma marked_ok s : Forall word64 (S_gpr s) -> Forall word64 (S_cr s) -> Forall word64 (S_gpr (marked s)) /\ Forall word64 (S_cr (marked s)).
Proof. intros Hg Hc. cbn. split; repeat apply Forall_insert; try done; by split. Qed.

(** C34: Drawing the state of a machine in 64-bit mode ends 795 bytes before the end of the buffer, and a display that gets what is
    written with an Erase/Write shows every general register as 16 hexadecimal digits from row 3 on and every control register from
    row 8 on, four in a row, with the cursor behind the prompt in the last row. *)
Theorem registers_on_screen (s : state) (buf : list Z) :
  S_mode s = true -> length buf = 1920%nat -> Forall word64 (S_gpr s) -> Forall word64 (S_cr s) ->
  exists bs, full_draw s buf = Ret bs /\ lenZ bs = 1125 /\
    let d := erase_write bs in
    (forall i, (i < 16)%nat -> read_hex d (80 * (3 + i / 4) + 20 * (i mod 4) + 3) 16 = Some (reg (S_gpr (marked s)) i)) /\
    (forall i, (i < 16)%nat -> read_hex d (80 * (8 + i / 4) + 20 * (i mod 4) + 3) 16 = Some (reg (S_cr (marked s)) i)) /\
    cursor d = 23 * 80 + 7.
Proof.
  intros Hm Hb Hg Hc. destruct (marked_ok s Hg Hc) as [Hg' Hc']. set (t := marked s) in *.
  destruct (writes_draw t Hm buf 0 ltac:(lia) Hb) as (b' & E & _ & T); [rewrite body_bytes; lia|].
  exists (encode (text [WE; 0xf7] ++ body_items t)). unfold full_draw. fold t. rewrite E. cbn [mbind outcome_bind].
  rewrite T. change (Z.to_nat 0) with 0%nat. cbn [take app]. split; [done|]. split; [apply body_bytes|].
  unfold erase_write. rewrite encode_app. cbn [text map encode mbind list_bind encode1 app tail].
  change (display (0xf7 :: encode (body_items t)) blank) with (display (encode (body_items t)) (write_cell (Char 0xf7) blank)).
  rewrite <- (app_nil_r (encode _)), display_items by apply body_ok. cbn [display].
  set (d0 := write_cell (Char 0xf7) blank). cbv zeta.
  assert (body_items t = Goto 0 :: tail (body_items t)) as Hgoto by reflexivity.
  assert (foldl do_item d0 (body_items t) = foldl do_item (Screen (cells d0) 0 0) (body_items t)) as -> by (rewrite Hgoto; reflexivity).
  destruct (display_layout (body_items t) 0 (Screen (cells d0) 0 0) (proj2 (fills_body t)) ltac:(lia) eq_refl eq_refl) as (_ & _ & Hl).
  assert (forall regs p, Forall word64 regs -> 0 <= p ->
    (forall j k c, (j < 16)%nat -> place_hex (reg regs j) 64 !! k = Some c -> (p + 20 * Z.of_nat j + 3 + Z.of_nat k, Char c) ∈ layout 0 (body_items t)) ->
    forall i, (i < 16)%nat -> read_hex (foldl do_item (Screen (cells d0) 0 0) (body_items t)) (Z.to_nat p + 20 * i + 3) 16 = Some (reg regs i)) as Hread.
  { intros regs p Hr Hp Hin i Hi. pose proof (reg_word regs i Hr) as [Hw0 Hw]. change 16%nat with (length (place_hex (reg regs i) 64)). rewrite read_digits.
    - unfold place_hex. rewrite hex_value by done. f_equal. change (16 ^ Z.of_nat (Z.to_nat (64 / 4))) with (2 ^ 64). rewrite Z.mod_small by lia. lia.
    - intros k c Hk. specialize (Hl _ _ (Hin i k c Hi Hk)).
      by replace (Z.to_nat (p + 20 * Z.of_nat i + 3 + Z.of_nat k)) with (Z.to_nat p + 20 * i + 3 + k)%nat in Hl by lia. }
  assert (forall r i, (80 * (r + i / 4) + 20 * (i mod 4) + 3 = 80 * r + 20 * i + 3)%nat) as Hpos.
  { intros r i. pose proof (Nat.div_mod_eq i 4). lia. }
  split_and!.
  - intros i Hi. rewrite Hpos. apply (Hread (S_gpr t) 240 Hg' ltac:(lia)); [|done].
    intros j k c Hj Hk. rewrite body_layout, !elem_of_app. right. left. by apply xrs_layout.
  - intros i Hi. rewrite Hpos. apply (Hread (S_cr t) 640 Hc' ltac:(lia)); [|done].
    intros j k c Hj Hk. rewrite body_layout, !elem_of_app. right. right. right. left. by apply xrs_layout.
  - pose proof (body_ok t) as Hok. destruct (body_split t) as (l & Hs & Hn). rewrite Hs in *. apply Forall_app in Hok as [Hok _].
    rewrite foldl_app. cbn [app foldl]. rewrite cursor_kept by apply no_cursor_after. cbn [do_item cursor].
    rewrite (at_next l 0) by done. by rewrite Hn.
Qed.

(** ** Some screens *)

Definition sample_state : state := State true [0x04000000; 0x80000000; 0; 0x1000] (map (fun n => 0x1111111111111111 * Z.of_nat n) (seq 0 16)) (replicate 16 0xe0).
Definition clear_buf : list Z := replicate 1920 0.

Lemma registers_on_screen_witness : exists bs, full_draw sample_state clear_buf = Ret bs /\
  read_hex (erase_write bs) (80 * 5 + 20 * 3 + 3) 16 = Some 0xbbbbbbbbbbbbbbbb /\ cursor (erase_write bs) = 1847.
Proof.
  assert (Forall word64 (S_gpr sample_state) /\ Forall word64 (S_cr sample_state)) as [Hg Hc].
  { split; apply Forall_forall; intros v Hv; unfold word64.
    - apply list_elem_of_fmap in Hv as (n & -> & Hn%elem_of_seq). lia.
    - apply elem_of_replicate in Hv as [-> _]. lia. }
  destruct (registers_on_screen sample_state clear_buf eq_refl eq_refl Hg Hc) as (bs & E & _ & Hr & _ & Hcur).
  exists bs. split; [exact E|]. split; [|exact Hcur]. exact (Hr 11%nat ltac:(lia)).
Defined.

Definition shown (s : state) (pos n : nat) : list cell :=
  match full_draw s clear_buf with Ret bs => take n (drop pos (cells (erase_write bs))) | _ => [] end.

Definition psw_state (w0 : Z) : state := State true [w0; 0; 0; 0] [] [].

(** with translation on (T) the address space is shown as R, with the bit of R on and translation off as P: the wrong bit is looked at *)
Example address_space_shown :
  shown (psw_state 0x04000000) 117 2 = [Char 0x4b; Char 0xe3] /\ shown (psw_state 0x04000000) 135 1 = [Char 0xd9] /\
  shown (psw_state 0x40000000) 117 2 = [Char 0xd9; Char 0x4b] /\ shown (psw_state 0x40000000) 135 1 = [Char 0xd7].
Proof. vm_compute. split_and!; reflexivity. Qed.

(** the wait state is a V, 0xe5, not a W, 0xe6 *)
Example wait_shown : shown (psw_state 0x00020000) 122 1 = [Char 0xe5].
Proof. vm_compute. reflexivity. Qed.

(** the prompt has the terminator of its string behind it, and the bytes that end a telnet record are characters at the end of the screen *)
Example last_row : shown (psw_state 0) 1840 7 = [Attr 0xe8; Char 0x7e; Char 0x7e; Char 0x7e; Char 0x6e; Char 0; Attr 0xc4] /\
  shown (psw_state 0) 1917 3 = [Attr 0xe0; Char 0xff; Char 0xef].
Proof. vm_compute. split; reflexivity. Qed.

(** the other mode fits as well *)
Example short_mode : match full_draw (State false [0; 0] [] []) clear_buf with Ret bs => lenZ bs | _ => 0 end = 757.
Proof. vm_compute. reflexivity. Qed.
