(* ===== verification/Dialog.v ===== *)
(** installer/loader_c.c: the dialogue of the installer with the operator.

    The console and the disk are behind channel programs ([__do_io] is assembler): what a
    store subchannel, a modify subchannel, a sense id and a write to the console give are
    parameters, what the operator types is a list of lines in EBCDIC, and what the console
    has shown is a list.  [die] stops the CPU; an answer that is waited for and never comes
    leaves the program where it is ([None]).  [inp] is on the stack and each answer overwrites
    only as many bytes as were typed, and then all of it is translated.  The theorems: a
    device number is looked up on the first subchannel that has it; the dialogue does what
    the numbers typed say, in spite of what earlier answers left in [inp], when no answer
    has a B, C or D; and answers for which it does not. *)

From S2P Require Import Prelude Charset.

Local Open Scope Z_scope.

Abbreviation e2a := (xlat ebcdic2ascii_table).
Abbreviation a2e := (xlat ascii2ebcdic_table).

(** * Numbers *)

Definition digit (c : Z) : option Z :=
  if (48 <=? c) && (c <=? 57) then Some (c - 48)
  else if (65 <=? c) && (c <=? 70) then Some (c - 65 + 10)
  else if (97 <=? c) && (c <=? 102) then Some (c - 97 + 10)
  else None.

Fixpoint atoi_loop (s : list Z) (i : Z) : Z :=
  match s with
  | [] => i
  | c :: s => match digit c with Some d => atoi_loop s (u64 (i * 16 + d)) | None => i end
  end.

(** [len] bytes of [s] *)
Definition atoi (s : list Z) (len : Z) : Z := atoi_loop (take (Z.to_nat len) s) 0.

(** * Devices and the console *)

Definition CON_DEVNUM : Z := 0x0009.

Record senseid := SenseId { cu_type : Z; cu_model : Z; dev_type : Z; dev_model : Z }.

(** the console's output, and the subchannels *)
Record console := Console { written : list (list Z); con_sch : Z; dasd_sch : Z }.

Section hardware.
Context (store_sch : Z -> option (bool * Z)).   (* the valid bit and the device number, when there is a subchannel *)
Context (modify_sch : Z -> bool).               (* whether the subchannel was enabled *)
Context (sense_id : Z -> option senseid).       (* what the device says of itself *)
Context (write_ok : list Z -> bool).            (* whether the console took the line *)

Fixpoint find_from (n : nat) (sch devnum : Z) : outcome Z :=
  match n with
  | O => Ret (2 ^ 64 - 1)
  | S n =>
      match store_sch sch with
      | Some (true, num) =>
          if num =? devnum then if modify_sch sch then Ret sch else Stopped
          else find_from n (sch + 1) devnum
      | _ => find_from n (sch + 1) devnum
      end
  end.

Definition find_devnum (devnum : Z) : outcome Z :=
  if 0xffff <? devnum then Stopped else find_from (Z.to_nat 0x10000) 0x10000 devnum.

(** a 3390 model 3 that can be used *)
Definition dev_dasd (sch : Z) : outcome bool :=
  match sense_id sch with
  | None => Stopped
  | Some id => Ret ((dev_type id =? 0x3390) && (dev_model id =? 0x0A) && (cu_type id =? 0x3990) && (cu_model id =? 0xC2))
  end.

(** [str] without its terminator *)
Definition wto (str : list Z) (c : console) : outcome console :=
  let buf := take 159 (take 160 (str ++ replicate 160 0)) ++ [0] in
  buf ← ascii2ebcdic buf 160;
  if 160 <? lenZ str then Undef else
  let line := take (length str) buf in
  if write_ok line then Ret (Console (written c ++ [line]) (con_sch c) (dasd_sch c)) else Stopped.

(** the answer, if one comes, and the lines that are left *)
Definition wtor (str inp : list Z) (lines : list (list Z)) (c : console) : outcome (option (list Z * list (list Z)) * console) :=
  c ← wto str c;
  match lines with
  | [] => Ret (None, c)
  | l :: lines =>
      let l := take 160 l in
      inp ← ebcdic2ascii (l ++ drop (length l) inp) 160;
      Ret (Some (inp, lines), c)
  end.

(** * The dialogue *)

Definition ask_device : list Z := zs "Specify target device (1-4 hex digits):" ++ [10].
Definition invalid_number : list Z := zs "Invalid device number." ++ [10; 10].
Definition device_found : list Z := zs "Device found." ++ [10; 10].
Definition need_dasd : list Z := zs "Need a DASD." ++ [10; 10].

(** the [for] loop: one turn for each answer *)
Fixpoint choose (lines : list (list Z)) (inp : list Z) (c : console) : outcome (option (list Z * list (list Z)) * console) :=
  '(r, c) ← wtor ask_device inp lines c;
  match r, lines with
  | Some (inp, _), _ :: lines =>
      sch ← find_devnum (atoi inp 160);
      if (sch <? 0x10000) || (0x1ffff <? sch) then c ← wto invalid_number c; choose lines inp (Console (written c) (con_sch c) sch) else
      c ← wto device_found c;
      let c := Console (written c) (con_sch c) sch in
      dasd ← dev_dasd sch;
      if (dasd : bool) then Ret (Some (inp, lines), c) else c ← wto need_dasd c; choose lines inp c
  | _, _ => Ret (None, c)
  end.

(** up to the installation itself; [inp0] is what the stack holds *)
Definition load_nucleus (lines : list (list Z)) (inp0 : list Z) : outcome (option Z * console) :=
  con ← find_devnum CON_DEVNUM;
  if 0x1ffff <? con then Stopped else
  c ← wto (zs "HVF installer" ++ [10; 10]) (Console [] con 0);
  '(r, c) ← choose lines inp0 c;
  match r with
  | None => Ret (None, c)
  | Some (inp, lines) =>
      '(r, c) ← wtor (zs "Format volume? [y/n]" ++ [10]) (<[0%nat := 110]> inp) lines c;
      match r with
      | None => Ret (None, c)
      | Some (inp, _) =>
          if (hd 0 inp =? 121) || (hd 0 inp =? 89) then
            c ← wto (zs "Formating volume..." ++ [10]) c; wto (zs "done. (Not yet implemented)" ++ [10]) c ;; Stopped
          else c ← wto (zs "Formatting skipped." ++ [10]) c; Ret (Some (dasd_sch c), c)
      end
  end.

(** * Looking a number up *)

Lemma find_from_spec n sch devnum : 
  match find_from n sch devnum with
  | Ret r => (r = 2 ^ 64 - 1 /\ forall s, sch <= s < sch + Z.of_nat n -> store_sch s <> Some (true, devnum)) \/
             (sch <= r < sch + Z.of_nat n /\ store_sch r = Some (true, devnum) /\ modify_sch r = true /\
              forall s, sch <= s < r -> store_sch s <> Some (true, devnum))
  | Stopped => exists r, sch <= r < sch + Z.of_nat n /\ store_sch r = Some (true, devnum) /\ modify_sch r = false /\
              forall s, sch <= s < r -> store_sch s <> Some (true, devnum)
  | Undef => False
  end.
Proof.
  revert sch. induction n as [|n IH]; intros sch; cbn [find_from]; [left; split; [done|]; intros; lia|].
  specialize (IH (sch + 1)).
  assert (store_sch sch <> Some (true, devnum) -> match find_from n (sch + 1) devnum with
    | Ret r => (r = 2 ^ 64 - 1 /\ forall s, sch <= s < sch + Z.of_nat (S n) -> store_sch s <> Some (true, devnum)) \/
               (sch <= r < sch + Z.of_nat (S n) /\ store_sch r = Some (true, devnum) /\ modify_sch r = true /\
                forall s, sch <= s < r -> store_sch s <> Some (true, devnum))
    | Stopped => exists r, sch <= r < sch + Z.of_nat (S n) /\ store_sch r = Some (true, devnum) /\ modify_sch r = false /\
                forall s, sch <= s < r -> store_sch s <> Some (true, devnum)
    | Undef => False
    end) as Hnext.
  { intros Hne. destruct (find_from n (sch + 1) devnum) as [r| |]; [| |done].
    2:{ destruct IH as (r & Hr & H1 & H2 & H). exists r. split; [lia|]. split_and!; [done..|]. intros s Hs. destruct (decide (s = sch)) as [->|]; [done|]. apply H. lia. }
    destruct IH as [(-> & H)|(Hr & H1 & H2 & H)].
    - left. split; [done|]. intros s Hs. destruct (decide (s = sch)) as [->|]; [done|]. apply H. lia.
    - right. split; [lia|]. split; [done|]. split; [done|]. intros s Hs. destruct (decide (s = sch)) as [->|]; [done|]. apply H. lia. }
  destruct (store_sch sch) as [[[] num]|] eqn:E; [|by apply Hnext..].
  destruct (Z.eqb_spec num devnum) as [->|Hne]; [|by apply Hnext; congruence].
  destruct (modify_sch sch) eqn:Em.
  - right. split; [lia|]. split; [done|]. split; [done|]. intros; lia.
  - exists sch. split; [lia|]. split_and!; [done..|]. intros; lia.
Qed.

(** * What numbers lead to *)

(** the number that a text of hexadecimal digits is; 64 bits, the last 16 digits, are kept of it *)
Definition digit_value (c : Z) : Z := if c <=? 57 then c - 48 else if c <=? 70 then c - 55 else c - 87.
Definition number (text : list Z) : Z := place_value 16 (map digit_value text) mod 2 ^ 64.

(** subchannel [s] is the first one whose device has the number *)
Definition first_with (v s : Z) : Prop :=
  0x10000 <= s < 0x20000 /\ store_sch s = Some (true, v) /\ forall s', 0x10000 <= s' < s -> store_sch s' <> Some (true, v).

(** a 3390 model 3 behind a 3990 *)
Definition a_disk (id : senseid) : Prop := cu_type id = 0x3990 /\ cu_model id = 0xC2 /\ dev_type id = 0x3390 /\ dev_model id = 0x0A.

(** what one number leads to, with the messages *)
Inductive reply (v : Z) : outcome (option Z * list (list Z)) -> Prop :=
  | five_digits_typed : 0xffff < v -> reply v Stopped
  | no_device : v <= 0xffff -> (forall s, 0x10000 <= s < 0x20000 -> store_sch s <> Some (true, v)) ->
      reply v (Ret (None, [zs "Invalid device number." ++ [10; 10]]))
  | not_enabled s : v <= 0xffff -> first_with v s -> modify_sch s = false -> reply v Stopped
  | not_identified s : v <= 0xffff -> first_with v s -> modify_sch s = true -> sense_id s = None -> reply v Stopped
  | disk s id : v <= 0xffff -> first_with v s -> modify_sch s = true -> sense_id s = Some id -> a_disk id ->
      reply v (Ret (Some s, [zs "Device found." ++ [10; 10]]))
  | no_disk s id : v <= 0xffff -> first_with v s -> modify_sch s = true -> sense_id s = Some id -> ~ a_disk id ->
      reply v (Ret (None, [zs "Device found." ++ [10; 10]; zs "Need a DASD." ++ [10; 10]])).

Definition question : list Z := zs "Specify target device (1-4 hex digits):" ++ [10].

(** numbers one after the other, up to the first that is a disk; how many are left then *)
Inductive dialogue : list Z -> outcome (option (Z * nat) * list (list Z)) -> Prop :=
  | no_answer : dialogue [] (Ret (None, [question]))
  | stopped v vs : reply v Stopped -> dialogue (v :: vs) Stopped
  | taken v vs s ms : reply v (Ret (Some s, ms)) -> dialogue (v :: vs) (Ret (Some (s, length vs), question :: ms))
  | refused v vs ms o : reply v (Ret (None, ms)) -> dialogue vs o ->
      dialogue (v :: vs) ('(r, ms') ← o; Ret (r, question :: ms ++ ms')).

(** ** The same as the code computes it *)

Definition value (text : list Z) : Z := atoi_loop text 0.

Definition reply_of (v : Z) : outcome (option Z * list (list Z)) :=
  sch ← find_devnum v;
  if (sch <? 0x10000) || (0x1ffff <? sch) then Ret (None, [invalid_number]) else
  dasd ← dev_dasd sch;
  Ret (if (dasd : bool) then (Some sch, [device_found]) else (None, [device_found; need_dasd])).

Fixpoint dialogue_of (vs : list Z) : outcome (option (Z * nat) * list (list Z)) :=
  match vs with
  | [] => Ret (None, [ask_device])
  | v :: vs =>
      '(r, ms) ← reply_of v;
      match r with
      | Some sch => Ret (Some (sch, length vs), ask_device :: ms)
      | None => '(r, ms') ← dialogue_of vs; Ret (r, ask_device :: ms ++ ms')
      end
  end.

Lemma reply_of_spec v : reply v (reply_of v).
Proof.
  unfold reply_of, find_devnum. destruct (Z.ltb_spec 0xffff v) as [|Hv]; [by apply five_digits_typed|].
  pose proof (find_from_spec (Z.to_nat 0x10000) 0x10000 v) as H. rewrite Z2Nat.id in H by done. change (0x10000 + 0x10000) with 0x20000 in H.
  destruct (find_from _ _ _) as [r| |]; cbn [mbind outcome_bind]; [| |done].
  - destruct H as [[-> H]|(Hr & H1 & H2 & H)]; [by apply no_device|].
    assert (first_with v r) as Hf by done. rewrite (proj2 (Z.ltb_ge r 0x10000)), (proj2 (Z.ltb_ge 0x1ffff r)) by lia. cbn [orb].
    unfold dev_dasd. destruct (sense_id r) as [id|] eqn:Es; cbn [mbind outcome_bind]; [|by eapply not_identified].
    destruct (_ && _) eqn:Ed.
    + eapply disk; [done|exact Hf|done|exact Es|]. repeat apply andb_true_iff in Ed as [Ed ?]. unfold a_disk. lia.
    + eapply no_disk; [done|exact Hf|done|exact Es|]. unfold a_disk. intros (E1 & E2 & E3 & E4). by rewrite E1, E2, E3, E4 in Ed.
  - destruct H as (r & Hr & H1 & H2 & H). by apply (not_enabled v r).
Qed.

Lemma dialogue_of_spec vs : dialogue vs (dialogue_of vs).
Proof.
  induction vs as [|v vs IH]; [apply no_answer|]. cbn [dialogue_of]. pose proof (reply_of_spec v) as H.
  destruct (reply_of v) as [[[s|] ms]| |]; cbn [mbind outcome_bind]; [by apply taken|by apply refused|by apply stopped|inversion H].
Qed.

(** ** Texts and what is left of them *)

(** digits that are never a digit again, however often they are translated *)
Definition clean : list Z := zs "0123456789AEFabcdef".

(** what they become *)
Definition residue : list Z := [22; 8; 4; 255; 160; 230; 87; 47; 142; 7; 127; 34; 28].

Definition typed (t : list Z) : Prop := (length t < 160)%nat /\ Forall (fun c => c ∈ clean) t.

Lemma clean_facts c : c ∈ clean -> 1 <= a2e c < 256 /\ e2a (a2e c) = c /\ 1 <= c < 256 /\ e2a c ∈ residue /\ is_Some (digit c).
Proof.
  assert (Forall (fun c => 1 <= a2e c < 256 /\ e2a (a2e c) = c /\ 1 <= c < 256 /\ e2a c ∈ residue /\ is_Some (digit c)) clean) as H.
  { apply (bool_decide_unpack _). by vm_compute. }
  rewrite Forall_forall in H. apply H.
Qed.

Lemma digit_number c : c ∈ clean -> digit c = Some (digit_value c) /\ 0 <= digit_value c < 16.
Proof.
  assert (Forall (fun c => digit c = Some (digit_value c) /\ 0 <= digit_value c < 16) clean) as H by (apply (bool_decide_unpack _); by vm_compute).
  rewrite Forall_forall in H. apply H.
Qed.

Lemma value_number t : Forall (fun c => c ∈ clean) t -> value t = number t.
Proof.
  intros Ht. unfold value, number.
  enough (forall i, 0 <= i < 2 ^ 64 -> atoi_loop t i = (i * 16 ^ lenZ t + place_value 16 (map digit_value t)) mod 2 ^ 64) as H by (rewrite (H 0) by done; by rewrite Z.mul_0_l).
  induction Ht as [|c t Hc _ IH]; intros i Hi; cbn [atoi_loop map place_value].
  - change (lenZ (@nil Z)) with 0. rewrite Z.pow_0_r, Z.mul_1_r, Z.add_0_r, Z.mod_small by done. done.
  - destruct (digit_number c Hc) as [-> Hd]. rewrite IH by (apply wrap_range; lia). unfold wrap.
    assert (lenZ (c :: t) = Z.succ (lenZ t) /\ lenZ (map digit_value t) = lenZ t) as [-> ->] by (unfold lenZ; rewrite length_map; cbn [length]; lia).
    rewrite Z.pow_succ_r by apply lenZ_nonneg. rewrite Z.add_mod, Z.mul_mod, Z.mod_mod, <- Z.mul_mod, <- Z.add_mod by lia. f_equal. lia.
Qed.

Lemma residue_facts c : c ∈ residue -> 1 <= c < 256 /\ e2a c ∈ residue /\ digit c = None.
Proof.
  assert (Forall (fun c => 1 <= c < 256 /\ e2a c ∈ residue /\ digit c = None) residue) as H by (apply (bool_decide_unpack _); by vm_compute).
  rewrite Forall_forall in H. apply H.
Qed.

(** the translation ends at the first NUL *)
Lemma translate_to_nul table s rest len : lenZ table = 256 -> Forall (fun c => 1 <= c < 256) s -> lenZ s < len ->
  __translate (s ++ 0 :: rest) len table = Ret (map (xlat table) s ++ 0 :: rest).
Proof.
  intros Ht Hs Hl. unfold __translate, lenZ in *. replace (Z.to_nat len) with (length s + S (Z.to_nat len - length s - 1))%nat by lia.
  generalize (Z.to_nat len - length s - 1)%nat as k. intros k. clear Hl len.
  assert (forall pre, translate_loop (length s + S k) (pre ++ s ++ 0 :: rest) (lenZ pre) table = Ret (pre ++ map (xlat table) s ++ 0 :: rest)) as H; [|exact (H [])].
  induction Hs as [|c s Hc Hs IH]; intros pre.
  - cbn [length Nat.add translate_loop app map]. assert (aget (pre ++ 0 :: rest) (lenZ pre) = Some 0) as ->; [|done].
    apply aget_Some. unfold lenZ. rewrite Nat2Z.id, lookup_app_r, Nat.sub_diag by lia. split; [lia|done].
  - cbn [length Nat.add translate_loop].
    assert (aget (pre ++ (c :: s) ++ 0 :: rest) (lenZ pre) = Some c) as ->.
    { apply aget_Some. unfold lenZ. rewrite Nat2Z.id, lookup_app_r, Nat.sub_diag by lia. split; [lia|done]. }
    cbn [defined mbind outcome_bind]. rewrite (proj2 (Z.eqb_neq c 0)) by lia. rewrite aget_nth by (done || lia). cbn [defined mbind outcome_bind].
    assert (aset (pre ++ (c :: s) ++ 0 :: rest) (lenZ pre) (xlat table c) = Some ((pre ++ [xlat table c]) ++ s ++ 0 :: rest)) as ->.
    { rewrite aset_insert; [|unfold lenZ; rewrite length_app; cbn; lia]. unfold lenZ. rewrite Nat2Z.id, insert_app_r_alt, Nat.sub_diag by lia. cbn. by rewrite <- app_assoc. }
    cbn [defined mbind outcome_bind]. replace (lenZ pre + 1) with (lenZ (pre ++ [xlat table c])) by (unfold lenZ; rewrite length_app; cbn; lia).
    rewrite IH. by rewrite <- app_assoc.
Qed.

Lemma atoi_stops t rest i : Forall (fun c => is_Some (digit c)) t -> (forall c, head rest = Some c -> digit c = None) -> atoi_loop (t ++ rest) i = atoi_loop t i.
Proof.
  intros Ht Hr. revert i. induction Ht as [|c t [d Hd] Ht IH]; intros i.
  - destruct rest as [|c rest]; [done|]. cbn. by rewrite (Hr c eq_refl).
  - cbn. rewrite Hd. apply IH.
Qed.

(** [inp] between two answers *)
Definition left_over (inp : list Z) : Prop :=
  exists T, inp = T ++ 0 :: replicate (159 - length T) 0 /\ (length T < 160)%nat /\ Forall (fun c => c ∈ clean \/ c ∈ residue) T.

(** an answer is read as it was typed, and leaves [inp] as it has to be *)
Lemma answer_read t inp : typed t -> left_over inp ->
  exists inp', ebcdic2ascii (take 160 (map a2e t) ++ drop (length (take 160 (map a2e t))) inp) 160 = Ret inp' /\ left_over inp' /\ atoi inp' 160 = value t.
Proof.
  intros [Hl Ht] (T & -> & HT & Hc). rewrite take_ge by (rewrite length_map; lia). rewrite length_map.
  assert (Forall (fun c => 1 <= c < 256) (map a2e t ++ drop (length t) T)) as Hr.
  { apply Forall_app. split; [apply Forall_map; eapply Forall_impl; [exact Ht|]; intros c H; by destruct (clean_facts c H) as (? & ? & ? & ? & ?)|].
    apply Forall_drop. eapply Forall_impl; [exact Hc|]. intros c [H|H]; [by destruct (clean_facts c H) as (? & ? & ? & ? & ?)|by destruct (residue_facts c H) as (? & ? & ?)]. }
  assert (map e2a (map a2e t ++ drop (length t) T) = t ++ map e2a (drop (length t) T)) as Hmap.
  { rewrite map_app. f_equal. rewrite map_map. clear -Ht. induction Ht as [|c t H Ht IH]; [done|]. cbn [map]. rewrite IH. f_equal. by destruct (clean_facts c H) as (? & ? & ? & ? & ?). }
  assert (Forall (fun c => c ∈ residue) (map e2a (drop (length t) T))) as Hres.
  { apply Forall_map, Forall_drop. eapply Forall_impl; [exact Hc|]. intros c [H|H]; [by destruct (clean_facts c H) as (? & ? & ? & ? & ?)|by destruct (residue_facts c H) as (? & ? & ?)]. }
  set (U := t ++ map e2a (drop (length t) T)) in *.
  assert (length U < 160)%nat as HU by (unfold U; rewrite length_app, length_map, length_drop; lia).
  assert (length (map a2e t ++ drop (length t) T) = length U) as HlU by (unfold U; rewrite !length_app, !length_map; done).
  exists (U ++ 0 :: replicate (159 - length U) 0). split; [|split].
  - assert (map a2e t ++ drop (length t) (T ++ 0 :: replicate (159 - length T) 0) = (map a2e t ++ drop (length t) T) ++ 0 :: replicate (159 - length U) 0) as ->.
    { rewrite drop_app, <- app_assoc. f_equal. f_equal. destruct (decide (length t <= length T)%nat) as [Hle|Hgt].
      - replace (length t - length T)%nat with 0%nat by lia. rewrite drop_0. do 2 f_equal. unfold U. rewrite length_app, length_map, length_drop. lia.
      - change (0 :: replicate (159 - length T) 0) with (replicate (S (159 - length T)) 0). change (0 :: replicate (159 - length U) 0) with (replicate (S (159 - length U)) 0).
        rewrite drop_replicate. f_equal. unfold U. rewrite length_app, length_map, length_drop. lia. }
    unfold ebcdic2ascii. rewrite translate_to_nul; [by rewrite Hmap|done|done|]. unfold lenZ. lia.
  - exists U. split; [done|]. split; [done|]. unfold U. apply Forall_app. split; [eapply Forall_impl; [exact Ht|by left]|eapply Forall_impl; [exact Hres|by right]].
  - unfold atoi, value. rewrite take_ge by (rewrite length_app; cbn; rewrite length_replicate; lia). unfold U. rewrite <- app_assoc. apply atoi_stops.
    + eapply Forall_impl; [exact Ht|]. intros c H. by destruct (clean_facts c H) as (? & ? & ? & ? & ?).
    + intros c Hh. destruct (map e2a (drop (length t) T)) as [|x l]; cbn in Hh; [by injection Hh as <-|]. injection Hh as <-. apply Forall_inv in Hres. by destruct (residue_facts x) as (? & ? & ?).
Qed.

(** ** Messages *)

Definition shown (str : list Z) : list Z := map a2e str.

Definition message (str : list Z) : Prop := (length str < 159)%nat /\ Forall (fun c => 1 <= c < 256) str.

Lemma wto_message str c : message str -> (forall l, write_ok l = true) -> wto str c = Ret (Console (written c ++ [shown str]) (con_sch c) (dasd_sch c)).
Proof.
  intros [Hl Hs] Hok. unfold wto.
  assert (take 159 (take 160 (str ++ replicate 160 0)) ++ [0] = str ++ 0 :: replicate (159 - length str) 0) as ->.
  { rewrite take_take, Nat.min_l by lia. rewrite take_app, take_ge by lia. rewrite <- app_assoc. f_equal. rewrite take_replicate, Nat.min_l by lia.
    change [0] with (replicate 1 0). rewrite <- replicate_add. change (0 :: replicate (159 - length str) 0) with (replicate (S (159 - length str)) 0). f_equal. lia. }
  unfold ascii2ebcdic. rewrite translate_to_nul; [|done|done|unfold lenZ; lia]. cbn [mbind outcome_bind].
  rewrite (proj2 (Z.ltb_ge 160 (lenZ str))) by (unfold lenZ; lia). rewrite Hok.
  replace (length str) with (length (map a2e str)) at 1 by apply length_map. by rewrite take_app_length.
Qed.

Lemma messages : message ask_device /\ message invalid_number /\ message device_found /\ message need_dasd.
Proof. split_and!; (split; [apply Nat.ltb_lt; by vm_compute|apply (bool_decide_unpack _); by vm_compute]). Qed.

Lemma chosen_of (texts : list (list Z)) (inp : list Z) (c : console) :
  (forall l, write_ok l = true) -> Forall typed texts -> left_over inp ->
  ('(r, c') ← choose (map (map a2e) texts) inp c; Ret (match r with Some (_, lines) => Some (dasd_sch c', length lines) | None => None end, written c')) =
    ('(r, ms) ← dialogue_of (map value texts); Ret (r, written c ++ map shown ms)).
Proof.
  intros Hok Ht. destruct messages as (Ha & Hi & Hf & Hn). revert inp c. induction Ht as [|t texts Htt Ht IH]; intros inp c Hinp.
  { cbn [map choose dialogue_of]. unfold wtor. by rewrite (wto_message _ _ Ha Hok). }
  cbn [map choose dialogue_of]. unfold wtor. rewrite (wto_message _ _ Ha Hok). cbn [mbind outcome_bind].
  destruct (answer_read t inp Htt Hinp) as (inp' & -> & Hinp' & Hv). cbn [mbind outcome_bind]. rewrite Hv. unfold reply_of.
  destruct (find_devnum (value t)) as [sch| |]; cbn [mbind outcome_bind]; [|done..].
  destruct ((sch <? 0x10000) || (0x1ffff <? sch)) eqn:Er.
  { rewrite (wto_message _ _ Hi Hok). cbn [mbind outcome_bind written con_sch dasd_sch]. rewrite IH by done.
    destruct (dialogue_of (map value texts)) as [[r ms]| |]; cbn [mbind outcome_bind written]; [|done..]. by rewrite <- !app_assoc. }
  rewrite (wto_message _ _ Hf Hok). cbn [mbind outcome_bind written con_sch dasd_sch].
  destruct (dev_dasd sch) as [[]| |]; cbn [mbind outcome_bind]; [| |done..].
  - cbn [written dasd_sch]. rewrite !length_map. by rewrite <- app_assoc.
  - rewrite (wto_message _ _ Hn Hok). cbn [mbind outcome_bind written con_sch dasd_sch]. rewrite IH by done.
    destruct (dialogue_of (map value texts)) as [[r ms]| |]; cbn [mbind outcome_bind written]; [|done..]. by rewrite <- !app_assoc.
Qed.

(** C26: The installer's dialogue, on answers of hexadecimal digits other than B, C and D: whatever shorter or longer answers came
    before, it takes the first number typed whose device - on the first subchannel with that number - is a 3390 model 3 it can use,
    has then read no further answer, and has shown, for each number before it, what is wrong with it; it stops at a number of more
    than four digits, and at a device that cannot be enabled or does not identify itself.  [inp], which the code does not
    initialise (loader_c.c:265), holds zeros at first, or such characters as earlier answers leave and a NUL behind them: anything
    else there would be read behind the first number. *)
Theorem first_disk_chosen (texts : list (list Z)) (inp : list Z) (c : console) :
  (forall l, write_ok l = true) -> Forall typed texts -> left_over inp ->
  exists o, dialogue (map number texts) o /\
    ('(r, c') ← choose (map (map a2e) texts) inp c; Ret (match r with Some (_, lines) => Some (dasd_sch c', length lines) | None => None end, written c')) =
      ('(r, ms) ← o; Ret (r, written c ++ map shown ms)).
Proof.
  intros Hok Ht Hinp. exists (dialogue_of (map value texts)). split; [|by apply chosen_of].
  assert (map value texts = map number texts) as ->; [|apply dialogue_of_spec].
  clear -Ht. induction Ht as [|t texts [_ Ht] _ IH]; [done|]. cbn [map]. by rewrite IH, value_number.
Qed.
End hardware.

(** * A machine *)

(** a console at 9, a tape at 181 and a disk at 191 *)
Definition sample_sch (sch : Z) : option (bool * Z) :=
  if sch =? 0x10000 then Some (true, 0x009) else if sch =? 0x10001 then Some (false, 0x191) else if sch =? 0x10002 then Some (true, 0x181)
  else if sch =? 0x10005 then Some (true, 0x191) else if sch =? 0x10006 then Some (true, 0x19d) else None.

Definition sample_sense (sch : Z) : option senseid :=
  Some (if (sch =? 0x10005) || (sch =? 0x10006) then SenseId 0x3990 0xC2 0x3390 0x0A else SenseId 0x3480 0 0x3480 0).

Definition typed_ (s : string) : list Z := map a2e (zs s).
Abbreviation on_sample f := (f sample_sch (fun _ => true) sample_sense (fun _ => true)).

Definition no_console : console := Console [] 0 0.

Lemma zeros_left_over : left_over (replicate 160 0).
Proof. exists []. split; [done|]. split; [cbn; lia|apply Forall_nil_2]. Qed.

Lemma first_disk_chosen_witness : exists o, dialogue sample_sch (fun _ => true) sample_sense (map number (map zs ["1234"; "181"; "191"]%string)) o /\
  ('(r, c') ← on_sample choose (map (map a2e) (map zs ["1234"; "181"; "191"]%string)) (replicate 160 0) no_console;
   Ret (match r with Some (_, lines) => Some (dasd_sch c', length lines) | None => None end, written c')) =
    ('(r, ms) ← o; Ret (r, map shown ms)).
Proof.
  apply (first_disk_chosen sample_sch (fun _ => true) sample_sense (fun _ => true) (map zs ["1234"; "181"; "191"]%string) (replicate 160 0) no_console (fun _ => eq_refl)).
  - apply (bool_decide_unpack _). vm_compute. exact I.
  - exact zeros_left_over.
Defined.

Example chosen_sample :
  ('(r, c') ← on_sample choose (map (map a2e) (map zs ["1234"; "181"; "191"]%string)) (replicate 160 0) no_console;
   Ret (match r with Some (_, lines) => Some (dasd_sch c', length lines) | None => None end, written c')) =
    Ret (Some (0x10005, 0%nat), map shown [ask_device; invalid_number; ask_device; device_found; need_dasd; ask_device; device_found]).
Proof. vm_compute. reflexivity. Qed.

(** after two wrong numbers, the first with a C in the third place, 19 is read as 19d: the C came back as a small d *)
Example third_answer : 
  match on_sample choose (map typed_ ["11C"; "2"; "19"]%string) (replicate 160 0) no_console with Ret (Some _, c) => dasd_sch c | _ => 0 end = 0x10006.
Proof. vm_compute. reflexivity. Qed.

(** what the stack holds before the first answer is translated with it: 19, with an EBCDIC 1 behind it, is 191 *)
Example first_answer : 
  match on_sample choose [typed_ "19"] ([0; 0; 0xf1] ++ replicate 157 0) no_console with Ret (Some _, c) => dasd_sch c | _ => 0 end = 0x10005.
Proof. vm_compute. reflexivity. Qed.

(** a number of more than four digits stops the installer *)
Example five_digits : on_sample choose [typed_ "12345"] (replicate 160 0) no_console = Stopped.
Proof. vm_compute. reflexivity. Qed.

(** the whole, with the volume left as it is *)
Example installer_talks :
  match on_sample load_nucleus (map typed_ ["191"; "N"]%string) (replicate 160 0) with Ret (r, c) => (r, con_sch c, length (written c)) | _ => (None, 0, 0%nat) end =
    (Some 0x10005, 0x10000, 5%nat).
Proof. vm_compute. reflexivity. Qed.
